(* ===== verification/_CoqProject ===== *)
-Q . S2P
Prelude.v
Base64.v
Loops.v
Sdk.v
SdkRef.v
Core.v
Market.v
OracleBallot.v
OracleStore.v
OracleEnd.v
OracleInv.v
Treasury.v
App.v
Vesting.v
GenAccounts.v
Ante.v
FeeUtils.v
WasmTypes.v
WasmMsgs.v
Wasm.v
WasmFacts.v
WasmExample.v
Queries.v
WasmQuery.v
GasStore.v
Legacy.v
LegacyAccounts.v
LegacyApp.v
KeyReplacement.v
AppExport.v
SigVerify.v
Snapshot.v
ExportUtil.v
Derivatives.v
Holdings.v
Dex.v
Compounders.v
Deposits.v
Pools.v
Lending.v
Ink.v
Aperture.v
Generic.v
Export.v
