(* ===== verification/Prelude.v ===== *)
(** * Terra core and its genesis exporter: a verification development

    The repository is the Terra blockchain ([src/x], [src/custom], [src/app]), a
    Cosmos SDK application in Go, together with the exporter that turns its state
    into the balances of a new genesis ([src/app/export]).  This library models
    the program shallowly: a Go function is a Rocq function with the source's
    name, a struct is a record, and the theorems are about these definitions.

    ** The program

    Validators vote on the price of Luna ([x/oracle]); the market swaps Luna and
    the Terra currencies at these prices over a virtual pool ([x/market]); the
    treasury taxes transfers, collects the seigniorage of the swaps and sets the
    tax rate and the reward weight every epoch ([x/treasury]); the ante handler
    charges the tax and limits the free oracle transactions ([custom/auth/ante]),
    and the client estimates the fee ([custom/auth/client/utils]); accounts vest
    along schedules ([x/vesting]).  Contracts are stored and run by [x/wasm]: they
    answer with messages, which are parsed, taxed and handled like those of
    users, and get replies.  The application wires the keepers and forks at
    a height ([app/app.go]).  The exporter collects what every address holds, from
    the bank, from staking and from the contracts, resolves derivatives of Luna to
    Luna, drops the contracts and audits the result.

    ** Conventions

    - Results: a function returns a value, returns an error or panics ([res]);
      a handler also threads the state of the stores ([st]), which an error does
      not roll back.  [x ← c; k] is the sequence; [must] is [panic(err)].
    - Numbers: [sdk.Int] and [sdk.Dec] are integers ([Z]) with the overflow
      panics of the SDK; a decimal is its value times [10^18].  64-bit integers
      are [Z] with the wrap-around of [to_int64] and [to_uint64].
    - Maps: a Go map and a store are [gmap]s.  Go leaves the order of [range]
      open: [GoRange] is an arbitrary order for every map at every site, so what
      is proved holds for all orders.
    - The SDK, Tendermint, IBC, the JSON library and the contracts are not part
      of the repository.  They are arguments: classes of operations ([SdkMath],
      [SdkCoins], [BankKeeper], [Bech32], ...) with their documented behaviour in
      classes of laws ([SdkMathLaws], ...), or plain functions for what a
      contract or a decoder answers.  [SdkRef] has an instance of each, so the
      laws can be satisfied, and the module [...Example] at the end of a file
      applies its theorems to concrete inputs.
    - Interfaces between modules are classes as well: the market sees the oracle
      as [OracleKeeper], the ante handler sees the treasury as [TreasuryKeeper];
      [App] and [Ante] give the instances made of the other components.

    ** The files

    - [Prelude], [Loops]: results, state, sums, machine integers, loops over
      lists and maps, and the tactic [go_inv] that inverts a run.
    - [Base64]: the encoding of Go's library, with its round trip.
    - [Sdk], [SdkRef]: the operations of the SDK, their laws, and instances.
    - [Core]: constants and helpers of [src/types].
    - [Market]: [x/market]; [ComputeSwap], [ApplySwapToPool], the swap messages,
      the pool, parameters and genesis.
    - [OracleBallot]: ballots, the weighted median and the tally
      ([x/oracle/types/ballot.go], [tally.go]).
    - [OracleStore]: the keeper, messages, hashes, keys, parameters and genesis
      of [x/oracle].
    - [OracleEnd]: the end blocker: organising ballots, rewards, misses, slashing
      and the whitelist.
    - [OracleInv]: what is well formed in the store of [x/oracle], and that messages,
      parameter changes and the end of a block keep it so.
    - [Treasury]: [x/treasury]; policies, indicators, seigniorage, tax caps, the
      end blocker, parameters and genesis.
    - [App]: [BeginBlocker] with the fork of [app/app.go], on the composed state.
    - [Vesting]: [x/vesting/types].
    - [GenAccounts]: the accounts of a new genesis: the command
      [add-genesis-account] and the genesis of [testnet] ([cmd/terrad]).
    - [Ante]: the tax and spam decorators of [custom/auth/ante].
    - [SigVerify]: the signature decorators and the chain of decorators of
      [custom/auth/ante].
    - [FeeUtils]: the client's fee estimate and the treasury querier it calls.
    - [Snapshot]: the exporter's balance maps and blacklists
      ([app/export/util/types.go]).
    - [ExportUtil]: contract namespaces, token holders, summaries and the cache
      ([app/export/util/export_util.go]).
    - [Derivatives]: nexus, lido, prism, steak and LunaX.
    - [Holdings]: what the exporters of the protocols share: amounts that may be
      nil, maps of holdings, crediting and splitting, and paged queries.
    - [Dex]: liquidity of terraswap, astroport, loop, tfm and terrafloki.
    - [Compounders]: LP tokens in spectrum, apollo, mars, mirror and kinetic.
    - [Deposits]: alice, anchor, angel, glow, kujira, nebula, oneplanet,
      randomearth, starflet, starterra, suberra and the floki refunds.
    - [Pools]: pylon, and the pools, Stake+ and vaults of stader.
    - [Lending]: edge, kinetic, mars, mirror and whitewhale.
    - [Ink]: ink, on a heap, because decoding one page of parties reuses the
      arrays of the page before.
    - [Aperture]: aperture, whose workers run concurrently: a worker's step is a
      function, and a run is any schedule of the workers.
    - [Generic]: vesting contracts, CW3 wallets, known contracts and native
      balances ([app/export/generic], [app/export/native]).
    - [Export]: the pipeline and the final audit
      ([app/export/contract_export.go]).
    - [WasmTypes]: costs, events, coins, addresses, keys and decompression of
      [x/wasm/types] and [x/wasm/keeper/ioutil.go].
    - [WasmMsgs]: the messages of [x/wasm] and the parsers of contract messages,
      with those of [custom/*/wasm] and [x/market/wasm].
    - [Wasm]: the keeper, connector, message server and genesis of [x/wasm], on
      the state [wstate]: stores, gas meter and events.
    - [WasmFacts], [WasmExample]: the theorems about them, and contracts that
      call themselves, pay and fail.
    - [Queries]: the queries of clients to [x/oracle], [x/market] and [x/treasury]:
      the services ([keeper/querier.go]) and the legacy queriers
      ([keeper/legacy_querier.go]).
    - [WasmQuery]: the queries of clients to contracts, and of contracts to
      contracts, services and modules ([x/wasm/types/query_binding.go],
      [x/wasm/keeper], [custom/*/wasm], [x/*/wasm]).
    - [GasStore]: the store that charges contracts for reads, writes and iteration
      ([x/wasm/types/gas_store.go]).
    - [Legacy]: the genesis of the previous version of the modules and its
      migration ([x/*/legacy]).
    - [LegacyAccounts]: the migration of accounts, grants and proposals
      ([custom/*/legacy]).
    - [LegacyApp]: the migration of the whole genesis and the command that runs it
      ([app/legacy]), with its specification module by module.
    - [KeyReplacement]: the replacement of validator keys in the migrated genesis
      ([app/legacy/pubkey_replacement.go]).
    - [AppExport]: the preparation for a restart at height zero and the export of
      the state ([app/export.go]), on the keepers of the SDK and the modelled
      oracle and market.

    ** What the theorems show

    - Money: a swap conserves coins and mints the value the oracle prices give,
      the pool recovers; seigniorage is settled without loss; rewards stay
      within the pool if the vote period is within the distribution window; the
      tax that is charged is the tax that is recorded.
    - Agreement: votes reveal what was committed, the weighted median (of half
      of the power, rounded down) and the tally follow their specification, do
      not depend on the order of Go maps, and misses lead to slashing at the end
      of a window.
    - Policies: rates stay within the policies' bounds or, when governance has
      moved these, are brought back within them; indicators are the sums and
      averages of their windows, epochs are closed.
    - Round trips and keys: genesis is exported and imported without loss, but
      for an oracle without Tobin taxes, which gets those of the whitelist; store
      keys and contract namespaces do not collide.
    - Admission: every transaction that passes pays its tax and carries the
      signatures of its signers, none passes twice, the client's estimate is
      accepted, free transactions are limited to one per validator.
    - Export: merging keeps what everyone holds, blacklists remove exactly what
      they name, derivatives are converted at their rates and none is left, wallets
      are split without creating money, and a completed export lists no contract.
    - Protocols: refunds stay within the pools up to the rounding of shares,
      deposits within what the contracts hold, vaults give their LP tokens to
      their users, paged queries are read to the end, and concurrent workers
      give the same holdings in every order and do not deadlock.
    - Contracts: running them terminates, the history of contracts and codes is
      kept whatever they do, they speak only for themselves and pay tax, their
      submessages are isolated and stay within their gas.
    - Queries: the legacy queriers answer what the services answer to requests
      with a valid validator, the reported indicators are averages with the
      running epoch, a contract is told what a swap pays; queries write nothing,
      are charged to the contract that asks, and a contract that fails in a
      client's query is an error and no crash.
    - New genesis: accounts that are added keep the supply the sum of the balances,
      and vest by the intervals that were asked for.
    - Upgrades: the migration of the genesis in place is the migration of each
      module on its own; it keeps accounts, votes and contracts, does not depend
      on the order of maps, fixes the reward weight at one until governance
      changes its policy, and lets every vesting account vest completely; a
      restart at height zero forgets the prices and nothing else of the oracle.
    - Well-formedness: the store of the oracle stays well typed along every run.
    - Failures: the theorems of kind "error" show panics and losses that the code
      has; an export, for instance, only completes if its Luna does not match the
      supply.

    ** Bounds and fuel

    Loops over lists and maps are structural.  The loops that are not take fuel,
    with theorems that a stated fuel gives the result: the indicator windows of
    the treasury (the length of the window), the pages of contract queries (one
    step more than there are records, or than there are pages), and the nesting of
    contracts, whose calls and replies each cost 40,000 gas of at most 100,000,000,
    so that 2,501 levels are enough.  Hypotheses on sizes are
    stated in the theorems: amounts below the bounds at which the SDK panics, and
    weights of less than [10^18] where decimals are divided by them.

    ** Not modelled

    - What contracts store and answer: it is an argument of the exporters of the
      protocols, and these are arguments of the pipeline in [Export], whose
      theorems hold for any of them.
    - The start-up of the node, other command line and REST clients, codecs, generated
      code, simulations and module registration: they call the SDK.
    - The wrappers of SDK modules in [custom], which only register them.
    - The virtual machine of contracts, which is a parameter of [Wasm] with laws
      for the gas it charges and for queries, which only read; and the encoding
      of queries and answers.
    - Logging and telemetry, and outside [x/wasm] also events and gas, which do not
      change what is stored. *)

From Stdlib Require Import ZArith Lia Bool Permutation.
From stdpp Require Import base gmap strings list sorting fin_maps.

#[global] Open Scope Z_scope.

(** ** Go results

    A Go function of the repository returns a value, returns an error, or
    panics.  Errors are identified by the registered error they wrap
    ([sdkerrors.Wrap] keeps the root error), or by their text when they are
    made with [fmt.Errorf] / [errors.New]. *)

Inductive error : Type :=
| Registered (codespace name : string)
| Errorf (msg : string).

Inductive res (A : Type) : Type :=
| Ok (a : A)
| Err (e : error)
| Panic.

Arguments Ok {_} _.
Arguments Err {_} _.
Arguments Panic {_}.

#[global] Instance error_eq_dec : EqDecision error.
Proof. solve_decision. Defined.

#[global] Instance res_eq_dec `{EqDecision A} : EqDecision (res A).
Proof. solve_decision. Defined.

#[global] Instance res_ret : MRet res := fun _ => Ok.

#[global] Instance res_bind : MBind res := fun _ _ k c =>
  match c with
  | Ok a => k a
  | Err e => Err e
  | Panic => Panic
  end.

(** [if err != nil { return ..., wrap(err) }]: replace the error. *)
Definition wrap_err {A} (e : error) (c : res A) : res A :=
  match c with
  | Err _ => Err e
  | _ => c
  end.

(** An early return with an error when the condition holds. *)
Definition fail_if (b : bool) (e : error) : res unit :=
  if b then Err e else Ok tt.

(** A panic when the condition holds. *)
Definition panic_if (b : bool) : res unit :=
  if b then Panic else Ok tt.

(** [if err != nil { panic(err) }]. *)
Definition must {A} (c : res A) : res A :=
  match c with
  | Ok a => Ok a
  | _ => Panic
  end.

(** ** Stateful code

    A handler reads and writes a state [S] (the stores it can reach through
    its keepers) and returns a Go result; the state reached before an error
    is kept, since it is the caller that decides whether to roll back. *)

Definition st (S A : Type) : Type := S -> res A * S.

#[global] Instance st_ret {S} : MRet (st S) := fun _ a s => (Ok a, s).

#[global] Instance st_bind {S} : MBind (st S) := fun _ _ k c s =>
  match c s with
  | (Ok a, s') => k a s'
  | (Err e, s') => (Err e, s')
  | (Panic, s') => (Panic, s')
  end.

Definition lift {S A} (c : res A) : st S A := fun s => (c, s).
Definition gets {S A} (f : S -> A) : st S A := fun s => (Ok (f s), s).
Definition modify {S} (f : S -> S) : st S unit := fun s => (Ok tt, f s).

(** ** Loops

    [for _, x := range l { acc = body(acc, x) }] over a slice. *)

Fixpoint foldM {M : Type -> Type} `{MRet M, MBind M} {A B}
    (f : B -> A -> M B) (l : list A) (b : B) : M B :=
  match l with
  | [] => mret b
  | x :: l' => b' ← f b x; foldM f l' b'
  end.

(** The same loop when the body only has effects. *)
Definition iterM {M : Type -> Type} `{MRet M, MBind M} {A}
    (f : A -> M unit) (l : list A) : M unit :=
  foldM (fun _ x => f x) l tt.

(** ** Go maps

    [range] over a Go map visits every entry once, in an order the language
    does not specify: the model takes the visiting order as an argument. *)
Definition range_of {V} (m : gmap string V) (order : list (string * V)) : Prop :=
  order ≡ₚ map_to_list m.

(** ** Machine integers *)

Definition two63 : Z := 2 ^ 63.
Definition two64 : Z := 2 ^ 64.

(** Conversions [int64(x)] and [uint64(x)], and wrap-around of 64-bit
    arithmetic. *)
Definition to_int64 (z : Z) : Z := (z + two63) mod two64 - two63.
Definition to_uint64 (z : Z) : Z := z mod two64.

Definition is_int64 (z : Z) : Prop := - two63 <= z < two63.
Definition is_uint64 (z : Z) : Prop := 0 <= z < two64.

(** [big.Int.BitLen]. *)
Definition BitLen (z : Z) : Z := if z =? 0 then 0 else Z.log2 (Z.abs z) + 1.

(** ** Sums *)

Definition sumZ {A} (f : A -> Z) (l : list A) : Z := foldr (fun x s => f x + s) 0 l.

#[global] Arguments sumZ {A} f l : simpl never.

(** ** Inversion of monadic equations *)

Lemma bind_Ok {A B} (c : res A) (k : A -> res B) (b : B) :
  (x ← c; k x) = Ok b <-> exists a, c = Ok a /\ k a = Ok b.
Proof. destruct c; cbn; split; naive_solver. Qed.

Lemma st_bind_Ok {S A B} (c : st S A) (k : A -> st S B) (b : B) (s s' : S) :
  (x ← c; k x) s = (Ok b, s') <-> exists a s1, c s = (Ok a, s1) /\ k a s1 = (Ok b, s').
Proof.
  unfold mbind, st_bind. destruct (c s) as [[a|e|] s1]; split; naive_solver.
Qed.

(** Running a bind whose first part is known to succeed. *)
Lemma st_bind_step {S A B} (c : st S A) (k : A -> st S B) (s s1 : S) (a : A) :
  c s = (Ok a, s1) -> (c ≫= k) s = k a s1.
Proof. intros H. unfold mbind, st_bind. by rewrite H. Qed.

Lemma lift_Ok {S A} (c : res A) (a : A) (s s' : S) :
  lift c s = (Ok a, s') <-> c = Ok a /\ s' = s.
Proof. unfold lift. split; naive_solver. Qed.

Lemma gets_Ok {S A} (f : S -> A) (a : A) (s s' : S) :
  gets f s = (Ok a, s') <-> a = f s /\ s' = s.
Proof. unfold gets. split; naive_solver. Qed.

Lemma modify_Ok {S} (f : S -> S) (u : unit) (s s' : S) :
  modify f s = (Ok u, s') <-> s' = f s.
Proof. unfold modify. destruct u. split; naive_solver. Qed.

Lemma fail_if_Ok (b : bool) (e : error) (u : unit) : fail_if b e = Ok u <-> b = false.
Proof. destruct b, u; cbn; split; naive_solver. Qed.

Lemma panic_if_Ok (b : bool) (u : unit) : panic_if b = Ok u <-> b = false.
Proof. destruct b, u; cbn; split; naive_solver. Qed.

Lemma wrap_err_Ok {A} (e : error) (c : res A) (a : A) : wrap_err e c = Ok a <-> c = Ok a.
Proof. destruct c; cbn; split; naive_solver. Qed.

Lemma must_Ok {A} (c : res A) (a : A) : must c = Ok a <-> c = Ok a.
Proof. destruct c; cbn; split; naive_solver. Qed.

(** Inverts every monadic equation of the context whose result is [Ok]. *)
Ltac go_step :=
  match goal with
  | H : (mbind _ _) = Ok _ |- _ =>
      let a := fresh "v" in let H1 := fresh "Hv" in
      apply bind_Ok in H as (a & H1 & H)
  | H : (mbind _ _) _ = (Ok _, _) |- _ =>
      let a := fresh "v" in let s := fresh "s" in let H1 := fresh "Hv" in
      apply st_bind_Ok in H as (a & s & H1 & H)
  | H : lift _ _ = (Ok _, _) |- _ =>
      let H2 := fresh "Hs" in apply lift_Ok in H as [H H2]
  | H : gets _ _ = (Ok _, _) |- _ =>
      let H2 := fresh "Hs" in apply gets_Ok in H as [H H2]
  | H : modify _ _ = (Ok _, _) |- _ => apply modify_Ok in H
  | H : fail_if _ _ = Ok _ |- _ => apply fail_if_Ok in H
  | H : panic_if _ = Ok _ |- _ => apply panic_if_Ok in H
  | H : wrap_err _ _ = Ok _ |- _ => apply (proj1 (wrap_err_Ok _ _ _)) in H
  | H : (match ?p with pair _ _ => _ end) = Ok _ |- _ =>
      is_var p; let a := fresh "x" in let b := fresh "y" in destruct p as [a b]
  | H : (match ?p with pair _ _ => _ end) _ = (Ok _, _) |- _ =>
      is_var p; let a := fresh "x" in let b := fresh "y" in destruct p as [a b]
  | H : must _ = Ok _ |- _ => apply (proj1 (must_Ok _ _)) in H
  | H : mret _ = Ok _ |- _ => injection H as H
  | H : mret _ _ = (Ok _, _) |- _ => injection H as H
  | H : Ok _ = Ok _ |- _ => injection H as H
  | H : (Ok _, _) = (Ok _, _) |- _ => injection H as H
  | H : Err _ = Ok _ |- _ => discriminate H
  | H : Panic = Ok _ |- _ => discriminate H
  | H : (Err _, _) = (Ok _, _) |- _ => discriminate H
  | H : (Panic, _) = (Ok _, _) |- _ => discriminate H
  | H : _ /\ _ |- _ => destruct H
  end.

Ltac go_inv := repeat (go_step; try subst).

(** ** Generic lemmas *)

Lemma sumZ_cons {A} (f : A -> Z) (x : A) (l : list A) : sumZ f (x :: l) = f x + sumZ f l.
Proof. done. Qed.

Lemma sumZ_nil {A} (f : A -> Z) : sumZ f [] = 0.
Proof. done. Qed.

Create HintDb go.
Create Rewrite HintDb go.
#[export] Hint Rewrite @sumZ_nil @sumZ_cons : go.

Lemma sumZ_app {A} (f : A -> Z) (l1 l2 : list A) :
  sumZ f (l1 ++ l2) = sumZ f l1 + sumZ f l2.
Proof.
  induction l1 as [|x l IH]; [done|].
  rewrite <- app_comm_cons, !sumZ_cons. lia.
Qed.

Lemma sumZ_perm {A} (f : A -> Z) (l1 l2 : list A) :
  l1 ≡ₚ l2 -> sumZ f l1 = sumZ f l2.
Proof. induction 1; autorewrite with go; lia. Qed.

#[global] Instance sumZ_Permutation {A} (f : A -> Z) : Proper ((≡ₚ) ==> eq) (sumZ f).
Proof. intros l1 l2. apply sumZ_perm. Qed.

Lemma sumZ_nonneg {A} (f : A -> Z) (l : list A) :
  Forall (fun x => 0 <= f x) l -> 0 <= sumZ f l.
Proof. induction 1; autorewrite with go; lia. Qed.

Lemma sumZ_ext {A} (f g : A -> Z) (l : list A) :
  Forall (fun x => f x = g x) l -> sumZ f l = sumZ g l.
Proof. induction 1; autorewrite with go; lia. Qed.

Lemma to_int64_id (z : Z) : is_int64 z -> to_int64 z = z.
Proof.
  unfold is_int64, to_int64. intros H.
  rewrite Z.mod_small; [lia|]. unfold two63, two64 in *. lia.
Qed.

Lemma to_uint64_id (z : Z) : is_uint64 z -> to_uint64 z = z.
Proof. unfold is_uint64, to_uint64. intros H. by apply Z.mod_small. Qed.

Lemma to_int64_range (z : Z) : is_int64 (to_int64 z).
Proof.
  unfold is_int64, to_int64.
  pose proof (Z.mod_pos_bound (z + two63) two64 ltac:(done)).
  assert (two64 = 2 * two63) by done. lia.
Qed.

Lemma BitLen_le (z k : Z) : 0 <= k -> BitLen z <= k -> Z.abs z < 2 ^ k.
Proof.
  unfold BitLen. intros Hk. destruct (Z.eqb_spec z 0) as [->|Hz]; intros H.
  - cbn. lia.
  - apply Z.log2_lt_pow2; lia.
Qed.

#[export] Hint Rewrite @sumZ_app : go.
