(* ===== verification/Base64.v ===== *)
(** * Standard base64, as [encoding/base64] of Go has it

    Signatures are printed in it ([custom/auth/ante]) and contracts store
    addresses in it ([app/export/util]).  Decoding skips line breaks, wants
    padding and ignores the bits the padding leaves over. *)

From Stdlib Require Import ZArith Lia Bool Ascii String.
From stdpp Require Import base strings list.
Local Open Scope Z_scope.

Definition base64_alphabet : string := "ABCDEFGHIJKLMNOPQRSTUVWXYZabcdefghijklmnopqrstuvwxyz0123456789+/".

Definition base64_digit (n : Z) : ascii := default "="%char (String.get (Z.to_nat n) base64_alphabet).

Definition byte_value (c : ascii) : Z := Z.of_N (N_of_ascii c).

(** [base64.StdEncoding.EncodeToString]. *)
Fixpoint base64_EncodeToString (s : string) : string :=
  match s with
  | String a (String b (String c s')) =>
      let n := byte_value a * 65536 + byte_value b * 256 + byte_value c in
      String (base64_digit (Z.shiftr n 18)) (String (base64_digit (Z.land (Z.shiftr n 12) 63))
        (String (base64_digit (Z.land (Z.shiftr n 6) 63)) (String (base64_digit (Z.land n 63))
          (base64_EncodeToString s'))))
  | String a (String b "") =>
      let n := byte_value a * 65536 + byte_value b * 256 in
      String (base64_digit (Z.shiftr n 18)) (String (base64_digit (Z.land (Z.shiftr n 12) 63))
        (String (base64_digit (Z.land (Z.shiftr n 6) 63)) "="))
  | String a "" =>
      let n := byte_value a * 65536 in
      String (base64_digit (Z.shiftr n 18)) (String (base64_digit (Z.land (Z.shiftr n 12) 63)) "==")
  | "" => ""
  end.

(** [base64.StdEncoding.DecodeString]: [decodeMap], the skipping of line breaks,
    and the quanta of four characters. *)
Definition base64_value (c : ascii) : option Z := Z.of_nat <$> String.index 0 (String c "") base64_alphabet.

Definition byte_at (n shift : Z) : ascii := ascii_of_N (Z.to_N (Z.land (Z.shiftr n shift) 255)).

Fixpoint skip_breaks (s : string) : string :=
  match s with
  | "" => ""
  | String c s' =>
      if Ascii.eqb c "010"%char || Ascii.eqb c "013"%char then skip_breaks s' else String c (skip_breaks s')
  end.

(** What has been decoded, and whether there was no error: an error stops at the
    quantum it is in, but characters after the padding only make the text wrong. *)
Fixpoint decode_quanta (s : string) : string * bool :=
  match s with
  | "" => ("", true)
  | String a (String b (String c (String d s'))) =>
      match base64_value a, base64_value b with
      | Some va, Some vb =>
          if Ascii.eqb c "="%char then
            if Ascii.eqb d "="%char then (String (byte_at (va * 262144 + vb * 4096) 16) "", String.eqb s' "")
            else ("", false)
          else
            match base64_value c with
            | Some vc =>
                let n := va * 262144 + vb * 4096 + vc * 64 in
                if Ascii.eqb d "="%char then (String (byte_at n 16) (String (byte_at n 8) ""), String.eqb s' "")
                else
                  match base64_value d with
                  | Some vd =>
                      let '(rest, ok) := decode_quanta s' in
                      (String (byte_at n 16) (String (byte_at n 8) (String (byte_at (n + vd) 0) rest)), ok)
                  | None => ("", false)
                  end
            | None => ("", false)
            end
      | _, _ => ("", false)
      end
  | _ => ("", false)
  end.

Definition base64_DecodeString (s : string) : string * bool := decode_quanta (skip_breaks s).

#[global] Arguments base64_digit : simpl never.
#[global] Arguments base64_value : simpl never.
#[global] Arguments byte_at : simpl never.

(** ** The round trip *)

Lemma byte_value_bound c : 0 <= byte_value c < 256.
Proof. unfold byte_value. pose proof (N_ascii_bounded c). lia. Qed.

(** The digits are those of the alphabet: they are read back, and are neither
    padding nor line breaks. *)
Lemma base64_digit_facts n :
  0 <= n < 64 ->
  base64_value (base64_digit n) = Some n /\ Ascii.eqb (base64_digit n) "="%char = false /\
  forall s, skip_breaks (String (base64_digit n) s) = String (base64_digit n) (skip_breaks s).
Proof.
  intros H. assert (Hn : forallb (fun k =>
    let c := base64_digit (Z.of_nat k) in
    bool_decide (base64_value c = Some (Z.of_nat k)) && negb (Ascii.eqb c "="%char) &&
    negb (Ascii.eqb c "010"%char || Ascii.eqb c "013"%char)) (seq 0 64) = true) by (vm_compute; reflexivity).
  rewrite forallb_forall in Hn. specialize (Hn (Z.to_nat n)). cbn beta zeta in Hn.
  rewrite Z2Nat.id in Hn by lia.
  assert (Hi : In (Z.to_nat n) (seq 0 64)) by (apply in_seq; lia). specialize (Hn Hi).
  apply andb_prop in Hn as [[H1%bool_decide_eq_true H2%negb_true_iff]%andb_prop H3%negb_true_iff].
  split; [done|]. split; [done|]. intros s. cbn. by rewrite H3.
Qed.

Lemma byte_at_value c n shift :
  0 <= shift -> Z.land (Z.shiftr n shift) 255 = byte_value c -> byte_at n shift = c.
Proof. intros _ H. unfold byte_at. rewrite H. unfold byte_value. by rewrite N2Z.id, ascii_N_embedding. Qed.

(** Masks and shifts as arithmetic. *)
Ltac base64_arith :=
  repeat match goal with
         | |- context [Z.land ?x 63] => change (Z.land x 63) with (Z.land x (Z.ones 6))
         | |- context [Z.land ?x 255] => change (Z.land x 255) with (Z.land x (Z.ones 8))
         end;
  rewrite ?Z.land_ones, ?Z.shiftr_div_pow2 by lia;
  change (2 ^ 0) with 1; change (2 ^ 6) with 64; change (2 ^ 8) with 256; change (2 ^ 12) with 4096;
  change (2 ^ 16) with 65536; change (2 ^ 18) with 262144; rewrite ?Z.div_1_r;
  Z.div_mod_to_equations; lia.

(** Replaces the digits of a quantum by what is known of them. *)
Ltac base64_digits :=
  repeat match goal with
         | |- context [base64_digit ?n] =>
             let H := fresh in
             assert (H : 0 <= n < 64) by base64_arith;
             let Hv := fresh "Hv" in let He := fresh "He" in let Hs := fresh "Hs" in
             destruct (base64_digit_facts n H) as (Hv & He & Hs); clear H;
             generalize dependent (base64_digit n); intros
         end.

Ltac base64_quantum :=
  base64_digits;
  repeat match goal with H : forall s, skip_breaks _ = _ |- _ => rewrite !H; clear H end;
  cbn; repeat match goal with H : base64_value _ = _ |- _ => rewrite !H; cbn; clear H end;
  repeat match goal with H : Ascii.eqb _ _ = _ |- _ => rewrite ?H; cbn; clear H end.

Lemma base64_decoded s : base64_DecodeString (base64_EncodeToString s) = (s, true).
Proof.
  unfold base64_DecodeString. remember (String.length s) as k eqn:Hk.
  revert s Hk. induction (lt_wf k) as [k _ IH]. intros s ->.
  destruct s as [|a [|b [|c s]]]; [done|..]; cbn [base64_EncodeToString]; cbv zeta;
    pose proof (byte_value_bound a); try pose proof (byte_value_bound b); try pose proof (byte_value_bound c).
  - base64_quantum. repeat f_equal; apply byte_at_value; base64_arith.
  - base64_quantum. repeat f_equal; apply byte_at_value; base64_arith.
  - base64_quantum. rewrite (IH (String.length s)) by (cbn; lia). cbn.
    repeat f_equal; apply byte_at_value; base64_arith.
Qed.

(** What is encoded is decoded: the text an address or a signature is printed
    as gives its bytes back. *)
Theorem base64_roundtrip s : base64_DecodeString (base64_EncodeToString s) = (s, true).
Proof. apply base64_decoded. Qed.
