(* ===== verification/Loops.v ===== *)
(** * Loops and Go maps

    Generic lemmas on the loops of the modules: loops whose steps only have
    effects, loops that write one component of a record, loops that rebuild or
    empty a map, and loops over Go maps, whose order is unspecified. *)

From Stdlib Require Import ZArith Lia Bool.
From stdpp Require Import base strings list gmap sorting.
From S2P Require Import Prelude.
Local Open Scope Z_scope.

(** ** Ranging over a Go map

    The order is unspecified and may differ at every statement; [range site]
    is the order taken at the statement numbered [site]. *)
Class GoRange : Type := { range : nat -> forall {V}, gmap string V -> list (string * V) }.

Class GoRangeLaws (R : GoRange) : Prop := {
  range_perm site V (m : gmap string V) : range site m ≡ₚ map_to_list m;
}.

(** ** Loops with effects *)

Lemma iterM_Ok {T} (f : T -> res unit) l u :
  iterM f l = Ok u <-> Forall (fun x => f x = Ok tt) l.
Proof.
  unfold iterM. destruct u. induction l as [|x l IH]; cbn.
  - split; [by constructor|done].
  - rewrite bind_Ok, Forall_cons. split.
    + intros ([] & Hx & Hl). split; [done|]. by apply IH.
    + intros [Hx Hl]. exists tt. split; [done|]. by apply IH.
Qed.

Lemma iterM_effect {S T} (g : T -> st S unit) (f : S -> T -> S) l s :
  (forall x s, x ∈ l -> g x s = (Ok tt, f s x)) -> iterM g l s = (Ok tt, foldl f s l).
Proof.
  unfold iterM. revert s. induction l as [|x l IH]; intros s Hg; [done|].
  cbn. unfold mbind, st_bind. rewrite Hg by left. apply IH. intros y s' Hy. apply Hg. by right.
Qed.

(** A loop that only writes one component of the state. *)
Lemma foldl_component {S X T} (get : S -> X) (set : X -> S -> S) (h : X -> T -> X) l s :
  (forall s, set (get s) s = s) -> (forall x s, get (set x s) = x) ->
  (forall x y s, set x (set y s) = set x s) ->
  foldl (fun s e => set (h (get s) e) s) s l = set (foldl h (get s) l) s.
Proof.
  intros H1 H2 H3. revert s. induction l as [|e l IH]; intros s; cbn; [by rewrite H1|].
  by rewrite IH, H2, H3.
Qed.

(** Inserting the entries of a map, in any order, builds the map. *)
Lemma foldl_insert_entries {V} (m : gmap string V) l :
  l ≡ₚ map_to_list m -> foldl (fun m e => <[e.1 := e.2]> m) ∅ l = m.
Proof.
  intros Hl. transitivity (list_to_map (rev l) : gmap string V).
  - rewrite <- (rev_involutive l) at 1. generalize (rev l). clear. intros l.
    induction l as [|[k v] l IH]; [done|]. cbn. rewrite foldl_app. cbn. by rewrite IH.
  - rewrite <- (list_to_map_to_list m). apply list_to_map_proper.
    + rewrite <- Permutation_rev, Hl. apply NoDup_fst_map_to_list.
    + by rewrite <- Permutation_rev.
Qed.

Lemma foldl_delete_all {V} (m : gmap string V) l :
  l ≡ₚ map_to_list m -> foldl (fun m e => delete e.1 m) m l = ∅.
Proof.
  intros Hl. apply map_empty. intros k.
  assert (H : forall l (m' : gmap string V), foldl (fun m (e : string * V) => delete e.1 m) m' l !! k =
                if decide (k ∈ l.*1) then None else m' !! k).
  { clear. intros l. induction l as [|[k' v] l IH]; intros m'; cbn.
    - by rewrite decide_False by apply not_elem_of_nil.
    - rewrite IH. repeat case_decide; try done; try (destruct (decide (k = k')) as [->|]);
        rewrite ?lookup_delete_eq, ?lookup_delete_ne by done; set_solver. }
  rewrite H. case_decide as Hk; [done|]. destruct (m !! k) as [v|] eqn:Hm; [|done].
  exfalso. apply Hk. rewrite Hl. apply list_elem_of_fmap. exists (k, v). split; [done|].
  by apply elem_of_map_to_list.
Qed.

(** Re-inserting the entries of a map into an empty component. *)
Lemma iterM_fill {S V T} (get : S -> gmap string V) (set : gmap string V -> S -> S)
    (tr : string * V -> T) (g : T -> st S unit) m order s :
  (forall s, set (get s) s = s) -> (forall x s, get (set x s) = x) ->
  (forall x y s, set x (set y s) = set x s) ->
  order ≡ₚ map_to_list m -> get s = ∅ ->
  (forall k v s, m !! k = Some v -> g (tr (k, v)) s = (Ok tt, set (<[k := v]> (get s)) s)) ->
  iterM g (tr <$> order) s = (Ok tt, set m s).
Proof.
  intros L1 L2 L3 Ho He Hg.
  assert (Hmap : forall l s, iterM g (tr <$> l) s = iterM (fun x => g (tr x)) l s).
  { clear. unfold iterM. intros l. induction l as [|x l IH]; intros s; [done|]. cbn.
    unfold mbind, st_bind. destruct (g (tr x) s) as [[[]| |] s']; [apply IH|done..]. }
  rewrite Hmap, (iterM_effect _ (fun s e => set (<[e.1 := e.2]> (get s)) s)).
  - rewrite (foldl_component get set (fun m e => <[e.1 := e.2]> m)) by done.
    by rewrite He, (foldl_insert_entries m).
  - intros [k v] s' Hin. rewrite Ho in Hin. apply Hg. by apply elem_of_map_to_list.
Qed.

(** ** Order independence *)

Lemma foldM_ext {X Y} (f g : Y -> X -> res Y) l acc :
  Forall (fun x => forall acc, f acc x = g acc x) l -> foldM f l acc = foldM g l acc.
Proof.
  intros H. revert acc. induction H as [|x l Hx _ IH]; intros acc; [done|].
  cbn. rewrite Hx. by destruct (g acc x); cbn.
Qed.

(** Code that panics or succeeds, but returns no error. *)
Definition no_err {T} (c : res T) : Prop := forall e, c <> Err e.

Lemma no_err_Ok {T} (x : T) : no_err (Ok x).
Proof. done. Qed.

Lemma no_err_bind {T U} (c : res T) (k : T -> res U) :
  no_err c -> (forall x, no_err (k x)) -> no_err (x ← c; k x).
Proof. intros Hc Hk e. destruct c as [x|e'|]; cbn; [apply Hk|by destruct (Hc e')|done]. Qed.

Lemma no_err_foldM {T U} (f : U -> T -> res U) l u :
  (forall u x, no_err (f u x)) -> no_err (foldM f l u).
Proof.
  intros Hf. revert u. induction l as [|x l IH]; intros u; [done|].
  cbn. apply no_err_bind; [apply Hf|intros; apply IH].
Qed.

Lemma no_err_if {T} (b : bool) (c1 c2 : res T) :
  no_err c1 -> no_err c2 -> no_err (if b then c1 else c2).
Proof. by destruct b. Qed.

#[export] Hint Resolve @no_err_Ok @no_err_bind @no_err_foldM @no_err_if : go.

(** An invariant of a loop. *)
Lemma foldM_inv {A B} (P : B -> Prop) (f : B -> A -> res B) l b r :
  (forall b x r, x ∈ l -> P b -> f b x = Ok r -> P r) -> P b -> foldM f l b = Ok r -> P r.
Proof.
  revert b. induction l as [|x l IH]; intros b Hf Hb H; cbn in H; go_inv; [done|].
  eapply IH; [|eapply Hf; [left|exact Hb|exact Hv]|exact H].
  intros b' y r' Hy. apply Hf. by right.
Qed.

Lemma sumZ_fmap {A B} (g : A -> B) (f : B -> Z) l : sumZ f (g <$> l) = sumZ (fun x => f (g x)) l.
Proof. induction l as [|x l IH]; [done|]. by rewrite fmap_cons, !sumZ_cons, IH. Qed.

Lemma sumZ_zero {A} (f : A -> Z) l : (forall x, x ∈ l -> f x = 0) -> sumZ f l = 0.
Proof.
  intros H. induction l as [|x l IH]; [done|]. rewrite sumZ_cons, H by left. rewrite IH; [done|].
  intros y Hy. apply H. by right.
Qed.

(** The only element of a list with its key. *)
Lemma sumZ_pick {A} (key : A -> string) (f : A -> Z) x l :
  NoDup (key <$> l) -> x ∈ l -> sumZ (fun y => if String.eqb (key y) (key x) then f y else 0) l = f x.
Proof.
  assert (Hz : forall l, key x ∉ key <$> l -> sumZ (fun y => if String.eqb (key y) (key x) then f y else 0) l = 0).
  { intros l'. induction l' as [|y l' IH]; intros H; [done|].
    rewrite fmap_cons, not_elem_of_cons in H. destruct H as [Hy Hl]. rewrite sumZ_cons, (IH Hl).
    by rewrite (proj2 (String.eqb_neq _ _)) by congruence. }
  induction l as [|y l IH]; intros Hnd Hx; [by apply not_elem_of_nil in Hx|].
  rewrite fmap_cons, NoDup_cons in Hnd. destruct Hnd as [Hy Hnd]. rewrite sumZ_cons.
  apply elem_of_cons in Hx as [->|Hx].
  - rewrite String.eqb_refl, Hz by done. lia.
  - rewrite IH by done. rewrite (proj2 (String.eqb_neq _ _)); [lia|].
    intros E. apply Hy. rewrite E. by apply list_elem_of_fmap_2.
Qed.

(** A loop whose steps each add something to a quantity. *)
Lemma foldM_sum {A B} (q : B -> Z) (g : A -> Z) (f : B -> A -> res B) l b r :
  (forall b x r, f b x = Ok r -> q r = q b + g x) -> foldM f l b = Ok r -> q r = q b + sumZ g l.
Proof.
  intros Hf. revert b. induction l as [|x l IH]; intros b H; cbn in H; go_inv.
  - rewrite sumZ_nil. lia.
  - rewrite (IH _ H), (Hf _ _ _ Hv), sumZ_cons. lia.
Qed.

(** A loop that stores, for each entry with its own key, what it computes from
    the entry. *)
Lemma foldM_insert_Ok {V X} (o : string * V -> res X) l (s0 s : gmap string X) :
  NoDup l.*1 -> foldM (fun s e => x ← o e; Ok (<[e.1 := x]> s)) l s0 = Ok s ->
  (forall e, e ∈ l -> exists x, o e = Ok x /\ s !! e.1 = Some x) /\
  (forall k, k ∉ l.*1 -> s !! k = s0 !! k).
Proof.
  revert s0. induction l as [|e l IH]; intros s0 Hnd H; cbn in H; go_inv.
  { split; [by intros e ?%not_elem_of_nil|done]. }
  rewrite fmap_cons, NoDup_cons in Hnd. destruct Hnd as [He Hnd].
  destruct (IH _ Hnd H) as [H1 H2]. split.
  - intros e' [->|Hin]%elem_of_cons; [|by apply H1]. exists v0.
    rewrite H2 by done. by rewrite lookup_insert_eq.
  - intros k Hk. rewrite fmap_cons, not_elem_of_cons in Hk. destruct Hk as [Hne Hk].
    rewrite H2, lookup_insert_ne by done. done.
Qed.

Lemma foldM_insert_map {V X} (o : string * V -> res X) (m : gmap string V) l (s0 s : gmap string X) :
  l ≡ₚ map_to_list m -> foldM (fun s e => x ← o e; Ok (<[e.1 := x]> s)) l s0 = Ok s ->
  forall k, match m !! k with
            | Some v => exists x, o (k, v) = Ok x /\ s !! k = Some x
            | None => s !! k = s0 !! k
            end.
Proof.
  intros Hp H k. apply foldM_insert_Ok in H as [H1 H2]; [|rewrite Hp; apply NoDup_fst_map_to_list].
  destruct (m !! k) as [v|] eqn:E.
  - apply (H1 (k, v)). by rewrite Hp, elem_of_map_to_list.
  - apply H2. rewrite Hp. intros ([k' v] & -> & Hin%elem_of_map_to_list)%list_elem_of_fmap. naive_solver.
Qed.

(** A loop over entries with distinct keys, each of which reads and writes its
    own key of the state, does not depend on the order of the entries. *)
Definition keyed_step {V X} (g : option X -> V -> res (option X)) (s : gmap string X) (e : string * V)
    : res (gmap string X) :=
  x ← g (s !! e.1) e.2; Ok (partial_alter (fun _ => x) e.1 s).

Lemma foldM_keyed_perm {V X} (g : option X -> V -> res (option X)) l l' s :
  (forall o v, no_err (g o v)) -> NoDup l.*1 -> l ≡ₚ l' ->
  foldM (keyed_step g) l s = foldM (keyed_step g) l' s.
Proof.
  intros Hne Hnd Hp. revert s Hnd.
  induction Hp as [|e l l' Hp IH|[k1 v1] [k2 v2] l|l1 l2 l3 Hp1 IH1 Hp2 IH2]; intros s Hnd.
  - done.
  - cbn. destruct (keyed_step g s e); cbn; [|done..]. apply IH.
    rewrite fmap_cons, NoDup_cons in Hnd. tauto.
  - assert (k1 <> k2) as Hk by (rewrite !fmap_cons, !NoDup_cons in Hnd; cbn in Hnd; set_solver).
    cbn. unfold keyed_step. cbn.
    assert (Hn : forall o v, (exists x, g o v = Ok x) \/ g o v = Panic).
    { intros o v. pose proof (Hne o v) as H. destruct (g o v) as [x|e|]; [by eauto|by destruct (H e)|by right]. }
    destruct (Hn (s !! k1) v1) as [[x1 E1]|E1], (Hn (s !! k2) v2) as [[x2 E2]|E2];
      rewrite E1, E2; cbn; rewrite ?lookup_partial_alter_ne, ?E1, ?E2 by done; cbn; try done.
    by rewrite partial_alter_partial_alter_ne.
  - rewrite IH1 by done. apply IH2. by rewrite <- Hp1.
Qed.

(** A loop whose steps look at their entry only, and then update the state in
    a way that commutes, does not depend on the order of the entries. *)
Lemma foldM_perm {E X S Key} (key : E -> Key) (o : E -> res X) (upd : S -> E -> X -> S) l l' s :
  (forall e, no_err (o e)) ->
  (forall s e x e' x', key e <> key e' -> upd (upd s e x) e' x' = upd (upd s e' x') e x) ->
  NoDup (key <$> l) -> l ≡ₚ l' ->
  foldM (fun s e => x ← o e; Ok (upd s e x)) l s = foldM (fun s e => x ← o e; Ok (upd s e x)) l' s.
Proof.
  intros Hne Hcomm Hnd Hp. revert s Hnd.
  induction Hp as [|e l l' Hp IH|e1 e2 l|l1 l2 l3 Hp1 IH1 Hp2 IH2]; intros s Hnd.
  - done.
  - cbn. destruct (o e) as [x| |]; cbn; [|done..]. apply IH.
    rewrite fmap_cons, NoDup_cons in Hnd. tauto.
  - assert (key e1 <> key e2).
    { rewrite !fmap_cons, !NoDup_cons in Hnd. intros Hk. set_solver. }
    cbn. pose proof (Hne e1). pose proof (Hne e2).
    destruct (o e1) as [x1|err|] eqn:E1, (o e2) as [x2|err'|] eqn:E2; cbn; try done;
      try (by destruct (H0 err)); try (by destruct (H1 err)); try (by destruct (H1 err')).
    by rewrite Hcomm.
  - rewrite IH1 by done. apply IH2. by rewrite <- Hp1.
Qed.

(** The same for a loop that cannot fail. *)
Lemma foldl_perm {E S Key} (key : E -> Key) (f : S -> E -> S) l l' s :
  (forall s e e', key e <> key e' -> f (f s e) e' = f (f s e') e) ->
  NoDup (key <$> l) -> l ≡ₚ l' -> foldl f s l = foldl f s l'.
Proof.
  intros Hcomm Hnd Hp. revert s Hnd.
  induction Hp as [|e l l' Hp IH|e1 e2 l|l1 l2 l3 Hp1 IH1 Hp2 IH2]; intros s Hnd; cbn.
  - done.
  - apply IH. rewrite fmap_cons, NoDup_cons in Hnd. tauto.
  - rewrite Hcomm; [done|]. rewrite !fmap_cons, !NoDup_cons in Hnd. intros Hk. set_solver.
  - rewrite IH1 by done. apply IH2. by rewrite <- Hp1.
Qed.

Lemma foldl_ext_eq {S T} (f g : S -> T -> S) l s :
  (forall s x, f s x = g s x) -> foldl f s l = foldl g s l.
Proof. intros H. revert s. induction l as [|x l IH]; intros s; cbn; [done|]. by rewrite H. Qed.

(** Deleting the entries of a map that satisfy a condition. *)
Lemma foldl_delete_if {V} (c : V -> bool) (m : gmap string V) l :
  l ≡ₚ map_to_list m ->
  foldl (fun m e => if c e.2 then delete e.1 m else m) m l = filter (fun e => c e.2 = false) m.
Proof.
  intros Hl.
  assert (H : forall l (m' : gmap string V) k,
    foldl (fun m (e : string * V) => if c e.2 then delete e.1 m else m) m' l !! k =
      if decide (Exists (fun e => e.1 = k /\ c e.2 = true) l) then None else m' !! k).
  { clear. intros l. induction l as [|[k' v'] l IH]; intros m' k; cbn.
    - rewrite decide_False; [done|]. by inversion 1.
    - rewrite IH. destruct (decide (Exists _ l)) as [Hx|Hx]; [by rewrite decide_True by by right|].
      destruct (c v') eqn:Hc, (decide (k' = k)) as [->|Hk].
      + by rewrite lookup_delete_eq, decide_True by by left.
      + by rewrite lookup_delete_ne, decide_False by (done || rewrite Exists_cons; tauto).
      + rewrite decide_False; [done|]. rewrite Exists_cons. cbn. intuition congruence.
      + rewrite decide_False; [done|]. rewrite Exists_cons. cbn. intuition congruence. }
  apply map_eq. intros k. rewrite H, map_lookup_filter.
  assert (Hx : Exists (fun e => e.1 = k /\ c e.2 = true) l <->
               exists v, m !! k = Some v /\ c v = true).
  { rewrite Exists_exists. setoid_rewrite Hl. split.
    - intros ([k' v] & Hin%elem_of_map_to_list & <- & Hc). eauto.
    - intros (v & Hk & Hc). exists (k, v). by rewrite elem_of_map_to_list. }
  destruct (m !! k) as [v|] eqn:Hk; cbn; case_decide as Hd; rewrite Hx in Hd; try done.
  - destruct Hd as (v' & ? & ?). simplify_eq. by rewrite option_guard_False by congruence.
  - rewrite option_guard_True; [done|]. apply not_true_is_false. eauto.
Qed.

(** ** Stateful code that never returns an error value *)

Definition st_no_err {T A} (c : st T A) : Prop := forall s, no_err (c s).1.

Lemma st_no_err_bind {T A A'} (c : st T A) (k : A -> st T A') :
  st_no_err c -> (forall x, st_no_err (k x)) -> st_no_err (x ← c; k x).
Proof.
  intros Hc Hk s e. unfold mbind, st_bind. pose proof (Hc s) as H. destruct (c s) as [[x|e'|] s1]; cbn.
  - apply Hk.
  - by destruct (H e').
  - done.
Qed.

Lemma st_no_err_lift {T A} (c : res A) : no_err c -> st_no_err (lift (S:=T) c).
Proof. intros H s. exact H. Qed.

Lemma st_no_err_ok {T A} (f : T -> A) (g : T -> T) : st_no_err (fun s => (Ok (f s), g s)).
Proof. done. Qed.

Lemma st_no_err_if {T A} (b : bool) (c1 c2 : st T A) :
  st_no_err c1 -> st_no_err c2 -> st_no_err (if b then c1 else c2).
Proof. by destruct b. Qed.

#[export] Hint Resolve @st_no_err_lift @st_no_err_if : go.

(** ** Stateful code that keeps an invariant, whatever it returns *)

Definition keeps {T A} (I : T -> Prop) (c : st T A) : Prop := forall s, I s -> I (c s).2.

Section keeps.
Context {T : Type} (I : T -> Prop).

Lemma keeps_bind {A A'} (c : st T A) (k : A -> st T A') :
  keeps I c -> (forall x, keeps I (k x)) -> keeps I (x ← c; k x).
Proof.
  intros Hc Hk s Hs. unfold mbind, st_bind. pose proof (Hc s Hs) as H.
  destruct (c s) as [[x|e|] s1]; [by apply Hk|done..].
Qed.

(** After a computation without effects, its result is known. *)
Lemma keeps_bind_lift {A A'} (c : res A) (k : A -> st T A') :
  (forall x, c = Ok x -> keeps I (k x)) -> keeps I (x ← lift c; k x).
Proof. intros Hk s Hs. unfold mbind, st_bind, lift. destruct c; [by apply Hk|done..]. Qed.

(** What is read is read from a state with the invariant. *)
Lemma keeps_bind_gets {A A'} (f : T -> A) (k : A -> st T A') :
  (forall s, I s -> keeps I (k (f s))) -> keeps I (x ← gets f; k x).
Proof. intros Hk s Hs. by apply Hk. Qed.

Lemma keeps_lift {A} (c : res A) : keeps I (lift c).
Proof. by intros s Hs. Qed.

Lemma keeps_ret {A} (a : A) : keeps I (mret a).
Proof. by intros s Hs. Qed.

Lemma keeps_gets {A} (f : T -> A) : keeps I (gets f).
Proof. by intros s Hs. Qed.

Lemma keeps_modify (f : T -> T) : (forall s, I s -> I (f s)) -> keeps I (modify f).
Proof. intros H s Hs. by apply H. Qed.

Lemma keeps_if {A} (b : bool) (c1 c2 : st T A) : keeps I c1 -> keeps I c2 -> keeps I (if b then c1 else c2).
Proof. by destruct b. Qed.

Lemma keeps_iterM {X} (f : X -> st T unit) l : Forall (fun x => keeps I (f x)) l -> keeps I (iterM f l).
Proof.
  unfold iterM. generalize tt. intros u Hf. revert u.
  induction Hf as [|x l Hx _ IH]; intros u; [apply keeps_ret|]. cbn. by apply keeps_bind.
Qed.

End keeps.

Lemma foldl_keeps {X Y} (I : Y -> Prop) (f : Y -> X -> Y) l y :
  (forall y x, I y -> I (f y x)) -> I y -> I (foldl f y l).
Proof. intros Hf. revert y. induction l as [|x l IH]; intros y Hy; [done|]. apply IH, Hf, Hy. Qed.

#[export] Hint Resolve @keeps_lift @keeps_ret @keeps_gets @keeps_if : go.
