(* ===== verification/Sdk.v ===== *)
(** * The interface of the Cosmos SDK the modules are written against

    The SDK (v0.44) is a dependency and is not part of the repository: its
    types [sdk.Int], [sdk.Dec], [sdk.Coin], [sdk.DecCoin] and [sdk.Coins] and
    its bank keeper are parameters of the model.  This file names the
    operations the modules call as fields of type classes ([SdkMath],
    [SdkCoins], [BankKeeper]) and, separately, what their documentation
    promises about them ([SdkMathLaws], [SdkCoinsLaws], [BankLaws]).
    Definitions take the operations only; theorems take the laws. *)

From Stdlib Require Import ZArith Lia Bool.
From stdpp Require Import base gmap strings list sorting.
From S2P Require Import Prelude Loops.
Local Open Scope Z_scope.

(** ** Numbers

    An [sdk.Int] is an integer of at most 255 bits.  An [sdk.Dec] is a
    fixed-point number with 18 decimals and at most 315 bits; the model
    carries it as its integer number of [10^-18] units. *)

Abbreviation Int := Z (only parsing).
Abbreviation Dec := Z (only parsing).

Definition precision : Z := 10 ^ 18.
Definition int_bound : Z := 2 ^ 255.
Definition dec_bound : Z := 2 ^ 315.

(** [sdk.NewDec(n)], [sdk.NewDecFromInt(n)] and [sdk.NewDecWithPrec(n, k)]. *)
Definition NewDec (n : Z) : Dec := n * precision.
Definition NewDecWithPrec (n k : Z) : Dec := n * 10 ^ (18 - k).
Definition OneDec : Dec := precision.

Definition fits (bound z : Z) : bool := Z.abs z <? bound.

(** A result that is only returned when it is in range. *)
Definition checked (bound z : Z) : res Z := if fits bound z then Ok z else Panic.

Class SdkMath : Type := {
  int_add : Int -> Int -> res Int;          (* Int.Add *)
  int_sub : Int -> Int -> res Int;          (* Int.Sub *)
  int_mul : Int -> Int -> res Int;          (* Int.Mul *)
  int_quo : Int -> Int -> res Int;          (* Int.Quo *)
  dec_add : Dec -> Dec -> res Dec;          (* Dec.Add *)
  dec_sub : Dec -> Dec -> res Dec;          (* Dec.Sub *)
  dec_mul : Dec -> Dec -> res Dec;          (* Dec.Mul *)
  dec_quo : Dec -> Dec -> res Dec;          (* Dec.Quo *)
  dec_mul_int : Dec -> Int -> res Dec;      (* Dec.MulInt, Dec.MulInt64 *)
  dec_quo_int : Dec -> Int -> res Dec;      (* Dec.QuoInt, Dec.QuoInt64 *)
  dec_truncate_int : Dec -> res Int;        (* Dec.TruncateInt *)
  dec_round_int : Dec -> res Int;           (* Dec.RoundInt *)
  dec_ceil : Dec -> res Dec;                (* Dec.Ceil *)
}.

(** Addition and subtraction are exact, multiplication and division round to
    the precision, the integer variants multiply exactly and divide with
    truncation, a division by zero panics and so does an overflow. *)
Class SdkMathLaws (M : SdkMath) : Prop := {
  int_add_spec a b : int_add a b = checked int_bound (a + b);
  int_sub_spec a b : int_sub a b = checked int_bound (a - b);
  int_mul_spec a b : int_mul a b = checked int_bound (a * b);
  int_quo_spec a b : int_quo a b = if b =? 0 then Panic else Ok (Z.quot a b);
  dec_add_spec a b : dec_add a b = checked dec_bound (a + b);
  dec_sub_spec a b : dec_sub a b = checked dec_bound (a - b);
  dec_mul_int_spec a n : dec_mul_int a n = checked dec_bound (a * n);
  dec_quo_int_spec a n :
    dec_quo_int a n = if n =? 0 then Panic else Ok (Z.quot a n);
  dec_truncate_int_spec a : dec_truncate_int a = checked int_bound (Z.quot a precision);
  (* the product, rounded to the nearest representable number *)
  dec_mul_round a b c : dec_mul a b = Ok c -> 2 * Z.abs (c * precision - a * b) <= precision;
  dec_mul_total a b :
    Z.abs (a * b) < (dec_bound - 1) * precision -> exists c, dec_mul a b = Ok c;
  dec_mul_no_err a b e : dec_mul a b <> Err e;
  (* the quotient, within one unit of the last place, and exact when it is
     representable *)
  dec_quo_zero a : dec_quo a 0 = Panic;
  dec_quo_round a b c : dec_quo a b = Ok c -> Z.abs (c * b - a * precision) <= Z.abs b;
  dec_quo_exact a b c k : dec_quo a b = Ok c -> a * precision = k * b -> c = k;
  dec_quo_sign a b c : dec_quo a b = Ok c -> 0 <= a -> 0 < b -> 0 <= c;
  dec_quo_total a b :
    b <> 0 -> Z.abs (a * precision) < (dec_bound - 2) * Z.abs b -> exists c, dec_quo a b = Ok c;
  dec_quo_no_err a b e : dec_quo a b <> Err e;
  dec_round_int_spec a c : dec_round_int a = Ok c -> 2 * Z.abs (c * precision - a) <= precision;
  dec_round_int_total a :
    Z.abs a < (int_bound - 1) * precision -> exists c, dec_round_int a = Ok c;
  dec_ceil_spec a c :
    dec_ceil a = Ok c -> a <= c < a + precision /\ exists k, c = k * precision;
  dec_ceil_total a : Z.abs a < dec_bound - precision -> exists c, dec_ceil a = Ok c;
}.

(** ** Coins *)

Record Coin : Type := mkCoin { coin_denom : string; coin_amount : Int }.
Record DecCoin : Type := mkDecCoin { dcoin_denom : string; dcoin_amount : Dec }.

#[global] Instance Coin_eq_dec : EqDecision Coin.
Proof. solve_decision. Defined.

#[global] Instance DecCoin_eq_dec : EqDecision DecCoin.
Proof. solve_decision. Defined.

(** The amount a list of coins holds of a denomination. *)
Definition amt (cs : list Coin) (d : string) : Z :=
  sumZ (fun c => if String.eqb (coin_denom c) d then coin_amount c else 0) cs.

Definition damt (cs : list DecCoin) (d : string) : Z :=
  sumZ (fun c => if String.eqb (dcoin_denom c) d then dcoin_amount c else 0) cs.

#[global] Arguments amt cs d : simpl never.
#[global] Arguments damt cs d : simpl never.

(** A well-formed [sdk.Coins]: positive amounts, denominations sorted and
    without repetition. *)
Definition denoms_wf (ds : list string) : Prop := NoDup ds /\ StronglySorted String.le ds.

Definition coins_wf (cs : list Coin) : Prop :=
  Forall (fun c => 0 < coin_amount c) cs /\ denoms_wf (coin_denom <$> cs).

Definition deccoins_wf (cs : list DecCoin) : Prop :=
  Forall (fun c => 0 < dcoin_amount c) cs /\ denoms_wf (dcoin_denom <$> cs).

Class SdkCoins : Type := {
  ValidDenom : string -> bool;                                    (* ValidateDenom *)
  new_coin : string -> Int -> res Coin;                           (* NewCoin *)
  new_dec_coin : string -> Dec -> res DecCoin;                    (* NewDecCoinFromDec *)
  coin_is_valid : Coin -> bool;                                   (* Coin.IsValid *)
  coin_add : Coin -> Coin -> res Coin;                            (* Coin.Add *)
  deccoin_add : DecCoin -> DecCoin -> res DecCoin;                (* DecCoin.Add *)
  deccoin_sub : DecCoin -> DecCoin -> res DecCoin;                (* DecCoin.Sub *)
  truncate_decimal : DecCoin -> res (Coin * DecCoin);             (* DecCoin.TruncateDecimal *)
  new_coins : list Coin -> res (list Coin);                       (* NewCoins *)
  coins_add : list Coin -> list Coin -> res (list Coin);          (* Coins.Add *)
  coins_sub : list Coin -> list Coin -> res (list Coin);          (* Coins.Sub *)
  coins_safe_sub : list Coin -> list Coin -> res (list Coin * bool);  (* Coins.SafeSub *)
  coins_is_zero : list Coin -> bool;                              (* Coins.IsZero *)
  coins_is_valid : list Coin -> bool;                             (* Coins.IsValid *)
  coins_amount_of : list Coin -> string -> Int;                   (* Coins.AmountOf *)
  coins_sort : list Coin -> list Coin;                            (* Coins.Sort *)
  coins_is_any_gte : list Coin -> list Coin -> bool;              (* Coins.IsAnyGTE *)
  deccoins_is_zero : list DecCoin -> bool;                        (* DecCoins.IsZero *)
  deccoins_of_coins : list Coin -> res (list DecCoin);            (* NewDecCoinsFromCoins *)
  deccoins_add : list DecCoin -> list DecCoin -> res (list DecCoin);  (* DecCoins.Add *)
  deccoins_mul : list DecCoin -> Dec -> res (list DecCoin);       (* DecCoins.MulDec *)
  deccoins_truncate : list DecCoin -> res (list Coin * list DecCoin); (* DecCoins.TruncateDecimal *)
}.

Class SdkCoinsLaws (M : SdkMath) (C : SdkCoins) : Prop := {
  new_coin_spec d a :
    new_coin d a = if ValidDenom d && (0 <=? a) then Ok (mkCoin d a) else Panic;
  new_dec_coin_spec d a :
    new_dec_coin d a = if ValidDenom d && (0 <=? a) then Ok (mkDecCoin d a) else Panic;
  coin_add_spec c1 c2 :
    coin_add c1 c2 =
      if String.eqb (coin_denom c1) (coin_denom c2)
      then a ← int_add (coin_amount c1) (coin_amount c2); Ok (mkCoin (coin_denom c1) a)
      else Panic;
  deccoin_add_spec c1 c2 :
    deccoin_add c1 c2 =
      if String.eqb (dcoin_denom c1) (dcoin_denom c2)
      then a ← dec_add (dcoin_amount c1) (dcoin_amount c2); Ok (mkDecCoin (dcoin_denom c1) a)
      else Panic;
  deccoin_sub_spec c1 c2 :
    deccoin_sub c1 c2 =
      if String.eqb (dcoin_denom c1) (dcoin_denom c2)
      then a ← dec_sub (dcoin_amount c1) (dcoin_amount c2);
           if a <? 0 then Panic else Ok (mkDecCoin (dcoin_denom c1) a)
      else Panic;
  truncate_decimal_spec c :
    truncate_decimal c =
      (t ← dec_truncate_int (dcoin_amount c);
       ch ← dec_sub (dcoin_amount c) (NewDec t);
       tc ← new_coin (dcoin_denom c) t;
       cc ← new_dec_coin (dcoin_denom c) ch;
       Ok (tc, cc));
  (* a set of one coin: zero coins are dropped *)
  new_coins_single c :
    ValidDenom (coin_denom c) = true -> 0 <= coin_amount c ->
    new_coins [c] = Ok (if coin_amount c =? 0 then [] else [c]);
  new_coins_single_neg c : coin_amount c < 0 -> new_coins [c] = Panic;
  new_coins_single_inv c cs :
    new_coins [c] = Ok cs -> cs = if coin_amount c =? 0 then [] else [c];
  (* functions without an error result panic when they fail *)
  new_coins_no_err cs : no_err (new_coins cs);
  deccoins_of_coins_no_err cs : no_err (deccoins_of_coins cs);
  deccoins_add_no_err a b : no_err (deccoins_add a b);
  coins_add_amt a b c d : coins_add a b = Ok c -> amt c d = amt a d + amt b d;
  coins_add_wf a b c : coins_add a b = Ok c -> coins_wf a -> coins_wf b -> coins_wf c;
  coins_add_total a b :
    coins_wf a -> coins_wf b -> (forall d, amt a d + amt b d < int_bound) ->
    exists c, coins_add a b = Ok c;
  coins_safe_sub_amt a b c neg d :
    coins_safe_sub a b = Ok (c, neg) -> amt c d = amt a d - amt b d;
  coins_safe_sub_neg a b c :
    coins_safe_sub a b = Ok (c, false) -> Forall (fun x => 0 <= coin_amount x) c;
  coins_safe_sub_total a b :
    coins_wf a -> coins_wf b -> (forall d, amt b d <= amt a d < int_bound) ->
    exists c, coins_safe_sub a b = Ok (c, false) /\ coins_wf c;
  coins_sub_spec a b :
    coins_sub a b = ('(c, neg) ← coins_safe_sub a b; if (neg : bool) then Panic else Ok c);
  coins_is_zero_spec cs :
    coins_is_zero cs = true <-> Forall (fun c => coin_amount c = 0) cs;
  coins_is_valid_wf cs : coins_is_valid cs = true -> coins_wf cs;
  coins_is_valid_single c :
    ValidDenom (coin_denom c) = true -> 0 < coin_amount c -> coins_is_valid [c] = true;
  coins_is_valid_nil : coins_is_valid [] = true;
  coins_sort_perm cs : coins_sort cs ≡ₚ cs;
  coins_sort_sorted cs : StronglySorted String.le (coin_denom <$> coins_sort cs);
  (* the lookup is a binary search, on sorted coins *)
  coins_amount_of_sort cs d :
    NoDup (coin_denom <$> cs) -> coins_amount_of (coins_sort cs) d = amt cs d;
  (* some coin of [a] covers the amount [b] has, and [b] has some, of its denomination *)
  coins_is_any_gte_spec a b :
    denoms_wf (coin_denom <$> b) ->
    coins_is_any_gte a b = true <->
    exists c, c ∈ a /\ amt b (coin_denom c) <> 0 /\ amt b (coin_denom c) <= coin_amount c;
  deccoins_is_zero_spec cs :
    deccoins_is_zero cs = true <-> Forall (fun c => dcoin_amount c = 0) cs;
  coin_is_valid_spec c :
    coin_is_valid c = ValidDenom (coin_denom c) && (0 <=? coin_amount c);
  deccoins_of_coins_amt cs ds d :
    deccoins_of_coins cs = Ok ds -> damt ds d = NewDec (amt cs d);
  deccoins_add_amt a b c d : deccoins_add a b = Ok c -> damt c d = damt a d + damt b d;
  deccoins_add_wf a b c :
    deccoins_add a b = Ok c -> deccoins_wf a -> deccoins_wf b -> deccoins_wf c;
  deccoins_add_single_wf a c r :
    deccoins_add a [c] = Ok r -> deccoins_wf a -> 0 <= dcoin_amount c -> deccoins_wf r;
  deccoins_mul_wf cs k ds :
    deccoins_mul cs k = Ok ds -> deccoins_wf cs -> 0 <= k -> deccoins_wf ds;
  deccoins_mul_amt cs k ds d :
    deccoins_mul cs k = Ok ds -> deccoins_wf cs -> dec_mul (damt cs d) k = Ok (damt ds d);
  deccoins_truncate_wf ds cs ch :
    deccoins_truncate ds = Ok (cs, ch) -> deccoins_wf ds -> coins_wf cs;
  deccoins_truncate_amt ds cs ch d :
    deccoins_truncate ds = Ok (cs, ch) -> deccoins_wf ds ->
    amt cs d = Z.quot (damt ds d) precision;
}.

(** ** Accounts and the bank keeper

    [x/*/types/expected_keepers.go] state the part of the bank keeper each
    module uses.  An address is its byte string. *)

Abbreviation AccAddress := string (only parsing).
Abbreviation ValAddress := string (only parsing).

Class BankKeeper (B : Type) : Type := {
  module_address : string -> AccAddress;                       (* GetModuleAddress *)
  get_balance : B -> AccAddress -> string -> Int;              (* GetBalance *)
  get_supply : B -> string -> Int;                             (* GetSupply *)
  get_all_balances : B -> AccAddress -> list Coin;             (* GetAllBalances *)
  send_coins : B -> AccAddress -> AccAddress -> list Coin -> res B;
  (* SendCoinsFromAccountToModule, SendCoinsFromModuleToAccount,
     SendCoinsFromModuleToModule *)
  mint_coins : B -> string -> list Coin -> res B;              (* MintCoins *)
  burn_coins : B -> string -> list Coin -> res B;              (* BurnCoins *)
}.

(** Bech32 texts of account and validator addresses, and which byte strings
    [VerifyAddressFormat] takes for addresses: the node sets it to
    [AddressVerifier] of [Core]. *)
Class Bech32 : Type := {
  address_ok : string -> bool;
  AccAddressFromBech32 : string -> res AccAddress;
  AccAddressString : AccAddress -> string;
  ValAddressFromBech32 : string -> res ValAddress;
  ValAddressString : ValAddress -> string;
}.

Class Bech32Laws (A : Bech32) : Prop := {
  (* no address is empty; the text of no bytes is the empty text *)
  address_ok_empty : address_ok EmptyString = false;
  acc_string_empty : AccAddressString EmptyString = EmptyString;
  val_string_empty : ValAddressString EmptyString = EmptyString;
  (* texts are parsed to addresses only *)
  acc_bech32_ok s a : AccAddressFromBech32 s = Ok a -> address_ok a = true;
  val_bech32_ok s a : ValAddressFromBech32 s = Ok a -> address_ok a = true;
  (* and the text of an address is parsed to this address, of other bytes to
     nothing else *)
  acc_bech32_round a : address_ok a = true -> AccAddressFromBech32 (AccAddressString a) = Ok a;
  val_bech32_round a : address_ok a = true -> ValAddressFromBech32 (ValAddressString a) = Ok a;
  acc_bech32_sound a b : AccAddressFromBech32 (AccAddressString a) = Ok b -> b = a;
  val_bech32_sound a b : ValAddressFromBech32 (ValAddressString a) = Ok b -> b = a;
  val_string_inj a b : ValAddressString a = ValAddressString b -> a = b;
}.

Definition if_eq (a b : string) (z : Z) : Z := if String.eqb a b then z else 0.

Class BankLaws (B : Type) (K : BankKeeper B) : Prop := {
  send_balance b f t cs b' a d :
    send_coins b f t cs = Ok b' ->
    get_balance b' a d = get_balance b a d - if_eq a f (amt cs d) + if_eq a t (amt cs d);
  send_supply b f t cs b' d : send_coins b f t cs = Ok b' -> get_supply b' d = get_supply b d;
  send_covered b f t cs b' d :
    send_coins b f t cs = Ok b' -> coins_wf cs -> amt cs d <= get_balance b f d;
  send_total b f t cs :
    coins_wf cs -> (forall d, amt cs d <= get_balance b f d) ->
    exists b', send_coins b f t cs = Ok b';
  mint_balance b m cs b' a d :
    mint_coins b m cs = Ok b' ->
    get_balance b' a d = get_balance b a d + if_eq a (module_address m) (amt cs d);
  mint_supply b m cs b' d :
    mint_coins b m cs = Ok b' -> get_supply b' d = get_supply b d + amt cs d;
  burn_balance b m cs b' a d :
    burn_coins b m cs = Ok b' ->
    get_balance b' a d = get_balance b a d - if_eq a (module_address m) (amt cs d);
  burn_supply b m cs b' d :
    burn_coins b m cs = Ok b' -> get_supply b' d = get_supply b d - amt cs d;
  burn_total b m cs :
    coins_wf cs -> (forall d, amt cs d <= get_balance b (module_address m) d) ->
    exists b', burn_coins b m cs = Ok b';
  all_balances_amt b a d : amt (get_all_balances b a) d = get_balance b a d;
  all_balances_wf b a : coins_wf (get_all_balances b a);
}.

(** ** Consequences of the laws *)

(** The empty text is no address. *)
Lemma val_bech32_empty {A : Bech32} {AL : Bech32Laws A} a : ValAddressFromBech32 EmptyString <> Ok a.
Proof.
  intros H. pose proof (val_bech32_ok _ _ H) as Ha. rewrite <- val_string_empty in H.
  apply val_bech32_sound in H as ->. by rewrite address_ok_empty in Ha.
Qed.

Lemma checked_Ok (bound z c : Z) : checked bound z = Ok c <-> c = z /\ Z.abs z < bound.
Proof.
  unfold checked, fits. destruct (Z.ltb_spec (Z.abs z) bound); split; intros; try lia.
  - split; [by simplify_eq|lia].
  - destruct H0 as [-> _]. done.
  - done.
Qed.

Lemma checked_small (bound z : Z) : Z.abs z < bound -> checked bound z = Ok z.
Proof. intros H. by apply checked_Ok. Qed.

Lemma no_err_checked bound z : no_err (checked bound z).
Proof. unfold checked. by destruct (fits bound z). Qed.

#[export] Hint Resolve no_err_checked : go.

Lemma precision_pos : 0 < precision.
Proof. done. Qed.

#[export] Hint Resolve precision_pos : go.

Lemma amt_app (c1 c2 : list Coin) (d : string) : amt (c1 ++ c2) d = amt c1 d + amt c2 d.
Proof. apply sumZ_app. Qed.

Lemma amt_nil (d : string) : amt [] d = 0.
Proof. done. Qed.

Lemma amt_single (c : Coin) (d : string) :
  amt [c] d = if String.eqb (coin_denom c) d then coin_amount c else 0.
Proof. unfold amt, sumZ. cbn. lia. Qed.

Lemma amt_perm (c1 c2 : list Coin) (d : string) : c1 ≡ₚ c2 -> amt c1 d = amt c2 d.
Proof. apply sumZ_perm. Qed.

Lemma amt_nonneg (cs : list Coin) (d : string) :
  Forall (fun c => 0 <= coin_amount c) cs -> 0 <= amt cs d.
Proof.
  intros H. apply sumZ_nonneg. eapply Forall_impl; [exact H|].
  intros c Hc. cbn in *. destruct (String.eqb _ _); lia.
Qed.

Lemma amt_elem (cs : list Coin) (c : Coin) :
  Forall (fun c => 0 <= coin_amount c) cs -> c ∈ cs -> coin_amount c <= amt cs (coin_denom c).
Proof.
  intros H Hc. induction H as [|x cs Hx H IH]; [by apply not_elem_of_nil in Hc|].
  change (amt (x :: cs) (coin_denom c))
    with ((if String.eqb (coin_denom x) (coin_denom c) then coin_amount x else 0) + amt cs (coin_denom c)).
  apply elem_of_cons in Hc as [->|Hc].
  - rewrite String.eqb_refl. pose proof (amt_nonneg cs (coin_denom x) H). lia.
  - specialize (IH Hc). destruct (String.eqb _ _); lia.
Qed.

Lemma amt_found (cs : list Coin) (d : string) :
  NoDup (coin_denom <$> cs) -> amt cs d <> 0 ->
  exists c, c ∈ cs /\ coin_denom c = d /\ amt cs d = coin_amount c.
Proof.
  induction cs as [|x cs IH]; intros Hnd Hne; [done|].
  rewrite fmap_cons in Hnd. apply NoDup_cons in Hnd as [Hin Hnd].
  change (amt (x :: cs) d) with ((if String.eqb (coin_denom x) d then coin_amount x else 0) + amt cs d) in *.
  destruct (String.eqb_spec (coin_denom x) d) as [Hd|Hd].
  - exists x. split; [by left|]. split; [done|]. destruct (decide (amt cs d = 0)) as [->|Hz]; [lia|].
    destruct (IH Hnd Hz) as (c & Hc & Hcd & _). destruct Hin. rewrite Hd, <- Hcd.
    by apply list_elem_of_fmap_2.
  - destruct (IH Hnd) as (c & Hc & Hcd & Ha); [lia|]. exists c. split; [by right|]. split; [done|lia].
Qed.

(** In a list with one coin per denomination, each coin holding the value of
    a function, the amounts are those values. *)
Lemma amt_of_distinct (f : string -> Z) (cs : list Coin) (d : string) :
  NoDup (coin_denom <$> cs) -> d ∈ coin_denom <$> cs ->
  Forall (fun c => coin_amount c = f (coin_denom c)) cs -> amt cs d = f d.
Proof.
  intros Hnd Hd Hf. induction Hf as [|c cs Hc Hf IH]; [by apply not_elem_of_nil in Hd|].
  rewrite fmap_cons in Hnd, Hd. apply NoDup_cons in Hnd as [Hin Hnd].
  change (amt (c :: cs) d) with ((if String.eqb (coin_denom c) d then coin_amount c else 0) + amt cs d).
  apply elem_of_cons in Hd as [->|Hd].
  - rewrite String.eqb_refl, Hc.
    assert (Hz : amt cs (coin_denom c) = 0); [|lia]. clear -Hin. unfold amt.
    induction cs as [|c' cs IH]; [done|]. rewrite fmap_cons in Hin. rewrite sumZ_cons.
    destruct (String.eqb_spec (coin_denom c') (coin_denom c)); [set_solver|].
    rewrite IH; [done|set_solver].
  - destruct (String.eqb_spec (coin_denom c) d) as [<-|]; [done|]. by rewrite IH.
Qed.

Lemma denoms_wf_nil : denoms_wf [].
Proof. split; constructor. Qed.

Lemma denoms_wf_single d : denoms_wf [d].
Proof. split; [apply NoDup_singleton|]. by repeat constructor. Qed.

Lemma coins_wf_nil : coins_wf [].
Proof. split; [constructor|apply denoms_wf_nil]. Qed.

Lemma coins_wf_single c : 0 < coin_amount c -> coins_wf [c].
Proof. intros H. split; [by repeat constructor|apply denoms_wf_single]. Qed.

Lemma deccoins_wf_nil : deccoins_wf [].
Proof. split; [constructor|apply denoms_wf_nil]. Qed.

#[export] Hint Resolve denoms_wf_nil denoms_wf_single coins_wf_nil coins_wf_single deccoins_wf_nil : go.

Lemma coins_wf_nonneg (cs : list Coin) (d : string) : coins_wf cs -> 0 <= amt cs d.
Proof.
  intros [H _]. apply amt_nonneg. eapply Forall_impl; [exact H|]. cbn. lia.
Qed.

Section math_facts.
Context {M : SdkMath} {ML : SdkMathLaws M}.

Lemma dec_add_Ok a b c : dec_add a b = Ok c <-> c = a + b /\ Z.abs (a + b) < dec_bound.
Proof. rewrite dec_add_spec. apply checked_Ok. Qed.

Lemma dec_sub_Ok a b c : dec_sub a b = Ok c <-> c = a - b /\ Z.abs (a - b) < dec_bound.
Proof. rewrite dec_sub_spec. apply checked_Ok. Qed.

Lemma int_add_Ok a b c : int_add a b = Ok c <-> c = a + b /\ Z.abs (a + b) < int_bound.
Proof. rewrite int_add_spec. apply checked_Ok. Qed.

Lemma int_sub_Ok a b c : int_sub a b = Ok c <-> c = a - b /\ Z.abs (a - b) < int_bound.
Proof. rewrite int_sub_spec. apply checked_Ok. Qed.

Lemma dec_mul_int_Ok a n c :
  dec_mul_int a n = Ok c <-> c = a * n /\ Z.abs (a * n) < dec_bound.
Proof. rewrite dec_mul_int_spec. apply checked_Ok. Qed.

Lemma dec_truncate_int_Ok a c :
  dec_truncate_int a = Ok c <-> c = Z.quot a precision /\ Z.abs (Z.quot a precision) < int_bound.
Proof. rewrite dec_truncate_int_spec. apply checked_Ok. Qed.

Lemma dec_quo_int_Ok a n c : dec_quo_int a n = Ok c <-> n <> 0 /\ c = Z.quot a n.
Proof.
  rewrite dec_quo_int_spec. destruct (Z.eqb_spec n 0); split; naive_solver.
Qed.

(** Rounding of a product: bounds, sign, and behaviour for a ratio at most
    one. *)
Lemma dec_mul_bounds a b c :
  dec_mul a b = Ok c -> 2 * a * b - precision <= 2 * c * precision <= 2 * a * b + precision.
Proof. intros H%dec_mul_round. lia. Qed.

Lemma dec_mul_nonneg a b c : dec_mul a b = Ok c -> 0 <= a -> 0 <= b -> 0 <= c.
Proof.
  intros H%dec_mul_bounds Ha Hb. assert (0 <= a * b) by nia.
  pose proof precision_pos. nia.
Qed.

Lemma dec_mul_le a b c : dec_mul a b = Ok c -> 0 <= a -> b <= precision -> c <= a.
Proof.
  intros H%dec_mul_bounds Ha Hb. assert (a * b <= a * precision) by nia.
  pose proof precision_pos. nia.
Qed.

Lemma dec_mul_exact a b c k : dec_mul a b = Ok c -> a * b = k * precision -> c = k.
Proof. intros H%dec_mul_bounds Hk. pose proof precision_pos. nia. Qed.

Lemma dec_quo_bounds a b c :
  dec_quo a b = Ok c -> 0 < b -> a * precision - b <= c * b <= a * precision + b.
Proof. intros H%dec_quo_round Hb. lia. Qed.

Lemma dec_quo_nonzero a b c : dec_quo a b = Ok c -> b <> 0.
Proof. intros H ->. by rewrite dec_quo_zero in H. Qed.

Lemma quot_precision_bounds a : 0 <= a ->
  Z.quot a precision * precision <= a < Z.quot a precision * precision + precision.
Proof.
  intros Ha. rewrite Z.quot_div_nonneg by (done || apply precision_pos).
  pose proof (Z.div_mod a precision ltac:(done)).
  pose proof (Z.mod_pos_bound a precision ltac:(done)). lia.
Qed.

Lemma quot_precision_nonneg a : 0 <= a -> 0 <= Z.quot a precision.
Proof. intros Ha. apply Z.quot_pos; done. Qed.

End math_facts.

Section coin_facts.
Context {M : SdkMath} {ML : SdkMathLaws M} {C : SdkCoins} {CL : SdkCoinsLaws M C}.

Lemma new_coin_Ok d a c :
  new_coin d a = Ok c <-> c = mkCoin d a /\ ValidDenom d = true /\ 0 <= a.
Proof.
  rewrite new_coin_spec. destruct (ValidDenom d), (Z.leb_spec 0 a); cbn;
    split; intros; destruct_and?; simplify_eq; repeat split; (done || lia).
Qed.

Lemma new_dec_coin_Ok d a c :
  new_dec_coin d a = Ok c <-> c = mkDecCoin d a /\ ValidDenom d = true /\ 0 <= a.
Proof.
  rewrite new_dec_coin_spec. destruct (ValidDenom d), (Z.leb_spec 0 a); cbn;
    split; intros; destruct_and?; simplify_eq; repeat split; (done || lia).
Qed.

(** [TruncateDecimal] splits a non-negative amount into its integer part and
    the change. *)
Lemma truncate_decimal_Ok c tc cc :
  truncate_decimal c = Ok (tc, cc) ->
  let t := Z.quot (dcoin_amount c) precision in
  tc = mkCoin (dcoin_denom c) t /\
  cc = mkDecCoin (dcoin_denom c) (dcoin_amount c - NewDec t) /\
  0 <= t /\ 0 <= dcoin_amount c - NewDec t /\ ValidDenom (dcoin_denom c) = true.
Proof.
  rewrite truncate_decimal_spec. intros H. go_inv.
  apply dec_truncate_int_Ok in Hv as [-> _].
  apply dec_sub_Ok in Hv0 as [-> _].
  apply new_coin_Ok in Hv1 as (-> & ? & ?).
  apply new_dec_coin_Ok in Hv2 as (-> & ? & ?).
  simplify_eq. by repeat split.
Qed.

Lemma new_coins_single_Ok c cs :
  ValidDenom (coin_denom c) = true -> new_coins [c] = Ok cs ->
  0 <= coin_amount c /\ coins_wf cs /\ forall d, amt cs d = amt [c] d.
Proof.
  intros Hd H. destruct (Z.lt_ge_cases (coin_amount c) 0) as [Hn|Hn].
  { by rewrite new_coins_single_neg in H. }
  rewrite new_coins_single in H by done. simplify_eq.
  split; [done|]. destruct (Z.eqb_spec (coin_amount c) 0) as [E|E].
  - split; [auto with go|]. intros d. rewrite amt_single, amt_nil, E. by destruct (String.eqb _ _).
  - split; [|done]. apply coins_wf_single. lia.
Qed.

End coin_facts.
