(* ===== verification/SdkRef.v ===== *)
(** * A reference implementation of the SDK interface

    Concrete functions for the parameters of [Sdk.v], and the proof that they
    satisfy the laws.  They show that the laws can hold, and the witnesses of
    the development evaluate the modules on them.  Products and quotients are
    rounded half to even on the 18th decimal. *)

From Stdlib Require Import ZArith Lia Bool Ascii.
From stdpp Require Import base gmap strings list sorting.
From S2P Require Import Prelude Loops Sdk.
Local Open Scope Z_scope.

(** ** Numbers *)

Definition round_half_even (n d : Z) : Z :=
  let q := Z.abs n / d in
  let r := Z.abs n mod d in
  let m := if 2 * r <? d then q
           else if d <? 2 * r then q + 1
           else if Z.even q then q else q + 1 in
  Z.sgn n * m.

Definition ref_math : SdkMath := {|
  int_add a b := checked int_bound (a + b);
  int_sub a b := checked int_bound (a - b);
  int_mul a b := checked int_bound (a * b);
  int_quo a b := if b =? 0 then Panic else Ok (Z.quot a b);
  dec_add a b := checked dec_bound (a + b);
  dec_sub a b := checked dec_bound (a - b);
  dec_mul a b := checked dec_bound (round_half_even (a * b) precision);
  dec_quo a b :=
    if b =? 0 then Panic
    else checked dec_bound (round_half_even (Z.quot (a * precision * precision) b) precision);
  dec_mul_int a n := checked dec_bound (a * n);
  dec_quo_int a n := if n =? 0 then Panic else Ok (Z.quot a n);
  dec_truncate_int a := checked int_bound (Z.quot a precision);
  dec_round_int a := checked int_bound (round_half_even a precision);
  dec_ceil a := checked dec_bound (- ((- a) / precision) * precision);
|}.

Lemma round_half_even_close n d : 0 < d -> 2 * Z.abs (round_half_even n d * d - n) <= d.
Proof.
  intros Hd. unfold round_half_even.
  pose proof (Z.div_mod (Z.abs n) d ltac:(lia)).
  pose proof (Z.mod_pos_bound (Z.abs n) d Hd).
  set (q := Z.abs n / d) in *. set (r := Z.abs n mod d) in *.
  assert (Hn : n = Z.sgn n * Z.abs n) by lia.
  destruct (Z.ltb_spec (2 * r) d), (Z.ltb_spec d (2 * r)); try lia;
    try destruct (Z.even q); nia.
Qed.

Lemma round_half_even_exact k d : 0 < d -> round_half_even (k * d) d = k.
Proof. intros Hd. pose proof (round_half_even_close (k * d) d Hd). nia. Qed.

Lemma round_half_even_nonneg n d : 0 < d -> 0 <= n -> 0 <= round_half_even n d.
Proof. intros Hd Hn. pose proof (round_half_even_close n d Hd). nia. Qed.

Lemma quot_close a b : b <> 0 -> Z.abs (Z.quot a b * b - a) < Z.abs b.
Proof.
  intros Hb. pose proof (Z.quot_rem' a b). pose proof (Z.rem_bound_abs a b Hb). lia.
Qed.

Lemma ref_quo_close a b :
  b <> 0 ->
  Z.abs (round_half_even (Z.quot (a * precision * precision) b) precision * b - a * precision)
    <= Z.abs b.
Proof.
  intros Hb. set (t := Z.quot (a * precision * precision) b).
  pose proof (quot_close (a * precision * precision) b Hb) as H1. fold t in H1.
  pose proof (round_half_even_close t precision precision_pos) as H2.
  set (c := round_half_even t precision) in *.
  assert (Hp : 2 <= precision) by done. generalize dependent precision. intros p. nia.
Qed.

#[global] Instance ref_math_laws : SdkMathLaws ref_math.
Proof.
  split; try reflexivity.
  - cbn. intros a b c [-> _]%checked_Ok. by apply round_half_even_close.
  - cbn. intros a b H. eexists. apply checked_small.
    pose proof (round_half_even_close (a * b) precision precision_pos).
    pose proof precision_pos. nia.
  - cbn. intros a b e. unfold checked. by destruct (fits _ _).
  - cbn. intros a b c. destruct (Z.eqb_spec b 0) as [->|Hb]; [done|].
    intros [-> _]%checked_Ok. by apply ref_quo_close.
  - cbn. intros a b c k. destruct (Z.eqb_spec b 0) as [->|Hb]; [done|].
    intros [-> _]%checked_Ok Hk. rewrite Hk.
    replace (k * b * precision) with (k * precision * b) by lia.
    rewrite Z.quot_mul by done. by apply round_half_even_exact.
  - cbn. intros a b c. destruct (Z.eqb_spec b 0) as [->|Hb]; [done|].
    intros [-> _]%checked_Ok Ha Hb'. apply round_half_even_nonneg; [done|].
    apply Z.quot_pos; [|lia]. pose proof precision_pos. nia.
  - cbn. intros a b Hb H. rewrite (proj2 (Z.eqb_neq b 0) Hb). eexists. apply checked_small.
    pose proof (ref_quo_close a b Hb). nia.
  - cbn. intros a b e. destruct (b =? 0); [done|]. unfold checked. by destruct (fits _ _).
  - cbn. intros a c [-> _]%checked_Ok. by apply round_half_even_close.
  - cbn. intros a H. eexists. apply checked_small.
    pose proof (round_half_even_close a precision precision_pos).
    pose proof precision_pos. nia.
  - cbn. intros a c [-> _]%checked_Ok.
    pose proof (Z.div_mod (- a) precision ltac:(done)).
    pose proof (Z.mod_pos_bound (- a) precision ltac:(done)). split; [lia|by eexists].
  - cbn. intros a H. eexists. apply checked_small.
    pose proof (Z.div_mod (- a) precision ltac:(done)).
    pose proof (Z.mod_pos_bound (- a) precision ltac:(done)). lia.
Qed.

(** ** Coins

    Coins and decimal coins share their list operations: a list of
    denomination/amount pairs in which equal denominations are merged, zero
    amounts dropped and the entries sorted by denomination. *)

Fixpoint add_entry (d : string) (a : Z) (l : list (string * Z)) : list (string * Z) :=
  match l with
  | [] => if a =? 0 then [] else [(d, a)]
  | (e, x) :: l' =>
      if String.eqb e d then (if x + a =? 0 then l' else (e, x + a) :: l')
      else if String.leb d e then (if a =? 0 then l else (d, a) :: l)
      else (e, x) :: add_entry d a l'
  end.

Definition entry_le (x y : string * Z) : Prop := String.le x.1 y.1.

#[global] Instance entry_le_dec : RelDecision entry_le.
Proof. intros x y. unfold entry_le. apply _. Defined.

#[global] Instance entry_le_total : Total entry_le.
Proof. intros x y. unfold entry_le. apply (total String.le). Qed.

#[global] Instance entry_le_trans : Transitive entry_le.
Proof. intros x y z. unfold entry_le. by etrans. Qed.

Definition merge_entries (l1 l2 : list (string * Z)) : list (string * Z) :=
  foldr (fun e l => add_entry e.1 e.2 l) l1 l2.

Fixpoint strictly_sorted (ds : list string) : bool :=
  match ds with
  | [] => true
  | d :: ds' => forallb (fun e => String.leb d e && negb (String.eqb d e)) ds' && strictly_sorted ds'
  end.

Definition of_coin (c : Coin) : string * Z := (coin_denom c, coin_amount c).
Definition to_coin (e : string * Z) : Coin := mkCoin e.1 e.2.
Definition of_dcoin (c : DecCoin) : string * Z := (dcoin_denom c, dcoin_amount c).
Definition to_dcoin (e : string * Z) : DecCoin := mkDecCoin e.1 e.2.

Definition eamt (l : list (string * Z)) (d : string) : Z :=
  sumZ (fun e => if String.eqb e.1 d then e.2 else 0) l.

#[global] Arguments eamt l d : simpl never.

Definition entries_wf (l : list (string * Z)) : Prop :=
  Forall (fun e => 0 < e.2) l /\ denoms_wf (l.*1).

Definition mul_entries (M : SdkMath) (l : list (string * Z)) (k : Z) : res (list (string * Z)) :=
  foldM (fun acc e => p ← dec_mul e.2 k; Ok (add_entry e.1 p acc)) l [].

Definition trunc_entries (l : list (string * Z)) : list (string * Z) :=
  foldr (fun e acc => add_entry e.1 (Z.quot e.2 precision) acc) [] l.

Definition ref_new_coin (d : string) (a : Z) : res Coin :=
  if negb (String.eqb d "") && (0 <=? a) then Ok (mkCoin d a) else Panic.

Definition ref_new_dec_coin (d : string) (a : Z) : res DecCoin :=
  if negb (String.eqb d "") && (0 <=? a) then Ok (mkDecCoin d a) else Panic.

Definition ref_coins : SdkCoins := {|
  ValidDenom d := negb (String.eqb d "");
  new_coin := ref_new_coin;
  new_dec_coin := ref_new_dec_coin;
  coin_is_valid c := negb (String.eqb (coin_denom c) "") && (0 <=? coin_amount c);
  coin_add c1 c2 :=
    if String.eqb (coin_denom c1) (coin_denom c2)
    then a ← @int_add ref_math (coin_amount c1) (coin_amount c2); Ok (mkCoin (coin_denom c1) a)
    else Panic;
  deccoin_add c1 c2 :=
    if String.eqb (dcoin_denom c1) (dcoin_denom c2)
    then a ← @dec_add ref_math (dcoin_amount c1) (dcoin_amount c2);
         Ok (mkDecCoin (dcoin_denom c1) a)
    else Panic;
  deccoin_sub c1 c2 :=
    if String.eqb (dcoin_denom c1) (dcoin_denom c2)
    then a ← @dec_sub ref_math (dcoin_amount c1) (dcoin_amount c2);
         if a <? 0 then Panic else Ok (mkDecCoin (dcoin_denom c1) a)
    else Panic;
  truncate_decimal c :=
    t ← @dec_truncate_int ref_math (dcoin_amount c);
    ch ← @dec_sub ref_math (dcoin_amount c) (NewDec t);
    tc ← ref_new_coin (dcoin_denom c) t;
    cc ← ref_new_dec_coin (dcoin_denom c) ch;
    Ok (tc, cc);
  new_coins cs :=
    if existsb (fun c => coin_amount c <? 0) cs then Panic
    else Ok (to_coin <$> merge_entries [] (of_coin <$> cs));
  coins_add a b := Ok (to_coin <$> merge_entries (of_coin <$> a) (of_coin <$> b));
  coins_safe_sub a b :=
    let c := merge_entries (of_coin <$> a) ((fun c => (coin_denom c, - coin_amount c)) <$> b) in
    Ok (to_coin <$> c, existsb (fun e => e.2 <? 0) c);
  coins_sub a b :=
    let c := merge_entries (of_coin <$> a) ((fun c => (coin_denom c, - coin_amount c)) <$> b) in
    if existsb (fun e => e.2 <? 0) c then Panic else Ok (to_coin <$> c);
  coins_is_zero cs := forallb (fun c => coin_amount c =? 0) cs;
  coins_is_valid cs :=
    forallb (fun c => 0 <? coin_amount c) cs && strictly_sorted (coin_denom <$> cs);
  coins_amount_of cs d := amt cs d;
  coins_sort cs := to_coin <$> merge_sort entry_le (of_coin <$> cs);
  coins_is_any_gte a b :=
    existsb (fun c => (amt b (coin_denom c) <=? coin_amount c) && negb (amt b (coin_denom c) =? 0)) a;
  deccoins_is_zero cs := forallb (fun c => dcoin_amount c =? 0) cs;
  deccoins_of_coins cs := Ok ((fun c => mkDecCoin (coin_denom c) (NewDec (coin_amount c))) <$> cs);
  deccoins_add a b := Ok (to_dcoin <$> merge_entries (of_dcoin <$> a) (of_dcoin <$> b));
  deccoins_mul cs k :=
    l ← mul_entries ref_math (of_dcoin <$> cs) k; Ok (fmap (M:=list) to_dcoin l);
  deccoins_truncate cs :=
    Ok (to_coin <$> trunc_entries (of_dcoin <$> cs),
        to_dcoin <$> foldr (fun e acc => add_entry e.1 (Z.rem e.2 precision) acc) []
                       (of_dcoin <$> cs));
|}.

Lemma eamt_cons e l d : eamt (e :: l) d = (if String.eqb e.1 d then e.2 else 0) + eamt l d.
Proof. done. Qed.

Lemma amt_eamt cs d : amt cs d = eamt (of_coin <$> cs) d.
Proof. unfold amt, eamt. induction cs; cbn; [done|]. unfold sumZ in *. cbn. by rewrite IHcs. Qed.

Lemma amt_to_coin l d : amt (to_coin <$> l) d = eamt l d.
Proof. unfold amt, eamt. induction l; cbn; [done|]. unfold sumZ in *. cbn. by rewrite IHl. Qed.

Lemma damt_eamt cs d : damt cs d = eamt (of_dcoin <$> cs) d.
Proof. unfold damt, eamt. induction cs; cbn; [done|]. unfold sumZ in *. cbn. by rewrite IHcs. Qed.

Lemma damt_to_dcoin l d : damt (to_dcoin <$> l) d = eamt l d.
Proof. unfold damt, eamt. induction l; cbn; [done|]. unfold sumZ in *. cbn. by rewrite IHl. Qed.

Lemma add_entry_amt d a l e :
  eamt (add_entry d a l) e = eamt l e + (if String.eqb d e then a else 0).
Proof.
  induction l as [|[x y] l IH]; cbn [add_entry].
  - destruct (Z.eqb_spec a 0); rewrite ?eamt_cons; cbn; destruct (String.eqb d e); lia.
  - destruct (String.eqb_spec x d) as [->|Hx]; [|destruct (String.leb d x)].
    + destruct (Z.eqb_spec (y + a) 0); rewrite ?eamt_cons; cbn;
        destruct (String.eqb d e); lia.
    + destruct (Z.eqb_spec a 0); rewrite ?eamt_cons; cbn; destruct (String.eqb d e); lia.
    + rewrite !eamt_cons, IH. cbn. lia.
Qed.

Lemma add_entry_keys d a l e : e ∈ (add_entry d a l).*1 -> e = d \/ e ∈ l.*1.
Proof.
  induction l as [|[x y] l IH]; cbn [add_entry].
  - destruct (a =? 0); cbn; set_solver.
  - destruct (String.eqb_spec x d) as [->|Hx]; [|destruct (String.leb d x)].
    + destruct (y + a =? 0); cbn; set_solver.
    + destruct (a =? 0); cbn; set_solver.
    + cbn. set_solver.
Qed.

Lemma denoms_wf_cons d ds :
  denoms_wf (d :: ds) <-> denoms_wf ds /\ Forall (fun e => String.le d e /\ e <> d) ds.
Proof.
  unfold denoms_wf. rewrite NoDup_cons. split.
  - intros [[Hin Hnd] Hs]. apply StronglySorted_inv in Hs as [Hs Hall]. split; [done|].
    rewrite Forall_forall in *. intros e He. split; [by apply Hall|]. by intros ->.
  - intros [[Hnd Hs] Hall]. repeat split; [|done|].
    + intros Hd. rewrite Forall_forall in Hall. by destruct (Hall d Hd).
    + constructor; [done|]. eapply Forall_impl; [exact Hall|]. by intros e [].
Qed.

Lemma strictly_sorted_wf ds : strictly_sorted ds = true -> denoms_wf ds.
Proof.
  induction ds as [|d ds IH]; [auto with go|]. cbn. intros [H1 H2]%andb_true_iff.
  apply denoms_wf_cons. split; [by apply IH|]. rewrite forallb_forall in H1.
  apply Forall_forall. intros e He%list_elem_of_In. apply H1 in He.
  apply andb_true_iff in He as [He Hne]. split; [by unfold String.le; rewrite He|].
  intros ->. by rewrite String.eqb_refl in Hne.
Qed.

Lemma add_entry_denoms d a l : denoms_wf l.*1 -> denoms_wf (add_entry d a l).*1.
Proof.
  induction l as [|[x y] l IH]; cbn [add_entry]; intros H.
  - destruct (a =? 0); cbn; auto with go.
  - cbn in H. pose proof (proj1 (denoms_wf_cons _ _) H) as [Hl Hx].
    destruct (String.eqb_spec x d) as [->|Hne]; [by destruct (y + a =? 0)|].
    destruct (String.leb d x) eqn:Hle.
    + destruct (a =? 0); [done|]. cbn. apply denoms_wf_cons. split; [done|].
      assert (String.le d x) as Hdx by (unfold String.le; by rewrite Hle).
      constructor; [done|]. eapply Forall_impl; [exact Hx|]. intros e [He _].
      split; [by etrans|]. intros ->. by destruct Hne; apply (anti_symm String.le).
    + cbn. apply denoms_wf_cons. split; [by apply IH|]. rewrite Forall_forall in *.
      intros e [->|He]%add_entry_keys; [|by apply Hx]. split; [|done].
      destruct (total String.le x d) as [|Hd]; [done|]. unfold String.le in Hd. by rewrite Hle in Hd.
Qed.

Lemma add_entry_wf d a l : 0 <= a -> entries_wf l -> entries_wf (add_entry d a l).
Proof.
  intros Ha [H1 H2]. split; [|by apply add_entry_denoms].
  clear H2. induction H1 as [|[x y] l Hy H1 IH]; cbn [add_entry].
  - destruct (Z.eqb_spec a 0); repeat constructor. cbn. lia.
  - destruct (String.eqb_spec x d) as [->|Hx]; [|destruct (String.leb d x)].
    + destruct (Z.eqb_spec (y + a) 0); [done|]. constructor; [cbn in *; lia|done].
    + destruct (Z.eqb_spec a 0); repeat constructor; try done. cbn in *. lia.
    + by constructor.
Qed.

Lemma eamt_perm l1 l2 d : l1 ≡ₚ l2 -> eamt l1 d = eamt l2 d.
Proof. apply sumZ_perm. Qed.

Lemma merge_entries_amt l1 l2 d : eamt (merge_entries l1 l2) d = eamt l1 d + eamt l2 d.
Proof.
  unfold merge_entries. induction l2 as [|e l IH].
  { change (eamt [] d) with 0. cbn [foldr]. lia. }
  cbn [foldr].
  rewrite add_entry_amt, IH, eamt_cons. lia.
Qed.

Lemma merge_entries_wf l1 l2 :
  entries_wf l1 -> Forall (fun e => 0 <= e.2) l2 -> entries_wf (merge_entries l1 l2).
Proof. intros H1 H2. unfold merge_entries. induction H2; cbn; [done|]. by apply add_entry_wf. Qed.

(** Sorting entries without repetition makes them well-formed. *)
Lemma sort_entries_wf l :
  Forall (fun e => 0 < e.2) l -> NoDup l.*1 -> entries_wf (merge_sort entry_le l).
Proof.
  intros H1 H2. pose proof (merge_sort_Permutation entry_le l) as Hp.
  split; [by rewrite Hp|]. split; [by rewrite Hp|].
  pose proof (StronglySorted_merge_sort entry_le l) as Hs.
  clear Hp. induction Hs as [|e l' Hs IH Hall]; cbn; [constructor|]. constructor; [done|].
  by apply Forall_fmap.
Qed.

Lemma wf_of_coins cs : coins_wf cs <-> entries_wf (of_coin <$> cs).
Proof.
  unfold coins_wf, entries_wf. rewrite Forall_fmap, <- list_fmap_compose. done.
Qed.

Lemma wf_to_coins l : coins_wf (to_coin <$> l) <-> entries_wf l.
Proof.
  unfold coins_wf, entries_wf. rewrite Forall_fmap, <- list_fmap_compose. done.
Qed.

Lemma wf_of_dcoins cs : deccoins_wf cs <-> entries_wf (of_dcoin <$> cs).
Proof.
  unfold deccoins_wf, entries_wf. rewrite Forall_fmap, <- list_fmap_compose. done.
Qed.

Lemma wf_to_dcoins l : deccoins_wf (to_dcoin <$> l) <-> entries_wf l.
Proof.
  unfold deccoins_wf, entries_wf. rewrite Forall_fmap, <- list_fmap_compose. done.
Qed.

Lemma entries_wf_nonneg l : entries_wf l -> Forall (fun e => 0 <= e.2) l.
Proof. intros [H _]. eapply Forall_impl; [exact H|]. cbn. lia. Qed.

Lemma mul_entries_spec {M : SdkMath} {ML : SdkMathLaws M} (l : list (string * Z)) k r d :
  foldM (fun acc e => p ← dec_mul e.2 k; Ok (add_entry e.1 p acc)) l r.1 = Ok r.2 ->
  NoDup l.*1 ->
  (entries_wf r.1 -> 0 <= k -> Forall (fun e => 0 < e.2) l -> entries_wf r.2) /\
  (d ∉ l.*1 -> eamt r.2 d = eamt r.1 d) /\
  (forall a, (d, a) ∈ l ->
     exists p, dec_mul a k = Ok p /\ eamt r.2 d = eamt r.1 d + p).
Proof.
  destruct r as [acc out]. cbn. revert acc.
  induction l as [|[e x] l IH]; intros acc H Hnd; cbn in H.
  - go_inv. split_and!; [done|done|]. intros a Ha. by apply elem_of_nil in Ha.
  - apply bind_Ok in H as (acc' & H & H').
    apply bind_Ok in H as (p & Hp & [= <-]).
    cbn in Hnd. apply NoDup_cons in Hnd as [He Hnd].
    destruct (IH _ H' Hnd) as (IH1 & IH2 & IH3). split_and!.
    + intros Hacc Hk Hpos. apply Forall_cons in Hpos as [Hx Hpos].
      apply IH1; [|done|done]. apply add_entry_wf; [|done].
      eapply dec_mul_nonneg; [exact Hp|cbn in Hx; lia|done].
    + intros Hd. cbn in Hd. rewrite IH2, add_entry_amt by set_solver.
      destruct (String.eqb_spec e d); [set_solver|lia].
    + intros a [Ha|Ha]%elem_of_cons.
      * injection Ha as -> ->. exists p. split; [done|].
        rewrite IH2, add_entry_amt, String.eqb_refl by done. lia.
      * destruct (IH3 a Ha) as (q & Hq & ->). exists q. split; [done|].
        rewrite add_entry_amt. destruct (String.eqb_spec e d) as [->|]; [|lia].
        exfalso. apply He. apply list_elem_of_fmap. by exists (d, a).
Qed.

Lemma eamt_notin (l : list (string * Z)) d : d ∉ l.*1 -> eamt l d = 0.
Proof.
  induction l as [|[e x] l IH]; intros H; [done|]. rewrite eamt_cons. cbn in *.
  destruct (String.eqb_spec e d); [set_solver|]. rewrite IH; [lia|set_solver].
Qed.

Lemma eamt_in (l : list (string * Z)) d a : NoDup l.*1 -> (d, a) ∈ l -> eamt l d = a.
Proof.
  induction l as [|[e x] l IH]; intros Hnd H; [by apply elem_of_nil in H|].
  cbn in Hnd. apply NoDup_cons in Hnd as [He Hnd]. rewrite eamt_cons. cbn.
  apply elem_of_cons in H as [H|H].
  - injection H as -> ->. rewrite String.eqb_refl, eamt_notin by done. lia.
  - rewrite (IH Hnd H). destruct (String.eqb_spec e d) as [->|]; [|lia].
    exfalso. apply He. apply list_elem_of_fmap. by exists (d, a).
Qed.

Lemma ref_mul_zero k : @dec_mul ref_math 0 k = Ok 0.
Proof. done. Qed.

Lemma ref_deccoins_mul_amt (l out : list (string * Z)) k d :
  mul_entries ref_math l k = Ok out -> NoDup l.*1 ->
  @dec_mul ref_math (eamt l d) k = Ok (eamt out d).
Proof.
  intros H Hnd. destruct (mul_entries_spec l k ([], out) d H Hnd) as (_ & H1 & H2). cbn in *.
  destruct (decide (d ∈ l.*1)) as [Hd|Hd].
  - apply list_elem_of_fmap in Hd as ([e a] & Hd & Ha). cbn in Hd. subst e.
    destruct (H2 a Ha) as (p & Hp & Ho). rewrite (eamt_in l d a) by done.
    rewrite Hp, Ho. done.
  - rewrite (eamt_notin l d) by done. rewrite H1 by done. apply ref_mul_zero.
Qed.

Lemma trunc_entries_wf (l : list (string * Z)) : entries_wf l -> entries_wf (trunc_entries l).
Proof.
  intros [H _]. unfold trunc_entries. induction H as [|e l He H IH]; cbn.
  - split; [constructor|]. auto with go.
  - apply add_entry_wf; [|done]. apply quot_precision_nonneg. cbn in He. lia.
Qed.

Lemma trunc_entries_amt (l : list (string * Z)) d :
  NoDup l.*1 -> eamt (trunc_entries l) d = Z.quot (eamt l d) precision.
Proof.
  unfold trunc_entries. induction l as [|[e x] l IH]; intros Hnd; [done|].
  cbn [foldr]. cbn in Hnd. apply NoDup_cons in Hnd as [He Hnd].
  rewrite add_entry_amt, IH, eamt_cons by done. cbn.
  destruct (String.eqb_spec e d) as [->|].
  - rewrite (eamt_notin l d) by done. rewrite Z.add_0_r. cbn. done.
  - cbn. by rewrite Z.add_0_r.
Qed.

Lemma neg_entries_amt (cs : list Coin) d :
  eamt ((fun c => (coin_denom c, - coin_amount c)) <$> cs) d = - amt cs d.
Proof.
  induction cs as [|c cs IH]; [done|].
  rewrite fmap_cons, eamt_cons, IH. unfold amt. rewrite sumZ_cons. cbn.
  destruct (String.eqb _ _); lia.
Qed.


Lemma forallb_wf cs :
  @coins_is_valid ref_coins cs = true -> coins_wf cs.
Proof.
  cbn. intros [H1 H2]%andb_true_iff. split; [|by apply strictly_sorted_wf].
  apply Forall_forall. intros c Hc. rewrite forallb_forall in H1.
  apply Z.ltb_lt. apply H1. by apply list_elem_of_In.
Qed.

(** Merging keeps the entries non-zero and in order. *)
Lemma add_entry_nonzero d a l :
  Forall (fun e => e.2 <> 0) l -> Forall (fun e => e.2 <> 0) (add_entry d a l).
Proof.
  induction l as [|[x y] l IH]; intros H; cbn.
  - destruct (Z.eqb_spec a 0) as [|Ha]; [constructor|by apply Forall_singleton].
  - pose proof (proj1 (Forall_cons _ _ _) H) as [Hx Hl].
    destruct (String.eqb x d); [|destruct (String.leb d x)].
    + destruct (Z.eqb_spec (y + a) 0); [done|by constructor].
    + destruct (Z.eqb_spec a 0); [done|by constructor].
    + constructor; auto.
Qed.

Lemma merge_entries_denoms l1 l2 :
  Forall (fun e => e.2 <> 0) l1 -> denoms_wf l1.*1 ->
  Forall (fun e => e.2 <> 0) (merge_entries l1 l2) /\ denoms_wf (merge_entries l1 l2).*1.
Proof.
  intros H1 H2. induction l2 as [|[d a] l IH]; [done|]. cbn. destruct IH as [IH1 IH2].
  split; [by apply add_entry_nonzero|by apply add_entry_denoms].
Qed.

Lemma ref_safe_sub_total (a b : list Coin) :
  coins_wf a -> coins_wf b -> (forall d, amt b d <= amt a d < int_bound) ->
  exists c, @coins_safe_sub ref_coins a b = Ok (c, false) /\ coins_wf c.
Proof.
  intros Ha _ Hle. cbn. set (c := merge_entries _ _).
  destruct (merge_entries_denoms (of_coin <$> a) ((fun c => (coin_denom c, - coin_amount c)) <$> b))
    as [Hne Hd].
  { apply Forall_fmap. eapply Forall_impl; [exact (proj1 Ha)|]. cbn. lia. }
  { rewrite <- list_fmap_compose. apply (proj2 Ha). }
  fold c in Hne, Hd. assert (Hpos : Forall (fun e => 0 < e.2) c).
  { rewrite Forall_forall in *. intros [d x] He. specialize (Hne _ He). specialize (Hle d).
    pose proof (eamt_in c d x (proj1 Hd) He) as Hx. unfold c in Hx.
    rewrite merge_entries_amt, neg_entries_amt, <- amt_eamt in Hx. cbn in *. lia. }
  exists (to_coin <$> c). split; [|by apply wf_to_coins]. do 2 f_equal.
  apply not_true_is_false. intros (e & He & Hx)%existsb_exists. rewrite Forall_forall in Hpos.
  apply list_elem_of_In, Hpos in He. lia.
Qed.

#[global] Instance ref_coins_laws : SdkCoinsLaws ref_math ref_coins.
Proof.
  split; try reflexivity.
  - intros [d a] Hd Ha. cbn in *. rewrite (proj2 (Z.ltb_ge a 0) Ha). cbn.
    by destruct (Z.eqb_spec a 0).
  - intros [d a] Ha. cbn in *. by rewrite (proj2 (Z.ltb_lt a 0) Ha).
  - intros [d a] cs. cbn. rewrite orb_false_r. destruct (Z.ltb_spec a 0); [done|].
    intros [= <-]. by destruct (Z.eqb_spec a 0).
  - intros cs e. cbn. by destruct (existsb _ cs).
  - intros cs e. done.
  - intros a b e. done.
  - cbn. intros a b c d H. go_inv. by rewrite amt_to_coin, merge_entries_amt, !amt_eamt.
  - cbn. intros a b c H Ha Hb. go_inv. apply wf_to_coins, merge_entries_wf.
    + by apply wf_of_coins.
    + by apply entries_wf_nonneg, wf_of_coins.
  - cbn. eauto.
  - cbn. intros a b c neg d H. injection H as <- _.
    rewrite amt_to_coin, merge_entries_amt, neg_entries_amt, !amt_eamt. lia.
  - cbn. intros a b c H. injection H as <- H. apply Forall_fmap, Forall_forall. intros e He.
    apply Z.ltb_ge, not_true_is_false. intros E. apply (diff_true_false). rewrite <- H. symmetry.
    apply existsb_exists. exists e. by rewrite <- list_elem_of_In.
  - apply ref_safe_sub_total.
  - cbn. intros cs. rewrite forallb_forall, Forall_forall. setoid_rewrite list_elem_of_In.
    setoid_rewrite Z.eqb_eq. done.
  - apply forallb_wf.
  - intros [d a] _ Ha. cbn in *. rewrite (proj2 (Z.ltb_lt 0 a) Ha). cbn.
    done.
  - cbn. intros cs. rewrite merge_sort_Permutation, <- list_fmap_compose.
    rewrite (Forall_fmap_ext_1 _ id); [by rewrite list_fmap_id|].
    apply Forall_true. by intros [].
  - cbn. intros cs. rewrite <- list_fmap_compose.
    pose proof (StronglySorted_merge_sort entry_le (of_coin <$> cs)) as Hs.
    induction Hs as [|e l Hs IH Hall]; cbn; [constructor|]. constructor; [done|]. by apply Forall_fmap.
  - cbn. intros cs d _. rewrite amt_to_coin, amt_eamt. by apply eamt_perm, merge_sort_Permutation.
  - cbn. intros a b _. rewrite existsb_exists. setoid_rewrite andb_true_iff.
    setoid_rewrite Z.leb_le. setoid_rewrite negb_true_iff. setoid_rewrite Z.eqb_neq.
    setoid_rewrite list_elem_of_In. naive_solver.
  - cbn. intros cs. rewrite forallb_forall, Forall_forall. setoid_rewrite list_elem_of_In.
    setoid_rewrite Z.eqb_eq. done.
  - cbn. intros cs ds d H. go_inv. unfold damt, amt, NewDec, sumZ.
    induction cs as [|c cs IH]; cbn; [done|]. rewrite IH. cbn.
    destruct (String.eqb _ _); lia.
  - cbn. intros a b c d H. go_inv. by rewrite damt_to_dcoin, merge_entries_amt, !damt_eamt.
  - cbn. intros a b c H Ha Hb. go_inv. apply wf_to_dcoins, merge_entries_wf.
    + by apply wf_of_dcoins.
    + by apply entries_wf_nonneg, wf_of_dcoins.
  - cbn. intros a c r H Ha Hc. go_inv. apply wf_to_dcoins, add_entry_wf; [done|].
    by apply wf_of_dcoins.
  - cbn. intros cs k ds H Hcs Hk. go_inv. apply wf_to_dcoins. apply wf_of_dcoins in Hcs as [H1 [H2 _]].
    destruct (mul_entries_spec _ k ([], v) "" Hv H2) as (Hw & _). apply Hw; [|done|done].
    split; [constructor|]. auto with go.
  - intros cs k ds d H Hcs. cbn [deccoins_mul ref_coins] in H. go_inv.
    rewrite damt_to_dcoin, damt_eamt. apply wf_of_dcoins in Hcs as [_ [H2 _]].
    by apply ref_deccoins_mul_amt.
  - cbn. intros ds cs ch H Hds. injection H as <- _. apply wf_to_coins.
    by apply trunc_entries_wf, wf_of_dcoins.
  - cbn. intros ds cs ch d H Hds. injection H as <- _. apply wf_of_dcoins in Hds as [_ [H2 _]].
    rewrite amt_to_coin, damt_eamt. by apply trunc_entries_amt.
Qed.

(** ** The bank *)

Record RefBank : Type := mkRefBank {
  rb_balance : gmap (string * string) N;   (* (address, denomination) *)
  rb_supply : gmap string Z;
}.

Definition rb_get (b : RefBank) (a d : string) : Z := Z.of_N (default 0%N (rb_balance b !! (a, d))).
Definition rb_put (b : RefBank) (a d : string) (z : Z) : RefBank :=
  mkRefBank (<[(a, d) := Z.to_N z]> (rb_balance b)) (rb_supply b).
Definition rb_sup (b : RefBank) (d : string) : Z := default 0 (rb_supply b !! d).
Definition rb_put_sup (b : RefBank) (d : string) (z : Z) : RefBank :=
  mkRefBank (rb_balance b) (<[d := z]> (rb_supply b)).

Definition ref_err_funds : error := Registered "sdk" "ErrInsufficientFunds".

Definition rb_sub1 (b : RefBank) (a : string) (c : Coin) : res RefBank :=
  let x := rb_get b a (coin_denom c) in
  if (coin_amount c <? 0) || (x <? coin_amount c) then Err ref_err_funds
  else Ok (rb_put b a (coin_denom c) (x - coin_amount c)).

Definition rb_add1 (b : RefBank) (a : string) (c : Coin) : RefBank :=
  rb_put b a (coin_denom c) (rb_get b a (coin_denom c) + coin_amount c).

Definition rb_send1 (f t : string) (b : RefBank) (c : Coin) : res RefBank :=
  b1 ← rb_sub1 b f c; Ok (rb_add1 b1 t c).

Definition rb_mint1 (m : string) (b : RefBank) (c : Coin) : res RefBank :=
  if coin_amount c <? 0 then Err ref_err_funds
  else Ok (rb_put_sup (rb_add1 b m c) (coin_denom c) (rb_sup b (coin_denom c) + coin_amount c)).

Definition rb_burn1 (m : string) (b : RefBank) (c : Coin) : res RefBank :=
  b1 ← rb_sub1 b m c;
  Ok (rb_put_sup b1 (coin_denom c) (rb_sup b (coin_denom c) - coin_amount c)).

Definition rb_held (b : RefBank) (a : string) : list Coin :=
  omap (fun '((a', d), n) =>
          if String.eqb a' a && negb (n =? 0)%N then Some (mkCoin d (Z.of_N n)) else None)
       (map_to_list (rb_balance b)).

Definition rb_all (b : RefBank) (a : string) : list Coin :=
  to_coin <$> merge_sort entry_le (of_coin <$> rb_held b a).

#[global] Instance ref_bank : BankKeeper RefBank := {|
  module_address m := ("module/" +:+ m)%string;
  get_balance := rb_get;
  get_supply := rb_sup;
  get_all_balances := rb_all;
  send_coins b f t cs := foldM (rb_send1 f t) cs b;
  mint_coins b m cs := foldM (rb_mint1 ("module/" +:+ m)%string) cs b;
  burn_coins b m cs := foldM (rb_burn1 ("module/" +:+ m)%string) cs b;
|}.

Lemma rb_get_put b a d z a' d' :
  0 <= z -> rb_get (rb_put b a d z) a' d' = if decide (a = a' /\ d = d') then z else rb_get b a' d'.
Proof.
  intros Hz. unfold rb_get, rb_put. cbn. case_decide as H.
  - destruct H as [-> ->]. rewrite lookup_insert_eq. cbn. lia.
  - rewrite lookup_insert_ne; [done|]. naive_solver.
Qed.

Lemma rb_sup_put b d z d' :
  rb_sup (rb_put_sup b d z) d' = if decide (d = d') then z else rb_sup b d'.
Proof.
  unfold rb_sup, rb_put_sup. cbn. case_decide as H.
  - subst. by rewrite lookup_insert_eq.
  - by rewrite lookup_insert_ne.
Qed.

Lemma rb_sub1_Ok b a c b' :
  rb_sub1 b a c = Ok b' ->
  0 <= coin_amount c <= rb_get b a (coin_denom c) /\
  (forall a' d, rb_get b' a' d = rb_get b a' d - if_eq a' a (amt [c] d)) /\
  (forall d, rb_sup b' d = rb_sup b d).
Proof.
  unfold rb_sub1. destruct (Z.ltb_spec (coin_amount c) 0); [done|].
  destruct (Z.ltb_spec (rb_get b a (coin_denom c)) (coin_amount c)); [done|].
  cbn. intros [= <-]. split_and!; [lia|lia| |done].
  intros a' d. rewrite rb_get_put by lia. unfold if_eq. rewrite amt_single.
  case_decide as Hd.
  - destruct Hd as [-> <-]. rewrite !String.eqb_refl. done.
  - destruct (String.eqb_spec a' a); [|lia].
    destruct (String.eqb_spec (coin_denom c) d); [naive_solver|lia].
Qed.

Lemma rb_get_nonneg b a d : 0 <= rb_get b a d.
Proof. unfold rb_get. lia. Qed.

Lemma rb_add1_get b a c a' d :
  0 <= coin_amount c ->
  rb_get (rb_add1 b a c) a' d = rb_get b a' d + if_eq a' a (amt [c] d).
Proof.
  intros Hc. unfold rb_add1. pose proof (rb_get_nonneg b a (coin_denom c)).
  rewrite rb_get_put by lia. unfold if_eq. rewrite amt_single.
  case_decide as Hd.
  - destruct Hd as [-> <-]. rewrite !String.eqb_refl. done.
  - destruct (String.eqb_spec a' a); [|lia].
    destruct (String.eqb_spec (coin_denom c) d); [naive_solver|lia].
Qed.

Lemma if_eq_add a b x y : if_eq a b (x + y) = if_eq a b x + if_eq a b y.
Proof. unfold if_eq. destruct (String.eqb a b); lia. Qed.

Lemma amt_cons c cs d : amt (c :: cs) d = amt [c] d + amt cs d.
Proof. change (c :: cs) with ([c] ++ cs). by rewrite amt_app. Qed.

Lemma rb_send_spec cs b f t b' :
  foldM (rb_send1 f t) cs b = Ok b' ->
  (forall a d, rb_get b' a d = rb_get b a d - if_eq a f (amt cs d) + if_eq a t (amt cs d)) /\
  (forall d, rb_sup b' d = rb_sup b d).
Proof.
  revert b. induction cs as [|c cs IH]; intros b H.
  - injection H as <-. split; [|done]. intros a d. rewrite amt_nil.
    unfold if_eq. destruct (String.eqb a f), (String.eqb a t); lia.
  - cbn [foldM] in H. apply bind_Ok in H as (b1 & H1 & H).
    unfold rb_send1 in H1. apply bind_Ok in H1 as (b2 & H2 & [= <-]).
    apply rb_sub1_Ok in H2 as (Hc & H2 & H3). apply IH in H as [H4 H5].
    split.
    + intros a d. rewrite H4, rb_add1_get, H2, (amt_cons c cs), !if_eq_add by lia. lia.
    + intros d. rewrite H5. apply H3.
Qed.

Lemma rb_mint_spec cs b m b' :
  foldM (rb_mint1 m) cs b = Ok b' ->
  (forall a d, rb_get b' a d = rb_get b a d + if_eq a m (amt cs d)) /\
  (forall d, rb_sup b' d = rb_sup b d + amt cs d).
Proof.
  revert b. induction cs as [|c cs IH]; intros b H.
  - injection H as <-. split; intros; rewrite amt_nil; [|lia].
    unfold if_eq. destruct (String.eqb a m); lia.
  - cbn [foldM] in H. apply bind_Ok in H as (b1 & H1 & H).
    unfold rb_mint1 in H1. destruct (Z.ltb_spec (coin_amount c) 0); [done|].
    injection H1 as <-. apply IH in H as [H4 H5]. split.
    + intros a d. rewrite H4, (amt_cons c cs), if_eq_add.
      change (rb_get (rb_put_sup ?x _ _)) with (rb_get x).
      rewrite rb_add1_get by lia. lia.
    + intros d. rewrite H5, (amt_cons c cs), rb_sup_put, amt_single. case_decide as Hd.
      * subst. rewrite String.eqb_refl. lia.
      * destruct (String.eqb_spec (coin_denom c) d); [done|].
        change (rb_sup (rb_add1 b m c) d) with (rb_sup b d). lia.
Qed.

Lemma rb_burn_spec cs b m b' :
  foldM (rb_burn1 m) cs b = Ok b' ->
  (forall a d, rb_get b' a d = rb_get b a d - if_eq a m (amt cs d)) /\
  (forall d, rb_sup b' d = rb_sup b d - amt cs d).
Proof.
  revert b. induction cs as [|c cs IH]; intros b H.
  - injection H as <-. split; intros; rewrite amt_nil; [|lia].
    unfold if_eq. destruct (String.eqb a m); lia.
  - cbn [foldM] in H. apply bind_Ok in H as (b1 & H1 & H).
    unfold rb_burn1 in H1. apply bind_Ok in H1 as (b2 & H2 & [= <-]).
    apply rb_sub1_Ok in H2 as (Hc & H2 & H3). apply IH in H as [H4 H5]. split.
    + intros a d. rewrite H4, (amt_cons c cs), if_eq_add.
      change (rb_get (rb_put_sup ?x _ _)) with (rb_get x). rewrite H2. lia.
    + intros d. rewrite H5, (amt_cons c cs), rb_sup_put, amt_single, H3. case_decide as Hd.
      * subst. rewrite String.eqb_refl. lia.
      * destruct (String.eqb_spec (coin_denom c) d); [done|]. lia.
Qed.

Lemma rb_send_covered cs b f t b' d :
  foldM (rb_send1 f t) cs b = Ok b' -> NoDup (coin_denom <$> cs) -> amt cs d <= rb_get b f d.
Proof.
  revert b. induction cs as [|c cs IH]; intros b H Hnd; [apply rb_get_nonneg|].
  cbn [foldM] in H. apply bind_Ok in H as (b1 & H1 & H).
  unfold rb_send1 in H1. apply bind_Ok in H1 as (b2 & H2 & [= <-]).
  apply rb_sub1_Ok in H2 as (Hc & H2 & _).
  rewrite fmap_cons in Hnd. apply NoDup_cons in Hnd as [Hin Hnd].
  specialize (IH _ H Hnd). rewrite rb_add1_get, H2 in IH by lia.
  rewrite (amt_cons c cs). rewrite amt_single in *.
  destruct (String.eqb_spec (coin_denom c) d) as [<-|]; unfold if_eq in IH.
  - rewrite (amt_eamt cs), (eamt_notin _ (coin_denom c)); [lia|].
    by rewrite <- list_fmap_compose.
  - destruct (String.eqb f f), (String.eqb f t); lia.
Qed.

(** A loop that takes covered coins out of an account, and never takes more,
    succeeds. *)
Lemma rb_take_total (step : RefBank -> Coin -> res RefBank) f cs b :
  (forall b c b1, rb_sub1 b f c = Ok b1 -> 0 < coin_amount c ->
     exists b2, step b c = Ok b2 /\ forall d, rb_get b1 f d <= rb_get b2 f d) ->
  coins_wf cs -> (forall d, amt cs d <= rb_get b f d) ->
  exists b', foldM step cs b = Ok b'.
Proof.
  intros Hstep. revert b. induction cs as [|c cs IH]; intros b Hwf Hcov; [by eexists|].
  destruct Hwf as [Hpos Hnd]. apply Forall_cons in Hpos as [Hc Hpos].
  rewrite fmap_cons in Hnd. pose proof (proj1 (denoms_wf_cons _ _) Hnd) as [Hwf' _].
  destruct Hnd as [[Hin Hnd]%NoDup_cons _].
  assert (Hz : amt cs (coin_denom c) = 0).
  { rewrite amt_eamt. apply eamt_notin. by rewrite <- list_fmap_compose. }
  assert (Hx : coin_amount c <= rb_get b f (coin_denom c)).
  { specialize (Hcov (coin_denom c)). rewrite (amt_cons c cs), amt_single, String.eqb_refl in Hcov. lia. }
  destruct (rb_sub1 b f c) as [b1|e|] eqn:E.
  2,3: exfalso; unfold rb_sub1 in E; cbn in Hc;
    rewrite (proj2 (Z.ltb_ge _ 0)), (proj2 (Z.ltb_ge _ _) Hx) in E by lia; discriminate.
  destruct (Hstep _ _ _ E Hc) as (b2 & Hs & Hge).
  cbn [foldM]. rewrite Hs. cbn [mbind res_bind]. apply rb_sub1_Ok in E as (_ & E & _).
  apply IH; [by split|]. intros d. specialize (Hge d). rewrite E in Hge.
  specialize (Hcov d). rewrite (amt_cons c cs), amt_single in Hcov. rewrite amt_single in Hge.
  unfold if_eq in Hge. rewrite String.eqb_refl in Hge. revert Hcov Hge.
  destruct (String.eqb_spec (coin_denom c) d) as [Hd|Hd]; intros Hcov Hge.
  - rewrite <- Hd in *. lia.
  - lia.
Qed.

Lemma rb_send_total cs b f t :
  coins_wf cs -> (forall d, amt cs d <= rb_get b f d) ->
  exists b', foldM (rb_send1 f t) cs b = Ok b'.
Proof.
  apply rb_take_total. intros b1 c b2 E Hc. exists (rb_add1 b2 t c). split.
  - unfold rb_send1. by rewrite E.
  - intros d. rewrite rb_add1_get by lia. unfold if_eq. rewrite amt_single.
    destruct (String.eqb f t), (String.eqb (coin_denom c) d); lia.
Qed.

Lemma rb_burn_total cs b m :
  coins_wf cs -> (forall d, amt cs d <= rb_get b m d) ->
  exists b', foldM (rb_burn1 m) cs b = Ok b'.
Proof.
  apply rb_take_total. intros b1 c b2 E Hc. eexists. split.
  - unfold rb_burn1. by rewrite E.
  - intros d. done.
Qed.

Lemma rb_held_amt b a d : amt (rb_held b a) d = rb_get b a d.
Proof.
  unfold rb_held, rb_get. generalize (rb_balance b) as m. intros m.
  rewrite <- (list_to_map_to_list m) at 2.
  pose proof (NoDup_fst_map_to_list m) as Hnd. revert Hnd.
  generalize (map_to_list m) as l. clear m b.
  induction l as [|[[a' d'] n] l IH]; intros Hnd; [done|].
  cbn in Hnd. apply NoDup_cons in Hnd as [Hin Hnd]. specialize (IH Hnd).
  cbn. destruct (decide ((a', d') = (a, d))) as [E|E].
  - injection E as -> ->. rewrite lookup_insert_eq. cbn.
    rewrite (not_elem_of_list_to_map_1 l (a, d)) in IH by done. cbn in IH.
    rewrite String.eqb_refl. destruct (N.eqb_spec n 0) as [->|]; cbn; [done|].
    rewrite amt_cons, IH, amt_single. cbn. rewrite String.eqb_refl. lia.
  - rewrite lookup_insert_ne by done. rewrite <- IH.
    destruct (String.eqb_spec a' a) as [->|]; cbn; [|done].
    destruct (n =? 0)%N; cbn; [done|]. rewrite amt_cons, amt_single. cbn.
    destruct (String.eqb_spec d' d) as [->|]; [done|lia].
Qed.

Lemma rb_held_wf b a :
  Forall (fun c => 0 < coin_amount c) (rb_held b a) /\ NoDup (coin_denom <$> rb_held b a).
Proof.
  unfold rb_held. pose proof (NoDup_fst_map_to_list (rb_balance b)) as Hnd. revert Hnd.
  generalize (map_to_list (rb_balance b)) as l. clear b.
  induction l as [|[[a' d'] n] l IH]; intros Hnd; [split; constructor|].
  cbn in Hnd. apply NoDup_cons in Hnd as [Hin Hnd]. specialize (IH Hnd) as [IH1 IH2].
  cbn. destruct (String.eqb_spec a' a) as [->|]; cbn; [|by split].
  destruct (N.eqb_spec n 0); cbn; [by split|]. split; cbn.
  - constructor; [cbn; lia|done].
  - apply NoDup_cons. split; [|done]. intros H. apply Hin.
    apply list_elem_of_fmap in H as (c & -> & H).
    apply list_elem_of_omap in H as ([[a2 d2] n2] & H & Heq).
    apply list_elem_of_fmap. exists ((a2, d2), n2). split; [|done].
    destruct (String.eqb_spec a2 a) as [->|]; cbn in Heq; [|done].
    by destruct (n2 =? 0)%N; cbn in Heq; simplify_eq.
Qed.

Lemma rb_all_amt b a d : amt (rb_all b a) d = rb_get b a d.
Proof.
  unfold rb_all. rewrite amt_to_coin, <- rb_held_amt, amt_eamt. apply eamt_perm, merge_sort_Permutation.
Qed.

Lemma rb_all_wf b a : coins_wf (rb_all b a).
Proof.
  destruct (rb_held_wf b a) as [H1 H2]. apply wf_to_coins, sort_entries_wf.
  - by apply Forall_fmap.
  - by rewrite <- list_fmap_compose.
Qed.

#[global] Instance ref_bank_laws : BankLaws RefBank ref_bank.
Proof.
  split; cbn.
  - intros b f t cs b' a d H. by apply rb_send_spec in H as [H _].
  - intros b f t cs b' d H. by apply rb_send_spec in H as [_ H].
  - intros b f t cs b' d H [_ [Hnd _]]. eapply rb_send_covered; eauto.
  - intros b f t cs. apply rb_send_total.
  - intros b m cs b' a d H. by apply rb_mint_spec in H as [H _].
  - intros b m cs b' d H. by apply rb_mint_spec in H as [_ H].
  - intros b m cs b' a d H. by apply rb_burn_spec in H as [H _].
  - intros b m cs b' d H. by apply rb_burn_spec in H as [_ H].
  - intros b m cs. apply rb_burn_total.
  - apply rb_all_amt.
  - apply rb_all_wf.
Qed.

(** ** Addresses: the text is the address after one letter. *)

Definition ref_address_ok (a : string) : bool := match a with EmptyString => false | _ => true end.

Definition ref_parse (prefix : ascii) (s : string) : res string :=
  match s with
  | String c a => if Ascii.eqb c prefix && ref_address_ok a then Ok a else Err (Errorf "decoding bech32 failed")
  | EmptyString => Err (Errorf "decoding bech32 failed")
  end.

Definition ref_text (prefix : ascii) (a : string) : string :=
  match a with EmptyString => EmptyString | _ => String prefix a end.

Definition ref_bech32 : Bech32 := {|
  address_ok := ref_address_ok;
  AccAddressFromBech32 := ref_parse "t";
  AccAddressString := ref_text "t";
  ValAddressFromBech32 := ref_parse "v";
  ValAddressString := ref_text "v";
|}.

Lemma ref_parse_ok c s a : ref_parse c s = Ok a -> ref_address_ok a = true.
Proof. destruct s as [|x [|y s]]; cbn; [done|by rewrite andb_false_r|]. destruct (Ascii.eqb x c); cbn; [by intros [= <-]|done]. Qed.

Lemma ref_parse_text c a : ref_address_ok a = true -> ref_parse c (ref_text c a) = Ok a.
Proof. destruct a; [done|]. intros _. cbn. by rewrite Ascii.eqb_refl. Qed.

Lemma ref_parse_sound c a b : ref_parse c (ref_text c a) = Ok b -> b = a.
Proof. destruct a; [done|]. cbn. rewrite Ascii.eqb_refl. by intros [= <-]. Qed.

#[global] Instance ref_bech32_laws : Bech32Laws ref_bech32.
Proof.
  split; cbn; try done; eauto using ref_parse_ok, ref_parse_text, ref_parse_sound.
  intros [|x a] [|y b]; cbn; congruence.
Qed.
