(* ===== verification/Core.v ===== *)
(** * Constants and helpers shared by the modules ([src/types])

    Denominations, block periods, chain identifiers, fork heights, the block
    context the handlers read, and [IsPeriodLastBlock]. *)

From Stdlib Require Import ZArith Lia Bool.
From stdpp Require Import base strings.
From S2P Require Import Prelude.
Local Open Scope Z_scope.

(** ** Constants *)

Definition MicroLunaDenom : string := "uluna".
Definition MicroUSDDenom : string := "uusd".
Definition MicroKRWDenom : string := "ukrw".
Definition MicroSDRDenom : string := "usdr".
Definition MicroMNTDenom : string := "umnt".
Definition MicroUnit : Z := 1000000.

Definition BlocksPerMinute : Z := 10.
Definition BlocksPerHour : Z := BlocksPerMinute * 60.
Definition BlocksPerDay : Z := BlocksPerHour * 24.
Definition BlocksPerWeek : Z := BlocksPerDay * 7.
Definition BlocksPerMonth : Z := BlocksPerDay * 30.
Definition BlocksPerYear : Z := BlocksPerDay * 365.

Definition ColumbusChainID : string := "columbus-5".
Definition BombayChainID : string := "bombay-12".
Definition SwapDisableForkHeight : Z := 7607790.

(** The part of [sdk.Context] the modules read: the chain identifier and the
    block height (an [int64]). *)
Record Ctx : Type := mkCtx { ChainID : string; BlockHeight : Z }.

Definition is_luna (d : string) : bool := String.eqb d MicroLunaDenom.

#[global] Arguments is_luna d : simpl never.

(** [IsPeriodLastBlock]: [(uint64(height)+1) % blocksPerPeriod == 0]; the
    remainder by zero is a run-time panic. *)
Definition IsPeriodLastBlock (ctx : Ctx) (blocksPerPeriod : Z) : res bool :=
  if blocksPerPeriod =? 0 then Panic
  else Ok (to_uint64 (to_uint64 (BlockHeight ctx) + 1) mod blocksPerPeriod =? 0).

(** [AddressVerifier]: addresses are 20 bytes long. *)
Definition AddressVerifier (bz : list Byte.byte) : res unit :=
  fail_if (negb (Z.of_nat (length bz) =? 20)) (Errorf "incorrect address length").

(** ** Facts *)

(** On a chain of non-negative heights the last block of a period is the one
    whose height is congruent to [-1]. *)
Lemma IsPeriodLastBlock_spec (ctx : Ctx) (p : Z) :
  0 <= BlockHeight ctx < two63 -> 0 < p ->
  IsPeriodLastBlock ctx p = Ok ((BlockHeight ctx + 1) mod p =? 0).
Proof.
  intros H Hp. unfold IsPeriodLastBlock.
  destruct (Z.eqb_spec p 0); [lia|]. assert (two64 = 2 * two63) by done.
  rewrite (to_uint64_id (BlockHeight ctx)) by (unfold is_uint64; lia).
  by rewrite to_uint64_id by (unfold is_uint64; lia).
Qed.
