(* ===== verification/Market.v ===== *)
(** * The market module ([src/x/market])

    Swaps between Luna and the Terra currencies at the oracle's prices: the
    virtual liquidity pool ([TerraPoolDelta]), the spread, the swap handler,
    the swap simulation of the queries, the per-block replenishment, the
    parameters, the messages and the genesis.  The oracle is reached through
    the [OracleKeeper] interface the module declares, the bank through
    [BankKeeper]. *)

From Stdlib Require Import ZArith Lia Bool.
From stdpp Require Import base strings list gmap.
From S2P Require Import Prelude Sdk SdkRef Core.
Local Open Scope Z_scope.

(** ** Interface to the oracle ([types/expected_keepers.go])

    [rates_inv] is what the oracle maintains about its store; the laws say
    what the market may rely on while it holds. *)

Class OracleKeeper (O : Type) : Type := {
  GetLunaExchangeRate : O -> string -> res Dec;
  GetTobinTax : O -> string -> res Dec;
  rates_inv : O -> Prop;
}.

Class OracleKeeperLaws (O : Type) (K : OracleKeeper O) : Prop := {
  exchange_rate_pos o d r : rates_inv o -> GetLunaExchangeRate o d = Ok r -> 0 < r;
  exchange_rate_no_panic o d : GetLunaExchangeRate o d <> Panic;
  luna_rate_one o : GetLunaExchangeRate o MicroLunaDenom = Ok OneDec;
}.

(** ** Errors, parameters, messages *)

Definition ModuleName : string := "market".
Definition OracleModuleName : string := "oracle".

Definition ErrRecursiveSwap : error := Registered ModuleName "ErrRecursiveSwap".
Definition ErrNoEffectivePrice : error := Registered ModuleName "ErrNoEffectivePrice".
Definition ErrZeroSwapCoin : error := Registered ModuleName "ErrZeroSwapCoin".
Definition ErrInvalidCoins : error := Registered "sdk" "ErrInvalidCoins".
Definition ErrInvalidAddress : error := Registered "sdk" "ErrInvalidAddress".
Definition ErrPanic : error := Registered "sdk" "ErrPanic".

Record Params : Type := mkParams {
  BasePool : Dec;
  PoolRecoveryPeriod : Z;          (* uint64 *)
  MinStabilitySpread : Dec;
}.

Definition DefaultBasePool : Dec := NewDec (1000000 * MicroUnit).
Definition DefaultPoolRecoveryPeriod : Z := BlocksPerDay.
Definition DefaultMinStabilitySpread : Dec := NewDecWithPrec 2 2.

Definition DefaultParams : Params :=
  mkParams DefaultBasePool DefaultPoolRecoveryPeriod DefaultMinStabilitySpread.

(** [Params.Validate]. *)
Definition Validate (p : Params) : res unit :=
  fail_if (BasePool p <? 0) (Errorf "mint base pool should be positive or zero");;
  fail_if (PoolRecoveryPeriod p =? 0) (Errorf "pool recovery period should be positive");;
  fail_if ((MinStabilitySpread p <? 0) || (OneDec <? MinStabilitySpread p))
    (Errorf "market minimum stability spead should be a value between [0,1]").

(** The validators of the single parameters, run on a parameter change. *)
Definition validateBasePool (v : Dec) : res unit :=
  fail_if (v <? 0) (Errorf "mint base pool must be positive or zero").

Definition validatePoolRecoveryPeriod (v : Z) : res unit :=
  fail_if (v <=? 0) (Errorf "pool recovery period must be positive").

Definition validateMinStabilitySpread (v : Dec) : res unit :=
  fail_if (v <? 0) (Errorf "min spread must be positive or zero");;
  fail_if (OneDec <? v) (Errorf "min spread is too large").

Record MsgSwap : Type := mkMsgSwap {
  Trader : string; OfferCoin : Coin; AskDenom : string }.

Record MsgSwapSend : Type := mkMsgSwapSend {
  FromAddress : string; ToAddress : string; SOfferCoin : Coin; SAskDenom : string }.

Section messages.
Context {A : Bech32}.

Definition MsgSwap_ValidateBasic (msg : MsgSwap) : res unit :=
  wrap_err ErrInvalidAddress (AccAddressFromBech32 (Trader msg));;
  fail_if ((coin_amount (OfferCoin msg) <=? 0) || (100 <? BitLen (coin_amount (OfferCoin msg))))
    ErrInvalidCoins;;
  fail_if (String.eqb (coin_denom (OfferCoin msg)) (AskDenom msg)) ErrRecursiveSwap.

Definition MsgSwapSend_ValidateBasic (msg : MsgSwapSend) : res unit :=
  wrap_err ErrInvalidAddress (AccAddressFromBech32 (FromAddress msg));;
  wrap_err ErrInvalidAddress (AccAddressFromBech32 (ToAddress msg));;
  fail_if ((coin_amount (SOfferCoin msg) <=? 0) || (100 <? BitLen (coin_amount (SOfferCoin msg))))
    ErrInvalidCoins;;
  fail_if (String.eqb (coin_denom (SOfferCoin msg)) (SAskDenom msg)) ErrRecursiveSwap.

(** [GetSigners] panics on a text that is not an address. *)
Definition MsgSwap_GetSigners (msg : MsgSwap) : res (list AccAddress) :=
  trader ← must (AccAddressFromBech32 (Trader msg)); Ok [trader].

Definition MsgSwapSend_GetSigners (msg : MsgSwapSend) : res (list AccAddress) :=
  from ← must (AccAddressFromBech32 (FromAddress msg)); Ok [from].

End messages.

(** ** State and keeper *)

(** What the market keeper reaches: its store (the pool delta and the
    parameters), the oracle and the bank. *)
Record state (O B : Type) : Type := mkState {
  TerraPoolDelta : option Dec;
  params : Params;
  oracle : O;
  bank : B;
}.
Arguments mkState {_ _} _ _ _ _.
Arguments TerraPoolDelta {_ _} _.
Arguments params {_ _} _.
Arguments oracle {_ _} _.
Arguments bank {_ _} _.

Section market.
Context {M : SdkMath} {C : SdkCoins} {A : Bech32}.
Context {O : Type} {OK : OracleKeeper O} {B : Type} {BK : BankKeeper B}.

Definition GetTerraPoolDelta (s : state O B) : Dec := default 0 (TerraPoolDelta s).

Definition SetTerraPoolDelta (delta : Dec) (s : state O B) : state O B :=
  mkState (Some delta) (params s) (oracle s) (bank s).

(** [SetParams]: the parameter store panics when the validator of a pair of
    [ParamSetPairs] rejects the value. *)
Definition ParamSetPairs (p : Params) : res unit :=
  validateBasePool (BasePool p);;
  validatePoolRecoveryPeriod (PoolRecoveryPeriod p);;
  validateMinStabilitySpread (MinStabilitySpread p).

Definition SetParams (p : Params) : st (state O B) unit :=
  lift (must (ParamSetPairs p));;
  modify (fun s => mkState (TerraPoolDelta s) p (oracle s) (bank s)).

Definition set_bank (b : B) (s : state O B) : state O B :=
  mkState (TerraPoolDelta s) (params s) (oracle s) b.

(** A call of the bank keeper. *)
Definition bank_op (f : B -> res B) : st (state O B) unit := fun s =>
  match f (bank s) with
  | Ok b => (Ok tt, set_bank b s)
  | Err e => (Err e, s)
  | Panic => (Panic, s)
  end.

(** [ReplenishPools]: the delta regresses towards zero by [1/period]. *)
Definition ReplenishPools : st (state O B) unit :=
  poolDelta ← gets GetTerraPoolDelta;
  poolRecoveryPeriod ← gets (fun s => to_int64 (PoolRecoveryPeriod (params s)));
  poolRegressionAmt ← lift (dec_quo_int poolDelta poolRecoveryPeriod);
  poolDelta' ← lift (dec_sub poolDelta poolRegressionAmt);
  modify (SetTerraPoolDelta poolDelta').

(** [EndBlocker] of [abci.go]. *)
Definition EndBlocker : st (state O B) unit := ReplenishPools.

(** [ComputeInternalSwap]: conversion at the oracle's rates, no spread. *)
Definition ComputeInternalSwap (s : state O B) (offerCoin : DecCoin) (askDenom : string)
    : res DecCoin :=
  if String.eqb (dcoin_denom offerCoin) askDenom then Ok offerCoin
  else
    offerRate ← wrap_err ErrNoEffectivePrice (GetLunaExchangeRate (oracle s) (dcoin_denom offerCoin));
    askRate ← wrap_err ErrNoEffectivePrice (GetLunaExchangeRate (oracle s) askDenom);
    prod ← dec_mul (dcoin_amount offerCoin) askRate;
    retAmount ← dec_quo prod offerRate;
    fail_if (retAmount <=? 0) ErrInvalidCoins;;
    new_dec_coin askDenom retAmount.

(** The spread of a swap that involves Luna: the constant-product price
    against the virtual pools, and never less than the minimum spread. *)
Definition constant_product_spread (s : state O B) (offerDenom : string) (baseOfferAmount : Dec)
    : res Dec :=
  let basePool := BasePool (params s) in
  let minSpread := MinStabilitySpread (params s) in
  cp ← dec_mul basePool basePool;
  let terraPoolDelta := GetTerraPoolDelta s in
  terraPool ← dec_add basePool terraPoolDelta;
  lunaPool ← dec_quo cp terraPool;
  let '(offerPool, askPool) :=
    if negb (is_luna offerDenom) then (terraPool, lunaPool) else (lunaPool, terraPool) in
  newOfferPool ← dec_add offerPool baseOfferAmount;
  newAskPool ← dec_quo cp newOfferPool;
  askBaseAmount ← dec_sub askPool newAskPool;
  diff ← dec_sub baseOfferAmount askBaseAmount;
  spread ← dec_quo diff baseOfferAmount;
  Ok (if spread <? minSpread then minSpread else spread).

(** The larger of the two Tobin taxes. *)
Definition tobin_spread (s : state O B) (offerDenom askDenom : string) : res Dec :=
  offerTobinTax ← GetTobinTax (oracle s) offerDenom;
  askTobinTax ← GetTobinTax (oracle s) askDenom;
  Ok (if offerTobinTax <? askTobinTax then askTobinTax else offerTobinTax).

(** [ComputeSwap]. *)
Definition ComputeSwap (s : state O B) (offerCoin : Coin) (askDenom : string)
    : res (DecCoin * Dec) :=
  fail_if (String.eqb (coin_denom offerCoin) askDenom) ErrRecursiveSwap;;
  offerDecCoin ← new_dec_coin (coin_denom offerCoin) (NewDec (coin_amount offerCoin));
  baseOfferDecCoin ← ComputeInternalSwap s offerDecCoin MicroSDRDenom;
  retDecCoin ← ComputeInternalSwap s baseOfferDecCoin askDenom;
  if negb (is_luna (coin_denom offerCoin)) && negb (is_luna askDenom) then
    spread ← tobin_spread s (coin_denom offerCoin) askDenom;
    Ok (retDecCoin, spread)
  else
    spread ← constant_product_spread s (coin_denom offerCoin) (dcoin_amount baseOfferDecCoin);
    Ok (retDecCoin, spread).

(** [ApplySwapToPool]. *)
Definition ApplySwapToPool (offerCoin : Coin) (askCoin : DecCoin) : st (state O B) unit :=
  let offerLuna := is_luna (coin_denom offerCoin) in
  let askLuna := is_luna (dcoin_denom askCoin) in
  if negb offerLuna && negb askLuna then mret tt
  else
    s ← gets id;
    delta1 ← lift (
      if negb offerLuna && askLuna then
        offerDecCoin ← new_dec_coin (coin_denom offerCoin) (NewDec (coin_amount offerCoin));
        offerBaseCoin ← ComputeInternalSwap s offerDecCoin MicroSDRDenom;
        dec_add (GetTerraPoolDelta s) (dcoin_amount offerBaseCoin)
      else Ok (GetTerraPoolDelta s));
    delta2 ← lift (
      if offerLuna && negb askLuna then
        askBaseCoin ← ComputeInternalSwap s askCoin MicroSDRDenom;
        dec_sub delta1 (dcoin_amount askBaseCoin)
      else Ok delta1);
    modify (SetTerraPoolDelta delta2).

(** [simulateSwap], the computation behind the swap queries. *)
Definition simulateSwap (s : state O B) (offerCoin : Coin) (askDenom : string) : res Coin :=
  fail_if (String.eqb askDenom (coin_denom offerCoin)) ErrRecursiveSwap;;
  fail_if (100 <? BitLen (coin_amount offerCoin)) ErrInvalidCoins;;
  '(swapCoin, spread) ← wrap_err ErrPanic (ComputeSwap s offerCoin askDenom);
  swapCoin' ← (
    if 0 <? spread then
      swapFeeAmt ← dec_mul spread (dcoin_amount swapCoin);
      if 0 <? swapFeeAmt then
        swapFee ← new_dec_coin (dcoin_denom swapCoin) swapFeeAmt;
        deccoin_sub swapCoin swapFee
      else Ok swapCoin
    else Ok swapCoin);
  '(retCoin, _) ← truncate_decimal swapCoin';
  Ok retCoin.

(** [feeDecCoin] of [handleSwapRequest]. *)
Definition swap_fee (swapDecCoin : DecCoin) (spread : Dec) : res DecCoin :=
  if 0 <? spread then
    feeAmt ← dec_mul spread (dcoin_amount swapDecCoin);
    new_dec_coin (dcoin_denom swapDecCoin) feeAmt
  else new_dec_coin (dcoin_denom swapDecCoin) 0.

(** The fork that makes a zero swap an error. *)
Definition zero_swap_fork (ctx : Ctx) : bool :=
  String.eqb (ChainID ctx) ColumbusChainID && (SwapDisableForkHeight <=? BlockHeight ctx).

(** [handleSwapRequest]. *)
Definition handleSwapRequest (ctx : Ctx) (trader receiver : AccAddress)
    (offerCoin : Coin) (askDenom : string) : st (state O B) (Coin * Coin) :=
  s ← gets id;
  '(swapDecCoin0, spread) ← lift (ComputeSwap s offerCoin askDenom);
  feeDecCoin ← lift (swap_fee swapDecCoin0 spread);
  swapAmount ← lift (dec_sub (dcoin_amount swapDecCoin0) (dcoin_amount feeDecCoin));
  let swapDecCoin := mkDecCoin (dcoin_denom swapDecCoin0) swapAmount in
  ApplySwapToPool offerCoin swapDecCoin;;
  offerCoins ← lift (new_coins [offerCoin]);
  bank_op (fun b => send_coins b trader (module_address ModuleName) offerCoins);;
  bank_op (fun b => burn_coins b ModuleName offerCoins);;
  '(swapCoin, decimalCoin) ← lift (truncate_decimal swapDecCoin);
  lift (fail_if (zero_swap_fork ctx && negb (0 <? coin_amount swapCoin)) ErrZeroSwapCoin);;
  feeDecCoin' ← lift (deccoin_add feeDecCoin decimalCoin);
  '(feeCoin, _) ← lift (truncate_decimal feeDecCoin');
  total ← lift (coin_add swapCoin feeCoin);
  mintCoins ← lift (new_coins [total]);
  bank_op (fun b => mint_coins b ModuleName mintCoins);;
  swapCoins ← lift (new_coins [swapCoin]);
  bank_op (fun b => send_coins b (module_address ModuleName) receiver swapCoins);;
  (if 0 <? coin_amount feeCoin then
     feeCoins ← lift (new_coins [feeCoin]);
     bank_op (fun b => send_coins b (module_address ModuleName)
                         (module_address OracleModuleName) feeCoins)
   else mret tt);;
  mret (swapCoin, feeCoin).

(** [msgServer.Swap] and [msgServer.SwapSend]. *)
Definition Swap (ctx : Ctx) (msg : MsgSwap) : st (state O B) (Coin * Coin) :=
  addr ← lift (AccAddressFromBech32 (Trader msg));
  handleSwapRequest ctx addr addr (OfferCoin msg) (AskDenom msg).

Definition SwapSend (ctx : Ctx) (msg : MsgSwapSend) : st (state O B) (Coin * Coin) :=
  fromAddr ← lift (AccAddressFromBech32 (FromAddress msg));
  toAddr ← lift (AccAddressFromBech32 (ToAddress msg));
  handleSwapRequest ctx fromAddr toAddr (SOfferCoin msg) (SAskDenom msg).

(** ** Queries ([keeper/querier.go]): the texts are parsed by the SDK. *)
Definition QuerySwap (ParseCoinNormalized : string -> res Coin) (s : state O B)
    (req : option (string * string)) : res Coin :=
  match req with
  | None => Err (Registered "grpc" "InvalidArgument")
  | Some (offerText, askDenom) =>
      fail_if (negb (ValidDenom askDenom)) (Registered "grpc" "InvalidArgument");;
      offerCoin ← wrap_err (Registered "grpc" "InvalidArgument") (ParseCoinNormalized offerText);
      wrap_err (Registered "grpc" "Internal") (simulateSwap s offerCoin askDenom)
  end.

(** ** Genesis *)

Record GenesisState : Type := mkGenesis { GTerraPoolDelta : Dec; GParams : Params }.

Definition DefaultGenesisState : GenesisState := mkGenesis 0 DefaultParams.

Definition ValidateGenesis (data : GenesisState) : res unit := Validate (GParams data).

(** [has_account] is the answer of [GetModuleAccount] for the module. *)
Definition InitGenesis (has_account : bool) (data : GenesisState) : st (state O B) unit :=
  SetParams (GParams data);;
  modify (SetTerraPoolDelta (GTerraPoolDelta data));;
  lift (panic_if (negb has_account)).

Definition ExportGenesis (s : state O B) : GenesisState :=
  mkGenesis (GetTerraPoolDelta s) (params s).

End market.

(** ** Facts about the computations *)

Section market_facts.
Context {M : SdkMath} {ML : SdkMathLaws M} {C : SdkCoins} {CL : SdkCoinsLaws M C} {A : Bech32}.
Context {O : Type} {OK : OracleKeeper O} {OL : OracleKeeperLaws O OK}.
Context {B : Type} {BK : BankKeeper B} {BL : BankLaws B BK}.
Implicit Types s : state O B.

(** What a successful conversion computed. *)
Lemma ComputeInternalSwap_Ok s c d q :
  ComputeInternalSwap s c d = Ok q ->
  (dcoin_denom c = d /\ q = c) \/
  (dcoin_denom c <> d /\ exists ro ra p,
    GetLunaExchangeRate (oracle s) (dcoin_denom c) = Ok ro /\
    GetLunaExchangeRate (oracle s) d = Ok ra /\
    dec_mul (dcoin_amount c) ra = Ok p /\ dec_quo p ro = Ok (dcoin_amount q) /\
    0 < dcoin_amount q /\ dcoin_denom q = d).
Proof.
  unfold ComputeInternalSwap. destruct (String.eqb_spec (dcoin_denom c) d) as [Hd|Hd].
  { intros [= <-]. by left. }
  intros H. go_inv. apply new_dec_coin_Ok in H as (-> & _ & _). cbn.
  right. split; [done|]. eexists _, _, _. repeat split; eauto. by apply Z.leb_gt.
Qed.

Lemma ComputeInternalSwap_denom s c d q :
  ComputeInternalSwap s c d = Ok q -> dcoin_denom q = d.
Proof. intros [[? ->]|(_ & ? & ? & ? & ?)]%ComputeInternalSwap_Ok; naive_solver. Qed.

Lemma ComputeInternalSwap_pos s c d q :
  ComputeInternalSwap s c d = Ok q -> 0 < dcoin_amount c -> 0 < dcoin_amount q.
Proof. intros [[? ->]|(_ & ? & ? & ? & ?)]%ComputeInternalSwap_Ok; naive_solver. Qed.

Lemma ComputeInternalSwap_nonneg s c d q :
  ComputeInternalSwap s c d = Ok q -> 0 <= dcoin_amount c -> 0 <= dcoin_amount q.
Proof.
  intros [[? ->]|(_ & ro & ra & p & _ & _ & _ & _ & Hp & _)]%ComputeInternalSwap_Ok ?; [done|lia].
Qed.

(** What a successful [ComputeSwap] computed. *)
Lemma ComputeSwap_Ok s offer ask r spread :
  ComputeSwap s offer ask = Ok (r, spread) ->
  coin_denom offer <> ask /\ ValidDenom (coin_denom offer) = true /\ 0 <= coin_amount offer /\
  dcoin_denom r = ask /\
  exists base,
    ComputeInternalSwap s (mkDecCoin (coin_denom offer) (NewDec (coin_amount offer))) MicroSDRDenom
      = Ok base /\
    ComputeInternalSwap s base ask = Ok r /\
    (if negb (is_luna (coin_denom offer)) && negb (is_luna ask)
     then tobin_spread s (coin_denom offer) ask
     else constant_product_spread s (coin_denom offer) (dcoin_amount base)) = Ok spread.
Proof.
  unfold ComputeSwap. intros H. go_inv. apply String.eqb_neq in Hv.
  apply new_dec_coin_Ok in Hv0 as (-> & ? & Ha). unfold NewDec in Ha.
  assert (0 <= coin_amount offer) by (pose proof precision_pos; nia).
  pose proof (ComputeInternalSwap_denom _ _ _ _ Hv2).
  destruct (negb (is_luna (coin_denom offer)) && negb (is_luna ask)) eqn:E; go_inv; simplify_eq;
    repeat split; eauto; eexists; rewrite E; eauto.
Qed.

Lemma swap_fee_Ok r spread f :
  swap_fee r spread = Ok f ->
  dcoin_denom f = dcoin_denom r /\ 0 <= dcoin_amount f /\ ValidDenom (dcoin_denom r) = true /\
  (if 0 <? spread then dec_mul spread (dcoin_amount r) = Ok (dcoin_amount f)
   else dcoin_amount f = 0).
Proof.
  unfold swap_fee. destruct (0 <? spread); intros H; go_inv;
    apply new_dec_coin_Ok in H as (-> & ? & ?); by repeat split.
Qed.

Lemma bank_op_Ok f u s s' :
  bank_op f s = (Ok u, s') <-> exists b, f (bank s) = Ok b /\ s' = set_bank b s.
Proof. unfold bank_op. destruct u, (f (bank s)); split; naive_solver. Qed.

(** The effect of a successful [ApplySwapToPool]: only the delta moves. *)
Lemma ApplySwapToPool_Ok offer ask u s s' :
  ApplySwapToPool offer ask s = (Ok u, s') ->
  bank s' = bank s /\ params s' = params s /\ oracle s' = oracle s /\
  match is_luna (coin_denom offer), is_luna (dcoin_denom ask) with
  | false, false => s' = s
  | true, true => GetTerraPoolDelta s' = GetTerraPoolDelta s
  | false, true => exists q,
      ComputeInternalSwap s (mkDecCoin (coin_denom offer) (NewDec (coin_amount offer)))
        MicroSDRDenom = Ok q /\
      GetTerraPoolDelta s' = GetTerraPoolDelta s + dcoin_amount q
  | true, false => exists q,
      ComputeInternalSwap s ask MicroSDRDenom = Ok q /\
      GetTerraPoolDelta s' = GetTerraPoolDelta s - dcoin_amount q
  end.
Proof.
  unfold ApplySwapToPool.
  destruct (is_luna (coin_denom offer)), (is_luna (dcoin_denom ask)); cbn;
    intros H; go_inv; try done; repeat split.
  - select (dec_sub _ _ = _) (fun H => apply dec_sub_Ok in H as [-> _]). by eexists.
  - select (new_dec_coin _ _ = _) (fun H => apply new_dec_coin_Ok in H as (-> & _ & _)).
    select (dec_add _ _ = _) (fun H => apply dec_add_Ok in H as [-> _]). by eexists.
Qed.

(** The integer part and the fee of a swap add up to the integer part of the
    value at the oracle's price: no decimal is lost to rounding twice. *)
Lemma swap_split r f :
  0 <= f -> 0 <= r - f ->
  let t := Z.quot (r - f) precision in
  t + Z.quot (f + (r - f - NewDec t)) precision = Z.quot r precision /\
  0 <= Z.quot (f + (r - f - NewDec t)) precision.
Proof.
  intros Hf Hr t. unfold NewDec.
  pose proof (quot_precision_bounds (r - f) Hr) as Ht. fold t in Ht.
  replace (f + (r - f - t * precision)) with (r - t * precision) by lia.
  pose proof precision_pos as HP.
  pose proof (quot_precision_bounds (r - t * precision) ltac:(lia)).
  pose proof (quot_precision_bounds r ltac:(lia)).
  pose proof (quot_precision_nonneg (r - t * precision) ltac:(lia)). nia.
Qed.

(** The bank operations of a swap, one after the other: the offer goes from
    the trader through the module account into the void, the minted coins go
    from the module account to the receiver and the oracle. *)
Lemma swap_bank_effect b b1 b2 b3 b4 b5 (trader receiver : string) offer minted paid fee :
  send_coins b trader (module_address ModuleName) offer = Ok b1 ->
  burn_coins b1 ModuleName offer = Ok b2 ->
  mint_coins b2 ModuleName minted = Ok b3 ->
  send_coins b3 (module_address ModuleName) receiver paid = Ok b4 ->
  (b5 = b4 /\ (forall d, amt fee d = 0) \/
   send_coins b4 (module_address ModuleName) (module_address OracleModuleName) fee = Ok b5) ->
  (forall d, amt minted d = amt paid d + amt fee d) ->
  (forall a d, get_balance b5 a d =
     get_balance b a d - if_eq a trader (amt offer d) + if_eq a receiver (amt paid d)
       + if_eq a (module_address OracleModuleName) (amt fee d)) /\
  (forall d, get_supply b5 d = get_supply b d - amt offer d + (amt paid d + amt fee d)).
Proof.
  intros H1 H2 H3 H4 H5 Hm. split.
  - intros a d. pose proof (Hm d) as Hd.
    pose proof (send_balance _ _ _ _ _ a d H1). pose proof (burn_balance _ _ _ _ a d H2).
    pose proof (mint_balance _ _ _ _ a d H3). pose proof (send_balance _ _ _ _ _ a d H4).
    unfold if_eq in *. destruct H5 as [[-> H5]|H5].
    + specialize (H5 d). repeat destruct (String.eqb a _); lia.
    + pose proof (send_balance _ _ _ _ _ a d H5). unfold if_eq in *.
      repeat destruct (String.eqb a _); lia.
  - intros d. rewrite <- Hm.
    pose proof (send_supply _ _ _ _ _ d H1). pose proof (burn_supply _ _ _ _ d H2).
    pose proof (mint_supply _ _ _ _ d H3). pose proof (send_supply _ _ _ _ _ d H4).
    destruct H5 as [[-> H5]|H5]; [lia|]. pose proof (send_supply _ _ _ _ _ d H5). lia.
Qed.

(** The payment of the fee is skipped when the fee is zero. *)
Lemma fee_payment_Ok fc u s s' :
  ValidDenom (coin_denom fc) = true -> 0 <= coin_amount fc ->
  (if 0 <? coin_amount fc then
     feeCoins ← lift (new_coins [fc]);
     bank_op (fun b => send_coins b (module_address ModuleName)
                         (module_address OracleModuleName) feeCoins)
   else mret tt) s = (Ok u, s') ->
  exists b fee, s' = set_bank b s /\ (forall d, amt fee d = amt [fc] d) /\
    (b = bank s /\ (forall d, amt fee d = 0) \/
     send_coins (bank s) (module_address ModuleName) (module_address OracleModuleName) fee = Ok b).
Proof.
  intros Hd Hf H. destruct (Z.ltb_spec 0 (coin_amount fc)); go_inv.
  - apply bank_op_Ok in H as (b & Hb & ->).
    apply new_coins_single_Ok in Hv as (_ & _ & Ha); [|done]. by exists b, v; auto.
  - exists (bank s'), []. split; [by destruct s'|].
    assert (forall d, amt [] d = amt [fc] d); [|by auto].
    intros d. rewrite amt_single. destruct (String.eqb _ _); [|done]. rewrite amt_nil. lia.
Qed.

(** The coins of a swap: the paid coin and the fee coin, and what is minted. *)
Lemma swap_coins_Ok d r fd f tc cc f' fc ch total :
  0 <= f ->
  truncate_decimal (mkDecCoin d (r - f)) = Ok (tc, cc) ->
  deccoin_add (mkDecCoin fd f) cc = Ok f' ->
  truncate_decimal f' = Ok (fc, ch) ->
  coin_add tc fc = Ok total ->
  0 <= r - f /\ ValidDenom d = true /\ tc = mkCoin d (Z.quot (r - f) precision) /\
  coin_denom fc = d /\ 0 <= coin_amount fc /\
  coin_amount tc + coin_amount fc = Z.quot r precision /\
  coin_denom total = d /\ (forall e, amt [total] e = amt [tc] e + amt [fc] e).
Proof.
  intros Hf Htr Hadd Htf Hco.
  apply truncate_decimal_Ok in Htr as (-> & -> & H1 & H2 & H3). cbn in *.
  rewrite deccoin_add_spec in Hadd. cbn in Hadd.
  destruct (String.eqb_spec fd d) as [->|]; go_inv. apply dec_add_Ok in Hv as [-> _].
  apply truncate_decimal_Ok in Htf as (-> & _ & H4 & _ & _). cbn in *.
  rewrite coin_add_spec in Hco. cbn in Hco. rewrite String.eqb_refl in Hco. go_inv.
  apply int_add_Ok in Hv as [-> _].
  assert (0 <= r - f) by (unfold NewDec in H2; pose proof precision_pos; nia).
  destruct (swap_split r f) as [H5 _]; [done..|]. repeat split; try done.
  intros e. rewrite !amt_single. cbn. destruct (String.eqb d e); lia.
Qed.

(** What a successful swap did, in one place. *)
Lemma handleSwapRequest_Ok ctx trader receiver offer ask s s' sc fc :
  handleSwapRequest ctx trader receiver offer ask s = (Ok (sc, fc), s') ->
  exists r spread f s1,
    ComputeSwap s offer ask = Ok (r, spread) /\ swap_fee r spread = Ok f /\
    0 <= dcoin_amount r - dcoin_amount f /\
    ApplySwapToPool offer (mkDecCoin ask (dcoin_amount r - dcoin_amount f)) s = (Ok tt, s1) /\
    sc = mkCoin ask (Z.quot (dcoin_amount r - dcoin_amount f) precision) /\
    coin_denom fc = ask /\ 0 <= coin_amount fc /\
    coin_amount sc + coin_amount fc = Z.quot (dcoin_amount r) precision /\
    (zero_swap_fork ctx = true -> 0 < coin_amount sc) /\
    TerraPoolDelta s' = TerraPoolDelta s1 /\ params s' = params s /\ oracle s' = oracle s /\
    (forall a d, get_balance (bank s') a d =
       get_balance (bank s) a d - if_eq a trader (amt [offer] d) + if_eq a receiver (amt [sc] d)
         + if_eq a (module_address OracleModuleName) (amt [fc] d)) /\
    (forall d, get_supply (bank s') d =
       get_supply (bank s) d - amt [offer] d + (amt [sc] d + amt [fc] d)).
Proof.
  unfold handleSwapRequest. intros H. go_inv.
  rename x into r, y into spread, v into f, s2 into s1.
  repeat select (bank_op _ _ = _) (fun H => apply bank_op_Ok in H as (? & ? & ->)).
  apply dec_sub_Ok in Hv1 as [-> _].
  pose proof (ComputeSwap_Ok _ _ _ _ _ Hv0) as (_ & Hvo & _ & Hd & _).
  pose proof (swap_fee_Ok _ _ _ Hv) as (Hfd & Hf & _).
  pose proof (ApplySwapToPool_Ok _ _ _ _ _ Hv2) as (Hb1 & Hp1 & Ho1 & _).
  destruct r as [d r], f as [fd f]. cbn in *. subst fd d.
  eapply swap_coins_Ok in Hv10 as (Hr & Hva & Hsc & Hfcd & Hfc & Hsum & Htd & Htot); [|eassumption..].
  assert (Hfv : ValidDenom (coin_denom fc) = true) by by rewrite Hfcd.
  destruct (fee_payment_Ok _ _ _ _ Hfv Hfc Hv15) as (b5 & fee & -> & Hfee & Hb5).
  apply new_coins_single_Ok in Hv3 as (_ & _ & Hoff); [|done].
  apply new_coins_single_Ok in Hv11 as (_ & _ & Hmint); [|by rewrite Htd].
  apply new_coins_single_Ok in Hv13 as (_ & _ & Hpaid); [|by rewrite Hsc].
  edestruct swap_bank_effect as [Hbal Hsup]; [eassumption..| |].
  { intros e. by rewrite Hmint, Htot, Hpaid, Hfee. }
  cbn in *. eexists _, _, _, s1. rewrite Hb1 in *. destruct v1.
  repeat split; try eassumption; try reflexivity.
  - intros Hz. rewrite Hz in Hv7. cbn in Hv7. apply negb_false_iff in Hv7. lia.
  - intros a e. by rewrite Hbal, Hoff, Hpaid, Hfee.
  - intros e. by rewrite Hsup, Hoff, Hpaid, Hfee.
Qed.

(** The paid amount of a swap that involves Luna, before truncation. *)
Lemma constant_product_spread_min s d b spread :
  constant_product_spread s d b = Ok spread -> MinStabilitySpread (params s) <= spread.
Proof.
  unfold constant_product_spread. intros H. go_inv. destruct (if negb (is_luna d) then _ else _).
  go_inv. destruct (Z.ltb_spec v6 (MinStabilitySpread (params s))); lia.
Qed.

Lemma swap_fee_at_least r spread f m :
  swap_fee r spread = Ok f -> 0 <= dcoin_amount r -> m <= spread ->
  2 * m * dcoin_amount r - precision <= 2 * dcoin_amount f * precision.
Proof.
  intros (_ & Hf & _ & H)%swap_fee_Ok Hr Hm.
  assert (m * dcoin_amount r <= spread * dcoin_amount r) by nia.
  destruct (Z.ltb_spec 0 spread) as [Hs|Hs].
  - apply dec_mul_bounds in H. lia.
  - pose proof precision_pos. nia.
Qed.

(** One conversion is the exact quotient up to the rounding of the product
    and of the quotient. *)
Lemma internal_swap_close s c d q ro ra :
  rates_inv (oracle s) -> ComputeInternalSwap s c d = Ok q ->
  GetLunaExchangeRate (oracle s) (dcoin_denom c) = Ok ro ->
  GetLunaExchangeRate (oracle s) d = Ok ra ->
  2 * Z.abs (dcoin_amount q * ro - dcoin_amount c * ra) <= 2 * ro + precision.
Proof.
  intros Hi [[Hd ->]|(Hd & ro' & ra' & p & Hro & Hra & Hp & Hq & _)]%ComputeInternalSwap_Ok H1 H2.
  - subst d. pose proof (exchange_rate_pos _ _ _ Hi H1).
    assert (ro = ra) as <- by congruence. rewrite Z.sub_diag. cbn. pose proof precision_pos. lia.
  - assert (ro' = ro /\ ra' = ra) as [-> ->] by (split; congruence).
    pose proof (exchange_rate_pos _ _ _ Hi H1).
    apply dec_mul_bounds in Hp. apply dec_quo_bounds in Hq; [|done]. lia.
Qed.

(** One step of the recovery of the pool, on the number itself. *)
Definition recover (p delta : Z) : Z := delta - Z.quot delta p.

Lemma recover_bounds p delta : 0 < p ->
  Z.abs (recover p delta) <= Z.abs delta /\ 0 <= recover p delta * delta /\
  (recover p delta = delta <-> Z.abs delta < p).
Proof.
  intros Hp. unfold recover.
  assert (Hz : Z.abs (Z.quot delta p) = Z.abs delta / p).
  { rewrite <- Z.quot_abs by lia.
    rewrite (Z.abs_eq p), Z.quot_div_nonneg by lia. done. }
  assert (Hs : 0 <= Z.quot delta p * delta).
  { destruct (Z.le_ge_cases 0 delta) as [Hd|Hd].
    - pose proof (Z.quot_pos delta p Hd Hp). nia.
    - pose proof (Z.quot_pos (- delta) p ltac:(lia) Hp) as Hq.
      rewrite Z.quot_opp_l in Hq by lia. nia. }
  pose proof (Z.div_mod (Z.abs delta) p ltac:(lia)).
  pose proof (Z.mod_pos_bound (Z.abs delta) p Hp).
  assert (0 <= Z.abs delta / p) by (apply Z.div_pos; lia).
  assert (Z.abs delta / p <= Z.abs delta) by nia.
  repeat split; nia.
Qed.

Lemma ReplenishPools_step s :
  0 < PoolRecoveryPeriod (params s) < two63 -> Z.abs (GetTerraPoolDelta s) < dec_bound ->
  ReplenishPools s =
    (Ok tt, SetTerraPoolDelta (recover (PoolRecoveryPeriod (params s)) (GetTerraPoolDelta s)) s).
Proof.
  intros Hp Hd. unfold ReplenishPools, gets, lift, modify, mbind, st_bind. cbn.
  rewrite to_int64_id by (unfold is_int64; lia).
  rewrite dec_quo_int_spec. destruct (Z.eqb_spec (PoolRecoveryPeriod (params s)) 0); [lia|].
  destruct (recover_bounds (PoolRecoveryPeriod (params s)) (GetTerraPoolDelta s)) as [? _]; [lia|].
  unfold recover in *. rewrite dec_sub_spec, checked_small by lia. done.
Qed.

(** The blocks that follow, with no swap in between. *)
Fixpoint end_blocks (n : nat) : st (state O B) unit :=
  match n with
  | 0%nat => mret tt
  | S n' => EndBlocker;; end_blocks n'
  end.

Lemma end_blocks_iter n s :
  0 < PoolRecoveryPeriod (params s) < two63 -> Z.abs (GetTerraPoolDelta s) < dec_bound ->
  exists s', end_blocks n s = (Ok tt, s') /\ params s' = params s /\
    oracle s' = oracle s /\ bank s' = bank s /\
    GetTerraPoolDelta s' = Nat.iter n (recover (PoolRecoveryPeriod (params s))) (GetTerraPoolDelta s).
Proof.
  revert s. induction n as [|n IH]; intros s Hp Hd; [by exists s|].
  cbn [end_blocks]. unfold EndBlocker, mbind, st_bind. rewrite ReplenishPools_step by done.
  destruct (recover_bounds (PoolRecoveryPeriod (params s)) (GetTerraPoolDelta s)) as [? _]; [lia|].
  edestruct (IH (SetTerraPoolDelta (recover (PoolRecoveryPeriod (params s)) (GetTerraPoolDelta s)) s))
    as (s' & -> & ? & ? & ? & HI); [done|cbn; lia|].
  exists s'. repeat split; [done..|]. rewrite HI, Nat.iter_succ_r. done.
Qed.

(** The distance to the equilibrium shrinks until it is below the period. *)
Lemma recover_iter n p delta : 0 < p ->
  0 <= Nat.iter n (recover p) delta * delta /\
  Z.abs (Nat.iter n (recover p) delta) <= Z.max (p - 1) (Z.abs delta - Z.of_nat n) /\
  Z.abs (Nat.iter n (recover p) delta) <= Z.abs delta.
Proof.
  intros Hp. induction n as [|n (IH1 & IH2 & IH3)]; [cbn; nia|].
  rewrite Nat.iter_succ. set (x := Nat.iter n (recover p) delta) in *.
  destruct (recover_bounds p x Hp) as (H1 & H2 & H3).
  split; [|split; [|lia]].
  - destruct (Z.eq_dec x 0) as [Hx|Hx]; [|nia].
    assert (recover p x = 0) as -> by (rewrite Hx in *; lia). lia.
  - destruct (Z.lt_ge_cases (Z.abs x) p); [lia|].
    assert (recover p x <> x) by lia. assert (Z.abs (recover p x) <> Z.abs x); [|lia].
    intros E. assert (recover p x = - x) by lia. nia.
Qed.

End market_facts.

(** ** Theorems *)

Section market_theorems.
Context {M : SdkMath} {ML : SdkMathLaws M} {C : SdkCoins} {CL : SdkCoinsLaws M C} {A : Bech32}.
Context {O : Type} {OK : OracleKeeper O} {OL : OracleKeeperLaws O OK}.
Context {B : Type} {BK : BankKeeper B} {BL : BankLaws B BK}.
Implicit Types s : state O B.

(** C1. A successful swap moves exactly the coins it reports: for every
    account and denomination the trader loses the offer, the receiver gains
    the swap coin and the oracle module gains the fee, every other account
    (the market module included) keeps its balance; the supply loses the
    offer and gains the swap coin and the fee. *)
Theorem swap_conserves ctx trader receiver offer ask s s' sc fc :
  handleSwapRequest ctx trader receiver offer ask s = (Ok (sc, fc), s') ->
  (forall a d, get_balance (bank s') a d =
     get_balance (bank s) a d - if_eq a trader (amt [offer] d) + if_eq a receiver (amt [sc] d)
       + if_eq a (module_address OracleModuleName) (amt [fc] d)) /\
  (forall d, get_supply (bank s') d =
     get_supply (bank s) d - amt [offer] d + (amt [sc] d + amt [fc] d)).
Proof. intros H%handleSwapRequest_Ok. naive_solver. Qed.

(** C10. The coins minted by a swap are worth the offer: the swap coin and the
    fee add up to the integer part of the amount [ComputeSwap] returns, and
    that amount is the offer converted at the oracle's rates through SDR, up
    to the rounding of two conversions (all numbers in units of [10^-18]). *)
Theorem swap_mints_oracle_value ctx trader receiver offer ask s s' sc fc ro rs ra :
  rates_inv (oracle s) ->
  GetLunaExchangeRate (oracle s) (coin_denom offer) = Ok ro ->
  GetLunaExchangeRate (oracle s) MicroSDRDenom = Ok rs ->
  GetLunaExchangeRate (oracle s) ask = Ok ra ->
  handleSwapRequest ctx trader receiver offer ask s = (Ok (sc, fc), s') ->
  exists r, coin_amount sc + coin_amount fc = Z.quot r precision /\
    0 <= coin_amount sc /\ 0 <= coin_amount fc /\ coin_denom sc = ask /\ coin_denom fc = ask /\
    2 * Z.abs (r * rs * ro - NewDec (coin_amount offer) * rs * ra)
      <= ro * (2 * rs + precision) + ra * (2 * ro + precision).
Proof.
  intros Hi Ho Hs Ha (r & sp & f & s1 & Hc & _ & Hrf & _ & -> & Hfd & Hfc & Hsum & _)%handleSwapRequest_Ok.
  apply ComputeSwap_Ok in Hc as (_ & _ & _ & _ & base & Hb & Hr & _).
  pose proof (ComputeInternalSwap_denom _ _ _ _ Hb) as Hbd.
  pose proof (internal_swap_close _ _ _ _ _ _ Hi Hb Ho Hs) as H1.
  pose proof (internal_swap_close _ _ _ _ rs _ Hi Hr ltac:(by rewrite Hbd) Ha) as H2.
  exists (dcoin_amount r). pose proof (quot_precision_nonneg _ Hrf).
  repeat split; [done..|]. cbn in H1.
  pose proof (exchange_rate_pos _ _ _ Hi Ho). pose proof (exchange_rate_pos _ _ _ Hi Ha).
  set (a := NewDec _) in *. set (b := dcoin_amount base) in *. set (x := dcoin_amount r) in *.
  replace (x * rs * ro - a * rs * ra) with (ro * (x * rs - b * ra) + ra * (b * ro - a * rs)) by ring.
  assert (Z.abs (ro * (x * rs - b * ra)) = ro * Z.abs (x * rs - b * ra)) by nia.
  assert (Z.abs (ra * (b * ro - a * rs)) = ra * Z.abs (b * ro - a * rs)) by nia.
  nia.
Qed.

(** A swap that involves Luna never pays more than the value at the
    oracle's price less the minimum stability spread. *)
Theorem luna_swap_pays_min_spread ctx trader receiver offer ask s s' sc fc r spread :
  handleSwapRequest ctx trader receiver offer ask s = (Ok (sc, fc), s') ->
  ComputeSwap s offer ask = Ok (r, spread) ->
  is_luna (coin_denom offer) || is_luna ask = true ->
  2 * NewDec (coin_amount sc) * precision
    <= 2 * dcoin_amount r * (precision - MinStabilitySpread (params s)) + precision.
Proof.
  intros (r' & sp' & f & s1 & Hc & Hf & Hrf & _ & -> & _)%handleSwapRequest_Ok Hc' Hl.
  rewrite Hc' in Hc. simplify_eq. cbn.
  pose proof (swap_fee_Ok _ _ _ Hf) as (_ & Hf0 & _).
  apply ComputeSwap_Ok in Hc' as (_ & _ & _ & _ & base & _ & _ & Hsp).
  rewrite <- negb_orb, Hl in Hsp. cbn in Hsp. apply constant_product_spread_min in Hsp.
  pose proof (swap_fee_at_least _ _ _ _ Hf ltac:(lia) Hsp).
  pose proof (quot_precision_bounds _ Hrf). pose proof precision_pos. unfold NewDec. nia.
Qed.

(** The spread of a swap between two Terra currencies is the larger of
    their Tobin taxes, whatever the pools. *)
Theorem terra_swap_spread s offer ask r spread t1 t2 :
  ComputeSwap s offer ask = Ok (r, spread) ->
  is_luna (coin_denom offer) = false -> is_luna ask = false ->
  GetTobinTax (oracle s) (coin_denom offer) = Ok t1 -> GetTobinTax (oracle s) ask = Ok t2 ->
  spread = Z.max t1 t2.
Proof.
  intros (_ & _ & _ & _ & base & _ & _ & Hsp)%ComputeSwap_Ok H1 H2 Ht1 Ht2.
  rewrite H1, H2 in Hsp. cbn in Hsp. unfold tobin_spread in Hsp. rewrite Ht1, Ht2 in Hsp. cbn in Hsp.
  destruct (Z.ltb_spec t1 t2); simplify_eq; lia.
Qed.

(** A swap moves the virtual pool in the right direction and touches
    nothing else of the market: Terra to Luna raises the delta, Luna to Terra
    never raises it, Terra to Terra leaves it alone. *)
Theorem swap_moves_pool ctx trader receiver offer ask s s' sc fc :
  handleSwapRequest ctx trader receiver offer ask s = (Ok (sc, fc), s') ->
  0 < coin_amount offer ->
  params s' = params s /\ oracle s' = oracle s /\
  match is_luna (coin_denom offer), is_luna ask with
  | false, true => GetTerraPoolDelta s < GetTerraPoolDelta s'
  | true, false => GetTerraPoolDelta s' <= GetTerraPoolDelta s
  | _, _ => GetTerraPoolDelta s' = GetTerraPoolDelta s
  end.
Proof.
  intros H Ho.
  apply handleSwapRequest_Ok in H
    as (r & sp & f & s1 & _ & _ & Hrf & Hap & _ & _ & _ & _ & _ & Hd & Hp & Hor & _).
  apply ApplySwapToPool_Ok in Hap as (_ & _ & _ & Hap). cbn in Hap.
  assert (GetTerraPoolDelta s' = GetTerraPoolDelta s1) as -> by (unfold GetTerraPoolDelta; by rewrite Hd).
  split; [done|]. split; [done|].
  destruct (is_luna (coin_denom offer)), (is_luna ask).
  - exact Hap.
  - destruct Hap as (q & Hq & ->). apply ComputeInternalSwap_nonneg in Hq; cbn in *; lia.
  - destruct Hap as (q & Hq & ->). apply ComputeInternalSwap_pos in Hq; [lia|].
    cbn. unfold NewDec. pose proof precision_pos. nia.
  - by rewrite Hap.
Qed.

(** The computation of a swap, without its effects. *)
Lemma simulated_swap ctx trader receiver offer ask s s' sc fc :
  handleSwapRequest ctx trader receiver offer ask s = (Ok (sc, fc), s') ->
  BitLen (coin_amount offer) <= 100 ->
  simulateSwap s offer ask = Ok sc.
Proof.
  intros H Hbits. unfold handleSwapRequest in H. go_inv. rename x into r, y into spread.
  apply dec_sub_Ok in Hv1 as [-> Hov]. pose proof (ComputeSwap_Ok _ _ _ _ _ Hv0) as (Hne & _).
  pose proof (swap_fee_Ok _ _ _ Hv) as (Hfd & Hf & Hvd & Hmul).
  unfold simulateSwap. destruct (String.eqb_spec ask (coin_denom offer)); [congruence|].
  destruct (Z.ltb_spec 100 (BitLen (coin_amount offer))); [lia|]. cbn.
  unfold id in Hv0. rewrite Hv0. cbn.
  pose proof (truncate_decimal_Ok _ _ _ Hv6) as (_ & _ & H1 & H2 & _). cbn in H1, H2.
  assert (Hge : 0 <= dcoin_amount r - dcoin_amount v)
    by (unfold NewDec in H2; pose proof precision_pos; nia).
  destruct r as [rd r]. cbn in *. destruct (0 <? spread).
  - rewrite Hmul. cbn. destruct (Z.ltb_spec 0 (dcoin_amount v)) as [Hpos|Hpos].
    + rewrite new_dec_coin_spec, Hvd. destruct (Z.leb_spec 0 (dcoin_amount v)); [|lia]. cbn.
      rewrite deccoin_sub_spec. cbn. rewrite String.eqb_refl, dec_sub_spec, checked_small by done. cbn.
      destruct (Z.ltb_spec (r - dcoin_amount v) 0); [lia|]. cbn. by rewrite Hv6.
    + assert (dcoin_amount v = 0) as E by lia. rewrite E, Z.sub_0_r in Hv6. cbn. by rewrite Hv6.
  - rewrite Hmul, Z.sub_0_r in Hv6. cbn. by rewrite Hv6.
Qed.

(** C19. The query tells the truth: when a swap of at most 100 bits succeeds,
    [simulateSwap] on the state before it returns exactly the coin the swap
    pays. *)
Theorem simulate_agrees ctx trader receiver offer ask s s' sc fc :
  handleSwapRequest ctx trader receiver offer ask s = (Ok (sc, fc), s') ->
  BitLen (coin_amount offer) <= 100 ->
  simulateSwap s offer ask = Ok sc.
Proof. apply simulated_swap. Qed.

(** From the fork height on columbus-5 a swap that succeeds pays a positive
    amount. *)
Theorem fork_pays_positive ctx trader receiver offer ask s s' sc fc :
  handleSwapRequest ctx trader receiver offer ask s = (Ok (sc, fc), s') ->
  ChainID ctx = ColumbusChainID -> SwapDisableForkHeight <= BlockHeight ctx ->
  0 < coin_amount sc.
Proof.
  intros (r & sp & f & s1 & _ & _ & _ & _ & _ & _ & _ & _ & Hz & _)%handleSwapRequest_Ok Hc Hh.
  apply Hz. unfold zero_swap_fork. rewrite Hc. cbn. by apply Z.leb_le.
Qed.

(** C26. The pool recovers: with no swaps in between, [n] blocks never change
    the sign of the delta nor make it larger, touch nothing else, and after
    [|delta|] blocks (in units of [10^-18]) it is below the recovery period,
    where it stays for ever. *)
Theorem pool_recovers n s :
  0 < PoolRecoveryPeriod (params s) < two63 -> Z.abs (GetTerraPoolDelta s) < dec_bound ->
  exists s', end_blocks n s = (Ok tt, s') /\
    params s' = params s /\ oracle s' = oracle s /\ bank s' = bank s /\
    0 <= GetTerraPoolDelta s' * GetTerraPoolDelta s /\
    Z.abs (GetTerraPoolDelta s') <= Z.abs (GetTerraPoolDelta s) /\
    (Z.abs (GetTerraPoolDelta s) <= Z.of_nat n ->
       Z.abs (GetTerraPoolDelta s') < PoolRecoveryPeriod (params s) /\
       EndBlocker s' = (Ok tt, SetTerraPoolDelta (GetTerraPoolDelta s') s')).
Proof.
  intros Hp Hd. destruct (end_blocks_iter n s Hp Hd) as (s' & Hn & Hpar & Hor & Hb & Hi).
  destruct (recover_iter n (PoolRecoveryPeriod (params s)) (GetTerraPoolDelta s)) as (H1 & H2 & H3); [lia|].
  rewrite <- Hi in *. exists s'. do 6 (split; [done|]). intros Hle.
  assert (Hlt : Z.abs (GetTerraPoolDelta s') < PoolRecoveryPeriod (params s)) by lia.
  split; [done|]. unfold EndBlocker. rewrite ReplenishPools_step; rewrite ?Hpar; [|done|lia].
  destruct (recover_bounds (PoolRecoveryPeriod (params s)) (GetTerraPoolDelta s')) as (_ & _ & E); [lia|].
  by rewrite (proj2 E).
Qed.

(** A recovery period of [2^64 - 1] passes the validation of the
    parameters, but [int64] turns it into [-1]: every block doubles the delta
    instead of reducing it. *)
Theorem recovery_period_overflow s :
  PoolRecoveryPeriod (params s) = two64 - 1 -> Z.abs (2 * GetTerraPoolDelta s) < dec_bound ->
  validatePoolRecoveryPeriod (PoolRecoveryPeriod (params s)) = Ok tt /\
  EndBlocker s = (Ok tt, SetTerraPoolDelta (2 * GetTerraPoolDelta s) s).
Proof.
  intros Hp Hd. rewrite Hp. split; [done|].
  unfold EndBlocker, ReplenishPools, gets, lift, modify, mbind, st_bind. cbn. rewrite Hp.
  replace (to_int64 (two64 - 1)) with (-1) by done. rewrite dec_quo_int_spec. cbn.
  rewrite dec_sub_spec. replace (Z.quot (GetTerraPoolDelta s) (-1)) with (- GetTerraPoolDelta s)
    by (change (-1) with (- (1)); by rewrite Z.quot_opp_r, Z.quot_1_r).
  rewrite checked_small by lia. do 3 f_equal. lia.
Qed.

(** A base pool of zero passes the validation of the parameters, but with
    no delta every swap to or from Luna that reaches the pools panics on a
    division by zero. *)
Theorem empty_base_pool_panics s offer ask base :
  BasePool (params s) = 0 -> GetTerraPoolDelta s = 0 ->
  coin_denom offer <> ask -> is_luna (coin_denom offer) || is_luna ask = true ->
  ValidDenom (coin_denom offer) = true -> 0 <= coin_amount offer ->
  ComputeInternalSwap s (mkDecCoin (coin_denom offer) (NewDec (coin_amount offer))) MicroSDRDenom
    = Ok base ->
  (exists r, ComputeInternalSwap s base ask = Ok r) ->
  validateBasePool (BasePool (params s)) = Ok tt /\ ComputeSwap s offer ask = Panic.
Proof.
  intros Hb Hd Hne Hl Hv Ho Hbase [r Hr]. rewrite Hb. split; [done|]. unfold ComputeSwap.
  destruct (String.eqb_spec (coin_denom offer) ask); [done|]. cbn.
  rewrite new_dec_coin_spec, Hv. unfold NewDec in *. pose proof precision_pos.
  destruct (Z.leb_spec 0 (coin_amount offer * precision)); [|nia]. cbn. rewrite Hbase. cbn. rewrite Hr. cbn.
  rewrite <- negb_orb, Hl. cbn. unfold constant_product_spread. rewrite Hb, Hd.
  destruct (dec_mul_total 0 0) as [c Hc]; [done|]. rewrite Hc. cbn.
  rewrite dec_add_spec, checked_small by done. cbn. by rewrite dec_quo_zero.
Qed.

(** [Params.Validate] accepts exactly the parameters each of whose fields
    the validators of the parameter store accept, so that a validated genesis
    never makes [SetParams] panic. *)
Theorem validate_iff_field_validators (p : Params) :
  is_uint64 (PoolRecoveryPeriod p) -> Validate p = Ok tt <-> ParamSetPairs p = Ok tt.
Proof.
  intros Hu. unfold is_uint64 in Hu. unfold Validate, ParamSetPairs, validateBasePool,
    validatePoolRecoveryPeriod, validateMinStabilitySpread.
  destruct (BasePool p <? 0); cbn; [done|].
  destruct (Z.eqb_spec (PoolRecoveryPeriod p) 0), (Z.leb_spec (PoolRecoveryPeriod p) 0); try lia; cbn;
    [done|]. by destruct (MinStabilitySpread p <? 0), (OneDec <? MinStabilitySpread p).
Qed.

(** [MsgSwap.ValidateBasic] accepts exactly the messages of a parsable
    trader that offer between [1] and [2^100 - 1] of a denomination other than
    the asked one. *)
Theorem validate_basic_iff (msg : MsgSwap) :
  MsgSwap_ValidateBasic msg = Ok tt <->
  (exists a, AccAddressFromBech32 (Trader msg) = Ok a) /\
  0 < coin_amount (OfferCoin msg) < 2 ^ 100 /\ coin_denom (OfferCoin msg) <> AskDenom msg.
Proof.
  unfold MsgSwap_ValidateBasic. set (x := coin_amount (OfferCoin msg)).
  assert (Hb : 0 < x -> 100 < BitLen x <-> 2 ^ 100 <= x).
  { intros Hx. unfold BitLen. destruct (Z.eqb_spec x 0); [lia|]. rewrite Z.abs_eq by lia.
    rewrite (Z.log2_le_pow2 x 100) by lia. lia. }
  destruct (AccAddressFromBech32 (Trader msg)); cbn; [|naive_solver..].
  destruct (Z.leb_spec x 0), (Z.ltb_spec 100 (BitLen x)); cbn;
    try (split; [done|intros (_ & ? & _); lia]).
  destruct (String.eqb_spec (coin_denom (OfferCoin msg)) (AskDenom msg)); cbn;
    split; naive_solver lia.
Qed.

(** Export and import of the genesis are inverse: initialising any state
    from an exported genesis with valid parameters succeeds, and exports the
    same genesis again. *)
Theorem genesis_roundtrip s s0 :
  ParamSetPairs (params s) = Ok tt ->
  exists s', InitGenesis true (ExportGenesis s) s0 = (Ok tt, s') /\
    ExportGenesis s' = ExportGenesis s.
Proof.
  intros Hv. unfold InitGenesis, SetParams, ExportGenesis, lift, modify, mbind, st_bind. cbn.
  rewrite Hv. cbn. by eexists.
Qed.

End market_theorems.

(** ** Concrete runs

    An oracle that is a table of prices and taxes, a trader with Luna and
    Terra coins, and the default parameters. *)

Module Example.

Record PriceTable : Type := mkPriceTable {
  prices : gmap string positive; taxes : gmap string Dec }.

#[global] Instance price_table : OracleKeeper PriceTable := {|
  GetLunaExchangeRate o d :=
    if is_luna d then Ok OneDec
    else match prices o !! d with
         | Some p => Ok (Z.pos p)
         | None => Err (Registered "oracle" "ErrUnknownDenom")
         end;
  GetTobinTax o d :=
    match taxes o !! d with
    | Some t => Ok t
    | None => Err (Registered "oracle" "ErrNoTobinTax")
    end;
  rates_inv o := True;
|}.

#[global] Instance price_table_laws : OracleKeeperLaws PriceTable price_table.
Proof.
  split; cbn.
  - intros o d r _. destruct (is_luna d); [by intros [= <-]|].
    destruct (prices o !! d); by intros [= <-].
  - intros o d. destruct (is_luna d); [done|]. by destruct (prices o !! d).
  - done.
Qed.

(** A Luna is worth 1.7 SDR and 2.4 USD. *)
Definition table : PriceTable := mkPriceTable
  (<["usdr" := 1700000000000000000%positive]> (<["uusd" := 2400000000000000000%positive]> ∅))
  (<["usdr" := NewDecWithPrec 25 4]> (<["uusd" := NewDecWithPrec 35 4]> ∅)).

Definition s0 : state PriceTable RefBank := mkState None DefaultParams table
  (mkRefBank (<[("trader", "uluna") := 5000000%N]> (<[("trader", "uusd") := 7000000%N]> ∅))
             (<["uluna" := 5000000]> (<["uusd" := 7000000]> ∅))).

Definition ctx : Ctx := mkCtx ColumbusChainID SwapDisableForkHeight.

Definition run (offer : Coin) (ask : string) :=
  @handleSwapRequest ref_math ref_coins PriceTable price_table RefBank ref_bank
    ctx "trader" "friend" offer ask s0.

Definition luna_offer : Coin := mkCoin "uluna" 1000001.
Definition usd_offer : Coin := mkCoin "uusd" 1000001.

(** A trader who swaps 1000001 uluna gets 2352002 uusd and the oracle 48000. *)
Lemma luna_run : run luna_offer "uusd" =
  (Ok (mkCoin "uusd" 2352002, mkCoin "uusd" 48000), (run luna_offer "uusd").2).
Proof. vm_compute. reflexivity. Qed.

Lemma usd_run : run usd_offer "uluna" =
  (Ok (mkCoin "uluna" 408333, mkCoin "uluna" 8334), (run usd_offer "uluna").2).
Proof. vm_compute. reflexivity. Qed.

Lemma swap_conserves_witness :
  let b := bank (run luna_offer "uusd").2 in
  get_balance b "trader" "uluna" = 3999999 /\ get_balance b "friend" "uusd" = 2352002 /\
  get_supply b "uusd" = 7000000 + 2400002.
Proof.
  destruct (swap_conserves (ML:=ref_math_laws) (CL:=ref_coins_laws) _ _ _ _ _ _ _ _ _ luna_run)
    as [Hb Hs].
  cbn zeta. rewrite !Hb, Hs. vm_compute. repeat split.
Defined.

Lemma swap_mints_oracle_value_witness :
  exists r, 2352002 + 48000 = Z.quot r precision /\
    2 * Z.abs (r * NewDecWithPrec 17 1 * OneDec
               - NewDec 1000001 * NewDecWithPrec 17 1 * NewDecWithPrec 24 1)
      <= OneDec * (2 * NewDecWithPrec 17 1 + precision)
         + NewDecWithPrec 24 1 * (2 * OneDec + precision).
Proof.
  edestruct (swap_mints_oracle_value (ML:=ref_math_laws) (CL:=ref_coins_laws) (OK:=price_table)
               ctx "trader" "friend" luna_offer "uusd" s0) as (r & Hr & _ & _ & _ & _ & Ha);
    [done|vm_compute; reflexivity..|exact luna_run|].
  exists r. split; [exact Hr|exact Ha].
Defined.

Lemma luna_swap_pays_min_spread_witness :
  2 * NewDec 2352002 * precision
    <= 2 * 2400002400000000000000000 * (precision - NewDecWithPrec 2 2) + precision.
Proof.
  apply (luna_swap_pays_min_spread (ML:=ref_math_laws) (CL:=ref_coins_laws) _ _ _ _ _ _ _ _ _
           (mkDecCoin "uusd" 2400002400000000000000000) (NewDecWithPrec 2 2) luna_run);
    vm_compute; reflexivity.
Defined.

Lemma terra_swap_spread_witness : NewDecWithPrec 35 4 = Z.max (NewDecWithPrec 35 4) (NewDecWithPrec 25 4).
Proof.
  apply (terra_swap_spread (CL:=ref_coins_laws) s0 usd_offer "usdr"
           (mkDecCoin "usdr" 708334041666666666666667)); vm_compute; reflexivity.
Defined.

Lemma swap_moves_pool_witness : 0 < GetTerraPoolDelta (run usd_offer "uluna").2.
Proof.
  destruct (swap_moves_pool (ML:=ref_math_laws) (CL:=ref_coins_laws) _ _ _ _ _ _ _ _ _ usd_run)
    as (_ & _ & H); [done|exact H].
Defined.

Lemma simulate_agrees_witness :
  @simulateSwap ref_math ref_coins _ _ RefBank s0 luna_offer "uusd" = Ok (mkCoin "uusd" 2352002).
Proof.
  apply (simulate_agrees (ML:=ref_math_laws) (CL:=ref_coins_laws) _ _ _ _ _ _ _ _ _ luna_run).
  vm_compute. discriminate.
Defined.

Lemma fork_pays_positive_witness : 0 < 408333.
Proof.
  apply (fork_pays_positive (ML:=ref_math_laws) (CL:=ref_coins_laws) _ _ _ _ _ _ _ _ _ usd_run);
    vm_compute; congruence.
Defined.

(** Two blocks after the swap, with a recovery period of one day. *)
Definition s1 : state PriceTable RefBank := SetTerraPoolDelta (NewDec 14400) s0.

Lemma pool_recovers_witness :
  exists s', @end_blocks ref_math PriceTable RefBank 2 s1 = (Ok tt, s') /\
    Z.abs (GetTerraPoolDelta s') <= NewDec 14400.
Proof.
  destruct (pool_recovers (ML:=ref_math_laws) 2 s1) as (s' & H & _ & _ & _ & _ & Hle & _).
  - vm_compute. done.
  - vm_compute. done.
  - exists s'. split; [exact H|exact Hle].
Defined.

Lemma recovery_period_overflow_witness :
  let s := SetTerraPoolDelta 5 (mkState None (mkParams 0 (two64 - 1) 0) table (bank s0)) in
  @EndBlocker ref_math PriceTable RefBank s = (Ok tt, SetTerraPoolDelta 10 s).
Proof.
  intros s. apply (recovery_period_overflow (ML:=ref_math_laws) s); vm_compute; reflexivity.
Defined.

Lemma empty_base_pool_panics_witness :
  @ComputeSwap ref_math ref_coins _ _ RefBank
    (mkState None (mkParams 0 1 0) table (bank s0)) luna_offer "uusd" = Panic.
Proof.
  apply (empty_base_pool_panics (ML:=ref_math_laws) (CL:=ref_coins_laws) _ _ _
           (mkDecCoin "usdr" 1700001700000000000000000)); try (vm_compute; congruence).
  exists (mkDecCoin "uusd" 2400002400000000000000000). vm_compute. reflexivity.
Defined.

Lemma validate_iff_field_validators_witness :
  Validate DefaultParams = Ok tt <-> ParamSetPairs DefaultParams = Ok tt.
Proof. apply validate_iff_field_validators. split; vm_compute; congruence. Defined.

Lemma genesis_roundtrip_witness :
  exists s', InitGenesis true (ExportGenesis s1) s0 = (Ok tt, s') /\
    ExportGenesis s' = mkGenesis (NewDec 14400) DefaultParams.
Proof. apply (genesis_roundtrip s1 s0). vm_compute. reflexivity. Defined.

End Example.
