(* ===== verification/OracleBallot.v ===== *)
(** * Ballots and the tally ([src/x/oracle/types/ballot.go], [src/x/oracle/tally.go])

    The votes for one denomination, their weighted median, their standard
    deviation (through a 64-bit float square root, as the code computes it),
    cross rates, the tally that picks the winners of a ballot, and the choice
    of the reference currency. *)

From Stdlib Require Import ZArith Lia Bool Sorting.Sorted.
From stdpp Require Import base strings list gmap sorting.
From S2P Require Import Prelude Sdk SdkRef Core.
Local Open Scope Z_scope.

(** ** Data *)

Record VoteForTally : Type := NewVoteForTally {
  ExchangeRate : Dec; Denom : string; Voter : ValAddress; VPower : Z (* int64 *) }.

Abbreviation ExchangeRateBallot := (list VoteForTally) (only parsing).

Record Claim : Type := NewClaim {
  CPower : Z; Weight : Z; WinCount : Z (* int64 *); Recipient : ValAddress }.

(** The zero value a Go map returns for an absent key. *)
Definition zero_claim : Claim := NewClaim 0 0 0 "".

#[global] Instance VoteForTally_eq_dec : EqDecision VoteForTally.
Proof. solve_decision. Defined.

#[global] Instance Claim_eq_dec : EqDecision Claim.
Proof. solve_decision. Defined.

(** ** Sorting

    [sort.Sort] sorts by [Less] and is not stable: the model takes it as a
    function of which only this is known. *)

Definition Less (v w : VoteForTally) : bool := ExchangeRate v <? ExchangeRate w.

Definition rate_le (v w : VoteForTally) : Prop := ExchangeRate v <= ExchangeRate w.

Class GoSort : Type := { sort_Sort : ExchangeRateBallot -> ExchangeRateBallot }.

Class GoSortLaws (S : GoSort) : Prop := {
  sort_perm pb : sort_Sort pb ≡ₚ pb;
  sort_sorted pb : StronglySorted rate_le (sort_Sort pb);
}.

(** [sort.IsSorted]: no element is less than the one before it. *)
Fixpoint IsSorted (pb : ExchangeRateBallot) : bool :=
  match pb with
  | v :: (w :: _) as pb' => negb (Less w v) && IsSorted pb'
  | _ => true
  end.

(** ** Operations of a ballot *)

(** [Power]: an [int64] sum, which wraps around. *)
Definition Power (pb : ExchangeRateBallot) : Z :=
  foldl (fun totalPower vote => to_int64 (totalPower + VPower vote)) 0 pb.

#[global] Arguments Power pb : simpl never.

(** [ToMap]: the positive rate of each voter; a later vote of the same voter
    replaces an earlier one. *)
Definition ToMap (pb : ExchangeRateBallot) : gmap ValAddress Dec :=
  foldl (fun m vote =>
           if 0 <? ExchangeRate vote then <[Voter vote := ExchangeRate vote]> m else m) ∅ pb.

Section ballot.
Context {M : SdkMath} {S : GoSort}.

Definition cross_vote (bases : gmap ValAddress Dec) (vote : VoteForTally) : res VoteForTally :=
  match bases !! Voter vote with
  | Some exchangeRateRT =>
      if 0 <? ExchangeRate vote then
        r ← dec_quo exchangeRateRT (ExchangeRate vote);
        Ok (NewVoteForTally r (Denom vote) (Voter vote) (VPower vote))
      else Ok (NewVoteForTally 0 (Denom vote) (Voter vote) 0)
  | None => Ok (NewVoteForTally 0 (Denom vote) (Voter vote) 0)
  end.

Definition ToCrossRate (bases : gmap ValAddress Dec) (pb : ExchangeRateBallot)
    : res ExchangeRateBallot :=
  foldM (fun cb vote => v ← cross_vote bases vote; Ok (cb ++ [v])) pb [].

Definition ToCrossRateWithSort (bases : gmap ValAddress Dec) (pb : ExchangeRateBallot)
    : res ExchangeRateBallot :=
  cb ← ToCrossRate bases pb; Ok (sort_Sort cb).

(** The loop of [WeightedMedian]. *)
Fixpoint median_loop (totalPower pivot : Z) (pb : ExchangeRateBallot) : Dec :=
  match pb with
  | [] => 0
  | v :: pb' =>
      let pivot' := to_int64 (pivot + VPower v) in
      if Z.quot totalPower 2 <=? pivot' then ExchangeRate v
      else median_loop totalPower pivot' pb'
  end.

Definition WeightedMedian (pb : ExchangeRateBallot) : Dec := median_loop (Power pb) 0 pb.

Definition WeightedMedianWithAssertion (pb : ExchangeRateBallot) : res Dec :=
  panic_if (negb (IsSorted pb));;
  Ok (WeightedMedian pb).

(** ** The square root of the standard deviation

    [variance.String()] is parsed to the nearest [float64], [math.Sqrt] is
    the nearest [float64] to the root, and ["%f"] prints the nearest number of
    six decimals, which [NewDecFromStr] reads back.  A positive [float64] is
    a pair of a mantissa of 53 bits and an exponent; the numbers here are
    between [10^-18] and [2^315], far from the subnormal and infinite ones. *)

Definition div_half_even (n d : Z) : Z :=
  let q := n / d in
  let r := n mod d in
  if 2 * r <? d then q else if d <? 2 * r then q + 1 else if Z.even q then q else q + 1.

(** [n * 2^e], as a fraction. *)
Definition scale2 (n e : Z) : Z * Z := (n * 2 ^ Z.max 0 e, 2 ^ Z.max 0 (- e)).

Definition ParseFloat (n d : Z) : Z * Z :=
  if n =? 0 then (0, 0)
  else
    let e0 := Z.log2 n - Z.log2 d - 52 in
    let '(a0, b0) := scale2 n (- e0) in
    let e := if a0 <? d * b0 * 2 ^ 52 then e0 - 1 else e0 in
    let '(a, b) := scale2 n (- e) in
    (div_half_even a (d * b), e).

Definition Sqrt (x : Z * Z) : Z * Z :=
  let '(m0, e0) := x in
  let '(m, e) := if Z.even e0 then (m0, e0) else (2 * m0, e0 - 1) in
  let n := m * 2 ^ 52 in
  let r := Z.sqrt n in
  (if r <? n - r * r then r + 1 else r, e / 2 - 26).

Definition sprintf_f (x : Z * Z) : Z :=
  let '(a, b) := scale2 (x.1 * 10 ^ 6) x.2 in div_half_even a b.

Definition float_sqrt (variance : Dec) : Dec :=
  sprintf_f (Sqrt (ParseFloat variance precision)) * 10 ^ 12.

(** [StandardDeviation]: a panic of the arithmetic is recovered and gives
    zero. *)
Definition StandardDeviation (pb : ExchangeRateBallot) (median : Dec) : Dec :=
  match pb with
  | [] => 0
  | _ =>
      match
        (sum ← foldM (fun sum v =>
                        deviation ← dec_sub (ExchangeRate v) median;
                        sq ← dec_mul deviation deviation;
                        dec_add sum sq) pb 0;
         dec_quo_int sum (Z.of_nat (length pb)))
      with
      | Ok variance => float_sqrt variance
      | _ => 0
      end
  end.

(** ** The tally *)

(** The condition of the soft fork: before it the sortedness is not asserted. *)
Definition before_sort_fork (ctx : Ctx) : bool :=
  (String.eqb (ChainID ctx) ColumbusChainID && (BlockHeight ctx <? 5701000)) ||
  (String.eqb (ChainID ctx) BombayChainID && (BlockHeight ctx <? 7000000)).

Definition median_at (ctx : Ctx) (pb : ExchangeRateBallot) : res Dec :=
  if before_sort_fork ctx then Ok (WeightedMedian pb) else WeightedMedianWithAssertion pb.

(** The condition of the loop of [Tally]; [&&] and [||] are lazy. *)
Definition is_winner (weightedMedian rewardSpread : Dec) (vote : VoteForTally) : res bool :=
  lo ← dec_sub weightedMedian rewardSpread;
  inside ← (if lo <=? ExchangeRate vote then
              hi ← dec_add weightedMedian rewardSpread; Ok (ExchangeRate vote <=? hi)
            else Ok false : res bool);
  Ok (inside || negb (0 <? ExchangeRate vote)).

Context {A : Bech32}.

(** [claim.Weight += vote.Power; claim.WinCount++] on the entry of the map. *)
Definition add_win (validatorClaimMap : gmap string Claim) (vote : VoteForTally)
    : gmap string Claim :=
  let key := ValAddressString (Voter vote) in
  let claim := default zero_claim (validatorClaimMap !! key) in
  <[key := NewClaim (CPower claim) (to_int64 (Weight claim + VPower vote))
                    (to_int64 (WinCount claim + 1)) (Recipient claim)]> validatorClaimMap.

Definition reward_spread (pb : ExchangeRateBallot) (weightedMedian rewardBand : Dec) : res Dec :=
  let standardDeviation := StandardDeviation pb weightedMedian in
  half ← dec_quo_int rewardBand 2;
  rewardSpread ← dec_mul weightedMedian half;
  Ok (if rewardSpread <? standardDeviation then standardDeviation else rewardSpread).

Definition Tally (ctx : Ctx) (pb : ExchangeRateBallot) (rewardBand : Dec)
    (validatorClaimMap : gmap string Claim) : res (Dec * gmap string Claim) :=
  weightedMedian ← median_at ctx pb;
  rewardSpread ← reward_spread pb weightedMedian rewardBand;
  claims ← foldM (fun claims vote =>
                    win ← is_winner weightedMedian rewardSpread vote;
                    Ok (if (win : bool) then add_win claims vote else claims))
                 pb validatorClaimMap;
  Ok (weightedMedian, claims).

Definition ballotIsPassing (ballot : ExchangeRateBallot) (thresholdVotes : Int) : Z * bool :=
  let ballotPower := Power ballot in
  (ballotPower, negb (ballotPower =? 0) && (thresholdVotes <=? ballotPower)).

(** ** The reference currency *)

Record pick_state : Type := mkPick {
  voteTargets : gmap string Dec;
  voteMap : gmap string ExchangeRateBallot;
  referenceTerra : string;
  largestBallotPower : Z;
}.

(** One iteration over [voteMap]. *)
Definition pick_step (thresholdVotes : Int) (p : pick_state)
    (entry : string * ExchangeRateBallot) : pick_state :=
  let '(denom, ballot) := entry in
  match voteTargets p !! denom with
  | None => mkPick (voteTargets p) (delete denom (voteMap p)) (referenceTerra p) (largestBallotPower p)
  | Some _ =>
      let '(ballotPower, ok) := ballotIsPassing ballot thresholdVotes in
      if ok then
        if (largestBallotPower p <? ballotPower) || (largestBallotPower p =? 0)
        then mkPick (voteTargets p) (voteMap p) denom ballotPower
        else if (largestBallotPower p =? ballotPower) && String.ltb denom (referenceTerra p)
        then mkPick (voteTargets p) (voteMap p) denom (largestBallotPower p)
        else p
      else
        mkPick (delete denom (voteTargets p)) (delete denom (voteMap p))
          (referenceTerra p) (largestBallotPower p)
  end.

(** [PickReferenceTerra] prunes both maps and returns the reference; [order]
    is the order in which Go ranges over [voteMap]. *)
Definition pick_loop (thresholdVotes : Int) (targets : gmap string Dec)
    (votes : gmap string ExchangeRateBallot) (order : list (string * ExchangeRateBallot))
    : pick_state :=
  foldl (pick_step thresholdVotes) (mkPick targets votes "" 0) order.

Definition PickReferenceTerra (voteThreshold : Dec) (totalBondedPower : Z)
    (targets : gmap string Dec) (votes : gmap string ExchangeRateBallot)
    (order : list (string * ExchangeRateBallot)) : res pick_state :=
  t ← dec_mul_int voteThreshold totalBondedPower;
  thresholdVotes ← dec_round_int t;
  Ok (pick_loop thresholdVotes targets votes order).

End ballot.

(** A sort for the concrete runs: merge sort by rate. *)
#[global] Instance rate_le_dec (v w : VoteForTally) : Decision (rate_le v w).
Proof. unfold rate_le. apply _. Defined.

#[global] Instance rate_le_trans : Transitive rate_le.
Proof. intros x y z. unfold rate_le. lia. Qed.

#[global] Instance rate_le_total : Total rate_le.
Proof. intros x y. unfold rate_le. lia. Qed.

Definition merge_sort_votes : GoSort := {| sort_Sort := merge_sort rate_le |}.

#[global] Instance merge_sort_votes_laws : GoSortLaws merge_sort_votes.
Proof.
  split; intros pb; cbn.
  - apply merge_sort_Permutation.
  - apply StronglySorted_merge_sort; apply _.
Qed.

(** ** Facts *)

Lemma to_int64_add_l a b : to_int64 (to_int64 a + b) = to_int64 (a + b).
Proof.
  unfold to_int64. replace ((a + two63) mod two64 - two63 + b + two63)
    with ((a + two63) mod two64 + b) by lia.
  rewrite Zplus_mod_idemp_l. do 2 f_equal. lia.
Qed.

Lemma to_int64_swap a b c :
  to_int64 (to_int64 (a + b) + c) = to_int64 (to_int64 (a + c) + b).
Proof. rewrite !to_int64_add_l. f_equal. lia. Qed.

(** A ballot whose powers are those of validators: not negative, and their
    sum is an [int64]. *)
Definition powers_ok (pb : ExchangeRateBallot) : Prop :=
  Forall (fun v => 0 <= VPower v) pb /\ sumZ VPower pb < two63.

Lemma powers_ok_perm pb pb' : pb ≡ₚ pb' -> powers_ok pb -> powers_ok pb'.
Proof. intros Hp. unfold powers_ok. by rewrite Hp. Qed.

Lemma powers_nonneg pb : powers_ok pb -> 0 <= sumZ VPower pb.
Proof. intros [H _]. by apply sumZ_nonneg. Qed.

Lemma Power_from pb a :
  powers_ok pb -> 0 <= a -> a + sumZ VPower pb < two63 ->
  foldl (fun t v => to_int64 (t + VPower v)) a pb = a + sumZ VPower pb.
Proof.
  intros [Hp Hs]. clear Hs. revert a. induction Hp as [|v pb Hv Hp IH]; intros a Ha Hb; cbn.
  { rewrite sumZ_nil. lia. }
  rewrite sumZ_cons in *. pose proof (sumZ_nonneg _ _ Hp).
  assert (two63 = 2 ^ 63) by done.
  rewrite to_int64_id by (unfold is_int64; lia). rewrite IH by lia. lia.
Qed.

Lemma Power_sum pb : powers_ok pb -> Power pb = sumZ VPower pb.
Proof. intros H. unfold Power. rewrite Power_from; [lia|done|done|apply H]. Qed.

Lemma IsSorted_spec pb : StronglySorted rate_le pb -> IsSorted pb = true.
Proof.
  induction 1 as [|v pb Hs IH Hall]; [done|]. destruct pb as [|w pb]; [done|].
  cbn. apply andb_true_iff. split; [|done].
  unfold Less. apply Forall_cons_1 in Hall as [Hvw _]. unfold rate_le in Hvw.
  apply negb_true_iff, Z.ltb_ge. done.
Qed.

Definition power_below (r : Dec) (pb : ExchangeRateBallot) : Z :=
  sumZ VPower (filter (fun v => ExchangeRate v < r) pb).

Definition power_upto (r : Dec) (pb : ExchangeRateBallot) : Z :=
  sumZ VPower (filter (fun v => ExchangeRate v <= r) pb).

Lemma filter_power_le (P : VoteForTally -> Prop) `{forall v, Decision (P v)} pb :
  Forall (fun v => 0 <= VPower v) pb ->
  0 <= sumZ VPower (filter P pb) <= sumZ VPower pb.
Proof.
  induction 1 as [|v pb Hv Hp IH]; [done|]. rewrite filter_cons.
  case_decide; rewrite !sumZ_cons; lia.
Qed.

Lemma power_below_all r pb : Forall (fun v => r <= ExchangeRate v) pb -> power_below r pb = 0.
Proof.
  intros H. unfold power_below. induction H as [|v pb Hv Hp IH]; [done|].
  rewrite filter_cons. case_decide; [lia|done].
Qed.

(** The loop of the median: it stops at a vote of the ballot, the votes
    strictly below it did not reach the half, those up to it did. *)
Lemma median_loop_spec total pb pivot :
  StronglySorted rate_le pb -> powers_ok pb ->
  0 <= pivot -> pivot + sumZ VPower pb = total -> total < two63 ->
  pb <> [] ->
  let r := median_loop total pivot pb in
  (exists v, v ∈ pb /\ ExchangeRate v = r) /\
  Z.quot total 2 <= pivot + power_upto r pb /\
  (power_below r pb = 0 \/ pivot + power_below r pb < Z.quot total 2).
Proof.
  intros Hs. revert pivot. induction Hs as [|v pb Hs IH Hall]; [done|].
  intros pivot Hp Hpiv Ht Hlt _ r.
  pose proof Hp as [Hnn Hsum]. apply Forall_cons_1 in Hnn as [Hv Hnn].
  rewrite sumZ_cons in *. pose proof (sumZ_nonneg _ _ Hnn).
  assert (Hb : forall a, power_below a (v :: pb) =
     (if decide (ExchangeRate v < a) then VPower v else 0) + power_below a pb).
  { intros a. unfold power_below. rewrite filter_cons. case_decide; by rewrite ?sumZ_cons. }
  assert (Hu : forall a, power_upto a (v :: pb) =
     (if decide (ExchangeRate v <= a) then VPower v else 0) + power_upto a pb).
  { intros a. unfold power_upto. rewrite filter_cons. case_decide; by rewrite ?sumZ_cons. }
  assert (Hid : to_int64 (pivot + VPower v) = pivot + VPower v).
  { apply to_int64_id. unfold is_int64. assert (0 < two63) by done. lia. }
  subst r. cbn [median_loop]. rewrite Hid.
  destruct (Z.leb_spec (Z.quot total 2) (pivot + VPower v)) as [Hle|Hgt].
  - split; [by exists v; split; [left|]|]. split.
    + rewrite Hu, decide_True by lia. pose proof (filter_power_le _ _ Hnn
        : 0 <= power_upto (ExchangeRate v) pb <= _). lia.
    + left. rewrite Hb, decide_False by lia. by rewrite power_below_all.
  - assert (Hq : Z.quot total 2 <= total) by (apply Z.quot_le_upper_bound; lia).
    assert (Hne : pb <> []) by (intros ->; rewrite sumZ_nil in *; lia).
    assert (Hpok : powers_ok pb) by (split; [done|lia]).
    destruct (IH (pivot + VPower v) Hpok) as ((w & Hw & Hrw) & H1 & H2); [lia..|done|].
    set (r := median_loop total (pivot + VPower v) pb) in *.
    rewrite Hb, Hu.
    assert (Hvr : ExchangeRate v <= r).
    { rewrite <- Hrw. rewrite Forall_forall in Hall. by apply Hall. }
    split; [exists w; by split; [right|]|]. rewrite (decide_True _ _ Hvr).
    split; [lia|]. case_decide; [|lia]. destruct H2 as [->|H2]; lia.
Qed.

(** Every step of [add_win] commutes with every other, so the order of the
    ballots and of the votes does not matter for the claims. *)
Section claims.
Context {A : Bech32}.

Lemma add_win_comm (claims : gmap string Claim) v w :
  add_win (add_win claims v) w = add_win (add_win claims w) v.
Proof.
  unfold add_win. set (kv := ValAddressString (Voter v)). set (kw := ValAddressString (Voter w)).
  destruct (decide (kv = kw)) as [->|Hne].
  - rewrite !lookup_insert_eq, !insert_insert_eq. cbn. f_equal. f_equal; apply to_int64_swap.
  - rewrite !lookup_insert_ne by done. by apply insert_insert_ne.
Qed.

Lemma add_wins_perm (claims : gmap string Claim) l l' :
  l ≡ₚ l' -> foldl add_win claims l = foldl add_win claims l'.
Proof.
  intros Hp. revert claims. induction Hp; intros claims; cbn; [done|apply IHHp| |].
  - by rewrite add_win_comm.
  - by rewrite IHHp1, IHHp2.
Qed.

(** What a sequence of wins leaves in the claim of a validator. *)
Definition wins_of (k : string) (l : ExchangeRateBallot) : ExchangeRateBallot :=
  filter (fun v => ValAddressString (Voter v) = k) l.

Lemma add_win_lookup (claims : gmap string Claim) v k :
  add_win claims v !! k =
    if decide (ValAddressString (Voter v) = k) then
      let c := default zero_claim (claims !! k) in
      Some (NewClaim (CPower c) (to_int64 (Weight c + VPower v)) (to_int64 (WinCount c + 1))
              (Recipient c))
    else claims !! k.
Proof.
  unfold add_win. case_decide as Hk; [subst k|]; [by rewrite lookup_insert_eq|by rewrite lookup_insert_ne].
Qed.

Lemma add_wins_lookup (claims : gmap string Claim) l k :
  foldl add_win claims l !! k =
    match wins_of k l with
    | [] => claims !! k
    | ws => let c := default zero_claim (claims !! k) in
            Some (NewClaim (CPower c) (to_int64 (Weight c + sumZ VPower ws))
                    (to_int64 (WinCount c + Z.of_nat (length ws))) (Recipient c))
    end.
Proof.
  revert claims. induction l as [|v l IH]; intros claims; [done|].
  cbn [foldl]. rewrite IH, add_win_lookup. unfold wins_of at 2. rewrite filter_cons.
  fold (wins_of k l). destruct (decide (ValAddressString (Voter v) = k)) as [Hk|Hk]; [|done].
  cbn [default from_option id CPower Weight WinCount Recipient].
  destruct (wins_of k l) as [|w ws].
  - by rewrite sumZ_cons, sumZ_nil, Z.add_0_r.
  - rewrite !to_int64_add_l. do 2 f_equal; f_equal; [rewrite !sumZ_cons|cbn [length]]; lia.
Qed.

End claims.

Section tally_facts.
Context {M : SdkMath} {ML : SdkMathLaws M} {S : GoSort} {SL : GoSortLaws S} {A : Bech32}.

(** Whether a vote is rewarded: within the spread of the median, or an
    abstention. *)
Definition wins (m s : Dec) (v : VoteForTally) : bool :=
  ((m - s <=? ExchangeRate v) && (ExchangeRate v <=? m + s)) || negb (0 <? ExchangeRate v).

Lemma is_winner_Ok m s v b : is_winner m s v = Ok b -> b = wins m s v.
Proof.
  unfold is_winner, wins. intros H. go_inv. apply dec_sub_Ok in Hv as [-> _].
  destruct (m - s <=? ExchangeRate v); go_inv; [|done].
  by apply dec_add_Ok in Hv as [-> _].
Qed.

Lemma tally_loop_Ok m s pb claims claims' :
  foldM (fun claims vote => win ← is_winner m s vote;
                            Ok (if (win : bool) then add_win claims vote else claims))
        pb claims = Ok claims' ->
  claims' = foldl add_win claims (filter (fun v => wins m s v = true) pb).
Proof.
  revert claims. induction pb as [|v pb IH]; intros claims H; [by injection H as <-|].
  cbn [foldM] in H. go_inv. apply is_winner_Ok in Hv0 as ->. apply IH in H as ->.
  rewrite filter_cons. case_decide as Hw; [by rewrite Hw|].
  by rewrite (not_true_is_false _ Hw).
Qed.

(** The square root is not negative, so the median itself always wins. *)
Lemma div_half_even_nonneg n d : 0 <= n -> 0 < d -> 0 <= div_half_even n d.
Proof.
  intros Hn Hd. unfold div_half_even. pose proof (Z.div_pos n d Hn Hd).
  repeat case_match; lia.
Qed.

Lemma scale2_pos n e a b : scale2 n e = (a, b) -> 0 <= n -> 0 <= a /\ 0 < b.
Proof.
  intros [= <- <-] Hn.
  pose proof (Z.pow_pos_nonneg 2 (Z.max 0 e)). pose proof (Z.pow_pos_nonneg 2 (Z.max 0 (- e))). nia.
Qed.

Lemma float_sqrt_nonneg v : 0 <= v -> 0 <= float_sqrt v.
Proof.
  intros Hv. unfold float_sqrt, sprintf_f.
  assert (H0 : forall x, 0 <= x.1 -> 0 <= (Sqrt x).1).
  { intros [m e] Hm. unfold Sqrt. destruct (Z.even e); cbn;
      pose proof (Z.sqrt_nonneg (m * 2 ^ 52)); pose proof (Z.sqrt_nonneg (2 * m * 2 ^ 52));
      case_match; cbn; lia. }
  assert (H1 : 0 <= (ParseFloat v precision).1).
  { unfold ParseFloat. case_match; [done|]. destruct (scale2 v (- (Z.log2 v - _ - _))) as [a0 b0].
    destruct (scale2 v _) as [a b] eqn:E. apply scale2_pos in E as [Ha Hb]; [|done].
    cbn. apply div_half_even_nonneg; [done|]. pose proof precision_pos. nia. }
  destruct (scale2 _ _) as [a b] eqn:E. apply scale2_pos in E as [Ha Hb].
  - pose proof (div_half_even_nonneg a b Ha Hb). lia.
  - specialize (H0 _ H1). lia.
Qed.

Lemma deviation_nonneg pb median sum0 sum :
  foldM (fun sum v => deviation ← dec_sub (ExchangeRate v) median;
                      sq ← dec_mul deviation deviation;
                      dec_add sum sq) pb sum0 = Ok sum -> 0 <= sum0 -> 0 <= sum.
Proof.
  revert sum0. induction pb as [|v pb IH]; intros sum0 H H0; [by injection H as <-|].
  cbn [foldM] in H. go_inv. select (dec_add _ _ = _) (fun H => apply dec_add_Ok in H as [-> _]).
  select (dec_mul _ _ = _) (fun H => apply dec_mul_bounds in H). apply (IH _ H).
  pose proof precision_pos. assert (0 <= v1 * v1) by nia. nia.
Qed.

Lemma StandardDeviation_nonneg pb median : 0 <= StandardDeviation pb median.
Proof.
  unfold StandardDeviation. destruct pb as [|v pb]; [done|].
  match goal with |- context [match ?c with Ok _ => _ | _ => _ end] => destruct c eqn:E end; try done.
  go_inv. apply dec_quo_int_Ok in E as [_ ->]. apply float_sqrt_nonneg.
  apply deviation_nonneg in Hv; [|done]. cbn [length]. apply Z.quot_pos; lia.
Qed.

Lemma reward_spread_nonneg pb m band s : reward_spread pb m band = Ok s -> 0 <= s.
Proof.
  unfold reward_spread. intros H. go_inv. pose proof (StandardDeviation_nonneg pb m).
  destruct (Z.ltb_spec v0 (StandardDeviation pb m)); lia.
Qed.

Lemma median_at_value ctx pb m : median_at ctx pb = Ok m -> m = WeightedMedian pb.
Proof.
  unfold median_at, WeightedMedianWithAssertion. destruct (before_sort_fork ctx); intros H; by go_inv.
Qed.

Lemma median_at_sorted ctx pb : StronglySorted rate_le pb -> median_at ctx pb = Ok (WeightedMedian pb).
Proof.
  intros Hs. unfold median_at, WeightedMedianWithAssertion.
  rewrite IsSorted_spec by done. by destruct (before_sort_fork ctx).
Qed.

(** What [Tally] computes: the median, a spread that is not negative, and the
    claims of the winning votes. *)
Lemma Tally_Ok ctx pb band claims m claims' :
  Tally ctx pb band claims = Ok (m, claims') ->
  exists s, m = WeightedMedian pb /\ reward_spread pb m band = Ok s /\ 0 <= s /\
    claims' = foldl add_win claims (filter (fun v => wins m s v = true) pb).
Proof.
  unfold Tally. intros H. go_inv. pose proof (reward_spread_nonneg _ _ _ _ Hv0).
  apply median_at_value in Hv as Hm. apply tally_loop_Ok in Hv1 as ->. by exists v0.
Qed.

(** Cross rates keep the voters, and turn a vote without a reference into an
    abstention without power. *)
Lemma ToCrossRate_acc bases pb acc cb :
  foldM (fun cb vote => v ← cross_vote bases vote; Ok (cb ++ [v])) pb acc = Ok cb <->
  exists cb', cb = acc ++ cb' /\ Forall2 (fun v w => cross_vote bases v = Ok w) pb cb'.
Proof.
  revert acc. induction pb as [|v pb IH]; intros acc; cbn.
  - split; [intros [= <-]; exists []; by rewrite app_nil_r|].
    intros (cb' & -> & H). inversion H. by rewrite app_nil_r.
  - destruct (cross_vote bases v) as [w|e|] eqn:E; cbn.
    + rewrite IH. split.
      * intros (cb' & -> & H). exists (w :: cb'). rewrite <- app_assoc. split; [done|]. by constructor.
      * intros (cb' & -> & H). inversion H; subst. exists l'. rewrite <- app_assoc. split; [|done].
        cbn. congruence.
    + split; [done|]. intros (cb' & _ & H). inversion H. congruence.
    + split; [done|]. intros (cb' & _ & H). inversion H. congruence.
Qed.

Lemma ToCrossRate_Ok bases pb cb :
  ToCrossRate bases pb = Ok cb <-> Forall2 (fun v w => cross_vote bases v = Ok w) pb cb.
Proof.
  unfold ToCrossRate. rewrite ToCrossRate_acc. cbn. naive_solver.
Qed.

Lemma cross_vote_voter bases v w : cross_vote bases v = Ok w -> Voter w = Voter v.
Proof.
  unfold cross_vote. destruct (bases !! Voter v); [|by intros [= <-]].
  destruct (0 <? ExchangeRate v); intros H; go_inv; done.
Qed.

Lemma cross_vote_abstain bases v w :
  map_Forall (fun _ r => 0 < r) bases -> cross_vote bases v = Ok w ->
  0 <= ExchangeRate w /\ (VPower w = VPower v /\ 0 < ExchangeRate v /\ is_Some (bases !! Voter v) \/
                          ExchangeRate w = 0 /\ VPower w = 0).
Proof.
  intros Hb. unfold cross_vote. destruct (bases !! Voter v) as [r|] eqn:Hr.
  2: { intros [= <-]. split; [done|by right]. }
  destruct (Z.ltb_spec 0 (ExchangeRate v)); intros H0; go_inv; cbn; [|split; [done|by right]].
  apply Hb in Hr. split; [|eauto]. apply (dec_quo_sign _ _ _ Hv); lia.
Qed.

Lemma ToMap_pos pb : map_Forall (fun _ r => 0 < r) (ToMap pb).
Proof.
  unfold ToMap. assert (H0 : map_Forall (fun (_ : ValAddress) r => 0 < r) (∅ : gmap ValAddress Dec)) by done.
  revert H0. generalize (∅ : gmap ValAddress Dec). induction pb as [|v pb IH]; intros m Hm; [done|].
  cbn. apply IH. destruct (Z.ltb_spec 0 (ExchangeRate v)); [|done]. by apply map_Forall_insert_2.
Qed.

End tally_facts.

(** ** The choice of the reference currency *)

Section pick_facts.
Context (threshold : Int).
Implicit Types (targets : gmap string Dec) (votes : gmap string ExchangeRateBallot).

Definition passing (ballot : ExchangeRateBallot) : bool := (ballotIsPassing ballot threshold).2.

Arguments passing ballot : simpl never.

(** The ballots that take part: of a vote target, and passing. *)
Definition candidate targets (entry : string * ExchangeRateBallot) : Prop :=
  is_Some (targets !! entry.1) /\ passing entry.2 = true.

#[local] Instance candidate_dec targets entry : Decision (candidate targets entry).
Proof. unfold candidate. apply _. Defined.

(** More power, or the same power and an earlier name. *)
Definition outranks (e1 e2 : string * Z) : Prop :=
  e2.2 < e1.2 \/ (e2.2 = e1.2 /\ String.le e1.1 e2.1).

#[local] Instance outranks_trans : Transitive outranks.
Proof.
  intros [d1 p1] [d2 p2] [d3 p3]. unfold outranks. cbn.
  intros [?|[? ?]] [?|[? ?]]; try lia. right. split; [lia|]. by transitivity d2.
Qed.

Definition best_of (entries : list (string * ExchangeRateBallot)) targets (p : pick_state) : Prop :=
  (largestBallotPower p = 0 /\ referenceTerra p = "" /\
     Forall (fun e => ~ candidate targets e) entries) \/
  (0 < largestBallotPower p /\
     (exists b, (referenceTerra p, b) ∈ entries /\ candidate targets (referenceTerra p, b) /\
                Power b = largestBallotPower p) /\
     Forall (fun e => candidate targets e ->
                      outranks (referenceTerra p, largestBallotPower p) (e.1, Power e.2)) entries).

Lemma ltb_le d1 d2 : String.ltb d1 d2 = false -> String.le d2 d1.
Proof.
  unfold String.ltb, String.le, String.leb. rewrite (String.compare_antisym d2 d1).
  by destruct (String.compare d1 d2).
Qed.

Lemma ltb_true_le d1 d2 : String.ltb d1 d2 = true -> String.le d1 d2.
Proof. unfold String.ltb, String.le, String.leb. by destruct (String.compare d1 d2). Qed.

Lemma passing_pos b : passing b = true -> 0 <= Power b -> 0 < Power b.
Proof.
  unfold passing, ballotIsPassing. cbn. intros [H _]%andb_true_iff Hp.
  apply negb_true_iff, Z.eqb_neq in H. lia.
Qed.

(** A step that leaves the choice alone, and one that replaces it. *)
Lemma best_keep seen targets p p' e :
  best_of seen targets p ->
  referenceTerra p' = referenceTerra p -> largestBallotPower p' = largestBallotPower p ->
  (candidate targets e -> 0 < largestBallotPower p /\
     outranks (referenceTerra p, largestBallotPower p) (e.1, Power e.2)) ->
  best_of (seen ++ [e]) targets p'.
Proof.
  unfold best_of. intros Hbest -> -> He. rewrite !Forall_app, !Forall_singleton.
  destruct Hbest as [(H0 & Hr & Hn)|(Hpos & (b & Hin & Hc & Hb) & Hall)]; [left|right].
  - repeat split; [done..|]. intros [? _]%He. lia.
  - split; [done|]. split; [exists b; set_solver|]. naive_solver.
Qed.

Lemma best_new seen targets p p' d b :
  best_of seen targets p -> candidate targets (d, b) -> 0 < Power b ->
  referenceTerra p' = d -> largestBallotPower p' = Power b ->
  (largestBallotPower p = 0 \/ outranks (d, Power b) (referenceTerra p, largestBallotPower p)) ->
  best_of (seen ++ [(d, b)]) targets p'.
Proof.
  unfold best_of. intros Hbest Hc Hpos -> -> Hor. right. split; [done|].
  split; [exists b; set_solver|]. rewrite Forall_app, Forall_singleton.
  split; [|intros _; by right]. rewrite !Forall_forall in *.
  destruct Hbest as [(_ & _ & Hn)|(Hp & _ & Hall)]; intros e He Hce.
  - by apply Hn in He.
  - destruct Hor as [H0|Hor]; [lia|].
    etransitivity; [exact Hor|]. by apply Hall.
Qed.

(** One step keeps the best of the entries seen so far. *)
Lemma pick_step_best targets p seen d b :
  voteTargets p !! d = targets !! d -> 0 <= Power b ->
  best_of seen targets p -> best_of (seen ++ [(d, b)]) targets (pick_step threshold p (d, b)).
Proof.
  intros Hl Hb Hbest. unfold pick_step. rewrite Hl.
  destruct (targets !! d) as [t|] eqn:Ht.
  2: { apply (best_keep seen targets p); [done..|]. intros [[? ?] _]. cbn in *. congruence. }
  destruct (ballotIsPassing b threshold) as [pw ok] eqn:Ebp.
  assert (pw = Power b) as -> by (unfold ballotIsPassing in Ebp; congruence).
  assert (Hpass : passing b = ok) by (unfold passing; by rewrite Ebp). destruct ok.
  2: { apply (best_keep seen targets p); [done..|]. intros [_ ?]. cbn in *. congruence. }
  pose proof (passing_pos _ Hpass Hb) as Hpos.
  assert (Hc : candidate targets (d, b)) by by split; [exists t|].
  destruct (Z.ltb_spec (largestBallotPower p) (Power b)) as [Hlt|Hge]; cbn.
  { apply (best_new seen targets p); try done. right. by left. }
  destruct (Z.eqb_spec (largestBallotPower p) 0); cbn.
  { apply (best_new seen targets p); try done. by left. }
  destruct (Z.eqb_spec (largestBallotPower p) (Power b)) as [Heq|Hneq]; cbn;
    [destruct (String.ltb d (referenceTerra p)) eqn:Hltb|].
  - apply (best_new seen targets p); try done. right. right. split; [done|]. by apply ltb_true_le.
  - apply (best_keep seen targets p); try done. intros _. split; [lia|]. right. cbn.
    split; [lia|]. by apply ltb_le.
  - apply (best_keep seen targets p); try done. intros _. split; [lia|]. left. cbn. lia.
Qed.

(** What the step does to the two maps. *)
Lemma pick_step_maps p d b :
  let p' := pick_step threshold p (d, b) in
  voteTargets p' = (if passing b then voteTargets p else delete d (voteTargets p)) /\
  voteMap p' = (if decide (candidate (voteTargets p) (d, b)) then voteMap p else delete d (voteMap p)).
Proof.
  unfold pick_step. destruct (ballotIsPassing b threshold) as [pw ok] eqn:Ebp.
  assert (Hpass : passing b = ok) by (unfold passing; by rewrite Ebp). rewrite Hpass.
  destruct (decide (candidate _ _)) as [Hc|Hc]; unfold candidate in Hc; cbn [fst snd] in Hc;
    destruct (voteTargets p !! d) as [t|] eqn:Ht; cbn zeta.
  - destruct Hc as [_ Hc]. rewrite Hpass in Hc. rewrite Hc.
    destruct (_ || _); [done|]. by destruct (_ && _).
  - by destruct Hc as [[? ?] _].
  - destruct ok; [|done]. destruct Hc. by eauto.
  - split; [|done]. destruct ok; [done|]. cbn. by rewrite delete_id.
Qed.

(** Deleting the bad entries one after the other deletes all of them. *)
Lemma delete_bad_cons {V} (bad : string * ExchangeRateBallot -> Prop)
    `{forall e, Decision (bad e)} (m : gmap string V) x order d :
  (if decide (Exists (fun e => e.1 = d /\ bad e) order) then None
   else (if decide (bad x) then delete x.1 m else m) !! d) =
  (if decide (Exists (fun e => e.1 = d /\ bad e) (x :: order)) then None else m !! d).
Proof.
  destruct (decide (Exists _ order)) as [Hex|Hex].
  { by rewrite decide_True by by right. }
  destruct (decide (x.1 = d)) as [Hd|Hd], (decide (bad x)) as [Hb|Hb].
  - rewrite decide_True by by left. subst d. apply lookup_delete_eq.
  - rewrite decide_False; [done|]. rewrite Exists_cons. tauto.
  - rewrite decide_False by (rewrite Exists_cons; tauto). by rewrite lookup_delete_ne.
  - rewrite decide_False; [done|]. rewrite Exists_cons. tauto.
Qed.

(** The whole loop over distinct entries. *)
Lemma pick_loop_spec targets votes p seen order :
  NoDup (order.*1) -> Forall (fun e => 0 <= Power e.2) order ->
  (forall e, e ∈ order -> voteTargets p !! e.1 = targets !! e.1) ->
  best_of seen targets p ->
  let p' := foldl (pick_step threshold) p order in
  best_of (seen ++ order) targets p' /\
  (forall d, voteTargets p' !! d =
     if decide (Exists (fun e => e.1 = d /\ passing e.2 = false) order) then None
     else voteTargets p !! d) /\
  (forall d, voteMap p' !! d =
     if decide (Exists (fun e => e.1 = d /\ ~ candidate targets e) order) then None
     else voteMap p !! d).
Proof.
  revert p seen. induction order as [|[d b] order IH]; intros p seen Hnd Hpos Hsame Hbest.
  { cbn. rewrite app_nil_r. split; [done|]. split; intros d; by rewrite decide_False by by inversion 1. }
  cbn in Hnd. apply NoDup_cons in Hnd as [Hni Hnd]. apply Forall_cons_1 in Hpos as [Hb Hpos].
  assert (Hd : voteTargets p !! d = targets !! d) by (apply (Hsame (d, b)); left).
  destruct (pick_step_maps p d b) as [HT HV].
  assert (Hd' : candidate (voteTargets p) (d, b) <-> candidate targets (d, b)).
  { unfold candidate. cbn. by rewrite Hd. }
  destruct (IH (pick_step threshold p (d, b)) (seen ++ [(d, b)])) as (H1 & H2 & H3); [done|done| | |].
  { intros [d' b'] Hin. rewrite HT. assert (d' <> d).
    { intros ->. apply Hni. apply list_elem_of_fmap. by exists (d, b'). }
    destruct (passing b); rewrite ?lookup_delete_ne by done; apply (Hsame (d', b')); by right. }
  { by apply pick_step_best. }
  cbn [foldl]. rewrite <- app_assoc in H1. split; [done|]. split; intros e.
  - rewrite H2, HT, <- (delete_bad_cons (fun e => passing e.2 = false)). cbn [fst snd].
    destruct (decide (Exists _ order)); [done|]. by destruct (passing b).
  - rewrite H3, HV, <- (delete_bad_cons (fun e => ~ candidate targets e)). cbn [fst snd].
    destruct (decide (Exists _ order)); [done|].
    destruct (decide (candidate (voteTargets p) (d, b))), (decide (~ candidate targets (d, b)));
      (done || tauto).
Qed.

(** A target survives unless it has a ballot and the ballot fails. *)
Definition survives votes (e : string * Dec) : bool :=
  match votes !! e.1 with Some b => passing b | None => true end.

Lemma exists_entry votes order (bad : string * ExchangeRateBallot -> Prop) d :
  range_of votes order ->
  Exists (fun e => e.1 = d /\ bad e) order <-> exists b, votes !! d = Some b /\ bad (d, b).
Proof.
  intros Hr. rewrite Exists_exists. split.
  - intros ([d' b] & Hi & <- & Hb). exists b. split; [|done].
    apply elem_of_map_to_list. by rewrite <- Hr.
  - intros (b & Hd & Hb). exists (d, b). repeat split; [|done].
    rewrite Hr. by apply elem_of_map_to_list.
Qed.

(** The result of the loop over a map, in any order. *)
Lemma pick_loop_result targets votes order :
  range_of votes order -> (forall d b, votes !! d = Some b -> 0 <= Power b) ->
  let p := pick_loop threshold targets votes order in
  voteMap p = filter (fun e => candidate targets e) votes /\
  voteTargets p = filter (fun e => survives votes e = true) targets /\
  best_of order targets p.
Proof.
  intros Hr Hpow p.
  destruct (pick_loop_spec targets votes (mkPick targets votes "" 0) [] order) as (H1 & H2 & H3).
  - rewrite Hr. apply NoDup_fst_map_to_list.
  - rewrite Hr. apply Forall_forall. intros [d b] Hd%elem_of_map_to_list. by apply Hpow in Hd.
  - done.
  - left. by repeat split.
  - split; [|split; [|exact H1]]; apply map_eq; intros d.
    + rewrite map_lookup_filter. etransitivity; [apply H3|]. cbn [voteMap].
      destruct (votes !! d) as [b|] eqn:Hd; cbn; [|by case_decide].
      case_decide as Hex; rewrite (exists_entry _ _ _ _ Hr) in Hex; simplify_option_eq; naive_solver.
    + rewrite map_lookup_filter. etransitivity; [apply H2|]. cbn [voteTargets].
      unfold survives. destruct (targets !! d) as [t|] eqn:Ht; cbn; [|by case_decide].
      case_decide as Hex; rewrite (exists_entry votes order (fun e => passing e.2 = false) d Hr) in Hex;
        cbn in Hex; destruct (votes !! d) as [b|] eqn:Hd; try (destruct (passing b) eqn:Hb; cbn);
        simplify_option_eq; try done; exfalso;
        first [destruct Hex as (? & ? & ?); congruence | apply Hex; eauto].
Qed.

(** The best entry is unique. *)
Lemma best_unique o1 o2 targets p1 p2 :
  o1 ≡ₚ o2 -> best_of o1 targets p1 -> best_of o2 targets p2 ->
  referenceTerra p1 = referenceTerra p2 /\ largestBallotPower p1 = largestBallotPower p2.
Proof.
  intros Hp. unfold best_of. rewrite Hp. rewrite !Forall_forall.
  intros [(H0 & Hr & Hn)|(Hpos & (b & Hb & Hc & Hpw) & Hall)]
         [(H0' & Hr' & Hn')|(Hpos' & (b' & Hb' & Hc' & Hpw') & Hall')].
  - by rewrite Hr, Hr', H0, H0'.
  - by apply Hn in Hb'.
  - rewrite Hp in Hb. by apply Hn' in Hb.
  - rewrite Hp in Hb. specialize (Hall _ Hb' Hc'). specialize (Hall' _ Hb Hc). unfold outranks in *. cbn in *.
    assert (largestBallotPower p1 = largestBallotPower p2) by lia. split; [|done].
    apply (anti_symm String.le); naive_solver lia.
Qed.

End pick_facts.

(** ** Theorems *)

Section ballot_theorems.
Context {M : SdkMath} {ML : SdkMathLaws M} {S : GoSort} {SL : GoSortLaws S} {A : Bech32}.

(** C9. [WeightedMedian] of a sorted, non-empty ballot is the rate of one of
    its votes; the votes at or below it hold at least half of the power, rounded
    down to an integer, and the votes strictly below it hold no power or less
    than half.  [odd_median_low] shows that the rounding matters. *)
Theorem weighted_median_spec pb :
  StronglySorted rate_le pb -> powers_ok pb -> pb <> [] ->
  let r := WeightedMedian pb in
  (exists v, v ∈ pb /\ ExchangeRate v = r) /\
  Z.quot (Power pb) 2 <= power_upto r pb /\
  (power_below r pb = 0 \/ 2 * power_below r pb < Power pb).
Proof.
  intros Hs Hp Hne. unfold WeightedMedian. rewrite Power_sum by done.
  destruct (median_loop_spec (sumZ VPower pb) pb 0 Hs Hp) as (H1 & H2 & H3); [lia|lia|apply Hp|done|].
  split; [done|]. split; [lia|]. destruct H3 as [H3|H3]; [by left|right].
  pose proof (powers_nonneg _ Hp). pose proof (Z.quot_rem' (sumZ VPower pb) 2).
  pose proof (Z.rem_bound_pos (sumZ VPower pb) 2). lia.
Qed.

(** When at least two units of power take part and abstentions carry
    none, the median of a ballot is a positive rate. *)
Theorem median_positive pb :
  StronglySorted rate_le pb -> powers_ok pb ->
  Forall (fun v => 0 < ExchangeRate v \/ VPower v = 0) pb -> 2 <= Power pb ->
  0 < WeightedMedian pb.
Proof.
  intros Hs Hp Hab H2. rewrite Power_sum in H2 by done.
  assert (Hne : pb <> []) by (intros ->; rewrite sumZ_nil in H2; lia).
  destruct (median_loop_spec (sumZ VPower pb) pb 0 Hs Hp) as (_ & Hu & _); [lia|lia|apply Hp|done|].
  unfold WeightedMedian. rewrite Power_sum by done.
  set (r := median_loop (sumZ VPower pb) 0 pb) in *.
  assert (1 <= Z.quot (sumZ VPower pb) 2) by (apply Z.quot_le_lower_bound; lia).
  destruct (decide (Exists (fun v => 0 < ExchangeRate v <= r) pb)) as [Hex|Hex].
  { apply Exists_exists in Hex as (v & _ & ?). lia. }
  exfalso. assert (power_upto r pb = 0); [|lia]. unfold power_upto.
  clearbody r. clear -Hab Hex. induction pb as [|v pb IH]; [done|].
  apply Forall_cons_1 in Hab as [Hv Hab]. rewrite Exists_cons in Hex.
  rewrite filter_cons. case_decide; rewrite ?sumZ_cons, IH by tauto; lia.
Qed.

(** With a total power of at most one the median is the lowest rate of
    the ballot, whoever holds the power: an abstention (rate zero, no power)
    then makes the median zero. *)
Theorem median_tiny_power v pb :
  0 <= Power (v :: pb) <= 1 -> 0 <= VPower v < two63 ->
  WeightedMedian (v :: pb) = ExchangeRate v.
Proof.
  intros Hp Hv. unfold WeightedMedian. cbn [median_loop].
  assert (Z.quot (Power (v :: pb)) 2 = 0) as -> by (apply Z.quot_small; lia).
  rewrite to_int64_id by (unfold is_int64; lia). by destruct (Z.leb_spec 0 (0 + VPower v)); [|lia].
Qed.


(** The ballot of cross rates against the reference votes never fails the
    assertion of the tally: it is sorted, holds the same voters, its rates are
    not negative, and a vote keeps its power only if both its rate and the
    reference rate of its voter are positive. *)
Theorem cross_rate_sorted ctx ballotRT pb cb :
  ToCrossRateWithSort (ToMap ballotRT) pb = Ok cb ->
  median_at ctx cb = Ok (WeightedMedian cb) /\
  Voter <$> cb ≡ₚ Voter <$> pb /\
  Forall (fun w => 0 <= ExchangeRate w /\
                   (VPower w = 0 \/ is_Some (ToMap ballotRT !! Voter w))) cb.
Proof.
  unfold ToCrossRateWithSort. intros H. go_inv. apply ToCrossRate_Ok in Hv.
  split; [apply median_at_sorted, sort_sorted|].
  rewrite !sort_perm. split.
  - induction Hv as [|x y pb v Hxy Hv IH]; [done|]. cbn. rewrite IH.
    by rewrite (cross_vote_voter _ _ _ Hxy).
  - induction Hv as [|x y pb v Hxy Hv IH]; [done|]. constructor; [|done].
    rewrite (cross_vote_voter _ _ _ Hxy). apply cross_vote_abstain in Hxy; [naive_solver|apply ToMap_pos].
Qed.

(** [PickReferenceTerra] keeps exactly the passing ballots of vote
    targets, drops from the targets exactly those whose ballot fails, and
    returns the denomination of the largest power, the alphabetically first
    one among equals; it returns the empty string only if no ballot is left. *)
Theorem pick_reference_best threshold power targets votes order p :
  PickReferenceTerra threshold power targets votes order = Ok p ->
  range_of votes order -> (forall d b, votes !! d = Some b -> 0 <= Power b) ->
  exists t, (t0 ← dec_mul_int threshold power; dec_round_int t0) = Ok t /\
    (forall d b, voteMap p !! d = Some b <->
       votes !! d = Some b /\ is_Some (targets !! d) /\ passing t b = true) /\
    (forall d x, voteTargets p !! d = Some x <->
       targets !! d = Some x /\ forall b, votes !! d = Some b -> passing t b = true) /\
    ((referenceTerra p = "" /\ voteMap p = ∅) \/
     exists b, voteMap p !! referenceTerra p = Some b /\
       forall d b', voteMap p !! d = Some b' ->
         outranks (referenceTerra p, Power b) (d, Power b')).
Proof.
  unfold PickReferenceTerra. intros H Hr Hpow. go_inv. exists v0. rewrite Hv. split; [done|].
  destruct (pick_loop_result v0 targets votes order Hr Hpow) as (HV & HT & HB).
  assert (Hlk : forall d b, voteMap (pick_loop v0 targets votes order) !! d = Some b <->
       votes !! d = Some b /\ is_Some (targets !! d) /\ passing v0 b = true).
  { intros d b. rewrite HV, map_lookup_filter_Some. done. }
  split; [done|]. split.
  { intros d x. rewrite HT, map_lookup_filter_Some. unfold survives. cbn.
    destruct (votes !! d); naive_solver. }
  destruct HB as [(_ & Href & Hn)|(Hpos & (b & Hb & Hc & Hpw) & Hall)]; [left|right].
  - split; [done|]. apply map_empty. intros d. apply eq_None_not_Some. intros [b Hb].
    apply Hlk in Hb as (Hb & Hc). rewrite Forall_forall in Hn. apply (Hn (d, b)); [|done].
    rewrite Hr. by apply elem_of_map_to_list.
  - exists b. rewrite Forall_forall in Hall. split.
    + apply Hlk. split; [|done]. apply elem_of_map_to_list. by rewrite <- Hr.
    + intros d b' (Hb' & Hc')%Hlk. rewrite Hpw. apply (Hall (d, b')); [|done].
      rewrite Hr. by apply elem_of_map_to_list.
Qed.

(** The order in which Go ranges over the map of ballots has no influence
    on the outcome of [PickReferenceTerra], so all validators agree on it. *)
Theorem pick_reference_deterministic threshold power targets votes order1 order2 :
  range_of votes order1 -> range_of votes order2 ->
  (forall d b, votes !! d = Some b -> 0 <= Power b) ->
  PickReferenceTerra threshold power targets votes order1 =
  PickReferenceTerra threshold power targets votes order2.
Proof.
  intros H1 H2 Hpow. unfold PickReferenceTerra.
  destruct (dec_mul_int threshold power) as [t0| |]; cbn; [|done..].
  destruct (dec_round_int t0) as [t| |]; cbn; [|done..].
  destruct (pick_loop_result t targets votes order1 H1 Hpow) as (HV1 & HT1 & HB1).
  destruct (pick_loop_result t targets votes order2 H2 Hpow) as (HV2 & HT2 & HB2).
  assert (Hp : order1 ≡ₚ order2) by by rewrite H1, H2.
  destruct (best_unique t _ _ _ _ _ Hp HB1 HB2) as [Href Hpw].
  destruct (pick_loop t targets votes order1), (pick_loop t targets votes order2).
  cbn in *. by subst.
Qed.

End ballot_theorems.

(** ** Concrete runs: four validators, two currencies. *)

Module BallotExample.

Definition vote (r : Z) (d v : string) (p : Z) : VoteForTally := NewVoteForTally (NewDec r) d v p.

Definition krw : ExchangeRateBallot :=
  [vote 0 "ukrw" "d" 0; vote 2000 "ukrw" "a" 10; vote 2010 "ukrw" "b" 20; vote 2900 "ukrw" "c" 5].
Definition usd : ExchangeRateBallot :=
  [vote 1 "uusd" "c" 5; vote 2 "uusd" "a" 10; vote 2 "uusd" "b" 20].

Definition targets : gmap string Dec := <["ukrw" := 0]> (<["uusd" := 0]> ∅).
Definition votes : gmap string ExchangeRateBallot := <["ukrw" := krw]> (<["uusd" := usd]> ∅).

Lemma krw_sorted : StronglySorted rate_le krw.
Proof. repeat constructor; unfold rate_le; vm_compute; congruence. Qed.

Lemma krw_powers : powers_ok krw.
Proof. split; [repeat constructor; cbn; lia|done]. Qed.

Lemma votes_powers d b : votes !! d = Some b -> 0 <= Power b.
Proof.
  unfold votes. rewrite !lookup_insert_Some, lookup_empty.
  intros [[_ <-]|[_ [[_ <-]|[_ ?]]]]; done.
Qed.

Lemma weighted_median_spec_witness :
  WeightedMedian krw = NewDec 2010 /\ Z.quot (Power krw) 2 <= power_upto (WeightedMedian krw) krw.
Proof.
  split; [vm_compute; reflexivity|].
  apply (weighted_median_spec krw krw_sorted krw_powers). discriminate.
Defined.

(** Of three units of power one is enough for the median, because half of three
    is rounded down. *)
Definition thirds : ExchangeRateBallot :=
  [vote 1 "uusd" "a" 1; vote 2 "uusd" "b" 2].

Lemma odd_median_low :
  WeightedMedian thirds = NewDec 1 /\ Power thirds = 3 /\ power_upto (WeightedMedian thirds) thirds = 1.
Proof. vm_compute. auto. Qed.

Lemma median_positive_witness : 0 < WeightedMedian krw.
Proof.
  apply (median_positive krw krw_sorted krw_powers).
  - unfold krw. rewrite !Forall_cons, Forall_nil.
    repeat split; first [left; vm_compute; reflexivity | right; reflexivity].
  - vm_compute. discriminate.
Defined.

Lemma median_tiny_power_witness : WeightedMedian [vote 0 "ukrw" "a" 0; vote 2000 "ukrw" "b" 1] = 0.
Proof. apply median_tiny_power; vm_compute; split; congruence. Defined.

Definition tally_ctx : Ctx := mkCtx ColumbusChainID 6000000.
Definition tallied : res (Dec * gmap string Claim) :=
  @Tally ref_math ref_bech32 tally_ctx krw (NewDecWithPrec 2 2) ∅.


Lemma cross_rate_sorted_witness :
  exists cb, @ToCrossRateWithSort ref_math merge_sort_votes (ToMap usd) krw = Ok cb /\
    median_at tally_ctx cb = Ok (WeightedMedian cb).
Proof.
  destruct (@ToCrossRateWithSort ref_math merge_sort_votes (ToMap usd) krw) as [cb| |] eqn:E;
    [|vm_compute in E; discriminate E..].
  exists cb. split; [done|].
  apply (cross_rate_sorted (ML:=ref_math_laws) tally_ctx _ _ _ E).
Defined.

Definition picked : res pick_state :=
  @PickReferenceTerra ref_math (NewDecWithPrec 50 2) 40 targets votes (map_to_list votes).

Lemma pick_reference_best_witness :
  exists p, picked = Ok p /\ referenceTerra p = "ukrw" /\
    forall d b, voteMap p !! d = Some b -> votes !! d = Some b.
Proof.
  destruct picked as [p| |] eqn:E; [|vm_compute in E; discriminate E..].
  destruct (pick_reference_best (M:=ref_math) _ _ _ _ _ _ E (reflexivity _) votes_powers)
    as (t & _ & HV & _).
  exists p. split; [done|]. split.
  - vm_compute in E. by injection E as <-.
  - intros d b Hd. by apply HV in Hd as [? _].
Defined.

Lemma pick_reference_deterministic_witness :
  picked = @PickReferenceTerra ref_math (NewDecWithPrec 50 2) 40 targets votes
             (rev (map_to_list votes)).
Proof.
  apply (pick_reference_deterministic (M:=ref_math)); unfold range_of; [reflexivity| |apply votes_powers].
  by rewrite <- Permutation_rev.
Defined.

End BallotExample.
