(* ===== verification/OracleStore.v ===== *)
(** * The oracle keeper: store, messages, parameters, genesis
    ([src/x/oracle/keeper], [src/x/oracle/types], [src/x/oracle/genesis.go])

    The store of the module as one map per key prefix, the handlers of the
    three messages (prevote, vote, delegation of the feed), their stateless
    checks, the parameters with their validators, and the genesis. *)

From Stdlib Require Import ZArith Lia Bool Ascii String.
From stdpp Require Import base strings list gmap sorting.
From S2P Require Import Prelude Loops Sdk SdkRef Core OracleBallot.
Local Open Scope Z_scope.

(** ** Data of the module *)

Definition ModuleName : string := "oracle".

Definition ErrInvalidExchangeRate : error := Registered ModuleName "ErrInvalidExchangeRate".
Definition ErrNoVotingPermission : error := Registered ModuleName "ErrNoVotingPermission".
Definition ErrInvalidHash : error := Registered ModuleName "ErrInvalidHash".
Definition ErrInvalidHashLength : error := Registered ModuleName "ErrInvalidHashLength".
Definition ErrVerificationFailed : error := Registered ModuleName "ErrVerificationFailed".
Definition ErrRevealPeriodMissMatch : error := Registered ModuleName "ErrRevealPeriodMissMatch".
Definition ErrInvalidSaltLength : error := Registered ModuleName "ErrInvalidSaltLength".
Definition ErrNoAggregatePrevote : error := Registered ModuleName "ErrNoAggregatePrevote".
Definition ErrNoAggregateVote : error := Registered ModuleName "ErrNoAggregateVote".
Definition ErrNoTobinTax : error := Registered ModuleName "ErrNoTobinTax".
Definition ErrUnknownDenom : error := Registered ModuleName "ErrUnknownDenom".
Definition ErrNoValidatorFound : error := Registered "staking" "ErrNoValidatorFound".
Definition ErrInvalidAddress : error := Registered "sdk" "ErrInvalidAddress".
Definition ErrInvalidCoins : error := Registered "sdk" "ErrInvalidCoins".
Definition ErrUnknownRequest : error := Registered "sdk" "ErrUnknownRequest".
Definition ErrInvalidRequest : error := Registered "sdk" "ErrInvalidRequest".

Record ExchangeRateTuple : Type := mkTuple { TDenom : string; TRate : Dec }.

Record AggregateExchangeRatePrevote : Type := mkPrevote {
  PHash : string; PVoter : string; SubmitBlock : Z (* uint64 *) }.

Record AggregateExchangeRateVote : Type := mkVote {
  ExchangeRateTuples : list ExchangeRateTuple; VVoter : string }.

Record DenomTax : Type := mkDenom { DName : string; DTobinTax : Dec }.

Record Params : Type := mkParams {
  VotePeriod : Z; VoteThreshold : Dec; RewardBand : Dec;
  RewardDistributionWindow : Z; Whitelist : list DenomTax;
  SlashFraction : Dec; SlashWindow : Z; MinValidPerWindow : Dec }.

(** ** Parameters *)

Definition DefaultVotePeriod : Z := BlocksPerMinute / 2.
Definition DefaultSlashWindow : Z := BlocksPerWeek.
Definition DefaultRewardDistributionWindow : Z := BlocksPerYear.
Definition DefaultVoteThreshold : Dec := NewDecWithPrec 50 2.
Definition DefaultRewardBand : Dec := NewDecWithPrec 2 2.
Definition DefaultTobinTax : Dec := NewDecWithPrec 25 4.
Definition DefaultWhitelist : list DenomTax :=
  [mkDenom MicroKRWDenom DefaultTobinTax; mkDenom MicroSDRDenom DefaultTobinTax;
   mkDenom MicroUSDDenom DefaultTobinTax; mkDenom MicroMNTDenom (DefaultTobinTax * 8)].
Definition DefaultSlashFraction : Dec := NewDecWithPrec 1 4.
Definition DefaultMinValidPerWindow : Dec := NewDecWithPrec 5 2.

Definition DefaultParams : Params :=
  mkParams DefaultVotePeriod DefaultVoteThreshold DefaultRewardBand
    DefaultRewardDistributionWindow DefaultWhitelist DefaultSlashFraction
    DefaultSlashWindow DefaultMinValidPerWindow.

(** [x.GT(OneDec) || x.IsNegative()]. *)
Definition outside_unit (x : Dec) : bool := (OneDec <? x) || (x <? 0).

Definition check_denom (d : DenomTax) : res unit :=
  fail_if (outside_unit (DTobinTax d))
    (Errorf "oracle parameter Whitelist Denom must have TobinTax between [0, 1]");;
  fail_if (Z.of_nat (String.length (DName d)) =? 0)
    (Errorf "oracle parameter Whitelist Denom must have name").

Definition Validate (p : Params) : res unit :=
  fail_if (VotePeriod p =? 0) (Errorf "oracle parameter VotePeriod must be > 0");;
  fail_if (VoteThreshold p <=? NewDecWithPrec 33 2)
    (Errorf "oracle parameter VoteThreshold must be greater than 33 percent");;
  fail_if (outside_unit (RewardBand p)) (Errorf "oracle parameter RewardBand must be between [0, 1]");;
  fail_if (RewardDistributionWindow p <? VotePeriod p)
    (Errorf "oracle parameter RewardDistributionWindow must be greater than or equal with VotePeriod");;
  fail_if (outside_unit (SlashFraction p))
    (Errorf "oracle parameter SlashFraction must be between [0, 1]");;
  fail_if (SlashWindow p <? VotePeriod p)
    (Errorf "oracle parameter SlashWindow must be greater than or equal with VotePeriod");;
  fail_if (outside_unit (MinValidPerWindow p))
    (Errorf "oracle parameter MinValidPerWindow must be between [0, 1]");;
  iterM check_denom (Whitelist p).

Definition validateVotePeriod (v : Z) : res unit :=
  fail_if (v =? 0) (Errorf "vote period must be positive").

Definition validateVoteThreshold (v : Dec) : res unit :=
  fail_if (v <? NewDecWithPrec 33 2) (Errorf "vote threshold must be bigger than 33%");;
  fail_if (OneDec <? v) (Errorf "vote threshold too large").

Definition validateRewardBand (v : Dec) : res unit :=
  fail_if (v <? 0) (Errorf "reward band must be positive");;
  fail_if (OneDec <? v) (Errorf "reward band is too large").

Definition validateRewardDistributionWindow (v : Z) : res unit :=
  fail_if (v =? 0) (Errorf "reward distribution window must be positive").

Definition validateWhitelist (v : list DenomTax) : res unit := iterM check_denom v.

Definition validateSlashFraction (v : Dec) : res unit :=
  fail_if (v <? 0) (Errorf "slash fraction must be positive");;
  fail_if (OneDec <? v) (Errorf "slash fraction is too large").

Definition validateSlashWindow (v : Z) : res unit :=
  fail_if (v =? 0) (Errorf "slash window must be positive").

Definition validateMinValidPerWindow (v : Dec) : res unit :=
  fail_if (v <? 0) (Errorf "min valid per window must be positive");;
  fail_if (OneDec <? v) (Errorf "min valid per window is too large").

(** The validators the parameter store runs, in the order of the pairs. *)
Definition ParamSetPairs (p : Params) : res unit :=
  validateVotePeriod (VotePeriod p);;
  validateVoteThreshold (VoteThreshold p);;
  validateRewardBand (RewardBand p);;
  validateRewardDistributionWindow (RewardDistributionWindow p);;
  validateWhitelist (Whitelist p);;
  validateSlashFraction (SlashFraction p);;
  validateSlashWindow (SlashWindow p);;
  validateMinValidPerWindow (MinValidPerWindow p).

(** ** Hexadecimal texts ([encoding/hex]) *)

Definition hexdigit (n : nat) : ascii :=
  ascii_of_nat (if Nat.ltb n 10 then 48 + n else 87 + n)%nat.

Definition fromHexChar (c : ascii) : option nat :=
  let n := nat_of_ascii c in
  if (48 <=? n)%nat && (n <=? 57)%nat then Some (n - 48)%nat
  else if (97 <=? n)%nat && (n <=? 102)%nat then Some (n - 87)%nat
  else if (65 <=? n)%nat && (n <=? 70)%nat then Some (n - 55)%nat
  else None.

Fixpoint EncodeToString (bz : string) : string :=
  match bz with
  | EmptyString => EmptyString
  | String c bz' =>
      let n := nat_of_ascii c in
      String (hexdigit (n / 16)) (String (hexdigit (n mod 16)) (EncodeToString bz'))
  end.

Fixpoint DecodeString (s : string) : res string :=
  match s with
  | EmptyString => Ok EmptyString
  | String a (String b s') =>
      match fromHexChar a, fromHexChar b with
      | Some x, Some y => bz ← DecodeString s'; Ok (String (ascii_of_nat (16 * x + y)) bz)
      | _, _ => Err (Errorf "encoding/hex: invalid byte")
      end
  | String a EmptyString =>
      match fromHexChar a with
      | Some _ => Err (Errorf "encoding/hex: odd length hex string")
      | None => Err (Errorf "encoding/hex: invalid byte")
      end
  end.

(** ** Texts ([strings]) *)

(** White space of [unicode.IsSpace], as UTF-8 byte sequences. *)
Definition spaces : list (list nat) :=
  [[9]; [10]; [11]; [12]; [13]; [32]; [194; 133]; [194; 160]; [225; 154; 128];
   [226; 128; 128]; [226; 128; 129]; [226; 128; 130]; [226; 128; 131]; [226; 128; 132];
   [226; 128; 133]; [226; 128; 134]; [226; 128; 135]; [226; 128; 136]; [226; 128; 137];
   [226; 128; 138]; [226; 128; 168]; [226; 128; 169]; [226; 128; 175]; [226; 129; 159];
   [227; 128; 128]]%nat.

Fixpoint strip (p l : list nat) : option (list nat) :=
  match p, l with
  | [], _ => Some l
  | x :: p', y :: l' => if (x =? y)%nat then strip p' l' else None
  | _, [] => None
  end.

Fixpoint trim (fuel : nat) (ps : list (list nat)) (l : list nat) : list nat :=
  match fuel with
  | O => l
  | S fuel' => match omap (fun p => strip p l) ps with l' :: _ => trim fuel' ps l' | [] => l end
  end.

Definition to_bytes (s : string) : list nat := nat_of_ascii <$> list_ascii_of_string s.
Definition of_bytes (l : list nat) : string := string_of_list_ascii (ascii_of_nat <$> l).

Definition TrimSpace (s : string) : string :=
  let l := trim (String.length s) spaces (to_bytes s) in
  of_bytes (rev (trim (String.length s) ((fun p => rev p) <$> spaces) (rev l))).

(** [strings.Split(s, ",")]: always at least one part. *)
Fixpoint Split (sep : ascii) (s : string) : list string :=
  match s with
  | EmptyString => [EmptyString]
  | String c s' =>
      if Ascii.eqb c sep then EmptyString :: Split sep s'
      else match Split sep s' with
           | p :: ps => String c p :: ps
           | [] => [String c EmptyString]
           end
  end.

Section parse.
(** [sdk.ParseDecCoin], and the truncated SHA-256 of tendermint. *)
Context (ParseDecCoin : string -> res DecCoin).

(** [ParseExchangeRateTuples]. *)
Definition parse_tuple (acc : list ExchangeRateTuple) (tupleStr : string)
    : res (list ExchangeRateTuple) :=
  decCoin ← ParseDecCoin tupleStr;
  fail_if (existsb (fun t => String.eqb (TDenom t) (dcoin_denom decCoin)) acc)
    (Errorf "duplicated denom");;
  Ok (acc ++ [mkTuple (dcoin_denom decCoin) (dcoin_amount decCoin)]).

Definition ParseExchangeRateTuples (tuplesStr : string) : res (list ExchangeRateTuple) :=
  let tuplesStr := TrimSpace tuplesStr in
  if (String.length tuplesStr =? 0)%nat then Ok []
  else foldM parse_tuple (Split "," tuplesStr) [].

End parse.

(** ** Interfaces ([types/expected_keeper.go]) *)

(** What [stakingtypes.ValidatorI] answers. *)
Record ValidatorI : Type := mkValidator {
  GetOperator : ValAddress; IsBonded : bool; IsJailed : bool;
  GetConsAddr : res string; GetConsensusPower : Int -> Z }.

Class StakingKeeper (K : Type) : Type := {
  Validator : K -> ValAddress -> option ValidatorI;
  TotalBondedTokens : K -> Int;
  Slash : K -> string -> Z -> Z -> Dec -> res K;
  Jail : K -> string -> res K;
  ValidatorsPowerStore : K -> list ValAddress;
  MaxValidators : K -> Z;
  PowerReduction : K -> Int;
  TokensToConsensusPower : Int -> Int -> Z;
}.

Class DistributionKeeper (D : Type) : Type := {
  AllocateTokensToValidator : D -> ValidatorI -> list DecCoin -> res D;
}.

Record Metadata : Type := mkMetadata {
  Description : string;
  DenomUnits : list (string * Z * list string);
  Base : string; Display : string; MName : string; Symbol : string }.

Class BankMetadata (B : Type) : Type := {
  HasDenomMetaData : B -> string -> bool;
  SetDenomMetaData : B -> Metadata -> B;
}.

(** ** The store *)

Record store : Type := mkStore {
  ExchangeRates : gmap string Dec;                       (* 0x01 | denom *)
  FeederDelegations : gmap ValAddress AccAddress;        (* 0x02 | len | address *)
  MissCounters : gmap ValAddress Z;                      (* 0x03 | len | address *)
  Prevotes : gmap ValAddress AggregateExchangeRatePrevote;  (* 0x04 | len | address *)
  Votes : gmap ValAddress AggregateExchangeRateVote;     (* 0x05 | len | address *)
  TobinTaxes : gmap string Dec;                          (* 0x06 | denom *)
  params : Params;
}.

Definition set_rates m (s : store) : store :=
  mkStore m (FeederDelegations s) (MissCounters s) (Prevotes s) (Votes s) (TobinTaxes s) (params s).
Definition set_feeders m (s : store) : store :=
  mkStore (ExchangeRates s) m (MissCounters s) (Prevotes s) (Votes s) (TobinTaxes s) (params s).
Definition set_misses m (s : store) : store :=
  mkStore (ExchangeRates s) (FeederDelegations s) m (Prevotes s) (Votes s) (TobinTaxes s) (params s).
Definition set_prevotes m (s : store) : store :=
  mkStore (ExchangeRates s) (FeederDelegations s) (MissCounters s) m (Votes s) (TobinTaxes s) (params s).
Definition set_votes m (s : store) : store :=
  mkStore (ExchangeRates s) (FeederDelegations s) (MissCounters s) (Prevotes s) m (TobinTaxes s) (params s).
Definition set_taxes m (s : store) : store :=
  mkStore (ExchangeRates s) (FeederDelegations s) (MissCounters s) (Prevotes s) (Votes s) m (params s).
Definition set_params p (s : store) : store :=
  mkStore (ExchangeRates s) (FeederDelegations s) (MissCounters s) (Prevotes s) (Votes s) (TobinTaxes s) p.

(** Iteration over a prefix visits the keys in ascending order: by name for a
    denomination, by length and then bytes for an address. *)
Definition denom_key_le {V} (x y : string * V) : Prop := String.le x.1 y.1.

Definition addr_le (a b : string) : Prop :=
  (String.length a < String.length b)%nat \/
  (String.length a = String.length b /\ String.le a b).
Definition addr_key_le {V} (x y : string * V) : Prop := addr_le x.1 y.1.

#[global] Instance denom_key_le_dec {V} (x y : string * V) : Decision (denom_key_le x y).
Proof. unfold denom_key_le. apply _. Defined.

#[global] Instance addr_key_le_dec {V} (x y : string * V) : Decision (addr_key_le x y).
Proof. unfold addr_key_le, addr_le. apply _. Defined.

Definition iter_denoms {V} (m : gmap string V) : list (string * V) :=
  merge_sort denom_key_le (map_to_list m).
Definition iter_addrs {V} (m : gmap string V) : list (string * V) :=
  merge_sort addr_key_le (map_to_list m).

Definition GetLunaExchangeRate (s : store) (denom : string) : res Dec :=
  if String.eqb denom MicroLunaDenom then Ok OneDec
  else match ExchangeRates s !! denom with
       | Some r => Ok r
       | None => Err ErrUnknownDenom
       end.

Definition SetLunaExchangeRate (denom : string) (exchangeRate : Dec) (s : store) : store :=
  set_rates (<[denom := exchangeRate]> (ExchangeRates s)) s.
Definition DeleteLunaExchangeRate (denom : string) (s : store) : store :=
  set_rates (delete denom (ExchangeRates s)) s.
Definition IterateLunaExchangeRates (s : store) : list (string * Dec) := iter_denoms (ExchangeRates s).

Definition GetFeederDelegation (s : store) (operator : ValAddress) : AccAddress :=
  default operator (FeederDelegations s !! operator).
Definition SetFeederDelegation (operator : ValAddress) (feeder : AccAddress) (s : store) : store :=
  set_feeders (<[operator := feeder]> (FeederDelegations s)) s.
Definition IterateFeederDelegations (s : store) : list (ValAddress * AccAddress) :=
  iter_addrs (FeederDelegations s).

Definition GetMissCounter (s : store) (operator : ValAddress) : Z :=
  default 0 (MissCounters s !! operator).
Definition SetMissCounter (operator : ValAddress) (missCounter : Z) (s : store) : store :=
  set_misses (<[operator := missCounter]> (MissCounters s)) s.
Definition DeleteMissCounter (operator : ValAddress) (s : store) : store :=
  set_misses (delete operator (MissCounters s)) s.
Definition IterateMissCounters (s : store) : list (ValAddress * Z) := iter_addrs (MissCounters s).

Definition GetAggregateExchangeRatePrevote (s : store) (voter : ValAddress)
    : res AggregateExchangeRatePrevote :=
  match Prevotes s !! voter with Some p => Ok p | None => Err ErrNoAggregatePrevote end.
Definition SetAggregateExchangeRatePrevote (voter : ValAddress)
    (prevote : AggregateExchangeRatePrevote) (s : store) : store :=
  set_prevotes (<[voter := prevote]> (Prevotes s)) s.
Definition DeleteAggregateExchangeRatePrevote (voter : ValAddress) (s : store) : store :=
  set_prevotes (delete voter (Prevotes s)) s.
Definition IterateAggregateExchangeRatePrevotes (s : store)
    : list (ValAddress * AggregateExchangeRatePrevote) := iter_addrs (Prevotes s).

Definition GetAggregateExchangeRateVote (s : store) (voter : ValAddress)
    : res AggregateExchangeRateVote :=
  match Votes s !! voter with Some v => Ok v | None => Err ErrNoAggregateVote end.
Definition SetAggregateExchangeRateVote (voter : ValAddress)
    (vote : AggregateExchangeRateVote) (s : store) : store :=
  set_votes (<[voter := vote]> (Votes s)) s.
Definition DeleteAggregateExchangeRateVote (voter : ValAddress) (s : store) : store :=
  set_votes (delete voter (Votes s)) s.
Definition IterateAggregateExchangeRateVotes (s : store)
    : list (ValAddress * AggregateExchangeRateVote) := iter_addrs (Votes s).

Definition GetTobinTax (s : store) (denom : string) : res Dec :=
  match TobinTaxes s !! denom with Some t => Ok t | None => Err ErrNoTobinTax end.
Definition SetTobinTax (denom : string) (tobinTax : Dec) (s : store) : store :=
  set_taxes (<[denom := tobinTax]> (TobinTaxes s)) s.
Definition IterateTobinTaxes (s : store) : list (string * Dec) := iter_denoms (TobinTaxes s).
Definition ClearTobinTaxes (s : store) : store :=
  set_taxes (foldl (fun m e => delete e.1 m) (TobinTaxes s) (IterateTobinTaxes s)) s.

Definition IsVoteTarget (s : store) (denom : string) : bool :=
  match GetTobinTax s denom with Ok _ => true | _ => false end.
Definition GetVoteTargets (s : store) : list string := (IterateTobinTaxes s).*1.

Definition SetParams (p : Params) : st store unit :=
  lift (must (ParamSetPairs p));; modify (set_params p).

(** ** Messages *)

Record MsgAggregateExchangeRatePrevote : Type := mkMsgPrevote {
  MPHash : string; MPFeeder : string; MPValidator : string }.
Record MsgAggregateExchangeRateVote : Type := mkMsgVote {
  MVSalt : string; MVExchangeRates : string; MVFeeder : string; MVValidator : string }.
Record MsgDelegateFeedConsent : Type := mkMsgDelegate {
  MDOperator : string; MDDelegate : string }.

Section messages.
Context {A : Bech32} (ParseDecCoin : string -> res DecCoin) (truncated_sha256 : string -> string).
Context {K : Type} {SK : StakingKeeper K}.

(** [tmhash.TruncatedSize * 2]. *)
Definition hash_text_length : nat := 40.

(** [len(s)] of Go: the number of bytes. *)
Definition len (s : string) : Z := Z.of_nat (String.length s).

Definition Prevote_ValidateBasic (msg : MsgAggregateExchangeRatePrevote) : res unit :=
  wrap_err ErrInvalidHash (DecodeString (MPHash msg));;
  fail_if (negb (String.length (MPHash msg) =? hash_text_length)%nat) ErrInvalidHashLength;;
  wrap_err ErrInvalidAddress (AccAddressFromBech32 (MPFeeder msg));;
  wrap_err ErrInvalidAddress (ValAddressFromBech32 (MPValidator msg));;
  Ok tt.

(** [255 + sdk.DecimalPrecisionBits], the bits of [10^18]. *)
Definition max_rate_bits : Z := 255 + 60.

Definition Vote_ValidateBasic (msg : MsgAggregateExchangeRateVote) : res unit :=
  wrap_err ErrInvalidAddress (AccAddressFromBech32 (MVFeeder msg));;
  wrap_err ErrInvalidAddress (ValAddressFromBech32 (MVValidator msg));;
  fail_if (len (MVExchangeRates msg) =? 0) ErrUnknownRequest;;
  fail_if (4096 <? len (MVExchangeRates msg)) ErrInvalidRequest;;
  exchangeRates ← wrap_err ErrInvalidCoins (ParseExchangeRateTuples ParseDecCoin (MVExchangeRates msg));
  iterM (fun t => fail_if (max_rate_bits <? BitLen (TRate t)) ErrInvalidExchangeRate) exchangeRates;;
  fail_if ((4 <? len (MVSalt msg)) || (len (MVSalt msg) <? 1)) ErrInvalidSaltLength.

Definition Delegate_ValidateBasic (msg : MsgDelegateFeedConsent) : res unit :=
  wrap_err ErrInvalidAddress (ValAddressFromBech32 (MDOperator msg));;
  wrap_err ErrInvalidAddress (AccAddressFromBech32 (MDDelegate msg));;
  Ok tt.

Definition Prevote_GetSigners (msg : MsgAggregateExchangeRatePrevote) : res (list AccAddress) :=
  feeder ← must (AccAddressFromBech32 (MPFeeder msg)); Ok [feeder].
Definition Vote_GetSigners (msg : MsgAggregateExchangeRateVote) : res (list AccAddress) :=
  feeder ← must (AccAddressFromBech32 (MVFeeder msg)); Ok [feeder].
Definition Delegate_GetSigners (msg : MsgDelegateFeedConsent) : res (list AccAddress) :=
  operator ← must (ValAddressFromBech32 (MDOperator msg)); Ok [operator].

(** [GetAggregateVoteHash]: the hash of ["salt:rates:voter"]. *)
Definition vote_source (salt exchangeRatesStr : string) (voter : ValAddress) : string :=
  (salt +:+ ":" +:+ exchangeRatesStr +:+ ":" +:+ ValAddressString voter)%string.

Definition GetAggregateVoteHash (salt exchangeRatesStr : string) (voter : ValAddress) : string :=
  truncated_sha256 (vote_source salt exchangeRatesStr voter).

(** [ValidateFeeder]. *)
Definition ValidateFeeder (k : K) (s : store) (feederAddr : AccAddress) (validatorAddr : ValAddress)
    : res unit :=
  (if negb (String.eqb feederAddr validatorAddr) then
     fail_if (negb (String.eqb (GetFeederDelegation s validatorAddr) feederAddr)) ErrNoVotingPermission
   else Ok tt);;
  match Validator k validatorAddr with
  | Some val => fail_if (negb (IsBonded val)) ErrNoValidatorFound
  | None => Err ErrNoValidatorFound
  end.

(** The handlers of [keeper/msg_server.go]; [k] answers for the staking
    keeper. *)
Definition AggregateExchangeRatePrevoteHandler (ctx : Ctx) (k : K)
    (msg : MsgAggregateExchangeRatePrevote) : st store unit :=
  valAddr ← lift (ValAddressFromBech32 (MPValidator msg));
  feederAddr ← lift (AccAddressFromBech32 (MPFeeder msg));
  s ← gets id;
  lift (ValidateFeeder k s feederAddr valAddr);;
  voteHash ← lift (wrap_err ErrInvalidHash (DecodeString (MPHash msg)));
  let aggregatePrevote := mkPrevote (EncodeToString voteHash) (ValAddressString valAddr)
                            (to_uint64 (BlockHeight ctx)) in
  modify (SetAggregateExchangeRatePrevote valAddr aggregatePrevote).

(** [uint64] division panics on zero and subtraction wraps. *)
Definition period_of (block votePeriod : Z) : res Z :=
  if votePeriod =? 0 then Panic else Ok (block / votePeriod).

Definition AggregateExchangeRateVoteHandler (ctx : Ctx) (k : K)
    (msg : MsgAggregateExchangeRateVote) : st store unit :=
  valAddr ← lift (ValAddressFromBech32 (MVValidator msg));
  feederAddr ← lift (AccAddressFromBech32 (MVFeeder msg));
  s ← gets id;
  lift (ValidateFeeder k s feederAddr valAddr);;
  let votePeriod := VotePeriod (params s) in
  aggregatePrevote ← lift (wrap_err ErrNoAggregatePrevote (GetAggregateExchangeRatePrevote s valAddr));
  p1 ← lift (period_of (to_uint64 (BlockHeight ctx)) votePeriod);
  p0 ← lift (period_of (SubmitBlock aggregatePrevote) votePeriod);
  lift (fail_if (negb (to_uint64 (p1 - p0) =? 1)) ErrRevealPeriodMissMatch);;
  exchangeRateTuples ←
    lift (wrap_err ErrInvalidCoins (ParseExchangeRateTuples ParseDecCoin (MVExchangeRates msg)));
  lift (iterM (fun t => fail_if (negb (IsVoteTarget s (TDenom t))) ErrUnknownDenom) exchangeRateTuples);;
  let hash := GetAggregateVoteHash (MVSalt msg) (MVExchangeRates msg) valAddr in
  lift (fail_if (negb (String.eqb (PHash aggregatePrevote) (EncodeToString hash))) ErrVerificationFailed);;
  modify (SetAggregateExchangeRateVote valAddr (mkVote exchangeRateTuples (ValAddressString valAddr)));;
  modify (DeleteAggregateExchangeRatePrevote valAddr).

Definition DelegateFeedConsentHandler (k : K) (msg : MsgDelegateFeedConsent) : st store unit :=
  operatorAddr ← lift (ValAddressFromBech32 (MDOperator msg));
  delegateAddr ← lift (AccAddressFromBech32 (MDDelegate msg));
  match Validator k operatorAddr with
  | None => lift (Err ErrNoValidatorFound)
  | Some _ => modify (SetFeederDelegation operatorAddr delegateAddr)
  end.

(** ** Genesis *)

Record GenesisState : Type := mkGenesis {
  GParams : Params;
  GExchangeRates : list ExchangeRateTuple;
  GFeederDelegations : list (string * string);   (* validator, feeder *)
  GMissCounters : list (string * Z);
  GPrevotes : list AggregateExchangeRatePrevote;
  GVotes : list AggregateExchangeRateVote;
  GTobinTaxes : list (string * Dec);
}.

Definition DefaultGenesisState : GenesisState := mkGenesis DefaultParams [] [] [] [] [] [].

Definition ValidateGenesis (data : GenesisState) : res unit := Validate (GParams data).

Definition init_feeder (d : string * string) : st store unit :=
  voter ← lift (must (ValAddressFromBech32 d.1));
  feeder ← lift (must (AccAddressFromBech32 d.2));
  modify (SetFeederDelegation voter feeder).

Definition init_miss (mc : string * Z) : st store unit :=
  operator ← lift (must (ValAddressFromBech32 mc.1));
  modify (SetMissCounter operator mc.2).

Definition init_prevote (ap : AggregateExchangeRatePrevote) : st store unit :=
  valAddr ← lift (must (ValAddressFromBech32 (PVoter ap)));
  modify (SetAggregateExchangeRatePrevote valAddr ap).

Definition init_vote (av : AggregateExchangeRateVote) : st store unit :=
  valAddr ← lift (must (ValAddressFromBech32 (VVoter av)));
  modify (SetAggregateExchangeRateVote valAddr av).

Definition InitGenesis (has_account : bool) (data : GenesisState) : st store unit :=
  iterM init_feeder (GFeederDelegations data);;
  iterM (fun ex => modify (SetLunaExchangeRate (TDenom ex) (TRate ex))) (GExchangeRates data);;
  iterM init_miss (GMissCounters data);;
  iterM init_prevote (GPrevotes data);;
  iterM init_vote (GVotes data);;
  (if (0 <? length (GTobinTaxes data))%nat
   then iterM (fun tt' => modify (SetTobinTax tt'.1 tt'.2)) (GTobinTaxes data)
   else iterM (fun item => modify (SetTobinTax (DName item) (DTobinTax item))) (Whitelist (GParams data)));;
  SetParams (GParams data);;
  lift (panic_if (negb has_account)).

Definition ExportGenesis (s : store) : GenesisState :=
  mkGenesis (params s)
    ((fun e => mkTuple e.1 e.2) <$> IterateLunaExchangeRates s)
    ((fun e => (ValAddressString e.1, AccAddressString e.2)) <$> IterateFeederDelegations s)
    ((fun e => (ValAddressString e.1, e.2)) <$> IterateMissCounters s)
    ((IterateAggregateExchangeRatePrevotes s).*2)
    ((IterateAggregateExchangeRateVotes s).*2)
    (IterateTobinTaxes s).

End messages.

(** ** Facts *)

Lemma hexdigit_round n : (n < 16)%nat -> fromHexChar (hexdigit n) = Some n.
Proof. do 16 (destruct n as [|n]; [done|]). lia. Qed.

Lemma hex_round_aux bz : DecodeString (EncodeToString bz) = Ok bz.
Proof.
  induction bz as [|c bz IH]; [done|]. cbn [EncodeToString DecodeString].
  assert (Hn : (nat_of_ascii c < 256)%nat) by apply nat_ascii_bounded.
  rewrite !hexdigit_round; [|apply Nat.mod_upper_bound; lia|apply Nat.Div0.div_lt_upper_bound; lia].
  rewrite IH. cbn [mbind res_bind]. do 2 f_equal.
  rewrite <- Nat.div_mod by lia. apply ascii_nat_embedding.
Qed.

Lemma hex_length bz : String.length (EncodeToString bz) = (2 * String.length bz)%nat.
Proof. induction bz as [|c bz IH]; [done|]. cbn. rewrite IH. lia. Qed.

Section message_facts.
Context {A : Bech32} (ParseDecCoin : string -> res DecCoin) (truncated_sha256 : string -> string).
Context {K : Type} {SK : StakingKeeper K}.

Lemma ValidateFeeder_Ok k s feeder val u :
  ValidateFeeder k s feeder val = Ok u <->
  (feeder = val \/ GetFeederDelegation s val = feeder) /\
  exists v, Validator k val = Some v /\ IsBonded v = true.
Proof.
  unfold ValidateFeeder. destruct u.
  destruct (String.eqb_spec feeder val) as [->|Hne]; cbn.
  - destruct (Validator k val) as [v|]; [destruct (IsBonded v) eqn:E; cbn|];
      (split; [intros ?; by eauto|intros (_ & v' & ? & ?); congruence]).
  - destruct (String.eqb_spec (GetFeederDelegation s val) feeder) as [He|He]; cbn;
      [|split; [done|intros [[?|?] _]; done]].
    destruct (Validator k val) as [v|]; [destruct (IsBonded v) eqn:E; cbn|];
      (split; [intros ?; by eauto|intros (_ & v' & ? & ?); congruence]).
Qed.

Lemma parse_tuple_nodup acc t tuples :
  parse_tuple ParseDecCoin acc t = Ok tuples ->
  NoDup (TDenom <$> acc) -> NoDup (TDenom <$> tuples).
Proof.
  unfold parse_tuple. intros H Hnd. go_inv. rewrite fmap_app. apply NoDup_app. repeat split; [done| |].
  - intros d Hd1 Hd2. apply list_elem_of_singleton in Hd2 as ->.
    apply list_elem_of_fmap in Hd1 as (t' & Ht & Hin).
    apply not_true_iff_false in Hv0. apply Hv0. apply existsb_exists. exists t'.
    split; [by apply list_elem_of_In|]. cbn in Ht. rewrite Ht. apply String.eqb_refl.
  - apply NoDup_singleton.
Qed.

Lemma parse_tuples_nodup l acc tuples :
  foldM (parse_tuple ParseDecCoin) l acc = Ok tuples ->
  NoDup (TDenom <$> acc) -> NoDup (TDenom <$> tuples).
Proof.
  revert acc. induction l as [|t l IH]; intros acc H Hnd; [by injection H as <-|].
  cbn in H. go_inv. eapply IH; [exact H|]. by eapply parse_tuple_nodup.
Qed.

Lemma ParseExchangeRateTuples_nodup str tuples :
  ParseExchangeRateTuples ParseDecCoin str = Ok tuples -> NoDup (TDenom <$> tuples).
Proof.
  unfold ParseExchangeRateTuples. destruct (String.length (TrimSpace str) =? 0)%nat.
  - intros [= <-]. constructor.
  - intros H. by eapply parse_tuples_nodup; [exact H|constructor].
Qed.

(** The reveal period: for heights of a chain the vote is in the period that
    follows the one of the prevote. *)
Lemma reveal_period h submit p p1 p0 :
  0 <= h < two63 -> 0 <= submit < two63 -> 0 < p ->
  period_of (to_uint64 h) p = Ok p1 -> period_of submit p = Ok p0 ->
  to_uint64 (p1 - p0) = 1 <-> h / p = submit / p + 1.
Proof.
  intros Hh Hs Hp. assert (H64 : two64 = 2 * two63) by done.
  rewrite to_uint64_id by (unfold is_uint64; lia). unfold period_of.
  destruct (Z.eqb_spec p 0); [lia|]. intros [= <-] [= <-].
  assert (0 <= h / p < two63) by (split; [apply Z.div_pos; lia|apply Z.div_lt_upper_bound; nia]).
  assert (0 <= submit / p < two63) by (split; [apply Z.div_pos; lia|apply Z.div_lt_upper_bound; nia]).
  unfold to_uint64. split; intros H'; [|rewrite H'; replace (submit / p + 1 - submit / p) with 1 by lia; done].
  destruct (Z.le_ge_cases (submit / p) (h / p)).
  - rewrite Z.mod_small in H' by lia. lia.
  - destruct (Z.eq_dec (h / p) (submit / p)) as [E|E]; [rewrite E, Z.sub_diag in H'; done|].
    rewrite <- (Z.mod_add _ 1) in H' by done. rewrite Z.mod_small in H' by lia. lia.
Qed.

(** What a successful reveal checked and did. *)
Lemma vote_handler_Ok ctx k msg s s' u :
  AggregateExchangeRateVoteHandler ParseDecCoin truncated_sha256 ctx k msg s = (Ok u, s') ->
  exists val feeder prevote tuples p1 p0,
    ValAddressFromBech32 (MVValidator msg) = Ok val /\
    AccAddressFromBech32 (MVFeeder msg) = Ok feeder /\
    ValidateFeeder k s feeder val = Ok tt /\ Prevotes s !! val = Some prevote /\
    period_of (to_uint64 (BlockHeight ctx)) (VotePeriod (params s)) = Ok p1 /\
    period_of (SubmitBlock prevote) (VotePeriod (params s)) = Ok p0 /\
    to_uint64 (p1 - p0) = 1 /\
    ParseExchangeRateTuples ParseDecCoin (MVExchangeRates msg) = Ok tuples /\
    Forall (fun t => IsVoteTarget s (TDenom t) = true) tuples /\
    PHash prevote =
      EncodeToString (GetAggregateVoteHash truncated_sha256 (MVSalt msg) (MVExchangeRates msg) val) /\
    s' = DeleteAggregateExchangeRatePrevote val
           (SetAggregateExchangeRateVote val (mkVote tuples (ValAddressString val)) s).
Proof.
  unfold AggregateExchangeRateVoteHandler, GetAggregateExchangeRatePrevote. intros H. go_inv.
  destruct (Prevotes (id s) !! v) as [prevote|] eqn:Hp; [|done]. go_inv.
  select (iterM _ _ = _) (fun H => apply iterM_Ok in H as Hall).
  select (negb (to_uint64 _ =? 1) = false) (fun H => apply negb_false_iff, Z.eqb_eq in H).
  select (negb (String.eqb _ _) = false) (fun H => apply negb_false_iff, String.eqb_eq in H).
  destruct v2. eexists _, _, _, _, _, _. repeat split; try eassumption.
  eapply Forall_impl; [exact Hall|]. cbn. intros t Ht%fail_if_Ok. by apply negb_false_iff.
Qed.

End message_facts.

(** *** Iteration over the store *)

Lemma iter_denoms_perm {V} (m : gmap string V) : iter_denoms m ≡ₚ map_to_list m.
Proof. apply merge_sort_Permutation. Qed.

Lemma iter_addrs_perm {V} (m : gmap string V) : iter_addrs m ≡ₚ map_to_list m.
Proof. apply merge_sort_Permutation. Qed.

Lemma elem_of_iter_addrs {V} (m : gmap string V) k v : (k, v) ∈ iter_addrs m <-> m !! k = Some v.
Proof. rewrite iter_addrs_perm. apply elem_of_map_to_list. Qed.

Section genesis_facts.
Context {A : Bech32} {AL : Bech32Laws A}.

(** The text in a stored prevote or vote is the one of its key. *)
Definition voters_ok (s : store) : Prop :=
  (forall val p, Prevotes s !! val = Some p -> PVoter p = ValAddressString val) /\
  (forall val v, Votes s !! val = Some v -> VVoter v = ValAddressString val).

(** The keys of validators, and the feeders, are addresses. *)
Definition addresses_ok (s : store) : Prop :=
  map_Forall (fun val feeder => address_ok val = true /\ address_ok feeder = true) (FeederDelegations s) /\
  map_Forall (fun val _ => address_ok val = true) (MissCounters s) /\
  map_Forall (fun val _ => address_ok val = true) (Prevotes s) /\
  map_Forall (fun val _ => address_ok val = true) (Votes s).

Definition empty_store (p : Params) : store := mkStore ∅ ∅ ∅ ∅ ∅ ∅ p.

(** The Tobin taxes after an import: those of the genesis, or of the whitelist
    if the genesis has none. *)
Definition imported_taxes (m : gmap string Dec) (wl : list DenomTax) : gmap string Dec :=
  if decide (m = ∅) then foldl (fun m item => <[DName item := DTobinTax item]> m) ∅ wl else m.

Lemma foldl_insert_nonempty (m : gmap string Dec) (wl : list DenomTax) :
  m <> ∅ -> foldl (fun m item => <[DName item := DTobinTax item]> m) m wl <> ∅.
Proof. revert m. induction wl as [|i wl IH]; intros m Hm; [done|]. apply IH, insert_non_empty. Qed.

Lemma imported_taxes_id m wl : imported_taxes m wl = m <-> (m = ∅ -> wl = []).
Proof.
  unfold imported_taxes. destruct (decide (m = ∅)) as [->|Hm]; [|tauto]. split; [|by intros ->].
  intros H _. destruct wl as [|i wl]; [done|]. cbn in H. by apply foldl_insert_nonempty in H; [|apply insert_non_empty].
Qed.

Lemma genesis_taxes s0 m wl :
  TobinTaxes s0 = ∅ ->
  (if (0 <? length (iter_denoms m))%nat
   then iterM (fun tt' => modify (SetTobinTax tt'.1 tt'.2)) (iter_denoms m)
   else iterM (fun item => modify (SetTobinTax (DName item) (DTobinTax item))) wl) s0
  = (Ok tt, set_taxes (imported_taxes m wl) s0).
Proof.
  intros He. unfold imported_taxes. destruct (Nat.ltb_spec 0 (length (iter_denoms m))) as [Hl|Hl];
    rewrite (Permutation_length (iter_denoms_perm m)) in Hl.
  - rewrite decide_False by (intros ->; by rewrite map_to_list_empty in Hl; apply Nat.lt_irrefl in Hl).
    rewrite <- (list_fmap_id (iter_denoms m)). apply (iterM_fill TobinTaxes set_taxes); try done.
    + by intros [].
    + apply iter_denoms_perm.
  - rewrite decide_True by (apply map_to_list_empty_iff; by destruct (map_to_list m); cbn in Hl; [|lia]).
    rewrite (iterM_effect _ (fun s item => set_taxes (<[DName item := DTobinTax item]> (TobinTaxes s)) s)) by done.
    rewrite (foldl_component TobinTaxes set_taxes (fun m item => <[DName item := DTobinTax item]> m));
      [by rewrite He|by intros []|done..].
Qed.

Lemma genesis_import s p0 :
  voters_ok s -> addresses_ok s -> ParamSetPairs (params s) = Ok tt ->
  InitGenesis true (ExportGenesis s) (empty_store p0) =
    (Ok tt, set_taxes (imported_taxes (TobinTaxes s) (Whitelist (params s))) s).
Proof.
  intros [Hpv Hvv] (Haf & Ham & Hap & Hav) Hpar. unfold InitGenesis, ExportGenesis. cbn [GFeederDelegations GExchangeRates
    GMissCounters GPrevotes GVotes GTobinTaxes GParams].
  unfold mbind at 1, st_bind at 1.
  rewrite (iterM_fill FeederDelegations set_feeders _ _ (FeederDelegations s));
    [|by intros []|done..|apply iter_addrs_perm|done|].
  2: { intros k v s' Hk. unfold init_feeder, lift, modify, mbind, st_bind. cbn. destruct (Haf _ _ Hk).
       by rewrite val_bech32_round, acc_bech32_round. }
  unfold mbind at 1, st_bind at 1.
  rewrite (iterM_fill ExchangeRates set_rates _ _ (ExchangeRates s));
    [|by intros []|done..|apply iter_denoms_perm|done|done].
  unfold mbind at 1, st_bind at 1.
  rewrite (iterM_fill MissCounters set_misses _ _ (MissCounters s));
    [|by intros []|done..|apply iter_addrs_perm|done|].
  2: { intros k v s' Hk%Ham. unfold init_miss, lift, modify, mbind, st_bind. cbn.
       by rewrite val_bech32_round. }
  unfold mbind at 1, st_bind at 1.
  rewrite (iterM_fill Prevotes set_prevotes _ _ (Prevotes s));
    [|by intros []|done..|apply iter_addrs_perm|done|].
  2: { intros k v s' Hk. pose proof (Hap _ _ Hk). apply Hpv in Hk. unfold init_prevote, lift, modify, mbind, st_bind. cbn.
       by rewrite Hk, val_bech32_round. }
  unfold mbind at 1, st_bind at 1.
  rewrite (iterM_fill Votes set_votes _ _ (Votes s));
    [|by intros []|done..|apply iter_addrs_perm|done|].
  2: { intros k v s' Hk. pose proof (Hav _ _ Hk). apply Hvv in Hk. unfold init_vote, lift, modify, mbind, st_bind. cbn.
       by rewrite Hk, val_bech32_round. }
  unfold mbind at 1, st_bind at 1. unfold IterateTobinTaxes. rewrite genesis_taxes by done. cbn [set_taxes].
  unfold SetParams, lift, modify, mbind, st_bind. cbn. rewrite Hpar. cbn. by destruct s.
Qed.

Lemma set_taxes_id m s : set_taxes m s = s <-> m = TobinTaxes s.
Proof. destruct s. cbn. split; [by intros [= ->]|by intros ->]. Qed.

Lemma genesis_exact s p0 :
  voters_ok s -> addresses_ok s -> ParamSetPairs (params s) = Ok tt ->
  InitGenesis true (ExportGenesis s) (empty_store p0) = (Ok tt, s) <->
  (TobinTaxes s = ∅ -> Whitelist (params s) = []).
Proof.
  intros Hv Ha Hp. rewrite genesis_import by done. rewrite <- imported_taxes_id, <- set_taxes_id.
  split; [by intros [= H]|by intros ->].
Qed.

End genesis_facts.

(** ** Keys of the store ([types/keys.go]) *)

(** [address.MustLengthPrefix] puts one byte, the length, before an address. *)
Class AddressCodec : Type := { MustLengthPrefix : string -> res string }.

Class AddressCodecLaws (L : AddressCodec) : Prop := {
  length_prefix_spec v r : MustLengthPrefix v = Ok r -> exists c, r = String c v;
}.

Section keys.
Context {L : AddressCodec}.

Definition ExchangeRateKey : ascii := ascii_of_nat 1.
Definition FeederDelegationKey : ascii := ascii_of_nat 2.
Definition MissCounterKey : ascii := ascii_of_nat 3.
Definition AggregateExchangeRatePrevoteKey : ascii := ascii_of_nat 4.
Definition AggregateExchangeRateVoteKey : ascii := ascii_of_nat 5.
Definition TobinTaxKey : ascii := ascii_of_nat 6.

Definition GetExchangeRateKey (denom : string) : res string := Ok (String ExchangeRateKey denom).
Definition GetFeederDelegationKey (v : ValAddress) : res string :=
  p ← MustLengthPrefix v; Ok (String FeederDelegationKey p).
Definition GetMissCounterKey (v : ValAddress) : res string :=
  p ← MustLengthPrefix v; Ok (String MissCounterKey p).
Definition GetAggregateExchangeRatePrevoteKey (v : ValAddress) : res string :=
  p ← MustLengthPrefix v; Ok (String AggregateExchangeRatePrevoteKey p).
Definition GetAggregateExchangeRateVoteKey (v : ValAddress) : res string :=
  p ← MustLengthPrefix v; Ok (String AggregateExchangeRateVoteKey p).
Definition GetTobinTaxKey (d : string) : res string := Ok (String TobinTaxKey d).

(** [key[1:]] and [iter.Key()[2:]]. *)
Definition ExtractDenomFromTobinTaxKey (key : string) : res string :=
  match key with String _ d => Ok d | EmptyString => Panic end.
Definition address_of_key (key : string) : res string :=
  match key with String _ (String _ v) => Ok v | _ => Panic end.

(** The items of the store and their keys. *)
Inductive item : Type :=
| RateItem (denom : string) | FeederItem (v : ValAddress) | MissItem (v : ValAddress)
| PrevoteItem (v : ValAddress) | VoteItem (v : ValAddress) | TaxItem (denom : string).

Definition item_key (i : item) : res string :=
  match i with
  | RateItem d => GetExchangeRateKey d
  | FeederItem v => GetFeederDelegationKey v
  | MissItem v => GetMissCounterKey v
  | PrevoteItem v => GetAggregateExchangeRatePrevoteKey v
  | VoteItem v => GetAggregateExchangeRateVoteKey v
  | TaxItem d => GetTobinTaxKey d
  end.

End keys.

(** ** Theorems *)

Section store_theorems.
Context {A : Bech32} {AL : Bech32Laws A}.
Context (ParseDecCoin : string -> res DecCoin) (truncated_sha256 : string -> string).
Context {K : Type} {SK : StakingKeeper K} {L : AddressCodec} {LL : AddressCodecLaws L}.

(** C14. A reveal is accepted only if its feeder, the one that the message names,
    is the validator or the account the validator delegated to, for a bonded
    validator, in the vote period right after the one of its prevote, for
    distinct vote targets, and with the committed hash; it stores exactly the
    rates of the message, consumes the prevote and changes nothing else, so that
    revealing again fails. *)
Theorem reveal_sound ctx k msg s s' u :
  AggregateExchangeRateVoteHandler ParseDecCoin truncated_sha256 ctx k msg s = (Ok u, s') ->
  0 <= BlockHeight ctx < two63 -> 0 < VotePeriod (params s) ->
  (forall val p, Prevotes s !! val = Some p -> 0 <= SubmitBlock p < two63) ->
  exists val feeder prevote tuples,
    ValAddressFromBech32 (MVValidator msg) = Ok val /\
    AccAddressFromBech32 (MVFeeder msg) = Ok feeder /\
    (feeder = val \/ GetFeederDelegation s val = feeder) /\
    (exists v, Validator k val = Some v /\ IsBonded v = true) /\
    Prevotes s !! val = Some prevote /\
    BlockHeight ctx / VotePeriod (params s) = SubmitBlock prevote / VotePeriod (params s) + 1 /\
    PHash prevote =
      EncodeToString (GetAggregateVoteHash truncated_sha256 (MVSalt msg) (MVExchangeRates msg) val) /\
    ParseExchangeRateTuples ParseDecCoin (MVExchangeRates msg) = Ok tuples /\
    NoDup (TDenom <$> tuples) /\ Forall (fun t => IsVoteTarget s (TDenom t) = true) tuples /\
    s' = set_prevotes (delete val (Prevotes s))
           (set_votes (<[val := mkVote tuples (ValAddressString val)]> (Votes s)) s) /\
    AggregateExchangeRateVoteHandler ParseDecCoin truncated_sha256 ctx k msg s'
      = (Err ErrNoAggregatePrevote, s').
Proof.
  intros H Hh Hp Hsub.
  apply vote_handler_Ok in H as (val & feeder & prevote & tuples & p1 & p0 & Hval & Hfe & Hvf & Hpre
    & Hp1 & Hp0 & H1 & Hpar & Htg & Hhash & ->).
  exists val, feeder, prevote, tuples. pose proof Hvf as [Hf Hbond]%ValidateFeeder_Ok.
  do 5 (split; [done|]). split; [by eapply reveal_period; eauto|]. do 2 (split; [done|]).
  split; [by eapply ParseExchangeRateTuples_nodup|]. split; [done|]. split; [done|].
  unfold AggregateExchangeRateVoteHandler, lift, gets, mbind, st_bind. cbn. rewrite Hval, Hfe.
  cbn in Hvf. unfold ValidateFeeder in *. cbn. unfold GetFeederDelegation in *. cbn. rewrite Hvf. cbn.
  unfold GetAggregateExchangeRatePrevote. cbn. by rewrite lookup_delete_eq.
Qed.

(** An honest commitment can always be revealed: after a prevote of the
    hash of the salt and the rates, the vote with that salt and those rates in
    the next period succeeds, if the rates parse and are vote targets. *)
Theorem honest_reveal ctx1 ctx2 k val feeder salt rates tuples s s1 :
  AggregateExchangeRatePrevoteHandler ctx1 k
    (mkMsgPrevote (EncodeToString (GetAggregateVoteHash truncated_sha256 salt rates val))
       (AccAddressString feeder) (ValAddressString val)) s = (Ok tt, s1) ->
  0 <= BlockHeight ctx1 < two63 -> 0 <= BlockHeight ctx2 < two63 -> 0 < VotePeriod (params s) ->
  BlockHeight ctx2 / VotePeriod (params s) = BlockHeight ctx1 / VotePeriod (params s) + 1 ->
  ParseExchangeRateTuples ParseDecCoin rates = Ok tuples ->
  Forall (fun t => IsVoteTarget s (TDenom t) = true) tuples ->
  exists s2,
    AggregateExchangeRateVoteHandler ParseDecCoin truncated_sha256 ctx2 k
      (mkMsgVote salt rates (AccAddressString feeder) (ValAddressString val)) s1 = (Ok tt, s2) /\
    Votes s2 !! val = Some (mkVote tuples (ValAddressString val)) /\ Prevotes s2 !! val = None.
Proof.
  unfold AggregateExchangeRatePrevoteHandler. intros H. go_inv. intros Hh1 Hh2 Hp Hper Hparse Htg. cbn in *.
  pose proof (val_bech32_sound _ _ Hv) as ->. pose proof (acc_bech32_sound _ _ Hv0) as ->.
  rewrite hex_round_aux in Hv3. simplify_eq. unfold id in *.
  assert (H64 : two64 = 2 * two63) by done.
  unfold AggregateExchangeRateVoteHandler, lift, gets, modify, mbind, st_bind. cbn.
  rewrite Hv, Hv0. unfold ValidateFeeder, GetFeederDelegation in *. cbn.
  rewrite Hv2. destruct v2. unfold GetAggregateExchangeRatePrevote. cbn. rewrite lookup_insert_eq. cbn.
  destruct (period_of (to_uint64 (BlockHeight ctx2)) (VotePeriod (params s))) as [p1| |] eqn:Hp1;
    try (unfold period_of in Hp1; destruct (Z.eqb_spec (VotePeriod (params s)) 0); [lia|done]).
  destruct (period_of (to_uint64 (BlockHeight ctx1)) (VotePeriod (params s))) as [p0| |] eqn:Hp0;
    try (unfold period_of in Hp0; destruct (Z.eqb_spec (VotePeriod (params s)) 0); [lia|done]).
  assert (Hid : to_uint64 (BlockHeight ctx1) = BlockHeight ctx1) by (apply to_uint64_id; unfold is_uint64; lia).
  rewrite Hid in Hp0. rewrite (proj2 (reveal_period _ _ _ _ _ Hh2 Hh1 Hp Hp1 Hp0) Hper). cbn.
  rewrite Hparse. cbn.
  rewrite (proj2 (iterM_Ok _ tuples tt)).
  - cbn. rewrite String.eqb_refl. cbn. eexists. split; [done|]. cbn.
    by rewrite lookup_insert_eq, lookup_delete_eq.
  - eapply Forall_impl; [exact Htg|]. cbn. intros t Ht. apply fail_if_Ok. by apply negb_false_iff.
Qed.

(** No one else can speak for a validator: a prevote of an account that is
    neither the validator nor its delegate is refused and leaves the store as
    it was. *)
Theorem prevote_unauthorized ctx k msg s val feeder :
  ValAddressFromBech32 (MPValidator msg) = Ok val -> AccAddressFromBech32 (MPFeeder msg) = Ok feeder ->
  feeder <> val -> GetFeederDelegation s val <> feeder ->
  AggregateExchangeRatePrevoteHandler ctx k msg s = (Err ErrNoVotingPermission, s).
Proof.
  intros Hv Hf H1 H2. unfold AggregateExchangeRatePrevoteHandler, lift, gets, mbind, st_bind.
  rewrite Hv, Hf. cbn. unfold ValidateFeeder, id.
  destruct (String.eqb_spec feeder val); [done|]. cbn.
  by destruct (String.eqb_spec (GetFeederDelegation s val) feeder).
Qed.

(** Hexadecimal texts round-trip: a vote hash is read back from its text,
    so distinct hashes have distinct texts, and the text of a 20-byte hash has
    the 40 characters [ValidateBasic] requires. *)
Theorem vote_hash_text_roundtrip (h : string) :
  DecodeString (EncodeToString h) = Ok h /\
  (String.length (EncodeToString h) = hash_text_length <-> String.length h = 20%nat).
Proof. split; [apply hex_round_aux|]. rewrite hex_length. unfold hash_text_length. lia. Qed.

(** C36. The genesis of the oracle round-trips up to the Tobin taxes: importing
    the export of a store whose keys are addresses, whose votes name the
    validators of their keys and whose parameters are valid, into an empty store,
    rebuilds this store, except that a store without Tobin taxes gets those of
    the whitelist.  So the store is rebuilt exactly if and only if it has a
    Tobin tax or an empty whitelist. *)
Theorem oracle_genesis_roundtrip s p0 :
  voters_ok s -> addresses_ok s -> ParamSetPairs (params s) = Ok tt ->
  InitGenesis true (ExportGenesis s) (empty_store p0) =
    (Ok tt, set_taxes (imported_taxes (TobinTaxes s) (Whitelist (params s))) s) /\
  (InitGenesis true (ExportGenesis s) (empty_store p0) = (Ok tt, s) <->
   (TobinTaxes s = ∅ -> Whitelist (params s) = [])).
Proof. intros Hv Ha Hp. split; [by apply genesis_import|by apply genesis_exact]. Qed.

(** The keys of the store do not collide: equal keys belong to the same
    item, whatever the kinds of the two items. *)
Theorem oracle_keys_injective i j key :
  item_key i = Ok key -> item_key j = Ok key -> i = j.
Proof.
  destruct i, j; cbn; unfold GetExchangeRateKey, GetFeederDelegationKey, GetMissCounterKey,
    GetAggregateExchangeRatePrevoteKey, GetAggregateExchangeRateVoteKey, GetTobinTaxKey;
    intros H1 H2; go_inv; try discriminate; simplify_eq; try done;
    apply length_prefix_spec in Hv as [c1 Hc1], Hv0 as [c2 Hc2]; by simplify_eq.
Qed.

(** Every message keeps the voters of the stored prevotes and votes
    consistent with their keys, whether it succeeds or fails. *)
Theorem messages_preserve_voters ctx k m1 m2 m3 s :
  voters_ok s ->
  voters_ok (AggregateExchangeRatePrevoteHandler ctx k m1 s).2 /\
  voters_ok (AggregateExchangeRateVoteHandler ParseDecCoin truncated_sha256 ctx k m2 s).2 /\
  voters_ok (DelegateFeedConsentHandler k m3 s).2.
Proof.
  intros [Hp Hv].
  assert (Hs : voters_ok s) by by split.
  split; [|split].
  - unfold AggregateExchangeRatePrevoteHandler, lift, gets, modify, mbind, st_bind.
    repeat case_match; simplify_eq; try done. split; cbn; [|done].
    intros w p [[<- <-]|[_ Hw]]%lookup_insert_Some; [done|by apply Hp].
  - unfold AggregateExchangeRateVoteHandler, lift, gets, modify, mbind, st_bind.
    repeat case_match; simplify_eq; try done. split; cbn.
    + intros w p [_ Hw]%lookup_delete_Some. by apply Hp.
    + intros w v [[<- <-]|[_ Hw]]%lookup_insert_Some; [done|by apply Hv].
  - unfold DelegateFeedConsentHandler, lift, modify, mbind, st_bind.
    repeat case_match; simplify_eq; done.
Qed.

(** The two validations of the vote threshold disagree: a genesis with a
    threshold above one passes [ValidateGenesis] and then makes [InitGenesis]
    panic, and a threshold of exactly 33% is accepted as a parameter change
    although [Validate] refuses it. *)
Theorem vote_threshold_gap p s :
  Validate p = Ok tt ->
  (OneDec < VoteThreshold p ->
     ValidateGenesis (mkGenesis p [] [] [] [] [] []) = Ok tt /\
     (InitGenesis true (mkGenesis p [] [] [] [] [] []) s).1 = Panic) /\
  validateVoteThreshold (NewDecWithPrec 33 2) = Ok tt /\
  VoteThreshold p <> NewDecWithPrec 33 2.
Proof.
  intros Hv. split; [|split; [done|]].
  - intros Ht. split; [done|]. unfold InitGenesis.
    do 5 (rewrite (st_bind_step _ _ s s tt) by done).
    erewrite st_bind_step
      by (cbn -[iterM]; apply (iterM_effect _ (fun s item => SetTobinTax (DName item) (DTobinTax item) s)); done).
    unfold SetParams, lift, mbind, st_bind. cbn [GParams].
    destruct (ParamSetPairs p) as [[]| |] eqn:Hp; cbn; [|done..].
    unfold ParamSetPairs, validateVoteThreshold in Hp. go_inv. lia.
  - unfold Validate in Hv. go_inv. apply Z.leb_gt in Hv1. lia.
Qed.

End store_theorems.

(** ** Concrete runs *)

Module StoreExample.

(** One bonded validator, "val", with feeder "feeder". *)
Definition val_info : ValidatorI := mkValidator "val" true false (Ok "cons") (fun _ => 10).

Instance one_validator : StakingKeeper unit := {|
  Validator _ v := if String.eqb v "val" then Some val_info else None;
  TotalBondedTokens _ := 10000000;
  Slash k _ _ _ _ := Ok k;
  Jail k _ := Ok k;
  ValidatorsPowerStore _ := ["val"];
  MaxValidators _ := 100;
  PowerReduction _ := 1000000;
  TokensToConsensusPower t r := t / r;
|}.

(** A coin text is one denomination, priced 2; the hash is the text itself. *)
Definition parse_coin (s : string) : res DecCoin := Ok (mkDecCoin s (NewDec 2)).
Definition id_hash (s : string) : string := s.

Definition prefix_codec : AddressCodec := {|
  MustLengthPrefix v := Ok (String (ascii_of_nat (String.length v)) v) |}.

Instance prefix_codec_laws : AddressCodecLaws prefix_codec.
Proof. split. intros v r [= <-]. by eexists. Qed.

Definition s0 : store := mkStore ∅ (<["val" := "feeder"]> ∅) ∅ ∅ ∅ (<["uusd" := 5]> ∅) DefaultParams.

Definition commit (s : store) : res unit * store :=
  @AggregateExchangeRatePrevoteHandler ref_bech32 unit one_validator (mkCtx "c" 12) tt
    (mkMsgPrevote (EncodeToString (@GetAggregateVoteHash ref_bech32 id_hash "salt" "uusd" "val"))
       "tfeeder" "vval") s.
Definition reveal (s : store) : res unit * store :=
  @AggregateExchangeRateVoteHandler ref_bech32 parse_coin id_hash unit one_validator (mkCtx "c" 17) tt
    (mkMsgVote "salt" "uusd" "tfeeder" "vval") s.

Lemma reveal_run : reveal (commit s0).2 = (Ok tt, (reveal (commit s0).2).2).
Proof. vm_compute. reflexivity. Qed.

Lemma commit_submit v p : Prevotes (commit s0).2 !! v = Some p -> 0 <= SubmitBlock p < two63.
Proof.
  replace (Prevotes (commit s0).2) with
    (<["val" := mkPrevote (EncodeToString "salt:uusd:vval") "vval" 12]> (∅ : gmap string _))
    by (vm_compute; reflexivity).
  rewrite lookup_insert_Some, lookup_empty. intros [[_ <-]|[_ ?]]; [|done]. by vm_compute.
Qed.

Lemma reveal_sound_witness :
  exists tuples, NoDup (TDenom <$> tuples) /\
    Votes (reveal (commit s0).2).2 !! "val" = Some (mkVote tuples "vval") /\
    (reveal (reveal (commit s0).2).2).1 = Err ErrNoAggregatePrevote.
Proof.
  destruct (reveal_sound (A:=ref_bech32) parse_coin id_hash _ _ _ _ _ _ reveal_run)
    as (val & feeder & prevote & tuples & Hval & Hfe & Hauth & _ & _ & _ & _ & _ & Hnd & _ & Hs & Hagain).
  - vm_compute. by split.
  - vm_compute. done.
  - apply commit_submit.
  - exists tuples. injection Hval as <-. split; [exact Hnd|]. split.
    + rewrite Hs. cbn. apply lookup_insert_eq.
    + unfold reveal at 1. by rewrite Hagain.
Defined.

Lemma commit_run : commit s0 = (Ok tt, (commit s0).2).
Proof. vm_compute. reflexivity. Qed.

Lemma honest_reveal_witness :
  exists s2, reveal (commit s0).2 = (Ok tt, s2) /\ Prevotes s2 !! "val" = None.
Proof.
  destruct (honest_reveal (A:=ref_bech32) parse_coin id_hash (mkCtx "c" 12) (mkCtx "c" 17) tt
              "val" "feeder" "salt" "uusd" [mkTuple "uusd" (NewDec 2)] s0 _ commit_run)
    as (s2 & H & _ & Hn).
  - by vm_compute.
  - by vm_compute.
  - by vm_compute.
  - by vm_compute.
  - vm_compute. reflexivity.
  - repeat constructor.
  - exists s2. split; [exact H|exact Hn].
Defined.

Lemma prevote_unauthorized_witness :
  @AggregateExchangeRatePrevoteHandler ref_bech32 unit one_validator (mkCtx "c" 12) tt
    (mkMsgPrevote "00" "tmallory" "vval") s0 = (Err ErrNoVotingPermission, s0).
Proof.
  apply (prevote_unauthorized (A:=ref_bech32) _ _ _ _ "val" "mallory"); vm_compute; congruence.
Defined.

(** A store with an open prevote, a vote and a miss counter. *)
Definition s1 : store :=
  mkStore (<["uusd" := NewDec 2]> ∅) (<["val" := "feeder"]> ∅) (<["val" := 3]> ∅)
    (<["val" := mkPrevote "00" "vval" 12]> ∅) (<["val" := mkVote [mkTuple "uusd" 7] "vval"]> ∅)
    (<["uusd" := 5]> ∅) DefaultParams.

Lemma s1_voters : @voters_ok ref_bech32 s1.
Proof.
  split; cbn; intros v p; rewrite lookup_insert_Some, lookup_empty; intros [[<- <-]|[_ ?]]; done.
Qed.

Lemma s1_addresses : @addresses_ok ref_bech32 s1.
Proof. do 3 (split; [apply map_Forall_insert_2; [done|apply map_Forall_empty]|]).
  apply map_Forall_insert_2; [done|apply map_Forall_empty].
Qed.

Lemma oracle_genesis_roundtrip_witness :
  @InitGenesis ref_bech32 true (@ExportGenesis ref_bech32 s1) (empty_store DefaultParams) = (Ok tt, s1).
Proof.
  destruct (oracle_genesis_roundtrip (A:=ref_bech32) s1 DefaultParams s1_voters s1_addresses) as [_ H].
  - vm_compute. reflexivity.
  - apply H. intros He. apply (f_equal (fun m : gmap string Dec => m !! "uusd")) in He. vm_compute in He. discriminate He.
Defined.

Lemma messages_preserve_voters_witness : @voters_ok ref_bech32 (reveal s1).2.
Proof.
  destruct (messages_preserve_voters (A:=ref_bech32) parse_coin id_hash (mkCtx "c" 17) tt
              (mkMsgPrevote "00" "t" "v") (mkMsgVote "salt" "uusd" "tfeeder" "vval")
              (mkMsgDelegate "v" "t") s1 s1_voters) as (_ & H & _).
  exact H.
Defined.

Lemma oracle_keys_injective_witness : VoteItem "val" = VoteItem "val".
Proof.
  apply (oracle_keys_injective (L:=prefix_codec) _ _ (String (ascii_of_nat 5) (String (ascii_of_nat 3) "val")));
    reflexivity.
Defined.

Definition loose_params : Params :=
  mkParams 5 (2 * OneDec) 0 100 [] 0 100 0.

Lemma vote_threshold_gap_witness :
  ValidateGenesis (mkGenesis loose_params [] [] [] [] [] []) = Ok tt /\
  (@InitGenesis ref_bech32 true (mkGenesis loose_params [] [] [] [] [] []) s0).1 = Panic.
Proof.
  apply (vote_threshold_gap (A:=ref_bech32) loose_params s0); vm_compute; reflexivity.
Defined.

End StoreExample.
