(* ===== verification/OracleEnd.v ===== *)
(** * The end of a block of the oracle ([src/x/oracle/abci.go],
    [src/x/oracle/keeper/ballot.go], [reward.go], [slash.go])

    At the end of a vote period the votes are organised into ballots, a
    reference currency is chosen, the ballots are tallied, the exchange rates
    are replaced, misses are counted, the winners rewarded, the ballots
    cleared and the whitelist applied; at the end of a slash window the
    validators that missed too much are slashed and all counters reset. *)

From Stdlib Require Import ZArith Lia Bool Ascii String.
From stdpp Require Import base strings list gmap sorting.
From S2P Require Import Prelude Loops Sdk SdkRef Core OracleBallot OracleStore.
Local Open Scope Z_scope.

(** ** State *)

Record state (K D B : Type) : Type := mkState {
  ostore : store; staking : K; distr : D; obank : B }.
Arguments mkState {_ _ _} _ _ _ _.
Arguments ostore {_ _ _} _.
Arguments staking {_ _ _} _.
Arguments distr {_ _ _} _.
Arguments obank {_ _ _} _.

Section end_block.
Context {M : SdkMath} {C : SdkCoins} {A : Bech32} {G : GoSort} {R : GoRange}.
Context {K : Type} {SK : StakingKeeper K} {D : Type} {DK : DistributionKeeper D}.
Context {B : Type} {BK : BankKeeper B} {BM : BankMetadata B}.
Context (distrName : string).

Definition on_store (f : store -> store) (s : state K D B) : state K D B :=
  mkState (f (ostore s)) (staking s) (distr s) (obank s).
Definition set_staking (k : K) (s : state K D B) : state K D B :=
  mkState (ostore s) k (distr s) (obank s).
Definition set_distr (d : D) (s : state K D B) : state K D B :=
  mkState (ostore s) (staking s) d (obank s).
Definition set_obank (b : B) (s : state K D B) : state K D B :=
  mkState (ostore s) (staking s) (distr s) b.

(** ** Ballots ([keeper/ballot.go]) *)

(** The handler of one aggregate vote. *)
Definition organize_vote (validatorClaimMap : gmap string Claim)
    (votes : gmap string ExchangeRateBallot) (entry : ValAddress * AggregateExchangeRateVote)
    : gmap string ExchangeRateBallot :=
  let '(voterAddr, vote) := entry in
  match validatorClaimMap !! VVoter vote with
  | None => votes
  | Some claim =>
      foldl (fun votes tuple =>
               let tmpPower := if 0 <? TRate tuple then CPower claim else 0 in
               <[TDenom tuple := default [] (votes !! TDenom tuple) ++
                   [NewVoteForTally (TRate tuple) (TDenom tuple) voterAddr tmpPower]]> votes)
            votes (ExchangeRateTuples vote)
  end.

Definition OrganizeBallotByDenom (s : store) (validatorClaimMap : gmap string Claim)
    : gmap string ExchangeRateBallot :=
  let votes := foldl (organize_vote validatorClaimMap) ∅ (IterateAggregateExchangeRateVotes s) in
  foldl (fun votes e => <[e.1 := sort_Sort e.2]> votes) votes (range 0 votes).

Definition ClearBallots (ctx : Ctx) (votePeriod : Z) (s : store) : store :=
  let s1 := foldl (fun s e =>
      if to_int64 (to_uint64 (SubmitBlock e.2 + votePeriod)) <? BlockHeight ctx
      then DeleteAggregateExchangeRatePrevote e.1 s else s)
    s (IterateAggregateExchangeRatePrevotes s) in
  foldl (fun s e => DeleteAggregateExchangeRateVote e.1 s) s1 (IterateAggregateExchangeRateVotes s1).

(** [strings.ToUpper] on ASCII texts. *)
Fixpoint ToUpper (s : string) : string :=
  match s with
  | EmptyString => EmptyString
  | String c s' =>
      let n := nat_of_ascii c in
      String (if (97 <=? n)%nat && (n <=? 122)%nat then ascii_of_nat (n - 32) else c) (ToUpper s')
  end.

(** [s[:len(s)-1]]. *)
Fixpoint drop_last (s : string) : res string :=
  match s with
  | EmptyString => Panic
  | String c EmptyString => Ok EmptyString
  | String c s' => r ← drop_last s'; Ok (String c r)
  end.

(** [s[1:]]. *)
Definition drop_first (s : string) : res string :=
  match s with EmptyString => Panic | String _ s' => Ok s' end.

Definition denom_metadata (base : string) : res Metadata :=
  display ← drop_first base;
  short ← drop_last display;
  Ok (mkMetadata "The native stable token of the Terra Columbus."
        [(("u" +:+ display)%string, 0, [("micro" +:+ display)%string]);
         (("m" +:+ display)%string, 3, [("milli" +:+ display)%string]);
         (display, 6, [])]
        base display (ToUpper display +:+ " TERRA")%string (ToUpper short +:+ "T")%string).

(** The comparison that decides whether the whitelist changed. *)
Definition whitelist_changed (whitelist : list DenomTax) (targets : gmap string Dec) : bool :=
  negb (size targets =? length whitelist)%nat ||
  existsb (fun item => match targets !! DName item with
                       | Some tobinTax => negb (tobinTax =? DTobinTax item)
                       | None => true
                       end) whitelist.

Definition apply_item (item : DenomTax) : st (state K D B) unit :=
  modify (on_store (SetTobinTax (DName item) (DTobinTax item)));;
  s ← gets id;
  if HasDenomMetaData (obank s) (DName item) then mret tt
  else
    md ← lift (denom_metadata (DName item));
    modify (set_obank (SetDenomMetaData (obank s) md)).

Definition ApplyWhitelist (whitelist : list DenomTax) (targets : gmap string Dec)
    : st (state K D B) unit :=
  if whitelist_changed whitelist targets then
    modify (on_store ClearTobinTaxes);;
    iterM apply_item whitelist
  else mret tt.

(** ** Rewards ([keeper/reward.go]) *)

Definition before_reward_fork (ctx : Ctx) : bool :=
  (String.eqb (ChainID ctx) ColumbusChainID && (BlockHeight ctx <? 5100000)) ||
  (String.eqb (ChainID ctx) BombayChainID && (BlockHeight ctx <? 6200000)).

Definition oracle_account : AccAddress := module_address ModuleName.

Definition GetRewardPool (b : B) (denom : string) : Int := get_balance b oracle_account denom.
Definition GetRewardPoolLegacy (b : B) : list Coin := get_all_balances b oracle_account.

(** The sum of the weights, an [int64]. *)
Definition ballot_power_sum (winners : list (string * Claim)) : Z :=
  foldl (fun sum w => to_int64 (sum + Weight w.2)) 0 winners.

Definition period_rewards (b : B) (rewardDenoms : list string) (distributionRatio : Dec)
    : res (list DecCoin) :=
  foldM (fun periodRewards denom =>
           let rewardPool := GetRewardPool b denom in
           if rewardPool =? 0 then Ok periodRewards
           else
             amount ← dec_mul (NewDec rewardPool) distributionRatio;
             c ← new_dec_coin denom amount;
             deccoins_add periodRewards [c])
        rewardDenoms [].

(** One winner: its share of the rewards, allocated if the validator is still
    there. *)
Definition dole (k : K) (periodRewards : list DecCoin) (ballotPowerSum : Z)
    (acc : D * list Coin) (winner : string * Claim) : res (D * list Coin) :=
  let '(d, distributedReward) := acc in
  let receiverVal := Validator k (Recipient winner.2) in
  share ← dec_quo_int (NewDec (Weight winner.2)) ballotPowerSum;
  mine ← deccoins_mul periodRewards share;
  '(rewardCoins, _) ← deccoins_truncate mine;
  match receiverVal with
  | Some val =>
      if coins_is_zero rewardCoins then Ok acc
      else
        dc ← deccoins_of_coins rewardCoins;
        d' ← AllocateTokensToValidator d val dc;
        distributedReward' ← coins_add distributedReward rewardCoins;
        Ok (d', distributedReward')
  | None => Ok acc
  end.

(** Move the distributed reward to the distribution module. *)
Definition pay_out (distributed : D * list Coin) : st (state K D B) unit :=
  modify (set_distr distributed.1);;
  s ← gets id;
  b ← lift (must (send_coins (obank s) oracle_account (module_address distrName) distributed.2));
  modify (set_obank b).

Definition RewardBallotWinnersLegacy (votePeriod rewardDistributionWindow : Z)
    (ballotWinners : gmap string Claim) : st (state K D B) unit :=
  let ballotPowerSum := ballot_power_sum (range 7 ballotWinners) in
  if ballotPowerSum =? 0 then mret tt
  else
    s ← gets id;
    let rewardPool := GetRewardPoolLegacy (obank s) in
    if coins_is_zero rewardPool then mret tt
    else
      total ← lift (dec_mul_int (NewDec (coins_amount_of rewardPool MicroLunaDenom)) votePeriod);
      periodRewards ← lift (dec_quo_int total rewardDistributionWindow);
      distributed ← lift (foldM (fun acc winner =>
          let '(d, distributedReward) := acc in
          let receiverVal := Validator (staking s) (Recipient winner.2) in
          q ← dec_quo_int periodRewards ballotPowerSum;
          w ← dec_mul_int q (Weight winner.2);
          rewardAmt ← dec_truncate_int w;
          c ← new_coin MicroLunaDenom rewardAmt;
          let rewardCoins := [c] in
          match receiverVal with
          | Some val =>
              if coins_is_zero rewardCoins then Ok acc
              else
                dc ← deccoins_of_coins rewardCoins;
                d' ← AllocateTokensToValidator d val dc;
                distributedReward' ← coins_add distributedReward rewardCoins;
                Ok (d', distributedReward')
          | None => Ok acc
          end)
        (range 8 ballotWinners) (distr s, []));
      pay_out distributed.

Definition RewardBallotWinners (ctx : Ctx) (votePeriod rewardDistributionWindow : Z)
    (targets : gmap string Dec) (ballotWinners : gmap string Claim) : st (state K D B) unit :=
  if before_reward_fork ctx then
    RewardBallotWinnersLegacy votePeriod rewardDistributionWindow ballotWinners
  else
    let rewardDenoms := MicroLunaDenom :: (range 4 targets).*1 in
    let ballotPowerSum := ballot_power_sum (range 5 ballotWinners) in
    if ballotPowerSum =? 0 then mret tt
    else
      distributionRatio ← lift (dec_quo_int (NewDec votePeriod) rewardDistributionWindow);
      s ← gets id;
      periodRewards ← lift (period_rewards (obank s) rewardDenoms distributionRatio);
      distributed ← lift (foldM (dole (staking s) periodRewards ballotPowerSum)
                            (range 6 ballotWinners) (distr s, []));
      pay_out distributed.

(** ** Slashing ([keeper/slash.go]) *)

(** [sdk.ValidatorUpdateDelay]. *)
Definition ValidatorUpdateDelay : Z := 1.

(** [Dec.TruncateInt64] panics out of range. *)
Definition truncate_int64 (d : Dec) : res Z :=
  t ← dec_truncate_int d;
  if (- two63 <=? t) && (t <? two63) then Ok t else Panic.

Definition vote_periods_per_window (p : Params) : res Z :=
  q ← dec_quo_int (NewDec (to_int64 (SlashWindow p))) (to_int64 (VotePeriod p));
  t ← truncate_int64 q;
  Ok (to_uint64 t).

(** The share of the periods of the window in which the validator voted. *)
Definition valid_vote_rate (votePeriodsPerWindow missCounter : Z) : res Dec :=
  dec_quo_int (NewDec (to_int64 (to_uint64 (votePeriodsPerWindow - missCounter))))
    (to_int64 votePeriodsPerWindow).

(** The callback on one miss counter; a validator that is gone is a nil
    interface, and asking it panics. *)
Definition slash_one (ctx : Ctx) (p : Params) (votePeriodsPerWindow : Z) (powerReduction : Int)
    (entry : ValAddress * Z) : st (state K D B) unit :=
  let '(operator, missCounter) := entry in
  let distributionHeight := to_int64 (to_int64 (BlockHeight ctx - ValidatorUpdateDelay) - 1) in
  validVoteRate ← lift (valid_vote_rate votePeriodsPerWindow missCounter);
  (if validVoteRate <? MinValidPerWindow p then
     s ← gets id;
     match Validator (staking s) operator with
     | None => lift Panic
     | Some validator =>
         if IsBonded validator && negb (IsJailed validator) then
           consAddr ← lift (must (GetConsAddr validator));
           k1 ← lift (Slash (staking s) consAddr distributionHeight
                        (GetConsensusPower validator powerReduction) (SlashFraction p));
           k2 ← lift (Jail k1 consAddr);
           modify (set_staking k2)
         else mret tt
     end
   else mret tt);;
  modify (on_store (DeleteMissCounter operator)).

Definition SlashAndResetMissCounters (ctx : Ctx) : st (state K D B) unit :=
  s ← gets id;
  let p := params (ostore s) in
  votePeriodsPerWindow ← lift (vote_periods_per_window p);
  let powerReduction := PowerReduction (staking s) in
  iterM (slash_one ctx p votePeriodsPerWindow powerReduction) (IterateMissCounters (ostore s)).

(** ** The end blocker ([abci.go]) *)

(** The claims of the bonded validators, at most [maxValidators] of them. *)
Fixpoint build_claims (k : K) (maxValidators i : Z) (addrs : list ValAddress)
    (validatorClaimMap : gmap string Claim) : res (gmap string Claim) :=
  match addrs with
  | [] => Ok validatorClaimMap
  | addr :: addrs' =>
      if i <? maxValidators then
        match Validator k addr with
        | None => Panic
        | Some validator =>
            if IsBonded validator then
              let valAddr := GetOperator validator in
              build_claims k maxValidators (i + 1) addrs'
                (<[ValAddressString valAddr :=
                     NewClaim (GetConsensusPower validator (PowerReduction k)) 0 0 valAddr]>
                   validatorClaimMap)
            else build_claims k maxValidators i addrs' validatorClaimMap
        end
      else Ok validatorClaimMap
  end.

(** One ballot: cross rates, tally, and the rate in its original form. *)
Definition tally_step (ctx : Ctx) (rewardBand : Dec) (reference : string)
    (voteMapRT : gmap ValAddress Dec) (exchangeRateRT : Dec)
    (acc : gmap string Dec * gmap string Claim) (entry : string * ExchangeRateBallot)
    : res (gmap string Dec * gmap string Claim) :=
  let '(rates, claims) := acc in
  let '(denom, ballot0) := entry in
  ballot ← (if negb (String.eqb denom reference) then
              if before_sort_fork ctx then ToCrossRate voteMapRT ballot0
              else ToCrossRateWithSort voteMapRT ballot0
            else Ok ballot0 : res ExchangeRateBallot);
  '(exchangeRate, claims') ← Tally ctx ballot rewardBand claims;
  exchangeRate' ← (if negb (String.eqb denom reference) then dec_quo exchangeRateRT exchangeRate
                   else Ok exchangeRate : res Dec);
  Ok (<[denom := exchangeRate']> rates, claims').

Definition tally_all (ctx : Ctx) (rewardBand : Dec) (pick : pick_state)
    (rates : gmap string Dec) (claims : gmap string Claim)
    : res (gmap string Dec * gmap string Claim) :=
  let reference := referenceTerra pick in
  if String.eqb reference "" then Ok (rates, claims)
  else
    let ballotRT := default [] (voteMap pick !! reference) in
    exchangeRateRT ← median_at ctx ballotRT;
    foldM (tally_step ctx rewardBand reference (ToMap ballotRT) exchangeRateRT)
          (range 2 (voteMap pick)) (rates, claims).

(** The miss counter of a validator that did not win every ballot. *)
Definition count_miss (voteTargetsLen : Z) (s : store) (claim : string * Claim) : store :=
  if WinCount claim.2 =? voteTargetsLen then s
  else SetMissCounter (Recipient claim.2)
         (to_uint64 (GetMissCounter s (Recipient claim.2) + 1)) s.

(** The end of a vote period. *)
Definition end_vote_period (ctx : Ctx) (p : Params) : st (state K D B) unit :=
  s ← gets id;
  let k := staking s in
  validatorClaimMap ← lift (build_claims k (MaxValidators k) 0 (ValidatorsPowerStore k) ∅);
  let targets := foldl (fun m e => <[e.1 := e.2]> m) ∅ (IterateTobinTaxes (ostore s)) in
  modify (on_store (fun st => foldl (fun st e => DeleteLunaExchangeRate e.1 st) st
                                (IterateLunaExchangeRates st)));;
  let votes := OrganizeBallotByDenom (ostore s) validatorClaimMap in
  let totalBondedPower := TokensToConsensusPower (TotalBondedTokens k) (PowerReduction k) in
  pick ← lift (PickReferenceTerra (VoteThreshold p) totalBondedPower targets votes (range 1 votes));
  s1 ← gets id;
  '(rates, claims) ← lift (tally_all ctx (RewardBand p) pick (ExchangeRates (ostore s1)) validatorClaimMap);
  modify (on_store (set_rates rates));;
  let voteTargetsLen := Z.of_nat (size (voteTargets pick)) in
  modify (on_store (fun st => foldl (count_miss voteTargetsLen) st (range 3 claims)));;
  RewardBallotWinners ctx (to_int64 (VotePeriod p)) (to_int64 (RewardDistributionWindow p))
    (voteTargets pick) claims;;
  modify (on_store (ClearBallots ctx (VotePeriod p)));;
  ApplyWhitelist (Whitelist p) (voteTargets pick).

Definition EndBlocker (ctx : Ctx) : st (state K D B) unit :=
  s ← gets id;
  let p := params (ostore s) in
  last ← lift (IsPeriodLastBlock ctx (VotePeriod p));
  (if (last : bool) then end_vote_period ctx p else mret tt);;
  lastw ← lift (IsPeriodLastBlock ctx (SlashWindow p));
  if (lastw : bool) then SlashAndResetMissCounters ctx else mret tt.

End end_block.

(** ** Facts: the tally of all ballots *)

Section tally_all_facts.
Context {M : SdkMath} {ML : SdkMathLaws M} {A : Bech32} {G : GoSort}.

Lemma no_err_add a b : no_err (dec_add a b).
Proof. rewrite dec_add_spec. auto with go. Qed.
Lemma no_err_sub a b : no_err (dec_sub a b).
Proof. rewrite dec_sub_spec. auto with go. Qed.
Lemma no_err_quo_int a b : no_err (dec_quo_int a b).
Proof. rewrite dec_quo_int_spec. intros e. by destruct (b =? 0). Qed.
Lemma no_err_mul a b : no_err (dec_mul a b).
Proof. intros e. apply dec_mul_no_err. Qed.
Lemma no_err_quo a b : no_err (dec_quo a b).
Proof. intros e. apply dec_quo_no_err. Qed.

Hint Resolve no_err_add no_err_sub no_err_quo_int no_err_mul no_err_quo : go.

Lemma no_err_median ctx pb : no_err (median_at ctx pb).
Proof.
  unfold median_at, WeightedMedianWithAssertion. destruct (before_sort_fork ctx); [done|].
  destruct (IsSorted pb); done.
Qed.

Lemma no_err_cross bases v : no_err (cross_vote bases v).
Proof. unfold cross_vote. destruct (bases !! Voter v); [|done]. destruct (0 <? _); auto with go. Qed.

Hint Resolve no_err_median no_err_cross : go.

(** The winners of a ballot, in order. *)
Definition winners (m s : Dec) (pb : ExchangeRateBallot) : res ExchangeRateBallot :=
  foldM (fun acc vote => win ← is_winner m s vote;
                         Ok (if (win : bool) then acc ++ [vote] else acc)) pb [].

Lemma no_err_is_winner m s v : no_err (is_winner m s v).
Proof.
  unfold is_winner. apply no_err_bind; [auto with go|]. intros lo.
  apply no_err_bind; [|done]. destruct (lo <=? _); auto with go.
Qed.

Hint Resolve no_err_is_winner : go.

Lemma winners_split m s pb claims acc :
  foldM (fun claims vote => win ← is_winner m s vote;
                            Ok (if (win : bool) then add_win claims vote else claims))
        pb (foldl add_win claims acc) =
  (ws ← foldM (fun acc vote => win ← is_winner m s vote;
                               Ok (if (win : bool) then acc ++ [vote] else acc)) pb acc;
   Ok (foldl add_win claims ws)).
Proof.
  revert acc. induction pb as [|v pb IH]; intros acc; [done|]. cbn [foldM].
  destruct (is_winner m s v) as [w| |]; cbn [mbind res_bind]; [|done..].
  rewrite <- IH. destruct w; [|done]. by rewrite foldl_app.
Qed.

(** What one ballot contributes, whatever the other ballots do. *)
Definition ballot_outcome (ctx : Ctx) (band : Dec) (ref : string) (mapRT : gmap ValAddress Dec)
    (rateRT : Dec) (entry : string * ExchangeRateBallot) : res (Dec * ExchangeRateBallot) :=
  ballot ← (if negb (String.eqb entry.1 ref) then
              if before_sort_fork ctx then ToCrossRate mapRT entry.2
              else ToCrossRateWithSort mapRT entry.2
            else Ok entry.2 : res ExchangeRateBallot);
  m ← median_at ctx ballot;
  s ← reward_spread ballot m band;
  ws ← winners m s ballot;
  r ← (if negb (String.eqb entry.1 ref) then dec_quo rateRT m else Ok m : res Dec);
  Ok (r, ws).

Definition outcome_update (acc : gmap string Dec * gmap string Claim)
    (entry : string * ExchangeRateBallot) (x : Dec * ExchangeRateBallot)
    : gmap string Dec * gmap string Claim :=
  (<[entry.1 := x.1]> acc.1, foldl add_win acc.2 x.2).

Lemma tally_step_outcome ctx band ref mapRT rateRT acc entry :
  tally_step ctx band ref mapRT rateRT acc entry =
  (x ← ballot_outcome ctx band ref mapRT rateRT entry; Ok (outcome_update acc entry x)).
Proof.
  unfold tally_step, ballot_outcome, Tally. destruct acc as [rates claims], entry as [d b]. cbn [fst snd].
  destruct (if negb (String.eqb d ref) then _ else _) as [pb| |]; cbn [mbind res_bind]; [|done..].
  destruct (median_at ctx pb) as [m| |]; cbn [mbind res_bind]; [|done..].
  destruct (reward_spread pb m band) as [s| |]; cbn [mbind res_bind]; [|done..].
  pose proof (winners_split m s pb claims []) as Hw. cbn [foldl] in Hw. rewrite Hw.
  fold (winners m s pb). destruct (winners m s pb) as [ws| |]; cbn [mbind res_bind]; [|done..].
  by destruct (if negb (String.eqb d ref) then _ else _).
Qed.

Lemma no_err_outcome ctx band ref mapRT rateRT entry :
  no_err (ballot_outcome ctx band ref mapRT rateRT entry).
Proof.
  unfold ballot_outcome, ToCrossRateWithSort, ToCrossRate, reward_spread, winners.
  apply no_err_bind; [|intros b].
  { destruct (negb _); [|done]. destruct (before_sort_fork ctx); auto with go. }
  apply no_err_bind; [auto with go|intros m]. apply no_err_bind; [auto with go|intros s].
  apply no_err_bind; [auto with go|intros ws]. apply no_err_bind; [|done].
  destruct (negb _); auto with go.
Qed.

Lemma add_wins_swap (claims : gmap string Claim) l l' :
  foldl add_win (foldl add_win claims l) l' = foldl add_win (foldl add_win claims l') l.
Proof. rewrite <- !foldl_app. apply add_wins_perm, Permutation_app_comm. Qed.

Lemma outcome_update_comm acc e x e' x' :
  e.1 <> e'.1 ->
  outcome_update (outcome_update acc e x) e' x' = outcome_update (outcome_update acc e' x') e x.
Proof.
  intros Hne. unfold outcome_update. cbn. f_equal; [by apply insert_insert_ne|apply add_wins_swap].
Qed.

Lemma tally_loop_perm ctx band ref mapRT rateRT l l' acc :
  NoDup (l.*1) -> l ≡ₚ l' ->
  foldM (tally_step ctx band ref mapRT rateRT) l acc =
  foldM (tally_step ctx band ref mapRT rateRT) l' acc.
Proof.
  intros Hnd Hp.
  assert (Hext : forall l acc, foldM (tally_step ctx band ref mapRT rateRT) l acc =
    foldM (fun acc e => x ← ballot_outcome ctx band ref mapRT rateRT e; Ok (outcome_update acc e x)) l acc).
  { clear. intros l. induction l as [|e l IH]; intros acc; [done|]. cbn [foldM].
    rewrite tally_step_outcome. destruct (ballot_outcome _ _ _ _ _ e); cbn; [apply IH|done..]. }
  rewrite !Hext. apply (foldM_perm fst); [apply no_err_outcome|apply outcome_update_comm|done..].
Qed.

End tally_all_facts.

(** ** Facts: ballots *)

Section ballot_facts.
Context {G : GoSort} {GL : GoSortLaws G} {R : GoRange} {RL : GoRangeLaws R}.

(** The votes one validator casts for a denomination. *)
Definition votes_of (claims : gmap string Claim) (d : string)
    (entry : ValAddress * AggregateExchangeRateVote) : ExchangeRateBallot :=
  match claims !! VVoter entry.2 with
  | None => []
  | Some claim =>
      (fun t => NewVoteForTally (TRate t) (TDenom t) entry.1 (if 0 <? TRate t then CPower claim else 0))
        <$> filter (fun t => TDenom t = d) (ExchangeRateTuples entry.2)
  end.

(** All the votes of a denomination, in the order of the store. *)
Definition all_votes (claims : gmap string Claim) (s : store) (d : string) : ExchangeRateBallot :=
  mjoin (votes_of claims d <$> IterateAggregateExchangeRateVotes s).

Lemma organize_vote_lookup claims votes entry d :
  default [] (organize_vote claims votes entry !! d) =
  default [] (votes !! d) ++ votes_of claims d entry.
Proof.
  destruct entry as [v vote]. unfold organize_vote, votes_of. cbn [fst snd].
  destruct (claims !! VVoter vote) as [claim|]; [|by rewrite app_nil_r].
  revert votes. induction (ExchangeRateTuples vote) as [|t ts IH]; intros votes; cbn [foldl].
  { by rewrite app_nil_r. }
  rewrite IH, filter_cons. destruct (decide (TDenom t = d)) as [Hd|Hd].
  - rewrite Hd, lookup_insert_eq. cbn. by rewrite <- app_assoc, Hd.
  - by rewrite lookup_insert_ne.
Qed.

Lemma organize_votes_lookup claims votes entries d :
  default [] (foldl (organize_vote claims) votes entries !! d) =
  default [] (votes !! d) ++ mjoin (votes_of claims d <$> entries).
Proof.
  revert votes. induction entries as [|e entries IH]; intros votes; cbn; [by rewrite app_nil_r|].
  by rewrite IH, organize_vote_lookup, app_assoc.
Qed.

(** No empty ballot is created. *)
Lemma organize_vote_nonempty claims votes entry :
  map_Forall (fun _ b => b <> []) votes -> map_Forall (fun _ b => b <> []) (organize_vote claims votes entry).
Proof.
  destruct entry as [v vote]. unfold organize_vote. destruct (claims !! VVoter vote); [|done].
  revert votes. induction (ExchangeRateTuples vote) as [|t ts IH]; intros votes Hv; cbn; [done|].
  apply IH. apply map_Forall_insert_2; [|done]. by destruct (default [] _).
Qed.

Lemma organize_votes_nonempty claims votes entries :
  map_Forall (fun _ b => b <> []) votes ->
  map_Forall (fun _ b => b <> []) (foldl (organize_vote claims) votes entries).
Proof.
  revert votes. induction entries as [|e l IH]; intros votes Hv; [done|].
  cbn. by apply IH, organize_vote_nonempty.
Qed.

Lemma sort_loop_lookup (m : gmap string ExchangeRateBallot) l d :
  NoDup (l.*1) ->
  foldl (fun votes e => <[e.1 := sort_Sort e.2]> votes) m l !! d =
    match (list_to_map l : gmap string ExchangeRateBallot) !! d with
    | Some b => Some (sort_Sort b)
    | None => m !! d
    end.
Proof.
  revert m. induction l as [|[d' b'] l IH]; intros m Hnd; cbn; [by rewrite lookup_empty|].
  cbn in Hnd. apply NoDup_cons in Hnd as [Hni Hnd]. rewrite IH by done.
  destruct (decide (d' = d)) as [->|Hne].
  - rewrite not_elem_of_list_to_map_1 by done. by rewrite !lookup_insert_eq.
  - rewrite !lookup_insert_ne by done. done.
Qed.

Lemma organize_lookup s claims d :
  OrganizeBallotByDenom s claims !! d =
    match all_votes claims s d with [] => None | vs => Some (sort_Sort vs) end.
Proof.
  unfold OrganizeBallotByDenom.
  set (votes := foldl (organize_vote claims) ∅ _).
  assert (Hd : default [] (votes !! d) = all_votes claims s d).
  { unfold votes. rewrite organize_votes_lookup. by rewrite lookup_empty. }
  assert (Hne : map_Forall (fun _ b => b <> []) votes).
  { apply organize_votes_nonempty, map_Forall_empty. }
  rewrite (sort_loop_lookup votes) by (rewrite range_perm; apply NoDup_fst_map_to_list).
  rewrite (list_to_map_proper (range 0 votes) (map_to_list votes)); [|rewrite range_perm;
    apply NoDup_fst_map_to_list|apply range_perm].
  rewrite list_to_map_to_list, <- Hd. destruct (votes !! d) as [b|] eqn:Hb; cbn; [|done].
  apply Hne in Hb. by destruct b.
Qed.

(** The votes of a denomination come from active validators, with their power
    or none if they abstain. *)
Lemma all_votes_elem claims s d v :
  v ∈ all_votes claims s d <->
  exists val vote claim t,
    Votes s !! val = Some vote /\ claims !! VVoter vote = Some claim /\
    t ∈ ExchangeRateTuples vote /\ TDenom t = d /\
    v = NewVoteForTally (TRate t) d val (if 0 <? TRate t then CPower claim else 0).
Proof.
  unfold all_votes. rewrite list_elem_of_join. setoid_rewrite list_elem_of_fmap. split.
  - intros (l & Hv & [val vote] & -> & Hin). apply elem_of_iter_addrs in Hin.
    unfold votes_of in Hv. cbn in Hv. destruct (claims !! VVoter vote) as [claim|] eqn:Hc; [|set_solver].
    apply list_elem_of_fmap in Hv as (t & -> & [Ht Hint]%list_elem_of_filter).
    exists val, vote, claim, t. by rewrite Ht.
  - intros (val & vote & claim & t & Hvote & Hc & Ht & Hd & ->).
    exists (votes_of claims d (val, vote)). split.
    + unfold votes_of. cbn. rewrite Hc. apply list_elem_of_fmap. exists t. rewrite Hd. split; [done|].
      by apply list_elem_of_filter.
    + exists (val, vote). split; [done|]. by apply elem_of_iter_addrs.
Qed.

End ballot_facts.

Lemma prevotes_lens : (forall s, set_prevotes (Prevotes s) s = s) /\
  (forall x s, Prevotes (set_prevotes x s) = x) /\
  (forall x y s, set_prevotes x (set_prevotes y s) = set_prevotes x s).
Proof. by repeat split; intros; destruct s. Qed.

Lemma votes_lens : (forall s, set_votes (Votes s) s = s) /\
  (forall x s, Votes (set_votes x s) = x) /\
  (forall x y s, set_votes x (set_votes y s) = set_votes x s).
Proof. by repeat split; intros; destruct s. Qed.

Lemma ClearBallots_eq ctx p s :
  ClearBallots ctx p s =
  set_votes ∅ (set_prevotes
    (filter (fun e => (to_int64 (to_uint64 (SubmitBlock e.2 + p)) <? BlockHeight ctx) = false)
       (Prevotes s)) s).
Proof.
  unfold ClearBallots. destruct prevotes_lens as (P1 & P2 & P3), votes_lens as (V1 & V2 & V3).
  set (old := fun p0 : AggregateExchangeRatePrevote =>
                to_int64 (to_uint64 (SubmitBlock p0 + p)) <? BlockHeight ctx).
  rewrite (foldl_ext_eq _ (fun s e => set_prevotes (if old e.2 then delete e.1 (Prevotes s) else Prevotes s) s)).
  2: { intros s' [v p']. cbn. unfold old. cbn. by destruct (_ <? _), s'. }
  rewrite (foldl_component Prevotes set_prevotes (fun m e => if old e.2 then delete e.1 m else m)) by done.
  rewrite (foldl_delete_if old (Prevotes s)) by apply iter_addrs_perm.
  unfold DeleteAggregateExchangeRateVote.
  rewrite (foldl_component Votes set_votes (fun m e => delete e.1 m)) by done.
  by rewrite foldl_delete_all by apply iter_addrs_perm.
Qed.

(** ** Facts: whitelist, misses, slashing *)

Section block_facts.
Context {M : SdkMath} {ML : SdkMathLaws M} {A : Bech32}.
Context {K : Type} {SK : StakingKeeper K} {D B : Type} {BM : BankMetadata B}.
Implicit Types s : state K D B.

Definition tax_map (taxes : gmap string Dec) (whitelist : list DenomTax) : gmap string Dec :=
  foldl (fun m item => <[DName item := DTobinTax item]> m) taxes whitelist.

Lemma apply_items_Ok wl s s' u :
  iterM apply_item wl s = (Ok u, s') ->
  ostore s' = set_taxes (tax_map (TobinTaxes (ostore s)) wl) (ostore s) /\
  staking s' = staking s /\ distr s' = distr s.
Proof.
  unfold iterM. destruct u. revert s. induction wl as [|item wl IH]; intros s H.
  { injection H as <-. by destruct s as [[] ? ? ?]. }
  cbn [foldM] in H. go_inv. destruct v. apply IH in H as (-> & -> & ->).
  unfold apply_item in Hv. go_inv. unfold id in *.
  destruct (HasDenomMetaData _ _); go_inv; by destruct s as [[] ? ? ?].
Qed.

Lemma tax_map_lookup taxes wl d :
  NoDup (DName <$> wl) ->
  tax_map taxes wl !! d =
    match list_find (fun i => DName i = d) wl with
    | Some (_, i) => Some (DTobinTax i)
    | None => taxes !! d
    end.
Proof.
  unfold tax_map. revert taxes. induction wl as [|i wl IH]; intros taxes Hnd; [done|].
  rewrite fmap_cons, NoDup_cons in Hnd. destruct Hnd as [Hni Hnd]. cbn. rewrite IH by done.
  case_decide as Hd.
  - subst d. destruct (list_find _ wl) as [[n j]|] eqn:Hf.
    + apply list_find_Some in Hf as (Hj & He & _). exfalso. apply Hni.
      apply list_elem_of_fmap. exists j. split; [done|]. by apply list_elem_of_lookup_2 in Hj.
    + apply lookup_insert_eq.
  - destruct (list_find _ wl) as [[n j]|]; [done|]. by apply lookup_insert_ne.
Qed.

(** One miss counter. *)
Lemma slash_one_Ok ctx p vp pr e s s' u :
  slash_one ctx p vp pr e s = (Ok u, s') ->
  ostore s' = DeleteMissCounter e.1 (ostore s) /\ distr s' = distr s /\ obank s' = obank s /\
  exists rate, valid_vote_rate vp e.2 = Ok rate /\
    (MinValidPerWindow p <= rate -> staking s' = staking s).
Proof.
  destruct e as [op miss]. unfold slash_one. intros H. go_inv. cbn.
  destruct (Z.ltb_spec v (MinValidPerWindow p)) as [Hlt|Hge].
  - go_inv. unfold id in *.
    match goal with H : context [Validator ?k op] |- _ => destruct (Validator k op) as [val|]; [|go_inv] end.
    destruct (IsBonded val && negb (IsJailed val)).
    all: go_inv; do 3 (split; [reflexivity|]); exists v; (split; [exact Hv|intros ?; exfalso; lia]).
  - go_inv. do 3 (split; [reflexivity|]). exists v. by split.
Qed.

Lemma slash_all_Ok ctx p vp pr l s s' u :
  iterM (slash_one ctx p vp pr) l s = (Ok u, s') ->
  ostore s' = set_misses (foldl (fun m e => delete e.1 m) (MissCounters (ostore s)) l) (ostore s) /\
  distr s' = distr s /\ obank s' = obank s /\
  (Forall (fun e => forall rate, valid_vote_rate vp e.2 = Ok rate -> MinValidPerWindow p <= rate) l ->
     staking s' = staking s).
Proof.
  unfold iterM. destruct u. revert s. induction l as [|e l IH]; intros s H.
  { injection H as <-. by destruct s as [[] ? ? ?]. }
  cbn [foldM] in H. go_inv. destruct v.
  apply IH in H as (-> & -> & -> & Hst). apply slash_one_Ok in Hv as (-> & -> & -> & rate & Hr & Hs).
  repeat split; try done. intros [He Hl]%Forall_cons_1. by rewrite Hst, Hs by auto.
Qed.

(** The truncated rate is below the minimum exactly when the exact one is. *)
Lemma valid_vote_rate_lt vp miss rate minv :
  0 < vp < two63 -> 0 <= miss <= vp -> valid_vote_rate vp miss = Ok rate ->
  rate < minv <-> (vp - miss) * precision < minv * vp.
Proof.
  intros Hvp Hm. unfold valid_vote_rate, NewDec. assert (two64 = 2 * two63) by done.
  rewrite to_uint64_id by (unfold is_uint64; lia). rewrite !to_int64_id by (unfold is_int64; lia).
  rewrite dec_quo_int_Ok. intros [_ ->]. pose proof precision_pos.
  rewrite Z.quot_div_nonneg by nia. split; intros Hlt.
  - apply Z.nle_gt. intros Hge. assert (minv <= (vp - miss) * precision / vp); [|lia].
    apply Z.div_le_lower_bound; lia.
  - apply Z.div_lt_upper_bound; lia.
Qed.

(** Counting the misses. *)
Lemma count_misses_lookup n l st v :
  NoDup (Recipient <$> l.*2) ->
  GetMissCounter (foldl (count_miss n) st l) v =
    match list_find (fun e : string * Claim => Recipient e.2 = v) l with
    | Some (_, e) => if WinCount e.2 =? n then GetMissCounter st v
                     else to_uint64 (GetMissCounter st v + 1)
    | None => GetMissCounter st v
    end.
Proof.
  revert st. induction l as [|[k c] l IH]; intros st Hnd; [done|].
  cbn in Hnd. apply NoDup_cons in Hnd as [Hni Hnd]. cbn [foldl list_find]. rewrite IH by done.
  assert (Hstep : forall w, w <> Recipient c -> GetMissCounter (count_miss n st (k, c)) w = GetMissCounter st w).
  { intros w Hw. unfold count_miss. cbn. destruct (_ =? n); [done|].
    unfold GetMissCounter, SetMissCounter. cbn. by rewrite lookup_insert_ne. }
  destruct (decide (Recipient c = v)) as [<-|Hv].
  - cbn [snd]. rewrite decide_True by done.
    destruct (list_find _ l) as [[i e]|] eqn:Hf.
    + apply list_find_Some in Hf as (Hj & He & _). exfalso. apply Hni.
      apply list_elem_of_fmap. exists e.2. split; [done|]. apply list_elem_of_fmap. exists e.
      split; [done|]. by apply list_elem_of_lookup_2 in Hj.
    + unfold count_miss. cbn. destruct (_ =? n); [done|].
      unfold GetMissCounter, SetMissCounter. cbn. by rewrite lookup_insert_eq.
  - cbn [snd]. rewrite decide_False by done. rewrite Hstep by done.
    by destruct (list_find _ l) as [[i e]|].
Qed.

End block_facts.

(** ** Facts: rewards *)

Section reward_facts.
Context {M : SdkMath} {ML : SdkMathLaws M} {C : SdkCoins} {CL : SdkCoinsLaws M C}.
Context {K : Type} {SK : StakingKeeper K} {D : Type} {DK : DistributionKeeper D}.
Context {B : Type} {BK : BankKeeper B} {BL : BankLaws B BK}.

Lemma damt_nonneg cs d : deccoins_wf cs -> 0 <= damt cs d.
Proof.
  intros [H _]. apply sumZ_nonneg. eapply Forall_impl; [exact H|].
  intros c Hc. cbn in *. destruct (String.eqb _ _); lia.
Qed.

(** The integer share of one winner of an amount [r], with its rounding. *)
Lemma share_bound r w sum c :
  0 <= r -> 0 <= w -> 0 < sum -> dec_mul r (Z.quot (NewDec w) sum) = Ok c ->
  0 <= Z.quot c precision /\
  2 * Z.quot c precision * precision * precision <= 2 * r * Z.quot (NewDec w) sum + precision.
Proof.
  intros Hr Hw Hs Hc. pose proof precision_pos.
  assert (0 <= Z.quot (NewDec w) sum) by (apply Z.quot_pos; unfold NewDec; nia).
  pose proof (dec_mul_nonneg _ _ _ Hc Hr ltac:(lia)) as Hc0.
  pose proof (quot_precision_bounds c Hc0). pose proof (quot_precision_nonneg c Hc0).
  apply dec_mul_bounds in Hc. nia.
Qed.

Lemma dole_amt k pr sum d dist w d' dist' :
  dole k pr sum (d, dist) w = Ok (d', dist') ->
  deccoins_wf pr -> 0 <= Weight w.2 -> 0 < sum -> coins_wf dist ->
  coins_wf dist' /\ forall e, 0 <= amt dist' e - amt dist e /\
    2 * (amt dist' e - amt dist e) * precision * precision
      <= 2 * damt pr e * Z.quot (NewDec (Weight w.2)) sum + precision.
Proof.
  unfold dole. intros H Hpr Hw Hs Hdist. apply bind_Ok in H as (share & Hsh & H).
  apply bind_Ok in H as (mine & Hmine & H). apply bind_Ok in H as ([coins ch] & Htr & H).
  apply dec_quo_int_Ok in Hsh as [_ ->]. pose proof precision_pos as HP.
  assert (Hsh : 0 <= Z.quot (NewDec (Weight w.2)) sum) by (apply Z.quot_pos; unfold NewDec; nia).
  assert (Hskip : forall e, 0 <= amt dist e - amt dist e /\
    2 * (amt dist e - amt dist e) * precision * precision
      <= 2 * damt pr e * Z.quot (NewDec (Weight w.2)) sum + precision).
  { intros e. pose proof (damt_nonneg pr e Hpr). nia. }
  destruct (Validator k (Recipient w.2)) as [val|]; [|by go_inv].
  destruct (coins_is_zero coins); go_inv; [done|].
  pose proof (deccoins_mul_wf _ _ _ Hmine Hpr Hsh) as Hmwf.
  pose proof (deccoins_truncate_wf _ _ _ Htr Hmwf) as Hcwf.
  split; [by eapply coins_add_wf|]. intros e.
  rewrite (coins_add_amt _ _ _ e Hv1), (deccoins_truncate_amt _ _ _ e Htr Hmwf).
  pose proof (share_bound _ _ _ _ (damt_nonneg pr e Hpr) Hw Hs (deccoins_mul_amt _ _ _ e Hmine Hpr)). lia.
Qed.

Lemma dole_all_amt k pr sum l d dist d' dist' :
  foldM (dole k pr sum) l (d, dist) = Ok (d', dist') ->
  deccoins_wf pr -> Forall (fun w => 0 <= Weight w.2) l -> 0 < sum -> coins_wf dist ->
  coins_wf dist' /\ forall e, 0 <= amt dist' e - amt dist e /\
    2 * (amt dist' e - amt dist e) * precision * precision
      <= 2 * damt pr e * sumZ (fun w => Z.quot (NewDec (Weight w.2)) sum) l
         + Z.of_nat (length l) * precision.
Proof.
  intros H Hpr Hw Hs. revert d dist H. induction Hw as [|w l Hw1 Hw IH]; intros d dist H Hdist.
  { injection H as <- <-. split; [done|]. intros e. rewrite sumZ_nil. cbn. lia. }
  cbn [foldM] in H. apply bind_Ok in H as ([d1 dist1] & H1 & H2).
  apply dole_amt in H1 as [Hwf1 Ha1]; [|done..].
  destruct (IH _ _ H2 Hwf1) as [Hwf2 Ha2]. split; [done|]. intros e.
  specialize (Ha1 e). specialize (Ha2 e). rewrite sumZ_cons. cbn [length]. pose proof precision_pos. nia.
Qed.

(** The shares of all winners add up to at most one. *)
Lemma shares_le_one l sum :
  Forall (fun w : string * Claim => 0 <= Weight w.2) l -> 0 < sum ->
  sumZ (fun w => Weight w.2) l <= sum ->
  sumZ (fun w => Z.quot (NewDec (Weight w.2)) sum) l <= precision.
Proof.
  intros Hw Hs Hsum. pose proof precision_pos as HP.
  assert (H : sumZ (fun w => Z.quot (NewDec (Weight w.2)) sum) l * sum
              <= sumZ (fun w => Weight w.2) l * precision).
  { clear Hsum. induction Hw as [|w l Hw1 Hw IH]; [by rewrite !sumZ_nil|]. rewrite !sumZ_cons.
    assert (Z.quot (NewDec (Weight w.2)) sum * sum <= Weight w.2 * precision); [|nia].
    unfold NewDec. rewrite Z.quot_div_nonneg by nia.
    pose proof (Z.mul_div_le (Weight w.2 * precision) sum Hs). lia. }
  nia.
Qed.

Lemma power_sum_exact l a :
  Forall (fun w : string * Claim => 0 <= Weight w.2) l -> 0 <= a ->
  a + sumZ (fun w => Weight w.2) l < two63 ->
  foldl (fun sum (w : string * Claim) => to_int64 (sum + Weight w.2)) a l
    = a + sumZ (fun w => Weight w.2) l.
Proof.
  intros Hw. revert a. induction Hw as [|w l Hw1 Hw IH]; intros a Ha Hb; cbn.
  { rewrite sumZ_nil. lia. }
  rewrite sumZ_cons in *. pose proof (sumZ_nonneg _ _ Hw). assert (0 < two63) by done.
  rewrite to_int64_id by (unfold is_int64; lia). rewrite IH by lia. lia.
Qed.

Lemma damt_single c d :
  damt [c] d = if String.eqb (dcoin_denom c) d then dcoin_amount c else 0.
Proof. unfold damt, sumZ. cbn. lia. Qed.

(** The rewards of a period are at most the pool. *)
Lemma period_rewards_le b denoms ratio pr0 pr :
  foldM (fun periodRewards denom =>
           if GetRewardPool b denom =? 0 then Ok periodRewards
           else amount ← dec_mul (NewDec (GetRewardPool b denom)) ratio;
                c ← new_dec_coin denom amount;
                deccoins_add periodRewards [c]) denoms pr0 = Ok pr ->
  NoDup denoms -> ratio <= precision -> deccoins_wf pr0 ->
  (forall d, 0 <= GetRewardPool b d) ->
  deccoins_wf pr /\
  forall d, damt pr d <= damt pr0 d + (if decide (d ∈ denoms) then NewDec (GetRewardPool b d) else 0).
Proof.
  intros H Hnd Hr. revert pr0 H. induction Hnd as [|x l Hx Hnd IH]; intros pr0 H Hwf Hpool.
  { injection H as <-. split; [done|]. intros d. rewrite decide_False by apply not_elem_of_nil. lia. }
  cbn [foldM] in H. apply bind_Ok in H as (pr1 & H1 & H2).
  assert (Hstep : deccoins_wf pr1 /\
    forall d, damt pr1 d <= damt pr0 d + (if decide (d = x) then NewDec (GetRewardPool b d) else 0)).
  { destruct (Z.eqb_spec (GetRewardPool b x) 0) as [Hz|Hz].
    - injection H1 as <-. split; [done|]. intros d. case_decide as Hd; [|lia].
      subst d. unfold NewDec. rewrite Hz. lia.
    - apply bind_Ok in H1 as (amount & Hm & H1). apply bind_Ok in H1 as (c & Hc & H1).
      apply new_dec_coin_Ok in Hc as (-> & _ & Ha). split; [by eapply deccoins_add_single_wf|].
      intros d. rewrite (deccoins_add_amt _ _ _ d H1), damt_single. cbn.
      assert (amount <= NewDec (GetRewardPool b x)).
      { apply (dec_mul_le _ _ _ Hm); [|done]. unfold NewDec. specialize (Hpool x).
        pose proof precision_pos. nia. }
      destruct (String.eqb_spec x d) as [->|Hne]; [rewrite decide_True by done|rewrite decide_False by done]; lia. }
  destruct Hstep as [Hwf1 Hd1]. destruct (IH pr1 H2 Hwf1 Hpool) as [Hwf2 Hd2]. split; [done|].
  intros d. specialize (Hd1 d). specialize (Hd2 d).
  destruct (decide (d = x)) as [->|Hne].
  - rewrite decide_False in Hd2 by done. rewrite decide_True by by left. lia.
  - destruct (decide (d ∈ l)); [rewrite decide_True by by right|rewrite decide_False by set_solver]; lia.
Qed.

(** What is paid out of a denomination is at most its pool. *)
Lemma distributed_le_pool b k denoms ratio pr l d d' dist :
  period_rewards b denoms ratio = Ok pr ->
  foldM (dole k pr (ballot_power_sum l)) l (d, []) = Ok (d', dist) ->
  NoDup denoms -> ratio <= precision ->
  (forall e, 0 <= GetRewardPool b e) ->
  Forall (fun w => 0 <= Weight w.2) l ->
  sumZ (fun w => Weight w.2) l < two63 -> 0 < ballot_power_sum l ->
  Z.of_nat (length l) < 2 * precision ->
  coins_wf dist /\ forall e, 0 <= amt dist e <= GetRewardPool b e.
Proof.
  intros Hpr Hdole Hnd Hr Hpool Hw Hsum Hpos Hlen. unfold period_rewards in Hpr.
  apply period_rewards_le in Hpr as [Hwf Hle]; [|done|done|auto with go|done].
  apply dole_all_amt in Hdole as [Hdwf Ha]; [|done..|auto with go].
  split; [done|]. intros e. specialize (Ha e). specialize (Hle e). rewrite amt_nil, Z.sub_0_r in Ha.
  assert (Hps : ballot_power_sum l = sumZ (fun w => Weight w.2) l).
  { unfold ballot_power_sum. rewrite power_sum_exact by (done || lia). lia. }
  pose proof (shares_le_one l (ballot_power_sum l) Hw Hpos ltac:(lia)) as Hshares.
  pose proof (damt_nonneg pr e Hwf) as Hdn. pose proof precision_pos as HP.
  assert (damt pr e <= NewDec (GetRewardPool b e)).
  { unfold NewDec in *. specialize (Hpool e). change (damt [] e) with 0 in Hle. case_decide; nia. }
  unfold NewDec in *. nia.
Qed.

End reward_facts.

Lemma tally_step_keys {M : SdkMath} {A : Bech32} {G : GoSort} ctx band ref mapRT rateRT acc e acc' :
  tally_step ctx band ref mapRT rateRT acc e = Ok acc' -> dom acc'.1 = {[e.1]} ∪ dom acc.1.
Proof.
  unfold tally_step. destruct acc as [rates claims], e as [d b]. intros H. go_inv. cbn.
  by rewrite dom_insert_L.
Qed.

Lemma tally_loop_keys {M : SdkMath} {A : Bech32} {G : GoSort} ctx band ref mapRT rateRT l acc acc' :
  foldM (tally_step ctx band ref mapRT rateRT) l acc = Ok acc' ->
  dom acc'.1 = list_to_set (l.*1) ∪ dom acc.1.
Proof.
  revert acc. induction l as [|e l IH]; intros acc H; [injection H as <-; set_solver|].
  cbn [foldM] in H. apply bind_Ok in H as (acc1 & H1 & H2). rewrite (IH _ H2), (tally_step_keys _ _ _ _ _ _ _ _ H1).
  cbn. set_solver.
Qed.

(** ** Theorems *)

Section end_theorems.
Context {M : SdkMath} {ML : SdkMathLaws M} {C : SdkCoins} {CL : SdkCoinsLaws M C} {A : Bech32}.
Context {G : GoSort} {GL : GoSortLaws G}.
Context {K : Type} {SK : StakingKeeper K} {D : Type} {DK : DistributionKeeper D}.
Context {B : Type} {BK : BankKeeper B} {BL : BankLaws B BK} {BM : BankMetadata B}.
Implicit Types s : state K D B.

(** [OrganizeBallotByDenom] puts into the ballot of a denomination exactly
    the votes that active validators cast for it, sorted by rate; an
    abstention carries no power, a positive vote the power of its validator;
    the order in which Go ranges over the ballots does not matter. *)
Theorem ballots_organized {R : GoRange} {RL : GoRangeLaws R} s claims d b :
  OrganizeBallotByDenom (ostore s) claims !! d = Some b ->
  StronglySorted rate_le b /\ b <> [] /\
  forall v, v ∈ b <-> exists val vote claim t,
    Votes (ostore s) !! val = Some vote /\ claims !! VVoter vote = Some claim /\
    t ∈ ExchangeRateTuples vote /\ TDenom t = d /\
    v = NewVoteForTally (TRate t) d val (if 0 <? TRate t then CPower claim else 0).
Proof.
  rewrite organize_lookup. destruct (all_votes claims (ostore s) d) as [|v0 vs] eqn:Hv; [done|].
  intros [= <-]. rewrite <- Hv. split; [apply sort_sorted|]. split.
  - intros H. pose proof (sort_perm (all_votes claims (ostore s) d)) as Hp. rewrite H, Hv in Hp.
    by apply Permutation_nil_cons in Hp.
  - intros v. rewrite sort_perm. apply all_votes_elem.
Qed.

(** C27. The exchange rates and the claims that the tally of all ballots
    produces, or its failure, are the same in whatever order Go ranges over
    the ballots: all validators compute the same prices and winners. *)
Theorem tally_deterministic (R1 R2 : GoRange) (L1 : GoRangeLaws R1) (L2 : GoRangeLaws R2)
    ctx band pick rates claims :
  tally_all (R:=R1) ctx band pick rates claims = tally_all (R:=R2) ctx band pick rates claims.
Proof.
  unfold tally_all. destruct (String.eqb (referenceTerra pick) ""); [done|].
  destruct (median_at ctx _) as [m| |]; cbn; [|done..]. apply tally_loop_perm.
  - rewrite range_perm. apply NoDup_fst_map_to_list.
  - by rewrite !range_perm.
Qed.

(** C4. The reward pool is not overdrawn if the vote period is at most the
    distribution window: after the fork to the present rewards, with Luna no
    vote target, a pool without debts and fewer than [2*10^18] winners of
    positive total weight, once the rewards of the period are computed and
    allocated, what [RewardBallotWinners] distributes of a denomination, each share rounded on
    its own, is at most the pool, the final transfer does not panic, and it moves
    exactly the distributed coins from the oracle to the distribution module. *)
Theorem rewards_within_pool {R : GoRange} {RL : GoRangeLaws R} distrName ctx vp window targets winners s pr d' dist :
  let weights := sumZ (fun w => Weight w.2) (map_to_list winners) in
  before_reward_fork ctx = false -> 0 <= vp <= window -> 0 < window -> targets !! MicroLunaDenom = None ->
  (forall e, 0 <= GetRewardPool (obank s) e) ->
  map_Forall (fun _ c => 0 <= Weight c) winners -> 0 < weights < two63 -> Z.of_nat (size winners) < 2 * precision ->
  period_rewards (obank s) (MicroLunaDenom :: (range 4 targets).*1) (Z.quot (NewDec vp) window) = Ok pr ->
  foldM (dole (staking s) pr weights) (range 6 winners) (distr s, []) = Ok (d', dist) ->
  exists s', RewardBallotWinners distrName ctx vp window targets winners s = (Ok tt, s') /\
    (forall e, 0 <= amt dist e <= GetRewardPool (obank s) e) /\
    (forall a e, get_balance (obank s') a e =
      get_balance (obank s) a e - if_eq a oracle_account (amt dist e)
        + if_eq a (module_address distrName) (amt dist e)) /\
    ostore s' = ostore s /\ distr s' = d'.
Proof.
  intros weights Hf Hvp Hwin Hluna Hpool Hw Hsum Hlen Hpr Hdole.
  assert (Hall : forall i, Forall (fun w : string * Claim => 0 <= Weight w.2) (range i winners)).
  { intros i. apply Forall_forall. intros [k c] Hk. rewrite range_perm in Hk. by apply elem_of_map_to_list, Hw in Hk. }
  assert (Hps : forall i, ballot_power_sum (range i winners) = weights).
  { intros i. unfold ballot_power_sum. rewrite power_sum_exact, (sumZ_perm _ _ _ (range_perm i _ winners)); [done..|lia|].
    rewrite (sumZ_perm _ _ _ (range_perm i _ winners)). fold weights. lia. }
  assert (Hnd : NoDup (MicroLunaDenom :: (range 4 targets).*1)).
  { rewrite range_perm. apply NoDup_cons. split; [|apply NoDup_fst_map_to_list].
    intros ((k & v) & Hk & Hv)%list_elem_of_fmap. cbn in Hk. subst. apply elem_of_map_to_list in Hv. congruence. }
  rewrite <- (Hps 6%nat) in Hdole.
  destruct (distributed_le_pool _ _ _ _ _ _ _ _ _ Hpr Hdole) as [Hwf Hle]; [done|..].
  { unfold NewDec. pose proof precision_pos. apply Z.quot_le_upper_bound; nia. }
  { done. } { apply Hall. } { rewrite (sumZ_perm _ _ _ (range_perm 6 _ winners)). fold weights. lia. }
  { rewrite Hps. lia. } { by rewrite (Permutation_length (range_perm 6 _ winners)), length_map_to_list. }
  destruct (send_total (obank s) oracle_account (module_address distrName) dist Hwf) as [b' Hb'].
  { intros e. apply Hle. }
  unfold RewardBallotWinners. rewrite Hf, Hps, (proj2 (Z.eqb_neq weights 0)) by lia.
  unfold pay_out, modify, gets, lift, mbind, st_bind. rewrite dec_quo_int_spec, (proj2 (Z.eqb_neq window 0)) by lia.
  cbn -[period_rewards dole foldM]. unfold id. rewrite Hpr. cbn -[dole foldM]. rewrite Hps in Hdole.
  rewrite Hdole. cbn. rewrite Hb'. cbn.
  eexists. split; [done|]. split; [done|]. split; [|done]. intros a e. cbn. by apply send_balance.
Qed.

(** After [ClearBallots] no vote is left, and of the prevotes exactly those
    whose reveal period is not over; nothing else changes. *)
Theorem ballots_cleared ctx p (s : store) :
  (forall v q, Prevotes s !! v = Some q -> 0 <= SubmitBlock q + p < two63) ->
  let s' := ClearBallots ctx p s in
  Votes s' = ∅ /\
  (forall v q, Prevotes s' !! v = Some q <->
     Prevotes s !! v = Some q /\ BlockHeight ctx <= SubmitBlock q + p) /\
  ExchangeRates s' = ExchangeRates s /\ MissCounters s' = MissCounters s /\
  FeederDelegations s' = FeederDelegations s /\ TobinTaxes s' = TobinTaxes s.
Proof.
  intros Hq. cbn zeta. rewrite ClearBallots_eq. cbn. split; [done|]. split; [|done].
  intros v q. rewrite map_lookup_filter_Some. cbn. split; intros [Hv Hc]; (split; [done|]);
    specialize (Hq v q Hv); assert (H64 : two64 = 2 * two63) by done;
    rewrite to_uint64_id, to_int64_id in * by (unfold is_uint64, is_int64; lia).
  - by apply Z.ltb_ge.
  - by apply Z.ltb_ge.
Qed.

(** When the whitelist differs from the current targets, applying it makes
    the Tobin taxes, and hence the vote targets of the next period, exactly
    the whitelist. *)
Theorem whitelist_applied wl targets s s' u :
  ApplyWhitelist wl targets s = (Ok u, s') -> whitelist_changed wl targets = true ->
  NoDup (DName <$> wl) ->
  forall d t, TobinTaxes (ostore s') !! d = Some t <-> mkDenom d t ∈ wl.
Proof.
  unfold ApplyWhitelist. intros H Hc Hnd. rewrite Hc in H. go_inv.
  apply apply_items_Ok in H as (-> & _ & _). intros d t. cbn [TobinTaxes set_taxes].
  rewrite tax_map_lookup by done.
  assert (TobinTaxes (ostore (on_store ClearTobinTaxes s)) = ∅) as ->.
  { cbn. apply foldl_delete_all, iter_denoms_perm. }
  destruct (list_find _ wl) as [[i [d' t']]|] eqn:Hf; cbn.
  - apply list_find_Some in Hf as (Hi & Hd & Hfirst). cbn in Hd. subst d'. split.
    + intros [= ->]. by eapply list_elem_of_lookup_2.
    + intros Hin. apply list_elem_of_lookup in Hin as [j Hj].
      assert (i = j) as <-; [|congruence].
      apply (NoDup_lookup (DName <$> wl) i j d Hnd); rewrite list_lookup_fmap; [by rewrite Hi|by rewrite Hj].
  - rewrite lookup_empty. apply list_find_None in Hf. rewrite Forall_forall in Hf.
    split; [done|]. intros Hin. by destruct (Hf _ Hin).
Qed.

(** A denomination removed from the whitelist stays a vote target as long
    as its ballots fail: the targets the whitelist is compared with no longer
    contain it, the comparison finds no difference, and its Tobin tax is kept. *)
Theorem delisted_denom_survives wl targets s :
  NoDup (DName <$> wl) -> (forall d t, targets !! d = Some t <-> mkDenom d t ∈ wl) ->
  ApplyWhitelist wl targets s = (Ok tt, s).
Proof.
  intros Hnd Ht. unfold ApplyWhitelist.
  assert (whitelist_changed wl targets = false) as ->; [|done].
  assert (Htm : targets = list_to_map ((fun i => (DName i, DTobinTax i)) <$> wl)).
  { apply map_eq. intros d. apply option_eq. intros t. rewrite Ht, <- elem_of_list_to_map.
    - rewrite list_elem_of_fmap. split; [intros Hi; by exists (mkDenom d t)|].
      intros ([d' t'] & [= -> ->] & Hi). done.
    - by rewrite <- list_fmap_compose. }
  unfold whitelist_changed. apply orb_false_iff. split.
  - apply negb_false_iff, Nat.eqb_eq. rewrite Htm.
    rewrite <- length_map_to_list, map_to_list_to_map by by rewrite <- list_fmap_compose.
    apply length_fmap.
  - apply not_true_is_false. intros (item & Hin & Hbad)%existsb_exists.
    apply list_elem_of_In in Hin. destruct item as [d t]. apply Ht in Hin. cbn in Hbad.
    rewrite Hin, Z.eqb_refl in Hbad. done.
Qed.

(** The misses of a period: the counter of every claim that did not win
    all the remaining targets goes up by one, all other counters stay,
    in whatever order the claims are visited. *)
Theorem misses_counted {R : GoRange} {RL : GoRangeLaws R} n (claims : gmap string Claim) st k c :
  (forall k1 c1 k2 c2, claims !! k1 = Some c1 -> claims !! k2 = Some c2 ->
                       Recipient c1 = Recipient c2 -> k1 = k2) ->
  claims !! k = Some c -> 0 <= GetMissCounter st (Recipient c) < two64 - 1 ->
  let st' := foldl (count_miss n) st (range 3 claims) in
  GetMissCounter st' (Recipient c) =
    GetMissCounter st (Recipient c) + (if WinCount c =? n then 0 else 1) /\
  forall v, (forall k' c', claims !! k' = Some c' -> Recipient c' <> v) ->
            GetMissCounter st' v = GetMissCounter st v.
Proof.
  intros Hinj Hk Hm st'.
  assert (Hin : forall k c, (k, c) ∈ range 3 claims <-> claims !! k = Some c).
  { intros k' c'. rewrite range_perm. apply elem_of_map_to_list. }
  assert (Hnd : NoDup (Recipient <$> (range 3 claims).*2)).
  { rewrite <- list_fmap_compose. apply NoDup_fmap_2_strong.
    - intros [k1 c1] [k2 c2] H1%Hin H2%Hin He. cbn in He. pose proof (Hinj _ _ _ _ H1 H2 He). congruence.
    - rewrite range_perm. apply NoDup_map_to_list. }
  unfold st'. split.
  - rewrite count_misses_lookup by done. destruct (list_find _ (range 3 claims)) as [[i [k' c']]|] eqn:Hf.
    + apply list_find_Some in Hf as (Hi & He & _). cbn in He.
      apply list_elem_of_lookup_2, Hin in Hi. pose proof (Hinj _ _ _ _ Hi Hk He) as ->.
      simplify_eq. cbn. destruct (_ =? n); [lia|]. rewrite to_uint64_id by (unfold is_uint64; lia). lia.
    + apply list_find_None in Hf. rewrite Forall_forall in Hf. apply Hin in Hk. by apply Hf in Hk.
  - intros v Hv. rewrite count_misses_lookup by done.
    destruct (list_find _ (range 3 claims)) as [[i [k' c']]|] eqn:Hf; [|done].
    apply list_find_Some in Hf as (Hi & He & _). apply list_elem_of_lookup_2, Hin in Hi.
    by apply Hv in Hi.
Qed.

(** At the end of a slash window every miss counter is removed, and if all
    validators reached the minimum rate of valid votes, no validator is
    slashed or jailed. *)
Theorem slash_window_reset ctx s s' u vp :
  SlashAndResetMissCounters ctx s = (Ok u, s') ->
  vote_periods_per_window (params (ostore s)) = Ok vp -> 0 < vp < two63 ->
  MissCounters (ostore s') = ∅ /\
  ExchangeRates (ostore s') = ExchangeRates (ostore s) /\
  ((forall v m, MissCounters (ostore s) !! v = Some m -> 0 <= m <= vp /\
      MinValidPerWindow (params (ostore s)) * vp <= (vp - m) * precision) ->
   staking s' = staking s).
Proof.
  unfold SlashAndResetMissCounters. intros H Hvp0. go_inv. unfold id in *.
  rewrite Hvp0 in Hv0. injection Hv0 as <-. intros Hvp.
  apply slash_all_Ok in H as (-> & _ & _ & Hst). cbn. split; [|split; [done|]].
  - apply foldl_delete_all, iter_addrs_perm.
  - intros Hall. apply Hst. apply Forall_forall. intros [v m] Hin rate Hr.
    apply elem_of_iter_addrs in Hin. apply Hall in Hin as [Hm Hmin]. cbn in Hr.
    apply Z.nlt_ge. intros Hlt. apply (valid_vote_rate_lt vp m rate _ Hvp Hm Hr) in Hlt. lia.
Qed.

(** A validator that missed too much and is no longer known to the staking
    module makes the end of the slash window panic: the nil validator is asked
    whether it is bonded. *)
Theorem slash_absent_validator_panics ctx s vp v m :
  vote_periods_per_window (params (ostore s)) = Ok vp -> 0 < vp < two63 -> 0 <= m <= vp ->
  MissCounters (ostore s) = {[v := m]} -> Validator (staking s) v = None ->
  (vp - m) * precision < MinValidPerWindow (params (ostore s)) * vp ->
  (SlashAndResetMissCounters ctx s).1 = Panic.
Proof.
  intros Hvp0 Hvp Hm Hmc Hval Hlow.
  unfold SlashAndResetMissCounters. rewrite (st_bind_step _ _ s s s) by done.
  rewrite (st_bind_step _ _ s s vp) by by rewrite Hvp0.
  unfold IterateMissCounters, iter_addrs. rewrite Hmc, map_to_list_singleton. cbn -[slash_one].
  unfold iterM. cbn -[slash_one]. unfold mbind, st_bind.
  destruct (valid_vote_rate vp m) as [rate| |] eqn:Hr.
  - assert (Hlt : rate < MinValidPerWindow (params (ostore s))).
    { by apply (valid_vote_rate_lt vp m rate _ Hvp Hm Hr). }
    unfold slash_one. unfold lift, gets, mbind, st_bind. rewrite Hr. cbn.
    destruct (Z.ltb_spec rate (MinValidPerWindow (params (ostore s)))); [|lia]. by rewrite Hval.
  - unfold valid_vote_rate in Hr. by apply no_err_quo_int in Hr.
  - unfold slash_one, lift, mbind, st_bind. by rewrite Hr.
Qed.

(** No stale price survives a vote period: when the tally ends, the prices
    it stored are exactly those of the ballots that were kept. *)
Theorem no_stale_rates {R : GoRange} {RL : GoRangeLaws R} ctx band pick claims rates' claims' :
  tally_all ctx band pick ∅ claims = Ok (rates', claims') ->
  dom rates' = if String.eqb (referenceTerra pick) "" then ∅ else dom (voteMap pick).
Proof.
  unfold tally_all. destruct (String.eqb (referenceTerra pick) "").
  - intros [= <- _]. apply dom_empty_L.
  - intros H. apply bind_Ok in H as (m & _ & H). apply tally_loop_keys in H. cbn [fst] in H.
    rewrite H, dom_empty_L, union_empty_r_L. apply set_eq. intros d.
    rewrite elem_of_list_to_set, range_perm, elem_of_dom. rewrite list_elem_of_fmap. split.
    + intros ([d' b] & -> & Hin). apply elem_of_map_to_list in Hin. by exists b.
    + intros [b Hb]. exists (d, b). split; [done|]. by apply elem_of_map_to_list.
Qed.

End end_theorems.

(** ** Concrete runs *)

Module EndExample.

(** Go may range in any order; here: ascending and descending. *)
Definition up : GoRange := {| range _ V m := map_to_list m |}.
Definition down : GoRange := {| range _ V m := rev (map_to_list m) |}.

Instance up_laws : GoRangeLaws up.
Proof. by split. Qed.
Instance down_laws : GoRangeLaws down.
Proof. split. intros. cbn. by rewrite <- Permutation_rev. Qed.

(** Two bonded validators "a" (power 10) and "b" (power 20); "gone" is unknown. *)
Definition info (v : string) (p : Z) : ValidatorI := mkValidator v true false (Ok v) (fun _ => p).

Instance two_validators : StakingKeeper unit := {|
  Validator _ v := if String.eqb v "a" then Some (info "a" 10)
                   else if String.eqb v "b" then Some (info "b" 20) else None;
  TotalBondedTokens _ := 30000000;
  Slash k _ _ _ _ := Ok k;
  Jail k _ := Ok k;
  ValidatorsPowerStore _ := ["b"; "a"];
  MaxValidators _ := 100;
  PowerReduction _ := 1000000;
  TokensToConsensusPower t r := t / r;
|}.

Instance any_distribution : DistributionKeeper unit := {| AllocateTokensToValidator d _ _ := Ok d |}.
Instance any_metadata : BankMetadata RefBank := {|
  HasDenomMetaData _ _ := true; SetDenomMetaData b _ := b |}.

Definition tuple (d : string) (r : Z) : ExchangeRateTuple := mkTuple d (NewDec r).

Definition wl : list DenomTax := [mkDenom "ukrw" 1; mkDenom "uusd" 2].

Definition ps : Params := mkParams 5 (NewDecWithPrec 50 2) (NewDecWithPrec 2 2) 100 wl
  (NewDecWithPrec 1 4) 10 (NewDecWithPrec 60 2).

Definition st0 : store :=
  mkStore (<["uusd" := NewDec 7]> ∅) ∅ (<["a" := 1]> ∅)
    (<["a" := mkPrevote "00" "va" 3]> ∅)
    (<["a" := mkVote [tuple "ukrw" 2000; tuple "uusd" 2] "va"]>
      (<["b" := mkVote [tuple "ukrw" 2010; tuple "uusd" 2] "vb"]> ∅))
    (<["ukrw" := 1]> (<["uusd" := 9]> ∅)) ps.

Definition s0 : state unit unit RefBank :=
  mkState st0 tt tt (mkRefBank (<[("module/oracle", "uluna") := 1000%N]> ∅) (<["uluna" := 1000]> ∅)).

Definition ctx : Ctx := mkCtx ColumbusChainID 6000004.

Definition claims0 : gmap string Claim :=
  <["va" := NewClaim 10 0 0 "a"]> (<["vb" := NewClaim 20 0 0 "b"]> ∅).

(** The end of the period runs: new prices, no vote left, the whitelist
    applied, and 50 uluna (5 of 100 blocks) paid out. *)
Lemma end_block_run :
  let r := @EndBlocker ref_math ref_coins ref_bech32 merge_sort_votes up unit two_validators unit
             any_distribution RefBank ref_bank any_metadata "distribution" ctx s0 in
  r.1 = Ok tt /\
  ExchangeRates (ostore r.2) !! "ukrw" = Some (NewDec 2010) /\
  Votes (ostore r.2) = ∅ /\ TobinTaxes (ostore r.2) !! "uusd" = Some 2 /\
  get_balance (obank r.2) "module/distribution" "uluna" = 49.
Proof. vm_compute. repeat split. Qed.

Definition krw_ballot : ExchangeRateBallot :=
  [NewVoteForTally (NewDec 2000) "ukrw" "a" 10; NewVoteForTally (NewDec 2010) "ukrw" "b" 20].

Lemma ballots_organized_witness : StronglySorted rate_le krw_ballot.
Proof.
  apply (ballots_organized (G:=merge_sort_votes) (R:=up) s0 claims0 "ukrw" krw_ballot).
  vm_compute. reflexivity.
Defined.

Definition pick0 : pick_state :=
  mkPick (<["ukrw" := 1]> ∅) (<["ukrw" := krw_ballot]> ∅) "ukrw" 30.

Lemma tally_deterministic_witness :
  @tally_all ref_math ref_bech32 merge_sort_votes up ctx (NewDecWithPrec 2 2) pick0 ∅ claims0 =
  @tally_all ref_math ref_bech32 merge_sort_votes down ctx (NewDecWithPrec 2 2) pick0 ∅ claims0.
Proof. apply (tally_deterministic (ML:=ref_math_laws) up down up_laws down_laws). Defined.

Definition rewards0 : list DecCoin := [mkDecCoin "uluna" (NewDec 50)].

Lemma s0_pool e : 0 <= GetRewardPool (obank s0) e.
Proof. apply rb_get_nonneg. Qed.

Definition winning0 : gmap string Claim :=
  <["va" := NewClaim 10 10 1 "a"]> (<["vb" := NewClaim 20 20 1 "b"]> ∅).

Lemma rewards_within_pool_witness :
  exists s', @RewardBallotWinners ref_math ref_coins up unit two_validators unit any_distribution RefBank ref_bank
      "distribution" ctx 5 100 (<["uusd" := 2]> ∅) winning0 s0 = (Ok tt, s') /\
    get_balance (obank s') "module/oracle" "uluna" = 951.
Proof.
  destruct (rewards_within_pool (ML:=ref_math_laws) (CL:=ref_coins_laws) (R:=up) "distribution" ctx 5 100
              (<["uusd" := 2]> ∅) winning0 s0 rewards0 tt [mkCoin "uluna" 49])
    as (s' & H & _ & Hb & _).
  - vm_compute. reflexivity.
  - done.
  - done.
  - reflexivity.
  - apply s0_pool.
  - apply map_Forall_insert_2; [done|]. apply map_Forall_insert_2; [done|apply map_Forall_empty].
  - vm_compute. done.
  - vm_compute. reflexivity.
  - vm_compute. reflexivity.
  - vm_compute. reflexivity.
  - exists s'. split; [exact H|]. rewrite Hb. vm_compute. reflexivity.
Defined.

Lemma prevotes_small v q : Prevotes st0 !! v = Some q -> 0 <= SubmitBlock q + 5 < two63.
Proof.
  cbn. rewrite lookup_insert_Some, lookup_empty. intros [[_ <-]|[_ ?]]; [|done]. by vm_compute.
Qed.

Lemma ballots_cleared_witness : Votes (ClearBallots ctx 5 st0) = ∅.
Proof. apply (ballots_cleared ctx 5 st0 prevotes_small). Defined.

Lemma wl_nodup : NoDup (DName <$> wl).
Proof. apply NoDup_cons. split; [set_solver|apply NoDup_singleton]. Qed.

Lemma whitelist_applied_witness :
  TobinTaxes (ostore (@ApplyWhitelist unit unit RefBank any_metadata wl ∅ s0).2) !! "uusd" = Some 2.
Proof.
  apply (whitelist_applied wl ∅ s0 (ApplyWhitelist wl ∅ s0).2 tt).
  - vm_compute. reflexivity.
  - vm_compute. reflexivity.
  - apply wl_nodup.
  - set_solver.
Defined.

(** The store still taxes "umnt", which is on no whitelist any more. *)
Definition s_delisted : state unit unit RefBank :=
  on_store (SetTobinTax "umnt" 3) s0.

Lemma delisted_denom_survives_witness :
  @ApplyWhitelist unit unit RefBank any_metadata wl (<["ukrw" := 1]> (<["uusd" := 2]> ∅)) s_delisted
    = (Ok tt, s_delisted) /\
  TobinTaxes (ostore s_delisted) !! "umnt" = Some 3.
Proof.
  split; [|vm_compute; reflexivity].
  apply (delisted_denom_survives wl _ s_delisted wl_nodup). intros d t. unfold wl.
  rewrite !lookup_insert_Some, lookup_empty, !elem_of_cons, elem_of_nil. split.
  - intros [[<- <-]|[_ [[<- <-]|[_ ?]]]]; auto. done.
  - intros [[= -> ->]|[[= -> ->]|[]]]; [by left|]. right. split; [done|]. by left.
Defined.

Definition claims1 : gmap string Claim :=
  <["va" := NewClaim 10 10 1 "a"]> (<["vb" := NewClaim 20 40 2 "b"]> ∅).

Lemma claims1_distinct k1 c1 k2 c2 :
  claims1 !! k1 = Some c1 -> claims1 !! k2 = Some c2 -> Recipient c1 = Recipient c2 -> k1 = k2.
Proof.
  unfold claims1. rewrite !lookup_insert_Some, !lookup_empty.
  intros [[<- <-]|[_ [[<- <-]|[_ ?]]]] [[<- <-]|[_ [[<- <-]|[_ ?]]]]; done.
Qed.

Lemma misses_counted_witness :
  GetMissCounter (foldl (count_miss 2) st0 (@range up 3 _ claims1)) "a" = 2.
Proof.
  apply (misses_counted (R:=up) 2 claims1 st0 "va" (NewClaim 10 10 1 "a") claims1_distinct);
    by vm_compute.
Defined.

Definition slashed := @SlashAndResetMissCounters ref_math unit two_validators unit RefBank ctx s0.

Lemma slash_run :
  @SlashAndResetMissCounters ref_math unit two_validators unit RefBank ctx s0 = (Ok tt, slashed.2).
Proof. vm_compute. reflexivity. Qed.

Lemma slash_window_reset_witness : MissCounters (ostore slashed.2) = ∅.
Proof.
  destruct (slash_window_reset (M:=ref_math) (SK:=two_validators) ctx s0 slashed.2 tt 2 slash_run) as (H & _).
  - vm_compute. reflexivity.
  - by vm_compute.
  - exact H.
Defined.

Definition s_gone : state unit unit RefBank := on_store (set_misses {["gone" := 2]}) s0.

Lemma slash_absent_validator_panics_witness :
  (@SlashAndResetMissCounters ref_math unit two_validators unit RefBank ctx s_gone).1 = Panic.
Proof.
  apply (slash_absent_validator_panics (ML:=ref_math_laws) ctx s_gone 2 "gone" 2); by vm_compute.
Defined.

Definition tallied0 :=
  @tally_all ref_math ref_bech32 merge_sort_votes up ctx (NewDecWithPrec 2 2) pick0 ∅ claims0.

Lemma no_stale_rates_witness :
  exists rates claims, tallied0 = Ok (rates, claims) /\ dom rates = {["ukrw"]}.
Proof.
  assert (Hok : match tallied0 with Ok _ => true | _ => false end = true) by (vm_compute; reflexivity).
  destruct tallied0 as [[rates claims]| |] eqn:E; [|discriminate Hok..].
  exists rates, claims. split; [done|].
  rewrite (no_stale_rates (R:=up) _ _ _ _ _ _ E).
  change (dom (<["ukrw" := krw_ballot]> (∅ : gmap string ExchangeRateBallot)) = {["ukrw"]}).
  by rewrite dom_insert_L, dom_empty_L, union_empty_r_L.
Defined.

End EndExample.
