(* ===== verification/OracleInv.v ===== *)
(** * The store of the oracle is well formed ([src/x/oracle])

    The types of the values in the store, beyond their Go types, and that
    everything that writes to it respects them: the messages and the change of
    parameters, whether they succeed or not, and the end of a block. *)

From Stdlib Require Import ZArith Lia Bool Ascii String.
From stdpp Require Import base strings list gmap relations.
From S2P Require Import Prelude Loops Sdk SdkRef Core OracleBallot OracleStore OracleEnd.
Local Open Scope Z_scope.

(** The staking module knows validators by addresses. *)
Class StakingLaws (A : Bech32) (K : Type) (SK : StakingKeeper K) : Prop := {
  operator_ok k v val : Validator k v = Some val -> address_ok (GetOperator val) = true;
}.

Section well_formed.
Context {A : Bech32} {AL : Bech32Laws A}.

(** A validator delegates to an account. *)
Definition feeder_wf (val : ValAddress) (feeder : AccAddress) : Prop :=
  address_ok val = true /\ address_ok feeder = true.

(** A prevote belongs to the validator of its key, has a height and the text of
    a hash. *)
Definition prevote_wf (val : ValAddress) (p : AggregateExchangeRatePrevote) : Prop :=
  address_ok val = true /\ PVoter p = ValAddressString val /\ 0 <= SubmitBlock p < two64 /\ exists h, PHash p = EncodeToString h.

(** A vote belongs to the validator of its key and names a currency once. *)
Definition vote_wf (val : ValAddress) (v : AggregateExchangeRateVote) : Prop :=
  address_ok val = true /\ VVoter v = ValAddressString val /\ NoDup (TDenom <$> ExchangeRateTuples v).

Definition miss_wf (val : ValAddress) (n : Z) : Prop := address_ok val = true /\ 0 <= n < two64.

(** A tax is a share, of a currency with a name. *)
Definition tax_wf (denom : string) (tax : Dec) : Prop := 0 <= tax <= OneDec /\ denom <> EmptyString.

Record store_wf (s : store) : Prop := mkWf {
  wf_feeders : map_Forall feeder_wf (FeederDelegations s);
  wf_prevotes : map_Forall prevote_wf (Prevotes s);
  wf_votes : map_Forall vote_wf (Votes s);
  wf_misses : map_Forall miss_wf (MissCounters s);
  wf_taxes : map_Forall tax_wf (TobinTaxes s);
  wf_params : ParamSetPairs (params s) = Ok tt;
}.

Lemma wf_voters s : store_wf s -> voters_ok s.
Proof. intros [_ Hp Hv _ _ _]. split; intros val x Hx; [apply Hp in Hx|apply Hv in Hx]; apply Hx. Qed.

Lemma wf_addresses s : store_wf s -> addresses_ok s.
Proof.
  intros [Hf Hp Hv Hm _ _]. split; [done|]. split; [|split]; intros val x Hx;
    [apply Hm in Hx|apply Hp in Hx|apply Hv in Hx]; apply Hx.
Qed.

Lemma to_uint64_range z : 0 <= to_uint64 z < two64.
Proof. apply Z.mod_pos_bound. done. Qed.

(** ** Writes *)

Lemma wf_set_rates m s : store_wf s -> store_wf (set_rates m s).
Proof. by intros []. Qed.

Lemma wf_set_miss v n s : store_wf s -> miss_wf v n -> store_wf (SetMissCounter v n s).
Proof. intros [] Hn. split; cbn; [done..| |done|done]. by apply map_Forall_insert_2. Qed.

Lemma wf_delete_miss v s : store_wf s -> store_wf (DeleteMissCounter v s).
Proof. intros []. split; cbn; [done..| |done|done]. by apply map_Forall_delete. Qed.

Lemma wf_set_tax d t s : store_wf s -> tax_wf d t -> store_wf (SetTobinTax d t s).
Proof. intros [] Ht. split; cbn; [done..| |done]. by apply map_Forall_insert_2. Qed.

Lemma wf_delete_rates s l : store_wf s -> store_wf (foldl (fun st e => DeleteLunaExchangeRate e.1 st) s (l : list (string * Dec))).
Proof. intros H. apply foldl_keeps; [|done]. intros s' e. apply wf_set_rates. Qed.

Lemma wf_clear_taxes s : store_wf s -> store_wf (ClearTobinTaxes s).
Proof.
  intros []. split; cbn; [done..| |done]. apply foldl_keeps; [|done].
  intros m e. apply map_Forall_delete.
Qed.

Lemma wf_clear_ballots ctx p s : store_wf s -> store_wf (ClearBallots ctx p s).
Proof.
  intros []. rewrite ClearBallots_eq. split; cbn; [done| |apply map_Forall_empty|done..].
  intros val q [Hq _]%map_lookup_filter_Some. auto.
Qed.

(** What the tally claims, it claims for addresses. *)
Definition recipients_ok (claims : gmap string Claim) : Prop :=
  map_Forall (fun _ c => address_ok (Recipient c) = true) claims.

Lemma wf_count_misses n l s :
  Forall (fun c : string * Claim => address_ok (Recipient c.2) = true) l -> store_wf s -> store_wf (foldl (count_miss n) s l).
Proof.
  intros Hl. revert s. induction Hl as [|c l Hc _ IH]; intros s Hs; [done|]. apply IH. unfold count_miss.
  destruct (_ =? _); [done|]. apply wf_set_miss; [done|]. split; [done|apply to_uint64_range].
Qed.

Lemma whitelist_wf p : ParamSetPairs p = Ok tt -> Forall (fun i => tax_wf (DName i) (DTobinTax i)) (Whitelist p).
Proof.
  unfold ParamSetPairs, validateWhitelist. intros H. go_inv.
  match goal with H : iterM _ _ = Ok _ |- _ => apply iterM_Ok in H; eapply Forall_impl; [exact H|] end.
  intros i Hi. unfold check_denom, outside_unit in Hi. go_inv. split; [lia|].
  destruct (DName i); [done|done].
Qed.
(** ** Messages *)

Section messages.
Context {K : Type} {SK : StakingKeeper K}.
Context (ParseDecCoin : string -> res DecCoin) (truncated_sha256 : string -> string).

Lemma prevote_keeps ctx k msg : keeps store_wf (AggregateExchangeRatePrevoteHandler ctx k msg).
Proof.
  unfold AggregateExchangeRatePrevoteHandler. apply keeps_bind_lift; intros val Hval%val_bech32_ok.
  do 4 (apply keeps_bind; [auto with go|]; intros ?).
  apply keeps_modify. intros s' []. split; cbn; [done| |done..]. apply map_Forall_insert_2; [|done].
  split; [done|]. split; [done|]. split; [apply to_uint64_range|by eexists].
Qed.

Lemma vote_keeps ctx k msg :
  keeps store_wf (AggregateExchangeRateVoteHandler ParseDecCoin truncated_sha256 ctx k msg).
Proof.
  unfold AggregateExchangeRateVoteHandler.
  apply keeps_bind_lift; intros val Hval%val_bech32_ok.
  do 7 (apply keeps_bind; [auto with go|]; intros ?). apply keeps_bind_lift; intros tuples Ht. do 2 (apply keeps_bind; [auto with go|]; intros ?).
  apply keeps_bind; [|intros _]; apply keeps_modify; intros s' []; split; cbn; try done.
  - apply map_Forall_insert_2; [|done]. split; [done|]. split; [done|]. cbn. go_inv.
    by eapply ParseExchangeRateTuples_nodup.
  - by apply map_Forall_delete.
Qed.

Lemma delegate_keeps k msg : keeps store_wf (DelegateFeedConsentHandler k msg).
Proof.
  unfold DelegateFeedConsentHandler. apply keeps_bind_lift; intros val Hval%val_bech32_ok.
  apply keeps_bind_lift; intros feeder Hf%acc_bech32_ok. destruct (Validator k _); [|auto with go].
  apply keeps_modify. intros s []. split; cbn; [|done..]. by apply map_Forall_insert_2.
Qed.

Lemma params_keeps p : keeps store_wf (OracleStore.SetParams p).
Proof.
  unfold OracleStore.SetParams. apply keeps_bind_lift. intros u Hp. go_inv. destruct u.
  apply keeps_modify. intros s []. by split.
Qed.

End messages.

(** ** The end of a block *)

Section end_block.
Context {M : SdkMath} {C : SdkCoins} {G : GoSort} {GL : GoSortLaws G} {R : GoRange} {RL : GoRangeLaws R}.
Context {K : Type} {SK : StakingKeeper K} {SL : StakingLaws A K SK} {D : Type} {DK : DistributionKeeper D}.
Context {B : Type} {BK : BankKeeper B} {BM : BankMetadata B}.
Context (distrName : string).

(** *** The claims of a vote period *)

Lemma build_claims_ok k n i addrs m claims :
  build_claims k n i addrs m = Ok claims -> recipients_ok m -> recipients_ok claims.
Proof.
  revert i m. induction addrs as [|a addrs IH]; intros i m H Hm; cbn in H; [by injection H as <-|].
  destruct (i <? n); [|by injection H as <-]. destruct (Validator k a) as [val|] eqn:Ev; [|done].
  destruct (IsBonded val); (eapply IH; [exact H|]); [|done]. apply map_Forall_insert_2; [|done].
  by apply (operator_ok k a).
Qed.

(** The voters of a ballot have claims. *)
Definition claimed (claims : gmap string Claim) (pb : ExchangeRateBallot) : Prop :=
  Forall (fun v => ValAddressString (Voter v) ∈ dom claims) pb.

Definition same_claims (c c' : gmap string Claim) : Prop := recipients_ok c' /\ dom c' = dom c.

Lemma add_win_claims claims v c :
  ValAddressString (Voter v) ∈ dom claims -> same_claims claims c -> same_claims claims (add_win c v).
Proof.
  intros Hv [Hr Hd]. unfold add_win. rewrite <- Hd in Hv. apply elem_of_dom in Hv as [x Hx]. rewrite Hx. cbn. split.
  - apply map_Forall_insert_2; [exact (Hr _ _ Hx)|done].
  - rewrite dom_insert_L, <- Hd. apply elem_of_dom_2 in Hx. set_solver.
Qed.

Lemma Tally_claims ctx pb band claims c m c' :
  claimed claims pb -> same_claims claims c -> Tally ctx pb band c = Ok (m, c') -> same_claims claims c'.
Proof.
  unfold Tally. intros Hp Hc H. go_inv.
  match goal with H : foldM _ _ _ = Ok _ |- _ => revert H; apply (foldM_inv (same_claims claims)); [|done] end.
  intros b x r Hx Hb Hr. go_inv. destruct v; [|done]. apply add_win_claims; [|done].
  unfold claimed in Hp. rewrite Forall_forall in Hp. auto.
Qed.

Lemma cross_claimed bases claims pb cb :
  claimed claims pb -> ToCrossRate bases pb = Ok cb -> claimed claims cb.
Proof.
  unfold claimed. intros Hp Hc%ToCrossRate_Ok. induction Hc as [|v w pb cb Hv _ IH]; [constructor|].
  inversion Hp; subst. constructor; [|auto]. by rewrite (cross_vote_voter _ _ _ Hv).
Qed.

Lemma tally_all_claims ctx band pick rates claims rates' c' :
  map_Forall (fun _ b => claimed claims b) (voteMap pick) -> recipients_ok claims ->
  tally_all ctx band pick rates claims = Ok (rates', c') -> recipients_ok c'.
Proof.
  unfold tally_all. intros Hb Hc H. destruct (String.eqb _ _); [by injection H as _ <-|]. go_inv.
  cut (same_claims claims (rates', c').2); [by intros [? _]|]. revert H.
  apply (foldM_inv (fun acc => same_claims claims acc.2)); [|by split].
  intros [r c] [d b] acc Hin Hs Ht. rewrite range_perm, elem_of_map_to_list in Hin. apply Hb in Hin.
  unfold tally_step in Ht. go_inv. cbn in *.
  match goal with H : Tally _ _ _ _ = Ok _ |- _ => eapply Tally_claims; [|exact Hs|exact H] end.
  destruct (negb _); [|by simplify_eq]. destruct (before_sort_fork ctx); [by eapply cross_claimed|].
  unfold ToCrossRateWithSort in *. go_inv. unfold claimed. rewrite sort_perm. by eapply cross_claimed.
Qed.

Lemma organized_claimed s claims d b :
  store_wf s -> OrganizeBallotByDenom s claims !! d = Some b -> claimed claims b.
Proof.
  intros Hs. rewrite organize_lookup. destruct (all_votes claims s d) as [|v0 vs] eqn:Ea; [done|]. intros [= <-].
  unfold claimed. rewrite sort_perm, <- Ea, Forall_forall.
  intros v (val & vote & c & t & Hv & Hc & _ & _ & ->)%all_votes_elem. cbn.
  destruct (wf_votes s Hs _ _ Hv) as (_ & <- & _). by apply elem_of_dom_2 in Hc.
Qed.

Lemma picked_ballots th power targets votes order pick :
  PickReferenceTerra th power targets votes order = Ok pick -> voteMap pick ⊆ votes.
Proof.
  unfold PickReferenceTerra, pick_loop. intros H. go_inv. apply (foldl_keeps (fun p => voteMap p ⊆ votes)); [|done].
  intros p [d b] Hp. unfold pick_step. repeat case_match; cbn; try done; (etransitivity; [apply delete_subseteq|done]).
Qed.

Definition state_wf (s : state K D B) : Prop := store_wf (ostore s).

Lemma on_store_keeps (f : store -> store) :
  (forall st, store_wf st -> store_wf (f st)) -> keeps state_wf (modify (on_store f)).
Proof. intros Hf. apply keeps_modify. intros s. apply Hf. Qed.

Lemma apply_whitelist_keeps p targets :
  ParamSetPairs p = Ok tt -> keeps state_wf (ApplyWhitelist (Whitelist p) targets).
Proof.
  intros Hp. unfold ApplyWhitelist. apply keeps_if; [|auto with go].
  apply keeps_bind; [apply on_store_keeps, wf_clear_taxes|]; intros _.
  apply keeps_iterM. eapply Forall_impl; [by apply whitelist_wf|]. intros item Hi. unfold apply_item.
  apply keeps_bind; [|intros _].
  { apply on_store_keeps. intros st Hs. by apply wf_set_tax. }
  apply keeps_bind; [auto with go|]; intros s. apply keeps_if; [auto with go|].
  apply keeps_bind; [auto with go|]; intros md. by apply keeps_modify.
Qed.

Lemma pay_out_keeps distributed : keeps state_wf (pay_out distrName distributed).
Proof.
  unfold pay_out. apply keeps_bind; [by apply keeps_modify|]; intros _.
  do 2 (apply keeps_bind; [auto with go|]; intros ?). by apply keeps_modify.
Qed.

Lemma rewards_keep ctx vp window targets winners :
  keeps state_wf (RewardBallotWinners distrName ctx vp window targets winners).
Proof.
  unfold RewardBallotWinners, RewardBallotWinnersLegacy.
  repeat first [apply pay_out_keeps | apply keeps_if | apply keeps_bind; [auto with go|]; intros ? | auto with go; fail].
Qed.

Lemma end_vote_period_keeps ctx p :
  ParamSetPairs p = Ok tt -> keeps state_wf (end_vote_period distrName ctx p).
Proof.
  intros Hp. unfold end_vote_period. apply keeps_bind_gets; intros s Hs. unfold id.
  apply keeps_bind_lift; intros claims0 H0. apply build_claims_ok in H0; [|apply map_Forall_empty].
  apply keeps_bind; [apply on_store_keeps; intros st; apply wf_delete_rates|]; intros _.
  apply keeps_bind_lift; intros pick Hpick%picked_ballots. apply keeps_bind; [auto with go|]; intros s1.
  apply keeps_bind_lift; intros [rates claims] Ht. apply tally_all_claims in Ht; [|intros d b Hb|done].
  2: { eapply organized_claimed; [exact Hs|]. by eapply lookup_weaken. }
  apply keeps_bind; [apply on_store_keeps; intros st; apply wf_set_rates|]; intros _.
  apply keeps_bind; [apply on_store_keeps; intros st; apply wf_count_misses|]; [|intros _].
  { apply Forall_forall. intros [x c] Hx. rewrite range_perm, elem_of_map_to_list in Hx. by apply Ht in Hx. }
  apply keeps_bind; [apply rewards_keep|]; intros _.
  apply keeps_bind; [apply on_store_keeps; intros st; apply wf_clear_ballots|]; intros _.
  by apply apply_whitelist_keeps.
Qed.

Lemma slash_keeps ctx : keeps state_wf (SlashAndResetMissCounters ctx).
Proof.
  unfold SlashAndResetMissCounters. apply keeps_bind; [auto with go|]; intros s.
  apply keeps_bind; [auto with go|]; intros vp. apply keeps_iterM, Forall_forall. intros [v m] _.
  unfold slash_one. apply keeps_bind; [auto with go|]; intros rate.
  apply keeps_bind; [|intros _; apply on_store_keeps; intros st; apply wf_delete_miss].
  apply keeps_if; [|auto with go]. apply keeps_bind; [auto with go|]; intros s1.
  destruct (Validator _ _); [|auto with go]. apply keeps_if; [|auto with go].
  do 3 (apply keeps_bind; [auto with go|]; intros ?). by apply keeps_modify.
Qed.

Lemma end_blocker_keeps ctx : keeps state_wf (EndBlocker distrName ctx).
Proof.
  unfold EndBlocker. apply keeps_bind_gets; intros s Hs. destruct Hs as [_ _ _ _ _ Hp].
  apply keeps_bind; [auto with go|]; intros last.
  apply keeps_bind; [apply keeps_if; [by apply end_vote_period_keeps|auto with go]|]; intros _.
  apply keeps_bind; [auto with go|]; intros lastw. apply keeps_if; [apply slash_keeps|auto with go].
Qed.

(** ** Runs of the chain

    What happens to the oracle between two states: a message, a change of the
    parameters, the end of a block, or something in the other modules.  An
    error may be rolled back or not; both are steps. *)
Context (ParseDecCoin : string -> res DecCoin) (truncated_sha256 : string -> string).

Inductive oracle_step (s : state K D B) : state K D B -> Prop :=
| step_prevote ctx msg r st' :
    AggregateExchangeRatePrevoteHandler ctx (staking s) msg (ostore s) = (r, st') ->
    oracle_step s (on_store (fun _ => st') s)
| step_vote ctx msg r st' :
    AggregateExchangeRateVoteHandler ParseDecCoin truncated_sha256 ctx (staking s) msg (ostore s) = (r, st') ->
    oracle_step s (on_store (fun _ => st') s)
| step_delegate msg r st' :
    DelegateFeedConsentHandler (staking s) msg (ostore s) = (r, st') ->
    oracle_step s (on_store (fun _ => st') s)
| step_params p r st' :
    OracleStore.SetParams p (ostore s) = (r, st') -> oracle_step s (on_store (fun _ => st') s)
| step_end_block ctx r s' : EndBlocker distrName ctx s = (r, s') -> oracle_step s s'
| step_others k d b : oracle_step s (mkState (ostore s) k d b).

Lemma keeps_run {S T} (I : S -> Prop) (c : st S T) s r s' : keeps I c -> c s = (r, s') -> I s -> I s'.
Proof. intros Hk Hc Hs. specialize (Hk s Hs). by rewrite Hc in Hk. Qed.

Lemma oracle_step_wf s s' : oracle_step s s' -> state_wf s -> state_wf s'.
Proof.
  intros [ctx msg r st' H|ctx msg r st' H|msg r st' H|p r st' H|ctx r s2 H|k d b] Hs; [..|done].
  - exact (keeps_run store_wf _ _ _ _ (prevote_keeps _ _ _) H Hs).
  - exact (keeps_run store_wf _ _ _ _ (vote_keeps _ _ _ _ _) H Hs).
  - exact (keeps_run store_wf _ _ _ _ (delegate_keeps _ _) H Hs).
  - exact (keeps_run store_wf _ _ _ _ (params_keeps _) H Hs).
  - exact (keeps_run state_wf _ _ _ _ (end_blocker_keeps _) H Hs).
Qed.

(** C15. The store of the oracle stays well formed along every run, whatever is
    sent and whatever fails: validators and feeders have addresses, prevotes and
    votes belong to the validators of their keys, a vote names a currency once,
    counters are unsigned integers, taxes are shares and the parameters valid.
    So the state can be exported at any time, and is read back as it was if and
    only if some currency is taxed or none is listed. *)
Theorem oracle_store_typed s s' p0 :
  store_wf (ostore s) -> rtc oracle_step s s' ->
  store_wf (ostore s') /\
  (InitGenesis true (ExportGenesis (ostore s')) (empty_store p0) = (Ok tt, ostore s') <->
   (TobinTaxes (ostore s') = ∅ -> Whitelist (params (ostore s')) = [])).
Proof.
  intros Hs Hr. assert (Hw : store_wf (ostore s')).
  { induction Hr as [|x y z Hxy _ IH]; [done|]. apply IH. exact (oracle_step_wf x y Hxy Hs). }
  split; [done|]. apply genesis_exact; [by apply wf_voters|by apply wf_addresses|]. apply Hw.
Qed.

End end_block.

End well_formed.

(** ** A run of the example *)

Module InvExample.
Import EndExample.

Instance two_validators_laws : StakingLaws ref_bech32 unit two_validators.
Proof. split. intros k v val. cbn. repeat case_match; intros [= <-]; done. Qed.

Lemma st0_wf : @store_wf ref_bech32 st0.
Proof.
  split; [apply map_Forall_empty| | | | |done]; unfold st0; cbn [Prevotes Votes MissCounters TobinTaxes].
  - apply map_Forall_insert_2; [|apply map_Forall_empty].
    do 3 (split; [done|]). by exists (String (ascii_of_nat 0) EmptyString).
  - apply map_Forall_insert_2; [|apply map_Forall_insert_2; [|apply map_Forall_empty]];
      (split; [done|]; split; [done|]; cbn; repeat constructor; set_solver).
  - by apply map_Forall_insert_2; [|apply map_Forall_empty].
  - apply map_Forall_insert_2; [done|]. by apply map_Forall_insert_2; [|apply map_Forall_empty].
Qed.

Definition ended : state unit unit RefBank :=
  (@EndBlocker ref_math ref_coins ref_bech32 merge_sort_votes up unit two_validators unit
     any_distribution RefBank ref_bank any_metadata "distribution" ctx s0).2.

Lemma oracle_store_typed_witness :
  @InitGenesis ref_bech32 true (@ExportGenesis ref_bech32 (ostore ended)) (empty_store ps) = (Ok tt, ostore ended).
Proof.
  destruct (oracle_store_typed (A:=ref_bech32) (M:=ref_math) (C:=ref_coins) (G:=merge_sort_votes) (R:=up) (BK:=ref_bank)
    "distribution" StoreExample.parse_coin StoreExample.id_hash s0 ended ps st0_wf) as [_ H].
  - apply rtc_once. eapply step_end_block. apply surjective_pairing.
  - apply H. vm_compute. discriminate.
Defined.

End InvExample.
