(* ===== verification/Treasury.v ===== *)
(** * The treasury module ([src/x/treasury])

    Once a week the treasury measures the stability of the currencies
    (indicators), mints back the seigniorage of the epoch, and moves the tax
    rate, the reward weight and the tax caps within the policy constraints.
    It reaches the market through the interface [MarketKeeper], the whitelist
    of the oracle, the staking keeper, the community pool of the distribution
    keeper and the bank. *)

From Stdlib Require Import ZArith Lia Bool Ascii String.
From stdpp Require Import base strings list gmap sorting.
From S2P Require Import Prelude Loops Sdk SdkRef Core OracleBallot OracleStore.
Local Open Scope Z_scope.

(** ** Interface to the market ([types/exptected_keepers.go]) *)

Class MarketKeeper (K : Type) : Type := {
  compute_internal_swap : K -> DecCoin -> string -> res DecCoin;
}.

(** A conversion returns the asked denomination and keeps amounts
    non-negative. *)
Class MarketKeeperLaws (K : Type) (MK : MarketKeeper K) : Prop := {
  internal_swap_denom k c d q : compute_internal_swap k c d = Ok q -> dcoin_denom q = d;
  internal_swap_nonneg k c d q :
    compute_internal_swap k c d = Ok q -> 0 <= dcoin_amount c -> 0 <= dcoin_amount q;
}.

(** ** Parameters *)

Definition ModuleName : string := "treasury".
Definition BurnModuleName : string := "burn".

Record PolicyConstraints : Type := mkPolicy {
  RateMin : Dec; RateMax : Dec; Cap : Coin; ChangeRateMax : Dec }.

Record Params : Type := mkParams {
  TaxPolicy : PolicyConstraints;
  RewardPolicy : PolicyConstraints;
  SeigniorageBurdenTarget : Dec;
  MiningIncrement : Dec;
  WindowShort : Z;       (* uint64 *)
  WindowLong : Z;        (* uint64 *)
  WindowProbation : Z;   (* uint64 *)
}.

Definition DefaultTaxPolicy : PolicyConstraints :=
  mkPolicy (NewDecWithPrec 5 4) (NewDecWithPrec 1 2) (mkCoin MicroSDRDenom MicroUnit)
    (NewDecWithPrec 25 5).
Definition DefaultRewardPolicy : PolicyConstraints :=
  mkPolicy (NewDecWithPrec 5 2) (NewDecWithPrec 50 2) (mkCoin "unused" 0) (NewDecWithPrec 25 3).
Definition DefaultSeigniorageBurdenTarget : Dec := NewDecWithPrec 67 2.
Definition DefaultMiningIncrement : Dec := NewDecWithPrec 107 2.
Definition DefaultWindowShort : Z := 4.
Definition DefaultWindowLong : Z := 52.
Definition DefaultWindowProbation : Z := 12.
Definition DefaultTaxRate : Dec := NewDecWithPrec 1 3.
Definition DefaultRewardWeight : Dec := NewDecWithPrec 5 2.

Definition DefaultParams : Params :=
  mkParams DefaultTaxPolicy DefaultRewardPolicy DefaultSeigniorageBurdenTarget
    DefaultMiningIncrement DefaultWindowShort DefaultWindowLong DefaultWindowProbation.

Section params.
Context {C : SdkCoins}.

(** [Params.Validate]. *)
Definition Validate (p : Params) : res unit :=
  let tax := TaxPolicy p in
  let rew := RewardPolicy p in
  fail_if (RateMax tax <? RateMin tax) (Errorf "treasury TaxPolicy.RateMax must be greater than TaxPolicy.RateMin");;
  fail_if (RateMin tax <? 0) (Errorf "treasury parameter TaxPolicy.RateMin must be zero or positive");;
  fail_if (negb (coin_is_valid (Cap tax))) (Errorf "treasury parameter TaxPolicy.Cap is invalid");;
  fail_if (ChangeRateMax tax <? 0) (Errorf "treasury parameter TaxPolicy.ChangeRateMax must be positive");;
  fail_if (RateMax rew <? RateMin rew) (Errorf "treasury RewardPolicy.RateMax must be greater than RewardPolicy.RateMin");;
  fail_if (RateMin rew <? 0) (Errorf "treasury parameter RewardPolicy.RateMin must be positive");;
  fail_if (ChangeRateMax rew <? 0) (Errorf "treasury parameter RewardPolicy.ChangeRateMax must be positive");;
  fail_if (SeigniorageBurdenTarget p <? 0) (Errorf "treasury parameter SeigniorageBurdenTarget must be positive");;
  fail_if (MiningIncrement p <? 0) (Errorf "treasury parameter MiningIncrement must be positive");;
  fail_if (WindowLong p <=? WindowShort p) (Errorf "treasury parameter WindowLong must be bigger than WindowShort").

(** The validators of the single parameters. *)
Definition validateTaxPolicy (v : PolicyConstraints) : res unit :=
  fail_if (RateMin v <? 0) (Errorf "rate min must be positive");;
  fail_if (RateMax v <? RateMin v) (Errorf "rate max must be bigger than rate min");;
  fail_if (negb (coin_is_valid (Cap v))) (Errorf "cap is invalid");;
  fail_if (ChangeRateMax v <? 0) (Errorf "max change rate must be positive").

Definition validateRewardPolicy (v : PolicyConstraints) : res unit :=
  fail_if (RateMin v <? 0) (Errorf "rate min must be positive");;
  fail_if (RateMax v <? RateMin v) (Errorf "rate max must be bigger than rate min");;
  fail_if (ChangeRateMax v <? 0) (Errorf "max change rate must be positive").

Definition validateSeigniorageBurdenTarget (v : Dec) : res unit :=
  fail_if (v <? 0) (Errorf "seigniorage burden target must be positive").

Definition validateMiningIncrement (v : Dec) : res unit :=
  fail_if (v <? 0) (Errorf "mining increment must be positive").

(** [validateWindowShort], [validateWindowLong] and [validateWindowProbation]
    only check the type, so they accept every [uint64]. *)
Definition validateWindow (v : Z) : res unit := Ok tt.

Definition ParamSetPairs (p : Params) : res unit :=
  validateTaxPolicy (TaxPolicy p);;
  validateRewardPolicy (RewardPolicy p);;
  validateSeigniorageBurdenTarget (SeigniorageBurdenTarget p);;
  validateMiningIncrement (MiningIncrement p);;
  validateWindow (WindowShort p);;
  validateWindow (WindowLong p);;
  validateWindow (WindowProbation p).

End params.

(** ** The store *)

Record store : Type := mkStore {
  TaxRate : option Dec;                       (* 0x01 *)
  RewardWeight : option Dec;                  (* 0x02 *)
  TaxCaps : gmap string Int;                  (* 0x03 | denom *)
  TaxProceeds : option (list Coin);           (* 0x04 *)
  EpochInitialIssuance : option (list Coin);  (* 0x05 *)
  TRs : gmap Z Dec;                           (* 0x06 | epoch *)
  SRs : gmap Z Dec;                           (* 0x07 | epoch *)
  TSLs : gmap Z Int;                          (* 0x08 | epoch *)
  params : Params;
}.

(** What the treasury keeper reaches. *)
Record state (K S B : Type) : Type := mkState {
  tstore : store;
  market : K;
  staking : S;
  Whitelist : list DenomTax;
  CommunityPool : list DecCoin;
  bank : B;
}.
Arguments mkState {_ _ _} _ _ _ _ _ _.
Arguments tstore {_ _ _} _.
Arguments market {_ _ _} _.
Arguments staking {_ _ _} _.
Arguments Whitelist {_ _ _} _.
Arguments CommunityPool {_ _ _} _.
Arguments bank {_ _ _} _.

Definition SetTaxRate (r : Dec) (t : store) : store :=
  mkStore (Some r) (RewardWeight t) (TaxCaps t) (TaxProceeds t) (EpochInitialIssuance t)
    (TRs t) (SRs t) (TSLs t) (params t).
Definition SetRewardWeight (w : Dec) (t : store) : store :=
  mkStore (TaxRate t) (Some w) (TaxCaps t) (TaxProceeds t) (EpochInitialIssuance t)
    (TRs t) (SRs t) (TSLs t) (params t).
Definition set_caps (m : gmap string Int) (t : store) : store :=
  mkStore (TaxRate t) (RewardWeight t) m (TaxProceeds t) (EpochInitialIssuance t)
    (TRs t) (SRs t) (TSLs t) (params t).
Definition SetEpochTaxProceeds (cs : list Coin) (t : store) : store :=
  mkStore (TaxRate t) (RewardWeight t) (TaxCaps t) (Some cs) (EpochInitialIssuance t)
    (TRs t) (SRs t) (TSLs t) (params t).
Definition SetEpochInitialIssuance (cs : list Coin) (t : store) : store :=
  mkStore (TaxRate t) (RewardWeight t) (TaxCaps t) (TaxProceeds t) (Some cs)
    (TRs t) (SRs t) (TSLs t) (params t).
Definition set_trs (m : gmap Z Dec) (t : store) : store :=
  mkStore (TaxRate t) (RewardWeight t) (TaxCaps t) (TaxProceeds t) (EpochInitialIssuance t)
    m (SRs t) (TSLs t) (params t).
Definition set_srs (m : gmap Z Dec) (t : store) : store :=
  mkStore (TaxRate t) (RewardWeight t) (TaxCaps t) (TaxProceeds t) (EpochInitialIssuance t)
    (TRs t) m (TSLs t) (params t).
Definition set_tsls (m : gmap Z Int) (t : store) : store :=
  mkStore (TaxRate t) (RewardWeight t) (TaxCaps t) (TaxProceeds t) (EpochInitialIssuance t)
    (TRs t) (SRs t) m (params t).
Definition set_params (p : Params) (t : store) : store :=
  mkStore (TaxRate t) (RewardWeight t) (TaxCaps t) (TaxProceeds t) (EpochInitialIssuance t)
    (TRs t) (SRs t) (TSLs t) p.

Definition GetTaxRate (t : store) : Dec := default DefaultTaxRate (TaxRate t).
Definition GetRewardWeight (t : store) : Dec := default DefaultRewardWeight (RewardWeight t).

Definition SetTaxCap (denom : string) (cap : Int) (t : store) : store :=
  set_caps (<[denom := cap]> (TaxCaps t)) t.
Definition GetTaxCap (t : store) (denom : string) : Int :=
  if is_luna denom then 0
  else match TaxCaps t !! denom with
       | None => coin_amount (Cap (TaxPolicy (params t)))
       | Some cap => cap
       end.
Definition IterateTaxCap (t : store) : list (string * Int) := iter_denoms (TaxCaps t).

Definition PeekEpochTaxProceeds (t : store) : list Coin := default [] (TaxProceeds t).
Definition GetEpochInitialIssuance (t : store) : list Coin := default [] (EpochInitialIssuance t).

Definition GetTR (t : store) (epoch : Z) : Dec := default 0 (TRs t !! epoch).
Definition SetTR (epoch : Z) (r : Dec) (t : store) : store := set_trs (<[epoch := r]> (TRs t)) t.
Definition GetSR (t : store) (epoch : Z) : Dec := default 0 (SRs t !! epoch).
Definition SetSR (epoch : Z) (r : Dec) (t : store) : store := set_srs (<[epoch := r]> (SRs t)) t.
Definition GetTSL (t : store) (epoch : Z) : Int := default 0 (TSLs t !! epoch).
Definition SetTSL (epoch : Z) (n : Int) (t : store) : store := set_tsls (<[epoch := n]> (TSLs t)) t.

(** [ClearTRs], [ClearSRs] and [ClearTSLs] delete every key the iterator
    visits. *)
Definition ClearTRs (t : store) : store :=
  set_trs (foldl (fun m e => delete e.1 m) (TRs t) (map_to_list (TRs t))) t.
Definition ClearSRs (t : store) : store :=
  set_srs (foldl (fun m e => delete e.1 m) (SRs t) (map_to_list (SRs t))) t.
Definition ClearTSLs (t : store) : store :=
  set_tsls (foldl (fun m e => delete e.1 m) (TSLs t) (map_to_list (TSLs t))) t.

(** ** Keys ([types/keys.go]) *)

(** [binary.LittleEndian.PutUint64]. *)
Fixpoint put_bytes (n : nat) (v : Z) : string :=
  match n with
  | O => EmptyString
  | S n' => String (ascii_of_nat (Z.to_nat (v mod 256))) (put_bytes n' (v / 256))
  end.

Definition PutUint64 (v : Z) : string := put_bytes 8 v.

Definition key_prefix (n : nat) : string := String (ascii_of_nat n) EmptyString.
Definition TaxRateKey : string := key_prefix 1.
Definition RewardWeightKey : string := key_prefix 2.
Definition TaxCapKey : string := key_prefix 3.
Definition TaxProceedsKey : string := key_prefix 4.
Definition EpochInitialIssuanceKey : string := key_prefix 5.
Definition TRKey : string := key_prefix 6.
Definition SRKey : string := key_prefix 7.
Definition TSLKey : string := key_prefix 8.

Definition GetTaxCapKey (denom : string) : string := String.append TaxCapKey denom.
Definition GetSubkeyByEpoch (prefix : string) (epoch : Z) : string :=
  String.append prefix (PutUint64 (to_uint64 epoch)).
Definition GetTRKey (epoch : Z) : string := GetSubkeyByEpoch TRKey epoch.
Definition GetSRKey (epoch : Z) : string := GetSubkeyByEpoch SRKey epoch.
Definition GetTSLKey (epoch : Z) : string := GetSubkeyByEpoch TSLKey epoch.

(** ** Policy *)

Section treasury.
Context {M : SdkMath} {C : SdkCoins}.
Context {K : Type} {MK : MarketKeeper K} {S : Type} {SK : StakingKeeper S}.
Context {B : Type} {BK : BankKeeper B}.

(** [PolicyConstraints.Clamp]. *)
Definition Clamp (pc : PolicyConstraints) (prevRate newRate : Dec) : res Dec :=
  delta ← dec_sub newRate prevRate;
  newRate' ← (
    if prevRate <? newRate then
      if ChangeRateMax pc <? delta then dec_add prevRate (ChangeRateMax pc) else Ok newRate
    else
      if ChangeRateMax pc <? Z.abs delta then dec_sub prevRate (ChangeRateMax pc) else Ok newRate);
  Ok (if newRate' <? RateMin pc then RateMin pc
      else if RateMax pc <? newRate' then RateMax pc else newRate').

Abbreviation state' := (state K S B).

Definition on_store (f : store -> store) : st state' unit :=
  modify (fun s => mkState (f (tstore s)) (market s) (staking s) (Whitelist s) (CommunityPool s) (bank s)).

Definition bank_op (f : B -> res B) : st state' unit := fun s =>
  match f (bank s) with
  | Ok b => (Ok tt, mkState (tstore s) (market s) (staking s) (Whitelist s) (CommunityPool s) b)
  | Err e => (Err e, s)
  | Panic => (Panic, s)
  end.

(** A bank error is a panic of the treasury. *)
Definition bank_must (f : B -> res B) : st state' unit := bank_op (fun b => must (f b)).

Definition set_community_pool (p : list DecCoin) : st state' unit :=
  modify (fun s => mkState (tstore s) (market s) (staking s) (Whitelist s) p (bank s)).

(** [SetParams] panics when a field validator refuses. *)
Definition SetParams (p : Params) : st state' unit :=
  lift (must (ParamSetPairs p));; on_store (set_params p).

(** [RecordEpochTaxProceeds]. *)
Definition RecordEpochTaxProceeds (delta : list Coin) : st state' unit :=
  if coins_is_zero delta then mret tt
  else
    proceeds ← gets (fun s => PeekEpochTaxProceeds (tstore s));
    proceeds' ← lift (coins_add proceeds delta);
    on_store (SetEpochTaxProceeds proceeds').

(** [RecordEpochInitialIssuance]. *)
Definition supply_coin (b : B) (denom : string) : Coin := mkCoin denom (get_supply b denom).

Definition RecordEpochInitialIssuance : st state' unit :=
  totalSupply ← gets (fun s =>
    supply_coin (bank s) MicroLunaDenom ::
    ((fun denom => supply_coin (bank s) (DName denom)) <$> Whitelist s));
  on_store (SetEpochInitialIssuance (coins_sort totalSupply)).

(** [PeekEpochSeigniorage]. *)
Definition PeekEpochSeigniorage (s : state') : res Int :=
  let epochIssuance := get_supply (bank s) MicroLunaDenom in
  let preEpochIssuance := coins_amount_of (GetEpochInitialIssuance (tstore s)) MicroLunaDenom in
  epochSeigniorage ← int_sub preEpochIssuance epochIssuance;
  Ok (if epochSeigniorage <? 0 then 0 else epochSeigniorage).

(** [BurnCoinsFromBurnAccount]. *)
Definition BurnCoinsFromBurnAccount : st state' unit :=
  coins ← gets (fun s => get_all_balances (bank s) (module_address BurnModuleName));
  if negb (coins_is_zero coins) then bank_must (fun b => burn_coins b BurnModuleName coins)
  else mret tt.

(** ** Indicators *)

Definition GetEpoch (ctx : Ctx) : Z := Z.quot (BlockHeight ctx) BlocksPerWeek.

(** One step of [alignCoins]: a coin without price is skipped. *)
Definition align_coin (s : state') (denom : string) (alignedAmt : Dec) (coinReward : DecCoin) : res Dec :=
  if negb (String.eqb (dcoin_denom coinReward) denom) then
    match compute_internal_swap (market s) coinReward denom with
    | Ok swappedReward => dec_add alignedAmt (dcoin_amount swappedReward)
    | Err _ => Ok alignedAmt
    | Panic => Panic
    end
  else dec_add alignedAmt (dcoin_amount coinReward).

Definition alignCoins (s : state') (coins : list DecCoin) (denom : string) : res Dec :=
  foldM (align_coin s denom) coins 0.

(** [UpdateIndicators]. *)
Definition UpdateIndicators (ctx : Ctx) : st state' unit :=
  let epoch := GetEpoch ctx in
  totalStakedLuna ← gets (fun s => TotalBondedTokens (staking s));
  on_store (SetTSL epoch totalStakedLuna);;
  proceeds ← gets (fun s => PeekEpochTaxProceeds (tstore s));
  taxRewards ← lift (deccoins_of_coins proceeds);
  s1 ← gets id;
  TR ← lift (alignCoins s1 taxRewards MicroSDRDenom);
  on_store (SetTR epoch TR);;
  on_store (SetEpochTaxProceeds []);;
  s2 ← gets id;
  seigniorage ← lift (PeekEpochSeigniorage s2);
  seigniorageRewardsAmt ← lift (dec_mul_int (GetRewardWeight (tstore s2)) seigniorage);
  seigniorageReward ← lift (new_dec_coin MicroLunaDenom seigniorageRewardsAmt);
  SR ← lift (alignCoins s2 [seigniorageReward] MicroSDRDenom);
  on_store (SetSR epoch SR).

(** The indicators. *)
Definition TRL (epoch : Z) (t : store) : res Dec :=
  let tr := GetTR t epoch in
  let tsl := GetTSL t epoch in
  if (tr =? 0) || (tsl =? 0) then Ok 0 else dec_quo_int tr tsl.
Definition SR (epoch : Z) (t : store) : res Dec := Ok (GetSR t epoch).
Definition MR (epoch : Z) (t : store) : res Dec := dec_add (GetTR t epoch) (GetSR t epoch).

(** The loop of [sumIndicator] and [rollingAverageIndicator]: from [i] down,
    while [i >= 0] and [i > limit]; returns the sum and the final [i].  The
    [fuel] bounds the number of iterations. *)
Fixpoint indicator_loop (fuel : nat) (indicator : Z -> store -> res Dec) (t : store)
    (limit i : Z) (sum : Dec) : res (Dec * Z) :=
  if (0 <=? i) && (limit <? i) then
    match fuel with
    | O => Panic
    | Datatypes.S fuel' =>
        val ← indicator i t;
        sum' ← dec_add sum val;
        indicator_loop fuel' indicator t limit (i - 1) sum'
    end
  else Ok (sum, i).

(** An iteration per epoch from the current one down to zero. *)
Definition loop_fuel (curEpoch : Z) : nat := Z.to_nat (curEpoch + 1).

Definition sumIndicator (ctx : Ctx) (t : store) (epochs : Z) (indicator : Z -> store -> res Dec)
    : res Dec :=
  let curEpoch := GetEpoch ctx in
  '(sum, _) ← indicator_loop (loop_fuel curEpoch) indicator t (to_int64 (curEpoch - epochs)) curEpoch 0;
  Ok sum.

Definition rollingAverageIndicator (ctx : Ctx) (t : store) (epochs : Z)
    (indicator : Z -> store -> res Dec) : res Dec :=
  let curEpoch := GetEpoch ctx in
  '(sum, i) ← indicator_loop (loop_fuel curEpoch) indicator t (to_int64 (curEpoch - epochs)) curEpoch 0;
  let computedEpochs := curEpoch - i in
  if computedEpochs =? 0 then Ok sum else dec_quo_int sum computedEpochs.

(** ** Policy updates *)

(** One step of [UpdateTaxCap]. *)
Definition update_cap (taxPolicyCap : DecCoin) (newCaps : list Coin) (denom : DenomTax)
    : st state' (list Coin) :=
  if String.eqb (DName denom) (dcoin_denom taxPolicyCap) then mret newCaps
  else
    s ← gets id;
    match compute_internal_swap (market s) taxPolicyCap (DName denom) with
    | Ok newDecCap =>
        '(newCap, _) ← lift (truncate_decimal newDecCap);
        on_store (SetTaxCap (coin_denom newCap) (coin_amount newCap));;
        mret (newCaps ++ [newCap])
    | Err _ => mret newCaps
    | Panic => lift Panic
    end.

Definition UpdateTaxCap : st state' (list Coin) :=
  cap ← gets (fun s => Cap (TaxPolicy (params (tstore s))));
  taxPolicyCap ← lift (new_dec_coin (coin_denom cap) (NewDec (coin_amount cap)));
  whitelist ← gets Whitelist;
  foldM (update_cap taxPolicyCap) whitelist [].

(** The tax rate before clamping: [t(t+1) = t(t) * TL_year(t) * INC / TL_month(t)]. *)
Definition target_tax_rate (ctx : Ctx) (t : store) : res Dec :=
  let p := params t in
  let oldTaxRate := GetTaxRate t in
  tlYear ← rollingAverageIndicator ctx t (to_int64 (WindowLong p)) TRL;
  tlMonth ← rollingAverageIndicator ctx t (to_int64 (WindowShort p)) TRL;
  if tlMonth =? 0 then Ok (RateMax (TaxPolicy p))
  else
    x ← dec_mul tlYear (MiningIncrement p);
    y ← dec_mul oldTaxRate x;
    dec_quo y tlMonth.

Definition UpdateTaxPolicy (ctx : Ctx) : st state' Dec :=
  t ← gets tstore;
  newTaxRate ← lift (target_tax_rate ctx t);
  newTaxRate' ← lift (Clamp (TaxPolicy (params t)) (GetTaxRate t) newTaxRate);
  on_store (SetTaxRate newTaxRate');;
  mret newTaxRate'.

(** The reward weight before clamping: [w(t+1) = w(t) * SB_target / SB_rolling(t)]. *)
Definition target_reward_weight (ctx : Ctx) (t : store) : res Dec :=
  let p := params t in
  let oldWeight := GetRewardWeight t in
  seigniorageSum ← sumIndicator ctx t (to_int64 (WindowShort p)) SR;
  totalSum ← sumIndicator ctx t (to_int64 (WindowShort p)) MR;
  if (totalSum =? 0) || (seigniorageSum =? 0) then Ok (RateMax (RewardPolicy p))
  else
    sb ← dec_quo seigniorageSum totalSum;
    x ← dec_quo (SeigniorageBurdenTarget p) sb;
    dec_mul oldWeight x.

Definition UpdateRewardPolicy (ctx : Ctx) : st state' Dec :=
  t ← gets tstore;
  newRewardWeight ← lift (target_reward_weight ctx t);
  newRewardWeight' ← lift (Clamp (RewardPolicy (params t)) (GetRewardWeight t) newRewardWeight);
  on_store (SetRewardWeight newRewardWeight');;
  mret newRewardWeight'.

(** ** Seigniorage *)

(** The branch of [SettleSeigniorage] for a positive seigniorage. *)
Definition settle (DistrName : string) (seigniorageLunaAmt : Int) : st state' unit :=
  rewardWeight ← gets (fun s => GetRewardWeight (tstore s));
  seigniorageDecCoin ← lift (new_dec_coin MicroLunaDenom (NewDec seigniorageLunaAmt));
  '(seigniorageCoin, _) ← lift (truncate_decimal seigniorageDecCoin);
  seigniorageCoins ← lift (new_coins [seigniorageCoin]);
  (if coins_is_valid seigniorageCoins
   then bank_must (fun b => mint_coins b ModuleName seigniorageCoins) else mret tt);;
  let seigniorageAmt := coin_amount seigniorageCoin in
  burnDec ← lift (dec_mul_int rewardWeight seigniorageAmt);
  burnAmt ← lift (dec_truncate_int burnDec);
  burnCoin ← lift (new_coin MicroLunaDenom burnAmt);
  burnCoins ← lift (new_coins [burnCoin]);
  (if coins_is_valid burnCoins
   then bank_must (fun b => burn_coins b ModuleName burnCoins) else mret tt);;
  leftAmt ← lift (int_sub seigniorageAmt burnAmt);
  leftCoin ← lift (new_coin MicroLunaDenom leftAmt);
  leftCoins ← lift (new_coins [leftCoin]);
  if coins_is_valid leftCoins then
    bank_must (fun b => send_coins b (module_address ModuleName) (module_address DistrName) leftCoins);;
    pool ← gets CommunityPool;
    leftDecCoins ← lift (deccoins_of_coins leftCoins);
    pool' ← lift (deccoins_add pool leftDecCoins);
    set_community_pool pool'
  else mret tt.

Definition SettleSeigniorage (DistrName : string) : st state' unit :=
  s ← gets id;
  seigniorageLunaAmt ← lift (PeekEpochSeigniorage s);
  if seigniorageLunaAmt <=? 0 then mret tt else settle DistrName seigniorageLunaAmt.

(** ** End of block ([abci.go]) *)

(** [defer d] around [c]: [d] runs also after a panic of [c]. *)
Definition deferred {A} (d : st state' unit) (c : st state' A) : st state' A := fun s =>
  let '(r, s1) := c s in
  match d s1 with
  | (Ok _, s2) => (r, s2)
  | (_, s2) => (Panic, s2)
  end.

(** What runs on the last block of an epoch, under the deferred record of the
    issuance. *)
Definition end_epoch (DistrName : string) (ctx : Ctx) : st state' unit :=
  UpdateIndicators ctx;;
  windowProbation ← gets (fun s => WindowProbation (params (tstore s)));
  if BlockHeight ctx <? to_int64 (to_uint64 (BlocksPerWeek * windowProbation)) then mret tt
  else
    SettleSeigniorage DistrName;;
    UpdateTaxPolicy ctx;;
    UpdateRewardPolicy ctx;;
    UpdateTaxCap;;
    mret tt.

Definition EndBlocker (DistrName : string) (ctx : Ctx) : st state' unit :=
  BurnCoinsFromBurnAccount;;
  last ← lift (IsPeriodLastBlock ctx BlocksPerWeek);
  if negb last then mret tt
  else deferred RecordEpochInitialIssuance (end_epoch DistrName ctx).

(** ** Genesis *)

Record EpochState : Type := mkEpochState {
  Epoch : Z; TaxReward : Dec; SeigniorageReward : Dec; TotalStakedLuna : Int }.

Record GenesisState : Type := mkGenesis {
  GParams : Params; GTaxRate : Dec; GRewardWeight : Dec; GTaxCaps : list (string * Int);
  GTaxProceeds : list Coin; GEpochInitialIssuance : list Coin; GEpochStates : list EpochState }.

Definition DefaultGenesisState : GenesisState :=
  mkGenesis DefaultParams DefaultTaxRate DefaultRewardWeight [] [] [] [].

Definition ValidateGenesis (data : GenesisState) : res unit :=
  let tax := TaxPolicy (GParams data) in
  let rew := RewardPolicy (GParams data) in
  fail_if ((GTaxRate data <? RateMin tax) || (RateMax tax <? GTaxRate data))
    (Errorf "tax_rate must less than RateMax and bigger than RateMin");;
  fail_if ((GRewardWeight data <? RateMin rew) || (RateMax rew <? GRewardWeight data))
    (Errorf "reward_weight must less than WeightMax and bigger than RateMin");;
  Validate (GParams data).

Definition init_epoch (e : EpochState) : st state' unit :=
  let i := to_int64 (Epoch e) in
  on_store (SetTR i (TaxReward e));;
  on_store (SetSR i (SeigniorageReward e));;
  on_store (SetTSL i (TotalStakedLuna e)).

(** The flags answer whether the two module accounts exist. *)
Definition InitGenesis (has_treasury has_burn : bool) (data : GenesisState) : st state' unit :=
  SetParams (GParams data);;
  on_store (SetTaxRate (GTaxRate data));;
  on_store (SetRewardWeight (GRewardWeight data));;
  on_store (SetEpochTaxProceeds (GTaxProceeds data));;
  (if coins_is_zero (GEpochInitialIssuance data) then RecordEpochInitialIssuance
   else on_store (SetEpochInitialIssuance (GEpochInitialIssuance data)));;
  iterM (fun cap => on_store (SetTaxCap cap.1 cap.2)) (GTaxCaps data);;
  iterM init_epoch (GEpochStates data);;
  lift (panic_if (negb has_treasury));;
  lift (panic_if (negb has_burn)).

(** The loop over the epochs of [ExportGenesis]. *)
Fixpoint export_epochs (fuel : nat) (t : store) (curEpoch : Z) (last : bool) (e : Z)
    : list EpochState :=
  if (e <? curEpoch) || ((e =? curEpoch) && last) then
    match fuel with
    | O => []
    | Datatypes.S fuel' =>
        mkEpochState (to_uint64 e) (GetTR t e) (GetSR t e) (GetTSL t e)
          :: export_epochs fuel' t curEpoch last (e + 1)
    end
  else [].

Definition ExportGenesis (ctx : Ctx) (s : state') : res GenesisState :=
  let t := tstore s in
  let curEpoch := GetEpoch ctx in
  last ← IsPeriodLastBlock ctx BlocksPerWeek;
  Ok (mkGenesis (params t) (GetTaxRate t) (GetRewardWeight t) (IterateTaxCap t)
        (PeekEpochTaxProceeds t) (GetEpochInitialIssuance t)
        (export_epochs (loop_fuel curEpoch) t curEpoch last 0)).

End treasury.

(** ** Clamping *)

Section clamp_facts.
Context {M : SdkMath} {ML : SdkMathLaws M}.

(** The admissible interval of an update. *)
Definition clamp_low (pc : PolicyConstraints) (prev : Dec) : Dec :=
  Z.max (RateMin pc) (prev - ChangeRateMax pc).
Definition clamp_high (pc : PolicyConstraints) (prev : Dec) : Dec :=
  Z.min (RateMax pc) (prev + ChangeRateMax pc).

Lemma Clamp_range pc prev new r :
  RateMin pc <= RateMax pc -> Clamp pc prev new = Ok r -> RateMin pc <= r <= RateMax pc.
Proof.
  unfold Clamp. intros Hle H. go_inv.
  destruct (Z.ltb_spec v0 (RateMin pc)), (Z.ltb_spec (RateMax pc) v0); lia.
Qed.

Lemma Clamp_Ok pc prev new r :
  RateMin pc <= prev <= RateMax pc -> 0 <= ChangeRateMax pc -> Clamp pc prev new = Ok r ->
  r = Z.max (clamp_low pc prev) (Z.min (clamp_high pc prev) new).
Proof.
  unfold Clamp, clamp_low, clamp_high. intros Hp Hc H. go_inv. apply dec_sub_Ok in Hv as [-> _].
  destruct (Z.ltb_spec prev new).
  - destruct (Z.ltb_spec (ChangeRateMax pc) (new - prev)); go_inv;
      [apply dec_add_Ok in Hv0 as [-> _]|];
      repeat (match goal with |- context [?a <? ?b] => destruct (Z.ltb_spec a b) end); lia.
  - destruct (Z.ltb_spec (ChangeRateMax pc) (Z.abs (new - prev))); go_inv;
      [apply dec_sub_Ok in Hv0 as [-> _]|];
      repeat (match goal with |- context [?a <? ?b] => destruct (Z.ltb_spec a b) end); lia.
Qed.

Lemma Clamp_total pc prev new :
  Z.abs (new - prev) < dec_bound -> 0 <= ChangeRateMax pc ->
  Z.abs prev + ChangeRateMax pc < dec_bound -> exists r, Clamp pc prev new = Ok r.
Proof.
  intros Hd Hc Hs. unfold Clamp.
  rewrite (dec_sub_spec new), (checked_small _ (new - prev)) by lia. cbn [mbind res_bind].
  destruct (prev <? new), (ChangeRateMax pc <? new - prev),
    (ChangeRateMax pc <? Z.abs (new - prev)); cbn [mbind res_bind]; eauto;
    rewrite ?dec_add_spec, ?dec_sub_spec, checked_small by lia; cbn [mbind res_bind]; eauto.
Qed.

(** [Clamp] moves a rate as far towards its target as the policy allows:
    from a rate within the bounds, the new rate is the point nearest to the
    target in the interval of the rates that are within the bounds and at most
    [ChangeRateMax] away; it exists unless the numbers are near the overflow. *)
Theorem clamp_projects pc prev new :
  RateMin pc <= prev <= RateMax pc -> 0 <= ChangeRateMax pc ->
  Z.abs (new - prev) < dec_bound -> Z.abs prev + ChangeRateMax pc < dec_bound ->
  exists r, Clamp pc prev new = Ok r /\
    RateMin pc <= r <= RateMax pc /\ Z.abs (r - prev) <= ChangeRateMax pc /\
    forall x, RateMin pc <= x <= RateMax pc -> Z.abs (x - prev) <= ChangeRateMax pc ->
      Z.abs (r - new) <= Z.abs (x - new).
Proof.
  intros Hp Hc Hd Hs. destruct (Clamp_total pc prev new) as [r Hr]; [done..|].
  exists r. split; [done|]. apply Clamp_Ok in Hr; [|done..].
  unfold clamp_low, clamp_high in Hr. split; [lia|]. split; [lia|]. intros x Hx Hx'. lia.
Qed.

End clamp_facts.

(** ** Windows of epochs *)

(** The [n] epochs from [i] downwards. *)
Fixpoint window (n : nat) (i : Z) : list Z :=
  match n with
  | O => []
  | S n' => i :: window n' (i - 1)
  end.

Lemma elem_of_window n i e : e ∈ window n i <-> i - Z.of_nat n < e <= i.
Proof.
  revert i. induction n as [|n IH]; intros i; cbn [window].
  - rewrite elem_of_nil. lia.
  - rewrite elem_of_cons, IH. lia.
Qed.

Lemma NoDup_window n i : NoDup (window n i).
Proof.
  revert i. induction n as [|n IH]; intros i; constructor; [|done].
  rewrite elem_of_window. lia.
Qed.

Lemma GetEpoch_range ctx :
  0 <= BlockHeight ctx < two63 -> 0 <= GetEpoch ctx /\ GetEpoch ctx + 1 < two63.
Proof.
  intros Hh. unfold GetEpoch. rewrite Z.quot_div_nonneg by (done || lia).
  change BlocksPerWeek with 100800. change two63 with 9223372036854775808 in *.
  Z.div_mod_to_equations. lia.
Qed.

Section indicator_facts.
Context {M : SdkMath} {ML : SdkMathLaws M}.
Context (indicator : Z -> store -> res Dec) (t : store) (f : Z -> Dec).
Context (Hind : forall e, indicator e t = Ok (f e)) (Hpos : forall e, 0 <= f e).

Lemma indicator_loop_spec n fuel limit i sum :
  (n <= fuel)%nat -> -1 <= i - Z.of_nat n -> limit <= i - Z.of_nat n ->
  i - Z.of_nat n = Z.max (-1) limit ->
  0 <= sum -> sum + sumZ f (window n i) < dec_bound ->
  indicator_loop fuel indicator t limit i sum
    = Ok (sum + sumZ f (window n i), i - Z.of_nat n).
Proof.
  revert fuel i sum. induction n as [|n IH]; intros fuel i sum Hf Hi Hl He H0 Hs.
  - cbn [window] in *. rewrite sumZ_nil, Z.add_0_r in *. cbn in *. rewrite Z.sub_0_r in *.
    destruct fuel; cbn [indicator_loop];
      destruct (Z.leb_spec 0 i), (Z.ltb_spec limit i); (lia || done).
  - destruct fuel as [|fuel]; [lia|]. cbn [window] in *. rewrite sumZ_cons in *.
    cbn [indicator_loop]. rewrite (proj2 (Z.leb_le 0 i)), (proj2 (Z.ltb_lt limit i)) by lia.
    cbn [andb]. rewrite Hind. cbn [mbind res_bind].
    assert (0 <= sumZ f (window n (i - 1))).
    { apply sumZ_nonneg, Forall_true. intros e. apply Hpos. }
    pose proof (Hpos i). rewrite dec_add_spec, checked_small by lia. cbn [mbind res_bind].
    rewrite IH by lia. f_equal. f_equal; lia.
Qed.

(** The loop over a window, with the fuel the code's loop needs at most. *)
Lemma indicator_window ctx epochs :
  0 <= BlockHeight ctx < two63 -> 0 <= epochs < two63 ->
  let cur := GetEpoch ctx in
  let n := Z.to_nat (Z.min epochs (cur + 1)) in
  sumZ f (window n cur) < dec_bound ->
  indicator_loop (loop_fuel cur) indicator t (to_int64 (cur - epochs)) cur 0
    = Ok (sumZ f (window n cur), cur - Z.of_nat n).
Proof.
  intros Hh He cur n Hs.
  pose proof (GetEpoch_range ctx Hh) as Hcur. fold cur in Hcur.
  rewrite to_int64_id by (unfold is_int64; lia).
  rewrite (indicator_loop_spec n); [done|unfold loop_fuel; lia..|done].
Qed.

End indicator_facts.

Section indicator_theorems.
Context {M : SdkMath} {ML : SdkMathLaws M}.

(** The indicators over a window are what they are called: on every height
    and for every window length below [2^63] epochs, [sumIndicator] returns the
    sum and [rollingAverageIndicator] the truncated average of a non-negative
    indicator over exactly the epochs that are at most the current one, not
    negative, and fewer than [epochs] back; the loop always ends within its
    fuel, and an empty window gives zero. *)
Theorem window_indicators (indicator : Z -> store -> res Dec) (t : store) (f : Z -> Dec)
    (ctx : Ctx) (epochs : Z) :
  (forall e, indicator e t = Ok (f e)) -> (forall e, 0 <= f e) ->
  0 <= BlockHeight ctx < two63 -> 0 <= epochs < two63 ->
  let cur := GetEpoch ctx in
  let w := window (Z.to_nat (Z.min epochs (cur + 1))) cur in
  sumZ f w < dec_bound ->
  sumIndicator ctx t epochs indicator = Ok (sumZ f w) /\
  rollingAverageIndicator ctx t epochs indicator = Ok (Z.quot (sumZ f w) (Z.max 1 (Z.of_nat (length w)))) /\
  NoDup w /\ forall e, e ∈ w <-> 0 <= e <= cur /\ cur - epochs < e.
Proof.
  intros Hind Hpos Hh He cur w Hs.
  assert (0 <= cur) by (apply Z.quot_pos; [lia|done]).
  assert (Hlen : forall n i, length (window n i) = n) by (induction n; intros; cbn; auto).
  assert (Hw : length w = Z.to_nat (Z.min epochs (cur + 1))) by apply Hlen.
  unfold sumIndicator, rollingAverageIndicator.
  rewrite !(indicator_window _ _ f) by done. fold cur w. cbn [mbind res_bind].
  split; [done|]. split; [|split; [apply NoDup_window|]].
  - destruct (Z.eqb_spec (cur - (cur - Z.of_nat (Z.to_nat (Z.min epochs (cur + 1))))) 0) as [E|E].
    + assert (length w = 0%nat) as Hw0 by lia. apply nil_length_inv in Hw0. rewrite Hw0. done.
    + rewrite dec_quo_int_spec, (proj2 (Z.eqb_neq _ 0) E). do 2 f_equal. lia.
  - intros e. unfold w. rewrite elem_of_window. lia.
Qed.

End indicator_theorems.

(** ** Keys *)

Lemma put_bytes_inj n v w :
  0 <= v < 256 ^ Z.of_nat n -> 0 <= w < 256 ^ Z.of_nat n ->
  put_bytes n v = put_bytes n w -> v = w.
Proof.
  revert v w. induction n as [|n IH]; intros v w Hv Hw; cbn [put_bytes].
  - cbn in *. lia.
  - rewrite Nat2Z.inj_succ, Z.pow_succ_r in Hv, Hw by lia.
    intros H. injection H as H1 H2.
    assert (Hm : v mod 256 = w mod 256).
    { pose proof (Z.mod_pos_bound v 256 ltac:(lia)). pose proof (Z.mod_pos_bound w 256 ltac:(lia)).
      apply (f_equal nat_of_ascii) in H1. rewrite !nat_ascii_embedding in H1 by lia. lia. }
    apply IH in H2; [|split; [apply Z.div_pos|apply Z.div_lt_upper_bound]; lia..].
    rewrite (Z.div_mod v 256), (Z.div_mod w 256) by lia. lia.
Qed.

Lemma to_uint64_inj a b : is_int64 a -> is_int64 b -> to_uint64 a = to_uint64 b -> a = b.
Proof.
  unfold is_int64, to_uint64. change two64 with 18446744073709551616.
  change two63 with 9223372036854775808. intros Ha Hb H. Z.div_mod_to_equations. lia.
Qed.

(** The items of the store. *)
Inductive item : Type :=
| ItemTaxRate | ItemRewardWeight | ItemTaxCap (denom : string) | ItemTaxProceeds
| ItemInitialIssuance | ItemTR (epoch : Z) | ItemSR (epoch : Z) | ItemTSL (epoch : Z).

Definition item_key (i : item) : string :=
  match i with
  | ItemTaxRate => TaxRateKey
  | ItemRewardWeight => RewardWeightKey
  | ItemTaxCap d => GetTaxCapKey d
  | ItemTaxProceeds => TaxProceedsKey
  | ItemInitialIssuance => EpochInitialIssuanceKey
  | ItemTR e => GetTRKey e
  | ItemSR e => GetSRKey e
  | ItemTSL e => GetTSLKey e
  end.

Definition item_ok (i : item) : Prop :=
  match i with ItemTR e | ItemSR e | ItemTSL e => is_int64 e | _ => True end.

(** The keys of the treasury store do not collide: items with the same key
    are the same item, for all denominations and all [int64] epochs. *)
Theorem treasury_keys_injective (i j : item) :
  item_ok i -> item_ok j -> item_key i = item_key j -> i = j.
Proof.
  assert (He : forall a b, is_int64 a -> is_int64 b ->
            put_bytes 8 (to_uint64 a) = put_bytes 8 (to_uint64 b) -> a = b).
  { intros a b Ha Hb H. apply to_uint64_inj; [done..|]. revert H.
    apply (put_bytes_inj 8); apply Z.mod_pos_bound; done. }
  destruct i, j; cbn [item_key item_ok]; intros Hi Hj H; try discriminate H; try done;
    unfold GetTaxCapKey, GetTRKey, GetSRKey, GetTSLKey, GetSubkeyByEpoch, PutUint64 in H;
    cbn [String.append TaxCapKey TRKey SRKey TSLKey key_prefix] in H;
    apply (f_equal (fun s => match s with String _ r => r | _ => s end)) in H;
    f_equal; first [done | by apply He].
Qed.

(** ** Seigniorage *)

Section treasury_facts.
Context {M : SdkMath} {ML : SdkMathLaws M} {C : SdkCoins} {CL : SdkCoinsLaws M C}.
Context {K : Type} {MK : MarketKeeper K} {S : Type} {SK : StakingKeeper S}.
Context {B : Type} {BK : BankKeeper B} {BL : BankLaws B BK}.
Implicit Types s : state K S B.

Definition with_bank (b : B) (s : state K S B) : state K S B :=
  mkState (tstore s) (market s) (staking s) (Whitelist s) (CommunityPool s) b.

Definition with_store (t : store) (s : state K S B) : state K S B :=
  mkState t (market s) (staking s) (Whitelist s) (CommunityPool s) (bank s).

Lemma bank_must_Ok (f : B -> res B) u s s' :
  bank_must f s = (Ok u, s') <-> exists b, f (bank s) = Ok b /\ s' = with_bank b s.
Proof.
  unfold bank_must, bank_op. destruct u, (f (bank s)); cbn; split; naive_solver.
Qed.

Lemma on_store_Ok (f : store -> store) u s s' :
  on_store f s = (Ok u, s') <-> s' = with_store (f (tstore s)) s.
Proof. unfold on_store. by rewrite modify_Ok. Qed.

Lemma luna_coins_Ok a cs :
  ValidDenom MicroLunaDenom = true -> 0 <= a -> new_coins [mkCoin MicroLunaDenom a] = Ok cs ->
  coins_is_valid cs = true /\ coins_wf cs /\ forall d, amt cs d = if_eq d MicroLunaDenom a.
Proof.
  intros Hd Ha H. pose proof H as (_ & Hwf & Hamt)%new_coins_single_Ok; [|done].
  split; [|split; [done|]].
  - rewrite new_coins_single in H by done. injection H as <-. cbn.
    destruct (Z.eqb_spec a 0); [apply coins_is_valid_nil|].
    apply coins_is_valid_single; cbn; [done|lia].
  - intros d. rewrite Hamt, amt_single. unfold if_eq. cbn.
    by rewrite String.eqb_sym.
Qed.

(** The effect of a settlement: the seigniorage is minted, the share of the
    reward weight burned, and the rest goes to the community pool. *)
Lemma settle_Ok D n u s s' :
  0 < n -> settle D n s = (Ok u, s') ->
  let burn := Z.quot (GetRewardWeight (tstore s) * n) precision in
  0 <= burn <= n /\ tstore s' = tstore s /\
  (forall a d, get_balance (bank s') a d
     = get_balance (bank s) a d + if_eq a (module_address D) (if_eq d MicroLunaDenom (n - burn))) /\
  (forall d, get_supply (bank s') d = get_supply (bank s) d + if_eq d MicroLunaDenom (n - burn)) /\
  (forall d, damt (CommunityPool s') d
     = damt (CommunityPool s) d + NewDec (if_eq d MicroLunaDenom (n - burn))).
Proof.
  intros Hn H. unfold settle in H. go_inv.
  apply new_dec_coin_Ok in Hv0 as (-> & Hlv & _).
  apply truncate_decimal_Ok in Hv1 as (-> & _ & _). cbn [dcoin_denom dcoin_amount] in *.
  unfold NewDec in *. rewrite Z.quot_mul in * by done. cbn [coin_amount] in *.
  apply luna_coins_Ok in Hv as (Hval1 & Hwf1 & Ham1); [|done|lia]. rewrite Hval1 in Hv2.
  apply bank_must_Ok in Hv2 as (b1 & Hb1 & ->).
  apply dec_mul_int_Ok in Hv3 as [-> _]. apply dec_truncate_int_Ok in Hv4 as [-> _].
  apply new_coin_Ok in Hv5 as (-> & _ & Hb0).
  apply luna_coins_Ok in Hv6 as (Hval2 & Hwf2 & Ham2); [|done..]. rewrite Hval2 in Hv7.
  apply bank_must_Ok in Hv7 as (b2 & Hb2 & ->).
  apply int_sub_Ok in Hv8 as [-> _]. apply new_coin_Ok in Hv9 as (-> & _ & Hl0).
  apply luna_coins_Ok in Hv10 as (Hval3 & Hwf3 & Ham3); [|done..]. rewrite Hval3 in H.
  unfold set_community_pool in H. go_inv. apply bank_must_Ok in Hv as (b3 & Hb3 & ->). cbn in *.
  set (burn := Z.quot (GetRewardWeight (tstore s) * n) precision) in *.
  split; [lia|]. split; [done|]. split; [|split].
  - intros a d. rewrite (send_balance _ _ _ _ _ _ _ Hb3), (burn_balance _ _ _ _ _ _ Hb2),
      (mint_balance _ _ _ _ _ _ Hb1), Ham1, Ham2, Ham3.
    unfold if_eq. repeat destruct (String.eqb _ _); lia.
  - intros d. rewrite (send_supply _ _ _ _ _ _ Hb3), (burn_supply _ _ _ _ _ Hb2),
      (mint_supply _ _ _ _ _ Hb1), Ham1, Ham2.
    unfold if_eq. repeat destruct (String.eqb _ _); lia.
  - intros d. rewrite (deccoins_add_amt _ _ _ d Hv2), (deccoins_of_coins_amt _ _ d Hv1), Ham3.
    unfold NewDec. lia.
Qed.

Lemma PeekEpochSeigniorage_Ok s n :
  PeekEpochSeigniorage s = Ok n ->
  n = Z.max 0 (coins_amount_of (GetEpochInitialIssuance (tstore s)) MicroLunaDenom
               - get_supply (bank s) MicroLunaDenom).
Proof.
  unfold PeekEpochSeigniorage. intros H. go_inv. apply int_sub_Ok in Hv as [-> _].
  destruct (Z.ltb_spec (coins_amount_of (GetEpochInitialIssuance (tstore s)) MicroLunaDenom
                        - get_supply (bank s) MicroLunaDenom) 0); lia.
Qed.

(** C2. A settlement conserves Luna: of the seigniorage of the epoch (what the
    supply fell below the initial issuance), exactly the share of the reward
    weight, rounded down, stays burned; the rest is minted to the distribution
    module account and booked in the community pool. No other balance, supply
    or item of the treasury store changes, and the supply ends at the initial
    issuance less the burned share, never above it. *)
Theorem seigniorage_settled D s s' n :
  PeekEpochSeigniorage s = Ok n -> 0 < n -> SettleSeigniorage D s = (Ok tt, s') ->
  let burn := Z.quot (GetRewardWeight (tstore s) * n) precision in
  let left := n - burn in
  0 <= burn /\ 0 <= left /\ tstore s' = tstore s /\
  (forall a d, get_balance (bank s') a d
     = get_balance (bank s) a d + if_eq a (module_address D) (if_eq d MicroLunaDenom left)) /\
  (forall d, d <> MicroLunaDenom -> get_supply (bank s') d = get_supply (bank s) d) /\
  get_supply (bank s') MicroLunaDenom
    = coins_amount_of (GetEpochInitialIssuance (tstore s)) MicroLunaDenom - burn /\
  (forall d, damt (CommunityPool s') d
     = damt (CommunityPool s) d + NewDec (if_eq d MicroLunaDenom left)).
Proof.
  intros Hp Hn H. unfold SettleSeigniorage in H. go_inv. unfold id in *. rewrite Hp in Hv0. injection Hv0 as <-.
  rewrite (proj2 (Z.leb_gt _ 0) Hn) in H.
  apply settle_Ok in H as (Hburn & Ht & Hbal & Hsup & Hpool); [|done].
  apply PeekEpochSeigniorage_Ok in Hp. cbn zeta.
  split; [lia|]. split; [lia|]. split; [done|]. split; [done|]. split; [|split; [|done]].
  - intros d Hd. rewrite Hsup. unfold if_eq. rewrite (proj2 (String.eqb_neq _ _) Hd). lia.
  - rewrite Hsup. unfold if_eq. rewrite String.eqb_refl. lia.
Qed.

Lemma st_no_err_bank (f : B -> res B) : st_no_err (bank_must (K:=K) (S:=S) f).
Proof. intros s e. unfold bank_must, bank_op. by destruct (f (bank s)). Qed.

Lemma no_err_new_coin d a : no_err (new_coin d a).
Proof. rewrite new_coin_spec. by destruct (_ && _). Qed.

Lemma no_err_new_dec_coin d a : no_err (new_dec_coin d a).
Proof. rewrite new_dec_coin_spec. by destruct (_ && _). Qed.

Lemma no_err_truncate_decimal c : no_err (truncate_decimal c).
Proof.
  rewrite truncate_decimal_spec, dec_truncate_int_spec.
  apply no_err_bind; [auto with go|]. intros n. rewrite dec_sub_spec.
  apply no_err_bind; [auto with go|]. intros ch.
  apply no_err_bind; [apply no_err_new_coin|]. intros tc.
  apply no_err_bind; [apply no_err_new_dec_coin|]. done.
Qed.

#[local] Hint Resolve st_no_err_bank no_err_new_coin no_err_new_dec_coin no_err_truncate_decimal : go.

Lemma settle_no_err D n : st_no_err (settle (K:=K) (S:=S) D n).
Proof.
  unfold settle. repeat first [apply st_no_err_bind; [|intros ?] | destruct (coins_is_valid _)
    | match goal with |- context [match ?p with pair _ _ => _ end] => is_var p; destruct p end];
    try (by auto with go);
    try (rewrite ?dec_mul_int_spec, ?dec_truncate_int_spec, ?int_sub_spec; by auto with go).
  all: apply st_no_err_lift;
    first [apply new_coins_no_err | apply deccoins_of_coins_no_err | apply deccoins_add_no_err].
Qed.

(** A reward weight above one stops the chain: when the weight makes the
    burned share exceed the seigniorage of the epoch, the settlement panics in
    every state, whatever the bank answers. The validators of the parameters
    bound the weight by [RewardPolicy.RateMax] only, which has no upper bound. *)
Theorem overweight_settlement_panics D s n :
  PeekEpochSeigniorage s = Ok n -> 0 < n ->
  n < Z.quot (GetRewardWeight (tstore s) * n) precision ->
  (SettleSeigniorage D s).1 = Panic.
Proof.
  intros Hp Hn Hw. unfold SettleSeigniorage.
  rewrite (st_bind_step (gets id) _ s s s eq_refl), (st_bind_step _ _ s s n); [|by unfold lift; rewrite Hp].
  rewrite (proj2 (Z.leb_gt _ 0) Hn).
  pose proof (settle_no_err D n s) as He.
  destruct (settle D n s) as [[u|e|] s'] eqn:E; [|by destruct (He e)|done].
  apply settle_Ok in E as (Hb & _); [|done]. lia.
Qed.

(** ** Effects of the parts of the end of an epoch *)

Lemma UpdateIndicators_Ok ctx u s s' :
  UpdateIndicators ctx s = (Ok u, s') ->
  exists tr sr,
    s' = with_store (SetSR (GetEpoch ctx) sr (SetEpochTaxProceeds []
           (SetTR (GetEpoch ctx) tr (SetTSL (GetEpoch ctx) (TotalBondedTokens (staking s)) (tstore s))))) s.
Proof.
  unfold UpdateIndicators. intros H. go_inv.
  repeat match goal with H : on_store _ _ = _ |- _ => apply on_store_Ok in H as -> end.
  by eexists _, _.
Qed.

Lemma UpdateTaxPolicy_Ok ctx r s s' :
  UpdateTaxPolicy ctx s = (Ok r, s') ->
  exists new, target_tax_rate ctx (tstore s) = Ok new /\
    Clamp (TaxPolicy (params (tstore s))) (GetTaxRate (tstore s)) new = Ok r /\
    s' = with_store (SetTaxRate r (tstore s)) s.
Proof.
  unfold UpdateTaxPolicy. intros H. go_inv.
  repeat match goal with H : on_store _ _ = _ |- _ => apply on_store_Ok in H as -> end. eauto.
Qed.

Lemma UpdateRewardPolicy_Ok ctx r s s' :
  UpdateRewardPolicy ctx s = (Ok r, s') ->
  exists new, target_reward_weight ctx (tstore s) = Ok new /\
    Clamp (RewardPolicy (params (tstore s))) (GetRewardWeight (tstore s)) new = Ok r /\
    s' = with_store (SetRewardWeight r (tstore s)) s.
Proof.
  unfold UpdateRewardPolicy. intros H. go_inv.
  repeat match goal with H : on_store _ _ = _ |- _ => apply on_store_Ok in H as -> end. eauto.
Qed.

(** The cap a denomination gets from a conversion of the policy's cap. *)
Definition new_cap (k : K) (cap : DecCoin) (d : string) : option Int :=
  if String.eqb d (dcoin_denom cap) then None
  else match compute_internal_swap k cap d with
       | Ok q => Some (Z.quot (dcoin_amount q) precision)
       | _ => None
       end.

Definition override {V} (o old : option V) : option V :=
  match o with Some v => Some v | None => old end.

Lemma update_caps_Ok {KL : MarketKeeperLaws K MK} cap l acc caps s s' :
  foldM (update_cap cap) l acc s = (Ok caps, s') ->
  exists m, s' = with_store (set_caps m (tstore s)) s /\
    forall d, m !! d = override (if decide (d ∈ DName <$> l) then new_cap (market s) cap d else None)
                        (TaxCaps (tstore s) !! d).
Proof.
  revert acc s. induction l as [|x l IH]; intros acc s H.
  - cbn in H. go_inv. exists (TaxCaps (tstore s')). split; [by destruct s' as [[]]|].
    intros d. by rewrite decide_False by apply not_elem_of_nil.
  - cbn [foldM] in H. apply st_bind_Ok in H as (acc' & s1 & H1 & H).
    apply IH in H as (m & -> & Hm). clear IH. unfold update_cap in H1. exists m.
    assert (Hx : s1 = with_store (set_caps (match new_cap (market s) cap (DName x) with
              | Some c => <[DName x := c]> (TaxCaps (tstore s)) | None => TaxCaps (tstore s) end)
              (tstore s)) s).
    { unfold new_cap. destruct (String.eqb (DName x) (dcoin_denom cap)).
      { go_inv. by destruct s1 as [[]]. }
      go_inv. unfold id in *. destruct (compute_internal_swap (market s) cap (DName x)) as [q|e|] eqn:E;
        go_inv; [|by destruct s1 as [[]]].
      select (truncate_decimal _ = _) (fun H => apply truncate_decimal_Ok in H as (-> & _)).
      select (on_store _ _ = _) (fun H => apply on_store_Ok in H as ->). cbn.
      by rewrite (internal_swap_denom _ _ _ _ E). }
    subst s1. cbn [with_store set_caps tstore market TaxCaps] in *.
    split; [done|]. intros d. rewrite Hm, fmap_cons. clear Hm.
    destruct (decide (d = DName x)) as [->|Hd].
    + rewrite (decide_True (P := DName x ∈ DName x :: _)) by by left.
      destruct (new_cap (market s) cap (DName x)) eqn:E; cbn;
        rewrite ?lookup_insert_eq; by case_decide.
    + rewrite (decide_ext (d ∈ DName x :: (DName <$> l)) (d ∈ DName <$> l)) by set_solver.
      f_equal. destruct (new_cap (market s) cap (DName x)); by rewrite ?lookup_insert_ne.
Qed.

Lemma UpdateTaxCap_Ok {KL : MarketKeeperLaws K MK} caps s s' :
  UpdateTaxCap s = (Ok caps, s') ->
  let cap := Cap (TaxPolicy (params (tstore s))) in
  exists m, s' = with_store (set_caps m (tstore s)) s /\
    forall d, m !! d = override (if decide (d ∈ DName <$> Whitelist s)
                          then new_cap (market s) (mkDecCoin (coin_denom cap) (NewDec (coin_amount cap))) d
                          else None) (TaxCaps (tstore s) !! d).
Proof.
  unfold UpdateTaxCap. intros H. go_inv. apply new_dec_coin_Ok in Hv0 as (-> & _).
  by apply update_caps_Ok in H.
Qed.

(** The tax caps follow the oracle: after the update, every whitelisted
    currency other than the one of the policy that the market can convert to
    has as cap the converted policy cap, rounded down; every other cap is
    kept, and nothing else in the state changes. *)
Theorem tax_caps_updated {KL : MarketKeeperLaws K MK} caps s s' :
  UpdateTaxCap s = (Ok caps, s') ->
  let cap := Cap (TaxPolicy (params (tstore s))) in
  let base := mkDecCoin (coin_denom cap) (NewDec (coin_amount cap)) in
  (forall d q, d ∈ DName <$> Whitelist s -> d <> coin_denom cap -> d <> MicroLunaDenom ->
     compute_internal_swap (market s) base d = Ok q ->
     GetTaxCap (tstore s') d = Z.quot (dcoin_amount q) precision) /\
  (forall d, d ∉ DName <$> Whitelist s \/ d = coin_denom cap \/
       (forall q, compute_internal_swap (market s) base d <> Ok q) ->
     GetTaxCap (tstore s') d = GetTaxCap (tstore s) d) /\
  s' = with_store (set_caps (TaxCaps (tstore s')) (tstore s)) s.
Proof.
  intros (m & -> & Hm)%UpdateTaxCap_Ok cap base. cbn in Hm. fold cap in Hm. fold base in Hm.
  split; [|split].
  - intros d q Hd Hc Hl Hq. unfold GetTaxCap. cbn. rewrite Hm, decide_True by done.
    unfold new_cap. cbn. rewrite (proj2 (String.eqb_neq _ _) Hc), Hq. cbn. unfold is_luna.
    by rewrite (proj2 (String.eqb_neq _ _) Hl).
  - intros d Hd. unfold GetTaxCap. cbn. rewrite Hm. destruct (is_luna d); [done|].
    assert (Hn : (if decide (d ∈ DName <$> Whitelist s) then new_cap (market s) base d else None) = None).
    { case_decide as Hin; [|done]. unfold new_cap. cbn.
      destruct (String.eqb_spec d (coin_denom cap)) as [|Hne]; [done|].
      destruct Hd as [Hd|[Hd|Hd]]; [done..|].
      destruct (compute_internal_swap (market s) base d) as [q| |] eqn:E; [by destruct (Hd q)|done..]. }
    by rewrite Hn.
  - done.
Qed.

(** ** The burn account *)

Lemma amt_zero_coins cs d : coins_is_zero cs = true -> amt cs d = 0.
Proof.
  intros H%coins_is_zero_spec. unfold amt. induction H as [|c cs Hc _ IH]; [done|].
  rewrite sumZ_cons, IH, Hc. by destruct (String.eqb _ _).
Qed.

Lemma BurnCoinsFromBurnAccount_run s :
  exists b, BurnCoinsFromBurnAccount s = (Ok tt, with_bank b s) /\
    (forall a d, get_balance b a d
       = get_balance (bank s) a d
         - if_eq a (module_address BurnModuleName) (get_balance (bank s) (module_address BurnModuleName) d)) /\
    (forall d, get_supply b d
       = get_supply (bank s) d - get_balance (bank s) (module_address BurnModuleName) d).
Proof.
  unfold BurnCoinsFromBurnAccount. erewrite (st_bind_step (gets _)) by reflexivity.
  set (addr := module_address BurnModuleName). set (cs := get_all_balances (bank s) addr).
  assert (Hamt : forall d, amt cs d = get_balance (bank s) addr d) by apply all_balances_amt.
  destruct (coins_is_zero cs) eqn:Hz; cbn [negb].
  - exists (bank s). split; [by destruct s|].
    assert (Hb0 : forall d, get_balance (bank s) addr d = 0).
    { intros d. by rewrite <- Hamt, amt_zero_coins. }
    split; intros; rewrite Hb0; unfold if_eq; [destruct (String.eqb _ _)|]; lia.
  - destruct (burn_total (bank s) BurnModuleName cs) as [b Hb].
    { apply all_balances_wf. }
    { intros d. by rewrite Hamt. }
    exists b. split; [by apply bank_must_Ok; exists b|].
    split; intros; [rewrite (burn_balance _ _ _ _ _ _ Hb)|rewrite (burn_supply _ _ _ _ _ Hb)];
      by rewrite Hamt.
Qed.

(** On every block that is not the last of a week, the end blocker of the
    treasury succeeds and does one thing: it burns the whole content of the
    burn account. The account is empty afterwards, the supply falls by exactly
    what it held, and all other balances and the rest of the state are kept. *)
Theorem burn_account_emptied D ctx s :
  IsPeriodLastBlock ctx BlocksPerWeek = Ok false ->
  let burned := get_balance (bank s) (module_address BurnModuleName) in
  exists b, EndBlocker D ctx s = (Ok tt, with_bank b s) /\
    (forall d, get_balance b (module_address BurnModuleName) d = 0) /\
    (forall a d, a <> module_address BurnModuleName -> get_balance b a d = get_balance (bank s) a d) /\
    (forall d, get_supply b d = get_supply (bank s) d - burned d).
Proof.
  intros Hl burned. destruct (BurnCoinsFromBurnAccount_run s) as (b & Hrun & Hbal & Hsup).
  exists b. split; [|split; [|split]].
  - unfold EndBlocker. rewrite (st_bind_step _ _ _ _ _ Hrun).
    rewrite (st_bind_step (lift _) _ _ (with_bank b s) false); [done|]. unfold lift. by rewrite Hl.
  - intros d. rewrite Hbal. unfold if_eq. rewrite String.eqb_refl. lia.
  - intros a d Ha. rewrite Hbal. unfold if_eq. rewrite (proj2 (String.eqb_neq _ _) Ha). lia.
  - intros d. apply Hsup.
Qed.

(** ** The end of an epoch *)

Lemma RecordEpochInitialIssuance_run s :
  RecordEpochInitialIssuance s = (Ok tt, with_store (SetEpochInitialIssuance
    (coins_sort (supply_coin (bank s) MicroLunaDenom ::
       ((fun denom => supply_coin (bank s) (DName denom)) <$> Whitelist s))) (tstore s)) s).
Proof. done. Qed.

Lemma deferred_Ok {A} (d : st (state K S B) unit) (c : st (state K S B) A) x s s' :
  deferred d c s = (Ok x, s') <-> exists s1, c s = (Ok x, s1) /\ d s1 = (Ok tt, s').
Proof.
  unfold deferred. destruct (c s) as [r s1]. destruct (d s1) as [[[]|e|] s2] eqn:E; split;
    first [intros [= -> ->]; eauto | intros (s3 & [= -> ->] & H3); congruence | intros [=]].
Qed.

(** What the policy updates do after the indicators: nothing during the
    probation, and otherwise the settlement and the three updates. *)
Lemma end_epoch_Ok {KL : MarketKeeperLaws K MK} D ctx u s s' :
  end_epoch D ctx s = (Ok u, s') ->
  exists s1, UpdateIndicators ctx s = (Ok tt, s1) /\
    (s' = s1 \/ exists s2 rate weight m new1 new2,
       SettleSeigniorage D s1 = (Ok tt, s2) /\
       let t := tstore s2 in
       Clamp (TaxPolicy (params t)) (GetTaxRate t) new1 = Ok rate /\
       Clamp (RewardPolicy (params t)) (GetRewardWeight t) new2 = Ok weight /\
       s' = with_store (set_caps m (SetRewardWeight weight (SetTaxRate rate t))) s2).
Proof.
  unfold end_epoch. intros H. go_inv. destruct v. eexists. split; [done|].
  destruct (_ <? _); go_inv; [by left|]. right. destruct v.
  select (UpdateTaxPolicy _ _ = _) (fun H => apply UpdateTaxPolicy_Ok in H as (new1 & _ & Hc1 & ->)).
  select (UpdateRewardPolicy _ _ = _) (fun H => apply UpdateRewardPolicy_Ok in H as (new2 & _ & Hc2 & ->)).
  select (UpdateTaxCap _ = _) (fun H => apply UpdateTaxCap_Ok in H as (m & -> & _)).
  eexists _, _, _, m, new1, new2. split; [done|]. cbn in *. by repeat split.
Qed.

Lemma SettleSeigniorage_store D u s s' :
  SettleSeigniorage D s = (Ok u, s') -> tstore s' = tstore s.
Proof.
  unfold SettleSeigniorage. intros H. go_inv. unfold id in *. destruct (Z.leb_spec v0 0); go_inv; [done|].
  by apply settle_Ok in H as (_ & ? & _).
Qed.

(** A rate within the bounds of its policy, whose steps are not negative. *)
Definition policy_ok (pc : PolicyConstraints) (rate : Dec) : Prop :=
  RateMin pc <= rate <= RateMax pc /\ 0 <= ChangeRateMax pc.

Definition treasury_inv (t : store) : Prop :=
  policy_ok (TaxPolicy (params t)) (GetTaxRate t) /\
  policy_ok (RewardPolicy (params t)) (GetRewardWeight t).

(** What a block may do to the two rates. *)
Definition rates_move (t t' : store) : Prop :=
  params t' = params t /\
  Z.abs (GetTaxRate t' - GetTaxRate t) <= ChangeRateMax (TaxPolicy (params t)) /\
  Z.abs (GetRewardWeight t' - GetRewardWeight t) <= ChangeRateMax (RewardPolicy (params t)).

(** A policy that the validation of parameters accepts. *)
Definition policy_valid (pc : PolicyConstraints) : Prop := RateMin pc <= RateMax pc /\ 0 <= ChangeRateMax pc.

Definition params_valid (p : Params) : Prop := policy_valid (TaxPolicy p) /\ policy_valid (RewardPolicy p).

(** How far a rate is from the bounds of its policy. *)
Definition off_policy (pc : PolicyConstraints) (rate : Dec) : Z :=
  Z.max 0 (Z.max (RateMin pc - rate) (rate - RateMax pc)).

(** A rate stays, or it is brought within the bounds of its policy, by no more
    than [ChangeRateMax] if it was within them. *)
Definition rate_step (pc pc' : PolicyConstraints) (rate rate' : Dec) : Prop :=
  rate' = rate \/
  (pc' = pc /\ RateMin pc <= rate' <= RateMax pc /\
   Z.abs (rate' - rate) <= Z.max (ChangeRateMax pc) (off_policy pc rate)).

Definition policy_step (t t' : store) : Prop :=
  rate_step (TaxPolicy (params t)) (TaxPolicy (params t')) (GetTaxRate t) (GetTaxRate t') /\
  rate_step (RewardPolicy (params t)) (RewardPolicy (params t')) (GetRewardWeight t) (GetRewardWeight t').

Lemma Clamp_rate_step pc prev new r :
  policy_valid pc -> Clamp pc prev new = Ok r -> rate_step pc pc prev r.
Proof.
  intros [Hle Hc] H. right. split; [done|]. split; [by eapply Clamp_range|]. unfold Clamp in H. go_inv.
  apply dec_sub_Ok in Hv as [-> _]. unfold off_policy.
  destruct (Z.ltb_spec prev new).
  - destruct (Z.ltb_spec (ChangeRateMax pc) (new - prev)); go_inv; [apply dec_add_Ok in Hv0 as [-> _]|];
      repeat (match goal with |- context [?a <? ?b] => destruct (Z.ltb_spec a b) end); lia.
  - destruct (Z.ltb_spec (ChangeRateMax pc) (Z.abs (new - prev))); go_inv; [apply dec_sub_Ok in Hv0 as [-> _]|];
      repeat (match goal with |- context [?a <? ?b] => destruct (Z.ltb_spec a b) end); lia.
Qed.

(** Within the bounds, a rate stays within them and moves by at most
    [ChangeRateMax], as long as the policy is the same. *)
Lemma rate_step_inside pc rate rate' :
  policy_ok pc rate -> rate_step pc pc rate rate' -> policy_ok pc rate' /\ Z.abs (rate' - rate) <= ChangeRateMax pc.
Proof. unfold policy_ok. intros [Hr Hc] [->|(_ & Hr' & Hm)]; [|unfold off_policy in Hm]; lia. Qed.

Lemma EndBlocker_step {KL : MarketKeeperLaws K MK} D ctx s s' :
  params_valid (params (tstore s)) -> EndBlocker D ctx s = (Ok tt, s') ->
  params (tstore s') = params (tstore s) /\ policy_step (tstore s) (tstore s').
Proof.
  intros [Ht Hr] H. unfold EndBlocker in H.
  destruct (BurnCoinsFromBurnAccount_run s) as (b & Hrun & _).
  rewrite (st_bind_step _ _ _ _ _ Hrun) in H. clear Hrun. go_inv.
  assert (Hrefl : policy_step (tstore s) (tstore s)) by (split; by left).
  destruct v; cbn [negb] in H; [|go_inv; by split].
  apply deferred_Ok in H as (s1 & H & Hrec). rewrite RecordEpochInitialIssuance_run in Hrec.
  injection Hrec as <-.
  apply end_epoch_Ok in H as (s2 & (tr & sr & ->)%UpdateIndicators_Ok & [->|H]); [by split|].
  destruct H as (s3 & rate & weight & m & new1 & new2 & Hs & Hc1 & Hc2 & ->).
  apply SettleSeigniorage_store in Hs. rewrite Hs in *. cbn in *.
  split; [done|]. split; by eapply Clamp_rate_step.
Qed.

(** The books of an epoch are closed and opened again: when the end
    blocker of the last block of a week succeeds, the recorded initial issuance
    of Luna and of every whitelisted currency is its current supply, so the
    seigniorage of the new epoch starts at zero; the tax proceeds are empty, and
    the total stake of the epoch is recorded. *)
Theorem epoch_closed {KL : MarketKeeperLaws K MK} D ctx s s' :
  IsPeriodLastBlock ctx BlocksPerWeek = Ok true -> EndBlocker D ctx s = (Ok tt, s') ->
  NoDup (MicroLunaDenom :: (DName <$> Whitelist s')) ->
  PeekEpochSeigniorage s' = Ok 0 /\
  (forall d, d ∈ MicroLunaDenom :: (DName <$> Whitelist s') ->
     coins_amount_of (GetEpochInitialIssuance (tstore s')) d = get_supply (bank s') d) /\
  PeekEpochTaxProceeds (tstore s') = [] /\
  GetTSL (tstore s') (GetEpoch ctx) = TotalBondedTokens (staking s).
Proof.
  intros Hl H Hnd. unfold EndBlocker in H.
  destruct (BurnCoinsFromBurnAccount_run s) as (b & Hrun & _).
  rewrite (st_bind_step _ _ _ _ _ Hrun) in H. clear Hrun. go_inv.
  assert (v = true) as -> by congruence. cbn [negb] in H.
  apply deferred_Ok in H as (s1 & H & Hrec). rewrite RecordEpochInitialIssuance_run in Hrec.
  injection Hrec as <-. cbn [with_store tstore bank Whitelist] in *.
  set (issued := supply_coin (bank s1) MicroLunaDenom ::
                 ((fun denom => supply_coin (bank s1) (DName denom)) <$> Whitelist s1)).
  assert (Hden : coin_denom <$> issued = MicroLunaDenom :: (DName <$> Whitelist s1)).
  { unfold issued. rewrite fmap_cons, <- list_fmap_compose. done. }
  assert (Hamt : forall d, d ∈ MicroLunaDenom :: (DName <$> Whitelist s1) ->
            coins_amount_of (coins_sort issued) d = get_supply (bank s1) d).
  { intros d Hd. rewrite coins_amount_of_sort by by rewrite Hden.
    apply amt_of_distinct; [by rewrite Hden|by rewrite Hden|].
    unfold issued. apply Forall_cons. split; [done|]. apply Forall_fmap, Forall_true. done. }
  split; [|split; [done|]].
  - unfold PeekEpochSeigniorage, GetEpochInitialIssuance. cbn. rewrite Hamt by left.
    rewrite int_sub_spec, Z.sub_diag. done.
  - apply end_epoch_Ok in H as (s2 & (tr & sr & ->)%UpdateIndicators_Ok & [->|H]).
    { cbn. unfold GetTSL. cbn. by rewrite lookup_insert_eq. }
    destruct H as (s3 & rate & weight & m & new1 & new2 & Hs & _ & _ & ->).
    apply SettleSeigniorage_store in Hs. cbn. rewrite Hs. unfold GetTSL. cbn.
    by rewrite lookup_insert_eq.
Qed.

(** ** Reachable states *)

Lemma init_epochs_run l s :
  iterM init_epoch l s = (Ok tt, with_store (foldl (fun t e =>
    SetTSL (to_int64 (Epoch e)) (TotalStakedLuna e) (SetSR (to_int64 (Epoch e)) (SeigniorageReward e)
      (SetTR (to_int64 (Epoch e)) (TaxReward e) t))) (tstore s) l) s).
Proof.
  rewrite (iterM_effect _ (fun s e => with_store (SetTSL (to_int64 (Epoch e)) (TotalStakedLuna e)
    (SetSR (to_int64 (Epoch e)) (SeigniorageReward e) (SetTR (to_int64 (Epoch e)) (TaxReward e)
      (tstore s)))) s)); [|done]. f_equal.
  by rewrite (foldl_component tstore with_store (fun t e => SetTSL (to_int64 (Epoch e)) (TotalStakedLuna e)
    (SetSR (to_int64 (Epoch e)) (SeigniorageReward e) (SetTR (to_int64 (Epoch e)) (TaxReward e) t))))
    by (by intros []).
Qed.

Lemma init_caps_run (l : list (string * Int)) s :
  iterM (fun cap => on_store (SetTaxCap cap.1 cap.2)) l s
    = (Ok tt, with_store (set_caps (foldl (fun m e => <[e.1 := e.2]> m) (TaxCaps (tstore s)) l) (tstore s)) s).
Proof.
  rewrite (iterM_effect _ (fun s e => with_store (SetTaxCap e.1 e.2 (tstore s)) s)); [|done]. f_equal.
  rewrite (foldl_component tstore with_store (fun t e => SetTaxCap e.1 e.2 t)) by (by intros []).
  unfold SetTaxCap. by rewrite (foldl_component TaxCaps set_caps (fun m e => <[e.1 := e.2]> m)) by (by intros []).
Qed.

(** The store after the import of a genesis. *)
Definition imported (data : GenesisState) (issuance : list Coin) (t : store) : store :=
  foldl (fun t e =>
    SetTSL (to_int64 (Epoch e)) (TotalStakedLuna e) (SetSR (to_int64 (Epoch e)) (SeigniorageReward e)
      (SetTR (to_int64 (Epoch e)) (TaxReward e) t)))
    (mkStore (Some (GTaxRate data)) (Some (GRewardWeight data))
       (foldl (fun m e => <[e.1 := e.2]> m) (TaxCaps t) (GTaxCaps data))
       (Some (GTaxProceeds data)) (Some issuance) (TRs t) (SRs t) (TSLs t) (GParams data))
    (GEpochStates data).

(** The issuance an import records. *)
Definition imported_issuance (data : GenesisState) (s : state K S B) : list Coin :=
  if coins_is_zero (GEpochInitialIssuance data)
  then coins_sort (supply_coin (bank s) MicroLunaDenom ::
         ((fun denom => supply_coin (bank s) (DName denom)) <$> Whitelist s))
  else GEpochInitialIssuance data.

Lemma on_store_run (f : store -> store) s : on_store f s = (Ok tt, with_store (f (tstore s)) s).
Proof. done. Qed.

Lemma InitGenesis_run data s :
  ParamSetPairs (GParams data) = Ok tt ->
  InitGenesis true true data s
    = (Ok tt, with_store (imported data (imported_issuance data s) (tstore s)) s).
Proof.
  intros Hp. unfold InitGenesis, imported_issuance.
  assert (H0 : SetParams (GParams data) s = (Ok tt, with_store (set_params (GParams data) (tstore s)) s)).
  { unfold SetParams. rewrite (st_bind_step (lift _) _ s s tt); [done|]. unfold lift. by rewrite Hp. }
  rewrite (st_bind_step _ _ _ _ _ H0). do 3 rewrite (st_bind_step _ _ _ _ _ (on_store_run _ _)).
  destruct (coins_is_zero (GEpochInitialIssuance data));
    rewrite (st_bind_step _ _ _ _ _ (on_store_run _ _)) ||
    rewrite (st_bind_step _ _ _ _ _ (RecordEpochInitialIssuance_run _));
    rewrite (st_bind_step _ _ _ _ _ (init_caps_run _ _)),
      (st_bind_step _ _ _ _ _ (init_epochs_run _ _)); done.
Qed.

Lemma InitGenesis_Ok b1 b2 data s s' :
  InitGenesis b1 b2 data s = (Ok tt, s') ->
  s' = with_store (imported data (imported_issuance data s) (tstore s)) s.
Proof.
  intros H. assert (Hp : ParamSetPairs (GParams data) = Ok tt).
  { unfold InitGenesis, SetParams in H. go_inv.
    by match goal with H : ParamSetPairs _ = Ok ?u |- _ => destruct u end. }
  pose proof (InitGenesis_run data s Hp) as Hrun. unfold InitGenesis in *.
  destruct b1, b2; [congruence|exfalso; go_inv; discriminate..].
Qed.

Lemma imported_policies data iss t :
  let t' := imported data iss t in
  params t' = GParams data /\ GetTaxRate t' = GTaxRate data /\ GetRewardWeight t' = GRewardWeight data.
Proof.
  unfold imported. set (t0 := mkStore _ _ _ _ _ _ _ _ _). 
  assert (H0 : params t0 = GParams data /\ GetTaxRate t0 = GTaxRate data /\
               GetRewardWeight t0 = GRewardWeight data) by done.
  clearbody t0. revert t0 H0. induction (GEpochStates data) as [|e l IH]; intros t0 H0; [done|].
  cbn. by apply IH.
Qed.

(** The transitions of the store: a block ends, taxes are recorded, governance
    changes parameters to ones that their validation accepts, or the rest of the
    state (market, staking, whitelist, pool, bank) changes. *)
Inductive treasury_step (D : string) : state K S B -> state K S B -> Prop :=
| step_block ctx s s' : EndBlocker D ctx s = (Ok tt, s') -> treasury_step D s s'
| step_tax delta s s' : RecordEpochTaxProceeds delta s = (Ok tt, s') -> treasury_step D s s'
| step_params p s s' : SetParams p s = (Ok tt, s') -> treasury_step D s s'
| step_env s s' : tstore s' = tstore s -> treasury_step D s s'.

Lemma ParamSetPairs_valid p : ParamSetPairs p = Ok tt -> params_valid p.
Proof.
  unfold ParamSetPairs, validateTaxPolicy, validateRewardPolicy. intros H. go_inv. unfold params_valid, policy_valid.
  repeat match goal with H : (_ <? _) = false |- _ => apply Z.ltb_ge in H end. lia.
Qed.

Lemma SetParams_Ok p s s' :
  SetParams p s = (Ok tt, s') -> ParamSetPairs p = Ok tt /\ tstore s' = set_params p (tstore s).
Proof. unfold SetParams. intros H. go_inv. apply on_store_Ok in H as ->. by destruct v. Qed.

Lemma treasury_step_policy {KL : MarketKeeperLaws K MK} D x y :
  params_valid (params (tstore x)) -> treasury_step D x y ->
  params_valid (params (tstore y)) /\ policy_step (tstore x) (tstore y).
Proof.
  intros Hx Hxy. assert (Hrefl : policy_step (tstore x) (tstore x)) by (split; by left).
  destruct Hxy as [ctx x y H|delta x y H|p x y H|x y ->]; [| | |done].
  - apply EndBlocker_step in H as [-> H]; [|done]. by split.
  - unfold RecordEpochTaxProceeds in H. destruct (coins_is_zero delta); go_inv; [done|].
    apply on_store_Ok in H as ->. done.
  - apply SetParams_Ok in H as [Hp ->]. split; [by apply ParamSetPairs_valid|]. split; by left.
Qed.

Lemma treasury_reach_valid {KL : MarketKeeperLaws K MK} D x y :
  params_valid (params (tstore x)) -> rtc (treasury_step D) x y -> params_valid (params (tstore y)).
Proof.
  intros Hx Hreach. induction Hreach as [|x y z Hxy _ IH]; [done|].
  apply IH. by apply (treasury_step_policy D x).
Qed.

(** A step that leaves the parameters alone keeps the rates within them. *)
Lemma policy_step_inside t t' :
  treasury_inv t -> params t' = params t -> policy_step t t' -> treasury_inv t' /\ rates_move t t'.
Proof.
  unfold treasury_inv, rates_move, policy_step. intros [Ht Hr] -> [H1 H2].
  destruct (rate_step_inside _ _ _ Ht H1), (rate_step_inside _ _ _ Hr H2). done.
Qed.

Lemma genesis_inv b1 b2 data s0 s1 :
  ValidateGenesis data = Ok tt -> InitGenesis b1 b2 data s0 = (Ok tt, s1) -> treasury_inv (tstore s1).
Proof.
  intros Hval Hinit. apply InitGenesis_Ok in Hinit as ->. cbn.
  destruct (imported_policies data (imported_issuance data s0) (tstore s0)) as (E1 & E2 & E3).
  unfold treasury_inv, policy_ok. rewrite E1, E2, E3.
  unfold ValidateGenesis, Validate in Hval. go_inv.
  repeat match goal with
  | H : _ || _ = false |- _ => apply orb_false_iff in H as [? ?]
  | H : (_ <? _) = false |- _ => apply Z.ltb_ge in H end. lia.
Qed.


End treasury_facts.

(** ** Observational equality of stores

    Two stores that answer every read in the same way: an indicator that was
    never written reads as zero, a rate that was never written as its
    default. *)

#[global] Instance store_equiv : Equiv store := fun t1 t2 =>
  params t1 = params t2 /\ GetTaxRate t1 = GetTaxRate t2 /\
  GetRewardWeight t1 = GetRewardWeight t2 /\
  (forall d, GetTaxCap t1 d = GetTaxCap t2 d) /\
  PeekEpochTaxProceeds t1 = PeekEpochTaxProceeds t2 /\
  GetEpochInitialIssuance t1 = GetEpochInitialIssuance t2 /\
  (forall e, GetTR t1 e = GetTR t2 e) /\ (forall e, GetSR t1 e = GetSR t2 e) /\
  (forall e, GetTSL t1 e = GetTSL t2 e).

#[global] Instance store_equivalence : Equivalence (≡@{store}).
Proof.
  split.
  - by repeat split.
  - intros x y (?&?&?&?&?&?&?&?&?). by repeat split.
  - intros x y z (?&?&?&?&?&?&?&?&?) (?&?&?&?&?&?&?&?&?).
    repeat split; intros; etransitivity; eauto.
Qed.

Section equiv_facts.
Context {M : SdkMath}.

#[global] Instance TRL_proper e : Proper ((≡) ==> eq) (TRL e).
Proof. intros t1 t2 (?&?&?&?&?&?&H1&?&H2). unfold TRL. by rewrite H1, H2. Qed.

#[global] Instance SR_proper e : Proper ((≡) ==> eq) (SR e).
Proof. intros t1 t2 (?&?&?&?&?&?&?&H1&?). unfold SR. by rewrite H1. Qed.

#[global] Instance MR_proper e : Proper ((≡) ==> eq) (MR e).
Proof. intros t1 t2 (?&?&?&?&?&?&H1&H2&?). unfold MR. by rewrite H1, H2. Qed.

Lemma indicator_loop_proper (ind : Z -> store -> res Dec) :
  (forall e, Proper ((≡) ==> eq) (ind e)) -> forall fuel t1 t2 limit i sum, t1 ≡ t2 ->
  indicator_loop fuel ind t1 limit i sum = indicator_loop fuel ind t2 limit i sum.
Proof.
  intros Hind fuel t1 t2. induction fuel as [|fuel IH]; intros limit i sum Ht; cbn; [done|].
  destruct (_ && _); [|done]. rewrite (Hind i _ _ Ht). destruct (ind i t2) as [v| |]; cbn; [|done..].
  destruct (dec_add sum v); cbn; [|done..]. by apply IH.
Qed.

(** The policy targets only depend on what the store answers. *)
#[global] Instance target_tax_rate_proper ctx : Proper ((≡) ==> eq) (target_tax_rate ctx).
Proof.
  intros t1 t2 Ht. pose proof Ht as (Hp&Hr&_). unfold target_tax_rate, rollingAverageIndicator.
  by rewrite Hp, Hr, !(indicator_loop_proper TRL TRL_proper _ _ _ _ _ _ Ht).
Qed.

#[global] Instance target_reward_weight_proper ctx : Proper ((≡) ==> eq) (target_reward_weight ctx).
Proof.
  intros t1 t2 Ht. pose proof Ht as (Hp&_&Hr&_). unfold target_reward_weight, sumIndicator.
  by rewrite Hp, Hr, (indicator_loop_proper SR SR_proper _ _ _ _ _ _ Ht),
    (indicator_loop_proper MR MR_proper _ _ _ _ _ _ Ht).
Qed.

End equiv_facts.

(** ** Genesis *)

Section genesis_facts.
Context {M : SdkMath} {ML : SdkMathLaws M} {C : SdkCoins} {CL : SdkCoinsLaws M C}.
Context {K : Type} {MK : MarketKeeper K} {S : Type} {SK : StakingKeeper S}.
Context {B : Type} {BK : BankKeeper B}.

(** The number of epochs an export lists. *)
Definition exported_epochs (ctx : Ctx) (last : bool) : Z :=
  GetEpoch ctx + if last then 1 else 0.

Lemma export_epochs_spec fuel t cur (last : bool) e :
  0 <= e -> cur + (if last then 1 else 0) - e <= Z.of_nat fuel ->
  export_epochs fuel t cur last e
    = (fun e => mkEpochState (to_uint64 e) (GetTR t e) (GetSR t e) (GetTSL t e))
      <$> seqZ e (cur + (if last then 1 else 0) - e).
Proof.
  revert e. induction fuel as [|fuel IH]; intros e He Hf; cbn [export_epochs].
  - rewrite seqZ_nil by lia. destruct (Z.ltb_spec e cur), (Z.eqb_spec e cur), last; cbn; (done || lia).
  - destruct (Z.ltb_spec e cur), (Z.eqb_spec e cur), last; cbn [orb andb]; try lia;
      try (by rewrite seqZ_nil by lia);
      rewrite IH by lia; rewrite (seqZ_cons e) by lia; rewrite fmap_cons;
      do 3 f_equal; lia.
Qed.

Lemma imported_epochs (t t0 : store) l n :
  Forall (fun e => 0 <= e < two63) l ->
  let t' := foldl (fun t e =>
    SetTSL (to_int64 (Epoch e)) (TotalStakedLuna e) (SetSR (to_int64 (Epoch e)) (SeigniorageReward e)
      (SetTR (to_int64 (Epoch e)) (TaxReward e) t))) t0
    ((fun e => mkEpochState (to_uint64 e) (GetTR t e) (GetSR t e) (GetTSL t e)) <$> l) in
  GetTR t' n = (if decide (n ∈ l) then GetTR t n else GetTR t0 n) /\
  GetSR t' n = (if decide (n ∈ l) then GetSR t n else GetSR t0 n) /\
  GetTSL t' n = (if decide (n ∈ l) then GetTSL t n else GetTSL t0 n) /\
  TaxRate t' = TaxRate t0 /\ RewardWeight t' = RewardWeight t0 /\ TaxCaps t' = TaxCaps t0 /\
  TaxProceeds t' = TaxProceeds t0 /\ EpochInitialIssuance t' = EpochInitialIssuance t0 /\
  params t' = params t0.
Proof.
  intros Hl. revert t0. induction Hl as [|e l He Hl IH]; intros t0.
  { rewrite !decide_False by apply not_elem_of_nil. done. }
  rewrite fmap_cons. cbn [foldl Epoch TotalStakedLuna SeigniorageReward TaxReward].
  assert (two64 = 2 * two63) by done.
  rewrite to_uint64_id by (unfold is_uint64; lia). rewrite to_int64_id by (unfold is_int64; lia).
  specialize (IH (SetTSL e (GetTSL t e) (SetSR e (GetSR t e) (SetTR e (GetTR t e) t0)))).
  cbn zeta in IH. destruct IH as (-> & -> & -> & -> & -> & -> & -> & -> & ->).
  repeat split; destruct (decide (n = e)) as [->|Hne];
    rewrite ?(decide_True (P := e ∈ e :: l)) by left;
    rewrite ?(decide_ext (n ∈ e :: l) (n ∈ l)) by set_solver;
    unfold GetTR, GetSR, GetTSL; cbn; rewrite ?lookup_insert_eq, ?lookup_insert_ne by done;
    cbn; by case_decide.
Qed.

(** The indicators of a store belong to finished epochs. *)
Definition epochs_recorded (t : store) (n : Z) : Prop :=
  forall e, ~ (0 <= e < n) -> GetTR t e = 0 /\ GetSR t e = 0 /\ GetTSL t e = 0.

Definition empty_store (p : Params) : store := mkStore None None ∅ None None ∅ ∅ ∅ p.

(** The genesis of the treasury round-trips: from a store with valid
    parameters, a recorded issuance and indicators of finished epochs only, the
    export succeeds, its import into an empty store succeeds, and the imported
    store answers every read as the exported one; so it has the same policy
    targets from then on. *)
Theorem treasury_genesis_roundtrip ctx (last : bool) (s s0 : state K S B) p0 :
  0 <= BlockHeight ctx < two63 -> IsPeriodLastBlock ctx BlocksPerWeek = Ok last ->
  tstore s0 = empty_store p0 -> ParamSetPairs (params (tstore s)) = Ok tt ->
  coins_is_zero (GetEpochInitialIssuance (tstore s)) = false ->
  epochs_recorded (tstore s) (exported_epochs ctx last) ->
  exists data s', ExportGenesis ctx s = Ok data /\ InitGenesis true true data s0 = (Ok tt, s') /\
    tstore s' ≡ tstore s /\
    forall ctx', target_tax_rate ctx' (tstore s') = target_tax_rate ctx' (tstore s) /\
                 target_reward_weight ctx' (tstore s') = target_reward_weight ctx' (tstore s).
Proof.
  intros Hh Hl Hs0 Hp Hz Hrec. unfold ExportGenesis. rewrite Hl. cbn [mbind res_bind].
  set (data := mkGenesis _ _ _ _ _ _ _).
  exists data. rewrite (InitGenesis_run (BK:=BK)) by done. eexists. split; [done|]. split; [done|].
  match goal with |- ?e /\ _ => assert (He : e); [|split; [done|]; intros ctx'; by rewrite He] end.
  cbn [with_store tstore]. unfold imported, imported_issuance. rewrite Hs0.
  set (t := tstore s) in *. cbn [GEpochInitialIssuance GEpochStates data]. rewrite Hz.
  pose proof (GetEpoch_range ctx Hh) as Hc.
  rewrite export_epochs_spec by (unfold loop_fuel; destruct last; lia).
  set (l := seqZ 0 _). set (t0 := mkStore _ _ _ _ _ _ _ _ _).
  assert (Hlr : Forall (fun e => 0 <= e < two63) l).
  { apply Forall_forall. intros e. unfold l. rewrite elem_of_seqZ. destruct last; lia. }
  destruct (imported_epochs t t0 l 0 Hlr) as (_ & _ & _ & H1 & H2 & H3 & H4 & H5 & H6).
  assert (Hread : forall e, e ∉ l -> GetTR t e = 0 /\ GetSR t e = 0 /\ GetTSL t e = 0).
  { intros e He. apply Hrec. unfold l in He. rewrite elem_of_seqZ in He. unfold exported_epochs. lia. }
  repeat split.
  - by rewrite H6.
  - unfold GetTaxRate. by rewrite H1.
  - unfold GetRewardWeight. by rewrite H2.
  - intros d. unfold GetTaxCap. rewrite H3, H6. cbn.
    by rewrite (foldl_insert_entries (TaxCaps t)) by apply iter_denoms_perm.
  - unfold PeekEpochTaxProceeds. by rewrite H4.
  - unfold GetEpochInitialIssuance. by rewrite H5.
  - intros e. destruct (imported_epochs t t0 l e Hlr) as (-> & _). case_decide as Hd; [done|].
    by apply Hread in Hd as (-> & _).
  - intros e. destruct (imported_epochs t t0 l e Hlr) as (_ & -> & _). case_decide as Hd; [done|].
    by apply Hread in Hd as (_ & -> & _).
  - intros e. destruct (imported_epochs t t0 l e Hlr) as (_ & _ & -> & _). case_decide as Hd; [done|].
    by apply Hread in Hd as (_ & _ & ->).
Qed.

End genesis_facts.

(** ** A concrete treasury *)

Module TreasuryExample.

(** A market that knows two currencies, each worth twice any other. *)
Instance double_market : MarketKeeper unit := {|
  compute_internal_swap _ c d :=
    if String.eqb d "usdr" || String.eqb d "uusd"
    then Ok (mkDecCoin d (2 * dcoin_amount c)) else Err (Errorf "no price");
|}.

Instance double_market_laws : MarketKeeperLaws unit double_market.
Proof.
  split; cbn; intros k c d q; destruct (_ || _); try done; intros [= <-]; cbn; [done|lia].
Qed.

#[local] Existing Instance StoreExample.one_validator.

(** The last block of the thirteenth week. *)
Definition ctx : Ctx := mkCtx "columbus-5" 1310399.

(** 1000 uluna were issued at the start of the epoch and 900 are left; the burn
    account holds 7 uusd and 50 uusd of taxes were collected. *)
Definition bank0 : RefBank := mkRefBank
  (<[("alice", "uluna") := 900%N]> (<[("module/burn", "uusd") := 7%N]> ∅))
  (<["uluna" := 900]> (<["uusd" := 7]> ∅)).

Definition store0 : store := mkStore (Some DefaultTaxRate) None ∅ (Some [mkCoin "uusd" 50])
  (Some [mkCoin "uluna" 1000; mkCoin "uusd" 7]) (<[11 := NewDec 3]> ∅) ∅ (<[11 := 10]> ∅) DefaultParams.

Definition s0 : state unit unit RefBank :=
  mkState store0 tt tt [mkDenom "uusd" 0; mkDenom "ukrw" 0] [] bank0.

Definition run_end (c : Ctx) (s : state unit unit RefBank) :=
  @EndBlocker ref_math ref_coins unit double_market unit StoreExample.one_validator RefBank ref_bank
    "distribution" c s.

Lemma clamp_projects_witness : exists r,
  @Clamp ref_math DefaultTaxPolicy DefaultTaxRate (NewDecWithPrec 9 3) = Ok r /\
  RateMin DefaultTaxPolicy <= r <= RateMax DefaultTaxPolicy.
Proof.
  destruct (clamp_projects (ML:=ref_math_laws) DefaultTaxPolicy DefaultTaxRate (NewDecWithPrec 9 3))
    as (r & H1 & H2 & _).
  - vm_compute. split; congruence.
  - vm_compute. congruence.
  - vm_compute. reflexivity.
  - vm_compute. reflexivity.
  - exists r. split; [exact H1|exact H2].
Defined.

Lemma window_indicators_witness :
  @sumIndicator ref_math ctx (SetSR 12 5 (SetSR 9 7 store0)) 3 SR = Ok 5.
Proof.
  destruct (window_indicators (ML:=ref_math_laws) SR (SetSR 12 5 (SetSR 9 7 store0))
    (fun e => GetSR (SetSR 12 5 (SetSR 9 7 store0)) e) ctx 3) as [H _].
  - done.
  - intros e. unfold GetSR. cbn [SRs SetSR set_srs store0].
    destruct (decide (e = 12)) as [->|]; [by rewrite lookup_insert_eq|].
    rewrite lookup_insert_ne by done.
    destruct (decide (e = 9)) as [->|]; [by rewrite lookup_insert_eq|].
    by rewrite lookup_insert_ne, lookup_empty by done.
  - vm_compute. split; [congruence|reflexivity].
  - vm_compute. split; [congruence|reflexivity].
  - vm_compute. reflexivity.
  - exact H.
Defined.

Lemma treasury_keys_injective_witness : item_key (ItemTR (-1)) = item_key (ItemTR (-1)) /\
  ItemTR (-1) = ItemTR (-1).
Proof.
  split; [reflexivity|]. apply treasury_keys_injective; [vm_compute; split; [congruence|reflexivity]..|reflexivity].
Defined.

Lemma settle_run :
  @SettleSeigniorage ref_math ref_coins unit unit RefBank ref_bank "distribution" s0
    = (Ok tt, (@SettleSeigniorage ref_math ref_coins unit unit RefBank ref_bank "distribution" s0).2).
Proof. vm_compute. reflexivity. Qed.

Lemma seigniorage_settled_witness :
  let s' := (@SettleSeigniorage ref_math ref_coins unit unit RefBank ref_bank "distribution" s0).2 in
  get_supply (bank s') MicroLunaDenom = 995 /\ get_balance (bank s') "module/distribution" "uluna" = 95.
Proof.
  destruct (seigniorage_settled (ML:=ref_math_laws) (CL:=ref_coins_laws) (BL:=ref_bank_laws)
    "distribution" s0 _ 100 eq_refl ltac:(lia) settle_run) as (_ & _ & _ & Hb & _ & Hs & _).
  cbn zeta. split; [rewrite Hs|rewrite Hb]; vm_compute; reflexivity.
Defined.

(** A reward weight of 200 percent, within a policy that allows it. *)
Definition heavy : state unit unit RefBank :=
  mkState (SetRewardWeight (NewDec 2) store0) tt tt [] [] bank0.

Lemma overweight_settlement_panics_witness :
  let p := mkParams DefaultTaxPolicy (mkPolicy 0 (NewDec 2) (mkCoin "unused" 0) 0) 0 0 4 52 12 in
  @Validate ref_coins p = Ok tt /\ @ParamSetPairs ref_coins p = Ok tt /\
  (@SettleSeigniorage ref_math ref_coins unit unit RefBank ref_bank "distribution" heavy).1 = Panic.
Proof.
  split; [vm_compute; reflexivity|]. split; [vm_compute; reflexivity|].
  apply (overweight_settlement_panics (ML:=ref_math_laws) (CL:=ref_coins_laws) (BL:=ref_bank_laws)
    "distribution" heavy 100); vm_compute; reflexivity.
Defined.

Definition caps_run := @UpdateTaxCap ref_coins unit double_market unit RefBank s0.

Lemma caps_run_eq : caps_run = (Ok [mkCoin "uusd" 2000000], caps_run.2).
Proof. vm_compute. reflexivity. Qed.

Lemma tax_caps_updated_witness :
  GetTaxCap (tstore caps_run.2) "uusd" = 2000000 /\
  GetTaxCap (tstore caps_run.2) "ukrw" = GetTaxCap store0 "ukrw".
Proof.
  destruct (tax_caps_updated (ML:=ref_math_laws) (CL:=ref_coins_laws) (KL:=double_market_laws)
    _ _ _ caps_run_eq) as (H1 & H2 & _).
  split.
  - specialize (H1 "uusd" (mkDecCoin "uusd" (NewDec 2000000))). cbn zeta in H1. rewrite H1.
    + vm_compute. reflexivity.
    + left.
    + vm_compute. congruence.
    + vm_compute. congruence.
    + vm_compute. reflexivity.
  - apply H2. right. right. intros q. discriminate.
Defined.

Lemma burn_account_emptied_witness : exists b,
  run_end (mkCtx "columbus-5" 5) s0 = (Ok tt, with_bank b s0) /\ get_supply b "uusd" = 0.
Proof.
  destruct (burn_account_emptied (M:=ref_math) (MK:=double_market) (CL:=ref_coins_laws)
    (BL:=ref_bank_laws) "distribution" (mkCtx "columbus-5" 5) s0 eq_refl) as (b & H & _ & _ & Hs).
  exists b. split; [exact H|]. rewrite Hs. vm_compute. reflexivity.
Defined.

Lemma end_run : run_end ctx s0 = (Ok tt, (run_end ctx s0).2).
Proof. vm_compute. reflexivity. Qed.

Lemma last_block : IsPeriodLastBlock ctx BlocksPerWeek = Ok true.
Proof. vm_compute. reflexivity. Qed.

Lemma end_whitelist : Whitelist (run_end ctx s0).2 = [mkDenom "uusd" 0; mkDenom "ukrw" 0].
Proof. vm_compute. reflexivity. Qed.

Lemma epoch_closed_witness :
  @PeekEpochSeigniorage ref_math ref_coins unit unit RefBank ref_bank (run_end ctx s0).2 = Ok 0.
Proof.
  destruct (epoch_closed (M:=ref_math) (ML:=ref_math_laws) (C:=ref_coins) (CL:=ref_coins_laws)
    (MK:=double_market) (KL:=double_market_laws) (SK:=StoreExample.one_validator) (BK:=ref_bank)
    (BL:=ref_bank_laws) "distribution" ctx s0 (run_end ctx s0).2 last_block end_run) as [H _].
  - rewrite end_whitelist. apply (bool_decide_unpack _). vm_compute. exact I.
  - exact H.
Defined.

Definition genesis0 : GenesisState :=
  mkGenesis DefaultParams DefaultTaxRate DefaultRewardWeight [] [] [mkCoin "uluna" 1000] [].

Definition init0 := @InitGenesis ref_coins unit unit RefBank ref_bank true true genesis0 s0.

Lemma init0_run : init0 = (Ok tt, init0.2).
Proof. vm_compute. reflexivity. Qed.

Lemma end_run1 : run_end ctx init0.2 = (Ok tt, (run_end ctx init0.2).2).
Proof. vm_compute. reflexivity. Qed.

(** Governance lowers the maximal tax rate below the current one; the end of the
    epoch brings the rate back within the new policy. *)
Definition low_policy : PolicyConstraints := mkPolicy 0 (NewDecWithPrec 5 4) (mkCoin "uusd" 1000000) 0.

Definition governed := @SetParams ref_coins unit unit RefBank
  (mkParams low_policy DefaultRewardPolicy DefaultSeigniorageBurdenTarget DefaultMiningIncrement 4 52 0) init0.2.

Lemma governed_run : governed = (Ok tt, governed.2).
Proof. vm_compute. reflexivity. Qed.

Lemma end_run2 : run_end ctx governed.2 = (Ok tt, (run_end ctx governed.2).2).
Proof. vm_compute. reflexivity. Qed.


Lemma treasury_genesis_roundtrip_witness : exists data s',
  @ExportGenesis unit unit RefBank ctx s0 = Ok data /\
  @InitGenesis ref_coins unit unit RefBank ref_bank true true data
    (mkState (empty_store DefaultParams) tt tt [] [] bank0) = (Ok tt, s') /\ tstore s' ≡ store0.
Proof.
  destruct (treasury_genesis_roundtrip (M:=ref_math) (C:=ref_coins) (BK:=ref_bank) ctx true s0
    (mkState (empty_store DefaultParams) tt tt [] [] bank0) DefaultParams) as (data & s' & H1 & H2 & H3 & _).
  - vm_compute. split; [congruence|reflexivity].
  - vm_compute. reflexivity.
  - reflexivity.
  - vm_compute. reflexivity.
  - vm_compute. reflexivity.
  - intros e He. unfold GetTR, GetSR, GetTSL. cbn [TRs SRs TSLs tstore s0 store0].
    rewrite !lookup_insert_ne, !lookup_empty; [done|..]; intros <-; apply He; vm_compute; split; congruence.
  - exists data, s'. split; [exact H1|]. split; [exact H2|exact H3].
Defined.

End TreasuryExample.
