(* ===== verification/App.v ===== *)
(** * The application ([src/app/app.go]): wiring of the keepers and the fork

    [NewTerraApp] hands the oracle keeper to the market and the market keeper
    to the treasury.  Here the oracle store is shown to be what the market
    expects ([Market.OracleKeeper]) and the market state what the treasury
    expects ([Treasury.MarketKeeper]), so the theorems of those modules hold of
    the composed system; and [BeginBlocker], which disables swaps and closes
    three IBC channels at the fork height. *)

From Stdlib Require Import ZArith Lia Bool.
From stdpp Require Import base strings list gmap.
From S2P Require Import Prelude Loops Sdk SdkRef Core OracleBallot OracleStore Market Treasury.
Local Open Scope Z_scope.

(** ** The oracle, as the market sees it *)

#[global] Instance oracle_keeper : Market.OracleKeeper OracleStore.store := {|
  Market.GetLunaExchangeRate := OracleStore.GetLunaExchangeRate;
  Market.GetTobinTax := OracleStore.GetTobinTax;
  Market.rates_inv o := map_Forall (fun _ r => 0 < r) (ExchangeRates o);
|}.

#[global] Instance oracle_keeper_laws : Market.OracleKeeperLaws OracleStore.store oracle_keeper.
Proof.
  split; cbn; unfold OracleStore.GetLunaExchangeRate.
  - intros o d r Hpos. destruct (String.eqb d MicroLunaDenom); [by intros [= <-]|].
    destruct (ExchangeRates o !! d) as [x|] eqn:E; [|done]. intros [= <-]. by apply (Hpos d).
  - intros o d. destruct (String.eqb d MicroLunaDenom); [done|]. by destruct (ExchangeRates o !! d).
  - done.
Qed.

(** ** The market, as the treasury sees it *)

#[global] Instance market_keeper {M : SdkMath} {C : SdkCoins} {O} {OK : Market.OracleKeeper O} {B}
    : Treasury.MarketKeeper (Market.state O B) := {|
  Treasury.compute_internal_swap := Market.ComputeInternalSwap;
|}.

#[global] Instance market_keeper_laws {M : SdkMath} {ML : SdkMathLaws M} {C : SdkCoins}
    {CL : SdkCoinsLaws M C} {O} {OK : Market.OracleKeeper O} {B}
    : Treasury.MarketKeeperLaws (Market.state O B) market_keeper.
Proof.
  split; cbn; intros k c d q.
  - apply ComputeInternalSwap_denom.
  - apply ComputeInternalSwap_nonneg.
Qed.

(** ** The fork *)

(** The part of the IBC channel keeper the fork uses; [close_state] is the
    assignment [channel.State = CLOSED]. *)
Class ChannelKeeper (I Ch : Type) : Type := {
  PortID : string;
  GetChannel : I -> string -> string -> option Ch;
  SetChannel : I -> string -> string -> Ch -> I;
  close_state : Ch -> Ch;
  is_closed : Ch -> bool;
}.

(** The store returns what was last written. *)
Class ChannelKeeperLaws (I Ch : Type) (CK : ChannelKeeper I Ch) : Prop := {
  get_set_channel i p c ch : GetChannel (SetChannel i p c ch) p c = Some ch;
  get_set_channel_ne i p c p' c' ch :
    (p, c) <> (p', c') -> GetChannel (SetChannel i p c ch) p' c' = GetChannel i p' c';
  close_is_closed ch : is_closed (close_state ch) = true;
}.

Section begin_blocker.
Context {M : SdkMath} {C : SdkCoins} {A : Bech32}.
Context {O : Type} {OK : Market.OracleKeeper O} {B : Type} {BK : BankKeeper B}.
Context {I Ch : Type} {CK : ChannelKeeper I Ch}.

(** The application's state, as far as the fork reaches it. *)
Abbreviation app_state := (Market.state O B * I)%type.

Definition close_channel (channelID : string) : st app_state unit := fun s =>
  match GetChannel s.2 PortID channelID with
  | None => (Panic, s)
  | Some channel =>
      (Ok tt, (s.1, SetChannel s.2 PortID channelID (close_state channel)))
  end.

Definition disable_swap : st app_state unit := fun s =>
  let p := Market.params s.1 in
  let '(r, m) := Market.SetParams
    (Market.mkParams (BasePool p) (PoolRecoveryPeriod p) OneDec) s.1 in
  (r, (m, s.2)).

Definition channelIDs : list string := ["channel-1"; "channel-49"; "channel-20"].

(** [BeginBlocker]; [mm_begin_block] is the module manager's. *)
Definition BeginBlocker (mm_begin_block : Ctx -> st app_state unit) (ctx : Ctx) : st app_state unit :=
  (if String.eqb (ChainID ctx) ColumbusChainID && (BlockHeight ctx =? SwapDisableForkHeight) then
     disable_swap;; iterM close_channel channelIDs
   else mret tt);;
  mm_begin_block ctx.

End begin_blocker.

(** ** Theorems *)

Section app_facts.
Context {M : SdkMath} {ML : SdkMathLaws M} {C : SdkCoins} {CL : SdkCoinsLaws M C} {A : Bech32}.
Context {O : Type} {OK : Market.OracleKeeper O} {B : Type} {BK : BankKeeper B} {BL : BankLaws B BK}.
Context {I Ch : Type} {CK : ChannelKeeper I Ch} {IL : ChannelKeeperLaws I Ch CK}.

Lemma disable_swap_Ok (u : unit) (s s' : Market.state O B * I) :
  disable_swap s = (Ok u, s') ->
  s'.2 = s.2 /\ MinStabilitySpread (Market.params s'.1) = OneDec.
Proof.
  unfold disable_swap, Market.SetParams. intros H.
  match type of H with (let '(_, _) := ?e in _) = _ => destruct e as [r m] eqn:E end.
  injection H as -> <-. by go_inv.
Qed.

Lemma close_channels_market l (u : unit) (s s' : Market.state O B * I) :
  iterM close_channel l s = (Ok u, s') -> s'.1 = s.1.
Proof.
  unfold iterM. revert u s. generalize tt at 1. induction l as [|c l IH]; intros x u s H; cbn in H.
  - by go_inv.
  - go_inv. apply IH in H. rewrite H. unfold close_channel in Hv.
    destruct (GetChannel s.2 PortID c); by simplify_eq/=.
Qed.

(** A swap that involves Luna never succeeds under a minimum spread of one
    once a zero swap is an error. *)
Lemma full_spread_blocks_luna ctx trader receiver offer ask (m m' : Market.state O B) sc fc :
  zero_swap_fork ctx = true -> MinStabilitySpread (Market.params m) = OneDec ->
  is_luna (coin_denom offer) || is_luna ask = true ->
  handleSwapRequest ctx trader receiver offer ask m <> (Ok (sc, fc), m').
Proof.
  intros Hz Hm Hl (r & sp & f & s1 & Hc & Hf & Hrf & _ & -> & _ & _ & _ & Hpos & _)%handleSwapRequest_Ok.
  specialize (Hpos Hz). cbn in Hpos.
  pose proof (swap_fee_Ok _ _ _ Hf) as (_ & Hf0 & _ & Hfee).
  apply ComputeSwap_Ok in Hc as (_ & _ & _ & _ & base & _ & _ & Hsp).
  rewrite <- negb_orb, Hl in Hsp. cbn in Hsp. apply constant_product_spread_min in Hsp.
  rewrite Hm in Hsp. pose proof precision_pos as Hp.
  pose proof (swap_fee_at_least _ _ _ _ Hf ltac:(lia) Hsp) as Hge. unfold OneDec in Hge.
  assert (dcoin_amount r <= dcoin_amount f) by nia.
  pose proof (quot_precision_bounds _ Hrf). nia.
Qed.

(** The fork disables swaps with Luna: once [BeginBlocker] has run at the
    fork height of Columbus, and while the market parameters stay as it leaves
    them, no swap of Luna, in either direction, from anyone, of any amount and
    at any oracle price, succeeds at the fork height or later. *)
Theorem fork_disables_luna_swaps mm ctx (s s' : Market.state O B * I) :
  ChainID ctx = ColumbusChainID -> BlockHeight ctx = SwapDisableForkHeight ->
  (forall s1 s2, mm ctx s1 = (Ok tt, s2) -> Market.params s2.1 = Market.params s1.1) ->
  BeginBlocker mm ctx s = (Ok tt, s') ->
  forall ctx' trader receiver offer ask (m m' : Market.state O B) sc fc,
    ChainID ctx' = ColumbusChainID -> SwapDisableForkHeight <= BlockHeight ctx' ->
    Market.params m = Market.params s'.1 ->
    is_luna (coin_denom offer) || is_luna ask = true ->
    handleSwapRequest ctx' trader receiver offer ask m <> (Ok (sc, fc), m').
Proof.
  intros Hc Hh Hmm H ctx' trader receiver offer ask m m' sc fc Hc' Hh' Hm Hl.
  apply full_spread_blocks_luna; [|rewrite Hm|done].
  - unfold zero_swap_fork. rewrite Hc'. cbn. by apply Z.leb_le.
  - unfold BeginBlocker in H. rewrite Hc, Hh in H. cbn [String.eqb] in H.
    rewrite String.eqb_refl, Z.eqb_refl in H. cbn [andb] in H. go_inv.
    rewrite (Hmm _ _ H).
    select (iterM close_channel _ _ = _) (fun H => apply close_channels_market in H as ->).
    by select (disable_swap _ = _) (fun H => apply disable_swap_Ok in H as [_ ->]).
Qed.

(** The minimum spread does not reach swaps between two Terra currencies:
    their computation is the same under all parameters of the market, so they
    go on at the Tobin tax after the fork. *)
Theorem fork_keeps_terra_swaps (m : Market.state O B) p offer ask :
  is_luna (coin_denom offer) = false -> is_luna ask = false ->
  ComputeSwap (Market.mkState (TerraPoolDelta m) p (oracle m) (Market.bank m)) offer ask
    = ComputeSwap m offer ask.
Proof. intros H1 H2. unfold ComputeSwap. by rewrite H1, H2. Qed.

End app_facts.

Section fork_facts.
Context {O B I Ch : Type} {CK : ChannelKeeper I Ch} {IL : ChannelKeeperLaws I Ch CK}.

Lemma close_channels_run l (s : Market.state O B * I) :
  NoDup l -> (forall c, c ∈ l -> exists ch, GetChannel s.2 PortID c = Some ch) ->
  exists i, iterM close_channel l s = (Ok tt, (s.1, i)) /\
    (forall c, c ∈ l -> exists ch, GetChannel i PortID c = Some ch /\ is_closed ch = true) /\
    (forall p c, p <> PortID \/ c ∉ l -> GetChannel i p c = GetChannel s.2 p c).
Proof.
  unfold iterM. intros Hnd. revert s. generalize tt at 1.
  induction Hnd as [|c l Hc Hnd IH]; intros u s Hall.
  - exists s.2. destruct u, s. split; [done|]. split; [|done]. intros c Hc. by apply not_elem_of_nil in Hc.
  - destruct (Hall c ltac:(left)) as [ch Hch].
    set (i1 := SetChannel s.2 PortID c (close_state ch)).
    assert (Hother : forall p c', p <> PortID \/ c' <> c -> GetChannel i1 p c' = GetChannel s.2 p c').
    { intros p c' Hne. apply get_set_channel_ne. intros [= <- <-]. destruct Hne; done. }
    destruct (IH tt (s.1, i1)) as (i & Hrun & Hcl & Hrest).
    { intros c' Hc'. cbn. rewrite Hother by (right; set_solver). apply Hall. by right. }
    exists i. split; [|split].
    + cbn [foldM]. erewrite st_bind_step; [exact Hrun|]. unfold close_channel. by rewrite Hch.
    + intros c' [->|Hc']%elem_of_cons; [|by apply Hcl].
      exists (close_state ch). rewrite Hrest by (by right). split; [apply get_set_channel|apply close_is_closed].
    + intros p c' Hne. rewrite Hrest by set_solver. cbn. apply Hother. set_solver.
Qed.

(** The fork cannot stop the chain by itself: with valid market parameters
    and the three channels present, the fork code succeeds, closes exactly the
    three channels, and changes the minimum spread and nothing else of the
    market. *)
Theorem fork_closes_channels ctx (s : Market.state O B * I) :
  ChainID ctx = ColumbusChainID -> BlockHeight ctx = SwapDisableForkHeight ->
  Market.ParamSetPairs (Market.params s.1) = Ok tt ->
  (forall c, c ∈ channelIDs -> exists ch, GetChannel s.2 PortID c = Some ch) ->
  exists i, let p := Market.params s.1 in
    BeginBlocker (fun _ => mret tt) ctx s
      = (Ok tt, (Market.mkState (TerraPoolDelta s.1)
                   (Market.mkParams (BasePool p) (PoolRecoveryPeriod p) OneDec)
                   (oracle s.1) (Market.bank s.1), i)) /\
    (forall c, c ∈ channelIDs -> exists ch, GetChannel i PortID c = Some ch /\ is_closed ch = true) /\
    (forall port c, port <> PortID \/ c ∉ channelIDs -> GetChannel i port c = GetChannel s.2 port c).
Proof.
  intros Hc Hh Hp Hch. set (p := Market.params s.1) in *.
  set (m := Market.mkState (TerraPoolDelta s.1)
              (Market.mkParams (BasePool p) (PoolRecoveryPeriod p) OneDec) (oracle s.1) (Market.bank s.1)).
  assert (Hd : disable_swap s = (Ok tt, (m, s.2))).
  { unfold disable_swap, Market.SetParams. fold p.
    rewrite (st_bind_step (lift _) _ s.1 s.1 tt); [done|]. unfold lift.
    unfold Market.ParamSetPairs in *. go_inv. cbn. by rewrite Hv, Hv0. }
  destruct (close_channels_run channelIDs (m, s.2)) as (i & Hrun & Hcl & Hrest).
  { apply (bool_decide_unpack _). vm_compute. exact Logic.I. }
  { exact Hch. }
  exists i. split; [|by split].
  unfold BeginBlocker. rewrite Hc, Hh, String.eqb_refl, Z.eqb_refl. cbn [andb].
  erewrite st_bind_step; [reflexivity|]. rewrite (st_bind_step _ _ _ _ _ Hd). exact Hrun.
Qed.

End fork_facts.

(** ** The treasury on the market on the oracle *)

Section composed.
Context {M : SdkMath} {ML : SdkMathLaws M} {C : SdkCoins} {CL : SdkCoinsLaws M C}.
Context {S : Type} {SK : StakingKeeper S} {B : Type} {BK : BankKeeper B} {BL : BankLaws B BK}.

(** In the composed application the tax caps track the oracle: after the
    update, the cap of a whitelisted currency with a price is the cap of the
    policy converted at the two stored exchange rates and rounded down, up to
    the rounding of one conversion (in units of [10^-18]). *)
Theorem tax_caps_at_oracle_prices caps
    (s s' : Treasury.state (Market.state OracleStore.store B) S B) d rp rd q :
  let o := oracle (market s) in
  let cap := Cap (TaxPolicy (Treasury.params (tstore s))) in
  let base := mkDecCoin (coin_denom cap) (NewDec (coin_amount cap)) in
  Market.rates_inv o ->
  UpdateTaxCap s = (Ok caps, s') ->
  d ∈ DName <$> Treasury.Whitelist s -> d <> coin_denom cap -> d <> MicroLunaDenom ->
  OracleStore.GetLunaExchangeRate o (coin_denom cap) = Ok rp ->
  OracleStore.GetLunaExchangeRate o d = Ok rd ->
  ComputeInternalSwap (market s) base d = Ok q ->
  GetTaxCap (tstore s') d = Z.quot (dcoin_amount q) precision /\
  2 * Z.abs (dcoin_amount q * rp - NewDec (coin_amount cap) * rd) <= 2 * rp + precision.
Proof.
  intros o cap base Hinv H Hd Hne Hl Hrp Hrd Hq.
  apply UpdateTaxCap_Ok in H as (m & -> & Hm). split.
  - unfold GetTaxCap, is_luna. cbn in *. rewrite (proj2 (String.eqb_neq _ _) Hl), Hm, decide_True by done.
    unfold new_cap. cbn. fold cap base. by rewrite (proj2 (String.eqb_neq _ _) Hne), Hq.
  - by apply (internal_swap_close (market s) base d q).
Qed.

End composed.

(** ** A concrete application *)

Module AppExample.

(** Channels as flags: is the channel closed? *)
Instance flag_channels : ChannelKeeper (gmap (string * string) bool) bool := {|
  PortID := "transfer";
  GetChannel i p c := i !! (p, c);
  SetChannel i p c ch := <[(p, c) := ch]> i;
  close_state _ := true;
  is_closed ch := ch;
|}.

Instance flag_channels_laws : ChannelKeeperLaws (gmap (string * string) bool) bool flag_channels.
Proof.
  split; cbn.
  - intros i p c ch. apply lookup_insert_eq.
  - intros i p c p' c' ch Hne. by apply lookup_insert_ne.
  - done.
Qed.

Definition channels0 : gmap (string * string) bool :=
  <[("transfer", "channel-1") := false]> (<[("transfer", "channel-49") := false]>
    (<[("transfer", "channel-20") := false]> (<[("transfer", "channel-7") := false]> ∅))).

Definition app0 := (Market.Example.s0, channels0).

(** No module has work at the beginning of the block. *)
Definition no_modules (_ : Ctx)
    : st (Market.state Market.Example.PriceTable RefBank * gmap (string * string) bool) unit := mret tt.

Definition fork_run :=
  @BeginBlocker Market.Example.PriceTable RefBank (gmap (string * string) bool) bool flag_channels
    no_modules Market.Example.ctx app0.

Lemma fork_run_ok : fork_run.1 = Ok tt.
Proof. vm_compute. reflexivity. Qed.

Lemma fork_run_eq : fork_run = (Ok tt, fork_run.2).
Proof. rewrite <- fork_run_ok. apply surjective_pairing. Qed.

(** After the fork the swap of [Market.Example.luna_run] fails. *)
Lemma fork_disables_luna_swaps_witness : ~ exists sc fc m',
  @handleSwapRequest ref_math ref_coins _ Market.Example.price_table RefBank ref_bank
    Market.Example.ctx "trader" "friend" Market.Example.luna_offer "uusd" fork_run.2.1
  = (Ok (sc, fc), m').
Proof.
  intros (sc & fc & m' & H). revert H.
  apply (fork_disables_luna_swaps (M:=ref_math) (ML:=ref_math_laws) (C:=ref_coins) (CL:=ref_coins_laws)
    (OK:=Market.Example.price_table) (BK:=ref_bank) (BL:=ref_bank_laws) (CK:=flag_channels)
    no_modules Market.Example.ctx app0 fork_run.2).
  - reflexivity.
  - reflexivity.
  - intros s1 s2 H. unfold no_modules in H. by go_inv.
  - exact fork_run_eq.
  - reflexivity.
  - vm_compute. congruence.
  - reflexivity.
  - reflexivity.
Defined.

Lemma fork_keeps_terra_swaps_witness :
  @ComputeSwap ref_math ref_coins _ Market.Example.price_table RefBank
    (Market.mkState (TerraPoolDelta Market.Example.s0) (Market.mkParams 0 1 OneDec)
       (oracle Market.Example.s0) (Market.bank Market.Example.s0)) Market.Example.usd_offer "usdr"
  = @ComputeSwap ref_math ref_coins _ Market.Example.price_table RefBank
      Market.Example.s0 Market.Example.usd_offer "usdr".
Proof. apply fork_keeps_terra_swaps; reflexivity. Defined.

Lemma fork_closes_channels_witness : exists i,
  fork_run.2.2 = i /\ GetChannel i "transfer" "channel-7" = Some false /\
  exists ch, GetChannel i "transfer" "channel-49" = Some ch /\ is_closed ch = true.
Proof.
  destruct (fork_closes_channels (CK:=flag_channels) Market.Example.ctx app0) as (i & Hrun & Hcl & Hrest).
  - reflexivity.
  - reflexivity.
  - vm_compute. reflexivity.
  - intros c Hc. exists false. apply list_elem_of_In in Hc. cbn in Hc.
    destruct Hc as [<-|[<-|[<-|[]]]]; vm_compute; reflexivity.
  - exists i. split; [|split].
    + change fork_run with
        (BeginBlocker (O:=Market.Example.PriceTable) (B:=RefBank) (CK:=flag_channels)
           (fun _ => mret tt) Market.Example.ctx app0).
      rewrite Hrun. reflexivity.
    + rewrite Hrest; [reflexivity|]. right. apply (bool_decide_unpack _). vm_compute. exact I.
    + apply (Hcl "channel-49"). right. left.
Defined.

#[local] Existing Instance StoreExample.one_validator.

(** One Luna costs 2 SDR and 6 USD. *)
Definition oracle0 : OracleStore.store :=
  OracleStore.mkStore (<["usdr" := NewDec 2]> (<["uusd" := NewDec 6]> ∅)) ∅ ∅ ∅ ∅ ∅ OracleStore.DefaultParams.

Definition treasury0 : Treasury.state (Market.state OracleStore.store RefBank) unit RefBank :=
  Treasury.mkState (Treasury.empty_store Treasury.DefaultParams)
    (Market.mkState None Market.DefaultParams oracle0 (mkRefBank ∅ ∅)) tt [mkDenom "uusd" 0] []
    (mkRefBank ∅ ∅).

Definition caps_run :=
  @UpdateTaxCap ref_coins _ (@market_keeper ref_math ref_coins _ oracle_keeper RefBank) unit RefBank treasury0.

Lemma oracle_caps_run : caps_run = (Ok [mkCoin "uusd" 3000000], caps_run.2).
Proof. vm_compute. reflexivity. Qed.

Lemma tax_caps_at_oracle_prices_witness :
  GetTaxCap (tstore caps_run.2) "uusd" = Z.quot (NewDec 3000000) precision.
Proof.
  destruct (tax_caps_at_oracle_prices (M:=ref_math) (ML:=ref_math_laws) (C:=ref_coins)
    (CL:=ref_coins_laws) (BL:=ref_bank_laws) [mkCoin "uusd" 3000000] treasury0 caps_run.2 "uusd"
    (NewDec 2) (NewDec 6) (mkDecCoin "uusd" (NewDec 3000000))) as [H _].
  - apply (bool_decide_unpack (map_Forall (fun _ r => 0 < r) (ExchangeRates oracle0))).
    vm_compute. exact I.
  - exact oracle_caps_run.
  - left.
  - vm_compute. congruence.
  - vm_compute. congruence.
  - vm_compute. reflexivity.
  - vm_compute. reflexivity.
  - vm_compute. reflexivity.
  - exact H.
Defined.

End AppExample.
