(* ===== verification/Vesting.v ===== *)
(** * Lazy graded vesting accounts ([src/x/vesting/types])

    An account vests each of its original coins by its own schedule: a list of
    intervals with a share each, vested linearly within the interval.  The base
    vesting account of the SDK, which keeps track of delegations, is a
    parameter. *)

From Stdlib Require Import ZArith Lia Bool.
From stdpp Require Import base strings list gmap.
From S2P Require Import Prelude Loops Sdk SdkRef.
Local Open Scope Z_scope.

(** ** Schedules *)

Record Schedule : Type := mkSchedule {
  StartTime : Z;    (* int64 *)
  EndTime : Z;      (* int64 *)
  Ratio : Dec }.

Record VestingSchedule : Type := mkVestingSchedule {
  SDenom : string; Schedules : list Schedule }.

(** [Schedule.Validate]. *)
Definition Schedule_Validate (s : Schedule) : res unit :=
  fail_if (StartTime s <? 0) (Errorf "vesting start-time cannot be negative");;
  fail_if (EndTime s <? StartTime s) (Errorf "vesting start-time cannot be before end-time");;
  fail_if (Ratio s <=? 0) (Errorf "vesting ratio cannot be smaller than or equal with zero").

Section vesting.
Context {M : SdkMath} {C : SdkCoins}.

(** One step of [GetVestedRatio]. *)
Definition add_vested_ratio (blockTime : Z) (sumRatio : Dec) (s : Schedule) : res Dec :=
  if blockTime <? StartTime s then Ok sumRatio
  else
    ratio ← (
      if blockTime <? EndTime s then
        r ← dec_mul_int (Ratio s) (to_int64 (blockTime - StartTime s));
        dec_quo_int r (to_int64 (EndTime s - StartTime s))
      else Ok (Ratio s));
    dec_add sumRatio ratio.

Definition GetVestedRatio (vs : VestingSchedule) (blockTime : Z) : res Dec :=
  foldM (add_vested_ratio blockTime) (Schedules vs) 0.

Definition fixedPointDecimals : Z := 1000000000.

(** One step of [VestingSchedule.Validate]. *)
Definition add_ratio (sumRatio : Dec) (s : Schedule) : res Dec :=
  Schedule_Validate s;; dec_add sumRatio (Ratio s).

Definition VestingSchedule_Validate (vs : VestingSchedule) : res unit :=
  sumRatio ← foldM add_ratio (Schedules vs) 0;
  scaled ← dec_mul_int sumRatio fixedPointDecimals;
  rounded ← dec_round_int scaled;
  total ← dec_quo_int (NewDec rounded) fixedPointDecimals;
  fail_if (negb (total =? OneDec)) (Errorf "vesting total ratio must be one").

(** ** Accounts *)

(** The base vesting account of the SDK: what it holds of original coins, and
    its treatment of delegations. *)
Class BaseVestingAccount (V : Type) : Type := {
  OriginalVesting : V -> list Coin;
  NewBaseVestingAccount : list Coin -> V;   (* no delegations, EndTime 0 *)
  LockedCoinsFromVesting : V -> list Coin -> res (list Coin);
  BaseTrackDelegation : V -> list Coin -> list Coin -> list Coin -> res V;
  BaseValidate : V -> res unit;
}.

Class BaseVestingLaws (V : Type) (BV : BaseVestingAccount V) : Prop := {
  original_of_new cs : OriginalVesting (NewBaseVestingAccount cs) = cs;
  track_original v balance vesting amount v' :
    BaseTrackDelegation v balance vesting amount = Ok v' -> OriginalVesting v' = OriginalVesting v;
}.

Context {V : Type} {BV : BaseVestingAccount V}.

Record LazyGradedVestingAccount : Type := mkLazy {
  Base : V; VestingSchedules : list VestingSchedule }.

Definition NewLazyGradedVestingAccount (originalVesting : list Coin)
    (lazyVestingSchedules : list VestingSchedule) : LazyGradedVestingAccount :=
  mkLazy (NewBaseVestingAccount originalVesting) lazyVestingSchedules.

(** The first schedule of the denomination. *)
Fixpoint find_schedule (denom : string) (l : list VestingSchedule) : option VestingSchedule :=
  match l with
  | [] => None
  | vs :: l' => if String.eqb (SDenom vs) denom then Some vs else find_schedule denom l'
  end.

Definition GetVestingSchedule (lgva : LazyGradedVestingAccount) (denom : string)
    : option VestingSchedule := find_schedule denom (VestingSchedules lgva).

(** The vested part of one original coin, [None] when it is skipped. *)
Definition vested_coin (lgva : LazyGradedVestingAccount) (blockTime : Z) (ovc : Coin)
    : res (option Coin) :=
  match GetVestingSchedule lgva (coin_denom ovc) with
  | Some vestingSchedule =>
      vestedRatio ← GetVestedRatio vestingSchedule blockTime;
      x ← dec_mul (NewDec (coin_amount ovc)) vestedRatio;
      vestedAmt ← dec_round_int x;
      if vestedAmt =? 0 then Ok None
      else c ← new_coin (coin_denom ovc) vestedAmt; Ok (Some c)
  | None => c ← new_coin (coin_denom ovc) (coin_amount ovc); Ok (Some c)
  end.

Definition GetVestedCoins (lgva : LazyGradedVestingAccount) (blockTime : Z) : res (list Coin) :=
  foldM (fun vestedCoins ovc =>
    o ← vested_coin lgva blockTime ovc;
    Ok (match o with Some c => vestedCoins ++ [c] | None => vestedCoins end))
    (OriginalVesting (Base lgva)) [].

Definition GetVestingCoins (lgva : LazyGradedVestingAccount) (blockTime : Z) : res (list Coin) :=
  vested ← GetVestedCoins lgva blockTime;
  coins_sub (OriginalVesting (Base lgva)) vested.

Definition LockedCoins (lgva : LazyGradedVestingAccount) (blockTime : Z) : res (list Coin) :=
  vesting ← GetVestingCoins lgva blockTime;
  LockedCoinsFromVesting (Base lgva) vesting.

Definition TrackDelegation (lgva : LazyGradedVestingAccount) (blockTime : Z)
    (balance amount : list Coin) : res LazyGradedVestingAccount :=
  vesting ← GetVestingCoins lgva blockTime;
  base ← BaseTrackDelegation (Base lgva) balance vesting amount;
  Ok (mkLazy base (VestingSchedules lgva)).

(** One step of [Validate]; the accumulator is [denomMap]. *)
Definition validate_schedule (denomMap : gset string) (vs : VestingSchedule) : res (gset string) :=
  fail_if (bool_decide (SDenom vs ∈ denomMap)) (Errorf "cannot have multiple vesting schedules");;
  VestingSchedule_Validate vs;;
  Ok ({[SDenom vs]} ∪ denomMap).

Definition Validate (lgva : LazyGradedVestingAccount) : res unit :=
  foldM validate_schedule (VestingSchedules lgva) ∅;;
  BaseValidate (Base lgva).

End vesting.

Arguments LazyGradedVestingAccount V : clear implicits.

(** ** Facts about schedules *)

(** A schedule that passes its validation, with times that are [int64]. *)
Definition schedule_ok (s : Schedule) : Prop :=
  0 <= StartTime s <= EndTime s /\ EndTime s < two63 /\ 0 < Ratio s.

(** The vested share of one schedule at a time. *)
Definition share (t : Z) (s : Schedule) : Dec :=
  if t <? StartTime s then 0
  else if t <? EndTime s
       then Z.quot (Ratio s * (t - StartTime s)) (EndTime s - StartTime s) else Ratio s.

Lemma share_bounds t s : schedule_ok s -> 0 <= share t s <= Ratio s.
Proof.
  intros (Ht & _ & Hr). unfold share. destruct (Z.ltb_spec t (StartTime s)); [lia|].
  destruct (Z.ltb_spec t (EndTime s)); [|lia]. rewrite Z.quot_div_nonneg by nia. split.
  - apply Z.div_pos; nia.
  - apply Z.div_le_upper_bound; nia.
Qed.

Lemma share_mono t1 t2 s : schedule_ok s -> t1 <= t2 -> share t1 s <= share t2 s.
Proof.
  intros Hs Ht. pose proof (share_bounds t1 s Hs). pose proof (share_bounds t2 s Hs).
  destruct Hs as (Hle & _ & Hr). unfold share in *.
  destruct (Z.ltb_spec t1 (StartTime s)), (Z.ltb_spec t2 (StartTime s)); try lia.
  destruct (Z.ltb_spec t1 (EndTime s)), (Z.ltb_spec t2 (EndTime s)); try lia.
  rewrite !Z.quot_div_nonneg by nia. apply Z.div_le_mono; nia.
Qed.

Section schedule_facts.
Context {M : SdkMath} {ML : SdkMathLaws M}.

Lemma Schedule_Validate_Ok s u :
  Schedule_Validate s = Ok u -> 0 <= StartTime s <= EndTime s /\ 0 < Ratio s.
Proof.
  unfold Schedule_Validate. intros H. go_inv. apply Z.ltb_ge in Hv, Hv0. apply Z.leb_gt in H. lia.
Qed.

Lemma add_vested_ratio_Ok t sum s r :
  schedule_ok s -> t < two63 -> add_vested_ratio t sum s = Ok r -> r = sum + share t s.
Proof.
  intros (Ht & He & Hr) Ht' H. unfold add_vested_ratio, share in *.
  destruct (Z.ltb_spec t (StartTime s)); go_inv; [lia|].
  apply dec_add_Ok in H as [-> _]. destruct (Z.ltb_spec t (EndTime s)); go_inv; [|lia].
  apply dec_mul_int_Ok in Hv0 as [-> _]. apply dec_quo_int_Ok in Hv as [_ ->].
  by rewrite !to_int64_id by (unfold is_int64; lia).
Qed.

Lemma GetVestedRatio_Ok vs t r :
  Forall schedule_ok (Schedules vs) -> t < two63 ->
  GetVestedRatio vs t = Ok r -> r = sumZ (share t) (Schedules vs).
Proof.
  unfold GetVestedRatio. intros Hs Ht. change r with (0 + r) at 1. intros H.
  enough (Hg : forall acc, foldM (add_vested_ratio t) (Schedules vs) acc = Ok r ->
                 r = acc + sumZ (share t) (Schedules vs)) by (apply Hg in H; lia).
  clear H. induction Hs as [|s l Hs _ IH]; intros acc H; cbn in H.
  - go_inv. rewrite sumZ_nil. lia.
  - go_inv. apply IH in H. apply add_vested_ratio_Ok in Hv; [|done..]. rewrite sumZ_cons. lia.
Qed.

Lemma add_ratios_Ok l acc r :
  foldM add_ratio l acc = Ok r ->
  r = acc + sumZ Ratio l /\ Forall (fun s => 0 <= StartTime s <= EndTime s /\ 0 < Ratio s) l.
Proof.
  revert acc. induction l as [|s l IH]; intros acc H; cbn in H.
  - go_inv. rewrite sumZ_nil. split; [lia|constructor].
  - go_inv. unfold add_ratio in Hv. go_inv. apply dec_add_Ok in Hv as [-> _].
    apply Schedule_Validate_Ok in Hv0. apply IH in H as [-> H]. rewrite sumZ_cons.
    split; [lia|by constructor].
Qed.

(** A validated schedule: the shares add up to one up to half of [10^-9]. *)
Lemma VestingSchedule_Validate_Ok vs u :
  VestingSchedule_Validate vs = Ok u ->
  Forall (fun s => 0 <= StartTime s <= EndTime s /\ 0 < Ratio s) (Schedules vs) /\
  2 * fixedPointDecimals * Z.abs (sumZ Ratio (Schedules vs) - OneDec) <= precision.
Proof.
  unfold VestingSchedule_Validate. intros H. go_inv. apply add_ratios_Ok in Hv as [-> Hs].
  split; [done|]. apply dec_mul_int_Ok in Hv0 as [-> _]. apply dec_round_int_spec in Hv1.
  apply dec_quo_int_Ok in Hv2 as [_ ->]. apply negb_false_iff, Z.eqb_eq in H.
  rewrite Z.add_0_l in *. unfold NewDec, OneDec in *.
  assert (v1 = fixedPointDecimals) as ->; [|lia].
  unfold fixedPointDecimals, precision in *. revert H. change (10 ^ 18) with 1000000000000000000.
  intros H. Z.quot_rem_to_equations. lia.
Qed.

End schedule_facts.

(** ** Facts about accounts *)

Definition oamt (o : option Coin) : Z := match o with Some c => coin_amount c | None => 0 end.

(** The coins of a list of optional coins. *)
Definition somes (os : list (option Coin)) : list Coin := omap id os.

Section account_facts.
Context {M : SdkMath} {ML : SdkMathLaws M} {C : SdkCoins} {CL : SdkCoinsLaws M C}.
Context {V : Type} {BV : BaseVestingAccount V}.
Implicit Types lgva : LazyGradedVestingAccount V.

(** Every schedule of the account is valid. *)
Definition account_ok lgva : Prop :=
  Forall (fun vs => Forall schedule_ok (Schedules vs)) (VestingSchedules lgva) /\
  Forall (fun c => 0 <= coin_amount c) (OriginalVesting (Base lgva)).

Lemma find_schedule_in d l vs : find_schedule d l = Some vs -> vs ∈ l /\ SDenom vs = d.
Proof.
  induction l as [|x l IH]; [done|]. cbn. destruct (String.eqb_spec (SDenom x) d) as [<-|].
  - intros [= <-]. split; [by left|done].
  - intros H. destruct (IH H). split; [by right|done].
Qed.

Lemma round_mono a1 a2 c1 c2 :
  dec_round_int a1 = Ok c1 -> dec_round_int a2 = Ok c2 -> a1 <= a2 -> c1 <= c2.
Proof.
  intros H1 H2 H. destruct (Z.eq_dec a1 a2) as [->|]; [assert (c1 = c2) by congruence; lia|].
  apply dec_round_int_spec in H1, H2. pose proof precision_pos. nia.
Qed.

Lemma mul_mono a b1 b2 c1 c2 :
  0 <= a -> dec_mul a b1 = Ok c1 -> dec_mul a b2 = Ok c2 -> b1 <= b2 -> c1 <= c2.
Proof.
  intros Ha H1 H2 H. destruct (Z.eq_dec b1 b2) as [->|]; [assert (c1 = c2) by congruence; lia|].
  destruct (Z.eq_dec a 0) as [->|].
  - apply (dec_mul_exact _ _ _ 0) in H1, H2; lia.
  - apply dec_mul_bounds in H1, H2. pose proof precision_pos. nia.
Qed.

Lemma vested_coin_Ok lgva t c o :
  vested_coin lgva t c = Ok o ->
  (forall x, o = Some x -> coin_denom x = coin_denom c) /\ 0 <= oamt o /\
  match GetVestingSchedule lgva (coin_denom c) with
  | Some vs => exists r x, GetVestedRatio vs t = Ok r /\
      dec_mul (NewDec (coin_amount c)) r = Ok x /\ dec_round_int x = Ok (oamt o)
  | None => oamt o = coin_amount c
  end.
Proof.
  unfold vested_coin. destruct (GetVestingSchedule lgva (coin_denom c)) as [vs|]; intros H; go_inv.
  - destruct (Z.eqb_spec v1 0) as [->|]; go_inv; [split; [done|]; split; [done|]; by eauto|].
    select (new_coin _ _ = _) (fun H => apply new_coin_Ok in H as (-> & _ & ?)).
    split; [by intros x [= <-]|]. split; [done|]. by eauto.
  - apply new_coin_Ok in Hv as (-> & _ & ?). split; [by intros x [= <-]|]. done.
Qed.

Lemma vested_coin_mono lgva t1 t2 c o1 o2 :
  account_ok lgva -> 0 <= coin_amount c -> t1 <= t2 < two63 ->
  vested_coin lgva t1 c = Ok o1 -> vested_coin lgva t2 c = Ok o2 -> oamt o1 <= oamt o2.
Proof.
  intros [Hs _] Hc Ht (_ & _ & H1)%vested_coin_Ok (_ & _ & H2)%vested_coin_Ok.
  destruct (GetVestingSchedule lgva (coin_denom c)) as [vs|] eqn:E; [|lia].
  destruct H1 as (r1 & x1 & Hr1 & Hx1 & Ho1), H2 as (r2 & x2 & Hr2 & Hx2 & Ho2).
  apply find_schedule_in in E as [Hin _]. rewrite Forall_forall in Hs. specialize (Hs _ Hin).
  apply GetVestedRatio_Ok in Hr1, Hr2; [|first [exact Hs|lia]..]. subst.
  eapply round_mono; [exact Ho1|exact Ho2|]. unfold NewDec in *. pose proof precision_pos.
  eapply (mul_mono (coin_amount c * precision)); [nia|exact Hx1|exact Hx2|].
  clear -Hs Ht. induction Hs as [|s l Hs _ IH]; [done|]. rewrite !sumZ_cons.
  pose proof (share_mono t1 t2 s Hs ltac:(lia)). lia.
Qed.

(** The vested coins, one optional coin for each original coin. *)
Lemma GetVestedCoins_Ok lgva t out :
  GetVestedCoins lgva t = Ok out ->
  exists os, Forall2 (fun c o => vested_coin lgva t c = Ok o) (OriginalVesting (Base lgva)) os /\
    out = somes os.
Proof.
  unfold GetVestedCoins. intros H.
  enough (Hg : forall l acc, foldM (fun vestedCoins ovc => o ← vested_coin lgva t ovc;
      Ok (match o with Some c => vestedCoins ++ [c] | None => vestedCoins end)) l acc = Ok out ->
      exists os, Forall2 (fun c o => vested_coin lgva t c = Ok o) l os /\ out = acc ++ somes os)
    by (by apply (Hg _ [])).
  clear H. intros l. induction l as [|c l IH]; intros acc H; cbn in H.
  - go_inv. exists []. split; [constructor|]. by rewrite app_nil_r.
  - go_inv. apply IH in H as (os & Hos & ->). exists (v0 :: os).
    split; [by constructor|]. unfold somes. cbn. destruct v0; cbn; [|done].
    by rewrite <- app_assoc.
Qed.

(** Amounts of the vested coins are sums over the original coins. *)
Lemma somes_amt lgva t l os d :
  Forall2 (fun c o => vested_coin lgva t c = Ok o) l os ->
  amt (somes os) d = sumZ (fun p : Coin * option Coin =>
    if String.eqb (coin_denom p.1) d then oamt p.2 else 0) (zip l os).
Proof.
  induction 1 as [|c o l os H _ IH]; [done|]. cbn [zip_with]. rewrite sumZ_cons. cbn [fst snd].
  apply vested_coin_Ok in H as (Hd & _ & _). destruct o as [x|]; cbn [oamt].
  - change (amt (somes (Some x :: os)) d)
      with ((if String.eqb (coin_denom x) d then coin_amount x else 0) + amt (somes os) d).
    by rewrite IH, (Hd x eq_refl).
  - rewrite <- IH. change (somes (None :: os)) with (somes os). by destruct (String.eqb _ _).
Qed.

Lemma GetVestedCoins_mono lgva t1 t2 c1 c2 d :
  account_ok lgva -> t1 <= t2 < two63 ->
  GetVestedCoins lgva t1 = Ok c1 -> GetVestedCoins lgva t2 = Ok c2 -> amt c1 d <= amt c2 d.
Proof.
  intros Hok Ht (o1 & H1 & ->)%GetVestedCoins_Ok (o2 & H2 & ->)%GetVestedCoins_Ok.
  rewrite (somes_amt _ _ _ _ _ H1), (somes_amt _ _ _ _ _ H2).
  pose proof (proj2 Hok) as Hpos. revert o2 H2. induction H1 as [|c x l o1 Hx H1 IH]; intros o2 H2.
  - inversion H2. done.
  - inversion H2 as [|? y ? o2' Hy H2']; subst. inversion Hpos; subst. cbn [zip_with]. rewrite !sumZ_cons.
    specialize (IH ltac:(done) _ H2'). cbn.
    pose proof (vested_coin_mono lgva t1 t2 c x y). destruct (String.eqb _ _); [|lia].
    assert (oamt x <= oamt y) by auto. lia.
Qed.

Lemma GetVestingCoins_Ok lgva t v :
  GetVestingCoins lgva t = Ok v ->
  exists c, GetVestedCoins lgva t = Ok c /\
    forall d, amt v d = amt (OriginalVesting (Base lgva)) d - amt c d /\ 0 <= amt v d.
Proof.
  unfold GetVestingCoins. intros H. go_inv. rewrite coins_sub_spec in H. go_inv.
  destruct y; [done|]. go_inv. exists v0. split; [done|]. intros d. split.
  - by eapply coins_safe_sub_amt.
  - by eapply amt_nonneg, coins_safe_sub_neg.
Qed.

(** Vesting only goes forward: for an account with valid schedules, what is
    still vesting of each denomination never grows with time, is never negative
    and never more than the original coins; the vested coins are the
    complement. *)
Theorem vesting_monotone lgva t1 t2 v1 v2 d :
  account_ok lgva -> t1 <= t2 < two63 ->
  GetVestingCoins lgva t1 = Ok v1 -> GetVestingCoins lgva t2 = Ok v2 ->
  0 <= amt v2 d <= amt v1 d /\ amt v1 d <= amt (OriginalVesting (Base lgva)) d.
Proof.
  intros Hok Ht (c1 & Hc1 & H1)%GetVestingCoins_Ok (c2 & Hc2 & H2)%GetVestingCoins_Ok.
  pose proof (GetVestedCoins_mono _ _ _ _ _ d Hok Ht Hc1 Hc2).
  destruct (H1 d) as [E1 _], (H2 d) as [E2 ?]. split; [lia|].
  assert (0 <= amt c1 d); [|lia].
  apply GetVestedCoins_Ok in Hc1 as (os & Hos & ->). rewrite (somes_amt _ _ _ _ _ Hos).
  apply sumZ_nonneg. clear -Hos CL ML. induction Hos as [|c o l os Ho _ IH]; constructor; [|done].
  apply vested_coin_Ok in Ho as (_ & ? & _). cbn. destruct (String.eqb _ _); lia.
Qed.

(** All schedules of the account have ended, with shares that add up to [S]. *)
Definition ended_with (S : Dec) (vs : VestingSchedule) (t : Z) : Prop :=
  Forall (fun s => EndTime s <= t) (Schedules vs) /\ sumZ Ratio (Schedules vs) = S.

Lemma ended_ratio vs t S r :
  Forall schedule_ok (Schedules vs) -> t < two63 -> ended_with S vs t ->
  GetVestedRatio vs t = Ok r -> r = S.
Proof.
  intros Hs Ht [He <-] H. apply GetVestedRatio_Ok in H as ->; [|done..].
  apply sumZ_ext. rewrite Forall_forall in *. intros s Hin. destruct (Hs s Hin) as (? & _ & _).
  specialize (He s Hin). unfold share.
  by rewrite (proj2 (Z.ltb_ge t (StartTime s))), (proj2 (Z.ltb_ge t (EndTime s))) by lia.
Qed.

(** When all intervals have ended, the vested ratio is computed, and is the sum of
    the shares. *)
Lemma ended_ratio_run vs t S :
  Forall schedule_ok (Schedules vs) -> ended_with S vs t -> S < dec_bound -> GetVestedRatio vs t = Ok S.
Proof.
  intros Hs [He HS] Hb. unfold GetVestedRatio.
  enough (Hg : forall acc, 0 <= acc -> acc + S < dec_bound ->
            foldM (add_vested_ratio t) (Schedules vs) acc = Ok (acc + S)) by (by apply (Hg 0)).
  clear Hb. subst S. induction Hs as [|s l Hs Hl IH]; intros acc Ha Hb.
  - cbn. rewrite sumZ_nil, Z.add_0_r. done.
  - inversion He as [|? ? Hend Hrest]; subst. rewrite sumZ_cons in *. destruct Hs as (Ht & _ & Hr).
    assert (0 <= sumZ Ratio l).
    { apply sumZ_nonneg. eapply Forall_impl; [exact Hl|]. intros x (_ & _ & ?). lia. }
    assert (Hone : add_vested_ratio t acc s = Ok (acc + Ratio s)).
    { unfold add_vested_ratio.
      rewrite (proj2 (Z.ltb_ge t (StartTime s))), (proj2 (Z.ltb_ge t (EndTime s))) by lia. cbn.
      by rewrite dec_add_spec, checked_small by lia. }
    cbn. rewrite Hone. cbn. rewrite IH by (done || lia). f_equal. lia.
Qed.

(** With shares that add up to one, a coin vests exactly. *)
Lemma vested_coin_ended lgva t c :
  account_ok lgva -> ValidDenom (coin_denom c) = true -> 0 < coin_amount c < int_bound - 1 ->
  (forall vs, GetVestingSchedule lgva (coin_denom c) = Some vs -> ended_with OneDec vs t) ->
  vested_coin lgva t c = Ok (Some c).
Proof.
  intros [Hs _] Hd Ha He. unfold vested_coin. pose proof precision_pos as Hp.
  assert (Hnew : new_coin (coin_denom c) (coin_amount c) = Ok c).
  { apply new_coin_Ok. destruct c. cbn in *. split; [done|]. split; [done|lia]. }
  destruct (GetVestingSchedule lgva (coin_denom c)) as [vs|] eqn:E; [|by rewrite Hnew].
  pose proof E as [Hin _]%find_schedule_in. rewrite Forall_forall in Hs.
  rewrite (ended_ratio_run vs t OneDec) by (by (apply Hs || apply He || vm_compute)).
  cbn [mbind res_bind]. unfold NewDec, OneDec in *.
  destruct (dec_mul_total (coin_amount c * precision) precision) as [x Hx].
  { unfold dec_bound, int_bound, precision in *. lia. }
  rewrite Hx. apply (dec_mul_exact _ _ _ (coin_amount c * precision)) in Hx as ->; [|lia].
  cbn [mbind res_bind]. destruct (dec_round_int_total (coin_amount c * precision)) as [y Hy];
    [unfold int_bound, precision in *; lia|].
  rewrite Hy. apply dec_round_int_spec in Hy. assert (y = coin_amount c) as -> by nia. cbn [mbind res_bind].
  destruct (Z.eqb_spec (coin_amount c) 0); [lia|]. by rewrite Hnew.
Qed.

(** When all schedules have ended with shares that add up to one, nothing is
    left to vest. *)
Lemma ended_nothing_vesting lgva t :
  account_ok lgva -> coins_wf (OriginalVesting (Base lgva)) ->
  Forall (fun c => ValidDenom (coin_denom c) = true /\ coin_amount c < int_bound - 1)
    (OriginalVesting (Base lgva)) ->
  (forall vs, vs ∈ VestingSchedules lgva -> ended_with OneDec vs t) ->
  exists v, GetVestingCoins lgva t = Ok v /\ forall d, amt v d = 0.
Proof.
  intros Hok Hwf Hb He.
  assert (Hv : GetVestedCoins lgva t = Ok (OriginalVesting (Base lgva))).
  { unfold GetVestedCoins.
    assert (Hone : Forall (fun c => vested_coin lgva t c = Ok (Some c)) (OriginalVesting (Base lgva))).
    { destruct Hwf as [Hpos _]. rewrite Forall_forall in *. intros c Hc. destruct (Hb c Hc).
      apply vested_coin_ended; [done|done|split; [by apply Hpos|done]|]. intros vs [Hin _]%find_schedule_in. by apply He. }
    enough (Hg : forall l acc, Forall (fun c => vested_coin lgva t c = Ok (Some c)) l ->
      foldM (fun vestedCoins ovc => o ← vested_coin lgva t ovc;
        Ok (match o with Some c => vestedCoins ++ [c] | None => vestedCoins end)) l acc = Ok (acc ++ l))
      by (by apply (Hg _ [])).
    clear. intros l acc Hone. revert acc. induction Hone as [|c l Hc _ IH]; intros acc; [by rewrite app_nil_r|].
    cbn [foldM]. rewrite Hc. cbn [mbind res_bind]. rewrite IH, <- app_assoc. done. }
  unfold GetVestingCoins. rewrite Hv. cbn. rewrite coins_sub_spec.
  destruct (coins_safe_sub_total (OriginalVesting (Base lgva)) (OriginalVesting (Base lgva)))
    as (v & Hsub & _); [done|done| |].
  - intros d. split; [done|]. destruct Hwf as [_ [Hnd _]].
    destruct (decide (amt (OriginalVesting (Base lgva)) d = 0)) as [->|Hne]; [done|].
    destruct (amt_found _ _ Hnd Hne) as (c & Hc & _ & ->). rewrite Forall_forall in Hb.
    destruct (Hb c Hc). lia.
  - rewrite Hsub. exists v. split; [done|]. intros d. apply coins_safe_sub_amt with (d:=d) in Hsub. lia.
Qed.

(** The shares may add up to a little more than one. *)
Lemma overvested lgva vs t c S o :
  account_ok lgva -> t < two63 -> GetVestingSchedule lgva (coin_denom c) = Some vs ->
  ended_with S vs t -> precision < 2 * coin_amount c * (S - OneDec) ->
  vested_coin lgva t c = Ok o -> coin_amount c < oamt o.
Proof.
  intros [Hs _] Ht Hvs He Hbig (_ & _ & H)%vested_coin_Ok. rewrite Hvs in H.
  destruct H as (r & x & Hr & Hx & Ho). apply find_schedule_in in Hvs as [Hin _].
  rewrite Forall_forall in Hs. apply (ended_ratio _ _ S) in Hr; [|by apply Hs|done..]. subst r.
  apply (dec_mul_exact _ _ _ (coin_amount c * S)) in Hx; [|unfold NewDec; lia]. subst x.
  apply dec_round_int_spec in Ho. unfold OneDec in *. pose proof precision_pos. nia.
Qed.

(** The tolerance of the validation can freeze an account: [Validate]
    accepts shares that add up to one plus half of [10^-9]. When the schedules
    have ended, an account with an original coin large enough for that excess
    to round up to a unit vests more than it has, so neither the vesting nor
    the locked coins can be computed any more. *)
Theorem tolerance_freezes_account lgva vs t c S :
  account_ok lgva -> OriginalVesting (Base lgva) = [c] -> t < two63 ->
  GetVestingSchedule lgva (coin_denom c) = Some vs ->
  ended_with S vs t -> precision < 2 * coin_amount c * (S - OneDec) ->
  forall v, GetVestingCoins lgva t <> Ok v /\ LockedCoins lgva t <> Ok v.
Proof.
  intros Hok Horig Ht Hvs He Hbig v.
  assert (Hno : forall v, GetVestingCoins lgva t <> Ok v).
  { clear v. intros v (vested & Hc & Hv)%GetVestingCoins_Ok.
    apply GetVestedCoins_Ok in Hc as (os & Hos & ->). destruct (Hv (coin_denom c)) as [Hamt Hnn].
    rewrite (somes_amt _ _ _ _ _ Hos), Horig, amt_single, String.eqb_refl in Hamt.
    rewrite Horig in Hos. inversion Hos as [|? o ? os' Ho Hos']; subst. inversion Hos'; subst.
    cbn [zip_with] in Hamt. rewrite sumZ_cons, sumZ_nil in Hamt. cbn in Hamt.
    rewrite String.eqb_refl in Hamt. pose proof (overvested _ _ _ _ _ _ Hok Ht Hvs He Hbig Ho). lia. }
  split; [apply Hno|]. unfold LockedCoins. intros H. go_inv. by eapply Hno.
Qed.

End account_facts.

(** ** Concrete accounts *)

Module VestingExample.

(** A base account that never locks delegated coins. *)
Instance plain_base : BaseVestingAccount (list Coin) := {|
  OriginalVesting v := v;
  NewBaseVestingAccount cs := cs;
  LockedCoinsFromVesting _ vesting := Ok vesting;
  BaseTrackDelegation v _ _ _ := Ok v;
  BaseValidate _ := Ok tt;
|}.

Instance plain_base_laws : BaseVestingLaws (list Coin) plain_base.
Proof. split; [done|]. by intros v balance vesting amount v' [= <-]. Qed.

(** A quarter at once, the rest over a hundred seconds. *)
Definition graded : LazyGradedVestingAccount (list Coin) :=
  NewLazyGradedVestingAccount [mkCoin "uluna" 1000; mkCoin "uusd" 7]
    [mkVestingSchedule "uluna"
       [mkSchedule 10 10 (NewDecWithPrec 25 2); mkSchedule 10 110 (NewDecWithPrec 75 2)]].

Lemma graded_ok : account_ok graded.
Proof.
  split.
  - repeat constructor; vm_compute; congruence.
  - repeat constructor; vm_compute; congruence.
Qed.

Lemma vesting_monotone_witness :
  amt [mkCoin "uluna" 375] "uluna" <= amt [mkCoin "uluna" 750] "uluna".
Proof.
  destruct (vesting_monotone (M:=ref_math) (ML:=ref_math_laws) (C:=ref_coins) (CL:=ref_coins_laws)
    graded 10 60 [mkCoin "uluna" 750] [mkCoin "uluna" 375] "uluna") as [[_ H] _].
  - exact graded_ok.
  - vm_compute. split; congruence.
  - vm_compute. reflexivity.
  - vm_compute. reflexivity.
  - exact H.
Defined.

(** The share is one and a half billionth part: accepted by the validation. *)
Definition excess : VestingSchedule :=
  mkVestingSchedule "uluna" [mkSchedule 0 10 (OneDec + 500000000)].

Definition frozen : LazyGradedVestingAccount (list Coin) :=
  NewLazyGradedVestingAccount [mkCoin "uluna" 2000000000] [excess].

Lemma frozen_ok : account_ok frozen.
Proof. split; repeat constructor; vm_compute; congruence. Qed.

Lemma tolerance_freezes_account_witness :
  @Validate ref_math (list Coin) plain_base frozen = Ok tt /\
  ~ exists v, @LockedCoins ref_math ref_coins (list Coin) plain_base frozen 10 = Ok v.
Proof.
  split; [vm_compute; reflexivity|]. intros [v Hv]. revert Hv.
  destruct (tolerance_freezes_account (M:=ref_math) (ML:=ref_math_laws) (C:=ref_coins)
    (CL:=ref_coins_laws) frozen excess 10 (mkCoin "uluna" 2000000000) (OneDec + 500000000))
    with (v := v) as [_ H].
  - exact frozen_ok.
  - reflexivity.
  - vm_compute. reflexivity.
  - reflexivity.
  - split; [repeat constructor; vm_compute; congruence|reflexivity].
  - vm_compute. reflexivity.
  - exact H.
Defined.

End VestingExample.
