(* ===== verification/GenAccounts.v ===== *)
(** * Accounts of a new genesis ([src/cmd/terrad/genaccounts.go],
    [src/cmd/terrad/testnet.go])

    The command [add-genesis-account] reads an account with its coins and, if
    some of them vest, with the schedules of their vesting, and adds it to the
    accounts, balances and supply of a genesis file.  The command [testnet]
    writes a genesis with the accounts of all its nodes, and numbers their
    addresses.  Flags, the key ring, files and the random keys are arguments. *)

From Stdlib Require Import ZArith Lia Bool Ascii.
From stdpp Require Import base gmap strings list.
From S2P Require Import Prelude Loops Sdk SdkRef OracleStore Vesting.
Local Open Scope Z_scope.

(** ** Numbers and days *)

(** The value of decimal digits after [acc]. *)
Fixpoint atoi_digits (acc : Z) (s : string) : option Z :=
  match s with
  | EmptyString => Some acc
  | String c s' =>
      let d := Z.of_nat (nat_of_ascii c) - 48 in
      if (0 <=? d) && (d <=? 9) then atoi_digits (10 * acc + d) s' else None
  end.

(** [strconv.Atoi]: an optional sign, at least one digit, within [int64]. *)
Definition Atoi (s : string) : res Z :=
  let '(negative, digits) :=
    match s with
    | String "-" s' => (true, s')
    | String "+" s' => (false, s')
    | _ => (false, s)
    end in
  match digits, atoi_digits 0 digits with
  | String _ _, Some n =>
      let n := if (negative : bool) then - n else n in
      if (- two63 <=? n) && (n <? two63) then Ok n else Err (Errorf "strconv.Atoi")
  | _, _ => Err (Errorf "strconv.Atoi")
  end.

(** [t.AddDate(0, 0, days).UTC().Unix()] of a time in UTC, by its seconds. *)
Definition AddDays (t days : Z) : Z := to_int64 (t + 86400 * days).

(** ** The genesis file *)

Section genesis.

(** An account of the SDK of another kind, and base vesting accounts. *)
Context {E V : Type}.

Inductive AccountKind : Type :=
| KBase
| KLazy (lgva : LazyGradedVestingAccount V)
| KOther (e : E).

Record GenesisAccount : Type := mkAccount {
  account_address : AccAddress; account_number : Z; account_kind : AccountKind }.

Record Balance : Type := mkBalance { BAddress : string; BCoins : list Coin }.

(** The states of the modules auth and bank; [AR] and [BR] are what the command
    does not touch of them, [P] are accounts packed as [Any]. *)
Context {P AR BR J : Type}.

Record AuthGenesis : Type := mkAuth { Accounts : list P; auth_rest : AR }.
Record BankGenesis : Type := mkBank { Balances : list Balance; Supply : list Coin; bank_rest : BR }.

Record GenesisDoc : Type := mkDoc { GenesisTime : Z; AppState : gmap string J }.

(** The codec, and the functions of the SDK on genesis accounts and balances. *)
Class GenesisCodec : Type := {
  auth_state : option J -> res AuthGenesis;       (* GetGenesisStateFromAppState *)
  marshal_auth : AuthGenesis -> res J;
  bank_state : option J -> res BankGenesis;
  marshal_bank : BankGenesis -> res J;
  UnpackAccounts : list P -> res (list GenesisAccount);
  PackAccounts : list GenesisAccount -> res (list P);
  SanitizeGenesisAccounts : list GenesisAccount -> list GenesisAccount;
  SanitizeGenesisBalances : list Balance -> list Balance;
  Contains : list GenesisAccount -> AccAddress -> bool;
}.

(** What is written can be read; accounts are numbered and sorted; balances are
    sorted, and the coins of each. *)
Class GenesisCodecLaws {C : SdkCoins} (GC : GenesisCodec) : Prop := {
  auth_round g j : marshal_auth g = Ok j -> auth_state (Some j) = Ok g;
  bank_round g j : marshal_bank g = Ok j -> bank_state (Some j) = Ok g;
  pack_round accs l : PackAccounts accs = Ok l -> UnpackAccounts l = Ok accs;
  sanitize_accounts accs :
    (fun a => (account_address a, account_kind a)) <$> SanitizeGenesisAccounts accs ≡ₚ
    (fun a => (account_address a, account_kind a)) <$> accs;
  sanitize_balances bs :
    SanitizeGenesisBalances bs ≡ₚ (fun b => mkBalance (BAddress b) (coins_sort (BCoins b))) <$> bs;
  contains_spec accs a : Contains accs a = true <-> a ∈ account_address <$> accs;
}.

End genesis.

Arguments GenesisAccount : clear implicits.
Arguments AccountKind : clear implicits.
Arguments GenesisCodec : clear implicits.
Arguments AuthGenesis : clear implicits.
Arguments BankGenesis : clear implicits.
Arguments GenesisDoc : clear implicits.

(** ** [add-genesis-account] *)

Section command.
Context {M : SdkMath} {C : SdkCoins} {A : Bech32} {R : GoRange}.
Context {E V P AR BR J : Type} {BV : BaseVestingAccount V} {GC : GenesisCodec E V P AR BR J}.

(** [sdk.ParseCoinsNormalized], [sdk.NewDecFromStr], [Coins.IsAnyGT], the address
    of a key of the key ring, [BaseAccount.Validate] of an account without a
    key, and [genutil.ExportGenesisFile]. *)
Context (ParseCoinsNormalized : string -> res (list Coin)) (NewDecFromStr : string -> res Dec).
Context (coins_is_any_gt : list Coin -> list Coin -> bool).
Context (KeyAddress : string -> res AccAddress) (base_Validate : AccAddress -> res unit).
Context (ExportGenesisFile : GenesisDoc J -> res unit).

(** One schedule of the flag, [denom|start|end|ratio]. *)
Definition parse_entry (genesisTime : Z) (unparsedSchedule : string) : res (string * Schedule) :=
  match Split "|" unparsedSchedule with
  | [denom; start; end_; share] =>
      startDay ← Atoi start;
      endDay ← Atoi end_;
      ratio ← NewDecFromStr share;
      Ok (denom, mkSchedule (AddDays genesisTime startDay) (AddDays genesisTime endDay) ratio)
  | _ => Err (Errorf "vesting schedule parse error")
  end.

(** The loop over the schedules: those of a denomination are appended. *)
Definition parse_schedule (genesisTime : Z) (vestingSchedulesDenomMap : gmap string VestingSchedule)
    (unparsedSchedule : string) : res (gmap string VestingSchedule) :=
  '(denom, lazySchedule) ← parse_entry genesisTime unparsedSchedule;
  Ok (<[denom := match vestingSchedulesDenomMap !! denom with
                 | Some vs => mkVestingSchedule (SDenom vs) (Schedules vs ++ [lazySchedule])
                 | None => mkVestingSchedule denom [lazySchedule]
                 end]> vestingSchedulesDenomMap).

(** The map as a list, in the order in which Go visits it. *)
Definition schedules_of_map (m : gmap string VestingSchedule) : list VestingSchedule :=
  (fun e => mkVestingSchedule e.1 (Schedules e.2)) <$> range 0 m.

(** The refusal of a vesting amount that exceeds the balance. *)
Definition exceeds (coins originalVesting : list Coin) : bool :=
  (coins_is_zero coins && negb (coins_is_zero originalVesting)) || coins_is_any_gt originalVesting coins.

(** The account type from the input: a vesting account or a base account. *)
Definition vesting_kind (genesisTime : Z) (coins vestingAmt : list Coin) (vestingSchedulesStr : string)
    : res (AccountKind E V) :=
  if coins_is_zero vestingAmt then Ok KBase
  else
    m ← foldM (parse_schedule genesisTime) (Split "," vestingSchedulesStr) ∅;
    let baseVestingAccount := NewBaseVestingAccount (coins_sort vestingAmt) in
    fail_if (existsb (fun coin => negb (bool_decide (is_Some (m !! coin_denom coin)))) vestingAmt)
      (Errorf "must provide vesting schedule for all vesting amount");;
    fail_if (exceeds (coins_sort coins) (OriginalVesting baseVestingAccount))
      (Errorf "vesting amount cannot be greater than total amount");;
    Ok (KLazy (mkLazy baseVestingAccount (schedules_of_map m))).

Definition kind_Validate (addr : AccAddress) (k : AccountKind E V) : res unit :=
  match k with KLazy lgva => Validate lgva | _ => base_Validate addr end.

(** The address: a text, or the name of a key. *)
Definition find_address (arg : string) : res AccAddress :=
  match AccAddressFromBech32 arg with
  | Err _ => wrap_err (Errorf "failed to get address from Keybase") (KeyAddress arg)
  | r => r
  end.

(** The new account in the state of auth, the new balance in that of bank. *)
Definition add_account (addr : AccAddress) (kind : AccountKind E V) (appState : gmap string J)
    : res (gmap string J) :=
  authGenState ← auth_state (appState !! "auth"%string);
  accs ← wrap_err (Errorf "failed to get accounts from any") (UnpackAccounts (Accounts authGenState));
  fail_if (Contains accs addr) (Errorf "cannot add account at existing address");;
  let accs := SanitizeGenesisAccounts (accs ++ [mkAccount addr 0 kind]) in
  genAccs ← wrap_err (Errorf "failed to convert accounts into any's") (PackAccounts accs);
  bz ← wrap_err (Errorf "failed to marshal auth genesis state")
         (marshal_auth (mkAuth genAccs (auth_rest authGenState)));
  Ok (<["auth"%string := bz]> appState).

Definition add_balance (balances : Balance) (appState : gmap string J) : res (gmap string J) :=
  bankGenState ← bank_state (appState !! "bank"%string);
  let bs := SanitizeGenesisBalances (Balances bankGenState ++ [balances]) in
  supply ← coins_add (Supply bankGenState) (BCoins balances);
  bz ← wrap_err (Errorf "failed to marshal bank genesis state")
         (marshal_bank (mkBank bs supply (bank_rest bankGenState)));
  Ok (<["bank"%string := bz]> appState).

(** The arguments and flags of the command. *)
Record Input : Type := mkInput {
  Arg0 : string; Arg1 : string; FlagVestingAmt : string; FlagVestingSchedules : string }.

(** The command; the result is the genesis that it writes. *)
Definition AddGenesisAccount (genDoc : GenesisDoc J) (input : Input) : res (GenesisDoc J) :=
  addr ← find_address (Arg0 input);
  coins ← wrap_err (Errorf "failed to parse coins") (ParseCoinsNormalized (Arg1 input));
  vestingAmt ← wrap_err (Errorf "failed to parse vesting amount") (ParseCoinsNormalized (FlagVestingAmt input));
  let balances := mkBalance (AccAddressString addr) (coins_sort coins) in
  kind ← vesting_kind (GenesisTime genDoc) coins vestingAmt (FlagVestingSchedules input);
  wrap_err (Errorf "failed to validate new genesis account") (kind_Validate addr kind);;
  appState ← add_account addr kind (AppState genDoc);
  appState ← add_balance balances appState;
  let genDoc := mkDoc (GenesisTime genDoc) appState in
  ExportGenesisFile genDoc;;
  Ok genDoc.

(** ** [testnet] *)

(** [MustUnmarshalJSON], which panics on nil. *)
Definition MustUnmarshal {T} (read : option J -> res T) (raw : option J) : res T :=
  match raw with Some _ => must (read raw) | None => Panic end.

(** [initGenFiles]: the accounts and balances replace those of the default
    genesis, which is an argument. *)
Definition initGenFiles (appGenState : gmap string J) (genAccounts : list (GenesisAccount E V))
    (genBalances : list Balance) : res (gmap string J) :=
  authGenState ← MustUnmarshal auth_state (appGenState !! "auth"%string);
  accounts ← PackAccounts genAccounts;
  bz ← must (marshal_auth (mkAuth accounts (auth_rest authGenState)));
  let appGenState := <["auth"%string := bz]> appGenState in
  bankGenState ← MustUnmarshal bank_state (appGenState !! "bank"%string);
  bz ← must (marshal_bank (mkBank genBalances (Supply bankGenState) (bank_rest bankGenState)));
  Ok (<["bank"%string := bz]> appGenState).

End command.

Arguments Input : clear implicits.

(** [calculateIP]: the last byte is incremented once for every node before. *)
Definition calculateIP (ipv4 : option (Z * Z * Z * Z)) (i : nat) : res (Z * Z * Z * Z) :=
  match ipv4 with
  | None => Err (Errorf "non ipv4 address")
  | Some (a, b, c, d) => Ok (a, b, c, Nat.iter i (fun x => (x + 1) mod 256) d)
  end.

(** ** The genesis after the command *)

Section facts.
Context {M : SdkMath} {ML : SdkMathLaws M} {C : SdkCoins} {CL : SdkCoinsLaws M C} {A : Bech32}.
Context {R : GoRange} {RL : GoRangeLaws R}.
Context {E V P AR BR J : Type} {BV : BaseVestingAccount V} {BL : BaseVestingLaws V BV}.
Context {GC : GenesisCodec E V P AR BR J} {GL : GenesisCodecLaws GC}.
Context (ParseCoinsNormalized : string -> res (list Coin)) (NewDecFromStr : string -> res Dec).
Context (coins_is_any_gt : list Coin -> list Coin -> bool).
Context (KeyAddress : string -> res AccAddress) (base_Validate : AccAddress -> res unit).
Context (ExportGenesisFile : GenesisDoc J -> res unit).

Abbreviation command := (AddGenesisAccount ParseCoinsNormalized NewDecFromStr coins_is_any_gt KeyAddress
  base_Validate ExportGenesisFile).

(** Accounts, balances and supply of a genesis. *)
Definition genesis_view (appState : gmap string J)
    : res (list (GenesisAccount E V) * list Balance * list Coin) :=
  auth ← auth_state (appState !! "auth"%string);
  accs ← UnpackAccounts (Accounts auth);
  bank ← bank_state (appState !! "bank"%string);
  Ok (accs, Balances bank, Supply bank).

Definition identity (a : GenesisAccount E V) : AccAddress * AccountKind E V := (account_address a, account_kind a).

(** What an address holds of a denomination, and what all hold. *)
Definition held (bs : list Balance) (a d : string) : Z :=
  sumZ (fun b => if_eq (BAddress b) a (amt (BCoins b) d)) bs.

Definition total (bs : list Balance) (d : string) : Z := sumZ (fun b => amt (BCoins b) d) bs.

Lemma sorted_amt cs d : amt (coins_sort cs) d = amt cs d.
Proof. apply amt_perm, coins_sort_perm. Qed.

Lemma sanitized_sum (f : string -> Z -> Z) bs d :
  sumZ (fun b => f (BAddress b) (amt (BCoins b) d)) (SanitizeGenesisBalances bs) =
  sumZ (fun b => f (BAddress b) (amt (BCoins b) d)) bs.
Proof.
  rewrite (sumZ_perm _ _ _ (sanitize_balances bs)), sumZ_fmap. cbn.
  induction bs as [|b bs IH]; [done|]. by rewrite !sumZ_cons, IH, sorted_amt.
Qed.

Lemma add_account_spec addr kind app app' :
  add_account addr kind app = Ok app' ->
  exists auth auth' accs accs',
    auth_state (app !! "auth"%string) = Ok auth /\ UnpackAccounts (Accounts auth) = Ok accs /\
    auth_state (app' !! "auth"%string) = Ok auth' /\ UnpackAccounts (Accounts auth') = Ok accs' /\
    (addr ∉ account_address <$> accs) /\ (identity <$> accs' ≡ₚ (addr, kind) :: (identity <$> accs)) /\
    (forall m, m <> "auth"%string -> app' !! m = app !! m).
Proof.
  unfold add_account. intros H. go_inv. eexists _, (mkAuth v2 (auth_rest v)), _, _.
  split; [done|]. split; [done|]. rewrite lookup_insert_eq. split; [by apply auth_round|].
  split; [by eapply pack_round|]. split; [by rewrite <- contains_spec, Hv1|]. split.
  - unfold identity. rewrite sanitize_accounts, fmap_app. cbn. by rewrite <- Permutation_cons_append.
  - intros m Hm. by rewrite lookup_insert_ne.
Qed.

Lemma add_balance_spec b app app' :
  add_balance b app = Ok app' ->
  exists bank bank', bank_state (app !! "bank"%string) = Ok bank /\ bank_state (app' !! "bank"%string) = Ok bank' /\
    (forall a d, held (Balances bank') a d = held (Balances bank) a d + if_eq (BAddress b) a (amt (BCoins b) d)) /\
    (forall d, total (Balances bank') d = total (Balances bank) d + amt (BCoins b) d) /\
    (forall d, amt (Supply bank') d = amt (Supply bank) d + amt (BCoins b) d) /\
    (forall m, m <> "bank"%string -> app' !! m = app !! m).
Proof.
  unfold add_balance. intros H. go_inv. eexists _, (mkBank _ v0 (bank_rest v)).
  split; [done|]. rewrite lookup_insert_eq. split; [by apply bank_round|]. cbn [Balances Supply].
  split; [|split; [|split]].
  - intros a d. unfold held. rewrite (sanitized_sum (fun x z => if_eq x a z)), sumZ_app, sumZ_cons, sumZ_nil. lia.
  - intros d. unfold total. rewrite (sanitized_sum (fun _ z => z)), sumZ_app, sumZ_cons, sumZ_nil. lia.
  - intros d. by apply coins_add_amt.
  - intros m Hm. by rewrite lookup_insert_ne.
Qed.

(** The account that a run adds. *)
Definition new_account (doc : GenesisDoc J) (input : Input)
    : res (AccAddress * list Coin * AccountKind E V) :=
  addr ← find_address KeyAddress (Arg0 input);
  coins ← ParseCoinsNormalized (Arg1 input);
  vestingAmt ← ParseCoinsNormalized (FlagVestingAmt input);
  kind ← vesting_kind NewDecFromStr coins_is_any_gt (GenesisTime doc) coins vestingAmt (FlagVestingSchedules input);
  Ok (addr, coins, kind).

(** What a run does to the genesis: the account of the input is new, it and its
    coins are added, and nothing else changes. *)
Definition added (doc : GenesisDoc J) (input : Input) (doc' : GenesisDoc J) : Prop :=
  exists addr coins kind accs bs sup accs' bs' sup',
    new_account doc input = Ok (addr, coins, kind) /\
    genesis_view (AppState doc) = Ok (accs, bs, sup) /\ genesis_view (AppState doc') = Ok (accs', bs', sup') /\
    (addr ∉ account_address <$> accs) /\ (identity <$> accs' ≡ₚ (addr, kind) :: (identity <$> accs)) /\
    (forall a d, held bs' a d = held bs a d + if_eq (AccAddressString addr) a (amt coins d)) /\
    (forall d, total bs' d = total bs d + amt coins d) /\
    (forall d, amt sup' d = amt sup d + amt coins d) /\
    (forall m, m <> "auth"%string -> m <> "bank"%string -> AppState doc' !! m = AppState doc !! m).

Lemma command_adds doc input doc' : command doc input = Ok doc' -> added doc input doc'.
Proof.
  unfold AddGenesisAccount. intros H. go_inv.
  apply add_account_spec in Hv4 as (auth & auth' & accs & accs' & H1 & H2 & H3 & H4 & Hn & Hi & Hm).
  apply add_balance_spec in Hv5 as (bank & bank' & H5 & H6 & Hh & Ht & Hs & Hm').
  cbn [BAddress BCoins] in *. setoid_rewrite sorted_amt in Hh. setoid_rewrite sorted_amt in Ht.
  setoid_rewrite sorted_amt in Hs. rewrite Hm in H5 by done.
  exists v, v0, v2, accs, (Balances bank), (Supply bank), accs', (Balances bank'), (Supply bank').
  split; [unfold new_account; rewrite Hv; cbn; rewrite Hv0; cbn; rewrite Hv1; cbn; by rewrite Hv2|].
  unfold genesis_view. cbn [AppState]. split; [rewrite H1; cbn; rewrite H2; cbn; by rewrite H5|].
  split; [rewrite (Hm' "auth"%string), H3 by done; cbn; rewrite H4; cbn; by rewrite H6|].
  repeat (split; [done|]). intros m Ha Hb. by rewrite Hm', Hm.
Qed.

(** A genesis with one account for each address and a supply that is the sum of
    the balances. *)
Definition genesis_ok (doc : GenesisDoc J) : Prop :=
  exists accs bs sup, genesis_view (AppState doc) = Ok (accs, bs, sup) /\
    NoDup (account_address <$> accs) /\ forall d, amt sup d = total bs d.

(** Runs of the command, one after the other, keep a genesis well formed: every
    address has one account, and the supply is the sum of the balances. *)
Theorem runs_keep_genesis inputs doc doc' :
  genesis_ok doc -> foldM command inputs doc = Ok doc' -> genesis_ok doc'.
Proof.
  intros Hok. apply (foldM_inv genesis_ok); [|done]. clear doc doc' Hok.
  intros doc input doc1 _ (accs & bs & sup & Hv & Hnd & Hs) Hc.
  apply command_adds in Hc as (addr & coins & kind & accs0 & bs0 & sup0 & accs' & bs' & sup' & _ & E0 & E1 & Hn & Hi & _ & Ht & Hs' & _).
  rewrite Hv in E0. injection E0 as <- <- <-. exists accs', bs', sup'. split; [done|]. split.
  - apply (fmap_Permutation fst) in Hi. cbn in Hi. rewrite <- !list_fmap_compose in Hi.
    change (fst ∘ identity) with (@account_address E V) in Hi. rewrite Hi. by constructor.
  - intros d. by rewrite Hs', Ht, Hs.
Qed.

(** *** Vesting accounts *)

(** The intervals of a denomination, in the order of the flag. *)
Definition entries_of (d : string) (entries : list (string * Schedule)) : list Schedule :=
  snd <$> List.filter (fun e => String.eqb e.1 d) entries.

(** What the loop leaves for a denomination, from what was there. *)
Definition extended (d : string) (o : option VestingSchedule) (l : list Schedule) : option VestingSchedule :=
  match o, l with
  | None, [] => None
  | None, _ => Some (mkVestingSchedule d l)
  | Some vs, _ => Some (mkVestingSchedule (SDenom vs) (Schedules vs ++ l))
  end.

Lemma extended_cons d o x l :
  extended d (Some (match o with
                    | Some vs => mkVestingSchedule (SDenom vs) (Schedules vs ++ [x])
                    | None => mkVestingSchedule d [x]
                    end)) l = extended d o (x :: l).
Proof. destruct o as [vs|]; [|done]. cbn. by rewrite <- app_assoc. Qed.

Lemma parse_schedules_spec time l m0 m :
  foldM (parse_schedule NewDecFromStr time) l m0 = Ok m ->
  exists entries, Forall2 (fun s e => parse_entry NewDecFromStr time s = Ok e) l entries /\
    forall d, m !! d = extended d (m0 !! d) (entries_of d entries).
Proof.
  revert m0. induction l as [|s l IH]; intros m0 H; cbn in H.
  { injection H as <-. exists []. split; [constructor|]. intros d. cbn. destruct (m0 !! d) as [[]|]; cbn; by rewrite ?app_nil_r. }
  go_inv. unfold parse_schedule in Hv. go_inv. apply IH in H as (entries & He & Hm).
  eexists (_ :: entries). split; [by constructor|]. intros d. rewrite Hm. unfold entries_of. cbn.
  destruct (String.eqb_spec x d) as [->|Hd]; [rewrite lookup_insert_eq; apply extended_cons|by rewrite lookup_insert_ne].
Qed.

Lemma find_schedule_map (l : list (string * VestingSchedule)) d :
  NoDup l.*1 ->
  find_schedule d ((fun e => mkVestingSchedule e.1 (Schedules e.2)) <$> l) =
  (fun vs => mkVestingSchedule d (Schedules vs)) <$> (list_to_map l : gmap string VestingSchedule) !! d.
Proof.
  induction l as [|[k vs] l IH]; [done|]. cbn. intros [Hk Hnd]%NoDup_cons.
  destruct (String.eqb_spec k d) as [->|Hd]; [by rewrite lookup_insert_eq|]. rewrite lookup_insert_ne by done. auto.
Qed.

(** The order in which Go visits the map does not matter for the schedule that
    the account has for a denomination. *)
Lemma find_schedules_of_map m d :
  find_schedule d (schedules_of_map m) = (fun vs => mkVestingSchedule d (Schedules vs)) <$> m !! d.
Proof.
  pose proof (range_perm 0 _ m) as Hp. assert (Hnd : NoDup (range 0 m).*1) by (rewrite Hp; apply NoDup_fst_map_to_list).
  unfold schedules_of_map. rewrite find_schedule_map by done. f_equal.
  rewrite (list_to_map_proper _ (map_to_list m)) by done. by rewrite list_to_map_to_list.
Qed.

Lemma validated_schedule (l : list VestingSchedule) acc r vs :
  foldM validate_schedule l acc = Ok r -> vs ∈ l -> VestingSchedule_Validate vs = Ok tt.
Proof.
  revert acc. induction l as [|x l IH]; intros acc H Hin; [by apply not_elem_of_nil in Hin|]. cbn in H. go_inv.
  apply elem_of_cons in Hin as [->|Hin]; [|by eapply IH].
  unfold validate_schedule in Hv. go_inv. by repeat match goal with u : unit |- _ => destruct u end.
Qed.

(** The check of the amounts: what vests of a coin is at most the balance, if
    there is any balance of this coin. *)
Definition any_gt_law : Prop := forall a b, denoms_wf (coin_denom <$> b) ->
  coins_is_any_gt a b = true <-> exists c, c ∈ a /\ amt b (coin_denom c) <> 0 /\ amt b (coin_denom c) < coin_amount c.

Lemma sorted_denoms cs : NoDup (coin_denom <$> cs) -> denoms_wf (coin_denom <$> coins_sort cs).
Proof. intros H. split; [by rewrite coins_sort_perm|apply coins_sort_sorted]. Qed.

(** C30. A vesting account that the command accepts: every coin that vests has the
    intervals that the flag lists for it, in their order and whatever the order
    of the map was; they are well formed and their shares add up to one, up to
    half of the ninth decimal; and no more vests of a coin than the account
    holds, if it holds some.  The example of the help text breaks the rule on
    shares and is refused ([help_example_refused]). *)
Theorem vesting_account_sound doc input doc' vestingAmt :
  any_gt_law -> command doc input = Ok doc' ->
  ParseCoinsNormalized (FlagVestingAmt input) = Ok vestingAmt -> coins_is_zero vestingAmt = false ->
  exists addr coins lgva entries,
    new_account doc input = Ok (addr, coins, KLazy lgva) /\
    Forall2 (fun s e => parse_entry NewDecFromStr (GenesisTime doc) s = Ok e)
      (Split "," (FlagVestingSchedules input)) entries /\
    OriginalVesting (Base lgva) = coins_sort vestingAmt /\
    forall c, c ∈ vestingAmt ->
      (exists vs, GetVestingSchedule lgva (coin_denom c) = Some vs /\
         Schedules vs = entries_of (coin_denom c) entries /\
         Forall (fun s => 0 <= StartTime s <= EndTime s /\ 0 < Ratio s) (Schedules vs) /\
         2 * fixedPointDecimals * Z.abs (sumZ Ratio (Schedules vs) - OneDec) <= precision) /\
      (NoDup (coin_denom <$> coins) -> amt coins (coin_denom c) <> 0 -> coin_amount c <= amt coins (coin_denom c)).
Proof.
  intros Hgt H Hvest Hz. unfold AddGenesisAccount in H. go_inv. assert (v1 = vestingAmt) as -> by congruence.
  unfold new_account. rewrite Hv. cbn. rewrite Hv0. cbn. rewrite Hvest. cbn. rewrite Hv2. cbn.
  unfold vesting_kind in Hv2. rewrite Hz in Hv2. go_inv.
  rename select (foldM _ _ _ = Ok _) into Hp. rename select (existsb _ _ = false) into Hex.
  rename select (exceeds _ _ _ = false) into Hle.
  apply parse_schedules_spec in Hp as (entries & He & Hm). eexists _, _, _, entries.
  split; [reflexivity|]. split; [done|]. cbn [Base]. rewrite original_of_new in *. split; [done|]. intros c Hc. split.
  - apply not_true_iff_false in Hex. rewrite existsb_exists in Hex. unfold GetVestingSchedule. cbn [VestingSchedules].
    destruct (v1 !! coin_denom c) as [vs|] eqn:Ec.
    2:{ destruct Hex. exists c. split; [by apply list_elem_of_In|]. by rewrite Ec. }
    assert (Hf : find_schedule (coin_denom c) (schedules_of_map v1) = Some (mkVestingSchedule (coin_denom c) (Schedules vs)))
      by (by rewrite find_schedules_of_map, Ec).
    rewrite Hf. eexists. split; [reflexivity|]. cbn [Schedules]. split.
    + rewrite Hm, lookup_empty in Ec. cbn in Ec. by destruct (entries_of _ _); simplify_eq.
    + apply find_schedule_in in Hf as [Hin _]. cbn in Hv3. unfold Validate in Hv3. go_inv. cbn [VestingSchedules] in *.
      select (foldM validate_schedule _ _ = _) (fun H => eapply validated_schedule in H; [|exact Hin]).
      by eapply VestingSchedule_Validate_Ok.
  - intros Hnd Hh. unfold exceeds in Hle. apply orb_false_iff in Hle as [_ Hg]. apply not_true_iff_false in Hg.
    apply Z.le_ngt. intros Hlt. apply Hg, Hgt; [by apply sorted_denoms|]. exists c. rewrite sorted_amt, coins_sort_perm. done.
Qed.

(** The check does not see coins of which the account holds nothing: an account
    may vest any amount of them, as long as it holds some other coin. *)
Theorem unfunded_vesting_passes coins vestingAmt :
  any_gt_law -> NoDup (coin_denom <$> coins) -> coins_is_zero (coins_sort coins) = false ->
  (forall c, c ∈ vestingAmt -> amt coins (coin_denom c) = 0) ->
  exceeds coins_is_any_gt (coins_sort coins) (coins_sort vestingAmt) = false.
Proof.
  intros Hgt Hnd Hz Hv. unfold exceeds. rewrite Hz. cbn. apply not_true_iff_false.
  intros Hg. apply (Hgt _ _ (sorted_denoms _ Hnd)) in Hg. destruct Hg as (c & Hc & Hne & _).
  rewrite sorted_amt in Hne. rewrite coins_sort_perm in Hc. by apply Hne, Hv.
Qed.

(** *** The test network *)

(** The genesis of a test network has the accounts and balances of the nodes. *)
Theorem testnet_genesis app accs bs app' :
  initGenFiles app accs bs = Ok app' ->
  exists sup, genesis_view app' = Ok (accs, bs, sup) /\
    forall m, m <> "auth"%string -> m <> "bank"%string -> app' !! m = app !! m.
Proof.
  unfold initGenFiles, MustUnmarshal, genesis_view. intros H. go_inv. repeat case_match; go_inv.
  rename select (marshal_auth _ = _) into Ha. rename select (PackAccounts _ = _) into Hp.
  rename select (marshal_bank _ = _) into Hb. apply auth_round in Ha. apply pack_round in Hp. apply bank_round in Hb.
  eexists. rewrite (lookup_insert_ne _ "bank" "auth"), (lookup_insert_eq _ "auth"), Ha by done. cbn. rewrite Hp. cbn.
  rewrite lookup_insert_eq, Hb. split; [reflexivity|].
  intros m H1 H2. by rewrite !lookup_insert_ne.
Qed.

End facts.

(** Two nodes of a test network get the same address exactly if their numbers
    differ by a multiple of 256. *)
Theorem node_addresses_collide a b c d i j :
  0 <= d < 256 ->
  calculateIP (Some (a, b, c, d)) i = calculateIP (Some (a, b, c, d)) j <-> (Z.of_nat i mod 256 = Z.of_nat j mod 256).
Proof.
  intros Hd. assert (Hn : forall n, Nat.iter n (fun x => (x + 1) mod 256) d = (d + Z.of_nat n) mod 256).
  { induction n as [|n IH]; [cbn; rewrite Z.add_0_r, Z.mod_small; lia|].
    rewrite Nat.iter_succ, IH, Zplus_mod_idemp_l. f_equal. lia. }
  unfold calculateIP. rewrite !Hn. split.
  - intros [= H]. Z.div_mod_to_equations. lia.
  - intros H. by rewrite (Zplus_mod d (Z.of_nat i)), H, <- Zplus_mod.
Qed.

(** ** A genesis with two accounts *)

Module GenAccountsExample.
Import VestingExample.
#[local] Existing Instance ref_math.
#[local] Existing Instance ref_coins.
#[local] Existing Instance ref_bech32.

#[local] Instance list_range : GoRange := {| range _ _ m := map_to_list m |}.

#[local] Instance list_range_laws : GoRangeLaws list_range.
Proof. by split. Qed.

Abbreviation Acc := (GenesisAccount unit (list Coin)).
Abbreviation Auth := (AuthGenesis Acc unit).
Abbreviation Bank := (BankGenesis unit).

(** States are stored as they are. *)
#[local] Instance plain_codec : GenesisCodec unit (list Coin) Acc unit unit (Auth + Bank) := {|
  auth_state o := match o with Some (inl g) => Ok g | Some (inr _) => Panic | None => Ok (mkAuth [] tt) end;
  marshal_auth g := Ok (inl g);
  bank_state o := match o with Some (inr g) => Ok g | Some (inl _) => Panic | None => Ok (mkBank [] [] tt) end;
  marshal_bank g := Ok (inr g);
  UnpackAccounts l := Ok l;
  PackAccounts l := Ok l;
  SanitizeGenesisAccounts l := l;
  SanitizeGenesisBalances l := (fun b => mkBalance (BAddress b) (coins_sort (BCoins b))) <$> l;
  Contains accs a := existsb (fun x => String.eqb (account_address x) a) accs |}.

#[local] Instance plain_codec_laws : GenesisCodecLaws plain_codec.
Proof.
  split; cbn; try (intros; by simplify_eq). intros accs a. rewrite existsb_exists, list_elem_of_fmap.
  setoid_rewrite String.eqb_eq. setoid_rewrite <- list_elem_of_In. naive_solver.
Qed.

Definition parse_coins (s : string) : res (list Coin) :=
  match s with
  | "" => Ok []
  | "900uluna" => Ok [mkCoin "uluna" 900]
  | "900uluna,7uusd" => Ok [mkCoin "uluna" 900; mkCoin "uusd" 7]
  | "10000000000uluna,1000000ukrw" => Ok [mkCoin "ukrw" 1000000; mkCoin "uluna" 10000000000]
  | _ => Err (Errorf "coins")
  end%string.

Definition parse_dec (s : string) : res Dec :=
  match s with "1" => Ok OneDec | "0.5" => Ok (NewDecWithPrec 5 1) | "0.1" => Ok (NewDecWithPrec 1 1)
  | _ => Err (Errorf "decimal") end%string.

Definition any_gt (a b : list Coin) : bool :=
  existsb (fun c => negb (amt b (coin_denom c) =? 0) && (amt b (coin_denom c) <? coin_amount c)) a.

Lemma any_gt_ok : any_gt_law any_gt.
Proof.
  intros a b _. unfold any_gt. rewrite existsb_exists. setoid_rewrite andb_true_iff. setoid_rewrite negb_true_iff.
  setoid_rewrite Z.eqb_neq. setoid_rewrite Z.ltb_lt. by setoid_rewrite <- list_elem_of_In.
Qed.

Definition empty_doc : GenesisDoc (Auth + Bank) := mkDoc 1600000000 ∅.

Definition plain_input : Input := mkInput "tbob" "900uluna,7uusd" "" "".
Definition vesting_input : Input := mkInput "tann" "900uluna,7uusd" "900uluna" "uluna|0|30|0.5,uluna|30|60|0.5".

Definition run : GenesisDoc (Auth + Bank) -> Input -> res (GenesisDoc (Auth + Bank)) :=
  AddGenesisAccount parse_coins parse_dec any_gt (fun _ => Err (Errorf "no key")) (fun _ => Ok tt) (fun _ => Ok tt).

Lemma empty_ok : genesis_ok empty_doc.
Proof. exists [], [], []. split; [done|]. split; [constructor|done]. Qed.

Definition two_accounts : GenesisDoc (Auth + Bank) :=
  Eval vm_compute in match foldM run [plain_input; vesting_input] empty_doc with Ok d => d | _ => empty_doc end.

Lemma runs_keep_genesis_witness : genesis_ok two_accounts /\ two_accounts <> empty_doc.
Proof.
  split; [|vm_compute; congruence].
  apply (runs_keep_genesis parse_coins parse_dec any_gt (fun _ => Err (Errorf "no key")) (fun _ => Ok tt)
    (fun _ => Ok tt) [plain_input; vesting_input] empty_doc two_accounts empty_ok).
  vm_compute. reflexivity.
Defined.

Definition ann_only : GenesisDoc (Auth + Bank) :=
  Eval vm_compute in match run empty_doc vesting_input with Ok d => d | _ => empty_doc end.

Lemma vesting_account_sound_witness :
  exists lgva vs,
    new_account (E:=unit) parse_coins parse_dec any_gt (fun _ => Err (Errorf "no key")) empty_doc vesting_input =
      Ok ("ann"%string, [mkCoin "uluna" 900; mkCoin "uusd" 7], KLazy lgva) /\
    GetVestingSchedule lgva "uluna" = Some vs /\ length (Schedules vs) = 2%nat.
Proof.
  destruct (vesting_account_sound parse_coins parse_dec any_gt (fun _ => Err (Errorf "no key")) (fun _ => Ok tt)
    (fun _ => Ok tt) empty_doc vesting_input ann_only [mkCoin "uluna" 900] any_gt_ok)
    as (addr & coins & lgva & entries & Hn & He & _ & Hv); [vm_compute; reflexivity..|].
  destruct (Hv (mkCoin "uluna" 900)) as [(vs & Hvs & Hs & _) _]; [by left|].
  vm_compute in Hn. injection Hn as <- <- <-. eexists _, vs. split; [vm_compute; reflexivity|]. split; [exact Hvs|].
  vm_compute in Hvs. injection Hvs as <-. reflexivity.
Defined.

(** The example of the help text of the command: a tenth of the Luna vests, so
    the shares do not add up to one and the account is refused.  With shares
    that do, it is accepted. *)
Definition help_input (schedules : string) : Input :=
  mkInput "acc1" "10000000000uluna,1000000ukrw" "10000000000uluna,1000000ukrw" schedules.

Definition run_key : GenesisDoc (Auth + Bank) -> Input -> res (GenesisDoc (Auth + Bank)) :=
  AddGenesisAccount parse_coins parse_dec any_gt (fun _ => Ok "acc"%string) (fun _ => Ok tt) (fun _ => Ok tt).

Lemma help_example_refused :
  (exists e, run_key empty_doc (help_input "uluna|30|60|0.1,ukrw|0|30|1") = Err e) /\
  (exists doc, run_key empty_doc (help_input "uluna|30|60|1,ukrw|0|30|1") = Ok doc).
Proof. split; eexists; vm_compute; reflexivity. Qed.

End GenAccountsExample.
