(* ===== verification/Ante.v ===== *)
(** * The transaction checks of [src/custom/auth/ante]

    The two decorators the repository adds to the SDK's ante handler: the
    stability tax ([tax.go]) and the rate limit on the free oracle
    transactions ([spamming_prevention.go]).  Both are written against the
    interfaces of [expected_keeper.go]; the treasury of [Treasury] and the
    oracle store of [OracleStore] are shown to implement them. *)

From Stdlib Require Import ZArith Lia Bool.
From stdpp Require Import base strings list gmap.
From S2P Require Import Prelude Loops Sdk SdkRef Core OracleStore Market Treasury.
Local Open Scope Z_scope.

(** ** Messages

    The message types the decorators tell apart, with the fields they read;
    [MsgExec] holds what its [GetMessages] returns, [None] for the error of a
    value that is not a message. *)

Inductive Msg : Type :=
| MsgSend (Amount : list Coin)
| MsgMultiSend (Inputs : list (list Coin))
| MsgSwapSend (msg : Market.MsgSwapSend)
| MsgInstantiateContract (InitCoins : list Coin)
| MsgExecuteContract (Coins : list Coin)
| MsgExec (messages : option (list Msg))
| MsgAggregateExchangeRatePrevote (msg : OracleStore.MsgAggregateExchangeRatePrevote)
| MsgAggregateExchangeRateVote (msg : OracleStore.MsgAggregateExchangeRateVote)
| MsgOther.

(** Induction through the nested lists of [MsgExec]. *)
Section Msg_induction.
Context (P : Msg -> Prop).
Context (Hsend : forall a, P (MsgSend a)) (Hmulti : forall i, P (MsgMultiSend i)).
Context (Hswap : forall m, P (MsgSwapSend m)).
Context (Hinst : forall c, P (MsgInstantiateContract c)) (Hexe : forall c, P (MsgExecuteContract c)).
Context (Hexec : forall msgs, Forall P msgs -> P (MsgExec (Some msgs))) (Hbad : P (MsgExec None)).
Context (Hpre : forall m, P (MsgAggregateExchangeRatePrevote m)).
Context (Hvote : forall m, P (MsgAggregateExchangeRateVote m)) (Hother : P MsgOther).

Fixpoint Msg_nested_ind (m : Msg) : P m :=
  match m with
  | MsgSend a => Hsend a
  | MsgMultiSend i => Hmulti i
  | MsgSwapSend m => Hswap m
  | MsgInstantiateContract c => Hinst c
  | MsgExecuteContract c => Hexe c
  | MsgExec None => Hbad
  | MsgExec (Some msgs) =>
      Hexec msgs
        ((fix all (l : list Msg) : Forall P l :=
            match l with
            | [] => Forall_nil_2 P
            | x :: l' => Forall_cons_2 P x l' (Msg_nested_ind x) (all l')
            end) msgs)
  | MsgAggregateExchangeRatePrevote m => Hpre m
  | MsgAggregateExchangeRateVote m => Hvote m
  | MsgOther => Hother
  end.

End Msg_induction.

(** The part of [sdk.Context] the decorators read, and transactions: only
    some carry a fee. *)
Record AnteCtx : Type := mkAnteCtx {
  ante_ctx : Ctx; IsCheckTx : bool; IsReCheckTx : bool; MinGasPrices : list DecCoin }.

Record FeeTx : Type := mkFeeTx { GetFee : list Coin; GetGas : Z; GetMsgs : list Msg }.

Inductive Tx : Type :=
| IsFeeTx (tx : FeeTx)
| NoFeeTx (msgs : list Msg).

Definition tx_msgs (tx : Tx) : list Msg :=
  match tx with
  | IsFeeTx tx => GetMsgs tx
  | NoFeeTx msgs => msgs
  end.

Definition ErrTxDecode : error := Registered "sdk" "ErrTxDecode".
Definition ErrInsufficientFee : error := Registered "sdk" "ErrInsufficientFee".
Definition ErrInvalidRequest : error := Registered "sdk" "ErrInvalidRequest".

(** [sdk.DefaultBondDenom]. *)
Definition DefaultBondDenom : string := "stake".

(** [MaxOracleMsgGasUsage]. *)
Definition MaxOracleMsgGasUsage : Z := 100000.

(** ** Interfaces ([expected_keeper.go])

    [tax_proceeds] is not called by the decorators: it observes what
    [RecordEpochTaxProceeds] records. *)

Class TreasuryKeeper (T : Type) : Type := {
  get_tax_rate : T -> Dec;
  get_tax_cap : T -> string -> Int;
  record_tax_proceeds : list Coin -> st T unit;
  tax_proceeds : T -> list Coin;
}.

Class TreasuryKeeperLaws (T : Type) (TK : TreasuryKeeper T) : Prop := {
  record_amt cs t t' u d :
    record_tax_proceeds cs t = (Ok u, t') ->
    amt (tax_proceeds t') d = amt (tax_proceeds t) d + amt cs d;
  record_total cs t :
    coins_wf (tax_proceeds t) -> coins_wf cs ->
    (forall d, amt (tax_proceeds t) d + amt cs d < int_bound) ->
    exists t', record_tax_proceeds cs t = (Ok tt, t');
  record_rate cs t t' u : record_tax_proceeds cs t = (Ok u, t') -> get_tax_rate t' = get_tax_rate t;
  record_cap cs t t' u d :
    record_tax_proceeds cs t = (Ok u, t') -> get_tax_cap t' d = get_tax_cap t d;
}.

Class FeederKeeper (O : Type) : Type := {
  validate_feeder : O -> AccAddress -> ValAddress -> res unit;
}.

(** ** The stability tax ([tax.go]) *)

Section tax.
Context {M : SdkMath} {C : SdkCoins}.
Context {T : Type} {TK : TreasuryKeeper T}.

(** [computeTax]. *)
Definition tax_coin (t : T) (taxRate : Dec) (taxes : list Coin) (coin : Coin) : res (list Coin) :=
  if String.eqb (coin_denom coin) MicroLunaDenom || String.eqb (coin_denom coin) DefaultBondDenom
  then Ok taxes
  else
    due ← dec_mul (NewDec (coin_amount coin)) taxRate;
    taxDue ← dec_truncate_int due;
    let taxCap := get_tax_cap t (coin_denom coin) in
    let taxDue := if taxCap <? taxDue then taxCap else taxDue in
    if taxDue =? 0 then Ok taxes
    else
      tax ← new_coin (coin_denom coin) taxDue;
      coins_add taxes [tax].

Definition computeTax (t : T) (principal : list Coin) : res (list Coin) :=
  let taxRate := get_tax_rate t in
  if taxRate =? 0 then Ok []
  else foldM (tax_coin t taxRate) principal [].

Definition add_tax (t : T) (taxes principal : list Coin) : res (list Coin) :=
  tax ← computeTax t principal;
  coins_add taxes tax.

(** The body of the loop of [FilterMsgAndComputeTax]. *)
Fixpoint filter_msg (t : T) (taxes : list Coin) (msg : Msg) : res (list Coin) :=
  match msg with
  | MsgSend Amount => add_tax t taxes Amount
  | MsgMultiSend Inputs => foldM (add_tax t) Inputs taxes
  | MsgSwapSend m =>
      principal ← new_coins [SOfferCoin m];
      add_tax t taxes principal
  | MsgInstantiateContract InitCoins => add_tax t taxes InitCoins
  | MsgExecuteContract Coins => add_tax t taxes Coins
  | MsgExec None => Panic
  | MsgExec (Some messages) =>
      tax ← foldM (filter_msg t) messages [];
      coins_add taxes tax
  | _ => Ok taxes
  end.

Definition FilterMsgAndComputeTax (t : T) (msgs : list Msg) : res (list Coin) :=
  foldM (filter_msg t) msgs [].

(** [isOracleTx]. *)
Definition is_oracle_msg (msg : Msg) : bool :=
  match msg with
  | MsgAggregateExchangeRatePrevote _ | MsgAggregateExchangeRateVote _ => true
  | _ => false
  end.

Definition isOracleTx (msgs : list Msg) : bool := forallb is_oracle_msg msgs.

(** [EnsureSufficientMempoolFees]; the texts of the errors print two sums. *)
Definition gas_fee (gas : Z) (gp : DecCoin) : res Coin :=
  fee ← dec_mul (dcoin_amount gp) (NewDec (to_int64 gas));
  up ← dec_ceil fee;
  amount ← dec_round_int up;
  new_coin (dcoin_denom gp) amount.

Definition required_fees (minGasPrices : list DecCoin) (gas : Z) : res (list Coin) :=
  if deccoins_is_zero minGasPrices then Ok []
  else foldM (fun fees gp => fee ← gas_fee gas gp; Ok (fees ++ [fee])) minGasPrices [].

Definition insufficient_fees (feeCoins requiredFees taxes : list Coin) : res unit :=
  _ ← coins_add feeCoins taxes;
  _ ← coins_add requiredFees taxes;
  Err (Errorf "insufficient fees").

Definition EnsureSufficientMempoolFees (ctx : AnteCtx) (gas : Z) (feeCoins taxes : list Coin)
    : res unit :=
  requiredFees ← required_fees (MinGasPrices ctx) gas;
  '(feeCoins, hasNeg) ← coins_safe_sub feeCoins taxes;
  if (hasNeg : bool) then insufficient_fees feeCoins requiredFees taxes
  else if negb (coins_is_zero requiredFees) && negb (coins_is_any_gte feeCoins requiredFees)
  then insufficient_fees feeCoins requiredFees taxes
  else Ok tt.

End tax.

(** ** The limit on oracle transactions ([spamming_prevention.go])

    The decorator's own state: for each validator text the height of its last
    submission.  The mutex makes a check atomic. *)

Record SpamMaps : Type := mkSpamMaps {
  oraclePrevoteMap : gmap string Z; oracleVoteMap : gmap string Z }.

Definition NewSpamMaps : SpamMaps := mkSpamMaps ∅ ∅.

Definition set_prevote (val : string) (h : Z) (m : SpamMaps) : SpamMaps :=
  mkSpamMaps (<[val := h]> (oraclePrevoteMap m)) (oracleVoteMap m).
Definition set_vote (val : string) (h : Z) (m : SpamMaps) : SpamMaps :=
  mkSpamMaps (oraclePrevoteMap m) (<[val := h]> (oracleVoteMap m)).

Section spam.
Context {A : Bech32} {O : Type} {FK : FeederKeeper O}.

Definition check_feeder (o : O) (feeder validator : string) : res unit :=
  feederAddr ← AccAddressFromBech32 feeder;
  valAddr ← ValAddressFromBech32 validator;
  validate_feeder o feederAddr valAddr.

(** [CheckOracleSpamming]; the first message of another kind ends the loop. *)
Fixpoint CheckOracleSpamming (curHeight : Z) (o : O) (msgs : list Msg) : st SpamMaps unit :=
  match msgs with
  | MsgAggregateExchangeRatePrevote m :: msgs' =>
      lift (check_feeder o (MPFeeder m) (MPValidator m));;
      last ← gets (fun s => oraclePrevoteMap s !! MPValidator m);
      lift (fail_if (bool_decide (last = Some curHeight)) ErrInvalidRequest);;
      modify (set_prevote (MPValidator m) curHeight);;
      CheckOracleSpamming curHeight o msgs'
  | MsgAggregateExchangeRateVote m :: msgs' =>
      lift (check_feeder o (MVFeeder m) (MVValidator m));;
      last ← gets (fun s => oracleVoteMap s !! MVValidator m);
      lift (fail_if (bool_decide (last = Some curHeight)) ErrInvalidRequest);;
      modify (set_vote (MVValidator m) curHeight);;
      CheckOracleSpamming curHeight o msgs'
  | _ => mret tt
  end.

End spam.

(** ** The decorators

    They act on the treasury, on the decorator's maps and read the oracle;
    [next] is the rest of the chain. *)

Record ante_state (T O : Type) : Type := mkAnteState {
  ante_treasury : T; ante_oracle : O; ante_spam : SpamMaps }.
Arguments mkAnteState {_ _} _ _ _.
Arguments ante_treasury {_ _} _.
Arguments ante_oracle {_ _} _.
Arguments ante_spam {_ _} _.

Section decorators.
Context {M : SdkMath} {C : SdkCoins} {A : Bech32}.
Context {T : Type} {TK : TreasuryKeeper T} {O : Type} {FK : FeederKeeper O}.

Abbreviation AnteHandler := (AnteCtx -> Tx -> bool -> st (ante_state T O) AnteCtx).

Definition on_treasury {R} (c : st T R) : st (ante_state T O) R := fun s =>
  let '(r, t) := c (ante_treasury s) in (r, mkAnteState t (ante_oracle s) (ante_spam s)).

Definition on_spam {R} (c : O -> st SpamMaps R) : st (ante_state T O) R := fun s =>
  let '(r, m) := c (ante_oracle s) (ante_spam s) in
  (r, mkAnteState (ante_treasury s) (ante_oracle s) m).

(** The gas under which an oracle transaction pays no fee. *)
Definition fee_exempt (tx : FeeTx) : bool :=
  isOracleTx (GetMsgs tx) &&
  (GetGas tx <=? to_uint64 (Z.of_nat (length (GetMsgs tx)) * MaxOracleMsgGasUsage)).

(** [TaxFeeDecorator.AnteHandle]. *)
Definition TaxFeeDecorator (next : AnteHandler) : AnteHandler := fun ctx tx simulate =>
  match tx with
  | NoFeeTx _ => lift (Err ErrTxDecode)
  | IsFeeTx feeTx =>
      (if negb simulate then
         t ← gets ante_treasury;
         taxes ← lift (FilterMsgAndComputeTax t (GetMsgs feeTx));
         lift (if IsCheckTx ctx && negb (fee_exempt feeTx)
               then wrap_err ErrInsufficientFee
                      (EnsureSufficientMempoolFees ctx (GetGas feeTx) (GetFee feeTx) taxes)
               else Ok tt);;
         '(_, hasNeg) ← lift (coins_safe_sub (GetFee feeTx) taxes);
         lift (fail_if hasNeg ErrInsufficientFee);;
         if negb (coins_is_zero taxes) then on_treasury (record_tax_proceeds taxes) else mret tt
       else mret tt);;
      next ctx tx simulate
  end.

(** [SpammingPreventionDecorator.AnteHandle]. *)
Definition SpammingPreventionDecorator (next : AnteHandler) : AnteHandler := fun ctx tx simulate =>
  if IsReCheckTx ctx then next ctx tx simulate
  else
    (if negb simulate && IsCheckTx ctx
     then on_spam (fun o => CheckOracleSpamming (BlockHeight (ante_ctx ctx)) o (tx_msgs tx))
     else mret tt);;
    next ctx tx simulate.

End decorators.

(** ** The keepers behind the interfaces *)

#[global] Instance treasury_keeper {M : SdkMath} {C : SdkCoins} {K S B : Type}
    : TreasuryKeeper (Treasury.state K S B) := {|
  get_tax_rate s := GetTaxRate (tstore s);
  get_tax_cap s := GetTaxCap (tstore s);
  record_tax_proceeds := RecordEpochTaxProceeds;
  tax_proceeds s := PeekEpochTaxProceeds (tstore s);
|}.

Lemma coins_is_zero_amt {M : SdkMath} {C : SdkCoins} {CL : SdkCoinsLaws M C} (cs : list Coin) (d : string) :
  coins_is_zero cs = true -> amt cs d = 0.
Proof.
  intros H%coins_is_zero_spec. unfold amt. induction H as [|c cs Hc _ IH]; [done|].
  rewrite sumZ_cons, IH, Hc. by destruct (String.eqb _ _).
Qed.

#[global] Instance treasury_keeper_laws {M : SdkMath} {C : SdkCoins} {CL : SdkCoinsLaws M C}
    {K S B : Type} : TreasuryKeeperLaws (Treasury.state K S B) treasury_keeper.
Proof.
  split; cbn; unfold RecordEpochTaxProceeds, on_store.
  - intros cs t t' u d H. destruct (coins_is_zero cs) eqn:E; go_inv.
    + rewrite (coins_is_zero_amt cs) by done. lia.
    + cbn. by apply coins_add_amt.
  - intros cs t Hw Hcs Hb. destruct (coins_is_zero cs); [by eexists|].
    destruct (coins_add_total _ _ Hw Hcs Hb) as [r Hr].
    erewrite (st_bind_step (gets _)) by reflexivity. unfold mbind, st_bind, lift. rewrite Hr. by eexists.
  - intros cs t t' u H. destruct (coins_is_zero cs); by go_inv.
  - intros cs t t' u d H. destruct (coins_is_zero cs); by go_inv.
Qed.

#[global] Instance feeder_keeper {K : Type} {SK : StakingKeeper K}
    : FeederKeeper (K * OracleStore.store) := {|
  validate_feeder o := ValidateFeeder o.1 o.2;
|}.

(** ** The tax, as a function of the coins a transaction moves *)

(** The coins a message moves, those of a wrapped message included. *)
Fixpoint taxable (msg : Msg) : list Coin :=
  match msg with
  | MsgSend cs | MsgInstantiateContract cs | MsgExecuteContract cs => cs
  | MsgMultiSend Inputs => concat Inputs
  | MsgSwapSend m => [SOfferCoin m]
  | MsgExec (Some msgs) => flat_map taxable msgs
  | _ => []
  end.

(** Every [MsgExec] of the message holds messages. *)
Fixpoint decodable (msg : Msg) : bool :=
  match msg with
  | MsgExec None => false
  | MsgExec (Some msgs) => forallb decodable msgs
  | _ => true
  end.

(** What is due on a list of coins, when [due] says it of one coin. *)
Section due_on.
Context (due : Coin -> Z).

Definition due_on (cs : list Coin) (d : string) : Z :=
  sumZ (fun c => if String.eqb (coin_denom c) d then due c else 0) cs.

Lemma due_on_app cs1 cs2 d : due_on (cs1 ++ cs2) d = due_on cs1 d + due_on cs2 d.
Proof. apply sumZ_app. Qed.

Lemma due_on_flat_map {X} (f : X -> list Coin) l d :
  due_on (flat_map f l) d = sumZ (fun x => due_on (f x) d) l.
Proof. induction l as [|x l IH]; cbn; [done|]. by rewrite due_on_app, sumZ_cons, IH. Qed.

Lemma due_on_concat l d : due_on (concat l) d = sumZ (fun cs => due_on cs d) l.
Proof. induction l as [|x l IH]; cbn; [done|]. by rewrite due_on_app, sumZ_cons, IH. Qed.

Lemma due_on_single c d : due_on [c] d = if String.eqb (coin_denom c) d then due c else 0.
Proof. unfold due_on, sumZ. cbn. lia. Qed.

Lemma due_on_split cs d : due_on cs d = sumZ (fun c => due_on [c] d) cs.
Proof. apply sumZ_ext, Forall_true. intros c. by rewrite due_on_single. Qed.

End due_on.

(** Both the node and the client walk through the messages in this way, with
    their own way of adding the tax on some coins. *)
Fixpoint walk {C : SdkCoins} (add : list Coin -> list Coin -> res (list Coin)) (taxes : list Coin)
    (msg : Msg) : res (list Coin) :=
  match msg with
  | MsgSend cs | MsgInstantiateContract cs | MsgExecuteContract cs => add taxes cs
  | MsgMultiSend Inputs => foldM add Inputs taxes
  | MsgSwapSend m => principal ← new_coins [SOfferCoin m]; add taxes principal
  | MsgExec None => Panic
  | MsgExec (Some messages) => tax ← foldM (walk add) messages []; coins_add taxes tax
  | _ => Ok taxes
  end.

Lemma filter_msg_walk {M : SdkMath} {C : SdkCoins} {T} {TK : TreasuryKeeper T} (t : T) taxes msg :
  filter_msg t taxes msg = walk (add_tax t) taxes msg.
Proof.
  revert taxes. induction msg using Msg_nested_ind; intros taxes; try done.
  cbn. by rewrite (foldM_ext _ _ _ _ H).
Qed.

(** *** Adding coins to an accumulator *)

Section charges.
Context {M : SdkMath} {ML : SdkMathLaws M} {C : SdkCoins} {CL : SdkCoinsLaws M C}.

(** A loop that adds coins to an accumulator. *)
Lemma foldM_amt {X} (f : list Coin -> X -> res (list Coin)) (g : X -> string -> Z) l acc r d :
  Forall (fun x => forall acc r, f acc x = Ok r -> amt r d = amt acc d + g x d) l ->
  foldM f l acc = Ok r -> amt r d = amt acc d + sumZ (fun x => g x d) l.
Proof.
  intros H. revert acc. induction H as [|x l Hx H IH]; intros acc E; cbn in E; go_inv.
  - rewrite sumZ_nil. lia.
  - rewrite (IH _ E), (Hx _ _ Hv), sumZ_cons. lia.
Qed.

(** A step of such a loop that succeeds on every accumulator with room for
    what it adds. *)
Definition charges (f : list Coin -> res (list Coin)) (g : string -> Z) : Prop :=
  forall acc, coins_wf acc -> (forall d, amt acc d + g d < int_bound) ->
  exists r, f acc = Ok r /\ coins_wf r /\ forall d, amt r d = amt acc d + g d.

Lemma charges_ext f g g' : (forall d, g d = g' d) -> charges f g -> charges f g'.
Proof. intros He H acc Hw Hb. setoid_rewrite <- He. apply H; [done|]. intros d. by rewrite He. Qed.

Lemma charges_skip g : (forall d, g d = 0) -> charges Ok g.
Proof. intros H acc Hw _. exists acc. repeat split; try apply Hw. intros d. rewrite H. lia. Qed.

Lemma foldM_charges {X} (f : list Coin -> X -> res (list Coin)) (g : X -> string -> Z) l :
  Forall (fun x => forall d, 0 <= g x d) l -> Forall (fun x => charges (fun a => f a x) (g x)) l ->
  charges (foldM f l) (fun d => sumZ (fun x => g x d) l).
Proof.
  intros Hpos H. induction H as [|x l Hx H IH]; intros acc Hwf Hb; cbn.
  - exists acc. split; [done|]. split; [done|]. intros d. rewrite sumZ_nil. lia.
  - apply Forall_cons in Hpos as [Hp Hpos].
    assert (forall d, 0 <= sumZ (fun x => g x d) l) as Hs
      by (intros d; apply sumZ_nonneg; eapply Forall_impl; [exact Hpos|naive_solver]).
    destruct (Hx acc Hwf) as (r & Hr & Hrw & Hra).
    { intros d. specialize (Hb d). rewrite sumZ_cons in Hb. specialize (Hs d). lia. }
    destruct (IH Hpos r Hrw) as (r' & Hr' & Hw' & Ha').
    { intros d. rewrite Hra. specialize (Hb d). rewrite sumZ_cons in Hb. lia. }
    exists r'. rewrite Hr. cbn. split; [done|]. split; [done|].
    intros d. rewrite Ha', Hra, sumZ_cons. lia.
Qed.

Lemma add_charges (tax : res (list Coin)) x g :
  tax = Ok x -> coins_wf x -> (forall d, amt x d = g d) ->
  charges (fun acc => tax ← tax; coins_add acc tax) g.
Proof.
  intros -> Hxw Ha acc Hw Hb. cbn. destruct (coins_add_total acc x Hw Hxw) as [r Hr].
  { intros d. rewrite Ha. apply Hb. }
  exists r. split; [done|]. split; [by eapply coins_add_wf|].
  intros d. rewrite (coins_add_amt _ _ _ d Hr), Ha. done.
Qed.

(** A sum with the accumulator that stays in range does so on its own. *)
Lemma charges_room f g :
  ((forall d, g d < int_bound) -> charges f g) -> charges f g.
Proof.
  intros H acc Hw Hb. apply H; [|done|done]. intros d.
  specialize (Hb d). pose proof (coins_wf_nonneg acc d Hw). lia.
Qed.

(** *** Walking the messages

    Amounts below [2^250] leave room for the product with a rate. *)

Definition tax_limit : Z := 2 ^ 250.

Definition coin_ok (c : Coin) : Prop :=
  ValidDenom (coin_denom c) = true /\ 0 <= coin_amount c < tax_limit.

(** The coins moved, bounded per denomination, bound each coin. *)
Lemma coins_ok_of_amt cs :
  Forall (fun c => ValidDenom (coin_denom c) = true /\ 0 <= coin_amount c) cs ->
  (forall d, amt cs d < tax_limit) -> Forall coin_ok cs.
Proof.
  intros H Hb. rewrite Forall_forall in *. intros c Hc. destruct (H c Hc) as [Hd Ha].
  split; [done|]. split; [done|]. eapply Z.le_lt_trans; [|apply (Hb (coin_denom c))].
  apply amt_elem; [|done]. rewrite Forall_forall. intros x Hx. by apply H.
Qed.

Lemma coins_ok_nested (f : Msg -> list Coin) msgs :
  Forall coin_ok (flat_map f msgs) -> Forall (fun m => Forall coin_ok (f m)) msgs.
Proof.
  induction msgs as [|m msgs IH]; cbn; [constructor|]. intros H. apply Forall_app in H as [H1 H2].
  constructor; auto.
Qed.

Context (due : Coin -> Z) (add : list Coin -> list Coin -> res (list Coin)).
Context (Hzero : forall c, coin_amount c = 0 -> due c = 0).

Lemma walk_amt msg acc r d :
  (forall acc cs r, add acc cs = Ok r -> amt r d = amt acc d + due_on due cs d) ->
  walk add acc msg = Ok r -> amt r d = amt acc d + due_on due (taxable msg) d.
Proof.
  intros Hadd. revert acc r. induction msg using Msg_nested_ind; intros acc r E; cbn in E |- *;
    go_inv; try (by apply Hadd); try (change (due_on due [] d) with 0; lia).
  - rewrite due_on_concat. eapply foldM_amt; [|exact E].
    apply Forall_true. intros cs a b. apply Hadd.
  - apply new_coins_single_inv in Hv as ->. apply Hadd in E.
    rewrite E. destruct (Z.eqb_spec (coin_amount (SOfferCoin m)) 0) as [Hz|]; [|done].
    rewrite due_on_single, Hzero by done.
    change (due_on due [] d) with 0. destruct (String.eqb _ _); lia.
  - rewrite (coins_add_amt _ _ _ d E), due_on_flat_map.
    rewrite (foldM_amt (walk add) (fun m => due_on due (taxable m)) msgs [] v d); [done| |done].
    eapply Forall_impl; [exact H|]. naive_solver.
Qed.

Lemma walk_all_amt msgs r d :
  (forall acc cs r, add acc cs = Ok r -> amt r d = amt acc d + due_on due cs d) ->
  foldM (walk add) msgs [] = Ok r -> amt r d = due_on due (flat_map taxable msgs) d.
Proof.
  intros Hadd H. rewrite due_on_flat_map.
  rewrite (foldM_amt (walk add) (fun m => due_on due (taxable m)) msgs [] r d); [done| |done].
  apply Forall_true. intros m acc x. by apply walk_amt.
Qed.

Context (Hdue : forall c, coin_ok c -> 0 <= due c).
Context (Hadd : forall cs, Forall coin_ok cs -> charges (fun acc => add acc cs) (due_on due cs)).

Lemma due_on_nonneg cs d : Forall coin_ok cs -> 0 <= due_on due cs d.
Proof.
  intros H. apply sumZ_nonneg. eapply Forall_impl; [exact H|]. intros c Hc. cbn.
  destruct (String.eqb _ _); [|lia]. by apply Hdue.
Qed.

Lemma walk_all_charges msgs :
  Forall (fun m => Forall coin_ok (taxable m) ->
            charges (fun acc => walk add acc m) (due_on due (taxable m))) msgs ->
  Forall coin_ok (flat_map taxable msgs) ->
  charges (foldM (walk add) msgs) (due_on due (flat_map taxable msgs)).
Proof.
  intros H Hok%coins_ok_nested. eapply charges_ext; [intros d; symmetry; apply due_on_flat_map|].
  apply foldM_charges; rewrite Forall_forall in *; [|by eauto].
  intros m Hm d. apply due_on_nonneg. auto.
Qed.

Lemma walk_charges msg :
  decodable msg = true -> Forall coin_ok (taxable msg) ->
  charges (fun acc => walk add acc msg) (due_on due (taxable msg)).
Proof.
  induction msg using Msg_nested_ind; intros Hdec Hok; cbn in *;
    try (by apply Hadd); try done; try (by apply charges_skip).
  - eapply charges_ext; [intros d; symmetry; apply due_on_concat|].
    apply Forall_concat in Hok. apply foldM_charges; eapply Forall_impl; try exact Hok; cbn.
    + intros cs Hcs d. by apply due_on_nonneg.
    + intros cs Hcs. by apply Hadd.
  - pose proof (proj1 (Forall_singleton _ _) Hok) as [Hd Ha].
    rewrite new_coins_single by (done || lia). cbn.
    destruct (Z.eqb_spec (coin_amount (SOfferCoin m)) 0) as [Hz|]; [|by apply Hadd].
    eapply charges_ext; [|by apply Hadd; constructor]. intros d.
    rewrite due_on_single, Hzero by done. by destruct (String.eqb _ _).
  - apply charges_room. intros Hb.
    assert (charges (foldM (walk add) msgs) (due_on due (flat_map taxable msgs))) as Hc.
    { apply walk_all_charges; [|done]. rewrite forallb_forall in Hdec. rewrite Forall_forall in *.
      intros m Hm. apply H, Hdec; [done|]. by apply list_elem_of_In. }
    destruct (Hc []) as (x & Hx & Hxw & Ha); [auto with go|done|].
    by eapply add_charges.
Qed.

(** The whole loop, started with no coins. *)
Lemma walk_total msgs :
  forallb decodable msgs = true -> Forall coin_ok (flat_map taxable msgs) ->
  (forall d, due_on due (flat_map taxable msgs) d < int_bound) ->
  exists r, foldM (walk add) msgs [] = Ok r /\ coins_wf r /\
            forall d, amt r d = due_on due (flat_map taxable msgs) d.
Proof.
  intros Hdec Hok Hb. destruct (walk_all_charges msgs) with (acc := @nil Coin) as (r & Hx & Hw & Ha).
  - rewrite forallb_forall in Hdec. apply Forall_forall. intros m Hm.
    apply walk_charges, Hdec. by apply list_elem_of_In.
  - done.
  - auto with go.
  - done.
  - by exists r.
Qed.

End charges.

Section tax_facts.
Context {M : SdkMath} {ML : SdkMathLaws M} {C : SdkCoins} {CL : SdkCoinsLaws M C}.
Context {T : Type} {TK : TreasuryKeeper T} (t : T).

(** The tax due on one coin: the rate times the amount, rounded down, at most
    the cap; Luna and the bond denomination are exempt. *)
Definition tax_due (c : Coin) : Z :=
  if (get_tax_rate t =? 0) || (is_luna (coin_denom c) || String.eqb (coin_denom c) DefaultBondDenom)
  then 0
  else Z.min (get_tax_cap t (coin_denom c)) (Z.quot (coin_amount c * get_tax_rate t) precision).

Definition tax_on : list Coin -> string -> Z := due_on tax_due.

Lemma tax_on_free cs d : get_tax_rate t = 0 -> tax_on cs d = 0.
Proof.
  intros H. unfold tax_on, due_on, tax_due. rewrite H. cbn. induction cs as [|c cs IH]; [done|].
  rewrite sumZ_cons, IH. by destruct (String.eqb _ _).
Qed.

(** Multiplying an integer amount by a rate is exact. *)
Lemma dec_mul_whole a r c : dec_mul (NewDec a) r = Ok c -> c = a * r.
Proof.
  intros H%dec_mul_round. unfold NewDec in H.
  replace (c * precision - a * precision * r) with ((c - a * r) * precision) in H by lia.
  rewrite Z.abs_mul in H. pose proof precision_pos. nia.
Qed.

Lemma tax_coin_amt taxes c r d :
  get_tax_rate t <> 0 -> tax_coin t (get_tax_rate t) taxes c = Ok r ->
  amt r d = amt taxes d + tax_on [c] d.
Proof.
  intros Hrate. unfold tax_coin. unfold tax_on; rewrite due_on_single. unfold tax_due, is_luna.
  rewrite (proj2 (Z.eqb_neq _ 0)) by done. cbn.
  destruct (_ || _); [intros [= <-]; destruct (String.eqb _ _); lia|]. intros H. go_inv.
  apply dec_mul_whole in Hv as ->. rewrite dec_truncate_int_spec in Hv0.
  apply checked_Ok in Hv0 as [-> _].
  replace (if _ <? _ then _ else _) with
    (Z.min (get_tax_cap t (coin_denom c)) (Z.quot (coin_amount c * get_tax_rate t) precision)) in H
    by (destruct (Z.ltb_spec (get_tax_cap t (coin_denom c))
          (Z.quot (coin_amount c * get_tax_rate t) precision)); lia).
  destruct (Z.eqb_spec (Z.min (get_tax_cap t (coin_denom c))
      (Z.quot (coin_amount c * get_tax_rate t) precision)) 0) as [E|E]; go_inv.
  - rewrite E. destruct (String.eqb _ _); lia.
  - rewrite new_coin_spec in Hv. destruct (_ && _); [|done]. injection Hv as <-.
    by rewrite (coins_add_amt _ _ _ d H), amt_single.
Qed.

Lemma computeTax_amt cs r d : computeTax t cs = Ok r -> amt r d = tax_on cs d.
Proof.
  unfold computeTax. destruct (Z.eqb_spec (get_tax_rate t) 0) as [E|E].
  - intros [= <-]. by rewrite tax_on_free.
  - intros H. rewrite (foldM_amt _ (fun c => tax_on [c]) _ _ _ d) by
      (first [exact H | apply Forall_true; intros; by apply tax_coin_amt]).
    unfold tax_on. by rewrite (due_on_split _ cs).
Qed.

Lemma add_tax_amt acc cs r d : add_tax t acc cs = Ok r -> amt r d = amt acc d + tax_on cs d.
Proof.
  unfold add_tax. intros H. go_inv. apply computeTax_amt with (d:=d) in Hv.
  rewrite (coins_add_amt _ _ _ d H). lia.
Qed.

Context (Hcap : forall d, 0 <= get_tax_cap t d).

Lemma tax_due_zero c : coin_amount c = 0 -> tax_due c = 0.
Proof.
  intros H. unfold tax_due. rewrite H. destruct (_ || _); [done|].
  rewrite Z.mul_0_l, Z.quot_0_l by done. specialize (Hcap (coin_denom c)). lia.
Qed.

Lemma FilterMsgAndComputeTax_walk msgs :
  FilterMsgAndComputeTax t msgs = foldM (walk (add_tax t)) msgs [].
Proof. apply foldM_ext, Forall_true. intros m acc. apply filter_msg_walk. Qed.

Lemma filter_amt msgs r d :
  FilterMsgAndComputeTax t msgs = Ok r -> amt r d = tax_on (flat_map taxable msgs) d.
Proof.
  rewrite FilterMsgAndComputeTax_walk. apply walk_all_amt; [apply tax_due_zero|].
  intros acc cs r'. apply add_tax_amt.
Qed.

Context (Hrate : 0 <= get_tax_rate t <= OneDec).

Lemma tax_due_range c : 0 <= coin_amount c -> 0 <= tax_due c <= coin_amount c.
Proof.
  intros Ha. unfold tax_due. destruct (_ || _); [lia|]. specialize (Hcap (coin_denom c)).
  unfold OneDec in Hrate. assert (0 <= coin_amount c * get_tax_rate t) by nia.
  pose proof precision_pos. rewrite Z.quot_div_nonneg by lia.
  pose proof (Z.div_pos (coin_amount c * get_tax_rate t) precision).
  assert (coin_amount c * get_tax_rate t / precision <= coin_amount c); [|lia].
  apply Z.div_le_upper_bound; nia.
Qed.

Lemma tax_product c :
  coin_ok c -> exists due, dec_mul (NewDec (coin_amount c)) (get_tax_rate t) = Ok due /\
    dec_truncate_int due = Ok (Z.quot (coin_amount c * get_tax_rate t) precision).
Proof.
  intros [_ Ha]. unfold OneDec, tax_limit, precision in *.
  assert (0 <= coin_amount c * get_tax_rate t < 2 ^ 250 * 10 ^ 18 + 1) as Hp by nia.
  destruct (dec_mul_total (NewDec (coin_amount c)) (get_tax_rate t)) as [due Hd].
  { unfold NewDec, precision, dec_bound. rewrite Z.abs_eq by nia. nia. }
  exists due. split; [done|]. apply dec_mul_whole in Hd as ->.
  rewrite dec_truncate_int_spec. apply checked_small. unfold int_bound, precision.
  rewrite Z.quot_div_nonneg, Z.abs_eq by (try apply Z.div_pos; lia).
  apply Z.div_lt_upper_bound; lia.
Qed.

Lemma tax_coin_charges c :
  get_tax_rate t <> 0 -> coin_ok c ->
  charges (fun acc => tax_coin t (get_tax_rate t) acc c) (tax_on [c]).
Proof.
  intros Hr Hc acc Hw Hb.
  enough (exists r, tax_coin t (get_tax_rate t) acc c = Ok r /\ coins_wf r) as (r & Hx & Hrw)
    by (exists r; split; [done|]; split; [done|]; intros d; by apply tax_coin_amt).
  pose proof (tax_due_range c ltac:(destruct Hc; lia)) as Hdue.
  assert (forall d, tax_on [c] d = amt [mkCoin (coin_denom c) (tax_due c)] d) as Hon
    by (intros d; unfold tax_on; by rewrite due_on_single, amt_single).
  unfold tax_coin. unfold tax_due, is_luna in *. rewrite (proj2 (Z.eqb_neq _ 0)) in * by done. cbn in *.
  destruct (_ || _); [by exists acc|].
  destruct (tax_product c Hc) as (due & -> & E). cbn. rewrite E. cbn.
  set (x := Z.quot _ _) in *. set (cap := get_tax_cap _ _) in *.
  replace (if cap <? x then cap else x) with (Z.min cap x) by (destruct (Z.ltb_spec cap x); lia).
  destruct (Z.eqb_spec (Z.min cap x) 0) as [|Hne]; [by exists acc|].
  rewrite new_coin_spec. destruct Hc as [-> _]. rewrite (proj2 (Z.leb_le 0 _)) by lia. cbn.
  assert (coins_wf [mkCoin (coin_denom c) (Z.min cap x)]) as Hs
    by (apply coins_wf_single; cbn; lia).
  destruct (coins_add_total acc [mkCoin (coin_denom c) (Z.min cap x)]) as [r Hadd]; [done|done| |].
  { intros d. rewrite <- Hon. apply Hb. }
  exists r. split; [done|]. by eapply coins_add_wf.
Qed.

Lemma computeTax_total cs :
  Forall coin_ok cs -> (forall d, tax_on cs d < int_bound) ->
  exists r, computeTax t cs = Ok r /\ coins_wf r /\ forall d, amt r d = tax_on cs d.
Proof.
  intros Hcs Hb.
  enough (exists r, computeTax t cs = Ok r /\ coins_wf r) as (r & Hx & Hrw)
    by (exists r; split; [done|]; split; [done|]; intros d; by apply computeTax_amt).
  unfold computeTax. destruct (Z.eqb_spec (get_tax_rate t) 0) as [E|E].
  { exists []. auto with go. }
  destruct (foldM_charges (tax_coin t (get_tax_rate t)) (fun c => tax_on [c]) cs) with (acc := @nil Coin)
    as (r & Hr & Hw & _).
  - eapply Forall_impl; [exact Hcs|]. intros c Hc d. apply due_on_nonneg; [|by constructor].
    intros x [_ Hx]. apply tax_due_range. lia.
  - eapply Forall_impl; [exact Hcs|]. intros c Hc. by apply tax_coin_charges.
  - auto with go.
  - intros d. rewrite amt_nil, Z.add_0_l. specialize (Hb d). unfold tax_on in Hb.
    by rewrite due_on_split in Hb.
  - by exists r.
Qed.

Lemma add_tax_charges cs : Forall coin_ok cs -> charges (fun acc => add_tax t acc cs) (tax_on cs).
Proof.
  intros Hcs. apply charges_room. intros Hb.
  destruct (computeTax_total cs Hcs Hb) as (x & Hx & Hxw & Ha). by eapply add_charges.
Qed.

Lemma tax_on_le cs d :
  Forall (fun c => ValidDenom (coin_denom c) = true /\ 0 <= coin_amount c) cs -> tax_on cs d <= amt cs d.
Proof.
  intros H. unfold tax_on, due_on, amt. induction H as [|c cs [_ Hc] _ IH]; [done|].
  rewrite !sumZ_cons. pose proof (tax_due_range c Hc). destruct (String.eqb _ _); lia.
Qed.

(** The tax of a transaction whose coins are in range is computed. *)
Lemma filter_total msgs :
  forallb decodable msgs = true ->
  Forall (fun c => ValidDenom (coin_denom c) = true /\ 0 <= coin_amount c) (flat_map taxable msgs) ->
  (forall d, amt (flat_map taxable msgs) d < tax_limit) ->
  exists taxes, FilterMsgAndComputeTax t msgs = Ok taxes /\ coins_wf taxes /\
    forall d, amt taxes d = tax_on (flat_map taxable msgs) d.
Proof.
  intros Hdec Hv Hb. rewrite FilterMsgAndComputeTax_walk. apply walk_total.
  - apply tax_due_zero.
  - intros c [_ Hc]. apply tax_due_range. lia.
  - apply add_tax_charges.
  - done.
  - by apply coins_ok_of_amt.
  - intros d. pose proof (tax_on_le _ d Hv). specialize (Hb d).
    unfold tax_limit, int_bound, tax_on in *. lia.
Qed.

End tax_facts.

Section tax_theorems.
Context {M : SdkMath} {ML : SdkMathLaws M} {C : SdkCoins} {CL : SdkCoinsLaws M C}.
Context {T : Type} {TK : TreasuryKeeper T}.

(** C29. The tax of a transaction is computed, never panics, and is the sum over
    every coin that the messages send or give to contracts, and every coin that
    a swap-and-send offers -- through [MsgExec] at any depth -- of the rate
    times the amount rounded down, at most the cap of the denomination, with
    Luna and the bond denomination exempt.  The rate is between zero and one, no
    cap is negative, the messages decode, their coins are valid, and the sums
    are within the range of the integers. *)
Theorem tax_charged (t : T) (msgs : list Msg) :
  0 <= get_tax_rate t <= OneDec -> (forall d, 0 <= get_tax_cap t d) ->
  forallb decodable msgs = true ->
  Forall (fun c => ValidDenom (coin_denom c) = true /\ 0 <= coin_amount c) (flat_map taxable msgs) ->
  (forall d, amt (flat_map taxable msgs) d < tax_limit) ->
  exists taxes, FilterMsgAndComputeTax t msgs = Ok taxes /\ coins_wf taxes /\
    forall d, amt taxes d = tax_on t (flat_map taxable msgs) d.
Proof.
  intros Hr Hc. by apply filter_total.
Qed.

(** Wrapping messages in [MsgExec] does not change the tax they owe. *)
Theorem exec_tax_transparent (t : T) (msgs : list Msg) (r r' : list Coin) (d : string) :
  (forall d, 0 <= get_tax_cap t d) ->
  FilterMsgAndComputeTax t [MsgExec (Some msgs)] = Ok r -> FilterMsgAndComputeTax t msgs = Ok r' ->
  amt r d = amt r' d.
Proof.
  intros Hc H1 H2.
  pose proof (filter_amt t Hc [MsgExec (Some msgs)] r d H1) as ->.
  pose proof (filter_amt t Hc msgs r' d H2) as ->. cbn. by rewrite app_nil_r.
Qed.

End tax_theorems.

(** ** What an accepted transaction has paid *)

Section decorator_facts.
Context {M : SdkMath} {ML : SdkMathLaws M} {C : SdkCoins} {CL : SdkCoinsLaws M C} {A : Bech32}.
Context {T : Type} {TK : TreasuryKeeper T} {TL : TreasuryKeeperLaws T TK}.
Context {O : Type} {FK : FeederKeeper O}.
Implicit Types s : ante_state T O.

Lemma on_treasury_Ok {R} (c : st T R) (x : R) s s' :
  on_treasury c s = (Ok x, s') ->
  c (ante_treasury s) = (Ok x, ante_treasury s') /\
  ante_oracle s' = ante_oracle s /\ ante_spam s' = ante_spam s.
Proof. unfold on_treasury. destruct (c (ante_treasury s)). by intros [= -> <-]. Qed.

(** The decorator, on a transaction it lets through. *)
Lemma TaxFeeDecorator_Ok next ctx tx c s s' :
  TaxFeeDecorator next ctx (IsFeeTx tx) false s = (Ok c, s') ->
  exists taxes s1,
    FilterMsgAndComputeTax (ante_treasury s) (GetMsgs tx) = Ok taxes /\
    (IsCheckTx ctx && negb (fee_exempt tx) = true ->
     EnsureSufficientMempoolFees ctx (GetGas tx) (GetFee tx) taxes = Ok tt) /\
    (forall d, amt taxes d <= amt (GetFee tx) d) /\
    (forall d, amt (tax_proceeds (ante_treasury s1)) d
               = amt (tax_proceeds (ante_treasury s)) d + amt taxes d) /\
    (get_tax_rate (ante_treasury s1) = get_tax_rate (ante_treasury s) /\
     forall d, get_tax_cap (ante_treasury s1) d = get_tax_cap (ante_treasury s) d) /\
    (ante_oracle s1 = ante_oracle s /\ ante_spam s1 = ante_spam s) /\
    next ctx (IsFeeTx tx) false s1 = (Ok c, s').
Proof.
  unfold TaxFeeDecorator. cbn [negb]. intros H. go_inv.
  exists v1, s0. split; [done|]. split; [|split; [|split; [|split; [|split; [|done]]]]].
  - intros E. rewrite E in Hv2. go_inv. by destruct v2.
  - intros d. pose proof (coins_safe_sub_amt _ _ _ _ d Hv3).
    pose proof (amt_nonneg x d (coins_safe_sub_neg _ _ _ Hv3)). lia.
  - intros d. destruct (coins_is_zero v1) eqn:Z; cbn in Hv; go_inv.
    + rewrite (coins_is_zero_amt v1) by done. lia.
    + apply on_treasury_Ok in Hv as [Hr _]. by eapply record_amt.
  - destruct (coins_is_zero v1); cbn in Hv; go_inv; [done|].
    apply on_treasury_Ok in Hv as [Hr _]. split; [by eapply record_rate|].
    intros d. by eapply record_cap.
  - destruct (coins_is_zero v1); cbn in Hv; go_inv; [done|]. by apply on_treasury_Ok in Hv as [_ ?].
Qed.

Lemma TaxFeeDecorator_pass next ctx tx s taxes rest t' :
  FilterMsgAndComputeTax (ante_treasury s) (GetMsgs tx) = Ok taxes ->
  EnsureSufficientMempoolFees ctx (GetGas tx) (GetFee tx) taxes = Ok tt ->
  coins_safe_sub (GetFee tx) taxes = Ok (rest, false) ->
  record_tax_proceeds taxes (ante_treasury s) = (Ok tt, t') ->
  exists s1, TaxFeeDecorator next ctx (IsFeeTx tx) false s = next ctx (IsFeeTx tx) false s1.
Proof.
  intros Hf He Hs Hr. unfold TaxFeeDecorator. cbn [negb].
  unfold mbind, st_bind, gets, lift, on_treasury, mret, st_ret. rewrite Hf.
  destruct (IsCheckTx ctx && negb (fee_exempt tx)); [rewrite He|]; cbn; rewrite Hs; cbn;
    (destruct (coins_is_zero taxes); cbn; [|rewrite Hr]; by eexists).
Qed.


(** The fee asked for one gas price covers price times gas. *)
Lemma gas_fee_spec gas gp fee :
  gas_fee gas gp = Ok fee ->
  coin_denom fee = dcoin_denom gp /\ 0 <= coin_amount fee /\
  dcoin_amount gp * to_int64 gas <= coin_amount fee * precision < dcoin_amount gp * to_int64 gas + precision.
Proof.
  unfold gas_fee. intros H. go_inv.
  assert (v = dcoin_amount gp * to_int64 gas) as ->.
  { apply dec_mul_round in Hv. unfold NewDec in Hv.
    replace (v * precision - dcoin_amount gp * (to_int64 gas * precision))
      with ((v - dcoin_amount gp * to_int64 gas) * precision) in Hv by lia.
    rewrite Z.abs_mul in Hv. pose proof precision_pos. nia. }
  apply dec_ceil_spec in Hv0 as (Hle & k & ->). apply dec_round_int_spec in Hv1.
  assert (v1 = k) as ->.
  { replace (v1 * precision - k * precision) with ((v1 - k) * precision) in Hv1 by lia.
    rewrite Z.abs_mul in Hv1. pose proof precision_pos. nia. }
  rewrite new_coin_spec in H. destruct (_ && _) eqn:E; [|done]. injection H as <-.
  apply andb_true_iff in E as [_ E%Z.leb_le]. split; [done|]. split; [done|exact Hle].
Qed.

Lemma gas_fees_spec gas prices acc fees :
  foldM (fun fees gp => fee ← gas_fee gas gp; Ok (fees ++ [fee])) prices acc = Ok fees ->
  exists fs, fees = acc ++ fs /\ Forall2 (fun gp fee => gas_fee gas gp = Ok fee) prices fs.
Proof.
  revert acc. induction prices as [|gp l IH]; intros acc H; cbn in H; go_inv.
  - exists []. by rewrite app_nil_r.
  - apply IH in H as (fs & -> & Hfs). exists (v0 :: fs). rewrite <- app_assoc. by split; [|constructor].
Qed.

Lemma fees_denoms gas prices fees :
  Forall2 (fun gp fee => gas_fee gas gp = Ok fee) prices fees ->
  coin_denom <$> fees = dcoin_denom <$> prices.
Proof.
  induction 1 as [|gp fee prices fees H _ IH]; [done|]. rewrite !fmap_cons, IH.
  by apply gas_fee_spec in H as [-> _].
Qed.

(** A transaction that enters the mempool and is not a cheap oracle
    transaction pays, on top of the tax, at least one of the node's minimum gas
    prices times its gas limit, unless all of those are zero. *)
Theorem mempool_tx_pays_gas next ctx tx c s s' :
  denoms_wf (dcoin_denom <$> MinGasPrices ctx) ->
  (forall d, 0 <= get_tax_cap (ante_treasury s) d) ->
  IsCheckTx ctx = true -> fee_exempt tx = false ->
  TaxFeeDecorator next ctx (IsFeeTx tx) false s = (Ok c, s') ->
  Forall (fun gp => dcoin_amount gp * to_int64 (GetGas tx) <= 0) (MinGasPrices ctx) \/
  exists gp, gp ∈ MinGasPrices ctx /\ 0 < dcoin_amount gp * to_int64 (GetGas tx) /\
    dcoin_amount gp * to_int64 (GetGas tx) <=
      (amt (GetFee tx) (dcoin_denom gp) -
       tax_on (ante_treasury s) (flat_map taxable (GetMsgs tx)) (dcoin_denom gp)) * precision.
Proof.
  intros Hnd Hcap Hchk Hex H.
  apply TaxFeeDecorator_Ok in H as (taxes & s1 & Hf & Hm & _). rewrite Hchk, Hex in Hm.
  specialize (Hm eq_refl). unfold EnsureSufficientMempoolFees in Hm. go_inv. destruct y.
  { unfold insufficient_fees in Hm. by go_inv. }
  destruct (_ && _) eqn:E; [unfold insufficient_fees in Hm; by go_inv|].
  unfold required_fees in Hv. destruct (deccoins_is_zero (MinGasPrices ctx)) eqn:Ez.
  { left. apply deccoins_is_zero_spec in Ez. eapply Forall_impl; [exact Ez|]. cbn. intros ? ->. lia. }
  apply gas_fees_spec in Hv as (fs & -> & Hfs). cbn in E.
  apply andb_false_iff in E as [E|E]; apply negb_false_iff in E.
  - left. apply coins_is_zero_spec in E. clear - Hfs E ML CL.
    induction Hfs as [|gp fee l fs Hg _ IH]; [constructor|]. apply Forall_cons in E as [E1 E2].
    constructor; [|by apply IH]. apply gas_fee_spec in Hg. lia.
  - right. apply coins_is_any_gte_spec in E as (fc & Hin & Hne & Hle).
    + destruct (amt_found fs (coin_denom fc)) as (fee & Hfee & Hd & Ha); [|done|].
      { rewrite (fees_denoms _ _ _ Hfs). by destruct Hnd. }
      apply list_elem_of_lookup in Hfee as [i Hi].
      destruct (Forall2_lookup_r _ _ _ _ _ Hfs Hi) as (gp & Hgp & Hg).
      pose proof (gas_fee_spec _ _ _ Hg) as (Hgd & Hp & Hb).
      pose proof (coins_safe_sub_amt _ _ _ _ (coin_denom fc) Hv0) as Hx.
      pose proof (amt_elem x fc (coins_safe_sub_neg _ _ _ Hv0) Hin).
      exists gp. split; [by eapply list_elem_of_lookup_2|]. rewrite <- Hgd, Hd.
      rewrite <- (filter_amt _ Hcap _ _ _ Hf). pose proof precision_pos. split; nia.
    + by rewrite (fees_denoms _ _ _ Hfs).
Qed.

End decorator_facts.

(** ** The limit on free oracle transactions *)

Inductive kind : Type := Prevote | Vote.

#[global] Instance kind_eq_dec : EqDecision kind.
Proof. solve_decision. Defined.

(** The validator text a message submits for, and the map that remembers it. *)
Definition submits (k : kind) (msg : Msg) : option string :=
  match k, msg with
  | Prevote, MsgAggregateExchangeRatePrevote m => Some (MPValidator m)
  | Vote, MsgAggregateExchangeRateVote m => Some (MVValidator m)
  | _, _ => None
  end.

Definition last_heights (k : kind) (m : SpamMaps) : gmap string Z :=
  match k with Prevote => oraclePrevoteMap m | Vote => oracleVoteMap m end.

Definition submitters (k : kind) (msgs : list Msg) : list string := omap (submits k) msgs.

Section spam_facts.
Context {A : Bech32} {O : Type} {FK : FeederKeeper O} (o : O) (h : Z).

(** One message of the loop. *)
Lemma CheckOracleSpamming_step msg msgs r m m' :
  is_oracle_msg msg = true -> CheckOracleSpamming h o (msg :: msgs) m = (r, m') ->
  (m' = m /\ forall u, r <> Ok u) \/
  exists k v m1, submits k msg = Some v /\ (forall k', k' <> k -> submits k' msg = None) /\
    last_heights k m !! v <> Some h /\
    last_heights k m1 = <[v := h]> (last_heights k m) /\
    (forall k', k' <> k -> last_heights k' m1 = last_heights k' m) /\
    CheckOracleSpamming h o msgs m1 = (r, m').
Proof.
  intros Hm H. destruct msg as [| | | | | |p|p|]; try done; cbn in H;
    unfold mbind, st_bind, lift, gets, modify in H.
  - destruct (check_feeder _ _ _) as [u|e|]; [|by left; injection H as <- <-..].
    destruct (bool_decide_reflect (oraclePrevoteMap m !! MPValidator p = Some h)) as [E|E]; cbn in H;
      [by left; injection H as <- <-|].
    right. exists Prevote, (MPValidator p), (set_prevote (MPValidator p) h m).
    repeat split; try done; by intros [].
  - destruct (check_feeder _ _ _) as [u|e|]; [|by left; injection H as <- <-..].
    destruct (bool_decide_reflect (oracleVoteMap m !! MVValidator p = Some h)) as [E|E]; cbn in H;
      [by left; injection H as <- <-|].
    right. exists Vote, (MVValidator p), (set_vote (MVValidator p) h m).
    repeat split; try done; by intros [].
Qed.

(** A height once recorded stays during the height, whatever the outcome. *)
Lemma CheckOracleSpamming_keeps k v msgs r m m' :
  CheckOracleSpamming h o msgs m = (r, m') ->
  last_heights k m !! v = Some h -> last_heights k m' !! v = Some h.
Proof.
  revert m. induction msgs as [|msg msgs IH]; intros m H Hv; [by injection H as <- <-|].
  destruct (is_oracle_msg msg) eqn:Hm; [|by destruct msg; try done; injection H as <- <-].
  destruct (CheckOracleSpamming_step _ _ _ _ _ Hm H) as [[-> _]|(k0 & w & m1 & _ & _ & _ & Heq & Hne & Hrec)];
    [done|].
  apply (IH m1 Hrec). destruct (decide (k = k0)) as [->|Hk]; [|by rewrite Hne].
  rewrite Heq. destruct (decide (w = v)) as [->|]; [by rewrite lookup_insert_eq|by rewrite lookup_insert_ne].
Qed.

(** An accepted transaction of oracle messages only: its submitters are
    pairwise distinct, none had submitted at this height, all have now. *)
Lemma CheckOracleSpamming_Ok k msgs u m m' :
  isOracleTx msgs = true -> CheckOracleSpamming h o msgs m = (Ok u, m') ->
  NoDup (submitters k msgs) /\
  forall v, v ∈ submitters k msgs -> last_heights k m !! v <> Some h /\ last_heights k m' !! v = Some h.
Proof.
  unfold submitters. revert m. induction msgs as [|msg msgs IH]; intros m Hall H.
  { split; [constructor|]. by intros v ?%not_elem_of_nil. }
  cbn in Hall. apply andb_true_iff in Hall as [Hm Hall].
  destruct (CheckOracleSpamming_step _ _ _ _ _ Hm H)
    as [[_ E]|(k0 & w & m1 & Hs & Hother & Hnew & Heq & Hne & Hrec)]; [by destruct (E u)|].
  destruct (IH m1 Hall Hrec) as [Hnd Hin]. destruct (decide (k = k0)) as [->|Hk]; cbn.
  - rewrite Hs. split.
    + constructor; [|done]. intros [Hw _]%Hin. by rewrite Heq, lookup_insert_eq in Hw.
    + intros v [->|Hv]%elem_of_cons.
      * split; [done|]. eapply CheckOracleSpamming_keeps; [exact Hrec|]. by rewrite Heq, lookup_insert_eq.
      * destruct (Hin v Hv) as [H1 H2]. split; [|done]. rewrite Heq in H1.
        intros Hv'. destruct (decide (w = v)) as [->|]; [by rewrite lookup_insert_eq in H1|].
        by rewrite lookup_insert_ne in H1.
  - rewrite (Hother k Hk). split; [done|]. intros v Hv. rewrite <- (Hne k Hk). by apply Hin.
Qed.

End spam_facts.

Section spam_theorems.
Context {A : Bech32} {T : Type} {O : Type} {FK : FeederKeeper O}.
Context (next : AnteCtx -> Tx -> bool -> st (ante_state T O) AnteCtx).

(** The maps belong to the decorator: the rest of the chain does not reach
    them. *)
Context (Hnext : forall ctx tx sim s, ante_spam (next ctx tx sim s).2 = ante_spam s).

(** Checking transactions one after the other at one height, those that are
    rejected included; the list holds the accepted ones. *)
Inductive check_run (ctx : AnteCtx) : ante_state T O -> list FeeTx -> ante_state T O -> Prop :=
| run_done s : check_run ctx s [] s
| run_accept s tx c s1 txs s' :
    SpammingPreventionDecorator next ctx (IsFeeTx tx) false s = (Ok c, s1) ->
    check_run ctx s1 txs s' -> check_run ctx s (tx :: txs) s'
| run_reject s tx r s1 txs s' :
    SpammingPreventionDecorator next ctx tx false s = (r, s1) -> (forall c, r <> Ok c) ->
    check_run ctx s1 txs s' -> check_run ctx s txs s'.

Definition free_submitters (k : kind) (txs : list FeeTx) : list string :=
  flat_map (fun tx => submitters k (GetMsgs tx)) (filter (fun tx => fee_exempt tx = true) txs).

Lemma spam_decorator_maps ctx tx s r s1 :
  IsCheckTx ctx = true -> IsReCheckTx ctx = false ->
  SpammingPreventionDecorator next ctx tx false s = (r, s1) ->
  exists r0, CheckOracleSpamming (BlockHeight (ante_ctx ctx)) (ante_oracle s) (tx_msgs tx) (ante_spam s)
             = (r0, ante_spam s1) /\ (forall c, r = Ok c -> r0 = Ok tt).
Proof.
  unfold SpammingPreventionDecorator. intros -> ->. cbn. unfold mbind, st_bind, on_spam.
  destruct (CheckOracleSpamming _ _ _ _) as [[[]|e|] m] eqn:E; intros H.
  - exists (Ok tt). split; [|done]. pose proof (Hnext ctx tx false
      (mkAnteState (ante_treasury s) (ante_oracle s) m)) as Hn. by rewrite H in Hn; cbn in Hn; rewrite Hn.
  - injection H as <- <-. by eexists.
  - injection H as <- <-. by eexists.
Qed.

(** The tax decorator is such a rest of the chain. *)
Lemma tax_keeps_maps {M : SdkMath} {C : SdkCoins} {TK : TreasuryKeeper T} ctx tx sim s :
  ante_spam (TaxFeeDecorator next ctx tx sim s).2 = ante_spam s.
Proof.
  destruct tx as [tx|]; [|done]. unfold TaxFeeDecorator, mbind, st_bind, gets, lift, mret, st_ret, on_treasury.
  destruct sim; cbn; [apply Hnext|].
  destruct (FilterMsgAndComputeTax _ _) as [taxes|e|]; cbn; [|done..].
  destruct (if _ && _ then _ else _) as [u|e|]; [|done..].
  destruct (coins_safe_sub _ _) as [[rest []]|e|]; cbn; [done| |done..].
  destruct (coins_is_zero taxes); cbn; [apply Hnext|].
  destruct (record_tax_proceeds taxes (ante_treasury s)) as [[u'|e|] t']; cbn; [|done..].
  by rewrite Hnext.
Qed.


End spam_theorems.

(** ** A run *)

Module AnteExample.

#[local] Existing Instance StoreExample.one_validator.
#[local] Existing Instance ref_math.
#[local] Existing Instance ref_coins.
#[local] Existing Instance ref_bech32.

Definition treasury0 : Treasury.state unit unit unit :=
  Treasury.mkState (Treasury.mkStore (Some (NewDecWithPrec 1 2)) None ∅ (Some [mkCoin "uusd" 5]) None
    ∅ ∅ ∅ Treasury.DefaultParams) tt tt [] [] tt.

Lemma treasury0_caps d : 0 <= get_tax_cap treasury0 d.
Proof. cbn. unfold GetTaxCap. destruct (is_luna d); [done|]. cbn. rewrite lookup_empty. done. Qed.

Definition send : Msg := MsgSend [mkCoin "uluna" 7; mkCoin "uusd" 300].
Definition msgs0 : list Msg :=
  [MsgExec (Some [send; MsgOther]); MsgSwapSend (mkMsgSwapSend "a" "b" (mkCoin "uusd" 500) "uluna")].

Lemma msgs0_valid :
  Forall (fun c => ValidDenom (coin_denom c) = true /\ 0 <= coin_amount c) (flat_map taxable msgs0).
Proof. repeat constructor; vm_compute; congruence. Qed.

Lemma msgs0_bound d : amt (flat_map taxable msgs0) d < tax_limit.
Proof.
  change (flat_map taxable msgs0) with [mkCoin "uluna" 7; mkCoin "uusd" 300; mkCoin "uusd" 500].
  unfold amt. rewrite !sumZ_cons, sumZ_nil. cbn [coin_denom coin_amount]. unfold tax_limit.
  destruct (String.eqb "uluna" d), (String.eqb "uusd" d); lia.
Qed.

Lemma tax_charged_witness :
  exists taxes, FilterMsgAndComputeTax treasury0 msgs0 = Ok taxes /\
    coins_wf taxes /\
    forall d, amt taxes d = tax_on treasury0 (flat_map taxable msgs0) d.
Proof.
  apply (tax_charged (M:=ref_math) (ML:=ref_math_laws) (C:=ref_coins) (CL:=ref_coins_laws)
    (TK:=treasury_keeper) treasury0 msgs0).
  - vm_compute. split; congruence.
  - exact treasury0_caps.
  - vm_compute. reflexivity.
  - exact msgs0_valid.
  - exact msgs0_bound.
Defined.

Lemma exec_tax_transparent_witness :
  ~ exists r r',
    FilterMsgAndComputeTax treasury0 [MsgExec (Some [send])] = Ok r /\
    FilterMsgAndComputeTax treasury0 [send] = Ok r' /\
    amt r "uusd" <> amt r' "uusd".
Proof.
  intros (r & r' & H1 & H2 & Hne). apply Hne.
  exact (exec_tax_transparent (M:=ref_math) (ML:=ref_math_laws) (C:=ref_coins) (CL:=ref_coins_laws)
    (TK:=treasury_keeper) treasury0 [send] r r' "uusd" treasury0_caps H1 H2).
Defined.

Definition oracle0 : unit * OracleStore.store := (tt, StoreExample.s0).

Definition ante0 : ante_state (Treasury.state unit unit unit) (unit * OracleStore.store) :=
  mkAnteState treasury0 oracle0 NewSpamMaps.

Definition ctx0 : AnteCtx :=
  mkAnteCtx (mkCtx "columbus-5" 100) true false [mkDecCoin "uusd" (NewDecWithPrec 15 2)].

Definition end_of_chain (ctx : AnteCtx) (_ : Tx) (_ : bool)
    : st (ante_state (Treasury.state unit unit unit) (unit * OracleStore.store)) AnteCtx := mret ctx.

Definition tx0 : FeeTx := mkFeeTx [mkCoin "uusd" 30008] 200000 msgs0.

Definition run_tax : res AnteCtx * ante_state (Treasury.state unit unit unit) (unit * OracleStore.store) :=
  TaxFeeDecorator (M:=ref_math) (C:=ref_coins) end_of_chain ctx0 (IsFeeTx tx0) false ante0.

Lemma run_tax_ok : run_tax.1 = Ok ctx0.
Proof. vm_compute. reflexivity. Qed.

Lemma run_tax_eq : run_tax = (Ok ctx0, run_tax.2).
Proof. rewrite <- run_tax_ok. apply surjective_pairing. Qed.


Lemma mempool_tx_pays_gas_witness :
  exists gp, gp ∈ MinGasPrices ctx0 /\ 0 < dcoin_amount gp * 200000.
Proof.
  pose proof (mempool_tx_pays_gas (M:=ref_math) (ML:=ref_math_laws) (C:=ref_coins) (CL:=ref_coins_laws)
    (TL:=treasury_keeper_laws) end_of_chain ctx0 tx0 ctx0 ante0 run_tax.2) as H.
  destruct H as [H|(gp & H1 & H2 & _)].
  - apply denoms_wf_single.
  - exact treasury0_caps.
  - reflexivity.
  - reflexivity.
  - exact run_tax_eq.
  - pose proof (proj1 (Forall_singleton _ _) H) as Hz. vm_compute in Hz. destruct (Hz eq_refl).
  - exists gp. split; [exact H1|]. exact H2.
Defined.

(** The feeder of the one validator, twice at the same height. *)
Definition prevote : FeeTx :=
  mkFeeTx [] 100000 [MsgAggregateExchangeRatePrevote (mkMsgPrevote "00" "tfeeder" "vval")].

Definition chain := SpammingPreventionDecorator (TaxFeeDecorator end_of_chain).

Definition after_first := (chain ctx0 (IsFeeTx prevote) false ante0).2.

Lemma first_accepted : chain ctx0 (IsFeeTx prevote) false ante0 = (Ok ctx0, after_first).
Proof. vm_compute. reflexivity. Qed.

Lemma second_rejected :
  chain ctx0 (IsFeeTx prevote) false after_first = (Err ErrInvalidRequest, after_first).
Proof. vm_compute. reflexivity. Qed.


End AnteExample.
