(* ===== verification/FeeUtils.v ===== *)
(** * Fee estimation of the client ([src/custom/auth/client/utils/feeutils.go])

    The client computes the tax of a transaction from the treasury's query
    service and adds it to the fees it proposes.  The estimate is compared
    with what the node charges ([Ante]). *)

From Stdlib Require Import ZArith Lia Bool.
From stdpp Require Import base strings list gmap sorting.
From S2P Require Import Prelude Loops Sdk SdkRef Core Market Treasury Ante.
Local Open Scope Z_scope.

(** ** The query service

    What the two calls of the generated client return. *)
Record QueryClient : Type := mkQueryClient {
  q_TaxRate : res Dec; q_TaxCap : string -> res Int }.

(** The treasury's answers ([x/treasury/keeper/querier.go]). *)
Definition InvalidArgument : error := Registered "grpc" "InvalidArgument".

Definition QueryTaxRate (t : Treasury.store) : res Dec := Ok (GetTaxRate t).

Definition QueryTaxCap {C : SdkCoins} (t : Treasury.store) (denom : string) : res Int :=
  fail_if (negb (ValidDenom denom)) InvalidArgument;;
  Ok (GetTaxCap t denom).

Definition treasury_querier {C : SdkCoins} (t : Treasury.store) : QueryClient :=
  mkQueryClient (QueryTaxRate t) (QueryTaxCap t).

Section client.
Context {M : SdkMath} {C : SdkCoins}.

(** [queryTaxRate] and [queryTaxCap] read a field of the response before they
    look at the error; the generated client returns a nil response with an
    error. *)
Definition queryTaxRate (q : QueryClient) : res Dec := must (q_TaxRate q).
Definition queryTaxCap (q : QueryClient) (denom : string) : res Int := must (q_TaxCap q denom).

(** [computeTax]. *)
Definition client_tax_coin (q : QueryClient) (taxRate : Dec) (taxes : list Coin) (coin : Coin)
    : res (list Coin) :=
  if String.eqb (coin_denom coin) MicroLunaDenom then Ok taxes
  else
    taxCap ← queryTaxCap q (coin_denom coin);
    due ← dec_mul (NewDec (coin_amount coin)) taxRate;
    taxDue ← dec_truncate_int due;
    let taxDue := if taxCap <? taxDue then taxCap else taxDue in
    if taxDue =? 0 then Ok taxes
    else
      tax ← new_coin (coin_denom coin) taxDue;
      coins_add taxes [tax].

Definition client_computeTax (q : QueryClient) (taxRate : Dec) (principal : list Coin) : res (list Coin) :=
  foldM (client_tax_coin q taxRate) principal [].

Definition client_add_tax (q : QueryClient) (taxRate : Dec) (taxes principal : list Coin) : res (list Coin) :=
  tax ← client_computeTax q taxRate principal;
  coins_add taxes tax.

(** [FilterMsgAndComputeTax]; the recursive call for [MsgExec] asks for the
    rate again. *)
Fixpoint client_filter_msg (q : QueryClient) (taxRate : Dec) (taxes : list Coin) (msg : Msg)
    : res (list Coin) :=
  match msg with
  | MsgSend Amount => client_add_tax q taxRate taxes Amount
  | MsgMultiSend Inputs => foldM (client_add_tax q taxRate) Inputs taxes
  | MsgExec None => Panic
  | MsgExec (Some messages) =>
      taxRate' ← queryTaxRate q;
      tax ← foldM (client_filter_msg q taxRate') messages [];
      coins_add taxes tax
  | MsgSwapSend m =>
      principal ← new_coins [SOfferCoin m];
      client_add_tax q taxRate taxes principal
  | MsgInstantiateContract InitCoins => client_add_tax q taxRate taxes InitCoins
  | MsgExecuteContract Coins => client_add_tax q taxRate taxes Coins
  | _ => Ok taxes
  end.

Definition client_FilterMsgAndComputeTax (q : QueryClient) (msgs : list Msg) : res (list Coin) :=
  taxRate ← queryTaxRate q;
  foldM (client_filter_msg q taxRate) msgs [].

(** The fee of [ComputeFeesWithBaseReq], once the gas is known: [fees] and
    [gasPrices] are those of the request. *)
Definition ComputeFees (q : QueryClient) (fees : list Coin) (gasPrices : list DecCoin) (gas : Z)
    (msgs : list Msg) : res (list Coin) :=
  taxes ← client_FilterMsgAndComputeTax q msgs;
  fees ← coins_add fees taxes;
  if deccoins_is_zero gasPrices then Ok fees
  else
    gasFees ← foldM (fun fees gp => fee ← gas_fee gas gp; Ok (fees ++ [fee])) gasPrices [];
    coins_add fees (coins_sort gasFees).

End client.

(** [prepareFactory]: the numbers of the account are asked for when one of
    them is zero; [EnsureExists] and [GetAccountNumberSequence] are the account
    retriever's. *)
Record Factory : Type := mkFactory { AccountNumber : Z; Sequence : Z }.

Definition prepareFactory (EnsureExists : res unit) (GetAccountNumberSequence : res (Z * Z))
    (txf : Factory) : res Factory :=
  EnsureExists;;
  let initNum := AccountNumber txf in
  let initSeq := Sequence txf in
  if (initNum =? 0) || (initSeq =? 0) then
    '(num, seq) ← GetAccountNumberSequence;
    let txf := if initNum =? 0 then mkFactory num (Sequence txf) else txf in
    Ok (if initSeq =? 0 then mkFactory (AccountNumber txf) seq else txf)
  else Ok txf.

(** ** The estimate *)

Section client_facts.
Context {M : SdkMath} {ML : SdkMathLaws M} {C : SdkCoins} {CL : SdkCoinsLaws M C}.
Context {T : Type} {TK : TreasuryKeeper T} (t : T) (q : QueryClient).

(** The service answers what the treasury stores, for every valid
    denomination. *)
Definition answers : Prop :=
  q_TaxRate q = Ok (get_tax_rate t) /\
  forall d, ValidDenom d = true -> q_TaxCap q d = Ok (get_tax_cap t d).

(** The client does not exempt the bond denomination. *)
Definition client_due (c : Coin) : Z :=
  if is_luna (coin_denom c) then 0
  else Z.min (get_tax_cap t (coin_denom c)) (Z.quot (coin_amount c * get_tax_rate t) precision).

Definition client_tax_on : list Coin -> string -> Z := due_on client_due.

Context (Hq : answers) (Hcap : forall d, 0 <= get_tax_cap t d) (Hrate : 0 <= get_tax_rate t <= OneDec).

Lemma client_due_range c : 0 <= coin_amount c -> tax_due t c <= client_due c <= coin_amount c /\ 0 <= client_due c.
Proof.
  intros Ha. unfold client_due, tax_due. specialize (Hcap (coin_denom c)).
  unfold OneDec in Hrate. assert (0 <= coin_amount c * get_tax_rate t) by nia.
  pose proof precision_pos. rewrite Z.quot_div_nonneg by lia.
  pose proof (Z.div_pos (coin_amount c * get_tax_rate t) precision).
  assert (coin_amount c * get_tax_rate t / precision <= coin_amount c)
    by (apply Z.div_le_upper_bound; nia).
  destruct (Z.eqb_spec (get_tax_rate t) 0) as [E|E], (is_luna (coin_denom c)); cbn; try lia.
  destruct (String.eqb _ _); lia.
Qed.

Lemma client_due_node c :
  0 <= coin_amount c -> coin_denom c <> DefaultBondDenom -> client_due c = tax_due t c.
Proof.
  intros Ha Hd. unfold client_due, tax_due. rewrite (proj2 (String.eqb_neq _ _) Hd), orb_false_r.
  specialize (Hcap (coin_denom c)).
  destruct (Z.eqb_spec (get_tax_rate t) 0) as [E|E]; [|done]. cbn.
  rewrite E, Z.mul_0_r, Z.quot_0_l by done. destruct (is_luna _); [done|lia].
Qed.

Lemma client_tax_coin_charges c :
  coin_ok c -> charges (fun acc => client_tax_coin q (get_tax_rate t) acc c) (client_tax_on [c]).
Proof.
  intros Hc acc Hw Hb. pose proof (client_due_range c ltac:(destruct Hc; lia)) as [Hdue Hdue0].
  assert (forall d, client_tax_on [c] d = amt [mkCoin (coin_denom c) (client_due c)] d) as Hon
    by (intros d; unfold client_tax_on; by rewrite due_on_single, amt_single).
  setoid_rewrite Hon. setoid_rewrite Hon in Hb. clear Hon. revert Hdue Hdue0 Hb.
  unfold client_tax_coin, client_due, is_luna.
  destruct (String.eqb (coin_denom c) MicroLunaDenom).
  { intros _ _ _. exists acc. split; [done|]. split; [done|]. intros d. rewrite amt_single.
    cbn. destruct (String.eqb _ _); lia. }
  destruct (tax_product t Hrate c Hc) as (due & -> & E). destruct Hc as [Hd Hc].
  unfold queryTaxCap. rewrite (proj2 Hq _ Hd). cbn. rewrite E. cbn.
  set (x := Z.quot _ _). set (cap := get_tax_cap _ _). intros _ Hdue Hb.
  replace (if cap <? x then cap else x) with (Z.min cap x) by (destruct (Z.ltb_spec cap x); lia).
  destruct (Z.eqb_spec (Z.min cap x) 0) as [Ez|Hne].
  { exists acc. split; [done|]. split; [done|]. intros d. rewrite amt_single, Ez.
    cbn. destruct (String.eqb _ _); lia. }
  rewrite new_coin_spec, Hd, (proj2 (Z.leb_le 0 _)) by lia. cbn.
  eapply (add_charges (Ok _)); [reflexivity| |reflexivity|done|done].
  apply coins_wf_single. cbn. lia.
Qed.

Lemma client_computeTax_total cs :
  Forall coin_ok cs -> (forall d, client_tax_on cs d < int_bound) ->
  exists r, client_computeTax q (get_tax_rate t) cs = Ok r /\ coins_wf r /\
            forall d, amt r d = client_tax_on cs d.
Proof.
  intros Hcs Hb. unfold client_computeTax.
  destruct (foldM_charges (client_tax_coin q (get_tax_rate t)) (fun c => client_tax_on [c]) cs)
    with (acc := @nil Coin) as (r & Hr & Hw & Ha).
  - eapply Forall_impl; [exact Hcs|]. intros c Hc d. apply due_on_nonneg; [|by constructor].
    intros x [_ Hx]. apply client_due_range. lia.
  - eapply Forall_impl; [exact Hcs|]. intros c Hc. by apply client_tax_coin_charges.
  - auto with go.
  - intros d. rewrite amt_nil, Z.add_0_l. specialize (Hb d). unfold client_tax_on in Hb.
    by rewrite due_on_split in Hb.
  - exists r. split; [done|]. split; [done|]. intros d. unfold client_tax_on. by rewrite due_on_split.
Qed.

Lemma client_add_tax_charges cs :
  Forall coin_ok cs -> charges (fun acc => client_add_tax q (get_tax_rate t) acc cs) (client_tax_on cs).
Proof.
  intros Hcs. apply charges_room. intros Hb.
  destruct (client_computeTax_total cs Hcs Hb) as (x & Hx & Hxw & Ha). by eapply add_charges.
Qed.

Lemma client_due_zero c : coin_amount c = 0 -> client_due c = 0.
Proof.
  intros H. unfold client_due. rewrite H, Z.mul_0_l, Z.quot_0_l by done.
  specialize (Hcap (coin_denom c)). destruct (is_luna _); lia.
Qed.

Lemma client_filter_walk taxes msg :
  client_filter_msg q (get_tax_rate t) taxes msg = walk (client_add_tax q (get_tax_rate t)) taxes msg.
Proof.
  revert taxes. induction msg using Msg_nested_ind; intros taxes; try done.
  cbn. unfold queryTaxRate. rewrite (proj1 Hq). cbn. by rewrite (foldM_ext _ _ _ _ H).
Qed.

Lemma client_tax_on_le cs d :
  Forall (fun c => ValidDenom (coin_denom c) = true /\ 0 <= coin_amount c) cs ->
  tax_on t cs d <= client_tax_on cs d <= amt cs d.
Proof.
  intros H. unfold tax_on, client_tax_on, due_on, amt. induction H as [|c cs [_ Hc] _ IH]; [done|].
  rewrite !sumZ_cons. pose proof (client_due_range c Hc). destruct (String.eqb _ _); lia.
Qed.

(** The tax the client adds. *)
Lemma client_filter_total msgs :
  forallb decodable msgs = true ->
  Forall (fun c => ValidDenom (coin_denom c) = true /\ 0 <= coin_amount c) (flat_map taxable msgs) ->
  (forall d, amt (flat_map taxable msgs) d < tax_limit) ->
  exists taxes, client_FilterMsgAndComputeTax q msgs = Ok taxes /\ coins_wf taxes /\
    forall d, amt taxes d = client_tax_on (flat_map taxable msgs) d.
Proof.
  intros Hdec Hv Hb. unfold client_FilterMsgAndComputeTax, queryTaxRate. rewrite (proj1 Hq). cbn.
  rewrite (foldM_ext _ (walk (client_add_tax q (get_tax_rate t))))
    by (apply Forall_true; intros m acc; apply client_filter_walk).
  apply walk_total.
  - apply client_due_zero.
  - intros c [_ Hc]. apply client_due_range. lia.
  - apply client_add_tax_charges.
  - done.
  - by apply coins_ok_of_amt.
  - intros d. pose proof (client_tax_on_le _ d Hv). specialize (Hb d).
    unfold tax_limit, int_bound, client_tax_on in *. lia.
Qed.

End client_facts.

Section client_theorems.
Context {M : SdkMath} {ML : SdkMathLaws M} {C : SdkCoins} {CL : SdkCoinsLaws M C}.
Context {T : Type} {TK : TreasuryKeeper T} {TL : TreasuryKeeperLaws T TK}.

Lemma client_tax_on_node (t : T) cs d :
  (forall d, 0 <= get_tax_cap t d) ->
  Forall (fun c => ValidDenom (coin_denom c) = true /\ 0 <= coin_amount c) cs ->
  d <> DefaultBondDenom -> client_tax_on t cs d = tax_on t cs d.
Proof.
  intros Hcap H Hd. unfold tax_on, client_tax_on, due_on. induction H as [|c cs [_ Hc] _ IH]; [done|].
  rewrite !sumZ_cons, IH. f_equal. destruct (String.eqb_spec (coin_denom c) d) as [E|]; [|done].
  apply client_due_node; [done..|]. by rewrite E.
Qed.

(** The client's estimate of the tax is the tax the node charges, in every
    denomination but the bond denomination, which only the node exempts: there
    the client adds the rate times the amount, up to the cap. *)
Theorem client_tax_agrees (t : T) (q : QueryClient) (msgs : list Msg) :
  answers t q -> (forall d, 0 <= get_tax_cap t d) -> 0 <= get_tax_rate t <= OneDec ->
  forallb decodable msgs = true ->
  Forall (fun c => ValidDenom (coin_denom c) = true /\ 0 <= coin_amount c) (flat_map taxable msgs) ->
  (forall d, amt (flat_map taxable msgs) d < tax_limit) ->
  exists node client,
    FilterMsgAndComputeTax t msgs = Ok node /\ client_FilterMsgAndComputeTax q msgs = Ok client /\
    (forall d, d <> DefaultBondDenom -> amt client d = amt node d) /\
    amt node DefaultBondDenom = 0 /\
    amt client DefaultBondDenom = client_tax_on t (flat_map taxable msgs) DefaultBondDenom.
Proof.
  intros Hq Hcap Hr Hdec Hv Hb.
  destruct (filter_total t Hcap Hr msgs Hdec Hv Hb) as (node & Hn & _ & Han).
  destruct (client_filter_total t q Hq Hcap Hr msgs Hdec Hv Hb) as (client & Hc & _ & Hac).
  exists node, client. split; [done|]. split; [done|]. split; [|split].
  - intros d Hd. rewrite Han, Hac. by apply client_tax_on_node.
  - rewrite Han. unfold tax_on, due_on. clear -M. induction (flat_map taxable msgs) as [|c cs IH]; [done|].
    rewrite sumZ_cons, IH. destruct (String.eqb (coin_denom c) DefaultBondDenom) eqn:E; [|done].
    unfold tax_due. by rewrite E, !orb_true_r.
  - apply Hac.
Qed.

Lemma gas_fees_wf gas prices fs :
  Forall2 (fun gp fee => gas_fee gas gp = Ok fee) prices fs ->
  denoms_wf (dcoin_denom <$> prices) -> Forall (fun gp => 0 < dcoin_amount gp) prices ->
  0 < gas < two63 -> coins_wf fs.
Proof.
  intros H Hd Hpos Hg. split; [|by rewrite (fees_denoms _ _ _ H)].
  clear Hd. induction H as [|gp fee l fs Hf _ IH]; [constructor|].
  apply Forall_cons in Hpos as [Hp Hpos]. constructor; [|by apply IH].
  apply gas_fee_spec in Hf as (_ & _ & Hf & _). rewrite to_int64_id in Hf by (unfold is_int64; lia).
  pose proof precision_pos. cbn in Hp. nia.
Qed.

Lemma coins_sort_wf cs : coins_wf cs -> coins_wf (coins_sort cs).
Proof.
  intros [H1 [H2 _]]. split; [by rewrite coins_sort_perm|].
  split; [by rewrite coins_sort_perm|apply coins_sort_sorted].
Qed.

(** What the client proposes: its fees, the tax, and the gas fees. *)
Lemma ComputeFees_amt q fees prices gas msgs taxes r :
  client_FilterMsgAndComputeTax q msgs = Ok taxes -> coins_wf taxes -> coins_wf fees ->
  denoms_wf (dcoin_denom <$> prices) -> Forall (fun gp => 0 < dcoin_amount gp) prices ->
  0 < gas < two63 -> ComputeFees q fees prices gas msgs = Ok r ->
  exists required, required_fees prices gas = Ok required /\ coins_wf required /\ coins_wf r /\
    forall d, amt r d = amt fees d + amt taxes d + amt required d.
Proof.
  intros Ht Htw Hfw Hd Hpos Hg.
  assert (Hgf : forall fs, Forall2 (fun gp fee => gas_fee gas gp = Ok fee) prices fs -> coins_wf fs)
    by (intros fs Hfs; by eapply gas_fees_wf).
  unfold ComputeFees, required_fees. rewrite Ht. cbn. intros H. go_inv.
  pose proof (coins_add_wf _ _ _ Hv Hfw Htw) as Hvw.
  destruct (deccoins_is_zero prices); go_inv.
  { exists []. split; [done|]. split; [auto with go|]. split; [done|]. intros d.
    rewrite (coins_add_amt _ _ _ d Hv), amt_nil. lia. }
  exists v0. split; [done|]. apply gas_fees_spec in Hv0 as (fs & -> & Hfs). cbn in *.
  pose proof (Hgf fs Hfs) as Hw. split; [done|].
  split; [by eapply coins_add_wf, coins_sort_wf|]. intros d.
  rewrite (coins_add_amt _ _ _ d H), (coins_add_amt _ _ _ d Hv).
  by rewrite (amt_perm _ _ d (coins_sort_perm fs)).
Qed.

Lemma fees_sufficient (ctx : AnteCtx) gas fees taxes required rest :
  required_fees (MinGasPrices ctx) gas = Ok required -> coins_wf required ->
  coins_safe_sub fees taxes = Ok (rest, false) -> coins_wf rest ->
  (forall d, amt required d <= amt rest d) ->
  EnsureSufficientMempoolFees ctx gas fees taxes = Ok tt.
Proof.
  intros Hreq Hw Hsub Hrw Hle. unfold EnsureSufficientMempoolFees. rewrite Hreq. cbn. rewrite Hsub. cbn.
  destruct required as [|f l]; [by rewrite (proj2 (coins_is_zero_spec [])) by constructor|].
  enough (coins_is_any_gte rest (f :: l) = true) as -> by (by rewrite andb_false_r).
  apply coins_is_any_gte_spec; [apply Hw|]. pose proof (proj1 (Forall_cons _ _ _) (proj1 Hw)) as [Hf _].
  assert (coin_amount f <= amt (f :: l) (coin_denom f)) as Hfa.
  { apply amt_elem; [|by left]. eapply Forall_impl; [exact (proj1 Hw)|]. cbn. lia. }
  specialize (Hle (coin_denom f)). cbn in Hf.
  destruct (amt_found rest (coin_denom f)) as (c & Hc & Hcd & Ha); [apply Hrw|lia|].
  exists c. rewrite Hcd. split; [done|]. lia.
Qed.

(** C33. A transaction with the fee the client computed, for gas prices that are
    the node's minimum, is never refused by the tax decorator: it is handed to
    the rest of the chain. *)
Theorem estimate_accepted {O} next (ctx : AnteCtx) (s : ante_state T O) q fees gas msgs total :
  let t := ante_treasury s in
  answers t q -> (forall d, 0 <= get_tax_cap t d) -> 0 <= get_tax_rate t <= OneDec ->
  forallb decodable msgs = true ->
  Forall (fun c => ValidDenom (coin_denom c) = true /\ 0 <= coin_amount c) (flat_map taxable msgs) ->
  (forall d, amt (flat_map taxable msgs) d < tax_limit) ->
  coins_wf fees -> denoms_wf (dcoin_denom <$> MinGasPrices ctx) ->
  Forall (fun gp => 0 < dcoin_amount gp) (MinGasPrices ctx) -> 0 < gas < two63 ->
  ComputeFees q fees (MinGasPrices ctx) gas msgs = Ok total ->
  coins_wf (tax_proceeds t) -> (forall d, amt (tax_proceeds t) d + amt total d < int_bound) ->
  let tx := IsFeeTx (mkFeeTx total gas msgs) in
  exists s1, TaxFeeDecorator next ctx tx false s = next ctx tx false s1.
Proof.
  intros t Hq Hcap Hr Hdec Hv Hb Hfw Hd Hpos Hg Hfees Hpw Hpb tx.
  destruct (filter_total t Hcap Hr msgs Hdec Hv Hb) as (node & Hn & Hnw & Han).
  destruct (client_filter_total t q Hq Hcap Hr msgs Hdec Hv Hb) as (client & Hc & Hcw & Hac).
  destruct (ComputeFees_amt _ _ _ _ _ _ _ Hc Hcw Hfw Hd Hpos Hg Hfees) as (req & Hreq & Hrw & Htw & Ha).
  assert (Hcov : forall d, amt node d + amt req d <= amt total d).
  { intros d. rewrite Ha, Hac, Han. pose proof (client_tax_on_le t Hcap Hr _ d Hv).
    pose proof (coins_wf_nonneg fees d Hfw). lia. }
  assert (Hn0 : forall d, 0 <= amt node d) by (intros; by apply coins_wf_nonneg).
  destruct (coins_safe_sub_total total node Htw Hnw) as (rest & Hsub & Hrest).
  { intros d. specialize (Hcov d). specialize (Hpb d). pose proof (coins_wf_nonneg req d Hrw).
    pose proof (coins_wf_nonneg _ d Hpw). lia. }
  destruct (record_total node t Hpw Hnw) as [t' Hrec].
  { intros d. specialize (Hcov d). specialize (Hpb d). pose proof (coins_wf_nonneg req d Hrw). lia. }
  eapply TaxFeeDecorator_pass; [exact Hn| |exact Hsub|exact Hrec].
  apply (fees_sufficient _ _ _ _ req rest); [done..|]. intros d.
  rewrite (coins_safe_sub_amt _ _ _ _ d Hsub). specialize (Hcov d). lia.
Qed.

End client_theorems.

(** The treasury's query service answers for its store. *)
Lemma treasury_querier_answers {M : SdkMath} {C : SdkCoins} {K S B} (s : Treasury.state K S B) :
  answers s (treasury_querier (tstore s)).
Proof. split; [done|]. intros d Hd. cbn. unfold QueryTaxCap. by rewrite Hd. Qed.

(** When the query service fails, the client does not return its error: it
    panics on the missing response. *)
Theorem client_query_error_panics {M : SdkMath} {C : SdkCoins} (q : QueryClient) (e : error)
    (msgs : list Msg) :
  q_TaxRate q = Err e -> client_FilterMsgAndComputeTax q msgs = Panic.
Proof. intros H. unfold client_FilterMsgAndComputeTax, queryTaxRate. by rewrite H. Qed.

(** ** A run *)

Module FeeUtilsExample.

#[local] Existing Instance ref_math.
#[local] Existing Instance ref_coins.
#[local] Existing Instance ref_bech32.

Definition q0 : QueryClient := treasury_querier (tstore AnteExample.treasury0).

Definition total0 : list Coin := [mkCoin "uusd" 30008].

Lemma total0_run :
  ComputeFees q0 [] (MinGasPrices AnteExample.ctx0) 200000 AnteExample.msgs0 = Ok total0.
Proof. vm_compute. reflexivity. Qed.

Lemma rate0 : 0 <= get_tax_rate AnteExample.treasury0 <= OneDec.
Proof. vm_compute. split; congruence. Qed.

Lemma client_tax_agrees_witness :
  exists node client,
    FilterMsgAndComputeTax AnteExample.treasury0 AnteExample.msgs0 = Ok node /\
    client_FilterMsgAndComputeTax q0 AnteExample.msgs0 = Ok client /\
    amt client "uusd" = amt node "uusd".
Proof.
  destruct (client_tax_agrees (ML:=ref_math_laws) (CL:=ref_coins_laws) AnteExample.treasury0 q0 AnteExample.msgs0)
    as (node & client & Hn & Hc & Ha & _).
  - exact (treasury_querier_answers AnteExample.treasury0).
  - exact AnteExample.treasury0_caps.
  - exact rate0.
  - vm_compute. reflexivity.
  - exact AnteExample.msgs0_valid.
  - exact AnteExample.msgs0_bound.
  - exists node, client. split; [exact Hn|]. split; [exact Hc|]. apply Ha. vm_compute. congruence.
Defined.

Lemma estimate_accepted_witness :
  exists s1,
    TaxFeeDecorator AnteExample.end_of_chain AnteExample.ctx0
      (IsFeeTx (mkFeeTx total0 200000 AnteExample.msgs0)) false AnteExample.ante0
    = AnteExample.end_of_chain AnteExample.ctx0 (IsFeeTx (mkFeeTx total0 200000 AnteExample.msgs0)) false s1.
Proof.
  apply (estimate_accepted (ML:=ref_math_laws) (CL:=ref_coins_laws) (TL:=treasury_keeper_laws)
    AnteExample.end_of_chain AnteExample.ctx0 AnteExample.ante0 q0 [] 200000 AnteExample.msgs0 total0).
  - exact (treasury_querier_answers AnteExample.treasury0).
  - exact AnteExample.treasury0_caps.
  - exact rate0.
  - vm_compute. reflexivity.
  - exact AnteExample.msgs0_valid.
  - exact AnteExample.msgs0_bound.
  - exact coins_wf_nil.
  - apply denoms_wf_single.
  - repeat constructor; vm_compute; reflexivity.
  - unfold two63. lia.
  - exact total0_run.
  - apply coins_wf_single. reflexivity.
  - intros d. change (tax_proceeds (ante_treasury AnteExample.ante0)) with [mkCoin "uusd" 5].
    unfold total0. rewrite !amt_single. cbn [coin_denom coin_amount]. unfold int_bound.
    destruct (String.eqb "uusd" d); lia.
Defined.

Lemma client_query_error_panics_witness :
  client_FilterMsgAndComputeTax (mkQueryClient (Err (Errorf "connection refused")) (fun _ => Ok 0)) [] = Panic.
Proof.
  exact (client_query_error_panics (mkQueryClient (Err (Errorf "connection refused")) (fun _ => Ok 0))
    (Errorf "connection refused") [] eq_refl).
Defined.

End FeeUtilsExample.
