(* ===== verification/WasmTypes.v ===== *)
(** * Types of the wasm module ([x/wasm/types])

    Gas costs, parameters, contract addresses and store keys, the events and
    coins that pass between contracts and the chain, and the size-limited
    decompression of uploaded code ([keeper/ioutil.go]).  Byte slices are
    strings. *)

From Stdlib Require Import ZArith Lia Bool Ascii.
From stdpp Require Import base gmap strings list.
From S2P Require Import Prelude Loops Sdk Core OracleStore.
Local Open Scope Z_scope.

Definition len (s : string) : Z := Z.of_nat (String.length s).

(** [len(l) == 0]. *)
Definition no_elems {T} (l : list T) : bool :=
  match l with
  | [] => true
  | _ => false
  end.

(** ** Errors ([errors.go]) *)

Definition ErrAccountExists : error := Registered "wasm" "ErrAccountExists".
Definition ErrInstantiateFailed : error := Registered "wasm" "ErrInstantiateFailed".
Definition ErrExecuteFailed : error := Registered "wasm" "ErrExecuteFailed".
Definition ErrInvalidGenesis : error := Registered "wasm" "ErrInvalidGenesis".
Definition ErrNotFound : error := Registered "wasm" "ErrNotFound".
Definition ErrInvalidMsg : error := Registered "wasm" "ErrInvalidMsg".
Definition ErrNoRegisteredParser : error := Registered "wasm" "ErrNoRegisteredParser".
Definition ErrMigrationFailed : error := Registered "wasm" "ErrMigrationFailed".
Definition ErrNotMigratable : error := Registered "wasm" "ErrNotMigratable".
Definition ErrStoreCodeFailed : error := Registered "wasm" "ErrStoreCodeFailed".
Definition ErrContractQueryFailed : error := Registered "wasm" "ErrContractQueryFailed".
Definition ErrExceedMaxContractSize : error := Registered "wasm" "ErrExceedMaxContractSize".
Definition ErrExceedMaxContractMsgSize : error := Registered "wasm" "ErrExceedMaxContractMsgSize".
Definition ErrReplyFailed : error := Registered "wasm" "ErrReplyFailed".
Definition ErrExceedMaxQueryDepth : error := Registered "wasm" "ErrExceedMaxQueryDepth".
Definition ErrUnauthorized : error := Registered "sdk" "ErrUnauthorized".
Definition ErrInvalidAddress : error := Registered "sdk" "ErrInvalidAddress".
Definition ErrInvalidRequest : error := Registered "sdk" "ErrInvalidRequest".
Definition ErrInvalidCoins : error := Registered "sdk" "ErrInvalidCoins".
Definition ErrJSONUnmarshal : error := Registered "sdk" "ErrJSONUnmarshal".
Definition ErrUnknownRequest : error := Registered "sdk" "ErrUnknownRequest".
Definition ErrOutOfGas : error := Registered "sdk" "ErrOutOfGas".

(** ** Parameters ([params.go]) *)

Definition EnforcedMaxContractSize : Z := 3000 * 1024.
Definition EnforcedMaxContractGas : Z := 100000000.
Definition EnforcedMaxContractMsgSize : Z := 20 * 1024.

Record Params : Type := mkParams {
  PMaxContractSize : Z; PMaxContractGas : Z; PMaxContractMsgSize : Z }.

Definition DefaultParams : Params := mkParams (600 * 1024) 20000000 (4 * 1024).

Definition Params_Validate (p : Params) : res unit :=
  fail_if (EnforcedMaxContractSize <? PMaxContractSize p) (Errorf "max contract byte size");;
  fail_if (EnforcedMaxContractGas <? PMaxContractGas p) (Errorf "max contract gas");;
  fail_if (EnforcedMaxContractMsgSize <? PMaxContractMsgSize p) (Errorf "max contract msg byte size").

(** ** Gas costs ([gas_meter.go])

    [sdk.Uint] is an unsigned integer of the SDK; [Uint64] panics when the
    number does not fit. *)

Class SdkUint : Type := {
  uint_add : Z -> Z -> res Z;      (* Uint.Add, Uint.AddUint64 *)
  uint_mul : Z -> Z -> res Z;      (* Uint.Mul, Uint.MulUint64 *)
  uint_uint64 : Z -> res Z;        (* Uint.Uint64 *)
}.

Class SdkUintLaws (U : SdkUint) : Prop := {
  uint_add_spec a b : 0 <= a -> 0 <= b -> uint_add a b = if a + b <? 2 ^ 256 then Ok (a + b) else Panic;
  uint_mul_spec a b : 0 <= a -> 0 <= b -> uint_mul a b = if a * b <? 2 ^ 256 then Ok (a * b) else Panic;
  uint_uint64_spec a : 0 <= a -> uint_uint64 a = if a <? two64 then Ok a else Panic;
}.

Definition GasMultiplier : Z := 100.
Definition compileCostPerByte : Z := 2.
Definition instantiateCost : Z := 40000.
Definition registerCost : Z := 160000.
Definition humanizeCost : Z := 5.
Definition canonicalizeCost : Z := 4.
Definition eventAttributeCost : Z := 10.
Definition customEventCost : Z := 20.
Definition eventAttributeDataCostPerByte : Z := 1.
Definition contractMessageDataCostPerByte : Z := 1.
Definition HumanizeWasmGasCost : Z := humanizeCost * GasMultiplier.
Definition CanonicalizeWasmGasCost : Z := canonicalizeCost * GasMultiplier.

(** Events of contracts and of the SDK: a type and attributes, keys and
    values. *)
Abbreviation EventAttribute := (string * string)%type (only parsing).
Record Event : Type := mkEvent { EType : string; EAttributes : list EventAttribute }.

#[global] Instance Event_eq_dec : EqDecision Event.
Proof. solve_decision. Defined.

(** What a submessage returned, for the contract that sent it. *)
Record SubcallResponse : Type := mkSubcall { SEvents : list Event; SData : option string }.
Record SubcallResult : Type := mkSubResult { ROk : option SubcallResponse; RErr : string }.
Record Reply : Type := mkReply { ReplyID : Z; ReplyResult : SubcallResult }.

Section costs.
Context {U : SdkUint}.

Definition CompileCosts (byteLength : Z) : res Z :=
  c ← uint_mul compileCostPerByte (to_uint64 byteLength);
  uint_uint64 c.

Definition InstantiateContractCosts (msgLen : Z) : res Z :=
  dataCosts ← uint_mul (to_uint64 msgLen) contractMessageDataCostPerByte;
  c ← uint_add dataCosts instantiateCost;
  uint_uint64 c.

Definition RegisterContractCosts : Z := registerCost.

Definition eventTypeCosts (eventType : string) : res Z :=
  if len eventType =? 0 then Ok 0
  else
    c ← uint_mul (len eventType) eventAttributeDataCostPerByte;
    uint_uint64 c.

Definition eventAttributeCosts (attrs : list EventAttribute) : res Z :=
  if no_elems attrs then Ok 0
  else
    storedBytes ← foldM (fun n l => uint_add n (to_uint64 (len l.1 + len l.2))) attrs 0;
    lengthCost ← uint_mul storedBytes eventAttributeDataCostPerByte;
    attributeCost ← uint_mul eventAttributeCost (Z.of_nat (length attrs));
    r ← uint_add lengthCost attributeCost;
    uint_uint64 r.

Definition EventCosts (attrs : list EventAttribute) (events : list Event) : res Z :=
  gas ← eventAttributeCosts attrs;
  gas ← foldM (fun gas e =>
      typeCost ← eventTypeCosts (EType e);
      attributeCost ← eventAttributeCosts (EAttributes e);
      c ← uint_add customEventCost typeCost;
      eventCost ← uint_add c attributeCost;
      uint_add gas eventCost) events gas;
  uint_uint64 gas.

(** [ReplyCosts]: [msgLen] counts the error text or the data and the types of
    the events. *)
Definition data_len (d : option string) : Z :=
  match d with
  | None => 0
  | Some s => len s
  end.

Definition ReplyCosts (reply : Reply) : res Z :=
  let result := ReplyResult reply in
  let msgLen := len (RErr result) in
  '(msgLen, eventGas) ←
    (match ROk result with
     | None => Ok (msgLen, 0)
     | Some ok =>
         let msgLen := msgLen + data_len (SData ok) in
         let msgLen := foldl (fun n e => n + len (EType e)) msgLen (SEvents ok) in
         let attrs := concat (EAttributes <$> SEvents ok) in
         c ← eventAttributeCosts attrs;
         eventGas ← uint_add 0 c;
         Ok (msgLen, eventGas)
     end);
  c ← InstantiateContractCosts msgLen;
  gas ← uint_add eventGas c;
  uint_uint64 gas.

Definition ToWasmVMGas (source : Z) : res Z :=
  g ← uint_mul source GasMultiplier;
  uint_uint64 g.

Definition FromWasmVMGas (source : Z) : Z := source / GasMultiplier.

End costs.

(** ** Events and coins ([connector.go], [contract.go]) *)

Definition EventTypeWasmPrefix : string := "wasm".
Definition EventTypeFromContract : string := "from_contract".
Definition AttributeKeyContractAddress : string := "contract_address".

Record WasmCoin : Type := mkWasmCoin { WDenom : string; WAmount : string }.

(** Decimal texts of [sdk.Int]. *)
Class IntText : Type := {
  NewIntFromString : string -> option Int;
  IntString : Int -> string;
}.

Class IntTextLaws (I : IntText) : Prop := {
  int_text_round n : Z.abs n < int_bound -> NewIntFromString (IntString n) = Some n;
}.

Section connector.
Context {A : Bech32}.

(** [buildEvent] returns a nil event when there are no attributes. *)
Definition buildEvent (eventType : string) (contractAddr : AccAddress) (attributes : list EventAttribute)
    : option Event :=
  if no_elems attributes then None
  else Some (mkEvent eventType
    ((AttributeKeyContractAddress, AccAddressString contractAddr) ::
     List.filter (fun l => negb (String.eqb l.1 AttributeKeyContractAddress)) attributes)).

(** A dereferenced pointer: nil panics. *)
Definition deref {T} (p : option T) : res T :=
  match p with
  | Some x => Ok x
  | None => Panic
  end.

Definition ParseEvents (contractAddr : AccAddress) (attributes : list EventAttribute) (events : list Event)
    : res (list Event) :=
  if no_elems attributes && no_elems events then Ok []
  else
    sdkEvents ←
      (if no_elems attributes then Ok []
       else
         sdkEvent ← deref (buildEvent EventTypeWasmPrefix contractAddr attributes);
         Ok [sdkEvent; mkEvent EventTypeFromContract (EAttributes sdkEvent)]);
    foldM (fun sdkEvents event =>
      sdkEvent ← deref (buildEvent (String.append EventTypeWasmPrefix (String.append "-" (EType event)))
                                   contractAddr (EAttributes event));
      Ok (sdkEvents ++ [sdkEvent])) events sdkEvents.

(** [EncodeSdkEvents]: a skipped event leaves the zero value in the slice. *)
Definition EncodeSdkEvents (events : list Event) : list Event :=
  (fun ev => if String.eqb (EType ev) EventTypeFromContract then mkEvent "" [] else ev) <$> events.

Context {I : IntText}.

Definition ParseToCoin (wasmCoin : WasmCoin) : res Coin :=
  match NewIntFromString (WAmount wasmCoin) with
  | None => Err ErrInvalidCoins
  | Some amount => Ok (mkCoin (WDenom wasmCoin) amount)
  end.

Definition ParseToCoins (wasmCoins : list WasmCoin) : res (list Coin) :=
  foldM (fun coins coin => c ← ParseToCoin coin; Ok (coins ++ [c])) wasmCoins [].

Definition EncodeSdkCoin (coin : Coin) : WasmCoin :=
  mkWasmCoin (coin_denom coin) (IntString (coin_amount coin)).

Definition EncodeSdkCoins (coins : list Coin) : list WasmCoin := EncodeSdkCoin <$> coins.

(** [NewWasmCoins]. *)
Definition NewWasmCoins (cosmosCoins : list Coin) : list WasmCoin :=
  (fun coin => mkWasmCoin (coin_denom coin) (IntString (coin_amount coin))) <$> cosmosCoins.

(** What a contract learns about the block and the message. *)
Record BlockCtx : Type := mkBlock { bctx : Ctx; BlockTime : Z }.
Record Env : Type := mkEnv { EnvHeight : Z; EnvTime : Z; EnvChainID : string; EnvContract : string }.
Record MessageInfo : Type := mkInfo { InfoSender : string; Funds : list WasmCoin }.

Definition NewEnv (ctx : BlockCtx) (contractAddr : AccAddress) : Env :=
  mkEnv (to_uint64 (BlockHeight (bctx ctx))) (to_uint64 (BlockTime ctx)) (ChainID (bctx ctx))
        (AccAddressString contractAddr).

Definition NewInfo (creator : AccAddress) (deposit : list Coin) : MessageInfo :=
  mkInfo (AccAddressString creator) (NewWasmCoins deposit).

End connector.

(** ** Contracts and their addresses ([contract.go]) *)

Record CodeInfo : Type := mkCodeInfo { CICodeID : Z; CICodeHash : string; CICreator : string }.

Record ContractInfo : Type := mkContract {
  CAddress : string; CCreator : string; CAdmin : string; CCodeID : Z; CInitMsg : string }.

#[global] Instance CodeInfo_eq_dec : EqDecision CodeInfo.
Proof. solve_decision. Defined.

#[global] Instance ContractInfo_eq_dec : EqDecision ContractInfo.
Proof. solve_decision. Defined.

(** [crypto.AddressHash] of Tendermint. *)
Class Crypto : Type := { AddressHash : string -> string }.

Definition byte (n : Z) : ascii := ascii_of_nat (Z.to_nat n).

(** [binary.PutUvarint]: seven bits per byte, the lowest first. *)
Fixpoint PutUvarint (fuel : nat) (x : Z) : string :=
  match fuel with
  | O => ""
  | S fuel =>
      if 128 <=? x then String (byte (x mod 128 + 128)) (PutUvarint fuel (Z.shiftr x 7))
      else String (byte x) ""
  end.

Fixpoint zeros (n : nat) : string :=
  match n with
  | O => ""
  | S n => String (byte 0) (zeros n)
  end.

(** A slice of [n] zero bytes whose start is overwritten. *)
Definition overwrite (n : nat) (s : string) : string := String.append s (zeros (n - String.length s)).

Section contracts.
Context {A : Bech32} {H : Crypto}.

Definition NewCodeInfo (codeID : Z) (codeHash : string) (creator : AccAddress) : CodeInfo :=
  mkCodeInfo codeID codeHash (AccAddressString creator).

Definition NewContractInfo (codeID : Z) (address creator admin : AccAddress) (initMsg : string) : ContractInfo :=
  let adminAddr := if String.eqb admin "" then "" else AccAddressString admin in
  mkContract (AccAddressString address) (AccAddressString creator) adminAddr codeID initMsg.

(** An identifier has at most ten groups of seven bits. *)
Definition addrFromUint64 (id : Z) : AccAddress :=
  AddressHash (String (ascii_of_nat 67) (overwrite 19 (PutUvarint 10 id))).

Definition GenerateContractAddress (codeID instanceID : Z) : AccAddress :=
  let contractID := to_uint64 (to_uint64 (Z.shiftl codeID 32) + instanceID) in
  addrFromUint64 contractID.

End contracts.

(** ** Keys of the store ([keys.go]) *)

Definition ContractInfoKey : ascii := ascii_of_nat 4.
Definition ContractStoreKey : ascii := ascii_of_nat 5.

Section keys.
Context {L : AddressCodec}.

Definition GetContractInfoKey (addr : AccAddress) : res string :=
  p ← MustLengthPrefix addr; Ok (String ContractInfoKey p).

Definition GetContractStoreKey (addr : AccAddress) : res string :=
  p ← MustLengthPrefix addr; Ok (String ContractStoreKey p).

End keys.

(** ** Uploaded code ([keeper/ioutil.go]) *)

Definition gzipIdent : string := String (ascii_of_nat 31) (String (ascii_of_nat 139) (String (ascii_of_nat 8) "")).

(** [gzip.NewReader] fails on a bad header; otherwise the reader yields bytes
    and ends, with [io.EOF] or, when the stream is damaged, with an error.  The
    end may be reported together with the last bytes or by a read of its own. *)
Record Stream : Type := mkStream { yields : string; damage : option error; ends_with_data : bool }.

Class Gzip : Type := { gzip_reader : string -> res Stream }.

Section ioutil.
Context {G : Gzip}.

(** [ioutil.ReadAll(LimitReader(r, n))]: a read after [n] bytes is an error. *)
Definition read_limited (r : Stream) (n : Z) : res string :=
  if (n <=? 0) || (n <? len (yields r)) || ((len (yields r) =? n) && negb (ends_with_data r))
  then Err ErrExceedMaxContractSize
  else
    match damage r with
    | Some e => Err e
    | None => Ok (yields r)
    end.

Definition uncompress (src : string) (maxContractSize : Z) : res string :=
  if len src <? 3 then Ok src
  else if maxContractSize <? len src then Err ErrExceedMaxContractSize
  else if negb (String.eqb gzipIdent (String.substring 0 3 src)) then Ok src
  else
    zr ← gzip_reader src;
    read_limited zr (to_int64 maxContractSize).

End ioutil.

(** ** Contract addresses *)

Section address_facts.
Context {H : Crypto}.

(** Reading an identifier back. *)
Fixpoint Uvarint (s : string) : Z :=
  match s with
  | EmptyString => 0
  | String c s' =>
      let b := Z.of_nat (nat_of_ascii c) in
      if b <? 128 then b else b - 128 + 128 * Uvarint s'
  end.

Lemma byte_value n : 0 <= n < 256 -> Z.of_nat (nat_of_ascii (byte n)) = n.
Proof. intros Hn. unfold byte. rewrite nat_ascii_embedding; lia. Qed.

Lemma Uvarint_cons n s rest :
  0 <= n < 256 ->
  Uvarint (String.append (String (byte n) s) rest) =
  if n <? 128 then n else n - 128 + 128 * Uvarint (String.append s rest).
Proof.
  intros Hn. change (String.append (String (byte n) s) rest) with (String (byte n) (String.append s rest)).
  cbn [Uvarint]. by rewrite byte_value.
Qed.

Lemma String_tail c s t : String c s = String c t -> s = t.
Proof. by intros [= ->]. Qed.

Lemma PutUvarint_S n x :
  PutUvarint (S n) x =
  if 128 <=? x then String (byte (x mod 128 + 128)) (PutUvarint n (Z.shiftr x 7)) else String (byte x) "".
Proof. done. Qed.

Lemma Uvarint_PutUvarint n x rest :
  0 <= x < 128 ^ Z.of_nat (S n) -> Uvarint (String.append (PutUvarint (S n) x) rest) = x.
Proof.
  revert x. induction n as [|n IH]; intros x Hx; rewrite PutUvarint_S;
    destruct (Z.leb_spec 128 x) as [Hle|Hlt].
  1: { change (128 ^ Z.of_nat 1) with 128 in Hx. lia. }
  1, 3: rewrite Uvarint_cons by lia; by apply Z.ltb_lt in Hlt as ->.
  assert (Hm : 0 <= x mod 128 < 128) by (apply Z.mod_pos_bound; lia).
  assert (Hd : x = 128 * (x / 128) + x mod 128) by (apply Z.div_mod; lia).
  rewrite Uvarint_cons by lia. destruct (Z.ltb_spec (x mod 128 + 128) 128); [lia|].
  rewrite Z.shiftr_div_pow2 by lia. change (2 ^ 7) with 128.
  rewrite IH; [lia|]. rewrite (Nat2Z.inj_succ (S n)), Z.pow_succ_r in Hx by lia.
  split; [apply Z.div_pos; lia|]. apply Z.div_lt_upper_bound; lia.
Qed.

(** What is hashed into the address of a contract. *)
Definition contract_preimage (codeID instanceID : Z) : string :=
  String (ascii_of_nat 67) (overwrite 19 (PutUvarint 10 (codeID * 2 ^ 32 + instanceID))).

(** Contract addresses: the address of a contract is the hash of a text that
    determines its code and instance number, as long as both are below [2^32],
    the bound the source warns about; two contracts share an address only when
    the hash collides on two of these texts. *)
Theorem contract_addresses_distinct codeID instanceID codeID' instanceID' :
  0 <= codeID < 2 ^ 32 -> 0 <= instanceID < 2 ^ 32 -> 0 <= codeID' < 2 ^ 32 -> 0 <= instanceID' < 2 ^ 32 ->
  GenerateContractAddress codeID instanceID = GenerateContractAddress codeID' instanceID' ->
  (codeID = codeID' /\ instanceID = instanceID') \/
  (contract_preimage codeID instanceID <> contract_preimage codeID' instanceID' /\
   AddressHash (contract_preimage codeID instanceID) = AddressHash (contract_preimage codeID' instanceID')).
Proof.
  assert (Hid : forall c i, 0 <= c < 2 ^ 32 -> 0 <= i < 2 ^ 32 ->
    to_uint64 (to_uint64 (Z.shiftl c 32) + i) = c * 2 ^ 32 + i).
  { intros c i Hc Hi. rewrite Z.shiftl_mul_pow2 by lia.
    rewrite !to_uint64_id; [done|unfold is_uint64, two64; lia|]. rewrite to_uint64_id; unfold is_uint64, two64; lia. }
  intros Hc Hi Hc' Hi' E. unfold GenerateContractAddress, addrFromUint64 in E. rewrite !Hid in E by done.
  destruct (String.eqb_spec (contract_preimage codeID instanceID) (contract_preimage codeID' instanceID')) as [Ep|Ep];
    [left|by right].
  apply String_tail in Ep. unfold overwrite in Ep. apply (f_equal Uvarint) in Ep.
  rewrite !Uvarint_PutUvarint in Ep by lia. lia.
Qed.

End address_facts.

(** ** Stores of contracts *)

Section key_facts.
Context {L : AddressCodec}.

Lemma append_prefix (a b k k' : string) :
  String.length a = String.length b -> String.append a k = String.append b k' -> a = b.
Proof.
  revert b. induction a as [|c a IH]; intros [|c' b] Hl E; cbn in *; try done.
  injection E as -> E. f_equal. apply IH; [lia|done].
Qed.

(** Stores of contracts do not overlap: no key under the prefix of one
    contract is a key under the prefix of another, since the prefix carries the
    length of the address. *)
Theorem contract_stores_disjoint a b ka kb k k' :
  (forall v r, MustLengthPrefix v = Ok r ->
     (String.length v <= 255)%nat /\ r = String (ascii_of_nat (String.length v)) v) ->
  GetContractStoreKey a = Ok ka -> GetContractStoreKey b = Ok kb -> a <> b ->
  String.append ka k <> String.append kb k'.
Proof.
  intros HL Ha Hb Hne E. unfold GetContractStoreKey in *. go_inv.
  apply HL in Hv as [Hla ->]. apply HL in Hv0 as [Hlb ->]. cbn in E. injection E as El E. apply Hne.
  apply (f_equal nat_of_ascii) in El. rewrite !nat_ascii_embedding in El by lia. by eapply append_prefix.
Qed.

End key_facts.

(** ** Events *)

Section event_facts.
Context {A : Bech32}.

Definition key_is (k : string) (l : EventAttribute) : bool := String.eqb l.1 k.

(** An event that names one contract, and whose type is one of the module's. *)
Definition authentic (a : AccAddress) (e : Event) : Prop :=
  List.filter (key_is AttributeKeyContractAddress) (EAttributes e)
    = [(AttributeKeyContractAddress, AccAddressString a)] /\
  (EType e = EventTypeWasmPrefix \/ EType e = EventTypeFromContract \/
   exists t, EType e = String.append "wasm-" t).

Lemma filter_none (k : string) l :
  List.filter (key_is k) (List.filter (fun x : EventAttribute => negb (String.eqb x.1 k)) l) = [].
Proof.
  induction l as [|x l IH]; [done|]. cbn. destruct (String.eqb x.1 k) eqn:E; cbn; [done|].
  unfold key_is in *. by rewrite E.
Qed.

Lemma filter_tag (k v : string) l :
  List.filter (key_is k) ((k, v) :: List.filter (fun x : EventAttribute => negb (String.eqb x.1 k)) l) = [(k, v)].
Proof. cbn [List.filter]. unfold key_is at 1. cbn [fst]. by rewrite String.eqb_refl, filter_none. Qed.

Lemma buildEvent_Some t a attrs e :
  buildEvent t a attrs = Some e ->
  EType e = t /\ attrs <> [] /\
  List.filter (key_is AttributeKeyContractAddress) (EAttributes e)
    = [(AttributeKeyContractAddress, AccAddressString a)].
Proof.
  unfold buildEvent. destruct attrs as [|x attrs]; [done|]. cbn [no_elems]. intros [= <-]. split; [done|]. split; [done|].
  exact (filter_tag AttributeKeyContractAddress (AccAddressString a) (x :: attrs)).
Qed.

Lemma deref_Ok {T} (p : option T) x : deref p = Ok x -> p = Some x.
Proof. by destruct p; intros [= ->]. Qed.

Lemma parse_loop a events acc l :
  foldM (fun sdkEvents event =>
      sdkEvent ← deref (buildEvent (String.append EventTypeWasmPrefix (String.append "-" (EType event))) a
                         (EAttributes event));
      Ok (sdkEvents ++ [sdkEvent])) events acc = Ok l ->
  Forall (authentic a) acc -> Forall (authentic a) l.
Proof.
  intros E Hacc. apply (foldM_inv (Forall (authentic a))) in E; [done| |done].
  intros b x r _ Hb Er. go_inv. apply deref_Ok, buildEvent_Some in Hv as (Ht & _ & Hf).
  apply Forall_app. split; [done|]. apply Forall_singleton. split; [done|].
  right; right. exists (EType x). by rewrite Ht.
Qed.

(** Events of contracts are authentic: every event names the contract that
    emitted it under [contract_address], once and with its real address
    whatever attributes the contract gave, and its type is [wasm],
    [from_contract] or starts with [wasm-]. *)
Theorem events_authentic a attributes events l :
  ParseEvents a attributes events = Ok l -> Forall (authentic a) l.
Proof.
  unfold ParseEvents. destruct (_ && _); intros E; go_inv; [constructor|]. eapply parse_loop; [exact E|].
  destruct (no_elems attributes); go_inv; [constructor|].
  apply deref_Ok, buildEvent_Some in Hv0 as (Ht & _ & Hf).
  apply Forall_cons_2; [by split; [|left]|]. apply Forall_singleton. by split; [|right; left].
Qed.

(** A contract that emits an event without attributes makes the node panic
    instead of getting an error, and this is the only way [ParseEvents] can go
    wrong. *)
Theorem empty_event_panics a attributes events :
  (ParseEvents a attributes events = Panic <-> Exists (fun e => EAttributes e = []) events) /\
  forall e, ParseEvents a attributes events <> Err e.
Proof.
  assert (Hloop : forall events acc,
    let r := foldM (fun sdkEvents event =>
      sdkEvent ← deref (buildEvent (String.append EventTypeWasmPrefix (String.append "-" (EType event))) a
                         (EAttributes event));
      Ok (sdkEvents ++ [sdkEvent])) events acc in
    (r = Panic <-> Exists (fun e => EAttributes e = []) events) /\ forall e, r <> Err e).
  { clear. induction events as [|x events IH]; intros acc; cbn [foldM].
    - split; [|done]. split; [done|]. by intros ?%Exists_nil.
    - rewrite Exists_cons. unfold buildEvent at 1. destruct (EAttributes x) as [|y l]; cbn.
      + split; [|done]. split; auto.
      + split; [|apply IH]. rewrite (proj1 (IH _)). split; [auto|]. intros [?|?]; done. }
  unfold ParseEvents. destruct attributes as [|x l]; cbn [no_elems].
  - destruct events; [|apply Hloop]. split; [|done]. split; [done|]. by intros ?%Exists_nil.
  - apply Hloop.
Qed.

Context {I : IntText} {IL : IntTextLaws I}.

(** Coins survive the way to a contract and back. *)
Theorem coins_roundtrip cs :
  Forall (fun c => Z.abs (coin_amount c) < int_bound) cs -> ParseToCoins (EncodeSdkCoins cs) = Ok cs.
Proof.
  intros Hcs. cut (forall acc, foldM (fun coins coin => c ← ParseToCoin coin; Ok (coins ++ [c]))
    (EncodeSdkCoins cs) acc = Ok (acc ++ cs)); [intros Hx; apply Hx|].
  induction Hcs as [|c cs Hc Hcs IH]; intros acc; cbn; [by rewrite app_nil_r|].
  unfold ParseToCoin. cbn. rewrite int_text_round by done. cbn.
  etrans; [apply IH|]. rewrite <- app_assoc. by destruct c.
Qed.

End event_facts.

(** Uploaded code stays below the limit, decompressed or not. *)
Theorem uncompress_bounded {G : Gzip} src maxContractSize code :
  3 <= maxContractSize < two63 -> uncompress src maxContractSize = Ok code -> len code <= maxContractSize.
Proof.
  unfold uncompress. intros Hm. rewrite to_int64_id by (unfold is_int64; unfold two63 in *; lia).
  destruct (Z.ltb_spec (len src) 3); [intros [= <-]; lia|].
  destruct (Z.ltb_spec maxContractSize (len src)); [done|]. destruct (negb _); [intros [= <-]; lia|].
  intros E. go_inv. unfold read_limited in E.
  destruct (_ <=? 0); [done|]. destruct (Z.ltb_spec maxContractSize (len (yields v))); [done|].
  destruct (_ && _); [done|]. cbn in E. destruct (damage v); [done|]. by simplify_eq.
Qed.
