(* ===== verification/WasmMsgs.v ===== *)
(** * Messages of the wasm module and messages of contracts

    The messages of [x/wasm/types/msgs.go] with their validation and signers,
    and the parsers that turn what a contract asks for into messages of the
    chain: [MsgParser] ([types/msg_binding.go]), the parser of wasm messages
    ([keeper/wasm_interface.go]), the stargate parser and the parsers of the
    bank, staking, distribution, governance and market modules
    ([custom/*/wasm], [x/market/wasm]). *)

From Stdlib Require Import ZArith Lia Bool.
From stdpp Require Import base gmap strings list.
From S2P Require Import Prelude Loops Sdk Core OracleStore WasmTypes.
From S2P Require Market Ante.
Local Open Scope Z_scope.

(** ** Messages ([types/msgs.go]) *)

Record MsgStoreCode : Type := mkStoreCode { SCSender : string; SCByteCode : string }.
Record MsgMigrateCode : Type := mkMigrateCode { MCCodeID : Z; MCSender : string; MCByteCode : string }.
Record MsgInstantiateContract : Type := mkInstantiate {
  ICSender : string; ICAdmin : string; ICCodeID : Z; ICInitMsg : string; ICInitCoins : list Coin }.
Record MsgExecuteContract : Type := mkExecute {
  ECSender : string; ECContract : string; ECExecuteMsg : string; ECCoins : list Coin }.
Record MsgMigrateContract : Type := mkMigrate {
  MGAdmin : string; MGContract : string; MGNewCodeID : Z; MGMigrateMsg : string }.
Record MsgUpdateContractAdmin : Type := mkUpdateAdmin { UAAdmin : string; UANewAdmin : string; UAContract : string }.
Record MsgClearContractAdmin : Type := mkClearAdmin { CAAdmin : string; CAContract : string }.

Section messages.
Context {A : Bech32} {C : SdkCoins}.
(** [json.Valid]. *)
Context (json_Valid : string -> bool).

Definition MsgStoreCode_ValidateBasic (msg : MsgStoreCode) : res unit :=
  _ ← wrap_err ErrInvalidAddress (AccAddressFromBech32 (SCSender msg));
  fail_if (len (SCByteCode msg) =? 0) ErrInvalidRequest;;
  fail_if (EnforcedMaxContractSize <? len (SCByteCode msg)) ErrInvalidRequest.

Definition MsgMigrateCode_ValidateBasic (msg : MsgMigrateCode) : res unit :=
  _ ← wrap_err ErrInvalidAddress (AccAddressFromBech32 (MCSender msg));
  fail_if (len (MCByteCode msg) =? 0) ErrInvalidRequest;;
  fail_if (EnforcedMaxContractSize <? len (MCByteCode msg)) ErrInvalidRequest.

Definition MsgInstantiateContract_ValidateBasic (msg : MsgInstantiateContract) : res unit :=
  _ ← wrap_err ErrInvalidAddress (AccAddressFromBech32 (ICSender msg));
  (if negb (len (ICAdmin msg) =? 0) then
     _ ← wrap_err ErrInvalidAddress (AccAddressFromBech32 (ICAdmin msg));
     Ok tt
   else Ok tt);;
  fail_if (negb (coins_is_valid (ICInitCoins msg))) ErrInvalidCoins;;
  fail_if (EnforcedMaxContractMsgSize <? len (ICInitMsg msg)) ErrInvalidRequest;;
  fail_if (negb (json_Valid (ICInitMsg msg))) ErrInvalidRequest.

Definition MsgExecuteContract_ValidateBasic (msg : MsgExecuteContract) : res unit :=
  _ ← wrap_err ErrInvalidAddress (AccAddressFromBech32 (ECSender msg));
  _ ← wrap_err ErrInvalidAddress (AccAddressFromBech32 (ECContract msg));
  fail_if (negb (coins_is_valid (ECCoins msg))) ErrInvalidCoins;;
  fail_if (EnforcedMaxContractMsgSize <? len (ECExecuteMsg msg)) ErrInvalidRequest;;
  fail_if (negb (json_Valid (ECExecuteMsg msg))) ErrInvalidRequest.

Definition MsgMigrateContract_ValidateBasic (msg : MsgMigrateContract) : res unit :=
  fail_if (MGNewCodeID msg =? 0) ErrInvalidRequest;;
  _ ← wrap_err ErrInvalidAddress (AccAddressFromBech32 (MGAdmin msg));
  _ ← wrap_err ErrInvalidAddress (AccAddressFromBech32 (MGContract msg));
  fail_if (EnforcedMaxContractMsgSize <? len (MGMigrateMsg msg)) ErrInvalidRequest;;
  fail_if (negb (json_Valid (MGMigrateMsg msg))) ErrInvalidRequest.

Definition MsgUpdateContractAdmin_ValidateBasic (msg : MsgUpdateContractAdmin) : res unit :=
  _ ← wrap_err ErrInvalidAddress (AccAddressFromBech32 (UAAdmin msg));
  _ ← wrap_err ErrInvalidAddress (AccAddressFromBech32 (UANewAdmin msg));
  _ ← wrap_err ErrInvalidAddress (AccAddressFromBech32 (UAContract msg));
  Ok tt.

Definition MsgClearContractAdmin_ValidateBasic (msg : MsgClearContractAdmin) : res unit :=
  _ ← wrap_err ErrInvalidAddress (AccAddressFromBech32 (CAAdmin msg));
  _ ← wrap_err ErrInvalidAddress (AccAddressFromBech32 (CAContract msg));
  Ok tt.

(** [GetSigners] of the seven messages: the sender or the admin; a text that
    is not an address panics. *)
Definition signer (text : string) : res (list AccAddress) :=
  a ← must (AccAddressFromBech32 text); Ok [a].

Definition MsgStoreCode_GetSigners (msg : MsgStoreCode) : res (list AccAddress) := signer (SCSender msg).
Definition MsgMigrateCode_GetSigners (msg : MsgMigrateCode) : res (list AccAddress) := signer (MCSender msg).
Definition MsgInstantiateContract_GetSigners (msg : MsgInstantiateContract) : res (list AccAddress) :=
  signer (ICSender msg).
Definition MsgExecuteContract_GetSigners (msg : MsgExecuteContract) : res (list AccAddress) :=
  signer (ECSender msg).
Definition MsgMigrateContract_GetSigners (msg : MsgMigrateContract) : res (list AccAddress) :=
  signer (MGAdmin msg).
Definition MsgUpdateContractAdmin_GetSigners (msg : MsgUpdateContractAdmin) : res (list AccAddress) :=
  signer (UAAdmin msg).
Definition MsgClearContractAdmin_GetSigners (msg : MsgClearContractAdmin) : res (list AccAddress) :=
  signer (CAAdmin msg).

Definition NewMsgInstantiateContract (sender admin : AccAddress) (codeID : Z) (initMsg : string)
    (initCoins : list Coin) : MsgInstantiateContract :=
  let adminAddr := if String.eqb admin "" then "" else AccAddressString admin in
  mkInstantiate (AccAddressString sender) adminAddr codeID initMsg initCoins.

Definition NewMsgExecuteContract (sender contract : AccAddress) (execMsg : string) (coins : list Coin)
    : MsgExecuteContract :=
  mkExecute (AccAddressString sender) (AccAddressString contract) execMsg coins.

Definition NewMsgMigrateContract (admin contract : AccAddress) (newCodeID : Z) (migrateMsg : string)
    : MsgMigrateContract :=
  mkMigrate (AccAddressString admin) (AccAddressString contract) newCodeID migrateMsg.

Definition NewMsgUpdateContractAdmin (admin newAdmin contract : AccAddress) : MsgUpdateContractAdmin :=
  mkUpdateAdmin (AccAddressString admin) (AccAddressString newAdmin) (AccAddressString contract).

Definition NewMsgClearContractAdmin (admin contract : AccAddress) : MsgClearContractAdmin :=
  mkClearAdmin (AccAddressString admin) (AccAddressString contract).

End messages.

(** The messages the wasm message server handles. *)
Inductive WasmMsg : Type :=
| StoreCodeMsg (m : MsgStoreCode)
| MigrateCodeMsg (m : MsgMigrateCode)
| InstantiateMsg (m : MsgInstantiateContract)
| ExecuteMsg (m : MsgExecuteContract)
| MigrateMsg (m : MsgMigrateContract)
| UpdateAdminMsg (m : MsgUpdateContractAdmin)
| ClearAdminMsg (m : MsgClearContractAdmin).

(** ** Messages of the chain

    Messages of SDK modules are what their constructors are given; a message
    unpacked by the stargate parser that is none of the others is known by its
    type and bytes. *)

Inductive VoteOption : Type := OptionEmpty | OptionYes | OptionNo | OptionNoWithVeto | OptionAbstain.

Inductive ForeignMsg : Type :=
| BankSend (from to : AccAddress) (amount : list Coin)
| StakingDelegate (delegator : AccAddress) (validator : ValAddress) (amount : Coin)
| StakingBeginRedelegate (delegator : AccAddress) (src dst : ValAddress) (amount : Coin)
| StakingUndelegate (delegator : AccAddress) (validator : ValAddress) (amount : Coin)
| DistrSetWithdrawAddress (delegator withdraw : AccAddress)
| DistrWithdrawReward (delegator : AccAddress) (validator : ValAddress)
| GovVote (proposal : Z) (voter : string) (option : VoteOption)
| UnpackedMsg (url value : string).

Inductive SdkMsg : Type :=
| OfWasm (m : WasmMsg)
| OfSwap (m : Market.MsgSwap)
| OfSwapSend (m : Market.MsgSwapSend)
| OfForeign (m : ForeignMsg).

(** [ValidateBasic] and [GetSigners] of the messages of other repositories,
    and how the tax sees a message that came through the stargate parser. *)
Class ForeignMsgs : Type := {
  foreign_ValidateBasic : ForeignMsg -> res unit;
  foreign_GetSigners : ForeignMsg -> res (list AccAddress);
  unpacked_view : string -> string -> Ante.Msg;
}.

(** The messages built here are signed by the account they act for. *)
Class ForeignMsgsLaws (A : Bech32) (F : ForeignMsgs) : Prop := {
  send_signers f t cs : address_ok f = true -> foreign_GetSigners (BankSend f t cs) = Ok [f];
  delegate_signers d v c : address_ok d = true -> foreign_GetSigners (StakingDelegate d v c) = Ok [d];
  redelegate_signers d v w c : address_ok d = true -> foreign_GetSigners (StakingBeginRedelegate d v w c) = Ok [d];
  undelegate_signers d v c : address_ok d = true -> foreign_GetSigners (StakingUndelegate d v c) = Ok [d];
  set_withdraw_signers d w : address_ok d = true -> foreign_GetSigners (DistrSetWithdrawAddress d w) = Ok [d];
  withdraw_signers d v : address_ok d = true -> foreign_GetSigners (DistrWithdrawReward d v) = Ok [d];
  vote_signers p v o : foreign_GetSigners (GovVote p v o) = signer v;
}.

Section chain_messages.
Context {A : Bech32} {F : ForeignMsgs}.

Definition GetSigners (msg : SdkMsg) : res (list AccAddress) :=
  match msg with
  | OfWasm (StoreCodeMsg m) => MsgStoreCode_GetSigners m
  | OfWasm (MigrateCodeMsg m) => MsgMigrateCode_GetSigners m
  | OfWasm (InstantiateMsg m) => MsgInstantiateContract_GetSigners m
  | OfWasm (ExecuteMsg m) => MsgExecuteContract_GetSigners m
  | OfWasm (MigrateMsg m) => MsgMigrateContract_GetSigners m
  | OfWasm (UpdateAdminMsg m) => MsgUpdateContractAdmin_GetSigners m
  | OfWasm (ClearAdminMsg m) => MsgClearContractAdmin_GetSigners m
  | OfSwap m => Market.MsgSwap_GetSigners m
  | OfSwapSend m => Market.MsgSwapSend_GetSigners m
  | OfForeign m => foreign_GetSigners m
  end.

(** The message as the tax ([Ante.FilterMsgAndComputeTax]) tells messages
    apart. *)
Definition tax_view (msg : SdkMsg) : Ante.Msg :=
  match msg with
  | OfWasm (InstantiateMsg m) => Ante.MsgInstantiateContract (ICInitCoins m)
  | OfWasm (ExecuteMsg m) => Ante.MsgExecuteContract (ECCoins m)
  | OfSwapSend m => Ante.MsgSwapSend m
  | OfForeign (BankSend _ _ cs) => Ante.MsgSend cs
  | OfForeign (UnpackedMsg url value) => unpacked_view url value
  | _ => Ante.MsgOther
  end.

End chain_messages.

(** ** Messages of contracts (wasmvm's [CosmosMsg])

    A struct of pointers, of which a contract sets one. *)

Record BankMsg : Type := mkBankMsg {
  BMSend : option (string * list WasmCoin); BMBurn : option (list WasmCoin) }.
Record StakingMsg : Type := mkStakingMsg {
  SMDelegate : option (string * WasmCoin);
  SMUndelegate : option (string * WasmCoin);
  SMRedelegate : option (string * string * WasmCoin) }.
Record DistributionMsg : Type := mkDistributionMsg {
  DMSetWithdrawAddress : option string; DMWithdrawDelegatorReward : option string }.
Inductive VoteMsg : Type := VoteUnset | Yes | No | Abstain | NoWithVeto.
Record GovMsg : Type := mkGovMsg { GMVote : option (Z * VoteMsg) }.
Record WasmExecute : Type := mkWasmExecute { WEContract : string; WEMsg : string; WEFunds : list WasmCoin }.
Record WasmInstantiate : Type := mkWasmInstantiate {
  WICodeID : Z; WIMsg : string; WIFunds : list WasmCoin; WIAdmin : string }.
Record WasmMigrate : Type := mkWasmMigrate { WMContract : string; WMNewCodeID : Z; WMMsg : string }.
Record ContractWasmMsg : Type := mkContractWasmMsg {
  WMExecute : option WasmExecute; WMInstantiate : option WasmInstantiate; WMMigrate : option WasmMigrate;
  WMUpdateAdmin : option (string * string); WMClearAdmin : option string }.
Record StargateMsg : Type := mkStargateMsg { TypeURL : string; StargateValue : string }.

Record CosmosMsg : Type := mkCosmosMsg {
  CMBank : option BankMsg; CMCustom : option string; CMStaking : option StakingMsg;
  CMDistribution : option DistributionMsg; CMGov : option GovMsg; CMWasm : option ContractWasmMsg;
  CMStargate : option StargateMsg; CMIBC : bool }.

(** [WasmMsgParserInterface] and [StargateWasmMsgParserInterface]; a nil
    message is [None]. *)
Record WasmMsgParser : Type := mkParser {
  Parse : AccAddress -> CosmosMsg -> res (option SdkMsg);
  ParseCustom : AccAddress -> string -> res (option SdkMsg) }.

Record MsgParser : Type := mkMsgParser {
  Parsers : gmap string WasmMsgParser;
  StargateParser : option (CosmosMsg -> res (option SdkMsg)) }.

(** What [encoding/json] and the codec read. *)
Record MarketCosmosMsg : Type := mkMarketMsg {
  MMSwap : option Market.MsgSwap; MMSwapSend : option Market.MsgSwapSend }.

Class MsgDecoding : Type := {
  unmarshal_custom_msg : string -> res (string * string);       (* WasmCustomMsg: route, msg_data *)
  unmarshal_market_msg : string -> res MarketCosmosMsg;
  unpack_any : string -> string -> res SdkMsg;                   (* UnpackAny *)
  unpack_interfaces : SdkMsg -> res SdkMsg;                      (* UnpackInterfaces *)
}.

Section parsers.
Context {A : Bech32} {C : SdkCoins} {I : IntText} {F : ForeignMsgs} {D : MsgDecoding}.
Context (json_Valid : string -> bool).

(** [RegisterMsgParsers]. *)
Definition RegisterMsgParsers (p : MsgParser) (parsers : list (string * WasmMsgParser))
    (stargate : option (CosmosMsg -> res (option SdkMsg))) : MsgParser :=
  mkMsgParser (foldl (fun m e => <[e.1 := e.2]> m) (Parsers p) parsers)
    (match stargate with
     | Some sp => Some sp
     | None => StargateParser p
     end).

Definition by_route (p : MsgParser) (route : string) (contractAddr : AccAddress) (msg : CosmosMsg)
    : res (option SdkMsg) :=
  match Parsers p !! route with
  | Some parser => Parse parser contractAddr msg
  | None => Err ErrNoRegisteredParser
  end.

(** [MsgParser.Parse]. *)
Definition MsgParser_Parse (p : MsgParser) (contractAddr : AccAddress) (msg : CosmosMsg)
    : res (option SdkMsg) :=
  match CMBank msg, CMCustom msg, CMStaking msg, CMDistribution msg, CMGov msg, CMWasm msg, CMStargate msg with
  | Some bank, _, _, _, _, _, _ =>
      match BMBurn bank with
      | Some _ => Err ErrNoRegisteredParser
      | None => by_route p "bank" contractAddr msg
      end
  | _, Some custom, _, _, _, _, _ =>
      '(route, data) ← wrap_err ErrJSONUnmarshal (unmarshal_custom_msg custom);
      match Parsers p !! route with
      | Some parser => ParseCustom parser contractAddr data
      | None => Err ErrNoRegisteredParser
      end
  | _, _, Some _, _, _, _, _ => by_route p "staking" contractAddr msg
  | _, _, _, Some _, _, _, _ => by_route p "distribution" contractAddr msg
  | _, _, _, _, Some _, _, _ => by_route p "gov" contractAddr msg
  | _, _, _, _, _, Some _, _ => by_route p "wasm" contractAddr msg
  | _, _, _, _, _, _, Some _ =>
      match StargateParser p with
      | Some sp => sp msg
      | None => Err ErrNoRegisteredParser
      end
  | _, _, _, _, _, _, _ => if CMIBC msg then Err ErrNoRegisteredParser else Err ErrInvalidMsg
  end.

(** [return cosmosMsg, cosmosMsg.ValidateBasic()]. *)
Definition validated (msg : SdkMsg) (v : res unit) : res (option SdkMsg) := v;; Ok (Some msg).

Definition no_custom (_ : AccAddress) (_ : string) : res (option SdkMsg) := Ok None.

(** The parser of wasm messages ([keeper/wasm_interface.go]). *)
Definition wasm_Parse (contractAddr : AccAddress) (wasmMsg : CosmosMsg) : res (option SdkMsg) :=
  msg ← deref (CMWasm wasmMsg);
  match WMExecute msg, WMInstantiate msg, WMMigrate msg, WMUpdateAdmin msg, WMClearAdmin msg with
  | Some e, _, _, _, _ =>
      destContractAddr ← wrap_err ErrInvalidAddress (AccAddressFromBech32 (WEContract e));
      coins ← ParseToCoins (WEFunds e);
      let cosmosMsg := NewMsgExecuteContract contractAddr destContractAddr (WEMsg e) coins in
      validated (OfWasm (ExecuteMsg cosmosMsg)) (MsgExecuteContract_ValidateBasic json_Valid cosmosMsg)
  | _, Some i, _, _, _ =>
      coins ← ParseToCoins (WIFunds i);
      adminAddr ← (if negb (String.eqb (WIAdmin i) "") then AccAddressFromBech32 (WIAdmin i) else Ok "");
      let cosmosMsg := NewMsgInstantiateContract contractAddr adminAddr (WICodeID i) (WIMsg i) coins in
      validated (OfWasm (InstantiateMsg cosmosMsg)) (MsgInstantiateContract_ValidateBasic json_Valid cosmosMsg)
  | _, _, Some m, _, _ =>
      targetContractAddr ← AccAddressFromBech32 (WMContract m);
      let cosmosMsg := NewMsgMigrateContract contractAddr targetContractAddr (WMNewCodeID m) (WMMsg m) in
      validated (OfWasm (MigrateMsg cosmosMsg)) (MsgMigrateContract_ValidateBasic json_Valid cosmosMsg)
  | _, _, _, Some u, _ =>
      targetContractAddr ← AccAddressFromBech32 u.1;
      newAdminAddr ← AccAddressFromBech32 u.2;
      let cosmosMsg := NewMsgUpdateContractAdmin contractAddr newAdminAddr targetContractAddr in
      validated (OfWasm (UpdateAdminMsg cosmosMsg)) (MsgUpdateContractAdmin_ValidateBasic cosmosMsg)
  | _, _, _, _, Some c =>
      targetContractAddr ← AccAddressFromBech32 c;
      let cosmosMsg := NewMsgClearContractAdmin contractAddr targetContractAddr in
      validated (OfWasm (ClearAdminMsg cosmosMsg)) (MsgClearContractAdmin_ValidateBasic cosmosMsg)
  | _, _, _, _, _ => Err ErrInvalidMsg
  end.

Definition NewWasmMsgParser : WasmMsgParser := mkParser wasm_Parse no_custom.

(** The stargate parser ([keeper/wasm_interface_stargate.go]). *)
Definition stargate_Parse (wasmMsg : CosmosMsg) : res (option SdkMsg) :=
  msg ← deref (CMStargate wasmMsg);
  cosmosMsg ← wrap_err ErrInvalidMsg (unpack_any (TypeURL msg) (StargateValue msg));
  cosmosMsg ← wrap_err ErrInvalidMsg (unpack_interfaces cosmosMsg);
  Ok (Some cosmosMsg).

(** The parser of the bank module ([custom/bank/wasm]). *)
Definition foreign (m : ForeignMsg) : res (option SdkMsg) := validated (OfForeign m) (foreign_ValidateBasic m).

Definition bank_Parse (contractAddr : AccAddress) (wasmMsg : CosmosMsg) : res (option SdkMsg) :=
  msg ← deref (CMBank wasmMsg);
  match BMSend msg with
  | None => Err ErrInvalidMsg
  | Some (to, amount) =>
      toAddr ← wrap_err ErrInvalidAddress (AccAddressFromBech32 to);
      amount ← ParseToCoins amount;
      foreign (BankSend contractAddr toAddr amount)
  end.

(** The parser of the staking module ([custom/staking/wasm]). *)
Definition staking_Parse (contractAddr : AccAddress) (wasmMsg : CosmosMsg) : res (option SdkMsg) :=
  msg ← deref (CMStaking wasmMsg);
  match SMDelegate msg, SMRedelegate msg, SMUndelegate msg with
  | Some (v, amount), _, _ =>
      validator ← wrap_err ErrInvalidAddress (ValAddressFromBech32 v);
      coin ← ParseToCoin amount;
      foreign (StakingDelegate contractAddr validator coin)
  | _, Some (s, d, amount), _ =>
      src ← wrap_err ErrInvalidAddress (ValAddressFromBech32 s);
      dst ← wrap_err ErrInvalidAddress (ValAddressFromBech32 d);
      coin ← ParseToCoin amount;
      foreign (StakingBeginRedelegate contractAddr src dst coin)
  | _, _, Some (v, amount) =>
      validator ← wrap_err ErrInvalidAddress (ValAddressFromBech32 v);
      coin ← ParseToCoin amount;
      foreign (StakingUndelegate contractAddr validator coin)
  | None, None, None => Err ErrInvalidMsg
  end.

(** The parser of the distribution module ([custom/distribution/wasm]). *)
Definition distribution_Parse (contractAddr : AccAddress) (wasmMsg : CosmosMsg) : res (option SdkMsg) :=
  msg ← deref (CMDistribution wasmMsg);
  match DMSetWithdrawAddress msg, DMWithdrawDelegatorReward msg with
  | Some a, _ =>
      rcpt ← wrap_err ErrInvalidAddress (AccAddressFromBech32 a);
      foreign (DistrSetWithdrawAddress contractAddr rcpt)
  | None, Some v =>
      validator ← wrap_err ErrInvalidAddress (ValAddressFromBech32 v);
      foreign (DistrWithdrawReward contractAddr validator)
  | None, None => Err ErrInvalidMsg
  end.

(** The parser of the governance module ([custom/gov/wasm]); it reads the vote
    without looking whether there is one. *)
Definition gov_Parse (contractAddr : AccAddress) (wasmMsg : CosmosMsg) : res (option SdkMsg) :=
  msg ← deref (CMGov wasmMsg);
  '(proposal, vote) ← deref (GMVote msg);
  let option :=
    match vote with
    | Yes => OptionYes
    | No => OptionNo
    | NoWithVeto => OptionNoWithVeto
    | Abstain => OptionAbstain
    | VoteUnset => OptionEmpty
    end in
  foreign (GovVote proposal (AccAddressString contractAddr) option).

(** The parser of the market module ([x/market/wasm]): the contract is the
    trader, whatever the message says. *)
Definition market_ParseCustom (contractAddr : AccAddress) (data : string) : res (option SdkMsg) :=
  sdkMsg ← unmarshal_market_msg data;
  match MMSwap sdkMsg, MMSwapSend sdkMsg with
  | Some m, _ =>
      let m := Market.mkMsgSwap (AccAddressString contractAddr) (Market.OfferCoin m) (Market.AskDenom m) in
      validated (OfSwap m) (Market.MsgSwap_ValidateBasic m)
  | None, Some m =>
      let m := Market.mkMsgSwapSend (AccAddressString contractAddr) (Market.ToAddress m) (Market.SOfferCoin m)
                 (Market.SAskDenom m) in
      validated (OfSwapSend m) (Market.MsgSwapSend_ValidateBasic m)
  | None, None => Err ErrInvalidMsg
  end.

Definition no_msg (_ : AccAddress) (_ : CosmosMsg) : res (option SdkMsg) := Ok None.

(** The parsers the application registers ([app/app.go]). *)
Definition app_msg_parser : MsgParser :=
  RegisterMsgParsers (mkMsgParser ∅ None)
    [("bank", mkParser bank_Parse no_custom);
     ("staking", mkParser staking_Parse no_custom);
     ("market", mkParser no_msg market_ParseCustom);
     ("wasm", NewWasmMsgParser);
     ("distribution", mkParser distribution_Parse no_custom);
     ("gov", mkParser gov_Parse no_custom)] (Some stargate_Parse).

(** [ValidateBasic] of a message of the chain. *)
Definition ValidateBasic (msg : SdkMsg) : res unit :=
  match msg with
  | OfWasm (StoreCodeMsg m) => MsgStoreCode_ValidateBasic m
  | OfWasm (MigrateCodeMsg m) => MsgMigrateCode_ValidateBasic m
  | OfWasm (InstantiateMsg m) => MsgInstantiateContract_ValidateBasic json_Valid m
  | OfWasm (ExecuteMsg m) => MsgExecuteContract_ValidateBasic json_Valid m
  | OfWasm (MigrateMsg m) => MsgMigrateContract_ValidateBasic json_Valid m
  | OfWasm (UpdateAdminMsg m) => MsgUpdateContractAdmin_ValidateBasic m
  | OfWasm (ClearAdminMsg m) => MsgClearContractAdmin_ValidateBasic m
  | OfSwap m => Market.MsgSwap_ValidateBasic m
  | OfSwapSend m => Market.MsgSwapSend_ValidateBasic m
  | OfForeign m => foreign_ValidateBasic m
  end.

End parsers.

(** ** Whose messages contracts send *)

Section parser_facts.
Context {A : Bech32} {AL : Bech32Laws A} {C : SdkCoins} {I : IntText}.
Context {F : ForeignMsgs} {FL : ForeignMsgsLaws A F} {D : MsgDecoding}.
Context (json_Valid : string -> bool).

(** A parser that only gives valid messages signed by the contract. *)
Definition sincere (a : AccAddress) (r : res (option SdkMsg)) : Prop :=
  forall m, r = Ok (Some m) -> GetSigners m = Ok [a] /\ ValidateBasic json_Valid m = Ok tt.

Lemma sincere_bind {T} a (c : res T) k : (forall x, sincere a (k x)) -> sincere a (c ≫= k).
Proof. intros Hk m E. go_inv. by eapply Hk. Qed.

Lemma sincere_validated a m :
  GetSigners m = Ok [a] -> sincere a (validated m (ValidateBasic json_Valid m)).
Proof. unfold validated. intros Hs m' E. go_inv. by destruct v. Qed.

Lemma signer_self a : address_ok a = true -> signer (AccAddressString a) = Ok [a].
Proof. intros Ha. unfold signer. by rewrite acc_bech32_round. Qed.

Lemma sincere_err a e : sincere a (Err e).
Proof. done. Qed.

Lemma sincere_nil a : sincere a (Ok None).
Proof. done. Qed.

Lemma foreign_sincere a m : foreign_GetSigners m = Ok [a] -> sincere a (foreign m).
Proof. apply (sincere_validated a (OfForeign m)). Qed.

Lemma wasm_sincere a msg : address_ok a = true -> sincere a (wasm_Parse json_Valid a msg).
Proof.
  intros Ha. apply sincere_bind. intros w. destruct (WMExecute w) as [e|].
  { do 2 (apply sincere_bind; intros ?). apply (sincere_validated a (OfWasm (ExecuteMsg _))), signer_self, Ha. }
  destruct (WMInstantiate w) as [i|].
  { do 2 (apply sincere_bind; intros ?). apply (sincere_validated a (OfWasm (InstantiateMsg _))), signer_self, Ha. }
  destruct (WMMigrate w) as [m|].
  { apply sincere_bind; intros ?. apply (sincere_validated a (OfWasm (MigrateMsg _))), signer_self, Ha. }
  destruct (WMUpdateAdmin w) as [u|].
  { do 2 (apply sincere_bind; intros ?). apply (sincere_validated a (OfWasm (UpdateAdminMsg _))), signer_self, Ha. }
  destruct (WMClearAdmin w) as [c|]; [|done].
  apply sincere_bind; intros ?. apply (sincere_validated a (OfWasm (ClearAdminMsg _))), signer_self, Ha.
Qed.

Lemma bank_sincere a msg : address_ok a = true -> sincere a (bank_Parse a msg).
Proof.
  intros Ha. apply sincere_bind. intros m. destruct (BMSend m) as [[to amount]|]; [|done].
  do 2 (apply sincere_bind; intros ?). apply foreign_sincere, send_signers, Ha.
Qed.

Lemma staking_sincere a msg : address_ok a = true -> sincere a (staking_Parse a msg).
Proof.
  intros Ha. apply sincere_bind. intros m. destruct (SMDelegate m) as [[v c]|].
  { do 2 (apply sincere_bind; intros ?). apply foreign_sincere, delegate_signers, Ha. }
  destruct (SMRedelegate m) as [[[v w] c]|].
  { do 3 (apply sincere_bind; intros ?). apply foreign_sincere, redelegate_signers, Ha. }
  destruct (SMUndelegate m) as [[v c]|]; [|done].
  do 2 (apply sincere_bind; intros ?). apply foreign_sincere, undelegate_signers, Ha.
Qed.

Lemma distribution_sincere a msg : address_ok a = true -> sincere a (distribution_Parse a msg).
Proof.
  intros Ha. apply sincere_bind. intros m. destruct (DMSetWithdrawAddress m) as [t|].
  { apply sincere_bind; intros ?. apply foreign_sincere, set_withdraw_signers, Ha. }
  destruct (DMWithdrawDelegatorReward m) as [v|]; [|done].
  apply sincere_bind; intros ?. apply foreign_sincere, withdraw_signers, Ha.
Qed.

Lemma gov_sincere a msg : address_ok a = true -> sincere a (gov_Parse a msg).
Proof.
  intros Ha. do 2 (apply sincere_bind; intros ?). destruct x0 as [p v]. apply foreign_sincere.
  rewrite vote_signers. apply signer_self, Ha.
Qed.

Lemma market_sincere a data : address_ok a = true -> sincere a (market_ParseCustom a data).
Proof.
  intros Ha. apply sincere_bind. intros m. destruct (MMSwap m) as [w|].
  { apply (sincere_validated a (OfSwap _)), signer_self, Ha. }
  destruct (MMSwapSend m) as [w|]; [|done]. apply (sincere_validated a (OfSwapSend _)), signer_self, Ha.
Qed.

Lemma by_route_sincere p route a msg :
  (forall parser, Parsers p !! route = Some parser -> sincere a (Parse parser a msg)) ->
  sincere a (by_route p route a msg).
Proof. unfold by_route. intros Hp. destruct (Parsers p !! route); [by apply Hp|done]. Qed.

Lemma app_parsers route parser :
  Parsers (app_msg_parser json_Valid) !! route = Some parser ->
  forall a, address_ok a = true -> (forall msg, sincere a (Parse parser a msg)) /\ (forall data, sincere a (ParseCustom parser a data)).
Proof.
  intros Hp a Ha. cbn in Hp.
  repeat match type of Hp with
  | <[?r := _]> _ !! _ = _ =>
      destruct (decide (r = route)) as [<-|?];
        [rewrite lookup_insert_eq in Hp; injection Hp as <-|rewrite lookup_insert_ne in Hp by done]
  end; cbn; [..|by rewrite lookup_empty in Hp].
  - split; [by intros; apply gov_sincere|done].
  - split; [by intros; apply distribution_sincere|done].
  - split; [by intros; apply wasm_sincere|done].
  - split; [done|by intros; apply market_sincere].
  - split; [by intros; apply staking_sincere|done].
  - split; [by intros; apply bank_sincere|done].
Qed.

(** C23. Contracts speak for themselves: whatever a contract, whose address is one
    the chain accepts, asks for through the parsers the application registers,
    other than by a stargate message, becomes a message that is signed by this
    contract alone and passed its validation. *)
Theorem contract_messages_sincere a msg m :
  address_ok a = true -> CMStargate msg = None ->
  MsgParser_Parse (app_msg_parser json_Valid) a msg = Ok (Some m) ->
  GetSigners m = Ok [a] /\ ValidateBasic json_Valid m = Ok tt.
Proof.
  intros Ha Hs. cut (sincere a (MsgParser_Parse (app_msg_parser json_Valid) a msg)); [intros Hx; apply Hx|].
  assert (Hroute : forall route, sincere a (by_route (app_msg_parser json_Valid) route a msg)).
  { intros route. apply by_route_sincere. intros parser Hp. by apply (app_parsers _ _ Hp a). }
  unfold MsgParser_Parse. rewrite Hs. destruct (CMBank msg) as [b|]; [by destruct (BMBurn b)|].
  destruct (CMCustom msg) as [c|].
  { apply sincere_bind. intros [route data]. destruct (Parsers _ !! route) as [parser|] eqn:Ep; [|done].
    by apply (app_parsers _ _ Ep a). }
  destruct (CMStaking msg); [done|]. destruct (CMDistribution msg); [done|]. destruct (CMGov msg); [done|].
  destruct (CMWasm msg); [done|]. by destruct (CMIBC msg).
Qed.

End parser_facts.
