(* ===== verification/Wasm.v ===== *)
(** * The wasm module ([x/wasm])

    The keeper, the message server and the genesis of the module that stores
    and runs contracts.  A contract runs in the virtual machine [wasmvm], which
    is a parameter; what the module does around it is modelled: funds, gas,
    contract records, the messages a contract sends back and the replies it
    gets.

    Gas is threaded explicitly: the state of a call is the stores ([World]), the
    gas meter and the events of its context.  A cached context rolls the stores
    back and keeps the meter; a context with its own meter does the reverse. *)

From Stdlib Require Import ZArith Lia Bool.
From stdpp Require Import base gmap strings list pretty.
From S2P Require Import Prelude Loops Sdk Core OracleStore WasmTypes WasmMsgs.
From S2P Require Ante.
Local Open Scope Z_scope.

(** ** Outcomes

    A call returns, fails, or panics; running out of gas is the panic the
    module recovers from.  [NoFuel] is the outcome of a model run that was given
    too little fuel. *)

Inductive outcome (T : Type) : Type :=
| Done (x : T)
| Failed (e : error)
| OutOfGas
| Crashed
| NoFuel.

Arguments Done {_} _.
Arguments Failed {_} _.
Arguments OutOfGas {_}.
Arguments Crashed {_}.
Arguments NoFuel {_}.

Definition wst (S T : Type) : Type := S -> outcome T * S.

#[global] Instance wst_ret {S} : MRet (wst S) := fun _ x s => (Done x, s).

#[global] Instance wst_bind {S} : MBind (wst S) := fun _ _ k c s =>
  match c s with
  | (Done x, s') => k x s'
  | (Failed e, s') => (Failed e, s')
  | (OutOfGas, s') => (OutOfGas, s')
  | (Crashed, s') => (Crashed, s')
  | (NoFuel, s') => (NoFuel, s')
  end.

Definition of_res {T} (c : res T) : outcome T :=
  match c with
  | Ok x => Done x
  | Err e => Failed e
  | Panic => Crashed
  end.

Definition wlift {S T} (c : res T) : wst S T := fun s => (of_res c, s).
Definition wgets {S T} (f : S -> T) : wst S T := fun s => (Done (f s), s).
Definition wmodify {S} (f : S -> S) : wst S unit := fun s => (Done tt, f s).
Definition wfail {S T} (e : error) : wst S T := fun s => (Failed e, s).

(** [if err != nil { panic(err) }]. *)
Definition wmust {S T} (c : wst S T) : wst S T := fun s =>
  match c s with
  | (Failed _, s') => (Crashed, s')
  | r => r
  end.

(** ** Gas meters of the SDK *)

Inductive gas_outcome : Type := GasOk | GasOut | GasOverflow.

Class GasMeters : Type := {
  Meter : Type;
  NewGasMeter : Z -> Meter;
  gas_limit : Meter -> Z;                           (* Limit *)
  gas_consumed : Meter -> Z;                        (* GasConsumed *)
  is_out_of_gas : Meter -> bool;                    (* IsOutOfGas *)
  consume_gas : Z -> Meter -> gas_outcome * Meter;  (* ConsumeGas *)
}.

(** A meter with a limit panics when more was consumed than its limit; every
    meter keeps its kind and limit and never gives gas back. *)
Class GasMetersLaws (G : GasMeters) : Type := {
  limited : Meter -> Prop;
  new_limited l : limited (NewGasMeter l);
  new_limit l : gas_limit (NewGasMeter l) = l;
  new_consumed l : gas_consumed (NewGasMeter l) = 0;
  consume_limit g m : gas_limit (consume_gas g m).2 = gas_limit m;
  consume_limited g m : limited (consume_gas g m).2 <-> limited m;
  consume_monotone g m : 0 <= g -> gas_consumed m <= gas_consumed (consume_gas g m).2;
  consume_ok g m m' : consume_gas g m = (GasOk, m') -> gas_consumed m' = gas_consumed m + g;
  consume_within g m m' : consume_gas g m = (GasOk, m') -> limited m -> gas_consumed m' <= gas_limit m;
  consume_enough g m :
    limited m -> 0 <= g -> gas_consumed m + g <= gas_limit m -> gas_limit m < two64 ->
    (consume_gas g m).1 = GasOk;
}.

(** ** Accounts and fees of the SDK *)

Class AccountKeeper (K : Type) : Type := {
  Account : Type;
  account_address : Account -> AccAddress;             (* GetAddress *)
  get_account : K -> AccAddress -> option Account;     (* GetAccount *)
  new_account : K -> AccAddress -> Account * K;        (* NewAccountWithAddress *)
  set_account : K -> Account -> K;                     (* SetAccount *)
}.

Class AccountKeeperLaws (K : Type) (AK : AccountKeeper K) : Prop := {
  new_account_address k a : account_address (new_account k a).1 = a;
  new_account_get k a b : get_account (new_account k a).2 b = get_account k b;
  set_account_get k acc : get_account (set_account k acc) (account_address acc) = Some acc;
  set_account_other k acc b : b <> account_address acc -> get_account (set_account k acc) b = get_account k b;
  get_account_address k a acc : get_account k a = Some acc -> account_address acc = a;
}.

(** [cosmosante.DeductFees] with the events it emits, and the events of
    [SendCoins]. *)
Class BankEffects (B K : Type) {AK : AccountKeeper K} : Type := {
  DeductFees : B -> option Account -> list Coin -> res (B * list Event);
  send_events : AccAddress -> AccAddress -> list Coin -> list Event;
}.

Definition FeeCollectorName : string := "fee_collector".

Class BankEffectsLaws (B K : Type) {BK : BankKeeper B} {AK : AccountKeeper K} (FD : BankEffects B K) : Prop := {
  deduct_fees_send b acc fees b' evs :
    DeductFees b acc fees = Ok (b', evs) ->
    exists a, acc = Some a /\ send_coins b (account_address a) (module_address FeeCollectorName) fees = Ok b';
}.

(** ** The virtual machine ([types/wasmer_engine.go]) *)

Inductive ReplyOn : Type := ReplyAlways | ReplyError | ReplySuccess | ReplyNever | ReplyUnknown (s : string).

Record SubMsg : Type := mkSubMsg { SID : Z; SMsg : CosmosMsg; SGasLimit : option Z; SReplyOn : ReplyOn }.

Record Response : Type := mkResponse {
  Messages : list SubMsg; Attributes : list EventAttribute; Events : list Event; RData : option string }.

(** The callbacks for addresses: text or bytes, the gas used, and an error. *)
Record GoAPI : Type := mkGoAPI {
  HumanAddress : string -> res string * Z; CanonicalAddress : string -> res string * Z }.

Inductive Entry : Type :=
| EInstantiate (info : MessageInfo) (msg : string)
| EExecute (info : MessageInfo) (msg : string)
| EMigrate (msg : string)
| EReply (reply : Reply).

(** ** The state of the module *)

Section state.
Context (B K T X : Type).

Record World : Type := mkWorld {
  params : Params;
  last_code_id : option Z;
  last_instance_id : option Z;
  code_infos : gmap Z CodeInfo;
  contract_infos : gmap string ContractInfo;
  contract_stores : gmap string (gmap string string);
  wbank : B; waccounts : K; wtreasury : T; others : X }.

Definition set_params (p : Params) (w : World) : World :=
  mkWorld p (last_code_id w) (last_instance_id w) (code_infos w) (contract_infos w) (contract_stores w)
    (wbank w) (waccounts w) (wtreasury w) (others w).
Definition set_last_code_id (i : Z) (w : World) : World :=
  mkWorld (params w) (Some i) (last_instance_id w) (code_infos w) (contract_infos w) (contract_stores w)
    (wbank w) (waccounts w) (wtreasury w) (others w).
Definition set_last_instance_id (i : Z) (w : World) : World :=
  mkWorld (params w) (last_code_id w) (Some i) (code_infos w) (contract_infos w) (contract_stores w)
    (wbank w) (waccounts w) (wtreasury w) (others w).
Definition set_code_info (i : Z) (c : CodeInfo) (w : World) : World :=
  mkWorld (params w) (last_code_id w) (last_instance_id w) (<[i := c]> (code_infos w)) (contract_infos w)
    (contract_stores w) (wbank w) (waccounts w) (wtreasury w) (others w).
Definition set_contract_info (a : AccAddress) (c : ContractInfo) (w : World) : World :=
  mkWorld (params w) (last_code_id w) (last_instance_id w) (code_infos w) (<[a := c]> (contract_infos w))
    (contract_stores w) (wbank w) (waccounts w) (wtreasury w) (others w).

(** The store of a contract, empty at first. *)
Definition store_of (w : World) (a : AccAddress) : gmap string string := default ∅ (contract_stores w !! a).

(** The store of a contract after a call; a call that writes nothing leaves the
    stores as they are. *)
Definition set_store (a : AccAddress) (kv : gmap string string) (w : World) : World :=
  if decide (kv = store_of w a) then w
  else mkWorld (params w) (last_code_id w) (last_instance_id w) (code_infos w) (contract_infos w)
    (<[a := kv]> (contract_stores w)) (wbank w) (waccounts w) (wtreasury w) (others w).

Definition set_bank (b : B) (w : World) : World :=
  mkWorld (params w) (last_code_id w) (last_instance_id w) (code_infos w) (contract_infos w)
    (contract_stores w) b (waccounts w) (wtreasury w) (others w).
Definition set_accounts (k : K) (w : World) : World :=
  mkWorld (params w) (last_code_id w) (last_instance_id w) (code_infos w) (contract_infos w)
    (contract_stores w) (wbank w) k (wtreasury w) (others w).

Context {G : GasMeters}.

Record wstate : Type := mkW { world : World; meter : Meter; events : list Event }.

End state.

Arguments mkWorld {_ _ _ _} _ _ _ _ _ _ _ _ _ _.
Arguments params {_ _ _ _} _.
Arguments last_code_id {_ _ _ _} _.
Arguments last_instance_id {_ _ _ _} _.
Arguments code_infos {_ _ _ _} _.
Arguments contract_infos {_ _ _ _} _.
Arguments contract_stores {_ _ _ _} _.
Arguments wbank {_ _ _ _} _.
Arguments waccounts {_ _ _ _} _.
Arguments wtreasury {_ _ _ _} _.
Arguments others {_ _ _ _} _.
Arguments set_params {_ _ _ _} _ _.
Arguments set_last_code_id {_ _ _ _} _ _.
Arguments set_last_instance_id {_ _ _ _} _ _.
Arguments set_code_info {_ _ _ _} _ _ _.
Arguments set_contract_info {_ _ _ _} _ _ _.
Arguments set_store {_ _ _ _} _ _ _.
Arguments set_bank {_ _ _ _} _ _.
Arguments set_accounts {_ _ _ _} _ _.
Arguments store_of {_ _ _ _} _ _.
Arguments mkW {_ _ _ _ _} _ _ _.
Arguments world {_ _ _ _ _} _.
Arguments meter {_ _ _ _ _} _.
Arguments events {_ _ _ _ _} _.

(** What a run of the machine leaves: a result or an error, the gas it used,
    the store of the contract and the meter, which reads and writes of the
    contract and its queries have charged. *)
Record VMResult {G : GasMeters} (T : Type) : Type := mkVMResult {
  vm_out : T + error; vm_gas : Z; vm_store : gmap string string; vm_meter : Meter }.

Arguments mkVMResult {_ _} _ _ _ _.
Arguments vm_out {_ _} _.
Arguments vm_gas {_ _} _.
Arguments vm_store {_ _} _.
Arguments vm_meter {_ _} _.

Class WasmVM (B K T X : Type) (G : GasMeters) : Type := {
  vm_create : string -> res string;
  vm_get_code : string -> res string;
  vm_call : Entry -> string -> Env -> gmap string string -> GoAPI -> World B K T X -> Meter -> Z ->
            VMResult Response;
  vm_query : string -> string -> Env -> gmap string string -> GoAPI -> World B K T X -> Z -> Meter -> Z ->
             VMResult string;
}.

(** The accesses for which the stores of the SDK charge gas. *)
Inductive Access : Type :=
| AReadParams | AWriteParams
| AReadLastCodeID | AWriteLastCodeID
| AReadLastInstanceID | AWriteLastInstanceID
| AReadCode (id : Z) | AWriteCode (id : Z)
| AReadContract (a : AccAddress) | AWriteContract (a : AccAddress) | AIterateContracts
| AReadStore (a : AccAddress) (key : string) | AWriteStore (a : AccAddress)
| AReadAccount (a : AccAddress) | AWriteAccount (a : AccAddress)
| ASend (from to : AccAddress) (cs : list Coin)
| AComputeTax (msg : SdkMsg) | ADeductFees (a : AccAddress) (cs : list Coin).

Class StoreGas (B K T X : Type) : Type := { store_gas : Access -> World B K T X -> Z }.

Class StoreGasLaws (B K T X : Type) (SG : StoreGas B K T X) : Prop := {
  store_gas_nonneg a w : 0 <= store_gas a w }.

(** ** Address callbacks and gas conversion ([keeper/api.go]) *)

Section api.
Context {A : Bech32} {U : SdkUint} {G : GasMeters}.
(** [sdk.VerifyAddressFormat]. *)
Context (VerifyAddressFormat : string -> res unit).

(** A malformed address is answered with the empty text and no error. *)
Definition api_HumanAddress (canon : string) : res string * Z :=
  let humanizeCost := HumanizeWasmGasCost * GasMultiplier in
  match VerifyAddressFormat canon with
  | Ok _ => (Ok (AccAddressString canon), humanizeCost)
  | Err _ => (Ok "", humanizeCost)
  | Panic => (Panic, humanizeCost)
  end.

Definition api_CanonicalAddress (human : string) : res string * Z :=
  let canonicalizeCost := CanonicalizeWasmGasCost * GasMultiplier in
  (AccAddressFromBech32 human, canonicalizeCost).

Definition getCosmWasmAPI : GoAPI := mkGoAPI api_HumanAddress api_CanonicalAddress.

Definition getWasmVMGasRemaining (m : Meter) : res Z :=
  if is_out_of_gas m then Ok 0
  else if gas_limit m =? 0 then Ok (two64 - 1)
  else ToWasmVMGas (to_uint64 (gas_limit m - gas_consumed m)).

End api.

(** ** The keeper ([keeper/keeper.go], [keeper/contract.go], [keeper/connector.go]) *)

Section keeper.
Context {M : SdkMath} {C : SdkCoins} {U : SdkUint} {A : Bech32} {I : IntText} {H : Crypto} {Gz : Gzip}.
Context {F : ForeignMsgs} {D : MsgDecoding} {G : GasMeters}.
Context {B : Type} {BK : BankKeeper B} {K : Type} {AK : AccountKeeper K} {FD : BankEffects B K}.
Context {T : Type} {TK : Ante.TreasuryKeeper T} {X : Type} {VM : WasmVM B K T X G} {SG : StoreGas B K T X}.
Context (VerifyAddressFormat : string -> res unit) (error_text : error -> string).
Context (msgParser : MsgParser) (ctx : BlockCtx).

Abbreviation W := (World B K T X).
Abbreviation S := (wstate B K T X).

Definition set_world (w : W) (s : S) : S := mkW w (meter s) (events s).
Definition set_meter (m : Meter) (s : S) : S := mkW (world s) m (events s).
Definition set_events (l : list Event) (s : S) : S := mkW (world s) (meter s) l.

(** [ctx.GasMeter().ConsumeGas]. *)
Definition ConsumeGas (g : Z) : wst S unit := fun s =>
  let '(r, m) := consume_gas g (meter s) in
  (match r with
   | GasOk => Done tt
   | GasOut => OutOfGas
   | GasOverflow => Crashed
   end, set_meter m s).

Definition consume_cost (c : res Z) : wst S unit := g ← wlift c; ConsumeGas g.

(** A read charges for what it reads, a write before it changes the store. *)
Definition reads {R} (a : Access) (f : W -> R) : wst S R :=
  w ← wgets world;
  ConsumeGas (store_gas a w);;
  mret (f w).

Definition writes (a : Access) (f : W -> W) : wst S unit :=
  w ← wgets world;
  ConsumeGas (store_gas a (f w));;
  wmodify (set_world (f w)).

Definition EmitEvents (l : list Event) : wst S unit := wmodify (fun s => set_events (events s ++ l) s).

(** *** Parameters and stores *)

Definition MaxContractSize : wst S Z := reads AReadParams (fun w => to_uint64 (PMaxContractSize (params w))).
Definition MaxContractGas : wst S Z := reads AReadParams (fun w => to_uint64 (PMaxContractGas (params w))).
Definition MaxContractMsgSize : wst S Z :=
  reads AReadParams (fun w => to_uint64 (PMaxContractMsgSize (params w))).
Definition GetParams : wst S Params := reads AReadParams params.
Definition SetParams (p : Params) : wst S unit := writes AWriteParams (set_params p).

Definition found {R} (o : option R) (e : error) : wst S R :=
  match o with
  | Some x => mret x
  | None => wfail e
  end.

Definition GetLastCodeID : wst S Z := bz ← reads AReadLastCodeID last_code_id; found bz ErrInvalidGenesis.
Definition SetLastCodeID (id : Z) : wst S unit := writes AWriteLastCodeID (set_last_code_id id).
Definition GetLastInstanceID : wst S Z :=
  bz ← reads AReadLastInstanceID last_instance_id; found bz ErrInvalidGenesis.
Definition SetLastInstanceID (id : Z) : wst S unit := writes AWriteLastInstanceID (set_last_instance_id id).

Definition GetCodeInfo (codeID : Z) : wst S CodeInfo :=
  bz ← reads (AReadCode codeID) (fun w => code_infos w !! codeID); found bz ErrNotFound.
Definition SetCodeInfo (codeID : Z) (codeInfo : CodeInfo) : wst S unit :=
  writes (AWriteCode codeID) (set_code_info codeID codeInfo).

Definition GetContractInfo (a : AccAddress) : wst S ContractInfo :=
  bz ← reads (AReadContract a) (fun w => contract_infos w !! a); found bz ErrNotFound.
Definition SetContractInfo (a : AccAddress) (c : ContractInfo) : wst S unit :=
  writes (AWriteContract a) (set_contract_info a c).

(** [IterateContractInfo] visits the records in the order of their keys. *)
Definition IterateContractInfo (w : W) : list ContractInfo := (iter_addrs (contract_infos w)).*2.

Definition SetContractStore (a : AccAddress) (models : list (string * string)) : wst S unit :=
  iterM (fun m => writes (AWriteStore a) (fun w => set_store a (<[m.1 := m.2]> (store_of w a)) w)) models.

Definition GetByteCode (codeID : Z) : wst S string :=
  codeInfo ← GetCodeInfo codeID;
  wlift (vm_get_code (CICodeHash codeInfo)).

(** *** Storing code *)

Definition CompileCode (wasmCode : string) : wst S string :=
  maxContractSize ← MaxContractSize;
  wlift (fail_if (maxContractSize <? len wasmCode) ErrStoreCodeFailed);;
  wasmCode ← wlift (wrap_err ErrStoreCodeFailed (uncompress wasmCode maxContractSize));
  consume_cost (CompileCosts (len wasmCode));;
  wlift (wrap_err ErrStoreCodeFailed (vm_create wasmCode)).

Definition StoreCode (creator : AccAddress) (wasmCode : string) : wst S Z :=
  codeHash ← CompileCode wasmCode;
  codeID ← GetLastCodeID;
  let codeID := to_uint64 (codeID + 1) in
  let codeInfo := NewCodeInfo codeID codeHash creator in
  SetLastCodeID codeID;;
  SetCodeInfo codeID codeInfo;;
  mret codeID.

Definition MigrateCode (codeID : Z) (creator : AccAddress) (wasmCode : string) : wst S unit :=
  codeInfo ← GetCodeInfo codeID;
  wlift (fail_if (negb (len (CICodeHash codeInfo) =? 0) ||
                  negb (String.eqb (CICreator codeInfo) (AccAddressString creator))) ErrUnauthorized);;
  codeHash ← CompileCode wasmCode;
  SetCodeInfo codeID (mkCodeInfo (CICodeID codeInfo) codeHash (CICreator codeInfo)).

(** *** Running contracts *)

Definition SendCoins (from to : AccAddress) (amt : list Coin) : wst S unit :=
  w ← wgets world;
  ConsumeGas (store_gas (ASend from to amt) w);;
  b ← wlift (send_coins (wbank w) from to amt);
  wmodify (set_world (set_bank b w));;
  EmitEvents (send_events from to amt).

(** The funds that come with a message, when there are any. *)
Definition deposit_coins (from to : AccAddress) (coins : list Coin) : wst S unit :=
  if coins_is_zero coins then mret tt else SendCoins from to coins.

Definition consumeWasmVMGas (wasmVMGas : Z) : wst S unit := ConsumeGas (FromWasmVMGas wasmVMGas).

(** A call of the machine on the store of a contract, its gas, and the cost of
    the events of its response. *)
Definition run_vm (entry : Entry) (codeHash : string) (contractAddress : AccAddress) (err : error)
    : wst S Response :=
  m ← wgets meter;
  gasRemaining ← wlift (getWasmVMGasRemaining m);
  r ← wgets (fun s => vm_call entry codeHash (NewEnv ctx contractAddress) (store_of (world s) contractAddress)
                        (getCosmWasmAPI VerifyAddressFormat) (world s) m gasRemaining);
  wmodify (fun s => mkW (set_store contractAddress (vm_store r) (world s)) (vm_meter r) (events s));;
  consumeWasmVMGas (to_uint64 (vm_gas r + GasMultiplier));;
  res ← (match vm_out r with
         | inl res => mret res
         | inr _ => wfail err
         end);
  consume_cost (EventCosts (Attributes res) (Events res));;
  mret res.

Definition emit_contract_events (contractAddress : AccAddress) (res : Response) : wst S unit :=
  events ← wlift (ParseEvents contractAddress (Attributes res) (Events res));
  EmitEvents events.

Definition getContractDetails (contractAddress : AccAddress) : wst S CodeInfo :=
  contractInfo ← GetContractInfo contractAddress;
  GetCodeInfo (CCodeID contractInfo).

(** *** Messages of contracts *)

(** The result of a handler. *)
Record Result : Type := mkResult { ResData : string; ResEvents : list Event }.

Section dispatch.
(** The handlers the router knows. *)
Context (Handler : SdkMsg -> option (wst S Result)).

Definition handleSdkMessage (contractAddr : AccAddress) (msg : SdkMsg) : wst S Result :=
  signers ← wlift (GetSigners msg);
  wlift (fail_if (existsb (fun acct => negb (String.eqb acct contractAddr)) signers) ErrUnauthorized);;
  match Handler msg with
  | None => wfail ErrUnknownRequest
  | Some h => h
  end.

(** The tax on a message, paid by the contract, and the events of the payment. *)
Definition charge_tax (contractAddr : AccAddress) (sdkMsg : SdkMsg) : wst S (list Event) :=
  w ← wgets world;
  ConsumeGas (store_gas (AComputeTax sdkMsg) w);;
  taxes ← wlift (Ante.FilterMsgAndComputeTax (wtreasury w) [tax_view sdkMsg]);
  if coins_is_zero taxes then mret []
  else
    contractAcc ← reads (AReadAccount contractAddr) (fun w => get_account (waccounts w) contractAddr);
    ConsumeGas (store_gas (ADeductFees contractAddr taxes) w);;
    '(b, evs) ← wlift (DeductFees (wbank w) contractAcc taxes);
    wmodify (set_world (set_bank b w));;
    mret evs.

Definition dispatchMessage (contractAddr : AccAddress) (msg : CosmosMsg)
    : wst S (list Event * option string) :=
  sdkMsg ← wlift (MsgParser_Parse msgParser contractAddr msg);
  match sdkMsg with
  | None => wfail ErrInvalidMsg
  | Some sdkMsg =>
      taxEvents ← charge_tax contractAddr sdkMsg;
      res ← handleSdkMessage contractAddr sdkMsg;
      mret (taxEvents ++ ResEvents res, Some (ResData res))
  end.

(** A call with a gas meter of its own: the caller's meter is untouched. *)
Definition with_meter {R} (m : Meter) (c : wst S R) : wst S (R * Meter) := fun s =>
  let '(r, s') := c (set_meter m s) in
  (match r with
   | Done x => Done (x, meter s')
   | Failed e => Failed e
   | OutOfGas => OutOfGas
   | Crashed => Crashed
   | NoFuel => NoFuel
   end, set_meter (meter s) s').

(** A call with events of its own. *)
Definition with_events {R} (c : wst S (R * Meter)) : wst S (R * list Event * Meter) := fun s =>
  let '(r, s') := c (set_events [] s) in
  (match r with
   | Done (x, m) => Done (x, events s', m)
   | Failed e => Failed e
   | OutOfGas => OutOfGas
   | Crashed => Crashed
   | NoFuel => NoFuel
   end, set_events (events s) s').

(** The call returns to its caller also when it fails: what was spent is
    charged in both cases. *)
Definition attempt {R} (c : wst S R) : wst S (R + error) := fun s =>
  match c s with
  | (Done x, s') => (Done (inl x), s')
  | (Failed e, s') => (Done (inr e), s')
  | (OutOfGas, s') => (OutOfGas, s')
  | (Crashed, s') => (Crashed, s')
  | (NoFuel, s') => (NoFuel, s')
  end.

Definition settle_attempt {R} (r : R + error) : wst S R :=
  match r with
  | inl x => mret x
  | inr e => wfail e
  end.

(** [recover] from a panic for lack of gas. *)
Definition recover_gas {R} (c handler : wst S R) : wst S R := fun s =>
  match c s with
  | (OutOfGas, s') => handler s'
  | r => r
  end.

Definition dispatchMessageWithGasLimit (contractAddr : AccAddress) (msg : CosmosMsg) (gasLimit : Z)
    : wst S (list Event * option string) :=
  recover_gas
    ('(r, subMeter) ← with_meter (NewGasMeter gasLimit) (attempt (dispatchMessage contractAddr msg));
     ConsumeGas (gas_consumed subMeter);;
     settle_attempt r)
    (ConsumeGas gasLimit;; wfail ErrOutOfGas).

(** [ctx.CacheContext]: stores and events of its own, the meter of the caller;
    [commit] writes the stores back when the call succeeded. *)
Definition sandbox {R} (c : wst S R) : wst S (R + error) := fun s =>
  match attempt c (set_events [] s) with
  | (Done (inl x), s') => (Done (inl x), mkW (world s') (meter s') (events s))
  | (r, s') => (r, mkW (world s) (meter s') (events s))
  end.

Definition sub_dispatch (contractAddr : AccAddress) (msg : SubMsg) : wst S (list Event * option string) := fun s =>
  let gasRemaining := to_uint64 (gas_limit (meter s) - gas_consumed (meter s)) in
  match SGasLimit msg with
  | Some gasLimit =>
      if gasLimit <? gasRemaining then dispatchMessageWithGasLimit contractAddr (SMsg msg) gasLimit s
      else dispatchMessage contractAddr (SMsg msg) s
  | None => dispatchMessage contractAddr (SMsg msg) s
  end.

Definition known_reply (r : ReplyOn) : bool :=
  match r with
  | ReplyUnknown _ => false
  | _ => true
  end.

Definition subcall_result (r : list Event * option string + error) : SubcallResult :=
  match r with
  | inl (events, data) => mkSubResult (Some (mkSubcall (EncodeSdkEvents events) data)) ""
  | inr e => mkSubResult None (error_text e)
  end.

(** The body of the loop of [dispatchMessages]; [reply] calls the contract. *)
Definition dispatch_one (reply : AccAddress -> Reply -> wst S (option string)) (contractAddr : AccAddress)
    (respReplyData : option string) (msg : SubMsg) : wst S (option string) :=
  wlift (fail_if (negb (known_reply (SReplyOn msg))) ErrInvalidMsg);;
  r ← sandbox (sub_dispatch contractAddr msg);
  (match r with
   | inl (events, _) => EmitEvents events
   | inr _ => mret tt
   end);;
  match SReplyOn msg, r with
  | ReplySuccess, inr e | ReplyNever, inr e => wfail e
  | ReplyNever, inl _ | ReplyError, inl _ => mret respReplyData
  | _, _ =>
      replyData ← reply contractAddr (mkReply (SID msg) (subcall_result r));
      mret (match replyData with
            | Some d => Some d
            | None => respReplyData
            end)
  end.

Definition dispatchMessages (reply : AccAddress -> Reply -> wst S (option string)) (contractAddr : AccAddress)
    (msgs : list SubMsg) : wst S (option string) :=
  foldM (dispatch_one reply contractAddr) msgs None.

(** The messages of a response, and the data that is returned. *)
Definition respond (reply : AccAddress -> Reply -> wst S (option string)) (contractAddr : AccAddress)
    (res : Response) : wst S (option string) :=
  replyData ← dispatchMessages reply contractAddr (Messages res);
  mret (match replyData with
        | Some d => Some d
        | None => RData res
        end).

(** [reply]; each reply can lead to further messages and replies, [fuel] bounds
    how deep. *)
Fixpoint reply (fuel : nat) (contractAddress : AccAddress) (r : Reply) : wst S (option string) :=
  match fuel with
  | O => fun s => (NoFuel, s)
  | Datatypes.S fuel =>
      consume_cost (ReplyCosts r);;
      codeInfo ← getContractDetails contractAddress;
      res ← run_vm (EReply r) (CICodeHash codeInfo) contractAddress ErrReplyFailed;
      emit_contract_events contractAddress res;;
      respond (reply fuel) contractAddress res
  end.

Context (fuel : nat).

Definition InstantiateContract (codeID : Z) (creator admin : AccAddress) (initMsg : string) (deposit : list Coin)
    : wst S (AccAddress * option string) :=
  ConsumeGas RegisterContractCosts;;
  consume_cost (InstantiateContractCosts (len initMsg));;
  maxSize ← MaxContractMsgSize;
  wlift (fail_if (maxSize <? len initMsg) ErrExceedMaxContractMsgSize);;
  instanceID ← GetLastInstanceID;
  let instanceID := to_uint64 (instanceID + 1) in
  let contractAddress := GenerateContractAddress codeID instanceID in
  existingAcct ← reads (AReadAccount contractAddress) (fun w => get_account (waccounts w) contractAddress);
  wlift (fail_if (match existingAcct with Some _ => true | None => false end) ErrAccountExists);;
  writes (AWriteAccount contractAddress)
    (fun w => let '(acc, k) := new_account (waccounts w) contractAddress in set_accounts (set_account k acc) w);;
  deposit_coins creator contractAddress deposit;;
  codeInfo ← GetCodeInfo codeID;
  res ← run_vm (EInstantiate (NewInfo creator deposit) initMsg) (CICodeHash codeInfo) contractAddress
          ErrInstantiateFailed;
  let contractInfo := NewContractInfo codeID contractAddress creator admin initMsg in
  SetLastInstanceID instanceID;;
  SetContractInfo contractAddress contractInfo;;
  emit_contract_events contractAddress res;;
  respData ← respond (reply fuel) contractAddress res;
  mret (contractAddress, respData).

Definition ExecuteContract (contractAddress sender : AccAddress) (execMsg : string) (coins : list Coin)
    : wst S (option string) :=
  consume_cost (InstantiateContractCosts (len execMsg));;
  maxSize ← MaxContractMsgSize;
  wlift (fail_if (maxSize <? len execMsg) ErrExceedMaxContractMsgSize);;
  codeInfo ← getContractDetails contractAddress;
  deposit_coins sender contractAddress coins;;
  res ← run_vm (EExecute (NewInfo sender coins) execMsg) (CICodeHash codeInfo) contractAddress ErrExecuteFailed;
  emit_contract_events contractAddress res;;
  respond (reply fuel) contractAddress res.

Definition with_code (c : ContractInfo) (codeID : Z) : ContractInfo :=
  mkContract (CAddress c) (CCreator c) (CAdmin c) codeID (CInitMsg c).

Definition MigrateContract (contractAddress sender : AccAddress) (newCodeID : Z) (migrateMsg : string)
    : wst S (option string) :=
  consume_cost (InstantiateContractCosts (len migrateMsg));;
  maxSize ← MaxContractMsgSize;
  wlift (fail_if (maxSize <? len migrateMsg) ErrExceedMaxContractMsgSize);;
  contractInfo ← GetContractInfo contractAddress;
  wlift (fail_if (String.eqb (CAdmin contractInfo) "") ErrNotMigratable);;
  wlift (fail_if (negb (String.eqb (CAdmin contractInfo) (AccAddressString sender))) ErrUnauthorized);;
  newCodeInfo ← GetCodeInfo newCodeID;
  res ← run_vm (EMigrate migrateMsg) (CICodeHash newCodeInfo) contractAddress ErrMigrationFailed;
  emit_contract_events contractAddress res;;
  SetContractInfo contractAddress (with_code contractInfo newCodeID);;
  respond (reply fuel) contractAddress res.

(** *** The message server ([keeper/msg_server.go]) *)

Inductive MsgResponse : Type :=
| StoreCodeResponse (codeID : Z)
| MigrateCodeResponse
| InstantiateResponse (contractAddress : string) (data : option string)
| ExecuteResponse (data : option string)
| MigrateResponse (data : option string)
| UpdateAdminResponse
| ClearAdminResponse.

Definition module_event (more : list EventAttribute) : Event := mkEvent "message" (("module", "wasm") :: more).

(** The contract runs with events and a meter of its own, at most
    [MaxContractGas]; when it fails nothing is charged here. *)
Definition contract_call {R} (c : wst S R) : wst S (R * list Event) :=
  maxGas ← MaxContractGas;
  remain ← wgets (fun s => to_uint64 (gas_limit (meter s) - gas_consumed (meter s)));
  let remain := if maxGas <? remain then maxGas else remain in
  '(x, sub, subMeter) ← with_events (with_meter (NewGasMeter remain) c);
  ConsumeGas (gas_consumed subMeter);;
  mret (x, sub).

Definition server_StoreCode (msg : MsgStoreCode) : wst S MsgResponse :=
  senderAddr ← wlift (AccAddressFromBech32 (SCSender msg));
  codeID ← StoreCode senderAddr (SCByteCode msg);
  EmitEvents [mkEvent "store_code" [("sender", SCSender msg); ("code_id", pretty codeID)]; module_event []];;
  mret (StoreCodeResponse codeID).

Definition server_MigrateCode (msg : MsgMigrateCode) : wst S MsgResponse :=
  senderAddr ← wlift (AccAddressFromBech32 (MCSender msg));
  MigrateCode (MCCodeID msg) senderAddr (MCByteCode msg);;
  EmitEvents [mkEvent "migrate_code" [("sender", MCSender msg); ("code_id", pretty (MCCodeID msg))];
              module_event []];;
  mret MigrateCodeResponse.

Definition server_InstantiateContract (msg : MsgInstantiateContract) : wst S MsgResponse :=
  senderAddr ← wlift (AccAddressFromBech32 (ICSender msg));
  adminAddr ← wlift (if negb (len (ICAdmin msg) =? 0) then AccAddressFromBech32 (ICAdmin msg) else Ok "");
  '(r, sub) ← contract_call
    (InstantiateContract (ICCodeID msg) senderAddr adminAddr (ICInitMsg msg) (ICInitCoins msg));
  EmitEvents ([mkEvent "instantiate_contract"
                 [("creator", ICSender msg); ("admin", ICAdmin msg); ("code_id", pretty (ICCodeID msg));
                  (AttributeKeyContractAddress, AccAddressString r.1)];
               module_event [("sender", ICSender msg)]] ++ sub);;
  mret (InstantiateResponse (AccAddressString r.1) r.2).

Definition server_ExecuteContract (msg : MsgExecuteContract) : wst S MsgResponse :=
  contractAddr ← wlift (AccAddressFromBech32 (ECContract msg));
  senderAddr ← wlift (AccAddressFromBech32 (ECSender msg));
  '(data, sub) ← contract_call (ExecuteContract contractAddr senderAddr (ECExecuteMsg msg) (ECCoins msg));
  EmitEvents ([mkEvent "execute_contract"
                 [("sender", ECSender msg); (AttributeKeyContractAddress, ECContract msg)];
               module_event [("sender", ECSender msg)]] ++ sub);;
  mret (ExecuteResponse data).

Definition server_MigrateContract (msg : MsgMigrateContract) : wst S MsgResponse :=
  contractAddr ← wlift (AccAddressFromBech32 (MGContract msg));
  adminAddr ← wlift (AccAddressFromBech32 (MGAdmin msg));
  '(data, sub) ← contract_call (MigrateContract contractAddr adminAddr (MGNewCodeID msg) (MGMigrateMsg msg));
  EmitEvents ([mkEvent "migrate_contract"
                 [("code_id", pretty (MGNewCodeID msg)); (AttributeKeyContractAddress, MGContract msg)];
               module_event [("sender", MGAdmin msg)]] ++ sub);;
  mret (MigrateResponse data).

Definition with_admin (c : ContractInfo) (admin : string) : ContractInfo :=
  mkContract (CAddress c) (CCreator c) admin (CCodeID c) (CInitMsg c).

Definition server_UpdateContractAdmin (msg : MsgUpdateContractAdmin) : wst S MsgResponse :=
  contractAddr ← wlift (AccAddressFromBech32 (UAContract msg));
  _ ← wlift (AccAddressFromBech32 (UAAdmin msg));
  _ ← wlift (AccAddressFromBech32 (UANewAdmin msg));
  contractInfo ← GetContractInfo contractAddr;
  wlift (fail_if (negb (String.eqb (CAdmin contractInfo) (UAAdmin msg))) ErrUnauthorized);;
  SetContractInfo contractAddr (with_admin contractInfo (UANewAdmin msg));;
  EmitEvents [mkEvent "update_contract_admin"
                [("admin", UANewAdmin msg); (AttributeKeyContractAddress, UAContract msg)]; module_event []];;
  mret UpdateAdminResponse.

Definition server_ClearContractAdmin (msg : MsgClearContractAdmin) : wst S MsgResponse :=
  contractAddr ← wlift (AccAddressFromBech32 (CAContract msg));
  _ ← wlift (AccAddressFromBech32 (CAAdmin msg));
  contractInfo ← GetContractInfo contractAddr;
  wlift (fail_if (negb (String.eqb (CAdmin contractInfo) (CAAdmin msg))) ErrUnauthorized);;
  SetContractInfo contractAddr (with_admin contractInfo "");;
  EmitEvents [mkEvent "clear_contract_admin" [(AttributeKeyContractAddress, CAContract msg)]; module_event []];;
  mret ClearAdminResponse.

Definition msg_server (msg : WasmMsg) : wst S MsgResponse :=
  match msg with
  | StoreCodeMsg m => server_StoreCode m
  | MigrateCodeMsg m => server_MigrateCode m
  | InstantiateMsg m => server_InstantiateContract m
  | ExecuteMsg m => server_ExecuteContract m
  | MigrateMsg m => server_MigrateContract m
  | UpdateAdminMsg m => server_UpdateContractAdmin m
  | ClearAdminMsg m => server_ClearContractAdmin m
  end.

End dispatch.

(** The router is the SDK's: given the message server of this module it finds
    the handler of every message, of the other modules too.  A handler can call
    the server again, so the server is unfolded [fuel] times. *)
Context (router : (WasmMsg -> wst S MsgResponse) -> SdkMsg -> option (wst S Result)).

Fixpoint server (fuel : nat) (msg : WasmMsg) : wst S MsgResponse :=
  match fuel with
  | O => fun s => (NoFuel, s)
  | Datatypes.S fuel => msg_server (router (server fuel)) fuel msg
  end.

(** ** Queries ([contract.go], [querier.go]) *)

Definition ContractMaxQueryDepth : Z := 20.

(** [None] is a context without a depth. *)
Definition assertAndIncreaseQueryDepth (depth : option Z) : res Z :=
  let queryDepth := default 1 depth in
  if ContractMaxQueryDepth <? queryDepth then Err ErrExceedMaxQueryDepth
  else Ok ((queryDepth + 1) mod 256).

Definition queryToContract (depth : option Z) (contractAddress : AccAddress) (queryMsg : string)
    : wst S string :=
  consume_cost (InstantiateContractCosts (len queryMsg));;
  codeInfo ← getContractDetails contractAddress;
  depth ← wlift (assertAndIncreaseQueryDepth depth);
  m ← wgets meter;
  gasRemaining ← wlift (getWasmVMGasRemaining m);
  r ← wgets (fun s => vm_query queryMsg (CICodeHash codeInfo) (NewEnv ctx contractAddress)
                        (store_of (world s) contractAddress) (getCosmWasmAPI VerifyAddressFormat) (world s) depth
                        m gasRemaining);
  wmodify (fun s => mkW (set_store contractAddress (vm_store r) (world s)) (vm_meter r) (events s));;
  consumeWasmVMGas (to_uint64 (vm_gas r + GasMultiplier));;
  match vm_out r with
  | inl res => mret res
  | inr _ => wfail ErrContractQueryFailed
  end.

Definition queryToStore (contractAddress : AccAddress) (key : option string) : wst S (option string) :=
  match key with
  | None => mret None
  | Some key => reads (AReadStore contractAddress key) (fun w => store_of w contractAddress !! key)
  end.

End keeper.

(** ** Genesis ([genesis.go], [types/genesis.go]) *)

Record Code : Type := mkCode { GCodeInfo : CodeInfo; GCodeBytes : string }.
Record Contract : Type := mkGenContract { GContractInfo : ContractInfo; GContractStore : list (string * string) }.

Record GenesisState : Type := mkGenesis {
  GParams : Params; GLastCodeID : Z; GLastInstanceID : Z; GCodes : list Code; GContracts : list Contract }.

Definition DefaultGenesisState : GenesisState := mkGenesis DefaultParams 0 0 [] [].

Definition ValidateGenesis (data : GenesisState) : res unit :=
  fail_if (negb (Z.of_nat (length (GCodes data)) =? GLastCodeID data)) ErrInvalidGenesis;;
  fail_if (negb (Z.of_nat (length (GContracts data)) =? GLastInstanceID data)) ErrInvalidGenesis;;
  Params_Validate (GParams data).

Section genesis.
Context {U : SdkUint} {A : Bech32} {Gz : Gzip} {G : GasMeters}.
Context {B K T X : Type} {VM : WasmVM B K T X G} {SG : StoreGas B K T X}.

Abbreviation S := (wstate B K T X).

Definition init_code (code : Code) : wst S unit :=
  (if negb (len (GCodeBytes code) =? 0) then
     codeHash ← wmust (CompileCode (GCodeBytes code));
     wlift (panic_if (negb (String.eqb codeHash (CICodeHash (GCodeInfo code)))))
   else mret tt);;
  SetCodeInfo (CICodeID (GCodeInfo code)) (GCodeInfo code).

Definition init_contract (contract : Contract) : wst S unit :=
  contractAddr ← wmust (wlift (AccAddressFromBech32 (CAddress (GContractInfo contract))));
  SetContractInfo contractAddr (GContractInfo contract);;
  SetContractStore contractAddr (GContractStore contract).

Definition InitGenesis (data : GenesisState) : wst S unit :=
  SetParams (GParams data);;
  SetLastCodeID (GLastCodeID data);;
  SetLastInstanceID (GLastInstanceID data);;
  iterM init_code (GCodes data);;
  iterM init_contract (GContracts data).

(** [ExportGenesis]: the codes and the stores of the contracts are commented
    out. *)
Definition ExportGenesis : wst S GenesisState :=
  lastCodeID ← wmust GetLastCodeID;
  lastInstanceID ← wmust GetLastInstanceID;
  infos ← reads AIterateContracts IterateContractInfo;
  let contracts := (fun contract => mkGenContract contract []) <$> infos in
  params ← GetParams;
  mret (mkGenesis params lastCodeID lastInstanceID [] contracts).

End genesis.
