(* ===== verification/WasmFacts.v ===== *)
(** * Theorems about the wasm module

    Termination by gas, the history of contracts, submessages, gas limits, taxes
    and signatures of the messages of contracts, contract addresses, events,
    the message parsers of the application and genesis. *)

From Stdlib Require Import ZArith Lia Bool Ascii.
From stdpp Require Import base gmap strings list.
From S2P Require Import Prelude Loops Sdk SdkRef Core OracleStore WasmTypes WasmMsgs Wasm.
From S2P Require Market Ante.
Local Open Scope Z_scope.

(** ** Runs *)

Definition returns {T} (r : outcome T) : Prop :=
  match r with
  | Done _ | Failed _ => True
  | _ => False
  end.

Lemma wbind_Done {S T V} (c : wst S T) (k : T -> wst S V) s y s' :
  (c ≫= k) s = (Done y, s') <-> exists x s1, c s = (Done x, s1) /\ k x s1 = (Done y, s').
Proof.
  unfold mbind, wst_bind. destruct (c s) as [[x|e| | |] s1]; split; naive_solver.
Qed.

Lemma wbind_Failed {S T V} (c : wst S T) (k : T -> wst S V) s e s' :
  (c ≫= k) s = (Failed e, s') <->
  c s = (Failed e, s') \/ exists x s1, c s = (Done x, s1) /\ k x s1 = (Failed e, s').
Proof.
  unfold mbind, wst_bind. destruct (c s) as [[x|e'| | |] s1]; split; naive_solver.
Qed.

Lemma wlift_Done {S T} (c : res T) (x : T) (s s' : S) : wlift c s = (Done x, s') <-> c = Ok x /\ s' = s.
Proof. unfold wlift. destruct c; cbn; split; naive_solver. Qed.

Lemma wgets_Done {S T} (f : S -> T) x (s s' : S) : wgets f s = (Done x, s') <-> x = f s /\ s' = s.
Proof. unfold wgets. split; naive_solver. Qed.

Lemma wmodify_Done {S} (f : S -> S) u (s s' : S) : wmodify f s = (Done u, s') <-> s' = f s.
Proof. unfold wmodify. destruct u. split; naive_solver. Qed.

Lemma wret_Done {S T} (x y : T) (s s' : S) : mret (M:=wst S) x s = (Done y, s') <-> y = x /\ s' = s.
Proof. unfold mret, wst_ret. split; naive_solver. Qed.

Lemma wbind_gets {S T V} (f : S -> T) (k : T -> wst S V) s : (wgets f ≫= k) s = k (f s) s.
Proof. done. Qed.

Lemma wbind_modify {S V} (f : S -> S) (k : unit -> wst S V) s : (wmodify f ≫= k) s = k tt (f s).
Proof. done. Qed.

Lemma wbind_lift {S T V} (x : T) (k : T -> wst S V) s : (wlift (Ok x) ≫= k) s = k x s.
Proof. done. Qed.

(** Inverts the equations of the context whose outcome is [Done]. *)
Ltac w_step :=
  match goal with
  | H : (mbind _ _) _ = (Done _, _) |- _ =>
      let x := fresh "x" in let s := fresh "s" in let H1 := fresh "Hx" in
      apply wbind_Done in H as (x & s & H1 & H)
  | H : wlift _ _ = (Done _, _) |- _ => let H2 := fresh "Hs" in apply wlift_Done in H as [H H2]
  | H : wgets _ _ = (Done _, _) |- _ => let H2 := fresh "Hs" in apply wgets_Done in H as [H H2]
  | H : wmodify _ _ = (Done _, _) |- _ => apply wmodify_Done in H
  | H : mret _ _ = (Done _, _) |- _ => let H2 := fresh "Hs" in apply wret_Done in H as [H H2]
  | H : wfail _ _ = (Done _, _) |- _ => discriminate H
  | H : (match ?p with pair _ _ => _ end) _ = (Done _, _) |- _ =>
      is_var p; let a := fresh "x" in let b := fresh "y" in destruct p as [a b]
  | H : (Done _, _) = (Done _, _) |- _ => injection H as H
  | H : (Failed _, _) = (Done _, _) |- _ => discriminate H
  | H : (OutOfGas, _) = (Done _, _) |- _ => discriminate H
  | H : (Crashed, _) = (Done _, _) |- _ => discriminate H
  | H : (NoFuel, _) = (Done _, _) |- _ => discriminate H
  | H : _ /\ _ |- _ => destruct H
  end.

Ltac w_inv := repeat ((w_step || go_step); try subst).

(** ** Laws of the environment *)

Definition charged {G : GasMeters} {GL : GasMetersLaws G} (m m' : Meter) : Prop :=
  gas_limit m' = gas_limit m /\ (limited m' <-> limited m) /\ gas_consumed m <= gas_consumed m'.

Definition within {G : GasMeters} (m : Meter) : Prop := gas_consumed m <= gas_limit m.

Class WasmVMLaws (B K T X : Type) {G : GasMeters} {GL : GasMetersLaws G} (VM : WasmVM B K T X G) : Prop := {
  vm_call_charged e h env kv api w m g : charged m (vm_meter (vm_call e h env kv api w m g));
  (* the gas limits of submessages are 64-bit *)
  vm_call_limits e h env kv api w m g r :
    vm_out (vm_call e h env kv api w m g) = inl r ->
    Forall (fun msg => forall l, SGasLimit msg = Some l -> is_uint64 l) (Messages r);
}.

Section foreign.
Context {B K T X : Type} {AK : AccountKeeper K}.
Implicit Types w : World B K T X.

(** What the handlers of other modules change: not the records of this module,
    and accounts are only added. *)
Definition foreign_step w w' : Prop :=
  params w' = params w /\ last_code_id w' = last_code_id w /\ last_instance_id w' = last_instance_id w /\
  code_infos w' = code_infos w /\ contract_infos w' = contract_infos w /\
  contract_stores w' = contract_stores w /\
  forall a, get_account (waccounts w) a <> None -> get_account (waccounts w') a <> None.

End foreign.

Section router_laws.
Context {B K T X : Type} {AK : AccountKeeper K} {G : GasMeters} {GL : GasMetersLaws G}.

Abbreviation S := (wstate B K T X).

(** A handler changes the records of this module only through the server, runs
    on the meter it is given, and stops with the server: when it returns, a
    limited meter is within its limit. *)
Class RouterLaws (router : (WasmMsg -> wst S MsgResponse) -> SdkMsg -> option (wst S Result)) : Prop := {
  router_done (R : World B K T X -> World B K T X -> Prop) srv msg h s x s' :
    PreOrder R -> (forall w w', foreign_step w w' -> R w w') ->
    (forall m s y s', srv m s = (Done y, s') -> R (world s) (world s')) ->
    router srv msg = Some h -> h s = (Done x, s') -> R (world s) (world s');
  router_meter (Q : Meter -> Prop) srv msg h s :
    (forall m m', Q m -> charged m m' -> (limited m' -> within m') -> Q m') ->
    (forall m s, Q (meter s) -> (srv m s).1 <> NoFuel /\ charged (meter s) (meter (srv m s).2) /\
       (returns (srv m s).1 -> Q (meter (srv m s).2))) ->
    router srv msg = Some h -> Q (meter s) ->
    (h s).1 <> NoFuel /\ charged (meter s) (meter (h s).2) /\ (returns (h s).1 -> Q (meter (h s).2));
}.

End router_laws.

Section meter_facts.
Context {G : GasMeters} {GL : GasMetersLaws G}.

#[export] Instance charged_preorder : PreOrder charged.
Proof.
  split; [intros m; unfold charged; intuition lia|].
  intros a b c (H1 & H2 & H3) (H4 & H5 & H6). unfold charged. rewrite H4, H5. intuition lia.
Qed.

Lemma consume_charged g m : 0 <= g -> charged m (consume_gas g m).2.
Proof.
  intros Hg. split; [apply consume_limit|]. split; [apply consume_limited|by apply consume_monotone].
Qed.

End meter_facts.

(** Costs are not negative, and a call of a contract costs at least
    [instantiateCost]. *)
Section cost_facts.
Context {U : SdkUint} {UL : SdkUintLaws U}.

Lemma uint_add_Ok a b c : 0 <= a -> 0 <= b -> uint_add a b = Ok c -> c = a + b.
Proof. intros Ha Hb. rewrite uint_add_spec by done. by destruct (_ <? _); intros [= <-]. Qed.

Lemma uint_mul_Ok a b c : 0 <= a -> 0 <= b -> uint_mul a b = Ok c -> c = a * b.
Proof. intros Ha Hb. rewrite uint_mul_spec by done. by destruct (_ <? _); intros [= <-]. Qed.

Lemma uint_uint64_Ok a c : 0 <= a -> uint_uint64 a = Ok c -> c = a.
Proof. intros Ha. rewrite uint_uint64_spec by done. by destruct (_ <? _); intros [= <-]. Qed.

Lemma len_nonneg s : 0 <= len s.
Proof. unfold len. lia. Qed.

Lemma to_uint64_nonneg z : 0 <= to_uint64 z < two64.
Proof. unfold to_uint64. by apply Z.mod_pos_bound. Qed.

Ltac uint :=
  repeat match goal with
  | H : uint_add _ _ = Ok _ |- _ => apply uint_add_Ok in H; [subst|nia|nia]
  | H : uint_mul _ _ = Ok _ |- _ => apply uint_mul_Ok in H; [subst|nia|nia]
  | H : uint_uint64 _ = Ok _ |- _ => apply uint_uint64_Ok in H; [subst|nia]
  end.

Lemma CompileCosts_nonneg n g : CompileCosts n = Ok g -> 0 <= g.
Proof.
  unfold CompileCosts, compileCostPerByte. intros H. go_inv. pose proof (to_uint64_nonneg n). uint. lia.
Qed.

Lemma InstantiateContractCosts_least n g : InstantiateContractCosts n = Ok g -> instantiateCost <= g.
Proof.
  unfold InstantiateContractCosts, contractMessageDataCostPerByte, instantiateCost. intros H. go_inv.
  pose proof (to_uint64_nonneg n). uint. lia.
Qed.

Lemma eventAttributeCosts_nonneg attrs g : eventAttributeCosts attrs = Ok g -> 0 <= g.
Proof.
  unfold eventAttributeCosts, eventAttributeDataCostPerByte, eventAttributeCost.
  destruct (no_elems attrs); intros H; go_inv; [lia|].
  assert (0 <= v).
  { apply (foldM_inv (fun n => 0 <= n)) in Hv; [done| |lia]. intros b x b' _ Hb E.
    pose proof (to_uint64_nonneg (len x.1 + len x.2)). uint. lia. }
  uint. lia.
Qed.

Lemma EventCosts_nonneg attrs evs g : EventCosts attrs evs = Ok g -> 0 <= g.
Proof.
  unfold EventCosts. intros H. go_inv. apply eventAttributeCosts_nonneg in Hv.
  assert (0 <= v0); [|uint; lia].
  apply (foldM_inv (fun n => 0 <= n)) in Hv0; [done| |lia]. intros b e b' _ Hb E. go_inv.
  apply eventAttributeCosts_nonneg in Hv2.
  assert (0 <= v1).
  { revert Hv1. unfold eventTypeCosts, eventAttributeDataCostPerByte. pose proof (len_nonneg (EType e)).
    destruct (_ =? 0); intros Hv1; go_inv; [lia|]. uint. lia. }
  unfold customEventCost in *. uint. lia.
Qed.

Lemma ReplyCosts_least r g : ReplyCosts r = Ok g -> instantiateCost <= g.
Proof.
  unfold ReplyCosts. intros H. go_inv. apply InstantiateContractCosts_least in Hv0.
  assert (0 <= y).
  { destruct (ROk (ReplyResult r)); go_inv; [|lia]. apply eventAttributeCosts_nonneg in Hv2. uint. lia. }
  unfold instantiateCost in *. uint. lia.
Qed.

Lemma FromWasmVMGas_nonneg g : 0 <= FromWasmVMGas (to_uint64 g).
Proof.
  unfold FromWasmVMGas, GasMultiplier. pose proof (to_uint64_nonneg g). apply Z.div_pos; lia.
Qed.

End cost_facts.

(** ** Runs of the store operations *)

Section store_runs.
Context {C : SdkCoins} {U : SdkUint} {G : GasMeters} {B : Type} {BK : BankKeeper B} {K T X : Type}.
Context {SG : StoreGas B K T X}.

Abbreviation S := (wstate B K T X).
Implicit Types s : S.

Lemma ConsumeGas_Done g u s s' : ConsumeGas g s = (Done u, s') -> world s' = world s /\ events s' = events s.
Proof. unfold ConsumeGas. destruct (consume_gas _ _) as [[] m]; intros E; by simplify_eq. Qed.

Lemma consume_cost_Done c u s s' : consume_cost c s = (Done u, s') -> world s' = world s /\ events s' = events s.
Proof. unfold consume_cost. intros E. w_inv. by apply ConsumeGas_Done in E. Qed.

Lemma reads_Done {R} a (f : World B K T X -> R) x s s' :
  reads a f s = (Done x, s') -> x = f (world s) /\ world s' = world s.
Proof. unfold reads. intros E. w_inv. by apply ConsumeGas_Done in Hx0 as [? _]. Qed.

Lemma writes_Done a f u s s' : writes a f s = (Done u, s') -> world s' = f (world s).
Proof. unfold writes. intros E. by w_inv. Qed.

Lemma found_Done {R} (o : option R) e x s s' : found o e s = (Done x, s') -> o = Some x /\ s' = s.
Proof. destruct o; cbn; intros E; by w_inv. Qed.

Lemma get_Done {R} a (f : World B K T X -> option R) e x s s' :
  (bz ← reads a f; found bz e) s = (Done x, s') -> f (world s) = Some x /\ world s' = world s.
Proof. intros E. w_inv. apply reads_Done in Hx as [-> Hw]. by apply found_Done in E as [-> ->]. Qed.

Lemma deposit_Done {AK : AccountKeeper K} {FD : BankEffects B K} f t cs u s s' :
  deposit_coins f t cs s = (Done u, s') -> exists b, world s' = set_bank b (world s).
Proof.
  unfold deposit_coins, SendCoins, EmitEvents. destruct (coins_is_zero cs); intros E; w_inv; [|by eexists].
  exists (wbank (world s)). by destruct (world s).
Qed.

End store_runs.

(** ** Termination

    Every call of a contract costs [instantiateCost], so the gas that is left
    bounds how deep contracts call each other. *)

Section termination.
Context {M : SdkMath} {C : SdkCoins} {U : SdkUint} {UL : SdkUintLaws U}.
Context {A : Bech32} {I : IntText} {H : Crypto} {Gz : Gzip}.
Context {F : ForeignMsgs} {D : MsgDecoding} {G : GasMeters} {GL : GasMetersLaws G}.
Context {B : Type} {BK : BankKeeper B} {K : Type} {AK : AccountKeeper K} {FD : BankEffects B K}.
Context {T : Type} {TK : Ante.TreasuryKeeper T} {X : Type} {VM : WasmVM B K T X G} {VL : WasmVMLaws B K T X VM}.
Context {SG : StoreGas B K T X} {SL : StoreGasLaws B K T X SG}.

Abbreviation S := (wstate B K T X).

Definition ready (n : nat) (m : Meter) : Prop :=
  limited m /\ 0 <= gas_consumed m /\ within m /\ gas_limit m < two64 /\
  gas_limit m - gas_consumed m < instantiateCost * Z.of_nat n.

Definition ends {R} (n : nat) (m : Meter) (r : outcome R * S) : Prop :=
  r.1 <> NoFuel /\ charged m (meter r.2) /\ (returns r.1 -> ready n (meter r.2)).

Definition good {R} (n : nat) (c : wst S R) : Prop := forall s, ready n (meter s) -> ends n (meter s) (c s).

Lemma ready_charged n m m' : ready n m -> charged m m' -> within m' -> ready n m'.
Proof.
  unfold ready, charged, within. intros (H1 & H2 & H3 & H4 & H5) (E1 & E2 & E3) Hw. rewrite E1, E2 in *.
  repeat split; auto; lia.
Qed.

Lemma ready_mono j n m : (j <= n)%nat -> ready j m -> ready n m.
Proof. unfold ready, instantiateCost. intros Hjn Hr. intuition lia. Qed.

Lemma ready_within n m : ready n m -> within m.
Proof. unfold ready. tauto. Qed.

Lemma good_mono {R} j n (c : wst S R) : (j <= n)%nat -> good n c -> good j c.
Proof.
  intros Hjn Hc s Hr. destruct (Hc s (ready_mono _ _ _ Hjn Hr)) as (H1 & H2 & H3). split; [done|]. split; [done|].
  intros Hret. eapply ready_charged; [exact Hr|exact H2|]. eapply ready_within, H3, Hret.
Qed.

Lemma good_bind_result {R V} n (P : R -> Prop) (c : wst S R) (k : R -> wst S V) :
  (forall s x s1, c s = (Done x, s1) -> P x) -> good n c -> (forall x, P x -> good n (k x)) -> good n (c ≫= k).
Proof.
  intros HP Hc Hk s Hr. destruct (Hc s Hr) as (H1 & H2 & H3). unfold mbind, wst_bind.
  destruct (c s) as [[x|e| | |] s1] eqn:E; cbn in *; try done.
  destruct (Hk x (HP _ _ _ E) s1 (H3 Logic.I)) as (H4 & H5 & H6). split; [done|]. split; [by etrans|done].
Qed.

Lemma good_bind {R V} n (c : wst S R) (k : R -> wst S V) :
  good n c -> (forall x, good n (k x)) -> good n (c ≫= k).
Proof. intros Hc Hk. by apply (good_bind_result n (fun _ => True)). Qed.

(** Computations that leave the meter alone. *)
Lemma good_still {R} n (c : wst S R) :
  (forall s, (c s).1 <> NoFuel) -> (forall s, meter (c s).2 = meter s) -> good n c.
Proof. intros H1 H2 s Hr. unfold ends. rewrite H2. split; [apply H1|]. by split; [reflexivity|]. Qed.

Lemma good_ret {R} n (x : R) : good n (mret x).
Proof. by apply good_still. Qed.

Lemma good_lift {R} n (c : res R) : good n (wlift c).
Proof. apply good_still; [|done]. intros s. by destruct c. Qed.

Lemma good_gets {R} n (f : S -> R) : good n (wgets f).
Proof. by apply good_still. Qed.

Lemma good_fail {R} n e : good n (wfail e : wst S R).
Proof. by apply good_still. Qed.

Lemma good_world n (f : S -> World B K T X) : good n (wmodify (fun s => set_world (f s) s)).
Proof. by apply good_still. Qed.

Lemma good_set_world n w : good n (wmodify (set_world w) : wst S unit).
Proof. by apply good_still. Qed.

Lemma good_emit n l : good n (EmitEvents l : wst S unit).
Proof. by apply good_still. Qed.

Lemma good_if {R} n (b : bool) (c1 c2 : wst S R) : good n c1 -> good n c2 -> good n (if b then c1 else c2).
Proof. by destruct b. Qed.

Lemma ready_closed n m m' : ready n m -> charged m m' -> (limited m' -> within m') -> ready n m'.
Proof. intros Hr Hc Hw. eapply ready_charged; [done..|]. apply Hw, Hc, Hr. Qed.

Lemma consume_ready n g m m1 :
  ready n m -> charged m m1 -> consume_gas g m1 = (GasOk, (consume_gas g m1).2) -> 0 <= g ->
  ready n (consume_gas g m1).2.
Proof.
  intros Hr Hc E Hg. eapply ready_charged; [exact Hr| |].
  - etrans; [exact Hc|by apply consume_charged].
  - unfold within. rewrite consume_limit. eapply consume_within; [exact E|]. apply Hc, Hr.
Qed.

(** From any state that was charged a run of [ConsumeGas] ends ready. *)
Lemma good_consume_from n g m (s : S) : 0 <= g -> ready n m -> charged m (meter s) ->
  ends n m (ConsumeGas g s).
Proof.
  intros Hg Hr Hc. pose proof (consume_ready n g m (meter s) Hr Hc) as Hok.
  pose proof (consume_charged g (meter s) Hg) as Hch. unfold ends, ConsumeGas.
  destruct (consume_gas g (meter s)) as [r m1] eqn:E. cbn in *.
  split; [by destruct r|]. split; [by etrans|]. destruct r; try done. intros _. by apply Hok.
Qed.

Lemma good_consume_bind {R} n g m (s : S) (k : unit -> wst S R) :
  0 <= g -> ready n m -> charged m (meter s) -> (forall u, good n (k u)) ->
  ends n m ((ConsumeGas g ≫= k) s).
Proof.
  intros Hg Hr Hc Hk. destruct (good_consume_from n g m s Hg Hr Hc) as (H1 & H2 & H3).
  unfold mbind, wst_bind. destruct (ConsumeGas g s) as [[u|e| | |] s1]; cbn in *; try done.
  destruct (Hk u s1 (H3 Logic.I)) as (H4 & H5 & H6). split; [done|]. split; [by etrans|done].
Qed.

Lemma good_consume n g : 0 <= g -> good n (ConsumeGas g : wst S unit).
Proof. intros Hg s Hr. by apply good_consume_from. Qed.

Lemma good_cost n c : (forall g, c = Ok g -> 0 <= g) -> good n (consume_cost c : wst S unit).
Proof.
  intros Hc. unfold consume_cost, mbind, wst_bind, wlift. destruct c as [g|e|]; cbn.
  - apply good_consume. by apply Hc.
  - apply good_fail.
  - by apply good_still.
Qed.

(** Paying the cost of a call makes room for one level. *)
Lemma good_drop {R} n c (k : unit -> wst S R) :
  (forall g, c = Ok g -> instantiateCost <= g) -> (forall u, good n (k u)) ->
  good (Datatypes.S n) (consume_cost c ≫= k).
Proof.
  intros Hc Hk s Hr. unfold consume_cost, mbind, wst_bind, wlift. destruct c as [g|e|]; cbn; [|done|done].
  specialize (Hc g eq_refl). unfold instantiateCost in Hc.
  destruct (good_consume (Datatypes.S n) g ltac:(lia) s Hr) as (H1 & H2 & H3).
  pose proof (consume_ok g (meter s)) as Hadd. unfold ConsumeGas in *.
  destruct (consume_gas g (meter s)) as [r m1] eqn:E. destruct r; cbn in *; try done.
  specialize (Hadd m1 eq_refl). specialize (H3 Logic.I).
  assert (Hn : ready n m1).
  { unfold ready, instantiateCost in *. destruct H2 as (-> & _). intuition lia. }
  destruct (Hk tt (set_meter m1 s) Hn) as (H4 & H5 & H6). split; [done|]. split; [by etrans|].
  intros Hret. eapply ready_mono; [|by apply H6]. lia.
Qed.

Lemma good_reads {R} n a (f : World B K T X -> R) : good n (reads a f).
Proof.
  apply good_bind; [apply good_gets|]. intros w.
  apply good_bind; [apply good_consume, store_gas_nonneg|]. intros _. apply good_ret.
Qed.

Lemma good_writes n a f : good n (writes a f : wst S unit).
Proof.
  apply good_bind; [apply good_gets|]. intros w.
  apply good_bind; [apply good_consume, store_gas_nonneg|]. intros _. apply good_set_world.
Qed.

Lemma good_found {R} n (o : option R) e : good n (found o e : wst S R).
Proof. destruct o; [apply good_ret|apply good_fail]. Qed.

End termination.

Create HintDb gas.
#[export] Hint Resolve good_ret good_lift good_gets good_fail good_world good_set_world good_emit good_if
  good_reads good_writes good_found : gas.

(** Decomposes a goal [good n c] along the binds of [c]. *)
Ltac good :=
  repeat first
    [ solve [eauto with gas]
    | match goal with
      | |- good _ (mbind _ _) => apply good_bind
      | |- good _ (if _ then _ else _) => apply good_if
      | |- forall x, good _ (@?f x) => intros ?
      | |- good _ (ConsumeGas (store_gas _ _)) => apply good_consume, store_gas_nonneg
      | |- good _ (let '(_, _) := ?p in _) => destruct p
      end ].

Section keeper_termination.
Context {M : SdkMath} {C : SdkCoins} {U : SdkUint} {UL : SdkUintLaws U}.
Context {A : Bech32} {I : IntText} {H : Crypto} {Gz : Gzip}.
Context {F : ForeignMsgs} {D : MsgDecoding} {G : GasMeters} {GL : GasMetersLaws G}.
Context {B : Type} {BK : BankKeeper B} {K : Type} {AK : AccountKeeper K} {FD : BankEffects B K}.
Context {T : Type} {TK : Ante.TreasuryKeeper T} {X : Type} {VM : WasmVM B K T X G} {VL : WasmVMLaws B K T X VM}.
Context {SG : StoreGas B K T X} {SL : StoreGasLaws B K T X SG}.
Context (VerifyAddressFormat : string -> res unit) (error_text : error -> string).
Context (msgParser : MsgParser) (ctx : BlockCtx).

Abbreviation S := (wstate B K T X).

Lemma good_SendCoins n f t cs : good n (SendCoins f t cs : wst S unit).
Proof. unfold SendCoins. good. Qed.

Lemma good_deposit n f t cs : good n (deposit_coins f t cs : wst S unit).
Proof. unfold deposit_coins. apply good_if; [good|apply good_SendCoins]. Qed.

Lemma good_details n a : good n (getContractDetails a : wst S CodeInfo).
Proof. unfold getContractDetails, GetContractInfo, GetCodeInfo. good. Qed.

Lemma good_CompileCode n code : good n (CompileCode code : wst S string).
Proof.
  unfold CompileCode, MaxContractSize. good. apply good_cost. intros g. apply CompileCosts_nonneg.
Qed.

Lemma good_StoreCode n a code : good n (StoreCode a code : wst S Z).
Proof.
  unfold StoreCode, GetLastCodeID, SetLastCodeID, SetCodeInfo. good. apply good_CompileCode.
Qed.

Lemma good_MigrateCode n i a code : good n (MigrateCode i a code : wst S unit).
Proof. unfold MigrateCode, GetCodeInfo, SetCodeInfo. good. apply good_CompileCode. Qed.

(** The machine may overdraw the meter; the charge that follows it panics then. *)
Lemma good_run_vm n e h a err : good n (run_vm VerifyAddressFormat ctx e h a err : wst S Response).
Proof.
  unfold run_vm. intros s Hr. rewrite wbind_gets.
  destruct (getWasmVMGasRemaining (meter s)) as [g|e'|] eqn:Eg.
  2, 3: split; [done|split; [reflexivity|done]].
  rewrite wbind_lift, wbind_gets, wbind_modify. unfold consumeWasmVMGas.
  apply good_consume_bind; [apply FromWasmVMGas_nonneg|exact Hr|apply vm_call_charged|]. intros _.
  apply good_bind; [destruct (vm_out _); good|]. intros res. apply good_bind; [|good].
  apply good_cost. intros g'. apply EventCosts_nonneg.
Qed.

Lemma good_emit_contract n a res : good n (emit_contract_events a res : wst S unit).
Proof. unfold emit_contract_events. good. Qed.

Lemma good_attempt {R} n (c : wst S R) : good n c -> good n (attempt c).
Proof.
  intros Hc s Hr. destruct (Hc s Hr) as (H1 & H2 & H3). unfold attempt.
  destruct (c s) as [[x|e| | |] s1]; cbn in *; try done; by split; [|split; [|auto]].
Qed.

Lemma good_sandbox {R} n (c : wst S R) : good n c -> good n (sandbox c).
Proof.
  intros Hc s Hr. destruct (good_attempt n c Hc (set_events [] s) Hr) as (H1 & H2 & H3). unfold sandbox.
  destruct (attempt c _) as [[[x|e]|e| | |] s1]; cbn in *; try done; by split; [|split; [|auto]].
Qed.

(** A meter of its own, with no more gas than the caller has. *)
Lemma new_ready n l m : ready n m -> 0 <= l <= gas_limit m - gas_consumed m -> ready n (NewGasMeter l).
Proof.
  unfold ready, within. rewrite new_limit, new_consumed. intros (H1 & H2 & H3 & H4 & H5) Hl.
  split; [apply new_limited|]. lia.
Qed.

Lemma good_with_meter {R} n l (c : wst S R) s :
  good n c -> ready n (NewGasMeter l) ->
  (with_meter (NewGasMeter l) c s).1 <> NoFuel /\ meter (with_meter (NewGasMeter l) c s).2 = meter s /\
  (forall x m, (with_meter (NewGasMeter l) c s).1 = Done (x, m) -> 0 <= gas_consumed m <= l).
Proof.
  intros Hc Hr. destruct (Hc (set_meter (NewGasMeter l) s) Hr) as (H1 & (H2 & _ & H3) & H4). unfold with_meter.
  cbn in H2, H3. rewrite new_limit in H2. rewrite new_consumed in H3.
  destruct (c _) as [[x|e| | |] s1]; cbn in *; (split; [done|]; split; [done|]); intros; simplify_eq.
  pose proof (ready_within n _ (H4 Logic.I)) as Hw. unfold within in Hw. lia.
Qed.

Section with_handler.
Context (n : nat) (Handler : SdkMsg -> option (wst S Result)).
Context (HH : forall msg h, Handler msg = Some h -> good n h).

Lemma good_dispatchMessage a msg : good n (dispatchMessage msgParser Handler a msg).
Proof.
  unfold dispatchMessage, handleSdkMessage, charge_tax. good.
  destruct x as [m|]; good. destruct (Handler m) as [h|] eqn:E; [by eapply HH|good].
Qed.

Lemma ends_recover {R} m l (c : wst S R) e s :
  is_uint64 l -> ready n m -> ends n m (c s) -> ends n m (recover_gas c (ConsumeGas l;; wfail e) s).
Proof.
  intros [Hl _] Hr Hc. unfold recover_gas. destruct (c s) as [[x|e'| | |] s1]; try done.
  apply good_consume_bind; [done|done|apply Hc|]. intros _. apply good_fail.
Qed.

Lemma good_limited a msg l s :
  is_uint64 l -> l <= gas_limit (meter s) - gas_consumed (meter s) -> ready n (meter s) ->
  ends n (meter s) (dispatchMessageWithGasLimit msgParser Handler a msg l s).
Proof.
  intros Hl Hle Hr. apply ends_recover; [done|done|].
  pose proof (good_with_meter n l _ s (good_attempt n _ (good_dispatchMessage a msg))
    (new_ready n l _ Hr (conj (proj1 Hl) Hle))) as (H1 & H2 & H3).
  unfold mbind at 1, wst_bind at 1.
  destruct (with_meter _ _ s) as [[[x m]|e| | |] s1]; cbn in H1, H2, H3; try done.
  2, 3, 4: split; [done|]; cbn; rewrite H2; by split; [reflexivity|].
  apply good_consume_bind; [by eapply H3|done|by rewrite H2|].
  intros _. destruct x; [apply good_ret|apply good_fail].
Qed.

Lemma good_sub_dispatch a msg :
  (forall l, SGasLimit msg = Some l -> is_uint64 l) -> good n (sub_dispatch msgParser Handler a msg).
Proof.
  intros Hl s Hr. unfold sub_dispatch. destruct (SGasLimit msg) as [l|]; [|by apply good_dispatchMessage].
  destruct (Z.ltb_spec l (to_uint64 (gas_limit (meter s) - gas_consumed (meter s)))) as [Hlt|_];
    [|by apply good_dispatchMessage].
  apply good_limited; [by apply Hl| |done]. destruct Hr as (_ & H1 & H2 & H3 & _). unfold within in H2.
  rewrite to_uint64_id in Hlt by (unfold is_uint64; lia). lia.
Qed.

Lemma good_dispatchMessages rep a msgs :
  (forall r, good n (rep a r)) ->
  Forall (fun msg => forall l, SGasLimit msg = Some l -> is_uint64 l) msgs ->
  good n (dispatchMessages error_text msgParser Handler rep a msgs).
Proof.
  intros Hrep. unfold dispatchMessages. generalize (None : option string).
  induction msgs as [|msg msgs IH]; intros d Hl; cbn [foldM]; [good|].
  apply Forall_cons in Hl as [Hm Hl]. apply good_bind; [|intros d'; by apply IH].
  unfold dispatch_one. apply good_bind; [good|]. intros _.
  apply good_bind; [apply good_sandbox, good_sub_dispatch, Hm|]. intros r.
  apply good_bind; [destruct r as [[? ?]|?]; good|]. intros _.
  destruct (SReplyOn msg), r; good; apply Hrep.
Qed.

Definition limits_ok (res : Response) : Prop :=
  Forall (fun msg => forall l, SGasLimit msg = Some l -> is_uint64 l) (Messages res).

Lemma run_vm_limits e h a err s res s1 :
  run_vm VerifyAddressFormat ctx e h a err s = (Done res, s1) -> limits_ok res.
Proof.
  unfold run_vm. intros E. w_inv. destruct (vm_out _) eqn:Eo; w_inv. by eapply vm_call_limits.
Qed.

Lemma good_respond rep a res :
  (forall r, good n (rep a r)) -> limits_ok res -> good n (respond error_text msgParser Handler rep a res).
Proof. intros Hrep Hres. unfold respond. apply good_bind; [by apply good_dispatchMessages|good]. Qed.

End with_handler.

Lemma good_reply j Handler a r :
  (forall msg h, Handler msg = Some h -> good j h) ->
  good j (reply VerifyAddressFormat error_text msgParser ctx Handler j a r).
Proof.
  revert a r. induction j as [|j IH]; intros a r HH.
  { intros s (_ & _ & Hw & _ & Hn). unfold within, instantiateCost in *. lia. }
  cbn [reply]. apply good_drop; [apply ReplyCosts_least|]. intros _.
  assert (HH' : forall msg h, Handler msg = Some h -> good j h).
  { intros msg h E. eapply good_mono; [|by eapply HH]. lia. }
  apply good_bind; [apply good_details|]. intros code.
  apply (good_bind_result j limits_ok); [apply run_vm_limits|apply good_run_vm|]. intros res Hres.
  apply good_bind; [apply good_emit_contract|]. intros _.
  apply good_respond; [done| |done]. intros r'. by apply IH.
Qed.

(** The calls of contracts, with handlers that have one level less. *)
Section calls.
Context (n : nat) (Handler : SdkMsg -> option (wst S Result)).
Context (HH : forall msg h, Handler msg = Some h -> good n h).

Let good_rep a r : good n (reply VerifyAddressFormat error_text msgParser ctx Handler n a r).
Proof. by apply good_reply. Qed.

Lemma good_ExecuteContract a sender msg cs :
  good (Datatypes.S n) (ExecuteContract VerifyAddressFormat error_text msgParser ctx Handler n a sender msg cs).
Proof.
  apply good_drop; [apply InstantiateContractCosts_least|]. intros _.
  apply good_bind; [apply good_reads|]. intros size. apply good_bind; [good|]. intros _.
  apply good_bind; [apply good_details|]. intros code. apply good_bind; [apply good_deposit|]. intros _.
  apply (good_bind_result n limits_ok); [apply run_vm_limits|apply good_run_vm|]. intros res Hres.
  apply good_bind; [apply good_emit_contract|]. intros _. by apply good_respond.
Qed.

Lemma good_MigrateContract a sender code msg :
  good (Datatypes.S n) (MigrateContract VerifyAddressFormat error_text msgParser ctx Handler n a sender code msg).
Proof.
  apply good_drop; [apply InstantiateContractCosts_least|]. intros _. unfold MaxContractMsgSize, GetContractInfo.
  do 6 (apply good_bind; [unfold GetCodeInfo; good|intros ?]).
  apply (good_bind_result n limits_ok); [apply run_vm_limits|apply good_run_vm|]. intros res Hres.
  apply good_bind; [apply good_emit_contract|]. intros _. apply good_bind; [apply good_writes|]. intros _.
  by apply good_respond.
Qed.

Lemma good_InstantiateContract code creator admin msg cs :
  good (Datatypes.S n)
    (InstantiateContract VerifyAddressFormat error_text msgParser ctx Handler n code creator admin msg cs).
Proof.
  unfold InstantiateContract. apply good_bind; [by apply good_consume|]. intros _.
  apply good_drop; [apply InstantiateContractCosts_least|]. intros _.
  unfold MaxContractMsgSize, GetLastInstanceID. do 6 (apply good_bind; [good|intros ?]).
  apply good_bind; [apply good_deposit|]. intros _. apply good_bind; [unfold GetCodeInfo; good|]. intros info.
  apply (good_bind_result n limits_ok); [apply run_vm_limits|apply good_run_vm|]. intros res Hres.
  do 2 (apply good_bind; [apply good_writes|intros _]).
  apply good_bind; [apply good_emit_contract|]. intros _.
  apply good_bind; [by apply good_respond|]. intros d. apply good_ret.
Qed.

End calls.

(** *** The message server *)

Lemma good_sub_call {R} n l (c : wst S R) s :
  good n c -> ready n (NewGasMeter l) ->
  let r := with_events (with_meter (NewGasMeter l) c) s in
  r.1 <> NoFuel /\ meter r.2 = meter s /\ (forall x, r.1 = Done x -> 0 <= gas_consumed x.2).
Proof.
  intros Hc Hr. destruct (good_with_meter n l c (set_events [] s) Hc Hr) as (H1 & H2 & H3). unfold with_events.
  destruct (with_meter _ _ _) as [[[x m]|e| | |] s1]; cbn in *;
    (split; [done|]; split; [done|]); intros [x' m'] [= <- <-]; by eapply (H3 x m).
Qed.

Lemma remain_of n m g :
  ready n m -> is_uint64 g ->
  let remain := to_uint64 (gas_limit m - gas_consumed m) in
  0 <= (if g <? remain then g else remain) <= gas_limit m - gas_consumed m.
Proof.
  intros (_ & H1 & H2 & H3 & _) Hg. unfold within in H2. cbv zeta.
  rewrite to_uint64_id by (unfold is_uint64; lia).
  destruct (Z.ltb_spec g (gas_limit m - gas_consumed m)); destruct Hg; lia.
Qed.

Lemma good_contract_call {R} n (c : wst S R) : good n c -> good n (contract_call c).
Proof.
  intros Hc. unfold contract_call, MaxContractGas.
  apply (good_bind_result n is_uint64); [|apply good_reads|].
  { intros s g s1 E. unfold reads in E. w_inv. apply to_uint64_nonneg. }
  intros g Hg s Hr. rewrite wbind_gets.
  pose proof (good_sub_call n _ c s Hc (new_ready n _ _ Hr (remain_of n _ g Hr Hg))) as (H1 & H2 & H3).
  unfold mbind at 1, wst_bind at 1.
  destruct (with_events _ s) as [[[[x sub] m]|e| | |] s1]; cbn in H1, H2, H3; try done.
  2, 3, 4: split; [done|]; cbn; rewrite H2; by split; [reflexivity|].
  apply good_consume_bind; [apply (H3 _ eq_refl)|done|by rewrite H2|]. intros _. apply good_ret.
Qed.

Lemma good_server n router msg :
  RouterLaws router -> good n (server VerifyAddressFormat error_text msgParser ctx router n msg).
Proof.
  intros RL. revert msg. induction n as [|n IH]; intros msg.
  { intros s (_ & _ & Hw & _ & Hn). unfold within, instantiateCost in *. lia. }
  cbn [server].
  assert (HH : forall m h, router (server VerifyAddressFormat error_text msgParser ctx router n) m = Some h -> good n h).
  { intros m h E s Hr. eapply (router_meter (ready n)); [|intros m' s' Hr'; by apply IH|exact E|exact Hr].
    apply ready_closed. }
  destruct msg; cbn [msg_server].
  - unfold server_StoreCode. good. apply good_StoreCode.
  - unfold server_MigrateCode. good. apply good_MigrateCode.
  - unfold server_InstantiateContract. good. by apply good_contract_call, good_InstantiateContract.
  - unfold server_ExecuteContract. good. by apply good_contract_call, good_ExecuteContract.
  - unfold server_MigrateContract. good. by apply good_contract_call, good_MigrateContract.
  - unfold server_UpdateContractAdmin, GetContractInfo, SetContractInfo. good.
  - unfold server_ClearContractAdmin, GetContractInfo, SetContractInfo. good.
Qed.

(** On any meter. *)
Definition total {R} (c : wst S R) : Prop := forall s, (c s).1 <> NoFuel.

Lemma total_bind {R V} (c : wst S R) (k : R -> wst S V) : total c -> (forall x, total (k x)) -> total (c ≫= k).
Proof.
  intros Hc Hk s. specialize (Hc s). unfold mbind, wst_bind. destruct (c s) as [[x|e| | |] s1]; try done. apply Hk.
Qed.

Lemma total_lift {R} (c : res R) : total (wlift c).
Proof. intros s. by destruct c. Qed.

Lemma total_ret {R} (x : R) : total (mret x).
Proof. done. Qed.

Lemma total_consume g : total (ConsumeGas g).
Proof. intros s. unfold ConsumeGas. destruct (consume_gas _ _) as [[] ?]; done. Qed.

Lemma total_reads {R} a (f : World B K T X -> R) : total (reads a f).
Proof. repeat (apply total_bind; [try apply total_consume; done|intros ?]). done. Qed.

Lemma total_writes a f : total (writes a f).
Proof. repeat (apply total_bind; [try apply total_consume; done|intros ?]). done. Qed.

Lemma total_found {R} (o : option R) e : total (found o e).
Proof. by destruct o. Qed.

Lemma total_get {R} a (f : World B K T X -> option R) e : total (bz ← reads a f; found bz e).
Proof. apply total_bind; [apply total_reads|]. intros o. apply total_found. Qed.

Lemma total_CompileCode code : total (CompileCode code).
Proof.
  unfold CompileCode. do 3 (apply total_bind; [apply total_reads || apply total_lift|intros ?]).
  apply total_bind; [|intros _; apply total_lift].
  apply total_bind; [apply total_lift|]. intros g. apply total_consume.
Qed.

End keeper_termination.

#[export] Hint Resolve total_lift total_ret total_consume total_reads total_writes total_found total_get
  total_CompileCode : gas.

Section server_termination.
Context {M : SdkMath} {C : SdkCoins} {U : SdkUint} {UL : SdkUintLaws U}.
Context {A : Bech32} {I : IntText} {H : Crypto} {Gz : Gzip}.
Context {F : ForeignMsgs} {D : MsgDecoding} {G : GasMeters} {GL : GasMetersLaws G}.
Context {B : Type} {BK : BankKeeper B} {K : Type} {AK : AccountKeeper K} {FD : BankEffects B K}.
Context {T : Type} {TK : Ante.TreasuryKeeper T} {X : Type} {VM : WasmVM B K T X G} {VL : WasmVMLaws B K T X VM}.
Context {SG : StoreGas B K T X} {SL : StoreGasLaws B K T X SG}.
Context (VerifyAddressFormat : string -> res unit) (error_text : error -> string).
Context (msgParser : MsgParser) (ctx : BlockCtx).

Abbreviation S := (wstate B K T X).

Ltac total :=
  repeat first
    [ solve [eauto with gas]
    | match goal with
      | |- total (mbind _ _) => apply total_bind
      | |- forall x, total (@?f x) => intros ?
      end ].

Lemma total_contract_call {R} n (c : wst S R) s :
  good n c -> to_uint64 (PMaxContractGas (params (world s))) < instantiateCost * Z.of_nat n ->
  (contract_call c s).1 <> NoFuel.
Proof.
  intros Hc Hg. unfold contract_call, MaxContractGas, mbind at 1, wst_bind at 1.
  pose proof (total_reads AReadParams (fun w => to_uint64 (PMaxContractGas (params w))) s) as Ht.
  destruct (reads _ _ s) as [[g|e| | |] s1] eqn:E; try done. clear Ht. apply reads_Done in E as [-> _].
  rewrite wbind_gets. set (remain := to_uint64 (gas_limit _ - _)).
  assert (Hr : ready n (NewGasMeter
    (if to_uint64 (PMaxContractGas (params (world s))) <? remain
     then to_uint64 (PMaxContractGas (params (world s))) else remain))).
  { pose proof (to_uint64_nonneg (PMaxContractGas (params (world s)))). pose proof (to_uint64_nonneg
      (gas_limit (meter s1) - gas_consumed (meter s1))) as Hrem. fold remain in Hrem.
    unfold ready, within. rewrite new_limit, new_consumed. split; [apply new_limited|].
    destruct (Z.ltb_spec (to_uint64 (PMaxContractGas (params (world s)))) remain); lia. }
  pose proof (good_sub_call n _ c s1 Hc Hr) as (H1 & _). unfold mbind at 1, wst_bind at 1.
  destruct (with_events _ s1) as [[[[x sub] m]|e| | |] s2]; try done.
  apply total_bind; [apply total_consume|done].
Qed.

Lemma total_lift_at {R V} (c : res R) (k : R -> wst S V) s :
  (forall x, (k x s).1 <> NoFuel) -> ((wlift c ≫= k) s).1 <> NoFuel.
Proof. intros Hk. destruct c; [apply Hk|done|done]. Qed.

Lemma total_bind_at {R V} (c : wst S R) (k : R -> wst S V) s :
  (c s).1 <> NoFuel -> (forall x, total (k x)) -> ((c ≫= k) s).1 <> NoFuel.
Proof.
  intros Hc Hk. unfold mbind, wst_bind. destruct (c s) as [[x|e| | |] s1]; try done. apply Hk.
Qed.

Lemma total_emit_ret {R} l (x : R) : total (EmitEvents l;; mret x : wst S R).
Proof. done. Qed.

#[local] Hint Resolve total_emit_ret : gas.

Lemma total_StoreCode msg : total (server_StoreCode msg : wst S MsgResponse).
Proof. unfold server_StoreCode, StoreCode, GetLastCodeID, SetLastCodeID, SetCodeInfo. total. Qed.

Lemma total_MigrateCode msg : total (server_MigrateCode msg : wst S MsgResponse).
Proof. unfold server_MigrateCode, MigrateCode, GetCodeInfo, SetCodeInfo. total. Qed.

Lemma total_UpdateContractAdmin msg : total (server_UpdateContractAdmin msg : wst S MsgResponse).
Proof. unfold server_UpdateContractAdmin, GetContractInfo, SetContractInfo. total. Qed.

Lemma total_ClearContractAdmin msg : total (server_ClearContractAdmin msg : wst S MsgResponse).
Proof. unfold server_ClearContractAdmin, GetContractInfo, SetContractInfo. total. Qed.

(** C8. Running contracts terminates: the server, and with it every contract,
    submessage, reply and nested call it starts, returns or panics, it never
    needs more levels than the gas limit of a contract pays for.  One level
    costs at least 40,000 gas and the parameters allow at most 100,000,000, so
    2,501 levels are enough, on any gas meter. *)
Theorem contracts_terminate router fuel msg s :
  RouterLaws router ->
  0 <= PMaxContractGas (params (world s)) -> Params_Validate (params (world s)) = Ok tt ->
  EnforcedMaxContractGas / instantiateCost < Z.of_nat fuel ->
  (server VerifyAddressFormat error_text msgParser ctx router fuel msg s).1 <> NoFuel.
Proof.
  intros RL H0 Hp Hf. unfold Params_Validate in Hp. go_inv. clear Hp.
  change (EnforcedMaxContractGas / instantiateCost) with 2500 in Hf. unfold EnforcedMaxContractGas in Hv0.
  apply Z.ltb_ge in Hv0. destruct fuel as [|n]; [lia|]. cbn [server].
  assert (Hg : to_uint64 (PMaxContractGas (params (world s))) < instantiateCost * Z.of_nat (Datatypes.S n)).
  { rewrite to_uint64_id by (unfold is_uint64, two64; lia). unfold instantiateCost. lia. }
  assert (HH : forall m h, router (server VerifyAddressFormat error_text msgParser ctx router n) m = Some h -> good n h).
  { intros m h E s' Hr. eapply (router_meter (ready n)); [|intros m' s2 Hr'; by apply good_server|exact E|exact Hr].
    apply ready_closed. }
  destruct msg; cbn [msg_server].
  - apply total_StoreCode.
  - apply total_MigrateCode.
  - do 2 (apply total_lift_at; intros ?). apply total_bind_at; [|intros []; apply total_emit_ret].
    eapply total_contract_call; [by apply good_InstantiateContract|done].
  - do 2 (apply total_lift_at; intros ?). apply total_bind_at; [|intros []; apply total_emit_ret].
    eapply total_contract_call; [by apply good_ExecuteContract|done].
  - do 2 (apply total_lift_at; intros ?). apply total_bind_at; [|intros []; apply total_emit_ret].
    eapply total_contract_call; [by apply good_MigrateContract|done].
  - apply total_UpdateContractAdmin.
  - apply total_ClearContractAdmin.
Qed.

End server_termination.

(** ** Gas of submessages and of failed calls *)

Section gas_accounting.
Context {M : SdkMath} {C : SdkCoins} {U : SdkUint} {UL : SdkUintLaws U}.
Context {A : Bech32} {I : IntText} {H : Crypto} {Gz : Gzip}.
Context {F : ForeignMsgs} {D : MsgDecoding} {G : GasMeters} {GL : GasMetersLaws G}.
Context {B : Type} {BK : BankKeeper B} {K : Type} {AK : AccountKeeper K} {FD : BankEffects B K}.
Context {T : Type} {TK : Ante.TreasuryKeeper T} {X : Type} {VM : WasmVM B K T X G} {VL : WasmVMLaws B K T X VM}.
Context {SG : StoreGas B K T X} {SL : StoreGasLaws B K T X SG}.
Context (VerifyAddressFormat : string -> res unit) (error_text : error -> string).
Context (msgParser : MsgParser) (ctx : BlockCtx).

Abbreviation S := (wstate B K T X).

Lemma ConsumeGas_enough n g (s : S) :
  ready n (meter s) -> 0 <= g -> gas_consumed (meter s) + g <= gas_limit (meter s) ->
  exists m, ConsumeGas g s = (Done tt, set_meter m s) /\ gas_consumed m = gas_consumed (meter s) + g.
Proof.
  intros (Hl & _ & _ & H64 & _) Hg Hle. pose proof (consume_enough g (meter s) Hl Hg Hle H64) as Hok.
  unfold ConsumeGas. destruct (consume_gas g (meter s)) as [r m] eqn:E. cbn in Hok. subst r. exists m.
  split; [done|]. by apply consume_ok.
Qed.

(** C24. A submessage with a gas limit below the gas that is left never costs
    the contract more than this limit and never stops it for lack of gas: when
    the submessage runs out, the limit is charged and the contract goes on with
    an error. *)
Theorem submessage_gas_bounded router fuel a msg l s :
  RouterLaws router -> ready fuel (meter s) -> 0 <= l < gas_limit (meter s) - gas_consumed (meter s) ->
  let r := dispatchMessageWithGasLimit msgParser
             (router (server VerifyAddressFormat error_text msgParser ctx router fuel)) a msg l s in
  r.1 <> OutOfGas /\ gas_consumed (meter r.2) <= gas_consumed (meter s) + l.
Proof.
  intros RL Hr Hl. cbv zeta. set (Handler := router _).
  assert (HH : forall m h, Handler m = Some h -> good fuel h).
  { intros m h E s' Hr'. eapply (router_meter (ready fuel)); [|intros m' s2 Hr2; by apply good_server|exact E|exact Hr'].
    apply ready_closed. }
  pose proof (good_with_meter fuel l _ s (good_attempt fuel _ (good_dispatchMessage msgParser fuel Handler HH a msg))
    (new_ready fuel l _ Hr ltac:(lia))) as (H1 & H2 & H3).
  unfold dispatchMessageWithGasLimit, recover_gas, mbind, wst_bind.
  destruct (with_meter _ _ s) as [[[x m]|e| | |] s1]; cbn in H1, H2, H3; try done.
  - destruct (H3 _ _ eq_refl) as [Hm1 Hm2].
    destruct (ConsumeGas_enough fuel (gas_consumed m) s1) as (m' & -> & Hm); rewrite ?H2; [done|done|lia|].
    destruct x; cbn; rewrite Hm, H2; (split; [done|lia]).
  - cbn. rewrite H2. split; [done|lia].
  - destruct (ConsumeGas_enough fuel l s1) as (m' & -> & Hm); rewrite ?H2; [done|lia|lia|].
    cbn. rewrite Hm, H2. split; [done|lia].
  - cbn. rewrite H2. split; [done|lia].
Qed.

Lemma ConsumeGas_no_fail g e (s s' : S) : ConsumeGas g s <> (Failed e, s').
Proof. unfold ConsumeGas. by destruct (consume_gas _ _) as [[] ?]. Qed.

Lemma contract_call_Failed {R} (c : wst S R) e s s' :
  contract_call c s = (Failed e, s') ->
  gas_consumed (meter s') = gas_consumed (meter s) + store_gas AReadParams (world s).
Proof.
  unfold contract_call. intros E. apply wbind_Failed in E as [E|(g & s1 & Hg & E)].
  { unfold MaxContractGas, reads in E. apply wbind_Failed in E as [E|(w & s1 & _ & E)]; [done|].
    apply wbind_Failed in E as [E|(u & s2 & _ & E)]; [by apply ConsumeGas_no_fail in E|done]. }
  assert (Hm : gas_consumed (meter s1) = gas_consumed (meter s) + store_gas AReadParams (world s)).
  { unfold MaxContractGas, reads in Hg. w_inv. unfold ConsumeGas in Hx0.
    destruct (consume_gas _ _) as [r m] eqn:Ec. destruct r; w_inv. by apply consume_ok in Ec. }
  rewrite <- Hm. clear Hm Hg. rewrite wbind_gets in E.
  apply wbind_Failed in E as [E|([[x sub] m] & s2 & _ & E)].
  - unfold with_events, with_meter in E. by destruct (c _) as [[y|e'| | |] s2]; simplify_eq.
  - apply wbind_Failed in E as [E|(u & s3 & _ & E)]; [by apply ConsumeGas_no_fail in E|done].
Qed.

(** A contract call that fails is free: whatever gas the execution used
    before it failed, the meter of the caller is only charged for reading the
    parameters.  A contract can therefore let submessages fail without paying
    for their work. *)
Theorem failed_execution_free Handler fuel msg c a s e s' :
  AccAddressFromBech32 (ECContract msg) = Ok c -> AccAddressFromBech32 (ECSender msg) = Ok a ->
  server_ExecuteContract VerifyAddressFormat error_text msgParser ctx Handler fuel msg s = (Failed e, s') ->
  gas_consumed (meter s') = gas_consumed (meter s) + store_gas AReadParams (world s).
Proof.
  intros Hc Ha E. unfold server_ExecuteContract in E. rewrite Hc, wbind_lift, Ha, wbind_lift in E.
  apply wbind_Failed in E as [E|([d sub] & s1 & _ & E)]; [by eapply contract_call_Failed|].
  apply wbind_Failed in E as [E|(u & s2 & _ & E)]; done.
Qed.

End gas_accounting.

(** ** The history of contracts *)

Section history.
Context {M : SdkMath} {C : SdkCoins} {U : SdkUint} {A : Bech32} {I : IntText} {H : Crypto} {Gz : Gzip}.
Context {F : ForeignMsgs} {D : MsgDecoding} {G : GasMeters} {GL : GasMetersLaws G}.
Context {B : Type} {BK : BankKeeper B}.
Context {K : Type} {AK : AccountKeeper K} {AL : AccountKeeperLaws K AK} {FD : BankEffects B K}.
Context {T : Type} {TK : Ante.TreasuryKeeper T} {X : Type} {VM : WasmVM B K T X G} {SG : StoreGas B K T X}.
Context (VerifyAddressFormat : string -> res unit) (error_text : error -> string).
Context (msgParser : MsgParser) (ctx : BlockCtx).
(** The empty text is not an address. *)
Context (bech32_empty : forall a, AccAddressFromBech32 "" <> Ok a).

Abbreviation S := (wstate B K T X).
Abbreviation W := (World B K T X).
Implicit Types w : W.
Implicit Types s : S.

(** Every contract has an account, its own address and an uploaded code. *)
Definition wasm_wf w : Prop := forall a ci, contract_infos w !! a = Some ci ->
  get_account (waccounts w) a <> None /\ CAddress ci = AccAddressString a /\ is_Some (code_infos w !! CCodeID ci).

(** What a contract stays, and that only a contract with an admin changes. *)
Definition same_contract (ci ci' : ContractInfo) : Prop :=
  CAddress ci' = CAddress ci /\ CCreator ci' = CCreator ci /\ CInitMsg ci' = CInitMsg ci /\
  (CAdmin ci = "" -> ci' = ci).

Definition continues w w' : Prop :=
  (forall i, is_Some (code_infos w !! i) -> is_Some (code_infos w' !! i)) /\
  (forall a ci, contract_infos w !! a = Some ci ->
     exists ci', contract_infos w' !! a = Some ci' /\ same_contract ci ci') /\
  (forall a, get_account (waccounts w) a <> None -> get_account (waccounts w') a <> None).

Definition evolves w w' : Prop := wasm_wf w -> wasm_wf w' /\ continues w w'.

Lemma continues_refl w : continues w w.
Proof. repeat split; auto. intros a ci E. exists ci. by repeat split. Qed.

Lemma continues_trans w1 w2 w3 : continues w1 w2 -> continues w2 w3 -> continues w1 w3.
Proof.
  intros (H1 & H2 & H3) (H4 & H5 & H6). split; [auto|]. split; [|auto].
  intros a ci E. destruct (H2 a ci E) as (c2 & E2 & S1 & S2 & S3 & S4).
  destruct (H5 a c2 E2) as (c3 & E3 & S5 & S6 & S7 & S8). exists c3. split; [done|].
  repeat split; [congruence..|]. intros Ha. specialize (S4 Ha). subst c2. by apply S8.
Qed.

#[local] Instance evolves_preorder : PreOrder evolves.
Proof.
  split.
  - intros w Hw. split; [done|apply continues_refl].
  - intros w1 w2 w3 H1 H2 Hw. destruct (H1 Hw) as [Hw2 Hc1]. destruct (H2 Hw2) as [Hw3 Hc2].
    split; [done|by eapply continues_trans].
Qed.

(** Records that are not touched. *)
Lemma evolves_frame w w' :
  code_infos w' = code_infos w -> contract_infos w' = contract_infos w ->
  (forall a, get_account (waccounts w) a <> None -> get_account (waccounts w') a <> None) -> evolves w w'.
Proof.
  intros E1 E2 Ha Hw. unfold wasm_wf, continues. rewrite E1, E2. repeat split; auto.
  - by apply Ha, (Hw _ _ H0).
  - by apply (Hw _ _ H0).
  - by apply (Hw _ _ H0).
  - intros a ci E. exists ci. by repeat split.
Qed.

Lemma evolves_foreign w w' : foreign_step w w' -> evolves w w'.
Proof. intros (_ & _ & _ & E1 & E2 & _ & E3). by apply evolves_frame. Qed.

Lemma evolves_code i c w : evolves w (set_code_info i c w).
Proof.
  intros Hw. split.
  - intros a ci E. destruct (Hw a ci E) as (H1 & H2 & H3). repeat split; [done..|]. cbn.
    rewrite lookup_insert_is_Some. destruct (decide (i = CCodeID ci)); auto.
  - split; [|split; [|done]]; cbn.
    + intros j Hj. rewrite lookup_insert_is_Some. destruct (decide (i = j)); auto.
    + intros a ci E. exists ci. by repeat split.
Qed.

(** A record that is replaced by one of the same contract. *)
Lemma evolves_contract a ci ci' w :
  contract_infos w !! a = Some ci -> same_contract ci ci' -> is_Some (code_infos w !! CCodeID ci') ->
  evolves w (set_contract_info a ci' w).
Proof.
  intros Ea Hs Hc Hw. split.
  - intros b c. cbn. destruct (decide (a = b)) as [->|Hne].
    + rewrite lookup_insert_eq. intros [= <-]. destruct (Hw b ci Ea) as (H1 & H2 & _).
      repeat split; [done| |done]. destruct Hs as (-> & _). done.
    + rewrite lookup_insert_ne by done. apply Hw.
  - split; [done|]. split; [|done]. intros b c E. cbn. destruct (decide (a = b)) as [->|Hne].
    + rewrite lookup_insert_eq. simplify_eq. eauto.
    + rewrite lookup_insert_ne by done. exists c. by repeat split.
Qed.

(** A record at an address that had no account. *)
Lemma evolves_new a ci k acc w :
  get_account (waccounts w) a = None -> CAddress ci = AccAddressString a ->
  is_Some (code_infos w !! CCodeID ci) -> new_account (waccounts w) a = (acc, k) ->
  forall w', code_infos w' = code_infos w -> contract_infos w' = <[a := ci]> (contract_infos w) ->
  waccounts w' = set_account k acc -> evolves w w'.
Proof.
  intros Ha Hci Hcode Hn w' E1 E2 E3 Hw.
  assert (Hacc : account_address acc = a).
  { pose proof (new_account_address (waccounts w) a) as Hx. by rewrite Hn in Hx. }
  assert (Hmono : forall b, get_account (waccounts w) b <> None -> get_account (set_account k acc) b <> None).
  { intros b Hb. destruct (decide (b = a)) as [->|Hne]; [by rewrite Ha in Hb|].
    rewrite set_account_other by congruence. pose proof (new_account_get (waccounts w) a b) as Hx.
    rewrite Hn in Hx. cbn in Hx. by rewrite Hx. }
  unfold wasm_wf, continues. rewrite E1, E2, E3. split.
  - intros b c. destruct (decide (a = b)) as [<-|Hne].
    + rewrite lookup_insert_eq. intros [= <-]. split; [|done]. rewrite <- Hacc, set_account_get. done.
    + rewrite lookup_insert_ne by done. intros Hb. destruct (Hw b c Hb) as (H1 & H2 & H3). auto.
  - split; [done|]. split; [|done]. intros b c Hb. destruct (decide (a = b)) as [<-|Hne].
    + destruct (Hw a c Hb) as [H1 _]. by rewrite Ha in H1.
    + rewrite lookup_insert_ne by done. exists c. by repeat split.
Qed.

(** *** Runs that are done *)

Definition safe {R} (c : wst S R) : Prop := forall s x s', c s = (Done x, s') -> evolves (world s) (world s').

Lemma safe_same {R} (c : wst S R) : (forall s x s', c s = (Done x, s') -> world s' = world s) -> safe c.
Proof. intros Hc s x s' E. by rewrite (Hc s x s' E). Qed.

Lemma safe_bind {R V} (c : wst S R) (k : R -> wst S V) : safe c -> (forall x, safe (k x)) -> safe (c ≫= k).
Proof. intros Hc Hk s y s' E. w_inv. etrans; [by eapply Hc|by eapply Hk]. Qed.

Lemma safe_ret {R} (x : R) : safe (mret x).
Proof. apply safe_same. intros s y s' E. by w_inv. Qed.

Lemma safe_lift {R} (c : res R) : safe (wlift c).
Proof. apply safe_same. intros s y s' E. by w_inv. Qed.

Lemma safe_gets {R} (f : S -> R) : safe (wgets f).
Proof. apply safe_same. intros s y s' E. by w_inv. Qed.

Lemma safe_fail {R} e : safe (wfail e : wst S R).
Proof. intros s y s' E. by w_inv. Qed.

Lemma safe_emit l : safe (EmitEvents l).
Proof. apply safe_same. unfold EmitEvents. intros s y s' E. by w_inv. Qed.

Lemma safe_consume g : safe (ConsumeGas g).
Proof. apply safe_same. intros s y s' E. by apply ConsumeGas_Done in E as [? _]. Qed.

Lemma safe_cost c : safe (consume_cost c).
Proof. apply safe_same. intros s y s' E. by apply consume_cost_Done in E as [? _]. Qed.

Lemma safe_reads {R} a (f : W -> R) : safe (reads a f).
Proof. apply safe_same. intros s y s' E. by apply reads_Done in E as [_ ?]. Qed.

Lemma safe_writes a f : (forall w, evolves w (f w)) -> safe (writes a f).
Proof. intros Hf s y s' E. apply writes_Done in E. rewrite E. apply Hf. Qed.

Lemma safe_found {R} (o : option R) e : safe (found o e).
Proof. destruct o; [apply safe_ret|apply safe_fail]. Qed.

Lemma safe_if {R} (b : bool) (c1 c2 : wst S R) : safe c1 -> safe c2 -> safe (if b then c1 else c2).
Proof. by destruct b. Qed.

Lemma evolves_same w w' :
  code_infos w' = code_infos w -> contract_infos w' = contract_infos w -> waccounts w' = waccounts w ->
  evolves w w'.
Proof. intros E1 E2 E3. apply evolves_frame; [done|done|]. by rewrite E3. Qed.

(** What a contract writes is its store. *)
Lemma set_store_frame a kv (w : World B K T X) :
  code_infos (set_store a kv w) = code_infos w /\ contract_infos (set_store a kv w) = contract_infos w /\
  waccounts (set_store a kv w) = waccounts w.
Proof. unfold set_store. by case_decide. Qed.

Lemma evolves_store a kv w : evolves w (set_store a kv w).
Proof. destruct (set_store_frame a kv w) as (? & ? & ?). by apply evolves_same. Qed.

Lemma safe_deposit f t cs : safe (deposit_coins f t cs).
Proof. intros s y s' E. apply deposit_Done in E as [b ->]. by apply evolves_same. Qed.

Lemma run_vm_Done e h a err s res s' :
  run_vm VerifyAddressFormat ctx e h a err s = (Done res, s') ->
  exists kv, world s' = set_store a kv (world s).
Proof.
  unfold run_vm, consumeWasmVMGas. intros E. w_inv. apply ConsumeGas_Done in Hx3 as [Hw _].
  destruct (vm_out _); w_inv. apply consume_cost_Done in Hx5 as [Hw' _]. eexists. rewrite Hw'. exact Hw.
Qed.

Lemma safe_run_vm e h a err : safe (run_vm VerifyAddressFormat ctx e h a err).
Proof. intros s y s' E. apply run_vm_Done in E as [kv ->]. apply evolves_store. Qed.

Lemma safe_emit_contract a res : safe (emit_contract_events a res).
Proof. apply safe_bind; [apply safe_lift|]. intros l. apply safe_emit. Qed.

Lemma charge_tax_Done a m u s s' :
  charge_tax a m s = (Done u, s') ->
  exists taxes, Ante.FilterMsgAndComputeTax (wtreasury (world s)) [tax_view m] = Ok taxes /\
    if coins_is_zero taxes then world s' = world s
    else exists b, DeductFees (wbank (world s)) (get_account (waccounts (world s)) a) taxes = Ok (b, u) /\
                   world s' = set_bank b (world s).
Proof.
  unfold charge_tax. intros E. w_inv. apply ConsumeGas_Done in Hx0 as [Hw _]. eexists. split; [eassumption|].
  destruct (coins_is_zero x1); w_inv; [done|]. apply reads_Done in Hx as [-> _]. rewrite Hw in *.
  eexists. by split; [eassumption|].
Qed.

Lemma safe_charge_tax a m : safe (charge_tax a m).
Proof.
  intros s u s' E. apply charge_tax_Done in E as (taxes & _ & E). destruct (coins_is_zero taxes); [by rewrite E|].
  destruct E as (b & _ & ->). by apply evolves_same.
Qed.

(** A sandboxed call leaves the stores alone when it fails. *)
Lemma sandbox_Done {R} (c : wst S R) r s s' :
  sandbox c s = (Done r, s') ->
  events s' = events s /\
  match r with
  | inl x => exists s1, c (set_events [] s) = (Done x, s1) /\ world s' = world s1 /\ meter s' = meter s1
  | inr e => exists s1, c (set_events [] s) = (Failed e, s1) /\ world s' = world s /\ meter s' = meter s1
  end.
Proof.
  unfold sandbox, attempt. destruct (c _) as [[x|e| | |] s1]; intros E; simplify_eq; eauto.
Qed.

Lemma safe_sandbox {R} (c : wst S R) : safe c -> safe (sandbox c).
Proof.
  intros Hc s r s' E. apply sandbox_Done in E as [_ E]. destruct r as [x|e]; destruct E as (s1 & E & Hw & _); rewrite Hw.
  - by apply Hc in E.
  - done.
Qed.

Section with_handler.
Context (Handler : SdkMsg -> option (wst S Result)).
Context (HH : forall m h, Handler m = Some h -> safe h).

Lemma safe_dispatchMessage a msg : safe (dispatchMessage msgParser Handler a msg).
Proof.
  apply safe_bind; [apply safe_lift|]. intros [m|]; [|apply safe_fail].
  apply safe_bind; [apply safe_charge_tax|]. intros evs. apply safe_bind; [|intros r; apply safe_ret].
  apply safe_bind; [apply safe_lift|]. intros l. apply safe_bind; [apply safe_lift|]. intros _.
  destruct (Handler m) as [h|] eqn:E; [by eapply HH|apply safe_fail].
Qed.

Lemma limited_Done a msg l s x s' :
  dispatchMessageWithGasLimit msgParser Handler a msg l s = (Done x, s') ->
  exists s1, dispatchMessage msgParser Handler a msg (set_meter (NewGasMeter l) s) = (Done x, s1) /\
    world s' = world s1.
Proof.
  unfold dispatchMessageWithGasLimit, recover_gas. intros E.
  destruct ((with_meter _ _ ≫= _) s) as [[y|e| | |] s2] eqn:E2; w_inv.
  unfold with_meter, attempt in Hx. destruct (dispatchMessage _ _ _ _ _) as [[z|e| | |] s3]; w_inv; cbn in E2; w_inv.
  apply ConsumeGas_Done in Hx0 as [Hw _]. exists s3. by split.
Qed.

Lemma safe_sub_dispatch a msg : safe (sub_dispatch msgParser Handler a msg).
Proof.
  intros s x s' E. unfold sub_dispatch in E.
  destruct (SGasLimit msg) as [l|]; [|by apply safe_dispatchMessage in E].
  destruct (_ <? _); [|by apply safe_dispatchMessage in E].
  apply limited_Done in E as (s1 & E & ->). by apply safe_dispatchMessage in E.
Qed.

Lemma safe_dispatchMessages rep a msgs :
  (forall r, safe (rep a r)) -> safe (dispatchMessages error_text msgParser Handler rep a msgs).
Proof.
  intros Hrep. unfold dispatchMessages. generalize (None : option string).
  induction msgs as [|msg msgs IH]; intros d; cbn [foldM]; [apply safe_ret|].
  apply safe_bind; [|apply IH]. apply safe_bind; [apply safe_lift|]. intros _.
  apply safe_bind; [apply safe_sandbox, safe_sub_dispatch|]. intros r.
  apply safe_bind; [destruct r as [[? ?]|?]; [apply safe_emit|apply safe_ret]|]. intros _.
  destruct (SReplyOn msg), r; try apply safe_fail; try apply safe_ret;
    (apply safe_bind; [apply Hrep|intros ?; apply safe_ret]).
Qed.

Lemma safe_respond rep a res :
  (forall r, safe (rep a r)) -> safe (respond error_text msgParser Handler rep a res).
Proof. intros Hrep. apply safe_bind; [by apply safe_dispatchMessages|]. intros d. apply safe_ret. Qed.

Lemma GetContractInfo_Done a ci s s' :
  GetContractInfo a s = (Done ci, s') -> contract_infos (world s) !! a = Some ci /\ world s' = world s.
Proof. intros E. by apply (get_Done _ (fun w => contract_infos w !! a)) in E. Qed.

Lemma GetCodeInfo_Done i c s s' :
  GetCodeInfo i s = (Done c, s') -> code_infos (world s) !! i = Some c /\ world s' = world s.
Proof. intros E. by apply (get_Done _ (fun w => code_infos w !! i)) in E. Qed.

Lemma emit_contract_Done a res u s s' : emit_contract_events a res s = (Done u, s') -> world s' = world s.
Proof. unfold emit_contract_events, EmitEvents. intros E. by w_inv. Qed.

Lemma details_Done a code s s' :
  getContractDetails a s = (Done code, s') ->
  world s' = world s /\
  exists ci, contract_infos (world s) !! a = Some ci /\ code_infos (world s) !! CCodeID ci = Some code.
Proof.
  unfold getContractDetails. intros E. w_inv. apply GetContractInfo_Done in Hx as [Hc Hw].
  apply GetCodeInfo_Done in E as [Hi Hw']. rewrite Hw in *. eauto.
Qed.

Lemma safe_details a : safe (getContractDetails a).
Proof. intros s x s' E. by apply details_Done in E as [-> _]. Qed.

Lemma safe_reply n a r : safe (reply VerifyAddressFormat error_text msgParser ctx Handler n a r).
Proof.
  revert a r. induction n as [|n IH]; intros a r; [done|]. cbn [reply].
  apply safe_bind; [apply safe_cost|]. intros _. apply safe_bind; [apply safe_details|]. intros code.
  apply safe_bind; [apply safe_run_vm|]. intros res. apply safe_bind; [apply safe_emit_contract|]. intros _.
  by apply safe_respond.
Qed.

Lemma safe_ExecuteContract n a sender msg cs :
  safe (ExecuteContract VerifyAddressFormat error_text msgParser ctx Handler n a sender msg cs).
Proof.
  apply safe_bind; [apply safe_cost|]. intros _. apply safe_bind; [apply safe_reads|]. intros size.
  apply safe_bind; [apply safe_lift|]. intros _. apply safe_bind; [apply safe_details|]. intros code.
  apply safe_bind; [apply safe_deposit|]. intros _. apply safe_bind; [apply safe_run_vm|]. intros res.
  apply safe_bind; [apply safe_emit_contract|]. intros _. apply safe_respond. intros r. apply safe_reply.
Qed.

(** The admin migrates; the record keeps everything but the code. *)
Lemma safe_MigrateContract n a sender code msg :
  safe (MigrateContract VerifyAddressFormat error_text msgParser ctx Handler n a sender code msg).
Proof.
  unfold MigrateContract. intros s x s' E. w_inv. apply consume_cost_Done in Hx as [Hw0 _].
  apply reads_Done in Hx0 as [_ Hw1]. apply GetContractInfo_Done in Hx2 as [Hci Hw2].
  apply GetCodeInfo_Done in Hx5 as [Hcode Hw3]. apply run_vm_Done in Hx6 as [kv Hw4].
  apply emit_contract_Done in Hx7. apply writes_Done in Hx8.
  apply (safe_respond _ _ _ (safe_reply n a)) in E. etrans; [|exact E]. rewrite Hx8, Hx7, Hw4, Hw3, Hw2, Hw1, Hw0.
  rewrite Hw3, Hw2, Hw1, Hw0 in *.
  apply (transitivity (y := set_store a kv (world s))); [apply evolves_store|].
  destruct (set_store_frame a kv (world s)) as (Ec & Ei & _). rewrite <- Ei in Hci. rewrite <- Ec in Hcode.
  eapply evolves_contract; [exact Hci| |by eexists].
  repeat split. intros Ha. by rewrite Ha in Hx3.
Qed.

Lemma safe_InstantiateContract n code creator admin msg cs :
  safe (InstantiateContract VerifyAddressFormat error_text msgParser ctx Handler n code creator admin msg cs).
Proof.
  unfold InstantiateContract. intros s x s' E. w_inv.
  set (addr := GenerateContractAddress code (to_uint64 (x4 + 1))) in *.
  apply ConsumeGas_Done in Hx as [Hw0 _]. apply consume_cost_Done in Hx0 as [Hw1 _].
  apply reads_Done in Hx1 as [_ Hw2]. unfold GetLastInstanceID in Hx3. apply get_Done in Hx3 as [_ Hw4].
  apply reads_Done in Hx4 as [-> Hw5]. apply writes_Done in Hx6. apply deposit_Done in Hx7 as [b Hw8].
  apply GetCodeInfo_Done in Hx8 as [Hcode Hw9]. apply run_vm_Done in Hx9 as [kv Hw10].
  apply writes_Done in Hx10, Hx11. apply emit_contract_Done in Hx12.
  apply (safe_respond _ _ _ (safe_reply n addr)) in Hx13. etrans; [|exact Hx13].
  rewrite Hw5, Hw4, Hw2, Hw1, Hw0 in *.
  destruct (new_account (waccounts (world s)) addr) as [acc k] eqn:En.
  rewrite Hx12, Hx11, Hx10, Hw10, Hw9, Hw8, Hx6 in *.
  match goal with |- context [set_store addr kv ?w] => destruct (set_store_frame addr kv w) as (F1 & F2 & F3) end.
  cbn in F1, F2, F3.
  apply (evolves_new addr (NewContractInfo code addr creator admin msg) k acc); cbn; rewrite ?F1, ?F2, ?F3; try done.
  by destruct (get_account (waccounts (world s)) addr).
Qed.

End with_handler.

(** *** The server *)

Lemma safe_contract_call {R} (c : wst S R) : safe c -> safe (contract_call c).
Proof.
  intros Hc. apply safe_bind; [apply safe_reads|]. intros g. apply safe_bind; [apply safe_gets|]. intros remain.
  apply safe_bind; [|intros [[x sub] m]; apply safe_bind; [apply safe_consume|intros _; apply safe_ret]].
  intros s [[x sub] m] s' E. unfold with_events, with_meter in E.
  destruct (c _) as [[y|e| | |] s1] eqn:E1; simplify_eq. by apply Hc in E1.
Qed.

Lemma safe_CompileCode code : safe (CompileCode code).
Proof.
  apply safe_bind; [apply safe_reads|]. intros size. apply safe_bind; [apply safe_lift|]. intros _.
  apply safe_bind; [apply safe_lift|]. intros c. apply safe_bind; [apply safe_cost|]. intros _. apply safe_lift.
Qed.

Lemma safe_emit_ret {R} l (x : R) : safe (EmitEvents l;; mret x).
Proof. apply safe_bind; [apply safe_emit|]. intros _. apply safe_ret. Qed.

Lemma safe_get {R} a (f : W -> option R) e : safe (bz ← reads a f; found bz e).
Proof. apply safe_bind; [apply safe_reads|]. intros o. apply safe_found. Qed.

Lemma safe_server_store msg : safe (server_StoreCode msg).
Proof.
  apply safe_bind; [apply safe_lift|]. intros a. apply safe_bind; [|intros i; apply safe_emit_ret].
  apply safe_bind; [apply safe_CompileCode|]. intros h. apply safe_bind; [apply safe_get|]. intros i.
  apply safe_bind; [apply safe_writes; intros w; by apply evolves_same|]. intros _.
  apply safe_bind; [apply safe_writes; intros w; apply evolves_code|]. intros _. apply safe_ret.
Qed.

Lemma safe_server_migrate_code msg : safe (server_MigrateCode msg).
Proof.
  apply safe_bind; [apply safe_lift|]. intros a. apply safe_bind; [|intros i; apply safe_emit_ret].
  apply safe_bind; [apply safe_get|]. intros c. apply safe_bind; [apply safe_lift|]. intros _.
  apply safe_bind; [apply safe_CompileCode|]. intros h. apply safe_writes. intros w. apply evolves_code.
Qed.

(** Only the admin changes the admin, and the empty text is nobody's address. *)
Lemma evolves_admin a ci admin b new w :
  contract_infos w !! a = Some ci -> negb (String.eqb (CAdmin ci) admin) = false ->
  AccAddressFromBech32 admin = Ok b -> evolves w (set_contract_info a (with_admin ci new) w).
Proof.
  intros Hci Ha Hb Hw. apply negb_false_iff, String.eqb_eq in Ha. eapply evolves_contract; [done| | |done].
  - repeat split. intros He. rewrite <- Ha, He in Hb. by apply bech32_empty in Hb.
  - by apply (Hw a ci Hci).
Qed.

Lemma safe_server_admin msg : safe (server_UpdateContractAdmin msg).
Proof.
  unfold server_UpdateContractAdmin, EmitEvents. intros s x s' E. w_inv.
  apply GetContractInfo_Done in Hx2 as [Hci Hw]. apply writes_Done in Hx4. cbn. rewrite Hx4, Hw.
  by eapply evolves_admin.
Qed.

Lemma safe_server_clear msg : safe (server_ClearContractAdmin msg).
Proof.
  unfold server_ClearContractAdmin, EmitEvents. intros s x s' E. w_inv.
  apply GetContractInfo_Done in Hx1 as [Hci Hw]. apply writes_Done in Hx3. cbn. rewrite Hx3, Hw.
  by eapply evolves_admin.
Qed.

(** C7. The history of contracts: whatever a message of this module does, with
    all contracts, submessages, replies and handlers it leads to, when it
    succeeds every contract still exists with its address, creator and init
    message, a contract without an admin is exactly what it was, no code is
    gone, and contracts keep having accounts and codes. *)
Theorem contracts_keep_identity router fuel msg s x s' :
  RouterLaws router -> wasm_wf (world s) ->
  server VerifyAddressFormat error_text msgParser ctx router fuel msg s = (Done x, s') ->
  wasm_wf (world s') /\ continues (world s) (world s').
Proof.
  intros RL Hwf E. cut (safe (server VerifyAddressFormat error_text msgParser ctx router fuel msg)).
  { intros Hs. by apply (Hs _ _ _ E). }
  clear -RL bech32_empty AL. revert msg. induction fuel as [|n IH]; intros msg; [done|]. cbn [server].
  assert (HH : forall m h, router (server VerifyAddressFormat error_text msgParser ctx router n) m = Some h -> safe h).
  { intros m h Eh s x s' E. eapply (router_done evolves); [apply _|apply evolves_foreign| |exact Eh|exact E].
    intros m' s1 y s2. apply IH. }
  destruct msg as [m|m|m|m|m|m|m]; cbn [msg_server].
  - apply safe_server_store.
  - apply safe_server_migrate_code.
  - do 2 (apply safe_bind; [apply safe_lift|intros ?]). apply safe_bind; [|intros []; apply safe_emit_ret].
    by apply safe_contract_call, safe_InstantiateContract.
  - do 2 (apply safe_bind; [apply safe_lift|intros ?]). apply safe_bind; [|intros []; apply safe_emit_ret].
    by apply safe_contract_call, safe_ExecuteContract.
  - do 2 (apply safe_bind; [apply safe_lift|intros ?]). apply safe_bind; [|intros []; apply safe_emit_ret].
    by apply safe_contract_call, safe_MigrateContract.
  - apply safe_server_admin.
  - apply safe_server_clear.
Qed.

End history.

(** ** Messages of contracts *)

Section contract_messages.
Context {M : SdkMath} {ML : SdkMathLaws M} {C : SdkCoins} {CL : SdkCoinsLaws M C}.
Context {A : Bech32} {I : IntText} {F : ForeignMsgs} {D : MsgDecoding} {G : GasMeters}.
Context {B : Type} {BK : BankKeeper B} {BL : BankLaws B BK}.
Context {K : Type} {AK : AccountKeeper K} {AL : AccountKeeperLaws K AK}.
Context {FD : BankEffects B K} {FL : BankEffectsLaws B K FD}.
Context {T : Type} {TK : Ante.TreasuryKeeper T} {X : Type} {SG : StoreGas B K T X}.
Context (error_text : error -> string) (msgParser : MsgParser).
Context (Handler : SdkMsg -> option (wst (wstate B K T X) Result)).

Abbreviation S := (wstate B K T X).
Implicit Types s : S.

Lemma amt_all_zero cs d : Forall (fun c => coin_amount c = 0) cs -> amt cs d = 0.
Proof.
  intros Hz. apply sumZ_zero. intros c Hc. rewrite Forall_forall in Hz. rewrite (Hz c Hc). by destruct (String.eqb _ _).
Qed.

(** C13. A message of a contract that goes through was signed by the contract
    alone, and before its handler ran the contract paid the stability tax on
    the coins the message moves to the fee collector; nothing else changed by
    then, in particular this tax is not recorded in the tax proceeds of the
    epoch. *)
Theorem contract_message_taxed a msg s x s' :
  (forall d, 0 <= Ante.get_tax_cap (wtreasury (world s)) d) ->
  dispatchMessage msgParser Handler a msg s = (Done x, s') ->
  exists m h s1 r taxEvents,
    MsgParser_Parse msgParser a msg = Ok (Some m) /\
    (exists l, GetSigners m = Ok l /\ Forall (eq a) l) /\
    Handler m = Some h /\ h s1 = (Done r, s') /\ x = (taxEvents ++ ResEvents r, Some (ResData r)) /\
    (forall b d, get_balance (wbank (world s1)) b d =
       get_balance (wbank (world s)) b d
       - if_eq b a (Ante.tax_on (wtreasury (world s)) (Ante.taxable (tax_view m)) d)
       + if_eq b (module_address FeeCollectorName)
           (Ante.tax_on (wtreasury (world s)) (Ante.taxable (tax_view m)) d)) /\
    world s1 = set_bank (wbank (world s1)) (world s).
Proof.
  intros Hcap E. unfold dispatchMessage, handleSdkMessage in E. w_inv. destruct x0 as [m|]; w_inv.
  destruct (Handler m) as [h|] eqn:Eh; [|by w_inv].
  apply charge_tax_Done in Hx0 as (taxes & Hf & Hw).
  pose proof (fun d => Ante.filter_amt _ Hcap _ _ d Hf) as Ha. cbn [flat_map] in Ha. rewrite app_nil_r in Ha.
  exists m, h. do 3 eexists. split; [done|]. split.
  { eexists. split; [eassumption|]. apply Forall_forall. intros b Hb. destruct (String.eqb_spec b a) as [->|Hne]; [done|].
    rewrite <- not_true_iff_false, existsb_exists in Hx3. destruct Hx3. exists b.
    split; [by apply list_elem_of_In|]. by apply negb_true_iff, String.eqb_neq. }
  split; [done|]. split; [eassumption|]. split; [done|]. destruct (coins_is_zero taxes) eqn:Ez.
  - rewrite Hw. split; [|by destruct (world s)]. intros b d. rewrite <- Ha.
    rewrite amt_all_zero by (by apply coins_is_zero_spec). unfold if_eq. repeat destruct (String.eqb _ _); lia.
  - destruct Hw as (b' & Hd & Hw). rewrite Hw. split; [|done]. intros b d.
    apply deduct_fees_send in Hd as (acc & Hacc & Hs). apply get_account_address in Hacc. rewrite Hacc in Hs.
    rewrite <- Ha. cbn. by eapply send_balance.
Qed.

(** C17. What becomes of a submessage: on success its changes and events are
    kept, on failure the stores and events are as if it had not run and only
    the gas is spent; the contract is called back exactly when it asked for it,
    in that state, and a failure it did not want to hear of fails the contract. *)
Theorem submessage_outcome rep a msg s r s1 :
  known_reply (SReplyOn msg) = true ->
  sub_dispatch msgParser Handler a msg (set_events [] s) = (r, s1) ->
  dispatchMessages error_text msgParser Handler rep a [msg] s =
  match r, SReplyOn msg with
  | Done (evs, data), (ReplyAlways | ReplySuccess) =>
      rep a (mkReply (SID msg) (mkSubResult (Some (mkSubcall (EncodeSdkEvents evs) data)) ""))
        (mkW (world s1) (meter s1) (events s ++ evs))
  | Done (evs, _), _ => (Done None, mkW (world s1) (meter s1) (events s ++ evs))
  | Failed e, (ReplyAlways | ReplyError) =>
      rep a (mkReply (SID msg) (mkSubResult None (error_text e))) (mkW (world s) (meter s1) (events s))
  | Failed e, _ => (Failed e, mkW (world s) (meter s1) (events s))
  | OutOfGas, _ => (OutOfGas, mkW (world s) (meter s1) (events s))
  | Crashed, _ => (Crashed, mkW (world s) (meter s1) (events s))
  | NoFuel, _ => (NoFuel, mkW (world s) (meter s1) (events s))
  end.
Proof.
  intros Hk E. unfold dispatchMessages. cbn [foldM]. unfold dispatch_one. rewrite Hk.
  unfold sandbox, attempt, mbind, wst_bind. cbn. rewrite E.
  destruct r as [[evs data]|e| | |]; cbn; try done; destruct (SReplyOn msg); try done; cbn;
    (destruct (rep a _ _) as [[[d|]|e'| | |] s2]; done).
Qed.

End contract_messages.

(** ** Code numbers and genesis *)

Section code_facts.
Context {U : SdkUint} {A : Bech32} {Gz : Gzip} {G : GasMeters}.
Context {B K T X : Type} {VM : WasmVM B K T X G} {SG : StoreGas B K T X}.

Abbreviation S := (wstate B K T X).
Implicit Types s : S.

Lemma CompileCode_Done code h s s' : CompileCode code s = (Done h, s') -> world s' = world s.
Proof.
  unfold CompileCode. intros E. w_inv. apply reads_Done in Hx as [_ Hw]. apply consume_cost_Done in Hx2 as [Hw' _].
  congruence.
Qed.

(** Uploading code gives it the next number, which no code had, and
    touches no other code. *)
Theorem stored_code_is_new creator code s id s' n :
  last_code_id (world s) = Some n -> 0 <= n < two64 - 1 ->
  (forall i, is_Some (code_infos (world s) !! i) -> i <= n) ->
  StoreCode creator code s = (Done id, s') ->
  id = n + 1 /\ code_infos (world s) !! id = None /\ last_code_id (world s') = Some id /\
  exists h, code_infos (world s') = <[id := NewCodeInfo id h creator]> (code_infos (world s)).
Proof.
  intros Hn Hr Hi E. unfold StoreCode, GetLastCodeID in E. w_inv. apply CompileCode_Done in Hx.
  apply reads_Done in Hx3 as [-> Hw]. apply found_Done in Hx0 as [Hx0 ->]. rewrite Hx, Hn in Hx0. simplify_eq.
  rewrite to_uint64_id in * by (unfold is_uint64; lia).
  apply writes_Done in Hx1, Hx2. rewrite Hx2, Hx1, Hw, Hx. cbn. split; [done|]. split; [|eauto].
  apply eq_None_not_Some. intros Hs. specialize (Hi _ Hs). lia.
Qed.

(** The export of the module drops every code and the store of every
    contract: as soon as one code was uploaded the exported genesis does not
    pass its own validation. *)
Theorem exported_genesis_invalid s g s' n :
  ExportGenesis s = (Done g, s') -> last_code_id (world s) = Some n -> n <> 0 ->
  ValidateGenesis g = Err ErrInvalidGenesis /\ GCodes g = [] /\
  Forall (fun c => GContractStore c = []) (GContracts g).
Proof.
  intros E Hn Hz. unfold ExportGenesis, wmust in E. w_inv.
  destruct (GetLastCodeID s) as [[m|e| | |] s4] eqn:E1; w_inv. unfold GetLastCodeID in E1. apply get_Done in E1 as [E1 _].
  assert (x = n) as -> by congruence. split; [|split; [done|]].
  - unfold ValidateGenesis. cbn [GCodes GLastCodeID length].
    destruct (Z.eqb_spec (Z.of_nat 0) n); [lia|done].
  - cbn. apply Forall_fmap, Forall_true. done.
Qed.

End code_facts.
