(* ===== verification/WasmExample.v ===== *)
(** * The wasm module at work

    Instances of what the wasm module is written against, with their laws, and
    the theorems of [WasmTypes], [WasmMsgs] and [WasmFacts] on concrete
    contracts: one that calls itself, one that pays and asks for a reply. *)

From Stdlib Require Import ZArith Lia Bool Ascii.
From stdpp Require Import base gmap strings list.
From S2P Require Import Prelude Loops Sdk SdkRef Core OracleStore WasmTypes WasmMsgs Wasm WasmFacts.
From S2P Require Market Treasury Ante.
Local Open Scope Z_scope.

Module WasmExample.

#[local] Existing Instance ref_math.
#[local] Existing Instance ref_coins.
#[local] Existing Instance ref_bech32.

(** ** Instances *)

#[local] Instance ref_uint : SdkUint := {|
  uint_add a b := if a + b <? 2 ^ 256 then Ok (a + b) else Panic;
  uint_mul a b := if a * b <? 2 ^ 256 then Ok (a * b) else Panic;
  uint_uint64 a := if a <? two64 then Ok a else Panic |}.

#[local] Instance ref_uint_laws : SdkUintLaws ref_uint.
Proof. by split. Qed.

(** A meter without a limit has the limit zero. *)
Record meter0 : Type := mkMeter { m_limit : option Z; m_consumed : Z }.

Definition consume0 (g : Z) (m : meter0) : gas_outcome * meter0 :=
  let c := m_consumed m + g in
  (if two64 <=? c then GasOverflow
   else
     match m_limit m with
     | Some l => if l <? c then GasOut else GasOk
     | None => GasOk
     end, mkMeter (m_limit m) c).

#[local] Instance ref_meters : GasMeters := {|
  Meter := meter0;
  NewGasMeter l := mkMeter (Some l) 0;
  gas_limit m := default 0 (m_limit m);
  gas_consumed := m_consumed;
  is_out_of_gas m := match m_limit m with Some l => l <=? m_consumed m | None => false end;
  consume_gas := consume0 |}.

#[local] Instance ref_meters_laws : GasMetersLaws ref_meters.
Proof.
  refine {| limited := fun m : Meter => is_Some (m_limit m) |}; cbn; unfold consume0; cbn; try done.
  - intros g m Hg. lia.
  - intros g m m' E. destruct (_ <=? _); [done|]. destruct (m_limit m) as [l|]; [destruct (_ <? _)|]; by simplify_eq.
  - intros g m m' E [l Hl]. rewrite Hl in *. destruct (_ <=? _); [done|].
    destruct (Z.ltb_spec l (m_consumed m + g)); [done|]. simplify_eq. cbn. lia.
  - intros g m [l Hl] Hg. rewrite Hl. cbn. intros H1 H2. destruct (Z.leb_spec two64 (m_consumed m + g)); [lia|].
    destruct (Z.ltb_spec l (m_consumed m + g)); [lia|done].
Defined.

#[local] Instance ref_accounts : AccountKeeper (gset string) := {|
  Account := string;
  account_address a := a;
  get_account k a := if decide (a ∈ k) then Some a else None;
  new_account k a := (a, k);
  set_account k a := {[a]} ∪ k |}.

#[local] Instance ref_accounts_laws : AccountKeeperLaws (gset string) ref_accounts.
Proof.
  split; cbn; try done.
  - intros k a. rewrite decide_True; [done|set_solver].
  - intros k a b Hne. destruct (decide (b ∈ k)); [rewrite decide_True; [done|set_solver]|].
    rewrite decide_False; [done|set_solver].
  - intros k a acc. destruct (decide (a ∈ k)); [|done]. by intros [= <-].
Qed.

#[local] Instance ref_fees : BankEffects RefBank (gset string) := {|
  DeductFees b acc fees :=
    match acc with
    | Some a =>
        b ← send_coins b (account_address a) (module_address FeeCollectorName) fees;
        mret (b, [mkEvent "transfer" []])
    | None => Panic
    end;
  send_events from to cs := [mkEvent "transfer" [("sender", from); ("recipient", to)]] |}.

#[local] Instance ref_fees_laws : BankEffectsLaws RefBank (gset string) ref_fees.
Proof. split. intros b [a|] fees b' evs E; [|done]. exists a. cbn [DeductFees ref_fees] in E. go_inv. done. Qed.

(** Texts of integers: the binary digits, lowest first. *)
Fixpoint pos_text (p : positive) : string :=
  match p with
  | xH => "1"
  | xO p => String "0" (pos_text p)
  | xI p => String "I" (pos_text p)
  end.

Fixpoint text_pos (s : string) : option positive :=
  match s with
  | String "1" "" => Some xH
  | String "0" s => xO <$> text_pos s
  | String "I" s => xI <$> text_pos s
  | _ => None
  end.

Lemma text_pos_round p : text_pos (pos_text p) = Some p.
Proof. induction p as [p IH|p IH|]; cbn; by rewrite ?IH. Qed.

#[local] Instance ref_int_text : IntText := {|
  IntString n :=
    match n with
    | Z0 => "0"
    | Zpos p => String "+" (pos_text p)
    | Zneg p => String "-" (pos_text p)
    end;
  NewIntFromString s :=
    match s with
    | String "0" "" => Some 0
    | String "+" s => Zpos <$> text_pos s
    | String "-" s => Zneg <$> text_pos s
    | _ => None
    end |}.

#[local] Instance ref_int_text_laws : IntTextLaws ref_int_text.
Proof. split. intros [|p|p] _; cbn; by rewrite ?text_pos_round. Qed.

#[local] Instance ref_crypto : Crypto := {| AddressHash s := s |}.

#[local] Instance ref_gzip : Gzip := {| gzip_reader s := Ok (mkStream s None true) |}.

#[local] Instance ref_foreign : ForeignMsgs := {|
  foreign_ValidateBasic _ := Ok tt;
  foreign_GetSigners m :=
    match m with
    | BankSend a _ _ | StakingDelegate a _ _ | StakingBeginRedelegate a _ _ _ | StakingUndelegate a _ _
    | DistrSetWithdrawAddress a _ | DistrWithdrawReward a _ => Ok [a]
    | GovVote _ v _ => signer v
    | UnpackedMsg _ _ => Ok []
    end;
  unpacked_view _ _ := Ante.MsgOther |}.

#[local] Instance ref_foreign_laws : ForeignMsgsLaws ref_bech32 ref_foreign.
Proof. by split. Qed.

#[local] Instance ref_decoding : MsgDecoding := {|
  unmarshal_custom_msg _ := Err (Errorf "json");
  unmarshal_market_msg _ := Err (Errorf "json");
  unpack_any url value := Ok (OfForeign (UnpackedMsg url value));
  unpack_interfaces := Ok |}.

(** The treasury is the one of [Ante]. *)
Abbreviation T0 := (Treasury.state unit unit unit).
Abbreviation W0 := (World RefBank (gset string) T0 unit).
Abbreviation S0 := (wstate RefBank (gset string) T0 unit).

#[local] Instance ref_store_gas : StoreGas RefBank (gset string) T0 unit := {| store_gas _ _ := 1000 |}.

#[local] Instance ref_store_gas_laws : StoreGasLaws RefBank (gset string) T0 unit ref_store_gas.
Proof. by split. Qed.

(** ** Two contracts

    The contract with the code [loop] sends itself the message it got; the
    contract with the code [pay] sends 100 uusd to bob, with a gas limit, and
    returns what the reply says; any other code fails. *)

Definition no_cosmos : CosmosMsg := mkCosmosMsg None None None None None None None false.

Definition self_call (to msg : string) : CosmosMsg :=
  mkCosmosMsg None None None None None
    (Some (mkContractWasmMsg (Some (mkWasmExecute to msg [])) None None None None)) None false.

Definition pay_bob (amount : Z) : CosmosMsg :=
  mkCosmosMsg (Some (mkBankMsg (Some ("tbob", [mkWasmCoin "uusd" (IntString amount)])) None))
    None None None None None None false.

Definition response0 (e : Entry) (hash : string) (env : Env) : Response + error :=
  match e with
  | EExecute _ msg =>
      if String.eqb hash "loop" then
        inl (mkResponse [mkSubMsg 1 (self_call (EnvContract env) msg) None ReplyNever] [] [] None)
      else if String.eqb hash "pay" then
        inl (mkResponse [mkSubMsg 7 (pay_bob 100) (Some 50000) ReplyAlways] [("action", "pay")] [] None)
      else inr (Errorf "unreachable")
  | EReply r => inl (mkResponse [] [] [] (Some (match ROk (ReplyResult r) with Some _ => "paid" | None => "unpaid" end)))
  | _ => inl (mkResponse [] [] [] None)
  end.

#[local] Instance ref_vm : WasmVM RefBank (gset string) T0 unit ref_meters := {|
  vm_create code := Ok code;
  vm_get_code hash := Ok hash;
  vm_call e hash env kv api w m g := mkVMResult (response0 e hash env) 500 (<["called" := "yes"]> kv) m;
  vm_query q hash env kv api w d m g := mkVMResult (inl "answer") 500 kv m |}.

#[local] Instance ref_vm_laws : WasmVMLaws RefBank (gset string) T0 unit ref_vm.
Proof.
  split; cbn; [reflexivity|]. intros e h env kv api w m g r E.
  unfold response0 in E. repeat case_match; simplify_eq; cbn; try apply Forall_nil_2;
    apply Forall_singleton; cbn; intros l [= <-]; done.
Qed.

(** The router knows the messages of this module and payments. *)
Definition ref_router (srv : WasmMsg -> wst S0 MsgResponse) (msg : SdkMsg) : option (wst S0 Result) :=
  match msg with
  | OfWasm m => Some (_ ← srv m; mret (mkResult "" []))
  | OfForeign (BankSend f t cs) => Some (SendCoins f t cs;; mret (mkResult "" []))
  | _ => None
  end.

Lemma SendCoins_Done f t cs u (s s' : S0) :
  SendCoins f t cs s = (Done u, s') -> exists b, world s' = set_bank b (world s).
Proof.
  unfold SendCoins, EmitEvents. intros E. w_inv. apply ConsumeGas_Done in Hx0 as [Hw _]. eauto.
Qed.

Lemma SendCoins_meter f t cs (s : S0) :
  let r := SendCoins f t cs s in
  r.1 <> NoFuel /\ charged (meter s) (meter r.2) /\ (returns r.1 -> limited (meter s) -> within (meter r.2)).
Proof.
  cbn. unfold SendCoins, wgets, mbind, wst_bind, ConsumeGas. set (g := store_gas _ _).
  pose proof (consume_charged g (meter s) ltac:(done)) as Hc.
  pose proof (consume_within g (meter s)) as Hw.
  pose proof (consume_limit g (meter s)) as Hl.
  destruct (consume_gas g (meter s)) as [[] m]; cbn [fst snd] in *; try done.
  unfold wlift. generalize (send_coins (wbank (world s)) f t cs). intros [b|e|]; cbn [of_res fst snd];
    (split; [done|]); (split; [done|]); try done;
    intros _ Hm; unfold within; (etrans; [by apply (Hw _ eq_refl)|]); by rewrite <- Hl.
Qed.

#[local] Instance ref_router_laws : RouterLaws ref_router.
Proof.
  split.
  - intros R srv msg h s x s' HR Hfor Hsrv Eh E. destruct msg as [m| | |m]; try done.
    + injection Eh as <-. w_inv. by eapply Hsrv.
    + destruct m; try done. injection Eh as <-. w_inv. apply SendCoins_Done in Hx as [b ->]. apply Hfor. by repeat split.
  - intros Q srv msg h s HQ Hsrv Eh Hs. destruct msg as [m| | |m]; try done.
    + injection Eh as <-. destruct (Hsrv m s Hs) as [H1 H2]. unfold mbind, wst_bind.
      destruct (srv m s) as [[y|e| | |] s1]; cbn in *; (split; [by intros ?; destruct H1|done]).
    + destruct m as [f t cs| | | | | | |]; try done. injection Eh as <-.
      destruct (SendCoins_meter f t cs s) as (H1 & H2 & H3). unfold mbind, wst_bind.
      destruct (SendCoins f t cs s) as [r s1]. cbn in *.
      assert (Hq : returns r -> Q (meter s1)).
      { intros Hr. apply (HQ (meter s)); [done..|]. intros Hm. apply H3; [done|]. by apply H2. }
      destruct r; cbn; (split; [done|]); by split.
Qed.

(** ** Runs *)

Definition params0 : Params := mkParams (600 * 1024) 3000000 (4 * 1024).

Definition world0 : W0 :=
  mkWorld params0 (Some 3) (Some 2)
    {[1 := mkCodeInfo 1 "loop" "tme"; 2 := mkCodeInfo 2 "pay" "tme"; 3 := mkCodeInfo 3 "trap" "tme"]}
    {["looper" := mkContract "tlooper" "tme" "" 1 "{}"; "payer" := mkContract "tpayer" "tme" "tme" 2 "{}";
      "trap" := mkContract "ttrap" "tme" "" 3 "{}"]}
    ∅ (mkRefBank {[("payer", "uusd") := 1000%N; ("me", "uusd") := 500%N]} ∅)
    {["looper"; "payer"; "trap"; "me"; "bob"]} Ante.AnteExample.treasury0 tt.

Definition state0 : S0 := mkW world0 (mkMeter (Some 5000000) 0) [].

Definition block0 : BlockCtx := mkBlock (mkCtx "columbus-5" 8000000) 0.
Definition text0 (e : error) : string := "failed".
Definition accepts (s : string) : res unit := Ok tt.
Definition parser0 : MsgParser := app_msg_parser (fun _ => true).

Definition call (c : string) : WasmMsg := ExecuteMsg (mkExecute "tme" c "{}" []).

Definition serve (fuel : nat) : WasmMsg -> wst S0 MsgResponse :=
  server accepts text0 parser0 block0 ref_router fuel.

(** The contract that calls itself runs out of gas. *)
Lemma contracts_terminate_witness :
  let r := serve 2501 (call "tlooper") state0 in r.1 <> NoFuel /\ r.1 = OutOfGas.
Proof.
  split; [|vm_compute; reflexivity].
  apply (contracts_terminate accepts text0 parser0 block0 ref_router 2501 (call "tlooper") state0 ref_router_laws);
    vm_compute; congruence.
Defined.

Lemma state0_ready : ready 200 (meter state0).
Proof. repeat split; try (vm_compute; congruence). by exists 5000000. Qed.

Lemma gas70 : 0 <= 70000 < gas_limit (meter state0) - gas_consumed (meter state0).
Proof. cbn. lia. Qed.

(** A submessage to it costs the limit. *)
Lemma submessage_gas_bounded_witness :
  let r := dispatchMessageWithGasLimit parser0 (ref_router (serve 200)) "payer" (self_call "tlooper" "{}") 70000 state0 in
  r.1 <> OutOfGas /\ gas_consumed (meter r.2) <= 70000.
Proof.
  exact (submessage_gas_bounded accepts text0 parser0 block0 ref_router 200 "payer" (self_call "tlooper" "{}") 70000
    state0 ref_router_laws state0_ready gas70).
Defined.

Lemma run_fst {R S} (p : R * S) x : p.1 = x -> p = (x, p.2).
Proof. intros <-. apply surjective_pairing. Qed.

Definition run_trap : outcome MsgResponse * S0 :=
  server_ExecuteContract accepts text0 parser0 block0 (ref_router (serve 10)) 10
    (mkExecute "tme" "ttrap" "{}" []) state0.

Lemma run_trap_fails : run_trap = (Failed ErrExecuteFailed, run_trap.2).
Proof. apply run_fst. vm_compute. reflexivity. Qed.

Lemma failed_execution_free_witness : gas_consumed (meter run_trap.2) = 0 + 1000.
Proof.
  exact (failed_execution_free accepts text0 parser0 block0 (ref_router (serve 10)) 10
    (mkExecute "tme" "ttrap" "{}" []) "trap" "me" state0 _ _ eq_refl eq_refl run_trap_fails).
Defined.

Definition run_pay : outcome MsgResponse * S0 := serve 10 (call "tpayer") state0.

Lemma run_pay_done : run_pay = (Done (ExecuteResponse (Some "paid")), run_pay.2).
Proof. apply run_fst. vm_compute. reflexivity. Qed.

Lemma empty_address a : AccAddressFromBech32 "" <> Ok a.
Proof. done. Qed.

Lemma world0_wf : wasm_wf world0.
Proof.
  intros a ci E. cbn [world0 contract_infos] in E.
  repeat (apply lookup_insert_Some in E as [[<- <-]|[_ E]]; [vm_compute; (split; [done|]); split; eauto|]).
  apply lookup_singleton_Some in E as [<- <-]. vm_compute. (split; [done|]); split; eauto.
Qed.

Lemma contracts_keep_identity_witness : wasm_wf (world run_pay.2) /\ continues world0 (world run_pay.2).
Proof.
  exact (contracts_keep_identity accepts text0 parser0 block0 empty_address ref_router 10 (call "tpayer") state0 _ _
    ref_router_laws world0_wf run_pay_done).
Defined.

(** Paying 200 uusd from a contract costs it the tax of 1 percent. *)
Definition run_tax : outcome (list Event * option string) * S0 :=
  dispatchMessage parser0 (ref_router (serve 10)) "payer" (pay_bob 200) state0.

Lemma run_tax_done : run_tax = (Done ([mkEvent "transfer" []], Some ""), run_tax.2).
Proof. apply run_fst. vm_compute. reflexivity. Qed.

Lemma contract_message_taxed_witness :
  exists m h s1 r taxEvents,
    MsgParser_Parse parser0 "payer" (pay_bob 200) = Ok (Some m) /\
    (exists l, GetSigners m = Ok l /\ Forall (eq "payer") l) /\
    ref_router (serve 10) m = Some h /\ h s1 = (Done r, run_tax.2) /\ ([mkEvent "transfer" []], Some "") = (taxEvents ++ ResEvents r, Some (ResData r)) /\
    (forall b d, get_balance (wbank (world s1)) b d =
       get_balance (wbank world0) b d
       - if_eq b "payer" (Ante.tax_on (wtreasury world0) (Ante.taxable (tax_view m)) d)
       + if_eq b (module_address FeeCollectorName)
           (Ante.tax_on (wtreasury world0) (Ante.taxable (tax_view m)) d)) /\
    world s1 = set_bank (wbank (world s1)) world0.
Proof.
  exact (contract_message_taxed parser0 (ref_router (serve 10)) "payer" (pay_bob 200) state0 _ _
    Ante.AnteExample.treasury0_caps run_tax_done).
Defined.

(** A payment the contract cannot afford comes back as an error. *)
Definition overdraft : SubMsg := mkSubMsg 7 (pay_bob 2000) (Some 50000) ReplyError.
Definition answer (a : AccAddress) (r : Reply) : wst S0 (option string) := mret (Some (RErr (ReplyResult r))).

Definition run_sub : outcome (list Event * option string) * S0 :=
  sub_dispatch parser0 (ref_router (serve 10)) "payer" overdraft (set_events [] state0).

Definition sub_error : error :=
  match run_sub.1 with
  | Failed e => e
  | _ => Errorf ""
  end.

Lemma run_sub_fails : run_sub = (Failed sub_error, run_sub.2).
Proof. apply run_fst. vm_compute. reflexivity. Qed.

Lemma submessage_outcome_witness :
  dispatchMessages text0 parser0 (ref_router (serve 10)) answer "payer" [overdraft] state0 =
  (Done (Some "failed"), mkW world0 (meter run_sub.2) []).
Proof.
  exact (submessage_outcome text0 parser0 (ref_router (serve 10)) answer "payer" overdraft state0 _ _
    eq_refl run_sub_fails).
Defined.

Definition run_store : outcome Z * S0 := StoreCode "me" "wasm code" state0.

Lemma run_store_done : run_store = (Done 4, run_store.2).
Proof. apply run_fst. vm_compute. reflexivity. Qed.

Lemma world0_codes i : is_Some (code_infos world0 !! i) -> i <= 3.
Proof.
  intros [c E]. cbn [world0 code_infos] in E.
  repeat (apply lookup_insert_Some in E as [[<- _]|[_ E]]; [lia|]). apply lookup_singleton_Some in E as [<- _]. lia.
Qed.

Lemma stored_code_is_new_witness :
  4 = 3 + 1 /\ code_infos world0 !! 4 = None /\ last_code_id (world run_store.2) = Some 4 /\
  exists h, code_infos (world run_store.2) = <[4 := NewCodeInfo 4 h "me"]> (code_infos world0).
Proof.
  exact (stored_code_is_new "me" "wasm code" state0 4 _ 3 eq_refl ltac:(done) world0_codes run_store_done).
Defined.

Definition run_export : outcome GenesisState * S0 := ExportGenesis state0.

Definition genesis0 : GenesisState := Eval vm_compute in
  match run_export.1 with
  | Done g => g
  | _ => DefaultGenesisState
  end.

Lemma run_export_done : run_export = (Done genesis0, run_export.2).
Proof. apply run_fst. vm_compute. reflexivity. Qed.

Lemma exported_genesis_invalid_witness :
  ValidateGenesis genesis0 = Err ErrInvalidGenesis /\ GCodes genesis0 = [] /\
  Forall (fun c => GContractStore c = []) (GContracts genesis0).
Proof.
  exact (exported_genesis_invalid state0 genesis0 _ 3 run_export_done eq_refl ltac:(done)).
Defined.

Lemma contract_addresses_distinct_witness :
  GenerateContractAddress 5 7 = GenerateContractAddress 5 7 /\
  ((5 = 5 /\ 7 = 7) \/
   (contract_preimage 5 7 <> contract_preimage 5 7 /\
    AddressHash (contract_preimage 5 7) = AddressHash (contract_preimage 5 7))).
Proof.
  split; [done|]. apply (contract_addresses_distinct 5 7 5 7); done.
Defined.

#[local] Instance ref_codec : AddressCodec := {|
  MustLengthPrefix v :=
    if (String.length v <=? 255)%nat then Ok (String (ascii_of_nat (String.length v)) v) else Panic |}.

Lemma ref_codec_prefix v r :
  MustLengthPrefix v = Ok r -> (String.length v <= 255)%nat /\ r = String (ascii_of_nat (String.length v)) v.
Proof. cbn. destruct (Nat.leb_spec (String.length v) 255); [|done]. by intros [= <-]. Qed.

Lemma contract_stores_disjoint_witness :
  exists ka kb, GetContractStoreKey "payer" = Ok ka /\ GetContractStoreKey "looper" = Ok kb /\
    String.append ka "key" <> String.append kb "key".
Proof.
  do 2 eexists. split; [reflexivity|]. split; [reflexivity|].
  apply (contract_stores_disjoint "payer" "looper" _ _ "key" "key" ref_codec_prefix); done.
Defined.

Lemma events_authentic_witness :
  exists l, ParseEvents "payer" [("contract_address", "tlooper"); ("action", "pay")] [] = Ok l /\
    Forall (authentic "payer") l.
Proof.
  eexists. split; [reflexivity|].
  apply (events_authentic "payer" [("contract_address", "tlooper"); ("action", "pay")] []). reflexivity.
Defined.

Lemma coins_roundtrip_witness :
  ParseToCoins (EncodeSdkCoins [mkCoin "uusd" 300; mkCoin "uluna" 7]) = Ok [mkCoin "uusd" 300; mkCoin "uluna" 7].
Proof. apply (coins_roundtrip [mkCoin "uusd" 300; mkCoin "uluna" 7]). repeat constructor. Defined.

Lemma uncompress_bounded_witness : uncompress "wasm code" 600 = Ok "wasm code" /\ len "wasm code" <= 600.
Proof. split; [done|]. apply (uncompress_bounded "wasm code"); done. Defined.

Lemma contract_messages_sincere_witness :
  let m := OfForeign (BankSend "payer" "bob" [mkCoin "uusd" 200]) in
  MsgParser_Parse parser0 "payer" (pay_bob 200) = Ok (Some m) /\
  GetSigners m = Ok ["payer"] /\ ValidateBasic (fun _ => true) m = Ok tt.
Proof.
  split; [reflexivity|]. apply (contract_messages_sincere (fun _ => true) "payer" (pay_bob 200)); reflexivity.
Defined.

End WasmExample.
