(* ===== verification/Queries.v ===== *)
(** * Queries of clients ([src/x/oracle/keeper/querier.go],
    [legacy_querier.go], and those of [x/market] and [x/treasury])

    Each module answers twice: through the gRPC service and through the legacy
    querier, which routes a path and speaks JSON.  The JSON of the SDK is a
    parameter; what it encodes is a value of the type of answers. *)

From Stdlib Require Import ZArith Lia Bool Ascii String.
From stdpp Require Import base strings list gmap.
From S2P Require Import Prelude Loops Sdk SdkRef Core.
From S2P Require Market Treasury.
From S2P Require Import OracleBallot OracleStore FeeUtils.
Local Open Scope Z_scope.

Definition ErrJSONUnmarshal : error := Registered "sdk" "ErrJSONUnmarshal".
Definition ErrJSONMarshal : error := Registered "sdk" "ErrJSONMarshal".

(** The codec of the legacy queriers: requests that name a denomination, a
    validator or a swap, and the answers [Ans] of a module. *)
Class LegacyAmino (Raw Ans : Type) : Type := {
  UnmarshalDenom : Raw -> res string;
  UnmarshalValidator : Raw -> res ValAddress;
  UnmarshalSwap : Raw -> res (Coin * string);
  MarshalJSONIndent : Ans -> res Raw;
}.

Section codec.
Context {Raw Ans : Type} {L : LegacyAmino Raw Ans}.

(** [if err != nil { return nil, Wrap(ErrJSONUnmarshal, err.Error()) }]. *)
Definition decode {R} (f : Raw -> res R) (data : Raw) : res R := wrap_err ErrJSONUnmarshal (f data).
Definition encode (a : Ans) : res Raw := wrap_err ErrJSONMarshal (MarshalJSONIndent a).

(** The same with the error of the encoding in [err2], but the text of [err],
    which is nil. *)
Definition encode_err2 (a : Ans) : res Raw := must (MarshalJSONIndent a).

(** [switch path[0]]; a path without elements is out of range. *)
Definition switch_path (path : list string) (cases : list (string * res Raw)) : res Raw :=
  match path with
  | [] => Panic
  | name :: _ =>
      match list_find (fun c => String.eqb name c.1 = true) cases with
      | Some (_, c) => c.2
      | None => Err ErrUnknownRequest
      end
  end.

(** Two tables of cases agree on a path when its entries do. *)
Lemma switch_agrees (legacy : list (string * res Raw)) (service : list (string * res Ans)) name rest raw :
  Forall2 (fun l g => l.1 = g.1 /\ (name = l.1 ->
             (l.2 = Ok raw <-> exists a, g.2 = Ok a /\ MarshalJSONIndent a = Ok raw))) legacy service ->
  switch_path (name :: rest) legacy = Ok raw <->
  exists c a, list_find (fun c => String.eqb name c.1 = true) service = Some c /\
    c.2.2 = Ok a /\ MarshalJSONIndent a = Ok raw.
Proof.
  unfold switch_path. induction 1 as [|[n1 l] [n2 g] ls gs [Hn Hc] _ IH]; cbn in *.
  { split; [done|]. by intros (c & a & ? & _). }
  subst n2. destruct (decide (String.eqb name n1 = true)) as [E|E].
  - rewrite Hc by (by apply String.eqb_eq). split; [intros (a & ? & ?); eauto|]. intros (c & a & [= <-] & ? & ?). eauto.
  - destruct (list_find _ ls) as [[i c]|]; destruct (list_find _ gs) as [[j d]|]; cbn in *; rewrite IH; clear;
      (split; intros (c' & a & H & ?); simplify_eq; naive_solver).
Qed.

Lemma encode_Ok a raw : encode a = Ok raw <-> MarshalJSONIndent a = Ok raw.
Proof. apply wrap_err_Ok. Qed.

Lemma encode_err2_Ok a raw : encode_err2 a = Ok raw <-> MarshalJSONIndent a = Ok raw.
Proof. apply must_Ok. Qed.

End codec.

#[global] Arguments encode : simpl never.
#[global] Arguments encode_err2 : simpl never.

(** An answer that is known, or an error on both sides. *)
Ltac answer :=
  cbn; rewrite ?encode_Ok, ?encode_err2_Ok;
  (split; [intros ?; first [done | eexists; split; [reflexivity|assumption]]
          | intros (? & ? & ?); by simplify_eq]).

(** ** The oracle *)

Module OracleQuery.

Inductive Answer : Type :=
| AnsRate (rate : Dec)
| AnsRates (rates : list DecCoin)
| AnsDenoms (denoms : list string)
| AnsParams (p : Params)
| AnsFeeder (feeder : AccAddress)
| AnsMiss (missCounter : Z)
| AnsPrevote (p : AggregateExchangeRatePrevote)
| AnsPrevotes (l : list AggregateExchangeRatePrevote)
| AnsVote (v : AggregateExchangeRateVote)
| AnsVotes (l : list AggregateExchangeRateVote)
| AnsTaxes (l : list DenomTax).

Section oracle.
Context {C : SdkCoins} {A : Bech32}.

(** *** The gRPC service; a request is a pointer. *)

Definition QueryParams (s : store) : res Params := Ok (params s).

Definition ExchangeRate (req : option string) (s : store) : res Dec :=
  match req with
  | None => Err InvalidArgument
  | Some denom =>
      fail_if (String.length denom =? 0)%nat InvalidArgument;;
      GetLunaExchangeRate s denom
  end.

Definition ExchangeRates (s : store) : res (list DecCoin) :=
  foldM (fun exchangeRates e => c ← new_dec_coin e.1 e.2; Ok (exchangeRates ++ [c]))
    (IterateLunaExchangeRates s) [].

Definition TobinTax (req : option string) (s : store) : res Dec :=
  match req with
  | None => Err InvalidArgument
  | Some denom =>
      fail_if (String.length denom =? 0)%nat InvalidArgument;;
      GetTobinTax s denom
  end.

Definition TobinTaxes (s : store) : res (list DenomTax) :=
  Ok ((fun e => mkDenom e.1 e.2) <$> IterateTobinTaxes s).

Definition Actives (s : store) : res (list string) := Ok (IterateLunaExchangeRates s).*1.

Definition VoteTargets (s : store) : res (list string) := Ok (GetVoteTargets s).

(** The validator of a request. *)
Definition validator_of (req : option string) : res ValAddress :=
  match req with
  | None => Err InvalidArgument
  | Some text => wrap_err InvalidArgument (ValAddressFromBech32 text)
  end.

Definition FeederDelegation (req : option string) (s : store) : res string :=
  valAddr ← validator_of req;
  Ok (AccAddressString (GetFeederDelegation s valAddr)).

Definition MissCounter (req : option string) (s : store) : res Z :=
  valAddr ← validator_of req;
  Ok (GetMissCounter s valAddr).

Definition AggregatePrevote (req : option string) (s : store) : res AggregateExchangeRatePrevote :=
  valAddr ← validator_of req;
  GetAggregateExchangeRatePrevote s valAddr.

Definition AggregatePrevotes (s : store) : res (list AggregateExchangeRatePrevote) :=
  Ok (IterateAggregateExchangeRatePrevotes s).*2.

Definition AggregateVote (req : option string) (s : store) : res AggregateExchangeRateVote :=
  valAddr ← validator_of req;
  GetAggregateExchangeRateVote s valAddr.

Definition AggregateVotes (s : store) : res (list AggregateExchangeRateVote) :=
  Ok (IterateAggregateExchangeRateVotes s).*2.

(** *** The legacy querier *)

Context {Raw : Type} {L : LegacyAmino Raw Answer}.

Definition queryExchangeRate (data : Raw) (s : store) : res Raw :=
  denom ← decode UnmarshalDenom data;
  rate ← wrap_err ErrUnknownDenom (GetLunaExchangeRate s denom);
  encode_err2 (AnsRate rate).

Definition queryExchangeRates (s : store) : res Raw :=
  rates ← foldM (fun rates e => c ← new_dec_coin e.1 e.2; Ok (rates ++ [c])) (IterateLunaExchangeRates s) [];
  encode (AnsRates rates).

Definition queryActives (s : store) : res Raw := encode (AnsDenoms (IterateLunaExchangeRates s).*1).

Definition queryParameters (s : store) : res Raw := encode (AnsParams (params s)).

Definition queryFeederDelegation (data : Raw) (s : store) : res Raw :=
  validator ← decode UnmarshalValidator data;
  encode (AnsFeeder (GetFeederDelegation s validator)).

Definition queryMissCounter (data : Raw) (s : store) : res Raw :=
  validator ← decode UnmarshalValidator data;
  encode (AnsMiss (GetMissCounter s validator)).

Definition queryAggregatePrevote (data : Raw) (s : store) : res Raw :=
  validator ← decode UnmarshalValidator data;
  prevote ← GetAggregateExchangeRatePrevote s validator;
  encode (AnsPrevote prevote).

Definition queryAggregatePrevotes (s : store) : res Raw :=
  encode (AnsPrevotes (IterateAggregateExchangeRatePrevotes s).*2).

Definition queryAggregateVote (data : Raw) (s : store) : res Raw :=
  validator ← decode UnmarshalValidator data;
  vote ← GetAggregateExchangeRateVote s validator;
  encode (AnsVote vote).

Definition queryAggregateVotes (s : store) : res Raw :=
  encode (AnsVotes (IterateAggregateExchangeRateVotes s).*2).

Definition queryVoteTargets (s : store) : res Raw := encode (AnsDenoms (GetVoteTargets s)).

Definition queryTobinTax (data : Raw) (s : store) : res Raw :=
  denom ← decode UnmarshalDenom data;
  tobinTax ← GetTobinTax s denom;
  encode_err2 (AnsRate tobinTax).

Definition queryTobinTaxes (s : store) : res Raw :=
  encode (AnsTaxes ((fun e => mkDenom e.1 e.2) <$> IterateTobinTaxes s)).

Definition NewLegacyQuerier (path : list string) (data : Raw) (s : store) : res Raw :=
  switch_path path [
    ("exchangeRate", queryExchangeRate data s);
    ("exchangeRates", queryExchangeRates s);
    ("actives", queryActives s);
    ("parameters", queryParameters s);
    ("feederDelegation", queryFeederDelegation data s);
    ("missCounter", queryMissCounter data s);
    ("aggregatePrevote", queryAggregatePrevote data s);
    ("aggregatePrevotes", queryAggregatePrevotes s);
    ("aggregateVote", queryAggregateVote data s);
    ("aggregateVotes", queryAggregateVotes s);
    ("voteTargets", queryVoteTargets s);
    ("tobinTax", queryTobinTax data s);
    ("tobinTaxes", queryTobinTaxes s)]%string.

(** *** Both give the same answers *)

(** The call of the service a legacy request stands for. *)
Definition service (data : Raw) (s : store) : list (string * res Answer) := [
    ("exchangeRate", denom ← UnmarshalDenom data; r ← ExchangeRate (Some denom) s; Ok (AnsRate r));
    ("exchangeRates", l ← ExchangeRates s; Ok (AnsRates l));
    ("actives", l ← Actives s; Ok (AnsDenoms l));
    ("parameters", p ← QueryParams s; Ok (AnsParams p));
    ("feederDelegation", v ← UnmarshalValidator data; text ← FeederDelegation (Some (ValAddressString v)) s;
                         feeder ← AccAddressFromBech32 text; Ok (AnsFeeder feeder));
    ("missCounter", v ← UnmarshalValidator data; n ← MissCounter (Some (ValAddressString v)) s; Ok (AnsMiss n));
    ("aggregatePrevote", v ← UnmarshalValidator data; p ← AggregatePrevote (Some (ValAddressString v)) s;
                         Ok (AnsPrevote p));
    ("aggregatePrevotes", l ← AggregatePrevotes s; Ok (AnsPrevotes l));
    ("aggregateVote", v ← UnmarshalValidator data; x ← AggregateVote (Some (ValAddressString v)) s;
                      Ok (AnsVote x));
    ("aggregateVotes", l ← AggregateVotes s; Ok (AnsVotes l));
    ("voteTargets", l ← VoteTargets s; Ok (AnsDenoms l));
    ("tobinTax", denom ← UnmarshalDenom data; r ← TobinTax (Some denom) s; Ok (AnsRate r));
    ("tobinTaxes", l ← TobinTaxes s; Ok (AnsTaxes l))]%string.

Context {AL : Bech32Laws A}.

Lemma validator_of_round v : address_ok v = true -> validator_of (Some (ValAddressString v)) = Ok v.
Proof. intros Hv. cbn. by rewrite val_bech32_round. Qed.

(** A validator that is an address has a feeder that is one. *)
Lemma feeder_ok s v : addresses_ok s -> address_ok v = true -> address_ok (GetFeederDelegation s v) = true.
Proof.
  intros (Hf & _) Hv. unfold GetFeederDelegation. destruct (FeederDelegations s !! v) eqn:E; [|done].
  by apply Hf in E as [_ ?].
Qed.

(** The requests that name a validator. *)
Definition by_validator : list string :=
  ["feederDelegation"; "missCounter"; "aggregatePrevote"; "aggregateVote"]%string.

(** C37. The legacy querier answers a query exactly when the service does, with the
    encoding of the same answer: on a store of addresses where every currency
    has a name, and if the validator of a request that names one is an address.
    [missing_validator_diverges] shows that the last condition is needed. *)
Theorem legacy_oracle_agrees name rest data s raw :
  OracleStore.ExchangeRates s !! EmptyString = None -> OracleStore.TobinTaxes s !! EmptyString = None ->
  addresses_ok s ->
  (name ∈ by_validator -> forall v, UnmarshalValidator data = Ok v -> address_ok v = true) ->
  NewLegacyQuerier (name :: rest) data s = Ok raw <->
  exists c a, list_find (fun c => String.eqb name c.1 = true) (service data s) = Some c /\
    c.2.2 = Ok a /\ MarshalJSONIndent a = Ok raw.
Proof.
  intros Hr Ht Ha Hval. apply switch_agrees. unfold service.
  assert (Hrate : forall e, GetLunaExchangeRate s EmptyString <> Ok e).
  { intros e. unfold GetLunaExchangeRate. by rewrite Hr. }
  assert (Htax : forall e, GetTobinTax s EmptyString <> Ok e).
  { intros e. unfold GetTobinTax. by rewrite Ht. }
  repeat (constructor; [split; [reflexivity|]|]); [..|constructor]; cbn [fst snd]; intros ->;
    unfold queryExchangeRate, queryTobinTax, queryFeederDelegation, queryMissCounter, queryAggregatePrevote,
      queryAggregateVote, queryActives, queryParameters, queryAggregatePrevotes, queryAggregateVotes,
      queryVoteTargets, queryTobinTaxes, FeederDelegation, MissCounter, AggregatePrevote, AggregateVote, decode;
    try (specialize (Hval ltac:(solve [repeat constructor]));
         destruct (UnmarshalValidator data) as [v| |]; [specialize (Hval v eq_refl)|answer..];
         cbn [mbind res_bind wrap_err]; rewrite validator_of_round by done; cbn [mbind res_bind]).
  - destruct (UnmarshalDenom data) as [d| |]; [|answer..]. cbn [mbind res_bind wrap_err ExchangeRate].
    destruct d as [|c d]; [|destruct (GetLunaExchangeRate s (String c d)); answer].
    split; [intros H; go_inv; by destruct (Hrate v)|by intros (? & ? & ?)].
  - unfold queryExchangeRates, ExchangeRates. destruct (foldM _ _ _); answer.
  - answer.
  - answer.
  - rewrite acc_bech32_round by (by apply feeder_ok). answer.
  - answer.
  - destruct (GetAggregateExchangeRatePrevote s _); answer.
  - answer.
  - destruct (GetAggregateExchangeRateVote s _); answer.
  - answer.
  - answer.
  - destruct (UnmarshalDenom data) as [d| |]; [|answer..]. cbn [mbind res_bind wrap_err TobinTax].
    destruct d as [|c d]; [|destruct (GetTobinTax s (String c d)); answer].
    split; [intros H; go_inv; by destruct (Htax v)|by intros (? & ? & ?)].
  - answer.
Qed.

(** Where the two differ: a request that leaves the validator out.  The JSON
    gives the empty address, for which the legacy querier answers with the
    counter and the feeder of nobody; the service refuses the empty text. *)
Theorem missing_validator_diverges data s raw :
  UnmarshalValidator data = Ok EmptyString ->
  (NewLegacyQuerier ["missCounter"%string] data s = Ok raw <->
   MarshalJSONIndent (AnsMiss (GetMissCounter s EmptyString)) = Ok raw) /\
  (NewLegacyQuerier ["feederDelegation"%string] data s = Ok raw <->
   MarshalJSONIndent (AnsFeeder (GetFeederDelegation s EmptyString)) = Ok raw) /\
  (forall n, MissCounter (Some (ValAddressString EmptyString)) s <> Ok n) /\
  (forall f, FeederDelegation (Some (ValAddressString EmptyString)) s <> Ok f).
Proof.
  intros Hd. change (NewLegacyQuerier ["missCounter"%string] data s) with (queryMissCounter data s).
  change (NewLegacyQuerier ["feederDelegation"%string] data s) with (queryFeederDelegation data s).
  unfold queryMissCounter, queryFeederDelegation, decode. rewrite Hd, val_string_empty. cbn.
  rewrite !encode_Ok. split; [done|]. split; [done|].
  split; intros x H; go_inv; by eapply val_bech32_empty.
Qed.

(** If the rate a client asks for cannot be encoded, the node panics instead of
    answering with the error, because the text of the wrong error is read. *)
Theorem rate_encoding_panics data s denom rate :
  UnmarshalDenom data = Ok denom -> GetLunaExchangeRate s denom = Ok rate ->
  (forall raw, MarshalJSONIndent (AnsRate rate) <> Ok raw) ->
  NewLegacyQuerier ["exchangeRate"%string] data s = Panic.
Proof.
  intros Hd Hr Hm. cbn. unfold queryExchangeRate, decode. rewrite Hd. cbn. rewrite Hr. cbn.
  unfold encode_err2. destruct (MarshalJSONIndent _) as [raw| |]; [by destruct (Hm raw)|done..].
Qed.

End oracle.
End OracleQuery.

(** ** The market; the service for swaps is [Market.QuerySwap]. *)

Module MarketQuery.

Inductive Answer : Type := AnsCoin (c : Coin) | AnsDelta (d : Dec) | AnsParams (p : Market.Params).

Section market.
Context {M : SdkMath} {C : SdkCoins} {O B : Type} {OK : Market.OracleKeeper O}.
Context {Raw : Type} {L : LegacyAmino Raw Answer}.
Implicit Types s : Market.state O B.

Definition QueryParams s : res Market.Params := Ok (Market.params s).
Definition TerraPoolDelta s : res Dec := Ok (Market.GetTerraPoolDelta s).

Definition querySwap (data : Raw) s : res Raw :=
  '(offerCoin, askDenom) ← decode UnmarshalSwap data;
  retCoin ← Market.simulateSwap s offerCoin askDenom;
  encode (AnsCoin retCoin).

Definition queryTerraPoolDelta s : res Raw := encode (AnsDelta (Market.GetTerraPoolDelta s)).
Definition queryParameters s : res Raw := encode (AnsParams (Market.params s)).

Definition NewLegacyQuerier (path : list string) (data : Raw) s : res Raw :=
  switch_path path [
    ("swap", querySwap data s);
    ("terra_pool_delta", queryTerraPoolDelta s);
    ("parameters", queryParameters s)]%string.

(** The calls of the service; [coin_text] prints a coin for it. *)
Definition service (ParseCoinNormalized : string -> res Coin) (coin_text : Coin -> string) (data : Raw) s
    : list (string * res Answer) := [
    ("swap", '(offer, ask) ← UnmarshalSwap data;
             c ← Market.QuerySwap ParseCoinNormalized s (Some (coin_text offer, ask)); Ok (AnsCoin c));
    ("terra_pool_delta", d ← TerraPoolDelta s; Ok (AnsDelta d));
    ("parameters", p ← QueryParams s; Ok (AnsParams p))]%string.

(** The same for the market, if the text of a coin is read back and a swap is
    asked for a denomination that is one: only the service checks that. *)
Theorem legacy_market_agrees ParseCoinNormalized coin_text name rest data s raw :
  (forall c, ParseCoinNormalized (coin_text c) = Ok c) ->
  (forall c d, UnmarshalSwap data = Ok (c, d) -> ValidDenom d = true) ->
  NewLegacyQuerier (name :: rest) data s = Ok raw <->
  exists c a, list_find (fun c => String.eqb name c.1 = true)
      (service ParseCoinNormalized coin_text data s) = Some c /\
    c.2.2 = Ok a /\ MarshalJSONIndent a = Ok raw.
Proof.
  intros Hp Hd. apply switch_agrees. unfold service.
  repeat (constructor; [split; [reflexivity|]|]); [..|constructor]; cbn [fst snd]; intros _;
    unfold querySwap, queryTerraPoolDelta, queryParameters, decode, Market.QuerySwap.
  - destruct (UnmarshalSwap data) as [[c d]| |] eqn:E; [|answer..]. cbn [mbind res_bind wrap_err].
    rewrite (Hd c d), Hp by done. cbn [mbind res_bind wrap_err fail_if negb].
    destruct (Market.simulateSwap s c d); answer.
  - answer.
  - answer.
Qed.

End market.
End MarketQuery.

(** ** The treasury; tax rate and tax cap are [FeeUtils.QueryTaxRate] and
    [FeeUtils.QueryTaxCap]. *)

Module TreasuryQuery.

Inductive Answer : Type :=
| AnsDec (d : Dec)
| AnsInt (i : Int)
| AnsCaps (l : list (string * Int))
| AnsCoins (l : list Coin)
| AnsParams (p : Treasury.Params)
| AnsIndicators (TRLYear TRLMonth : Dec).

Section treasury.
Context {M : SdkMath} {C : SdkCoins} {K : Type} {MK : Treasury.MarketKeeper K}.
Context {S : Type} {SK : StakingKeeper S} {B : Type} {BK : BankKeeper B}.
Implicit Types s : Treasury.state K S B.

Definition QueryParams s : res Treasury.Params := Ok (Treasury.params (Treasury.tstore s)).
Definition TaxCaps s : res (list (string * Int)) := Ok (Treasury.IterateTaxCap (Treasury.tstore s)).
Definition RewardWeight s : res Dec := Ok (Treasury.GetRewardWeight (Treasury.tstore s)).
Definition SeigniorageProceeds s : res Int := Treasury.PeekEpochSeigniorage s.
Definition TaxProceeds s : res (list Coin) := Ok (Treasury.PeekEpochTaxProceeds (Treasury.tstore s)).

Definition with_height (ctx : Ctx) (h : Z) : Ctx := mkCtx (ChainID ctx) h.

(** One of the two averages: that of the closed epochs, with the running one
    added.  [math.Min] on [float64]s is exact here: an epoch is below [2^53],
    and rounding keeps a larger window larger. *)
Definition with_current (ctx : Ctx) (t : Treasury.store) (window epoch : Z) (current : Dec) : res Dec :=
  let previousEpochCtx := with_height ctx (to_int64 (BlockHeight ctx - BlocksPerWeek)) in
  trl ← Treasury.rollingAverageIndicator previousEpochCtx t (to_int64 (to_uint64 (window - 1))) Treasury.TRL;
  let computedEpoch := Z.min (to_uint64 (window - 1)) epoch in
  a ← dec_mul_int trl computedEpoch;
  b ← dec_add a current;
  dec_quo_int b (to_int64 (computedEpoch + 1)).

(** [Indicators]. *)
Definition Indicators (ctx : Ctx) s : res (Dec * Dec) :=
  let t := Treasury.tstore s in
  let TSL := TotalBondedTokens (Treasury.staking s) in
  taxRewards ← deccoins_of_coins (Treasury.PeekEpochTaxProceeds t);
  TR ← Treasury.alignCoins s taxRewards MicroSDRDenom;
  let epoch := Treasury.GetEpoch ctx in
  current ← dec_quo_int TR TSL;
  if epoch =? 0 then Ok (current, current)
  else
    let p := Treasury.params t in
    trlYear ← with_current ctx t (Treasury.WindowLong p) epoch current;
    trlMonth ← with_current ctx t (Treasury.WindowShort p) epoch current;
    Ok (trlYear, trlMonth).

(** *** The legacy querier *)

Context {Raw : Type} {L : LegacyAmino Raw Answer}.

(** The computation of [Indicators] is repeated in the source. *)
Definition queryIndicators (ctx : Ctx) s : res Raw :=
  '(trlYear, trlMonth) ← Indicators ctx s;
  encode (AnsIndicators trlYear trlMonth).

Definition legacyTaxRate s : res Raw := encode (AnsDec (Treasury.GetTaxRate (Treasury.tstore s))).

Definition legacyTaxCap (data : Raw) s : res Raw :=
  denom ← decode UnmarshalDenom data;
  encode (AnsInt (Treasury.GetTaxCap (Treasury.tstore s) denom)).

Definition legacyTaxCaps s : res Raw := encode (AnsCaps (Treasury.IterateTaxCap (Treasury.tstore s))).

Definition queryRewardWeight s : res Raw := encode (AnsDec (Treasury.GetRewardWeight (Treasury.tstore s))).

Definition querySeigniorageProceeds s : res Raw :=
  seigniorage ← Treasury.PeekEpochSeigniorage s;
  encode (AnsInt seigniorage).

Definition queryTaxProceeds s : res Raw := encode (AnsCoins (Treasury.PeekEpochTaxProceeds (Treasury.tstore s))).

Definition queryParameters s : res Raw := encode (AnsParams (Treasury.params (Treasury.tstore s))).

Definition NewLegacyQuerier (ctx : Ctx) (path : list string) (data : Raw) s : res Raw :=
  switch_path path [
    ("taxRate", legacyTaxRate s);
    ("taxCap", legacyTaxCap data s);
    ("taxCaps", legacyTaxCaps s);
    ("rewardWeight", queryRewardWeight s);
    ("seigniorageProceeds", querySeigniorageProceeds s);
    ("taxProceeds", queryTaxProceeds s);
    ("parameters", queryParameters s);
    ("indicators", queryIndicators ctx s)]%string.

Definition service (ctx : Ctx) (data : Raw) s : list (string * res Answer) := [
    ("taxRate", r ← FeeUtils.QueryTaxRate (Treasury.tstore s); Ok (AnsDec r));
    ("taxCap", denom ← UnmarshalDenom data; c ← FeeUtils.QueryTaxCap (Treasury.tstore s) denom; Ok (AnsInt c));
    ("taxCaps", l ← TaxCaps s; Ok (AnsCaps l));
    ("rewardWeight", r ← RewardWeight s; Ok (AnsDec r));
    ("seigniorageProceeds", i ← SeigniorageProceeds s; Ok (AnsInt i));
    ("taxProceeds", l ← TaxProceeds s; Ok (AnsCoins l));
    ("parameters", p ← QueryParams s; Ok (AnsParams p));
    ("indicators", '(y, m) ← Indicators ctx s; Ok (AnsIndicators y m))]%string.

(** The same for the treasury, if a tax cap is asked for a denomination that is
    one. *)
Theorem legacy_treasury_agrees ctx name rest data s raw :
  (forall d, UnmarshalDenom data = Ok d -> ValidDenom d = true) ->
  NewLegacyQuerier ctx (name :: rest) data s = Ok raw <->
  exists c a, list_find (fun c => String.eqb name c.1 = true) (service ctx data s) = Some c /\
    c.2.2 = Ok a /\ MarshalJSONIndent a = Ok raw.
Proof.
  intros Hd. apply switch_agrees. unfold service.
  repeat (constructor; [split; [reflexivity|]|]); [..|constructor]; cbn [fst snd]; intros _;
    unfold legacyTaxRate, legacyTaxCap, legacyTaxCaps, queryRewardWeight, querySeigniorageProceeds,
      queryTaxProceeds, queryParameters, queryIndicators, SeigniorageProceeds, FeeUtils.QueryTaxCap, decode.
  - answer.
  - destruct (UnmarshalDenom data) as [d| |]; [|answer..]. cbn [mbind res_bind wrap_err].
    rewrite (Hd d) by done. answer.
  - answer.
  - answer.
  - destruct (Treasury.PeekEpochSeigniorage s); answer.
  - answer.
  - answer.
  - destruct (Indicators ctx s) as [[y m]| |]; answer.
Qed.

End treasury.

(** *** The indicators *)

Section indicators.
Context {M : SdkMath} {ML : SdkMathLaws M}.

(** The rewards per staked Luna of a closed epoch. *)
Definition trl_of (t : Treasury.store) (e : Z) : Dec :=
  let tr := Treasury.GetTR t e in
  let tsl := Treasury.GetTSL t e in
  if (tr =? 0) || (tsl =? 0) then 0 else Z.quot tr tsl.

Lemma TRL_of t e : Treasury.TRL e t = Ok (trl_of t e).
Proof.
  unfold Treasury.TRL, trl_of. destruct (Z.eqb_spec (Treasury.GetTR t e) 0); [done|].
  destruct (Z.eqb_spec (Treasury.GetTSL t e) 0) as [|Hn]; [done|]. cbn.
  rewrite dec_quo_int_spec. by rewrite (proj2 (Z.eqb_neq _ _) Hn).
Qed.

Lemma previous_epoch ctx :
  BlocksPerWeek <= BlockHeight ctx < two63 ->
  let prev := with_height ctx (to_int64 (BlockHeight ctx - BlocksPerWeek)) in
  0 <= BlockHeight prev < two63 /\ Treasury.GetEpoch prev = Treasury.GetEpoch ctx - 1.
Proof.
  intros Hh. cbn. unfold Treasury.GetEpoch. cbn.
  change BlocksPerWeek with 100800 in *. change two63 with 9223372036854775808 in *.
  rewrite to_int64_id by (unfold is_int64; change two63 with 9223372036854775808; lia).
  split; [lia|]. rewrite !Z.quot_div_nonneg by lia. Z.div_mod_to_equations. lia.
Qed.

(** The average over the window, the running epoch included, up to the two
    truncations. *)
Lemma with_current_average ctx t window current :
  BlocksPerWeek <= BlockHeight ctx < two63 -> 1 <= window < two63 ->
  (forall e, 0 <= Treasury.GetTR t e /\ 0 <= Treasury.GetTSL t e) -> 0 <= current ->
  let epoch := Treasury.GetEpoch ctx in
  let n := Z.min (window - 1) epoch in
  let total := sumZ (trl_of t) (Treasury.window (Z.to_nat n) (epoch - 1)) + current in
  total < dec_bound ->
  exists r, with_current ctx t window epoch current = Ok r /\ (n + 1) * r <= total <= (n + 1) * r + 2 * n.
Proof.
  intros Hh Hw Hpos Hc epoch n total Hb.
  destruct (previous_epoch ctx Hh) as [Hph Hpe]. fold epoch in Hpe.
  pose proof (Treasury.GetEpoch_range ctx ltac:(change BlocksPerWeek with 100800 in *; lia)) as [He0 He1].
  fold epoch in He0, He1.
  assert (Hf : forall e, 0 <= trl_of t e).
  { intros e. unfold trl_of. destruct (Hpos e) as [H1 H2].
    destruct (_ || _) eqn:Ez; [done|]. apply orb_false_iff in Ez as [_ Ez%Z.eqb_neq].
    apply Z.quot_pos; lia. }
  unfold with_current, Treasury.rollingAverageIndicator.
  rewrite (to_uint64_id (window - 1)) by (unfold is_uint64, two64, two63 in *; lia).
  rewrite (to_int64_id (window - 1)) by (unfold is_int64, two63 in *; lia).
  assert (Hn : Z.min (window - 1) (Treasury.GetEpoch (with_height ctx (to_int64 (BlockHeight ctx - BlocksPerWeek))) + 1) = n)
    by (rewrite Hpe; lia).
  pose proof (sumZ_nonneg (trl_of t) (Treasury.window (Z.to_nat n) (epoch - 1)) ltac:(by apply Forall_true)) as HS.
  rewrite (Treasury.indicator_window _ t (trl_of t) (TRL_of t) Hf) by (rewrite ?Hn, ?Hpe; lia).
  rewrite Hn, Hpe. cbn [mbind res_bind]. fold n.
  set (S := sumZ (trl_of t) _) in *. replace (epoch - 1 - (epoch - 1 - Z.of_nat (Z.to_nat n))) with n by lia.
  assert (Ha : exists a, (if n =? 0 then Ok S else dec_quo_int S n) = Ok a /\ 0 <= a * n <= S /\ S <= a * n + n).
  { destruct (Z.eqb_spec n 0) as [E|E].
    - exists S. split; [done|]. assert (S = 0) by (subst S; by rewrite E). lia.
    - exists (Z.quot S n). rewrite dec_quo_int_spec, (proj2 (Z.eqb_neq _ _) E). split; [done|].
      rewrite Z.quot_div_nonneg by lia. pose proof (Z.div_pos S n HS ltac:(lia)).
      pose proof (Z.mod_pos_bound S n ltac:(lia)). pose proof (Z.div_mod S n E). nia. }
  destruct Ha as (a & -> & Ha1 & Ha2). cbn [mbind res_bind].
  rewrite dec_mul_int_spec, checked_small by lia. cbn [mbind res_bind].
  rewrite dec_add_spec, checked_small by lia. cbn [mbind res_bind].
  rewrite to_int64_id by (unfold is_int64; lia).
  rewrite dec_quo_int_spec, (proj2 (Z.eqb_neq (n + 1) 0)) by lia.
  eexists. split; [reflexivity|]. rewrite Z.quot_div_nonneg by lia.
  pose proof (Z.mod_pos_bound (a * n + current) (n + 1) ltac:(lia)).
  pose proof (Z.div_mod (a * n + current) (n + 1) ltac:(lia)). lia.
Qed.

(** A window of zero epochs, which the parameters may have, is taken for one
    that reaches back to the start but without its epochs: the running epoch is
    divided by the number of all epochs. *)
Theorem zero_window_diluted ctx t current :
  BlocksPerWeek <= BlockHeight ctx < two63 -> Z.abs current < dec_bound ->
  let epoch := Treasury.GetEpoch ctx in
  with_current ctx t 0 epoch current = Ok (Z.quot current (epoch + 1)).
Proof.
  intros Hh Hc epoch. destruct (previous_epoch ctx Hh) as [Hph Hpe]. fold epoch in Hpe.
  pose proof (Treasury.GetEpoch_range ctx ltac:(change BlocksPerWeek with 100800 in *; lia)) as [He0 He1].
  fold epoch in He0, He1.
  unfold with_current, Treasury.rollingAverageIndicator. rewrite Hpe.
  change (to_int64 (to_uint64 (0 - 1))) with (-1).
  rewrite (to_int64_id (epoch - 1 - -1)) by (unfold is_int64; lia).
  assert (Hl : forall fuel, Treasury.indicator_loop fuel Treasury.TRL t (epoch - 1 - -1) (epoch - 1) 0 = Ok (0, epoch - 1)).
  { intros fuel. destruct fuel; cbn [Treasury.indicator_loop];
      (rewrite (proj2 (Z.ltb_ge _ _)) by lia; by rewrite andb_false_r). }
  rewrite Hl. cbn [mbind res_bind]. rewrite Z.sub_diag. cbn [Z.eqb mbind res_bind].
  replace (Z.min (to_uint64 (0 - 1)) epoch) with epoch by (change (to_uint64 (0 - 1)) with (two64 - 1); unfold two64, two63 in *; lia).
  rewrite dec_mul_int_spec, checked_small by (cbn; done). cbn [mbind res_bind].
  rewrite dec_add_spec, checked_small by lia. cbn [mbind res_bind].
  rewrite to_int64_id by (unfold is_int64; lia).
  rewrite dec_quo_int_spec, (proj2 (Z.eqb_neq (epoch + 1) 0)) by lia. done.
Qed.

Context {C : SdkCoins} {K : Type} {MK : Treasury.MarketKeeper K}.
Context {S : Type} {SK : StakingKeeper S} {B : Type} {BK : BankKeeper B}.

(** C31. From the second epoch on the indicators are the averages of the rewards per
    staked Luna over the two windows, the running epoch included: over as many
    closed epochs as the window has besides the running one, or as there are.
    Truncation costs less than two units of the last decimal.  The conditions:
    both windows have at least one epoch ([zero_window_diluted] is the other
    case), some Luna is bonded, the tax proceeds of the running epoch convert to
    a non-negative amount of SDR, no recorded reward or stake is negative, and
    the sums are within the range of the decimals. *)
Theorem indicators_average ctx (s : Treasury.state K S B) taxRewards TR :
  let t := Treasury.tstore s in
  let TSL := TotalBondedTokens (Treasury.staking s) in
  let epoch := Treasury.GetEpoch ctx in
  let n w := Z.min (w - 1) epoch in
  let total w := sumZ (trl_of t) (Treasury.window (Z.to_nat (n w)) (epoch - 1)) + Z.quot TR TSL in
  let average w r := (n w + 1) * r <= total w <= (n w + 1) * r + 2 * n w in
  let long := Treasury.WindowLong (Treasury.params t) in
  let short := Treasury.WindowShort (Treasury.params t) in
  BlocksPerWeek <= BlockHeight ctx < two63 -> 1 <= long < two63 -> 1 <= short < two63 ->
  (forall e, 0 <= Treasury.GetTR t e /\ 0 <= Treasury.GetTSL t e) ->
  deccoins_of_coins (Treasury.PeekEpochTaxProceeds t) = Ok taxRewards ->
  Treasury.alignCoins s taxRewards MicroSDRDenom = Ok TR -> 0 <= TR -> 0 < TSL ->
  total long < dec_bound -> total short < dec_bound ->
  exists trlYear trlMonth, Indicators ctx s = Ok (trlYear, trlMonth) /\
    average long trlYear /\ average short trlMonth.
Proof.
  intros t TSL epoch n total average long short Hh Hl Hs Hpos Ht HTR H0 HT Hbl Hbs.
  pose proof (Z.quot_pos TR TSL H0 ltac:(lia)) as Hq.
  destruct (with_current_average ctx t long (Z.quot TR TSL)) as (y & Hy & Hay); [done..|].
  destruct (with_current_average ctx t short (Z.quot TR TSL)) as (m & Hm & Ham); [done..|].
  fold epoch in Hy, Hm. exists y, m. split; [|done]. unfold Indicators. fold t. rewrite Ht. cbn [mbind res_bind]. rewrite HTR.
  cbn [mbind res_bind]. fold TSL. rewrite dec_quo_int_spec, (proj2 (Z.eqb_neq TSL 0)) by lia. cbn [mbind res_bind].
  fold epoch. assert (He : 1 <= epoch).
  { unfold epoch, Treasury.GetEpoch. change BlocksPerWeek with 100800 in *.
    rewrite Z.quot_div_nonneg by lia. apply Z.div_le_lower_bound; lia. }
  rewrite (proj2 (Z.eqb_neq epoch 0)) by lia. fold long short. rewrite Hy. cbn [mbind res_bind].
  rewrite Hm. done.
Qed.

End indicators.
End TreasuryQuery.

(** ** Concrete queries *)

Module QueryExample.
Import OracleQuery.

(** A codec that prints rates, counters and denominations. *)
Instance text_codec : LegacyAmino string Answer := {|
  UnmarshalDenom d := Ok d;
  UnmarshalValidator v := Ok v;
  UnmarshalSwap _ := Err (Errorf "no swap");
  MarshalJSONIndent a := match a with
                         | AnsRate r => Ok (pretty.pretty r)
                         | AnsMiss n => Ok (pretty.pretty n)
                         | AnsDenoms l => Ok (String.concat "," l)
                         | _ => Err (Errorf "not printed")
                         end |}.

Definition prices : store :=
  OracleStore.mkStore {["uusd" := NewDec 2]} ∅ {["val" := 3]} ∅ ∅ {["uusd" := 5]} DefaultParams.

Lemma legacy_oracle_agrees_witness :
  @NewLegacyQuerier ref_coins string text_codec ["missCounter"; "unused"]%string "val"%string prices = Ok "3"%string.
Proof.
  apply (@legacy_oracle_agrees ref_coins ref_bech32 string text_codec _); [reflexivity..| | |].
  - split; [apply map_Forall_empty|]. split; [apply map_Forall_insert_2; [done|]; apply map_Forall_empty|].
    split; apply map_Forall_empty.
  - by intros _ v [= <-].
  - eexists _, _. split; [reflexivity|]. split; reflexivity.
Defined.

(** Rates of other types than text cannot be printed: nor can this one. *)
Definition broken_codec : LegacyAmino string Answer := {|
  UnmarshalDenom d := Ok d;
  UnmarshalValidator v := Ok v;
  UnmarshalSwap _ := Err (Errorf "no swap");
  MarshalJSONIndent _ := Err (Errorf "broken") |}.

Lemma rate_encoding_panics_witness :
  @NewLegacyQuerier ref_coins string broken_codec ["exchangeRate"]%string "uusd"%string prices = Panic.
Proof. by apply (@rate_encoding_panics ref_coins string broken_codec _ _ "uusd"%string (NewDec 2)). Defined.

Import Treasury.TreasuryExample.

Lemma indicators_average_witness :
  exists trlYear trlMonth,
    @TreasuryQuery.Indicators ref_math ref_coins unit double_market unit StoreExample.one_validator RefBank
      Treasury.TreasuryExample.ctx Treasury.TreasuryExample.s0 = Ok (trlYear, trlMonth).
Proof.
  destruct (@TreasuryQuery.indicators_average ref_math ref_math_laws ref_coins unit double_market unit
    StoreExample.one_validator RefBank Treasury.TreasuryExample.ctx Treasury.TreasuryExample.s0
    [mkDecCoin "uusd" (NewDec 50)] (NewDec 100)) as (y & m & H & Hy & Hm).
  - vm_compute. split; congruence.
  - vm_compute. split; congruence.
  - vm_compute. split; congruence.
  - intros e. unfold Treasury.GetTR, Treasury.GetTSL. cbn [Treasury.TRs Treasury.TSLs Treasury.tstore s0 store0].
    destruct (decide (e = 11)) as [->|]; [done|]. rewrite !lookup_insert_ne, !lookup_empty by done. done.
  - reflexivity.
  - reflexivity.
  - done.
  - done.
  - vm_compute. reflexivity.
  - vm_compute. reflexivity.
  - exists y, m. exact H.
Defined.

End QueryExample.
