(* ===== verification/WasmQuery.v ===== *)
(** * Queries of contracts and of clients to contracts
    ([src/x/wasm/types/query_binding.go], [x/wasm/keeper/querier.go],
    [legacy_querier.go], [wasm_interface.go], [wasm_interface_stargate.go] and
    the queriers of [custom/*/wasm] and [x/*/wasm])

    A contract asks through [Querier], which gives the question a gas meter of
    its own and passes it to the module of its route.  Clients ask a contract
    with a gas limit that the node sets; what goes wrong in the machine is an
    answer to them, not a crash of the node. *)

From Stdlib Require Import ZArith Lia Bool Ascii.
From stdpp Require Import base gmap strings list.
From S2P Require Import Prelude Loops Sdk SdkRef Core OracleBallot OracleStore WasmTypes WasmMsgs Wasm WasmFacts.
From S2P Require Import WasmExample.
From S2P Require Market Treasury Ante FeeUtils Queries.
Local Open Scope Z_scope.

Definition ErrNoRegisteredQuerier : error := Registered "wasm" "ErrNoRegisteredQuerier".
Definition ErrPanic : error := Registered "sdk" "ErrPanic".
Definition ErrJSONMarshal : error := Registered "sdk" "ErrJSONMarshal".
Definition NotFound : error := Registered "grpc" "NotFound".
Definition Internal : error := Registered "grpc" "Internal".
Definition Unknown : error := Registered "wasmvm" "Unknown".
Definition UnsupportedRequest (kind : string) : error := Errorf kind.

(** ** Requests of contracts ([wasmvmtypes.QueryRequest]): pointers, of which
    the first that is set counts. *)

Record BankQuery : Type := mkBankQuery {
  QBalance : option (string * string);    (* address, denom *)
  QAllBalances : option string }.

Record StakingQuery : Type := mkStakingQuery {
  QBondedDenom : option unit;
  QAllValidators : option unit;
  QValidator : option string;
  QAllDelegations : option string;
  QDelegation : option (string * string) }.   (* delegator, validator *)

Record WasmQueryMsg : Type := mkWasmQuery {
  QSmart : option (string * string);              (* contract, message *)
  QRaw : option (string * option string) }.       (* contract, key *)

Record StargateQuery : Type := mkStargateQuery { QPath : string; QData : string }.

Record QueryRequest : Type := mkRequest {
  RBank : option BankQuery;
  RCustom : option string;
  RStaking : option StakingQuery;
  RWasm : option WasmQueryMsg;
  RStargate : option StargateQuery;
  RIBC : option unit }.

(** [WasmCustomQuery]. *)
Record WasmCustomQuery : Type := mkCustom { Route : string; QueryData : string }.

(** ** The querier of contracts ([query_binding.go]) *)

Section binding.
Context {G : GasMeters} {B K T X : Type}.

Abbreviation S := (wstate B K T X).

(** What a module answers; nil bytes are [None]. *)
Record WasmQuerierInterface : Type := mkQuerier {
  i_Query : QueryRequest -> wst S (option string);
  i_QueryCustom : string -> wst S (option string) }.

Record Querier : Type := mkWasmQuerier {
  Queriers : gmap string WasmQuerierInterface;
  StargateQuerier : option (QueryRequest -> wst S (option string)) }.

Definition NewWasmQuerier : Querier := mkWasmQuerier ∅ None.

(** [json.Unmarshal] of a custom query. *)
Context (UnmarshalCustom : string -> res WasmCustomQuery).

Definition registered (q : Querier) (route : string) (ask : WasmQuerierInterface -> wst S (option string))
    : wst S (option string) :=
  match Queriers q !! route with
  | Some querier => ask querier
  | None => wfail ErrNoRegisteredQuerier
  end.

(** The switch of [Query]. *)
Definition do_query (q : Querier) (request : QueryRequest) : wst S (option string) :=
  match RBank request with
  | Some _ => registered q "bank" (fun querier => i_Query querier request)
  | None =>
    match RCustom request with
    | Some custom =>
        customQuery ← wlift (wrap_err WasmTypes.ErrJSONUnmarshal (UnmarshalCustom custom));
        registered q (Route customQuery) (fun querier => i_QueryCustom querier (QueryData customQuery))
    | None =>
      match RStaking request with
      | Some _ => registered q "staking" (fun querier => i_Query querier request)
      | None =>
        match RWasm request with
        | Some _ => registered q "wasm" (fun querier => i_Query querier request)
        | None =>
          match RStargate request with
          | Some _ =>
              match StargateQuerier q with
              | Some query => query request
              | None => wfail ErrNoRegisteredQuerier
              end
          | None =>
            match RIBC request with
            | Some _ => wfail ErrNoRegisteredQuerier
            | None => wfail Unknown
            end
          end
        end
      end
    end
  end.

(** [Query]: the deferred function charges the caller's meter in every case, and
    a panic of its own replaces the outcome. *)
Definition Query (q : Querier) (request : QueryRequest) (gasLimit : Z) : wst S (option string) := fun s =>
  let '(r, s') := do_query q request (set_meter (NewGasMeter (gasLimit / GasMultiplier)) s) in
  let '(g, m) := consume_gas (gas_consumed (meter s')) (meter s) in
  (match g with
   | GasOk => r
   | GasOut => OutOfGas
   | GasOverflow => Crashed
   end, set_meter m s').

End binding.

Arguments WasmQuerierInterface {_} _ _ _ _.
Arguments Querier {_} _ _ _ _.

(** ** The module's own queries *)

(** [strings.Contains]. *)
Definition Contains (s substr : string) : bool :=
  match String.index 0 substr s with Some _ => true | None => false end.

Section keeper_queries.
Context {M : SdkMath} {C : SdkCoins} {U : SdkUint} {A : Bech32} {I : IntText} {H : Crypto} {Gz : Gzip}.
Context {F : ForeignMsgs} {D : MsgDecoding} {G : GasMeters}.
Context {B : Type} {BK : BankKeeper B} {K : Type} {AK : AccountKeeper K} {FD : BankEffects B K}.
Context {T : Type} {TK : Ante.TreasuryKeeper T} {X : Type} {VM : WasmVM B K T X G} {SG : StoreGas B K T X}.
Context (VerifyAddressFormat : string -> res unit) (ctx : BlockCtx).

Abbreviation S := (wstate B K T X).

(** *** For contracts ([wasm_interface.go]); [depth] is that of the context. *)

Definition wasm_Query (depth : option Z) (request : WasmQueryMsg) : wst S (option string) :=
  match QSmart request with
  | Some (contract, msg) =>
      addr ← wlift (wrap_err WasmTypes.ErrInvalidAddress (AccAddressFromBech32 contract));
      bz ← queryToContract VerifyAddressFormat ctx depth addr msg;
      mret (Some bz)
  | None =>
    match QRaw request with
    | Some (contract, key) =>
        addr ← wlift (wrap_err WasmTypes.ErrInvalidAddress (AccAddressFromBech32 contract));
        queryToStore addr key
    | None => wfail (UnsupportedRequest "unknown WasmQuery variant")
    end
  end.

(** [ContractInfoQueryResponse]; the JSON of custom queries is a parameter. *)
Record ContractInfoQueryResponse : Type := mkInfoResponse {
  IRAddress : string; IRCreator : string; IRAdmin : string; IRCodeID : Z }.

Context (UnmarshalContractInfo : string -> res (option string)).
Context (MarshalContractInfo : ContractInfoQueryResponse -> res string).

Definition wasm_QueryCustom (data : string) : wst S (option string) :=
  params ← wlift (wrap_err WasmTypes.ErrJSONUnmarshal (UnmarshalContractInfo data));
  match params with
  | Some address =>
      contractAddress ← wlift (AccAddressFromBech32 address);
      contractInfo ← GetContractInfo contractAddress;
      bz ← wlift (wrap_err ErrJSONMarshal (MarshalContractInfo
             (mkInfoResponse (CAddress contractInfo) (CCreator contractInfo) (CAdmin contractInfo)
                (CCodeID contractInfo))));
      mret (Some bz)
  | None => wfail (UnsupportedRequest "unknown Wasm variant")
  end.

(** The querier of the services of the SDK ([wasm_interface_stargate.go]);
    [QueryRouter] is the router of the application. *)
Context (QueryRouter : string -> option (StargateQuery -> wst S (option string))).

Definition queryBlackList : list string := ["/cosmos.tx"; "/cosmos.base.tendermint"].

Definition stargate_Query (request : StargateQuery) : wst S (option string) :=
  if existsb (Contains (QPath request)) queryBlackList
  then wfail (UnsupportedRequest "path is not allowed from the contract")
  else match QueryRouter (QPath request) with
       | None => wfail (UnsupportedRequest "No route to query")
       | Some route => route request
       end.

(** *** For clients ([querier.go]) *)

Definition service_Params : wst S Params := GetParams.

(** [if err != nil { return nil, status.Error(code, err.Error()) }]. *)
Definition or_else {R} (code : error) (c : wst S R) : wst S R := fun s =>
  match c s with
  | (Failed _, s') => (Failed code, s')
  | r => r
  end.

Definition service_CodeInfo (codeID : Z) : wst S CodeInfo := or_else NotFound (GetCodeInfo codeID).

Definition service_ByteCode (codeID : Z) : wst S string :=
  byteCode ← or_else NotFound (GetByteCode codeID);
  wlift (fail_if (len byteCode =? 0) NotFound);;
  mret byteCode.

Definition service_ContractInfo (contract : string) : wst S ContractInfo :=
  contractAddr ← wlift (wrap_err FeeUtils.InvalidArgument (AccAddressFromBech32 contract));
  or_else NotFound (GetContractInfo contractAddr).

(** The deferred function that recovers from panics. *)
Definition recovered {R} (c : wst S R) : wst S R := fun s =>
  match c s with
  | (OutOfGas, s') => (Failed WasmTypes.ErrOutOfGas, s')
  | (Crashed, s') => (Failed ErrPanic, s')
  | r => r
  end.

(** A context with a meter of its own; that of the caller does not change. *)
Definition with_gas_meter {R} (m : Meter) (c : wst S R) : wst S R := fun s =>
  let '(r, s') := c (set_meter m s) in
  (r, set_meter (meter s) s').

(** [ContractQueryGasLimit] of the node's configuration. *)
Context (ContractQueryGasLimit : Z).

Definition service_ContractStore (contract queryMsg : string) : wst S string :=
  with_gas_meter (NewGasMeter ContractQueryGasLimit)
    (contractAddr ← wlift (wrap_err FeeUtils.InvalidArgument (AccAddressFromBech32 contract));
     recovered (or_else Internal (queryToContract VerifyAddressFormat ctx None contractAddr queryMsg))).

Definition service_RawStore (contract : string) (key : option string) : wst S (option string) :=
  contractAddr ← wlift (wrap_err FeeUtils.InvalidArgument (AccAddressFromBech32 contract));
  queryToStore contractAddr key.

(** *** The legacy querier ([legacy_querier.go]) *)

Inductive Answer : Type :=
| AnsByteCode (code : string)
| AnsCodeInfo (info : CodeInfo)
| AnsContractInfo (info : ContractInfo)
| AnsParams (p : Params).

Context (UnmarshalCodeID : string -> res Z) (UnmarshalContract : string -> res AccAddress).
Context (UnmarshalRawStore : string -> res (AccAddress * option string)).
Context (UnmarshalContractStore : string -> res (AccAddress * string)).
Context (MarshalJSONIndent : Answer -> res string).

Definition decode {R} (f : string -> res R) (data : string) : wst S R :=
  wlift (wrap_err WasmTypes.ErrJSONUnmarshal (f data)).
Definition encode (a : Answer) : wst S (option string) :=
  bz ← wlift (wrap_err ErrJSONMarshal (MarshalJSONIndent a)); mret (Some bz).

Definition queryByteCode (data : string) : wst S (option string) :=
  codeID ← decode UnmarshalCodeID data;
  byteCode ← GetByteCode codeID;
  encode (AnsByteCode byteCode).

Definition queryCodeInfo (data : string) : wst S (option string) :=
  codeID ← decode UnmarshalCodeID data;
  codeInfo ← GetCodeInfo codeID;
  encode (AnsCodeInfo codeInfo).

Definition queryContractInfo (data : string) : wst S (option string) :=
  contractAddress ← decode UnmarshalContract data;
  contractInfo ← GetContractInfo contractAddress;
  encode (AnsContractInfo contractInfo).

Definition queryRawStore (data : string) : wst S (option string) :=
  '(contractAddress, key) ← decode UnmarshalRawStore data;
  queryToStore contractAddress key.

Definition queryContractStore (data : string) : wst S (option string) :=
  with_gas_meter (NewGasMeter ContractQueryGasLimit)
    ('(contractAddress, msg) ← decode UnmarshalContractStore data;
     recovered (bz ← queryToContract VerifyAddressFormat ctx None contractAddress msg; mret (Some bz))).

Definition queryParameters : wst S (option string) := p ← GetParams; encode (AnsParams p).

Definition NewLegacyQuerier (path : list string) (data : string) : wst S (option string) :=
  match path with
  | [] => wlift Panic
  | name :: _ =>
      if String.eqb name "bytecode" then queryByteCode data
      else if String.eqb name "codeInfo" then queryCodeInfo data
      else if String.eqb name "contractInfo" then queryContractInfo data
      else if String.eqb name "rawStore" then queryRawStore data
      else if String.eqb name "contractStore" then queryContractStore data
      else if String.eqb name "parameters" then queryParameters
      else wfail WasmTypes.ErrUnknownRequest
  end.

End keeper_queries.

(** ** Other modules

    The answers of the modules to contracts, on the state of the module. *)

(** *** The bank ([custom/bank/wasm/interface.go]) *)

Section bank_query.
Context {A : Bech32} {I : IntText} {B : Type} {BK : BankKeeper B}.

Inductive BankResponse : Type :=
| AllBalancesResponse (amount : list WasmCoin)
| BalanceResponse (amount : WasmCoin).

Context (Marshal : BankResponse -> res string).

Definition bank_Query (b : B) (request : BankQuery) : res string :=
  match QAllBalances request with
  | Some address =>
      addr ← wrap_err WasmTypes.ErrInvalidAddress (AccAddressFromBech32 address);
      Marshal (AllBalancesResponse (EncodeSdkCoins (get_all_balances b addr)))
  | None =>
    match QBalance request with
    | Some (address, denom) =>
        addr ← wrap_err WasmTypes.ErrInvalidAddress (AccAddressFromBech32 address);
        Marshal (BalanceResponse (EncodeSdkCoin (mkCoin denom (get_balance b addr denom))))
    | None => Err (UnsupportedRequest "unknown BankQuery variant")
    end
  end.

End bank_query.

(** *** The oracle ([x/oracle/wasm/interface.go]) *)

Section oracle_query.
Context {M : SdkMath}.

Record ExchangeRateQueryParams : Type := mkRateQuery { BaseDenom : string; QuoteDenoms : list string }.

(** [dec_text] is [Dec.String]. *)
Context (dec_text : Dec -> string).

Record ExchangeRateItem : Type := mkItem { IRate : string; IQuoteDenom : string }.
Record ExchangeRatesQueryResponse : Type := mkRatesResponse {
  RExchangeRates : list ExchangeRateItem; RBaseDenom : string }.

Context (Unmarshal : string -> res (option ExchangeRateQueryParams)).
Context (Marshal : ExchangeRatesQueryResponse -> res string).

(** One turn of the loop: a currency without a rate is skipped. *)
Definition quote_item (s : OracleStore.store) (base : Dec) (items : list ExchangeRateItem) (quoteDenom : string)
    : res (list ExchangeRateItem) :=
  match GetLunaExchangeRate s quoteDenom with
  | Ok quote =>
      rate ← dec_quo quote base;
      Ok (items ++ [mkItem (dec_text rate) quoteDenom])
  | Err _ => Ok items
  | Panic => Panic
  end.

Definition oracle_QueryCustom (s : OracleStore.store) (data : string) : res string :=
  params ← wrap_err WasmTypes.ErrJSONUnmarshal (Unmarshal data);
  match params with
  | Some q =>
      base ← GetLunaExchangeRate s (BaseDenom q);
      items ← foldM (quote_item s base) (QuoteDenoms q) [];
      wrap_err ErrJSONMarshal (Marshal (mkRatesResponse items (BaseDenom q)))
  | None => Err (UnsupportedRequest "unknown Oracle variant")
  end.

End oracle_query.

(** *** The market ([x/market/wasm/interface.go]) *)

Section market_query.
Context {M : SdkMath} {C : SdkCoins} {I : IntText} {O B : Type} {OK : Market.OracleKeeper O}.
Context (ParseCoinNormalized : string -> res Coin) (coin_text : Coin -> string).
Context (Unmarshal : string -> res (option (Coin * string))) (Marshal : WasmCoin -> res string).

Definition market_QueryCustom (s : Market.state O B) (data : string) : res string :=
  params ← wrap_err WasmTypes.ErrJSONUnmarshal (Unmarshal data);
  match params with
  | Some (offerCoin, askDenom) =>
      returnCoin ← Market.QuerySwap ParseCoinNormalized s (Some (coin_text offerCoin, askDenom));
      wrap_err ErrJSONMarshal (Marshal (EncodeSdkCoin returnCoin))
  | None => Err (UnsupportedRequest "unknown Market variant")
  end.

End market_query.

(** *** The treasury ([x/treasury/wasm/interface.go]) *)

Section treasury_query.
Context {I : IntText} (dec_text : Dec -> string).

Record TreasuryQueryMsg : Type := mkTreasuryQuery { QTaxRate : option unit; QTaxCap : option string }.

Context (Unmarshal : string -> res TreasuryQueryMsg).
(** The responses [TaxRateQueryResponse] and [TaxCapQueryResponse]. *)
Context (MarshalRate MarshalCap : string -> res string).

Definition treasury_QueryCustom (t : Treasury.store) (data : string) : res string :=
  query ← wrap_err WasmTypes.ErrJSONUnmarshal (Unmarshal data);
  match QTaxRate query with
  | Some _ => wrap_err ErrJSONMarshal (MarshalRate (dec_text (Treasury.GetTaxRate t)))
  | None =>
    match QTaxCap query with
    | Some denom => wrap_err ErrJSONMarshal (MarshalCap (IntString (Treasury.GetTaxCap t denom)))
    | None => Err WasmTypes.ErrInvalidRequest
    end
  end.

End treasury_query.

(** *** Staking ([custom/staking/wasm/interface.go]) *)

(** What the querier asks of the staking and distribution keepers. *)
Record ValidatorView : Type := mkValidatorView {
  OperatorAddress : string; CommissionRate : Dec; MaxRate : Dec; MaxChangeRate : Dec;
  TokensFromShares : Dec -> res Dec }.

Record DelegationView : Type := mkDelegationView {
  DelegatorAddress : string; ValidatorAddress : string; Shares : Dec }.

Class StakingQueries (K : Type) : Type := {
  BondDenom : K -> string;
  GetBondedValidatorsByPower : K -> list ValidatorView;
  GetValidatorView : K -> ValAddress -> option ValidatorView;
  GetAllDelegatorDelegations : K -> AccAddress -> list DelegationView;
  GetDelegation : K -> AccAddress -> ValAddress -> option DelegationView;
  HasReceivingRedelegation : K -> AccAddress -> ValAddress -> bool;
  (* on a cached context *)
  DelegationRewards : K -> string -> string -> res (list DecCoin);
}.

Section staking_query.
Context {M : SdkMath} {C : SdkCoins} {A : Bech32} {I : IntText} {K : Type} {SQ : StakingQueries K}.
Context (dec_text : Dec -> string).

Record WasmValidator : Type := mkWasmValidator {
  VAddress : string; VCommission : string; VMaxCommission : string; VMaxChangeRate : string }.

Record WasmDelegation : Type := mkWasmDelegation { DDelegator : string; DValidator : string; DAmount : WasmCoin }.

Record FullDelegation : Type := mkFull {
  FDelegator : string; FValidator : string; FAmount : WasmCoin; AccumulatedRewards : list WasmCoin;
  CanRedelegate : WasmCoin }.

Inductive StakingResponse : Type :=
| BondedDenomResponse (denom : string)
| AllValidatorsResponse (validators : list WasmValidator)
| ValidatorResponse (validator : option WasmValidator)
| AllDelegationsResponse (delegations : list WasmDelegation)
| DelegationResponse (delegation : option FullDelegation).

Context (Marshal : StakingResponse -> res string).

Definition ErrNoValidatorFound : error := Registered "staking" "ErrNoValidatorFound".

Definition wasm_validator (v : ValidatorView) : WasmValidator :=
  mkWasmValidator (OperatorAddress v) (dec_text (CommissionRate v)) (dec_text (MaxRate v))
    (dec_text (MaxChangeRate v)).

(** The bonded amount of a delegation. *)
Definition delegation_coin (k : K) (val : ValidatorView) (del : DelegationView) : res Coin :=
  tokens ← TokensFromShares val (Shares del);
  amount ← dec_truncate_int tokens;
  new_coin (BondDenom k) amount.

Definition encode_one (k : K) (responseDelegations : list WasmDelegation) (del : DelegationView)
    : res (list WasmDelegation) :=
  valAddr ← wrap_err WasmTypes.ErrInvalidAddress (ValAddressFromBech32 (ValidatorAddress del));
  match GetValidatorView k valAddr with
  | None => Err ErrNoValidatorFound
  | Some val =>
      amount ← delegation_coin k val del;
      Ok (responseDelegations ++
            [mkWasmDelegation (DelegatorAddress del) (ValidatorAddress del) (EncodeSdkCoin amount)])
  end.

Definition encodeDelegations (k : K) (delegations : list DelegationView) : res (list WasmDelegation) :=
  foldM (encode_one k) delegations [].

Definition getAccumulatedRewards (k : K) (del : DelegationView) : res (list WasmCoin) :=
  rewards ← DelegationRewards k (DelegatorAddress del) (ValidatorAddress del);
  foldM (fun l r => t ← dec_truncate_int (dcoin_amount r); Ok (l ++ [mkWasmCoin (dcoin_denom r) (IntString t)]))
    rewards [].

Definition encodeDelegation (k : K) (del : DelegationView) : res FullDelegation :=
  delAddr ← wrap_err WasmTypes.ErrInvalidAddress (AccAddressFromBech32 (DelegatorAddress del));
  valAddr ← wrap_err WasmTypes.ErrInvalidAddress (ValAddressFromBech32 (ValidatorAddress del));
  match GetValidatorView k valAddr with
  | None => Err ErrNoValidatorFound
  | Some val =>
      amount ← delegation_coin k val del;
      let delegationCoin := EncodeSdkCoin amount in
      accumulatedRewards ← getAccumulatedRewards k del;
      let redelegateCoin :=
        if negb (HasReceivingRedelegation k delAddr valAddr) then delegationCoin
        else mkWasmCoin (BondDenom k) "0" in
      Ok (mkFull (DelegatorAddress del) (ValidatorAddress del) delegationCoin accumulatedRewards redelegateCoin)
  end.

Definition staking_Query (k : K) (request : StakingQuery) : res string :=
  match QBondedDenom request, QAllValidators request, QValidator request, QAllDelegations request,
        QDelegation request with
  | Some _, _, _, _, _ => Marshal (BondedDenomResponse (BondDenom k))
  | _, Some _, _, _, _ => Marshal (AllValidatorsResponse (wasm_validator <$> GetBondedValidatorsByPower k))
  | _, _, Some address, _, _ =>
      validatorAddr ← ValAddressFromBech32 address;
      Marshal (ValidatorResponse (wasm_validator <$> GetValidatorView k validatorAddr))
  | _, _, _, Some text, _ =>
      delegator ← wrap_err WasmTypes.ErrInvalidAddress (AccAddressFromBech32 text);
      responseDelegations ← encodeDelegations k (GetAllDelegatorDelegations k delegator);
      Marshal (AllDelegationsResponse responseDelegations)
  | _, _, _, _, Some (dtext, vtext) =>
      delegator ← wrap_err WasmTypes.ErrInvalidAddress (AccAddressFromBech32 dtext);
      validator ← wrap_err WasmTypes.ErrInvalidAddress (ValAddressFromBech32 vtext);
      match GetDelegation k delegator validator with
      | Some delegation =>
          full ← encodeDelegation k delegation;
          Marshal (DelegationResponse (Some full))
      | None => Marshal (DelegationResponse None)
      end
  | None, None, None, None, None => Err (UnsupportedRequest "unknown Staking variant")
  end.

End staking_query.

(** ** Queries do not write *)

Section read_only.
Context {G : GasMeters} {B K T X : Type}.

Abbreviation S := (wstate B K T X).

(** A query leaves stores and events as they are, whatever its outcome. *)
Definition reads_only {R} (c : wst S R) : Prop :=
  forall s, (c s).1 <> NoFuel /\ world (c s).2 = world s /\ events (c s).2 = events s.

Lemma ro_bind {R V} (c : wst S R) (k : R -> wst S V) :
  reads_only c -> (forall x, reads_only (k x)) -> reads_only (c ≫= k).
Proof.
  intros Hc Hk s. destruct (Hc s) as (H1 & H2 & H3). unfold mbind, wst_bind.
  destruct (c s) as [[x|e| | |] s1]; cbn in *; try done.
  destruct (Hk x s1) as (H4 & H5 & H6). split; [done|]. split; congruence.
Qed.

Lemma ro_lift {R} (c : res R) : reads_only (wlift c).
Proof. intros s. by destruct c. Qed.

Lemma ro_ret {R} (x : R) : reads_only (mret x).
Proof. done. Qed.

Lemma ro_fail {R} e : reads_only (wfail e : wst S R).
Proof. done. Qed.

Lemma ro_gets {R} (f : S -> R) : reads_only (wgets f).
Proof. done. Qed.

Lemma ro_meter m : reads_only (wmodify (set_meter m) : wst S unit).
Proof. done. Qed.

Lemma ro_consume g : reads_only (ConsumeGas g : wst S unit).
Proof. intros s. unfold ConsumeGas. by destruct (consume_gas _ _) as [[] m]. Qed.

Lemma ro_cost c : reads_only (consume_cost c : wst S unit).
Proof. apply ro_bind; [apply ro_lift|intros g; apply ro_consume]. Qed.

Lemma ro_found {R} (o : option R) e : reads_only (found o e : wst S R).
Proof. by destruct o. Qed.

Lemma ro_reads {R} {SG : StoreGas B K T X} a (f : World B K T X -> R) : reads_only (reads a f).
Proof. apply ro_bind; [apply ro_gets|]. intros w. apply ro_bind; [apply ro_consume|]. intros _. apply ro_ret. Qed.

Lemma ro_or_else {R} code (c : wst S R) : reads_only c -> reads_only (or_else code c).
Proof. intros Hc s. destruct (Hc s) as (H1 & H2 & H3). unfold or_else. by destruct (c s) as [[] s1]. Qed.

Lemma ro_recovered {R} (c : wst S R) : reads_only c -> reads_only (recovered c).
Proof. intros Hc s. destruct (Hc s) as (H1 & H2 & H3). unfold recovered. by destruct (c s) as [[] s1]. Qed.

Lemma ro_with_gas_meter {R} m (c : wst S R) : reads_only c -> reads_only (with_gas_meter m c).
Proof. intros Hc s. specialize (Hc (set_meter m s)). unfold with_gas_meter. by destruct (c _) as [r s1]. Qed.

End read_only.

#[export] Hint Resolve ro_lift ro_ret ro_fail ro_gets ro_meter ro_consume ro_cost ro_found ro_reads
  ro_or_else ro_recovered ro_with_gas_meter : go.

Ltac ro := repeat first [solve [auto with go] | apply ro_bind; [|intros ?] | case_match].

(** The machine gives a query the store of the contract for reading only. *)
Class WasmVMReadOnly (B K T X : Type) {G : GasMeters} (VM : WasmVM B K T X G) : Prop := {
  vm_query_reads msg h env kv api w d m g : vm_store (vm_query msg h env kv api w d m g) = kv;
}.

Section query_facts.
Context {M : SdkMath} {C : SdkCoins} {U : SdkUint} {A : Bech32} {I : IntText} {H : Crypto} {Gz : Gzip}.
Context {F : ForeignMsgs} {D : MsgDecoding} {G : GasMeters}.
Context {B : Type} {BK : BankKeeper B} {K : Type} {AK : AccountKeeper K} {FD : BankEffects B K}.
Context {T : Type} {TK : Ante.TreasuryKeeper T} {X : Type} {VM : WasmVM B K T X G} {SG : StoreGas B K T X}.
Context {VR : WasmVMReadOnly B K T X VM}.
Context (VerifyAddressFormat : string -> res unit) (ctx : BlockCtx).

Abbreviation S := (wstate B K T X).

Lemma ro_contract depth a msg : reads_only (queryToContract VerifyAddressFormat ctx depth a msg : wst S string).
Proof.
  unfold queryToContract, getContractDetails, GetContractInfo, GetCodeInfo, consumeWasmVMGas.
  do 3 (apply ro_bind; [solve [ro]|intros ?]). apply ro_bind; [ro|]. intros m. apply ro_bind; [ro|]. intros gas s.
  rewrite wbind_gets, wbind_modify. cbv zeta. set (r := vm_query _ _ _ _ _ _ _ _ _).
  assert (Hr : set_store a (vm_store r) (world s) = world s).
  { unfold set_store, r. rewrite vm_query_reads. by rewrite decide_True. }
  rewrite Hr. set (s1 := mkW _ _ _).
  assert (Hro : reads_only (ConsumeGas (FromWasmVMGas (to_uint64 (vm_gas r + GasMultiplier)));;
    match vm_out r with inl x => mret x | inr _ => wfail ErrContractQueryFailed end : wst S string)) by ro.
  exact (Hro s1).
Qed.

Lemma ro_store a key : reads_only (queryToStore a key : wst S (option string)).
Proof. destruct key; cbn; auto with go. Qed.

Lemma ro_wasm_Query depth request : reads_only (wasm_Query VerifyAddressFormat ctx depth request : wst S (option string)).
Proof.
  pose proof ro_contract. pose proof ro_store. unfold wasm_Query. ro.
Qed.

(** *** Clients *)

Context (ContractQueryGasLimit : Z).

(** C32. A client's query to a contract always gets an answer, a result or an error,
    however the contract behaves, also when the query runs out of gas or panics,
    and the node is as before: stores, events and gas.  The machine gives
    queries the stores for reading only. *)
Theorem client_query_safe contract msg (s : S) :
  (forall t, AccAddressFromBech32 t <> Panic) ->
  let r := service_ContractStore VerifyAddressFormat ctx ContractQueryGasLimit contract msg s in
  returns r.1 /\ r.2 = s.
Proof.
  intros Hp. cbv zeta. unfold service_ContractStore, with_gas_meter.
  set (s0 := set_meter _ s). unfold mbind, wst_bind, wlift.
  specialize (Hp contract). destruct (AccAddressFromBech32 contract) as [a|e|]; [|by destruct s|done].
  cbn [wrap_err of_res]. unfold recovered, or_else.
  pose proof (ro_contract None a msg s0) as (H1 & H2 & H3).
  destruct (queryToContract _ _ _ _ _ s0) as [[x|e| | |] s1]; cbn in *; try done;
    (split; [done|]; destruct s; unfold set_meter in *; cbn in *; by rewrite H2, H3).
Qed.

(** The legacy querier gives clients the same result. *)
Theorem legacy_contract_store_agrees {AL : Bech32Laws A} UnmarshalContractStore data a msg bz (s : S) :
  UnmarshalContractStore data = Ok (a, msg) -> address_ok a = true ->
  (queryContractStore VerifyAddressFormat ctx ContractQueryGasLimit UnmarshalContractStore data s).1 = Done (Some bz) <->
  (service_ContractStore VerifyAddressFormat ctx ContractQueryGasLimit (AccAddressString a) msg s).1 = Done bz.
Proof.
  intros Hd Ha. unfold queryContractStore, service_ContractStore, with_gas_meter, decode, mbind, wst_bind, wlift.
  rewrite Hd, acc_bech32_round by done. cbn [wrap_err of_res]. unfold recovered, or_else.
  destruct (queryToContract _ _ _ _ _ _) as [[x|e| | |] s1]; cbn; split; congruence.
Qed.

(** *** Contracts *)

Context (UnmarshalCustom : string -> res WasmCustomQuery).

(** All the modules that a querier can ask have the property [P]. *)
Definition modules (P : wst S (option string) -> Prop) (q : Querier B K T X) : Prop :=
  (forall route i, Queriers q !! route = Some i ->
     (forall r, P (i_Query i r)) /\ forall d, P (i_QueryCustom i d)) /\
  (forall f r, StargateQuerier q = Some f -> P (f r)).

Lemma registered_all P (q : Querier B K T X) route ask :
  (forall e, P (wfail e)) -> (forall i, Queriers q !! route = Some i -> P (ask i)) -> P (registered q route ask).
Proof. intros Hf Ha. unfold registered. destruct (Queriers q !! route) as [i|] eqn:Ei; [by apply Ha|apply Hf]. Qed.

(** What fails and what decodes first can have, the switch has from the modules. *)
Lemma do_query_all P (q : Querier B K T X) request :
  (forall e, P (wfail e)) ->
  (forall (c : res WasmCustomQuery) k, (forall x, P (k x)) -> P (wlift c ≫= k)) ->
  modules P q -> P (do_query UnmarshalCustom q request).
Proof.
  intros Hf Hb [Hq Hg]. unfold do_query. repeat case_match;
    first [ apply registered_all; [done|]; intros i Hi; destruct (Hq _ i Hi) as [? ?]; solve [auto]
          | by eapply Hg
          | apply Hb; intros c; apply registered_all; [done|]; intros i Hi; destruct (Hq _ i Hi) as [? ?]; solve [auto]
          | apply Hf ].
Qed.

(** Queries do not write: if the modules only read, a query of a contract leaves
    stores and events as they are on every outcome; the wasm module only reads,
    also when the contract that is asked asks further contracts. *)
Theorem contract_queries_read_only (q : Querier B K T X) request gasLimit depth wasm_request :
  modules reads_only q ->
  reads_only (Query UnmarshalCustom q request gasLimit) /\
  reads_only (wasm_Query VerifyAddressFormat ctx depth wasm_request : wst S (option string)).
Proof.
  intros Hq. split; [|apply ro_wasm_Query].
  assert (Hd : reads_only (do_query UnmarshalCustom q request)).
  { apply do_query_all; [apply ro_fail| |done]. intros c k Hk. apply ro_bind; [apply ro_lift|done]. }
  intros s. unfold Query. specialize (Hd (set_meter (NewGasMeter (gasLimit / GasMultiplier)) s)).
  destruct (do_query _ _ _ _) as [r s1]. destruct (consume_gas _ _) as [g m]. cbn in *.
  destruct Hd as (H1 & H2 & H3). by destruct g.
Qed.

Context {GL : GasMetersLaws G}.

(** If the modules keep to their gas, the gas of a query is charged to the
    contract that asks, exactly, and is within the limit it set; and a query
    that returns has not been cut short: the contract sees the outcome of the
    module. *)
Theorem subquery_charged n (q : Querier B K T X) request gasLimit (s : S) :
  modules (good n) q ->
  ready n (meter s) -> 0 <= gasLimit / GasMultiplier <= gas_limit (meter s) - gas_consumed (meter s) ->
  let r := Query UnmarshalCustom q request gasLimit s in
  let sub := do_query UnmarshalCustom q request (set_meter (NewGasMeter (gasLimit / GasMultiplier)) s) in
  charged (meter s) (meter r.2) /\
  (returns sub.1 -> r.1 = sub.1 /\
     gas_consumed (meter r.2) = gas_consumed (meter s) + gas_consumed (meter sub.2) /\
     gas_consumed (meter sub.2) <= gasLimit / GasMultiplier).
Proof.
  intros Hq Hr Hl. cbv zeta. set (s0 := set_meter _ s).
  assert (Hd : good n (do_query UnmarshalCustom q request)).
  { apply do_query_all; [good| |done]. intros c k Hk. apply good_bind; [good|done]. }
  destruct (Hd s0 (new_ready n _ _ Hr Hl)) as (H1 & (H2 & H3 & H4) & H5). unfold Query. fold s0.
  cbn in H2, H3, H4. rewrite new_limit in H2. rewrite new_consumed in H4.
  destruct (do_query _ _ _ s0) as [r s1]. cbn in *.
  pose proof (consume_charged (gas_consumed (meter s1)) (meter s) H4) as Hc.
  pose proof (consume_enough (gas_consumed (meter s1)) (meter s)) as He.
  pose proof (consume_ok (gas_consumed (meter s1)) (meter s)) as Ho.
  destruct (consume_gas _ (meter s)) as [g m]. cbn in *. split; [done|]. intros Hret.
  pose proof (ready_within n _ (H5 Hret)) as Hw. unfold within in Hw. rewrite H2 in Hw.
  destruct Hr as (Hlim & _ & _ & H64 & _). rewrite He in * by (done || lia).
  split; [done|]. split; [by apply Ho|done].
Qed.

End query_facts.

(** ** What the modules answer *)

(** The machine charges its queries like its calls. *)
Class WasmVMQueryLaws (B K T X : Type) {G : GasMeters} {GL : GasMetersLaws G} (VM : WasmVM B K T X G) : Prop := {
  vm_query_charged msg h env kv api w d m g : charged m (vm_meter (vm_query msg h env kv api w d m g));
}.

Section answers.
Context {M : SdkMath} {C : SdkCoins} {U : SdkUint} {UL : SdkUintLaws U} {A : Bech32} {I : IntText}.
Context {G : GasMeters} {GL : GasMetersLaws G} {B : Type} {K : Type} {T : Type} {X : Type}.
Context {VM : WasmVM B K T X G} {VL : WasmVMQueryLaws B K T X VM}.
Context {SG : StoreGas B K T X} {SL : StoreGasLaws B K T X SG}.
Context (VerifyAddressFormat : string -> res unit) (ctx : BlockCtx).

(** The wasm module keeps to the gas of the query. *)
Lemma good_wasm_Query n depth request :
  good n (wasm_Query VerifyAddressFormat ctx depth request : wst (wstate B K T X) (option string)).
Proof.
  unfold wasm_Query. destruct (QSmart request) as [[c m]|].
  - apply good_bind; [good|]. intros a. apply good_bind; [|good]. unfold queryToContract. apply good_bind.
    { apply good_cost. intros g Hg. apply InstantiateContractCosts_least in Hg. unfold instantiateCost in Hg. lia. }
    intros _. apply good_bind; [unfold getContractDetails, GetContractInfo, GetCodeInfo; good|]. intros info.
    apply good_bind; [good|]. intros d s Hr. rewrite wbind_gets.
    destruct (getWasmVMGasRemaining (meter s)) as [g|e|]; [|split; [done|split; [reflexivity|done]]..].
    rewrite wbind_lift, wbind_gets, wbind_modify. unfold consumeWasmVMGas.
    apply good_consume_bind; [apply FromWasmVMGas_nonneg|exact Hr|apply vm_query_charged|]. intros _.
    destruct (vm_out _); good.
  - destruct (QRaw request) as [[c [k|]]|]; unfold queryToStore; good.
Qed.

Lemma good_wasm_QueryCustom n Unmarshal Marshal data :
  good n (wasm_QueryCustom Unmarshal Marshal data : wst (wstate B K T X) (option string)).
Proof. unfold wasm_QueryCustom, GetContractInfo. good. destruct x; good. Qed.

End answers.

Section module_answers.
Context {M : SdkMath} {ML : SdkMathLaws M} {C : SdkCoins} {CL : SdkCoinsLaws M C} {A : Bech32} {I : IntText}.

(** *** Exchange rates *)

Definition has_rate (s : OracleStore.store) (d : string) : bool :=
  match GetLunaExchangeRate s d with Ok _ => true | _ => false end.

(** An item of the answer: the rate of its currency in the base currency. *)
Definition cross_item (dec_text : Dec -> string) (s : OracleStore.store) (base : Dec) (item : ExchangeRateItem) : Prop :=
  exists quote rate, GetLunaExchangeRate s (IQuoteDenom item) = Ok quote /\
    dec_quo quote base = Ok rate /\ IRate item = dec_text rate.

Lemma quote_items_Ok dec_text s base l items items' :
  foldM (quote_item dec_text s base) l items = Ok items' ->
  exists new, items' = items ++ new /\ IQuoteDenom <$> new = List.filter (has_rate s) l /\
    Forall (cross_item dec_text s base) new.
Proof.
  revert items. induction l as [|d l IH]; intros items E; cbn in E.
  { injection E as <-. exists []. split; [by rewrite app_nil_r|]. split; [done|constructor]. }
  go_inv. apply IH in E as (new & -> & Hn & Hf). unfold quote_item in Hv. cbn [List.filter]. unfold has_rate at 1.
  destruct (GetLunaExchangeRate s d) as [q|e|] eqn:Eq; [|by simplify_eq; exists new|done].
  go_inv. exists (mkItem (dec_text v0) d :: new). rewrite <- app_assoc. split; [done|].
  split; [by rewrite fmap_cons, Hn|]. constructor; [by exists q, v0|done].
Qed.

(** A contract that asks for exchange rates gets, in the order it asked, the
    currencies that have a rate, each with its price in the base currency. *)
Theorem cross_rates_answered dec_text Unmarshal Marshal s data q bz :
  Unmarshal data = Ok (Some q) -> oracle_QueryCustom dec_text Unmarshal Marshal s data = Ok bz ->
  exists base items, GetLunaExchangeRate s (BaseDenom q) = Ok base /\
    Marshal (mkRatesResponse items (BaseDenom q)) = Ok bz /\
    IQuoteDenom <$> items = List.filter (has_rate s) (QuoteDenoms q) /\
    Forall (cross_item dec_text s base) items.
Proof.
  unfold oracle_QueryCustom. intros Hu E. rewrite Hu in E. go_inv.
  match goal with Hf : foldM _ _ _ = Ok _ |- _ => apply quote_items_Ok in Hf as (new & -> & Hn & Hf) end.
  eauto 10.
Qed.

(** The query panics when the base currency has a rate of zero and one of the
    others has a rate. *)
Theorem zero_base_panics dec_text Unmarshal Marshal s data q d l :
  Unmarshal data = Ok (Some q) -> GetLunaExchangeRate s (BaseDenom q) = Ok 0 ->
  QuoteDenoms q = d :: l -> has_rate s d = true ->
  oracle_QueryCustom dec_text Unmarshal Marshal s data = Panic.
Proof.
  unfold oracle_QueryCustom, has_rate. intros Hu Hb Hq Hd. rewrite Hu. cbn. rewrite Hb. cbn. rewrite Hq. cbn.
  assert (Hi : quote_item dec_text s 0 [] d = Panic).
  { unfold quote_item. destruct (GetLunaExchangeRate s d); [|done..]. by rewrite dec_quo_zero. }
  by rewrite Hi.
Qed.

(** *** Swaps *)

(** A contract is told exactly what a swap pays: if a swap succeeds in the state
    in which it asks, the answer is the coin that the swap returns. *)
Theorem contract_swap_quoted {O B : Type} {OK : Market.OracleKeeper O} {BK : BankKeeper B}
    ParseCoinNormalized coin_text Unmarshal Marshal
    (s s' : Market.state O B) c trader receiver offer ask sc fc data bz :
  (forall c, ParseCoinNormalized (coin_text c) = Ok c) -> ValidDenom ask = true ->
  Unmarshal data = Ok (Some (offer, ask)) -> BitLen (coin_amount offer) <= 100 ->
  Market.handleSwapRequest c trader receiver offer ask s = (Ok (sc, fc), s') ->
  market_QueryCustom ParseCoinNormalized coin_text Unmarshal Marshal s data = Ok bz <->
  Marshal (EncodeSdkCoin sc) = Ok bz.
Proof.
  intros Hp Hd Hu Hbits Hs%Market.simulated_swap; [|done]. unfold market_QueryCustom, Market.QuerySwap.
  rewrite Hu. cbn [wrap_err mbind res_bind]. rewrite Hd, Hp. cbn [wrap_err mbind res_bind fail_if negb]. rewrite Hs.
  apply wrap_err_Ok.
Qed.

(** *** Delegations *)

Context {K : Type} {SQ : StakingQueries K}.

Lemma encode_one_Ok (k : K) l del l' :
  encode_one k l del = Ok l' -> exists d, l' = l ++ [d] /\
    forall full, encodeDelegation k del = Ok full -> d = mkWasmDelegation (FDelegator full) (FValidator full) (FAmount full).
Proof.
  unfold encode_one. intros E. go_inv. destruct (GetValidatorView k v) as [val|] eqn:Ev; [|done]. go_inv.
  eexists. split; [reflexivity|]. intros full Hf. unfold encodeDelegation in Hf. go_inv.
  assert (v2 = v) as -> by congruence. rewrite Ev in Hf. go_inv. cbn. congruence.
Qed.

Lemma encode_all_Ok (k : K) l acc ds :
  foldM (encode_one k) l acc = Ok ds ->
  exists new, ds = acc ++ new /\ Forall2 (fun del d => forall full, encodeDelegation k del = Ok full ->
    d = mkWasmDelegation (FDelegator full) (FValidator full) (FAmount full)) l new.
Proof.
  revert acc. induction l as [|x l IH]; intros acc E; cbn in E.
  { injection E as <-. exists []. split; [by rewrite app_nil_r|constructor]. }
  go_inv. apply encode_one_Ok in Hv as (d & -> & Hd). apply IH in E as (new & -> & Hn).
  exists (d :: new). rewrite <- app_assoc. split; [done|]. by constructor.
Qed.

(** The list of delegations and the query for a single one agree: the list has
    one entry for each delegation, in order, with the amount of the single
    answer. *)
Theorem delegations_consistent (k : K) l ds i del full :
  encodeDelegations k l = Ok ds -> l !! i = Some del -> encodeDelegation k del = Ok full ->
  length ds = length l /\
  ds !! i = Some (mkWasmDelegation (FDelegator full) (FValidator full) (FAmount full)).
Proof.
  intros (new & -> & Hn)%encode_all_Ok Hi Hf. split; [symmetry; by eapply Forall2_length|].
  destruct (Forall2_lookup_l _ _ _ _ _ Hn Hi) as (d & Hd & He). cbn. rewrite Hd. f_equal. by apply He.
Qed.

End module_answers.

(** ** Examples *)

Module WasmQueryExample.
Import WasmExample.
#[local] Existing Instance ref_math.
#[local] Existing Instance ref_coins.
#[local] Existing Instance ref_bech32.
#[local] Existing Instance ref_uint.
#[local] Existing Instance ref_uint_laws.
#[local] Existing Instance ref_meters.
#[local] Existing Instance ref_meters_laws.
#[local] Existing Instance ref_int_text.
#[local] Existing Instance ref_store_gas.
#[local] Existing Instance ref_store_gas_laws.
#[local] Existing Instance ref_vm.

#[local] Instance ref_vm_read_only : WasmVMReadOnly RefBank (gset string) T0 unit ref_vm.
Proof. by split. Qed.

(** A client asks a contract, with enough gas and with too little. *)
Lemma client_query_safe_witness :
  let ask limit := service_ContractStore accepts block0 limit "tpayer" "{}" state0 in
  returns (ask 100).1 /\ (ask 100).2 = state0 /\ (ask 100).1 = Failed WasmTypes.ErrOutOfGas /\
  (ask 1000000).1 = Done "answer".
Proof.
  assert (Hp : forall t, AccAddressFromBech32 t <> Panic) by (intros [|[] t]; cbn; repeat case_match; done).
  destruct (client_query_safe accepts block0 100 "tpayer" "{}" state0 Hp) as [H1 H2].
  split; [exact H1|]. split; [exact H2|]. by split; vm_compute.
Defined.

#[local] Instance ref_vm_query_laws : WasmVMQueryLaws RefBank (gset string) T0 unit ref_vm.
Proof. split. intros. reflexivity. Qed.

(** The querier of a node on which only the wasm module answers. *)
Definition wasm_answers : WasmQuerierInterface RefBank (gset string) T0 unit := mkQuerier
  (fun r => match RWasm r with
            | Some request => wasm_Query accepts block0 (Some 1) request
            | None => wfail (UnsupportedRequest "unknown WasmQuery variant")
            end)
  (wasm_QueryCustom (fun s => Ok (Some s)) (fun info => Ok (IRCreator info))).

Definition querier0 : Querier RefBank (gset string) T0 unit := mkWasmQuerier {["wasm" := wasm_answers]} None.

Lemma querier0_good n : modules (good n) querier0.
Proof.
  split; [|done]. intros route i Hi. cbn [Queriers querier0] in Hi.
  apply lookup_singleton_Some in Hi as [_ <-]. split; cbn.
  - intros r. destruct (RWasm r); [apply good_wasm_Query|good].
  - apply good_wasm_QueryCustom.
Qed.

Definition ask_payer : QueryRequest :=
  mkRequest None None None (Some (mkWasmQuery (Some ("tpayer", "{}")) None)) None None.

(** The answer of the contract, and what the query costs. *)
Lemma subquery_charged_witness :
  let r := Query (fun s => Ok (mkCustom "wasm" s)) querier0 ask_payer 200000000 state0 in
  r.1 = Done (Some "answer") /\ charged (meter state0) (meter r.2) /\
  0 < gas_consumed (meter r.2) <= 200000000 / GasMultiplier.
Proof.
  assert (Hl : 0 <= 200000000 / GasMultiplier <= gas_limit (meter state0) - gas_consumed (meter state0))
    by (vm_compute; split; congruence).
  destruct (subquery_charged (fun s => Ok (mkCustom "wasm" s)) 200 querier0 ask_payer 200000000 state0
    (querier0_good 200) state0_ready Hl) as [H1 _].
  split; [by vm_compute|]. split; [exact H1|]. vm_compute. split; congruence.
Defined.

End WasmQueryExample.
