(* ===== verification/GasStore.v ===== *)
(** * The gas-tracking store of the wasm module ([x/wasm/types/gas_store.go])

    Contracts read and write their storage through this store, which charges the
    gas meter and passes every access on to the store below it.  The store below
    and its iterators are those of the SDK: an argument. *)

From Stdlib Require Import ZArith Lia Bool.
From stdpp Require Import base strings list.
From S2P Require Import Prelude Loops Sdk SdkRef WasmTypes WasmMsgs Wasm WasmFacts.
Local Open Scope Z_scope.

(** [types.KVStore] of the SDK; an iterator is the list of what is left of it. *)
Class KVStore (P : Type) : Type := {
  kv_get : P -> string -> option string;
  kv_has : P -> string -> bool;
  kv_set : string -> string -> P -> P;
  kv_delete : string -> P -> P;
  kv_iterator : P -> option string -> option string -> list (string * string);
  kv_reverse_iterator : P -> option string -> option string -> list (string * string);
}.

(** [types.GasConfig]. *)
Record GasConfig : Type := mkGasConfig {
  HasCost : Z; DeleteCost : Z; ReadCostFlat : Z; ReadCostPerByte : Z; WriteCostFlat : Z; WriteCostPerByte : Z;
  IterNextCostFlat : Z }.

Section gas_store.
Context {G : GasMeters} {P : Type} {KV : KVStore P} (gasConfig : GasConfig).

(** [types.AssertValidKey] and [types.AssertValidValue], which panic. *)
Context (AssertValidKey : string -> res unit) (AssertValidValue : option string -> res unit).

Record Store : Type := mkStore { gasMeter : Meter; parent : P }.

(** ** Charging *)

Definition charge (g : Z) : wst Store unit := fun gs =>
  let '(r, m) := consume_gas g (gasMeter gs) in
  (match r with
   | GasOk => Done tt
   | GasOut => OutOfGas
   | GasOverflow => Crashed
   end, mkStore m (parent gs)).

(** [cost * types.Gas(len(bz))], in 64 bits. *)
Definition byte_len (bz : string) : Z := Z.of_nat (String.length bz).
Definition per_byte (cost : Z) (bz : string) : Z := to_uint64 (cost * byte_len bz).

(** ** The store *)

Definition Get (key : string) : wst Store (option string) :=
  charge (ReadCostFlat gasConfig);;
  value ← wgets (fun gs => kv_get (parent gs) key);
  charge (per_byte (ReadCostPerByte gasConfig) key);;
  charge (per_byte (ReadCostPerByte gasConfig) (default "" value));;
  mret value.

Definition set_parent (f : P -> P) : wst Store unit := wmodify (fun gs => mkStore (gasMeter gs) (f (parent gs))).

Definition Set_ (key : string) (value : option string) : wst Store unit :=
  wlift (AssertValidKey key);;
  wlift (AssertValidValue value);;
  charge (WriteCostFlat gasConfig);;
  charge (per_byte (WriteCostPerByte gasConfig) key);;
  charge (per_byte (WriteCostPerByte gasConfig) (default "" value));;
  set_parent (kv_set key (default "" value)).

Definition Has (key : string) : wst Store bool :=
  charge (HasCost gasConfig);;
  wgets (fun gs => kv_has (parent gs) key).

Definition Delete (key : string) : wst Store unit :=
  charge (DeleteCost gasConfig);;
  set_parent (kv_delete key).

(** ** Iterators *)

Definition gasIterator : Type := list (string * string).

Definition Valid (gi : gasIterator) : bool := match gi with [] => false | _ => true end.

(** [Key] and [Value] of an iterator at its end panic. *)
Definition Key (gi : gasIterator) : res string := match gi with [] => Panic | e :: _ => Ok e.1 end.
Definition Value (gi : gasIterator) : res string := match gi with [] => Panic | e :: _ => Ok e.2 end.

Definition consumeSeekGas (gi : gasIterator) : wst Store unit :=
  (if Valid gi then
     key ← wlift (Key gi);
     value ← wlift (Value gi);
     charge (per_byte (ReadCostPerByte gasConfig) key);;
     charge (per_byte (ReadCostPerByte gasConfig) value)
   else mret tt);;
  charge (IterNextCostFlat gasConfig).

(** [Next]; that of the parent panics at the end. *)
Definition Next (gi : gasIterator) : wst Store gasIterator :=
  consumeSeekGas gi;;
  wlift (match gi with
         | [] => Panic
         | _ :: rest => Ok rest
         end).

Definition iterator (start end_ : option string) (ascending : bool) : wst Store gasIterator :=
  gi ← wgets (fun gs =>
    if ascending then kv_iterator (parent gs) start end_ else kv_reverse_iterator (parent gs) start end_);
  consumeSeekGas gi;;
  mret gi.

Definition Iterator (start end_ : option string) : wst Store gasIterator := iterator start end_ true.
Definition ReverseIterator (start end_ : option string) : wst Store gasIterator := iterator start end_ false.

(** [for ; it.Valid(); it.Next() { ... }], which collects what it sees. *)
Fixpoint iterate_rest (gi : gasIterator) (seen : list (string * string)) : wst Store (list (string * string)) :=
  match gi with
  | [] => mret seen
  | e :: rest => _ ← Next gi; iterate_rest rest (seen ++ [e])
  end.

Definition iterate_all (start end_ : option string) (ascending : bool) : wst Store (list (string * string)) :=
  gi ← iterator start end_ ascending;
  iterate_rest gi [].

End gas_store.

(** [KVStore]: which store is used, that of the SDK before the fork. *)
Definition uses_sdk_store (ChainID : string) (BlockHeight : Z) : bool :=
  (String.eqb ChainID "bombay-12" && (BlockHeight <? 7800000)) ||
  (String.eqb ChainID "columbus-5" && (BlockHeight <? 6470000)).

(** ** Theorems *)

Section gas_store_facts.
Context {G : GasMeters} {GL : GasMetersLaws G} {P : Type} {KV : KVStore P} (gasConfig : GasConfig).
Context (AssertValidKey : string -> res unit) (AssertValidValue : option string -> res unit).

Definition spent (gs gs' : Store (P := P)) : Z := gas_consumed (gasMeter gs') - gas_consumed (gasMeter gs).

Lemma charge_spent g (gs gs' : Store (P := P)) :
  charge g gs = (Done tt, gs') -> parent gs' = parent gs /\ spent gs gs' = g.
Proof.
  unfold charge, spent. intros H. destruct (consume_gas g (gasMeter gs)) as [r m] eqn:E.
  destruct r; [|done..]. injection H as <-. apply consume_ok in E. cbn. split; [done|lia].
Qed.

Lemma charge_parent g (gs : Store (P := P)) : parent (charge g gs).2 = parent gs.
Proof. unfold charge. by destruct (consume_gas g (gasMeter gs)). Qed.

(** A call that changes the store below only if it succeeds. *)
Definition quiet {T} (c : wst (Store (P := P)) T) : Prop :=
  forall gs o gs', c gs = (o, gs') -> (forall x, o <> Done x) -> parent gs' = parent gs.

Lemma quiet_bind {T U} (c : wst (Store (P := P)) T) (k : T -> wst Store U) :
  (forall gs, parent (c gs).2 = parent gs) -> (forall x, quiet (k x)) -> quiet (c ≫= k).
Proof.
  intros Hc Hk gs o gs' H Ho. specialize (Hc gs). unfold mbind, wst_bind in H.
  destruct (c gs) as [[x|e| | |] gs1]; cbn in Hc; [by rewrite (Hk x _ _ _ H Ho), Hc|..]; by injection H as <- <-.
Qed.

Lemma set_quiet key value : quiet (Set_ gasConfig AssertValidKey AssertValidValue key value).
Proof.
  unfold Set_. repeat (apply quiet_bind; [intros; first [apply charge_parent|done]|intros _]).
  intros gs o gs' H Ho. unfold set_parent, wmodify in H. injection H as <- <-. by destruct (Ho tt).
Qed.

(** What reading an entry costs for each of its bytes. *)
Definition entry_cost (e : string * string) : Z :=
  per_byte (ReadCostPerByte gasConfig) e.1 + per_byte (ReadCostPerByte gasConfig) e.2.

(** A read answers what the store below answers, leaves it as it is, and costs the
    flat price and that of the bytes of the key and the value. *)
Theorem read_through key (gs gs' : Store (P := P)) v :
  Get gasConfig key gs = (Done v, gs') ->
  v = kv_get (parent gs) key /\ parent gs' = parent gs /\
  spent gs gs' = ReadCostFlat gasConfig + entry_cost (key, default "" v).
Proof.
  unfold Get. intros H. w_inv. repeat match goal with x : unit |- _ => destruct x end.
  apply charge_spent in Hx as [P1 S1], Hx1 as [P2 S2], Hx2 as [P3 S3]. unfold entry_cost, spent in *. cbn in *.
  split; [congruence|]. split; [congruence|]. rewrite P1 in *. lia.
Qed.

(** A write that succeeds is passed on and paid for; one that runs out of gas or is
    refused changes nothing below. *)
Theorem write_through key value (gs : Store (P := P)) o gs' :
  Set_ gasConfig AssertValidKey AssertValidValue key value gs = (o, gs') ->
  match o with
  | Done _ =>
      parent gs' = kv_set key (default "" value) (parent gs) /\
      spent gs gs' = WriteCostFlat gasConfig + per_byte (WriteCostPerByte gasConfig) key +
        per_byte (WriteCostPerByte gasConfig) (default "" value)
  | _ => parent gs' = parent gs
  end.
Proof.
  intros H. destruct o as [u|e| | |]; [|by eapply (set_quiet key value); [exact H|]..].
  unfold Set_, set_parent in H. w_inv. repeat match goal with x : unit |- _ => destruct x end.
  apply charge_spent in Hx1 as [P1 S1], Hx2 as [P2 S2], Hx3 as [P3 S3]. unfold spent in *. cbn.
  split; [congruence|lia].
Qed.

Lemma seek_spent gi (gs gs' : Store (P := P)) :
  consumeSeekGas gasConfig gi gs = (Done tt, gs') ->
  parent gs' = parent gs /\
  spent gs gs' = (match gi with [] => 0 | e :: _ => entry_cost e end) + IterNextCostFlat gasConfig.
Proof.
  unfold consumeSeekGas. intros H. destruct gi as [|e gi]; cbn [Valid Key Value] in H; w_inv;
    repeat match goal with x : unit |- _ => destruct x end.
  - apply charge_spent in H as [P1 S1]. split; [done|]. lia.
  - repeat match goal with H : charge _ _ = _ |- _ => apply charge_spent in H as [? ?] end.
    unfold entry_cost, spent in *. split; [congruence|]. lia.
Qed.

Lemma iterate_rest_spent gi : forall seen (gs gs' : Store (P := P)) l,
  iterate_rest gasConfig gi seen gs = (Done l, gs') ->
  l = seen ++ gi /\ parent gs' = parent gs /\
  spent gs gs' = sumZ entry_cost gi + Z.of_nat (length gi) * IterNextCostFlat gasConfig.
Proof.
  induction gi as [|e gi IH]; intros seen gs gs' l H; cbn [iterate_rest] in H; w_inv.
  - rewrite app_nil_r, sumZ_nil. unfold spent. split_and!; [done|done|cbn [length]; lia].
  - unfold Next in Hx. w_inv. destruct x0. apply seek_spent in Hx0 as [P1 S1]. apply IH in H as (-> & P2 & S2).
    rewrite <- app_assoc, sumZ_cons. split_and!; [done|congruence|]. cbn [length]. unfold spent in *. lia.
Qed.

(** An iteration to the end sees exactly the entries of the store below, in its
    order, and leaves it as it is.  It costs the flat price once more than there are
    entries, and the bytes of every entry, those of the first one twice. *)
Theorem iteration_charged start end_ ascending (gs gs' : Store (P := P)) l :
  iterate_all gasConfig start end_ ascending gs = (Done l, gs') ->
  l = (if ascending then kv_iterator (parent gs) start end_ else kv_reverse_iterator (parent gs) start end_) /\
  parent gs' = parent gs /\
  spent gs gs' = sumZ entry_cost l + (match l with [] => 0 | e :: _ => entry_cost e end) +
    (Z.of_nat (length l) + 1) * IterNextCostFlat gasConfig.
Proof.
  unfold iterate_all, iterator. intros H. w_inv. destruct x1. apply seek_spent in Hx1 as [P1 S1].
  apply iterate_rest_spent in H as (-> & P2 & S2). cbn [app]. split_and!; [done|congruence|].
  unfold spent in *. lia.
Qed.

End gas_store_facts.
