(* ===== verification/Legacy.v ===== *)
(** * Genesis migrations from version 0.4 ([src/x/*/legacy], [src/custom/*/legacy])

    The records of the old version, and the functions [Migrate] of the modules
    market, oracle, treasury and wasm into the genesis states that
    [InitGenesis] of the other files imports.  The maps of the old states are
    ranged over in any order and sorted by their keys.  The migrations of
    accounts, grants and proposals are in [LegacyAccounts], and that of the
    whole application in [LegacyApp]. *)

From Stdlib Require Import ZArith Lia Bool.
From stdpp Require Import base strings list gmap sorting.
From S2P Require Import Prelude Loops Sdk SdkRef Core Market Treasury WasmTypes WasmMsgs Wasm WasmFacts.
From S2P Require Import OracleBallot OracleStore.
Local Open Scope Z_scope.

(** ** The old states *)

Module V04market.

Record Params : Type := mkParams {
  BasePool : Dec; PoolRecoveryPeriod : Z (* int64 *); MinStabilitySpread : Dec }.

Record GenesisState : Type := mkGenesis { TerraPoolDelta : Dec; GParams : Params }.

End V04market.

Module V04oracle.

(** The votes on a single denomination, which version 0.5 no longer has. *)
Record ExchangeRatePrevote : Type := mkSinglePrevote {
  SPHash : string; SPDenom : string; SPVoter : ValAddress; SPSubmitBlock : Z }.
Record ExchangeRateVote : Type := mkSingleVote {
  SVExchangeRate : Dec; SVDenom : string; SVVoter : ValAddress }.

Record AggregateExchangeRatePrevote : Type := mkPrevote {
  Hash : string; PVoter : ValAddress; SubmitBlock : Z (* int64 *) }.

Record ExchangeRateTuple : Type := mkTuple { TDenom : string; TExchangeRate : Dec }.

Record AggregateExchangeRateVote : Type := mkVote {
  ExchangeRateTuples : list ExchangeRateTuple; VVoter : ValAddress }.

Record Denom : Type := mkDenom { Name : string; TobinTax : Dec }.

Record Params : Type := mkParams {
  VotePeriod : Z (* int64 *); VoteThreshold : Dec; RewardBand : Dec;
  RewardDistributionWindow : Z (* int64 *); Whitelist : list Denom;
  SlashFraction : Dec; SlashWindow : Z (* int64 *); MinValidPerWindow : Dec }.

Record GenesisState : Type := mkGenesis {
  GParams : Params;
  FeederDelegations : gmap string AccAddress;
  ExchangeRates : gmap string Dec;
  ExchangeRatePrevotes : list ExchangeRatePrevote;
  ExchangeRateVotes : list ExchangeRateVote;
  MissCounters : gmap string Z;   (* int64 *)
  AggregateExchangeRatePrevotes : list AggregateExchangeRatePrevote;
  AggregateExchangeRateVotes : list AggregateExchangeRateVote;
  TobinTaxes : gmap string Dec;
}.

(** [VoteHash.String] and [VoteHashFromHexString]. *)
Definition VoteHash_String (h : string) : string := EncodeToString h.
Definition VoteHashFromHexString (s : string) : res string := DecodeString s.

End V04oracle.

Module V04treasury.

Definition BlocksPerMinute : Z := 10.
Definition BlocksPerHour : Z := BlocksPerMinute * 60.
Definition BlocksPerDay : Z := BlocksPerHour * 24.
Definition BlocksPerWeek : Z := BlocksPerDay * 7.

Record PolicyConstraints : Type := mkPolicy {
  RateMin : Dec; RateMax : Dec; Cap : Coin; ChangeRateMax : Dec }.

Record Params : Type := mkParams {
  TaxPolicy : PolicyConstraints; RewardPolicy : PolicyConstraints;
  SeigniorageBurdenTarget : Dec; MiningIncrement : Dec;
  WindowShort : Z; WindowLong : Z; WindowProbation : Z (* int64 *) }.

Record GenesisState : Type := mkGenesis {
  GParams : Params; TaxRate : Dec; RewardWeight : Dec; TaxCaps : gmap string Int;
  TaxProceed : list Coin; EpochInitialIssuance : list Coin; CumulativeHeight : Z (* int64 *);
  TRs : list Dec; SRs : list Dec; TSLs : list Int }.

End V04treasury.

Module V04wasm.

Record Params : Type := mkParams {
  MaxContractSize : Z; MaxContractGas : Z; MaxContractMsgSize : Z (* uint64 *) }.

Record CodeInfo : Type := mkCodeInfo { CodeID : Z; CodeHash : string; Creator : AccAddress }.
Record Code : Type := mkCode { CCodeInfo : CodeInfo; CodesBytes : string }.

Record ContractInfo : Type := mkContractInfo {
  Address : AccAddress; Owner : AccAddress; ICodeID : Z; InitMsg : string; Migratable : bool }.
Record Model : Type := mkModel { Key : string; Value : string }.
Record Contract : Type := mkContract { CContractInfo : ContractInfo; ContractStore : list Model }.

Record GenesisState : Type := mkGenesis {
  GParams : Params; LastCodeID : Z; LastInstanceID : Z; Codes : list Code; Contracts : list Contract }.

Definition NewGenesisState (params : Params) (lastCodeID lastInstanceID : Z) (codes : list Code)
    (contracts : list Contract) : GenesisState :=
  mkGenesis params lastCodeID lastInstanceID codes contracts.

End V04wasm.

(** ** Sorting *)

(** [sort.Slice] with the comparison of a string in each element. *)
Definition key_le {T} (key : T -> string) (x y : T) : Prop := String.le (key x) (key y).

#[global] Instance key_le_dec {T} (key : T -> string) (x y : T) : Decision (key_le key x y).
Proof. unfold key_le. apply _. Defined.

Definition sort_Slice {T} (key : T -> string) (l : list T) : list T := merge_sort (key_le key) l.

(** ** The migrations *)

Section migrate.
Context {A : Bech32} {R : GoRange}.

(** [x/market/legacy/v05]. *)
Definition market_Migrate (g : V04market.GenesisState) : Market.GenesisState :=
  let p := V04market.GParams g in
  Market.mkGenesis 0
    (Market.mkParams (V04market.BasePool p) (to_uint64 (V04market.PoolRecoveryPeriod p))
       (V04market.MinStabilitySpread p)).

(** [x/oracle/legacy/v05]. *)
Definition migrate_prevote (prevote : V04oracle.AggregateExchangeRatePrevote)
    : AggregateExchangeRatePrevote :=
  OracleStore.mkPrevote (V04oracle.VoteHash_String (V04oracle.Hash prevote))
    (ValAddressString (V04oracle.PVoter prevote)) (to_uint64 (V04oracle.SubmitBlock prevote)).

Definition migrate_vote (vote : V04oracle.AggregateExchangeRateVote) : AggregateExchangeRateVote :=
  OracleStore.mkVote
    ((fun tuple => OracleStore.mkTuple (V04oracle.TDenom tuple) (V04oracle.TExchangeRate tuple))
       <$> V04oracle.ExchangeRateTuples vote)
    (ValAddressString (V04oracle.VVoter vote)).

Definition migrate_oracle_params (p : V04oracle.Params) : OracleStore.Params :=
  OracleStore.mkParams (to_uint64 (V04oracle.VotePeriod p)) (V04oracle.VoteThreshold p)
    (V04oracle.RewardBand p) (to_uint64 (V04oracle.RewardDistributionWindow p))
    ((fun denom => OracleStore.mkDenom (V04oracle.Name denom) (V04oracle.TobinTax denom))
       <$> V04oracle.Whitelist p)
    (V04oracle.SlashFraction p) (to_uint64 (V04oracle.SlashWindow p)) (V04oracle.MinValidPerWindow p).

Definition oracle_Migrate (g : V04oracle.GenesisState) : OracleStore.GenesisState :=
  let missCounters := (fun e => (e.1, to_uint64 e.2)) <$> range 170 (V04oracle.MissCounters g) in
  let feederDelegations :=
    (fun e => (e.1, AccAddressString e.2)) <$> range 171 (V04oracle.FeederDelegations g) in
  let exchangeRates := (fun e => OracleStore.mkTuple e.1 e.2) <$> range 172 (V04oracle.ExchangeRates g) in
  let tobinTaxes := range 173 (V04oracle.TobinTaxes g) in
  OracleStore.mkGenesis (migrate_oracle_params (V04oracle.GParams g))
    (sort_Slice OracleStore.TDenom exchangeRates)
    (sort_Slice fst feederDelegations)
    (sort_Slice fst missCounters)
    (migrate_prevote <$> V04oracle.AggregateExchangeRatePrevotes g)
    (migrate_vote <$> V04oracle.AggregateExchangeRateVotes g)
    (sort_Slice fst tobinTaxes).

(** [x/treasury/legacy/v05].  [unset] is the zero value of the struct, which
    [make] fills the slice with. *)
Definition set_epoch (cumulativeEpochs : Z) (g : V04treasury.GenesisState)
    (epochStates : list EpochState) (i : nat) : res (list EpochState) :=
  if Z.of_nat i <? cumulativeEpochs then Ok epochStates
  else
    let j := Z.of_nat i - cumulativeEpochs in
    match V04treasury.TRs g !! i, V04treasury.SRs g !! i, V04treasury.TSLs g !! i with
    | Some tr, Some sr, Some tsl =>
        panic_if (Z.of_nat (length epochStates) <=? j);;
        Ok (<[Z.to_nat j := mkEpochState (to_uint64 j) tr sr tsl]> epochStates)
    | _, _, _ => Panic
    end.

Definition migrate_epochs (unset : EpochState) (g : V04treasury.GenesisState) : res (list EpochState) :=
  let cumulativeEpochs := Z.quot (V04treasury.CumulativeHeight g) V04treasury.BlocksPerWeek in
  let n := Z.of_nat (length (V04treasury.TRs g)) - cumulativeEpochs in
  panic_if (n <? 0);;
  foldM (set_epoch cumulativeEpochs g) (seq 0 (length (V04treasury.TRs g)))
    (replicate (Z.to_nat n) unset).

Definition migrate_treasury_params (p : V04treasury.Params) : Treasury.Params :=
  let tax := V04treasury.TaxPolicy p in
  Treasury.mkParams
    (Treasury.mkPolicy (V04treasury.RateMin tax) (V04treasury.RateMax tax) (V04treasury.Cap tax)
       (V04treasury.ChangeRateMax tax))
    (Treasury.mkPolicy 0 OneDec (V04treasury.Cap (V04treasury.RewardPolicy p)) 0)
    (V04treasury.SeigniorageBurdenTarget p) (V04treasury.MiningIncrement p)
    (to_uint64 (V04treasury.WindowShort p)) (to_uint64 (V04treasury.WindowLong p))
    (to_uint64 (V04treasury.WindowProbation p)).

Definition treasury_Migrate (unset : EpochState) (g : V04treasury.GenesisState)
    : res Treasury.GenesisState :=
  let taxCaps := sort_Slice fst (range 174 (V04treasury.TaxCaps g)) in
  epochStates ← migrate_epochs unset g;
  Ok (Treasury.mkGenesis (migrate_treasury_params (V04treasury.GParams g)) (V04treasury.TaxRate g)
        OneDec taxCaps (V04treasury.TaxProceed g) (V04treasury.EpochInitialIssuance g) epochStates).

(** [x/wasm/legacy/v05]. *)
Definition migrate_code (c : V04wasm.Code) : Wasm.Code :=
  let info := V04wasm.CCodeInfo c in
  Wasm.mkCode
    (WasmTypes.mkCodeInfo (V04wasm.CodeID info) "" (AccAddressString (V04wasm.Creator info))) "".

Definition migrate_contract (c : V04wasm.Contract) : Wasm.Contract :=
  let info := V04wasm.CContractInfo c in
  let models := (fun m => (V04wasm.Key m, V04wasm.Value m)) <$> V04wasm.ContractStore c in
  let adminAddr := if V04wasm.Migratable info then AccAddressString (V04wasm.Owner info) else "" in
  Wasm.mkGenContract
    (WasmTypes.mkContract (AccAddressString (V04wasm.Address info))
       (AccAddressString (V04wasm.Owner info)) adminAddr (V04wasm.ICodeID info)
       (V04wasm.InitMsg info))
    models.

Definition wasm_Migrate (g : V04wasm.GenesisState) : Wasm.GenesisState :=
  Wasm.mkGenesis WasmTypes.DefaultParams (V04wasm.LastCodeID g) (V04wasm.LastInstanceID g)
    (migrate_code <$> V04wasm.Codes g) (migrate_contract <$> V04wasm.Contracts g).

End migrate.

(** ** Facts *)

Lemma sort_Slice_perm {T} (key : T -> string) l : sort_Slice key l ≡ₚ l.
Proof. apply merge_sort_Permutation. Qed.

#[global] Instance key_le_trans {T} (key : T -> string) : Transitive (key_le key).
Proof. intros x y z. unfold key_le. apply transitivity. Qed.

#[global] Instance key_le_total {T} (key : T -> string) : Total (key_le key).
Proof. intros x y. unfold key_le. apply String.le_total. Qed.

Lemma sort_Slice_sorted {T} (key : T -> string) l : StronglySorted (key_le key) (sort_Slice key l).
Proof. apply (StronglySorted_merge_sort (key_le key)). Qed.

(** Elements with distinct keys have one sorted order. *)
Lemma sort_Slice_unique {T} (key : T -> string) l1 l2 :
  NoDup (key <$> l1) -> l1 ≡ₚ l2 -> sort_Slice key l1 = sort_Slice key l2.
Proof.
  intros Hnd Hp. apply (StronglySorted_unique_strong (key_le key));
    [|apply sort_Slice_sorted..|by rewrite !sort_Slice_perm].
  intros x y Hx Hy Hle Hge. rewrite sort_Slice_perm in Hx. rewrite sort_Slice_perm, <- Hp in Hy.
  assert (Hk : key x = key y) by by apply (anti_symm String.le).
  apply list_elem_of_lookup in Hx as [i Hi], Hy as [j Hj].
  assert (i = j) as ->; [|by simplify_eq].
  eapply NoDup_lookup; [exact Hnd|rewrite list_lookup_fmap, Hi; done|].
  rewrite list_lookup_fmap, Hj. cbn. by rewrite Hk.
Qed.

(** The keys of a ranged map are distinct. *)
Lemma range_keys_NoDup {R : GoRange} {RL : GoRangeLaws R} {V} site (m : gmap string V) :
  NoDup (range site m).*1.
Proof. rewrite range_perm. apply NoDup_fst_map_to_list. Qed.

(** A sorted slice made of a map does not depend on the order of [range]. *)
Lemma sort_range_any {R1 R2 : GoRange} {L1 : GoRangeLaws R1} {L2 : GoRangeLaws R2} {V T} site
    (m : gmap string V) (f : string * V -> T) (key : T -> string) :
  (forall e, key (f e) = e.1) ->
  sort_Slice key (f <$> range (GoRange:=R1) site m) = sort_Slice key (f <$> range (GoRange:=R2) site m).
Proof.
  intros Hk. apply sort_Slice_unique.
  - rewrite <- list_fmap_compose, (list_fmap_ext _ fst) by (intros; apply Hk). apply range_keys_NoDup.
  - by rewrite !range_perm.
Qed.

Section oracle_facts.
Context {A : Bech32} {AL : Bech32Laws A}.

#[local] Instance val_text_inj : Inj (=) (=) ValAddressString.
Proof. intros a b. apply val_string_inj. Qed.

(** Importing the entries of a map in any order fills the store with it. *)
Lemma iterM_fill_perm {S V T} (get : S -> gmap string V) (set : gmap string V -> S -> S)
    (tr : string * V -> T) (g : T -> st S unit) m l s :
  (forall s, set (get s) s = s) -> (forall x s, get (set x s) = x) ->
  (forall x y s, set x (set y s) = set x s) ->
  l ≡ₚ tr <$> map_to_list m -> get s = ∅ ->
  (forall k v s, m !! k = Some v -> g (tr (k, v)) s = (Ok tt, set (<[k := v]> (get s)) s)) ->
  iterM g l s = (Ok tt, set m s).
Proof.
  intros L1 L2 L3 (order & -> & Ho)%Permutation_map_inv He Hg.
  change (List.map tr order) with (tr <$> order). by apply (iterM_fill get set).
Qed.

Lemma sorted_entries {R : GoRange} {RL : GoRangeLaws R} {V W T} site (m : gmap string V)
    (m' : gmap string W) (f : string * V -> T) (tr : string * W -> T) key :
  f <$> map_to_list m ≡ₚ tr <$> map_to_list m' ->
  sort_Slice key (f <$> range site m) ≡ₚ tr <$> map_to_list m'.
Proof. intros H. by rewrite sort_Slice_perm, range_perm. Qed.

Lemma map_to_list_kmap_fmap {V T} (g : string -> V -> T) (M : gmap string V) :
  (fun e => g e.1 e.2) <$> map_to_list (kmap ValAddressString M : gmap string V) ≡ₚ
  (fun e => g (ValAddressString e.1) e.2) <$> map_to_list M.
Proof.
  rewrite map_to_list_kmap by apply _. rewrite <- list_fmap_compose.
  apply reflexive_eq, list_fmap_ext. by intros ? [].
Qed.

(** The store that the migrated genesis is imported to: the old maps, keyed by
    the addresses whose texts were their keys. *)
Definition migrated_store (g : V04oracle.GenesisState) (feeders : gmap ValAddress AccAddress)
    (misses : gmap ValAddress Z) : OracleStore.store :=
  OracleStore.mkStore (V04oracle.ExchangeRates g) feeders (to_uint64 <$> misses)
    (list_to_map ((fun p => (V04oracle.PVoter p, migrate_prevote p))
       <$> V04oracle.AggregateExchangeRatePrevotes g))
    (list_to_map ((fun v => (V04oracle.VVoter v, migrate_vote v))
       <$> V04oracle.AggregateExchangeRateVotes g))
    (V04oracle.TobinTaxes g) (migrate_oracle_params (V04oracle.GParams g)).

Lemma list_to_map_entries {X V} (key : X -> string) (f : X -> V) l :
  NoDup (key <$> l) ->
  f <$> l ≡ₚ snd <$> map_to_list (list_to_map ((fun x => (key x, f x)) <$> l) : gmap string V).
Proof.
  intros Hnd. rewrite map_to_list_to_map by by rewrite <- list_fmap_compose.
  by rewrite <- list_fmap_compose.
Qed.

Lemma sorted_taxes {R : GoRange} {RL : GoRangeLaws R} (m : gmap string Dec) :
  sort_Slice fst (range 173 m) = iter_denoms m.
Proof.
  transitivity (sort_Slice fst (map_to_list m)); [|done].
  apply sort_Slice_unique; [apply range_keys_NoDup|apply range_perm].
Qed.

Lemma list_to_map_lookup_key {X V} (key : X -> string) (f : X -> V) l k v :
  (list_to_map ((fun x => (key x, f x)) <$> l) : gmap string V) !! k = Some v ->
  exists x, k = key x /\ v = f x.
Proof.
  intros (x & Heq & _)%elem_of_list_to_map_2%list_elem_of_fmap. simplify_eq. eauto.
Qed.

Lemma import_migrated {R : GoRange} {RL : GoRangeLaws R} g
    (feeders : gmap ValAddress AccAddress) (misses : gmap ValAddress Z) p0 :
  V04oracle.FeederDelegations g = kmap ValAddressString feeders ->
  V04oracle.MissCounters g = kmap ValAddressString misses ->
  NoDup (V04oracle.PVoter <$> V04oracle.AggregateExchangeRatePrevotes g) ->
  NoDup (V04oracle.VVoter <$> V04oracle.AggregateExchangeRateVotes g) ->
  OracleStore.ParamSetPairs (migrate_oracle_params (V04oracle.GParams g)) = Ok tt ->
  addresses_ok (migrated_store g feeders misses) ->
  (V04oracle.TobinTaxes g = ∅ -> V04oracle.Whitelist (V04oracle.GParams g) = []) ->
  OracleStore.InitGenesis true (oracle_Migrate g) (empty_store p0) =
    (Ok tt, migrated_store g feeders misses).
Proof.
  intros Hf Hm Hpv Hvt Hpar (Haf & Ham & Hap & Hav) Htax. unfold OracleStore.InitGenesis, oracle_Migrate.
  cbn [GFeederDelegations GExchangeRates GMissCounters GPrevotes GVotes GTobinTaxes OracleStore.GParams].
  unfold mbind at 1, st_bind at 1.
  rewrite (iterM_fill_perm FeederDelegations set_feeders
             (fun e => (ValAddressString e.1, AccAddressString e.2)) _ feeders);
    [|by intros []|done..| |done|].
  2: { apply sorted_entries. rewrite Hf. apply (map_to_list_kmap_fmap (fun k v => (k, AccAddressString v))). }
  2: { intros k v s' Hk. unfold init_feeder, lift, modify, mbind, st_bind. cbn. destruct (Haf _ _ Hk).
       by rewrite val_bech32_round, acc_bech32_round. }
  unfold mbind at 1, st_bind at 1.
  rewrite (iterM_fill_perm ExchangeRates set_rates (fun e => OracleStore.mkTuple e.1 e.2) _
             (V04oracle.ExchangeRates g));
    [|by intros []|done..|by apply sorted_entries|done|done].
  unfold mbind at 1, st_bind at 1.
  rewrite (iterM_fill_perm MissCounters set_misses (fun e => (ValAddressString e.1, e.2)) _
             (to_uint64 <$> misses));
    [|by intros []|done..| |done|].
  2: { apply sorted_entries. rewrite Hm, map_to_list_fmap, <- list_fmap_compose.
       rewrite (map_to_list_kmap_fmap (fun k v => (k, to_uint64 v))).
       apply reflexive_eq, list_fmap_ext. by intros ? []. }
  2: { intros k v s' Hk. unfold init_miss, lift, modify, mbind, st_bind. cbn.
       by rewrite val_bech32_round by exact (Ham _ _ Hk). }
  unfold mbind at 1, st_bind at 1.
  rewrite (iterM_fill_perm Prevotes set_prevotes snd _ _ _ _ ltac:(by intros []) ltac:(done) ltac:(done)
             (list_to_map_entries V04oracle.PVoter migrate_prevote _ Hpv));
    [|done|].
  2: { intros k v s' Hk. pose proof (Hap _ _ Hk) as Ho. apply list_to_map_lookup_key in Hk as (x & -> & ->).
       unfold init_prevote, lift, modify, mbind, st_bind. cbn. by rewrite val_bech32_round. }
  unfold mbind at 1, st_bind at 1.
  rewrite (iterM_fill_perm Votes set_votes snd _ _ _ _ ltac:(by intros []) ltac:(done) ltac:(done)
             (list_to_map_entries V04oracle.VVoter migrate_vote _ Hvt));
    [|done|].
  2: { intros k v s' Hk. pose proof (Hav _ _ Hk) as Ho. apply list_to_map_lookup_key in Hk as (x & -> & ->).
       unfold init_vote, lift, modify, mbind, st_bind. cbn. by rewrite val_bech32_round. }
  unfold mbind at 1, st_bind at 1. rewrite sorted_taxes, genesis_taxes by done.
  rewrite (proj2 (imported_taxes_id _ _)) by (intros H; cbn; by rewrite Htax).
  unfold SetParams, lift, modify, mbind, st_bind. cbn. unfold OracleStore.SetParams, lift, modify, mbind, st_bind.
  cbn. by rewrite Hpar.
Qed.

End oracle_facts.

(** *** The wasm module *)

Section wasm_facts.
Context {A : Bech32} {AL : Bech32Laws A} {U : SdkUint} {Gz : Gzip} {G : GasMeters}.
Context {B K T X : Type} {VM : WasmVM B K T X G} {SG : StoreGas B K T X}.

Abbreviation W := (wstate B K T X).

(** Steps that each set one entry of a map of the world set all entries of a
    list. *)
Lemma iterM_insert {E V} `{Countable Key} (f : E -> wst W unit) (proj : World B K T X -> gmap Key V) key val l u s s' :
  (forall x s s' u, f x s = (Done u, s') -> proj (world s') = <[key x := val x]> (proj (world s))) ->
  iterM f l s = (Done u, s') ->
  proj (world s') = foldl (fun m x => <[key x := val x]> m) (proj (world s)) l.
Proof.
  intros Hf. revert s. induction l as [|x l IH]; intros s Hrun; cbn in Hrun; w_inv; [done|].
  match goal with x : unit |- _ => destruct x end. apply IH in Hrun as ->. by apply Hf in Hx as ->.
Qed.

Lemma iterM_keeps {E V} (f : E -> wst W unit) (proj : World B K T X -> V) l u s s' :
  (forall x s s' u, f x s = (Done u, s') -> proj (world s') = proj (world s)) ->
  iterM f l s = (Done u, s') -> proj (world s') = proj (world s).
Proof.
  intros Hf. revert s. induction l as [|x l IH]; intros s Hrun; cbn in Hrun; w_inv; [done|].
  match goal with x : unit |- _ => destruct x end. apply IH in Hrun as ->. by apply Hf in Hx as ->.
Qed.

Lemma iterM_map {E F} (g : E -> F) (f : F -> wst W unit) l s :
  iterM f (g <$> l) s = iterM (fun x => f (g x)) l s.
Proof.
  unfold iterM. revert s. induction l as [|x l IH]; intros s; [done|]. cbn.
  unfold mbind, wst_bind. destruct (f (g x) s) as [[[]| | | |] s1]; [apply IH|done..].
Qed.

Lemma foldl_insert_lookup {E V} `{Countable Key} (key : E -> Key) (val : E -> V) l (m : gmap Key V) x :
  NoDup (key <$> l) -> x ∈ l ->
  foldl (fun m x => <[key x := val x]> m) m l !! key x = Some (val x).
Proof.
  revert m. induction l as [|y l IH] using rev_ind; intros m Hnd Hx; [by apply not_elem_of_nil in Hx|].
  rewrite fmap_app in Hnd. apply NoDup_app in Hnd as (Hl & Hy & _). rewrite foldl_app. cbn.
  apply elem_of_app in Hx as [Hx|Hx%list_elem_of_singleton]; [|subst; by rewrite lookup_insert_eq].
  rewrite lookup_insert_ne; [by apply IH|]. intros E'. apply (Hy (key x)); [by apply list_elem_of_fmap_2|].
  rewrite <- E'. by left.
Qed.

Lemma set_contract_store_world a models u s s' :
  SetContractStore a models s = (Done u, s') ->
  contract_infos (world s') = contract_infos (world s) /\ code_infos (world s') = code_infos (world s).
Proof.
  unfold SetContractStore. intros H. split.
  - eapply (iterM_keeps _ contract_infos); [|exact H]. intros x t t' v ->%writes_Done. unfold set_store. by case_decide.
  - eapply (iterM_keeps _ code_infos); [|exact H]. intros x t t' v ->%writes_Done. unfold set_store. by case_decide.
Qed.

Lemma init_migrated_contract c u s s' :
  init_contract (migrate_contract c) s = (Done u, s') ->
  contract_infos (world s') =
    <[V04wasm.Address (V04wasm.CContractInfo c) := GContractInfo (migrate_contract c)]>
      (contract_infos (world s)) /\
  code_infos (world s') = code_infos (world s).
Proof.
  unfold init_contract. cbn [migrate_contract GContractInfo CAddress GContractStore].
  intros H. w_inv. apply set_contract_store_world in H as [-> ->].
  assert (x = V04wasm.Address (V04wasm.CContractInfo c)) as ->.
  { unfold wmust, wlift in Hx. destruct (AccAddressFromBech32 _) as [a| |] eqn:Ea; cbn in Hx; simplify_eq.
    by apply acc_bech32_sound in Ea. }
  assert (s0 = s) as -> by (unfold wmust, wlift in Hx; destruct (AccAddressFromBech32 _); cbn in Hx; by simplify_eq).
  select (SetContractInfo _ _ _ = _) (fun H => apply writes_Done in H as ->). split; reflexivity.
Qed.

(** A code of a migrated genesis is recorded without being compiled. *)
Lemma init_migrated_code c u s s' :
  init_code (migrate_code c) s = (Done u, s') ->
  code_infos (world s') =
    <[V04wasm.CodeID (V04wasm.CCodeInfo c) := GCodeInfo (migrate_code c)]> (code_infos (world s)) /\
  contract_infos (world s') = contract_infos (world s).
Proof.
  unfold init_code. change (negb (WasmTypes.len (GCodeBytes (migrate_code c)) =? 0)) with false. cbn. intros H. w_inv.
  apply writes_Done in H as ->. split; reflexivity.
Qed.

Lemma import_migrated_wasm g u s s' :
  Wasm.InitGenesis (wasm_Migrate g) s = (Done u, s') ->
  contract_infos (world s') =
    foldl (fun m c => <[V04wasm.Address (V04wasm.CContractInfo c) := GContractInfo (migrate_contract c)]> m)
      (contract_infos (world s)) (V04wasm.Contracts g) /\
  code_infos (world s') =
    foldl (fun m c => <[V04wasm.CodeID (V04wasm.CCodeInfo c) := GCodeInfo (migrate_code c)]> m)
      (code_infos (world s)) (V04wasm.Codes g).
Proof.
  unfold Wasm.InitGenesis. cbn [wasm_Migrate GCodes GContracts]. intros H. w_inv.
  rewrite (iterM_map migrate_contract) in H. rewrite (iterM_map migrate_code init_code) in Hx2.
  assert (Hw : contract_infos (world s2) = contract_infos (world s) /\
               code_infos (world s2) = code_infos (world s)).
  { unfold Wasm.SetParams, SetLastCodeID, SetLastInstanceID in *. w_inv.
    repeat match goal with H : writes _ _ _ = _ |- _ => apply writes_Done in H; rewrite H; clear H end.
    split; reflexivity. }
  destruct Hw as [Hc Hi]. split.
  - rewrite (iterM_insert _ contract_infos (fun c => V04wasm.Address (V04wasm.CContractInfo c))
      (fun c => GContractInfo (migrate_contract c)) _ _ _ _ (fun x s s' u H => proj1 (init_migrated_contract x u s s' H)) H).
    rewrite (iterM_keeps _ contract_infos _ _ _ _ (fun x s s' u H => proj2 (init_migrated_code x u s s' H)) Hx2).
    by rewrite Hc.
  - rewrite (iterM_keeps _ code_infos _ _ _ _ (fun x s s' u H => proj2 (init_migrated_contract x u s s' H)) H).
    rewrite (iterM_insert _ code_infos (fun c => V04wasm.CodeID (V04wasm.CCodeInfo c))
      (fun c => GCodeInfo (migrate_code c)) _ _ _ _ (fun x s s' u H => proj1 (init_migrated_code x u s s' H)) Hx2).
    by rewrite Hi.
Qed.

End wasm_facts.

(** *** The epochs of the treasury *)

Lemma foldM_snoc {X Y} (f : Y -> X -> res Y) l x acc :
  foldM f (l ++ [x]) acc = (y ← foldM f l acc; f y x).
Proof.
  revert acc. induction l as [|z l IH]; intros acc; cbn; [by destruct (f acc x)|].
  destruct (f acc z); cbn; [apply IH|done..].
Qed.

(** The records of the epochs of a state. *)
Definition epoch_records (g : V04treasury.GenesisState) : list (Dec * (Dec * Int)) :=
  zip (V04treasury.TRs g) (zip (V04treasury.SRs g) (V04treasury.TSLs g)).

Definition new_epoch (j : nat) (r : Dec * (Dec * Int)) : EpochState :=
  mkEpochState (to_uint64 (Z.of_nat j)) r.1 r.2.1 r.2.2.

Definition aligned (g : V04treasury.GenesisState) : Prop :=
  length (V04treasury.SRs g) = length (V04treasury.TRs g) /\
  length (V04treasury.TSLs g) = length (V04treasury.TRs g).

Lemma epoch_records_lookup g i r :
  epoch_records g !! i = Some r ->
  V04treasury.TRs g !! i = Some r.1 /\ V04treasury.SRs g !! i = Some r.2.1 /\
  V04treasury.TSLs g !! i = Some r.2.2.
Proof.
  unfold epoch_records. destruct r as [tr [sr tsl]].
  by intros (H1 & (H2 & H3)%lookup_zip_Some)%lookup_zip_Some.
Qed.

Lemma epoch_records_length g : aligned g -> length (epoch_records g) = length (V04treasury.TRs g).
Proof. intros [H1 H2]. unfold epoch_records. rewrite !length_zip. lia. Qed.

(** The slice after the first [k] epochs were visited. *)
Definition visited (unset : EpochState) (c k : nat) (g : V04treasury.GenesisState) : list EpochState :=
  imap new_epoch (drop c (take k (epoch_records g))) ++
  replicate (length (V04treasury.TRs g) - (c `max` k)) unset.

Lemma set_epoch_visited unset c k g :
  aligned g -> (k < length (V04treasury.TRs g))%nat -> (c <= length (V04treasury.TRs g))%nat ->
  set_epoch (Z.of_nat c) g (visited unset c k g) k = Ok (visited unset c (S k) g).
Proof.
  intros Hal Hk Hc. pose proof (epoch_records_length g Hal) as Hlen. unfold set_epoch, visited.
  destruct (lookup_lt_is_Some_2 (epoch_records g) k) as [r Hr]; [lia|].
  rewrite (take_S_r _ _ _ Hr). destruct (Z.ltb_spec (Z.of_nat k) (Z.of_nat c)).
  - rewrite !drop_ge by (rewrite ?length_app, ?length_take; cbn; lia). do 3 f_equal. lia.
  - destruct (epoch_records_lookup g k r Hr) as (-> & -> & ->).
    rewrite drop_app_le by (rewrite length_take; lia). rewrite imap_app. cbn.
    set (l := imap new_epoch (drop c (take k (epoch_records g)))).
    assert (Hl : length l = (k - c)%nat) by (unfold l; rewrite length_imap, length_drop, length_take; lia).
    assert (Hin : (Z.of_nat (length (l ++ replicate (length (V04treasury.TRs g) - c `max` k) unset))
      <=? Z.of_nat k - Z.of_nat c) = false) by (apply Z.leb_gt; rewrite length_app, length_replicate, Hl; lia).
    rewrite Hin. cbn. f_equal. replace (Z.to_nat (Z.of_nat k - Z.of_nat c)) with (length l) by lia.
    replace (length (V04treasury.TRs g) - c `max` k)%nat with
      (S (length (V04treasury.TRs g) - c `max` S k)) by lia.
    cbn. rewrite insert_app_r_alt, Nat.sub_diag by lia. cbn. rewrite <- app_assoc. cbn. f_equal. f_equal.
    unfold new_epoch. rewrite length_drop, length_take. f_equal. f_equal. lia.
Qed.

Lemma migrate_epochs_spec unset g :
  aligned g -> 0 <= V04treasury.CumulativeHeight g ->
  let c := Z.to_nat (V04treasury.CumulativeHeight g / V04treasury.BlocksPerWeek) in
  migrate_epochs unset g =
    if (c <=? length (V04treasury.TRs g))%nat then Ok (imap new_epoch (drop c (epoch_records g))) else Panic.
Proof.
  intros Hal Hh c. unfold migrate_epochs. rewrite Z.quot_div_nonneg by done.
  assert (Hc : V04treasury.CumulativeHeight g / V04treasury.BlocksPerWeek = Z.of_nat c).
  { unfold c. rewrite Z2Nat.id; [done|]. by apply Z.div_pos. }
  rewrite Hc. clearbody c. destruct (Nat.leb_spec c (length (V04treasury.TRs g))).
  2: { unfold panic_if. by destruct (Z.ltb_spec (Z.of_nat (length (V04treasury.TRs g)) - Z.of_nat c) 0); [|lia]. }
  rewrite (proj2 (Z.ltb_ge (Z.of_nat (length (V04treasury.TRs g)) - Z.of_nat c) 0)) by lia. cbn.
  assert (Hv : forall k, (k <= length (V04treasury.TRs g))%nat ->
    foldM (set_epoch (Z.of_nat c) g) (seq 0 k)
      (replicate (Z.to_nat (Z.of_nat (length (V04treasury.TRs g)) - Z.of_nat c)) unset)
    = Ok (visited unset c k g)).
  { induction k as [|k IH]; intros Hk.
    - unfold visited. rewrite take_0, drop_nil. cbn. do 2 f_equal. lia.
    - rewrite seq_S, foldM_snoc, IH by lia. cbn. by apply set_epoch_visited. }
  rewrite Hv by done. unfold visited. rewrite take_ge by (rewrite epoch_records_length; done).
  replace (length (V04treasury.TRs g) - c `max` length (V04treasury.TRs g))%nat with 0%nat by lia.
  by rewrite app_nil_r.
Qed.

(** ** Theorems *)

(** The migrations of maps are deterministic: two ways of ranging over the maps
    give the same oracle and treasury genesis. *)
Theorem migration_deterministic {A : Bech32} {R1 R2 : GoRange} {L1 : GoRangeLaws R1} {L2 : GoRangeLaws R2}
    og unset tg :
  oracle_Migrate (R:=R1) og = oracle_Migrate (R:=R2) og /\
  treasury_Migrate (R:=R1) unset tg = treasury_Migrate (R:=R2) unset tg.
Proof.
  split.
  - unfold oracle_Migrate. f_equal; [by apply sort_range_any..|].
    apply sort_Slice_unique; [apply range_keys_NoDup|by rewrite !range_perm].
  - unfold treasury_Migrate. replace (sort_Slice fst (range (GoRange:=R1) 174 (V04treasury.TaxCaps tg)))
      with (sort_Slice fst (range (GoRange:=R2) 174 (V04treasury.TaxCaps tg))); [done|].
    apply sort_Slice_unique; [apply range_keys_NoDup|by rewrite !range_perm].
Qed.

(** Nothing the oracle needs is lost in the migration: importing the migrated
    genesis fills the store with the old rates, taxes, delegations, counters,
    prevotes and votes, each under the address whose text was its key; these
    are addresses the chain accepts. *)
Theorem oracle_migration_faithful {A : Bech32} {AL : Bech32Laws A} {R : GoRange} {RL : GoRangeLaws R} g
    (feeders : gmap ValAddress AccAddress) (misses : gmap ValAddress Z) p0 :
  V04oracle.FeederDelegations g = kmap ValAddressString feeders ->
  V04oracle.MissCounters g = kmap ValAddressString misses ->
  NoDup (V04oracle.PVoter <$> V04oracle.AggregateExchangeRatePrevotes g) ->
  NoDup (V04oracle.VVoter <$> V04oracle.AggregateExchangeRateVotes g) ->
  OracleStore.ParamSetPairs (migrate_oracle_params (V04oracle.GParams g)) = Ok tt ->
  addresses_ok (migrated_store g feeders misses) ->
  (V04oracle.TobinTaxes g = ∅ -> V04oracle.Whitelist (V04oracle.GParams g) = []) ->
  OracleStore.InitGenesis true (oracle_Migrate g) (empty_store p0) =
    (Ok tt, migrated_store g feeders misses).
Proof. apply import_migrated. Qed.

(** The epochs of the treasury: if its three series have the same length, the
    migration keeps the records from the epoch of the cumulative height on,
    renumbered from zero, and panics if there are fewer epochs than that. *)
Theorem treasury_epochs_kept {R : GoRange} unset g :
  aligned g -> 0 <= V04treasury.CumulativeHeight g ->
  let c := Z.to_nat (V04treasury.CumulativeHeight g / V04treasury.BlocksPerWeek) in
  ((c <= length (V04treasury.TRs g))%nat ->
     exists data, treasury_Migrate unset g = Ok data /\
       GEpochStates data = imap new_epoch (drop c (epoch_records g))) /\
  ((length (V04treasury.TRs g) < c)%nat -> treasury_Migrate unset g = Panic).
Proof.
  intros Hal Hh c. unfold treasury_Migrate. rewrite migrate_epochs_spec by done. fold c.
  split; intros Hc; destruct (Nat.leb_spec c (length (V04treasury.TRs g))); try lia; [|done].
  by eexists.
Qed.

Section treasury_theorem.
Context {M : SdkMath} {ML : SdkMathLaws M} {C : SdkCoins} {CL : SdkCoinsLaws M C}.
Context {K : Type} {MK : MarketKeeper K} {KL : MarketKeeperLaws K MK}.
Context {S : Type} {SK : StakingKeeper S} {B : Type} {BK : BankKeeper B} {BL : BankLaws B BK}.
Context {R : GoRange}.
Implicit Types s : Treasury.state K S B.

(** A step that leaves the policy of the reward weight as it is. *)
Definition same_reward_policy D s s' : Prop :=
  treasury_step D s s' /\
  RewardPolicy (Treasury.params (tstore s')) = RewardPolicy (Treasury.params (tstore s)).

(** C35. From the migrated genesis on, all seigniorage is burned: if the old tax rate
    is within its policy, the reward weight is one in every state the chain
    reaches as long as governance does not change the policy of the reward
    weight, whatever the policy updates compute and whatever other parameters
    change. *)
Theorem migrated_weight_fixed D b1 b2 unset g data s0 s1 s :
  treasury_Migrate unset g = Ok data -> Treasury.ValidateGenesis data = Ok tt ->
  Treasury.InitGenesis b1 b2 data s0 = (Ok tt, s1) ->
  rtc (same_reward_policy D) s1 s -> GetRewardWeight (tstore s) = OneDec.
Proof.
  intros Hm Hval Hinit Hreach.
  assert (Hv : params_valid (Treasury.params (tstore s1)) /\
               policy_ok (RewardPolicy (Treasury.params (tstore s1))) (GetRewardWeight (tstore s1))).
  { destruct (genesis_inv b1 b2 data s0 s1 Hval Hinit) as [[] Hr]. split; [|done]. destruct Hr.
    unfold params_valid, policy_valid. lia. }
  assert (H1 : ChangeRateMax (RewardPolicy (Treasury.params (tstore s1))) = 0 /\
               GetRewardWeight (tstore s1) = OneDec).
  { apply InitGenesis_Ok in Hinit as ->. cbn [tstore with_store].
    destruct (imported_policies data (imported_issuance data s0) (tstore s0)) as (-> & _ & ->).
    unfold treasury_Migrate in Hm. go_inv. done. }
  clear Hinit Hval Hm. induction Hreach as [|x y z [Hxy Hp] _ IH]; [apply H1|].
  destruct Hv as [Hv Hok]. destruct (treasury_step_policy D x y Hv Hxy) as [Hy [_ Hw]].
  rewrite Hp in Hw. destruct (rate_step_inside _ _ _ Hok Hw) as [Hok' Hmove]. destruct H1 as [Hc H1].
  apply IH; rewrite Hp; [done|]. split; [done|]. lia.
Qed.

End treasury_theorem.

Section wasm_theorem.
Context {A : Bech32} {AL : Bech32Laws A} {U : SdkUint} {Gz : Gzip} {G : GasMeters}.
Context {B K T X : Type} {VM : WasmVM B K T X G} {SG : StoreGas B K T X}.

(** After the import of the migrated contracts, each has its old owner as
    creator, and as admin if and only if it was migratable; the codes have lost
    their hashes, so none of them runs before it is stored again. *)
Theorem contracts_migrated g u (s s' : wstate B K T X) c code :
  Wasm.InitGenesis (wasm_Migrate g) s = (Done u, s') ->
  NoDup ((fun c => V04wasm.Address (V04wasm.CContractInfo c)) <$> V04wasm.Contracts g) ->
  NoDup ((fun c => V04wasm.CodeID (V04wasm.CCodeInfo c)) <$> V04wasm.Codes g) ->
  c ∈ V04wasm.Contracts g -> code ∈ V04wasm.Codes g ->
  AccAddressString (V04wasm.Owner (V04wasm.CContractInfo c)) <> ""%string ->
  (exists info, contract_infos (world s') !! V04wasm.Address (V04wasm.CContractInfo c) = Some info /\
     CCreator info = AccAddressString (V04wasm.Owner (V04wasm.CContractInfo c)) /\
     CCodeID info = V04wasm.ICodeID (V04wasm.CContractInfo c) /\
     (CAdmin info <> ""%string <-> V04wasm.Migratable (V04wasm.CContractInfo c) = true)) /\
  (exists info, code_infos (world s') !! V04wasm.CodeID (V04wasm.CCodeInfo code) = Some info /\
     CICodeHash info = ""%string /\
     CICreator info = AccAddressString (V04wasm.Creator (V04wasm.CCodeInfo code))).
Proof.
  intros H Hnd1 Hnd2 Hc Hcode Howner. apply import_migrated_wasm in H as [-> ->]. split.
  - eexists. rewrite (foldl_insert_lookup (fun c => V04wasm.Address (V04wasm.CContractInfo c))
      (fun c => GContractInfo (migrate_contract c))) by done.
    split; [done|]. split; [done|]. split; [done|]. cbn. by destruct (V04wasm.Migratable _).
  - eexists. rewrite (foldl_insert_lookup (fun c => V04wasm.CodeID (V04wasm.CCodeInfo c))
      (fun c => GCodeInfo (migrate_code c))) by done. done.
Qed.

End wasm_theorem.

(** ** Concrete migrations *)

Module LegacyExample.

#[local] Existing Instance ref_math.
#[local] Existing Instance ref_coins.
#[local] Existing Instance ref_bech32.

(** Maps ranged over in the order of [map_to_list]. *)
#[local] Instance in_order : GoRange := {| range _ V m := map_to_list m |}.

#[local] Instance in_order_laws : GoRangeLaws in_order.
Proof. by split. Qed.

(** Two validators, of which one misses votes and delegates its feed. *)
Definition oracle_params : V04oracle.Params :=
  V04oracle.mkParams 5 (NewDecWithPrec 5 1) (NewDecWithPrec 2 2) 100 [V04oracle.mkDenom "uusd" 0]
    (NewDecWithPrec 1 4) 1000 (NewDecWithPrec 5 2).

Definition old_oracle : V04oracle.GenesisState :=
  V04oracle.mkGenesis oracle_params
    (kmap (@ValAddressString ref_bech32) (<["val" := "feeder"]> ∅ : gmap string string))
    (<["ukrw" := NewDec 3]> (<["uusd" := NewDec 2]> ∅)) [] []
    (kmap (@ValAddressString ref_bech32) (<["val" := 4]> (<["other" := 0]> ∅) : gmap string Z))
    [V04oracle.mkPrevote "hash" "val" 12] [V04oracle.mkVote [V04oracle.mkTuple "uusd" (NewDec 2)] "other"]
    (<["uusd" := 5]> ∅).

Lemma oracle_migration_faithful_witness :
  OracleStore.InitGenesis true (oracle_Migrate old_oracle) (empty_store OracleStore.DefaultParams) =
    (Ok tt, migrated_store old_oracle (<["val" := "feeder"]> ∅) (<["val" := 4]> (<["other" := 0]> ∅))).
Proof.
  apply (oracle_migration_faithful (AL:=ref_bech32_laws) (RL:=in_order_laws)).
  - reflexivity.
  - reflexivity.
  - apply NoDup_singleton.
  - apply NoDup_singleton.
  - vm_compute. reflexivity.
  - by apply (bool_decide_unpack _); vm_compute.
  - intros H. apply (f_equal (fun m : gmap string Dec => m !! "uusd")) in H. vm_compute in H. discriminate H.
Defined.

(** Three epochs, of which the first belongs to the cumulative height. *)
Definition treasury_params : V04treasury.Params :=
  let policy := V04treasury.mkPolicy (NewDecWithPrec 5 4) (NewDecWithPrec 1 2) (mkCoin MicroSDRDenom 1000000)
    (NewDecWithPrec 25 5) in
  V04treasury.mkParams policy policy (NewDecWithPrec 67 2) (NewDecWithPrec 107 2) 4 52 12.

Definition old_treasury : V04treasury.GenesisState :=
  V04treasury.mkGenesis treasury_params (NewDecWithPrec 1 3) (NewDecWithPrec 5 3) (<["uusd" := 7]> ∅)
    [] [mkCoin "uluna" 1000] 150000 [1; 2; 3] [4; 5; 6] [7; 8; 9].

Definition no_epoch : EpochState := mkEpochState 0 0 0 0.

Definition new_treasury : Treasury.GenesisState :=
  match treasury_Migrate no_epoch old_treasury with Ok data => data | _ => Treasury.DefaultGenesisState end.

Lemma migrated_epochs :
  GEpochStates new_treasury = [mkEpochState 0 2 5 8; mkEpochState 1 3 6 9].
Proof. vm_compute. reflexivity. Qed.

Definition imported0 :=
  @Treasury.InitGenesis ref_coins unit unit RefBank ref_bank true true new_treasury TreasuryExample.s0.

Lemma imported0_run : imported0 = (Ok tt, imported0.2).
Proof. vm_compute. reflexivity. Qed.

Lemma run_end_run :
  TreasuryExample.run_end TreasuryExample.ctx imported0.2
    = (Ok tt, (TreasuryExample.run_end TreasuryExample.ctx imported0.2).2).
Proof. vm_compute. reflexivity. Qed.

Lemma migrated_weight_fixed_witness :
  GetRewardWeight (tstore (TreasuryExample.run_end TreasuryExample.ctx imported0.2).2) = OneDec.
Proof.
  apply (migrated_weight_fixed (M:=ref_math) (ML:=ref_math_laws) (C:=ref_coins) (CL:=ref_coins_laws)
    (MK:=TreasuryExample.double_market) (KL:=TreasuryExample.double_market_laws)
    (SK:=StoreExample.one_validator) (BK:=ref_bank) (BL:=ref_bank_laws) (R:=in_order)
    "distribution" true true no_epoch old_treasury new_treasury TreasuryExample.s0 imported0.2).
  - vm_compute. reflexivity.
  - vm_compute. reflexivity.
  - exact imported0_run.
  - apply rtc_once. split; [|by vm_compute]. apply (step_block _ TreasuryExample.ctx). exact run_end_run.
Defined.

End LegacyExample.
