(* ===== verification/LegacyAccounts.v ===== *)
(** * Migration of accounts, grants and proposals
    ([src/custom/auth/legacy], [src/custom/authz/legacy], [src/custom/gov/legacy])

    The genesis of the modules auth, msgauth and gov of the old version is
    converted record by record.  The records of the SDK have the fields the code
    copies; packing a record into an [Any] is an argument, as it is the
    protobuf library that does it.  The shares of a vesting schedule are
    corrected so that they add up to one. *)

From Stdlib Require Import ZArith Lia Bool.
From stdpp Require Import base strings list gmap.
From S2P Require Import Prelude Loops Sdk SdkRef Vesting.
Local Open Scope Z_scope.

(** ** Loops that convert a slice *)

Lemma mapM_Ok {X Y} (f : X -> res Y) l r :
  mapM f l = Ok r <-> Forall2 (fun x y => f x = Ok y) l r.
Proof.
  revert r. induction l as [|x l IH]; intros r.
  - split; [intros [= <-]; constructor|]. intros H. by inversion H.
  - split.
    + cbn. intros H. go_inv. constructor; [done|]. by apply IH.
    + intros H. inversion H as [|? y ? r' Hy Hr]; subst. cbn. rewrite Hy. cbn.
      apply IH in Hr. rewrite Hr. done.
Qed.

Lemma mapM_total {X Y} (f : X -> res Y) l :
  Forall (fun x => exists y, f x = Ok y) l <-> exists r, mapM f l = Ok r.
Proof.
  split.
  - intros H. induction H as [|x l [y Hy] _ [r Hr]]; [by exists []|].
    exists (y :: r). cbn. rewrite Hy. cbn. by rewrite Hr.
  - intros [r Hr%mapM_Ok]. induction Hr; constructor; eauto.
Qed.

Lemma mapM_proj {X Y V} (f : X -> res Y) (g : X -> V) (h : Y -> V) l r :
  (forall x y, f x = Ok y -> h y = g x) -> mapM f l = Ok r -> h <$> r = g <$> l.
Proof. intros Hf Hr%mapM_Ok. induction Hr as [|x y l r Hy _ IH]; [done|]. cbn. by rewrite IH, (Hf x y). Qed.

(** ** Accounts of version 0.39 *)

Section old_accounts.
Context {PK : Type}.

(** Public keys: the multisignature keys of the amino encoding, or any other. *)
Inductive PubKey : Type :=
| LegacyAminoPubKey (Threshold : Int) (PubKeys : list PubKey)
| OtherPubKey (key : PK).

Record OldBaseAccount : Type := mkOldBase {
  OAddress : AccAddress; OCoins : list Coin; OPubKey : option PubKey;
  OAccountNumber : Z; OSequence : Z }.

Record OldBaseVestingAccount : Type := mkOldVesting {
  OBase : OldBaseAccount; OOriginalVesting : list Coin; ODelegatedFree : list Coin;
  ODelegatedVesting : list Coin; OEndTime : Z }.

Record LazySchedule : Type := mkLazySchedule { LStartTime : Z; LEndTime : Z; LRatio : Dec }.

Record OldVestingSchedule : Type := mkOldSchedule { ODenom : string; LazySchedules : list LazySchedule }.

Record OldLazyAccount : Type := mkOldLazy {
  OVesting : OldBaseVestingAccount; OVestingSchedules : list OldVestingSchedule }.

Definition NewLazyGradedVestingAccountRaw (baseVestingAcc : OldBaseVestingAccount)
    (lazyVestingSchedules : list OldVestingSchedule) : OldLazyAccount :=
  mkOldLazy baseVestingAcc lazyVestingSchedules.

(** The accounts of a genesis; [UnknownAccount] is of a type the migration does
    not know. *)
Inductive OldAccount : Type :=
| OldBase (a : OldBaseAccount)
| OldModule (a : OldBaseAccount) (name : string) (permissions : list string)
| OldVesting (a : OldBaseVestingAccount)
| OldLazy (a : OldLazyAccount)
| UnknownAccount.

(** [vestingAccountJSON], the flat form of an account in JSON. *)
Record vestingAccountJSON : Type := mkVestingJSON {
  JAddress : AccAddress; JCoins : list Coin; JPubKey : option PubKey; JAccountNumber : Z; JSequence : Z;
  JOriginalVesting : list Coin; JDelegatedFree : list Coin; JDelegatedVesting : list Coin; JEndTime : Z;
  JVestingSchedules : list OldVestingSchedule }.

(** [MarshalJSON] and [UnmarshalJSON], up to the encoding of [vestingAccountJSON]
    by the codec. *)
Definition account_alias (lgva : OldLazyAccount) : vestingAccountJSON :=
  let v := OVesting lgva in
  let b := OBase v in
  mkVestingJSON (OAddress b) (OCoins b) (OPubKey b) (OAccountNumber b) (OSequence b)
    (OOriginalVesting v) (ODelegatedFree v) (ODelegatedVesting v) (OEndTime v) (OVestingSchedules lgva).

Definition MarshalJSON {Raw} (marshal : vestingAccountJSON -> res Raw) (lgva : OldLazyAccount) : res Raw :=
  marshal (account_alias lgva).

Definition UnmarshalJSON {Raw} (unmarshal : Raw -> res vestingAccountJSON) (bz : Raw) : res OldLazyAccount :=
  alias ← unmarshal bz;
  Ok (mkOldLazy
        (mkOldVesting
           (mkOldBase (JAddress alias) (JCoins alias) (JPubKey alias) (JAccountNumber alias) (JSequence alias))
           (JOriginalVesting alias) (JDelegatedFree alias) (JDelegatedVesting alias) (JEndTime alias))
        (JVestingSchedules alias)).

(** *** Validation *)

Context {M : SdkMath}.

Definition LazySchedule_Validate (s : LazySchedule) : res unit :=
  fail_if (LStartTime s <? 0) (Errorf "vesting start-time cannot be negative");;
  fail_if (LEndTime s <? LStartTime s) (Errorf "vesting start-time cannot be before end-time");;
  fail_if (LRatio s <=? 0) (Errorf "vesting ratio cannot be smaller than or equal with zero").

Definition OldVestingSchedule_Validate (vs : OldVestingSchedule) : res unit :=
  sumRatio ← foldM (fun sumRatio s => LazySchedule_Validate s;; dec_add sumRatio (LRatio s)) (LazySchedules vs) 0;
  scaled ← dec_mul_int sumRatio fixedPointDecimals;
  rounded ← dec_round_int scaled;
  total ← dec_quo_int (NewDec rounded) fixedPointDecimals;
  fail_if (negb (total =? OneDec)) (Errorf "vesting total ratio must be one").

(** [base_validate] is the validation of the SDK's base vesting account. *)
Definition OldLazyAccount_Validate (base_validate : OldBaseVestingAccount -> res unit) (lgva : OldLazyAccount)
    : res unit :=
  iterM OldVestingSchedule_Validate (OVestingSchedules lgva);;
  base_validate (OVesting lgva).

End old_accounts.

Arguments PubKey PK : clear implicits.
Arguments OldBaseAccount PK : clear implicits.
Arguments OldBaseVestingAccount PK : clear implicits.
Arguments OldLazyAccount PK : clear implicits.
Arguments OldAccount PK : clear implicits.
Arguments vestingAccountJSON PK : clear implicits.

(** ** Accounts of version 0.40 *)

Section new_accounts.
Context {Any : Type}.

Record BaseAccount : Type := mkBase {
  Address : string; APubKey : option Any; AccountNumber : Z; Sequence : Z }.

Record NewVestingAccount : Type := mkVesting {
  VBase : BaseAccount; VOriginalVesting : list Coin; DelegatedFree : list Coin;
  DelegatedVesting : list Coin; VEndTime : Z }.

Inductive NewAccount : Type :=
| NewBase (a : BaseAccount)
| NewModule (a : BaseAccount) (name : string) (permissions : list string)
| NewVesting (a : NewVestingAccount)
| NewLazy (a : Vesting.LazyGradedVestingAccount NewVestingAccount).

Definition base_of (a : NewAccount) : BaseAccount :=
  match a with
  | NewBase a => a
  | NewModule a _ _ => a
  | NewVesting a => VBase a
  | NewLazy a => VBase (Vesting.Base a)
  end.

End new_accounts.

Arguments BaseAccount Any : clear implicits.
Arguments NewVestingAccount Any : clear implicits.
Arguments NewAccount Any : clear implicits.

(** Of the parameters of the module only the copied fields matter. *)
Record AuthParams : Type := mkAuthParams {
  MaxMemoCharacters : Z; TxSigLimit : Z; TxSizeCostPerByte : Z;
  SigVerifyCostED25519 : Z; SigVerifyCostSecp256k1 : Z }.

(** ** [custom/auth/legacy/v040] *)

Section auth_migrate.
Context {M : SdkMath} {A : Bech32} {PK Any : Type}.
(** [kmultisig.NewLegacyAminoPubKey], and the packing of a key and of an
    account into an [Any]. *)
Context (NewLegacyAminoPubKey : Z -> list (PubKey PK) -> res (PubKey PK)).
Context (pack_key : PubKey PK -> res Any) (pack_account : NewAccount Any -> res Any).
(** [NewModuleAddress]. *)
Context (NewModuleAddress : string -> AccAddress).

(** [mpk.Threshold.Int64()] panics outside of 64 bits. *)
Definition Int64 (i : Int) : res Z :=
  panic_if ((i <? - two63) || (two63 <=? i));; Ok i.

Definition convert_key (k : PubKey PK) : res Any :=
  pk ← match k with
       | LegacyAminoPubKey threshold keys => t ← Int64 threshold; NewLegacyAminoPubKey t keys
       | OtherPubKey _ => Ok k
       end;
  must (pack_key pk).

Definition convertBaseAccount (old : OldBaseAccount PK) : res (BaseAccount Any) :=
  any ← match OPubKey old with
        | Some k => any ← convert_key k; Ok (Some any)
        | None => Ok None
        end;
  Ok (mkBase (AccAddressString (OAddress old)) any (OAccountNumber old) (OSequence old)).

Definition convertBaseVestingAccount (old : OldBaseVestingAccount PK) : res (NewVestingAccount Any) :=
  baseAccount ← convertBaseAccount (OBase old);
  Ok (mkVesting baseAccount (OOriginalVesting old) (ODelegatedFree old) (ODelegatedVesting old) (OEndTime old)).

Definition convert_schedule (s : LazySchedule) : Schedule :=
  mkSchedule (LStartTime s) (LEndTime s) (LRatio s).

(** The difference to one is added to the last share. *)
Definition correct_last (schedules : list Schedule) (diff : Dec) : res (list Schedule) :=
  match schedules !! (length schedules - 1)%nat with
  | None => Panic
  | Some s =>
      ratio ← dec_add (Ratio s) diff;
      Ok (<[(length schedules - 1)%nat := mkSchedule (StartTime s) (EndTime s) ratio]> schedules)
  end.

Definition convert_vesting_schedule (vs : OldVestingSchedule) : res VestingSchedule :=
  let schedules := convert_schedule <$> LazySchedules vs in
  sumRatio ← foldM (fun sumRatio s => dec_add sumRatio (LRatio s)) (LazySchedules vs) 0;
  diff ← dec_sub OneDec sumRatio;
  schedules ← if negb (diff =? 0) then correct_last schedules diff else Ok schedules;
  Ok (mkVestingSchedule (ODenom vs) schedules).

Definition convert_account (account : OldAccount PK) : res (NewAccount Any) :=
  let mintModuleAddress := NewModuleAddress "mint" in
  let treasuryModuleAddress := NewModuleAddress "treasury" in
  match account with
  | OldBase a =>
      base ← convertBaseAccount a;
      Ok (if negb (String.eqb (OAddress a) mintModuleAddress) then NewBase base
          else NewModule base "mint" ["minter"])
  | OldModule a name permissions =>
      let permissions :=
        if String.eqb (OAddress a) treasuryModuleAddress then permissions ++ ["burner"] else permissions in
      base ← convertBaseAccount a;
      Ok (NewModule base name permissions)
  | OldVesting a => v ← convertBaseVestingAccount a; Ok (NewVesting v)
  | OldLazy a =>
      vestingSchedules ← mapM convert_vesting_schedule (OVestingSchedules a);
      v ← convertBaseVestingAccount (OVesting a);
      Ok (NewLazy (Vesting.mkLazy v vestingSchedules))
  | UnknownAccount => Panic
  end.

Definition auth_Migrate (params : AuthParams) (accounts : list (OldAccount PK))
    : res (AuthParams * list Any) :=
  v040Accounts ← mapM convert_account accounts;
  anys ← mapM (fun a => must (pack_account a)) v040Accounts;
  Ok (mkAuthParams (MaxMemoCharacters params) (TxSigLimit params) (TxSizeCostPerByte params)
        (SigVerifyCostED25519 params) (SigVerifyCostSecp256k1 params), anys).

End auth_migrate.

(** *** Multisignature accounts in the store ([store.go]) *)

Section multisig.
Context {Acc PK : Type} (GetPubKey : Acc -> option PK) (SetPubKey : option PK -> Acc -> Acc).
(** Whether a key has the interface [multisig.PubKey]. *)
Context (is_multisig : PK -> bool).

Definition migrateMultiSigAccount (account : Acc) : option Acc :=
  match GetPubKey account with
  | Some pk => if is_multisig pk then Some (SetPubKey None account) else None
  | None => None
  end.

Definition MigrateAccount (account : Acc) : option Acc := migrateMultiSigAccount account.

End multisig.

(** ** [custom/authz/legacy/v043] *)

Section authz.
Context {A : Bech32} {Time Any : Type}.

Inductive OldAuthorization : Type :=
| OldGeneric (GrantMsgType : string)
| OldSend (SpendLimit : list Coin)
| UnknownAuthorization.

Inductive Authorization : Type :=
| GenericAuthorization (Msg : string)
| SendAuthorization (SpendLimit : list Coin).

(** [sdk.MsgTypeURL] of the two messages, and the packing of an authorization. *)
Context (MsgSwapURL MsgVoteURL : string) (pack_authorization : Authorization -> res Any).

Definition migrateAuthorization (oldAuthorization : OldAuthorization) : res Any :=
  protoAuthorization ←
    match oldAuthorization with
    | OldGeneric GrantMsgType =>
        msgTypeURL ←
          (if String.eqb GrantMsgType "swap" then Ok MsgSwapURL
           else if String.eqb GrantMsgType "vote" then Ok MsgVoteURL
           else Panic);
        Ok (GenericAuthorization msgTypeURL)
    | OldSend limit => Ok (SendAuthorization limit)
    | UnknownAuthorization => Panic
    end;
  must (pack_authorization protoAuthorization).

Record AuthorizationEntry : Type := mkEntry {
  Granter : AccAddress; Grantee : AccAddress; EAuthorization : OldAuthorization; Expiration : Time }.

Record GrantAuthorization : Type := mkGrant {
  GGranter : string; GGrantee : string; GAuthorization : Any; GExpiration : Time }.

Definition migrate_entry (e : AuthorizationEntry) : res GrantAuthorization :=
  any ← migrateAuthorization (EAuthorization e);
  Ok (mkGrant (AccAddressString (Granter e)) (AccAddressString (Grantee e)) any (Expiration e)).

Definition authz_Migrate (entries : list AuthorizationEntry) : res (list GrantAuthorization) :=
  mapM migrate_entry entries.

End authz.

Arguments AuthorizationEntry Time : clear implicits.
Arguments GrantAuthorization Time Any : clear implicits.

(** ** [custom/gov/legacy/v043] *)

Module Gov.

(** The old options and states are bytes; the last constructor is a byte that
    is none of the constants. *)
Inductive OldVoteOption : Type :=
| OldOptionEmpty | OldOptionYes | OldOptionAbstain | OldOptionNo | OldOptionNoWithVeto
| InvalidOption (b : Z).

Inductive VoteOption : Type :=
| OptionEmpty | OptionYes | OptionAbstain | OptionNo | OptionNoWithVeto.

Inductive OldProposalStatus : Type :=
| OldStatusNil | OldStatusDepositPeriod | OldStatusVotingPeriod | OldStatusPassed | OldStatusRejected
| OldStatusFailed
| InvalidStatus (b : Z).

Inductive ProposalStatus : Type :=
| StatusNil | StatusDepositPeriod | StatusVotingPeriod | StatusPassed | StatusRejected | StatusFailed.

Record ParamChange : Type := mkChange { Subspace : string; CKey : string; CValue : string }.

Section gov.
Context {A : Bech32} {Time Any : Type}.

Record OldPlan : Type := mkOldPlan { OName : string; OTime : Time; OHeight : Z; OInfo : string }.
Record Plan : Type := mkPlan { PName : string; PHeight : Z; PInfo : string }.

Inductive OldContent : Type :=
| OldTextProposal (title description : string)
| OldCommunityPoolSpendProposal (title description : string) (recipient : AccAddress) (amount : list Coin)
| OldCancelSoftwareUpgradeProposal (title description : string)
| OldSoftwareUpgradeProposal (title description : string) (plan : OldPlan)
| OldParameterChangeProposal (title description : string) (changes : list ParamChange)
| OldTaxRateUpdateProposal (title description : string) (taxRate : Dec)
| OldRewardWeightUpdateProposal (title description : string) (rewardWeight : Dec)
| UnknownContent.

Inductive Content : Type :=
| TextProposal (title description : string)
| CommunityPoolSpendProposal (title description : string) (recipient : string) (amount : list Coin)
| CancelSoftwareUpgradeProposal (title description : string)
| SoftwareUpgradeProposal (title description : string) (plan : Plan)
| ParameterChangeProposal (title description : string) (changes : list ParamChange).

(** [codectypes.NewAnyWithValue]. *)
Context (pack_content : Content -> res Any).

Definition migrateVoteOption (oldVoteOption : OldVoteOption) : res VoteOption :=
  match oldVoteOption with
  | OldOptionEmpty => Ok OptionEmpty
  | OldOptionYes => Ok OptionYes
  | OldOptionAbstain => Ok OptionAbstain
  | OldOptionNo => Ok OptionNo
  | OldOptionNoWithVeto => Ok OptionNoWithVeto
  | InvalidOption _ => Panic
  end.

Definition migrateProposalStatus (oldProposalStatus : OldProposalStatus) : res ProposalStatus :=
  match oldProposalStatus with
  | OldStatusNil => Ok StatusNil
  | OldStatusDepositPeriod => Ok StatusDepositPeriod
  | OldStatusVotingPeriod => Ok StatusVotingPeriod
  | OldStatusPassed => Ok StatusPassed
  | OldStatusRejected => Ok StatusRejected
  | OldStatusFailed => Ok StatusFailed
  | InvalidStatus _ => Panic
  end.

Definition migrateContent (oldContent : OldContent) : res Any :=
  protoProposal ←
    match oldContent with
    | OldTextProposal title description => Ok (TextProposal title description)
    | OldCommunityPoolSpendProposal title description recipient amount =>
        Ok (CommunityPoolSpendProposal title description (AccAddressString recipient) amount)
    | OldCancelSoftwareUpgradeProposal title description =>
        Ok (CancelSoftwareUpgradeProposal title description)
    | OldSoftwareUpgradeProposal title description plan =>
        Ok (SoftwareUpgradeProposal title description (mkPlan (OName plan) (OHeight plan) (OInfo plan)))
    | OldParameterChangeProposal title description changes =>
        let newChanges := (fun c => mkChange (Subspace c) (CKey c) (CValue c)) <$> changes in
        Ok (ParameterChangeProposal title description newChanges)
    | OldTaxRateUpdateProposal title description _ => Ok (TextProposal title description)
    | OldRewardWeightUpdateProposal title description _ => Ok (TextProposal title description)
    | UnknownContent => Panic
    end;
  must (pack_content protoProposal).

Record OldDeposit : Type := mkOldDeposit {
  ODProposalID : Z; ODDepositor : AccAddress; ODAmount : list Coin }.
Record Deposit : Type := mkDeposit { DProposalId : Z; DDepositor : string; DAmount : list Coin }.

Record OldVote : Type := mkOldVote { OVProposalID : Z; OVVoter : AccAddress; OVOption : OldVoteOption }.
Record Vote : Type := mkVote { VProposalId : Z; VVoter : string; VOptions : list (VoteOption * Dec) }.

Record TallyResult : Type := mkTally { Yes : Int; Abstain : Int; No : Int; NoWithVeto : Int }.

Record OldProposal : Type := mkOldProposal {
  OPContent : OldContent; OPProposalID : Z; OPStatus : OldProposalStatus; OPFinalTallyResult : TallyResult;
  OPSubmitTime : Time; OPDepositEndTime : Time; OPTotalDeposit : list Coin;
  OPVotingStartTime : Time; OPVotingEndTime : Time }.

Record Proposal : Type := mkProposal {
  PProposalId : Z; PContent : Any; PStatus : ProposalStatus; PFinalTallyResult : TallyResult;
  PSubmitTime : Time; PDepositEndTime : Time; PTotalDeposit : list Coin;
  PVotingStartTime : Time; PVotingEndTime : Time }.

Record GovParams : Type := mkGovParams {
  MinDeposit : list Coin; MaxDepositPeriod : Z; VotingPeriod : Z; Quorum : Dec; Threshold : Dec; Veto : Dec }.

Record OldGovState : Type := mkOldGov {
  OStartingProposalID : Z; ODeposits : list OldDeposit; OVotes : list OldVote; OProposals : list OldProposal;
  OParams : GovParams }.

Record GovState : Type := mkGov {
  StartingProposalId : Z; Deposits : list Deposit; Votes : list Vote; Proposals : list Proposal;
  GovParams_ : GovParams }.

Definition migrate_deposit (d : OldDeposit) : Deposit :=
  mkDeposit (ODProposalID d) (AccAddressString (ODDepositor d)) (ODAmount d).

Definition migrate_gov_vote (v : OldVote) : res Vote :=
  option ← migrateVoteOption (OVOption v);
  Ok (mkVote (OVProposalID v) (AccAddressString (OVVoter v)) [(option, NewDec 1)]).

Definition migrate_proposal (p : OldProposal) : res Proposal :=
  content ← migrateContent (OPContent p);
  status ← migrateProposalStatus (OPStatus p);
  let t := OPFinalTallyResult p in
  Ok (mkProposal (OPProposalID p) content status (mkTally (Yes t) (Abstain t) (No t) (NoWithVeto t))
        (OPSubmitTime p) (OPDepositEndTime p) (OPTotalDeposit p) (OPVotingStartTime p) (OPVotingEndTime p)).

Definition gov_Migrate (oldGovState : OldGovState) : res GovState :=
  let newDeposits := migrate_deposit <$> ODeposits oldGovState in
  newVotes ← mapM migrate_gov_vote (OVotes oldGovState);
  newProposals ← mapM migrate_proposal (OProposals oldGovState);
  let p := OParams oldGovState in
  Ok (mkGov (OStartingProposalID oldGovState) newDeposits newVotes newProposals
        (mkGovParams (MinDeposit p) (MaxDepositPeriod p) (VotingPeriod p) (Quorum p) (Threshold p) (Veto p))).

(** *** What the migration needs *)

Definition valid_option (o : OldVoteOption) : bool := match o with InvalidOption _ => false | _ => true end.
Definition valid_status (o : OldProposalStatus) : bool := match o with InvalidStatus _ => false | _ => true end.
Definition known_content (c : OldContent) : bool := match c with UnknownContent => false | _ => true end.

(** The states that can be migrated. *)
Definition migratable (g : OldGovState) : Prop :=
  Forall (fun v => valid_option (OVOption v) = true) (OVotes g) /\
  Forall (fun p => known_content (OPContent p) = true /\ valid_status (OPStatus p) = true) (OProposals g).

Definition title_of (c : Content) : string * string :=
  match c with
  | TextProposal t d | CommunityPoolSpendProposal t d _ _ | CancelSoftwareUpgradeProposal t d
  | SoftwareUpgradeProposal t d _ | ParameterChangeProposal t d _ => (t, d)
  end.

Definition old_title (c : OldContent) : string * string :=
  match c with
  | OldTextProposal t d | OldCommunityPoolSpendProposal t d _ _ | OldCancelSoftwareUpgradeProposal t d
  | OldSoftwareUpgradeProposal t d _ | OldParameterChangeProposal t d _
  | OldTaxRateUpdateProposal t d _ | OldRewardWeightUpdateProposal t d _ => (t, d)
  | UnknownContent => (""%string, ""%string)
  end.

Lemma migrateContent_Ok c any :
  migrateContent c = Ok any ->
  known_content c = true /\ exists n, pack_content n = Ok any /\ title_of n = old_title c.
Proof.
  unfold migrateContent. destruct c; cbn; intros H; try done; (split; [done|]);
    destruct (pack_content _) eqn:E in H; cbn in H; simplify_eq; eauto.
Qed.

Lemma migrateContent_total c :
  (forall n, exists any, pack_content n = Ok any) -> known_content c = true ->
  exists any, migrateContent c = Ok any.
Proof.
  intros Hp. unfold migrateContent. destruct c; cbn; intros H; try done;
    match goal with |- context [pack_content ?n] => destruct (Hp n) as [any ->]; by exists any end.
Qed.

(** If every content can be packed, the states that the migration accepts are
    those without invalid options, states and contents; it panics for the
    others. *)
Theorem gov_migration_accepts g :
  (forall n, exists any, pack_content n = Ok any) ->
  (exists g', gov_Migrate g = Ok g') <-> migratable g.
Proof.
  intros Hp. unfold gov_Migrate, migratable. split.
  - intros [g' H]. go_inv.
    match goal with H1 : mapM migrate_gov_vote _ = _, H2 : mapM migrate_proposal _ = _ |- _ =>
      rename H1 into Hv'; rename H2 into Hp' end.
    split.
    + assert (Ht : exists r, mapM migrate_gov_vote (OVotes g) = Ok r) by eauto.
      apply mapM_total in Ht. eapply Forall_impl; [exact Ht|]. intros v1 [y Hy].
      unfold migrate_gov_vote in Hy. by destruct (OVOption v1).
    + assert (Ht : exists r, mapM migrate_proposal (OProposals g) = Ok r) by eauto.
      apply mapM_total in Ht. eapply Forall_impl; [exact Ht|]. intros p [y Hy].
      unfold migrate_proposal in Hy. go_inv.
      match goal with H : migrateContent _ = _ |- _ => apply migrateContent_Ok in H as [-> _] end.
      by destruct (OPStatus p).
  - intros [Hv Hc].
    destruct (proj1 (mapM_total migrate_gov_vote (OVotes g))) as [votes ->].
    { eapply Forall_impl; [exact Hv|]. intros v Ho. unfold migrate_gov_vote. cbn in Ho.
      destruct (OVOption v); try done; by eexists. }
    destruct (proj1 (mapM_total migrate_proposal (OProposals g))) as [props ->].
    { eapply Forall_impl; [exact Hc|]. intros p [Hk Hs]. unfold migrate_proposal.
      destruct (migrateContent_total (OPContent p) Hp Hk) as [any ->].
      destruct (OPStatus p); try done; by eexists. }
    by eexists.
Qed.

(** The record of governance is kept: proposals keep their number, title,
    description, tally and times (those of the treasury as text proposals), a
    vote becomes one option with weight one, and the deposits stay the same. *)
Theorem gov_records_kept g g' :
  gov_Migrate g = Ok g' ->
  Forall2 (fun p p' => PProposalId p' = OPProposalID p /\ PFinalTallyResult p' = OPFinalTallyResult p /\
     PVotingEndTime p' = OPVotingEndTime p /\ PTotalDeposit p' = OPTotalDeposit p /\
     exists n, pack_content n = Ok (PContent p') /\ title_of n = old_title (OPContent p))
    (OProposals g) (Proposals g') /\
  Forall2 (fun v v' => VProposalId v' = OVProposalID v /\ VVoter v' = AccAddressString (OVVoter v) /\
     exists o, migrateVoteOption (OVOption v) = Ok o /\ VOptions v' = [(o, OneDec)]) (OVotes g) (Votes g') /\
  Deposits g' = migrate_deposit <$> ODeposits g /\ StartingProposalId g' = OStartingProposalID g.
Proof.
  unfold gov_Migrate. intros H. go_inv. cbn.
  match goal with H1 : mapM migrate_gov_vote _ = _, H2 : mapM migrate_proposal _ = _ |- _ =>
    apply mapM_Ok in H1; apply mapM_Ok in H2; rename H1 into Hv'; rename H2 into Hp' end.
  split; [|split; [|done]].
  - eapply Forall2_impl; [exact Hp'|]. intros p p' Hm. unfold migrate_proposal in Hm. go_inv. cbn.
    match goal with H : migrateContent _ = _ |- _ => apply migrateContent_Ok in H as [_ Hc] end.
    split; [done|]. split; [by destruct (OPFinalTallyResult p)|]. done.
  - eapply Forall2_impl; [exact Hv'|]. intros x y Hm. unfold migrate_gov_vote in Hm. go_inv. cbn.
    split; [done|]. split; [done|]. eexists. split; [done|]. done.
Qed.

End gov.
End Gov.

(** ** Facts about accounts *)

Section account_facts.
Context {M : SdkMath} {ML : SdkMathLaws M} {A : Bech32} {PK Any : Type}.
Context (NewLegacyAminoPubKey : Z -> list (PubKey PK) -> res (PubKey PK)).
Context (pack_key : PubKey PK -> res Any) (pack_account : NewAccount Any -> res Any).
Context (NewModuleAddress : string -> AccAddress).

Lemma sum_ratios_Ok l acc r :
  foldM (fun sumRatio s => dec_add sumRatio (LRatio s)) l acc = Ok r -> r = acc + sumZ LRatio l.
Proof.
  revert acc. induction l as [|s l IH]; intros acc H; cbn in H; go_inv; [rewrite sumZ_nil; lia|].
  apply dec_add_Ok in Hv as [-> _]. apply IH in H as ->. rewrite sumZ_cons. lia.
Qed.

Lemma sum_converted l : sumZ Ratio (convert_schedule <$> l) = sumZ LRatio l.
Proof. induction l as [|s l IH]; [done|]. rewrite fmap_cons, !sumZ_cons, IH. done. Qed.

(** The slice of a non-empty list of schedules that is corrected. *)
Lemma correct_last_snoc l s diff r :
  correct_last (l ++ [s]) diff = Ok r -> r = l ++ [mkSchedule (StartTime s) (EndTime s) (Ratio s + diff)].
Proof.
  unfold correct_last. rewrite length_app. cbn [length]. rewrite Nat.add_sub, list_lookup_middle by done.
  intros H. go_inv. apply dec_add_Ok in Hv as [-> _]. rewrite insert_app_r_alt, Nat.sub_diag by lia. done.
Qed.

Lemma correct_last_sum l diff r :
  correct_last l diff = Ok r -> sumZ Ratio r = sumZ Ratio l + diff.
Proof.
  destruct l as [|s l _] using rev_ind; [done|]. intros ->%correct_last_snoc.
  rewrite !sumZ_app, !sumZ_cons, !sumZ_nil. cbn. lia.
Qed.

Lemma correct_last_times l diff r :
  correct_last l diff = Ok r -> (fun s => (StartTime s, EndTime s)) <$> r = (fun s => (StartTime s, EndTime s)) <$> l.
Proof.
  destruct l as [|s l _] using rev_ind; [done|]. intros ->%correct_last_snoc. by rewrite !fmap_app.
Qed.

(** The converted schedule: the same denomination and intervals, and shares that
    add up to one. *)
Lemma convert_vesting_schedule_Ok vs vs' :
  convert_vesting_schedule vs = Ok vs' ->
  SDenom vs' = ODenom vs /\ sumZ Ratio (Schedules vs') = OneDec /\
  (fun s => (StartTime s, EndTime s)) <$> Schedules vs' = (fun s => (LStartTime s, LEndTime s)) <$> LazySchedules vs.
Proof.
  unfold convert_vesting_schedule. intros H. go_inv.
  match goal with H : foldM _ _ _ = _ |- _ => apply sum_ratios_Ok in H as -> end.
  match goal with H : dec_sub _ _ = _ |- _ => apply dec_sub_Ok in H as [-> _] end. cbn [SDenom Schedules].
  assert (Ht : (fun s => (StartTime s, EndTime s)) <$> (convert_schedule <$> LazySchedules vs) =
               (fun s => (LStartTime s, LEndTime s)) <$> LazySchedules vs).
  { rewrite <- list_fmap_compose. by apply list_fmap_ext. }
  split; [done|]. pose proof (sum_converted (LazySchedules vs)) as Hs.
  destruct (Z.eqb_spec (OneDec - (0 + sumZ LRatio (LazySchedules vs))) 0); cbn [negb] in *; go_inv.
  - split; [lia|done].
  - match goal with H : correct_last _ _ = _ |- _ =>
      pose proof (correct_last_times _ _ _ H) as ->; apply correct_last_sum in H as -> end.
    split; [lia|done].
Qed.

Lemma convertBaseAccount_Ok old new :
  convertBaseAccount NewLegacyAminoPubKey pack_key old = Ok new ->
  Address new = AccAddressString (OAddress old) /\ AccountNumber new = OAccountNumber old /\
  Sequence new = OSequence old /\ (is_Some (APubKey new) <-> is_Some (OPubKey old)).
Proof.
  unfold convertBaseAccount. intros H. go_inv. cbn. repeat (split; [done|]).
  destruct (OPubKey old); go_inv; [|done]. split; intros _; eauto.
Qed.

Definition old_base (a : OldAccount PK) : option (OldBaseAccount PK) :=
  match a with
  | OldBase a => Some a
  | OldModule a _ _ => Some a
  | OldVesting a => Some (OBase a)
  | OldLazy a => Some (OBase (OVesting a))
  | UnknownAccount => None
  end.

Lemma convert_account_base a n :
  convert_account NewLegacyAminoPubKey pack_key NewModuleAddress a = Ok n ->
  exists b, old_base a = Some b /\ convertBaseAccount NewLegacyAminoPubKey pack_key b = Ok (base_of n).
Proof.
  unfold convert_account, convertBaseVestingAccount. destruct a; cbn [old_base]; intros H; go_inv;
    eexists; (split; [done|]); try done. by destruct (negb _).
Qed.

(** The migration of accounts keeps every account: one for each old one, in
    the same order, with the same address, number and sequence, and with a
    public key if and only if it had one. *)
Theorem accounts_kept params accounts params' anys :
  auth_Migrate NewLegacyAminoPubKey pack_key pack_account NewModuleAddress params accounts = Ok (params', anys) ->
  exists news, Forall2 (fun n any => pack_account n = Ok any) news anys /\
    Forall2 (fun a n => exists b, old_base a = Some b /\
      Address (base_of n) = AccAddressString (OAddress b) /\ AccountNumber (base_of n) = OAccountNumber b /\
      Sequence (base_of n) = OSequence b /\ (is_Some (APubKey (base_of n)) <-> is_Some (OPubKey b)))
      accounts news.
Proof.
  unfold auth_Migrate. intros H. go_inv.
  match goal with H1 : mapM (convert_account _ _ _) _ = _, H2 : mapM _ _ = Ok anys |- _ =>
    apply mapM_Ok in H1; apply mapM_Ok in H2; rename H1 into Hc; rename H2 into Hp end.
  eexists. split.
  - eapply Forall2_impl; [exact Hp|]. intros n any. apply must_Ok.
  - eapply Forall2_impl; [exact Hc|]. intros a n (b & Hb & Hn)%convert_account_base. exists b.
    split; [done|]. by apply convertBaseAccount_Ok in Hn.
Qed.

(** The account at the address of the mint module becomes a module account
    that may mint, and the treasury gets the permission to burn; no other
    account gains a permission. *)
Theorem permissions_granted a n :
  convert_account NewLegacyAminoPubKey pack_key NewModuleAddress a = Ok n ->
  match a, n with
  | OldBase b, NewModule _ name permissions =>
      OAddress b = NewModuleAddress "mint" /\ name = "mint"%string /\ permissions = ["minter"%string]
  | OldBase b, NewBase _ => OAddress b <> NewModuleAddress "mint"
  | OldModule b name permissions, NewModule _ name' permissions' =>
      name' = name /\ permissions' =
        if decide (OAddress b = NewModuleAddress "treasury") then permissions ++ ["burner"%string] else permissions
  | OldVesting _, NewVesting _ | OldLazy _, NewLazy _ => True
  | _, _ => False
  end.
Proof.
  unfold convert_account. destruct a as [b|b name ps|b|b|]; intros H; go_inv; try done.
  - destruct (String.eqb_spec (OAddress b) (NewModuleAddress "mint")); cbn; done.
  - split; [done|]. destruct (String.eqb_spec (OAddress b) (NewModuleAddress "treasury")), (decide _); done.
Qed.

End account_facts.

(** ** Migrated vesting accounts *)

Section vesting_migration.
Context {M : SdkMath} {ML : SdkMathLaws M} {C : SdkCoins} {CL : SdkCoinsLaws M C}.
Context {A : Bech32} {PK Any : Type}.
Context (NewLegacyAminoPubKey : Z -> list (PubKey PK) -> res (PubKey PK)).
Context (pack_key : PubKey PK -> res Any) (NewModuleAddress : string -> AccAddress).
(** The operations of the SDK on base vesting accounts. *)
Context {BV : BaseVestingAccount (NewVestingAccount Any)}.
Context (original_field : forall v, OriginalVesting v = VOriginalVesting v).

(** The old validation is the one of the new version on the converted
    schedule. *)
Lemma old_validate_eq vs :
  OldVestingSchedule_Validate vs =
  VestingSchedule_Validate (mkVestingSchedule (ODenom vs) (convert_schedule <$> LazySchedules vs)).
Proof.
  unfold OldVestingSchedule_Validate, VestingSchedule_Validate. cbn [Schedules].
  assert (Hf : forall l acc, foldM add_ratio (convert_schedule <$> l) acc =
    foldM (fun sumRatio s => LazySchedule_Validate s;; dec_add sumRatio (LRatio s)) l acc).
  { intros l. induction l as [|s l IH]; intros acc; [done|]. cbn [fmap list_fmap foldM].
    change (add_ratio acc (convert_schedule s)) with (LazySchedule_Validate s;; dec_add acc (LRatio s)).
    destruct (LazySchedule_Validate s;; dec_add acc (LRatio s)); cbn; [apply IH|done..]. }
  by rewrite Hf.
Qed.

(** A valid old schedule whose times are 64-bit integers and whose shares are
    larger than the tolerance of the validation. *)
Definition old_schedule_ok (vs : OldVestingSchedule) : Prop :=
  OldVestingSchedule_Validate vs = Ok tt /\
  Forall (fun s => LEndTime s < two63 /\ precision < 2 * fixedPointDecimals * LRatio s) (LazySchedules vs).

Lemma corrected_ok vs vs' :
  old_schedule_ok vs -> convert_vesting_schedule vs = Ok vs' -> Forall schedule_ok (Schedules vs').
Proof.
  intros [Hval Hbig] H. rewrite old_validate_eq in Hval. apply VestingSchedule_Validate_Ok in Hval as [Hs Htol].
  cbn [Schedules] in *. rewrite sum_converted in Htol.
  assert (Hok : Forall schedule_ok (convert_schedule <$> LazySchedules vs)).
  { apply Forall_fmap in Hs. apply Forall_fmap. rewrite Forall_forall in *. intros s Hin.
    destruct (Hs s Hin), (Hbig s Hin). unfold schedule_ok. cbn in *. lia. }
  unfold convert_vesting_schedule in H. go_inv.
  match goal with H : foldM _ _ _ = _ |- _ => apply sum_ratios_Ok in H as -> end.
  match goal with H : dec_sub _ _ = _ |- _ => apply dec_sub_Ok in H as [-> _] end. cbn [Schedules].
  destruct (negb _); go_inv; [|done]. revert Hok Hbig Htol. destruct (LazySchedules vs) as [|s l _] using rev_ind; [done|].
  match goal with H : correct_last _ _ = _ |- _ => rewrite fmap_app in H; apply correct_last_snoc in H as -> end.
  rewrite fmap_app, !Forall_app. intros [Hl Hlast] [_ Hb] Htol. split; [done|].
  apply Forall_singleton in Hlast as (Ht & He & Hr), Hb as [_ Hb]. apply Forall_singleton.
  split; [done|]. split; [done|]. cbn [Ratio convert_schedule]. unfold fixedPointDecimals in *. lia.
Qed.

(** C38. A migrated account vests completely: when all its intervals have ended, the
    coins that are still vesting can be computed and there are none, because
    the corrected shares add up to exactly one. *)
Theorem migrated_account_vests a n t :
  convert_account NewLegacyAminoPubKey pack_key NewModuleAddress (OldLazy a) = Ok (NewLazy n) ->
  Forall old_schedule_ok (OVestingSchedules a) -> coins_wf (OOriginalVesting (OVesting a)) ->
  Forall (fun c => ValidDenom (coin_denom c) = true /\ coin_amount c < int_bound - 1)
    (OOriginalVesting (OVesting a)) ->
  Forall (fun vs => Forall (fun s => LEndTime s <= t) (LazySchedules vs)) (OVestingSchedules a) ->
  exists v, GetVestingCoins n t = Ok v /\ forall d, amt v d = 0.
Proof.
  intros H Hs Hwf Hb Hend. unfold convert_account, convertBaseVestingAccount in H. go_inv.
  match goal with H : mapM _ _ = Ok _ |- _ => apply mapM_Ok in H; rename H into Hm end.
  apply ended_nothing_vesting; cbn [Vesting.Base Vesting.VestingSchedules]; rewrite ?original_field; cbn [VOriginalVesting];
    [|done|done|].
  - split; cbn [Vesting.Base Vesting.VestingSchedules]; rewrite ?original_field; cbn.
    + clear -Hs Hm ML. revert Hs. induction Hm as [|vs vs' l l' Hc _ IH]; intros Hs; [constructor|].
      inversion Hs; subst. constructor; [by eapply corrected_ok|by apply IH].
    + destruct Hwf as [Hpos _]. eapply Forall_impl; [exact Hpos|]. cbn. lia.
  - intros vs' Hin. apply list_elem_of_lookup in Hin as [i Hi].
    destruct (Forall2_lookup_r _ _ _ _ _ Hm Hi) as (vs & Hvs & Hc).
    apply convert_vesting_schedule_Ok in Hc as (_ & Hsum & Htimes). split; [|done].
    rewrite Forall_forall in Hend. specialize (Hend vs (list_elem_of_lookup_2 _ _ _ Hvs)).
    enough (Hx : Forall (fun p : Z * Z => p.2 <= t) ((fun s => (StartTime s, EndTime s)) <$> Schedules vs'))
      by exact (proj1 (Forall_fmap _ _ _) Hx).
    rewrite Htimes. by apply Forall_fmap.
Qed.

End vesting_migration.

(** The JSON form of a vesting account has all of it: if the codec reads back
    what it writes, so do [MarshalJSON] and [UnmarshalJSON]. *)
Theorem account_json_roundtrip {PK Raw} (marshal : vestingAccountJSON PK -> res Raw)
    (unmarshal : Raw -> res (vestingAccountJSON PK)) lgva raw :
  (forall j r, marshal j = Ok r -> unmarshal r = Ok j) ->
  MarshalJSON marshal lgva = Ok raw -> UnmarshalJSON unmarshal raw = Ok lgva.
Proof.
  intros Hc H%Hc. unfold UnmarshalJSON. rewrite H. by destruct lgva as [[[] ? ? ? ?] ?].
Qed.

(** The grants that can be migrated are those to send, to swap and to vote. *)
Theorem grants_migrated {A : Bech32} {Time Any} MsgSwapURL MsgVoteURL (pack : Authorization -> res Any)
    (entries : list (AuthorizationEntry Time)) :
  (forall a, exists any, pack a = Ok any) ->
  (exists grants, authz_Migrate MsgSwapURL MsgVoteURL pack entries = Ok grants) <->
  Forall (fun e => match EAuthorization e with
                   | OldGeneric t => t = "swap"%string \/ t = "vote"%string
                   | OldSend _ => True
                   | UnknownAuthorization => False
                   end) entries.
Proof.
  intros Hp. unfold authz_Migrate. rewrite <- mapM_total. apply Forall_iff. intros e.
  unfold migrate_entry, migrateAuthorization. destruct (EAuthorization e) as [t|l|].
  - destruct (String.eqb_spec t "swap") as [->|H1]; [|destruct (String.eqb_spec t "vote") as [->|H2]]; cbn.
    + destruct (Hp (GenericAuthorization MsgSwapURL)) as [any ->]. cbn. split; eauto.
    + destruct (Hp (GenericAuthorization MsgVoteURL)) as [any ->]. cbn. split; eauto.
    + split; [by intros [y ?]|]. by intros [?|?].
  - cbn. destruct (Hp (SendAuthorization l)) as [any ->]. cbn. split; eauto.
  - split; [by intros [y ?]|done].
Qed.

(** ** Concrete accounts *)

Module AccountsExample.

#[local] Existing Instance ref_math.
#[local] Existing Instance ref_coins.
#[local] Existing Instance ref_bech32.

(** Keys are names, which an [Any] holds. *)
Definition pack_name (k : PubKey string) : res string :=
  match k with OtherPubKey name => Ok name | LegacyAminoPubKey _ _ => Ok "multisig"%string end.

Definition new_multisig (threshold : Z) (keys : list (PubKey string)) : res (PubKey string) :=
  if (threshold <=? 0) || (Z.of_nat (length keys) <? threshold) then Panic
  else Ok (LegacyAminoPubKey threshold keys).

#[local] Instance field_base : BaseVestingAccount (NewVestingAccount string) := {|
  OriginalVesting := VOriginalVesting;
  NewBaseVestingAccount cs := mkVesting (mkBase "" None 0 0) cs [] [] 0;
  LockedCoinsFromVesting _ vesting := Ok vesting;
  BaseTrackDelegation v _ _ _ := Ok v;
  BaseValidate _ := Ok tt;
|}.

(** Three shares of a third each, which add up to less than one. *)
Definition third : Dec := 333333333333333333.

Definition thirds : OldLazyAccount string :=
  mkOldLazy
    (mkOldVesting (mkOldBase "alice" [] (Some (OtherPubKey "key")) 4 7) [mkCoin "uluna" 3000] [] [] 0)
    [mkOldSchedule "uluna"
       [mkLazySchedule 0 10 third; mkLazySchedule 10 20 third; mkLazySchedule 20 30 third]].

Definition module_name (m : string) : string := ("module/" +:+ m)%string.

Definition migrated_thirds : Vesting.LazyGradedVestingAccount (NewVestingAccount string) :=
  Vesting.mkLazy (mkVesting (mkBase "talice" (Some "key"%string) 4 7) [mkCoin "uluna" 3000] [] [] 0)
    [mkVestingSchedule "uluna"
       [mkSchedule 0 10 third; mkSchedule 10 20 third; mkSchedule 20 30 (third + 1)]].

Lemma converted_thirds :
  convert_account (M:=ref_math) (A:=ref_bech32) new_multisig pack_name module_name (OldLazy thirds)
    = Ok (NewLazy migrated_thirds).
Proof. vm_compute. reflexivity. Qed.

Lemma migrated_account_vests_witness : exists v, GetVestingCoins migrated_thirds 30 = Ok v /\ amt v "uluna" = 0.
Proof.
  destruct (migrated_account_vests (M:=ref_math) (ML:=ref_math_laws) (C:=ref_coins) (CL:=ref_coins_laws)
    (A:=ref_bech32) (BV:=field_base) new_multisig pack_name module_name (fun _ => eq_refl)
    thirds migrated_thirds 30 converted_thirds) as (v & Hv & Hz).
  - apply Forall_singleton. split; [vm_compute; reflexivity|].
    repeat constructor; vm_compute; reflexivity.
  - split; [repeat constructor|]. split; [apply NoDup_singleton|repeat constructor].
  - apply Forall_singleton. split; vm_compute; reflexivity.
  - repeat constructor; vm_compute; congruence.
  - exists v. split; [exact Hv|apply Hz].
Defined.

End AccountsExample.
