(* ===== verification/LegacyApp.v ===== *)
(** * Migration of the genesis of the application ([src/app/legacy])

    [Migrate] of [v05/migrate.go] replaces the genesis of the modules, one after
    the other, in the map from module names to JSON; the command of [migrate.go]
    then adds the metadata of the currencies and the modules that are new, and
    [pubkey_replacement.go] exchanges the consensus keys of validators.  The JSON
    codecs and the migrations of the SDK's own modules are arguments. *)

From Stdlib Require Import ZArith Lia Bool.
From stdpp Require Import base strings list gmap.
From S2P Require Import Prelude Loops Sdk SdkRef Core Market Treasury WasmTypes WasmMsgs Wasm.
From S2P Require Import OracleBallot OracleStore OracleEnd Vesting Legacy LegacyAccounts.
Local Open Scope Z_scope.

(** ** The module states ([v05/migrate.go]) *)

(** The state of slashing: the address in a signing info may be missing. *)
Record SigningInfo (Y : Type) : Type := mkInfo { IAddress : string; IRest : Y }.
Arguments mkInfo {Y} _ _.
Arguments IAddress {Y} _.
Arguments IRest {Y} _.

Record SlashingState (Y Z' : Type) : Type := mkSlashing { SigningInfos : gmap string (SigningInfo Y); SRest : Z' }.
Arguments mkSlashing {Y Z'} _ _.
Arguments SigningInfos {Y Z'} _.
Arguments SRest {Y Z'} _.

Section migrate.
Context {M : SdkMath} {A : Bech32} {R : GoRange}.
(** [Raw] is the JSON of a module. *)
Context {Raw PK Any Time Tx Y Z' : Type}.

Abbreviation AppMap := (gmap string Raw).

(** The decoders of version 0.4 and encoders of version 0.5 of the modules that
    are migrated here. *)
Class ModuleCodecs : Type := {
  decode_auth : Raw -> res (AuthParams * list (OldAccount PK));
  encode_auth : AuthParams * list Any -> res Raw;
  decode_gov : Raw -> res (Gov.OldGovState (Time:=Time));
  encode_gov : Gov.GovState (Time:=Time) (Any:=Any) -> res Raw;
  decode_msgauth : Raw -> res (list (AuthorizationEntry Time));
  encode_authz : list (GrantAuthorization Time Any) -> res Raw;
  decode_genutil : Raw -> res (list Tx);
  encode_genutil : list Tx -> res Raw;
  decode_market : Raw -> res V04market.GenesisState;
  encode_market : Market.GenesisState -> res Raw;
  decode_oracle : Raw -> res V04oracle.GenesisState;
  encode_oracle : OracleStore.GenesisState -> res Raw;
  decode_treasury : Raw -> res V04treasury.GenesisState;
  encode_treasury : Treasury.GenesisState -> res Raw;
  decode_wasm : Raw -> res V04wasm.GenesisState;
  encode_wasm : Wasm.GenesisState -> res Raw;
  decode_slashing : Raw -> res (SlashingState Y Z');
  NewLegacyAminoPubKey : Z -> list (PubKey PK) -> res (PubKey PK);
  pack_key : PubKey PK -> res Any;
  pack_account : NewAccount Any -> res Any;
  pack_authorization : Authorization -> res Any;
  pack_content : Gov.Content -> res Any;
  NewModuleAddress : string -> AccAddress;
  MsgSwapURL : string;
  MsgVoteURL : string;
  ConsAddressFromBech32 : string -> res string;
  unset_epoch : EpochState;
}.

(** The migrations of the SDK, from JSON to JSON: decode, migrate and encode. *)
Class SdkMigrations : Type := {
  bank_migrate : Raw -> option Raw -> option Raw -> res Raw;   (* bank, auth, supply *)
  crisis_migrate : Raw -> res Raw;
  distribution_migrate : Raw -> res Raw;
  evidence_migrate : Raw -> res Raw;
  mint_migrate : Raw -> res Raw;
  staking_migrate : Raw -> res Raw;
  slashing_finish : SlashingState Y Z' -> res Raw;
}.

Context {MC : ModuleCodecs} {SM : SdkMigrations}.

Definition migrateGenutil (genTxs : list Tx) : list Tx := genTxs.

(** The loop that fills empty consensus addresses. *)
Definition fill_address (infos : gmap string (SigningInfo Y)) (e : string * SigningInfo Y)
    : res (gmap string (SigningInfo Y)) :=
  if String.eqb (IAddress e.2) "" then
    addr ← must (ConsAddressFromBech32 e.1);
    Ok (<[e.1 := mkInfo addr (IRest e.2)]> infos)
  else Ok infos.

Definition fill_addresses (g : SlashingState Y Z') : res (SlashingState Y Z') :=
  infos ← foldM fill_address (range 175 (SigningInfos g)) (SigningInfos g);
  Ok (mkSlashing infos (SRest g)).

(** One block of [Migrate]: a module that is present is decoded, deleted,
    migrated, encoded and set under its new name. *)
Definition migrate_module (old new : string) (f : Raw -> res Raw) (appState : AppMap) : res AppMap :=
  match appState !! old with
  | None => Ok appState
  | Some raw => bz ← must (f raw); Ok (<[new := bz]> (delete old appState))
  end.

Definition migrate_bank (appState : AppMap) : res AppMap :=
  match appState !! "bank"%string with
  | None => Ok appState
  | Some raw =>
      bz ← must (bank_migrate raw (appState !! "auth"%string) (appState !! "supply"%string));
      Ok (<["bank"%string := bz]> (delete "supply"%string (delete "bank"%string appState)))
  end.

Definition auth_step (raw : Raw) : res Raw :=
  '(params, accounts) ← decode_auth raw;
  g ← auth_Migrate NewLegacyAminoPubKey pack_key pack_account NewModuleAddress params accounts;
  encode_auth g.

Definition gov_step (raw : Raw) : res Raw :=
  g ← decode_gov raw; g ← Gov.gov_Migrate pack_content g; encode_gov g.

Definition slashing_step (raw : Raw) : res Raw :=
  g ← decode_slashing raw; g ← fill_addresses g; slashing_finish g.

Definition genutil_step (raw : Raw) : res Raw :=
  g ← decode_genutil raw; encode_genutil (migrateGenutil g).

Definition market_step (raw : Raw) : res Raw :=
  g ← decode_market raw; encode_market (market_Migrate g).

Definition oracle_step (raw : Raw) : res Raw :=
  g ← decode_oracle raw; encode_oracle (oracle_Migrate g).

Definition msgauth_step (raw : Raw) : res Raw :=
  g ← decode_msgauth raw; g ← authz_Migrate MsgSwapURL MsgVoteURL pack_authorization g; encode_authz g.

Definition treasury_step_ (raw : Raw) : res Raw :=
  g ← decode_treasury raw; g ← treasury_Migrate unset_epoch g; encode_treasury g.

Definition wasm_step (raw : Raw) : res Raw :=
  g ← decode_wasm raw; encode_wasm (wasm_Migrate g).

Definition Migrate (appState : AppMap) : res AppMap :=
  appState ← migrate_bank appState;
  appState ← migrate_module "auth" "auth" auth_step appState;
  appState ← migrate_module "crisis" "crisis" crisis_migrate appState;
  appState ← migrate_module "distribution" "distribution" distribution_migrate appState;
  appState ← migrate_module "evidence" "evidence" evidence_migrate appState;
  appState ← migrate_module "gov" "gov" gov_step appState;
  appState ← migrate_module "mint" "mint" mint_migrate appState;
  appState ← migrate_module "slashing" "slashing" slashing_step appState;
  appState ← migrate_module "staking" "staking" staking_migrate appState;
  appState ← migrate_module "genutil" "genutil" genutil_step appState;
  appState ← migrate_module "market" "market" market_step appState;
  appState ← migrate_module "oracle" "oracle" oracle_step appState;
  appState ← migrate_module "msgauth" "authz" msgauth_step appState;
  appState ← migrate_module "treasury" "treasury" treasury_step_ appState;
  migrate_module "wasm" "wasm" wasm_step appState.

(** ** The specification: each module on its own *)

(** The migrations of modules that do not look at other modules. *)
Definition module_steps : list (string * (Raw -> res Raw)) :=
  [("auth", auth_step); ("crisis", crisis_migrate); ("distribution", distribution_migrate);
   ("evidence", evidence_migrate); ("gov", gov_step); ("mint", mint_migrate); ("slashing", slashing_step);
   ("staking", staking_migrate); ("genutil", genutil_step); ("market", market_step);
   ("oracle", oracle_step); ("treasury", treasury_step_); ("wasm", wasm_step)]%string.

Definition step_of (name : string) : option (Raw -> res Raw) :=
  (list_to_map module_steps : gmap string (Raw -> res Raw)) !! name.

Definition run_step (f : Raw -> res Raw) (o : option Raw) : res (option Raw) :=
  match o with
  | None => Ok None
  | Some raw => bz ← must (f raw); Ok (Some bz)
  end.

(** What the new state has under a name. *)
Definition migrated_entry (m : AppMap) (name : string) : res (option Raw) :=
  if String.eqb name "bank" then
    run_step (fun raw => bank_migrate raw (m !! "auth"%string) (m !! "supply"%string)) (m !! name)
  else if String.eqb name "supply" then
    Ok (match m !! "bank"%string with Some _ => None | None => m !! name end)
  else if String.eqb name "msgauth" then Ok None
  else if String.eqb name "authz" then
    match m !! "msgauth"%string with
    | Some raw => run_step msgauth_step (Some raw)
    | None => Ok (m !! name)
    end
  else match step_of name with
       | Some f => run_step f (m !! name)
       | None => Ok (m !! name)
       end.

End migrate.

Arguments ModuleCodecs Raw PK Any Time Tx Y Z' : clear implicits.
Arguments SdkMigrations Raw Y Z' : clear implicits.

(** ** The migration implements the specification *)

Section migrate_facts.
Context {M : SdkMath} {A : Bech32} {R : GoRange} {Raw PK Any Time Tx Y Z' : Type}.
Context {MC : ModuleCodecs Raw PK Any Time Tx Y Z'} {SM : SdkMigrations Raw Y Z'}.
Implicit Types m : gmap string Raw.

Lemma migrate_same k f m :
  migrate_module k k f m = (o ← run_step f (m !! k); Ok (partial_alter (fun _ => o) k m)).
Proof.
  unfold migrate_module, run_step. destruct (m !! k) as [raw|] eqn:E; cbn.
  - destruct (must (f raw)); cbn; [|done..]. by rewrite insert_delete_eq.
  - f_equal. symmetry. rewrite <- E. apply partial_alter_self.
Qed.

Definition in_place (s : string * (Raw -> res Raw)) m : res (gmap string Raw) := migrate_module s.1 s.1 s.2 m.

Definition entry_of (steps : gmap string (Raw -> res Raw)) m (name : string) : res (option Raw) :=
  match steps !! name with
  | Some f => run_step f (m !! name)
  | None => Ok (m !! name)
  end.

Lemma in_place_entries steps m m' :
  NoDup steps.*1 -> foldM (fun m s => in_place s m) steps m = Ok m' ->
  forall name, entry_of (list_to_map steps) m name = Ok (m' !! name).
Proof.
  revert m. induction steps as [|[k f] steps IH]; intros m Hnd H name; cbn in H; [by go_inv|].
  inversion Hnd as [|? ? Hk Hnd']; subst. go_inv. unfold in_place in Hv. cbn [fst snd] in Hv.
  rewrite migrate_same in Hv. go_inv. specialize (IH _ Hnd' H name). unfold entry_of in *. cbn.
  destruct (decide (name = k)) as [->|Hne].
  - rewrite lookup_insert_eq. rewrite not_elem_of_list_to_map_1 in IH by done.
    rewrite lookup_partial_alter_eq in IH. by simplify_eq.
  - rewrite lookup_insert_ne by done. by rewrite lookup_partial_alter_ne in IH by done.
Qed.

Lemma in_place_total steps m :
  NoDup steps.*1 -> (forall name, exists o, entry_of (list_to_map steps) m name = Ok o) ->
  exists m', foldM (fun m s => in_place s m) steps m = Ok m'.
Proof.
  revert m. induction steps as [|[k f] steps IH]; intros m Hnd Ho; [by exists m|].
  inversion Hnd as [|? ? Hk Hnd']; subst. cbn. change (in_place (k, f) m) with (migrate_module k k f m). rewrite migrate_same.
  destruct (Ho k) as [o Hok]. unfold entry_of in Hok. cbn in Hok. rewrite lookup_insert_eq in Hok.
  rewrite Hok. cbn. apply IH; [done|]. intros name. destruct (decide (name = k)) as [->|Hne].
  - unfold entry_of. rewrite not_elem_of_list_to_map_1 by done. eauto.
  - destruct (Ho name) as [o' Ho']. exists o'. unfold entry_of in *. cbn in Ho'.
    rewrite lookup_insert_ne in Ho' by done. by rewrite lookup_partial_alter_ne by done.
Qed.

Lemma foldM_app {X S} (f : S -> X -> res S) l1 l2 s :
  foldM f (l1 ++ l2) s = (s' ← foldM f l1 s; foldM f l2 s').
Proof.
  revert s. induction l1 as [|x l1 IH]; intros s; [done|]. cbn. destruct (f s x); cbn; [apply IH|done..].
Qed.

Definition steps_before : list (string * (Raw -> res Raw)) :=
  [("auth", auth_step); ("crisis", crisis_migrate); ("distribution", distribution_migrate);
   ("evidence", evidence_migrate); ("gov", gov_step); ("mint", mint_migrate); ("slashing", slashing_step);
   ("staking", staking_migrate); ("genutil", genutil_step); ("market", market_step);
   ("oracle", oracle_step)]%string.

Definition steps_after : list (string * (Raw -> res Raw)) :=
  [("treasury", treasury_step_); ("wasm", wasm_step)]%string.

Lemma res_assoc {X1 X2 X3} (c : res X1) (f : X1 -> res X2) (g : X2 -> res X3) :
  (x ← c; y ← f x; g y) = (y ← (x ← c; f x); g y).
Proof. by destruct c. Qed.

Lemma list_forall {T} (P : T -> Prop) l x : Forall P l -> x ∈ l -> P x.
Proof. rewrite Forall_forall. auto. Qed.

Lemma Migrate_phases m :
  Migrate m =
    (m1 ← migrate_bank m;
     m2 ← foldM (fun m s => in_place s m) steps_before m1;
     m3 ← migrate_module "msgauth" "authz" msgauth_step m2;
     foldM (fun m s => in_place s m) steps_after m3).
Proof.
  unfold Migrate, steps_before, steps_after. destruct (migrate_bank m) as [m1| |]; [|done..].
  cbn [mbind res_bind foldM]. unfold in_place. cbn [fst snd].
  do 11 (match goal with |- (_ ≫= _) = ((?c ≫= _) ≫= _) => destruct c as [?m| |]; [|done..] end;
         cbn [mbind res_bind]).
  cbn. do 2 (match goal with |- (?c ≫= _) = _ => destruct c as [?m| |]; [|done..] end; cbn).
  by match goal with |- ?c = _ => destruct c end.
Qed.

Lemma steps_before_NoDup : NoDup (steps_before).*1.
Proof. cbn. apply (bool_decide_unpack _). by vm_compute. Qed.

Lemma steps_after_NoDup : NoDup (steps_after).*1.
Proof. cbn. apply (bool_decide_unpack _). by vm_compute. Qed.

Lemma msgauth_entries m m' :
  migrate_module "msgauth" "authz" msgauth_step m = Ok m' ->
  m' !! "msgauth"%string = None /\
  (forall name, name <> "msgauth"%string -> name <> "authz"%string -> m' !! name = m !! name) /\
  (match m !! "msgauth"%string with
   | Some raw => run_step msgauth_step (Some raw)
   | None => Ok (m !! "authz"%string)
   end) = Ok (m' !! "authz"%string).
Proof.
  unfold migrate_module. destruct (m !! "msgauth"%string) as [raw|] eqn:E; intros H; go_inv.
  - cbn [run_step]. rewrite Hv. cbn. rewrite lookup_insert_eq, lookup_insert_ne, lookup_delete_eq by done.
    split; [done|]. split; [|done]. intros name H1 H2. by rewrite lookup_insert_ne, lookup_delete_ne by done.
  - done.
Qed.

Lemma bank_entries m m' :
  migrate_bank m = Ok m' ->
  run_step (fun raw => bank_migrate raw (m !! "auth"%string) (m !! "supply"%string)) (m !! "bank"%string)
    = Ok (m' !! "bank"%string) /\
  m' !! "supply"%string = match m !! "bank"%string with Some _ => None | None => m !! "supply"%string end /\
  forall name, name <> "bank"%string -> name <> "supply"%string -> m' !! name = m !! name.
Proof.
  unfold migrate_bank. destruct (m !! "bank"%string) as [raw|] eqn:E; intros H; go_inv.
  - cbn [run_step]. rewrite Hv. cbn. rewrite lookup_insert_eq, lookup_insert_ne, lookup_delete_eq by done.
    split; [done|]. split; [done|]. intros name H1 H2.
    by rewrite lookup_insert_ne, !lookup_delete_ne by done.
  - by rewrite E.
Qed.

Lemma step_of_phases name :
  step_of name = match (list_to_map steps_before : gmap string (Raw -> res Raw)) !! name with
                 | Some f => Some f
                 | None => (list_to_map steps_after : gmap string (Raw -> res Raw)) !! name
                 end.
Proof.
  unfold step_of. change module_steps with (steps_before ++ steps_after).
  rewrite list_to_map_app, lookup_union.
  by destruct (list_to_map steps_before !! name), (list_to_map steps_after !! name).
Qed.

(** Four names have no step of their own. *)
Lemma no_step name m :
  name ∈ ["bank"; "supply"; "msgauth"; "authz"]%string ->
  entry_of (list_to_map steps_before) m name = Ok (m !! name) /\
  entry_of (list_to_map steps_after) m name = Ok (m !! name).
Proof. rewrite !elem_of_cons, elem_of_nil. by intros [->|[->|[->|[->|[]]]]]. Qed.

(** The entries of a migrated state are those of the specification. *)
Lemma Migrate_entries m m' :
  Migrate m = Ok m' -> forall name, migrated_entry m name = Ok (m' !! name).
Proof.
  rewrite Migrate_phases. intros H name. go_inv.
  apply bank_entries in Hv as (Hb & Hs & Hrest1).
  pose proof (in_place_entries _ _ _ steps_before_NoDup Hv0) as H2.
  apply msgauth_entries in Hv1 as (Hm & Hrest2 & Ha).
  pose proof (in_place_entries _ _ _ steps_after_NoDup H) as H4. unfold migrated_entry.
  destruct (decide (name ∈ ["bank"; "supply"; "msgauth"; "authz"]%string)) as [Hin|Hout].
  - pose proof (H2 name) as E2. pose proof (H4 name) as E4.
    pose proof (proj1 (no_step "msgauth" v ltac:(by do 2 right; left))) as Em. rewrite H2, Hrest1 in Em by done.
    rewrite (proj1 (no_step _ _ Hin)) in E2. rewrite (proj2 (no_step _ _ Hin)) in E4.
    rewrite !elem_of_cons, elem_of_nil in Hin.
    destruct Hin as [->|[->|[->|[->|[]]]]]; cbn [String.eqb Ascii.eqb Bool.eqb].
    + rewrite Hb. rewrite Hrest2 in E4 by done. congruence.
    + rewrite Hrest2 in E4 by done. congruence.
    + congruence.
    + rewrite Hrest1 in E2 by done. injection E2 as E2. injection Em as Em.
      by rewrite <- E4, <- Ha, Em, E2.
  - assert (Hne : (name <> "bank" /\ name <> "supply" /\ name <> "msgauth" /\ name <> "authz")%string) by set_solver.
    destruct Hne as (Hn1 & Hn2 & Hn3 & Hn4). specialize (H2 name). specialize (H4 name). unfold entry_of in *.
    rewrite !(proj2 (String.eqb_neq _ _)) by done. rewrite Hrest1 in H2 by done.
    rewrite Hrest2 in H4 by done. rewrite step_of_phases.
    destruct (list_to_map steps_before !! name) as [f|] eqn:E; [|by injection H2 as ->].
    rewrite H2. rewrite not_elem_of_list_to_map_1 in H4; [done|].
    apply elem_of_list_to_map_2, (list_elem_of_fmap_2 fst) in E. revert E.
    apply (list_forall (fun n => n ∉ (steps_after).*1)). cbn.
    repeat constructor; apply (bool_decide_unpack _); by vm_compute.
Qed.

(** If all entries of the specification exist, the migration succeeds. *)
Lemma Migrate_total m :
  (forall name, exists o, migrated_entry m name = Ok o) -> exists m', Migrate m = Ok m'.
Proof.
  intros Ho. rewrite Migrate_phases.
  assert (H1 : exists m1, migrate_bank m = Ok m1).
  { destruct (Ho "bank"%string) as [o H]. unfold migrated_entry in H. cbn in H. unfold migrate_bank.
    destruct (m !! "bank"%string) as [raw|]; [|by eexists]. cbn in H. go_inv. rewrite Hv. by eexists. }
  destruct H1 as [m1 H1]. rewrite H1. cbn [mbind res_bind]. apply bank_entries in H1 as (_ & Hs & Hrest1).
  assert (Hsame : forall name f, step_of name = Some f -> exists o, run_step f (m1 !! name) = Ok o).
  { intros name f Hf. destruct (Ho name) as [o H]. unfold migrated_entry in H.
    assert (Hin : name ∈ (module_steps).*1)
      by (clear H; unfold step_of in Hf; apply elem_of_list_to_map_2, (list_elem_of_fmap_2 fst) in Hf; exact Hf).
    assert (Hne : (name <> "bank" /\ name <> "supply" /\ name <> "msgauth" /\ name <> "authz")%string).
    { revert Hin. apply (list_forall (fun n => n <> "bank" /\ n <> "supply" /\ n <> "msgauth" /\ n <> "authz")%string).
      by repeat constructor. }
    destruct Hne as (? & ? & ? & ?). rewrite !(proj2 (String.eqb_neq _ _)), Hf in H by done.
    rewrite Hrest1 by done. eauto. }
  destruct (in_place_total steps_before m1 steps_before_NoDup) as [m2 H2].
  { intros name. unfold entry_of. pose proof (step_of_phases name) as Hp.
    destruct (list_to_map steps_before !! name); eauto. }
  rewrite H2. cbn [mbind res_bind]. pose proof (in_place_entries _ _ _ steps_before_NoDup H2) as E2.
  assert (H3 : exists m3, migrate_module "msgauth" "authz" msgauth_step m2 = Ok m3).
  { pose proof (E2 "msgauth"%string) as E. rewrite (proj1 (no_step _ _ ltac:(by do 2 right; left))) in E.
    rewrite Hrest1 in E by done. destruct (Ho "authz"%string) as [o H]. unfold migrated_entry in H. cbn in H.
    unfold migrate_module. injection E as <-. destruct (m !! "msgauth"%string) as [raw|]; [|by eexists].
    cbn in H. go_inv. rewrite Hv. by eexists. }
  destruct H3 as [m3 H3]. rewrite H3. cbn [mbind res_bind]. apply msgauth_entries in H3 as (_ & Hrest3 & _).
  apply in_place_total; [apply steps_after_NoDup|]. intros name. unfold entry_of.
  pose proof (step_of_phases name) as Hp. specialize (E2 name). unfold entry_of in E2.
  destruct (list_to_map steps_after !! name) as [f|] eqn:Ef; [|by eexists].
  assert (Hn : (name = "treasury" \/ name = "wasm")%string).
  { apply elem_of_list_to_map_2, (list_elem_of_fmap_2 fst) in Ef. revert Ef.
    apply (list_forall (fun n => n = "treasury" \/ n = "wasm")%string). cbn.
    apply Forall_cons. split; [by left|]. apply Forall_singleton. by right. }
  rewrite Hrest3 by (destruct Hn; subst; done).
  assert (Hb : (list_to_map steps_before : gmap string (Raw -> res Raw)) !! name = None) by (destruct Hn; by subst).
  rewrite Hb in E2, Hp. injection E2 as <-. by apply (Hsame name).
Qed.

(** C25. The migration of the application refines the migration of each module on
    its own: a state is migrated to the one whose entry under each name is
    that of the specification, and to no other; it fails if and only if one of
    the entries does. *)
Theorem migration_pointwise m m' :
  Migrate m = Ok m' <-> forall name, migrated_entry m name = Ok (m' !! name).
Proof.
  split; [apply Migrate_entries|]. intros H.
  destruct (Migrate_total m) as [m'' Hm]; [intros name; by rewrite H; eexists|].
  rewrite Hm. f_equal. apply map_eq. intros name. apply Migrate_entries with (name := name) in Hm.
  rewrite H in Hm. congruence.
Qed.

End migrate_facts.

(** ** The command ([migrate.go]) *)

Section command.
Context {M : SdkMath} {A : Bech32} {R : GoRange} {Raw PK Any Time Tx Y Z' : Type}.
Context {MC : ModuleCodecs Raw PK Any Time Tx Y Z'} {SM : SdkMigrations Raw Y Z'}.
(** The parts of the bank and staking states, and of the genesis document, that
    the command does not look at. *)
Context {BRest SRest' DRest : Type}.

Record BankGenesis : Type := mkBankGenesis { DenomMetadata : list Metadata; bank_rest : BRest }.
Record StakingGenesis : Type := mkStakingGenesis { HistoricalEntries : Z; staking_rest : SRest' }.

Record GenesisDoc : Type := mkDoc {
  GenesisTime : Time; ChainID_ : string; InitialHeight : Z;
  BlockMaxBytes : Z; BlockMaxGas : Z; EvidenceMaxBytes : Z; AppState : gmap string Raw; doc_rest : DRest }.

(** The codecs of the new version, and the default states of the new modules;
    the one of the transfer module with sending and receiving disabled, that of
    the IBC module with Tendermint clients only. *)
Class CommandCodecs : Type := {
  decode_bank' : option Raw -> res BankGenesis;
  encode_bank' : BankGenesis -> res Raw;
  decode_oracle' : option Raw -> res OracleStore.GenesisState;
  decode_staking' : option Raw -> res StakingGenesis;
  encode_staking' : StakingGenesis -> res Raw;
  transfer_genesis : res Raw;
  ibc_genesis : res Raw;
  capability_genesis : res Raw;
  evidence_genesis : res Raw;
  UnmarshalTime : string -> res Time;
}.

Context {CC : CommandCodecs}.

Definition luna_metadata : Metadata :=
  mkMetadata "The native staking token of the Terra Columbus."
    [("uluna"%string, 0, ["microluna"%string]); ("mluna"%string, 3, ["milliluna"%string]); ("luna"%string, 6, [])]
    "uluna" "luna" "LUNA" "LUNA".

(** The metadata of a whitelisted currency is that of [ApplyWhitelist]. *)
Definition whitelist_metadata (whitelist : list DenomTax) : res (list Metadata) :=
  mds ← mapM (fun w => denom_metadata (DName w)) whitelist;
  Ok (luna_metadata :: mds).

(** The state of the application. *)
Definition migrate_app_state (initialState : gmap string Raw) : res (gmap string Raw) :=
  newGenState ← Migrate initialState;
  bankGenesis ← must (decode_bank' (newGenState !! "bank"%string));
  oracleGenesis ← must (decode_oracle' (newGenState !! "oracle"%string));
  denomMetadata ← whitelist_metadata (Whitelist (OracleStore.GParams oracleGenesis));
  bank ← must (encode_bank' (mkBankGenesis denomMetadata (bank_rest bankGenesis)));
  let newGenState := <["bank"%string := bank]> newGenState in
  stakingGenesis ← must (decode_staking' (newGenState !! "staking"%string));
  transfer ← must transfer_genesis;
  ibc ← must ibc_genesis;
  capability ← must capability_genesis;
  evidence ← must evidence_genesis;
  staking ← must (encode_staking' (mkStakingGenesis 10000 (staking_rest stakingGenesis)));
  Ok (<["staking"%string := staking]> (<["evidence"%string := evidence]> (<["capability"%string := capability]>
       (<["ibc"%string := ibc]> (<["transfer"%string := transfer]> newGenState))))).

(** The body of the command, between reading and printing the document; the
    replacement of keys is [KeyReplacement.loadKeydata]. *)
Definition MigrateGenesisCmd (genesisTime chainID : string) (initialHeight : Z)
    (loadKeydataFromFile : GenesisDoc -> res GenesisDoc) (replacementKeys : string) (genDoc : GenesisDoc)
    : res GenesisDoc :=
  appState ← migrate_app_state (AppState genDoc);
  t ← (if negb (String.eqb genesisTime "") then
         wrap_err (Errorf "failed to unmarshal genesis time") (UnmarshalTime genesisTime)
       else Ok (GenesisTime genDoc));
  let genDoc :=
    mkDoc t (if negb (String.eqb chainID "") then chainID else ChainID_ genDoc) (to_int64 initialHeight)
      5000000 1000000000 50000 appState (doc_rest genDoc) in
  if negb (String.eqb replacementKeys "") then loadKeydataFromFile genDoc else Ok genDoc.

(** The command registers Luna and every currency of the whitelist, and replaces
    the metadata the bank had; the other modules have the entries of the
    specification of the migration. *)
Theorem command_registers_whitelist m m' oracleGenesis :
  migrate_app_state m = Ok m' ->
  (forall b raw, encode_bank' b = Ok raw -> decode_bank' (Some raw) = Ok b) ->
  migrated_entry m "oracle" = Ok (m' !! "oracle"%string) /\
  (decode_oracle' (m' !! "oracle"%string) = Ok oracleGenesis ->
   exists b, decode_bank' (m' !! "bank"%string) = Ok b /\
     OracleStore.Base <$> DenomMetadata b = "uluna"%string :: (DName <$> Whitelist (OracleStore.GParams oracleGenesis))) /\
  (forall name, name ∉ ["bank"; "staking"; "evidence"; "capability"; "ibc"; "transfer"]%string ->
     migrated_entry m name = Ok (m' !! name)).
Proof.
  intros H Hbank. unfold migrate_app_state in H. go_inv.
  pose proof (Migrate_entries _ _ Hv) as He.
  rewrite !lookup_insert_ne by done. split; [apply He|]. split.
  - intros Ho. rewrite lookup_insert_eq. rewrite Hv1 in Ho. injection Ho as <-.
    apply Hbank in Hv3. eexists. split; [exact Hv3|].
    unfold whitelist_metadata in *. go_inv. cbn. f_equal.
    match goal with H : mapM _ _ = Ok _ |- _ => eapply mapM_proj; [|exact H] end.
    intros w md Hmd. unfold denom_metadata in Hmd. by go_inv.
  - intros name Hn. rewrite !not_elem_of_cons in Hn. destruct Hn as (?&?&?&?&?&?&_).
    rewrite !lookup_insert_ne by done. apply He.
Qed.

End command.
