(* ===== verification/KeyReplacement.v ===== *)
(** * Exchange of consensus keys ([src/app/legacy/pubkey_replacement.go])

    A file names validators and their new consensus keys.  For each validator of
    the staking genesis that is named, its key is set, and the records under its
    old consensus address (signing infos, missed blocks and the validators of the
    genesis document) are moved to the new address.  The theorems show when the
    replacements, which are made one after the other, do not interfere. *)

From Stdlib Require Import ZArith Lia Bool.
From stdpp Require Import base strings list gmap.
From S2P Require Import Prelude Loops Sdk.
Local Open Scope Z_scope.

Record replacementConfig : Type := mkReplacement {
  ValidatorName : string; ValidatorAddress : string; ConsensusPubkey : string }.

(** [isReplacedValidator]: the first configuration of a validator; the index -1
    of the source is [None]. *)
Fixpoint isReplacedValidator (r : list replacementConfig) (validatorAddress : string)
    : option replacementConfig :=
  match r with
  | [] => None
  | replacement :: r' =>
      if String.eqb (ValidatorAddress replacement) validatorAddress then Some replacement
      else isReplacedValidator r' validatorAddress
  end.

Section replacement.
(** [Key] are the packed consensus keys, [TmKey] the keys of Tendermint; the
    other fields of the records are kept. *)
Context {Key TmKey VRest IRest BRest TRest : Type}.

Record Validator : Type := mkValidator { OperatorAddress : string; ConsensusKey : Key; vrest : VRest }.

(** A signing info carries its address twice. *)
Record SigningInfo : Type := mkSigningInfo { SAddress : string; InfoAddress : string; irest : IRest }.

Record MissedBlocks : Type := mkMissed { MAddress : string; brest : BRest }.

Record GenesisValidator : Type := mkGenesisValidator { TAddress : string; TPubKey : TmKey; trest : TRest }.

(** The part of the genesis that is changed. *)
Record Genesis : Type := mkGenesis {
  SigningInfos : list SigningInfo; MissedBlocksOf : list MissedBlocks; Validators : list GenesisValidator }.

(** [GetConsAddr], whose error is ignored: the address is empty then; the key
    Tendermint has for a packed key; the text of an address; and the decoder of
    a key in the file. *)
Context (GetConsAddr : Key -> string) (TmConsPublicKey : Key -> TmKey) (ConsAddressString : string -> string).
Context (UnmarshalKey : string -> res Key).

Definition replace_signing (old new : string) (s : SigningInfo) : SigningInfo :=
  if String.eqb (SAddress s) (ConsAddressString old)
  then mkSigningInfo (ConsAddressString new) (ConsAddressString new) (irest s) else s.

Definition replace_missed (old new : string) (m : MissedBlocks) : MissedBlocks :=
  if String.eqb (MAddress m) (ConsAddressString old) then mkMissed (ConsAddressString new) (brest m) else m.

Definition replace_genesis_validator (old new : string) (key : TmKey) (v : GenesisValidator) : GenesisValidator :=
  if String.eqb (TAddress v) old then mkGenesisValidator new key (trest v) else v.

(** One validator of the loop; [log.Fatal] is an error. *)
Definition replace_validator (replacementKeys : list replacementConfig)
    (acc : Genesis * list Validator) (val : Validator) : res (Genesis * list Validator) :=
  let (g, done) := acc in
  match isReplacedValidator replacementKeys (OperatorAddress val) with
  | None => Ok (g, done ++ [val])
  | Some replacement =>
      let old := GetConsAddr (ConsensusKey val) in
      consPubKey ← wrap_err (Errorf "failed to decode key") (UnmarshalKey (ConsensusPubkey replacement));
      let new := GetConsAddr consPubKey in
      Ok (mkGenesis (replace_signing old new <$> SigningInfos g)
            (replace_missed old new <$> MissedBlocksOf g)
            (replace_genesis_validator old new (TmConsPublicKey consPubKey) <$> Validators g),
          done ++ [mkValidator (OperatorAddress val) consPubKey (vrest val)])
  end.

Definition loadKeydata (replacementKeys : list replacementConfig) (g : Genesis) (validators : list Validator)
    : res (Genesis * list Validator) :=
  foldM (replace_validator replacementKeys) validators (g, []).

End replacement.

Arguments Validator Key VRest : clear implicits.
Arguments SigningInfo IRest : clear implicits.
Arguments MissedBlocks BRest : clear implicits.
Arguments GenesisValidator TmKey TRest : clear implicits.
Arguments Genesis TmKey IRest BRest TRest : clear implicits.

(** ** Facts *)

Section replacement_facts.
Context {Key TmKey VRest IRest BRest TRest : Type}.
Context (GetConsAddr : Key -> string) (TmConsPublicKey : Key -> TmKey) (ConsAddressString : string -> string).
Context (UnmarshalKey : string -> res Key) (r : list replacementConfig).
Context {text_inj : Inj (=) (=) ConsAddressString}.

Abbreviation Val := (Validator Key VRest).
Abbreviation Gen := (Genesis TmKey IRest BRest TRest).

(** The new key of a validator, if it is replaced. *)
Definition new_key (v : Val) : option Key :=
  c ← isReplacedValidator r (OperatorAddress v);
  match UnmarshalKey (ConsensusPubkey c) with Ok k => Some k | _ => None end.

Definition old_addr (v : Val) : string := GetConsAddr (ConsensusKey v).

(** The replacements of a list of validators: old address and new key. *)
Definition replaced (l : list Val) : list (string * Key) :=
  omap (fun v => k ← new_key v; Some (old_addr v, k)) l.

(** All replacements at once: the record under an old address is rewritten
    with the new key, the others stay. *)
Definition move {X} (addr : X -> string) (set : Key -> X -> X) (rs : list (string * Key)) (x : X) : X :=
  match (list_to_map rs : gmap string Key) !! addr x with
  | Some k => set k x
  | None => x
  end.

(** The same replacements, by the texts of the addresses. *)
Definition texts (rs : list (string * Key)) : list (string * Key) :=
  (fun p => (ConsAddressString p.1, p.2)) <$> rs.

Definition set_signing (k : Key) (s : SigningInfo IRest) : SigningInfo IRest :=
  mkSigningInfo (ConsAddressString (GetConsAddr k)) (ConsAddressString (GetConsAddr k)) (irest s).
Definition set_missed (k : Key) (m : MissedBlocks BRest) : MissedBlocks BRest :=
  mkMissed (ConsAddressString (GetConsAddr k)) (brest m).
Definition set_genesis_validator (k : Key) (v : GenesisValidator TmKey TRest) : GenesisValidator TmKey TRest :=
  mkGenesisValidator (GetConsAddr k) (TmConsPublicKey k) (trest v).

Definition set_key (v : Val) : Val :=
  match new_key v with Some k => mkValidator (OperatorAddress v) k (vrest v) | None => v end.

(** The validators are not disturbed by each other: old addresses are
    distinct, and no new address is an old one. *)
Definition independent (l : list Val) : Prop :=
  NoDup (replaced l).*1 /\
  forall k, k ∈ (replaced l).*2 -> GetConsAddr k ∉ (replaced l).*1.

(** Replacements one after the other, on one record. *)
Lemma moves_in_turn {X} (addr : X -> string) (set : Key -> X -> X) (new : Key -> string) rs x :
  (forall k x, addr (set k x) = new k) -> NoDup rs.*1 -> (forall k, k ∈ rs.*2 -> new k ∉ rs.*1) ->
  foldl (fun x p => if String.eqb (addr x) p.1 then set p.2 x else x) x rs = move addr set rs x.
Proof.
  intros Hset. assert (Hkeep : forall l x, addr x ∉ l.*1 ->
    foldl (fun x p => if String.eqb (addr x) p.1 then set p.2 x else x) x l = x).
  { intros l. induction l as [|[o k] l IH]; intros y Hy; [done|]. cbn in *. rewrite not_elem_of_cons in Hy.
    rewrite (proj2 (String.eqb_neq _ _)) by tauto. apply IH. tauto. }
  revert x. induction rs as [|[o k] rs IH]; intros x Hnd Hfresh; [done|].
  inversion Hnd as [|? ? Ho Hnd']; subst. unfold move. cbn.
  destruct (String.eqb_spec (addr x) o) as [<-|Hne].
  - rewrite lookup_insert_eq. apply Hkeep. rewrite Hset. specialize (Hfresh k ltac:(left)). set_solver.
  - rewrite lookup_insert_ne by done. apply IH; [done|]. intros k' Hk'. specialize (Hfresh k' ltac:(by right)).
    set_solver.
Qed.

Lemma foldl_fmap {X P} (f : P -> X -> X) (ps : list P) (l : list X) :
  foldl (fun l p => f p <$> l) l ps = (fun x => foldl (fun x p => f p x) x ps) <$> l.
Proof.
  revert l. induction ps as [|p ps IH]; intros l; cbn; [by rewrite list_fmap_id|].
  by rewrite IH, <- list_fmap_compose.
Qed.

Lemma foldl_fmap_keys {X P Q} (h : P -> Q) (f : X -> Q -> X) (ps : list P) x :
  foldl f x (h <$> ps) = foldl (fun x p => f x (h p)) x ps.
Proof. revert x. induction ps as [|p ps IH]; intros x; [done|]. apply IH. Qed.

(** The genesis after the replacements of a list, one after the other. *)
Lemma loadKeydata_runs (l : list Val) (g : Gen) done_ g' l' :
  foldM (replace_validator GetConsAddr TmConsPublicKey ConsAddressString UnmarshalKey r) l (g, done_) = Ok (g', l') ->
  l' = done_ ++ (set_key <$> l) /\
  SigningInfos g' = foldl (fun l p => replace_signing ConsAddressString p.1 (GetConsAddr p.2) <$> l)
    (SigningInfos g) (replaced l) /\
  MissedBlocksOf g' = foldl (fun l p => replace_missed ConsAddressString p.1 (GetConsAddr p.2) <$> l)
    (MissedBlocksOf g) (replaced l) /\
  Validators g' = foldl (fun l p => replace_genesis_validator p.1 (GetConsAddr p.2) (TmConsPublicKey p.2) <$> l)
    (Validators g) (replaced l).
Proof.
  revert g done_. induction l as [|v l IH]; intros g done_ H; cbn in H.
  - go_inv. by rewrite app_nil_r.
  - go_inv. unfold set_key, replaced, new_key in *. cbn.
    destruct (isReplacedValidator r (OperatorAddress v)) as [c|]; cbn in *; go_inv.
    + apply IH in H as (-> & H1 & H2 & H3).
      match goal with H : UnmarshalKey _ = Ok _ |- _ => rewrite H end.
      cbn. by rewrite <- app_assoc.
    + apply IH in H as (-> & H1 & H2 & H3). by rewrite <- app_assoc.
Qed.

(** If the validators do not disturb each other, the replacements one after the
    other are the replacement of all at once: every validator has its new key,
    and every record is moved from the old to the new address of its own
    validator. *)
Theorem replacements_independent (g : Gen) (l : list Val) g' l' :
  loadKeydata GetConsAddr TmConsPublicKey ConsAddressString UnmarshalKey r g l = Ok (g', l') -> independent l ->
  l' = set_key <$> l /\
  SigningInfos g' = move SAddress set_signing (texts (replaced l)) <$> SigningInfos g /\
  MissedBlocksOf g' = move MAddress set_missed (texts (replaced l)) <$> MissedBlocksOf g /\
  Validators g' = move TAddress set_genesis_validator (replaced l) <$> Validators g.
Proof.
  intros (-> & -> & -> & ->)%loadKeydata_runs [Hnd Hfresh]. split; [done|].
  assert (Htn : NoDup (texts (replaced l)).*1).
  { unfold texts. rewrite <- list_fmap_compose. rewrite (list_fmap_ext _ (ConsAddressString ∘ fst)) by done.
    rewrite list_fmap_compose. by apply NoDup_fmap. }
  assert (Htf : forall k, k ∈ (texts (replaced l)).*2 ->
            ConsAddressString (GetConsAddr k) ∉ (texts (replaced l)).*1).
  { unfold texts. intros k Hk Hin. rewrite <- list_fmap_compose in Hk, Hin. cbn in Hk, Hin.
    apply list_elem_of_fmap in Hin as ([o k'] & Heq & Hin). cbn in Heq. apply (inj _) in Heq.
    apply (Hfresh k Hk). rewrite Heq. by apply (list_elem_of_fmap_2 fst) in Hin. }
  rewrite !foldl_fmap. split; [|split].
  - apply list_fmap_ext. intros _ s _. rewrite <- moves_in_turn with (new := fun k => ConsAddressString (GetConsAddr k)) by done.
    unfold texts. by rewrite foldl_fmap_keys.
  - apply list_fmap_ext. intros _ s _. rewrite <- moves_in_turn with (new := fun k => ConsAddressString (GetConsAddr k)) by done.
    unfold texts. by rewrite foldl_fmap_keys.
  - apply list_fmap_ext. intros _ s _. by rewrite <- moves_in_turn with (new := GetConsAddr) by done.
Qed.

End replacement_facts.

Section interference.
Context {Key TmKey VRest IRest BRest TRest : Type}.
Context (GetConsAddr : Key -> string) (TmConsPublicKey : Key -> TmKey) (ConsAddressString : string -> string).
Context (UnmarshalKey : string -> res Key) (r : list replacementConfig).

(** Validators cannot exchange their keys: the records of the first are moved
    to the address of the second, and then the records of both to the address
    of the first, so that nothing is left of the signing history of the second
    and the first has two. *)
Theorem exchanged_keys_collide (g : Genesis TmKey IRest BRest TRest) (a b : Validator Key VRest) g' l' s :
  loadKeydata GetConsAddr TmConsPublicKey ConsAddressString UnmarshalKey r g [a; b] = Ok (g', l') ->
  new_key UnmarshalKey r a = Some (ConsensusKey b) -> new_key UnmarshalKey r b = Some (ConsensusKey a) ->
  s ∈ SigningInfos g' ->
  ConsAddressString (GetConsAddr (ConsensusKey a)) <> ConsAddressString (GetConsAddr (ConsensusKey b)) ->
  SAddress s <> ConsAddressString (GetConsAddr (ConsensusKey b)).
Proof.
  intros (_ & Hg & _)%loadKeydata_runs Ha Hb Hs Hne. unfold replaced in Hg. cbn in Hg.
  rewrite Ha in Hg. cbn in Hg. rewrite Hb in Hg. cbn in Hg. rewrite Hg in Hs.
  apply list_elem_of_fmap in Hs as (s1 & -> & _). unfold replace_signing at 1, old_addr.
  destruct (String.eqb_spec (SAddress s1) (ConsAddressString (GetConsAddr (ConsensusKey b)))); cbn; congruence.
Qed.

End interference.

(** ** Concrete replacements *)

Module KeyExample.

Definition text (a : string) : string := ("cons" +:+ a)%string.

#[local] Instance text_inj : Inj (=) (=) text.
Proof. intros a b H. by injection H. Qed.

(** A key is the address; "alice" gets the key "k3". *)
Definition config : list replacementConfig := [mkReplacement "Alice" "alice" "k3"].

Definition vals : list (Validator string unit) := [mkValidator "alice" "k1"%string tt; mkValidator "bob" "k2"%string tt].

Definition genesis : Genesis string Z Z Z :=
  mkGenesis [mkSigningInfo "consk1" "consk1" 5; mkSigningInfo "consk2" "consk2" 7] [mkMissed "consk1" 1]
    [mkGenesisValidator "k1" "k1"%string 10; mkGenesisValidator "k2" "k2"%string 20].

Definition load (c : list replacementConfig) (g : Genesis string Z Z Z) :=
  loadKeydata id id text (fun s => Ok s) c g vals.

Definition genesis' : Genesis string Z Z Z :=
  mkGenesis [mkSigningInfo "consk3" "consk3" 5; mkSigningInfo "consk2" "consk2" 7] [mkMissed "consk3" 1]
    [mkGenesisValidator "k3" "k3"%string 10; mkGenesisValidator "k2" "k2"%string 20].

Definition vals' : list (Validator string unit) :=
  [mkValidator "alice" "k3"%string tt; mkValidator "bob" "k2"%string tt].

Lemma loaded : load config genesis = Ok (genesis', vals').
Proof. vm_compute. reflexivity. Qed.

Lemma replacements_independent_witness :
  Validators genesis' =
    move TAddress (set_genesis_validator id id) [("k1"%string, "k3"%string)] <$> Validators genesis.
Proof.
  apply (replacements_independent id id text (fun s => Ok s) config genesis vals genesis' vals' loaded).
  split.
  - cbn. apply NoDup_singleton.
  - cbn. intros k Hk%list_elem_of_singleton. subst k. rewrite list_elem_of_singleton. discriminate.
Defined.

(** Alice and Bob exchange their keys. *)
Definition exchange : list replacementConfig :=
  [mkReplacement "Alice" "alice" "k2"; mkReplacement "Bob" "bob" "k1"].

Definition exchanged : list string :=
  match load exchange genesis with Ok (g, _) => SAddress <$> SigningInfos g | _ => [] end.

Lemma both_moved : exchanged = ["consk1"; "consk1"]%string.
Proof. vm_compute. reflexivity. Qed.

End KeyExample.
