(* ===== verification/AppExport.v ===== *)
(** * Export of the application state ([src/app/export.go])

    [prepForZeroHeightGenesis] prepares a restart at height zero: rewards are
    paid out, the distribution is initialised again, heights are reset,
    validators that are not on a list are jailed, and the oracle and the market
    start afresh.  The keepers of the SDK modules (crisis, staking, distribution,
    slashing) are a class on their common state; the oracle and the market are
    those of [OracleStore] and [Market].  [ExportAppStateAndValidators] exports
    the modules bank and wasm. *)

From Stdlib Require Import ZArith Lia Bool.
From stdpp Require Import base strings list gmap.
From S2P Require Import Prelude Loops Sdk SdkRef Core OracleBallot OracleStore Market App.
Local Open Scope Z_scope.

(** ** The keepers of the SDK *)

(** Entries of redelegations and unbonding delegations, validators and signing
    infos, as far as the export changes them. *)
Record Entry (E : Type) : Type := mkEntry { CreationHeight : Z; entry_rest : E }.
Arguments mkEntry {E} _ _.
Arguments CreationHeight {E} _.
Arguments entry_rest {E} _.

Record Delegations (E X : Type) : Type := mkDelegations { Entries : list (Entry E); delegations_rest : X }.
Arguments mkDelegations {E X} _ _.
Arguments Entries {E X} _.
Arguments delegations_rest {E X} _.

Record StakingValidator (V : Type) : Type := mkStakingValidator {
  UnbondingHeight : Z; Jailed : bool; validator_rest : V }.
Arguments mkStakingValidator {V} _ _ _.
Arguments UnbondingHeight {V} _.
Arguments Jailed {V} _.
Arguments validator_rest {V} _.

Record ValidatorSigningInfo (I : Type) : Type := mkSigning { StartHeight : Z; signing_rest : I }.
Arguments mkSigning {I} _ _.
Arguments StartHeight {I} _.
Arguments signing_rest {I} _.

(** What the export uses of the keepers.  The results and errors of the
    withdrawals are ignored by the code; the hooks are called with a height. *)
Class ExportKeepers (K E X V I : Type) : Type := {
  AssertInvariants : K -> res unit;
  ValidatorOperators : K -> list ValAddress;                    (* IterateValidators *)
  WithdrawValidatorCommission : K -> ValAddress -> K;
  GetAllDelegations : K -> list (string * string);              (* delegator, validator *)
  WithdrawDelegationRewards : K -> AccAddress -> ValAddress -> K;
  DeleteAllValidatorSlashEvents : K -> K;
  DeleteAllValidatorHistoricalRewards : K -> K;
  GetValidatorOutstandingRewardsCoins : K -> ValAddress -> list DecCoin;
  GetCommunityPool : K -> list DecCoin;                         (* GetFeePool *)
  SetCommunityPool : list DecCoin -> K -> K;                    (* SetFeePool *)
  AfterValidatorCreated : Z -> ValAddress -> K -> res K;
  BeforeDelegationCreated : Z -> AccAddress -> ValAddress -> K -> res K;
  AfterDelegationModified : Z -> AccAddress -> ValAddress -> K -> res K;
  Redelegations : K -> list (Delegations E X);                  (* IterateRedelegations *)
  SetRedelegation : Delegations E X -> K -> K;
  UnbondingDelegations : K -> list (Delegations E X);
  SetUnbondingDelegation : Delegations E X -> K -> K;
  ValidatorKeys : K -> list ValAddress;                         (* the store, in reverse order *)
  GetValidator : K -> ValAddress -> option (StakingValidator V);
  SetValidator : ValAddress -> StakingValidator V -> K -> K;
  ApplyAndReturnValidatorSetUpdates : K -> res K;
  SigningInfos : K -> list (string * ValidatorSigningInfo I);
  SetValidatorSigningInfo : string -> ValidatorSigningInfo I -> K -> K;
}.

(** The result of the export. *)
Record ExportedApp (Raw Vals Params' : Type) : Type := mkExported {
  EAppState : Raw; EValidators : Vals; EHeight : Z; EConsensusParams : Params' }.
Arguments mkExported {_ _ _} _ _ _ _.
Arguments EAppState {_ _ _} _.
Arguments EValidators {_ _ _} _.
Arguments EHeight {_ _ _} _.
Arguments EConsensusParams {_ _ _} _.

Section export.
Context {M : SdkMath} {C : SdkCoins} {A : Bech32}.
Context {B K E X V I : Type} {KK : ExportKeepers K E X V I}.

(** The application: the market with its oracle and bank, and the rest. *)
Record app : Type := mkApp { market : Market.state OracleStore.store B; keepers : K }.

Definition on_keepers (f : K -> K) (s : app) : app := mkApp (market s) (f (keepers s)).
Definition on_oracle (f : OracleStore.store -> OracleStore.store) (s : app) : app :=
  let m := market s in
  mkApp (Market.mkState (TerraPoolDelta m) (Market.params m) (f (Market.oracle m)) (Market.bank m)) (keepers s).

(** Runs an operation of the keepers that can panic. *)
Definition run_keepers (f : K -> res K) : st app unit := fun s =>
  match f (keepers s) with
  | Ok k => (Ok tt, mkApp (market s) k)
  | Err e => (Err e, s)
  | Panic => (Panic, s)
  end.

(** ** [prepForZeroHeightGenesis] *)

(** The list of allowed validators; a text that is no address ends the
    program. *)
Definition allowed_map (jailAllowedAddrs : list string) : res (gset string) :=
  foldM (fun allowedAddrsMap addr =>
    _ ← ValAddressFromBech32 addr; Ok ({[addr]} ∪ allowedAddrsMap)) jailAllowedAddrs ∅.

(** The addresses of a delegation, in the order they are decoded. *)
Definition delegation_addrs (d : string * string) : res (AccAddress * ValAddress) :=
  valAddr ← must (ValAddressFromBech32 d.2);
  delAddr ← must (AccAddressFromBech32 d.1);
  Ok (delAddr, valAddr).

Definition withdraw_rewards (d : string * string) : st app unit :=
  '(delAddr, valAddr) ← lift (delegation_addrs d);
  modify (on_keepers (fun k => WithdrawDelegationRewards k delAddr valAddr)).

(** Outstanding fractions go to the community pool. *)
Definition reinit_validator (operator : ValAddress) : st app unit :=
  s ← gets id;
  let scraps := GetValidatorOutstandingRewardsCoins (keepers s) operator in
  pool ← lift (deccoins_add (GetCommunityPool (keepers s)) scraps);
  modify (on_keepers (SetCommunityPool pool));;
  run_keepers (AfterValidatorCreated 0 operator).

Definition reinit_delegation (d : string * string) : st app unit :=
  '(delAddr, valAddr) ← lift (delegation_addrs d);
  run_keepers (BeforeDelegationCreated 0 delAddr valAddr);;
  run_keepers (AfterDelegationModified 0 delAddr valAddr).

Definition reset_entries (d : Delegations E X) : Delegations E X :=
  mkDelegations ((fun e => mkEntry 0 (entry_rest e)) <$> Entries d) (delegations_rest d).

Definition reset_redelegations (k : K) : K :=
  foldl (fun k red => SetRedelegation (reset_entries red) k) k (Redelegations k).

Definition reset_unbondings (k : K) : K :=
  foldl (fun k ubd => SetUnbondingDelegation (reset_entries ubd) k) k (UnbondingDelegations k).

Definition reset_validator (applyAllowedAddrs : bool) (allowedAddrsMap : gset string) (k : K) (addr : ValAddress)
    : res K :=
  match GetValidator k addr with
  | None => Panic
  | Some validator =>
      let jailed :=
        if applyAllowedAddrs && negb (bool_decide (ValAddressString addr ∈ allowedAddrsMap)) then true
        else Jailed validator in
      Ok (SetValidator addr (mkStakingValidator 0 jailed (validator_rest validator)) k)
  end.

Definition reset_validators (applyAllowedAddrs : bool) (allowedAddrsMap : gset string) (k : K) : res K :=
  foldM (reset_validator applyAllowedAddrs allowedAddrsMap) (ValidatorKeys k) k.

Definition reset_signing_infos (k : K) : K :=
  foldl (fun k e => SetValidatorSigningInfo e.1 (mkSigning 0 (signing_rest e.2)) k) k (SigningInfos k).

(** The oracle: no prices, counters at zero, no prevotes and votes. *)
Definition reset_oracle (o : OracleStore.store) : OracleStore.store :=
  let o := foldl (fun o e => DeleteLunaExchangeRate e.1 o) o (IterateLunaExchangeRates o) in
  let o := foldl (fun o e => SetMissCounter e.1 0 o) o (IterateMissCounters o) in
  let o := foldl (fun o e => DeleteAggregateExchangeRatePrevote e.1 o) o
             (IterateAggregateExchangeRatePrevotes o) in
  foldl (fun o e => DeleteAggregateExchangeRateVote e.1 o) o (IterateAggregateExchangeRateVotes o).

Definition prepForZeroHeightGenesis (jailAllowedAddrs : list string) : st app unit :=
  let applyAllowedAddrs := (0 <? length jailAllowedAddrs)%nat in
  allowedAddrsMap ← lift (allowed_map jailAllowedAddrs);
  s ← gets id;
  lift (AssertInvariants (keepers s));;
  modify (on_keepers (fun k => foldl WithdrawValidatorCommission k (ValidatorOperators k)));;
  dels ← gets (fun s => GetAllDelegations (keepers s));
  iterM withdraw_rewards dels;;
  modify (on_keepers DeleteAllValidatorSlashEvents);;
  modify (on_keepers DeleteAllValidatorHistoricalRewards);;
  operators ← gets (fun s => ValidatorOperators (keepers s));
  iterM reinit_validator operators;;
  iterM reinit_delegation dels;;
  modify (on_keepers reset_redelegations);;
  modify (on_keepers reset_unbondings);;
  run_keepers (reset_validators applyAllowedAddrs allowedAddrsMap);;
  run_keepers ApplyAndReturnValidatorSetUpdates;;
  modify (on_keepers reset_signing_infos);;
  modify (on_oracle reset_oracle);;
  modify (fun s => mkApp (SetTerraPoolDelta 0 (market s)) (keepers s)).

(** ** [ExportAppStateAndValidators] *)

Context {Raw Vals Params' : Type}.
(** The export of a module, the encoding of the result, and what the staking
    module and the base application add. *)
Context (ExportModule : string -> app -> Raw) (MarshalIndent : gmap string Raw -> res Raw).
Context (WriteValidators : app -> res Vals) (GetConsensusParams : app -> Params').

Definition exportModules : list string := ["bank"; "wasm"]%string.

Definition ExportAppStateAndValidators (lastBlockHeight : Z) (forZeroHeight : bool) (jailAllowedAddrs : list string)
    : st app (ExportedApp Raw Vals Params') :=
  (if forZeroHeight then prepForZeroHeightGenesis jailAllowedAddrs else mret tt);;
  let height := if forZeroHeight then 0 else to_int64 (lastBlockHeight + 1) in
  s ← gets id;
  let genState := foldl (fun g name => <[name := ExportModule name s]> g) (∅ : gmap string Raw) exportModules in
  appState ← lift (MarshalIndent genState);
  validators ← lift (WriteValidators s);
  mret (mkExported appState validators height (GetConsensusParams s)).

End export.

(** ** Facts *)

(** Writing the same entry under all keys of a map. *)
Lemma foldl_alter_all {T U} (o : option T) (m : gmap string U) (l : list (string * U)) (m0 : gmap string T) k :
  l ≡ₚ map_to_list m ->
  foldl (fun m0 e => partial_alter (fun _ => o) e.1 m0) m0 l !! k = match m !! k with Some _ => o | None => m0 !! k end.
Proof.
  intros Hl. assert (Hg : forall (l : list (string * U)) m0,
    foldl (fun m0 e => partial_alter (fun _ => o) e.1 m0) m0 l !! k =
      if bool_decide (k ∈ l.*1) then o else (m0 : gmap string T) !! k).
  { clear. intros l. induction l as [|[k' v] l IH]; intros m0; [done|]. cbn [foldl]. rewrite IH. cbn.
    destruct (decide (k = k')) as [->|Hne].
    - rewrite lookup_partial_alter_eq, (bool_decide_true (k' ∈ k' :: l.*1)) by left. by destruct (bool_decide _).
    - rewrite lookup_partial_alter_ne by done.
      rewrite (bool_decide_ext (k ∈ k' :: l.*1) (k ∈ l.*1)) by set_solver. done. }
  rewrite Hg. destruct (m !! k) as [v|] eqn:E.
  - rewrite bool_decide_true; [done|]. rewrite Hl. apply elem_of_map_to_list in E.
    by apply (list_elem_of_fmap_2 fst) in E.
  - rewrite bool_decide_false; [done|]. rewrite Hl. intros ([k' v] & -> & Hin)%list_elem_of_fmap.
    apply elem_of_map_to_list in Hin. cbn in *. congruence.
Qed.

Lemma foldl_zero_all (m : gmap string Z) (l : list (string * Z)) :
  l ≡ₚ map_to_list m -> foldl (fun m e => <[e.1 := 0]> m) m l = (fun _ => 0) <$> m.
Proof.
  intros Hl. apply map_eq. intros k. etransitivity; [exact (foldl_alter_all (Some 0) m l m k Hl)|].
  rewrite lookup_fmap. by destruct (m !! k).
Qed.

(** The oracle after the reset. *)
Lemma reset_oracle_spec o :
  reset_oracle o =
    OracleStore.mkStore ∅ (FeederDelegations o) ((fun _ => 0) <$> MissCounters o) ∅ ∅ (TobinTaxes o)
      (OracleStore.params o).
Proof.
  unfold reset_oracle, DeleteLunaExchangeRate, SetMissCounter, DeleteAggregateExchangeRatePrevote,
    DeleteAggregateExchangeRateVote.
  rewrite (foldl_component ExchangeRates set_rates (fun m e => delete e.1 m)) by (by intros []).
  rewrite (foldl_component MissCounters set_misses (fun m e => <[e.1 := 0]> m)) by (by intros []).
  rewrite (foldl_component Prevotes set_prevotes (fun m e => delete e.1 m)) by (by intros []).
  rewrite (foldl_component Votes set_votes (fun m e => delete e.1 m)) by (by intros []).
  rewrite (foldl_delete_all (ExchangeRates o)) by apply iter_denoms_perm.
  rewrite (foldl_zero_all (MissCounters o)) by apply iter_addrs_perm.
  rewrite (foldl_delete_all (Prevotes o)) by apply iter_addrs_perm.
  rewrite (foldl_delete_all (Votes o)) by apply iter_addrs_perm. done.
Qed.

Section allowed.
Context {A : Bech32}.

Lemma allowed_map_elem l al : allowed_map l = Ok al -> forall x, x ∈ al <-> x ∈ l.
Proof.
  unfold allowed_map. intros H x.
  assert (Hg : forall l acc, foldM (fun allowedAddrsMap addr =>
      _ ← ValAddressFromBech32 addr; Ok ({[addr]} ∪ allowedAddrsMap)) l acc = Ok al ->
      x ∈ al <-> x ∈ acc \/ x ∈ l).
  { clear. intros l. induction l as [|y l IH]; intros acc H; cbn in H; go_inv; [set_solver|].
    apply IH in H as ->. set_solver. }
  rewrite (Hg l ∅ H). set_solver.
Qed.

End allowed.

Section export_facts.
Context {M : SdkMath} {ML : SdkMathLaws M} {C : SdkCoins} {CL : SdkCoinsLaws M C} {A : Bech32}.
Context {B K E X V I : Type} {KK : ExportKeepers K E X V I}.
Implicit Types s : app (B:=B) (K:=K).

Lemma run_keepers_market f u s s' : run_keepers f s = (Ok u, s') -> market s' = market s.
Proof. unfold run_keepers. destruct (f (keepers s)); intros H; by simplify_eq. Qed.

Lemma iterM_market {T} (f : T -> st (app (B:=B) (K:=K)) unit) l u s s' :
  (forall x u s s', f x s = (Ok u, s') -> market s' = market s) ->
  iterM f l s = (Ok u, s') -> market s' = market s.
Proof.
  intros Hf. unfold iterM. revert u s. generalize tt at 1. induction l as [|x l IH]; intros y u s H; cbn in H.
  - by go_inv.
  - go_inv. apply IH in H. rewrite H. by eapply Hf.
Qed.

Lemma withdraw_rewards_market d u s s' : withdraw_rewards d s = (Ok u, s') -> market s' = market s.
Proof. unfold withdraw_rewards. intros H. by go_inv. Qed.

Lemma reinit_validator_market o u s s' : reinit_validator o s = (Ok u, s') -> market s' = market s.
Proof. unfold reinit_validator. intros H. go_inv. by apply run_keepers_market in H as ->. Qed.

Lemma reinit_delegation_market d u s s' : reinit_delegation d s = (Ok u, s') -> market s' = market s.
Proof.
  unfold reinit_delegation. intros H. go_inv.
  apply run_keepers_market in H as ->. by eapply run_keepers_market.
Qed.

(** A restart at height zero forgets the prices: after the preparation the
    oracle has no rates, prevotes and votes and no validator has misses, but
    delegations of the feed, Tobin taxes and parameters stay; the pools of the
    market are at their base. *)
Theorem zero_height_reset jailAllowedAddrs u s s' :
  prepForZeroHeightGenesis jailAllowedAddrs s = (Ok u, s') ->
  let o := Market.oracle (market s) in
  market s' = Market.mkState (Some 0) (Market.params (market s))
    (OracleStore.mkStore ∅ (FeederDelegations o) ((fun _ => 0) <$> MissCounters o) ∅ ∅ (TobinTaxes o)
       (OracleStore.params o))
    (Market.bank (market s)).
Proof.
  unfold prepForZeroHeightGenesis. intros H. go_inv. cbn.
  repeat match goal with
  | H : run_keepers _ _ = (Ok _, _) |- _ => apply run_keepers_market in H
  | H : iterM withdraw_rewards _ _ = (Ok _, _) |- _ => apply (iterM_market _ _ _ _ _ withdraw_rewards_market) in H
  | H : iterM reinit_validator _ _ = (Ok _, _) |- _ => apply (iterM_market _ _ _ _ _ reinit_validator_market) in H
  | H : iterM reinit_delegation _ _ = (Ok _, _) |- _ => apply (iterM_market _ _ _ _ _ reinit_delegation_market) in H
  end.
  cbn in *. unfold SetTerraPoolDelta. cbn. rewrite reset_oracle_spec.
  match goal with |- context [Market.params (market ?t)] => replace (market t) with (market s) by congruence end.
  done.
Qed.

(** Without prices there are no swaps: none succeeds on the prepared state,
    until validators have voted again. *)
Theorem zero_height_no_swaps {BK : BankKeeper B} jailAllowedAddrs u s s' ctx trader receiver offer ask sc fc m' :
  prepForZeroHeightGenesis jailAllowedAddrs s = (Ok u, s') ->
  handleSwapRequest ctx trader receiver offer ask (market s') <> (Ok (sc, fc), m').
Proof.
  intros Hprep. assert (Hr : ExchangeRates (Market.oracle (market s')) = ∅).
  { unfold prepForZeroHeightGenesis in Hprep. go_inv. cbn. by rewrite reset_oracle_spec. }
  unfold handleSwapRequest. intros H. go_inv. unfold id in *.
  match goal with H : ComputeSwap _ _ _ = Ok _ |- _ =>
    apply ComputeSwap_Ok in H as (Hne & _ & _ & _ & base & Hb & Hr2 & _) end.
  assert (Hnone : forall r, Market.GetLunaExchangeRate (Market.oracle (market s')) MicroSDRDenom <> Ok r).
  { intros r. cbn. unfold OracleStore.GetLunaExchangeRate. by rewrite Hr, lookup_empty. }
  apply ComputeInternalSwap_Ok in Hb as [[Hd ->]|(_ & ro & ra & p & _ & Hra & _)]; [|by apply Hnone in Hra].
  cbn in Hd. apply ComputeInternalSwap_Ok in Hr2 as [[Hd2 _]|(_ & ro & ra & p & Hro & _)]; cbn in *; [congruence|].
  rewrite Hd in Hro. by apply Hnone in Hro.
Qed.

(** *** Validators *)

(** The store of validators returns what was last written. *)
Class ValidatorStoreLaws : Prop := {
  get_set_validator k a v : GetValidator (SetValidator a v k) a = Some v;
  get_set_validator_ne k a b v : a <> b -> GetValidator (SetValidator a v k) b = GetValidator k b;
}.

(** A validator after the reset. *)
Definition reset_one (applyAllowedAddrs : bool) (allowedAddrsMap : gset string) (a : ValAddress)
    (v : StakingValidator V) : StakingValidator V :=
  mkStakingValidator 0
    (Jailed v || applyAllowedAddrs && negb (bool_decide (ValAddressString a ∈ allowedAddrsMap)))
    (validator_rest v).

Lemma reset_validator_Ok {VL : ValidatorStoreLaws} ap al k a k' :
  reset_validator ap al k a = Ok k' ->
  (exists v, GetValidator k a = Some v /\ GetValidator k' a = Some (reset_one ap al a v)) /\
  (forall b, b <> a -> GetValidator k' b = GetValidator k b).
Proof.
  unfold reset_validator. destruct (GetValidator k a) as [v|] eqn:Ev; [|done]. intros [= <-]. split.
  - exists v. split; [done|]. rewrite get_set_validator. unfold reset_one. do 2 f_equal.
    destruct (ap && _), (Jailed v); done.
  - intros b Hb. by rewrite get_set_validator_ne by done.
Qed.

Lemma reset_validators_run {VL : ValidatorStoreLaws} ap al l k k' :
  NoDup l -> foldM (reset_validator ap al) l k = Ok k' ->
  (forall a, a ∈ l -> exists v, GetValidator k a = Some v /\ GetValidator k' a = Some (reset_one ap al a v)) /\
  (forall b, b ∉ l -> GetValidator k' b = GetValidator k b).
Proof.
  intros Hnd. revert k. induction Hnd as [|x l Hx _ IH]; intros k H; cbn in H; go_inv.
  - split; [|done]. intros a Ha. by apply not_elem_of_nil in Ha.
  - apply reset_validator_Ok in Hv as [(w & Hw & Hw') Hne]. apply IH in H as [Hl Hrest]. split.
    + intros a [->|Ha]%elem_of_cons; [exists w; split; [done|]; by rewrite Hrest|].
      destruct (Hl a Ha) as (u & Hu & Hu'). exists u. rewrite <- Hne by (by intros ->). done.
    + intros b Hb. apply not_elem_of_cons in Hb as [Hb Hbl]. rewrite Hrest by done. by apply Hne.
Qed.

(** Every validator is reset, and jailed if there is a list and it is not on
    it. *)
Theorem validators_jailed {VL : ValidatorStoreLaws} jailAllowedAddrs al k k' a :
  allowed_map jailAllowedAddrs = Ok al ->
  reset_validators (0 <? length jailAllowedAddrs)%nat al k = Ok k' ->
  NoDup (ValidatorKeys k) -> a ∈ ValidatorKeys k ->
  exists v v', GetValidator k a = Some v /\ GetValidator k' a = Some v' /\ UnbondingHeight v' = 0 /\
    validator_rest v' = validator_rest v /\
    (Jailed v' = true <-> Jailed v = true \/ (jailAllowedAddrs <> [] /\ ValAddressString a ∉ jailAllowedAddrs)).
Proof.
  intros Hal Hrun Hnd Ha.
  assert (Hmap : forall x, x ∈ al <-> x ∈ jailAllowedAddrs).
  { intros x. apply allowed_map_elem. done. }
  destruct (proj1 (reset_validators_run _ _ _ _ _ Hnd Hrun) a Ha) as (v & Hv & Hv').
  eexists v, _. split; [done|]. split; [exact Hv'|]. cbn.
  split; [done|]. split; [done|].
  rewrite orb_true_iff, andb_true_iff, negb_true_iff, bool_decide_eq_false, Hmap.
  destruct jailAllowedAddrs; cbn; naive_solver.
Qed.

(** The exported state has the modules bank and wasm only, so that what was
    prepared for the oracle and the market is not part of it. *)
Theorem export_two_modules {Raw Vals Params' : Type} (ExportModule : string -> app (B:=B) (K:=K) -> Raw)
    MarshalIndent (WriteValidators : app -> res Vals) (GetConsensusParams : app -> Params')
    lastBlockHeight forZeroHeight jailAllowedAddrs e s s' :
  ExportAppStateAndValidators ExportModule MarshalIndent WriteValidators GetConsensusParams
    lastBlockHeight forZeroHeight jailAllowedAddrs s = (Ok e, s') ->
  exists g, MarshalIndent g = Ok (EAppState e) /\ dom g = {["bank"; "wasm"]}%string /\
    (forZeroHeight = true -> EHeight e = 0).
Proof.
  unfold ExportAppStateAndValidators. intros H. go_inv. cbn. eexists. split; [eassumption|].
  split; [|by intros ->]. cbn. rewrite !dom_insert_L, dom_empty_L. set_solver.
Qed.

End export_facts.

(** ** A concrete restart *)

Module ExportExample.

#[local] Existing Instance ref_math.
#[local] Existing Instance ref_coins.
#[local] Existing Instance ref_bech32.

(** The staking module has two validators; nothing else happens. *)
#[local] Instance plain_keepers : ExportKeepers (gmap string (StakingValidator unit)) unit unit unit unit := {|
  AssertInvariants _ := Ok tt;
  ValidatorOperators k := (map_to_list k).*1;
  WithdrawValidatorCommission k _ := k;
  GetAllDelegations _ := [("talice", "vval")]%string;
  WithdrawDelegationRewards k _ _ := k;
  DeleteAllValidatorSlashEvents k := k;
  DeleteAllValidatorHistoricalRewards k := k;
  GetValidatorOutstandingRewardsCoins _ _ := [];
  GetCommunityPool _ := [];
  SetCommunityPool _ k := k;
  AfterValidatorCreated _ _ k := Ok k;
  BeforeDelegationCreated _ _ _ k := Ok k;
  AfterDelegationModified _ _ _ k := Ok k;
  Redelegations _ := [];
  SetRedelegation _ k := k;
  UnbondingDelegations _ := [];
  SetUnbondingDelegation _ k := k;
  ValidatorKeys k := (map_to_list k).*1;
  GetValidator k a := k !! a;
  SetValidator a v k := <[a := v]> k;
  ApplyAndReturnValidatorSetUpdates k := Ok k;
  SigningInfos _ := [];
  SetValidatorSigningInfo _ _ k := k;
|}.

#[local] Instance plain_laws : ValidatorStoreLaws (KK:=plain_keepers).
Proof. split; intros; [apply lookup_insert_eq|by apply lookup_insert_ne]. Qed.

Definition vals : gmap string (StakingValidator unit) :=
  <["val" := mkStakingValidator 7 false tt]> (<["other" := mkStakingValidator 0 false tt]> ∅).

Definition app0 : app (B:=unit) :=
  mkApp (Market.mkState (Some 5) Market.DefaultParams
           (OracleStore.mkStore (<["uusd" := NewDec 2]> ∅) (<["val" := "feeder"]> ∅) (<["val" := 3]> ∅) ∅
              (<["val" := mkVote [] "vval"]> ∅) ∅ OracleStore.DefaultParams) tt) vals.

Definition prepared := prepForZeroHeightGenesis ["vval"%string] app0.

Lemma prepared_run : prepared = (Ok tt, prepared.2).
Proof. vm_compute. reflexivity. Qed.

Lemma zero_height_reset_witness :
  ExchangeRates (Market.oracle (market prepared.2)) = ∅ /\
  MissCounters (Market.oracle (market prepared.2)) = <["val" := 0]> ∅.
Proof.
  pose proof (zero_height_reset (KK:=plain_keepers) ["vval"%string] tt app0 prepared.2 prepared_run) as H.
  cbv zeta in H. rewrite H. split; reflexivity.
Defined.

End ExportExample.
