(* ===== verification/SigVerify.v ===== *)
(** * Signatures and the ante handler ([custom/auth/ante/sigverify.go], [ante.go])

    The decorators that set public keys, charge for signatures, verify them,
    limit their number and count up the sequences of the signers, and the chain
    [NewAnteHandler] builds from some of them, from the decorators of [Ante] and
    from those of the SDK.

    The SDK's public keys, signatures and accounts are known by what the source
    asks of them; verifying one signature is a parameter.  Gas for reading
    accounts is not charged here. *)

From Stdlib Require Import ZArith Lia Bool Ascii.
From stdpp Require Import base gmap strings list pretty.
From S2P Require Import Prelude Base64 Loops Sdk SdkRef Core OracleStore Ante WasmTypes Wasm.
Local Open Scope Z_scope.

Definition ErrInvalidPubKey : error := Registered "sdk" "ErrInvalidPubKey".
Definition ErrUnknownAddress : error := Registered "sdk" "ErrUnknownAddress".
Definition ErrWrongSequence : error := Registered "sdk" "ErrWrongSequence".
Definition ErrTooManySignatures : error := Registered "sdk" "ErrTooManySignatures".
Definition ErrLogic : error := Registered "sdk" "ErrLogic".

(** ** Keys and signatures of the SDK *)

(** The types the source tells apart.  [LegacyAminoKey] is the SDK's type of
    multisignature keys, [MultisigKey] any other that has its interface. *)
Inductive PubKey : Type :=
| Ed25519Key (key : string)
| Secp256k1Key (key : string)
| Secp256r1Key (key : string)
| LegacyAminoKey (threshold : Z) (keys : list PubKey)
| MultisigKey (keys : list PubKey)
| UnknownKey (type_url : string).

Inductive SignMode : Type := SIGN_MODE_LEGACY_AMINO_JSON | OtherMode (name : string).

(** [CompactBitArray], by what it answers. *)
Record CompactBitArray : Type := mkBits { BitCount : nat; GetIndex : nat -> bool }.

(** The implementations of the interface [SignatureData], and nil. *)
Inductive SignatureData : Type :=
| NilData
| SingleSignatureData (mode : SignMode) (signature : string)
| MultiSignatureData (bits : CompactBitArray) (signatures : list SignatureData).

Record SignatureV2 : Type := mkSig { SigPubKey : option PubKey; SigData : SignatureData; SigSequence : Z }.

Record SignerData : Type := mkSigner { SDChainID : string; SDAccountNumber : Z; SDSequence : Z }.

Record AuthParams : Type := mkAuthParams {
  TxSigLimit : Z; SigVerifyCostED25519 : Z; SigVerifyCostSecp256k1 : Z; SigVerifyCostSecp256r1 : Z }.

(** [SigVerifiableTx]. *)
Record SigTx : Type := mkSigTx {
  GetPubKeys : res (list (option PubKey)); GetSigners : list AccAddress; GetSignaturesV2 : res (list SignatureV2) }.

(** What accounts hold besides their address. *)
Class AuthKeeper (K : Type) {AK : AccountKeeper K} : Type := {
  get_pubkey : Account -> option PubKey;               (* GetPubKey *)
  get_sequence : Account -> Z;                         (* GetSequence *)
  get_account_number : Account -> Z;                   (* GetAccountNumber *)
  set_pubkey : Account -> PubKey -> res Account;       (* SetPubKey *)
  set_sequence : Account -> Z -> res Account;          (* SetSequence *)
  auth_params : K -> AuthParams;                       (* GetParams *)
}.

Class AuthKeeperLaws (K : Type) {AK : AccountKeeper K} (UK : AuthKeeper K) : Prop := {
  set_pubkey_spec acc pk acc' : set_pubkey acc pk = Ok acc' ->
    get_pubkey acc' = Some pk /\ get_sequence acc' = get_sequence acc /\
    get_account_number acc' = get_account_number acc /\ account_address acc' = account_address acc;
  set_sequence_spec acc n acc' : set_sequence acc n = Ok acc' ->
    get_sequence acc' = n /\ get_pubkey acc' = get_pubkey acc /\
    get_account_number acc' = get_account_number acc /\ account_address acc' = account_address acc;
}.

(** [l[i]]. *)
Definition index {X} (l : list X) (i : nat) : res X :=
  match l !! i with
  | Some x => Ok x
  | None => Panic
  end.

(** [for i, x := range l]. *)
Definition enumerate {X} (l : list X) : list (nat * X) := imap pair l.

(** ** Helpers *)

(** The key that stands in for a missing one when gas is estimated. *)
Definition simSecp256k1Pubkey : PubKey :=
  Secp256k1Key (match DecodeString "035AD6810A47F073553FF30D2FCC7E0D3B1C0B74B61A1AAA2582344037151E143A" with
                | Ok bz => bz
                | _ => ""
                end).

Fixpoint OnlyLegacyAminoSigners (sigData : SignatureData) : bool :=
  match sigData with
  | SingleSignatureData SIGN_MODE_LEGACY_AMINO_JSON _ => true
  | SingleSignatureData _ _ => false
  | MultiSignatureData _ signatures => forallb OnlyLegacyAminoSigners signatures
  | NilData => false
  end.

Fixpoint CountSubKeys (pub : PubKey) : Z :=
  match pub with
  | LegacyAminoKey _ keys => foldl (fun numKeys subkey => numKeys + CountSubKeys subkey) 0 keys
  | _ => 1
  end.

Section helpers.
(** [MultiSignature.Marshal]. *)
Context (multisig_Marshal : list string -> res string).

Fixpoint signatureDataToBz (data : SignatureData) : res (list string) :=
  match data with
  | NilData => Err (Errorf "got empty SignatureData")
  | SingleSignatureData _ signature => Ok [signature]
  | MultiSignatureData _ signatures =>
      sigs ← foldM (fun sigs d => nestedSigs ← signatureDataToBz d; Ok (sigs ++ nestedSigs)) signatures [];
      aggregatedSig ← multisig_Marshal sigs;
      Ok (sigs ++ [aggregatedSig])
  end.

End helpers.

(** ** Gas for signatures *)

Section gas.
Context {G : GasMeters}.

(** [meter.ConsumeGas]; more than the limit is a panic. *)
Definition meter_ConsumeGas (g : Z) : st Meter unit := fun m =>
  let '(r, m') := consume_gas g m in
  (match r with
   | GasOk => Ok tt
   | GasOut | GasOverflow => Panic
   end, m').

(** The loop of [ConsumeMultisignatureVerificationGas]; [consumers] charge for
    the keys of the multisignature key. *)
Definition consume_signatures (consumers : list (SignatureData -> st Meter unit)) (bits : CompactBitArray)
    (signatures : list SignatureData) : st Meter unit :=
  _ ← foldM (fun sigIndex i =>
    if negb (GetIndex bits i) then mret sigIndex
    else
      consumer ← lift (index consumers i);
      data ← lift (index signatures sigIndex);
      consumer data;;
      mret (Datatypes.S sigIndex)) (seq 0 (BitCount bits)) 0%nat;
  mret tt.

Fixpoint consume_for_key (params : AuthParams) (pubkey : PubKey) (data : SignatureData) : st Meter unit :=
  match pubkey with
  | Ed25519Key _ => meter_ConsumeGas (SigVerifyCostED25519 params);; lift (Err ErrInvalidPubKey)
  | Secp256k1Key _ => meter_ConsumeGas (SigVerifyCostSecp256k1 params)
  | Secp256r1Key _ => meter_ConsumeGas (SigVerifyCostSecp256r1 params)
  | LegacyAminoKey _ keys | MultisigKey keys =>
      match data with
      | MultiSignatureData bits signatures =>
          consume_signatures (map (consume_for_key params) keys) bits signatures
      | _ => lift (Err (Errorf "expected MultiSignatureData"))
      end
  | UnknownKey _ => lift (Err ErrInvalidPubKey)
  end.

Definition DefaultSigVerificationGasConsumer (sig : SignatureV2) (params : AuthParams) : st Meter unit :=
  match SigPubKey sig with
  | Some pubkey => consume_for_key params pubkey (SigData sig)
  | None => lift (Err ErrInvalidPubKey)
  end.

Definition ConsumeMultisignatureVerificationGas (bits : CompactBitArray) (signatures : list SignatureData)
    (keys : list PubKey) (params : AuthParams) (accSeq : Z) : st Meter unit :=
  consume_signatures
    (map (fun key data => DefaultSigVerificationGasConsumer (mkSig (Some key) data accSeq) params) keys)
    bits signatures.

End gas.

(** ** The decorators *)

Record AuthState (K : Type) {G : GasMeters} : Type := mkAuth {
  auth_accounts : K; auth_meter : Meter; auth_events : list Event }.
Arguments mkAuth {_ _} _ _ _.
Arguments auth_accounts {_ _} _.
Arguments auth_meter {_ _} _.
Arguments auth_events {_ _} _.

Section decorators.
Context {A : Bech32} {G : GasMeters} {K : Type} {AK : AccountKeeper K} {UK : AuthKeeper K} {T O : Type}.

(** The accounts, the meter and the events of the transaction are kept beside
    the treasury. *)
Abbreviation S := (ante_state (T * AuthState K) O).
Abbreviation AnteHandler := (AnteCtx -> Tx -> bool -> st S AnteCtx).

(** The type assertion [tx.(SigVerifiableTx)], [Address] of a key,
    [authsigning.VerifySignature] with the sign mode handler, and
    [MultiSignature.Marshal]. *)
Context (as_sig_tx : Tx -> option SigTx) (key_address : PubKey -> AccAddress).
Context (VerifySignature : PubKey -> SignerData -> SignatureData -> Tx -> res unit).
Context (multisig_Marshal : list string -> res string).

Definition auth (s : S) : AuthState K := (ante_treasury s).2.
Definition with_auth (a : AuthState K) (s : S) : S :=
  mkAnteState ((ante_treasury s).1, a) (ante_oracle s) (ante_spam s).

Definition on_auth {R} (c : st (AuthState K) R) : st S R := fun s =>
  let '(r, a) := c (auth s) in (r, with_auth a s).

Definition set_accounts_of (k : K) (a : AuthState K) : AuthState K := mkAuth k (auth_meter a) (auth_events a).

Definition on_meter {R} (c : st Meter R) : st (AuthState K) R := fun a =>
  let '(r, m) := c (auth_meter a) in (r, mkAuth (auth_accounts a) m (auth_events a)).

Definition GetSignerAcc (addr : AccAddress) : st (AuthState K) Account :=
  k ← gets auth_accounts;
  lift (match get_account k addr with
        | Some acc => Ok acc
        | None => Err ErrUnknownAddress
        end).

Definition SetAccount (acc : Account) : st (AuthState K) unit :=
  modify (fun a => set_accounts_of (set_account (auth_accounts a) acc) a).

(** The body of the first loop of [SetPubKeyDecorator]: the checks of a key
    that is there, and the loop's body. *)
Definition assign_key (simulate : bool) (signers : list AccAddress) (i : nat) (pk : PubKey)
    : st (AuthState K) unit :=
  (if negb simulate then
     signer ← lift (index signers i);
     lift (fail_if (negb (String.eqb (key_address pk) signer)) ErrInvalidPubKey)
   else mret tt);;
  signer ← lift (index signers i);
  acc ← GetSignerAcc signer;
  match get_pubkey acc with
  | Some _ => mret tt
  | None =>
      acc ← lift (wrap_err ErrInvalidPubKey (set_pubkey acc pk));
      SetAccount acc
  end.

Definition set_pub_key (simulate : bool) (signers : list AccAddress) (e : nat * option PubKey)
    : st (AuthState K) unit :=
  match e with
  | (i, Some pk) => assign_key simulate signers i pk
  | (i, None) => if negb simulate then mret tt else assign_key simulate signers i simSecp256k1Pubkey
  end.

(** The events of one signature. *)
Definition signature_events (signers : list AccAddress) (events : list Event) (e : nat * SignatureV2)
    : res (list Event) :=
  let '(i, sig) := e in
  signer ← index signers i;
  let acc_seq := String.append (AccAddressString signer) (String.append "/" (pretty (SigSequence sig))) in
  sigBzs ← signatureDataToBz multisig_Marshal (SigData sig);
  Ok (events ++ mkEvent "tx" [("acc_seq", acc_seq)] ::
        map (fun sigBz => mkEvent "tx" [("signature", base64_EncodeToString sigBz)]) sigBzs).

Definition SetPubKeyDecorator (next : AnteHandler) : AnteHandler := fun ctx tx simulate =>
  match as_sig_tx tx with
  | None => lift (Err ErrTxDecode)
  | Some sigTx =>
      pubkeys ← lift (GetPubKeys sigTx);
      let signers := GetSigners sigTx in
      on_auth (iterM (set_pub_key simulate signers) (enumerate pubkeys));;
      sigs ← lift (GetSignaturesV2 sigTx);
      events ← lift (foldM (signature_events signers) (enumerate sigs) []);
      on_auth (modify (fun a => mkAuth (auth_accounts a) (auth_meter a) (auth_events a ++ events)));;
      next ctx tx simulate
  end.

(** The body of the loop of [SigGasConsumeDecorator]. *)
Definition consume_sig_gas (sigGasConsumer : SignatureV2 -> AuthParams -> st Meter unit) (params : AuthParams)
    (simulate : bool) (signerAddrs : list AccAddress) (e : nat * SignatureV2) : st (AuthState K) unit :=
  let '(i, sig) := e in
  addr ← lift (index signerAddrs i);
  signerAcc ← GetSignerAcc addr;
  let pubKey :=
    match get_pubkey signerAcc with
    | Some pk => Some pk
    | None => if simulate then Some simSecp256k1Pubkey else None
    end in
  on_meter (sigGasConsumer (mkSig pubKey (SigData sig) (SigSequence sig)) params).

Definition SigGasConsumeDecorator (sigGasConsumer : SignatureV2 -> AuthParams -> st Meter unit)
    (next : AnteHandler) : AnteHandler := fun ctx tx simulate =>
  match as_sig_tx tx with
  | None => lift (Err ErrTxDecode)
  | Some sigTx =>
      params ← gets (fun s => auth_params (auth_accounts (auth s)));
      sigs ← lift (GetSignaturesV2 sigTx);
      on_auth (iterM (consume_sig_gas sigGasConsumer params simulate (GetSigners sigTx)) (enumerate sigs));;
      next ctx tx simulate
  end.

(** The body of the loop of [SigVerificationDecorator]; the text of the last
    error, not the error, depends on [OnlyLegacyAminoSigners]. *)
Definition verify_one (ctx : AnteCtx) (tx : Tx) (simulate : bool) (signerAddrs : list AccAddress)
    (e : nat * SignatureV2) : st (AuthState K) unit :=
  let '(i, sig) := e in
  addr ← lift (index signerAddrs i);
  acc ← GetSignerAcc addr;
  let pubKey := get_pubkey acc in
  lift (fail_if (negb simulate && match pubKey with Some _ => false | None => true end) ErrInvalidPubKey);;
  lift (fail_if (negb (SigSequence sig =? get_sequence acc)) ErrWrongSequence);;
  let genesis := BlockHeight (ante_ctx ctx) =? 0 in
  let chainID := ChainID (ante_ctx ctx) in
  let accNum := if negb genesis then get_account_number acc else 0 in
  let signerData := mkSigner chainID accNum (get_sequence acc) in
  match pubKey with
  | Some pubKey =>
      if negb simulate && negb (IsReCheckTx ctx)
      then lift (wrap_err ErrUnauthorized (VerifySignature pubKey signerData (SigData sig) tx))
      else mret tt
  | None => mret tt
  end.

Definition SigVerificationDecorator (next : AnteHandler) : AnteHandler := fun ctx tx simulate =>
  match as_sig_tx tx with
  | None => lift (Err ErrTxDecode)
  | Some sigTx =>
      sigs ← lift (GetSignaturesV2 sigTx);
      let signerAddrs := GetSigners sigTx in
      lift (fail_if (negb (Z.of_nat (length sigs) =? Z.of_nat (length signerAddrs))) ErrUnauthorized);;
      on_auth (iterM (verify_one ctx tx simulate signerAddrs) (enumerate sigs));;
      next ctx tx simulate
  end.

(** The body of the loop of [IncrementSequenceDecorator]; a missing account is
    a nil dereference. *)
Definition increment_one (addr : AccAddress) : st (AuthState K) unit :=
  k ← gets auth_accounts;
  acc ← lift (match get_account k addr with
              | Some acc => Ok acc
              | None => Panic
              end);
  acc ← lift (must (set_sequence acc (to_uint64 (get_sequence acc + 1))));
  SetAccount acc.

Definition IncrementSequenceDecorator (next : AnteHandler) : AnteHandler := fun ctx tx simulate =>
  match as_sig_tx tx with
  | None => lift (Err ErrTxDecode)
  | Some sigTx =>
      on_auth (iterM increment_one (GetSigners sigTx));;
      next ctx tx simulate
  end.

(** The body of the loop of [ValidateSigCountDecorator]; a nil key counts as
    one. *)
Definition count_keys (params : AuthParams) (sigCount : Z) (pk : option PubKey) : res Z :=
  let sigCount :=
    sigCount + match pk with
               | Some pk => CountSubKeys pk
               | None => 1
               end in
  fail_if (TxSigLimit params <? to_uint64 sigCount) ErrTooManySignatures;;
  Ok sigCount.

Definition ValidateSigCountDecorator (next : AnteHandler) : AnteHandler := fun ctx tx simulate =>
  match as_sig_tx tx with
  | None => lift (Err ErrTxDecode)
  | Some sigTx =>
      params ← gets (fun s => auth_params (auth_accounts (auth s)));
      pubKeys ← lift (GetPubKeys sigTx);
      _ ← lift (foldM (count_keys params) pubKeys 0);
      next ctx tx simulate
  end.

End decorators.

(** ** The chain ([ante.go]) *)

(** The treasury, with other state beside it. *)
#[global] Instance treasury_beside {T X : Type} {TK : TreasuryKeeper T} : TreasuryKeeper (T * X) := {|
  get_tax_rate t := get_tax_rate t.1;
  get_tax_cap t := get_tax_cap t.1;
  record_tax_proceeds cs := fun t => let '(r, t1) := record_tax_proceeds cs t.1 in (r, (t1, t.2));
  tax_proceeds t := tax_proceeds t.1;
|}.

Section handler.
Context {M : SdkMath} {C : SdkCoins} {A : Bech32} {G : GasMeters}.
Context {K : Type} {AK : AccountKeeper K} {UK : AuthKeeper K}.
Context {T : Type} {TK : TreasuryKeeper T} {O : Type} {FK : FeederKeeper O}.
Context (as_sig_tx : Tx -> option SigTx).

Abbreviation S := (ante_state (T * AuthState K) O).
Abbreviation AnteHandler := (AnteCtx -> Tx -> bool -> st S AnteCtx).

(** [HandlerOptions]: which keepers are set, the sign mode handler, as the
    function that verifies signatures with it, and the function that charges
    for signatures. *)
Record HandlerOptions : Type := mkOptions {
  HasAccountKeeper : bool; HasBankKeeper : bool; HasOracleKeeper : bool; HasTreasuryKeeper : bool;
  SignModeHandler : option (PubKey -> SignerData -> SignatureData -> Tx -> res unit);
  SigGasConsumer : option (SignatureV2 -> AuthParams -> st Meter unit) }.

(** The decorators of the SDK and of IBC, and the SDK's function that charges
    for signatures. *)
Record SdkDecorators : Type := mkSdkDecorators {
  NewSetUpContextDecorator : AnteHandler -> AnteHandler;
  NewRejectExtensionOptionsDecorator : AnteHandler -> AnteHandler;
  NewValidateBasicDecorator : AnteHandler -> AnteHandler;
  NewTxTimeoutHeightDecorator : AnteHandler -> AnteHandler;
  NewValidateMemoDecorator : AnteHandler -> AnteHandler;
  NewConsumeGasForTxSizeDecorator : AnteHandler -> AnteHandler;
  NewDeductFeeDecorator : AnteHandler -> AnteHandler;
  NewSetPubKeyDecorator : AnteHandler -> AnteHandler;
  NewValidateSigCountDecorator : AnteHandler -> AnteHandler;
  NewSigGasConsumeDecorator : (SignatureV2 -> AuthParams -> st Meter unit) -> AnteHandler -> AnteHandler;
  NewIncrementSequenceDecorator : AnteHandler -> AnteHandler;
  IBCAnteDecorator : AnteHandler -> AnteHandler;
  sdk_SigGasConsumer : SignatureV2 -> AuthParams -> st Meter unit }.

(** [sdk.ChainAnteDecorators]: each decorator is given the rest of the chain. *)
Definition ChainAnteDecorators (chain : list (AnteHandler -> AnteHandler)) : AnteHandler :=
  foldr (fun d next => d next) (fun ctx _ _ => mret ctx) chain.

Definition NewAnteHandler (sdk : SdkDecorators) (options : HandlerOptions) : res AnteHandler :=
  fail_if (negb (HasAccountKeeper options)) ErrLogic;;
  fail_if (negb (HasBankKeeper options)) ErrLogic;;
  fail_if (negb (HasOracleKeeper options)) ErrLogic;;
  fail_if (negb (HasTreasuryKeeper options)) ErrLogic;;
  match SignModeHandler options with
  | None => Err ErrLogic
  | Some VerifySignature =>
      let sigGasConsumer :=
        match SigGasConsumer options with
        | Some f => f
        | None => sdk_SigGasConsumer sdk
        end in
      Ok (ChainAnteDecorators [
        NewSetUpContextDecorator sdk;
        NewRejectExtensionOptionsDecorator sdk;
        SpammingPreventionDecorator;
        TaxFeeDecorator;
        NewValidateBasicDecorator sdk;
        NewTxTimeoutHeightDecorator sdk;
        NewValidateMemoDecorator sdk;
        NewConsumeGasForTxSizeDecorator sdk;
        NewDeductFeeDecorator sdk;
        NewSetPubKeyDecorator sdk;
        NewValidateSigCountDecorator sdk;
        NewSigGasConsumeDecorator sdk sigGasConsumer;
        SigVerificationDecorator as_sig_tx VerifySignature;
        NewIncrementSequenceDecorator sdk;
        IBCAnteDecorator sdk])
  end.

End handler.

(** ** Laws of the SDK's decorators *)

Section laws.
Context {G : GasMeters} {K : Type} {AK : AccountKeeper K} {UK : AuthKeeper K} {T O : Type}.
Context (as_sig_tx : Tx -> option SigTx).

Abbreviation S := (ante_state (T * AuthState K) O).
Abbreviation AnteHandler := (AnteCtx -> Tx -> bool -> st S AnteCtx).

(** Accounts keep their sequences and numbers; new ones may appear. *)
Definition keeps (k k' : K) : Prop := forall a acc, get_account k a = Some acc ->
  exists acc', get_account k' a = Some acc' /\ get_sequence acc' = get_sequence acc /\
    get_account_number acc' = get_account_number acc.

Definition times_signed (signers : list AccAddress) (a : AccAddress) : Z :=
  sumZ (fun b => if String.eqb b a then 1 else 0) signers.

(** [n] increments of a 64-bit sequence. *)
Definition increments_by (n seq : Z) : Z := if n =? 0 then seq else to_uint64 (seq + n).

(** The sequence of an account went up for each time it signs. *)
Definition bumped (signers : list AccAddress) (k k' : K) : Prop := forall a acc, get_account k a = Some acc ->
  exists acc', get_account k' a = Some acc' /\
    get_sequence acc' = increments_by (times_signed signers a) (get_sequence acc) /\
    get_account_number acc' = get_account_number acc.

Definition accounts_of (s : S) : K := auth_accounts (auth s).

(** The same block and mode. *)
Definition same_block (ctx ctx' : AnteCtx) : Prop :=
  ante_ctx ctx' = ante_ctx ctx /\ IsReCheckTx ctx' = IsReCheckTx ctx.

(** A decorator that accepts ends with the rest of the chain, in a state that
    is related to its own. *)
Definition hands_on (R : Tx -> K -> K -> Prop) (d : AnteHandler -> AnteHandler) : Prop :=
  forall next ctx tx simulate s c s', d next ctx tx simulate s = (Ok c, s') ->
    exists ctx1 s1, next ctx1 tx simulate s1 = (Ok c, s') /\ same_block ctx ctx1 /\
      R tx (accounts_of s) (accounts_of s1).

Definition quiet : (AnteHandler -> AnteHandler) -> Prop := hands_on (fun _ => keeps).

Definition increments : (AnteHandler -> AnteHandler) -> Prop := hands_on (fun tx k k' =>
  exists sigTx, as_sig_tx tx = Some sigTx /\ bumped (GetSigners sigTx) k k').

(** The decorators of the SDK leave the sequences alone, but the one that
    increments them. *)
Class SdkDecoratorsLaws (sdk : SdkDecorators (K:=K) (T:=T) (O:=O)) : Prop := {
  quiet_decorators : Forall quiet [
    NewSetUpContextDecorator sdk; NewRejectExtensionOptionsDecorator sdk; NewValidateBasicDecorator sdk;
    NewTxTimeoutHeightDecorator sdk; NewValidateMemoDecorator sdk; NewConsumeGasForTxSizeDecorator sdk;
    NewDeductFeeDecorator sdk; NewSetPubKeyDecorator sdk; NewValidateSigCountDecorator sdk; IBCAnteDecorator sdk];
  quiet_gas f : quiet (NewSigGasConsumeDecorator sdk f);
  increments_sequences : increments (NewIncrementSequenceDecorator sdk);
}.

End laws.

(** ** Runs *)

Section runs.
Context {A : Bech32} {G : GasMeters}.
Context {K : Type} {AK : AccountKeeper K} {AL : AccountKeeperLaws K AK} {UK : AuthKeeper K} {UL : AuthKeeperLaws K UK}.
Context {T O : Type}.
Context (as_sig_tx : Tx -> option SigTx) (VerifySignature : PubKey -> SignerData -> SignatureData -> Tx -> res unit).

Abbreviation S := (ante_state (T * AuthState K) O).
Abbreviation AnteHandler := (AnteCtx -> Tx -> bool -> st S AnteCtx).

#[export] Instance keeps_preorder : PreOrder (keeps (K:=K)).
Proof.
  split; [intros k a acc E; by exists acc|]. intros k1 k2 k3 H1 H2 a acc E.
  destruct (H1 a acc E) as (acc2 & E2 & Hs2 & Hn2). destruct (H2 a acc2 E2) as (acc3 & E3 & Hs3 & Hn3).
  exists acc3. split; [done|]. split; congruence.
Qed.

#[export] Instance same_block_preorder : PreOrder same_block.
Proof.
  split; [done|]. intros c1 c2 c3 [H1 H2] [H3 H4]. split; congruence.
Qed.

Lemma quiet_chain (chain : list (AnteHandler -> AnteHandler)) next ctx tx simulate s c s' :
  Forall quiet chain -> foldr (fun d next => d next) next chain ctx tx simulate s = (Ok c, s') ->
  exists ctx1 s1, next ctx1 tx simulate s1 = (Ok c, s') /\ same_block ctx ctx1 /\
    keeps (accounts_of s) (accounts_of s1).
Proof.
  intros H. revert ctx s. induction H as [|d chain Hd H IH]; intros ctx s E; cbn in E; [by exists ctx, s|].
  apply Hd in E as (ctx1 & s1 & E & Hc & Hk). apply IH in E as (ctx2 & s2 & E & Hc2 & Hk2).
  exists ctx2, s2. split; [done|]. split; by etrans.
Qed.

(** A loop that only looks. *)
Lemma iterM_reads {X St} (P : X -> St -> Prop) (f : X -> st St unit) l u s s' :
  (forall x s u s', f x s = (Ok u, s') -> s' = s /\ P x s) ->
  iterM f l s = (Ok u, s') -> s' = s /\ Forall (fun x => P x s) l.
Proof.
  intros Hf. unfold iterM. revert s u. generalize tt. induction l as [|x l IH]; intros v s u E; cbn in E; go_inv; [done|].
  apply Hf in Hv as [-> HP]. apply IH in E as [-> HF]. auto.
Qed.

Lemma GetSignerAcc_Ok addr acc (a a' : AuthState K) :
  GetSignerAcc addr a = (Ok acc, a') -> a' = a /\ get_account (auth_accounts a) addr = Some acc.
Proof. unfold GetSignerAcc. intros E. go_inv. by destruct (get_account _ _); simplify_eq. Qed.

Lemma on_auth_Ok {R} (c : st (AuthState K) R) r (s s' : S) :
  on_auth c s = (Ok r, s') -> exists a, c (auth s) = (Ok r, a) /\ s' = with_auth a s.
Proof. unfold on_auth. destruct (c (auth s)) as [x a]. intros E. simplify_eq. eauto. Qed.

(** A signature was accepted for an account. *)
Definition signed (ctx : AnteCtx) (tx : Tx) (simulate : bool) (k : K) (addr : AccAddress) (sig : SignatureV2) : Prop :=
  exists acc, get_account k addr = Some acc /\ SigSequence sig = get_sequence acc /\
    (simulate = false -> IsReCheckTx ctx = false -> exists pk, get_pubkey acc = Some pk /\
       VerifySignature pk
         (mkSigner (ChainID (ante_ctx ctx)) (if BlockHeight (ante_ctx ctx) =? 0 then 0 else get_account_number acc)
            (get_sequence acc)) (SigData sig) tx = Ok tt).

Lemma verify_one_Ok ctx tx simulate signers e u (a a' : AuthState K) :
  verify_one VerifySignature ctx tx simulate signers e a = (Ok u, a') ->
  a' = a /\ exists addr, signers !! e.1 = Some addr /\ signed ctx tx simulate (auth_accounts a) addr e.2.
Proof.
  destruct e as [i sig]. unfold verify_one, index. intros E. go_inv.
  destruct (signers !! i) as [addr|] eqn:Ea; simplify_eq. apply GetSignerAcc_Ok in Hv0 as [-> Hacc].
  apply negb_false_iff, Z.eqb_eq in Hv2.
  assert (Hs : a' = a /\ (simulate = false -> IsReCheckTx ctx = false -> exists pk, get_pubkey v0 = Some pk /\
       VerifySignature pk
         (mkSigner (ChainID (ante_ctx ctx)) (if BlockHeight (ante_ctx ctx) =? 0 then 0 else get_account_number v0)
            (get_sequence v0)) (SigData sig) tx = Ok tt)).
  { destruct (get_pubkey v0) as [pk|].
    - destruct simulate, (IsReCheckTx ctx); cbn in E; go_inv; try (split; [done|]; intros; done).
      split; [done|]. intros _ _. exists pk. split; [done|]. destruct u. rewrite <- E. by destruct (_ =? 0).
    - destruct simulate; [|done]. go_inv. done. }
  destruct Hs as [-> Hs]. split; [done|]. exists v. split; [done|]. exists v0. done.
Qed.

Lemma enumerate_lookup {X} (l : list X) i x : l !! i = Some x -> (i, x) ∈ enumerate l.
Proof. intros E. apply list_elem_of_lookup. exists i. unfold enumerate. by rewrite list_lookup_imap, E. Qed.

(** What a verified transaction has. *)
Lemma verification_Ok next ctx tx simulate (s : S) c s' :
  SigVerificationDecorator as_sig_tx VerifySignature next ctx tx simulate s = (Ok c, s') ->
  exists sigTx sigs, as_sig_tx tx = Some sigTx /\ GetSignaturesV2 sigTx = Ok sigs /\
    Forall2 (signed ctx tx simulate (accounts_of s)) (GetSigners sigTx) sigs /\
    next ctx tx simulate s = (Ok c, s').
Proof.
  unfold SigVerificationDecorator. intros E. destruct (as_sig_tx tx) as [sigTx|] eqn:Et; [|done]. go_inv.
  apply on_auth_Ok in Hv1 as (a & Hv1 & ->).
  apply (iterM_reads (fun e a => exists addr, GetSigners sigTx !! e.1 = Some addr /\
    signed ctx tx simulate (auth_accounts a) addr e.2)) in Hv1 as [-> HF]; [|intros; by eapply verify_one_Ok].
  apply negb_false_iff, Z.eqb_eq, Nat2Z.inj in Hv0. exists sigTx, v. split; [done|]. split; [done|].
  split; [|by destruct s as [[]]]. apply Forall2_same_length_lookup. split; [done|].
  intros i addr sig Ha Hsig. rewrite Forall_forall in HF.
  apply enumerate_lookup, HF in Hsig as (addr' & Ha' & Hs). cbn in Ha'. by simplify_eq.
Qed.

End runs.

(** ** What accepted transactions have *)

Section accepted.
Context {M : SdkMath} {C : SdkCoins} {A : Bech32} {G : GasMeters}.
Context {K : Type} {AK : AccountKeeper K} {UK : AuthKeeper K}.
Context {T : Type} {TK : TreasuryKeeper T} {O : Type} {FK : FeederKeeper O}.
Context (as_sig_tx : Tx -> option SigTx) (sdk : SdkDecorators (K:=K) (T:=T) (O:=O)).
Context {SL : SdkDecoratorsLaws as_sig_tx sdk}.

Abbreviation S := (ante_state (T * AuthState K) O).
Abbreviation AnteHandler := (AnteCtx -> Tx -> bool -> st S AnteCtx).
Implicit Types s : S.

Lemma on_treasury_accounts {R} (c : st T R) r s s' :
  on_treasury (fun t => let '(x, t1) := c t.1 in (x, (t1, t.2))) s = (r, s') -> accounts_of s' = accounts_of s.
Proof.
  unfold on_treasury. destruct s as [[t a] o sp]. cbn. destruct (c t) as [x t1]. intros E. by simplify_eq.
Qed.

Lemma quiet_tax : quiet (TaxFeeDecorator (T:=T * AuthState K) (O:=O)).
Proof.
  intros next ctx tx simulate s c s' E. unfold TaxFeeDecorator in E. destruct tx as [feeTx|]; [|by go_inv].
  apply st_bind_Ok in E as (u & s1 & E1 & E). exists ctx, s1. split; [done|]. split; [done|].
  assert (Hs : accounts_of s1 = accounts_of s); [|by rewrite Hs].
  destruct (negb simulate); go_inv; [|done]. destruct (negb (coins_is_zero _)); [|by go_inv].
  exact (on_treasury_accounts (record_tax_proceeds _) _ _ _ E1).
Qed.

Lemma quiet_spam : quiet (SpammingPreventionDecorator (T:=T * AuthState K) (O:=O)).
Proof.
  intros next ctx tx simulate s c s' E. unfold SpammingPreventionDecorator in E.
  destruct (IsReCheckTx ctx); [by exists ctx, s|].
  apply st_bind_Ok in E as (u & s1 & E1 & E). exists ctx, s1. split; [done|]. split; [done|].
  assert (Hs : accounts_of s1 = accounts_of s); [|by rewrite Hs].
  destruct (negb simulate && IsCheckTx ctx); [|by go_inv]. unfold on_spam in E1.
  destruct (CheckOracleSpamming _ _ _ _) as [x m]. by simplify_eq.
Qed.

Lemma Ok_inj {X} (x y : X) : Ok x = Ok y -> x = y.
Proof. by intros [= ->]. Qed.

Lemma accepted_run options h ctx tx simulate s c s' :
  NewAnteHandler as_sig_tx sdk options = Ok h -> h ctx tx simulate s = (Ok c, s') ->
  exists verify ctx1 s1 s2 sigTx sigs, SignModeHandler options = Some verify /\ same_block ctx ctx1 /\
    keeps (accounts_of s) (accounts_of s1) /\
    as_sig_tx tx = Some sigTx /\ GetSignaturesV2 sigTx = Ok sigs /\
    Forall2 (signed verify ctx1 tx simulate (accounts_of s1)) (GetSigners sigTx) sigs /\
    bumped (GetSigners sigTx) (accounts_of s1) (accounts_of s2) /\ keeps (accounts_of s2) (accounts_of s').
Proof.
  unfold NewAnteHandler. intros Eh E. go_inv. destruct (SignModeHandler options) as [verify|] eqn:Ev; [|done].
  apply Ok_inj in Eh. subst h. destruct SL as [Hq Qg Hinc]. rewrite !Forall_cons in Hq.
  destruct Hq as (Q1 & Q2 & Q3 & Q4 & Q5 & Q6 & Q7 & Q8 & Q9 & Q10 & _).
  unfold ChainAnteDecorators in E.
  match type of E with
  | foldr ?f ?z [?d1; ?d2; ?d3; ?d4; ?d5; ?d6; ?d7; ?d8; ?d9; ?d10; ?d11; ?d12; ?v; ?i; ?b] _ _ _ _ = _ =>
      change (foldr f (v (i (b z))) [d1; d2; d3; d4; d5; d6; d7; d8; d9; d10; d11; d12] ctx tx simulate s = (Ok c, s')) in E
  end.
  apply quiet_chain in E as (ctx1 & s1 & E & Hc1 & Hk1);
    [|repeat (constructor; [first [done|apply quiet_tax|apply quiet_spam|apply Qg]|]); constructor].
  apply verification_Ok in E as (sigTx & sigs & Et & Es & HF & E).
  apply Hinc in E as (ctx2 & s2 & E & Hc2 & sigTx' & Et' & Hb).
  apply Q10 in E as (ctx3 & s3 & E & Hc3 & Hk3). go_inv. subst.
  exists verify, ctx1, s1, s2, sigTx, sigs. rewrite Et in Et'. simplify_eq. auto 10.
Qed.


Lemma times_signed_bounds signers a :
  a ∈ signers -> 1 <= times_signed signers a <= Z.of_nat (length signers).
Proof.
  unfold times_signed. assert (Hall : forall l, 0 <= sumZ (fun b => if String.eqb b a then 1 else 0) l <= Z.of_nat (length l)).
  { intros l. induction l as [|b l IH]; [done|]. rewrite sumZ_cons. cbn [length]. destruct (String.eqb b a); lia. }
  induction signers as [|b l IH]; [by intros ?%not_elem_of_nil|]. rewrite elem_of_cons, sumZ_cons. cbn [length].
  specialize (Hall l). intros [<-|Hl]; [rewrite String.eqb_refl; lia|]. specialize (IH Hl).
  destruct (String.eqb b a); lia.
Qed.

(** Sequences only grow. *)
Definition no_earlier (k k' : K) : Prop := forall a acc, get_account k a = Some acc ->
  exists acc', get_account k' a = Some acc' /\ get_sequence acc <= get_sequence acc'.

(** C6. No replay: a transaction that was accepted is never accepted again, in
    any state in which the sequences of the accounts are not lower than right
    after it was accepted, whatever its sign mode, block and mode; sequences
    must not be at the end of the 64-bit range. *)
Theorem no_replay options h ctx tx simulate s c s' ctx2 simulate2 s2 c2 s2' sigTx sigs :
  NewAnteHandler as_sig_tx sdk options = Ok h -> h ctx tx simulate s = (Ok c, s') ->
  as_sig_tx tx = Some sigTx -> GetSigners sigTx <> [] -> GetSignaturesV2 sigTx = Ok sigs ->
  Forall (fun sig => 0 <= SigSequence sig < two64 - Z.of_nat (length sigs)) sigs ->
  no_earlier (accounts_of s') (accounts_of s2) ->
  h ctx2 tx simulate2 s2 <> (Ok c2, s2').
Proof.
  intros Eh E Ht Hne Hs Hb Hlater E2.
  eapply accepted_run in E as (v1 & x1 & a1 & b1 & t1 & g1 & _ & _ & Hk1 & Ht1 & Hs1 & HF1 & Hb1 & Hk1'); [|exact Eh].
  eapply accepted_run in E2 as (v2 & x2 & a2 & b2 & t2 & g2 & _ & _ & Hk2 & Ht2 & Hs2 & HF2 & _ & _); [|exact Eh].
  rewrite Ht in Ht1, Ht2. simplify_eq. rewrite Hs in Hs1, Hs2. simplify_eq. apply Forall2_length in HF1 as Hlen.
  destruct (GetSigners t1) as [|a signers] eqn:Eg; [done|]. destruct g1 as [|sig sigs']; [done|].
  apply Forall2_cons in HF1 as [(acc & Ha & Hq & _) _], HF2 as [(acc2 & Ha2 & Hq2 & _) _].
  apply Forall_cons in Hb as [Hb _].
  destruct (Hb1 a acc Ha) as (acc' & Ha' & Hq' & _). destruct (Hk1' a acc' Ha') as (acc3 & Ha3 & Hq3 & _).
  destruct (Hlater a acc3 Ha3) as (acc4 & Ha4 & Hle). destruct (Hk2 a acc4 Ha4) as (acc5 & Ha5 & Hq5 & _).
  pose proof (times_signed_bounds (a :: signers) a ltac:(left)) as Hn. rewrite Hlen in Hn.
  unfold increments_by in Hq'. destruct (Z.eqb_spec (times_signed (a :: signers) a) 0); [lia|].
  rewrite to_uint64_id in Hq' by (unfold is_uint64; lia). simplify_eq. lia.
Qed.

End accepted.

(** ** The decorators of this package keep the laws *)

Section own_decorators.
Context {A : Bech32} {G : GasMeters}.
Context {K : Type} {AK : AccountKeeper K} {AL : AccountKeeperLaws K AK} {UK : AuthKeeper K} {UL : AuthKeeperLaws K UK}.
Context {T O : Type}.
Context (as_sig_tx : Tx -> option SigTx) (key_address : PubKey -> AccAddress).
Context (multisig_Marshal : list string -> res string).

Abbreviation S := (ante_state (T * AuthState K) O).
Abbreviation AnteHandler := (AnteCtx -> Tx -> bool -> st S AnteCtx).
Implicit Types k : K.

Lemma set_account_cases k acc a acc' :
  get_account (set_account k acc) a = Some acc' ->
  (a = account_address acc /\ acc' = acc) \/ (a <> account_address acc /\ get_account k a = Some acc').
Proof.
  destruct (decide (a = account_address acc)) as [->|Hne].
  - rewrite set_account_get. intros [= <-]. by left.
  - rewrite set_account_other by done. auto.
Qed.

Lemma set_account_step k acc a acc0 :
  get_account k a = Some acc0 -> account_address acc = a -> forall b accb, get_account k b = Some accb ->
  exists accb', get_account (set_account k acc) b = Some accb' /\
    (b = a /\ accb = acc0 /\ accb' = acc \/ b <> a /\ accb' = accb).
Proof.
  intros E Ha b accb Eb. destruct (decide (b = a)) as [->|Hne].
  - exists acc. rewrite <- Ha at 1. rewrite set_account_get. simplify_eq. auto.
  - exists accb. rewrite set_account_other by congruence. auto.
Qed.

(** A loop whose steps are related. *)
Lemma iterM_rel {X St} (R : St -> St -> Prop) `{!PreOrder R} (f : X -> st St unit) l u s s' :
  (forall x s u s', x ∈ l -> f x s = (Ok u, s') -> R s s') -> iterM f l s = (Ok u, s') -> R s s'.
Proof.
  unfold iterM. revert s u. generalize tt. induction l as [|x l IH]; intros v s u Hf E; cbn in E; go_inv; [done|].
  etrans; [eapply Hf; [left|exact Hv]|]. eapply IH; [|exact E]. intros y s1 u1 s2 Hy. apply Hf. by right.
Qed.

(** Keys belong to the address of their account. *)
Definition keyed k : Prop := forall a acc pk, get_account k a = Some acc -> get_pubkey acc = Some pk -> key_address pk = a.

Definition keys_kept k k' : Prop := forall a acc pk, get_account k a = Some acc -> get_pubkey acc = Some pk ->
  exists acc', get_account k' a = Some acc' /\ get_pubkey acc' = Some pk.

(** What storing keys does. *)
Definition key_step (simulate : bool) k k' : Prop :=
  keeps k k' /\ keys_kept k k' /\ (simulate = false -> keyed k -> keyed k').

#[local] Instance key_step_preorder simulate : PreOrder (key_step simulate).
Proof.
  split.
  - intros k. split; [reflexivity|]. split; [|auto]. intros a acc pk E Hp. eauto.
  - intros k1 k2 k3 (H1 & H2 & H3) (H4 & H5 & H6). split; [by etrans|]. split; [|auto].
    intros a acc pk E Hp. destruct (H2 a acc pk E Hp) as (acc' & E' & Hp'). eauto.
Qed.

Lemma assign_key_Ok simulate signers i pk u (a a' : AuthState K) :
  assign_key key_address simulate signers i pk a = (Ok u, a') ->
  key_step simulate (auth_accounts a) (auth_accounts a').
Proof.
  unfold assign_key, index, SetAccount. intros E. go_inv.
  assert (Hs : s = a /\ (simulate = false -> signers !! i = Some (key_address pk))).
  { destruct (signers !! i) as [b|]; [|done]. destruct simulate; cbn in Hv; go_inv; [done|].
    split; [done|]. intros _. apply negb_false_iff, String.eqb_eq in Hv. congruence. }
  destruct Hs as [-> Hs]. destruct (signers !! i) as [addr|] eqn:Ei; [|done]. simplify_eq.
  apply GetSignerAcc_Ok in Hv1 as [-> Hacc].
  destruct (get_pubkey v1) as [pk0|] eqn:Ep; go_inv; [reflexivity|]. cbn [auth_accounts set_accounts_of].
  apply set_pubkey_spec in Hv0 as (Hp & Hq & Hn & Hadr). apply get_account_address in Hacc as Haddr.
  pose proof (set_account_step _ v2 _ _ Hacc ltac:(congruence)) as Hstep. split; [|split].
  - intros b accb Eb. destruct (Hstep b accb Eb) as (accb' & -> & [(-> & -> & ->)|(_ & ->)]); eauto.
  - intros b accb pkb Eb Hpb. destruct (Hstep b accb Eb) as (accb' & -> & [(-> & -> & ->)|(_ & ->)]); [congruence|eauto].
  - intros Hsim Hk b accb pkb Eb Hpb. apply set_account_cases in Eb as [[-> ->]|[_ Eb]]; [|by eapply Hk].
    specialize (Hs Hsim). simplify_eq. congruence.
Qed.

Lemma set_pub_key_Ok simulate signers e u (a a' : AuthState K) :
  set_pub_key key_address simulate signers e a = (Ok u, a') ->
  key_step simulate (auth_accounts a) (auth_accounts a').
Proof.
  destruct e as [i [pk|]]; cbn [set_pub_key]; [apply assign_key_Ok|].
  destruct simulate; cbn [negb]; [apply assign_key_Ok|]. intros E. go_inv. reflexivity.
Qed.

#[export] Instance accounts_preorder (R : K -> K -> Prop) `{!PreOrder R} :
  PreOrder (fun a a' : AuthState K => R (auth_accounts a) (auth_accounts a')).
Proof. split; [intros a; reflexivity|intros a b c; apply transitivity]. Qed.

Lemma SetPubKey_run next ctx tx simulate (s : S) c s' :
  SetPubKeyDecorator as_sig_tx key_address multisig_Marshal next ctx tx simulate s = (Ok c, s') ->
  exists s1, next ctx tx simulate s1 = (Ok c, s') /\ key_step simulate (accounts_of s) (accounts_of s1).
Proof.
  unfold SetPubKeyDecorator. intros E. destruct (as_sig_tx tx) as [sigTx|]; [|done]. go_inv.
  apply on_auth_Ok in Hv0 as (a & Hv0 & ->), Hv3 as (a1 & Hv3 & ->). go_inv. subst.
  apply (iterM_rel (fun a a' : AuthState K => key_step simulate (auth_accounts a) (auth_accounts a'))) in Hv0;
    [|intros x s1 u s2 _; apply set_pub_key_Ok].
  eexists. split; [exact E|]. done.
Qed.

Lemma quiet_set_pub_key : quiet (SetPubKeyDecorator (T:=T) (O:=O) as_sig_tx key_address multisig_Marshal).
Proof.
  intros next ctx tx simulate s c s' E. apply SetPubKey_run in E as (s1 & E & Hk & _). by exists ctx, s1.
Qed.

Lemma quiet_sig_count : quiet (ValidateSigCountDecorator (T:=T) (O:=O) as_sig_tx).
Proof.
  intros next ctx tx simulate s c s' E. unfold ValidateSigCountDecorator in E.
  destruct (as_sig_tx tx) as [sigTx|]; [|done]. go_inv. by exists ctx, s.
Qed.

Lemma consume_sig_gas_Ok f params simulate addrs e u (a a' : AuthState K) :
  consume_sig_gas f params simulate addrs e a = (Ok u, a') -> auth_accounts a' = auth_accounts a.
Proof.
  destruct e as [i sig]. unfold consume_sig_gas, on_meter. intros E. go_inv.
  apply GetSignerAcc_Ok in Hv0 as [-> _]. destruct (f _ _ _) as [r m]. by simplify_eq.
Qed.

Lemma quiet_sig_gas f : quiet (SigGasConsumeDecorator (T:=T) (O:=O) as_sig_tx f).
Proof.
  intros next ctx tx simulate s c s' E. unfold SigGasConsumeDecorator in E.
  destruct (as_sig_tx tx) as [sigTx|]; [|done]. go_inv. apply on_auth_Ok in Hv1 as (a & Hv1 & ->).
  eapply (iterM_rel (fun a a' : AuthState K => keeps (auth_accounts a) (auth_accounts a'))) in Hv1;
    [|intros x s1 u s2 _ Ex; apply consume_sig_gas_Ok in Ex as ->; reflexivity].
  eexists ctx, _. split; [exact E|]. done.
Qed.

Lemma times_signed_cons b signers a :
  times_signed (b :: signers) a = (if String.eqb b a then 1 else 0) + times_signed signers a.
Proof. apply sumZ_cons. Qed.

Lemma increment_one_Ok addr u (a a' : AuthState K) :
  increment_one addr a = (Ok u, a') -> bumped [addr] (auth_accounts a) (auth_accounts a').
Proof.
  unfold increment_one, SetAccount. intros E. go_inv. destruct (get_account _ addr) as [acc|] eqn:Ea; [|done].
  simplify_eq. apply set_sequence_spec in Hv1 as (Hq & Hp & Hn & Hadr). apply get_account_address in Ea as Haddr.
  intros b accb Eb. cbn. destruct (set_account_step _ v1 _ _ Ea ltac:(congruence) b accb Eb)
    as (accb' & -> & [(-> & -> & ->)|(Hne & ->)]).
  - exists v1. rewrite times_signed_cons, String.eqb_refl, Hq, Hn. done.
  - exists accb. rewrite times_signed_cons, (proj2 (String.eqb_neq addr b)) by done. done.
Qed.

Lemma increments_by_add n m seq : 0 <= n -> 0 <= m -> increments_by m (increments_by n seq) = increments_by (n + m) seq.
Proof.
  intros Hn Hm. unfold increments_by, to_uint64. destruct (Z.eqb_spec n 0) as [->|Hn0]; [done|].
  destruct (Z.eqb_spec (n + m) 0); [lia|]. destruct (Z.eqb_spec m 0) as [->|Hm0]; [by rewrite Z.add_0_r|].
  rewrite Z.add_mod_idemp_l by done. f_equal. lia.
Qed.

Lemma times_signed_nonneg signers a : 0 <= times_signed signers a.
Proof.
  induction signers as [|b l IH]; [done|]. rewrite times_signed_cons. destruct (String.eqb b a); lia.
Qed.

Lemma bumped_cons addr signers k1 k2 k3 :
  bumped [addr] k1 k2 -> bumped signers k2 k3 -> bumped (addr :: signers) k1 k3.
Proof.
  intros H1 H2 a acc E. destruct (H1 a acc E) as (acc2 & E2 & Hq2 & Hn2).
  destruct (H2 a acc2 E2) as (acc3 & E3 & Hq3 & Hn3). exists acc3. split; [done|]. split; [|congruence].
  rewrite Hq3, Hq2, increments_by_add by apply times_signed_nonneg. by rewrite !times_signed_cons, Z.add_0_r.
Qed.

Lemma increment_all signers u (a a' : AuthState K) :
  iterM increment_one signers a = (Ok u, a') -> bumped signers (auth_accounts a) (auth_accounts a').
Proof.
  unfold iterM. revert a u. generalize tt. induction signers as [|addr signers IH]; intros v a u E; cbn in E; go_inv.
  - intros b acc Eb. by exists acc.
  - apply increment_one_Ok in Hv. eapply bumped_cons; [exact Hv|]. by eapply IH.
Qed.

Lemma increments_own : increments as_sig_tx (IncrementSequenceDecorator (T:=T) (O:=O) as_sig_tx).
Proof.
  intros next ctx tx simulate s c s' E. unfold IncrementSequenceDecorator in E.
  destruct (as_sig_tx tx) as [sigTx|] eqn:Et; [|done]. go_inv. apply on_auth_Ok in Hv as (a & Hv & ->).
  eexists ctx, _. split; [exact E|]. split; [done|]. exists sigTx. split; [done|]. by eapply increment_all.
Qed.

(** Keys belong to their accounts: outside of simulations the decorator
    that stores the keys of a transaction only gives an account a key whose
    address is the account's, and never replaces a key. *)
Theorem stored_keys_match next ctx tx (s : S) c s' :
  SetPubKeyDecorator as_sig_tx key_address multisig_Marshal next ctx tx false s = (Ok c, s') ->
  keyed (accounts_of s) ->
  exists s1, next ctx tx false s1 = (Ok c, s') /\ keyed (accounts_of s1) /\ keys_kept (accounts_of s) (accounts_of s1).
Proof. intros E Hk. apply SetPubKey_run in E as (s1 & E & H1 & H2 & H3). eauto. Qed.

Lemma count_nil_key params n : 0 <= n -> n + 1 <= TxSigLimit params < two64 -> count_keys params n None = Ok (n + 1).
Proof.
  intros H0 H1. unfold count_keys. rewrite to_uint64_id by (unfold is_uint64; lia).
  by rewrite (proj2 (Z.ltb_ge _ _)) by lia.
Qed.

(** The limit on signatures looks only at the keys that come with the
    transaction: a key that is left out, because the account has it, counts as
    one, however many keys a multisignature account has. *)
Theorem omitted_keys_count_one next ctx tx simulate (s : S) sigTx pubkeys :
  as_sig_tx tx = Some sigTx -> GetPubKeys sigTx = Ok pubkeys -> Forall (eq None) pubkeys ->
  Z.of_nat (length pubkeys) <= TxSigLimit (auth_params (accounts_of s)) < two64 ->
  ValidateSigCountDecorator as_sig_tx next ctx tx simulate s = next ctx tx simulate s.
Proof.
  intros Et Ep HF Hl. unfold ValidateSigCountDecorator. rewrite Et.
  erewrite st_bind_step by reflexivity. rewrite Ep. erewrite st_bind_step by reflexivity.
  assert (Hc : forall n, 0 <= n -> n + Z.of_nat (length pubkeys) <= TxSigLimit (auth_params (accounts_of s)) ->
    foldM (count_keys (auth_params (accounts_of s))) pubkeys n = Ok (n + Z.of_nat (length pubkeys))).
  { clear Ep. induction HF as [|pk pubkeys <- HF IH]; intros n H0 Hn; cbn [foldM length] in *; [by rewrite Z.add_0_r|].
    rewrite count_nil_key by lia. cbn. etrans; [apply IH; lia|]. f_equal. lia. }
  rewrite Hc by lia. by erewrite st_bind_step by reflexivity.
Qed.

End own_decorators.

(** ** What signatures cost *)

Section PubKey_induction.
Context (P : PubKey -> Prop).
Context (Hed : forall k, P (Ed25519Key k)) (Hk1 : forall k, P (Secp256k1Key k)) (Hr1 : forall k, P (Secp256r1Key k)).
Context (Hamino : forall n keys, Forall P keys -> P (LegacyAminoKey n keys)).
Context (Hmulti : forall keys, Forall P keys -> P (MultisigKey keys)) (Hother : forall t, P (UnknownKey t)).

Fixpoint PubKey_nested_ind (pk : PubKey) : P pk :=
  match pk with
  | Ed25519Key k => Hed k
  | Secp256k1Key k => Hk1 k
  | Secp256r1Key k => Hr1 k
  | LegacyAminoKey n keys =>
      Hamino n keys ((fix go (l : list PubKey) : Forall P l :=
        match l with
        | [] => List.Forall_nil P
        | k :: l => List.Forall_cons P k l (PubKey_nested_ind k) (go l)
        end) keys)
  | MultisigKey keys =>
      Hmulti keys ((fix go (l : list PubKey) : Forall P l :=
        match l with
        | [] => List.Forall_nil P
        | k :: l => List.Forall_cons P k l (PubKey_nested_ind k) (go l)
        end) keys)
  | UnknownKey t => Hother t
  end.

End PubKey_induction.

(** Only the SDK's kind of multisignature keys. *)
Fixpoint sdk_key (pk : PubKey) : bool :=
  match pk with
  | LegacyAminoKey _ keys => forallb sdk_key keys
  | MultisigKey _ => false
  | _ => true
  end.

Section gas_facts.
Context {G : GasMeters} {GL : GasMetersLaws G} (params : AuthParams).

Lemma CountSubKeys_amino n keys : CountSubKeys (LegacyAminoKey n keys) = sumZ CountSubKeys keys.
Proof.
  cbn. enough (forall z, foldl (fun numKeys subkey => numKeys + CountSubKeys subkey) z keys = z + sumZ CountSubKeys keys)
    as H by apply H.
  induction keys as [|k keys IH]; intros z; cbn; [unfold sumZ; cbn; lia|]. rewrite IH, sumZ_cons. lia.
Qed.

(** From [m] to [m'] at most [bound] verifications were paid, of the kinds that
    are supported. *)
Definition paid (bound : Z) (m m' : Meter) : Prop :=
  exists k1 r1, 0 <= k1 /\ 0 <= r1 /\ k1 + r1 <= bound /\
    gas_consumed m' = gas_consumed m + k1 * SigVerifyCostSecp256k1 params + r1 * SigVerifyCostSecp256r1 params.

Lemma paid_trans b1 b2 m1 m2 m3 : paid b1 m1 m2 -> paid b2 m2 m3 -> paid (b1 + b2) m1 m3.
Proof.
  intros (k & r & ? & ? & ? & E) (k' & r' & ? & ? & ? & E'). exists (k + k'), (r + r'). rewrite E', E. lia.
Qed.

Lemma paid_weaken b b' m m' : paid b m m' -> b <= b' -> paid b' m m'.
Proof. intros (k & r & ? & ? & ? & E) Hle. exists k, r. lia. Qed.

Lemma paid_refl b m : 0 <= b -> paid b m m.
Proof. exists 0, 0. lia. Qed.

Lemma meter_ConsumeGas_Ok g u m m' : meter_ConsumeGas g m = (Ok u, m') -> gas_consumed m' = gas_consumed m + g.
Proof.
  unfold meter_ConsumeGas. destruct (consume_gas g m) as [[] m1] eqn:E; intros H; simplify_eq. by apply consume_ok in E.
Qed.

Lemma CountSubKeys_nonneg pk : 0 <= CountSubKeys pk.
Proof.
  induction pk using PubKey_nested_ind; try (cbn; lia). rewrite CountSubKeys_amino.
  induction H as [|k keys Hk H IH]; [done|]. rewrite sumZ_cons. lia.
Qed.

(** The loop over the bits from [a] on pays for each key at most once. *)
Lemma consume_bits_paid keys bits signatures n a sigIndex r m m' :
  Forall (fun k => forall data u m m', consume_for_key params k data m = (Ok u, m') -> paid (CountSubKeys k) m m') keys ->
  foldM (fun sigIndex i =>
    if negb (GetIndex bits i) then mret sigIndex
    else
      consumer ← lift (index (map (consume_for_key params) keys) i);
      data ← lift (index signatures sigIndex);
      consumer data;;
      mret (Datatypes.S sigIndex)) (seq a n) sigIndex m = (Ok r, m') ->
  paid (sumZ CountSubKeys (drop a keys)) m m'.
Proof.
  intros HF. assert (Hall : forall l, 0 <= sumZ CountSubKeys l).
  { intros l. induction l as [|k l IH]; [done|]. rewrite sumZ_cons. pose proof (CountSubKeys_nonneg k). lia. }
  revert a sigIndex m. induction n as [|n IH]; intros a sigIndex m E; cbn [seq foldM] in E; go_inv; [by apply paid_refl|].
  apply IH in E. assert (Hdrop : forall k, keys !! a = Some k -> drop a keys = k :: drop (Datatypes.S a) keys).
  { intros k Hk. by apply drop_S. }
  destruct (negb (GetIndex bits a)); go_inv.
  - eapply paid_weaken; [exact E|]. destruct (keys !! a) as [k|] eqn:Ek.
    + rewrite (Hdrop k eq_refl), sumZ_cons. pose proof (CountSubKeys_nonneg k). lia.
    + apply lookup_ge_None in Ek. by rewrite !drop_ge by lia.
  - unfold index in Hv0. rewrite list_lookup_fmap in Hv0. destruct (keys !! a) as [k|] eqn:Ek; [|done]. cbn in Hv0.
    simplify_eq. rewrite (Hdrop k eq_refl), sumZ_cons. eapply paid_trans; [|exact E].
    rewrite Forall_forall in HF. eapply HF; [by eapply list_elem_of_lookup_2|exact Hv2].
Qed.

(** What signatures cost: charging for a signature succeeds only for
    supported keys, and then exactly a number of secp256k1 and of secp256r1
    verifications were paid, together at most as many as the key counts. *)
Theorem signature_gas sig pk m m' u :
  SigPubKey sig = Some pk -> sdk_key pk = true ->
  DefaultSigVerificationGasConsumer sig params m = (Ok u, m') ->
  exists k1 r1, 0 <= k1 /\ 0 <= r1 /\ k1 + r1 <= CountSubKeys pk /\
    gas_consumed m' = gas_consumed m + k1 * SigVerifyCostSecp256k1 params + r1 * SigVerifyCostSecp256r1 params.
Proof.
  unfold DefaultSigVerificationGasConsumer. intros ->. generalize (SigData sig). clear sig. intros data.
  change (sdk_key pk = true -> consume_for_key params pk data m = (Ok u, m') -> paid (CountSubKeys pk) m m').
  revert data m m' u. induction pk using PubKey_nested_ind; intros data m m' u Hs E; cbn in E; go_inv; try done.
  - apply meter_ConsumeGas_Ok in E. exists 1, 0. cbn [CountSubKeys]. lia.
  - apply meter_ConsumeGas_Ok in E. exists 0, 1. cbn [CountSubKeys]. lia.
  - destruct data as [| |bits signatures]; try done. unfold consume_signatures in E. go_inv.
    rewrite CountSubKeys_amino. apply consume_bits_paid in Hv; [done|].
    cbn in Hs. rewrite forallb_forall in Hs. rewrite Forall_forall in H |- *.
    intros k Hk d u' m1 m1' E. eapply H; [done| |exact E]. by apply Hs, list_elem_of_In.
Qed.

End gas_facts.

Lemma multisignature_gas {G : GasMeters} n keys bits signatures params accSeq :
  DefaultSigVerificationGasConsumer
    (mkSig (Some (LegacyAminoKey n keys)) (MultiSignatureData bits signatures) accSeq) params
  = ConsumeMultisignatureVerificationGas bits signatures keys params accSeq.
Proof. reflexivity. Qed.

(** Sequences are always compared: also when all signers use the legacy
    amino mode, in which the signature itself covers the sequence, another
    sequence than the account's is an error. *)
Theorem legacy_amino_sequence_checked {A : Bech32} {G : GasMeters} {K : Type} {AK : AccountKeeper K} {UK : AuthKeeper K}
    verify ctx tx signers i sig addr acc pk (a : AuthState K) :
  OnlyLegacyAminoSigners (SigData sig) = true -> signers !! i = Some addr ->
  get_account (auth_accounts a) addr = Some acc -> get_pubkey acc = Some pk -> SigSequence sig <> get_sequence acc ->
  verify_one verify ctx tx false signers (i, sig) a = (Err ErrWrongSequence, a).
Proof.
  intros _ Hi Ha Hp Hne. unfold verify_one, index, GetSignerAcc, mbind, st_bind, lift, gets. rewrite Hi, Ha. cbn.
  rewrite Hp. cbn. by rewrite (proj2 (Z.eqb_neq _ _) Hne).
Qed.

Module SigExample.

#[local] Existing Instance StoreExample.one_validator.
#[local] Existing Instance ref_math.
#[local] Existing Instance ref_coins.
#[local] Existing Instance ref_bech32.

Record account : Type := mkAccount { adr : string; pub : option PubKey; sequence : Z; number : Z }.

#[local] Instance accounts0 : AccountKeeper (gmap string account) := {|
  Account := account;
  account_address := adr;
  get_account k a := match k !! a with
                     | Some acc => Some (mkAccount a (pub acc) (sequence acc) (number acc))
                     | None => None
                     end;
  new_account k a := (mkAccount a None 0 0, k);
  set_account k acc := <[adr acc := acc]> k |}.

#[local] Instance accounts0_laws : AccountKeeperLaws (gmap string account) accounts0.
Proof.
  split; cbn; try done.
  - intros k [a p q n]. by rewrite lookup_insert_eq.
  - intros k acc b Hne. by rewrite lookup_insert_ne by done.
  - intros k a acc. destruct (k !! a); [|done]. by intros [= <-].
Qed.

#[local] Instance auth0 : AuthKeeper (gmap string account) := {|
  get_pubkey := pub;
  get_sequence := sequence;
  get_account_number := number;
  set_pubkey acc pk := Ok (mkAccount (adr acc) (Some pk) (sequence acc) (number acc));
  set_sequence acc n := Ok (mkAccount (adr acc) (pub acc) n (number acc));
  auth_params _ := mkAuthParams 7 590 1000 500 |}.

#[local] Instance auth0_laws : AuthKeeperLaws (gmap string account) auth0.
Proof. split; cbn; intros acc x acc' [= <-]; done. Qed.

#[local] Instance meters0 : GasMeters := {|
  Meter := Z * Z;
  NewGasMeter l := (l, 0);
  gas_limit := fst;
  gas_consumed := snd;
  is_out_of_gas m := m.1 <=? m.2;
  consume_gas g m := (if m.1 <? m.2 + g then GasOut else GasOk, (m.1, m.2 + g)) |}.

#[local] Instance meters0_laws : GasMetersLaws meters0.
Proof.
  refine {| limited := fun _ : Meter => True |}; cbn; try done.
  - intros g m Hg. lia.
  - intros g m m' E. by simplify_eq.
  - intros g m m' E _. destruct (Z.ltb_spec m.1 (m.2 + g)); [done|]. simplify_eq. cbn. lia.
  - intros g m _ _ Hle _. by rewrite (proj2 (Z.ltb_ge _ _)) by lia.
Qed.

(** A multisignature account with three keys, of which the first and the last
    sign, and a simple account. *)
Definition key (s : string) : PubKey := Secp256k1Key s.
Definition joint : PubKey := LegacyAminoKey 2 [key "a"; key "b"; Secp256r1Key "c"].
Definition address0 (pk : PubKey) : AccAddress :=
  match pk with
  | Secp256k1Key k => k
  | LegacyAminoKey _ _ => "joint"
  | _ => "other"
  end.

Definition bits0 : CompactBitArray := mkBits 3 (fun i => negb (Nat.eqb i 1)).
Definition good : SignatureData := SingleSignatureData SIGN_MODE_LEGACY_AMINO_JSON "good".
Definition sigs0 : list SignatureV2 :=
  [mkSig None good 4; mkSig None (MultiSignatureData bits0 [good; good]) 9].
Definition sigTx0 : SigTx := mkSigTx (Ok [Some (key "alice"); None]) ["alice"; "joint"] (Ok sigs0).

Definition tx0 : Tx := IsFeeTx (mkFeeTx [mkCoin "uusd" 100000] 200000 []).
Definition as_sig0 (tx : Tx) : option SigTx := Some sigTx0.
Definition verify0 (pk : PubKey) (d : SignerData) (data : SignatureData) (tx : Tx) : res unit :=
  fail_if (negb (OnlyLegacyAminoSigners data)) ErrUnauthorized.
Definition marshal0 (l : list string) : res string := Ok (foldr String.append "" l).

Abbreviation T0 := (Treasury.state unit unit unit).
Abbreviation O0 := (unit * OracleStore.store)%type.
Abbreviation S0 := (ante_state (T0 * AuthState (gmap string account)) O0).

Definition same {H : Type} (next : H) : H := next.

Definition sdk0 : SdkDecorators (K:=gmap string account) (T:=T0) (O:=O0) :=
  mkSdkDecorators same same same same same same same (SetPubKeyDecorator as_sig0 address0 marshal0)
    (ValidateSigCountDecorator as_sig0) (SigGasConsumeDecorator as_sig0) (IncrementSequenceDecorator as_sig0) same
    DefaultSigVerificationGasConsumer.

Lemma quiet_same : quiet (K:=gmap string account) (T:=T0) (O:=O0) same.
Proof. intros next ctx tx simulate s c s' E. exists ctx, s. split; [done|]. split; [done|]. reflexivity. Qed.

#[local] Instance sdk0_laws : SdkDecoratorsLaws as_sig0 sdk0.
Proof.
  split; cbn.
  - repeat (constructor; [first [apply quiet_same|apply quiet_set_pub_key|apply quiet_sig_count]|]). constructor.
  - intros f. apply quiet_sig_gas.
  - apply increments_own.
Qed.

Definition options0 : HandlerOptions := mkOptions true true true true (Some verify0) None.

Definition accounts_at_start : gmap string account :=
  {["alice" := mkAccount "alice" None 4 1; "joint" := mkAccount "joint" (Some joint) 9 2]}.

Definition state0 : S0 :=
  mkAnteState (AnteExample.treasury0, mkAuth accounts_at_start (1000000, 0) []) AnteExample.oracle0 NewSpamMaps.

Definition handler0 : AnteCtx -> Tx -> bool -> st S0 AnteCtx :=
  match NewAnteHandler as_sig0 sdk0 options0 with
  | Ok h => h
  | _ => fun ctx _ _ => mret ctx
  end.

Lemma handler0_eq : NewAnteHandler as_sig0 sdk0 options0 = Ok handler0.
Proof. reflexivity. Qed.

Definition run0 : res AnteCtx * S0 := handler0 AnteExample.ctx0 tx0 false state0.

Lemma run0_ok : run0 = (Ok AnteExample.ctx0, run0.2).
Proof. rewrite (surjective_pairing run0) at 1. apply (f_equal (fun r => (r, run0.2))). vm_compute. reflexivity. Qed.


Lemma sigs0_bounded : Forall (fun sig => 0 <= SigSequence sig < two64 - Z.of_nat (length sigs0)) sigs0.
Proof. repeat constructor; vm_compute; congruence. Qed.

Lemma no_earlier_refl : no_earlier (accounts_of run0.2) (accounts_of run0.2).
Proof. intros a acc E. exists acc. split; [done|]. lia. Qed.

Lemma no_replay_witness :
  ~ exists c s', handler0 AnteExample.ctx0 tx0 false run0.2 = (Ok c, s').
Proof.
  intros (c & s' & E).
  exact (no_replay as_sig0 sdk0 options0 handler0 AnteExample.ctx0 tx0 false state0 _ _ AnteExample.ctx0 false run0.2 c s'
    sigTx0 sigs0 handler0_eq run0_ok eq_refl ltac:(discriminate) eq_refl sigs0_bounded no_earlier_refl E).
Defined.

Definition stop (ctx : AnteCtx) (_ : Tx) (_ : bool) : st S0 AnteCtx := mret ctx.

Definition run_keys : res AnteCtx * S0 :=
  SetPubKeyDecorator as_sig0 address0 marshal0 stop AnteExample.ctx0 tx0 false state0.

Lemma run_keys_ok : run_keys = (Ok AnteExample.ctx0, run_keys.2).
Proof.
  rewrite (surjective_pairing run_keys) at 1. apply (f_equal (fun r => (r, run_keys.2))). vm_compute. reflexivity.
Qed.

Lemma start_keyed : keyed address0 (accounts_of state0).
Proof.
  intros a acc pk E Hp. cbn in E.
  destruct (accounts_at_start !! a) as [acc0|] eqn:Ea; [|done]. simplify_eq. cbn in Hp.
  unfold accounts_at_start in Ea. apply lookup_insert_Some in Ea as [[<- <-]|[_ Ea]]; [done|].
  apply lookup_singleton_Some in Ea as [<- <-]. cbn in Hp. by simplify_eq.
Qed.

Lemma stored_keys_match_witness :
  exists s1, stop AnteExample.ctx0 tx0 false s1 = (Ok AnteExample.ctx0, run_keys.2) /\
    keyed address0 (accounts_of s1) /\ keys_kept (accounts_of state0) (accounts_of s1).
Proof.
  exact (stored_keys_match as_sig0 address0 marshal0 stop AnteExample.ctx0 tx0 state0 _ _ run_keys_ok start_keyed).
Defined.

(** The joint account counts as one although it has three keys. *)
Definition bare_sig (tx : Tx) : option SigTx := Some (mkSigTx (Ok [None]) ["joint"] (Ok [])).

Lemma omitted_keys_count_one_witness :
  ValidateSigCountDecorator bare_sig stop AnteExample.ctx0 tx0 false state0 = stop AnteExample.ctx0 tx0 false state0.
Proof.
  apply (omitted_keys_count_one bare_sig stop AnteExample.ctx0 tx0 false state0
    (mkSigTx (Ok [None]) ["joint"] (Ok [])) [None] eq_refl eq_refl (List.Forall_cons _ _ _ eq_refl (List.Forall_nil _))).
  vm_compute. split; congruence.
Defined.

Lemma signature_gas_witness :
  exists k1 r1, 0 <= k1 /\ 0 <= r1 /\ k1 + r1 <= 3 /\ 1500 = 0 + k1 * 1000 + r1 * 500.
Proof.
  exact (signature_gas (mkAuthParams 7 590 1000 500)
    (mkSig (Some joint) (MultiSignatureData bits0 [good; good]) 9) joint (1000000, 0) (1000000, 1500) tt
    eq_refl eq_refl eq_refl).
Defined.

Lemma legacy_amino_sequence_checked_witness :
  verify_one verify0 AnteExample.ctx0 tx0 false ["joint"] (0%nat, mkSig None good 8) (auth state0)
  = (Err ErrWrongSequence, auth state0).
Proof.
  exact (legacy_amino_sequence_checked verify0 AnteExample.ctx0 tx0 ["joint"] 0 (mkSig None good 8) "joint"
    (mkAccount "joint" (Some joint) 9 2) joint (auth state0) eq_refl eq_refl eq_refl eq_refl ltac:(discriminate)).
Defined.

End SigExample.
