(* ===== verification/Snapshot.v ===== *)
(** * Balance snapshots of the genesis exporter ([src/app/export/util])

    A snapshot maps addresses to lists of balances.  Models [types.go], the
    functions of [export_util.go] on maps, and [contract_blacklist.go].  A
    balance is an [sdk.Int], which may be nil: [None].  The maps are shared and
    updated in place; since a panic ends the export, an operation returns the
    updated map. *)

From Stdlib Require Import ZArith Lia Bool.
From stdpp Require Import base strings list gmap sorting.
From S2P Require Import Prelude Loops Sdk SdkRef.
Local Open Scope Z_scope.

(** ** Data ([types.go]) *)

Record SnapshotBalance : Type := mkSB { Denom : string; Balance : option Int }.

#[global] Instance SnapshotBalance_eq_dec : EqDecision SnapshotBalance.
Proof. solve_decision. Defined.

Abbreviation BalanceMap := (gmap string (option Int)) (only parsing).
Abbreviation SnapshotBalanceAggregateMap := (gmap string (list SnapshotBalance)) (only parsing).
Abbreviation Blacklist := (gmap string (list string)) (only parsing).

(** Reading an absent key gives the zero value: no balances, a nil amount. *)
Definition balances_of (s : SnapshotBalanceAggregateMap) (addr : string) : list SnapshotBalance :=
  default [] (s !! addr).
Definition amount_in (m : BalanceMap) (k : string) : option Int := default None (m !! k).

Definition is_nil (a : option Int) : bool := match a with None => true | Some _ => false end.

(** ** Blacklists *)

Definition RegisterAddress (denom address : string) (bl : Blacklist) : Blacklist :=
  <[denom := default [] (bl !! denom) ++ [address]]> bl.
Definition GetAddressesByDenom (denom : string) (bl : Blacklist) : list string :=
  default [] (bl !! denom).
Definition GetAddressesByDenomMap (denom : string) (bl : Blacklist) : gmap string bool :=
  foldl (fun m addr => <[addr := true]> m) ∅ (GetAddressesByDenom denom bl).

Section snapshot.
Context {M : SdkMath} {R : GoRange}.

(** [sdk.Int.Add]: a nil operand is a nil dereference. *)
Definition nint_add (a b : option Int) : res (option Int) :=
  match a, b with
  | Some x, Some y => z ← int_add x y; Ok (Some z)
  | _, _ => Panic
  end.

(** ** Methods of the snapshot *)

(** [AppendOrAddBalance]: the loop over the balances of the address. *)
Fixpoint add_into (l : list SnapshotBalance) (newBalance : SnapshotBalance)
    : res (list SnapshotBalance) :=
  match l with
  | [] => Ok [newBalance]
  | balance :: l' =>
      if String.eqb (Denom balance) (Denom newBalance) && negb (is_nil (Balance newBalance)) then
        if is_nil (Balance balance) then Ok (mkSB (Denom balance) (Balance newBalance) :: l')
        else
          sum ← nint_add (Balance balance) (Balance newBalance);
          Ok (mkSB (Denom balance) sum :: l')
      else
        l'' ← add_into l' newBalance;
        Ok (balance :: l'')
  end.

Definition AppendOrAddBalance (addr : string) (s : SnapshotBalanceAggregateMap)
    (newBalance : SnapshotBalance) : res SnapshotBalanceAggregateMap :=
  l ← add_into (balances_of s addr) newBalance;
  Ok (<[addr := l]> s).

(** [MergeSnapshots]. *)
Definition merge_entry (s3 : SnapshotBalanceAggregateMap) (e : string * list SnapshotBalance)
    : res SnapshotBalanceAggregateMap :=
  foldM (AppendOrAddBalance e.1) e.2 s3.

Definition merge_into (s3 s : SnapshotBalanceAggregateMap) : res SnapshotBalanceAggregateMap :=
  foldM merge_entry (range 20 s) s3.

Definition MergeSnapshots (ss : list SnapshotBalanceAggregateMap) : res SnapshotBalanceAggregateMap :=
  foldM merge_into ss ∅.

(** [GetAddrBalance]. *)
Definition GetAddrBalance (s : SnapshotBalanceAggregateMap) (addr denom : string) : res (option Int) :=
  foldM (fun sum balance =>
    if String.eqb (Denom balance) denom then nint_add sum (Balance balance) else Ok sum)
    (balances_of s addr) (Some 0).

(** [SumOfDenom]. *)
Definition sum_balance (denom : string) (sum : option Int) (balance : SnapshotBalance) : res (option Int) :=
  if negb (is_nil (Balance balance)) && String.eqb (Denom balance) denom
  then nint_add sum (Balance balance) else Ok sum.

Definition SumOfDenom (s : SnapshotBalanceAggregateMap) (denom : string) : res (option Int) :=
  foldM (fun sum e => foldM (sum_balance denom) e.2 sum) (range 21 s) (Some 0).

(** [snapshot[a] = append(snapshot[a], ...)] for the entries of a map, and
    [Add]. *)
Definition append_all (site : nat) (denom : string) (balances : BalanceMap) (s : SnapshotBalanceAggregateMap)
    : SnapshotBalanceAggregateMap :=
  foldl (fun s e => <[e.1 := balances_of s e.1 ++ [mkSB denom e.2]]> s) s (range site balances).

Definition Add (balances : BalanceMap) (denom : string) (s : SnapshotBalanceAggregateMap)
    : SnapshotBalanceAggregateMap :=
  append_all 22 denom balances s.

(** [FilterByDenom]. *)
Definition filter_balance (denom w : string) (filtered : BalanceMap) (sb : SnapshotBalance)
    : res BalanceMap :=
  if String.eqb (Denom sb) denom && negb (is_nil (Balance sb)) then
    if is_nil (amount_in filtered w) then Ok (<[w := Balance sb]> filtered)
    else
      sum ← nint_add (amount_in filtered w) (Balance sb);
      Ok (<[w := sum]> filtered)
  else Ok filtered.

Definition FilterByDenom (s : SnapshotBalanceAggregateMap) (denom : string) : res BalanceMap :=
  foldM (fun filtered e => foldM (filter_balance denom e.1) e.2 filtered) (range 23 s) ∅.

(** [PickDenomIntoBalanceMap]. *)
Definition pick_entry (denom : string) (v : BalanceMap) (e : string * list SnapshotBalance) : BalanceMap :=
  foldl (fun v holding => if String.eqb (Denom holding) denom then <[e.1 := Balance holding]> v else v)
    v e.2.

Definition PickDenomIntoBalanceMap (s : SnapshotBalanceAggregateMap) (denom : string) : BalanceMap :=
  foldl (pick_entry denom) ∅ (range 24 s).

(** [ApplyBlackList]: [IsZero] of a nil amount is a nil dereference. *)
Fixpoint zero_denom (denom : string) (l : list SnapshotBalance) : res (list SnapshotBalance) :=
  match l with
  | [] => Ok []
  | sb :: l' =>
      sb' ← (if String.eqb (Denom sb) denom then
               match Balance sb with
               | None => Panic
               | Some b => Ok (if b =? 0 then sb else mkSB (Denom sb) (Some 0))
               end
             else Ok sb);
      l'' ← zero_denom denom l';
      Ok (sb' :: l'')
  end.

Definition blacklist_address (denom : string) (s : SnapshotBalanceAggregateMap) (addr : string)
    : res SnapshotBalanceAggregateMap :=
  match s !! addr with
  | None => Ok s
  | Some l => l' ← zero_denom denom l; Ok (<[addr := l']> s)
  end.

Definition ApplyBlackList (s : SnapshotBalanceAggregateMap) (bl : Blacklist)
    : res SnapshotBalanceAggregateMap :=
  foldM (fun s e => foldM (blacklist_address e.1) e.2 s) (range 25 bl) s.

(** [ExportToBalances]: the bank's genesis balances. *)
Definition ExportToBalances (s : SnapshotBalanceAggregateMap)
    : res (list (string * list SnapshotBalance)) :=
  merged ← MergeSnapshots [s];
  Ok (range 26 merged).

(** ** Maps of amounts ([export_util.go]) *)

(** [MergeMaps]. *)
Definition merge_amount (newMap : BalanceMap) (e : string * option Int) : res BalanceMap :=
  let newMap := if is_nil (amount_in newMap e.1) then <[e.1 := Some 0]> newMap else newMap in
  sum ← nint_add (amount_in newMap e.1) e.2;
  Ok (<[e.1 := sum]> newMap).

Definition MergeMaps (m0 : BalanceMap) (ms : list BalanceMap) : res BalanceMap :=
  foldM (fun newMap m => foldM merge_amount (range 28 m) newMap) ms
    (foldl (fun newMap e => <[e.1 := e.2]> newMap) ∅ (range 27 m0)).

(** [Sum]. *)
Definition Sum (m : BalanceMap) : res (option Int) :=
  foldM (fun sum e => if negb (is_nil e.2) then nint_add sum e.2 else Ok sum) (range 29 m) (Some 0).

(** [AlmostEqual]; the text of the error prints the relative difference. *)
Definition AlmostEqual (a b : option Int) (epsilon : Int) : res unit :=
  match a, b with
  | Some a, Some b =>
      diff ← int_sub a b;
      _ ← (if a =? 0 then Ok OneDec else dec_quo_int (NewDec diff) a);
      fail_if (negb (Z.abs diff <? epsilon)) (Errorf "difference")
  | _, _ => Err (Errorf "inputs nil")
  end.

(** [Xor]: the entries in which two maps differ; [Equal] of a nil argument is a
    nil dereference. *)
Definition differs (a b : option Int) : res bool :=
  match a, b with
  | None, _ => Ok true
  | Some x, Some y => Ok (negb (x =? y))
  | Some _, None => Panic
  end.

Definition append_at (k : string) (v : option Int) (b3 : gmap string (list (option Int)))
    : gmap string (list (option Int)) :=
  <[k := default [] (b3 !! k) ++ [v]]> b3.

Definition Xor (b1 b2 : BalanceMap) : res (gmap string (list (option Int))) :=
  b3 ← foldM (fun b3 e =>
    d ← differs (amount_in b2 e.1) e.2;
    Ok (if (d : bool) then append_at e.1 e.2 b3 else b3)) (range 30 b1) ∅;
  foldM (fun b3 e =>
    d ← differs (amount_in b1 e.1) e.2;
    Ok (if (d : bool) then
          append_at e.1 e.2 (if (length (default [] (b3 !! e.1)) =? 0)%nat then append_at e.1 None b3 else b3)
        else b3)) (range 31 b2) b3.

(** [AssertZeroSupply]. *)
Definition AssertZeroSupply (snapshot : SnapshotBalanceAggregateMap) (denom : string) : res unit :=
  filtered ← FilterByDenom snapshot denom;
  s ← Sum filtered;
  match s with
  | None => Panic
  | Some s => panic_if (negb (s =? 0))
  end.

(** [AssertCw20Supply]; [TotalSupply] is what the query left in the variable,
    nil when it failed. *)
Definition AssertCw20Supply (TotalSupply : option Int) (holdings : BalanceMap) : res unit :=
  s ← Sum holdings;
  AlmostEqual TotalSupply s 2000000.

(** [AssertNativeSupply]; [supply] is the answer of the bank's query. *)
Definition AssertNativeSupply (supply : res (option Int)) (holdings : BalanceMap) : res unit :=
  supply ← supply;
  s ← Sum holdings;
  AlmostEqual supply s 2000000;;
  Panic.

(** ** Contracts ([contract_blacklist.go]) *)

Definition contractWhitelist : gmap string bool :=
  list_to_map
    [("terra10nmmwe8r3g99a9newtqa7a75xfgs2e8z87r2sf", true);
     ("terra1gdxfmwcfyrqv8uenllqn7mh290v7dk7x5qnz03", true);
     ("terra18hf7422vyyc447uh3wpzm50wzr54welhxlytfg", true);
     ("terra1t74f2ahytt9uje3td2lnyv3fkay2jj2akj7ytv", true);
     ("terra1qwzdua7928ugklpytdzhua92gnkxp9z4vhelq8", true)].

Definition RemoveContractBalances {V} (snapshot : SnapshotBalanceAggregateMap) (contractMap : gmap string V)
    : SnapshotBalanceAggregateMap :=
  foldl (fun s e =>
    match contractWhitelist !! e.1 with
    | Some _ => s
    | None => delete e.1 s
    end) snapshot (range 32 contractMap).

End snapshot.

#[global] Arguments nint_add {M} a b : simpl never.
#[global] Arguments AlmostEqual {M} a b epsilon : simpl never.
#[global] Arguments contractWhitelist : simpl never.

(** ** What an address holds *)

Definition held_list (l : list SnapshotBalance) (d : string) : Z :=
  sumZ (fun b => if String.eqb (Denom b) d then default 0 (Balance b) else 0) l.

(** What the snapshot holds for an address, and for all addresses. *)
Definition held (s : SnapshotBalanceAggregateMap) (a d : string) : Z := held_list (balances_of s a) d.

Definition total (s : SnapshotBalanceAggregateMap) (d : string) : Z :=
  sumZ (fun e => held_list e.2 d) (map_to_list s).

(** No balance of the denomination, not even of zero. *)
Definition free_of (d : string) (s : SnapshotBalanceAggregateMap) : Prop :=
  forall a, d ∉ Denom <$> balances_of s a.

(** No nil balances; one balance per denomination. *)
Definition solid (s : SnapshotBalanceAggregateMap) : Prop :=
  map_Forall (fun _ l => Forall (fun b => Balance b <> None) l) s.
Definition collapsed (s : SnapshotBalanceAggregateMap) : Prop :=
  map_Forall (fun _ l => NoDup (Denom <$> l)) s.

Lemma free_of_empty d : free_of d ∅.
Proof. intros a. unfold balances_of. rewrite lookup_empty. apply not_elem_of_nil. Qed.

Lemma free_of_held d s a : free_of d s -> held s a d = 0.
Proof.
  intros Hs. specialize (Hs a). unfold held, held_list. induction (balances_of s a) as [|b l IH]; [done|].
  rewrite fmap_cons, not_elem_of_cons in Hs. destruct Hs as [Hb Hs]. rewrite sumZ_cons, IH by done.
  by rewrite (proj2 (String.eqb_neq _ _)) by congruence.
Qed.

Lemma held_list_app l1 l2 d : held_list (l1 ++ l2) d = held_list l1 d + held_list l2 d.
Proof. apply sumZ_app. Qed.

Lemma held_list_cons b l d :
  held_list (b :: l) d = (if String.eqb (Denom b) d then default 0 (Balance b) else 0) + held_list l d.
Proof. done. Qed.

(** Updating one address. *)
Lemma held_insert s a l a' d :
  held (<[a := l]> s) a' d = if String.eqb a a' then held_list l d else held s a' d.
Proof.
  unfold held, balances_of. destruct (String.eqb_spec a a') as [->|H].
  - by rewrite lookup_insert_eq.
  - by rewrite lookup_insert_ne.
Qed.

Lemma total_insert s a l d : total (<[a := l]> s) d = total s d - held s a d + held_list l d.
Proof.
  unfold total, held, balances_of. destruct (s !! a) as [l0|] eqn:E; cbn.
  - rewrite <- insert_delete_eq, map_to_list_insert by apply lookup_delete_eq.
    rewrite <- (insert_id s a l0 E) at 2.
    rewrite <- insert_delete_eq, (map_to_list_insert _ a l0) by apply lookup_delete_eq.
    rewrite !sumZ_cons. cbn. lia.
  - rewrite map_to_list_insert, sumZ_cons by done. cbn. change (held_list [] d) with 0. lia.
Qed.

Lemma held_delete s c a d : held (delete c s) a d = if String.eqb a c then 0 else held s a d.
Proof.
  unfold held, balances_of. destruct (String.eqb_spec a c) as [->|];
    [by rewrite lookup_delete_eq|by rewrite lookup_delete_ne].
Qed.

Lemma total_delete s c d : total (delete c s) d = total s d - held s c d.
Proof.
  destruct (s !! c) as [l|] eqn:E.
  - rewrite <- (insert_id s c l E) at 2. rewrite <- insert_delete_eq, total_insert, held_delete, String.eqb_refl.
    unfold held, balances_of. rewrite E. cbn. lia.
  - rewrite delete_id by done. unfold held, balances_of. rewrite E. cbn. change (held_list [] d) with 0. lia.
Qed.

(** Summing over a range of the map, with one address of interest. *)
Lemma sumZ_entries (m : SnapshotBalanceAggregateMap) l a d :
  l ≡ₚ map_to_list m ->
  sumZ (fun e => if String.eqb e.1 a then held_list e.2 d else 0) l = held m a d.
Proof.
  intros ->. unfold held, balances_of. revert a. induction m as [|k v m Hk IH] using map_ind; intros a.
  { rewrite map_to_list_empty, lookup_empty. done. }
  rewrite map_to_list_insert, sumZ_cons, IH by done. cbn.
  destruct (String.eqb_spec k a) as [->|Hne].
  - rewrite lookup_insert_eq, Hk. cbn. change (held_list [] d) with 0. lia.
  - rewrite lookup_insert_ne by done. lia.
Qed.

Definition blacklisted (bl : Blacklist) (a d : string) : Prop := a ∈ GetAddressesByDenom d bl.

#[global] Instance blacklisted_dec bl a d : Decision (blacklisted bl a d).
Proof. unfold blacklisted. apply _. Defined.

Lemma RegisterAddress_blacklisted d a bl a' d' :
  blacklisted (RegisterAddress d a bl) a' d' <-> blacklisted bl a' d' \/ (a' = a /\ d' = d).
Proof.
  unfold blacklisted, GetAddressesByDenom, RegisterAddress. destruct (decide (d = d')) as [->|].
  - rewrite lookup_insert_eq. cbn. rewrite elem_of_app, list_elem_of_singleton. tauto.
  - rewrite lookup_insert_ne by done. intuition congruence.
Qed.

Section snapshot_facts.
Context {M : SdkMath} {ML : SdkMathLaws M} {R : GoRange} {RL : GoRangeLaws R}.

Lemma nint_add_Ok a b c : nint_add a b = Ok c -> exists x y, a = Some x /\ b = Some y /\ c = Some (x + y).
Proof.
  unfold nint_add. destruct a as [x|], b as [y|]; try done. intros H. go_inv.
  rewrite int_add_spec in Hv. apply checked_Ok in Hv as [-> _]. eauto 6.
Qed.

Lemma nint_add_no_err a b : no_err (nint_add a b).
Proof.
  unfold nint_add. destruct a, b; try done. apply no_err_bind; [|done]. rewrite int_add_spec. auto with go.
Qed.

Hint Resolve nint_add_no_err : go.

(** *** [AppendOrAddBalance] *)

Lemma add_into_held l nb l' d :
  add_into l nb = Ok l' -> held_list l' d = held_list l d + held_list [nb] d.
Proof.
  revert l'. induction l as [|b l IH]; intros l' H; cbn in H.
  { injection H as <-. change (held_list [] d) with 0. lia. }
  destruct (String.eqb_spec (Denom b) (Denom nb)) as [E|E]; cbn in H.
  - destruct (is_nil (Balance nb)) eqn:Hn; cbn in H; go_inv.
    { rewrite (held_list_cons b), (IH _ Hv). rewrite (held_list_cons b l). lia. }
    destruct (is_nil (Balance b)) eqn:Hb; go_inv.
    + rewrite !held_list_cons. cbn. rewrite E. destruct (Balance b); [done|]. cbn.
      change (held_list [] d) with 0. destruct (String.eqb _ _); lia.
    + apply nint_add_Ok in Hv as (x & y & Hx & Hy & ->). rewrite !held_list_cons, Hx, Hy. cbn.
      rewrite E. change (held_list [] d) with 0. destruct (String.eqb _ _); lia.
  - go_inv. rewrite (held_list_cons b), (IH _ Hv), (held_list_cons b l). lia.
Qed.

Lemma add_into_no_err l nb : no_err (add_into l nb).
Proof. induction l as [|b l IH]; cbn; auto 8 with go. Qed.

Hint Resolve add_into_no_err : go.

(** Adding a balance that is not nil keeps the list without nil balances and
    with one balance per denomination. *)
Lemma add_into_denoms l nb l' :
  add_into l nb = Ok l' -> Balance nb <> None ->
  Forall (fun b => Balance b <> None) l -> NoDup (Denom <$> l) ->
  Forall (fun b => Balance b <> None) l' /\ NoDup (Denom <$> l') /\
  forall d, d ∈ Denom <$> l' -> d = Denom nb \/ d ∈ Denom <$> l.
Proof.
  intros H Hnb. revert l' H. induction l as [|b l IH]; intros l' H Hl Hnd; cbn in H.
  { injection H as <-. split; [by repeat constructor|]. split; [apply NoDup_singleton|set_solver]. }
  apply Forall_cons in Hl as [Hb Hl]. rewrite fmap_cons in Hnd. apply NoDup_cons in Hnd as [Hin Hnd].
  destruct (Balance nb) as [y|] eqn:Ey; [|done]. cbn in H. rewrite andb_true_r in H.
  destruct (String.eqb_spec (Denom b) (Denom nb)) as [E|E].
  - destruct (Balance b) as [x|]; [|done]. cbn in H. go_inv.
    apply nint_add_Ok in Hv as (? & ? & _ & _ & ->). split; [by constructor|]. cbn. split; [by apply NoDup_cons|]. set_solver.
  - go_inv. destruct (IH _ Hv Hl Hnd) as (H1 & H2 & H3). split; [by constructor|].
    cbn. split; [apply NoDup_cons; split; [|done]|set_solver].
    intros [?|?]%H3; congruence.
Qed.

Lemma AppendOrAddBalance_held a s nb s' a' d :
  AppendOrAddBalance a s nb = Ok s' ->
  held s' a' d = held s a' d + (if String.eqb a a' then held_list [nb] d else 0).
Proof.
  unfold AppendOrAddBalance. intros H. go_inv. rewrite held_insert.
  destruct (String.eqb_spec a a') as [->|]; [by apply add_into_held|lia].
Qed.

Lemma AppendOrAddBalance_total a s nb s' d :
  AppendOrAddBalance a s nb = Ok s' -> total s' d = total s d + held_list [nb] d.
Proof.
  unfold AppendOrAddBalance. intros H. go_inv. rewrite total_insert.
  rewrite (add_into_held _ _ _ d Hv). unfold held. lia.
Qed.

(** *** [MergeSnapshots] *)

Lemma merge_entry_held s3 e s' a d :
  merge_entry s3 e = Ok s' ->
  held s' a d = held s3 a d + (if String.eqb e.1 a then held_list e.2 d else 0) /\
  total s' d = total s3 d + held_list e.2 d.
Proof.
  destruct e as [k l]. unfold merge_entry. cbn. revert s3.
  induction l as [|b l IH]; intros s3 H; cbn in H; go_inv.
  { change (held_list [] d) with 0. destruct (String.eqb k a); lia. }
  destruct (IH _ H) as [-> ->]. rewrite (held_list_cons b l).
  rewrite (AppendOrAddBalance_held _ _ _ _ a d Hv), (AppendOrAddBalance_total _ _ _ _ d Hv).
  rewrite (held_list_cons b []). change (held_list [] d) with 0. destruct (String.eqb k a); lia.
Qed.

Lemma merge_into_held s3 s s' a d :
  merge_into s3 s = Ok s' -> held s' a d = held s3 a d + held s a d /\ total s' d = total s3 d + total s d.
Proof.
  unfold merge_into, total. intros H. pose proof (range_perm 20 _ s) as Hp.
  rewrite <- (sumZ_entries s _ a d Hp). rewrite <- Hp. fold (total s3 d) (total s' d). clear Hp.
  revert s3 H. induction (range 20 s) as [|e l IH]; intros s3 H; cbn in H; go_inv.
  { rewrite !sumZ_nil. lia. }
  destruct (IH _ H) as [-> ->]. destruct (merge_entry_held _ _ _ a d Hv) as [-> ->].
  rewrite !sumZ_cons. lia.
Qed.

Lemma MergeSnapshots_held ss s :
  MergeSnapshots ss = Ok s ->
  (forall a d, held s a d = sumZ (fun s => held s a d) ss) /\
  (forall d, total s d = sumZ (fun s => total s d) ss).
Proof.
  unfold MergeSnapshots. intros H.
  enough (forall a d, held s a d = held ∅ a d + sumZ (fun s => held s a d) ss /\
                      total s d = total ∅ d + sumZ (fun s => total s d) ss) as Hx.
  { split; intros; [by destruct (Hx a d)|by destruct (Hx "" d)]. }
  revert H. generalize (∅ : gmap string (list SnapshotBalance)) as s0.
  induction ss as [|s1 ss IH]; intros s0 H a d; cbn in H; go_inv; [by rewrite !sumZ_nil; lia|].
  destruct (IH _ H a d) as [-> ->]. destruct (merge_into_held _ _ _ a d Hv) as [-> ->].
  rewrite !sumZ_cons. lia.
Qed.

(** C18. Merging snapshots loses nothing: in the merged snapshot every address
    holds, in every denomination, the sum of what it holds in the snapshots, and
    the totals add up. *)
Theorem merge_conserves ss s :
  MergeSnapshots ss = Ok s ->
  (forall a d, held s a d = sumZ (fun s => held s a d) ss) /\
  (forall d, total s d = sumZ (fun s => total s d) ss).
Proof. apply MergeSnapshots_held. Qed.

Lemma merge_entry_keyed s e :
  merge_entry s e =
  keyed_step (fun o l => match l with
                         | [] => Ok o
                         | _ => x ← foldM add_into l (default [] o); Ok (Some x)
                         end) s e.
Proof.
  destruct e as [k l]. unfold merge_entry, keyed_step. cbn. destruct l as [|b l].
  { cbn. by rewrite partial_alter_self. }
  revert b s. induction l as [|b' l IH]; intros b s.
  - cbn. unfold AppendOrAddBalance. fold (balances_of s k). by destruct (add_into _ b).
  - change (foldM (AppendOrAddBalance k) (b :: b' :: l) s)
      with (s1 ← AppendOrAddBalance k s b; foldM (AppendOrAddBalance k) (b' :: l) s1).
    replace (AppendOrAddBalance k s b) with (l ← add_into (default [] (s !! k)) b; Ok (<[k := l]> s))
      by reflexivity.
    cbn [foldM]. destruct (add_into (default [] (s !! k)) b) as [x| |]; cbn; [|done..].
    change (foldM (AppendOrAddBalance k) (b' :: l) (<[k := x]> s) =
      y ← (z ← foldM add_into (b' :: l) x; Ok (Some z)); Ok (partial_alter (fun _ => y) k s)).
    rewrite IH, lookup_insert_eq. change (default [] (Some x)) with x.
    destruct (foldM add_into (b' :: l) x) as [z| |]; cbn; [|done..].
    by rewrite partial_alter_insert_eq.
Qed.

Lemma merge_into_order {R' : GoRange} {RL' : GoRangeLaws R'} s3 s :
  merge_into (R:=R) s3 s = merge_into (R:=R') s3 s.
Proof.
  unfold merge_into.
  rewrite !(foldM_ext merge_entry _ _ _ ltac:(apply Forall_true; intros e acc; apply merge_entry_keyed)).
  apply foldM_keyed_perm.
  - intros o l. destruct l as [|b l]; [done|]. apply no_err_bind; [|done].
    apply no_err_foldM. intros. apply add_into_no_err.
  - rewrite range_perm. apply NoDup_fst_map_to_list.
  - by rewrite !range_perm.
Qed.

(** Merging does not depend on the order in which Go ranges over the maps:
    every order gives the same snapshot, or every order panics. *)
Theorem merge_deterministic {R' : GoRange} {RL' : GoRangeLaws R'} ss :
  MergeSnapshots (R:=R) ss = MergeSnapshots (R:=R') ss.
Proof.
  unfold MergeSnapshots. apply foldM_ext, Forall_true. intros s acc. apply merge_into_order.
Qed.

Lemma MergeSnapshots_collapsed ss s :
  Forall solid ss -> MergeSnapshots ss = Ok s -> solid s /\ collapsed s.
Proof.
  intros Hss. unfold MergeSnapshots. apply (foldM_inv (fun s => solid s /\ collapsed s)).
  2: split; apply map_Forall_empty.
  intros s0 s1 s2 Hs1 H0. unfold merge_into. rewrite Forall_forall in Hss. specialize (Hss s1 Hs1).
  apply (foldM_inv (fun s => solid s /\ collapsed s)); [|done].
  intros sa [k l] sb He Ha. unfold merge_entry. cbn.
  apply (foldM_inv (fun s => solid s /\ collapsed s)); [|done].
  intros sc b sd Hb [Hsol Hcol]. unfold AppendOrAddBalance. intros H. go_inv.
  assert (Balance b <> None).
  { rewrite range_perm, elem_of_map_to_list in He. specialize (Hss _ _ He). rewrite Forall_forall in Hss. auto. }
  destruct (add_into_denoms _ _ _ Hv) as (Hnn & Hnd & _); [done|..].
  - unfold balances_of. destruct (sc !! k) as [l0|] eqn:E; [by apply (Hsol k)|constructor].
  - unfold balances_of. destruct (sc !! k) as [l0|] eqn:E; [by apply (Hcol k)|constructor].
  - split; by apply map_Forall_insert_2.
Qed.

(** Merging snapshots without nil balances collapses them: every address of
    the merged snapshot has one balance per denomination, and none is nil. *)
Theorem merge_collapses ss s :
  Forall solid ss -> MergeSnapshots ss = Ok s -> solid s /\ collapsed s.
Proof. apply MergeSnapshots_collapsed. Qed.

(** *** Sums *)

Lemma SumOfDenom_Ok s d z : SumOfDenom s d = Ok z -> z = Some (total s d).
Proof.
  unfold SumOfDenom, total. rewrite <- (range_perm 21 _ s). intros H.
  enough (forall x, foldM (fun sum e => foldM (sum_balance d) e.2 sum) (range 21 s) (Some x) = Ok z ->
    z = Some (x + sumZ (fun e => held_list e.2 d) (range 21 s))) as Hx by (by apply Hx in H).
  clear H. induction (range 21 s) as [|e l IH]; intros x H; cbn in H; go_inv.
  { rewrite sumZ_nil. f_equal. lia. }
  rewrite sumZ_cons. enough (v = Some (x + held_list e.2 d)) as ->.
  { apply IH in H as ->. f_equal. lia. }
  clear H IH. revert x Hv. induction e.2 as [|b bs IHb]; intros x H; cbn in H; go_inv.
  { change (held_list [] d) with 0. f_equal. lia. }
  rewrite held_list_cons. unfold sum_balance in Hv. destruct (Balance b) as [y|] eqn:Eb; cbn in Hv.
  - destruct (String.eqb (Denom b) d).
    + apply nint_add_Ok in Hv as (x' & y' & Hx' & Hy' & ->). simplify_eq. cbn.
      apply IHb in H as ->. f_equal. lia.
    + go_inv. by apply IHb in H.
  - go_inv. apply IHb in H as ->. cbn. by destruct (String.eqb (Denom b) d).
Qed.

(** The sum of a map of amounts. *)
Definition map_sum (m : BalanceMap) : Z := sumZ (fun e => default 0 e.2) (map_to_list m).

Lemma Sum_Ok m z : Sum m = Ok z -> z = Some (map_sum m).
Proof.
  unfold Sum, map_sum. rewrite <- (range_perm 29 _ m). intros H.
  enough (forall x, foldM (fun sum e => if negb (is_nil e.2) then nint_add sum e.2 else Ok sum)
    (range 29 m) (Some x) = Ok z -> z = Some (x + sumZ (fun e => default 0 e.2) (range 29 m))) as Hx
    by (by apply Hx in H).
  clear H. induction (range 29 m) as [|[k v] l IH]; intros x H; cbn in H; go_inv.
  { rewrite sumZ_nil. f_equal. lia. }
  rewrite sumZ_cons. destruct v as [y|]; cbn in *; go_inv.
  - apply nint_add_Ok in Hv as (x' & y' & ? & ? & ->). simplify_eq. apply IH in H as ->. f_equal. lia.
  - by apply IH in H.
Qed.

Lemma Sum_no_err m : no_err (Sum m).
Proof. apply no_err_foldM. intros u e. destruct (negb _); auto with go. Qed.

Lemma map_sum_insert m k v :
  map_sum (<[k := v]> m) = map_sum m - default 0 (amount_in m k) + default 0 v.
Proof.
  unfold map_sum, amount_in. destruct (m !! k) as [v0|] eqn:E; cbn.
  - rewrite <- insert_delete_eq, map_to_list_insert by apply lookup_delete_eq.
    rewrite <- (insert_id m k v0 E) at 2.
    rewrite <- insert_delete_eq, (map_to_list_insert _ k v0) by apply lookup_delete_eq.
    rewrite !sumZ_cons. cbn. lia.
  - rewrite map_to_list_insert, sumZ_cons by done. cbn. lia.
Qed.

Lemma amount_insert (m : BalanceMap) w v a :
  amount_in (<[w := v]> m) a = if String.eqb w a then v else amount_in m a.
Proof.
  unfold amount_in. destruct (String.eqb_spec w a) as [->|].
  - by rewrite lookup_insert_eq.
  - by rewrite lookup_insert_ne.
Qed.

Lemma filter_balance_Ok d w m b m' :
  filter_balance d w m b = Ok m' ->
  (forall a, default 0 (amount_in m' a) =
             default 0 (amount_in m a) + (if String.eqb w a then held_list [b] d else 0)) /\
  map_sum m' = map_sum m + held_list [b] d.
Proof.
  unfold filter_balance. rewrite (held_list_cons b []). change (held_list [] d) with 0.
  destruct (String.eqb (Denom b) d); cbn; [|intros [= <-]; split; [intros a; destruct (String.eqb w a)|]; lia].
  destruct (Balance b) as [y|]; cbn; [|intros [= <-]; split; [intros a; destruct (String.eqb w a)|]; lia].
  destruct (amount_in m w) as [x|] eqn:E; cbn; intros H; go_inv.
  - apply nint_add_Ok in Hv as (x' & y' & ? & ? & ->). simplify_eq. split.
    + intros a. rewrite amount_insert. destruct (String.eqb_spec w a) as [<-|]; [rewrite E; cbn|]; lia.
    + rewrite map_sum_insert, E. cbn. lia.
  - split.
    + intros a. rewrite amount_insert. destruct (String.eqb_spec w a) as [<-|]; [rewrite E; cbn|]; lia.
    + rewrite map_sum_insert, E. cbn. lia.
Qed.

Lemma FilterByDenom_Ok s d m :
  FilterByDenom s d = Ok m ->
  (forall a, default 0 (amount_in m a) = held s a d) /\ map_sum m = total s d.
Proof.
  unfold FilterByDenom, total. intros H. pose proof (range_perm 23 _ s) as Hp.
  setoid_rewrite <- (fun a => sumZ_entries s _ a d Hp). rewrite <- Hp. clear Hp.
  enough (Hx : forall m0, foldM (fun filtered e => foldM (filter_balance d e.1) e.2 filtered) (range 23 s) m0
      = Ok m ->
    (forall a, default 0 (amount_in m a) = default 0 (amount_in m0 a) +
       sumZ (fun e => if String.eqb e.1 a then held_list e.2 d else 0) (range 23 s)) /\
    map_sum m = map_sum m0 + sumZ (fun e => held_list e.2 d) (range 23 s)).
  { apply Hx in H as [H1 H2]. split; [|done]. intros a. rewrite H1. done. }
  clear H. induction (range 23 s) as [|e l IH]; intros m0 H; cbn in H; go_inv.
  { split; [intros a|]; rewrite sumZ_nil; lia. }
  destruct (IH _ H) as [H1 H2]. clear IH H.
  enough (Hb : (forall a, default 0 (amount_in v a) = default 0 (amount_in m0 a) +
      (if String.eqb e.1 a then held_list e.2 d else 0)) /\ map_sum v = map_sum m0 + held_list e.2 d).
  { destruct Hb as [Hb1 Hb2]. split; [intros a|]; rewrite sumZ_cons, ?H1, ?H2, ?Hb1, ?Hb2; lia. }
  clear H1 H2. revert m0 Hv. induction e.2 as [|b bs IHb]; intros m0 H; cbn in H; go_inv.
  { change (held_list [] d) with 0. split; [intros a; destruct (String.eqb _ _)|]; lia. }
  destruct (IHb _ H) as [H1 H2]. apply filter_balance_Ok in Hv as [H3 H4].
  rewrite (held_list_cons b bs). rewrite (held_list_cons b []) in *. change (held_list [] d) with 0 in *.
  split; [intros a; rewrite H1, H3; destruct (String.eqb e.1 a)|rewrite H2, H4]; lia.
Qed.

(** The audits add up what the snapshot holds: [SumOfDenom] and the sum of
    [FilterByDenom] are both the total of the denomination, and [FilterByDenom]
    has for every address what it holds. *)
Theorem sums_agree s d filtered x y :
  FilterByDenom s d = Ok filtered -> Sum filtered = Ok x -> SumOfDenom s d = Ok y ->
  x = Some (total s d) /\ y = Some (total s d) /\
  forall a, default 0 (amount_in filtered a) = held s a d.
Proof.
  intros Hf Hx Hy. apply FilterByDenom_Ok in Hf as [Ha Ht]. apply Sum_Ok in Hx as ->.
  apply SumOfDenom_Ok in Hy as ->. by rewrite Ht.
Qed.

Lemma sumZ_amounts (m : BalanceMap) l a :
  l ≡ₚ map_to_list m ->
  sumZ (fun e => if String.eqb e.1 a then default 0 e.2 else 0) l = default 0 (amount_in m a).
Proof.
  intros ->. unfold amount_in. revert a. induction m as [|k v m Hk IH] using map_ind; intros a.
  { by rewrite map_to_list_empty, lookup_empty. }
  rewrite map_to_list_insert, sumZ_cons, IH by done. cbn.
  destruct (String.eqb_spec k a) as [->|Hne].
  - rewrite lookup_insert_eq, Hk. cbn. lia.
  - rewrite lookup_insert_ne by done. lia.
Qed.

(** *** [ApplyBlackList] *)

Lemma zero_denom_Ok d l l' :
  zero_denom d l = Ok l' ->
  held_list l' d = 0 /\ (forall d', d' <> d -> held_list l' d' = held_list l d') /\
  Denom <$> l' = Denom <$> l /\ Forall (fun b => Denom b = d -> Balance b <> None) l.
Proof.
  revert l'. induction l as [|b l IH]; intros l' H; cbn in H; go_inv; [by repeat split|].
  destruct (IH _ Hv0) as (H1 & H2 & H3 & H4).
  destruct (String.eqb_spec (Denom b) d) as [E|E].
  - destruct (Balance b) as [x|] eqn:Eb; [|done]. injection Hv as <-.
    assert (Hz : forall d', held_list ((if x =? 0 then b else mkSB (Denom b) (Some 0)) :: v0) d' = held_list v0 d').
    { intros d'. rewrite held_list_cons. destruct (Z.eqb_spec x 0) as [->|]; cbn; rewrite ?Eb; cbn;
        destruct (String.eqb _ _); lia. }
    split; [by rewrite Hz|]. split; [|split].
    + intros d' Hd'. rewrite Hz, H2, held_list_cons by done.
      rewrite (proj2 (String.eqb_neq (Denom b) d')) by congruence. lia.
    + rewrite !fmap_cons, H3. by destruct (x =? 0).
    + constructor; [|done]. by rewrite Eb.
  - injection Hv as <-. split; [|split; [|split]].
    + rewrite held_list_cons, H1, (proj2 (String.eqb_neq _ _) E). done.
    + intros d' Hd'. by rewrite !held_list_cons, H2.
    + by rewrite !fmap_cons, H3.
    + by constructor.
Qed.

Lemma blacklist_address_Ok d s addr s' :
  blacklist_address d s addr = Ok s' ->
  held s' addr d = 0 /\ forall a d', a <> addr \/ d' <> d -> held s' a d' = held s a d'.
Proof.
  unfold blacklist_address. destruct (s !! addr) as [l|] eqn:E; intros H; go_inv.
  - apply zero_denom_Ok in Hv as (H1 & H2 & _). split; [by rewrite held_insert, String.eqb_refl|].
    intros a d' Hne. rewrite held_insert. destruct (String.eqb_spec addr a) as [<-|]; [|done].
    destruct Hne as [|Hne]; [done|]. rewrite H2 by done. unfold held, balances_of. by rewrite E.
  - split; [|done]. unfold held, balances_of. by rewrite E.
Qed.

Lemma blacklist_denom_Ok d l s s' :
  foldM (blacklist_address d) l s = Ok s' ->
  forall a d', held s' a d' = if decide (d' = d /\ a ∈ l) then 0 else held s a d'.
Proof.
  revert s. induction l as [|x l IH]; intros s H a d'; cbn in H; go_inv.
  { by rewrite decide_False by (intros [_ ?%not_elem_of_nil]; done). }
  rewrite (IH _ H). apply blacklist_address_Ok in Hv as [Hz Hk].
  destruct (decide (d' = d /\ a ∈ l)) as [Hd|Hd].
  { rewrite decide_True; [done|]. set_solver. }
  destruct (decide (d' = d /\ a ∈ x :: l)) as [[-> Ha]|Hd'].
  - apply elem_of_cons in Ha as [->|]; [done|]. by destruct Hd.
  - apply Hk. destruct (decide (a = x)) as [->|]; [|by left]. right. intros ->. apply Hd'. set_solver.
Qed.

Lemma ApplyBlackList_held s bl s' :
  ApplyBlackList s bl = Ok s' ->
  forall a d, held s' a d = if decide (blacklisted bl a d) then 0 else held s a d.
Proof.
  unfold ApplyBlackList. pose proof (range_perm 25 _ bl) as Hp. intros H a d.
  assert (Hx : forall l s, foldM (fun s e => foldM (blacklist_address e.1) e.2 s) l s = Ok s' ->
    held s' a d = if decide (Exists (fun e => e.1 = d /\ a ∈ e.2) l) then 0 else held s a d).
  { clear H Hp s. intros l. induction l as [|[k v] l IH]; intros s H; cbn in H; go_inv.
    { by rewrite decide_False by (inversion 1). }
    rewrite (IH _ H), (blacklist_denom_Ok _ _ _ _ Hv).
    destruct (decide (Exists _ l)) as [Hl|Hl]; [by rewrite decide_True by by right|].
    destruct (decide (d = k /\ a ∈ v)) as [[-> Ha]|Hn].
    - rewrite decide_True; [done|]. by left.
    - rewrite decide_False; [done|]. rewrite Exists_cons. cbn. naive_solver. }
  rewrite (Hx _ _ H). clear Hx H. apply decide_ext. unfold blacklisted, GetAddressesByDenom.
  rewrite Exists_exists. setoid_rewrite Hp. split.
  - intros ([k v] & Hin%elem_of_map_to_list & Hk & Ha). cbn in *. subst k. by rewrite Hin.
  - intros Ha. destruct (bl !! d) as [v|] eqn:E; [|by apply not_elem_of_nil in Ha].
    exists (d, v). by rewrite elem_of_map_to_list.
Qed.

(** Applying the blacklist empties exactly the blacklisted holdings: an
    address blacklisted for a denomination holds nothing of it afterwards, and
    no other holding changes, in whatever order the blacklist is visited. *)
Theorem blacklist_applied s bl s' :
  ApplyBlackList s bl = Ok s' ->
  forall a d, held s' a d = if decide (blacklisted bl a d) then 0 else held s a d.
Proof. apply ApplyBlackList_held. Qed.

Lemma blacklist_address_denoms d s addr s' a :
  blacklist_address d s addr = Ok s' -> Denom <$> balances_of s' a = Denom <$> balances_of s a.
Proof.
  unfold blacklist_address. destruct (s !! addr) as [l|] eqn:E; intros H; go_inv; [|done].
  apply zero_denom_Ok in Hv as (_ & _ & H & _). unfold balances_of.
  destruct (decide (addr = a)) as [->|]; [by rewrite lookup_insert_eq, E|by rewrite lookup_insert_ne].
Qed.

Lemma ApplyBlackList_denoms s bl s' a :
  ApplyBlackList s bl = Ok s' -> Denom <$> balances_of s' a = Denom <$> balances_of s a.
Proof.
  unfold ApplyBlackList. set (P t := Denom <$> balances_of t a = Denom <$> balances_of s a).
  apply (foldM_inv P); [|done]. intros t e r _ Ht.
  apply (foldM_inv P); [|done]. intros t' x r' _ Ht' H. unfold P in *.
  rewrite <- Ht'. by eapply blacklist_address_denoms.
Qed.

(** Merging snapshots brings in no other address. *)
Lemma MergeSnapshots_addresses ss s a :
  MergeSnapshots ss = Ok s -> is_Some (s !! a) -> Exists (fun x => is_Some (x !! a)) ss.
Proof.
  intros H. revert a. set (P (t : SnapshotBalanceAggregateMap) :=
    forall a, is_Some (t !! a) -> Exists (fun x : SnapshotBalanceAggregateMap => is_Some (x !! a)) ss).
  change (P s). revert H. unfold MergeSnapshots. apply (foldM_inv P); [|intros a [x Hx]; by rewrite lookup_empty in Hx].
  intros t x r Hx Ht. unfold merge_into. apply (foldM_inv P); [|done]. intros t1 [k l] r1 Hin Ht1.
  rewrite range_perm, elem_of_map_to_list in Hin. unfold merge_entry. apply (foldM_inv P); [|done].
  intros t2 b r2 _ Ht2 H a. unfold AppendOrAddBalance in H. go_inv. cbn.
  destruct (decide (k = a)) as [<-|]; [|rewrite lookup_insert_ne by done; apply Ht2].
  intros _. apply Exists_exists. exists x. split; [done|by eexists].
Qed.

(** *** Snapshots without a denomination *)

Lemma ApplyBlackList_free s bl s' d : ApplyBlackList s bl = Ok s' -> free_of d s -> free_of d s'.
Proof. unfold free_of. intros H Hs a. by rewrite (ApplyBlackList_denoms _ _ _ a H). Qed.

Lemma append_all_held site d (m : BalanceMap) s a d' :
  held (append_all site d m s) a d' =
  held s a d' + (if String.eqb d d' then default 0 (amount_in m a) else 0).
Proof.
  unfold append_all. rewrite <- (sumZ_amounts m _ a (range_perm site _ m)). revert s.
  induction (range site m) as [|e l IH]; intros s; cbn [foldl].
  { rewrite sumZ_nil. destruct (String.eqb d d'); lia. }
  rewrite IH, sumZ_cons, held_insert, held_list_app, held_list_cons. cbn.
  change (held_list [] d') with 0. fold (held s e.1 d').
  destruct (String.eqb_spec e.1 a) as [<-|], (String.eqb d d'); unfold held; lia.
Qed.

Lemma append_all_total site d (m : BalanceMap) s d' :
  total (append_all site d m s) d' = total s d' + (if String.eqb d d' then map_sum m else 0).
Proof.
  assert (E : map_sum m = sumZ (fun e => default 0 e.2) (range site m)) by (symmetry; apply sumZ_perm, range_perm).
  rewrite E. unfold append_all. revert s. clear E. induction (range site m) as [|e l IH]; intros s; cbn [foldl].
  { rewrite sumZ_nil. destruct (String.eqb d d'); lia. }
  rewrite IH, sumZ_cons, total_insert, held_list_app, held_list_cons. cbn.
  change (held_list [] d') with 0. unfold held. destruct (String.eqb d d'); lia.
Qed.

Lemma append_all_free site d m s d' : free_of d' s -> d <> d' -> free_of d' (append_all site d m s).
Proof.
  unfold append_all. intros Hs Hd. revert s Hs.
  induction (range site m) as [|e l IH]; intros s Hs; cbn [foldl]; [done|].
  apply IH. intros a. unfold balances_of. destruct (decide (e.1 = a)) as [<-|].
  - rewrite lookup_insert_eq. cbn. rewrite fmap_app. pose proof (Hs e.1). set_solver.
  - rewrite lookup_insert_ne by done. apply Hs.
Qed.

Lemma add_into_free d l nb l' :
  add_into l nb = Ok l' -> d ∉ Denom <$> l -> d <> Denom nb -> d ∉ Denom <$> l'.
Proof.
  revert l'. induction l as [|b l IH]; intros l' H Hl Hd; cbn in H.
  { injection H as <-. set_solver. }
  rewrite fmap_cons, not_elem_of_cons in Hl. destruct Hl as [Hb Hl].
  destruct (_ && _).
  - destruct (is_nil _); go_inv; set_solver.
  - go_inv. rewrite fmap_cons, not_elem_of_cons. split; [done|by eapply IH].
Qed.

Lemma AppendOrAddBalance_free d a s nb s' :
  AppendOrAddBalance a s nb = Ok s' -> free_of d s -> d <> Denom nb -> free_of d s'.
Proof.
  unfold AppendOrAddBalance. intros H Hs Hd. go_inv. intros a'. unfold balances_of.
  destruct (decide (a = a')) as [<-|]; [rewrite lookup_insert_eq|rewrite lookup_insert_ne by done].
  - eapply add_into_free; [exact Hv|apply Hs|done].
  - apply Hs.
Qed.

Lemma MergeSnapshots_free d ss s : MergeSnapshots ss = Ok s -> Forall (free_of d) ss -> free_of d s.
Proof.
  intros H Hss. revert H. unfold MergeSnapshots. apply (foldM_inv (free_of d)); [|apply free_of_empty].
  intros s3 x r Hx Hs3. rewrite Forall_forall in Hss. specialize (Hss x Hx). unfold merge_into.
  apply (foldM_inv (free_of d)); [|done]. intros s4 [k l] r' Hin Hs4. unfold merge_entry.
  rewrite range_perm, elem_of_map_to_list in Hin. apply (foldM_inv (free_of d)); [|done].
  intros s5 b r'' Hb Hs5 H. eapply AppendOrAddBalance_free; [exact H|done|].
  intros ->. apply (Hss k). unfold balances_of. rewrite Hin. by apply list_elem_of_fmap_2.
Qed.

Lemma FilterByDenom_free d s : free_of d s -> FilterByDenom s d = Ok ∅.
Proof.
  intros Hs. unfold FilterByDenom. pose proof (range_perm 23 _ s) as Hp.
  assert (Forall (fun e => d ∉ Denom <$> e.2) (range 23 s)) as Hl.
  { apply Forall_forall. intros [k l] Hin. rewrite Hp, elem_of_map_to_list in Hin.
    specialize (Hs k). unfold balances_of in Hs. by rewrite Hin in Hs. }
  clear Hp. induction Hl as [|[k bs] l He _ IH]; [done|].
  change (foldM (fun m e => foldM (filter_balance d e.1) e.2 m) ((k, bs) :: l) ∅)
    with (m ← foldM (filter_balance d k) bs ∅; foldM (fun m e => foldM (filter_balance d e.1) e.2 m) l m).
  enough (foldM (filter_balance d k) bs ∅ = Ok ∅) as -> by exact IH. clear IH. cbn in He.
  induction bs as [|b bs IHb]; [done|].
  rewrite fmap_cons, not_elem_of_cons in He. destruct He as [Hb Hbs].
  change (foldM (filter_balance d k) (b :: bs) ∅)
    with (m ← filter_balance d k ∅ b; foldM (filter_balance d k) bs m).
  assert (filter_balance d k ∅ b = Ok ∅) as ->; [|by apply IHb].
  unfold filter_balance. by rewrite (proj2 (String.eqb_neq (Denom b) d)) by congruence.
Qed.

(** The audit passes on a snapshot without the denomination. *)
Lemma AssertZeroSupply_free d s : free_of d s -> AssertZeroSupply s d = Ok tt.
Proof.
  intros Hs. unfold AssertZeroSupply. rewrite FilterByDenom_free by done. cbn. unfold Sum.
  pose proof (range_perm 29 _ (∅ : BalanceMap)) as Hp. rewrite map_to_list_empty in Hp.
  apply Permutation_nil_r in Hp. by rewrite Hp.
Qed.

(** *** Contracts *)

Lemma RemoveContractBalances_lookup {V} s (contracts : gmap string V) a :
  RemoveContractBalances s contracts !! a =
  match contracts !! a, contractWhitelist !! a with
  | Some _, None => None
  | _, _ => s !! a
  end.
Proof.
  unfold RemoveContractBalances. generalize contractWhitelist as whitelist. intros whitelist. pose proof (range_perm 32 _ contracts) as Hp.
  assert (Hx : forall (l : list (string * V)) (s : SnapshotBalanceAggregateMap),
    foldl (fun s e => match whitelist !! e.1 with Some _ => s | None => delete e.1 s end) s l !! a
    = if decide (a ∈ l.*1) then (match whitelist !! a with Some _ => s !! a | None => None end)
      else s !! a).
  { clear. intros l. induction l as [|[k v] l IH]; intros s; [done|]. cbn [foldl]. rewrite IH. cbn.
    destruct (decide (a = k)) as [->|Hne].
    - rewrite (decide_True (P:=k ∈ k :: _)) by left. destruct (whitelist !! k); cbn.
      + by destruct (decide _).
      + rewrite lookup_delete_eq. by destruct (decide _).
    - assert (Hs : (match whitelist !! k with Some _ => s | None => delete k s end) !! a = s !! a)
        by (destruct (whitelist !! k); [done|by rewrite lookup_delete_ne]).
      rewrite Hs. destruct (decide (a ∈ l.*1)) as [Hin|Hin].
      + by rewrite decide_True by by right.
      + by rewrite decide_False by (intros [?|?]%elem_of_cons; done). }
  rewrite Hx. destruct (decide (a ∈ (range 32 contracts).*1)) as [Hin|Hin]; rewrite Hp in Hin.
  - apply list_elem_of_fmap in Hin as ([k v] & -> & Hin%elem_of_map_to_list). cbn. by rewrite Hin.
  - destruct (contracts !! a) as [v|] eqn:E; [|done]. destruct Hin.
    apply list_elem_of_fmap. exists (a, v). by rewrite elem_of_map_to_list.
Qed.

(** The contracts are removed from the snapshot, but for the whitelisted
    bridges; every other address keeps its balances. *)
Theorem contracts_removed {V} s (contracts : gmap string V) a :
  RemoveContractBalances s contracts !! a =
  match contracts !! a, contractWhitelist !! a with
  | Some _, None => None
  | _, _ => s !! a
  end.
Proof. apply RemoveContractBalances_lookup. Qed.

(** *** Audits *)

Lemma AlmostEqual_Ok a b eps :
  Z.abs (a - b) < int_bound ->
  AlmostEqual (Some a) (Some b) eps = if Z.abs (a - b) <? eps then Ok tt else Err (Errorf "difference").
Proof.
  intros H. unfold AlmostEqual. rewrite int_sub_spec, checked_small by done. cbn.
  rewrite dec_quo_int_spec. destruct (Z.eqb_spec a 0); cbn; by destruct (_ <? eps).
Qed.

(** The audit of a native supply fails on a correct snapshot: it panics
    whenever the holdings add up to the supply (within the tolerance), and
    returns an error, which the caller only logs, when they do not. *)
Theorem native_supply_audit holdings supply :
  Sum holdings = Ok (Some (map_sum holdings)) -> Z.abs (supply - map_sum holdings) < int_bound ->
  AssertNativeSupply (Ok (Some supply)) holdings =
    if Z.abs (supply - map_sum holdings) <? 2000000 then Panic else Err (Errorf "difference").
Proof.
  intros Hs Hb. unfold AssertNativeSupply. cbn. rewrite Hs. cbn. rewrite AlmostEqual_Ok by done.
  by destruct (_ <? _).
Qed.

Definition holdings_nonneg (s : SnapshotBalanceAggregateMap) : Prop :=
  map_Forall (fun _ l => Forall (fun b => 0 <= default 0 (Balance b)) l) s.

Lemma held_list_nonneg l d : Forall (fun b => 0 <= default 0 (Balance b)) l -> 0 <= held_list l d.
Proof.
  intros H. apply sumZ_nonneg. eapply Forall_impl; [exact H|]. intros b Hb. cbn.
  by destruct (String.eqb _ _).
Qed.

Lemma total_zero s d : holdings_nonneg s -> total s d = 0 -> forall a, held s a d = 0.
Proof.
  intros Hs Ht a. unfold held, balances_of. destruct (s !! a) as [l|] eqn:E; [|done]. cbn.
  pose proof (held_list_nonneg l d (Hs _ _ E)) as Hl.
  rewrite <- (insert_id s a l E), <- insert_delete_eq in Ht. unfold total in Ht.
  rewrite map_to_list_insert, sumZ_cons in Ht by apply lookup_delete_eq. cbn in Ht.
  pose proof (sumZ_nonneg (fun e => held_list e.2 d) (map_to_list (delete a s))) as Hr.
  enough (0 <= sumZ (fun e => held_list e.2 d) (map_to_list (delete a s))) by lia. apply Hr.
  apply Forall_forall. intros [k v] Hin%elem_of_map_to_list. cbn. apply held_list_nonneg.
  apply lookup_delete_Some in Hin as [_ Hin]. by apply (Hs k).
Qed.

(** When the final audit passes for a denomination, nobody holds any of it. *)
Theorem zero_supply_audit s d :
  holdings_nonneg s -> AssertZeroSupply s d = Ok tt -> forall a, held s a d = 0.
Proof.
  intros Hs. unfold AssertZeroSupply. intros H. go_inv. apply FilterByDenom_Ok in Hv as [_ Ht].
  apply Sum_Ok in Hv0 as ->. go_inv. apply negb_false_iff, Z.eqb_eq in H. apply total_zero; [done|lia].
Qed.

(** *** [MergeMaps] *)

Lemma merge_amount_Ok m e m' :
  merge_amount m e = Ok m' ->
  e.2 <> None /\ forall a, default 0 (amount_in m' a) =
    default 0 (amount_in m a) + (if String.eqb e.1 a then default 0 e.2 else 0).
Proof.
  destruct e as [k v]. unfold merge_amount. cbn. intros H. go_inv.
  apply nint_add_Ok in Hv as (x & y & Hx & -> & ->). split; [done|]. intros a.
  rewrite amount_insert. destruct (amount_in m k) as [z|] eqn:E; cbn in *.
  - rewrite E in Hx. simplify_eq. destruct (String.eqb_spec k a) as [<-|]; [rewrite E; cbn|]; lia.
  - rewrite amount_insert, String.eqb_refl in Hx. simplify_eq. rewrite amount_insert.
    destruct (String.eqb_spec k a) as [<-|]; [rewrite E; cbn|]; lia.
Qed.

Lemma MergeMaps_amount m0 ms m a :
  MergeMaps m0 ms = Ok m ->
  default 0 (amount_in m a) =
  default 0 (amount_in m0 a) + sumZ (fun m => default 0 (amount_in m a)) ms.
Proof.
  unfold MergeMaps. rewrite (foldl_insert_entries m0) by apply range_perm.
  revert m0. induction ms as [|m1 ms IH]; intros m0 H; cbn in H; go_inv; [by rewrite sumZ_nil; lia|].
  rewrite (IH _ H), sumZ_cons. enough (default 0 (amount_in v a) =
    default 0 (amount_in m0 a) + default 0 (amount_in m1 a)) by lia.
  rewrite <- (sumZ_amounts m1 _ a (range_perm 28 _ m1)). clear H IH. revert m0 Hv.
  induction (range 28 m1) as [|e l IH]; intros m0 H; cbn in H; go_inv; [by rewrite sumZ_nil; lia|].
  rewrite (IH _ H), sumZ_cons. apply merge_amount_Ok in Hv as [_ ->]. lia.
Qed.

(** Merging maps of amounts adds them up, key by key. *)
Theorem merge_maps_adds m0 ms m a :
  MergeMaps m0 ms = Ok m ->
  default 0 (amount_in m a) =
  default 0 (amount_in m0 a) + sumZ (fun m => default 0 (amount_in m a)) ms.
Proof. apply MergeMaps_amount. Qed.

(** *** The exported balances *)

(** The exported genesis balances are what the snapshot holds: every
    address once, one coin per denomination when no balance is nil, and in each
    denomination the amount the address holds. *)
Theorem export_faithful s balances :
  ExportToBalances s = Ok balances ->
  NoDup balances.*1 /\
  (solid s -> Forall (fun e => NoDup (Denom <$> e.2)) balances) /\
  (forall a l, (a, l) ∈ balances -> forall d, held_list l d = held s a d) /\
  (forall a d, held s a d <> 0 -> a ∈ balances.*1).
Proof.
  unfold ExportToBalances. intros H. go_inv. pose proof (range_perm 26 _ v) as Hp.
  pose proof (MergeSnapshots_collapsed [s] v) as Hcol. apply MergeSnapshots_held in Hv as Hc. destruct Hc as [Hh _].
  assert (Hheld : forall a d, held v a d = held s a d)
    by (intros a d; rewrite Hh, sumZ_cons, sumZ_nil; lia).
  split; [rewrite Hp; apply NoDup_fst_map_to_list|]. split; [|split].
  - intros Hs. destruct Hcol as [_ Hcol]; [by constructor|done|].
    apply Forall_forall. intros [k l] Hin. rewrite Hp, elem_of_map_to_list in Hin. by apply (Hcol k).
  - intros a l Hin d. rewrite Hp, elem_of_map_to_list in Hin. rewrite <- Hheld. unfold held, balances_of.
    by rewrite Hin.
  - intros a d Hne. rewrite <- Hheld in Hne. unfold held, balances_of in Hne.
    destruct (v !! a) as [l|] eqn:E; [|done]. rewrite Hp. apply list_elem_of_fmap.
    exists (a, l). by rewrite elem_of_map_to_list.
Qed.

End snapshot_facts.

(** A nil balance is never merged: it is appended, also when the address
    already has a balance of the denomination, so the export then has two coins
    of it. *)
Theorem nil_balance_appended {M : SdkMath} l nb :
  Balance nb = None -> add_into l nb = Ok (l ++ [nb]).
Proof.
  intros H. induction l as [|b l IH]; [done|]. cbn. rewrite H. cbn. rewrite andb_false_r, IH. done.
Qed.

(** ** A run *)

Module SnapshotExample.

#[local] Existing Instance ref_math.

(** Any order will do: the one of the map's own listing, or its reverse. *)
Definition listing : GoRange := {| range _ V m := map_to_list m |}.
Definition reversed : GoRange := {| range _ V m := rev (map_to_list m) |}.

#[local] Instance listing_laws : GoRangeLaws listing.
Proof. by split. Qed.

#[local] Instance reversed_laws : GoRangeLaws reversed.
Proof. split. intros site V m. cbn. symmetry. apply Permutation_rev. Qed.

(** The snapshots of the repository's test. *)
Definition s1 : SnapshotBalanceAggregateMap := {["addr1" := [mkSB "aUST" (Some 100); mkSB "uusd" (Some 100)]]}.
Definition s2 : SnapshotBalanceAggregateMap := {["addr1" := [mkSB "aUST" (Some 200)]]}.
Definition s3 : SnapshotBalanceAggregateMap :=
  {["addr1" := [mkSB "aUST" (Some 100); mkSB "ucluna" (Some 200)]; "addr2" := [mkSB "aUST" (Some 7)]]}.

Definition merged : SnapshotBalanceAggregateMap :=
  {["addr1" := [mkSB "aUST" (Some 400); mkSB "uusd" (Some 100); mkSB "ucluna" (Some 200)];
    "addr2" := [mkSB "aUST" (Some 7)]]}.

Lemma merged_eq : MergeSnapshots (R:=listing) [s1; s2; s3] = Ok merged.
Proof. vm_compute. reflexivity. Qed.

Lemma merge_conserves_witness : held merged "addr1" "aUST" = 400.
Proof.
  rewrite (proj1 (merge_conserves (R:=listing) [s1; s2; s3] merged merged_eq) "addr1" "aUST").
  vm_compute. reflexivity.
Defined.

Lemma merge_deterministic_witness :
  MergeSnapshots (R:=listing) [s1; s2; s3] = MergeSnapshots (R:=reversed) [s1; s2; s3].
Proof.
  exact (merge_deterministic (R:=listing) (RL:=listing_laws) (R':=reversed) (RL':=reversed_laws) [s1; s2; s3]).
Defined.

Lemma solid_all : Forall solid [s1; s2; s3].
Proof.
  repeat constructor; unfold s1, s2, s3, solid;
    repeat (apply map_Forall_insert_2; [by repeat constructor|]); apply map_Forall_empty.
Qed.

Lemma merge_collapses_witness : solid merged /\ collapsed merged.
Proof.
  exact (merge_collapses (R:=listing) [s1; s2; s3] merged solid_all merged_eq).
Defined.

Definition filtered0 : BalanceMap := {["addr1" := Some 400; "addr2" := Some 7]}.

Lemma filtered0_eq : FilterByDenom (R:=listing) merged "aUST" = Ok filtered0.
Proof. vm_compute. reflexivity. Qed.

Lemma filtered0_sum : Sum (R:=listing) filtered0 = Ok (Some 407).
Proof. vm_compute. reflexivity. Qed.

Lemma merged_sum : SumOfDenom (R:=listing) merged "aUST" = Ok (Some 407).
Proof. vm_compute. reflexivity. Qed.

Lemma sums_agree_witness : Some 407 = Some (total merged "aUST").
Proof.
  exact (proj1 (sums_agree (R:=listing) merged "aUST" filtered0 (Some 407) (Some 407)
    filtered0_eq filtered0_sum merged_sum)).
Defined.

Definition bl0 : Blacklist := RegisterAddress "aUST" "addr1" ∅.
Definition cleared : SnapshotBalanceAggregateMap :=
  {["addr1" := [mkSB "aUST" (Some 0); mkSB "uusd" (Some 100); mkSB "ucluna" (Some 200)];
    "addr2" := [mkSB "aUST" (Some 7)]]}.

Lemma cleared_eq : ApplyBlackList (R:=listing) merged bl0 = Ok cleared.
Proof. vm_compute. reflexivity. Qed.

Lemma blacklist_applied_witness :
  held cleared "addr1" "aUST" = 0 /\ held cleared "addr2" "aUST" = held merged "addr2" "aUST".
Proof.
  pose proof (blacklist_applied (R:=listing) merged bl0 cleared cleared_eq) as H. split.
  - rewrite H. vm_compute. reflexivity.
  - rewrite H. vm_compute. reflexivity.
Defined.

Lemma contracts_removed_witness :
  RemoveContractBalances (R:=listing) merged ({["addr2" := tt]} : gmap string unit) !! "addr2" = None.
Proof.
  rewrite (contracts_removed (R:=listing) merged ({["addr2" := tt]} : gmap string unit) "addr2").
  vm_compute. reflexivity.
Defined.

Definition holdings0 : BalanceMap := {["addr1" := Some 1000; "addr2" := Some 20]}.

Lemma native_supply_audit_witness :
  AssertNativeSupply (R:=listing) (Ok (Some 1020)) holdings0 = Panic.
Proof.
  rewrite (native_supply_audit (R:=listing) holdings0 1020).
  - vm_compute. reflexivity.
  - vm_compute. reflexivity.
  - vm_compute. reflexivity.
Defined.

Lemma zero_supply_audit_witness : held merged "addr1" "ubluna" = 0.
Proof.
  apply (zero_supply_audit (R:=listing) merged "ubluna").
  - repeat (apply map_Forall_insert_2; [by repeat constructor|]); apply map_Forall_empty.
  - vm_compute. reflexivity.
Defined.

Definition doubled : BalanceMap := {["addr1" := Some 2000; "addr2" := Some 40]}.

Lemma doubled_eq : MergeMaps (R:=listing) holdings0 [holdings0] = Ok doubled.
Proof. vm_compute. reflexivity. Qed.

Lemma merge_maps_adds_witness :
  default 0 (amount_in doubled "addr1") =
  default 0 (amount_in holdings0 "addr1") + (default 0 (amount_in holdings0 "addr1") + 0).
Proof.
  exact (merge_maps_adds (R:=listing) holdings0 [holdings0] doubled "addr1" doubled_eq).
Defined.

Lemma export_faithful_witness :
  exists b, ExportToBalances (R:=listing) merged = Ok b /\ NoDup b.*1.
Proof.
  destruct (ExportToBalances (R:=listing) merged) as [b| |] eqn:E; [|vm_compute in E; discriminate..].
  exists b. split; [reflexivity|]. exact (proj1 (export_faithful (R:=listing) merged b E)).
Defined.

Lemma nil_balance_appended_witness :
  add_into [mkSB "uusd" (Some 5)] (mkSB "uusd" None) = Ok [mkSB "uusd" (Some 5); mkSB "uusd" None].
Proof. exact (nil_balance_appended [mkSB "uusd" (Some 5)] (mkSB "uusd" None) eq_refl). Defined.

End SnapshotExample.
