(* ===== verification/ExportUtil.v ===== *)
(** * Helpers of the genesis exporter ([src/app/export/util/export_util.go])

    Denominations and contract addresses, the namespaces of contract storage,
    the balances of a CW20 token, the summary of a protocol, and the file cache
    in front of the exporters.  Contracts, files and JSON texts are not part of
    the repository: a contract's storage is the list of its entries, and what a
    contract or the JSON library answers is an argument. *)

From Stdlib Require Import ZArith Lia Bool.
From stdpp Require Import base strings list gmap.
From S2P Require Import Prelude Loops Sdk SdkRef Snapshot.
Local Open Scope Z_scope.

(** ** Denominations and addresses *)

Definition DenomAUST : string := "aUST".
Definition DenomUST : string := "uusd".
Definition DenomLUNA : string := "uluna".
Definition DenomBLUNA : string := "ubluna".
Definition DenomSTLUNA : string := "ustluna".
Definition DenomSTEAK : string := "usteak".
Definition DenomNLUNA : string := "unluna".
Definition DenomCLUNA : string := "ucluna".
Definition DenomPLUNA : string := "upluna".
Definition DenomLUNAX : string := "ulunax".

Definition AddressAUST : string := "terra1hzh9vpxhsk8253se0vv5jj6etdvxu3nv8z07zu".
Definition AddressBLUNA : string := "terra1kc87mu460fwkqte29rquh4hc20m54fxwtsx7gp".
Definition AddressSTLUNA : string := "terra1yg3j2s986nyp5z7r2lvt0hx3r0lnd7kwvwwtsc".
Definition AddressSTEAK : string := "terra1rl4zyexjphwgx6v3ytyljkkc4mrje2pyznaclv".
Definition AddressNLUNA : string := "terra10f2mt82kjnkxqj2gepgwl637u2w4ue2z5nhz5j".
Definition AddressCLUNA : string := "terra13zaagrrrxj47qjwczsczujlvnnntde7fdt0mau".
Definition AddressPLUNA : string := "terra1tlgelulz9pdkhls6uglfn5lmxarx7f2gxtdzh2".
Definition AddressLUNAX : string := "terra17y9qkl8dfkeg4py7n0g5407emqnemc3yqk5rup".
Definition AddressBLUNAHub : string := "terra1mtwph2juhj0rvjz7dy92gvl6xvukaxu8rfv8ts".
Definition AUST : string := "terra1hzh9vpxhsk8253se0vv5jj6etdvxu3nv8z07zu".

Definition PreAttack : string := "preattack".
Definition PostAttack : string := "postattack".

(** [contractToDenomMap], filled by [init]. *)
Definition contractToDenomMap : gmap string string :=
  <[AUST := DenomAUST]>
  (<["uusd" := DenomUST]>
  (<["uluna" := DenomLUNA]>
  (<["terra1yg3j2s986nyp5z7r2lvt0hx3r0lnd7kwvwwtsc" := DenomSTLUNA]>
  (<["terra1kc87mu460fwkqte29rquh4hc20m54fxwtsx7gp" := DenomBLUNA]>
  (<["terra13zaagrrrxj47qjwczsczujlvnnntde7fdt0mau" := DenomCLUNA]>
  (<["terra13zaagrrrxj47qjwczsczujlvnnntde7fdt0mau" := DenomCLUNA]>
  (<["terra17y9qkl8dfkeg4py7n0g5407emqnemc3yqk5rup" := DenomLUNAX]>
  (<["terra1tlgelulz9pdkhls6uglfn5lmxarx7f2gxtdzh2" := DenomPLUNA]> ∅)))))))).

Definition MapContractToDenom (addr : string) : res string :=
  match contractToDenomMap !! addr with
  | None => Panic
  | Some denom => Ok denom
  end.

(** [timestampsPerBlock]: the block times, in seconds. *)
Definition timestampsPerBlock (height : Z) : option Z :=
  if height =? 7544910 then Some 1651935577
  else if height =? 7790000 then Some 1653583088
  else if height =? 7684654 then Some 1652926192
  else None.

(** [PrepCtx]: the height and time of the context. *)
Definition PrepCtx (LastBlockHeight : Z) : res (Z * Z) :=
  match timestampsPerBlock LastBlockHeight with
  | None => Panic
  | Some time => Ok (LastBlockHeight, time)
  end.

(** ** Namespaces of contract storage

    A byte string is a [string] of bytes; [toByteArray] is big endian. *)

Definition byte_of (z : Z) : Ascii.ascii := Ascii.ascii_of_N (Z.to_N (z mod 256)).

Definition encodeLength (key : string) : string :=
  let i := Z.of_nat (String.length key) mod 2 ^ 32 in
  String (byte_of (Z.shiftr i 8)) (String (byte_of i) EmptyString).

Definition GeneratePrefix (keys : list string) : string :=
  foldl (fun prefix key => String.append (String.append prefix (encodeLength key)) key) "" keys.

(** [IterateContractStateWithPrefix] ([x/wasm/keeper/keeper.go]): the entries
    whose key starts with the prefix, without it, in the order of the store. *)
Fixpoint strip_prefix (p s : string) : option string :=
  match p, s with
  | EmptyString, _ => Some s
  | String a p', String b s' => if Ascii.eqb a b then strip_prefix p' s' else None
  | _, EmptyString => None
  end.

Definition iterate_with_prefix (store : list (string * string)) (dataPrefix : string)
    : list (string * string) :=
  omap (fun e => match strip_prefix dataPrefix e.1 with Some k => Some (k, e.2) | None => None end) store.

(** ** CW20 tokens *)

(** [strings.Contains]. *)
Fixpoint contains (sub s : string) : bool :=
  String.prefix sub s ||
  match s with
  | EmptyString => false
  | String _ s' => contains sub s'
  end.

(** [value[1 : len(value)-1]], which panics on less than two bytes. *)
Definition unquote (value : string) : res string :=
  if (String.length value <? 2)%nat then Panic
  else Ok (String.substring 1 (String.length value - 2) value).

Section cw20.
Context {A : Bech32} {R : GoRange}.

(** [sdk.NewIntFromString]. *)
Context (NewIntFromString : string -> option Int).
(** The storage of a contract, sorted by key. *)
Context (contract_store : AccAddress -> list (string * string)).

(** [GetCW20AccountsAndBalances2]. *)
Definition cw20_entry (balanceMap : BalanceMap) (e : string * string) : res BalanceMap :=
  text ← unquote e.2;
  Ok (match NewIntFromString text with
      | Some balance =>
          if contains "terra" e.1 then <[e.1 := Some balance]> balanceMap
          else <[AccAddressString e.1 := Some balance]> balanceMap
      | None => balanceMap
      end).

Definition GetCW20AccountsAndBalances (contractAddress : string) (balanceMap : BalanceMap) : res BalanceMap :=
  let prefix := GeneratePrefix ["balance"] in
  contractAddr ← AccAddressFromBech32 contractAddress;
  foldM cw20_entry (iterate_with_prefix (contract_store contractAddr) prefix) balanceMap.

End cw20.

(** [ToAddress]. *)
Definition ToAddress {A : Bech32} (addr : string) : res AccAddress := must (AccAddressFromBech32 addr).

(** [GetNativeBalance]. *)
Definition GetNativeBalance {A : Bech32} {B} {BK : BankKeeper B} (b : B) (denom account : string) : res Int :=
  accountAddr ← AccAddressFromBech32 account;
  Ok (get_balance b accountAddr denom).

(** ** The summary of a protocol *)

Section summary.
Context {M : SdkMath} {R : GoRange}.

(** [SmartContractsAddresses], as the [Address] of each entry. *)
Context (SmartContractsAddresses : gmap string string).

Definition is_contract (addr : string) : bool :=
  negb (String.eqb (default "" (SmartContractsAddresses !! addr)) "").

Definition total_step (totals : BalanceMap) (balance : SnapshotBalance) : res BalanceMap :=
  if is_nil (amount_in totals (Denom balance)) then Ok (<[Denom balance := Balance balance]> totals)
  else if negb (is_nil (Balance balance)) then
    sum ← nint_add (amount_in totals (Denom balance)) (Balance balance);
    Ok (<[Denom balance := sum]> totals)
  else Ok totals.

Definition protocol_totals (aggregateMap : SnapshotBalanceAggregateMap) : res BalanceMap :=
  foldM (fun totals e => if is_contract e.1 then Ok totals else foldM total_step e.2 totals)
    (range 33 aggregateMap) ∅.

Definition summary_denoms : list string :=
  [DenomUST; DenomAUST; DenomLUNA; DenomBLUNA; DenomCLUNA; DenomLUNAX; DenomNLUNA; DenomPLUNA;
   DenomSTEAK; DenomSTLUNA].

(** [SummarizeProtocolTotals]: the amounts of the line it appends to the
    summary. *)
Definition SummarizeProtocolTotals (aggregateMap : SnapshotBalanceAggregateMap) (protocol : string)
    : res (string * list Int) :=
  totals ← protocol_totals aggregateMap;
  Ok (protocol, (fun d => default 0 (amount_in totals d)) <$> summary_denoms).

(** ** The cache

    Files by name, the lines of the summary, and the blacklist, which the
    exporters share.  [marshal] and [unmarshal] are the JSON library's. *)

Record cache_state : Type := mkCache {
  files : gmap string string; summary : list (string * list Int); blacklist : Blacklist }.

Definition write_file (path data : string) (w : cache_state) : cache_state :=
  mkCache (<[path := data]> (files w)) (summary w) (blacklist w).
Definition append_summary (line : string * list Int) (w : cache_state) : cache_state :=
  mkCache (files w) (summary w ++ [line]) (blacklist w).
Definition set_blacklist (bl : Blacklist) (w : cache_state) : cache_state :=
  mkCache (files w) (summary w) bl.

Context (marshal : SnapshotBalanceAggregateMap -> res string).
Context (unmarshal : string -> res SnapshotBalanceAggregateMap).

Definition summarize (snapshot : SnapshotBalanceAggregateMap) (filename : string) : st cache_state unit :=
  line ← lift (SummarizeProtocolTotals snapshot filename);
  modify (append_summary line).

Definition run_exporter (f : Blacklist -> res SnapshotBalanceAggregateMap * Blacklist)
    : st cache_state SnapshotBalanceAggregateMap := fun w =>
  let '(r, bl) := f (blacklist w) in (r, set_blacklist bl w).

(** Running the exporter and filling the cache. *)
Definition fresh_run (f : Blacklist -> res SnapshotBalanceAggregateMap * Blacklist) (filename : string)
    : st cache_state SnapshotBalanceAggregateMap :=
  snapshot ← run_exporter f;
  out ← lift (marshal snapshot);
  modify (write_file filename out);;
  summarize snapshot filename;;
  mret snapshot.

(** [CachedSBA], and [CachedDex], which passes one more argument to [f]. *)
Definition CachedSBA (f : Blacklist -> res SnapshotBalanceAggregateMap * Blacklist) (filename : string)
    : st cache_state SnapshotBalanceAggregateMap :=
  cached ← gets (fun w => files w !! filename);
  match unmarshal <$> cached with
  | Some (Ok snapshot) => summarize snapshot filename;; mret snapshot
  | _ => fresh_run f filename
  end.

End summary.

(** ** Theorems *)

Lemma append_cons a p q : String.append (String a p) q = String a (String.append p q).
Proof. done. Qed.

Lemma append_nil p : String.append p "" = p.
Proof. induction p as [|a p IH]; [done|]. by rewrite append_cons, IH. Qed.

Lemma append_assoc p q r :
  String.append (String.append p q) r = String.append p (String.append q r).
Proof. induction p as [|a p IH]; [done|]. by rewrite !append_cons, IH. Qed.

Lemma strip_prefix_app p q s : strip_prefix (String.append p q) s = strip_prefix p s ≫= strip_prefix q.
Proof.
  revert s. induction p as [|a p IH]; intros s; [done|]. destruct s as [|b s]; [done|].
  rewrite append_cons. cbn. destruct (Ascii.eqb a b); [apply IH|done].
Qed.

Lemma strip_prefix_same p s : strip_prefix p (String.append p s) = Some s.
Proof. induction p as [|a p IH]; [done|]. rewrite append_cons. cbn. by rewrite Ascii.eqb_refl. Qed.

(** Stripping a text of the same length only succeeds on itself. *)
Lemma strip_prefix_length p q s :
  String.length p = String.length q ->
  strip_prefix p (String.append q s) = if String.eqb p q then Some s else None.
Proof.
  revert q. induction p as [|a p IH]; intros [|b q] Hl; try done. rewrite append_cons. cbn in *.
  destruct (Ascii.eqb_spec a b) as [->|Hne]; [|done]. rewrite IH by lia. done.
Qed.

Lemma byte_of_inj x y : byte_of x = byte_of y -> x mod 256 = y mod 256.
Proof.
  unfold byte_of. intros H. apply (f_equal Ascii.N_of_ascii) in H.
  pose proof (Z.mod_pos_bound x 256 ltac:(lia)). pose proof (Z.mod_pos_bound y 256 ltac:(lia)).
  rewrite !Ascii.N_ascii_embedding in H by lia. lia.
Qed.

Lemma encodeLength_inj k k' :
  Z.of_nat (String.length k) < 65536 -> Z.of_nat (String.length k') < 65536 ->
  encodeLength k = encodeLength k' -> String.length k = String.length k'.
Proof.
  unfold encodeLength. intros Hk Hk' H. injection H as H1 H2.
  change (byte_of (Z.shiftr (Z.of_nat (String.length k) mod 2 ^ 32) 8) =
          byte_of (Z.shiftr (Z.of_nat (String.length k') mod 2 ^ 32) 8)) in H1.
  change (byte_of (Z.of_nat (String.length k) mod 2 ^ 32) =
          byte_of (Z.of_nat (String.length k') mod 2 ^ 32)) in H2.
  apply byte_of_inj in H1, H2. rewrite !(Z.mod_small _ (2 ^ 32)) in H1, H2 by lia.
  rewrite !Z.shiftr_div_pow2 in H1 by lia.
  change (2 ^ 8) with 256 in H1. Z.div_mod_to_equations. lia.
Qed.

Lemma GeneratePrefix_cons k ks :
  GeneratePrefix (k :: ks) = String.append (encodeLength k) (String.append k (GeneratePrefix ks)).
Proof.
  assert (Ha : forall ks p, foldl (fun prefix key => String.append (String.append prefix (encodeLength key)) key) p ks
    = String.append p (GeneratePrefix ks)).
  { clear. unfold GeneratePrefix. intros ks. induction ks as [|k ks IH]; intros p; cbn [foldl].
    - by rewrite append_nil.
    - rewrite (IH (String.append (String.append p _) _)), (IH (String.append (String.append "" _) _)).
      by rewrite !append_assoc. }
  unfold GeneratePrefix at 1. cbn [foldl]. rewrite Ha. by rewrite append_assoc.
Qed.

(** Namespaces do not overlap: iterating over the entries below one path of
    names visits, of the keys below paths of the same depth, exactly those of
    that path, for names shorter than [2^16] bytes. *)
Theorem namespaces_disjoint keys keys' rest :
  length keys = length keys' ->
  Forall (fun k => Z.of_nat (String.length k) < 65536) (keys ++ keys') ->
  strip_prefix (GeneratePrefix keys) (String.append (GeneratePrefix keys') rest) =
    if decide (keys = keys') then Some rest else None.
Proof.
  intros Hl [H1 H2]%Forall_app. revert keys' Hl H2.
  induction H1 as [|k ks Hk H1 IH]; intros [|k' ks'] Hl H2; try done.
  apply Forall_cons in H2 as [Hk' H2]. rewrite !GeneratePrefix_cons, !strip_prefix_app.
  rewrite !append_assoc, strip_prefix_length by done.
  destruct (String.eqb_spec (encodeLength k) (encodeLength k')) as [E|E]; cbn.
  - apply encodeLength_inj in E; [|done..]. rewrite strip_prefix_app, strip_prefix_length by done.
    destruct (String.eqb_spec k k') as [->|Hne]; cbn.
    + rewrite IH by (done || (cbn in Hl; lia)). apply decide_ext. naive_solver.
    + rewrite decide_False by congruence. done.
  - rewrite decide_False by congruence. done.
Qed.

Section summary_facts.
Context {M : SdkMath} {ML : SdkMathLaws M} {R : GoRange} {RL : GoRangeLaws R}.
Context (SmartContractsAddresses : gmap string string).

(** What the addresses that are not contracts hold. *)
Definition user_total (s : SnapshotBalanceAggregateMap) (d : string) : Z :=
  sumZ (fun e => if is_contract SmartContractsAddresses e.1 then 0 else held_list e.2 d) (map_to_list s).

Lemma total_step_Ok totals b totals' d :
  total_step totals b = Ok totals' ->
  default 0 (amount_in totals' d) = default 0 (amount_in totals d) + held_list [b] d.
Proof.
  unfold total_step. rewrite (held_list_cons b []). change (held_list [] d) with 0.
  destruct (amount_in totals (Denom b)) as [x|] eqn:E; cbn.
  - destruct (Balance b) as [y|]; cbn; intros H; go_inv.
    + apply nint_add_Ok in Hv as (x' & y' & ? & ? & ->). simplify_eq. rewrite amount_insert.
      destruct (String.eqb_spec (Denom b) d) as [<-|]; [rewrite E; cbn|]; lia.
    + destruct (String.eqb (Denom b) d); lia.
  - intros [= <-]. rewrite amount_insert.
    destruct (String.eqb_spec (Denom b) d) as [<-|]; [rewrite E; cbn|]; lia.
Qed.

Lemma protocol_totals_Ok s totals d :
  protocol_totals SmartContractsAddresses s = Ok totals ->
  default 0 (amount_in totals d) = user_total s d.
Proof.
  unfold protocol_totals, user_total. rewrite <- (range_perm 33 _ s).
  enough (Hx : forall t0, foldM (fun totals e => if is_contract SmartContractsAddresses e.1 then Ok totals
      else foldM total_step e.2 totals) (range 33 s) t0 = Ok totals ->
    default 0 (amount_in totals d) = default 0 (amount_in t0 d) +
      sumZ (fun e => if is_contract SmartContractsAddresses e.1 then 0 else held_list e.2 d) (range 33 s))
    by (intros H; by apply Hx in H).
  induction (range 33 s) as [|e l IH]; intros t0 H; cbn in H; go_inv; [rewrite sumZ_nil; lia|].
  rewrite (IH _ H), sumZ_cons. enough (default 0 (amount_in v d) = default 0 (amount_in t0 d) +
    (if is_contract SmartContractsAddresses e.1 then 0 else held_list e.2 d)) by lia.
  destruct (is_contract _ _); [go_inv; lia|].
  rewrite (foldM_sum (fun t => default 0 (amount_in t d)) (fun b => held_list [b] d) total_step e.2 t0 v).
  - f_equal. apply sumZ_ext, Forall_true. intros b. rewrite (held_list_cons b []).
    change (held_list [] d) with 0. lia.
  - intros t b t' Ht. by apply total_step_Ok.
  - done.
Qed.

(** The line a protocol adds to the summary has, per denomination, what all
    the addresses that are not contracts hold. *)
Theorem summary_adds_up s protocol line :
  SummarizeProtocolTotals SmartContractsAddresses s protocol = Ok line ->
  line = (protocol, user_total s <$> summary_denoms).
Proof.
  unfold SummarizeProtocolTotals. intros H. go_inv. f_equal. cbn.
  by rewrite !(fun d => protocol_totals_Ok s v d Hv).
Qed.

End summary_facts.

Section cache_facts.
Context {M : SdkMath} {R : GoRange} (contracts : gmap string string).
Context (marshal : SnapshotBalanceAggregateMap -> res string).
Context (unmarshal : string -> res SnapshotBalanceAggregateMap).

(** A cached export forgets the blacklist: after a first run, a second run
    with a new blacklist returns the same snapshot from the file without running
    the exporter, so none of the addresses the exporter blacklists are
    registered again. *)
Theorem cached_run_loses_blacklist f name w s w1 bl :
  (forall s out, solid s -> marshal s = Ok out -> unmarshal out = Ok s) ->
  files w !! name = None -> solid s ->
  CachedSBA contracts marshal unmarshal f name w = (Ok s, w1) ->
  blacklist w1 = (f (blacklist w)).2 /\
  exists w2, CachedSBA contracts marshal unmarshal f name (set_blacklist bl w1) = (Ok s, w2) /\
             blacklist w2 = bl.
Proof.
  intros Hjson Hnone Hsolid. unfold CachedSBA. intros H. go_inv. rewrite Hnone in H. cbn in H.
  unfold fresh_run, run_exporter in H. apply st_bind_Ok in H as (s' & wa & Hf & H).
  destruct (f (blacklist w)) as [r bl'] eqn:Ef. injection Hf as -> <-.
  unfold summarize in H. go_inv. cbn. split; [done|].
  erewrite (st_bind_step (gets _)) by reflexivity. cbn. rewrite lookup_insert_eq. cbn.
  rewrite (Hjson _ _ Hsolid Hv). unfold summarize, mbind, st_bind, lift. cbn.
  rewrite Hv2. by eexists.
Qed.

End cache_facts.

(** ** A run *)

Module ExportUtilExample.

#[local] Existing Instance ref_math.
#[local] Existing Instance SnapshotExample.listing.

Lemma namespaces_disjoint_witness :
  strip_prefix (GeneratePrefix ["balance"]) (String.append (GeneratePrefix ["balance"]) "terra1") = Some "terra1".
Proof.
  rewrite (namespaces_disjoint ["balance"] ["balance"] "terra1").
  - reflexivity.
  - reflexivity.
  - repeat constructor; vm_compute; reflexivity.
Defined.

Definition line0 : string * list Z := ("pylon", [100; 400; 0; 0; 200; 0; 0; 0; 0; 0]).

Lemma line0_eq :
  SummarizeProtocolTotals {["addr2" := "addr2"]} SnapshotExample.merged "pylon" = Ok line0.
Proof. vm_compute. reflexivity. Qed.

Lemma summary_adds_up_witness :
  line0 = ("pylon", user_total {["addr2" := "addr2"]} SnapshotExample.merged <$> summary_denoms).
Proof.
  exact (summary_adds_up (ML:=ref_math_laws) (RL:=SnapshotExample.listing_laws)
    {["addr2" := "addr2"]} SnapshotExample.merged "pylon" line0 line0_eq).
Defined.

(** A protocol that pays its user and blacklists its contract; texts that
    decode to the snapshot. *)
Definition paid : SnapshotBalanceAggregateMap := {["alice" := [mkSB "uusd" (Some 10)]]}.
Definition vault (bl : Blacklist) : res SnapshotBalanceAggregateMap * Blacklist :=
  (Ok paid, RegisterAddress "uusd" "vault" bl).

Definition marshal0 (s : SnapshotBalanceAggregateMap) : res string :=
  if decide (s = paid) then Ok "paid" else Err (Errorf "unsupported").
Definition unmarshal0 (out : string) : res SnapshotBalanceAggregateMap :=
  if String.eqb out "paid" then Ok paid else Err (Errorf "unexpected").

Lemma json0 s out : solid s -> marshal0 s = Ok out -> unmarshal0 out = Ok s.
Proof. intros _. unfold marshal0. case_decide as E; [|done]. intros [= <-]. by rewrite E. Qed.

Definition empty : cache_state := mkCache ∅ [] ∅.
Definition first_run := CachedSBA ∅ marshal0 unmarshal0 vault "vault" empty.

Lemma first_run_eq : first_run = (Ok paid, first_run.2).
Proof. vm_compute. reflexivity. Qed.

Lemma cached_run_loses_blacklist_witness :
  blacklist first_run.2 = {["uusd" := ["vault"]]} /\
  exists w2, CachedSBA ∅ marshal0 unmarshal0 vault "vault" (set_blacklist ∅ first_run.2) = (Ok paid, w2) /\
             blacklist w2 = ∅.
Proof.
  destruct (cached_run_loses_blacklist ∅ marshal0 unmarshal0 vault "vault" empty paid first_run.2 ∅
    json0) as [H1 H2].
  - reflexivity.
  - apply map_Forall_singleton. by repeat constructor.
  - exact first_run_eq.
  - split; [rewrite H1; reflexivity|exact H2].
Defined.

End ExportUtilExample.
