(* ===== verification/Derivatives.v ===== *)
(** * Staking derivatives in the exporter

    Models how the exporter turns the derivatives of Luna into Luna:
    [src/app/export/nexus], [lido], [prism], [steak] and the LunaX part of
    [stader].  What the contracts answer to a query, and how JSON texts decode,
    are arguments; the balances of a token are read from the token's storage
    ([ExportUtil]).  An answer carries the fields that the code reads. *)

From Stdlib Require Import ZArith Lia Bool.
From stdpp Require Import base strings list gmap sorting.
From S2P Require Import Prelude Loops Sdk SdkRef Snapshot ExportUtil.
Local Open Scope Z_scope.

Section derivatives.
Context {M : SdkMath} {R : GoRange} {A : Bech32} {B : Type} {BK : BankKeeper B}.
Context (NewIntFromString : string -> option Int).
Context (contract_store : AccAddress -> list (string * string)).

(** The holders of a token ([util.GetCW20AccountsAndBalances] into a new map). *)
Definition cw20_holders (token : string) : res BalanceMap :=
  GetCW20AccountsAndBalances NewIntFromString contract_store token ∅.

(** [rate.MulInt(balance).TruncateInt()]. *)
Definition convert (rate : Dec) (balance : option Int) : res (option Int) :=
  match balance with
  | None => Panic
  | Some b => p ← dec_mul_int rate b; t ← dec_truncate_int p; Ok (Some t)
  end.

(** A conversion of the balances of every address, in place. *)
Fixpoint map_list (f : SnapshotBalance -> res SnapshotBalance) (l : list SnapshotBalance)
    : res (list SnapshotBalance) :=
  match l with
  | [] => Ok []
  | sb :: l' => sb' ← f sb; l'' ← map_list f l'; Ok (sb' :: l'')
  end.

Definition map_balances (f : SnapshotBalance -> res SnapshotBalance) (snapshot : SnapshotBalanceAggregateMap)
    : res SnapshotBalanceAggregateMap :=
  foldM (fun s e => l ← map_list f e.2; Ok (<[e.1 := l]> s)) (range 40 snapshot) snapshot.

Definition resolve (from to : string) (rate : Dec) (sb : SnapshotBalance) : res SnapshotBalance :=
  if String.eqb (Denom sb) from then b ← convert rate (Balance sb); Ok (mkSB to b) else Ok sb.

(** Applying a rate to a map of amounts ([applyExchangeRates] and the loops
    like it). *)
Definition apply_rate (rate : Dec) (balances : BalanceMap) : res BalanceMap :=
  foldM (fun m e => b ← convert rate e.2; Ok (<[e.1 := b]> m)) (range 41 balances) ∅.

(** ** Nexus *)

Definition AddressBLUNAVault : string := "terra1cda4adzngjzcn8quvfu2229s8tedl5t306352x".
Definition AddressCNLUNA : string := "terra1u553zk43jd4rwzc53qrdrq4jc2p8rextyq09dj".
Definition AddressCNLUNAAutoCompounder : string := "terra1au4h305fn4w3zpka2ql59e0t70jnqzu4mj2txx".

(** What the contracts answer: a token's balance of a holder and total supply,
    and the collaterals of the Nexus vault in the Anchor overseer. *)
Context (cw20_balance : string -> string -> res Int) (total_supply : string -> res Int).
Context (vault_collaterals : res (list (string * string))).

(** [getnAssetTobAssetRatio]. *)
Definition getnAssetTobAssetRatio : res Dec :=
  collaterals ← vault_collaterals;
  match collaterals with
  | [] => Panic
  | (_, text) :: _ =>
      supply ← total_supply AddressNLUNA;
      match NewIntFromString text with
      | None => Panic
      | Some bLUNAProvision => dec_quo_int (NewDec bLUNAProvision) supply
      end
  end.

(** [ResolveToBLuna]. *)
Definition ResolveToBLuna (snapshot : SnapshotBalanceAggregateMap) : res SnapshotBalanceAggregateMap :=
  nAssetTobAssetRatio ← getnAssetTobAssetRatio;
  map_balances (resolve DenomNLUNA DenomBLUNA nAssetTobAssetRatio) snapshot.

(** [ExportNexus]. *)
Definition nexus_balance (blacklist : gmap string bool) (ratio : Dec) (s : SnapshotBalanceAggregateMap)
    (e : string * option Int) : res SnapshotBalanceAggregateMap :=
  match blacklist !! e.1 with
  | Some _ => Ok s
  | None => b ← convert ratio e.2; Ok (<[e.1 := [mkSB DenomBLUNA b]]> s)
  end.

Definition ExportNexus (fromLP : SnapshotBalanceAggregateMap) (bl : Blacklist)
    : res SnapshotBalanceAggregateMap :=
  cnLunaHolderMap ← cw20_holders AddressCNLUNA;
  nLunaInAutocompounder ← cw20_balance AddressNLUNA AddressCNLUNAAutoCompounder;
  cnLunaSupply ← total_supply AddressCNLUNA;
  ratio ← dec_quo_int (NewDec cnLunaSupply) nLunaInAutocompounder;
  nLunaHolderMap ← apply_rate ratio cnLunaHolderMap;
  nLunaHolderMapFlat ← cw20_holders AddressNLUNA;
  let blacklist := GetAddressesByDenomMap DenomNLUNA bl in
  let nLunaHoldingsFromLP := PickDenomIntoBalanceMap fromLP DenomNLUNA in
  mergednLunaHolderMap ← MergeMaps nLunaHolderMap [nLunaHolderMapFlat; nLunaHoldingsFromLP];
  nAssetTobAssetRatio ← getnAssetTobAssetRatio;
  foldM (nexus_balance blacklist nAssetTobAssetRatio) (range 42 mergednLunaHolderMap) ∅.

(** ** Lido *)

Definition LidoHub : string := "terra1mtwph2juhj0rvjz7dy92gvl6xvukaxu8rfv8ts".
Definition StLuna : string := "terra1yg3j2s986nyp5z7r2lvt0hx3r0lnd7kwvwwtsc".
Definition BLuna : string := "terra1kc87mu460fwkqte29rquh4hc20m54fxwtsx7gp".

Record LidoState : Type := mkLidoState {
  StLunaExchangeRate : Dec; BLunaExchangeRate : Dec; TotalBondStLuna : Int; TotalBondBLuna : Int }.

(** The hub's state, and the decoding of an unbonding record. *)
Context (lido_state : res LidoState).
Context (decode_unbonding : string -> res (option Int * option Int)).

(** [ExportBSTLunaHolders]. *)
Definition ExportBSTLunaHolders (snapshot : SnapshotBalanceAggregateMap) (bl : Blacklist)
    : res SnapshotBalanceAggregateMap :=
  bondedStLunaHolders ← cw20_holders StLuna;
  s1 ← ApplyBlackList (Add bondedStLunaHolders DenomSTLUNA snapshot) bl;
  bondedBLunaHolders ← cw20_holders BLuna;
  ApplyBlackList (Add bondedBLunaHolders DenomBLUNA s1) bl.

(** [getUnbondingTokens].  The address is the part of the key after the length
    and a quote; a shorter key is out of range. *)
Definition add_unbonding (m : BalanceMap) (wallet : string) (amount : option Int) : res BalanceMap :=
  match amount with
  | None => Panic
  | Some a =>
      if a =? 0 then Ok m
      else
        let m := if is_nil (amount_in m wallet) then <[wallet := Some 0]> m else m in
        sum ← nint_add (amount_in m wallet) amount;
        Ok (<[wallet := sum]> m)
  end.

Definition unbonding_entry (acc : BalanceMap * BalanceMap) (e : string * string)
    : res (BalanceMap * BalanceMap) :=
  panic_if (String.length e.1 <? 47)%nat;;
  let wallet := String.substring 3 44 e.1 in
  '(bLunaAmount, stLunaAmount) ← must (decode_unbonding e.2);
  bLunaHolding ← add_unbonding acc.1 wallet bLunaAmount;
  stLunaHolding ← add_unbonding acc.2 wallet stLunaAmount;
  Ok (bLunaHolding, stLunaHolding).

Definition getUnbondingTokens : res (BalanceMap * BalanceMap) :=
  let prefix := GeneratePrefix ["v2_wait"] in
  lidoHubAddr ← must (AccAddressFromBech32 LidoHub);
  foldM unbonding_entry (iterate_with_prefix (contract_store lidoHubAddr) prefix) (∅, ∅).

(** [ResolveLidoLuna]. *)
Definition resolve_lido (state : LidoState) (sb : SnapshotBalance) : res SnapshotBalance :=
  if String.eqb (Denom sb) DenomBLUNA then resolve DenomBLUNA DenomLUNA (BLunaExchangeRate state) sb
  else resolve DenomSTLUNA DenomLUNA (StLunaExchangeRate state) sb.

Definition ResolveLidoLuna (snapshot : SnapshotBalanceAggregateMap) (bl : Blacklist)
    : res (SnapshotBalanceAggregateMap * Blacklist) :=
  lidoState ← lido_state;
  s1 ← ApplyBlackList snapshot bl;
  s2 ← map_balances (resolve_lido lidoState) s1;
  '(unbondingBluna, unbondingStLuna) ← getUnbondingTokens;
  b ← apply_rate (BLunaExchangeRate lidoState) unbondingBluna;
  s ← apply_rate (StLunaExchangeRate lidoState) unbondingStLuna;
  unbondingLuna ← MergeMaps b [s];
  Ok (Add unbondingLuna DenomLUNA s2, RegisterAddress DenomLUNA LidoHub bl).

(** [ExportLidoRewards]. *)
Definition add_holder (m : BalanceMap) (acc : string) (b : option Int) : res BalanceMap :=
  if is_nil (amount_in m acc) then Ok (<[acc := b]> m)
  else sum ← nint_add (amount_in m acc) b; Ok (<[acc := sum]> m).

Definition collect_holder (acc : string) (m : BalanceMap * BalanceMap) (sb : SnapshotBalance)
    : res (BalanceMap * BalanceMap) :=
  b ← (if String.eqb (Denom sb) DenomBLUNA then add_holder m.1 acc (Balance sb) else Ok m.1);
  st ← (if String.eqb (Denom sb) DenomSTLUNA then add_holder m.2 acc (Balance sb) else Ok m.2);
  Ok (b, st).

Definition nint_quo (a : option Int) (b : Int) : res Int :=
  match a with
  | None => Panic
  | Some x => int_quo x b
  end.

(** [if err != nil { log }]. *)
Definition log_err (c : res unit) : res unit :=
  match c with
  | Panic => Panic
  | _ => Ok tt
  end.

Definition pool_share (state : LidoState) (rewards bond : Int) : res Int :=
  total ← int_add (TotalBondStLuna state) (TotalBondBLuna state);
  part ← int_quo bond total;
  int_mul rewards part.

Definition luna_reward (rewards supply : Int) (holders : BalanceMap) (lunaBalance : BalanceMap)
    (e : string * option Int) : res BalanceMap :=
  part ← nint_quo (amount_in holders e.1) supply;
  amount ← int_mul rewards part;
  add_holder lunaBalance e.1 (Some amount).

Definition ust_reward (rewards supply : Int) (holders : BalanceMap) (ustBalance : BalanceMap)
    (e : string * option Int) : res BalanceMap :=
  part ← nint_quo (amount_in holders e.1) supply;
  ustToAdd ← int_mul rewards part;
  if ustToAdd =? 0 then Ok ustBalance
  else
    let ustBalance := if is_nil (amount_in ustBalance e.1) then <[e.1 := Some 0]> ustBalance else ustBalance in
    (* the sum goes into a copy of the entry *)
    _ ← nint_add (amount_in ustBalance e.1) (Some ustToAdd);
    Ok ustBalance.

Definition ExportLidoRewards (bank : B) (snapshot : SnapshotBalanceAggregateMap) (bl : Blacklist)
    : res SnapshotBalanceAggregateMap :=
  s1 ← ApplyBlackList snapshot bl;
  '(bondedBLunaHolders, bondedStLunaHolders) ←
    foldM (fun m e => foldM (collect_holder e.1) e.2 m) (range 43 s1) (∅, ∅);
  lidoState ← lido_state;
  stLunaTotalSupply ← total_supply StLuna;
  bLunaTotalSupply ← total_supply BLuna;
  stSum ← SumOfDenom s1 DenomSTLUNA;
  log_err (AlmostEqual stSum (Some stLunaTotalSupply) 100000);;
  bSum ← SumOfDenom s1 DenomBLUNA;
  log_err (AlmostEqual bSum (Some bLunaTotalSupply) 100000);;
  lunaRewards ← GetNativeBalance bank DenomLUNA LidoHub;
  stLunaRewards ← pool_share lidoState lunaRewards (TotalBondStLuna lidoState);
  bLunaRewards ← pool_share lidoState lunaRewards (TotalBondBLuna lidoState);
  ustRewards ← GetNativeBalance bank DenomUST LidoHub;
  stLunaUstRewards ← pool_share lidoState ustRewards (TotalBondStLuna lidoState);
  bLunaUstRewards ← pool_share lidoState ustRewards (TotalBondBLuna lidoState);
  lunaBalance ← foldM (luna_reward stLunaRewards stLunaTotalSupply bondedStLunaHolders)
    (range 44 bondedStLunaHolders) ∅;
  _ ← foldM (luna_reward bLunaRewards bLunaTotalSupply bondedBLunaHolders)
    (range 45 bondedBLunaHolders) lunaBalance;
  ustBalance ← foldM (ust_reward stLunaUstRewards stLunaTotalSupply bondedStLunaHolders)
    (range 46 bondedStLunaHolders) ∅;
  _ ← foldM (ust_reward bLunaUstRewards bLunaTotalSupply bondedBLunaHolders)
    (range 47 bondedBLunaHolders) ustBalance;
  Ok s1.

(** ** Prism *)

Definition PrismVault : string := "terra1xw3h7jsmxvh6zse74e4099c6gl03fnmxpep76h".
Definition PrismCLuna : string := "terra13zaagrrrxj47qjwczsczujlvnnntde7fdt0mau".
Definition PrismPLuna : string := "terra1tlgelulz9pdkhls6uglfn5lmxarx7f2gxtdzh2".
Definition PrismSwapCLunaPrism : string := "terra1yxgq5y6mw30xy9mmvz9mllneddy9jaxndrphvk".
Definition PrismSwapCLunaPrismLP : string := "terra1vn5c4yf70aasrq50k2xdy3vn2s8vm40wmngljh".
Definition PrismSwapPLunaPrism : string := "terra1persuahr6f8fm6nyup0xjc7aveaur89nwgs5vs".
Definition PrismSwapPLunaPrismLP : string := "terra1rjm3ca2xh2cfm6l6nsnvs6dqzed0lgzdydy7wf".
Definition PrismLimitOrder : string := "terra1zctyc83qmcunc5zww7hzgzmrtxhjhsj4kfgvg6".

Record PrismState : Type := mkPrismState { ExchangeRate : Dec; LastUnbondedBatch : Z }.
Record PoolAsset : Type := mkPoolAsset { Address : string; Native : string; Amount : Int }.

(** An element of a request: the code only uses strings. *)
Inductive json_value : Type := JString (s : string) | JOther.

Context (prism_state : res PrismState) (pool_assets : string -> res (list PoolAsset)).
Context (unbond_requests : string -> res (list (list json_value))).

(** [getBalanceInPool]. *)
Definition getBalanceInPool (pool denom : string) : res Int :=
  assets ← pool_assets pool;
  match List.find (fun asset => String.eqb (Address asset) denom || String.eqb (Native asset) denom) assets with
  | Some asset => Ok (Amount asset)
  | None => Err (Errorf "denom not found in pair")
  end.

(** [resolveCw20LpHoldings]. *)
Definition lp_share (balanceInPool lpSupply : Int) (amount : option Int) : res (option Int) :=
  match amount with
  | None => Panic
  | Some amount => x ← int_mul amount balanceInPool; y ← int_quo x lpSupply; Ok (Some y)
  end.

Definition resolveCw20LpHoldings (token lp pair : string) (bl : Blacklist) : res (BalanceMap * Blacklist) :=
  lpHoldings ← cw20_holders lp;
  lpSupply ← total_supply lp;
  balanceInPool ← getBalanceInPool pair token;
  holdingsInPool ← foldM (fun m e => b ← lp_share balanceInPool lpSupply e.2; Ok (<[e.1 := b]> m))
    (range 48 lpHoldings) ∅;
  denom ← MapContractToDenom token;
  Ok (holdingsInPool, RegisterAddress denom pair bl).

(** [resolvePLunaHoldings]. *)
Definition resolvePLunaHoldings (bl : Blacklist) : res (BalanceMap * Blacklist) :=
  pLunaHoldings ← cw20_holders PrismPLuna;
  '(pLunaHoldingsInPair, bl) ←
    resolveCw20LpHoldings PrismPLuna PrismSwapPLunaPrismLP PrismSwapPLunaPrism bl;
  pLunaHoldings ← MergeMaps pLunaHoldings [pLunaHoldingsInPair];
  Ok (delete PrismSwapPLunaPrism pLunaHoldings, bl).

(** [checkUnbondingCLuna]. *)
Definition unbond_request (acc : string) (lunaHolders : BalanceMap) (r : list json_value) : res BalanceMap :=
  match r !! 1%nat with
  | Some (JString text) =>
      match NewIntFromString text with
      | Some amount => add_holder lunaHolders acc (Some amount)
      | None => Err (Errorf "unable to parse to string")
      end
  | _ => Panic
  end.

Definition checkUnbondingCLuna (cLunaHolders lunaHolders : BalanceMap) : res BalanceMap :=
  foldM (fun lunaHolders e =>
    requests ← unbond_requests e.1;
    foldM (unbond_request e.1) requests lunaHolders) (range 49 cLunaHolders) lunaHolders.

(** [ExportContract]. *)
Definition ExportContract (bl : Blacklist) : res (SnapshotBalanceAggregateMap * Blacklist) :=
  '(pLunaHolding, bl) ← resolvePLunaHoldings bl;
  let snapshot := append_all 50 DenomPLUNA pLunaHolding ∅ in
  '(cLunaHoldingInPair, bl) ←
    resolveCw20LpHoldings PrismCLuna PrismSwapCLunaPrismLP PrismSwapCLunaPrism bl;
  cLunaHolders ← cw20_holders PrismCLuna;
  cLunaHolders ← MergeMaps (delete PrismSwapCLunaPrism cLunaHolders) [cLunaHoldingInPair];
  denom ← MapContractToDenom PrismCLuna;
  let bl := RegisterAddress denom PrismVault bl in
  let snapshot := append_all 51 DenomCLUNA cLunaHolders snapshot in
  _ ← prism_state;
  unbondedLunaHolding ← checkUnbondingCLuna cLunaHolders ∅;
  let snapshot := append_all 52 DenomLUNA unbondedLunaHolding snapshot in
  Ok (snapshot, RegisterAddress DenomLUNA PrismVault bl).

(** [Audit] of Prism: only the supply of pLUNA makes it fail. *)
Definition prism_Audit (bank : B) (snapshot : SnapshotBalanceAggregateMap) : res unit :=
  lunaInVault ← GetNativeBalance bank DenomLUNA PrismVault;
  luna ← SumOfDenom snapshot DenomLUNA;
  log_err (AlmostEqual (Some lunaInVault) luna 100000);;
  cLunaSupply ← total_supply PrismCLuna;
  cLuna ← SumOfDenom snapshot DenomCLUNA;
  log_err (AlmostEqual (Some cLunaSupply) cLuna 200000);;
  pLunaSupply ← total_supply PrismPLuna;
  pLuna ← SumOfDenom snapshot DenomPLUNA;
  AlmostEqual (Some pLunaSupply) pLuna 200000.

(** [swapPLunaToCLuna]. *)
Definition swapPLunaToCLuna (snapshot : SnapshotBalanceAggregateMap) : res SnapshotBalanceAggregateMap :=
  map_balances (fun sb =>
    Ok (if String.eqb (Denom sb) DenomPLUNA then mkSB DenomCLUNA (Balance sb) else sb)) snapshot.

(** [ResolveToLuna] of Prism. *)
Definition prism_ResolveToLuna (snapshot : SnapshotBalanceAggregateMap) (bl : Blacklist)
    : res SnapshotBalanceAggregateMap :=
  s ← ApplyBlackList snapshot bl;
  s ← swapPLunaToCLuna s;
  s ← ApplyBlackList s bl;
  prismState ← prism_state;
  map_balances (resolve DenomCLUNA DenomLUNA (ExchangeRate prismState)) s.

(** ** Prism limit orders *)

Definition PrismLimitOrderTokens : list string := [PrismPLuna; PrismCLuna; DenomLUNA; DenomUST].

Record order : Type := mkOrder { OrderId : Z; Bidder : string; OfferAsset : PoolAsset }.

(** The page of orders that starts after an id. *)
Context (order_page : Z -> res (list order)).

(** [getAllOrders]: the recursion ends with the first page that is not full. *)
Fixpoint getOrders (fuel : nat) (startAfter : Z) (allOrders : list order) : res (option (list order)) :=
  match fuel with
  | O => Ok None
  | S fuel =>
      orders ← order_page startAfter;
      let allOrders := allOrders ++ orders in
      if (length orders <? 10)%nat then Ok (Some allOrders)
      else match last orders with
           | Some o => getOrders fuel (OrderId o) allOrders
           | None => Panic
           end
  end.

Definition getAllOrders (fuel : nat) : res (option (list order)) := getOrders fuel 0 [].

(** [ExportLimitOrderContract], on the orders. *)
Definition offer_in (denom : string) (o : order) : bool :=
  String.eqb (Address (OfferAsset o)) denom || String.eqb (Native (OfferAsset o)) denom.

Definition add_order (holdings : gmap string BalanceMap) (o : order) : res (gmap string BalanceMap) :=
  foldM (fun holdings denom =>
    if offer_in denom o then
      m ← add_holder (default ∅ (holdings !! denom)) (Bidder o) (Some (Amount (OfferAsset o)));
      Ok (<[denom := m]> holdings)
    else Ok holdings) PrismLimitOrderTokens holdings.

Definition limit_order_denoms : list string :=
  [DenomAUST; DenomUST; DenomLUNA; DenomBLUNA; DenomSTLUNA; DenomPLUNA; DenomCLUNA; DenomSTEAK; DenomLUNAX].

Definition token_holdings (holdings : gmap string BalanceMap) (acc : SnapshotBalanceAggregateMap * Blacklist)
    (token : string) : res (SnapshotBalanceAggregateMap * Blacklist) :=
  denom ← MapContractToDenom token;
  Ok (Add (default ∅ (holdings !! token)) denom acc.1, RegisterAddress denom PrismLimitOrder acc.2).

Definition ExportLimitOrderContract (orders : list order) (bl : Blacklist)
    : res (SnapshotBalanceAggregateMap * Blacklist) :=
  holdings ← foldM add_order orders ∅;
  let bl := foldl (fun bl denom => RegisterAddress denom PrismLimitOrder bl) bl limit_order_denoms in
  foldM (token_holdings holdings) PrismLimitOrderTokens (∅, bl).

(** [AuditLOs]. *)
Definition AuditLOs (bank : B) (snapshot : SnapshotBalanceAggregateMap) : res unit :=
  iterM (fun token =>
    contractBalance ← (if contains "terra" token then cw20_balance token PrismLimitOrder
                       else GetNativeBalance bank token PrismLimitOrder);
    denom ← MapContractToDenom token;
    sum ← SumOfDenom snapshot denom;
    AlmostEqual (Some contractBalance) sum 10000) PrismLimitOrderTokens.

(** ** Steak *)

Definition AddressSteakHub : string := "terra15qr8ev2c0a0jswjtfrhfaj5ucgkhjd7la2shlg".
Definition AddressSteakToken : string := "terra1rl4zyexjphwgx6v3ytyljkkc4mrje2pyznaclv".

(** The ids of the previous batches (no batches where the text does not decode),
    the requests of a batch, and the exchange rate of the hub. *)
Context (previous_batches : res (list Z)).
Context (unbond_requests_by_batch : Z -> res (list (string * option Int))).
Context (steak_rate : res Dec).

Definition add_request (balanceMap : BalanceMap) (request : string * option Int) : res BalanceMap :=
  let previousAmount :=
    if is_nil (amount_in balanceMap request.1) then Some 0 else amount_in balanceMap request.1 in
  sum ← nint_add previousAmount request.2;
  Ok (<[request.1 := sum]> balanceMap).

(** [ExportSteak]. *)
Definition ExportSteak (bl : Blacklist) : res (SnapshotBalanceAggregateMap * Blacklist) :=
  let bl := RegisterAddress DenomLUNA AddressSteakHub bl in
  balanceMap ← cw20_holders AddressSteakToken;
  batches ← previous_batches;
  balanceMap ← foldM (fun m id =>
    requests ← unbond_requests_by_batch id; foldM add_request requests m) batches balanceMap;
  rate ← steak_rate;
  finalBalance ← foldM (fun s e =>
    b ← convert rate e.2; AppendOrAddBalance e.1 s (mkSB DenomLUNA b)) (range 53 balanceMap) ∅;
  Ok (finalBalance, RegisterAddress DenomLUNA AddressSteakHub bl).

(** [ResolveSteakLuna]. *)
Definition ResolveSteakLuna (snapshot : SnapshotBalanceAggregateMap) : res SnapshotBalanceAggregateMap :=
  rate ← steak_rate;
  map_balances (resolve DenomSTEAK DenomLUNA rate) snapshot.

(** ** Stader's LunaX *)

Definition LunaX : string := "terra17y9qkl8dfkeg4py7n0g5407emqnemc3yqk5rup".
Definition LunaXState : string := "terra1xacqx447msqp46qmv8k2sq6v5jh9fdj37az898".

Record LunaXUndelegationRequest : Type := mkUndelegation { BatchId : Z; TokenAmount : option Int }.

(** The exchange rate, and a page of the undelegations of a user: the first one,
    or the one after a batch. *)
Context (lunax_rate : res Dec).
Context (undelegation_page : option Z -> string -> res (list LunaXUndelegationRequest)).

(** [GetLunaXUndelegations]: the loop ends with the first empty page. *)
Fixpoint undelegation_loop (fuel : nat) (userAddr : string) (offset : Z)
    (undelegationRequests : list LunaXUndelegationRequest) : res (option (list LunaXUndelegationRequest)) :=
  match fuel with
  | O => Ok None
  | S fuel =>
      lunaXUndelegations ← must (undelegation_page (if offset =? -1 then None else Some offset) userAddr);
      match last lunaXUndelegations with
      | None => Ok (Some undelegationRequests)
      | Some u => undelegation_loop fuel userAddr (BatchId u) (undelegationRequests ++ lunaXUndelegations)
      end
  end.

Definition GetLunaXUndelegations (fuel : nat) (userAddr : string)
    : res (option (list LunaXUndelegationRequest)) :=
  undelegation_loop fuel userAddr (-1) [].

(** [ExportLunaX], on what [GetLunaXUndelegations] answers. *)
Definition add_undelegation (rate : Dec) (address : string) (s : SnapshotBalanceAggregateMap)
    (u : LunaXUndelegationRequest) : res SnapshotBalanceAggregateMap :=
  match TokenAmount u with
  | None => Panic
  | Some a =>
      if a =? 0 then Ok s
      else b ← convert rate (Some a); AppendOrAddBalance address s (mkSB DenomLUNA b)
  end.

Definition lunax_holder (undelegations : string -> res (list LunaXUndelegationRequest)) (rate : Dec)
    (s : SnapshotBalanceAggregateMap) (e : string * option Int) : res SnapshotBalanceAggregateMap :=
  match e.2 with
  | None => Panic
  | Some balance =>
      s ← (if balance =? 0 then Ok s
           else b ← convert rate (Some balance);
                Ok (<[e.1 := balances_of s e.1 ++ [mkSB DenomLUNA b]]> s));
      us ← undelegations e.1;
      foldM (add_undelegation rate e.1) us s
  end.

Definition ExportLunaX (undelegations : string -> res (list LunaXUndelegationRequest)) (bl : Blacklist)
    : res (SnapshotBalanceAggregateMap * Blacklist) :=
  lunaxBalances ← cw20_holders LunaX;
  exchangeRate ← lunax_rate;
  snapshot ← foldM (lunax_holder undelegations exchangeRate) (range 54 lunaxBalances) ∅;
  Ok (snapshot, RegisterAddress DenomLUNA LunaXState bl).

(** [ResolveToLuna] of Stader. *)
Definition stader_ResolveToLuna (snapshot : SnapshotBalanceAggregateMap) : res SnapshotBalanceAggregateMap :=
  er ← lunax_rate;
  map_balances (resolve DenomLUNAX DenomLUNA er) snapshot.

(** [Audit] of LunaX. *)
Definition stader_Audit (bank : B) (snapshot : SnapshotBalanceAggregateMap) : res unit :=
  lunaBalance ← GetNativeBalance bank DenomLUNA LunaXState;
  sum ← SumOfDenom snapshot DenomLUNA;
  AlmostEqual (Some lunaBalance) sum 1000000.

End derivatives.

#[global] Arguments convert {M} rate balance : simpl never.

(** ** Conversions *)

(** What a conversion pays for the balances of an address in a denomination:
    each balance is converted and rounded on its own. *)
Definition converted (rate : Dec) (from : string) (l : list SnapshotBalance) : Z :=
  sumZ (fun b => if String.eqb (Denom b) from then Z.quot (rate * default 0 (Balance b)) precision else 0) l.

(** A snapshot after the balances in [from] became balances in [to]. *)
Definition resolves (from to : string) (rate : Dec) (s s' : SnapshotBalanceAggregateMap) : Prop :=
  forall a d, held s' a d = (if String.eqb from d then 0 else held s a d) +
                            (if String.eqb to d then converted rate from (balances_of s a) else 0).

(** The balances a rate can convert without overflow. *)
Definition convertible (rate : Dec) (b : SnapshotBalance) : Prop :=
  match Balance b with
  | None => False
  | Some x => Z.abs (rate * x) < dec_bound /\ Z.abs (Z.quot (rate * x) precision) < int_bound
  end.

Lemma converted_bounds rate from l :
  0 <= rate -> Forall (fun b => 0 <= default 0 (Balance b)) l ->
  rate * held_list l from - Z.of_nat (length l) * precision <= converted rate from l * precision <=
  rate * held_list l from.
Proof.
  intros Hr Hl. pose proof precision_pos. unfold converted. induction Hl as [|b l Hb _ IH].
  { change (held_list [] from) with 0. rewrite sumZ_nil. cbn. lia. }
  rewrite sumZ_cons, held_list_cons. cbn [length]. destruct (String.eqb (Denom b) from); [|lia].
  rewrite Z.quot_div_nonneg by nia.
  pose proof (Z.div_mod (rate * default 0 (Balance b)) precision ltac:(lia)).
  pose proof (Z.mod_pos_bound (rate * default 0 (Balance b)) precision ltac:(lia)). nia.
Qed.

Section conversion_facts.
Context {M : SdkMath} {ML : SdkMathLaws M} {R : GoRange} {RL : GoRangeLaws R}.

Lemma convert_Ok rate b c :
  convert rate b = Ok c -> exists x, b = Some x /\ c = Some (Z.quot (rate * x) precision).
Proof.
  unfold convert. destruct b as [x|]; [|done]. intros H. go_inv.
  apply dec_mul_int_Ok in Hv as [-> _]. apply dec_truncate_int_Ok in Hv0 as [-> _]. eauto.
Qed.

Lemma convert_total rate b : convertible rate b -> exists c, convert rate (Balance b) = Ok c.
Proof.
  unfold convertible, convert. destruct (Balance b) as [x|]; [|done]. intros [H1 H2].
  rewrite (proj2 (dec_mul_int_Ok rate x _)) by done. cbn.
  rewrite (proj2 (dec_truncate_int_Ok _ _)) by done. cbn. eauto.
Qed.

Lemma map_list_Ok f l l' : map_list f l = Ok l' -> Forall2 (fun b b' => f b = Ok b') l l'.
Proof. revert l'. induction l as [|b l IH]; intros l' H; cbn in H; go_inv; constructor; auto. Qed.

Lemma map_list_total f l : Forall (fun b => exists b', f b = Ok b') l -> exists l', map_list f l = Ok l'.
Proof.
  induction 1 as [|b l [b' Hb] _ [l' IH]]; cbn; [by eauto|]. rewrite Hb. cbn. rewrite IH. cbn. eauto.
Qed.

(** A conversion in place converts the balances of every address. *)
Lemma map_balances_Ok f s s' a :
  map_balances f s = Ok s' -> Forall2 (fun b b' => f b = Ok b') (balances_of s a) (balances_of s' a).
Proof.
  unfold map_balances. intros H.
  apply (foldM_insert_map (fun e => map_list f e.2) s) with (k := a) in H; [|apply range_perm].
  unfold balances_of. destruct (s !! a) as [l|].
  - destruct H as (l' & Hl & ->). by apply map_list_Ok.
  - rewrite H. constructor.
Qed.

Lemma map_balances_total f s :
  (forall a, Forall (fun b => exists b', f b = Ok b') (balances_of s a)) ->
  exists s', map_balances f s = Ok s'.
Proof.
  intros Hf. unfold map_balances. generalize s at 2 as acc. pose proof (range_perm 40 _ s) as Hp.
  assert (Forall (fun e => exists l', map_list f e.2 = Ok l') (range 40 s)) as Hl.
  { apply Forall_forall. intros [k l] Hin. rewrite Hp, elem_of_map_to_list in Hin.
    apply map_list_total. specialize (Hf k). unfold balances_of in Hf. by rewrite Hin in Hf. }
  clear Hp. induction Hl as [|e l [l' He] _ IH]; intros acc; cbn; [by eauto|]. rewrite He. cbn. apply IH.
Qed.

Lemma map_balances_held f g s s' a d :
  (forall b b', f b = Ok b' -> held_list [b'] d = g b) ->
  map_balances f s = Ok s' -> held s' a d = sumZ g (balances_of s a).
Proof.
  intros Hg H%(map_balances_Ok _ _ _ a). unfold held. induction H as [|b b' l l' Hb _ IH]; [done|].
  rewrite sumZ_cons, <- IH, <- (Hg _ _ Hb). rewrite !(held_list_cons b'). change (held_list [] d) with 0. lia.
Qed.

Lemma map_balances_free f s s' d :
  (forall a b b', b ∈ balances_of s a -> f b = Ok b' -> Denom b' <> d) ->
  map_balances f s = Ok s' -> free_of d s'.
Proof.
  intros Hf H a. apply (map_balances_Ok _ _ _ a) in H. specialize (Hf a).
  induction H as [|b b' l l' Hb _ IH]; [apply not_elem_of_nil|].
  rewrite fmap_cons, not_elem_of_cons. split; [|apply IH; intros; eapply Hf; [by right|done]].
  intros ->. eapply Hf; [left|exact Hb|done].
Qed.

Lemma free_of_elem d s a b : free_of d s -> b ∈ balances_of s a -> Denom b <> d.
Proof. intros Hs Hb <-. apply (Hs a). by apply list_elem_of_fmap_2. Qed.

Lemma resolve_denom from to rate b b' :
  resolve from to rate b = Ok b' -> Denom b' = if String.eqb (Denom b) from then to else Denom b.
Proof. unfold resolve. destruct (String.eqb (Denom b) from); intros H; go_inv; done. Qed.

Lemma resolve_Ok from to rate b b' d :
  from <> to -> resolve from to rate b = Ok b' ->
  held_list [b'] d = (if String.eqb from d then 0 else held_list [b] d) +
                     (if String.eqb to d then converted rate from [b] else 0).
Proof.
  intros Hne. unfold resolve, converted. rewrite sumZ_cons, sumZ_nil, !held_list_cons.
  change (held_list [] d) with 0. destruct (String.eqb_spec (Denom b) from) as [E|E]; intros H; go_inv.
  - apply convert_Ok in Hv as (x & Hx & ->). rewrite Hx. cbn.
    destruct (String.eqb to d), (String.eqb (Denom b) d); lia.
  - destruct (String.eqb_spec from d) as [<-|]; [|destruct (String.eqb to d); lia].
    rewrite (proj2 (String.eqb_neq _ _) E). destruct (String.eqb to from); lia.
Qed.

Lemma resolve_resolves from to rate s s' :
  from <> to -> map_balances (resolve from to rate) s = Ok s' -> resolves from to rate s s'.
Proof.
  intros Hne H a d. rewrite (map_balances_held _ _ _ _ a d (fun b b' => resolve_Ok _ _ _ b b' d Hne) H).
  unfold held, held_list, converted. induction (balances_of s a) as [|b l IH].
  { rewrite !sumZ_nil. destruct (String.eqb from d), (String.eqb to d); lia. }
  rewrite !sumZ_cons, IH, !sumZ_nil. destruct (String.eqb from d), (String.eqb to d); lia.
Qed.

Lemma resolve_free_from from to rate s s' :
  from <> to -> map_balances (resolve from to rate) s = Ok s' -> free_of from s'.
Proof.
  intros Hne. apply map_balances_free. intros a b b' _ H. rewrite (resolve_denom _ _ _ _ _ H).
  destruct (String.eqb_spec (Denom b) from); congruence.
Qed.

Lemma resolve_free_other from to rate s s' d :
  map_balances (resolve from to rate) s = Ok s' -> free_of d s -> to <> d -> free_of d s'.
Proof.
  intros H Hs Hd. revert H. apply map_balances_free. intros a b b' Hb H.
  rewrite (resolve_denom _ _ _ _ _ H). destruct (String.eqb (Denom b) from); [done|].
  by eapply free_of_elem.
Qed.

Lemma resolve_total from to rate s :
  (forall a b, b ∈ balances_of s a -> Denom b = from -> convertible rate b) ->
  exists s', map_balances (resolve from to rate) s = Ok s'.
Proof.
  intros H. apply map_balances_total. intros a. apply Forall_forall. intros b Hb. unfold resolve.
  destruct (String.eqb_spec (Denom b) from) as [E|]; [|by eauto].
  destruct (convert_total rate b) as [c Hc]; [by eapply H|]. rewrite Hc. cbn. eauto.
Qed.

Lemma apply_rate_Ok rate m m' k :
  apply_rate rate m = Ok m' ->
  default 0 (amount_in m' k) = Z.quot (rate * default 0 (amount_in m k)) precision.
Proof.
  unfold apply_rate, amount_in. intros H.
  apply (foldM_insert_map (fun e => convert rate e.2) m) with (k := k) in H; [|apply range_perm].
  destruct (m !! k) as [v|]; cbn in *.
  - destruct H as (x & Hc & ->). apply convert_Ok in Hc as (y & -> & ->). done.
  - rewrite H, lookup_empty. cbn. by rewrite Z.mul_0_r.
Qed.

End conversion_facts.

(** ** Pages

    A contract that lists its records in pages: at most [limit] records, in the
    order of their ids, after a given id. *)

Section pages.
Context {T : Type} (id : T -> Z).

Definition after (start : Z) (l : list T) : list T := filter (fun x => start < id x) l.
Definition ascending (l : list T) : Prop := StronglySorted (fun x y => id x < id y) l.

Lemma ascending_after start l : ascending l -> ascending (after start l).
Proof.
  unfold ascending, after. induction 1 as [|x l H IH Hx]; [constructor|]. cbn.
  destruct (decide _); [|done]. constructor; [done|]. rewrite Forall_forall in *.
  intros y [_ Hy]%list_elem_of_filter. by apply Hx.
Qed.

Lemma after_after a b l : a <= b -> after b (after a l) = after b l.
Proof.
  intros Hab. unfold after. induction l as [|x l IH]; [done|].
  rewrite !filter_cons. destruct (decide (a < id x)), (decide (b < id x)); try lia;
    rewrite ?filter_cons, ?decide_True, ?decide_False, ?IH by lia; done.
Qed.

(** Continuing after the last record of a page gives the rest. *)
Lemma after_last n l x : ascending l -> last (take n l) = Some x -> after (id x) l = drop n l.
Proof.
  intros Hl. revert n. induction Hl as [|y l Hl IH Hy]; intros n Hx; [by destruct n|].
  destruct n as [|n]; [done|]. cbn [take drop] in *. unfold after. rewrite filter_cons. fold (after (id x) l).
  destruct (last (take n l)) as [z|] eqn:E.
  - rewrite last_cons, E in Hx. injection Hx as ->. rewrite (IH _ E).
    rewrite decide_False; [done|]. apply last_Some_elem_of in E.
    assert (x ∈ l) as Hin by (rewrite <- (take_drop n l); set_solver).
    rewrite Forall_forall in Hy. specialize (Hy _ Hin). lia.
  - apply last_None in E. rewrite E in Hx. injection Hx as <-.
    rewrite decide_False by lia. assert (after (id y) l = l) as ->.
    { unfold after. clear -Hy. induction Hy as [|z l Hz _ IH]; [done|]. rewrite filter_cons, decide_True by done.
      by rewrite IH. }
    destruct l; [by destruct n|]. destruct n; [done|discriminate].
Qed.

Lemma after_last_lt n start l x : last (take n (after start l)) = Some x -> start < id x.
Proof.
  intros H%last_Some_elem_of. assert (x ∈ after start l) as Hin
    by (rewrite <- (take_drop n (after start l)); set_solver).
  by apply list_elem_of_filter in Hin as [? _].
Qed.

End pages.

(** ** Theorems *)

Lemma getOrders_all order_page all fuel start acc :
  ascending OrderId all -> (forall s, order_page s = Ok (take 10 (after OrderId s all))) ->
  (length (after OrderId start all) < fuel)%nat ->
  getOrders order_page fuel start acc = Ok (Some (acc ++ after OrderId start all)).
Proof.
  intros Ha Hp. revert start acc. induction fuel as [|fuel IH]; intros start acc Hf; [lia|].
  cbn [getOrders]. rewrite Hp. cbn [mbind res_bind]. set (l := after OrderId start all) in *.
  destruct (Nat.ltb_spec (length (take 10 l)) 10) as [Hlt|Hge].
  { rewrite length_take in Hlt. by rewrite take_ge by lia. }
  destruct (last (take 10 l)) as [o|] eqn:E.
  2:{ apply last_None in E. rewrite E in Hge. cbn in Hge. lia. }
  pose proof (after_last_lt OrderId 10 start all o E) as Hlt.
  assert (Hd : after OrderId (OrderId o) all = drop 10 l).
  { rewrite <- (after_after OrderId start) by lia. apply after_last; [by apply ascending_after|done]. }
  rewrite IH, Hd, <- app_assoc, take_drop; [done|].
  rewrite Hd, length_drop. rewrite length_take in Hge. lia.
Qed.

Lemma after_all {T} (id : T -> Z) start l : Forall (fun x => start < id x) l -> after id start l = l.
Proof.
  unfold after. induction 1 as [|x l Hx _ IH]; [done|]. rewrite filter_cons, decide_True by done. by rewrite IH.
Qed.

(** The recursion over the pages of the limit orders ends and collects every
    order once, with one call more than there are orders as a bound on the depth,
    from a contract that lists its orders by id, ten at a time. *)
Theorem orders_complete order_page all :
  ascending OrderId all -> Forall (fun o => 0 < OrderId o) all ->
  (forall s, order_page s = Ok (take 10 (after OrderId s all))) ->
  getAllOrders order_page (S (length all)) = Ok (Some all).
Proof.
  intros Ha H0 Hp. unfold getAllOrders.
  by rewrite (getOrders_all _ all), after_all by (done || rewrite after_all by done; lia).
Qed.

Lemma undelegation_loop_all page all user fuel start acc :
  ascending BatchId all -> Forall (fun u => 0 <= BatchId u) all ->
  page None user = Ok (take 30 all) -> (forall s, page (Some s) user = Ok (take 30 (after BatchId s all))) ->
  -1 <= start -> (length (after BatchId start all) < fuel)%nat ->
  undelegation_loop page fuel user start acc = Ok (Some (acc ++ after BatchId start all)).
Proof.
  intros Ha H0 Hn Hp. revert start acc. induction fuel as [|fuel IH]; intros start acc Hs Hf; [lia|].
  cbn [undelegation_loop]. set (l := after BatchId start all) in *.
  assert (page (if start =? -1 then None else Some start) user = Ok (take 30 l)) as ->.
  { destruct (Z.eqb_spec start (-1)) as [->|]; [|apply Hp]. rewrite Hn. subst l. rewrite after_all; [done|].
    eapply Forall_impl; [exact H0|]. cbn. lia. }
  cbn [mbind res_bind must]. destruct (last (take 30 l)) as [u|] eqn:E.
  - pose proof (after_last_lt BatchId 30 start all u E) as Hlt.
    assert (Hd : after BatchId (BatchId u) all = drop 30 l).
    { rewrite <- (after_after BatchId start) by lia. apply after_last; [by apply ascending_after|done]. }
    assert (l <> []) as Hl by (intros ->; done).
    rewrite IH, Hd, <- app_assoc, take_drop; [done|lia|].
    rewrite Hd, length_drop. destruct l; [done|]. cbn in *. lia.
  - apply last_None in E. destruct l; [|done]. by rewrite app_nil_r.
Qed.

(** The loop over the pages of a user's undelegations ends and collects
    every request once, from a contract that lists them by batch, thirty at a
    time; one step more than there are requests is enough. *)
Theorem undelegations_complete page all user :
  ascending BatchId all -> Forall (fun u => 0 <= BatchId u) all ->
  page None user = Ok (take 30 all) -> (forall s, page (Some s) user = Ok (take 30 (after BatchId s all))) ->
  GetLunaXUndelegations page (S (length all)) user = Ok (Some all).
Proof.
  intros Ha H0 Hn Hp. unfold GetLunaXUndelegations.
  assert (after BatchId (-1) all = all) as E.
  { apply after_all. eapply Forall_impl; [exact H0|]. cbn. lia. }
  rewrite (undelegation_loop_all _ all); rewrite ?E; try done; lia.
Qed.

Section derivative_facts.
Context {M : SdkMath} {ML : SdkMathLaws M} {R : GoRange} {RL : GoRangeLaws R}.

(** Resolving STEAK pays every address its STEAK at the exchange rate: its
    LUNA grows by the value of its STEAK, short by less than one unit for each
    of its balances, no STEAK is left, and nothing else changes; balances that
    the rate converts without overflow are resolved without a panic. *)
Theorem steak_resolved rate s :
  0 <= rate -> holdings_nonneg s ->
  (forall a b, b ∈ balances_of s a -> Denom b = DenomSTEAK -> convertible rate b) ->
  exists s', ResolveSteakLuna (Ok rate) s = Ok s' /\ free_of DenomSTEAK s' /\
  (forall a d, d <> DenomSTEAK -> d <> DenomLUNA -> held s' a d = held s a d) /\
  (forall a, rate * held s a DenomSTEAK - Z.of_nat (length (balances_of s a)) * precision
             <= (held s' a DenomLUNA - held s a DenomLUNA) * precision <= rate * held s a DenomSTEAK).
Proof.
  intros Hr Hs Hc. destruct (resolve_total DenomSTEAK DenomLUNA rate s Hc) as [s' H].
  exists s'. split; [exact H|]. split; [by apply (resolve_free_from _ DenomLUNA rate s)|].
  apply resolve_resolves in H; [|done]. split.
  - intros a d H1 H2. rewrite (H a d). rewrite !(proj2 (String.eqb_neq _ d)) by congruence. lia.
  - intros a. rewrite (H a DenomLUNA). cbn.
    pose proof (converted_bounds rate DenomSTEAK (balances_of s a) Hr). unfold held.
    unfold holdings_nonneg in Hs. unfold balances_of in *. destruct (s !! a) as [l|] eqn:E; cbn in *.
    + specialize (H0 (Hs a l E)). lia.
    + specialize (H0 (Forall_nil_2 _)). change (held_list [] DenomSTEAK) with 0 in *.
      change (converted rate DenomSTEAK []) with 0 in *. lia.
Qed.

(** *** Lido *)

(** The unbonding requests of a wallet, in the storage of the hub. *)
Definition unbonding_of (decode_unbonding : string -> res (option Int * option Int))
    (pick : option Int * option Int -> option Int) (w : string) (e : string * string) : Z :=
  if String.eqb (String.substring 3 44 e.1) w then
    match decode_unbonding e.2 with
    | Ok p => default 0 (pick p)
    | _ => 0
    end
  else 0.

Lemma add_unbonding_Ok m w v m' k :
  add_unbonding m w v = Ok m' ->
  default 0 (amount_in m' k) = default 0 (amount_in m k) + (if String.eqb w k then default 0 v else 0).
Proof.
  unfold add_unbonding. destruct v as [a|]; [|done]. destruct (Z.eqb_spec a 0) as [->|Ha]; intros H.
  { injection H as <-. cbn. destruct (String.eqb w k); lia. }
  apply (merge_amount_Ok m (w, Some a) m') in H as [_ H]. apply H.
Qed.

Lemma getUnbondingTokens_Ok {A : Bech32} (contract_store : AccAddress -> list (string * string))
    decode b st hub w :
  AccAddressFromBech32 LidoHub = Ok hub ->
  getUnbondingTokens contract_store decode = Ok (b, st) ->
  let entries := iterate_with_prefix (contract_store hub) (GeneratePrefix ["v2_wait"]) in
  default 0 (amount_in b w) = sumZ (unbonding_of decode fst w) entries /\
  default 0 (amount_in st w) = sumZ (unbonding_of decode snd w) entries.
Proof.
  intros Hhub H. unfold getUnbondingTokens in H. rewrite Hhub in H. cbn [must mbind res_bind] in H.
  assert (Hstep : forall acc e r, unbonding_entry decode acc e = Ok r ->
    default 0 (amount_in r.1 w) = default 0 (amount_in acc.1 w) + unbonding_of decode fst w e /\
    default 0 (amount_in r.2 w) = default 0 (amount_in acc.2 w) + unbonding_of decode snd w e).
  { clear H. intros acc e r H. unfold unbonding_entry in H. go_inv. unfold unbonding_of. rewrite Hv0.
    apply (add_unbonding_Ok _ _ _ _ w) in Hv1, Hv2. cbn [fst snd]. by rewrite Hv1, Hv2. }
  split.
  - exact (foldM_sum (fun r => default 0 (amount_in r.1 w)) _ _ _ _ _
      (fun acc e r Hr => proj1 (Hstep acc e r Hr)) H).
  - exact (foldM_sum (fun r => default 0 (amount_in r.2 w)) _ _ _ _ _
      (fun acc e r Hr => proj2 (Hstep acc e r Hr)) H).
Qed.

Lemma resolve_lido_Ok state b b' :
  resolve_lido state b = Ok b' ->
  Denom b' <> DenomBLUNA /\ Denom b' <> DenomSTLUNA /\
  (Denom b' = Denom b \/ Denom b' = DenomLUNA) /\
  forall d, held_list [b'] d =
    (if String.eqb DenomBLUNA d || String.eqb DenomSTLUNA d then 0 else held_list [b] d) +
    (if String.eqb DenomLUNA d then converted (BLunaExchangeRate state) DenomBLUNA [b] +
                                    converted (StLunaExchangeRate state) DenomSTLUNA [b] else 0).
Proof.
  unfold resolve_lido. destruct (String.eqb_spec (Denom b) DenomBLUNA) as [E|E]; intros H;
    pose proof (resolve_denom _ _ _ _ _ H) as Hd;
    pose proof (fun d Hne => resolve_Ok _ _ _ _ _ d Hne H) as Hh.
  - rewrite (proj2 (String.eqb_eq _ _) E) in Hd. rewrite Hd. split_and!; [done|done|by right|].
    intros d. rewrite Hh by done. unfold converted. rewrite !sumZ_cons, !sumZ_nil, held_list_cons, E.
    change (held_list [] d) with 0. change (String.eqb DenomBLUNA DenomSTLUNA) with false.
    destruct (String.eqb DenomBLUNA d), (String.eqb DenomSTLUNA d), (String.eqb DenomLUNA d); cbn [orb]; lia.
  - destruct (String.eqb_spec (Denom b) DenomSTLUNA) as [E'|E'].
    + rewrite Hd. split_and!; [done|done|by right|]. intros d. rewrite Hh by done.
      unfold converted. rewrite !sumZ_cons, !sumZ_nil, held_list_cons, E'.
      change (held_list [] d) with 0. change (String.eqb DenomSTLUNA DenomBLUNA) with false.
      destruct (String.eqb DenomBLUNA d), (String.eqb DenomSTLUNA d), (String.eqb DenomLUNA d); cbn [orb]; lia.
    + rewrite Hd. split_and!; [done|done|by left|]. intros d. rewrite Hh by done.
      unfold converted. rewrite !sumZ_cons, !sumZ_nil, held_list_cons.
      change (held_list [] d) with 0. rewrite (proj2 (String.eqb_neq (Denom b) DenomBLUNA)) by done.
      destruct (String.eqb_spec DenomBLUNA d) as [<-|];
        [rewrite (proj2 (String.eqb_neq (Denom b) DenomBLUNA)) by done|];
        destruct (String.eqb DenomSTLUNA _), (String.eqb DenomLUNA _); cbn [orb]; lia.
Qed.

(** C21. Resolving Lido pays every address, in LUNA, its bLUNA and stLUNA that is
    not blacklisted and its unbonding requests in the storage of the hub, each at
    its exchange rate; no bLUNA or stLUNA is left, and other holdings are those
    after the blacklist. *)
Theorem lido_resolved {A : Bech32} (contract_store : AccAddress -> list (string * string))
    state decode s bl s' bl' hub :
  ResolveLidoLuna contract_store (Ok state) decode s bl = Ok (s', bl') ->
  AccAddressFromBech32 LidoHub = Ok hub ->
  let entries := iterate_with_prefix (contract_store hub) (GeneratePrefix ["v2_wait"]) in
  let unbonding rate pick a := Z.quot (rate * sumZ (unbonding_of decode pick a) entries) precision in
  bl' = RegisterAddress DenomLUNA LidoHub bl /\ free_of DenomBLUNA s' /\ free_of DenomSTLUNA s' /\
  exists s1, ApplyBlackList s bl = Ok s1 /\
  (forall a d, d <> DenomBLUNA -> d <> DenomSTLUNA -> d <> DenomLUNA -> held s' a d = held s1 a d) /\
  (forall a, held s' a DenomLUNA = held s1 a DenomLUNA +
     converted (BLunaExchangeRate state) DenomBLUNA (balances_of s1 a) +
     converted (StLunaExchangeRate state) DenomSTLUNA (balances_of s1 a) +
     unbonding (BLunaExchangeRate state) fst a + unbonding (StLunaExchangeRate state) snd a).
Proof.
  intros H Hhub entries unbonding. unfold ResolveLidoLuna in H. go_inv.
  rename v into state, v0 into s1, v1 into s2, v2 into b, v3 into st, v4 into m, x into ub, y into us.
  split; [done|]. split; [|split]; [apply append_all_free; [|done]..|].
  1,2: eapply map_balances_free; [|exact Hv1]; intros ? ? ? _ Hb; by apply resolve_lido_Ok in Hb as (? & ? & _).
  exists s1. split; [done|].
  assert (Hheld : forall a d, held s2 a d =
    (if String.eqb DenomBLUNA d || String.eqb DenomSTLUNA d then 0 else held s1 a d) +
    (if String.eqb DenomLUNA d then converted (BLunaExchangeRate state) DenomBLUNA (balances_of s1 a) +
                                    converted (StLunaExchangeRate state) DenomSTLUNA (balances_of s1 a) else 0)).
  { intros a d. erewrite (map_balances_held _ _ _ _ a d); [|intros; by apply resolve_lido_Ok|exact Hv1].
    unfold held, held_list, converted. induction (balances_of s1 a) as [|c l IH].
    { rewrite !sumZ_nil. destruct (_ || _), (String.eqb DenomLUNA d); lia. }
    rewrite !sumZ_cons, IH, !sumZ_nil. destruct (_ || _), (String.eqb DenomLUNA d); lia. }
  split.
  - intros a d H1 H2 H3. unfold Add. rewrite append_all_held, Hheld.
    rewrite !(proj2 (String.eqb_neq _ d)) by congruence. cbn. lia.
  - intros a. unfold Add. rewrite append_all_held, Hheld. cbn.
    rewrite (MergeMaps_amount _ _ _ a Hv5), sumZ_cons, sumZ_nil.
    rewrite (apply_rate_Ok _ _ _ a Hv3), (apply_rate_Ok _ _ _ a Hv4).
    destruct (getUnbondingTokens_Ok _ _ _ _ _ a Hhub Hv2) as [-> ->]. subst unbonding entries. cbn. lia.
Qed.

(** The rewards of Lido's stakers are computed and dropped: the export of
    the rewards changes nothing but what applying the blacklist changes. *)
Theorem lido_rewards_dropped {A : Bech32} {B} {BK : BankKeeper B} total_supply lido_state (bank : B) s bl s' :
  ExportLidoRewards total_supply lido_state bank s bl = Ok s' -> ApplyBlackList s bl = Ok s'.
Proof. unfold ExportLidoRewards. intros H. go_inv. done. Qed.

(** *** Prism *)

Lemma swapPLunaToCLuna_held s s' :
  swapPLunaToCLuna s = Ok s' ->
  forall a d, held s' a d = if String.eqb DenomPLUNA d then 0
    else held s a d + (if String.eqb DenomCLUNA d then held s a DenomPLUNA else 0).
Proof.
  intros H a d. erewrite (map_balances_held _ (fun b => if String.eqb DenomPLUNA d then 0
    else held_list [b] d + (if String.eqb DenomCLUNA d then held_list [b] DenomPLUNA else 0)) _ _ a d); [| |exact H].
  - unfold held. induction (balances_of s a) as [|b l IH].
    { destruct (String.eqb DenomPLUNA d), (String.eqb DenomCLUNA d); done. }
    rewrite sumZ_cons, IH, !(held_list_cons b l), !(held_list_cons b []).
    change (held_list [] d) with 0. change (held_list [] DenomPLUNA) with 0.
    destruct (String.eqb DenomPLUNA d), (String.eqb DenomCLUNA d); lia.
  - intros b b' [= <-]. destruct (String.eqb_spec (Denom b) DenomPLUNA) as [E|E];
      rewrite !held_list_cons; change (held_list [] d) with 0; change (held_list [] DenomPLUNA) with 0.
    + rewrite E, String.eqb_refl. cbn [Denom Balance].
      destruct (String.eqb_spec DenomPLUNA d) as [<-|];
        [change (String.eqb DenomCLUNA DenomPLUNA) with false|destruct (String.eqb DenomCLUNA d)]; lia.
    + rewrite (proj2 (String.eqb_neq (Denom b) DenomPLUNA)) by done.
      destruct (String.eqb_spec DenomPLUNA d) as [<-|];
        [rewrite (proj2 (String.eqb_neq (Denom b) DenomPLUNA)) by done|destruct (String.eqb DenomCLUNA d)]; lia.
Qed.

(** Resolving Prism counts pLUNA as cLUNA and pays cLUNA in LUNA at the
    exchange rate: after the blacklist, an address holds the cLUNA and the pLUNA
    it held, unless it is blacklisted for them (for pLUNA, also when it is
    blacklisted for cLUNA), and this is converted; no pLUNA or cLUNA is left. *)
Theorem prism_resolved state s bl s' :
  prism_ResolveToLuna (Ok state) s bl = Ok s' ->
  free_of DenomPLUNA s' /\ free_of DenomCLUNA s' /\
  exists s2, resolves DenomCLUNA DenomLUNA (ExchangeRate state) s2 s' /\
  (forall a, held s2 a DenomCLUNA =
     if decide (blacklisted bl a DenomCLUNA) then 0
     else held s a DenomCLUNA + (if decide (blacklisted bl a DenomPLUNA) then 0 else held s a DenomPLUNA)) /\
  (forall a d, d <> DenomCLUNA -> d <> DenomPLUNA ->
     held s2 a d = if decide (blacklisted bl a d) then 0 else held s a d).
Proof.
  unfold prism_ResolveToLuna. intros H. go_inv. rename v into s0, v0 into s1, v1 into s2, v2 into state.
  assert (free_of DenomPLUNA s1) as Hf.
  { eapply map_balances_free; [|exact Hv0]. intros a b b' _ [= <-].
    destruct (String.eqb_spec (Denom b) DenomPLUNA); [done|]. done. }
  split; [eapply resolve_free_other; [exact H| |done]; by eapply ApplyBlackList_free|].
  split; [by apply resolve_free_from in H|]. exists s2. split; [by apply resolve_resolves|].
  pose proof (swapPLunaToCLuna_held _ _ Hv0) as Hs1.
  split.
  - intros a. rewrite (ApplyBlackList_held _ _ _ Hv1), Hs1, !(ApplyBlackList_held _ _ _ Hv).
    change (String.eqb DenomPLUNA DenomCLUNA) with false. rewrite String.eqb_refl.
    destruct (decide (blacklisted bl a DenomCLUNA)), (decide (blacklisted bl a DenomPLUNA)); lia.
  - intros a d H1 H2. rewrite (ApplyBlackList_held _ _ _ Hv1), Hs1, !(ApplyBlackList_held _ _ _ Hv).
    rewrite !(proj2 (String.eqb_neq _ d)) by congruence. destruct (decide (blacklisted bl a d)); lia.
Qed.

Lemma lp_share_Ok pool supply v x :
  lp_share pool supply v = Ok x ->
  supply <> 0 /\ x = Some (Z.quot (default 0 v * pool) supply).
Proof.
  unfold lp_share. destruct v as [a|]; [|done]. intros H. go_inv. rewrite int_mul_spec in Hv.
  apply checked_Ok in Hv as [-> _]. rewrite int_quo_spec in Hv0.
  destruct (Z.eqb_spec supply 0); [done|]. by injection Hv0 as <-.
Qed.

Lemma share_sum_le {T} (f : T -> Z) l pool supply :
  0 < supply -> 0 <= pool -> Forall (fun x => 0 <= f x) l ->
  0 <= sumZ (fun x => Z.quot (f x * pool) supply) l * supply <= sumZ f l * pool.
Proof.
  intros Hs Hp. induction 1 as [|x l Hx _ IH]; [rewrite !sumZ_nil; lia|]. rewrite !sumZ_cons.
  rewrite Z.quot_div_nonneg by nia. pose proof (Z.div_mod (f x * pool) supply ltac:(lia)).
  pose proof (Z.mod_pos_bound (f x * pool) supply ltac:(lia)).
  pose proof (Z.div_pos (f x * pool) supply ltac:(nia) ltac:(lia)). nia.
Qed.

(** What the holders of an LP token are given of a token in the pool is
    never more than the pool holds, when their LP tokens are not more than its
    supply; each gets at most its part. *)
Theorem lp_shares_bounded {A : Bech32} NewIntFromString (contract_store : AccAddress -> list (string * string))
    total_supply pool_assets token lp pair bl h bl' m supply pool :
  resolveCw20LpHoldings NewIntFromString contract_store total_supply pool_assets token lp pair bl = Ok (h, bl') ->
  cw20_holders NewIntFromString contract_store lp = Ok m -> total_supply lp = Ok supply ->
  getBalanceInPool pool_assets pair token = Ok pool ->
  0 < supply -> 0 <= pool -> map_Forall (fun _ v => 0 <= default 0 v) m -> map_sum m <= supply ->
  0 <= map_sum h <= pool /\
  (forall a, default 0 (amount_in h a) * supply <= default 0 (amount_in m a) * pool) /\
  exists denom, MapContractToDenom token = Ok denom /\ blacklisted bl' pair denom.
Proof.
  unfold resolveCw20LpHoldings. intros H Hm Hs Hp Hs0 Hp0 Hpos Hsum. rewrite Hm, Hs, Hp in H.
  cbn [mbind res_bind] in H. go_inv.
  assert (h = (fun v => Some (Z.quot (default 0 v * pool) supply)) <$> m) as ->.
  { apply map_eq. intros k. rewrite lookup_fmap.
    apply (foldM_insert_map (fun e => lp_share pool supply e.2) m) with (k := k) in Hv; [|apply range_perm].
    destruct (m !! k) as [v|]; [|by rewrite Hv, lookup_empty].
    destruct Hv as (x & Hx & ->). by apply lp_share_Ok in Hx as [_ ->]. }
  assert (Forall (fun e => 0 <= default 0 e.2) (map_to_list m)) as Hl.
  { apply Forall_forall. intros [k v] Hin%elem_of_map_to_list. by apply (Hpos k). }
  split; [|split].
  - unfold map_sum in *. rewrite map_to_list_fmap, sumZ_fmap.
    change (0 <= sumZ (fun e => Z.quot (default 0 e.2 * pool) supply) (map_to_list m) <= pool).
    pose proof (share_sum_le (fun e => default 0 e.2) _ pool supply Hs0 Hp0 Hl) as Hx. cbv beta in Hx.
    revert Hx Hsum. generalize (sumZ (fun e : string * option Int => default 0 e.2) (map_to_list m)) as y.
    generalize (sumZ (fun e : string * option Int => Z.quot (default 0 e.2 * pool) supply) (map_to_list m)) as x.
    intros x y Hx Hy. nia.
  - intros a. unfold amount_in. rewrite lookup_fmap. destruct (m !! a) as [v|] eqn:E; cbn; [|lia].
    pose proof (share_sum_le (default 0) [v] pool supply Hs0 Hp0) as Hx. rewrite !sumZ_cons, !sumZ_nil in Hx.
    rewrite !Z.add_0_r in Hx. apply Hx. constructor; [by apply (Hpos a)|done].
  - eexists. split; [done|]. apply RegisterAddress_blacklisted. right. split; reflexivity.
Qed.

(** *** Limit orders *)

Definition offered (token a : string) (o : order) : Z :=
  if offer_in token o && String.eqb (Bidder o) a then Amount (OfferAsset o) else 0.

Lemma add_holder_Ok m k v m' a :
  add_holder m k (Some v) = Ok m' ->
  default 0 (amount_in m' a) = default 0 (amount_in m a) + (if String.eqb k a then v else 0).
Proof.
  unfold add_holder. destruct (amount_in m k) as [x|] eqn:E; cbn; intros H; go_inv.
  - apply nint_add_Ok in Hv as (x' & y & ? & ? & ->). simplify_eq. rewrite amount_insert.
    destruct (String.eqb_spec k a) as [<-|]; [rewrite E; cbn|]; lia.
  - rewrite amount_insert. destruct (String.eqb_spec k a) as [<-|]; [rewrite E; cbn|]; lia.
Qed.

Lemma add_order_Ok h o h' token a :
  token ∈ PrismLimitOrderTokens -> add_order h o = Ok h' ->
  default 0 (amount_in (default ∅ (h' !! token)) a) =
  default 0 (amount_in (default ∅ (h !! token)) a) + offered token a o.
Proof.
  intros Ht H. unfold add_order in H.
  rewrite (foldM_sum (fun h : gmap string (gmap string (option Int)) => default 0 (amount_in (default ∅ (h !! token)) a))
    (fun denom => if String.eqb denom token then offered token a o else 0) _ _ _ _ ) with (2 := H).
  - f_equal. apply (sumZ_pick (fun x => x) (fun _ => offered token a o)); [|done].
    apply (bool_decide_unpack _). by vm_compute.
  - clear H h h'. intros h denom h' H. unfold offered.
    destruct (String.eqb_spec denom token) as [->|Hne].
    + destruct (offer_in token o); cbn; [|go_inv; lia]. go_inv. rewrite lookup_insert_eq. cbn.
      apply (add_holder_Ok _ _ _ _ a Hv).
    + destruct (offer_in denom o); go_inv; [|lia]. rewrite lookup_insert_ne by done. lia.
Qed.

Definition token_denoms : list (string * string) :=
  [(PrismPLuna, DenomPLUNA); (PrismCLuna, DenomCLUNA); (DenomLUNA, DenomLUNA); (DenomUST, DenomUST)].

Lemma token_denoms_mapped : Forall (fun e => MapContractToDenom e.1 = Ok e.2) token_denoms.
Proof. repeat constructor; by vm_compute. Qed.

Lemma token_holdings_Ok h acc l r :
  Forall (fun e => MapContractToDenom e.1 = Ok e.2) l ->
  foldM (token_holdings h) l.*1 acc = Ok r ->
  (forall a d, held r.1 a d = held acc.1 a d +
     sumZ (fun e => if String.eqb e.2 d then default 0 (amount_in (default ∅ (h !! e.1)) a) else 0) l) /\
  (forall a d, blacklisted r.2 a d <-> blacklisted acc.2 a d \/ (a = PrismLimitOrder /\ d ∈ l.*2)).
Proof.
  intros Hl. revert acc. induction Hl as [|[t d] l Ht _ IH]; intros acc H; cbn in H; go_inv.
  { split; intros a d; [rewrite sumZ_nil; lia|]. split; [by left|]. intros [?|[_ []%not_elem_of_nil]]; done. }
  unfold token_holdings in Hv. cbn in Ht. rewrite Ht in Hv. cbn in Hv. injection Hv as <-.
  destruct (IH _ H) as [H1 H2]. cbn [fst snd] in *. split.
  - intros a d'. unfold Add in H1. rewrite H1, append_all_held, sumZ_cons. cbn. lia.
  - intros a d'. rewrite H2, RegisterAddress_blacklisted, fmap_cons, elem_of_cons. cbn. tauto.
Qed.

(** The export of the limit orders gives every bidder, in each of the four
    tokens, the sum of what their orders offer, and blacklists the contract for
    the tokens' denominations. *)
Theorem limit_orders_exported orders bl s bl' :
  ExportLimitOrderContract orders bl = Ok (s, bl') ->
  Forall (fun e => (forall a, held s a e.2 = sumZ (offered e.1 a) orders) /\
                   blacklisted bl' PrismLimitOrder e.2) token_denoms.
Proof.
  unfold ExportLimitOrderContract. intros H. go_inv. rename v into h.
  destruct (token_holdings_Ok h _ token_denoms _ token_denoms_mapped H) as [Hs Hb]. cbn [fst snd] in Hs, Hb.
  apply Forall_forall. intros e He. split.
  - intros a. rewrite Hs. change (held ∅ a e.2) with 0. rewrite Z.add_0_l.
    rewrite (sumZ_pick snd (fun e => default 0 (amount_in (default ∅ (h !! e.1)) a)) e);
      [|apply (bool_decide_unpack _); by vm_compute|done].
    rewrite (foldM_sum (fun h : gmap string (gmap string (option Int)) => default 0 (amount_in (default ∅ (h !! e.1)) a))
      (offered e.1 a) _ _ _ _ (fun b x r => add_order_Ok b x r e.1 a (list_elem_of_fmap_2 fst _ _ He)) Hv).
    by rewrite lookup_empty.
  - apply Hb. right. split; [done|]. by apply list_elem_of_fmap_2.
Qed.

End derivative_facts.

(** ** The theorems on concrete inputs *)

Module DerivativesExample.

#[local] Existing Instance ref_math.
#[local] Existing Instance ref_bech32.
#[local] Existing Instance SnapshotExample.listing.
#[local] Existing Instance SnapshotExample.listing_laws.

Definition order_no (n : nat) : order :=
  mkOrder (Z.of_nat n) "alice" (mkPoolAsset "" "uluna" (Z.of_nat n)).
Definition orders0 : list order := order_no <$> seq 1 25.

Lemma ascending_seq {T} (id : T -> Z) (f : nat -> T) a n :
  (forall k, id (f k) = Z.of_nat k) -> ascending id (f <$> seq a n).
Proof.
  intros Hf. revert a. induction n as [|n IH]; intros a; [constructor|]. cbn. constructor; [apply IH|].
  apply Forall_forall. intros x (k & -> & Hk%elem_of_seq)%list_elem_of_fmap. rewrite !Hf. lia.
Qed.

Lemma orders_complete_witness :
  getAllOrders (fun s => Ok (take 10 (after OrderId s orders0))) 26 = Ok (Some orders0).
Proof.
  apply (orders_complete (fun s => Ok (take 10 (after OrderId s orders0))) orders0).
  - by apply ascending_seq.
  - apply (bool_decide_unpack _). vm_compute. exact I.
  - reflexivity.
Defined.

Definition undelegation_no (n : nat) : LunaXUndelegationRequest := mkUndelegation (Z.of_nat n) (Some 5).
Definition undelegations0 : list LunaXUndelegationRequest := undelegation_no <$> seq 0 65.
Definition page0 (start : option Z) (user : string) : res (list LunaXUndelegationRequest) :=
  Ok (take 30 (match start with None => undelegations0 | Some s => after BatchId s undelegations0 end)).

Lemma undelegations_complete_witness :
  GetLunaXUndelegations page0 66 "alice" = Ok (Some undelegations0).
Proof.
  apply (undelegations_complete page0 undelegations0 "alice").
  - by apply ascending_seq.
  - apply (bool_decide_unpack _). vm_compute. exact I.
  - reflexivity.
  - reflexivity.
Defined.

(** A rate of 1.5. *)
Definition rate0 : Dec := 1500000000000000000.
Definition holder0 : SnapshotBalanceAggregateMap :=
  {["alice" := [mkSB "usteak" (Some 101); mkSB "uluna" (Some 7)]]}.

Definition steak_after : SnapshotBalanceAggregateMap :=
  {["alice" := [mkSB "uluna" (Some 151); mkSB "uluna" (Some 7)]]}.

Lemma steak_after_eq : ResolveSteakLuna (Ok rate0) holder0 = Ok steak_after.
Proof. vm_compute. reflexivity. Qed.

Lemma steak_resolved_witness :
  exists s', ResolveSteakLuna (Ok rate0) holder0 = Ok s' /\ held s' "alice" "usteak" = 0 /\
             150 * precision <= (held s' "alice" "uluna" - 7) * precision <= 152 * precision.
Proof.
  destruct (steak_resolved rate0 holder0) as (s' & H & Hf & _ & Hb).
  - vm_compute. discriminate.
  - apply map_Forall_singleton. repeat constructor; vm_compute; discriminate.
  - intros a b. unfold balances_of, holder0. rewrite lookup_singleton. destruct (decide _); cbn.
    + intros [->|[->|[]%not_elem_of_nil]%elem_of_cons]%elem_of_cons; [|done].
      intros _. split; vm_compute; reflexivity.
    + by intros ?%not_elem_of_nil.
  - rewrite steak_after_eq in H. apply (f_equal (fun r => match r with Ok t => t | _ => ∅ end)) in H. subst s'.
    exists steak_after. split; [exact steak_after_eq|]. split; [exact (free_of_held _ _ "alice" Hf)|].
    vm_compute. split; discriminate.
Defined.

(** A hub with one unbonding request. *)
Definition wallet : string := "terra1aaaaaaaaaaaaaaaaaaaaaaaaaaaaaaaaaaaaaa".
Definition wait_key : string :=
  String.append (GeneratePrefix ["v2_wait"]) (String.append "xx'" (String.append wallet "'1")).
Definition hub_store (addr : AccAddress) : list (string * string) := [(wait_key, "request")].
Definition decode0 (text : string) : res (option Int * option Int) := Ok (Some 10, Some 4).
Definition lido0 : LidoState := mkLidoState rate0 precision 100 100.
Definition lido_holder : SnapshotBalanceAggregateMap :=
  {["alice" := [mkSB "ubluna" (Some 100); mkSB "ustluna" (Some 3)]]}.
Definition lido_bl : Blacklist := {["uluna" := ["pair"]]}.
Definition lido_after : SnapshotBalanceAggregateMap :=
  {["alice" := [mkSB "uluna" (Some 100); mkSB "uluna" (Some 4)]; wallet := [mkSB "uluna" (Some 16)]]}.

Lemma lido_after_eq :
  ResolveLidoLuna hub_store (Ok lido0) decode0 lido_holder lido_bl =
  Ok (lido_after, {["uluna" := ["pair"; LidoHub]]}).
Proof. vm_compute. reflexivity. Qed.

Lemma lido_resolved_witness : free_of "ubluna" lido_after /\ held lido_after wallet "uluna" = 16.
Proof.
  destruct (lido_resolved hub_store lido0 decode0 lido_holder lido_bl _ _ _ lido_after_eq eq_refl)
    as (_ & Hf & _ & _).
  split; [exact Hf|vm_compute; reflexivity].
Defined.

Lemma lido_rewards_eq :
  ExportLidoRewards (fun _ => Ok 1000) (Ok lido0) (mkRefBank ∅ ∅) lido_holder lido_bl = Ok lido_holder.
Proof. vm_compute. reflexivity. Qed.

Lemma lido_rewards_dropped_witness : ApplyBlackList lido_holder lido_bl = Ok lido_holder.
Proof. exact (lido_rewards_dropped _ _ _ _ _ _ lido_rewards_eq). Defined.

Definition prism_holder : SnapshotBalanceAggregateMap :=
  {["alice" := [mkSB "ucluna" (Some 100); mkSB "upluna" (Some 3)]; "pair" := [mkSB "upluna" (Some 50)]]}.
Definition prism_after : SnapshotBalanceAggregateMap :=
  {["alice" := [mkSB "uluna" (Some 150); mkSB "uluna" (Some 4)]; "pair" := [mkSB "uluna" (Some 0)]]}.

Lemma prism_after_eq :
  prism_ResolveToLuna (Ok (mkPrismState rate0 0)) prism_holder {["upluna" := ["pair"]]} = Ok prism_after.
Proof. vm_compute. reflexivity. Qed.

Lemma prism_resolved_witness : free_of "upluna" prism_after /\ free_of "ucluna" prism_after.
Proof.
  destruct (prism_resolved (mkPrismState rate0 0) prism_holder _ prism_after prism_after_eq) as (H1 & H2 & _).
  split; [exact H1|exact H2].
Defined.

(** Three holders of an LP token. *)
Definition parse0 (text : string) : option Int := Some (Z.of_nat (String.length text)).
Definition lp_store (addr : AccAddress) : list (string * string) :=
  (fun e => (String.append (GeneratePrefix ["balance"]) e.1, e.2)) <$>
  [("terra1a", "'1234'"); ("terra1b", "'12345'"); ("terra1c", "'1'")].
Definition assets0 (pool : string) : res (list PoolAsset) := Ok [mkPoolAsset PrismCLuna "" 25].
Definition lp_map : BalanceMap := {["terra1a" := Some 4; "terra1b" := Some 5; "terra1c" := Some 1]}.
Definition lp_result : BalanceMap := {["terra1a" := Some 10; "terra1b" := Some 12; "terra1c" := Some 2]}.

Lemma lp_eq :
  resolveCw20LpHoldings parse0 lp_store (fun _ => Ok 10) assets0 PrismCLuna PrismSwapCLunaPrismLP
    PrismSwapCLunaPrism ∅ = Ok (lp_result, {["ucluna" := [PrismSwapCLunaPrism]]}).
Proof. vm_compute. reflexivity. Qed.

Lemma lp_map_eq : cw20_holders parse0 lp_store PrismSwapCLunaPrismLP = Ok lp_map.
Proof. vm_compute. reflexivity. Qed.

Lemma lp_shares_bounded_witness : 0 <= map_sum lp_result <= 25.
Proof.
  apply (lp_shares_bounded parse0 lp_store (fun _ => Ok 10) assets0 PrismCLuna PrismSwapCLunaPrismLP
    PrismSwapCLunaPrism ∅ lp_result _ lp_map 10 25 lp_eq lp_map_eq).
  - reflexivity.
  - reflexivity.
  - reflexivity.
  - discriminate.
  - unfold lp_map. repeat (apply map_Forall_insert_2; [discriminate|]). apply map_Forall_empty.
  - vm_compute. discriminate.
Defined.

Definition lo_snapshot : SnapshotBalanceAggregateMap := {["alice" := [mkSB "uluna" (Some 325)]]}.
Definition lo_blacklist : Blacklist :=
  foldl (fun bl d => RegisterAddress d PrismLimitOrder bl) ∅ (limit_order_denoms ++ token_denoms.*2).

Lemma lo_eq : ExportLimitOrderContract orders0 ∅ = Ok (lo_snapshot, lo_blacklist).
Proof. vm_compute. reflexivity. Qed.

Lemma limit_orders_exported_witness : blacklisted lo_blacklist PrismLimitOrder "uluna".
Proof.
  pose proof (limit_orders_exported orders0 ∅ lo_snapshot lo_blacklist lo_eq) as H.
  rewrite Forall_forall in H. apply (H (DenomLUNA, DenomLUNA)). by right; right; left.
Defined.

End DerivativesExample.
