(* ===== verification/Holdings.v ===== *)
(** * What the protocol exporters share ([src/app/export])

    Operations on amounts that may be nil, addresses in contract storage, maps
    of holdings that are updated in place, the checks of LP supplies, and the
    queries that return a protocol's records page by page. *)

From Stdlib Require Import ZArith Lia Bool.
From stdpp Require Import base strings list gmap.
From S2P Require Import Prelude Base64 Loops Sdk SdkRef Snapshot ExportUtil Derivatives.
Local Open Scope Z_scope.

(** [map[string]map[string]map[string]sdk.Int]: contract, LP token, user. *)
Abbreviation Map3 := (gmap string (gmap string (gmap string (option Int)))) (only parsing).

(** ** Addresses and keys *)

(** [s[i:j]]. *)
Definition slice (i j : nat) (s : string) : res string :=
  if (String.length s <? j)%nat || (j <? i)%nat then Panic else Ok (String.substring i (j - i) s).

(** [s[i:]]. *)
Definition slice_from (i : nat) (s : string) : res string := slice i (String.length s) s.

(** [addr, _ := sdk.AccAddressFromBech32(s)]: an error leaves it empty. *)
Definition address_or_empty {A : Bech32} (s : string) : AccAddress :=
  match AccAddressFromBech32 s with
  | Ok a => a
  | _ => ""
  end.

(** [AccAddressFromBase64]. *)
Definition AccAddressFromBase64 (s : string) : res AccAddress :=
  let '(addr, ok) := base64_DecodeString s in
  if (ok : bool) then Ok addr else Err (Errorf "illegal base64 data").

Section holdings.
Context {M : SdkMath} {R : GoRange}.

(** ** Amounts: a nil operand is a nil dereference *)

Definition get_int (a : option Int) : res Int :=
  match a with
  | Some x => Ok x
  | None => Panic
  end.

Definition nint_is_zero (a : option Int) : res bool := x ← get_int a; Ok (x =? 0).
Definition nint_is_positive (a : option Int) : res bool := x ← get_int a; Ok (0 <? x).

Definition nint_sub (a b : option Int) : res (option Int) :=
  x ← get_int a; y ← get_int b; z ← int_sub x y; Ok (Some z).

(** [a.Mul(b).Quo(c)]. *)
Definition mul_quo (a b c : option Int) : res (option Int) :=
  x ← get_int a; y ← get_int b; p ← int_mul x y; z ← get_int c; q ← int_quo p z; Ok (Some q).

(** [sdk.NewDecFromInt(a).MulInt(b).QuoInt(c).TruncateInt()]. *)
Definition dec_mul_quo (a b c : option Int) : res (option Int) :=
  x ← get_int a; y ← get_int b; p ← dec_mul_int (NewDec x) y; z ← get_int c; q ← dec_quo_int p z;
  t ← dec_truncate_int q; Ok (Some t).

(** [sdk.NewDecFromInt(a).Quo(rate).TruncateInt()]. *)
Definition dec_quo_trunc (a : option Int) (rate : Dec) : res Int :=
  x ← get_int a; q ← dec_quo (NewDec x) rate; dec_truncate_int q.

(** ** Maps of holdings *)

(** [for k, v := range m { m[k] = f(k, v) }]. *)
Definition update_all (site : nat) (f : string -> option Int -> res (option Int)) (m : BalanceMap) : res BalanceMap :=
  foldM (fun acc e => v ← f e.1 e.2; Ok (<[e.1 := v]> acc)) (range site m) m.

(** Adding every entry of [users] to [m], in place. *)
Definition add_holdings (site : nat) (users m : BalanceMap) : res BalanceMap :=
  foldM (fun m e => add_holder m e.1 e.2) (range site users) m.

(** Crediting the entries of a map to a snapshot. *)
Definition credit_all (site : nat) (denom : string) (m : BalanceMap) (s : SnapshotBalanceAggregateMap)
    : res SnapshotBalanceAggregateMap :=
  foldM (fun s e => AppendOrAddBalance e.1 s (mkSB denom e.2)) (range site m) s.

(** [util.AssertCw20Supply] where the caller drops the error. *)
Definition check_supply (token_info : string -> res (option Int)) (token : string) (holdings : BalanceMap)
    : res unit :=
  supply ← match token_info token with
           | Ok s => Ok s
           | Err _ => Ok None
           | Panic => Panic
           end;
  log_err (AssertCw20Supply supply holdings).

End holdings.

#[global] Arguments mul_quo {M} a b c : simpl never.
#[global] Arguments dec_mul_quo {M} a b c : simpl never.
#[global] Arguments dec_quo_trunc {M} a rate : simpl never.
#[global] Arguments check_supply {M R} token_info token holdings : simpl never.

(** ** Paged queries

    The recursion of the exporters over the pages of a query: it ends with the
    first page that is not full. *)

Section pages.
Context {X C : Type} (page : C -> res (list X)) (limit : nat) (next : X -> C).

Fixpoint pages (fuel : nat) (start : C) (acc : list X) : res (option (list X)) :=
  match fuel with
  | O => Ok None
  | S fuel =>
      items ← page start;
      let acc := acc ++ items in
      if (length items <? limit)%nat then Ok (Some acc)
      else match last items with
           | Some x => pages fuel (next x) acc
           | None => Panic
           end
  end.

(** What a contract answers that has [records], in this order: the first page,
    and the page after a record. *)
Definition paged (start : C) (records : list X) : Prop :=
  page start = Ok (take limit records) /\
  forall pre x post, records = pre ++ x :: post -> page (next x) = Ok (take limit post).

Lemma pages_all start records :
  (0 < limit)%nat -> paged start records ->
  forall fuel, (length records < fuel)%nat -> pages fuel start [] = Ok (Some records).
Proof.
  intros Hl [H0 Hn].
  assert (Hx : forall fuel pre post c, records = pre ++ post -> page c = Ok (take limit post) ->
    (length post < fuel)%nat -> pages fuel c pre = Ok (Some records)).
  { induction fuel as [|fuel IH]; intros pre post c Hr Hc Hf; [lia|]. cbn [pages]. rewrite Hc. cbn [mbind res_bind]. cbv zeta.
    destruct (Nat.ltb_spec (length (take limit post)) limit) as [Hlt|Hge].
    - rewrite length_take in Hlt. rewrite take_ge by lia. by rewrite Hr.
    - destruct (last (take limit post)) as [x|] eqn:Ex.
      + apply last_Some in Ex as [p Hp].
        assert (Hpost : post = p ++ x :: drop limit post).
        { rewrite <- (take_drop limit post) at 1. rewrite Hp. by rewrite <- app_assoc. }
        assert (Hlp : length post = (length p + S (length (drop limit post)))%nat)
          by (rewrite Hpost at 1; by rewrite length_app).
        apply (IH _ (drop limit post)); [| |lia].
        * by rewrite <- app_assoc, take_drop.
        * apply (Hn (pre ++ p)). rewrite Hr, <- app_assoc. f_equal. exact Hpost.
      + apply last_None in Ex. rewrite Ex in Hge. cbn in Hge. lia. }
  intros fuel Hf. by apply (Hx fuel [] records).
Qed.

(** The loop of other exporters, which ends with the first empty page. *)
Section page_loop.
Context {T : Type} (body : T -> X -> res T).

Fixpoint page_loop (fuel : nat) (start : C) (t : T) : res (option T) :=
  match fuel with
  | O => Ok None
  | S fuel =>
      items ← page start;
      match last items with
      | None => Ok (Some t)
      | Some x => t ← foldM body items t; page_loop fuel (next x) t
      end
  end.

Lemma foldM_app_res l1 l2 t : foldM body (l1 ++ l2) t = t' ← foldM body l1 t; foldM body l2 t'.
Proof. revert t. induction l1 as [|x l1 IH]; intros t; [done|]. cbn. by destruct (body t x) as [t'| |]; cbn. Qed.

(** The loop handles every record of the contract, once and in order. *)
Lemma page_loop_all start records t :
  (0 < limit)%nat -> paged start records ->
  forall fuel, (length records < fuel)%nat ->
  page_loop fuel start t = t' ← foldM body records t; Ok (Some t').
Proof.
  intros Hl [H0 Hn].
  assert (Hx : forall fuel pre post c t, records = pre ++ post -> page c = Ok (take limit post) ->
    (length post < fuel)%nat -> page_loop fuel c t = t' ← foldM body post t; Ok (Some t')).
  { induction fuel as [|fuel IH]; intros pre post c t0 Hr Hc Hf; [lia|]. cbn [page_loop]. rewrite Hc.
    cbn [mbind res_bind]. destruct (last (take limit post)) as [x|] eqn:Ex.
    - apply last_Some in Ex as [p Hp].
      assert (Hpost : post = p ++ x :: drop limit post).
      { rewrite <- (take_drop limit post) at 1. rewrite Hp. by rewrite <- app_assoc. }
      assert (Hlp : length post = (length p + S (length (drop limit post)))%nat)
        by (rewrite Hpost at 1; by rewrite length_app).
      assert (Hsplit : foldM body post t0 = t1 ← foldM body (take limit post) t0; foldM body (drop limit post) t1)
        by (rewrite <- foldM_app_res; by rewrite take_drop).
      rewrite Hsplit. destruct (foldM body (take limit post) t0) as [t1| |]; cbn [mbind res_bind]; [|done..].
      apply (IH (pre ++ take limit post)); [| |lia].
      + by rewrite <- app_assoc, take_drop.
      + apply (Hn (pre ++ p)). rewrite Hr, <- app_assoc. f_equal. exact Hpost.
    - apply last_None in Ex. destruct post as [|y post]; [done|]. destruct limit; [lia|done]. }
  intros fuel Hf. by apply (Hx fuel [] records).
Qed.

End page_loop.

End pages.

(** What follows a paged query; without enough fuel there is no answer. *)
Definition with_pages {X Y} (c : res (option X)) (k : X -> res Y) : res (option Y) :=
  o ← c;
  match o with
  | None => Ok None
  | Some x => y ← k x; Ok (Some y)
  end.

Lemma with_pages_Ok {X Y} (c : res (option X)) (k : X -> res Y) y :
  with_pages c k = Ok (Some y) <-> exists x, c = Ok (Some x) /\ k x = Ok y.
Proof.
  unfold with_pages. split.
  - intros H. go_inv. destruct v as [x|]; [|done]. go_inv. eauto.
  - intros (x & -> & Hk). cbn. by rewrite Hk.
Qed.

(** ** Facts *)

Section holdings_facts.
Context {M : SdkMath} {ML : SdkMathLaws M} {R : GoRange} {RL : GoRangeLaws R}.

Lemma get_int_Ok a x : get_int a = Ok x <-> a = Some x.
Proof. destruct a; cbn; naive_solver. Qed.

Lemma nint_is_zero_Ok a b : nint_is_zero a = Ok b -> exists x, a = Some x /\ b = (x =? 0).
Proof. unfold nint_is_zero. intros H. go_inv. apply get_int_Ok in Hv as ->. eauto. Qed.

Lemma mul_quo_Ok a b c r :
  mul_quo a b c = Ok r ->
  exists x y z, a = Some x /\ b = Some y /\ c = Some z /\ z <> 0 /\ r = Some (Z.quot (x * y) z).
Proof.
  unfold mul_quo. intros H. go_inv. apply get_int_Ok in Hv, Hv0, Hv2 as ->. subst.
  rewrite int_mul_spec in Hv1. apply checked_Ok in Hv1 as [-> _]. rewrite int_quo_spec in Hv3.
  destruct (Z.eqb_spec v2 0); [done|]. injection Hv3 as <-. eauto 10.
Qed.

(** With decimals the result is the same: the scale cancels. *)
Lemma dec_mul_quo_Ok a b c r :
  dec_mul_quo a b c = Ok r ->
  exists x y z, a = Some x /\ b = Some y /\ c = Some z /\ z <> 0 /\ r = Some (Z.quot (x * y) z).
Proof.
  unfold dec_mul_quo, NewDec. intros H. go_inv. apply get_int_Ok in Hv, Hv0, Hv2 as ->. subst.
  rewrite dec_mul_int_spec in Hv1. apply checked_Ok in Hv1 as [-> _]. rewrite dec_quo_int_spec in Hv3.
  destruct (Z.eqb_spec v2 0) as [|Hz]; [done|]. injection Hv3 as <-.
  rewrite dec_truncate_int_spec in Hv4. apply checked_Ok in Hv4 as [-> _].
  exists v, v0, v2. repeat (split; [done|]). f_equal. unfold precision. rewrite Z.quot_quot by lia.
  rewrite (Z.mul_comm v2). replace (v * 10 ^ 18 * v0) with (10 ^ 18 * (v * v0)) by ring.
  by rewrite Z.quot_mul_cancel_l by lia.
Qed.

(** An address that is stored in base64 is read back. *)
Lemma AccAddressFromBase64_encoded a : AccAddressFromBase64 (base64_EncodeToString a) = Ok a.
Proof. unfold AccAddressFromBase64. by rewrite base64_decoded. Qed.

(** *** Maps *)

Lemma amount_delete (m : BalanceMap) w a :
  amount_in (delete w m) a = if String.eqb w a then None else amount_in m a.
Proof.
  unfold amount_in. destruct (String.eqb_spec w a) as [->|].
  - by rewrite lookup_delete_eq.
  - by rewrite lookup_delete_ne.
Qed.

Lemma map_sum_delete (m : BalanceMap) k : map_sum (delete k m) = map_sum m - default 0 (amount_in m k).
Proof.
  unfold map_sum, amount_in. destruct (m !! k) as [v|] eqn:E; cbn.
  - rewrite <- (insert_id m k v E) at 2.
    rewrite <- insert_delete_eq, (map_to_list_insert _ k v) by apply lookup_delete_eq.
    rewrite sumZ_cons. cbn. lia.
  - rewrite delete_id by done. lia.
Qed.

Lemma map_sum_perm (m : BalanceMap) l :
  l ≡ₚ map_to_list m -> sumZ (fun e => default 0 e.2) l = map_sum m.
Proof. intros H. unfold map_sum. by apply sumZ_perm. Qed.

Lemma add_holder_any m k v m' :
  add_holder m k v = Ok m' ->
  (forall a, default 0 (amount_in m' a) = default 0 (amount_in m a) + (if String.eqb k a then default 0 v else 0)) /\
  map_sum m' = map_sum m + default 0 v.
Proof.
  unfold add_holder. destruct (amount_in m k) as [x|] eqn:E; cbn; intros H; go_inv.
  - apply nint_add_Ok in Hv as (x' & y & ? & -> & ->). simplify_eq. rewrite map_sum_insert, E. cbn.
    split; [|lia]. intros a. rewrite amount_insert. destruct (String.eqb_spec k a) as [<-|]; [rewrite E; cbn|]; lia.
  - rewrite map_sum_insert, E. cbn. split; [|lia]. intros a. rewrite amount_insert.
    destruct (String.eqb_spec k a) as [<-|]; [rewrite E; cbn|]; lia.
Qed.

Lemma add_holdings_Ok site users m m' :
  add_holdings site users m = Ok m' ->
  (forall a, default 0 (amount_in m' a) = default 0 (amount_in m a) + default 0 (amount_in users a)) /\
  map_sum m' = map_sum m + map_sum users.
Proof.
  unfold add_holdings. intros H. pose proof (range_perm site _ users) as Hp. split.
  - intros a. rewrite <- (sumZ_amounts users _ a Hp).
    apply (foldM_sum (fun m => default 0 (amount_in m a))
      (fun e => if String.eqb e.1 a then default 0 e.2 else 0)) in H; [done|].
    intros m0 e m1 H1. by apply add_holder_any in H1 as [H1 _].
  - rewrite <- (map_sum_perm users _ Hp).
    apply (foldM_sum map_sum (fun e => default 0 e.2)) in H; [done|].
    intros m0 e m1 H1. by apply add_holder_any in H1 as [_ H1].
Qed.

Lemma MergeMaps_sum m0 m1 m : MergeMaps m0 [m1] = Ok m -> map_sum m = map_sum m0 + map_sum m1.
Proof.
  unfold MergeMaps. rewrite (foldl_insert_entries m0) by apply range_perm. cbn [foldM]. intros H. go_inv.
  rewrite <- (map_sum_perm m1 _ (range_perm 28 _ m1)).
  apply (foldM_sum map_sum (fun e => default 0 e.2)) in Hv; [done|].
  intros m2 [k v] m3. unfold merge_amount. cbn. intros H. go_inv.
  apply nint_add_Ok in Hv0 as (x & y & Hx & -> & ->). rewrite map_sum_insert.
  destruct (amount_in m2 k) as [z|] eqn:E; cbn in *.
  - rewrite E in *. simplify_eq. cbn. lia.
  - rewrite amount_insert, String.eqb_refl in *. simplify_eq. rewrite map_sum_insert, E. cbn. lia.
Qed.

Lemma AlmostEqual_near a b eps u :
  AlmostEqual a b eps = Ok u -> exists x y, a = Some x /\ b = Some y /\ Z.abs (x - y) < eps.
Proof.
  unfold AlmostEqual. destruct a as [x|], b as [y|]; try done. intros H. go_inv.
  rewrite int_sub_spec in Hv. apply checked_Ok in Hv as [-> _].
  exists x, y. split; [done|]. split; [done|].
  match goal with H : negb _ = false |- _ => apply negb_false_iff, Z.ltb_lt in H end. done.
Qed.

(** Updating every entry: the keys stay, and each gets what was computed. *)
Lemma update_all_Ok site f m m' :
  update_all site f m = Ok m' ->
  forall k, match m !! k with
            | Some v => exists x, f k v = Ok x /\ m' !! k = Some x
            | None => m' !! k = None
            end.
Proof.
  unfold update_all. intros H k.
  apply (foldM_insert_map (fun e => f e.1 e.2) m) with (k := k) in H; [|apply range_perm].
  cbn in H. destruct (m !! k); done.
Qed.

Lemma update_all_pure site f g m m' :
  (forall k v x, m !! k = Some v -> f k v = Ok x -> x = g v) -> update_all site f m = Ok m' -> m' = g <$> m.
Proof.
  intros Hg H. apply map_eq. intros k. rewrite lookup_fmap. pose proof (update_all_Ok _ _ _ _ H k) as Hk.
  destruct (m !! k) as [v|] eqn:E; [|done]. destruct Hk as (x & Hx & ->). cbn. f_equal. by eapply Hg.
Qed.

(** A loop that adds up the amounts of a map, none of which may be nil. *)
Lemma strict_sum_Ok site (m : BalanceMap) t :
  foldM (fun t e => nint_add t e.2) (range site m) (Some 0) = Ok t -> t = Some (map_sum m).
Proof.
  rewrite <- (map_sum_perm m _ (range_perm site _ m)). intros H.
  enough (Hx : forall x, foldM (fun t e => nint_add t e.2) (range site m) (Some x) = Ok t ->
    t = Some (x + sumZ (fun e => default 0 e.2) (range site m))) by (by apply Hx in H).
  clear H. induction (range site m) as [|e l IH]; intros x H; cbn in H; go_inv.
  - rewrite sumZ_nil. f_equal. lia.
  - apply nint_add_Ok in Hv as (x' & y & E1 & E2 & ->). injection E1 as <-. apply IH in H as ->.
    rewrite sumZ_cons, E2. cbn. f_equal. lia.
Qed.

(** *** Crediting a snapshot *)

Lemma held_list_one d d' v : held_list [mkSB d v] d' = if String.eqb d d' then default 0 v else 0.
Proof. rewrite held_list_cons. change (held_list [] d') with 0. cbn. lia. Qed.

(** A loop that credits each item to an address. *)
Lemma credits_held {X} (f : SnapshotBalanceAggregateMap -> X -> res SnapshotBalanceAggregateMap)
    (credit : X -> Z) l s s' a d :
  (forall s x s', f s x = Ok s' -> held s' a d = held s a d + credit x) ->
  foldM f l s = Ok s' -> held s' a d = held s a d + sumZ credit l.
Proof. intros Hf H. by apply (foldM_sum (fun s => held s a d) credit) in H. Qed.

Lemma credit_all_held site denom m s s' a d :
  credit_all site denom m s = Ok s' ->
  held s' a d = held s a d + (if String.eqb denom d then default 0 (amount_in m a) else 0).
Proof.
  unfold credit_all. intros H.
  apply (credits_held _ (fun e => if String.eqb e.1 a then held_list [mkSB denom e.2] d else 0) _ _ _ a d) in H;
    [|intros; by apply AppendOrAddBalance_held].
  rewrite H. f_equal. rewrite <- (sumZ_amounts m _ a (range_perm site _ m)).
  erewrite (sumZ_ext _ _ (range site m)); [|apply Forall_true; intros e; by rewrite held_list_one].
  destruct (String.eqb denom d); [done|]. apply sumZ_zero. intros e _. by destruct (String.eqb e.1 a).
Qed.

(** *** Splitting an amount by shares *)

(** The parts of an amount by shares, each rounded down, are together not more
    than the amount, and less than it by at most one unit for each share. *)
Lemma share_sum_ge {T} (f : T -> Z) l pool supply :
  0 < supply -> 0 <= pool -> Forall (fun x => 0 <= f x) l ->
  sumZ f l * pool <= (sumZ (fun x => Z.quot (f x * pool) supply) l + Z.of_nat (length l)) * supply.
Proof.
  intros Hs Hp. induction 1 as [|x l Hx _ IH]; [rewrite !sumZ_nil; cbn; lia|]. rewrite !sumZ_cons.
  rewrite Z.quot_div_nonneg by nia. pose proof (Z.div_mod (f x * pool) supply ltac:(lia)).
  pose proof (Z.mod_pos_bound (f x * pool) supply ltac:(lia)). cbn [length]. rewrite Nat2Z.inj_succ. nia.
Qed.

Lemma map_sum_shares (m : BalanceMap) pool supply :
  0 < supply -> 0 <= pool -> map_Forall (fun _ v => 0 <= default 0 v) m ->
  let m' := (fun v => Some (Z.quot (default 0 v * pool) supply)) <$> m in
  0 <= map_sum m' /\ map_sum m' * supply <= map_sum m * pool <= (map_sum m' + Z.of_nat (size m)) * supply.
Proof.
  intros Hs Hp Hm m'.
  assert (Hl : Forall (fun e => 0 <= default 0 e.2) (map_to_list m))
    by (apply Forall_forall; intros [k v] Hin%elem_of_map_to_list; by apply (Hm k)).
  assert (E : map_sum m' = sumZ (fun e => Z.quot (default 0 e.2 * pool) supply) (map_to_list m))
    by (unfold map_sum, m'; rewrite map_to_list_fmap, sumZ_fmap; apply sumZ_ext, Forall_true; by intros []).
  rewrite E. unfold map_sum. rewrite <- length_map_to_list.
  pose proof (share_sum_le (fun e => default 0 e.2) _ pool supply Hs Hp Hl).
  pose proof (share_sum_ge (fun e => default 0 e.2) _ pool supply Hs Hp Hl). cbv beta in *. nia.
Qed.

(** A deposit that is split among holders by their shares: nobody gets a part of
    it twice, and at most one unit for each holder is lost. *)
Lemma split_deposit site f (m m' : BalanceMap) deposit :
  update_all site (fun _ b => f b) m = Ok m' ->
  (forall b x, f b = Ok x -> exists v, b = Some v /\ x = Some (Z.quot (v * deposit) (map_sum m))) ->
  0 <= deposit -> map_Forall (fun _ v => 0 <= default 0 v) m -> 0 < map_sum m ->
  map_sum m' <= deposit <= map_sum m' + Z.of_nat (size m).
Proof.
  intros H Hf Hd Hpos Hs.
  apply (update_all_pure _ _ (fun v => Some (Z.quot (default 0 v * deposit) (map_sum m)))) in H.
  - subst m'. destruct (map_sum_shares m deposit (map_sum m) Hs Hd Hpos) as (_ & H2 & H3). nia.
  - intros k v x _ Hx. by apply Hf in Hx as (w & -> & ->).
Qed.

Lemma split_mul_quo m deposit b x :
  mul_quo b (Some deposit) (Some (map_sum m)) = Ok x ->
  exists v, b = Some v /\ x = Some (Z.quot (v * deposit) (map_sum m)).
Proof. intros (v & y & z & -> & [= <-] & [= <-] & _ & ->)%mul_quo_Ok. eauto. Qed.

Lemma split_dec_mul_quo m deposit b x :
  dec_mul_quo b (Some deposit) (Some (map_sum m)) = Ok x ->
  exists v, b = Some v /\ x = Some (Z.quot (v * deposit) (map_sum m)).
Proof. intros (v & y & z & -> & [= <-] & [= <-] & _ & ->)%dec_mul_quo_Ok. eauto. Qed.

(** A balance that is split by a ratio that is itself rounded down. *)
Lemma ratio_share x t b :
  0 <= x -> 0 < t -> 0 <= b ->
  let r := Z.quot (Z.quot (x * precision) t * b) precision in 0 <= r /\ r * t <= x * b.
Proof.
  intros Hx Ht Hb r. unfold r, precision.
  set (P := 10 ^ 18). assert (HP : 0 < P) by (unfold P; lia). clearbody P.
  rewrite (Z.quot_div_nonneg (x * P)) by nia. pose proof (Z.div_pos (x * P) t ltac:(nia) Ht) as Hq.
  pose proof (Z.mul_div_le (x * P) t Ht) as H1. set (q := x * P / t) in *. clearbody q.
  rewrite Z.quot_div_nonneg by nia. pose proof (Z.div_pos (q * b) P ltac:(nia) HP).
  pose proof (Z.mul_div_le (q * b) P HP) as H2. set (y := q * b / P) in *. clearbody y.
  split; [done|]. apply Z.mul_le_mono_pos_l with P; [done|]. nia.
Qed.

Lemma ratio_sum_le {T} (f : T -> Z) l x t :
  0 <= x -> 0 < t -> Forall (fun e => 0 <= f e) l ->
  0 <= sumZ (fun e => Z.quot (Z.quot (x * precision) t * f e) precision) l /\
  sumZ (fun e => Z.quot (Z.quot (x * precision) t * f e) precision) l * t <= x * sumZ f l.
Proof.
  intros Hx Ht. induction 1 as [|e l He _ IH]; [rewrite !sumZ_nil; lia|]. rewrite !sumZ_cons.
  pose proof (ratio_share x t (f e) Hx Ht He) as [H1 H2]. cbv zeta in *. nia.
Qed.

(** A loop over the entries of a map that credits each with an amount adds the
    amounts to the total. *)
Lemma credits_total {X} (f : SnapshotBalanceAggregateMap -> X -> res SnapshotBalanceAggregateMap)
    (credit : X -> Z) l s s' d :
  (forall s x s', f s x = Ok s' -> total s' d = total s d + credit x) ->
  foldM f l s = Ok s' -> total s' d = total s d + sumZ credit l.
Proof. intros Hf H. by apply (foldM_sum (fun s => total s d) credit) in H. Qed.

Lemma register_all_blacklisted d l bl a d' :
  blacklisted (foldl (fun bl addr => RegisterAddress d addr bl) bl l) a d' <->
  blacklisted bl a d' \/ (a ∈ l /\ d = d').
Proof.
  revert bl. induction l as [|x l IH]; intros bl; cbn [foldl]; [set_solver|].
  rewrite IH, RegisterAddress_blacklisted, elem_of_cons. naive_solver.
Qed.

End holdings_facts.
