(* ===== verification/Dex.v ===== *)
(** * The exchanges in the exporter

    Models how the exporter gives the liquidity of the pools back to the holders
    of the LP tokens: [src/app/export/terraswap], [astroport], [loop], [tfm] and
    [terrafloki].  The packages have copies of the same types and helpers, which
    are defined once; where a copy differs, the difference is an argument.  The
    pools and pairs the code keeps in two maps with the same keys are one map
    here. *)

From Stdlib Require Import ZArith Lia Bool.
From stdpp Require Import base strings list gmap.
From S2P Require Import Prelude Loops Sdk SdkRef Snapshot ExportUtil Derivatives Holdings.
Local Open Scope Z_scope.

(** ** Types ([types.go]) *)

Record assetInfo : Type := mkAssetInfo { Token : option string; NativeToken : option string }.
Record asset : Type := mkAsset { AssetInfo : assetInfo; AssetAmount : option Int }.
Record pool : Type := mkPool { Asset0 : asset; Asset1 : asset; TotalShare : option Int }.
Record pair : Type := mkPair { ContractAddr : string; LiquidityToken : string }.

Abbreviation PairMap := (gmap string (pool * pair)) (only parsing).
Abbreviation LpHolders := (gmap string (gmap string (option Int))) (only parsing).

(** ** Helpers ([util.go]) *)

Definition target_tokens : list string :=
  [AddressAUST; AddressBLUNA; AddressSTLUNA; AddressCLUNA; AddressPLUNA; AddressNLUNA; AddressSTEAK; AddressLUNAX].

(** [isTargetPool]; [name] is how the copy reads the address of a token. *)
Definition target_asset (name : string -> string) (a : assetInfo) : bool :=
  match NativeToken a with
  | Some denom => String.eqb denom DenomLUNA || String.eqb denom DenomUST
  | None => false
  end ||
  match Token a with
  | Some addr => existsb (String.eqb (name addr)) target_tokens
  | None => false
  end.

Definition isTargetPool (name : string -> string) (p : pool) : bool :=
  target_asset name (AssetInfo (Asset0 p)) || target_asset name (AssetInfo (Asset1 p)).

Definition pickDenomOrContractAddress (a : assetInfo) : res string :=
  match Token a, NativeToken a with
  | Some addr, _ => Ok addr
  | None, Some denom => Ok denom
  | None, None => Panic
  end.

Definition coalesceToBalanceDenom (assetName : string) : option string :=
  snd <$> List.find (fun e => String.eqb assetName e.1)
    [("uusd", DenomUST); ("uluna", DenomLUNA); (AddressAUST, DenomAUST); (AddressBLUNA, DenomBLUNA);
     (AddressSTLUNA, DenomSTLUNA); (AddressCLUNA, DenomCLUNA); (AddressPLUNA, DenomPLUNA);
     (AddressNLUNA, DenomNLUNA); (AddressSTEAK, DenomSTEAK); (AddressLUNAX, DenomLUNAX)].

(** The copy of [tfm]. *)
Definition tfm_coalesceToBalanceDenom (assetName : string) : option string :=
  snd <$> List.find (fun e => String.eqb assetName e.1) [("uusd", DenomUST); ("uluna", DenomLUNA)].

(** [info.StakingToken] or [info.LpToken], and [info.Pair], of an init message. *)
Record stakingInitMsg : Type := mkInitMsg { LpToken : string; StakingToken : string; Pair : string }.
Record stakingHolders : Type := mkStakingHolders { StakingAddr : string; Holdings : gmap string (option Int) }.

(** The denominations for which a pair is blacklisted. *)
Definition pair_denoms : list string :=
  [DenomAUST; DenomUST; DenomLUNA; DenomBLUNA; DenomSTLUNA; DenomPLUNA; DenomCLUNA; DenomSTEAK; DenomLUNAX].

Definition register_pair (pairAddr : string) (bl : Blacklist) : Blacklist :=
  foldl (fun bl denom => RegisterAddress denom pairAddr bl) bl pair_denoms.

#[global] Arguments pair_denoms : simpl never.
#[global] Arguments register_pair pairAddr bl : simpl never.

Section dex.
Context {M : SdkMath} {R : GoRange} {A : Bech32}.
Context (NewIntFromString : string -> option Int).
Context (contract_store : AccAddress -> list (string * string)).

(** What the contracts answer: the pool and the pair of an address, and the
    supply of a token. *)
Context (query_pool : string -> res pool) (query_pair : string -> res pair).
Context (token_info : string -> res (option Int)).

(** The decoding of what is stored: a pair, and the amount and the version of the
    token of a staker, whose errors the code drops. *)
Context (decode_pair : string -> res pair) (decode_reward : string -> option Int * Z).
Context (init_msg : AccAddress -> res stakingInitMsg).

(** ** Shares *)

(** [getShareInAssets]. *)
Definition getShareInAssets (p : pool) (lpAmount totalShare : option Int) : res (option Int * option Int) :=
  total ← get_int totalShare;
  shareRatio ← (if total =? 0 then Ok 0 else lp ← get_int lpAmount; dec_quo (NewDec lp) (NewDec total));
  r0 ← convert shareRatio (AssetAmount (Asset0 p));
  r1 ← convert shareRatio (AssetAmount (Asset1 p));
  Ok (r0, r1).

(** What a holder of LP tokens is given of an asset, and of a pool. *)
Section refund.
Context (coalesce : string -> option string).

Definition refund_asset (a : asset) (refund : option Int) : res (list SnapshotBalance) :=
  name ← pickDenomOrContractAddress (AssetInfo a);
  match coalesce name with
  | Some denom => zero ← nint_is_zero refund; Ok (if (zero : bool) then [] else [mkSB denom refund])
  | None => Ok []
  end.

Definition refund_user (p : pool) (lpBalance : option Int) : res (list SnapshotBalance) :=
  '(r0, r1) ← getShareInAssets p lpBalance (TotalShare p);
  l0 ← refund_asset (Asset0 p) r0;
  l1 ← refund_asset (Asset1 p) r1;
  Ok (l0 ++ l1).

(** [finalBalance[userAddr] = append(finalBalance[userAddr], userBalance...)]. *)
Definition append_refund (p : pool) (s : SnapshotBalanceAggregateMap) (e : string * option Int)
    : res SnapshotBalanceAggregateMap :=
  userBalance ← refund_user p e.2;
  Ok (match userBalance with
      | [] => s
      | _ => <[e.1 := balances_of s e.1 ++ userBalance]> s
      end).

(** [finalBalance.AppendOrAddBalance(userAddr, bal)] for each. *)
Definition add_refund (p : pool) (s : SnapshotBalanceAggregateMap) (e : string * option Int)
    : res SnapshotBalanceAggregateMap :=
  userBalance ← refund_user p e.2;
  foldM (AppendOrAddBalance e.1) userBalance s.

(** The refunds of the pairs. *)
Definition append_refunds (lp_of : pair -> res string) (lpHoldersMap : LpHolders) (pairs : PairMap)
    : res SnapshotBalanceAggregateMap :=
  foldM (fun s e =>
    lpAddr ← lp_of e.2.2;
    foldM (append_refund e.2.1) (range 101 (default ∅ (lpHoldersMap !! lpAddr))) s) (range 100 pairs) ∅.

End refund.

(** ** LP tokens *)

(** The address of a pair's LP token, which is stored in base64. *)
Definition lp_token (p : pair) : res string :=
  lpAddr ← must (AccAddressFromBase64 (LiquidityToken p));
  Ok (AccAddressString lpAddr).

(** The holders of a pair's LP token. *)
Definition lp_holders (lp_of : pair -> res string) (lpHoldersMap : LpHolders) (e : string * (pool * pair))
    : res LpHolders :=
  lpAddr ← lp_of e.2.2;
  supply ← must (token_info lpAddr);
  zero ← nint_is_zero supply;
  if (zero : bool) then Ok lpHoldersMap
  else
    balanceMap ← must (cw20_holders NewIntFromString contract_store lpAddr);
    Ok (<[lpAddr := balanceMap]> lpHoldersMap).

(** A previous export in [lp_file], or the holders of every pair's token. *)
Definition load_lp_holders (lp_file : option (res LpHolders)) (pairs : PairMap) : res LpHolders :=
  lpHoldersMap ← match lp_file with Some data => data | None => Ok ∅ end;
  if (size lpHoldersMap =? 0)%nat then foldM (lp_holders lp_token) (range 102 pairs) lpHoldersMap
  else Ok lpHoldersMap.

(** ** Staked LP tokens *)

(** [normalizeStakingHoldings]. *)
Definition normalizeStakingHoldings (vaultHolding : BalanceMap) (vaultTotal : option Int) : res BalanceMap :=
  shareTotal ← Sum vaultHolding;
  foldM (fun m e => b ← dec_mul_quo e.2 vaultTotal shareTotal; Ok (<[e.1 := b]> m)) (range 103 vaultHolding) ∅.

(** The stakers of a contract ([getStakingHoldings]). *)
Definition staker (balances : BalanceMap) (e : string * string) : BalanceMap :=
  let '(amount, version) := decode_reward e.2 in
  if version =? 0 then <[AccAddressString e.1 := amount]> balances else balances.

Definition stakers (stakingAddr : AccAddress) : BalanceMap :=
  foldl staker ∅ (iterate_with_prefix (contract_store stakingAddr) (GeneratePrefix ["reward"])).

Definition staking_contract (holdings : gmap string stakingHolders) (staking : string)
    : res (gmap string stakingHolders) :=
  stakingAddr ← ToAddress staking;
  initMsg ← init_msg stakingAddr;
  let lpAddress := if negb (String.eqb (StakingToken initMsg) "") then StakingToken initMsg else LpToken initMsg in
  if String.eqb lpAddress "" then Ok holdings
  else Ok (<[lpAddress := mkStakingHolders staking (stakers stakingAddr)]> holdings).

Definition getStakingHoldings (StakingContracts : list string) : res (gmap string stakingHolders) :=
  foldM staking_contract StakingContracts ∅.

(** The LP tokens of a staking contract go to its stakers. *)
Definition resolve_staking (lpHoldersMap : LpHolders) (e : string * stakingHolders) : res LpHolders :=
  let '(lp, staking) := e in
  match lpHoldersMap !! lp with
  | None => Ok lpHoldersMap
  | Some lpHolding =>
      match lpHolding !! StakingAddr staking with
      | None => Ok lpHoldersMap
      | Some amount =>
          sum ← Sum (Holdings staking);
          holdings ← match AlmostEqual amount sum 1000000 with
                     | Ok _ => Ok (Holdings staking)
                     | Err _ => normalizeStakingHoldings (Holdings staking) amount
                     | Panic => Panic
                     end;
          merged ← MergeMaps (delete (StakingAddr staking) lpHolding) [holdings];
          check_supply token_info lp merged;;
          Ok (<[lp := merged]> lpHoldersMap)
      end
  end.

Definition resolve_all_staking (StakingContracts : list string) (lpHoldersMap : LpHolders) : res LpHolders :=
  stakingHoldings ← getStakingHoldings StakingContracts;
  foldM resolve_staking (range 104 stakingHoldings) lpHoldersMap.

(** ** LP tokens of other vaults *)

(** The LP tokens of a vault go to its users. *)
Definition replace_vault (epsilon : Int) (vaultAddr lpAddr : string) (vaultAmount : Int)
    (userHoldings lpHolding : BalanceMap) : res BalanceMap :=
  sum ← Sum userHoldings;
  must (AlmostEqual (Some vaultAmount) sum epsilon);;
  lpHolding ← add_holdings 105 userHoldings lpHolding;
  let lpHolding := delete vaultAddr lpHolding in
  check_supply token_info lpAddr lpHolding;;
  Ok lpHolding.

Definition terraswap_vault (vaultAddr : string) (lpHoldersMap : LpHolders) (e : string * BalanceMap) : res LpHolders :=
  match lpHoldersMap !! e.1 with
  | None => Ok lpHoldersMap
  | Some lpHolding =>
      match amount_in lpHolding vaultAddr with
      | None => Ok lpHoldersMap
      | Some vaultAmount =>
          if vaultAmount =? 0 then Ok lpHoldersMap
          else
            lpHolding ← replace_vault 5000000 vaultAddr e.1 vaultAmount e.2 lpHolding;
            Ok (<[e.1 := lpHolding]> lpHoldersMap)
      end
  end.

Definition astroport_vault (vaultAddr : string) (lpHoldersMap : LpHolders) (e : string * BalanceMap) : res LpHolders :=
  match lpHoldersMap !! e.1 ≫= (.!! vaultAddr) with
  | None => Ok lpHoldersMap
  | Some vaultAmount =>
      amount ← get_int vaultAmount;
      if 0 <? amount then
        lpHolding ← replace_vault 1000000 vaultAddr e.1 amount e.2 (default ∅ (lpHoldersMap !! e.1));
        Ok (<[e.1 := lpHolding]> lpHoldersMap)
      else Ok lpHoldersMap
  end.

Definition replace_vaults (vault : string -> LpHolders -> string * BalanceMap -> res LpHolders)
    (contractLpHolders : Map3) (lpHoldersMap : LpHolders) : res LpHolders :=
  foldM (fun m e => foldM (vault e.1) (range 107 e.2) m) (range 106 contractLpHolders) lpHoldersMap.

(** ** Terraswap *)

Definition AddressTerraswapFactory : string := "terra1ulgw0td86nvs4wtpsc80thv6xelk76ut7a7apj".

Definition terraswap_StakingContracts : list string :=
  ["terra1euaquddnk5eq495x7jjv0c8d5aldx39jeffsxh"; "terra1a7fwra93sw8xy5wz779crks07u3ttf3u4mslfp";
   "terra160jxfrcwrn6nn5ns3zc9qj9c3rnkzlhnnghr9x"; "terra1cf9q9lq7tdfju95sdw78y9e34a6qrq3rrc6dre";
   "terra175ueft8w9vpkj9jvehyjhkpk6szy8unq4lns8n"; "terra1hs4ev0ghwn4wr888jwm56eztfpau6rjcd8mczc";
   "terra1ude6ggsvwrhefw2dqjh4j6r7fdmu9nk6nf2z32"; "terra12kzewegufqprmzl20nhsuwjjq6xu8t8ppzt30a";
   "terra1jprduh6mc5tamy08pvw4c7wh7m7gcu2ej0c407"; "terra1snra29afr9efzt6l34wfnhj3jn90hq6rx8jhje";
   "terra1gw80vdfk028d5qywl86c4culg7q286748c0thz"; "terra1pafra8qj9efnxhv5jq7n4qy0mq5pge8w4k8s2k";
   "terra1pyl3u0v0y7szlj8njctkhys9fvtsl6wva00fd5"; "terra10eyxljyqkcvhs4dgr534hk0wehc28tz6gwnh8a";
   "terra1897an2xux840p9lrh6py3ryankc6mspw49xse3"; "terra1munkej78p9ckry0p6vvkkk94c89tnyjhnxfskl";
   "terra1le3a67j4khkjhyytkllxre60dvywm43ztq2s8t"; "terra1u94zwrreyz3t0jx25nl7800pxsrk6e6dwjqpsx";
   "terra19nek85kaqrvzlxygw20jhy08h3ryjf5kg4ep3l"; "terra1n9a0y0gyn87wnwwa7p8rpjhkljcsls6kvaywc8";
   "terra1fvq04l6pzslhxf7yyxhfmz5hv64xsye8vcmgzt"; "terra1hxyyjpu8548ccwth9pnc5ztgpupnn2a3c9s0f8"].

Definition empty_side (p : pool) : res bool :=
  zero0 ← nint_is_zero (AssetAmount (Asset0 p));
  if (zero0 : bool) then Ok true else nint_is_zero (AssetAmount (Asset1 p)).

Definition terraswap_pair (acc : PairMap * Blacklist) (e : string * string) : res (PairMap * Blacklist) :=
  pair ← must (decode_pair e.2);
  let pairAddr := AccAddressString (ContractAddr pair) in
  let bl := register_pair pairAddr acc.2 in
  match query_pool pairAddr with
  | Panic => Panic
  | Err _ => Ok (acc.1, bl)
  | Ok pool =>
      if negb (isTargetPool id pool) then Ok (acc.1, bl)
      else
        empty ← empty_side pool;
        Ok (if (empty : bool) then acc.1 else <[pairAddr := (pool, pair)]> acc.1, bl)
  end.

(** The entries below a name in the storage of a factory. *)
Definition factory_entries (factory name : string) : list (string * string) :=
  iterate_with_prefix (contract_store (address_or_empty factory)) (GeneratePrefix [name]).

(** [ExportTerraswapLiquidity]. *)
Definition ExportTerraswapLiquidity (lp_file : option (res LpHolders)) (bl : Blacklist) (contractLpHolders : Map3)
    : res (SnapshotBalanceAggregateMap * Blacklist) :=
  '(pairs, bl) ← foldM terraswap_pair (factory_entries AddressTerraswapFactory "pair_info") (∅, bl);
  lpHoldersMap ← load_lp_holders lp_file pairs;
  lpHoldersMap ← resolve_all_staking terraswap_StakingContracts lpHoldersMap;
  lpHoldersMap ← replace_vaults terraswap_vault contractLpHolders lpHoldersMap;
  finalBalance ← append_refunds coalesceToBalanceDenom lp_token lpHoldersMap pairs;
  Ok (finalBalance, bl).

(** ** Astroport *)

Definition AddressAstroportLockdrop : string := "terra1627ldjvxatt54ydd3ns6xaxtd68a2vtyu7kakj".
Definition AddressAstroportFactory : string := "terra1fnywlw4edny3vw44x04xd67uzkdqluymgreu7g".
Definition AddressAstroportGenerator : string := "terra1zgrx9jjqrfye8swykfgmd6hpde60j0nszzupp9".

Definition astroport_StakingContracts : list string :=
  ["terra1fmu29xhg5nk8jr0p603y5qugpk2r0ywcyxyv7k"; "terra13n2sqaj25ugkt79k3evhvua30ut9qt8q0268zc";
   "terra1sxzggeujnxrd7hsx7uf2l6axh2uuv4zz5jadyg"; "terra1h3mf22jm68ddueryuv2yxwfmqxxadvjceuaqz6";
   "terra1cw00274wlje5z8vtlrpaqx5cwj29c5a5ku2zhv"; "terra12vu0rxec60rwg82hlkwdjnqwxrladt00rpllzl";
   "terra1wjc6zd6ue5sqmyucdu8erxj5cdf783tqle6dja"; "terra15p807wnm9q3dyw4rvfqsaukxqt6lkuqe62q3mp";
   "terra188xjhn8h39ert7ezs0m2dlgsqd4vf6k6hmv4jw"; "terra1za0ltkcxjpvfw8wnwhetj5mr5r05pl6dgy936g";
   "terra1r2ucpn7j8qcgvsvkzxr3x0698megrn2kn9nfwq"; "terra1z5uvpz8ny5tz2lng30ff0aqnm5uuvxaat6lwxm";
   "terra10t8rn7swtkmkfm56mmxwmk2v9xrv78fljsd3ez"; "terra19nek85kaqrvzlxygw20jhy08h3ryjf5kg4ep3l";
   "terra1gmggdadphqxua2kewcgn2l57xxteafpne50je0"; "terra100yeqvww74h4yaejj6h733thgcafdaukjtw397";
   "terra17f7zu97865jmknk7p2glqvxzhduk78772ezac5"; "terra1tyjfrx40kgpmf6mq2kyv6njgg59fxpv7pk8dhd";
   "terra1g7jjjkt5uvkjeyhp8ecdz4e4hvtn83sud3tmh2"; "terra1x7v7qvumfl36g5jh0mtqx3c4g8c35sn0sqfuqp"].

(** The decoding of an address, of a deposit in the generator, of the LP token a
    lockdrop pool has moved to, and of the units and the transfer of a lockup;
    and what the generator answers for a deposit, nil after an error. *)
Context (decode_address : string -> res string) (decode_user_info : string -> res (option Int)).
Context (decode_pool_info : string -> res string) (decode_lockup : string -> res (option Int * option Int)).
Context (generator_deposit : string -> string -> option Int).

Definition astroport_pair (acc : PairMap * Blacklist) (e : string * string) : res (PairMap * Blacklist) :=
  pairAddr ← must (decode_address e.2);
  let bl := register_pair pairAddr acc.2 in
  pool ← must (query_pool pairAddr);
  if negb (isTargetPool id pool) then Ok (acc.1, bl)
  else
    zero ← nint_is_zero (TotalShare pool);
    if (zero : bool) then Ok (acc.1, bl)
    else
      pair ← must (query_pair pairAddr);
      Ok (<[pairAddr := (pool, pair)]> acc.1, bl).

(** The holders of the LP tokens, and the deposits in the generator, whose keys
    are the LP token and the user. *)
Definition astroport_holders (pairs : PairMap) : res LpHolders :=
  foldM (fun m e =>
    let lpAddr := LiquidityToken e.2.2 in
    balanceMap ← must (cw20_holders NewIntFromString contract_store lpAddr);
    Ok (<[lpAddr := balanceMap]> m)) (range 108 pairs) ∅.

Definition check_supplies (site : nat) (lpHoldersMap : LpHolders) : res unit :=
  iterM (fun e => check_supply token_info e.1 e.2) (range site lpHoldersMap).

Definition generator_entry (lpHoldersMap : LpHolders) (e : string * string) : res LpHolders :=
  lpAddr ← slice 2 46 e.1;
  userAddress ← slice 46 90 e.1;
  match lpHoldersMap !! lpAddr with
  | None => Ok lpHoldersMap
  | Some holders =>
      amount ← must (decode_user_info e.2);
      let holdInfo := default (Some 0) (holders !! userAddress) in
      sum ← nint_add holdInfo amount;
      Ok (<[lpAddr := <[userAddress := sum]> holders]> lpHoldersMap)
  end.

Definition generator_deposits (lpHoldersMap : LpHolders) : res LpHolders :=
  generator ← ToAddress AddressAstroportGenerator;
  foldM generator_entry (iterate_with_prefix (contract_store generator) (GeneratePrefix ["user_info"])) lpHoldersMap.

(** The staking contracts lose their LP tokens, and so does the generator. *)
Definition remove_staking (lpHolders : BalanceMap) : BalanceMap :=
  foldl (fun lpHolders addr =>
    match lpHolders !! addr with
    | Some _ => delete addr lpHolders
    | None => delete AddressAstroportGenerator lpHolders
    end) lpHolders astroport_StakingContracts.

Definition remove_all_staking (lpHoldersMap : LpHolders) : res LpHolders :=
  foldM (fun m e =>
    let lpHolders := remove_staking e.2 in
    check_supply token_info e.1 lpHolders;;
    Ok (<[e.1 := lpHolders]> m)) (range 109 lpHoldersMap) lpHoldersMap.

Definition astroport_refunds (lpHoldersMap : LpHolders) (pairs : PairMap) : res SnapshotBalanceAggregateMap :=
  foldM (fun s e =>
    let lpAddr := LiquidityToken e.2.2 in
    let holderMap := default ∅ (lpHoldersMap !! lpAddr) in
    check_supply token_info lpAddr holderMap;;
    foldM (add_refund coalesceToBalanceDenom e.2.1) (range 111 holderMap) s) (range 110 pairs) ∅.

(** [ExportAstroportLP]. *)
Definition ExportAstroportLP (bl : Blacklist) (contractLpHolders : Map3)
    : res (SnapshotBalanceAggregateMap * Blacklist) :=
  '(pairs, bl) ← foldM astroport_pair (factory_entries AddressAstroportFactory "pair_info") (∅, bl);
  lpHoldersMap ← astroport_holders pairs;
  check_supplies 112 lpHoldersMap;;
  lpHoldersMap ← generator_deposits lpHoldersMap;
  lpHoldersMap ← remove_all_staking lpHoldersMap;
  lpHoldersMap ← replace_vaults astroport_vault contractLpHolders lpHoldersMap;
  finalBalance ← astroport_refunds lpHoldersMap pairs;
  Ok (finalBalance, bl).

(** ** The lockdrop of Astroport

    The pools of the first loop are only queried. *)

Definition lockdrop_pool (acc : gmap string string * BalanceMap) (e : string * string)
    : res (gmap string string * BalanceMap) :=
  astroLp ← must (decode_pool_info e.2);
  Ok (<[e.1 := astroLp]> acc.1, <[astroLp := generator_deposit astroLp AddressAstroportLockdrop]> acc.2).

Definition lockup_position (liquidityPools : gmap string string) (lpShareHoldings : LpHolders)
    (e : string * string) : res LpHolders :=
  terraswapLPAddress ← slice 2 46 e.1;
  userAddress ← slice 48 92 e.1;
  '(units, transferred) ← must (decode_lockup e.2);
  let astroLp := default "" (liquidityPools !! terraswapLPAddress) in
  let shares := default ∅ (lpShareHoldings !! astroLp) in
  let shares := if is_nil (amount_in shares userAddress) then <[userAddress := Some 0]> shares else shares in
  shares ← (if negb (is_nil units) && is_nil transferred then
              sum ← nint_add (amount_in shares userAddress) units;
              Ok (<[userAddress := sum]> shares)
            else Ok shares);
  Ok (<[astroLp := shares]> lpShareHoldings).

Definition lockdrop_lps (lpLockedInGenerator : BalanceMap) (lpShareHoldings : LpHolders) : res LpHolders :=
  foldM (fun m e =>
    totalShares ← Sum e.2;
    shares ← update_all 114 (fun _ share => mul_quo share (amount_in lpLockedInGenerator e.1) totalShares) e.2;
    Ok (<[e.1 := shares]> m)) (range 113 lpShareHoldings) lpShareHoldings.

(** [ExportAstroportLockdrop]. *)
Definition ExportAstroportLockdrop : res Map3 :=
  let lockdrop := contract_store (address_or_empty AddressAstroportLockdrop) in
  iterM (fun e => pairAddr ← must (decode_address e.2); _ ← must (query_pool pairAddr); Ok tt)
    (factory_entries AddressAstroportFactory "pair_info");;
  '(liquidityPools, lpLockedInGenerator) ←
    foldM lockdrop_pool (iterate_with_prefix lockdrop (GeneratePrefix ["LiquidityPools"])) (∅, ∅);
  lpShareHoldings ← foldM (lockup_position liquidityPools)
    (iterate_with_prefix lockdrop (GeneratePrefix ["lockup_position"])) ∅;
  lpShareHoldings ← lockdrop_lps lpLockedInGenerator lpShareHoldings;
  Ok {[AddressAstroportLockdrop := lpShareHoldings]}.

(** ** Loop

    Here the LP token of a pair is stored as bytes. *)

Definition AddressLoopFactory1 : string := "terra16hdjuvghcumu6prg22cdjl96ptuay6r0hc6yns".
Definition AddressLoopFactory2 : string := "terra10fp5e9m5avthm76z2ujgje2atw6nc87pwdwtww".
Definition AddressLoopFarm1 : string := "terra1swgnlreprmfjxf2trul495uh4yphpkqucls8fv".
Definition AddressLoopFarm2 : string := "terra1cr7ytvgcrrkymkshl25klgeqxfs48dq4rv8j26".

(** The fLP token that a farm has for an LP token, empty for none, and the balance
    of a holder of a token. *)
Context (flp_token : string -> string -> res string) (cw20_balance : string -> string -> res Int).

Definition loop_pair (acc : PairMap * Blacklist) (e : string * string) : res (PairMap * Blacklist) :=
  pair ← must (decode_pair e.2);
  let pairAddr := AccAddressString (ContractAddr pair) in
  let bl := register_pair pairAddr acc.2 in
  match query_pool pairAddr with
  | Panic => Panic
  | Err _ => Ok (acc.1, bl)
  | Ok pool =>
      if negb (isTargetPool AccAddressString pool) then Ok (acc.1, bl)
      else Ok (<[pairAddr := (pool, pair)]> acc.1, bl)
  end.

Definition loop_lp (p : pair) : res string := Ok (AccAddressString (LiquidityToken p)).

(** The second of the two sorted addresses. *)
Definition later_string (a b : string) : string := if String.leb a b then b else a.

Definition loop_farm (lpHoldersMap : LpHolders) (e : string * BalanceMap) : res LpHolders :=
  flp0 ← flp_token (AccAddressString (address_or_empty AddressLoopFarm1)) e.1;
  flp1 ← flp_token (AccAddressString (address_or_empty AddressLoopFarm2)) e.1;
  let flpAddr := later_string flp0 flp1 in
  if String.eqb flpAddr "" then Ok lpHoldersMap
  else
    holdermap ← update_all 116 (fun userAddr userHolding =>
      lpBalance ← cw20_balance flpAddr userAddr; nint_add userHolding (Some lpBalance)) e.2;
    Ok (<[e.1 := holdermap]> lpHoldersMap).

(** [exportLoopPerFactory] and [ExportLoopLP]. *)
Definition exportLoopPerFactory (factoryAddress : string) (bl : Blacklist)
    : res (SnapshotBalanceAggregateMap * Blacklist) :=
  '(pairs, bl) ← foldM loop_pair (factory_entries factoryAddress "pair_info") (∅, bl);
  lpHoldersMap ← foldM (lp_holders loop_lp) (range 117 pairs) ∅;
  lpHoldersMap ← foldM loop_farm (range 115 lpHoldersMap) lpHoldersMap;
  finalBalance ← append_refunds coalesceToBalanceDenom loop_lp lpHoldersMap pairs;
  Ok (finalBalance, bl).

Definition ExportLoopLP (bl : Blacklist) : res (SnapshotBalanceAggregateMap * Blacklist) :=
  '(factoryRun1, bl) ← exportLoopPerFactory AddressLoopFactory1 bl;
  '(factoryRun2, bl) ← exportLoopPerFactory AddressLoopFactory2 bl;
  s ← MergeSnapshots [factoryRun1; factoryRun2];
  Ok (s, bl).

(** ** TFM *)

Definition AddressTfmFactory : string := "terra1u27ypputx3pu865luzs4fpjsj4llsnzf9qeq2p".

Definition tfm_StakingContracts : list string :=
  ["terra1nmheu06jz6mxsg5n8nnmyn6fxgnvxzk28femx2"; "terra1vsd2sgk47tm262q7l3eq74u9rrek4ucn2w2jm5";
   "terra1ar2lwxegfnap7umqx9ljp0wytt3t76yyc8ys2z"; "terra1uccez5grl2sr8xd4rswtgtc7ewf8ugfvcfutv5";
   "terra1x3fcujqgk8uvn8vssw52jtwtanlu3shgj3ftlk"; "terra1rvvz9r8ys755wy9hat39es03d6h25rtz2u329l"].

Definition FarmContracts : list string :=
  ["terra14xg04lntty04vgqdcl8jnkclrkg8m532q6w2ga"; "terra1fvt7pfnxqrc8fx45nc5weg2hjwfz3ayevt3gha";
   "terra13kq9rqxn0k252qfs4ww4zxzye83ypuye6w2hhm"; "terra14czgy66f5wf9vxgvvmt5ajrv5urxvhm0359lrk"].

Definition tfm_pair (pairs : PairMap) (e : string * string) : res PairMap :=
  pair ← must (decode_pair e.2);
  let pairAddr := AccAddressString (ContractAddr pair) in
  match query_pool pairAddr with
  | Panic => Panic
  | Err _ => Ok pairs
  | Ok pool => empty ← empty_side pool; Ok (if (empty : bool) then pairs else <[pairAddr := (pool, pair)]> pairs)
  end.

(** [ExportTfmLiquidity]: the blacklist stays as it is. *)
Definition ExportTfmLiquidity (lp_file : option (res LpHolders)) (bl : Blacklist)
    : res (SnapshotBalanceAggregateMap * Blacklist) :=
  pairs ← foldM tfm_pair (factory_entries AddressTfmFactory "pair_info") ∅;
  lpHoldersMap ← load_lp_holders lp_file pairs;
  lpHoldersMap ← resolve_all_staking tfm_StakingContracts lpHoldersMap;
  finalBalance ← append_refunds tfm_coalesceToBalanceDenom lp_token lpHoldersMap pairs;
  Ok (finalBalance, bl).

(** The init message and the supply of the farm's LP token, and the stake of a
    user in the farm, nil after an error. *)
Context (farm_init_msg : string -> res stakingInitMsg) (total_supply : string -> res Int).
Context (staker_info : string -> string -> option Int).

(** [getStakerUstBal]. *)
Definition ust_in_pool (p : pool) : res (option Int) :=
  match NativeToken (AssetInfo (Asset0 p)) with
  | Some denom => if String.eqb denom "uusd" then nint_add (Some 0) (AssetAmount (Asset0 p)) else Ok (Some 0)
  | None =>
      match NativeToken (AssetInfo (Asset1 p)) with
      | Some denom => if String.eqb denom "uusd" then nint_add (Some 0) (AssetAmount (Asset1 p)) else Ok (Some 0)
      | None => Panic
      end
  end.

Definition getStakerUstBal (userAddr farmAddr : string) : res (option Int) :=
  initMsg ← must (farm_init_msg farmAddr);
  totalSupply ← must (total_supply (LpToken initMsg));
  pool ← must (query_pool (Pair initMsg));
  ustInPool ← ust_in_pool pool;
  let BondAmount := staker_info farmAddr userAddr in
  zero ← nint_is_zero BondAmount;
  if (zero : bool) then Ok (Some 0) else mul_quo BondAmount ustInPool (Some totalSupply).

(** [ExportTfmFarms]. *)
Definition tfm_farm (s : SnapshotBalanceAggregateMap) (farmAddr : string) : res SnapshotBalanceAggregateMap :=
  farmAccAddr ← AccAddressFromBech32 farmAddr;
  foldM (fun s e =>
    stakerUstBal ← getStakerUstBal e.1 farmAddr;
    AppendOrAddBalance e.1 s (mkSB DenomUST stakerUstBal))
    (iterate_with_prefix (contract_store farmAccAddr) (GeneratePrefix ["reward"])) s.

Definition ExportTfmFarms (bl : Blacklist) : res (SnapshotBalanceAggregateMap * Blacklist) :=
  snapshot ← foldM tfm_farm FarmContracts ∅;
  Ok (snapshot, bl).

(** ** TerraFloki *)

Definition FlokiLLPStaking : string := "terra1uy5dfa2dlfnvkgm9cpvmxev5x0ky5lzlyta79w".

Definition FlokiPairs : list string :=
  ["terra1t9ffaw69tfensrn2s0hx79tm68g7hps30unys8"; "terra1wez50a5t3658m6zyydaeyprtwwt8gtt0dcswlw";
   "terra13wgvm70z5py4gee5r03statmxp4hjtc6we80jq"; "terra19l0hnypxzdrp76jdyc2tjd3yexwmhz3es4uwvz";
   "terra1a5lj0yacwz2gdmsk8acwmc6hlkv23dzykmksjv"; "terra1rjwzkud2xtltyqamkq0md0esdk3qkhjwey5xzk";
   "terra10whh69k8p9df2ccchvq03ddqqdpxlsxhte99j7"; "terra1lq94l6w3eft9c95kj3rcex9h702ssp35qyaha3";
   "terra1k8pflcvj3mhrmthrgux2pk9a9ytthsr5trnq7z"].

(** The decoding of a reward, whose error makes this exporter panic. *)
Context (decode_floki_reward : string -> res (option Int * Z)).

Definition floki_staker (llpHolderMap : BalanceMap) (e : string * string) : res BalanceMap :=
  '(amount, version) ← must (decode_floki_reward e.2);
  Ok (if version =? 0 then <[AccAddressString e.1 := amount]> llpHolderMap else llpHolderMap).

(** Adding the stakers to the holders of the main pair: an entry that exists is
    added to, even if it is nil. *)
Definition add_llp (lpHolders : BalanceMap) (e : string * option Int) : res BalanceMap :=
  match lpHolders !! e.1 with
  | Some lpHolder => sum ← nint_add lpHolder e.2; Ok (<[e.1 := sum]> lpHolders)
  | None => Ok (<[e.1 := e.2]> lpHolders)
  end.

Definition floki_pair (llpHolderMap : BalanceMap) (acc : SnapshotBalanceAggregateMap * Blacklist) (pairAddr : string)
    : res (SnapshotBalanceAggregateMap * Blacklist) :=
  let bl := RegisterAddress DenomUST pairAddr acc.2 in
  pair ← query_pair pairAddr;
  pool ← query_pool pairAddr;
  let lpTokenAddress := LiquidityToken pair in
  _ ← must (token_info lpTokenAddress);
  lpHolders ← cw20_holders NewIntFromString contract_store lpTokenAddress;
  lpHolders ← (if String.eqb pairAddr "terra1t9ffaw69tfensrn2s0hx79tm68g7hps30unys8" then
                 foldM add_llp (range 118 llpHolderMap) (<[FlokiLLPStaking := Some 0]> lpHolders)
               else Ok lpHolders);
  check_supply token_info lpTokenAddress lpHolders;;
  finalBalance ← foldM (add_refund coalesceToBalanceDenom pool) (range 119 lpHolders) acc.1;
  Ok (finalBalance, bl).

(** [ExportTerraFloki]. *)
Definition ExportTerraFloki (bl : Blacklist) : res (SnapshotBalanceAggregateMap * Blacklist) :=
  llpHolderMap ← foldM floki_staker (factory_entries FlokiLLPStaking "reward") ∅;
  foldM (floki_pair llpHolderMap) FlokiPairs (∅, bl).

End dex.

#[global] Arguments refund_user {M} coalesce p lpBalance : simpl never.
#[global] Arguments replace_vault {M R} token_info epsilon vaultAddr lpAddr vaultAmount userHoldings lpHolding : simpl never.

(** ** Refunds *)

Section refund_facts.
Context {M : SdkMath} {ML : SdkMathLaws M} {R : GoRange} {RL : GoRangeLaws R}.
Context (coalesce : string -> option string).

(** What an asset and a pool hold of a denomination of the snapshot. *)
Definition asset_holds (a : asset) (d : string) : Z :=
  match pickDenomOrContractAddress (AssetInfo a) with
  | Ok name => if decide (coalesce name = Some d) then default 0 (AssetAmount a) else 0
  | _ => 0
  end.

Definition pool_holds (p : pool) (d : string) : Z := asset_holds (Asset0 p) d + asset_holds (Asset1 p) d.

(** A pool that can be shared: amounts that are not negative, and some shares. *)
Definition sound_pool (p : pool) (shares : Z) : Prop :=
  TotalShare p = Some shares /\ 0 < shares /\
  0 <= default 0 (AssetAmount (Asset0 p)) /\ 0 <= default 0 (AssetAmount (Asset1 p)).

Lemma getShareInAssets_Ok p lp shares r0 r1 :
  sound_pool p shares -> getShareInAssets p lp (TotalShare p) = Ok (r0, r1) ->
  exists l q, lp = Some l /\ Z.abs (q * shares - l * precision) <= shares /\ (0 <= l -> 0 <= q) /\
    r0 = Some (Z.quot (q * default 0 (AssetAmount (Asset0 p))) precision) /\
    r1 = Some (Z.quot (q * default 0 (AssetAmount (Asset1 p))) precision).
Proof.
  intros (Ht & Hs & _) H. unfold getShareInAssets in H. rewrite Ht in H. cbn in H. go_inv.
  destruct (Z.eqb_spec shares 0); [lia|]. go_inv. apply get_int_Ok in Hv2 as ->.
  apply convert_Ok in Hv0 as (x0 & -> & ->), Hv1 as (x1 & -> & ->).
  exists v0, v. split; [done|]. unfold NewDec in *. split; [|split; [|done]].
  - apply dec_quo_round in Hv. rewrite (Z.abs_eq (shares * precision)) in Hv by (unfold precision; lia).
    replace (v * (shares * precision) - v0 * precision * precision)
      with ((v * shares - v0 * precision) * precision) in Hv by ring.
    rewrite Z.abs_mul in Hv. unfold precision in *. lia.
  - intros Hl. eapply dec_quo_sign; [exact Hv|unfold precision; lia..].
Qed.

Lemma refund_asset_Ok a r l d :
  refund_asset coalesce a (Some r) = Ok l ->
  held_list l d = match pickDenomOrContractAddress (AssetInfo a) with
                  | Ok name => if decide (coalesce name = Some d) then r else 0
                  | _ => 0
                  end.
Proof.
  unfold refund_asset. intros H. go_inv. rewrite Hv. destruct (coalesce v) as [denom|] eqn:E; cbn in H; go_inv.
  - destruct (Z.eqb_spec r 0) as [->|]; [by destruct (decide (Some denom = Some d))|]. rewrite held_list_one. cbn.
    destruct (String.eqb_spec denom d) as [->|Hne]; [by rewrite decide_True|by rewrite decide_False by congruence].
  - by rewrite decide_False.
Qed.

(** The part of one asset: never more than the share, up to the rounding of the
    ratio, and less by at most one unit more. *)
Lemma asset_share_bounds l q shares amount :
  0 < shares -> 0 <= l -> 0 <= q -> 0 <= amount -> Z.abs (q * shares - l * precision) <= shares ->
  let r := Z.quot (q * amount) precision in
  0 <= r /\ r * precision * shares <= amount * (l * precision + shares) /\
  amount * (l * precision - shares) <= (r + 1) * precision * shares.
Proof.
  intros Hs Hl Hq Ha Hr r. unfold r, precision in *. rewrite Z.quot_div_nonneg by nia.
  pose proof (Z.div_mod (q * amount) (10 ^ 18) ltac:(lia)).
  pose proof (Z.mod_pos_bound (q * amount) (10 ^ 18) ltac:(lia)).
  pose proof (Z.div_pos (q * amount) (10 ^ 18) ltac:(nia) ltac:(lia)).
  set (x := q * amount / 10 ^ 18) in *. set (y := (q * amount) mod 10 ^ 18) in *.
  set (P := 10 ^ 18) in *. assert (HP : 0 < P) by (unfold P; lia). clearbody P x y.
  assert (H3 : x * P = q * amount - y) by lia.
  assert (Hub : q * shares <= l * P + shares) by lia. assert (Hlb : l * P - shares <= q * shares) by lia.
  split; [done|]. rewrite <- !(Z.mul_assoc _ P), !(Z.mul_comm P shares), !Z.mul_assoc.
  split; nia.
Qed.

Lemma refund_asset_bounds a bs l q shares d :
  0 < shares -> 0 <= l -> 0 <= q -> 0 <= default 0 (AssetAmount a) -> Z.abs (q * shares - l * precision) <= shares ->
  refund_asset coalesce a (Some (Z.quot (q * default 0 (AssetAmount a)) precision)) = Ok bs ->
  0 <= held_list bs d /\
  held_list bs d * precision * shares <= asset_holds a d * (l * precision + shares) /\
  asset_holds a d * (l * precision - shares) <= (held_list bs d + 1) * precision * shares.
Proof.
  intros Hs Hl Hq Ha Hr H. rewrite (refund_asset_Ok _ _ _ d H). unfold asset_holds.
  assert (0 <= precision * shares) by (unfold precision; lia).
  destruct (pickDenomOrContractAddress (AssetInfo a)) as [name| |]; [|lia..].
  destruct (decide (coalesce name = Some d)); [by apply asset_share_bounds|lia].
Qed.

Lemma refund_user_Ok p lp shares bs d :
  sound_pool p shares -> 0 <= default 0 lp -> refund_user coalesce p lp = Ok bs ->
  0 <= held_list bs d /\
  held_list bs d * precision * shares <= pool_holds p d * (default 0 lp * precision + shares) /\
  pool_holds p d * (default 0 lp * precision - shares) <= (held_list bs d + 2) * precision * shares.
Proof.
  intros Hp Hl H. unfold refund_user in H. apply bind_Ok in H as ([r0 r1] & Hs & H). go_inv.
  apply (getShareInAssets_Ok _ _ _ _ _ Hp) in Hs as (l & q & -> & Hq & Hqp & -> & ->). cbn in Hl.
  destruct Hp as (_ & Hs & H0 & H1). specialize (Hqp Hl).
  apply (refund_asset_bounds _ _ l q shares d) in Hv as (A1 & A2 & A3); [|done..].
  apply (refund_asset_bounds _ _ l q shares d) in Hv0 as (B1 & B2 & B3); [|done..].
  rewrite held_list_app. unfold pool_holds. change (default 0 (Some l)) with l. lia.
Qed.

(** A loop over the holders of a pool that gives each its refund. *)
Definition gives_refunds (give : pool -> SnapshotBalanceAggregateMap -> string * option Int -> res SnapshotBalanceAggregateMap)
    : Prop :=
  forall p s e s', give p s e = Ok s' ->
  exists bs, refund_user coalesce p e.2 = Ok bs /\ forall d, total s' d = total s d + held_list bs d.

Lemma append_refund_gives : gives_refunds (append_refund coalesce).
Proof.
  intros p s e s' H. unfold append_refund in H. go_inv. exists v. split; [done|]. intros d.
  destruct v as [|b bs]; [change (held_list [] d) with 0; lia|].
  rewrite total_insert, held_list_app. unfold held. lia.
Qed.

Lemma add_refund_gives : gives_refunds (add_refund coalesce).
Proof.
  intros p s e s' H. unfold add_refund in H. go_inv. exists v. split; [done|]. intros d.
  by destruct (merge_entry_held s (e.1, v) s' "" d H) as [_ ->].
Qed.

Lemma refund_holders give p shares (holders : BalanceMap) l s s' d :
  gives_refunds give -> sound_pool p shares -> map_Forall (fun _ v => 0 <= default 0 v) holders ->
  map_sum holders <= shares -> l ≡ₚ map_to_list holders -> foldM (give p) l s = Ok s' ->
  total s d <= total s' d /\
  (total s' d - total s d) * precision <= pool_holds p d * (precision + Z.of_nat (size holders)).
Proof.
  intros Hg Hp Hpos Hsum Hl H. destruct (Hp) as (_ & Hs & _).
  assert (Hnn : 0 <= pool_holds p d).
  { unfold pool_holds, asset_holds. destruct Hp as (_ & _ & H0 & H1).
    destruct (pickDenomOrContractAddress _), (pickDenomOrContractAddress _); repeat destruct (decide _); lia. }
  assert (Hx : total s d <= total s' d /\
    (total s' d - total s d) * precision * shares <=
    pool_holds p d * (sumZ (fun e => default 0 e.2) l * precision + Z.of_nat (length l) * shares)).
  { assert (Hf : Forall (fun e => 0 <= default 0 e.2) l)
      by (apply Forall_forall; intros [k v]; rewrite Hl, elem_of_map_to_list; apply (Hpos k)).
    clear Hl Hsum Hpos. revert s H. induction Hf as [|e l He _ IH]; intros s H; cbn in H; go_inv.
    { rewrite sumZ_nil. cbn. lia. }
    destruct (IH _ H) as [I1 I2]. destruct (Hg _ _ _ _ Hv) as (bs & Hbs & Ht).
    apply (refund_user_Ok _ _ shares _ d Hp He) in Hbs as (B1 & B2 & _).
    rewrite Ht in *. rewrite sumZ_cons. cbn [length]. rewrite Nat2Z.inj_succ. nia. }
  destruct Hx as [H1 H2]. split; [done|]. rewrite (map_sum_perm _ _ Hl), Hl, length_map_to_list in H2.
  apply Z.mul_le_mono_pos_r with shares; [done|]. unfold precision in *. nia.
Qed.

(** LP tokens that are backed by the shares of the pool. *)
Definition backed (holders : BalanceMap) (shares : Z) : Prop :=
  map_Forall (fun _ v => 0 <= default 0 v) holders /\ map_sum holders <= shares.

Section pairs.
Context (lp_of : pair -> res string) (lpHoldersMap : LpHolders).

Definition holders_of (p : pair) : BalanceMap :=
  match lp_of p with
  | Ok lp => default ∅ (lpHoldersMap !! lp)
  | _ => ∅
  end.

(** What the pairs have to give, with the rounding of the ratios. *)
Definition pairs_hold (pairs : PairMap) (d : string) : Z :=
  sumZ (fun e => pool_holds e.2.1 d * (precision + Z.of_nat (size (holders_of e.2.2)))) (map_to_list pairs).

Lemma refund_pairs give body (pairs : PairMap) l s d :
  gives_refunds give ->
  (forall s e s', body s e = Ok s' -> exists lp lh,
    lp_of e.2.2 = Ok lp /\ lh ≡ₚ map_to_list (default ∅ (lpHoldersMap !! lp)) /\ foldM (give e.2.1) lh s = Ok s') ->
  map_Forall (fun _ e => exists shares, sound_pool e.1 shares /\ backed (holders_of e.2) shares) pairs ->
  l ≡ₚ map_to_list pairs -> foldM body l ∅ = Ok s ->
  0 <= total s d /\ total s d * precision <= pairs_hold pairs d.
Proof.
  intros Hg Hb Hp Hl H. unfold pairs_hold. rewrite <- Hl.
  assert (Hf : Forall (fun e => exists shares, sound_pool e.2.1 shares /\ backed (holders_of e.2.2) shares) l)
    by (apply Forall_forall; intros [k v]; rewrite Hl, elem_of_map_to_list; apply (Hp k)).
  clear Hl Hp. enough (Hx : forall s0, foldM body l s0 = Ok s -> total s0 d <= total s d /\
    (total s d - total s0 d) * precision <=
    sumZ (fun e => pool_holds e.2.1 d * (precision + Z.of_nat (size (holders_of e.2.2)))) l).
  { apply Hx in H as [H1 H2]. change (total ∅ d) with 0 in *. rewrite Z.sub_0_r in H2. done. }
  clear H. induction Hf as [|e l (shares & Hs & Hpos & Hsum) _ IH]; intros s0 H; cbn in H; go_inv.
  { rewrite sumZ_nil. lia. }
  apply Hb in Hv as (lp & lh & Hlp & Hlh & Hv).
  assert (Eh : holders_of e.2.2 = default ∅ (lpHoldersMap !! lp)) by (unfold holders_of; by rewrite Hlp).
  rewrite Eh in Hpos, Hsum.
  destruct (refund_holders give _ shares _ _ _ _ d Hg Hs Hpos Hsum Hlh Hv) as [T1 T2].
  destruct (IH _ H) as [I1 I2]. rewrite sumZ_cons, Eh. lia.
Qed.

End pairs.

(** C12. The exchanges give away what the pools hold, and at most the rounding of
    the ratios more: if the LP tokens of every pair are backed by the shares of
    its pool, all refunds together in a denomination are not negative and at
    most what the pools hold of it plus, for each holder of LP tokens of a pool,
    [10^-18] of what that pool holds.  [refunds_round_up] shows that the pools
    alone are no bound. *)
Theorem refunds_within_pools lp_of lpHoldersMap (pairs : PairMap) s d :
  map_Forall (fun _ e => exists shares, sound_pool e.1 shares /\ backed (holders_of lp_of lpHoldersMap e.2) shares) pairs ->
  append_refunds coalesce lp_of lpHoldersMap pairs = Ok s ->
  0 <= total s d /\ total s d * precision <= pairs_hold lp_of lpHoldersMap pairs d.
Proof.
  intros Hp. unfold append_refunds. apply (refund_pairs lp_of lpHoldersMap (append_refund coalesce)).
  - apply append_refund_gives.
  - intros s0 e s1 H. go_inv. eexists _, _. split; [done|]. split; [apply range_perm|done].
  - done.
  - apply range_perm.
Qed.

End refund_facts.

(** ** LP tokens change hands *)

Section lp_facts.
Context {M : SdkMath} {ML : SdkMathLaws M} {R : GoRange} {RL : GoRangeLaws R} {A : Bech32}.
Context (token_info : string -> res (option Int)).

(** The LP tokens of a vault go to its users: nobody else's change, the vault has
    none left, and their sum moves by less than the tolerance. *)
Lemma replace_vault_Ok eps vault lp amount users m m' :
  replace_vault token_info eps vault lp amount users m = Ok m' ->
  amount_in m vault = Some amount -> users !! vault = None ->
  (forall a, default 0 (amount_in m' a) =
     if String.eqb vault a then 0 else default 0 (amount_in m a) + default 0 (amount_in users a)) /\
  m' !! vault = None /\ Z.abs (map_sum m' - map_sum m) < eps.
Proof.
  unfold replace_vault. intros H Hm Hu. go_inv. apply Sum_Ok in Hv as ->.
  apply AlmostEqual_near in Hv0 as (x & y & E1 & E2 & Hd). injection E1 as <-. injection E2 as <-.
  apply add_holdings_Ok in Hv1 as [Ha Hs]. split; [|split].
  - intros a. rewrite amount_delete, <- Ha. by destruct (String.eqb vault a).
  - apply lookup_delete_eq.
  - rewrite map_sum_delete, Hs, Ha, Hm. unfold amount_in. rewrite Hu. cbn. lia.
Qed.

(** LP tokens that a vault holds for its users are credited to the users and
    nowhere else: the vault keeps none, no other holder changes, other LP tokens
    are untouched, and the sum of the LP tokens moves by less than 5 of them. *)
Theorem vault_lp_replaced vault lpHoldersMap lp users m' lpHolding amount :
  terraswap_vault token_info vault lpHoldersMap (lp, users) = Ok m' ->
  lpHoldersMap !! lp = Some lpHolding -> amount_in lpHolding vault = Some amount -> amount <> 0 ->
  users !! vault = None ->
  exists lpHolding',
    m' = <[lp := lpHolding']> lpHoldersMap /\ lpHolding' !! vault = None /\
    (forall a, a <> vault ->
       default 0 (amount_in lpHolding' a) = default 0 (amount_in lpHolding a) + default 0 (amount_in users a)) /\
    Z.abs (map_sum lpHolding' - map_sum lpHolding) < 5000000.
Proof.
  unfold terraswap_vault. cbn. intros H Hl Ha Hz Hu. rewrite Hl, Ha in H.
  destruct (Z.eqb_spec amount 0); [done|]. go_inv. exists v. split; [done|].
  apply replace_vault_Ok in Hv as (H1 & H2 & H3); [|done..]. split; [done|]. split; [|done].
  intros a Hne. rewrite H1. by rewrite (proj2 (String.eqb_neq vault a)) by done.
Qed.

(** *** Staked LP tokens *)

Lemma normalize_Ok holdings total m :
  normalizeStakingHoldings holdings (Some total) = Ok m ->
  map_Forall (fun _ v => 0 <= default 0 v) holdings -> 0 <= total -> 0 < map_sum holdings ->
  0 <= map_sum m <= total /\ map_Forall (fun _ v => 0 <= default 0 v) m /\
  total <= map_sum m + Z.of_nat (size holdings).
Proof.
  unfold normalizeStakingHoldings. intros H Hpos Ht Hs. go_inv. apply Sum_Ok in Hv as ->.
  set (sh := map_sum holdings) in *.
  assert (Em : m = (fun v => Some (Z.quot (default 0 v * total) sh)) <$> holdings).
  { apply map_eq. intros k. rewrite lookup_fmap.
    apply (foldM_insert_map (fun e => dec_mul_quo e.2 (Some total) (Some sh)) holdings) with (k := k) in H;
      [|apply range_perm].
    destruct (holdings !! k) as [v|] eqn:E; [|by rewrite H, lookup_empty].
    destruct H as (x & Hx & ->). cbn in *. by apply split_dec_mul_quo in Hx as (w & -> & ->). }
  destruct (map_sum_shares holdings total sh Hs Ht Hpos) as (H1 & H2 & H3). cbv zeta in *. rewrite <- Em in *.
  fold sh in H2, H3. split; [nia|]. split; [|nia].
  rewrite Em. intros k v. rewrite lookup_fmap. destruct (holdings !! k) as [w|] eqn:E; [|done]. intros [= <-].
  cbn. specialize (Hpos _ _ E). cbn in Hpos. rewrite Z.quot_div_nonneg by nia. apply Z.div_pos; nia.
Qed.

(** LP tokens of a staking contract go to its stakers; where what the contract
    recorded differs from what it holds, the stakers share what it holds.  The
    LP tokens do not grow by the tolerance or more, and what rounding loses is
    bounded by the number of stakers. *)
Theorem staking_lp_resolved lpHoldersMap lp staking m' lpHolding amount :
  resolve_staking token_info lpHoldersMap (lp, staking) = Ok m' ->
  lpHoldersMap !! lp = Some lpHolding -> lpHolding !! StakingAddr staking = Some (Some amount) ->
  0 <= amount -> map_Forall (fun _ v => 0 <= default 0 v) (Holdings staking) -> 0 < map_sum (Holdings staking) ->
  exists merged, m' = <[lp := merged]> lpHoldersMap /\
    map_sum merged < map_sum lpHolding + 1000000 /\
    map_sum lpHolding - Z.max 1000000 (Z.of_nat (size (Holdings staking))) <= map_sum merged.
Proof.
  unfold resolve_staking. intros H Hl Ha Hpos Hnn Hs. rewrite Hl, Ha in H. go_inv. apply Sum_Ok in Hv as ->.
  eexists. split; [done|]. apply MergeMaps_sum in Hv1 as ->. rewrite map_sum_delete. unfold amount_in. rewrite Ha.
  cbn. destruct (AlmostEqual (Some amount) _ _) eqn:E; [| |done].
  - injection Hv0 as <-. apply AlmostEqual_near in E as (x & y & E1 & E2 & Hd). injection E1 as <-. injection E2 as <-. lia.
  - apply normalize_Ok in Hv0 as (H1 & _ & H2); [|done..]. lia.
Qed.

End lp_facts.

(** ** Blacklisted pairs *)

Section blacklist_facts.
Context {M : SdkMath} {R : GoRange} {A : Bech32}.

Lemma register_pair_blacklisted pairAddr bl a d :
  blacklisted (register_pair pairAddr bl) a d <-> blacklisted bl a d \/ (a = pairAddr /\ d ∈ pair_denoms).
Proof.
  unfold register_pair. revert bl. induction pair_denoms as [|x l IH]; intros bl; cbn [foldl].
  - rewrite elem_of_nil. tauto.
  - rewrite IH, RegisterAddress_blacklisted, elem_of_cons. naive_solver.
Qed.

(** Registering the pairs of a factory. *)
Lemma pairs_blacklisted (step : gmap string (pool * pair) * Blacklist -> string * string -> res (gmap string (pool * pair) * Blacklist))
    (addr : string -> res string) l pairs bl pairs' bl' a d :
  (forall acc e acc', step acc e = Ok acc' -> exists pairAddr, addr e.2 = Ok pairAddr /\ acc'.2 = register_pair pairAddr acc.2) ->
  foldM step l (pairs, bl) = Ok (pairs', bl') ->
  blacklisted bl' a d <-> blacklisted bl a d \/ (d ∈ pair_denoms /\ Exists (fun e => addr e.2 = Ok a) l).
Proof.
  intros Hs. revert pairs bl. induction l as [|e l IH]; intros pairs bl H; cbn in H; go_inv.
  { rewrite Exists_nil. tauto. }
  destruct v as [pairs1 bl1]. rewrite (IH _ _ H). apply Hs in Hv as (pairAddr & Ha & Hb). cbn in Hb. subst bl1.
  rewrite register_pair_blacklisted, Exists_cons, Ha. split; [|naive_solver].
  intros [[?|[-> ?]]|?]; naive_solver.
Qed.

Context (NewIntFromString : string -> option Int) (contract_store : AccAddress -> list (string * string)).
Context (query_pool : string -> res pool) (query_pair : string -> res pair) (token_info : string -> res (option Int)).
Context (decode_pair : string -> res pair) (decode_reward : string -> option Int * Z).
Context (init_msg : AccAddress -> res stakingInitMsg) (decode_address : string -> res string).
Context (decode_user_info : string -> res (option Int)).

(** The address of a stored pair. *)
Definition pair_address (value : string) : res string :=
  pair ← decode_pair value; Ok (AccAddressString (ContractAddr pair)).

Lemma terraswap_pair_registers acc e acc' :
  terraswap_pair query_pool decode_pair acc e = Ok acc' ->
  exists pairAddr, pair_address e.2 = Ok pairAddr /\ acc'.2 = register_pair pairAddr acc.2.
Proof.
  unfold terraswap_pair, pair_address. intros H. apply bind_Ok in H as (p & Hp & H). rewrite must_Ok in Hp.
  exists (AccAddressString (ContractAddr p)). rewrite Hp. split; [done|]. cbn zeta in H.
  destruct (query_pool _) as [pl|er|]; [|by injection H as <-|done].
  destruct (negb _); [by injection H as <-|]. apply bind_Ok in H as (b & _ & H). by injection H as <-.
Qed.

(** Terraswap takes the pools out of the liquid balances, but not their nLuna: it
    blacklists exactly the pairs of the factory, for nine denominations, none of
    which is nLuna, although it also gives the nLuna of the pools to the holders
    of the LP tokens. *)
Theorem terraswap_blacklists_pairs lp_file bl vaults s bl' :
  ExportTerraswapLiquidity NewIntFromString contract_store query_pool token_info decode_pair decode_reward init_msg
    lp_file bl vaults = Ok (s, bl') ->
  (forall a d, blacklisted bl' a d <-> blacklisted bl a d \/
     (d ∈ pair_denoms /\
      Exists (fun e => pair_address e.2 = Ok a) (factory_entries contract_store AddressTerraswapFactory "pair_info"))) /\
  (DenomNLUNA ∉ pair_denoms) /\ coalesceToBalanceDenom AddressNLUNA = Some DenomNLUNA.
Proof.
  unfold ExportTerraswapLiquidity. intros H. apply bind_Ok in H as ([pairs bl1] & Hp & H). go_inv.
  split; [|split; [|done]].
  - intros a d. revert Hp. apply pairs_blacklisted. apply terraswap_pair_registers.
  - unfold pair_denoms. rewrite !not_elem_of_cons. repeat split; try done. apply not_elem_of_nil.
Qed.

End blacklist_facts.

(** ** Astroport *)

Section astroport_facts.
Context {M : SdkMath} {ML : SdkMathLaws M} {R : GoRange} {RL : GoRangeLaws R} {A : Bech32}.

Definition remove_step (h : BalanceMap) (addr : string) : BalanceMap :=
  match h !! addr with
  | Some _ => delete addr h
  | None => delete AddressAstroportGenerator h
  end.

Lemma remove_step_other h x a : a <> x -> a <> AddressAstroportGenerator -> remove_step h x !! a = h !! a.
Proof. intros H1 H2. unfold remove_step. destruct (h !! x); by rewrite lookup_delete_ne. Qed.

Lemma remove_step_None h x a : h !! a = None -> remove_step h x !! a = None.
Proof. intros H. unfold remove_step. destruct (h !! x); apply lookup_delete_None; by right. Qed.

Lemma remove_list_None l h a : h !! a = None -> foldl remove_step h l !! a = None.
Proof. revert h. induction l as [|x l IH]; intros h H; [done|]. cbn. apply IH. by apply remove_step_None. Qed.

Lemma remove_list_member l h a : AddressAstroportGenerator ∉ l -> a ∈ l -> foldl remove_step h l !! a = None.
Proof.
  intros Hg. revert h. induction l as [|x l IH]; intros h Ha; [by apply not_elem_of_nil in Ha|]. cbn.
  rewrite not_elem_of_cons in Hg. destruct Hg as [Hgx Hg].
  apply elem_of_cons in Ha as [->|Ha]; [|by apply IH]. apply remove_list_None. unfold remove_step.
  destruct (h !! x) eqn:E; [apply lookup_delete_eq|]. rewrite lookup_delete_None. by right.
Qed.

Lemma remove_list_other l h a : a ∉ l -> a <> AddressAstroportGenerator -> foldl remove_step h l !! a = h !! a.
Proof.
  intros Ha Hg. revert h. induction l as [|x l IH]; intros h; [done|]. cbn.
  rewrite not_elem_of_cons in Ha. destruct Ha as [Hx Ha]. rewrite (IH Ha). by apply remove_step_other.
Qed.

Lemma remove_list_generator l h c :
  NoDup l -> AddressAstroportGenerator ∉ l -> c ∈ l -> h !! c = None ->
  foldl remove_step h l !! AddressAstroportGenerator = None.
Proof.
  intros Hnd Hg. revert h. induction Hnd as [|x l Hx Hnd IH]; intros h Hc Hn; [by apply not_elem_of_nil in Hc|].
  cbn. rewrite not_elem_of_cons in Hg. destruct Hg as [Hgx Hg]. apply elem_of_cons in Hc as [->|Hc].
  - apply remove_list_None. unfold remove_step. rewrite Hn. apply lookup_delete_eq.
  - apply IH; [done|done|]. by apply remove_step_None.
Qed.

(** Astroport drops the staking contracts and the generator from the holders of
    every LP token and nobody else, unless all twenty staking contracts hold some
    of it, when the generator keeps its own. *)
Theorem astroport_staking_removed (m : BalanceMap) a :
  (a ∈ astroport_StakingContracts -> remove_staking m !! a = None) /\
  (a ∉ astroport_StakingContracts -> a <> AddressAstroportGenerator -> remove_staking m !! a = m !! a) /\
  (Exists (fun c => m !! c = None) astroport_StakingContracts ->
     remove_staking m !! AddressAstroportGenerator = None).
Proof.
  assert (Hg : AddressAstroportGenerator ∉ astroport_StakingContracts)
    by (apply (bool_decide_unpack _); vm_compute; exact I).
  assert (Hnd : NoDup astroport_StakingContracts) by (apply (bool_decide_unpack _); vm_compute; exact I).
  change (remove_staking m) with (foldl remove_step m astroport_StakingContracts). split; [|split].
  - by apply remove_list_member.
  - intros. by apply remove_list_other.
  - intros (c & Hc & Hn)%Exists_exists. by eapply remove_list_generator.
Qed.

(** *** Deposits in the generator *)

Context (decode_user_info : string -> res (option Int)).

(** What an entry of the generator deposits of an LP token for a user. *)
Definition deposited (lp a : string) (e : string * string) : Z :=
  match slice 2 46 e.1, slice 46 90 e.1, decode_user_info e.2 with
  | Ok lp', Ok a', Ok (Some x) => if String.eqb lp' lp && String.eqb a' a then x else 0
  | _, _, _ => 0
  end.

Lemma generator_entry_Ok m e m' lp h :
  generator_entry decode_user_info m e = Ok m' -> m !! lp = Some h ->
  exists h', m' !! lp = Some h' /\
    forall a, default 0 (amount_in h' a) = default 0 (amount_in h a) + deposited lp a e.
Proof.
  unfold generator_entry, deposited. intros H Hl. go_inv. rewrite Hv, Hv0.
  destruct (m !! v) as [hs|] eqn:E; go_inv.
  - rewrite Hv1. apply nint_add_Ok in Hv2 as (x & y & Hx & -> & ->).
    assert (Hd : default 0 (amount_in hs v0) = x) by (unfold amount_in; destruct (hs !! v0); cbn in *; by simplify_eq).
    destruct (String.eqb_spec v lp) as [->|Hne]; cbn.
    + rewrite lookup_insert_eq. simplify_eq. eexists. split; [done|]. intros a. rewrite amount_insert.
      destruct (String.eqb_spec v0 a) as [->|]; cbn; lia.
    + rewrite lookup_insert_ne by done. exists h. split; [done|]. lia.
  - exists h. split; [done|]. intros a. destruct (String.eqb_spec v lp) as [->|]; [congruence|]. cbn.
    destruct (decode_user_info e.2) as [[]| |]; lia.
Qed.

(** The LP tokens that users have deposited in the generator are theirs: for a
    target LP token every user ends up with what they held and all they have
    deposited. *)
Theorem generator_deposits_counted contract_store m m' lp h generator :
  generator_deposits contract_store decode_user_info m = Ok m' ->
  AccAddressFromBech32 AddressAstroportGenerator = Ok generator -> m !! lp = Some h ->
  exists h', m' !! lp = Some h' /\ forall a, default 0 (amount_in h' a) = default 0 (amount_in h a) +
    sumZ (deposited lp a) (iterate_with_prefix (contract_store generator) (GeneratePrefix ["user_info"])).
Proof.
  unfold generator_deposits, ToAddress. intros H Hg. rewrite Hg in H. cbn [must mbind res_bind] in H. revert H.
  generalize (iterate_with_prefix (contract_store generator) (GeneratePrefix ["user_info"])).
  intros l. revert m h. induction l as [|e l IH]; intros m h H Hl; cbn in H; go_inv.
  - exists h. split; [done|]. intros a. rewrite sumZ_nil. lia.
  - apply (generator_entry_Ok _ _ _ lp h) in Hv as (h1 & H1 & Ha); [|done].
    destruct (IH _ _ H H1) as (h2 & H2 & Hb). exists h2. split; [done|]. intros a. rewrite Hb, Ha, sumZ_cons. lia.
Qed.

(** *** The lockdrop *)

(** The lockdrop hands out what it has in the generator: for every LP token the
    users' parts add up to its deposit, up to one unit for each user, and never
    to more. *)
Theorem lockdrop_within_deposit locked holdings holdings' lp shares deposit :
  lockdrop_lps locked holdings = Ok holdings' ->
  holdings !! lp = Some shares -> amount_in locked lp = Some deposit -> 0 <= deposit ->
  map_Forall (fun _ v => 0 <= default 0 v) shares -> 0 < map_sum shares ->
  exists shares', holdings' !! lp = Some shares' /\
    map_sum shares' <= deposit <= map_sum shares' + Z.of_nat (size shares).
Proof.
  unfold lockdrop_lps. intros H Hl Hd Hd0 Hpos Hs.
  assert (Hx : foldM (fun m e => x ← (totalShares ← Sum e.2; update_all 114 (fun _ share =>
      mul_quo share (amount_in locked e.1) totalShares) e.2); Ok (<[e.1 := x]> m)) (range 113 holdings) holdings
      = Ok holdings').
  { rewrite <- H. apply foldM_ext, Forall_true. intros e m. cbn. by destruct (Sum e.2). }
  apply (foldM_insert_map _ holdings) with (k := lp) in Hx; [|apply range_perm]. rewrite Hl in Hx.
  destruct Hx as (x & Hx & Hlp). cbn in Hx. exists x. split; [done|]. go_inv. apply Sum_Ok in Hv as ->.
  rewrite Hd in Hx. by eapply split_deposit; [exact Hx|apply split_mul_quo|..].
Qed.

End astroport_facts.

(** The refunds of Astroport stay within the pools as well. *)
Theorem astroport_refunds_within_pools {M : SdkMath} {ML : SdkMathLaws M} {R : GoRange} {RL : GoRangeLaws R}
    token_info lpHoldersMap (pairs : PairMap) s d :
  let lp_of p := Ok (LiquidityToken p) in
  map_Forall (fun _ e => exists shares, sound_pool e.1 shares /\ backed (holders_of lp_of lpHoldersMap e.2) shares) pairs ->
  astroport_refunds token_info lpHoldersMap pairs = Ok s ->
  0 <= total s d /\ total s d * precision <= pairs_hold coalesceToBalanceDenom lp_of lpHoldersMap pairs d.
Proof.
  intros lp_of Hp. unfold astroport_refunds.
  apply (refund_pairs _ lp_of lpHoldersMap (add_refund coalesceToBalanceDenom)).
  - apply add_refund_gives.
  - intros s0 e s1 H. go_inv. eexists _, _. split; [done|]. split; [apply range_perm|done].
  - done.
  - apply range_perm.
Qed.

(** ** Loop *)

(** The copy of [isTargetPool] in [loop] encodes the address of a token, which is
    already encoded, once more: a pool of two target tokens is not recognised,
    whichever they are, so its holders get nothing back although the pair is
    blacklisted. *)
Theorem loop_token_pools_skipped {A : Bech32} {AL : Bech32Laws A} query_pool decode_pair acc e p t0 t1 x0 x1 shares :
  decode_pair e.2 = Ok p ->
  query_pool (AccAddressString (ContractAddr p)) =
    Ok (mkPool (mkAsset (mkAssetInfo (Some t0) None) x0) (mkAsset (mkAssetInfo (Some t1) None) x1) shares) ->
  t0 ∈ target_tokens -> t1 ∈ target_tokens ->
  (forall t, t ∈ target_tokens -> exists a, AccAddressFromBech32 t = Ok a /\ a ∉ target_tokens) ->
  loop_pair query_pool decode_pair acc e = Ok (acc.1, register_pair (AccAddressString (ContractAddr p)) acc.2) /\
  isTargetPool id (mkPool (mkAsset (mkAssetInfo (Some t0) None) x0) (mkAsset (mkAssetInfo (Some t1) None) x1) shares) = true.
Proof.
  intros Hp Hq H0 H1 Ht.
  assert (Hn : forall t, t ∈ target_tokens -> existsb (String.eqb (AccAddressString t)) target_tokens = false).
  { intros t Hin. apply not_true_iff_false. rewrite existsb_exists. intros (x & Hx & E%String.eqb_eq).
    rewrite <- list_elem_of_In in Hx. destruct (Ht x Hx) as (a & Ha & Hna). subst x.
    apply acc_bech32_sound in Ha as ->. done. }
  assert (Hy : forall t, t ∈ target_tokens -> existsb (String.eqb (id t)) target_tokens = true).
  { intros t Hin. apply existsb_exists. exists t. rewrite <- list_elem_of_In. by rewrite String.eqb_refl. }
  unfold loop_pair. rewrite Hp. cbn [must mbind res_bind]. rewrite Hq. unfold isTargetPool, target_asset.
  cbn [Asset0 Asset1 AssetInfo NativeToken Token]. by rewrite !Hn, !Hy by done.
Qed.

(** ** A run *)

Module DexExample.

#[local] Existing Instance ref_math.
#[local] Existing Instance ref_bech32.
#[local] Existing Instance SnapshotExample.listing.

Definition pool0 : pool :=
  mkPool (mkAsset (mkAssetInfo None (Some "uusd")) (Some 1000))
         (mkAsset (mkAssetInfo (Some AddressAUST) None) (Some 500)) (Some 10).
Definition pair0 : pair := mkPair "pair" "lp".
Definition holders0 : gmap string (option Z) := {["addr1" := Some 6; "addr2" := Some 4]}.
Definition lps0 : gmap string (gmap string (option Z)) := {["lp" := holders0]}.
Definition pairs0 : gmap string (pool * pair) := {["tpair" := (pool0, pair0)]}.
Definition lp_text (p : pair) : res string := Ok (LiquidityToken p).

Definition refunds0 : gmap string (list SnapshotBalance) :=
  {["addr1" := [mkSB "uusd" (Some 600); mkSB "aUST" (Some 300)];
    "addr2" := [mkSB "uusd" (Some 400); mkSB "aUST" (Some 200)]]}.

Lemma refunds0_eq : append_refunds coalesceToBalanceDenom lp_text lps0 pairs0 = Ok refunds0.
Proof. vm_compute. reflexivity. Qed.

Lemma sound0 :
  map_Forall (fun _ e => exists shares, sound_pool e.1 shares /\ backed (holders_of lp_text lps0 e.2) shares) pairs0.
Proof.
  apply map_Forall_singleton. exists 10. split; [repeat split; cbn; lia|]. split; [|vm_compute; discriminate].
  change (holders_of lp_text lps0 (pool0, pair0).2) with holders0.
  apply map_Forall_insert_2; [cbn; lia|]. apply map_Forall_singleton. cbn. lia.
Qed.

Lemma refunds_within_pools_witness :
  0 <= total refunds0 "uusd" /\
  total refunds0 "uusd" * precision <= pairs_hold coalesceToBalanceDenom lp_text lps0 pairs0 "uusd".
Proof.
  exact (refunds_within_pools (ML:=ref_math_laws) (RL:=SnapshotExample.listing_laws) coalesceToBalanceDenom
    lp_text lps0 pairs0 refunds0 "uusd" sound0 refunds0_eq).
Defined.

(** Six holders of one share each of a pool of six shares: a sixth is rounded
    up, and the refunds are twelve units more than the pool holds. *)
Definition sixths : pool :=
  mkPool (mkAsset (mkAssetInfo None (Some "uusd")) (Some (6 * precision)))
         (mkAsset (mkAssetInfo (Some AddressAUST) None) (Some 0)) (Some 6).
Definition six_holders : gmap string (option Z) :=
  {["a" := Some 1; "b" := Some 1; "c" := Some 1; "d" := Some 1; "e" := Some 1; "f" := Some 1]}.

Lemma refunds_round_up :
  exists s, append_refunds coalesceToBalanceDenom lp_text {["lp" := six_holders]} {["tpair" := (sixths, pair0)]} = Ok s /\
    map_sum six_holders = 6 /\ total s "uusd" = pool_holds coalesceToBalanceDenom sixths "uusd" + 12.
Proof. eexists. split; [vm_compute; reflexivity|]. split; vm_compute; reflexivity. Qed.

Definition supply0 (token : string) : res (option Z) := Ok (Some 10).
Definition users0 : gmap string (option Z) := {["addr3" := Some 5]}.
Definition lps1 : gmap string (gmap string (option Z)) :=
  {["lp" := {["addr1" := Some 6; "addr3" := Some 5]}]}.

Lemma lps1_eq : terraswap_vault supply0 "addr2" lps0 ("lp", users0) = Ok lps1.
Proof. vm_compute. reflexivity. Qed.

Lemma vault_lp_replaced_witness :
  exists h, lps1 = <["lp" := h]> lps0 /\ h !! "addr2" = None /\
    Z.abs (map_sum h - map_sum holders0) < 5000000.
Proof.
  destruct (vault_lp_replaced (ML:=ref_math_laws) (RL:=SnapshotExample.listing_laws)
    supply0 "addr2" lps0 "lp" users0 lps1 holders0 4 lps1_eq eq_refl eq_refl ltac:(discriminate) eq_refl)
    as (h & H1 & H2 & _ & H3).
  exists h. split; [exact H1|]. split; [exact H2|exact H3].
Defined.

(** A staking contract that holds 3 million LP tokens and has recorded the
    stakes of two users that add up to less. *)
Definition staking0 : stakingHolders :=
  mkStakingHolders "staking" {["addr1" := Some 600000; "addr2" := Some 400000]}.
Definition lps2 : gmap string (gmap string (option Z)) :=
  {["lp" := {["staking" := Some 3000000; "addr3" := Some 5]}]}.
Definition lps3 : gmap string (gmap string (option Z)) :=
  <["lp" := {["addr1" := Some 1800000; "addr2" := Some 1200000; "addr3" := Some 5]}]> lps2.

Lemma lps3_eq : resolve_staking supply0 lps2 ("lp", staking0) = Ok lps3.
Proof. vm_compute. reflexivity. Qed.

Lemma staking_lp_resolved_witness :
  exists merged, lps3 = <["lp" := merged]> lps2 /\ map_sum merged < 3000005 + 1000000.
Proof.
  destruct (staking_lp_resolved (ML:=ref_math_laws) (RL:=SnapshotExample.listing_laws)
    supply0 lps2 "lp" staking0 lps3 {["staking" := Some 3000000; "addr3" := Some 5]} 3000000 lps3_eq eq_refl eq_refl
    ltac:(lia)) as (merged & H1 & H2 & _).
  - apply map_Forall_insert_2; [cbn; lia|]. apply map_Forall_singleton. cbn. lia.
  - vm_compute. reflexivity.
  - exists merged. split; [exact H1|exact H2].
Defined.

(** A pool of aUST and bLuna on Loop. *)
Definition token_pool : pool :=
  mkPool (mkAsset (mkAssetInfo (Some AddressAUST) None) (Some 1000))
         (mkAsset (mkAssetInfo (Some AddressBLUNA) None) (Some 500)) (Some 10).

Lemma loop_token_pools_skipped_witness :
  loop_pair (fun _ => Ok token_pool) (fun _ => Ok pair0) (∅, ∅) ("key", "value") = Ok (∅, register_pair "tpair" ∅).
Proof.
  apply (loop_token_pools_skipped (AL:=ref_bech32_laws) (fun _ => Ok token_pool) (fun _ => Ok pair0) (∅, ∅) ("key", "value")
    pair0 AddressAUST AddressBLUNA (Some 1000) (Some 500) (Some 10) eq_refl eq_refl).
  - apply (bool_decide_unpack _). vm_compute. exact I.
  - apply (bool_decide_unpack _). vm_compute. exact I.
  - apply Forall_forall.
    repeat (constructor; [eexists; split; [reflexivity|apply (bool_decide_unpack _); vm_compute; exact I]|]).
    constructor.
Defined.

End DexExample.
