(* ===== verification/Compounders.v ===== *)
(** * The LP tokens that other contracts hold for their users

    Models the exporters that return, for a contract and an LP token, what every
    user has of it: [src/app/export/spectrum], [apollo], the fields and the
    auction of [mars], the stakers of [mirror], and the lockdrop of [kinetic].  The
    exchanges replace these contracts by their users ([Dex]).  What contracts
    answer and how stored texts decode are arguments. *)

From Stdlib Require Import ZArith Lia Bool.
From stdpp Require Import base strings list gmap.
From S2P Require Import Prelude Loops Sdk SdkRef Snapshot ExportUtil Derivatives Holdings.
Local Open Scope Z_scope.

Section compounders.
Context {M : SdkMath} {R : GoRange} {A : Bech32}.
Context (contract_store : AccAddress -> list (string * string)).

(** The entries below a name in the storage of a contract. *)
Definition entries (contract : AccAddress) (name : string) : list (string * string) :=
  iterate_with_prefix (contract_store contract) (GeneratePrefix [name]).

(** ** Spectrum *)

Definition nLunaFarm : string := "terra16usjvptlpdrj7hcmy7mvdap5tttzcya7ch0can".
Definition ustLunaFarm : string := "terra1egstlx9c9pq5taja5sg0yhraa0cl5laxyvm3ln".

Definition specFarms : list string :=
  ["terra17hjvrkcwn3jk2qf69s5ldxx5rjccchu35assga"; "terra19dfth8559etgnqmnu9nwd87pjqsuufswwclcav";
   "terra12td8as6zhm3m9djjmpxzfue9syvrj0ewe070hf"; "terra1d55nmhuq75r3vf93hwkau2stts4mpe9h22herz";
   "terra1puxzzlcr2urp4pvx523xhq593tgpt7damnm6pc"; "terra1aeaz2w7gxu7ga8fj76mna8skhvq6ft0q0x42tv";
   "terra1kehar0l76kzuvrrcwj5um72u3pjq2uvp62aruf"; "terra1yj34w2n24p4x7s69evjp7ukzz82ca5tvlzqa84";
   "terra1ukm33qyqx0qcz7rupv085rgpx0tp5wzkhmcj3f"; "terra1jxh7hahwxlsy5cckkyhuz50a60mpn5tr0px6tq";
   "terra1s9zqk5ksnwp8qywrmdwt2fq0a9l0zc2d2sw2an"; "terra1y5hd5ea9dshfwf5eysqtsey7qkdhhktmtw9y3q";
   "terra19kzel57gvx42e628k6frh624x5vm2kpck9cr9c"; "terra1wn0d0zwl382pnl6hdcd8r926yx6mcqcag7v39j";
   "terra1ejl4v53w4all7zkw8nfkw2q6d3qkpls8m4cav4"; "terra1egstlx9c9pq5taja5sg0yhraa0cl5laxyvm3ln";
   "terra16usjvptlpdrj7hcmy7mvdap5tttzcya7ch0can"; "terra1mr9xlwydgg0lfxvy68ylxuchzy6jdn706vwu8c";
   "terra1p30zk5xfn34lygcyhs2us9mxwzsn88v2yqrcw6"; "terra1d9cufxz9a4px9zfzq8quqewlj24durtu6lhwfw";
   "terra1zngkjhqqearpfhym9x9hnutpklduz45e9uvp9u"; "terra1u6f5vnux869rnextxypjdyrvnvcaux68nr6nne";
   "terra1msy2na2lvf64qffelg5t633f6wzlf03t5uvl8f"; "terra1qanglh8qpeqltp60ktwmkl938lm9etz5s4hkh6";
   "terra1cdyw7fydevn372re7xjgfh8kqrrf2lxm5k6ve3"].

(** The staking token of a stored pool, in base64, and the rewards of a wallet in a
    farm: the token of a pool and the LP tokens in it. *)
Context (decode_spec_pool : string -> res string).
Context (reward_info : string -> string -> res (list (string * option Int))).

(** [getSpecFarmPools]: the LP token of each asset. *)
Definition spec_pool (pools : gmap string string) (e : string * string) : res (gmap string string) :=
  staking_token ← must (decode_spec_pool e.2);
  lpTokenAddr ← must (AccAddressFromBase64 staking_token);
  Ok (<[AccAddressString e.1 := AccAddressString lpTokenAddr]> pools).

Definition getSpecFarmPools (farmAddr : AccAddress) : res (gmap string string) :=
  foldM spec_pool (entries farmAddr "pool_info") ∅.

Definition mapLpAddress (farmAddr tokenAddr : string) : string :=
  if String.eqb farmAddr ustLunaFarm then "terra1m6ywlgn6wrjuagcmmezzz2a029gtldhey5k552" else tokenAddr.

(** [getSpecFarmRewards], on the wallets seen, the holdings and the snapshot. *)
Record spec_state : Type := mkSpec {
  walletSeen : gset string;
  spec_holdings : gmap string (gmap string (option Int));
  spec_snapshot : SnapshotBalanceAggregateMap }.

Definition spec_reward (poolInfo : gmap string string) (farm wallet : string) (s : spec_state)
    (reward : string * option Int) : res spec_state :=
  if String.eqb farm nLunaFarm then
    snapshot ← AppendOrAddBalance wallet (spec_snapshot s) (mkSB AddressNLUNA reward.2);
    Ok (mkSpec (walletSeen s) (spec_holdings s) snapshot)
  else
    let lpAddr := mapLpAddress farm (default "" (poolInfo !! reward.1)) in
    let users := default ∅ (spec_holdings s !! lpAddr) in
    Ok (mkSpec (walletSeen s) (<[lpAddr := <[wallet := reward.2]> users]> (spec_holdings s)) (spec_snapshot s)).

Definition spec_entry (poolInfo : gmap string string) (farm : string) (s : spec_state) (e : string * string)
    : res spec_state :=
  walletAddress ← slice 2 22 e.1;
  let wallet := AccAddressString walletAddress in
  if decide (wallet ∈ walletSeen s) then Ok s
  else
    rewards ← must (reward_info farm wallet);
    foldM (spec_reward poolInfo farm wallet) rewards
      (mkSpec ({[wallet]} ∪ walletSeen s) (spec_holdings s) (spec_snapshot s)).

Definition getSpecFarmRewards (farmAddr : AccAddress) (poolInfo : gmap string string)
    (snapshot : SnapshotBalanceAggregateMap)
    : res (gmap string (gmap string (option Int)) * SnapshotBalanceAggregateMap) :=
  s ← foldM (spec_entry poolInfo (AccAddressString farmAddr)) (entries farmAddr "reward") (mkSpec ∅ ∅ snapshot);
  Ok (spec_holdings s, spec_snapshot s).

(** [ExportSpecVaultLPs]. *)
Definition spec_farm (acc : Map3 * SnapshotBalanceAggregateMap) (farmAddrStr : string)
    : res (Map3 * SnapshotBalanceAggregateMap) :=
  farmAddr ← AccAddressFromBech32 farmAddrStr;
  pools ← getSpecFarmPools farmAddr;
  '(holding, snapshot) ← getSpecFarmRewards farmAddr pools acc.2;
  Ok (<[farmAddrStr := holding]> acc.1, snapshot).

Definition ExportSpecVaultLPs (snapshot : SnapshotBalanceAggregateMap) : res (Map3 * SnapshotBalanceAggregateMap) :=
  foldM spec_farm specFarms (∅, snapshot).

(** ** Apollo *)

Definition apolloFactory : string := "terra1g7jjjkt5uvkjeyhp8ecdz4e4hvtn83sud3tmh2".

(** The address of a stored strategy, if it decodes; the base token and the pair of
    a stored configuration, and the bonded amount and the shares of a stored
    strategy, both decoded over what is already there; the shares of a user. *)
Context (decode_strategy : string -> option string).
Context (decode_config : string * string -> string -> res (string * string)).
Context (decode_strategy_info : option Int * option Int -> string -> res (option Int * option Int)).
Context (decode_user : string -> res (option Int)).

(** [getListOfStrategies]: what does not decode is skipped. *)
Definition getListOfStrategies : list AccAddress :=
  match AccAddressFromBech32 apolloFactory with
  | Ok contractAddr =>
      omap (fun e => match decode_strategy e.2 with
                     | Some address => match AccAddressFromBase64 address with Ok a => Some a | _ => None end
                     | None => None
                     end) (entries contractAddr "strategies")
  | _ => []
  end.

(** [getStrategyConfig] and [getStrategyInfo]: the last entry counts. *)
Definition getStrategyConfig (strategyAddr : AccAddress) : res (AccAddress * AccAddress) :=
  stratConfig ← foldM (fun c e => must (decode_config c e.2)) (entries strategyAddr "config") ("", "");
  baseToken ← must (AccAddressFromBase64 stratConfig.1);
  tokenPair ← must (AccAddressFromBase64 stratConfig.2);
  Ok (baseToken, tokenPair).

Definition getStrategyInfo (strategyAddr : AccAddress) : res (option Int * option Int) :=
  foldM (fun i e => must (decode_strategy_info i e.2)) (entries strategyAddr "strategy") (None, None).

(** [getUserLpHoldings]; [stratInfo] is the bonded amount and the shares. *)
Definition user_lp (stratInfo : option Int * option Int) (lpHoldings : BalanceMap) (e : string * string)
    : res BalanceMap :=
  shares ← must (decode_user e.2);
  zero ← nint_is_zero shares;
  if (zero : bool) then Ok lpHoldings
  else
    lpAmount ← mul_quo shares stratInfo.1 stratInfo.2;
    Ok (<[AccAddressString e.1 := lpAmount]> lpHoldings).

Definition getUserLpHoldings (strategyAddr : AccAddress) (stratInfo : option Int * option Int) : res BalanceMap :=
  foldM (user_lp stratInfo) (entries strategyAddr "user") ∅.

(** [getLpHoldingsForStrat] and [ExportApolloVaultLPs]. *)
Definition getLpHoldingsForStrat (strategyAddr : AccAddress) : res (BalanceMap * AccAddress) :=
  '(lpTokenAddr, _) ← getStrategyConfig strategyAddr;
  stratInfo ← getStrategyInfo strategyAddr;
  userLpHoldings ← getUserLpHoldings strategyAddr stratInfo;
  Ok (userLpHoldings, lpTokenAddr).

Definition ExportApolloVaultLPs : res Map3 :=
  foldM (fun allLpHoldings strat =>
    '(lpHoldings, lpTokenAddr) ← must (getLpHoldingsForStrat strat);
    Ok (<[AccAddressString strat := {[AccAddressString lpTokenAddr := lpHoldings]}]> allLpHoldings))
    getListOfStrategies (∅ : Map3).

(** ** The fields and the auction of Mars *)

Definition marsFields : list string :=
  ["terra1kztywx50wv38r58unxj9p6k3pgr2ux6w5x68md"; "terra1vapq79y9cqghqny7zt72g4qukndz282uvqwtz6";
   "terra12dq4wmfcsnz6ycep6ek4umtuaj6luhfp256hyu"].
Definition astroportGenerator : string := "terra1zgrx9jjqrfye8swykfgmd6hpde60j0nszzupp9".
Definition marsAuction : string := "terra1hgyamk2kcy3stqx82wrnsklw9aq7rask5dxfds".
Definition marsUstLp : string := "terra1ww6sqvfgmktp0afcmvg78st6z89x5zr3tmvpss".

Record Position : Type := mkPosition { PosUser : string; BondUnits : option Int }.

(** The LP token and the bond units of a field, a page of its positions, the LP
    tokens of a user in the generator, and a stored share in the auction. *)
Context (field_lp : string -> res string) (field_bond_units : string -> res (option Int)).
Context (position_page : string -> string -> res (list Position)).
Context (getAstroportGeneratorDeposit : string -> string -> res (option Int)).
Context (decode_lp_shares : string -> res (option Int)).

(** The recursion of [getFieldOfMarsPositions]. *)
Definition getPositions (fieldContract : string) (fuel : nat) : res (option (list Position)) :=
  pages (position_page fieldContract) 20 PosUser fuel "" [].

(** [getFieldOfMarsPositions], on the positions it collects. *)
Definition getFieldOfMarsPositions (positions : string -> res (list Position)) (fieldContract : string)
    : res (string * BalanceMap) :=
  lp ← field_lp fieldContract;
  total ← field_bond_units fieldContract;
  deposit ← getAstroportGeneratorDeposit lp fieldContract;
  positions ← positions fieldContract;
  lpHoldings ← foldM (fun m pos =>
    x ← mul_quo (BondUnits pos) deposit total; Ok (<[PosUser pos := x]> m)) positions ∅;
  Ok (lp, lpHoldings).

(** [auditAstroportLpBalances]. *)
Definition auditAstroportLpBalances (lpToken : string) (holdings : BalanceMap) (vaultAddr : string) : res unit :=
  astroportDeposits ← getAstroportGeneratorDeposit lpToken vaultAddr;
  totalHolding ← foldM (fun t e => nint_add t e.2) (range 120 holdings) (Some 0);
  AlmostEqual totalHolding astroportDeposits 100000.

(** [ExportFieldOfMarsLpTokens]: a field has one LP token; the last field with
    an LP token is the one it is audited against. *)
Definition mars_field (positions : string -> res (list Position)) (acc : Map3 * gmap string string)
    (fieldContract : string) : res (Map3 * gmap string string) :=
  '(lp, lpHoldings) ← getFieldOfMarsPositions positions fieldContract;
  Ok (<[fieldContract := {[lp := lpHoldings]}]> acc.1, <[lp := fieldContract]> acc.2).

Definition ExportFieldOfMarsLpTokens (positions : string -> res (list Position)) : res Map3 :=
  '(holdings, lpTokenFieldMap) ← foldM (mars_field positions) marsFields (∅, ∅);
  iterM (fun holding =>
    iterM (fun e => auditAstroportLpBalances e.1 e.2 (default "" (lpTokenFieldMap !! e.1))) (range 122 holding.2))
    (range 121 (holdings : Map3));;
  Ok holdings.

(** [ExportMarsAuctionLpHolders]. *)
Definition auction_user (acc : BalanceMap * option Int) (e : string * string) : res (BalanceMap * option Int) :=
  amount ← must (decode_lp_shares e.2);
  zero ← nint_is_zero amount;
  if (zero : bool) then Ok acc
  else sum ← nint_add acc.2 amount; Ok (<[e.1 := amount]> acc.1, sum).

Definition ExportMarsAuctionLpHolders : res Map3 :=
  auction ← ToAddress marsAuction;
  '(marsLpMap, sum) ← foldM auction_user (entries auction "users") (∅, Some 0);
  astroportDeposit ← getAstroportGeneratorDeposit marsUstLp marsAuction;
  marsLpMap ← update_all 123 (fun _ balance => dec_mul_quo balance astroportDeposit sum) marsLpMap;
  Ok {[marsAuction := {[marsUstLp := marsLpMap]}]}.

(** ** The stakers of Mirror *)

Definition MirrorStaking : string := "terra17f7zu97865jmknk7p2glqvxzhduk78772ezac5".
Definition MirAddress : string := "terra15gwkyepfc6xgca5t5zefzwy42uts8l2m4g40k6".

(** The weights of the factory's distribution, the LP token of an asset, a stored
    reward, and the balance of a holder of a token. *)
Context (distribution_weights : res (list (list json_value))) (pool_info : string -> res string).
Context (decode_bond_amount : string -> res (option Int)) (cw20_balance : string -> string -> res Int).

(** [getStakingAssets]: the LP token of each asset but MIR. *)
Definition staking_asset (assetLpMap : gmap string string) (distInf : list json_value) : res (gmap string string) :=
  match distInf with
  | JString asset :: _ =>
      if String.eqb asset MirAddress then Ok assetLpMap
      else stakingToken ← pool_info asset; Ok (<[asset := stakingToken]> assetLpMap)
  | _ => Panic
  end.

Definition getStakingAssets : res (gmap string string) :=
  weights ← distribution_weights;
  foldM staking_asset weights ∅.

(** [getLpHolders]: the key of a reward is the wallet and the asset. *)
Definition mirror_reward (assetLpMap : gmap string string) (lpHolders : gmap string (gmap string (option Int)))
    (e : string * string) : res (gmap string (gmap string (option Int))) :=
  amount ← must (decode_bond_amount e.2);
  zero ← nint_is_zero amount;
  if (zero : bool) then Ok lpHolders
  else
    walletAddr ← slice 2 22 e.1;
    stakingAsset ← slice_from 22 e.1;
    if String.eqb (AccAddressString stakingAsset) MirAddress then Ok lpHolders
    else
      match assetLpMap !! AccAddressString stakingAsset with
      | None => Ok lpHolders
      | Some lpTokenAddr =>
          let users := default ∅ (lpHolders !! lpTokenAddr) in
          Ok (<[lpTokenAddr := <[AccAddressString walletAddr := amount]> users]> lpHolders)
      end.

Definition getLpHolders (stakingAddr : AccAddress) (assetLpMap : gmap string string)
    : res (gmap string (gmap string (option Int))) :=
  foldM (mirror_reward assetLpMap) (entries stakingAddr "reward") ∅.

(** [ExportMirrorLpStakers] and [AuditCompounders]. *)
Definition ExportMirrorLpStakers : res Map3 :=
  assetLpMap ← getStakingAssets;
  lpHoldings ← getLpHolders (address_or_empty MirrorStaking) assetLpMap;
  Ok {[MirrorStaking := lpHoldings]}.

Definition AuditCompounders (compounders : Map3) : res unit :=
  iterM (fun e =>
    contractBalance ← cw20_balance e.1 MirrorStaking;
    usersTotalBalance ← foldM (fun t u => nint_add t u.2) (range 125 e.2) (Some 0);
    AlmostEqual (Some contractBalance) usersTotalBalance 1000000)
    (range 124 (default ∅ (compounders !! MirrorStaking))).

(** ** The lockdrop of Kinetic *)

Definition AddressKineticLockdrop : string := "terra140pm775hac6qzzvjd66ur44ye8llw4g5y55qw3".
Definition AddressKUstUstLp : string := "terra16aurvlp5xctv0ftcelaseypyc89ylf4y0s5q0y".

Context (decode_ust_locked : string -> res (option Int)).

(** [exportKineticLockdropShares]. *)
Definition exportKineticLockdropShares : res BalanceMap :=
  lockdrop ← ToAddress AddressKineticLockdrop;
  foldM (fun shareHolders e => ustLocked ← must (decode_ust_locked e.2); Ok (<[e.1 := ustLocked]> shareHolders))
    (entries lockdrop "users") ∅.

(** [ExportKineticLpHoldings]. *)
Definition ExportKineticLpHoldings : res Map3 :=
  holders ← exportKineticLockdropShares;
  balance ← cw20_balance AddressKUstUstLp AddressKineticLockdrop;
  totalShares ← Sum holders;
  holders ← update_all 126 (fun _ b => mul_quo b (Some balance) totalShares) holders;
  Ok {[AddressKineticLockdrop := {[AddressKUstUstLp := holders]}]}.

End compounders.

(** ** Theorems *)

Section compounder_facts.
Context {M : SdkMath} {ML : SdkMathLaws M} {R : GoRange} {RL : GoRangeLaws R} {A : Bech32}.
Context (contract_store : AccAddress -> list (string * string)).

(** *** Spectrum *)

(** The nLuna of the single staking farm is recorded under the address of the
    token and not under its denomination, and nothing else is recorded: the
    snapshot has no nLuna that could be resolved. *)
Theorem spectrum_nluna_misnamed decode_spec_pool reward_info holdings s d :
  ExportSpecVaultLPs contract_store decode_spec_pool reward_info ∅ = Ok (holdings, s) ->
  d <> AddressNLUNA -> free_of d s.
Proof.
  unfold ExportSpecVaultLPs. intros H Hd. change (free_of d (holdings, s).2). revert H.
  apply (foldM_inv (fun acc => free_of d acc.2)); [|apply free_of_empty].
  intros acc farm acc' _ Hacc H. unfold spec_farm in H. go_inv. cbn.
  unfold getSpecFarmRewards in Hv1. go_inv. revert Hv2.
  apply (foldM_inv (fun st => free_of d (spec_snapshot st))); [|done].
  intros st e st' _ Hst H. unfold spec_entry in H. go_inv. destruct (decide _); [by go_inv|]. go_inv.
  revert H. apply (foldM_inv (fun st => free_of d (spec_snapshot st))); [|done].
  intros st1 r st2 _ Hst1 H. unfold spec_reward in H. destruct (String.eqb _ _); go_inv; [|done]. cbn.
  by eapply AppendOrAddBalance_free.
Qed.

(** *** Apollo *)

(** The shares of a stored user. *)
Definition stored_shares (decode_user : string -> res (option Int)) (e : string * string) : Z :=
  match decode_user e.2 with
  | Ok shares => default 0 shares
  | _ => 0
  end.

(** Apollo's users get no more LP tokens than the strategy has bonded, when the
    shares in its storage are not more than its total. *)
Theorem apollo_within_bond decode_user strategy bond total m :
  getUserLpHoldings contract_store decode_user strategy (Some bond, Some total) = Ok m ->
  0 <= bond -> 0 < total ->
  Forall (fun e => 0 <= stored_shares decode_user e) (entries contract_store strategy "user") ->
  sumZ (stored_shares decode_user) (entries contract_store strategy "user") <= total ->
  0 <= map_sum m <= bond.
Proof.
  unfold getUserLpHoldings. generalize (entries contract_store strategy "user"). intros l H Hb Ht Hpos Hsum.
  enough (Hx : 0 <= map_sum m /\ map_sum m * total <= sumZ (stored_shares decode_user) l * bond) by nia.
  enough (Hx : forall m0, foldM (user_lp decode_user (Some bond, Some total)) l m0 = Ok m ->
    map_Forall (fun _ v => 0 <= default 0 v) m0 -> 0 <= map_sum m0 ->
    0 <= map_sum m /\ map_sum m * total <= map_sum m0 * total + sumZ (stored_shares decode_user) l * bond).
  { apply Hx in H as [H1 H2]; [|apply map_Forall_empty|done]. change (map_sum ∅) with 0 in H2. lia. }
  clear H Hsum. induction Hpos as [|e l He _ IH]; intros m0 H Hm0 Hs0; cbn in H; go_inv.
  { rewrite sumZ_nil. lia. }
  rewrite sumZ_cons. unfold user_lp in Hv. go_inv. apply nint_is_zero_Ok in Hv1 as (v2 & -> & ->).
  assert (E : stored_shares decode_user e = v2) by (unfold stored_shares; by rewrite Hv0).
  rewrite E in He |- *. clear E. destruct (v2 =? 0); go_inv.
  { destruct (IH _ H Hm0 Hs0). nia. }
  apply mul_quo_Ok in Hv1 as (x & y & z & [= <-] & [= <-] & [= <-] & _ & ->).
  assert (Hq : 0 <= Z.quot (v2 * bond) total /\ Z.quot (v2 * bond) total * total <= v2 * bond).
  { rewrite Z.quot_div_nonneg by nia. split; [apply Z.div_pos; nia|].
    rewrite Z.mul_comm. apply Z.mul_div_le. lia. }
  assert (Ho : 0 <= default 0 (amount_in m0 (AccAddressString e.1)))
    by (unfold amount_in; destruct (m0 !! _) eqn:Em; cbn; [by apply (Hm0 _ _ Em)|lia]).
  assert (Hle : map_sum (<[AccAddressString e.1 := Some (Z.quot (v2 * bond) total)]> m0) <=
                map_sum m0 + Z.quot (v2 * bond) total) by (rewrite map_sum_insert; cbn; lia).
  apply IH in H as [H1 H2].
  - nia.
  - apply map_Forall_insert_2; [cbn; lia|done].
  - unfold map_sum. apply sumZ_nonneg, Forall_forall. intros [k w] Hin%elem_of_map_to_list. cbn.
    apply lookup_insert_Some in Hin as [[_ <-]|[_ Hin]]; [cbn; lia|by apply (Hm0 k)].
Qed.

(** *** Mars *)

Section mars.
Context (field_lp : string -> res string) (field_bond_units : string -> res (option Int)).
Context (deposit_of : string -> string -> res (option Int)) (positions : string -> res (list Position)).

Lemma mars_fields_lps l holdings lps holdings' lps' :
  foldM (mars_field field_lp field_bond_units deposit_of positions) l (holdings, lps) = Ok (holdings', lps') ->
  (forall lp f, lps !! lp = Some f -> field_lp f = Ok lp) -> forall lp f, lps' !! lp = Some f -> field_lp f = Ok lp.
Proof.
  intros H H0. change (forall lp f, (holdings', lps').2 !! lp = Some f -> field_lp f = Ok lp). revert H.
  apply (foldM_inv (fun acc => forall lp f, acc.2 !! lp = Some f -> field_lp f = Ok lp)); [|done].
  intros acc f acc' _ Hacc H lp g. unfold mars_field, getFieldOfMarsPositions in H. go_inv. cbn.
  intros [[<- <-]|[_ Hg]]%lookup_insert_Some; [done|by apply Hacc].
Qed.

(** The positions of the fields are audited: if the export succeeds, then for the
    LP token of every field the users' parts add up to what the generator holds for
    a field with this LP token, within 0.1 of a token. *)
Theorem mars_fields_audited holdings field lp users :
  ExportFieldOfMarsLpTokens field_lp field_bond_units deposit_of positions = Ok holdings ->
  (holdings : Map3) !! field = Some users -> is_Some (users !! lp) ->
  exists h g deposit, users !! lp = Some h /\ deposit_of lp g = Ok (Some deposit) /\
    (g = "" \/ field_lp g = Ok lp) /\ Z.abs (map_sum h - deposit) < 100000.
Proof.
  unfold ExportFieldOfMarsLpTokens. intros H Hf [h Hh]. apply bind_Ok in H as ([hs lps] & Hm & H). go_inv.
  pose proof (mars_fields_lps _ _ _ _ _ Hm ltac:(intros ? ?; by rewrite lookup_empty)) as Hlp.
  apply iterM_Ok in Hv. rewrite Forall_forall in Hv. specialize (Hv (field, users)).
  rewrite range_perm, elem_of_map_to_list in Hv. specialize (Hv Hf). cbn in Hv.
  apply iterM_Ok in Hv. rewrite Forall_forall in Hv. specialize (Hv (lp, h)).
  rewrite range_perm, elem_of_map_to_list in Hv. specialize (Hv Hh). cbn in Hv.
  unfold auditAstroportLpBalances in Hv. go_inv. apply strict_sum_Ok in Hv1 as ->.
  apply AlmostEqual_near in Hv as (x & y & E & -> & Hd). injection E as <-.
  exists h, (default "" (lps !! lp)), y. repeat split; [done|done| |done].
  destruct (lps !! lp) as [g|] eqn:Eg; [right; by apply Hlp|by left].
Qed.

Lemma auction_users_Ok decode l m0 m sum :
  foldM (auction_user decode) l (m0, Some (map_sum m0)) = Ok (m, sum) ->
  NoDup l.*1 -> (forall k, k ∈ l.*1 -> m0 !! k = None) -> Forall (fun e => 0 <= stored_shares decode e) l ->
  map_Forall (fun _ v => 0 <= default 0 v) m0 ->
  sum = Some (map_sum m) /\ map_sum m = map_sum m0 + sumZ (stored_shares decode) l /\
  map_Forall (fun _ v => 0 <= default 0 v) m /\ (size m <= size m0 + length l)%nat.
Proof.
  revert m0. induction l as [|e l IH]; intros m0 H Hnd Hk Hpos Hm0; cbn in H; go_inv.
  { rewrite sumZ_nil. cbn. repeat split; [lia|done|lia]. }
  rewrite fmap_cons, NoDup_cons in Hnd. destruct Hnd as [He Hnd]. rewrite fmap_cons in Hk.
  apply Forall_cons in Hpos as [Hpe Hpos]. rewrite sumZ_cons. cbn [length].
  unfold auction_user in Hv. go_inv. apply nint_is_zero_Ok in Hv1 as (x & -> & ->).
  assert (E : stored_shares decode e = x) by (unfold stored_shares; by rewrite Hv0).
  rewrite E in Hpe |- *. clear E. destruct (Z.eqb_spec x 0) as [->|]; go_inv.
  - destruct (IH _ H Hnd) as (H1 & H2 & H3 & H4); [|done..|].
    + intros k Hin. apply Hk. by right.
    + repeat split; [done|lia|done|lia].
  - apply nint_add_Ok in Hv1 as (a & b & E1 & E2 & ->). cbn in E1. injection E1 as <-. injection E2 as <-.
    assert (Hn : m0 !! e.1 = None) by (apply Hk; by left).
    assert (Hs : map_sum m0 + x = map_sum (<[e.1 := Some x]> m0))
      by (rewrite map_sum_insert; unfold amount_in; rewrite Hn; cbn; lia).
    cbn in H. rewrite Hs in H. destruct (IH _ H Hnd) as (H1 & H2 & H3 & H4).
    + intros k Hin. rewrite lookup_insert_ne by (intros <-; done). apply Hk. by right.
    + done.
    + by apply map_Forall_insert_2.
    + rewrite map_size_insert_None in H4 by done. repeat split; [done|lia|done|lia].
Qed.

(** The auction of Mars hands out what it has in the generator: the bidders' parts
    add up to its deposit, up to one unit for each, and never to more. *)
Theorem mars_auction_split decode_lp_shares auction deposit m3 :
  ExportMarsAuctionLpHolders contract_store deposit_of decode_lp_shares = Ok m3 ->
  AccAddressFromBech32 marsAuction = Ok auction -> deposit_of marsUstLp marsAuction = Ok (Some deposit) ->
  NoDup (entries contract_store auction "users").*1 ->
  Forall (fun e => 0 <= stored_shares decode_lp_shares e) (entries contract_store auction "users") ->
  0 < sumZ (stored_shares decode_lp_shares) (entries contract_store auction "users") -> 0 <= deposit ->
  exists m, m3 = {[marsAuction := {[marsUstLp := m]}]} /\
    map_sum m <= deposit <= map_sum m + Z.of_nat (length (entries contract_store auction "users")).
Proof.
  unfold ExportMarsAuctionLpHolders, ToAddress. intros H Ha Hd Hnd Hpos Hs Hd0. rewrite Ha in H.
  cbn [must mbind res_bind] in H. apply bind_Ok in H as ([m sum] & Hu & H). rewrite Hd in H.
  cbn [mbind res_bind] in H. apply bind_Ok in H as (v & Hv & H). injection H as <-. exists v. split; [done|].
  change (Some 0) with (Some (map_sum ∅)) in Hu. apply (auction_users_Ok _ _ ∅) in Hu as (-> & H2 & H3 & H4);
    [|done|intros; apply lookup_empty|done|apply map_Forall_empty].
  change (map_sum ∅) with 0 in H2. rewrite map_size_empty in H4.
  enough (map_sum v <= deposit <= map_sum v + Z.of_nat (size m)) by lia.
  eapply split_deposit; [exact Hv|apply split_dec_mul_quo|done|done|lia].
Qed.

End mars.

(** *** Mirror *)

(** The audit of the stakers of Mirror holds for every LP token: the users' parts
    add up to what the staking contract holds of it, within one token. *)
Theorem mirror_stakers_audited cw20_balance (compounders : Map3) lps lp users :
  AuditCompounders cw20_balance compounders = Ok tt ->
  compounders !! MirrorStaking = Some lps -> lps !! lp = Some users ->
  exists balance, cw20_balance lp MirrorStaking = Ok balance /\ Z.abs (balance - map_sum users) < 1000000.
Proof.
  unfold AuditCompounders. intros H Hc Hl. rewrite Hc in H. apply iterM_Ok in H. rewrite Forall_forall in H.
  specialize (H (lp, users)). rewrite range_perm, elem_of_map_to_list in H. specialize (H Hl). cbn in H. go_inv.
  apply strict_sum_Ok in Hv0 as ->. apply AlmostEqual_near in H as (x & y & [= <-] & [= <-] & Hd). eauto.
Qed.

(** The staked LP tokens of MIR are left to the generator: whatever is stored, no
    LP token is exported that is not that of another asset. *)
Theorem mirror_skips_mir distribution_weights pool_info decode_bond_amount m3 lps lp :
  ExportMirrorLpStakers contract_store distribution_weights pool_info decode_bond_amount = Ok m3 ->
  (m3 : Map3) !! MirrorStaking = Some lps -> is_Some (lps !! lp) ->
  exists asset, asset <> MirAddress /\ pool_info asset = Ok lp.
Proof.
  unfold ExportMirrorLpStakers, getStakingAssets, getLpHolders. intros H Hm Hl. go_inv.
  rewrite lookup_singleton_eq in Hm. injection Hm as ->.
  assert (Ha : forall asset lp, v !! asset = Some lp -> asset <> MirAddress /\ pool_info asset = Ok lp).
  { revert Hv. apply (foldM_inv (fun (m : gmap string string) => forall asset lp, m !! asset = Some lp ->
      asset <> MirAddress /\ pool_info asset = Ok lp)); [|intros ? ?; by rewrite lookup_empty].
    intros m [|[asset|] rest] m' _ Hacc H asset' lp'; cbn in H; try done.
    destruct (String.eqb_spec asset MirAddress); go_inv; [apply Hacc|].
    intros [[<- <-]|[_ Hin]]%lookup_insert_Some; [done|by apply Hacc]. }
  enough (Hx : forall lp, is_Some (lps !! lp) -> exists asset, v !! asset = Some lp) by naive_solver.
  revert Hv0. apply (foldM_inv (fun (m : gmap string (gmap string (option Int))) => forall lp, is_Some (m !! lp) ->
    exists asset, v !! asset = Some lp)); [|intros ? []; by rewrite lookup_empty in *].
  intros m e m' _ Hacc H lp'. unfold mirror_reward in H. go_inv. destruct (v2 : bool); go_inv; [apply Hacc|].
  destruct (String.eqb _ _); go_inv; [apply Hacc|]. destruct (v !! _) as [lp1|] eqn:E; go_inv; [|apply Hacc].
  destruct (decide (lp1 = lp')) as [->|Hne]; [eauto|]. rewrite lookup_insert_ne by done. apply Hacc.
Qed.

(** *** Kinetic *)

(** The lockdrop of Kinetic splits its LP tokens among the users by the UST they
    locked: the parts add up to what it holds, up to one unit for each user. *)
Theorem kinetic_lps_split cw20_balance decode_ust_locked holders balance m3 :
  ExportKineticLpHoldings contract_store cw20_balance decode_ust_locked = Ok m3 ->
  exportKineticLockdropShares contract_store decode_ust_locked = Ok holders ->
  cw20_balance AddressKUstUstLp AddressKineticLockdrop = Ok balance -> 0 <= balance ->
  map_Forall (fun _ v => 0 <= default 0 v) holders -> 0 < map_sum holders ->
  exists m, m3 = {[AddressKineticLockdrop := {[AddressKUstUstLp := m]}]} /\
    map_sum m <= balance <= map_sum m + Z.of_nat (size holders).
Proof.
  unfold ExportKineticLpHoldings. intros H Hh Hb Hb0 Hpos Hs. rewrite Hh, Hb in H.
  cbn [mbind res_bind] in H. go_inv. apply Sum_Ok in Hv as ->. exists v0. split; [done|].
  eapply split_deposit; [exact Hv0|apply split_mul_quo|done..].
Qed.

End compounder_facts.
