(* ===== verification/Deposits.v ===== *)
(** * Deposits and wallets in the exporter

    Models the exporters that credit what a protocol holds for its users:
    [src/app/export/alice], [anchor], [angel], [glow], [kujira], [nebula],
    [oneplanet], [pylon], [randomearth], [stader], [starflet], [starterra],
    [suberra] and the refunds of [terrafloki].  What contracts answer and how stored
    texts decode are arguments. *)

From Stdlib Require Import ZArith Lia Bool Ascii.
From stdpp Require Import base strings list gmap.
From S2P Require Import Prelude Base64 Loops Sdk SdkRef Snapshot ExportUtil Derivatives Holdings Compounders.
Local Open Scope Z_scope.

(** [contains] of [stader] and [edge]. *)
Definition list_contains (a : list string) (i : string) : bool := existsb (String.eqb i) a.

(** [strings.Trim] of quotes. *)
Fixpoint trim_left (s : string) : string :=
  match s with
  | String c s' => if Ascii.eqb c "034"%char then trim_left s' else s
  | EmptyString => s
  end.

Fixpoint trim_right (s : string) : string :=
  match s with
  | String c s' =>
      match trim_right s' with
      | EmptyString => if Ascii.eqb c "034"%char then EmptyString else String c EmptyString
      | t => String c t
      end
  | EmptyString => s
  end.

Definition trim_quotes (s : string) : string := trim_right (trim_left s).

Section deposits.
Context {M : SdkMath} {R : GoRange} {A : Bech32} {B : Type} {BK : BankKeeper B} (bank : B).
Context (NewIntFromString : string -> option Int).
Context (contract_store : AccAddress -> list (string * string)).
Context (cw20_balance : string -> string -> res Int) (total_supply : string -> res Int).

(** ** Alice *)

Definition AliceaaUSTWrapper : string := "terra14el5cs9v3ezu57fc32kx2ltad4m3elg3le8twp".

Context (decode_string : string -> res string).

(** [forceIterateAndFindWalletAndBalance]: a text that is no number leaves a nil
    balance. *)
Definition forceIterateAndFindWalletAndBalance (aaUST : string) (balances : BalanceMap) : res BalanceMap :=
  foldM (fun balances e => bal ← must (decode_string e.2); Ok (<[e.1 := NewIntFromString bal]> balances))
    (entries contract_store (address_or_empty aaUST) "balance") balances.

Definition ExportAlice (b : Blacklist) : res (SnapshotBalanceAggregateMap * Blacklist) :=
  let b := RegisterAddress DenomAUST AliceaaUSTWrapper b in
  balances ← forceIterateAndFindWalletAndBalance AliceaaUSTWrapper ∅;
  finalBalances ← credit_all 130 DenomAUST balances ∅;
  Ok (finalBalances, b).

(** ** Anchor *)

Definition AddressOverseer : string := "terra1tmnqgvg567ypvsvk6rwsga3srp7e3lg6u0elp8".
Definition AddressBLUNACustody : string := "terra1ptjp2vfjrwh0j0faj9r6katm640kgjxnwwq9kn".

Context (decode_collaterals : string -> res (list (string * string))).

(** [ExportbLUNA]: the collateral that is bLuna; errors of base64 are dropped. *)
Definition bluna_collateral (userAddr : string) (s : SnapshotBalanceAggregateMap) (collateral : string * string)
    : res SnapshotBalanceAggregateMap :=
  let assetAddr := AccAddressString (base64_DecodeString collateral.1).1 in
  if negb (String.eqb assetAddr AddressBLUNA) then Ok s
  else AppendOrAddBalance userAddr s (mkSB DenomBLUNA (NewIntFromString collateral.2)).

Definition ExportbLUNA (bl : Blacklist) : res (SnapshotBalanceAggregateMap * Blacklist) :=
  let bl := RegisterAddress DenomLUNA AddressBLUNAHub bl in
  let bl := RegisterAddress DenomBLUNA AddressBLUNACustody bl in
  finalBalance ← foldM (fun s e =>
    collaterals ← must (decode_collaterals e.2);
    foldM (bluna_collateral (AccAddressString e.1)) collaterals s)
    (entries contract_store (address_or_empty AddressOverseer) "collateral") ∅;
  Ok (finalBalance, bl).

(** [ExportAnchorDeposit]. *)
Definition ExportAnchorDeposit (bl : Blacklist) : res (SnapshotBalanceAggregateMap * Blacklist) :=
  balanceMap ← wrap_err (Errorf "aUST holders and balances") (cw20_holders NewIntFromString contract_store AddressAUST);
  finalBalance ← credit_all 131 DenomAUST balanceMap ∅;
  Ok (finalBalance, bl).

(** What Anchor's market answers for the price of aUST ([GetAUstExchangeRate]). *)
Context (GetAUstExchangeRate : res Dec).

(** ** Angel *)

Definition DANO : string := "terra1rcznds2le2eflj3y4e8ep3e4upvq04sc65wdly".

(** The endowments, the amounts of the liquid and the locked tokens of an
    endowment, and the owner in its init message. *)
Context (endowment_list : res (list string)) (apanc_balance : string -> res (list (option Int) * list (option Int))).
Context (endowment_owner : string -> res string).

Definition add_first (sum : option Int) (l : list (option Int)) : res (option Int) :=
  match l with
  | [] => Ok sum
  | amount :: _ => nint_add sum amount
  end.

Definition endowment (acc : SnapshotBalanceAggregateMap * option Int) (address : string)
    : res (SnapshotBalanceAggregateMap * option Int) :=
  '(LiquidCW20, LockedCW20) ← apanc_balance address;
  aUSTBalance ← add_first (Some 0) LiquidCW20;
  aUSTBalance ← add_first aUSTBalance LockedCW20;
  zero ← nint_is_zero aUSTBalance;
  if (zero : bool) then Ok acc
  else
    totalaUST ← nint_add acc.2 aUSTBalance;
    owner ← endowment_owner address;
    snapshot ← AppendOrAddBalance owner acc.1 (mkSB DenomAUST aUSTBalance);
    Ok (snapshot, totalaUST).

(** [ExportEndowments]: the log line panics on a total of more than 63 bits. *)
Definition ExportEndowments (bl : Blacklist) : res (SnapshotBalanceAggregateMap * Blacklist) :=
  endowments ← endowment_list;
  '(snapshot, totalaUST) ← foldM endowment endowments (∅, Some 0);
  let total := default 0 totalaUST in
  panic_if (negb ((- two63 <=? total) && (total <? two63)));;
  Ok (snapshot, RegisterAddress DenomAUST DANO (RegisterAddress DenomUST DANO bl)).

(** ** Glow *)

Record Deposit : Type := mkDeposit { Depositor : string; LotteryDeposit : option Int; Savings : option Int }.

Context (depositors_page : string -> res (list Deposit)).

(** The recursion over the depositors; the first page is asked for without a
    start, which is the empty address. *)
Definition allDeposits (fuel : nat) : res (option (list Deposit)) :=
  pages depositors_page 50 Depositor fuel "" [].

Definition glow_deposit (aUstER : Dec) (s : SnapshotBalanceAggregateMap) (deposit : Deposit)
    : res SnapshotBalanceAggregateMap :=
  lottery ← dec_quo_trunc (LotteryDeposit deposit) aUstER;
  balance ← nint_add (Some lottery) (Savings deposit);
  AppendOrAddBalance (Depositor deposit) s (mkSB DenomAUST balance).

(** [ExportContract] of Glow; the blacklist stays as it is. *)
Definition glow_ExportContract (fuel : nat) (bl : Blacklist)
    : res (option (SnapshotBalanceAggregateMap * Blacklist)) :=
  with_pages (allDeposits fuel) (fun deposits =>
    aUstER ← GetAUstExchangeRate;
    snapshot ← foldM (glow_deposit aUstER) deposits ∅;
    Ok (snapshot, bl)).

(** ** Kujira *)

Definition KujiraAUstVault : string := "terra13nk2cjepdzzwfqy740pxzpe3x75pd6g0grxm2z".

(** The bidder, in base64, and the amount of a stored bid. *)
Context (decode_bid : string -> res (string * option Int)).

Definition kujira_bid (balances : BalanceMap) (e : string * string) : res BalanceMap :=
  '(bidder, amount) ← must (decode_bid e.2);
  zero ← nint_is_zero amount;
  if (zero : bool) then Ok balances
  else
    bidderAddr ← must (AccAddressFromBase64 bidder);
    add_holder balances (AccAddressString bidderAddr) amount.

(** [ExportKujiraVault] and [Audit]; the result of the comparison is dropped. *)
Definition ExportKujiraVault (bl : Blacklist) : res (SnapshotBalanceAggregateMap * Blacklist) :=
  vaultAddr ← AccAddressFromBech32 KujiraAUstVault;
  balances ← foldM kujira_bid (entries contract_store vaultAddr "bid") ∅;
  Ok (Add balances DenomAUST ∅, RegisterAddress DenomAUST KujiraAUstVault bl).

Definition kujira_Audit (snapshot : SnapshotBalanceAggregateMap) : res unit :=
  vaultBalance ← cw20_balance AUST KujiraAUstVault;
  sum ← SumOfDenom snapshot DenomAUST;
  log_err (AlmostEqual (Some vaultBalance) sum 100000000).

(** ** Nebula *)

Definition AddressCommunityFund : string := "terra1g5py2hu8kpenqetv6xjas5z5gtaszhsuk8yn7n".
Definition AddressDeployer : string := "terra1dtg8ypwynpk3fxac0tfkh6tcp6jata67am4k00".

Definition ExportNebulaCommunityFund (bl : Blacklist) : res (SnapshotBalanceAggregateMap * Blacklist) :=
  let bl := RegisterAddress DenomUST AddressCommunityFund bl in
  uusdBalance ← wrap_err (Errorf "error fetching ust balance") (GetNativeBalance bank "uusd" AddressCommunityFund);
  finalBalance ← AppendOrAddBalance AddressDeployer ∅ (mkSB DenomUST (Some uusdBalance));
  Ok (finalBalance, bl).

(** ** OnePlanet *)

Definition opUST : string * string := ("terra1r27hqy58tmgnv9uykc708wzdlel9n3g0qdm04c", DenomUST).
Definition opLUNA : string * string := ("terra15d2d3pw6ag3tltycmvn2uxfnlwcr86utyl83r6", DenomLUNA).

(** The owner in the init message of a contract, an error for a wallet, and the
    recipient in that of a sale. *)
Context (getOwnerIfExists : string -> res string) (sales_recipient : string -> res string).

Definition holding_owner (address : string) : res string :=
  match getOwnerIfExists address with
  | Panic => Panic
  | Err _ => Ok address
  | Ok owner =>
      if String.eqb owner "" then
        recipient ← sales_recipient address;
        match getOwnerIfExists recipient with
        | Panic => Panic
        | Err _ => Ok recipient
        | Ok owner => Ok owner
        end
      else Ok owner
  end.

Definition oneplanet_holding (denom : string) (s : SnapshotBalanceAggregateMap) (e : string * option Int)
    : res SnapshotBalanceAggregateMap :=
  zero ← nint_is_zero e.2;
  if (zero : bool) then Ok s
  else owner ← holding_owner e.1; AppendOrAddBalance owner s (mkSB denom e.2).

(** [ExportHoldings] and [Audit]. *)
Definition ExportHoldings (bl : Blacklist) : res (SnapshotBalanceAggregateMap * Blacklist) :=
  snapshot ← foldM (fun s contract =>
    balances ← cw20_holders NewIntFromString contract_store contract.1;
    foldM (oneplanet_holding contract.2) (range 132 balances) s) [opUST; opLUNA] ∅;
  Ok (snapshot, bl).

(** A native balance against what the snapshot has of the denomination. *)
Definition audit_native (snapshot : SnapshotBalanceAggregateMap) (denom holder : string) (epsilon : Int) : res unit :=
  balance ← GetNativeBalance bank denom holder;
  sum ← SumOfDenom snapshot denom;
  AlmostEqual (Some balance) sum epsilon.

Definition oneplanet_Audit (snapshot : SnapshotBalanceAggregateMap) : res unit :=
  audit_native snapshot DenomUST opUST.1 1000000;;
  audit_native snapshot DenomLUNA opLUNA.1 1000000.

(** ** RandomEarth *)

Definition Settlement : string := "terra1eek0ymmhyzja60830xhzm7k7jkrk99a60q2z2t".

Definition settlement (s : SnapshotBalanceAggregateMap) (e : string * string) : res SnapshotBalanceAggregateMap :=
  if contains "uluna" e.1 then
    correctedAddress ← slice 2 46 e.1;
    match NewIntFromString (trim_quotes e.2) with
    | Some balance =>
        if balance =? 0 then Ok s else AppendOrAddBalance correctedAddress s (mkSB DenomLUNA (Some balance))
    | None => Ok s
    end
  else Ok s.

Definition ExportSettlements (bl : Blacklist) : res (SnapshotBalanceAggregateMap * Blacklist) :=
  delegatorAddr ← AccAddressFromBech32 Settlement;
  snapshot ← foldM settlement (entries contract_store delegatorAddr "balances") ∅;
  Ok (snapshot, RegisterAddress DenomLUNA Settlement bl).

(** ** Starflet *)

Definition Arbitrage : string := "terra1ndvfjs47eax9yxkc5tge2awlahswry3tg76zvj".
Definition vSWAP : string := "terra1tgsex5ncsutdpl202mhgmldwtcp2w8nyg6a5gq".

Definition starflet_holder (totalSupply aUSTBalance : Int) (s : SnapshotBalanceAggregateMap) (e : string * option Int)
    : res SnapshotBalanceAggregateMap :=
  balance ← get_int e.2;
  ratio ← dec_quo_int (NewDec balance) totalSupply;
  amount ← convert ratio (Some aUSTBalance);
  zero ← nint_is_zero amount;
  if (zero : bool) then Ok s else AppendOrAddBalance e.1 s (mkSB DenomAUST amount).

Definition ExportArbitrageAUST (bl : Blacklist) : res (SnapshotBalanceAggregateMap * Blacklist) :=
  totalSupply ← total_supply vSWAP;
  balanceMap ← cw20_holders NewIntFromString contract_store vSWAP;
  aUSTBalance ← cw20_balance AUST Arbitrage;
  snapshot ← foldM (starflet_holder totalSupply aUSTBalance) (range 133 balanceMap) ∅;
  Ok (snapshot, RegisterAddress DenomAUST Arbitrage bl).

(** ** StarTerra *)

Definition IDO : string := "terra1yzewp648fwq7ymlfdg5h90dfzk5y2hf6kk9pdm".

Context (funders_page : string -> res (list (string * option Int))).

Definition funder (shareHoldings : BalanceMap) (u : string * option Int) : res BalanceMap :=
  zero ← nint_is_zero u.2;
  if (zero : bool) then Ok shareHoldings else add_holder shareHoldings u.1 u.2.

Definition ido_user (ustRatio aUstRatio : Dec) (s : SnapshotBalanceAggregateMap) (e : string * option Int)
    : res SnapshotBalanceAggregateMap :=
  ust ← convert ustRatio e.2;
  s ← AppendOrAddBalance e.1 s (mkSB DenomUST ust);
  aust ← convert aUstRatio e.2;
  AppendOrAddBalance e.1 s (mkSB DenomAUST aust).

(** [ExportIDO] and [Audit]. *)
Definition split_ido (shareHoldings : BalanceMap) (bl : Blacklist) : res (SnapshotBalanceAggregateMap * Blacklist) :=
  ustBalance ← GetNativeBalance bank DenomUST IDO;
  aUstBalance ← cw20_balance AUST IDO;
  totalShares ← Sum shareHoldings;
  total ← get_int totalShares;
  ustRatio ← dec_quo_int (NewDec ustBalance) total;
  aUstRatio ← dec_quo_int (NewDec aUstBalance) total;
  snapshot ← foldM (ido_user ustRatio aUstRatio) (range 134 shareHoldings) ∅;
  Ok (snapshot, RegisterAddress DenomAUST IDO (RegisterAddress DenomUST IDO bl)).

Definition ExportIDO (fuel : nat) (bl : Blacklist) : res (option (SnapshotBalanceAggregateMap * Blacklist)) :=
  with_pages (page_loop funders_page fst funder fuel "" ∅) (fun shareHoldings => split_ido shareHoldings bl).

Definition starterra_Audit (snapshot : SnapshotBalanceAggregateMap) : res unit :=
  ustBalance ← GetNativeBalance bank DenomUST IDO;
  ust ← SumOfDenom snapshot DenomUST;
  AlmostEqual ust (Some ustBalance) 10000;;
  aUstBalance ← cw20_balance AUST IDO;
  aust ← SumOfDenom snapshot DenomAUST;
  AlmostEqual aust (Some aUstBalance) 10000.

(** ** Suberra *)

Definition suberraSubwalletFactory : string := "terra1xmcfl8fpkq6etxznwgv58x6t7tshnjpu25a5s8".

(** A stored address, the owner of a wallet, and the wallet of an owner. *)
Context (decode_acc_address : string -> res AccAddress) (wallet_owner : string -> res string).
Context (subwallet_address : string -> res string).

Definition forceIterateSubwallets : res (list string) :=
  foldM (fun subwallets e => address ← must (decode_acc_address e.2); Ok (subwallets ++ [AccAddressString address]))
    (entries contract_store (address_or_empty suberraSubwalletFactory) "accounts") [].

Definition iterateSubwalletsAndGetAUstBalance (aUST : string) (subwallets : list string) (dst : BalanceMap)
    : res BalanceMap :=
  foldM (fun dst subwallet => bal ← cw20_balance aUST subwallet; Ok (<[subwallet := Some bal]> dst)) subwallets dst.

Definition mapSubwalletToAdmin (subwalletBalances : BalanceMap) (ownerBalances : SnapshotBalanceAggregateMap)
    : res SnapshotBalanceAggregateMap :=
  foldM (fun s e =>
    owner ← wallet_owner e.1;
    positive ← nint_is_positive e.2;
    if (positive : bool) then AppendOrAddBalance owner s (mkSB DenomAUST e.2) else Ok s)
    (range 135 subwalletBalances) ownerBalances.

(** [ExportSuberra] and [Audit]; the result of the comparison is dropped. *)
Definition ExportSuberra (bl : Blacklist) : res (SnapshotBalanceAggregateMap * Blacklist) :=
  subwallets ← forceIterateSubwallets;
  subwalletBalances ← iterateSubwalletsAndGetAUstBalance AUST subwallets ∅;
  ownerBalances ← mapSubwalletToAdmin subwalletBalances ∅;
  Ok (ownerBalances, foldl (fun bl addr => RegisterAddress DenomAUST addr bl) bl subwallets).

Definition suberra_Audit (snapshot : SnapshotBalanceAggregateMap) : res unit :=
  fail_if (size snapshot <? 2)%nat (Errorf "should have more than one sub account");;
  filtered ← FilterByDenom snapshot DenomAUST;
  iterM (fun e =>
    subAccount ← subwallet_address e.1;
    bal ← cw20_balance AUST subAccount;
    log_err (AlmostEqual (Some bal) e.2 1000)) (range 136 filtered).

(** ** The refunds of TerraFloki *)

Definition AddressRefund : string := "terra18g85ql9y9dendkp9m2qlea9ve3cddsjydldugv".
Definition AddressRefundTo : string := "terra14qjm8ds0adqx9rsuxg97vm3av4y2uvdk7key4l".
Definition AddressMarket : string := "terra1mut6ymgk46cnvddl8ut7qveyy5s57lgxrer9uj".
Definition AddressMarketTo : string := "terra1y3wh6amdh7wets54f0jzz6fy3skwyum55yr8hs".

(** An error of the aUST query is dropped and counts as zero. *)
Definition map_funds (from to : string) (s : SnapshotBalanceAggregateMap) : res SnapshotBalanceAggregateMap :=
  uusdBalance ← GetNativeBalance bank "uusd" from;
  austBalance ← match cw20_balance AddressAUST from with
                | Ok b => Ok b
                | Err _ => Ok 0
                | Panic => Panic
                end;
  s ← AppendOrAddBalance to s (mkSB DenomUST (Some uusdBalance));
  AppendOrAddBalance to s (mkSB DenomAUST (Some austBalance)).

Definition ExportFlokiRefunds (bl : Blacklist) : res (SnapshotBalanceAggregateMap * Blacklist) :=
  let bl := RegisterAddress DenomUST AddressRefund bl in
  let bl := RegisterAddress DenomAUST AddressRefund bl in
  let bl := RegisterAddress DenomUST AddressMarket bl in
  let bl := RegisterAddress DenomAUST AddressMarket bl in
  s ← map_funds AddressRefund AddressRefundTo ∅;
  s ← map_funds AddressMarket AddressMarketTo s;
  Ok (s, bl).

End deposits.

(** ** Theorems *)

Section deposit_facts.
Context {M : SdkMath} {ML : SdkMathLaws M} {R : GoRange} {RL : GoRangeLaws R} {A : Bech32}.
Context {B : Type} {BK : BankKeeper B} (bank : B).
Context (NewIntFromString : string -> option Int) (contract_store : AccAddress -> list (string * string)).
Context (cw20_balance : string -> string -> res Int) (total_supply : string -> res Int).

(** Anchor's depositors are the holders of aUST: the snapshot has for everyone the
    aUST they hold, nothing else, and the blacklist stays as it is. *)
Theorem anchor_deposits_exported bl s bl' m :
  ExportAnchorDeposit NewIntFromString contract_store bl = Ok (s, bl') ->
  cw20_holders NewIntFromString contract_store AddressAUST = Ok m ->
  bl' = bl /\ forall a d, held s a d = if String.eqb DenomAUST d then default 0 (amount_in m a) else 0.
Proof.
  unfold ExportAnchorDeposit. intros H Hm. rewrite Hm in H. cbn [wrap_err mbind res_bind] in H. go_inv.
  split; [done|]. intros a d. by apply (credit_all_held _ _ _ _ _ a d) in Hv as ->.
Qed.

(** *** The collateral in Anchor *)

Context (decode_collaterals : string -> res (list (string * string))).

(** The bLuna that a stored collateral gives a user. *)
Definition bluna_of (a : string) (e : string * string) : Z :=
  match decode_collaterals e.2 with
  | Ok cs =>
      if String.eqb (AccAddressString e.1) a then
        sumZ (fun c => if String.eqb (AccAddressString (base64_DecodeString c.1).1) AddressBLUNA
                       then default 0 (NewIntFromString c.2) else 0) cs
      else 0
  | _ => 0
  end.

(** The bLuna in Anchor's custody goes back to those who provided it: everyone is
    credited with all their collateral in bLuna, and the custody is blacklisted. *)
Theorem anchor_collateral_exported bl s bl' :
  ExportbLUNA NewIntFromString contract_store decode_collaterals bl = Ok (s, bl') ->
  blacklisted bl' AddressBLUNACustody DenomBLUNA /\
  forall a, held s a DenomBLUNA =
    sumZ (bluna_of a) (entries contract_store (address_or_empty AddressOverseer) "collateral").
Proof.
  unfold ExportbLUNA. intros H. apply bind_Ok in H as (s1 & Hv & H). injection H as <- <-. split.
  { apply RegisterAddress_blacklisted. by right. }
  intros a. apply (credits_held _ (bluna_of a) _ _ _ a DenomBLUNA) in Hv; [by rewrite Hv|].
  clear -ML. intros s e s' H. apply bind_Ok in H as (cs & Hc & H). rewrite must_Ok in Hc. unfold bluna_of. rewrite Hc.
  apply (credits_held _ (fun c => if String.eqb (AccAddressString e.1) a then
    (if String.eqb (AccAddressString (base64_DecodeString c.1).1) AddressBLUNA
     then default 0 (NewIntFromString c.2) else 0) else 0) _ _ _ a DenomBLUNA) in H.
  - rewrite H. f_equal. destruct (String.eqb (AccAddressString e.1) a); [done|]. by apply sumZ_zero.
  - clear -ML. intros s c s' H. unfold bluna_collateral in H. destruct (String.eqb _ AddressBLUNA); cbn in H; go_inv.
    + rewrite (AppendOrAddBalance_held _ _ _ _ a DenomBLUNA H), held_list_one. by destruct (String.eqb _ a).
    + destruct (String.eqb _ a); lia.
Qed.

(** *** OnePlanet *)

(** Sending a holding to the owner of its contract loses nothing: for UST and for
    Luna the snapshot has in total what the storage contract has recorded. *)
Theorem oneplanet_conserves owner recipient bl s bl' ust luna :
  ExportHoldings NewIntFromString contract_store owner recipient bl = Ok (s, bl') ->
  cw20_holders NewIntFromString contract_store opUST.1 = Ok ust ->
  cw20_holders NewIntFromString contract_store opLUNA.1 = Ok luna ->
  total s DenomUST = map_sum ust /\ total s DenomLUNA = map_sum luna.
Proof.
  unfold ExportHoldings. intros H Hu Hl. apply bind_Ok in H as (s1 & Hv & H). injection H as <- <-.
  cbn [foldM] in Hv. rewrite Hu in Hv. cbn [mbind res_bind] in Hv. apply bind_Ok in Hv as (s2 & H1 & Hv).
  rewrite Hl in Hv. cbn [mbind res_bind] in Hv. apply bind_Ok in Hv as (s3 & H2 & Hv). injection Hv as <-.
  assert (Hx : forall denom m s s' d, foldM (oneplanet_holding owner recipient denom) (range 132 m) s = Ok s' ->
    total s' d = total s d + (if String.eqb denom d then map_sum m else 0)).
  { clear -ML RL. intros denom m s s' d H. rewrite <- (map_sum_perm m _ (range_perm 132 _ m)).
    apply (credits_total _ (fun e => if String.eqb denom d then default 0 e.2 else 0) _ _ _ d) in H.
    - rewrite H. f_equal. destruct (String.eqb denom d); [done|]. by apply sumZ_zero.
    - clear -ML. intros s e s' H. unfold oneplanet_holding in H. go_inv. apply nint_is_zero_Ok in Hv as (x & Hx & ->).
      rewrite Hx. destruct (Z.eqb_spec x 0) as [->|]; go_inv; [by destruct (String.eqb denom d); cbn; lia|].
      rewrite (AppendOrAddBalance_total _ _ _ _ d H), held_list_one, Hx. done. }
  rewrite !(Hx _ _ _ _ _ H2), !(Hx _ _ _ _ _ H1). change (total ∅ DenomUST) with 0. change (total ∅ DenomLUNA) with 0.
  cbn. lia.
Qed.

(** *** StarTerra *)

(** The IDO of StarTerra gives away no more UST and aUST than it holds. *)
Theorem ido_within_balance shares bl s bl' ust aust :
  split_ido bank cw20_balance shares bl = Ok (s, bl') ->
  GetNativeBalance bank DenomUST IDO = Ok ust -> cw20_balance AUST IDO = Ok aust ->
  0 <= ust -> 0 <= aust -> map_Forall (fun _ v => 0 <= default 0 v) shares -> 0 < map_sum shares ->
  0 <= total s DenomUST <= ust /\ 0 <= total s DenomAUST <= aust /\
  blacklisted bl' IDO DenomUST /\ blacklisted bl' IDO DenomAUST.
Proof.
  unfold split_ido. intros H Hu Ha Hu0 Ha0 Hpos Hs. rewrite Hu, Ha in H. cbn [mbind res_bind] in H. go_inv.
  apply Sum_Ok in Hv as ->. injection Hv0 as <-. rewrite dec_quo_int_spec in Hv1, Hv2.
  destruct (Z.eqb_spec (map_sum shares) 0); [lia|]. injection Hv1 as <-. injection Hv2 as <-.
  assert (Hl : Forall (fun e => 0 <= default 0 e.2) (range 134 shares)).
  { apply Forall_forall. intros [k v] Hin. rewrite range_perm, elem_of_map_to_list in Hin. by apply (Hpos k). }
  assert (Hx : forall d, total s d =
    (if String.eqb DenomUST d then sumZ (fun e => Z.quot (Z.quot (NewDec ust) (map_sum shares) * default 0 e.2) precision)
       (range 134 shares) else 0) +
    (if String.eqb DenomAUST d then sumZ (fun e => Z.quot (Z.quot (NewDec aust) (map_sum shares) * default 0 e.2) precision)
       (range 134 shares) else 0)).
  { intros d. change (total s d = total ∅ d + ((if String.eqb DenomUST d then _ else 0) + _)) || idtac.
    revert Hv3. generalize (Z.quot (NewDec ust) (map_sum shares)) (Z.quot (NewDec aust) (map_sum shares)).
    intros r1 r2 H. apply (credits_total _ (fun e =>
      (if String.eqb DenomUST d then Z.quot (r1 * default 0 e.2) precision else 0) +
      (if String.eqb DenomAUST d then Z.quot (r2 * default 0 e.2) precision else 0)) _ _ _ d) in H.
    - rewrite H. change (total ∅ d) with 0. clear. induction (range 134 shares) as [|e l IH].
      { by destruct (String.eqb _ _), (String.eqb _ _). }
      rewrite !sumZ_cons. destruct (String.eqb DenomUST d), (String.eqb DenomAUST d); lia.
    - clear -ML. intros s e s' H. unfold ido_user in H. go_inv.
      apply convert_Ok in Hv as (x & Ex & ->), Hv1 as (y & Ey & ->). rewrite Ex in Ey. injection Ey as <-.
      rewrite (AppendOrAddBalance_total _ _ _ _ d H), (AppendOrAddBalance_total _ _ _ _ d Hv0), !held_list_one, Ex.
      cbn [default]. unfold id. lia. }
  pose proof (ratio_sum_le (fun e => default 0 e.2) _ ust (map_sum shares) Hu0 Hs Hl) as [U1 U2].
  pose proof (ratio_sum_le (fun e => default 0 e.2) _ aust (map_sum shares) Ha0 Hs Hl) as [A1 A2].
  rewrite (map_sum_perm _ _ (range_perm 134 _ shares)) in U2, A2. rewrite !Hx.
  change (String.eqb DenomUST DenomUST) with true. change (String.eqb DenomAUST DenomUST) with false.
  change (String.eqb DenomUST DenomAUST) with false. change (String.eqb DenomAUST DenomAUST) with true.
  unfold NewDec. rewrite Z.add_0_r, Z.add_0_l. split; [nia|]. split; [nia|].
  rewrite !RegisterAddress_blacklisted. tauto.
Qed.

(** *** Suberra *)

(** The owners of Suberra's wallets get the aUST of the wallets, and every wallet is
    blacklisted for it. *)
Theorem suberra_wallets_exported decode owner bl s bl' wallets m :
  ExportSuberra contract_store cw20_balance decode owner bl = Ok (s, bl') ->
  forceIterateSubwallets contract_store decode = Ok wallets ->
  iterateSubwalletsAndGetAUstBalance cw20_balance AUST wallets ∅ = Ok m ->
  map_Forall (fun _ v => 0 <= default 0 v) m ->
  total s DenomAUST = map_sum m /\ Forall (fun w => blacklisted bl' w DenomAUST) wallets.
Proof.
  unfold ExportSuberra. intros H Hw Hm Hpos. rewrite Hw in H. cbn [mbind res_bind] in H. rewrite Hm in H.
  cbn [mbind res_bind] in H. apply bind_Ok in H as (s1 & Hv & H). injection H as <- <-. split.
  - unfold mapSubwalletToAdmin in Hv. rewrite <- (map_sum_perm m _ (range_perm 135 _ m)).
    assert (Hl : Forall (fun e => 0 <= default 0 e.2) (range 135 m)).
    { apply Forall_forall. intros [k v] Hin. rewrite range_perm, elem_of_map_to_list in Hin. by apply (Hpos k). }
    change (total s1 DenomAUST = total ∅ DenomAUST + sumZ (fun e : string * option Int => default 0 e.2) (range 135 m)).
    revert Hv. generalize (∅ : gmap string (list SnapshotBalance)). clear -Hl ML.
    induction Hl as [|e l He _ IH]; intros s0 H; cbn in H; go_inv; [rewrite sumZ_nil; lia|].
    rewrite (IH _ H), sumZ_cons. enough (total v DenomAUST = total s0 DenomAUST + default 0 e.2) by lia.
    clear IH H. unfold nint_is_positive in Hv1. go_inv. apply get_int_Ok in Hv2 as Ex. rewrite Ex in *. cbn in He |- *.
    destruct (Z.ltb_spec 0 v2); go_inv; [|cbn; lia].
    rewrite (AppendOrAddBalance_total _ _ _ _ DenomAUST Hv), held_list_one. cbn. lia.
  - apply Forall_forall. intros w Hin. apply register_all_blacklisted. by right.
Qed.

End deposit_facts.
