(* ===== verification/Pools.v ===== *)
(** * Pools of Pylon and Stader in the exporter

    Models [src/app/export/pylon] and, of [src/app/export/stader], the staking
    pools, Stake+ and the vaults.  What contracts answer is an argument. *)

From Stdlib Require Import ZArith Lia Bool.
From stdpp Require Import base strings list gmap.
From S2P Require Import Prelude Loops Sdk SdkRef Snapshot ExportUtil Derivatives Holdings Compounders Deposits.
Local Open Scope Z_scope.

(** The pools of Pylon and the contracts of each. *)
Definition PylonPools : list string :=
  ["terra1z5j60wct88yz62ylqa4t8p8239cwx9kjlghkg2"; "terra149fxy4crxnhy4z2lezefwe7evjthlsttyse20m";
   "terra1he8j44cv2fcntujjnsqn3ummauua555agz4js0"; "terra1xu84jh7x2ugt3gkpv8d450hdwcyejtcwwkkzgv";
   "terra1zxtcxxjqp7c46g8jx0t25s5ysa5qawmwd2w7nr"; "terra1jk0xh49ft2ls4u9dlfqweed8080u6ysumvmtcz";
   "terra15y9r79wlu8uqvlu3k7vgv0kgdy29m8j9tt9xgg"; "terra19zn5u7ej083em99was4y02j3yhracnxwxcvmt4";
   "terra15y70slq4l4s5da2etsyqasyjht0dnquj03qm05"; "terra1g9kzlt58ycppx9elymnrgxmwssfawym668r2y4";
   "terra1he8ymhmqmtuu5699akwk94urap6z09xnnews32"; "terra1vftcl08p73v3nkuwvv5ntznku44s7p2tq00mgn";
   "terra132u62nsympysvtg3nng5xg6tjf6cr8sxrq7ena"; "terra1dyattlzq58ty7pat337a9dz6j46thldu5gn8ls";
   "terra1xkw8vusucy9c2w9hxuw6lktxk2w8g72utdyq96"].

Definition pylon_lookup : list (string * list string) :=
  [("terra1z5j60wct88yz62ylqa4t8p8239cwx9kjlghkg2",
    ["terra19vnwdqz4um0z8f69pc8y0z4ncrcxm4cjf3gevz";
     "terra1t3wtg074jjscqc5k2hn6l4lsremccm25tt77zp";
     "terra1za627n8zc8wqg06n9h7khpmjcnlkdkt38rkl3u"]);
   ("terra149fxy4crxnhy4z2lezefwe7evjthlsttyse20m",
    ["terra1p9ns8r3unhvvp6ka3r52h79d0t6wjthxu4dfrs";
     "terra1527ks2mulus98lwx7qhdmrv4hug9pgx0m3c95s";
     "terra1jtd00mrwdpa6aecvw60mhzrqup054q054u53ch"]);
   ("terra1he8j44cv2fcntujjnsqn3ummauua555agz4js0",
    ["terra1qz6kp8nu5cqy6g679epd2f436p8uyry0aevrxc";
     "terra14v4g46j8ah9lpwwrnhxh6kyqvytmwd3ma9qvtu";
     "terra1fyduwdy0ncz8qur0rzp2t7skt4sc3e20w0d7qx"]);
   ("terra1xu84jh7x2ugt3gkpv8d450hdwcyejtcwwkkzgv",
    ["terra1fmnedmd3732gwyyj47r5p03055mygce98dpte2"]);
   ("terra1zxtcxxjqp7c46g8jx0t25s5ysa5qawmwd2w7nr",
    ["terra1p625agkeu4vrr4fqnl5c82myhy3z95t6tqycku";
     "terra1ftl4pt3l3ccjgk4ucndsff73uum888a2kcy779";
     "terra1yznc2p9q2smx8ku8m20hhv8amdmcj0zcvjh6km"]);
   ("terra1jk0xh49ft2ls4u9dlfqweed8080u6ysumvmtcz",
    ["terra10jrv8wy6s06mku9t6yawt2yr09wjlqsw0qk0vf"]);
   ("terra15y9r79wlu8uqvlu3k7vgv0kgdy29m8j9tt9xgg",
    ["terra1kmvvzp0vadlr4fvug6zve7736ufnt2x7rvdufm"]);
   ("terra19zn5u7ej083em99was4y02j3yhracnxwxcvmt4",
    ["terra1nata7lxk6ylx7ttu56jgp2s57g3fucl8saz0qw"]);
   ("terra15y70slq4l4s5da2etsyqasyjht0dnquj03qm05",
    ["terra1srw8lgcp4uqyar22ldeje5p0nx35q2jd93dc3k";
     "terra1ezxapxsduvp7v3njpcvtadwgwne3ch0muhce6u";
     "terra1wzer7q9zsug8jxgwp7l6dzd7ehc37nwg9fadef"]);
   ("terra1g9kzlt58ycppx9elymnrgxmwssfawym668r2y4",
    ["terra1nu4nxjjgw553zhc0k624h7vqmk5z5tj8ufrrzd";
     "terra1vwtr0trqz4nuqwy2g2n3szwczp2a4ccsf8hn9j";
     "terra1709w9ll57sdmyr8zzqtp423r6cwxyc33hc9xnq"]);
   ("terra1he8ymhmqmtuu5699akwk94urap6z09xnnews32",
    ["terra14hg497r875c62f4kxs8q7pkek0kdw0dphppa0h";
     "terra1xgewsvsl2gff63fplma52smt8r76fyzvurfwcm";
     "terra1s9qs7r8aacs0auynhumdn4jtgju58kjlvrg6uw"]);
   ("terra1vftcl08p73v3nkuwvv5ntznku44s7p2tq00mgn",
    ["terra1a9cu63vx3u0m386x5f74qsr7sw405zdj5uhpll";
     "terra14e0g6gqldl2ruyt6ps72gwl2xc6lvxh7mz02lw";
     "terra1r9we2p8knhzxn0gk0ak667fcxdv26x4tp46l4k"]);
   ("terra132u62nsympysvtg3nng5xg6tjf6cr8sxrq7ena",
    ["terra1qt4wtj528s35kdk5zdylmwvt4nh7te5ets033t"]);
   ("terra1dyattlzq58ty7pat337a9dz6j46thldu5gn8ls",
    ["terra1cl8r8srtkj6k65kc8jalfnx5u5eewyq5wg2u5u"]);
   ("terra1xkw8vusucy9c2w9hxuw6lktxk2w8g72utdyq96",
    ["terra1ssq90m5juvxwukdxjjsd5un0sql7858wpa6h87";
     "terra19ky7jkpzkdner969tmpd9ury6y59sp0qs6pu9e";
     "terra1l3ajy0cq5vskww5jee7cg33qu455j8lg8cy9wv"]);
   ("terra1jzsjs8qx9ehsukzea9smuqtfuklmngmeh5csl3",
    ["terra1up7f322g6lcr0f3lak3dk23tpea2djercv0zpf";
     "terra158q2xv2uecal2nl8az3a33xrn4n2wr4m78zwe3";
     "terra162k36uafvezjyy5wawq7kmeqyr9e2juemkj9lc"])].

Definition PylonLookup : gmap string (list string) := list_to_map pylon_lookup.

Section pools.
Context {M : SdkMath} {R : GoRange} {A : Bech32} {B : Type} {BK : BankKeeper B} (bank : B).
Context (NewIntFromString : string -> option Int).
Context (contract_store : AccAddress -> list (string * string)).
Context (cw20_balance : string -> string -> res Int).

(** ** Pylon *)

Record PylonPoolConfig : Type := mkPylon { Pool : string; AUstAmount : Int; UstAmount : Int; PoolToken : string }.

(** [sdk.Dec.QuoTruncate], the price of aUST, the token of a pool, and the stake of
    a user in a contract. *)
Context (dec_quo_truncate : Dec -> Dec -> res Dec) (GetAUstExchangeRate : res Dec).
Context (dp_token : string -> res string) (balance_of : string -> string -> res (option Int)).

(** [getConfig]. *)
Definition getConfig (pool : string) : res PylonPoolConfig :=
  token ← dp_token pool;
  aUstBalance ← cw20_balance AUST pool;
  ustBalance ← GetNativeBalance bank DenomUST pool;
  Ok (mkPylon pool aUstBalance ustBalance token).

Definition pylon_stake (aUstER : Dec) (address : string) (s : SnapshotBalanceAggregateMap) (individualPool : string)
    : res SnapshotBalanceAggregateMap :=
  amount ← balance_of individualPool address;
  zero ← nint_is_zero amount;
  if (zero : bool) then Ok s
  else aust ← dec_quo_trunc amount aUstER; AppendOrAddBalance address s (mkSB DenomAUST (Some aust)).

Definition pylon_pool (s : SnapshotBalanceAggregateMap) (pool : string) : res SnapshotBalanceAggregateMap :=
  config ← getConfig pool;
  tokenBalances ← cw20_holders NewIntFromString contract_store (PoolToken config);
  aUstER ← GetAUstExchangeRate;
  foldM (fun s e => foldM (pylon_stake aUstER e.1) (default [] (PylonLookup !! pool)) s) (range 140 tokenBalances) s.

(** [ExportContract] of Pylon: the blacklist stays as it is. *)
Definition pylon_ExportContract (bl : Blacklist) : res (SnapshotBalanceAggregateMap * Blacklist) :=
  snapshot ← foldM pylon_pool PylonPools ∅;
  Ok (snapshot, bl).

(** [Audit] of Pylon. *)
Definition pylon_total (aUstER : Dec) (totalAUst : Int) (pool : string) : res Int :=
  config ← getConfig pool;
  q ← dec_quo_truncate (NewDec (UstAmount config)) aUstER;
  t ← dec_truncate_int q;
  sum ← int_add totalAUst t;
  int_add sum (AUstAmount config).

Definition pylon_Audit (snapshot : SnapshotBalanceAggregateMap) : res unit :=
  aUstER ← GetAUstExchangeRate;
  totalAUst ← foldM (pylon_total aUstER) PylonPools 0;
  sum ← SumOfDenom snapshot DenomAUST;
  AlmostEqual (Some totalAUst) sum 100000000000.

(** ** Stader's pools *)

Definition Delegator : string := "terra1t9ree3ftvgr70fvm6y67zsqxjms8jju8kwcsdu".

(** A user in a pool: the stake, if any, and the undelegations; and a user's
    retained rewards, rewards by strategy and undelegations. *)
Record PoolUser : Type := mkPoolUser { Staked : option (option Int); PoolUndelegations : list (option Int) }.
Record SccUser : Type := mkSccUser {
  RetainedRewards : option Int; StrategyRewards : list (option Int); SccUndelegations : list (option Int) }.

Context (user_computed_info : string -> Z -> res PoolUser) (scc_user : string -> res SccUser).

(** The users of the registry, without repetition. *)
Definition registry_user (users : list string) (e : string * string) : res (list string) :=
  correctedAddress ← slice 2 46 e.1;
  Ok (if list_contains users correctedAddress then users else users ++ [correctedAddress]).

Definition add_nonzero (total amount : option Int) : res (option Int) :=
  zero ← nint_is_zero amount;
  if (zero : bool) then Ok total else nint_add total amount.

Definition pool_amount (address : string) (total : option Int) (i : Z) : res (option Int) :=
  info ← user_computed_info address i;
  total ← match Staked info with
          | Some staked => nint_add total staked
          | None => Ok total
          end;
  foldM add_nonzero (PoolUndelegations info) total.

Definition pool_user (s : SnapshotBalanceAggregateMap) (address : string) : res SnapshotBalanceAggregateMap :=
  total ← foldM (pool_amount address) [0; 1; 2] (Some 0);
  scc ← scc_user address;
  total ← nint_add total (RetainedRewards scc);
  total ← add_first total (StrategyRewards scc);
  total ← foldM nint_add (SccUndelegations scc) total;
  zero ← nint_is_zero total;
  if (zero : bool) then Ok s else AppendOrAddBalance address s (mkSB DenomLUNA total).

(** [ExportPools]. *)
Definition ExportPools (bl : Blacklist) : res (SnapshotBalanceAggregateMap * Blacklist) :=
  delegatorAddr ← AccAddressFromBech32 Delegator;
  users ← foldM registry_user (entries contract_store delegatorAddr "user_registry") [];
  snapshot ← foldM pool_user users ∅;
  Ok (snapshot, bl).

(** ** Stake+ *)

Definition StaderFundsContracts : list string :=
  ["terra1smgqsx87cd9q62pa6mrvmydayxd2jegys3cd2d"; "terra167szfqgnqpezer5tfzf9f0uqj3lw6t59y2f3ej";
   "terra1wtxc4vfk8r9rdullaqm5euxvqs3javdkyy0pz9"].

(** The contracts of the registry, a page of the users of one, and a page of the
    undelegations of a user: the first one, or the one after a batch. *)
Context (staking_contracts : res (list string)) (users_page : string -> string -> res (list (string * option Int))).
Context (undelegations_page : string -> string -> option Z -> res (list (Z * option Int))).

(** [GetUserUndelegations]. *)
Definition GetUserUndelegations (fuel : nat) (contract userAddr : string) : res (option (list (Z * option Int))) :=
  page_loop (fun offset => must (undelegations_page contract userAddr (if offset =? -1 then None else Some offset)))
    fst (fun l u => Ok (l ++ [u])) fuel (-1) [].

(** A user, on what [GetUserUndelegations] returns. *)
Definition stake_plus_user (undelegations : string -> string -> res (list (Z * option Int))) (contract : string)
    (s : SnapshotBalanceAggregateMap) (u : string * option Int) : res SnapshotBalanceAggregateMap :=
  s ← AppendOrAddBalance u.1 s (mkSB DenomLUNA u.2);
  us ← undelegations contract u.1;
  foldM (fun s u' => AppendOrAddBalance u.1 s (mkSB DenomLUNA u'.2)) us s.

(** The loops of [ExportStakePlus]. *)
Definition stake_plus_contract (undelegations : string -> string -> res (list (Z * option Int))) (fuel : nat)
    (s : option SnapshotBalanceAggregateMap) (contract : string) : res (option SnapshotBalanceAggregateMap) :=
  match s with
  | None => Ok None
  | Some s =>
      if list_contains StaderFundsContracts contract then Ok (Some s)
      else page_loop (users_page contract) fst (stake_plus_user undelegations contract) fuel "" s
  end.

Definition ExportStakePlus (undelegations : string -> string -> res (list (Z * option Int))) (fuel : nat)
    (bl : Blacklist) : res (option (SnapshotBalanceAggregateMap * Blacklist)) :=
  contracts ← staking_contracts;
  with_pages (foldM (stake_plus_contract undelegations fuel) contracts (Some ∅)) (fun snapshot => Ok (snapshot, bl)).

(** ** Stader's vaults *)

(** A page of the users, and the claim of a user: its amount, and whether it has
    been made. *)
Context (lunax_rate : res Dec) (vault_users_page : string -> res (list string)).
Context (user_claim : string -> res (option Int * bool)).

Definition vault_user (exchangeRate : Dec) (s : SnapshotBalanceAggregateMap) (address : string)
    : res SnapshotBalanceAggregateMap :=
  '(claim, claimed) ← user_claim address;
  if negb claimed then
    luna ← convert exchangeRate claim; AppendOrAddBalance address s (mkSB DenomLUNA luna)
  else Ok s.

(** [ExportVaults]. *)
Definition ExportVaults (fuel : nat) (bl : Blacklist) : res (option (SnapshotBalanceAggregateMap * Blacklist)) :=
  exchangeRate ← lunax_rate;
  with_pages (page_loop vault_users_page id (vault_user exchangeRate) fuel "" ∅) (fun snapshot => Ok (snapshot, bl)).

End pools.

(** ** Theorems *)

(** A project that is staked in has entries in the lookup but is not among the pools
    that are exported, so its stakes are left out. *)
Theorem pylon_project_left_out :
  exists pool contracts, PylonLookup !! pool = Some contracts /\ length contracts = 3%nat /\ pool ∉ PylonPools.
Proof.
  exists "terra1jzsjs8qx9ehsukzea9smuqtfuklmngmeh5csl3". eexists. split; [vm_compute; reflexivity|].
  split; [reflexivity|]. apply (bool_decide_unpack _). vm_compute. exact I.
Qed.

Section pool_facts.
Context {M : SdkMath} {ML : SdkMathLaws M} {R : GoRange} {A : Bech32}.

(** *** Stader's pools *)

Context (user_computed_info : string -> Z -> res PoolUser) (scc_user : string -> res SccUser).

(** The Luna of a user: stakes and undelegations in the three pools, the rewards
    that are kept, those of the first strategy, and the undelegations of rewards. *)
Definition pool_luna (address : string) (i : Z) : Z :=
  match user_computed_info address i with
  | Ok info => default 0 (Staked info ≫= id) + sumZ (default 0) (PoolUndelegations info)
  | _ => 0
  end.

Definition scc_luna (address : string) : Z :=
  match scc_user address with
  | Ok scc => default 0 (RetainedRewards scc) + default 0 (head (StrategyRewards scc) ≫= id) +
              sumZ (default 0) (SccUndelegations scc)
  | _ => 0
  end.

Definition user_luna (address : string) : Z := sumZ (pool_luna address) [0; 1; 2] + scc_luna address.

Lemma add_nonzero_Ok t a t' : add_nonzero t a = Ok t' -> default 0 t' = default 0 t + default 0 a.
Proof.
  unfold add_nonzero. intros H. go_inv. apply nint_is_zero_Ok in Hv as (x & Ha & ->). rewrite Ha in *.
  destruct (Z.eqb_spec x 0) as [->|]; go_inv; [cbn; lia|].
  apply nint_add_Ok in H as (y & z & E1 & E2 & E3). rewrite E1, E2, E3. done.
Qed.

Lemma nint_add_default t a t' : nint_add t a = Ok t' -> default 0 t' = default 0 t + default 0 a.
Proof. by intros (y & z & -> & -> & ->)%nint_add_Ok. Qed.

Lemma pool_amount_Ok address t i t' :
  pool_amount user_computed_info address t i = Ok t' -> default 0 t' = default 0 t + pool_luna address i.
Proof.
  unfold pool_amount, pool_luna. intros H. apply bind_Ok in H as (info & -> & H). apply bind_Ok in H as (t1 & H1 & H).
  apply (foldM_sum (default 0) (default 0)) in H; [|by apply add_nonzero_Ok].
  enough (default 0 t1 = default 0 t + default 0 (Staked info ≫= id)) by lia.
  destruct (Staked info) as [st|]; [by apply nint_add_default in H1|]. go_inv. cbn. lia.
Qed.

(** Everyone in the registry is credited with all the Luna they have in the pools. *)
Theorem pool_users_exported contract_store bl s bl' delegator users :
  ExportPools contract_store user_computed_info scc_user bl = Ok (s, bl') ->
  AccAddressFromBech32 Delegator = Ok delegator ->
  foldM registry_user (entries contract_store delegator "user_registry") [] = Ok users ->
  bl' = bl /\ forall a, held s a DenomLUNA = sumZ (fun u => if String.eqb u a then user_luna u else 0) users.
Proof.
  unfold ExportPools. intros H Hd Hu. rewrite Hd in H. cbn [mbind res_bind] in H. rewrite Hu in H.
  cbn [mbind res_bind] in H. apply bind_Ok in H as (s1 & Hv & H). injection H as <- <-. split; [done|]. intros a.
  apply (credits_held _ (fun u => if String.eqb u a then user_luna u else 0) _ _ _ a DenomLUNA) in Hv; [by rewrite Hv|].
  clear -ML. intros s u s' H. unfold pool_user in H. apply bind_Ok in H as (t1 & H1 & H). apply bind_Ok in H as (scc & Hs & H).
  apply bind_Ok in H as (t2 & H2 & H). apply bind_Ok in H as (t3 & H3 & H). apply bind_Ok in H as (t4 & H4 & H).
  apply bind_Ok in H as (z & Hz & H).
  apply (foldM_sum (default 0) (pool_luna u)) in H1; [|intros; by apply pool_amount_Ok].
  apply (foldM_sum (default 0) (default 0)) in H4; [|by apply nint_add_default]. apply nint_add_default in H2.
  assert (E : default 0 t4 = user_luna u).
  { unfold user_luna, scc_luna. rewrite Hs. rewrite H4. destruct (StrategyRewards scc) as [|x l]; cbn in H3; go_inv.
    - rewrite H2, H1. change (default 0 (Some 0)) with 0. change (default 0 (head [] ≫= id)) with 0. lia.
    - apply nint_add_default in H3. rewrite H3, H2, H1. change (default 0 (Some 0)) with 0.
      change (head (x :: l) ≫= id) with x. lia. }
  apply nint_is_zero_Ok in Hz as (x & -> & ->). change (x = user_luna u) in E. subst x.
  destruct (Z.eqb_spec (user_luna u) 0) as [E|]; go_inv; [rewrite E; destruct (String.eqb u a); lia|].
  rewrite (AppendOrAddBalance_held _ _ _ _ a DenomLUNA H), held_list_one. by destruct (String.eqb u a).
Qed.

(** *** Stake+ *)

Context (staking_contracts : res (list string)) (users_page : string -> string -> res (list (string * option Int))).
Context (undelegations_page : string -> string -> option Z -> res (list (Z * option Int))).

(** The undelegations of a user are all those of the contract, however many pages. *)
Theorem stake_plus_undelegations contract user limit records fuel :
  (0 < limit)%nat ->
  paged (fun offset => must (undelegations_page contract user (if offset =? -1 then None else Some offset)))
    limit fst (-1) records ->
  (length records < fuel)%nat ->
  GetUserUndelegations undelegations_page fuel contract user = Ok (Some records).
Proof.
  intros Hl Hp Hf. unfold GetUserUndelegations. rewrite (page_loop_all _ limit fst _ _ _ _ Hl Hp _ Hf).
  assert (Hx : forall l acc, foldM (fun l u => Ok (l ++ [u])) l acc = Ok (acc ++ l)
    :> res (list (Z * option Int))).
  { induction l as [|x l IH]; intros acc; cbn; [by rewrite app_nil_r|]. rewrite IH. by rewrite <- app_assoc. }
  by rewrite Hx.
Qed.

Context (undelegations : string -> string -> res (list (Z * option Int))).

(** The Luna a user has in a contract of Stake+. *)
Definition stake_plus_luna (contract a : string) (u : string * option Int) : Z :=
  if String.eqb u.1 a then
    match undelegations contract u.1 with
    | Ok us => default 0 u.2 + sumZ (fun u' => default 0 u'.2) us
    | _ => 0
    end
  else 0.

Lemma stake_plus_user_held contract s u s' a :
  stake_plus_user undelegations contract s u = Ok s' ->
  held s' a DenomLUNA = held s a DenomLUNA + stake_plus_luna contract a u.
Proof.
  unfold stake_plus_user, stake_plus_luna. intros H. apply bind_Ok in H as (s1 & H1 & H).
  apply bind_Ok in H as (us & -> & H).
  apply (credits_held _ (fun u' => if String.eqb u.1 a then default 0 u'.2 else 0) _ _ _ a DenomLUNA) in H.
  - rewrite H, (AppendOrAddBalance_held _ _ _ _ a DenomLUNA H1), held_list_one. cbn [Denom].
    rewrite String.eqb_refl. destruct (String.eqb u.1 a); [lia|]. rewrite sumZ_zero by done. lia.
  - intros s2 u' s3 H3. rewrite (AppendOrAddBalance_held _ _ _ _ a DenomLUNA H3), held_list_one.
    rewrite String.eqb_refl. by destruct (String.eqb u.1 a).
Qed.

(** The Luna someone has in a contract that has [users], unless it is one of
    Stader's own funds. *)
Definition contract_luna (users : list (string * option Int)) (a contract : string) : Z :=
  if list_contains StaderFundsContracts contract then 0 else sumZ (stake_plus_luna contract a) users.

Context (limit : nat) (records : string -> list (string * option Int)) (fuel : nat).

Lemma stake_plus_contract_held s0 c o :
  (0 < limit)%nat -> paged (users_page c) limit fst "" (records c) -> (length (records c) < fuel)%nat ->
  stake_plus_contract users_page undelegations fuel (Some s0) c = Ok o ->
  exists s, o = Some s /\ forall a, held s a DenomLUNA = held s0 a DenomLUNA + contract_luna (records c) a c.
Proof.
  intros Hl Hp Hf. unfold stake_plus_contract, contract_luna.
  destruct (list_contains StaderFundsContracts c); [intros [= <-]; exists s0; split; [done|]; intros; lia|].
  rewrite (page_loop_all _ limit fst _ _ _ _ Hl Hp _ Hf). intros H. go_inv. eexists. split; [done|]. intros a.
  by apply (credits_held _ _ _ _ _ a DenomLUNA (fun s u s' => stake_plus_user_held c s u s' a)) in Hv.
Qed.

Lemma stake_plus_contracts_held contracts s0 o :
  (0 < limit)%nat -> Forall (fun c => paged (users_page c) limit fst "" (records c)) contracts ->
  Forall (fun c => length (records c) < fuel)%nat contracts ->
  foldM (stake_plus_contract users_page undelegations fuel) contracts (Some s0) = Ok o ->
  exists s, o = Some s /\
    forall a, held s a DenomLUNA = held s0 a DenomLUNA + sumZ (fun c => contract_luna (records c) a c) contracts.
Proof.
  intros Hl Hp Hf. revert s0. induction contracts as [|c l IH]; intros s0 H.
  - injection H as <-. exists s0. split; [done|]. intros a. rewrite sumZ_nil. lia.
  - cbn [foldM] in H. apply bind_Ok in H as (o1 & H1 & H). apply Forall_cons in Hp as [Hp1 Hp], Hf as [Hf1 Hf].
    destruct (stake_plus_contract_held _ _ _ Hl Hp1 Hf1 H1) as (s1 & -> & E1).
    destruct (IH Hp Hf _ H) as (s & -> & E). exists s. split; [done|]. intros a. rewrite E, E1, sumZ_cons. lia.
Qed.

(** With more fuel than a contract has users the export of Stake+ gets through all
    the contracts but Stader's own funds, and credits every user with the stake and
    the undelegations of all of them. *)
Theorem stake_plus_exported contracts bl :
  staking_contracts = Ok contracts -> (0 < limit)%nat ->
  Forall (fun c => paged (users_page c) limit fst "" (records c)) contracts ->
  Forall (fun c => length (records c) < fuel)%nat contracts ->
  ExportStakePlus staking_contracts users_page undelegations fuel bl <> Ok None /\
  forall s bl', ExportStakePlus staking_contracts users_page undelegations fuel bl = Ok (Some (s, bl')) ->
    bl' = bl /\ forall a, held s a DenomLUNA = sumZ (fun c => contract_luna (records c) a c) contracts.
Proof.
  intros Hc Hl Hp Hf. unfold ExportStakePlus. rewrite Hc. cbn [mbind res_bind]. unfold with_pages.
  destruct (foldM _ contracts _) as [o| |] eqn:E; [|done..].
  destruct (stake_plus_contracts_held _ _ _ Hl Hp Hf E) as (s & -> & Hs). cbn. split; [done|].
  by intros s1 bl' [= <- <-].
Qed.

End pool_facts.
