(* ===== verification/Lending.v ===== *)
(** * Lending protocols and vaults in the exporter

    Models [src/app/export/edge], [kinetic], [mars], [mirror] and
    [whitewhale]: what users lent or deposited is given back from what the protocol
    still holds.  What contracts answer and how stored texts decode are
    arguments. *)

From Stdlib Require Import ZArith Lia Bool.
From stdpp Require Import base strings list gmap.
From S2P Require Import Prelude Loops Sdk SdkRef Snapshot ExportUtil Derivatives Holdings Dex Compounders Deposits.
Local Open Scope Z_scope.

Section lending.
Context {M : SdkMath} {R : GoRange} {A : Bech32} {B : Type} {BK : BankKeeper B} (bank : B).
Context (NewIntFromString : string -> option Int).
Context (contract_store : AccAddress -> list (string * string)).
Context (cw20_balance : string -> string -> res Int) (total_supply : string -> res Int).

(** The admin of a contract ([GetContractInfo]). *)
Context (contract_admin : AccAddress -> res string).

(** A balance of a token or of a native coin, by the form of its name. *)
Definition token_balance (token holder : string) : res Int :=
  if contains "terra" token then cw20_balance token holder else GetNativeBalance bank token holder.

(** ** Edge *)

Definition EdgeProtocolPool : string := "terra1pcxwtrxppj9xj7pq3k95wm2zztfr9kwfkcgq0w".
Definition EdgeProtocolTokens : list string := [AUST; DenomLUNA; DenomUST; BLuna; StLuna; LunaX; PrismPLuna].

Record Market : Type := mkMarket {
  Underlying : string; Etoken : string; TotalAmount : option Int; InsuranceAmount : option Dec }.

Context (getMarkets : res (list Market)) (accounts_page : string -> res (list string)).

(** [InsuranceAmount.TruncateInt()]. *)
Definition insurance (market : Market) : res (option Int) :=
  i ← get_int (InsuranceAmount market); t ← dec_truncate_int i; Ok (Some t).

Definition edge_market (acc : gmap string BalanceMap * Blacklist) (market : Market)
    : res (gmap string BalanceMap * Blacklist) :=
  if negb (list_contains EdgeProtocolTokens (Underlying market)) then Ok acc
  else
    totalSupply ← total_supply (Etoken market);
    accountBalances ← cw20_holders NewIntFromString contract_store (Etoken market);
    holding ← foldM (fun m e =>
      i ← insurance market;
      rest ← nint_sub (TotalAmount market) i;
      b ← mul_quo e.2 rest (Some totalSupply);
      Ok (<[e.1 := b]> m)) (range 150 accountBalances) ∅;
    poolAddr ← AccAddressFromBech32 EdgeProtocolPool;
    admin ← contract_admin poolAddr;
    i ← insurance market;
    denom ← MapContractToDenom (Underlying market);
    Ok (<[Underlying market := <[admin := i]> holding]> acc.1, RegisterAddress denom EdgeProtocolPool acc.2).

(** [ExportContract] of Edge. *)
Definition edge_ExportContract (bl : Blacklist) : res (SnapshotBalanceAggregateMap * Blacklist) :=
  markets ← getMarkets;
  '(holdings, bl) ← foldM edge_market markets (∅, bl);
  snapshot ← foldM (fun s e => denom ← MapContractToDenom e.1; Ok (append_all 152 denom e.2 s)) (range 151 holdings) ∅;
  Ok (snapshot, bl).

Definition edge_Audit (snapshot : SnapshotBalanceAggregateMap) : res unit :=
  iterM (fun token =>
    balance ← token_balance token EdgeProtocolPool;
    denom ← MapContractToDenom token;
    sum ← SumOfDenom snapshot denom;
    AlmostEqual sum (Some balance) 100000) EdgeProtocolTokens.

(** [getAllAccounts], which nothing calls. *)
Definition getAllAccounts (fuel : nat) : res (option (list string)) := pages accounts_page 20 id fuel "" [].

(** ** Kinetic *)

Definition AddressKineticVault : string := "terra1w93d2h57mkhkc8wgetvnj67peakvcpzgazvf2a".
Definition AddressKineticPhaser : string := "terra1spdrct9mwsraqkm5dzrnwjc5ua90xq75t0s8p7".

(** The address and the deposit of a CDP, a page of them, the price of aUST, and the
    UST a user has locked. *)
Context (cdps_page : string -> res (list (string * option Int))) (epoch_state : res Dec).
Context (decode_ust_locked : string -> res (option Int)).

Definition kinetic_cdps (fuel : nat) : res (option (list (string * option Int))) :=
  pages (fun start => wrap_err (Errorf "failed to query cdps") (cdps_page start)) 30 fst fuel "" [].

Definition kinetic_cdp (rate : Dec) (s : SnapshotBalanceAggregateMap) (cdp : string * option Int)
    : res SnapshotBalanceAggregateMap :=
  zero ← nint_is_zero cdp.2;
  if (zero : bool) then Ok s
  else aust ← dec_quo_trunc cdp.2 rate; AppendOrAddBalance cdp.1 s (mkSB DenomAUST (Some aust)).

(** [exportKineticLockdrop]: the aUST of the phaser by the UST locked. *)
Definition exportKineticLockdrop : res SnapshotBalanceAggregateMap :=
  shareHolders ← exportKineticLockdropShares contract_store decode_ust_locked;
  phaserBalance ← cw20_balance AUST AddressKineticPhaser;
  totalShares ← Sum shareHolders;
  foldM (fun s e => b ← mul_quo e.2 (Some phaserBalance) totalShares; AppendOrAddBalance e.1 s (mkSB DenomAUST b))
    (range 153 shareHolders) ∅.

(** [ExportKinetic]. *)
Definition ExportKinetic (fuel : nat) (bl : Blacklist) : res (option (SnapshotBalanceAggregateMap * Blacklist)) :=
  let bl := RegisterAddress DenomUST AddressKineticVault (RegisterAddress DenomAUST AddressKineticVault bl) in
  with_pages (kinetic_cdps fuel) (fun cdps =>
    rate ← epoch_state;
    vaultBalance ← foldM (kinetic_cdp rate) cdps ∅;
    lockdropSnapshot ← exportKineticLockdrop;
    finalBalance ← MergeSnapshots [vaultBalance; lockdropSnapshot];
    Ok (finalBalance, bl)).

(** ** Mars *)

Definition marsMarket : string := "terra19dtgj9j5j7kyf3pmejqv8vzfpxtejaypgzkz5u".
Definition maLunaToken : string := "terra1x4rrkxx5pyuce32wsdn8ypqnpx8n27klnegv0d".
Definition maUstToken : string := "terra1cuku0vggplpgfxegdrenp302km26symjk4xxaf".
Definition marsSafetyFund : string := "terra16zrcxq6pyq7uxhcmgfe68p09xh6g4wk6yw2f70".
Definition marsLockDrop : string := "terra1n38982txtv2yygtcfv3e9wp2ktmjyxl6z88rma".

Context (decode_maust_share : string -> res (option Int)).

(** The holders of a token share what the market still holds, in place; the sum is
    only added up. *)
Definition mars_share (pool supply : Int) (acc : BalanceMap * option Int) (e : string * option Int)
    : res (BalanceMap * option Int) :=
  zero ← nint_is_zero e.2;
  if (zero : bool) then Ok acc
  else
    b ← mul_quo e.2 (Some pool) (Some supply);
    sum ← nint_add acc.2 b;
    Ok (<[e.1 := b]> acc.1, sum).

Definition mars_shares (site : nat) (pool supply : Int) (balances : BalanceMap) : res BalanceMap :=
  '(balances, _) ← foldM (mars_share pool supply) (range site balances) (balances, Some 0);
  Ok balances.

(** [ExportMarsDepositLuna]. *)
Definition ExportMarsDepositLuna (bl : Blacklist) : res (SnapshotBalanceAggregateMap * Blacklist) :=
  balances ← cw20_holders NewIntFromString contract_store maLunaToken;
  marsLunaBalance ← GetNativeBalance bank DenomLUNA marsMarket;
  totalSupply ← total_supply maLunaToken;
  balances ← mars_shares 154 marsLunaBalance totalSupply balances;
  Ok (Add balances DenomLUNA ∅, RegisterAddress DenomLUNA marsMarket bl).

(** [getLockedMaUst]. *)
Definition getLockedMaUst : res BalanceMap :=
  lockdrop ← ToAddress marsLockDrop;
  foldM (fun holders e => share ← must (decode_maust_share e.2); Ok (<[e.1 := share]> holders))
    (entries contract_store lockdrop "users") ∅.

(** [ExportMarsDepositUST]. *)
Definition ExportMarsDepositUST (bl : Blacklist) : res (SnapshotBalanceAggregateMap * Blacklist) :=
  lockedHolders ← getLockedMaUst;
  balances ← cw20_holders NewIntFromString contract_store maUstToken;
  marsUstBalance ← GetNativeBalance bank DenomUST marsMarket;
  totalSupply ← total_supply maUstToken;
  totalShares ← Sum lockedHolders;
  locked ← get_int (amount_in balances marsLockDrop);
  shares ← get_int totalShares;
  rate ← dec_quo_int (NewDec locked) shares;
  balances ← foldM (fun m e => b ← convert rate e.2; add_holder m e.1 b) (range 155 lockedHolders) balances;
  let balances := delete marsLockDrop balances in
  sum ← Sum balances;
  must (AlmostEqual sum (Some totalSupply) 10000);;
  balances ← mars_shares 156 marsUstBalance totalSupply balances;
  Ok (Add balances DenomUST ∅, RegisterAddress DenomUST marsMarket bl).

(** [ExportMarsSafetyFund]. *)
Definition ExportMarsSafetyFund (bl : Blacklist) : res (SnapshotBalanceAggregateMap * Blacklist) :=
  balance ← GetNativeBalance bank DenomUST marsSafetyFund;
  fund ← ToAddress marsSafetyFund;
  admin ← contract_admin fund;
  Ok ({[admin := [mkSB DenomUST (Some balance)]]}, RegisterAddress DenomUST marsSafetyFund bl).

(** [ExportContract] and [Audit] of Mars. *)
Definition mars_ExportContract (bl : Blacklist) : res (SnapshotBalanceAggregateMap * Blacklist) :=
  '(lunaSs, bl) ← ExportMarsDepositLuna bl;
  '(ustSs, bl) ← ExportMarsDepositUST bl;
  '(safetySs, bl) ← ExportMarsSafetyFund bl;
  marsSs ← MergeSnapshots [lunaSs; ustSs; safetySs];
  Ok (marsSs, bl).

Definition mars_Audit (snapshot : SnapshotBalanceAggregateMap) : res unit :=
  ustLockedInBank ← GetNativeBalance bank DenomUST marsMarket;
  ustLockedInSafety ← GetNativeBalance bank DenomUST marsSafetyFund;
  locked ← int_add ustLockedInBank ustLockedInSafety;
  ust ← SumOfDenom snapshot DenomUST;
  AlmostEqual (Some locked) ust 1000000;;
  audit_native bank snapshot DenomLUNA marsMarket 1000000.

(** ** Mirror *)

Definition MirrorMint : string := "terra1wfz7h3aqf4cjmjcvc6s8lxdhh7k30nkczyf0mj".
Definition MirrorLock : string := "terra169urmlm8wcltyjsrn7gedheh7dker69ujmerv2".
Definition MirrorLimitOrder : string := "terra1zpr8tq3ts96mthcdkukmqq4y9lhw0ycevsnw89".
Definition addressLunaX : string := "terra17y9qkl8dfkeg4py7n0g5407emqnemc3yqk5rup".
Definition MirrorRelevantCollaterals : list string := [AUST; DenomUST; addressLunaX; DenomLUNA].

(** A position: its id, its owner and its collateral, whose token and native
    denomination are empty where it has none. *)
Record position : Type := mkPos {
  Idx : Int; Owner : string; CollateralToken : string; CollateralNative : string; CollateralAmount : option Int }.

Context (positions_page : Int -> res (list position)) (getLunaXExchangeRate : res Dec).

(** [getAllPositions]. *)
Definition getAllPositions (fuel : nat) : res (option (list position)) := pages positions_page 30 Idx fuel 0 [].

Definition is_collateral (p : position) (denom : string) : bool :=
  String.eqb (CollateralToken p) denom || String.eqb (CollateralNative p) denom.

(** The collateral of a position, for the first denomination it is in. *)
Definition mirror_position (rate : Dec) (s : SnapshotBalanceAggregateMap) (p : position)
    : res SnapshotBalanceAggregateMap :=
  match List.find (is_collateral p) MirrorRelevantCollaterals with
  | None => Ok s
  | Some denom =>
      if String.eqb (CollateralToken p) addressLunaX then
        lunaAmount ← convert rate (CollateralAmount p);
        AppendOrAddBalance (Owner p) s (mkSB DenomLUNA lunaAmount)
      else
        d ← MapContractToDenom denom;
        AppendOrAddBalance (Owner p) s (mkSB d (CollateralAmount p))
  end.

(** [ExportMirrorCdps]. *)
Definition ExportMirrorCdps (fuel : nat) (bl : Blacklist) : res (option (SnapshotBalanceAggregateMap * Blacklist)) :=
  with_pages (getAllPositions fuel) (fun positions =>
    lunaXExchangeRate ← getLunaXExchangeRate;
    snapshot ← foldM (mirror_position lunaXExchangeRate) positions ∅;
    let bl := foldl (fun bl denom => RegisterAddress denom MirrorMint bl) bl MirrorRelevantCollaterals in
    Ok (snapshot, RegisterAddress DenomUST MirrorLock (RegisterAddress DenomAUST MirrorMint bl))).

(** [AuditCdps]. *)
Definition audit_collateral (snapshot : SnapshotBalanceAggregateMap) (rate : Dec) (totalLunaX : option Int)
    (denom : string) : res unit :=
  contractBalance ← token_balance denom MirrorMint;
  if String.eqb denom addressLunaX then AlmostEqual (Some contractBalance) totalLunaX 1000000
  else if String.eqb denom DenomLUNA then
    lunaXValue ← convert rate totalLunaX;
    luna ← SumOfDenom snapshot denom;
    expectedLunaBalance ← nint_sub luna lunaXValue;
    AlmostEqual (Some contractBalance) expectedLunaBalance 1000000
  else
    d ← MapContractToDenom denom;
    sum ← SumOfDenom snapshot d;
    AlmostEqual (Some contractBalance) sum 1000000.

Definition AuditCdps (fuel : nat) (snapshot : SnapshotBalanceAggregateMap) : res (option unit) :=
  rate ← getLunaXExchangeRate;
  with_pages (getAllPositions fuel) (fun positions =>
    totalLunaX ← foldM (fun t p =>
      if String.eqb (CollateralToken p) addressLunaX then nint_add t (CollateralAmount p) else Ok t) positions (Some 0);
    iterM (audit_collateral snapshot rate totalLunaX) MirrorRelevantCollaterals).

(** The limit orders of Mirror. *)
Record mirror_order : Type := mkMirrorOrder {
  MirrorOrderId : Z; MirrorBidder : string; OfferNative : string; OfferAmount : option Int; FilledOfferAmount : option Int }.

Context (mirror_orders_page : Z -> res (list mirror_order)).

Definition mirror_getAllOrders (fuel : nat) : res (option (list mirror_order)) :=
  pages mirror_orders_page 10 MirrorOrderId fuel 0 [].

Definition mirror_offer (s : SnapshotBalanceAggregateMap) (o : mirror_order) : res SnapshotBalanceAggregateMap :=
  if String.eqb (OfferNative o) DenomUST then
    rest ← nint_sub (OfferAmount o) (FilledOfferAmount o);
    AppendOrAddBalance (MirrorBidder o) s (mkSB DenomUST rest)
  else Ok s.

(** [ExportLimitOrderContract] and [AuditLOs] of Mirror. *)
Definition mirror_ExportLimitOrderContract (fuel : nat) (bl : Blacklist)
    : res (option (SnapshotBalanceAggregateMap * Blacklist)) :=
  with_pages (mirror_getAllOrders fuel) (fun orders =>
    snapshot ← foldM mirror_offer orders ∅;
    Ok (snapshot, RegisterAddress DenomUST MirrorLimitOrder bl)).

Definition mirror_AuditLOs (snapshot : SnapshotBalanceAggregateMap) : res unit :=
  audit_native bank snapshot DenomUST MirrorLimitOrder 10000.

(** ** White Whale *)

Definition whiteWhaleVUST : string := "terra1w0p5zre38ecdy3ez8efd5h9fvgum5s206xknrg".
Definition whiteWhaleVault : string := "terra1ec3r2esp9cqekqqvn0wd6nwrjslnwxm7fh8egy".
Definition whitewhaleTreasury : string := "terra1cnt2dls25u40wqyjgq72stuyjrwn0u5r6m5sm5".
Definition whitewhaleVUstUstLp : string := "terra16w76qmlwdevxvt9xnfafmczrjyar6rh5rtsyhw".
Definition whitewhaleVUstWhaleLp : string := "terra12arl49w7t4xpq7krtv43t3dg6g8kn2xxyaav56".

Context (query_pool : string -> res pool) (query_pair : string -> res pair).

(** The reserve of vUST in a pool; the second asset counts if both are vUST. *)
Definition is_vust (a : asset) : bool :=
  match Token (AssetInfo a) with
  | Some addr => String.eqb addr whiteWhaleVUST
  | None => false
  end.

Definition vust_reserve (p : pool) : option Int :=
  if is_vust (Asset1 p) then AssetAmount (Asset1 p)
  else if is_vust (Asset0 p) then AssetAmount (Asset0 p)
  else None.

(** [resolveVUstLps]: it fails before it changes anything. *)
Definition resolveVUstLps (lpAddress : string) (vUstHolding : BalanceMap) : res BalanceMap :=
  fail_if (is_nil (amount_in vUstHolding lpAddress)) (Errorf "no vUST allocated to LP");;
  pool ← query_pool lpAddress;
  pair ← query_pair lpAddress;
  lpHoldings ← cw20_holders NewIntFromString contract_store (LiquidityToken pair);
  let vUstReserve := vust_reserve pool in
  fail_if (is_nil vUstReserve) (Errorf "vUST pair not found in lp");;
  vUstHolding ← foldM (fun m e =>
    let m := if is_nil (amount_in m e.1) then <[e.1 := Some 0]> m else m in
    part ← mul_quo e.2 vUstReserve (TotalShare pool);
    sum ← nint_add (amount_in m e.1) part;
    Ok (<[e.1 := sum]> m)) (range 157 lpHoldings) vUstHolding;
  Ok (delete lpAddress vUstHolding).

(** A call whose error is dropped. *)
Definition keep_on_error (m : BalanceMap) (c : res BalanceMap) : res BalanceMap :=
  match c with
  | Ok m' => Ok m'
  | Err _ => Ok m
  | Panic => Panic
  end.

Definition vust_shares (site : nat) (balance totalSupply : Int) (vUstHoldings : BalanceMap) : res BalanceMap :=
  foldM (fun m e => b ← mul_quo e.2 (Some balance) (Some totalSupply); Ok (<[e.1 := b]> m)) (range site vUstHoldings) ∅.

(** The treasury's balances become those of the admin. *)
Definition move_treasury (admin : string) (s : SnapshotBalanceAggregateMap) : SnapshotBalanceAggregateMap :=
  delete whitewhaleTreasury (<[admin := balances_of s whitewhaleTreasury]> s).

(** [ExportWhiteWhaleVaults] and [Audit]; the two maps of shares are filled in one
    loop. *)
Definition ExportWhiteWhaleVaults (bl : Blacklist) : res (SnapshotBalanceAggregateMap * Blacklist) :=
  vUstHoldings ← cw20_holders NewIntFromString contract_store whiteWhaleVUST;
  totalSupply ← total_supply whiteWhaleVUST;
  aUstBalance ← cw20_balance AUST whiteWhaleVault;
  ustBalance ← GetNativeBalance bank DenomUST whiteWhaleVault;
  vUstHoldings ← keep_on_error vUstHoldings (resolveVUstLps whitewhaleVUstUstLp vUstHoldings);
  vUstHoldings ← keep_on_error vUstHoldings (resolveVUstLps whitewhaleVUstWhaleLp vUstHoldings);
  ust ← vust_shares 158 ustBalance totalSupply vUstHoldings;
  aust ← vust_shares 158 aUstBalance totalSupply vUstHoldings;
  let snapshot := Add aust DenomAUST (Add ust DenomUST ∅) in
  let bl := RegisterAddress DenomUST whiteWhaleVault (RegisterAddress DenomAUST whiteWhaleVault bl) in
  vault ← ToAddress whiteWhaleVault;
  admin ← contract_admin vault;
  Ok (move_treasury admin snapshot, bl).

Definition whitewhale_Audit (snapshot : SnapshotBalanceAggregateMap) : res unit :=
  aUstBalance ← cw20_balance AUST whiteWhaleVault;
  ustBalance ← GetNativeBalance bank DenomUST whiteWhaleVault;
  ust ← SumOfDenom snapshot DenomUST;
  AlmostEqual (Some ustBalance) ust 10000;;
  aust ← SumOfDenom snapshot DenomAUST;
  AlmostEqual (Some aUstBalance) aust 10000;;
  vault ← ToAddress whiteWhaleVault;
  admin ← contract_admin vault;
  fail_if (negb (length (balances_of snapshot whitewhaleTreasury) =? 0)%nat ||
           (length (balances_of snapshot admin) =? 0)%nat) (Errorf "whitewhale treasury error").

End lending.

(** ** Theorems *)

Section lending_facts.
Context {M : SdkMath} {ML : SdkMathLaws M} {R : GoRange} {RL : GoRangeLaws R} {A : Bech32}.
Context {B : Type} {BK : BankKeeper B} (bank : B).
Context (NewIntFromString : string -> option Int) (contract_store : AccAddress -> list (string * string)).
Context (cw20_balance : string -> string -> res Int) (total_supply : string -> res Int).
Context (contract_admin : AccAddress -> res string).

(** *** Edge *)

(** The insurance of a market replaces what the admin of the pool holds of it. *)
Theorem edge_admin_overwritten acc market acc' poolAddr admin :
  edge_market NewIntFromString contract_store total_supply contract_admin acc market = Ok acc' ->
  list_contains EdgeProtocolTokens (Underlying market) = true ->
  AccAddressFromBech32 EdgeProtocolPool = Ok poolAddr -> contract_admin poolAddr = Ok admin ->
  exists holding i, acc'.1 !! Underlying market = Some holding /\
    insurance market = Ok i /\ amount_in holding admin = i.
Proof.
  unfold edge_market. intros H Ht Hp Ha. rewrite Ht in H. cbn [negb] in H. go_inv.
  rewrite Hp in Hv2. injection Hv2 as <-. rewrite Ha in Hv3. injection Hv3 as <-.
  eexists _, _. cbn. rewrite lookup_insert_eq. split; [done|]. split; [done|].
  unfold amount_in. by rewrite lookup_insert_eq.
Qed.

(** *** Mars *)

Lemma mars_shares_Ok site pool supply m m' :
  mars_shares site pool supply m = Ok m' ->
  m' = (fun v => Some (Z.quot (default 0 v * pool) supply)) <$> m.
Proof.
  unfold mars_shares. intros H. apply bind_Ok in H as ([acc sum] & H & [= <-]).
  apply map_eq. intros k. rewrite lookup_fmap.
  pose proof (range_perm site _ m) as Hp.
  assert (Hx : forall l acc0 sum0, foldM (mars_share pool supply) l (acc0, sum0) = Ok (acc, sum) -> NoDup (l.*1) ->
    acc !! k = match (list_to_map l : BalanceMap) !! k with
               | Some v => if bool_decide (v = Some 0) then acc0 !! k else Some (Some (Z.quot (default 0 v * pool) supply))
               | None => acc0 !! k
               end).
  { clear -ML. induction l as [|e l IH]; intros acc0 sum0 H Hnd; [by injection H as <- <-|].
    cbn [foldM] in H. apply bind_Ok in H as ([acc1 sum1] & H1 & H). apply NoDup_cons in Hnd as [Hn Hnd].
    rewrite (IH _ _ H Hnd). cbn [list_to_map foldr]. clear IH H.
    unfold mars_share in H1. apply bind_Ok in H1 as (z & Hz & H1). apply nint_is_zero_Ok in Hz as (x & Ex & ->).
    destruct (decide (e.1 = k)) as [<-|Hne].
    - rewrite lookup_insert_eq, not_elem_of_list_to_map_1 by done. rewrite Ex.
      destruct (Z.eqb_spec x 0) as [->|Hx]; go_inv; [done|]. cbn [fst]. rewrite lookup_insert_eq.
      rewrite bool_decide_eq_false_2 by congruence. rewrite Ex in *.
      by apply mul_quo_Ok in Hv as (? & ? & ? & [= <-] & [= <-] & [= <-] & _ & ->).
    - rewrite lookup_insert_ne by done. destruct (x =? 0); go_inv; [done|]. cbn [fst]. by rewrite lookup_insert_ne. }
  apply Hx in H; [|by rewrite Hp; apply NoDup_fst_map_to_list].
  assert (Hl : (list_to_map (range site m) : BalanceMap) = m).
  { rewrite <- (list_to_map_to_list m) at 2. apply list_to_map_proper; [|done].
    rewrite Hp. apply NoDup_fst_map_to_list. }
  rewrite Hl in H. rewrite H. destruct (m !! k) as [v|] eqn:E; [|done]. cbn.
  case_bool_decide as Hv; [|done]. subst v. done.
Qed.

(** The Luna the market of Mars still has is shared among the holders of maLuna:
    everyone gets their part, and together they get no more than the market has if
    they hold no more than the supply. *)
Theorem mars_luna_within_market bl s bl' holders luna supply :
  ExportMarsDepositLuna bank NewIntFromString contract_store total_supply bl = Ok (s, bl') ->
  cw20_holders NewIntFromString contract_store maLunaToken = Ok holders ->
  GetNativeBalance bank DenomLUNA marsMarket = Ok luna -> total_supply maLunaToken = Ok supply ->
  0 <= luna -> 0 < supply -> map_Forall (fun _ v => 0 <= default 0 v) holders -> map_sum holders <= supply ->
  0 <= total s DenomLUNA <= luna /\ blacklisted bl' marsMarket DenomLUNA /\
  forall a, held s a DenomLUNA = Z.quot (default 0 (amount_in holders a) * luna) supply.
Proof.
  unfold ExportMarsDepositLuna. intros H Hh Hl Hs Hl0 Hs0 Hpos Hsum. rewrite Hh, Hl, Hs in H.
  cbn [mbind res_bind] in H. apply bind_Ok in H as (m & Hm & [= <- <-]). apply mars_shares_Ok in Hm.
  pose proof (map_sum_shares holders luna supply Hs0 Hl0 Hpos) as (H1 & H2 & _). cbv zeta in *. rewrite <- Hm in *.
  unfold Add. rewrite append_all_total, String.eqb_refl. change (total ∅ DenomLUNA) with 0. split; [nia|].
  split; [apply RegisterAddress_blacklisted; by right|]. intros a. unfold Add. rewrite append_all_held, String.eqb_refl.
  change (held ∅ a DenomLUNA) with 0. rewrite Hm. unfold amount_in. rewrite lookup_fmap.
  destruct (holders !! a); [done|]. cbn. rewrite Z.quot_0_l; lia.
Qed.

(** *** Mirror *)

Context (positions_page : Int -> res (list position)) (getLunaXExchangeRate : res Dec).

(** What a position gives in a denomination. *)
Definition position_value (rate : Dec) (d : string) (p : position) : Z :=
  match List.find (is_collateral p) MirrorRelevantCollaterals with
  | None => 0
  | Some denom =>
      if String.eqb (CollateralToken p) addressLunaX then
        if String.eqb DenomLUNA d then Z.quot (rate * default 0 (CollateralAmount p)) precision else 0
      else match MapContractToDenom denom with
           | Ok d' => if String.eqb d' d then default 0 (CollateralAmount p) else 0
           | _ => 0
           end
  end.

(** With more fuel than there are positions the export of Mirror's positions gets
    through all of them and gives each owner their collateral, LunaX as Luna. *)
Theorem mirror_positions_exported records fuel bl :
  paged positions_page 30 Idx 0 records -> (length records < fuel)%nat ->
  ExportMirrorCdps positions_page getLunaXExchangeRate fuel bl <> Ok None /\
  forall s bl' rate, ExportMirrorCdps positions_page getLunaXExchangeRate fuel bl = Ok (Some (s, bl')) ->
    getLunaXExchangeRate = Ok rate ->
    forall a d, held s a d = sumZ (fun p => if String.eqb (Owner p) a then position_value rate d p else 0) records.
Proof.
  intros Hp Hf. unfold ExportMirrorCdps, getAllPositions.
  rewrite (pages_all _ 30 Idx _ _ ltac:(lia) Hp _ Hf). unfold with_pages. cbn [mbind res_bind]. split.
  { by intros (y & _ & H)%bind_Ok. }
  intros s bl' rate H Hr a d. rewrite Hr in H. cbn [mbind res_bind] in H.
  apply bind_Ok in H as (y & H & [= ->]). apply bind_Ok in H as (s1 & H & [= -> <-]).
  apply (credits_held _ (fun p => if String.eqb (Owner p) a then position_value rate d p else 0) _ _ _ a d) in H;
    [by rewrite H|].
  clear -ML. intros s p s' H. unfold mirror_position in H. unfold position_value.
  destruct (List.find _ _) as [denom|]; [|injection H as <-; destruct (String.eqb _ a); lia].
  destruct (String.eqb (CollateralToken p) addressLunaX).
  - apply bind_Ok in H as (l & Hl & H). apply convert_Ok in Hl as (x & -> & ->).
    rewrite (AppendOrAddBalance_held _ _ _ _ a d H), held_list_one. by destruct (String.eqb _ a).
  - apply bind_Ok in H as (d' & -> & H).
    rewrite (AppendOrAddBalance_held _ _ _ _ a d H), held_list_one. by destruct (String.eqb _ a).
Qed.

(** *** White Whale *)

(** Moving the treasury to the admin of the vault loses what the admin held: the
    total falls by it. *)
Theorem whitewhale_admin_overwritten admin s d :
  admin <> whitewhaleTreasury ->
  held (move_treasury admin s) admin d = held s whitewhaleTreasury d /\
  total (move_treasury admin s) d = total s d - held s admin d.
Proof.
  intros Hne. unfold move_treasury.
  split.
  - unfold held, balances_of. rewrite lookup_delete_ne by done. by rewrite lookup_insert_eq.
  - rewrite total_delete, total_insert, held_insert. apply String.eqb_neq in Hne as ->. unfold held. lia.
Qed.

End lending_facts.
