(* ===== verification/Ink.v ===== *)
(** * Ink in the exporter

    Models [src/app/export/ink].  The query of the parties decodes every page into
    one variable, [partyRes], whose slices keep their arrays, while the parties of
    earlier pages still refer to these arrays.  So the parties are modelled on a
    heap: the arrays of deposits, and the integers to which the amounts point.  What
    decoding does to a slice that is not empty is that of [encoding/json]: elements
    are decoded over the old ones, and an array that is full is copied to a larger
    one. *)

From Stdlib Require Import ZArith Lia Bool.
From stdpp Require Import base strings list gmap.
From S2P Require Import Prelude Loops Sdk SdkRef Snapshot ExportUtil Derivatives Holdings Dex Compounders Deposits.
Local Open Scope Z_scope.

(** ** The heap *)

(** A deposit in an array: the pointer of its [sdk.Int], which is nil at first, and
    its address. *)
Record cell : Type := mkCell { Amount : option nat; Address : string }.

Definition zero_cell : cell := mkCell None "".

Record heap : Type := mkHeap { ints : gmap nat Int; arrays : gmap nat (list cell); fresh : nat }.

Definition empty_heap : heap := mkHeap ∅ ∅ 0.

(** A slice of deposits: its array, if it has one, and its length. *)
Record deposits_slice : Type := mkSlice { backing : option nat; len : nat }.

Definition nil_slice : deposits_slice := mkSlice None 0.

(** A party that has been decoded, and a party as the contract sends it. *)
Record PartyInfo : Type := mkParty { Id : Z; PartyAddr : string; PartyDeposits : deposits_slice }.
Record party_json : Type := mkPartyJson { JsonId : Z; JsonAddr : string; JsonDeposits : list (string * Int) }.

(** The cells of the array of a slice; their number is its capacity. *)
Definition cells_of (h : heap) (s : deposits_slice) : list cell := default [] (backing s ≫= fun a => arrays h !! a).

Definition new_array (cells : list cell) (h : heap) : nat * heap :=
  (fresh h, mkHeap (ints h) (<[fresh h := cells]> (arrays h)) (S (fresh h))).

Definition new_int (v : Int) (h : heap) : nat * heap :=
  (fresh h, mkHeap (<[fresh h := v]> (ints h)) (arrays h) (S (fresh h))).

Definition set_int (p : nat) (v : Int) (h : heap) : heap := mkHeap (<[p := v]> (ints h)) (arrays h) (fresh h).

Definition set_cell (s : deposits_slice) (i : nat) (c : cell) (h : heap) : heap :=
  match backing s with
  | Some a => mkHeap (ints h) (<[a := <[i := c]> (cells_of h s)]> (arrays h)) (fresh h)
  | None => h
  end.

(** What is read through a slice. *)
Definition read_cell (h : heap) (c : cell) : string * option Int := (Address c, Amount c ≫= fun p => ints h !! p).

Definition view (h : heap) (s : deposits_slice) : list (string * option Int) :=
  read_cell h <$> take (len s) (cells_of h s).

(** ** Decoding *)

Section decode.

(** Whether [sdk.Int.UnmarshalJSON] stores into the integer it already points to. *)
Context (int_in_place : bool).

Definition decode_int (p : option nat) (v : Int) (h : heap) : nat * heap :=
  match p with
  | Some p => if int_in_place then (p, set_int p v h) else new_int v h
  | None => new_int v h
  end.

(** A full array is copied to one that is half as large again, of at least four
    elements. *)
Definition grow (i : nat) (s : deposits_slice) (h : heap) : deposits_slice * heap :=
  let cap := length (cells_of h s) in
  if (i <? cap)%nat then (s, h)
  else
    let newcap := Nat.max 4 (cap + cap / 2) in
    let '(a, h) := new_array (take (len s) (cells_of h s) ++ replicate (newcap - len s) zero_cell) h in
    (mkSlice (Some a) (len s), h).

Definition decode_deposit (i : nat) (d : string * Int) (s : deposits_slice) (h : heap) : deposits_slice * heap :=
  let '(s, h) := grow i s h in
  let s := if (i <? len s)%nat then s else mkSlice (backing s) (S i) in
  let '(p, h) := decode_int (Amount (default zero_cell (cells_of h s !! i))) d.2 h in
  (s, set_cell s i (mkCell (Some p) d.1) h).

Fixpoint decode_from (i : nat) (ds : list (string * Int)) (s : deposits_slice) (h : heap) : deposits_slice * heap :=
  match ds with
  | [] => (s, h)
  | d :: ds => let '(s, h) := decode_deposit i d s h in decode_from (S i) ds s h
  end.

(** An array of deposits; an empty one gives a new slice. *)
Definition decode_deposits (ds : list (string * Int)) (s : deposits_slice) (h : heap) : deposits_slice * heap :=
  let '(s, h) := decode_from 0 ds s h in
  match ds with
  | [] => (nil_slice, h)
  | _ => (mkSlice (backing s) (length ds), h)
  end.

Definition decode_party (p : party_json) (old : PartyInfo) (h : heap) : PartyInfo * heap :=
  let '(s, h) := decode_deposits (JsonDeposits p) (PartyDeposits old) h in
  (mkParty (JsonId p) (JsonAddr p) s, h).

Definition zero_party : PartyInfo := mkParty 0 "" nil_slice.

(** The array of parties, whose elements are decoded over the old ones as well. *)
Fixpoint decode_parties (page : list party_json) (arr : list PartyInfo) (h : heap) : list PartyInfo * heap :=
  match page with
  | [] => (arr, h)
  | p :: page =>
      let '(new, h) := decode_party p (default zero_party (head arr)) h in
      let '(rest, h) := decode_parties page (tail arr) h in
      (new :: rest, h)
  end.

(** ** The export *)

Definition InkVault : string := "terra1v579mvp2xxw3st7glgaurfla5pxses0jdwedde".
Definition InkAUstVault : string := "terra1lhavzcmdh6073j82m4sa8n7w5t5c4prugzl68a".
Definition InkParty : string := "terra1p4y54kfdn9uhvh62rjvgz3sydceuw9s6c65aef".
Definition InkCore : string := "terra1nlsfl8djet3z70xu2cj7s9dn7kzyzzfz5z2sd9".

Record Vault : Type := mkVault {
  VaultOwner : string; VaultAddr : string; UstAmountInAnchor : option Int; UstAmountInCore : option Int }.

(** What the contracts answer: a page of parties after a number of them, a page of
    players after an address, and the vaults. *)
Context (parties_page : Z -> res (list party_json)) (players_page : string -> res (list (string * option Int))).
Context (getAllVaults : res (list Vault)) (cw20_balance : string -> string -> res Int).

(** [getAllParties]: the parties, and the heap on which their deposits are. *)
Fixpoint getParties (fuel : nat) (startAfter : Z) (arr : list PartyInfo) (h : heap) (partyInfos : list PartyInfo)
    : res (option (list PartyInfo * heap)) :=
  match fuel with
  | O => Ok None
  | S fuel =>
      page ← parties_page startAfter;
      let '(arr, h) := decode_parties page arr h in
      let partyInfos := partyInfos ++ take (length page) arr in
      if (length page <? 80)%nat then Ok (Some (partyInfos, h))
      else getParties fuel (startAfter + 80) arr h partyInfos
  end.

Definition getAllParties (fuel : nat) : res (option (list PartyInfo * heap)) := getParties fuel 0 [] empty_heap [].

Section export.
Context {M : SdkMath} {R : GoRange}.

(** [getAllDeposits]: the players of every page are added up. *)
Fixpoint getPlayers (fuel : nat) (startAddress : string) (deposits : BalanceMap) : res (option BalanceMap) :=
  match fuel with
  | O => Ok None
  | S fuel =>
      players ← players_page startAddress;
      deposits ← foldM (fun m p => add_holder m p.1 p.2) players deposits;
      if (length players <? 500)%nat then Ok (Some deposits)
      else getPlayers fuel (default "" (fst <$> last players)) deposits
  end.

Definition getAllDeposits (fuel : nat) : res (option BalanceMap) := getPlayers fuel "" ∅.

(** A deposit that is there is set to zero. *)
Definition clear_deposit (addr : string) (deposits : BalanceMap) : BalanceMap :=
  if is_nil (amount_in deposits addr) then deposits else <[addr := Some 0]> deposits.

(** A party: its own deposit goes, those of its members come. *)
Definition ink_party (h : heap) (deposits : BalanceMap) (party : PartyInfo) : res BalanceMap :=
  '(deposits, _) ← foldM (fun '(deposits, sum) dp =>
    sum ← nint_add sum dp.2;
    deposits ← add_holder deposits dp.1 dp.2;
    Ok (deposits, sum)) (view h (PartyDeposits party)) (clear_deposit (PartyAddr party) deposits, Some 0);
  Ok deposits.

Definition ink_vault (acc : BalanceMap * Blacklist) (vault : Vault) : res (BalanceMap * Blacklist) :=
  amount ← nint_add (UstAmountInAnchor vault) (UstAmountInCore vault);
  deposits ← add_holder (clear_deposit (VaultAddr vault) acc.1) (VaultOwner vault) amount;
  Ok (deposits, RegisterAddress DenomAUST (VaultAddr vault) acc.2).

(** [getTotalAUstLocked]. *)
Definition getTotalAUstLocked (vaults : list Vault) : res Int :=
  sum ← foldM (fun sum v => balance ← cw20_balance AUST (VaultAddr v); int_add sum balance) vaults 0;
  balance ← cw20_balance AUST InkAUstVault;
  int_add sum balance.

(** [ExportContract] of Ink, on what [getAllDeposits] and [getAllParties] return. *)
Definition ink_export (deposits : BalanceMap) (partyInfos : list PartyInfo) (h : heap) (bl : Blacklist)
    : res (SnapshotBalanceAggregateMap * Blacklist) :=
  vaults ← getAllVaults;
  deposits ← foldM (ink_party h) partyInfos deposits;
  '(deposits, bl) ← foldM ink_vault vaults (deposits, bl);
  totalAUstLocked ← getTotalAUstLocked vaults;
  totalDeposits ← Sum deposits;
  snapshot ← foldM (fun s e =>
    aUstBalance ← mul_quo e.2 (Some totalAUstLocked) totalDeposits;
    Ok (<[e.1 := balances_of s e.1 ++ [mkSB DenomAUST aUstBalance]]> s)) (range 160 deposits) ∅;
  Ok (snapshot, RegisterAddress DenomAUST InkAUstVault bl).

Definition ink_ExportContract (fuel : nat) (bl : Blacklist) : res (option (SnapshotBalanceAggregateMap * Blacklist)) :=
  deposits ← getAllDeposits fuel;
  parties ← getAllParties fuel;
  match deposits, parties with
  | Some deposits, Some (partyInfos, h) => r ← ink_export deposits partyInfos h bl; Ok (Some r)
  | _, _ => Ok None
  end.

End export.

End decode.

(** ** Theorems *)

#[local] Arguments cells_of : simpl never.

(** *** What decoding touches *)

(** The identifiers a slice refers to: its array, and the integers of its cells. *)
Definition footprint (h : heap) (s : deposits_slice) : list nat :=
  option_list (backing s) ++ omap Amount (cells_of h s).

(** A slice that refers to nothing twice, and only to what is allocated. *)
Record slice_ok (h : heap) (s : deposits_slice) : Prop := mkSliceOk {
  slice_nodup : NoDup (footprint h s);
  slice_allocated : Forall (fun x => x < fresh h)%nat (footprint h s);
  slice_len : (len s <= length (cells_of h s))%nat }.

(** [h'] comes from [h] by changing nothing but what is in [l] and what is new. *)
Record changes (l : list nat) (h h' : heap) : Prop := mkChanges {
  changes_fresh : (fresh h <= fresh h')%nat;
  changes_rest x : (x < fresh h)%nat -> x ∉ l -> ints h' !! x = ints h !! x /\ arrays h' !! x = arrays h !! x }.

(** What is new or in [l]. *)
Definition within (l : list nat) (h : heap) (l' : list nat) : Prop :=
  forall x, x ∈ l' -> x ∈ l \/ (fresh h <= x)%nat.

Definition sent (d : string * Int) : string * option Int := (d.1, Some d.2).

Lemma changes_refl l h : changes l h h.
Proof. split; [lia|done]. Qed.

Lemma changes_trans l l' h1 h2 h3 :
  changes l h1 h2 -> changes l' h2 h3 -> within l h1 l' -> changes l h1 h3.
Proof.
  intros [F1 C1] [F2 C2] Hw. split; [lia|]. intros x Hx Hn.
  destruct (C1 x Hx Hn) as [<- <-]. apply C2; [lia|]. intros Hin. destruct (Hw x Hin); [done|lia].
Qed.

(** Through a slice whose footprint is left alone the same is read. *)
Lemma changes_cells l h h' s :
  changes l h h' -> Forall (fun x => x < fresh h)%nat (footprint h s) ->
  (forall x, x ∈ footprint h s -> x ∉ l) ->
  cells_of h' s = cells_of h s /\ footprint h' s = footprint h s /\
  read_cell h' <$> cells_of h' s = read_cell h <$> cells_of h s.
Proof.
  intros [_ Hc] Hf Hn. rewrite Forall_forall in Hf.
  assert (E : cells_of h' s = cells_of h s).
  { unfold cells_of. destruct (backing s) as [a|] eqn:Eb; [|done]. cbn.
    assert (a ∈ footprint h s) by (unfold footprint; rewrite Eb; apply elem_of_app; left; by constructor).
    destruct (Hc a) as [_ ->]; auto. }
  split; [done|]. split; [unfold footprint; by rewrite E|]. rewrite E. apply list_fmap_ext. intros i c Hi.
  unfold read_cell. f_equal. destruct (Amount c) as [p|] eqn:Ep; [|done]. cbn.
  assert (p ∈ footprint h s).
  { unfold footprint. apply elem_of_app. right. apply list_elem_of_omap. exists c. split; [|done].
    by apply list_elem_of_lookup_2 in Hi. }
  destruct (Hc p) as [-> _]; auto.
Qed.

Lemma omap_unique (l : list cell) i j c c' p :
  NoDup (omap Amount l) -> l !! i = Some c -> l !! j = Some c' -> Amount c = Some p -> Amount c' = Some p -> i = j.
Proof.
  revert i j. induction l as [|x l IH]; intros i j Hn Hi Hj Hc Hc'; [done|].
  assert (Hin : forall k y, l !! k = Some y -> Amount y = Some p -> p ∈ omap Amount l).
  { intros k y Hk Hy. apply list_elem_of_omap. exists y. split; [by apply list_elem_of_lookup_2 in Hk|done]. }
  destruct i as [|i], j as [|j]; cbn in Hi, Hj; simplify_eq; [done| | |].
  - cbn in Hn. rewrite Hc in Hn. apply NoDup_cons in Hn as [Hn _]. by destruct Hn; eapply Hin.
  - cbn in Hn. rewrite Hc' in Hn. apply NoDup_cons in Hn as [Hn _]. by destruct Hn; eapply Hin.
  - f_equal. eapply IH; [|done..]. cbn in Hn. by destruct (Amount x); [apply NoDup_cons in Hn as [_ Hn]|].
Qed.

(** Writing a deposit into a cell, with an integer of its own. *)
Lemma write_reads h cells i c p v addr :
  cells !! i = Some c -> NoDup (omap Amount cells) -> Amount c = Some p \/ p ∉ omap Amount cells ->
  read_cell (set_int p v h) <$> <[i := mkCell (Some p) addr]> cells = <[i := (addr, Some v)]> (read_cell h <$> cells).
Proof.
  intros Hi Hn Hp. apply list_eq. intros j. rewrite list_lookup_fmap. destruct (decide (i = j)) as [<-|Hne].
  - apply lookup_lt_Some in Hi as Hlt. rewrite !list_lookup_insert_eq by (by rewrite ?length_fmap).
    cbn. unfold read_cell. cbn. by rewrite lookup_insert_eq.
  - rewrite !list_lookup_insert_ne, list_lookup_fmap by done. destruct (cells !! j) as [c'|] eqn:Ej; [|done].
    cbn. unfold read_cell. do 2 f_equal. destruct (Amount c') as [q|] eqn:Eq; [|done]. cbn.
    rewrite lookup_insert_ne; [done|]. intros <-. destruct Hp as [Hp|Hp].
    + by pose proof (omap_unique _ _ _ _ _ _ Hn Hi Ej Hp Eq).
    + apply Hp, list_elem_of_omap. exists c'. split; [by apply list_elem_of_lookup_2 in Ej|done].
Qed.

Lemma write_pointers (cells : list cell) i c p addr :
  cells !! i = Some c ->
  exists l1 l2, omap Amount cells = l1 ++ option_list (Amount c) ++ l2 /\
    omap Amount (<[i := mkCell (Some p) addr]> cells) = l1 ++ p :: l2.
Proof.
  intros Hi. exists (omap Amount (take i cells)), (omap Amount (drop (S i) cells)). split.
  - rewrite <- (take_drop_middle _ _ _ Hi) at 1. rewrite omap_app. cbn. by destruct (Amount c).
  - rewrite insert_take_drop by (by eapply lookup_lt_Some). rewrite omap_app. done.
Qed.

Section decode_facts.
Context (int_in_place : bool).

Lemma decode_int_cases p v h :
  (int_in_place = true /\ exists q, p = Some q /\ decode_int int_in_place p v h = (q, set_int q v h)) \/
  decode_int int_in_place p v h = (fresh h, mkHeap (<[fresh h := v]> (ints h)) (arrays h) (S (fresh h))).
Proof. unfold decode_int, new_int. destruct p as [q|]; [|by right]. destruct int_in_place; [left; eauto|by right]. Qed.

Lemma write_ok h s a i c d p h1 n :
  backing s = Some a -> cells_of h s !! i = Some c -> slice_ok h s -> (n <= length (cells_of h s))%nat ->
  decode_int int_in_place (Amount c) d.2 h = (p, h1) ->
  let s' := mkSlice (Some a) n in
  let h' := set_cell s' i (mkCell (Some p) d.1) h1 in
  slice_ok h' s' /\ changes (a :: option_list (Amount c)) h h' /\ within (footprint h s) h (footprint h' s') /\
  cells_of h' s' = <[i := mkCell (Some p) d.1]> (cells_of h s) /\
  read_cell h' <$> cells_of h' s' = <[i := sent d]> (read_cell h <$> cells_of h s).
Proof.
  intros Ha Hi [Hn Hf Hl] Hle Hd s' h'. unfold footprint in Hn, Hf. rewrite Ha in Hn, Hf. cbn in Hn, Hf.
  assert (Hh1 : arrays h1 = arrays h /\ (fresh h <= fresh h1)%nat /\ (p < fresh h1)%nat /\ ints h1 = <[p := d.2]> (ints h) /\
    (Amount c = Some p \/ (fresh h <= p)%nat)).
  { destruct (decode_int_cases (Amount c) d.2 h) as [(_ & q & Hq & E)|E]; rewrite E in Hd; injection Hd as <- <-; cbn.
    - split_and!; [done|lia| |done|by left]. apply Forall_cons in Hf as [_ Hf]. rewrite Forall_forall in Hf.
      apply Hf, list_elem_of_omap. exists c. split; [by apply list_elem_of_lookup_2 in Hi|done].
    - split_and!; [done|lia|lia|done|by right]. }
  destruct Hh1 as (Har & Hfr & Hpf & Hint & Hp).
  assert (Hc1 : cells_of h1 s' = cells_of h s) by (unfold cells_of; rewrite Ha, Har; done).
  assert (Hc : cells_of h' s' = <[i := mkCell (Some p) d.1]> (cells_of h s)).
  { unfold h', set_cell. cbn. rewrite Hc1. unfold cells_of at 1. cbn. by rewrite lookup_insert_eq. }
  assert (Hpn : Amount c = Some p \/ p ∉ omap Amount (cells_of h s)).
  { destruct Hp as [Hp|Hp]; [by left|right]. intros Hin. apply Forall_cons in Hf as [_ Hf].
    rewrite Forall_forall in Hf. apply Hf in Hin. lia. }
  apply NoDup_cons in Hn as [Hna Hn]. apply Forall_cons in Hf as [Hfa Hf].
  destruct (write_pointers _ _ _ p d.1 Hi) as (l1 & l2 & E1 & E2).
  assert (Hap : a <> p).
  { intros ->. destruct Hp as [Hp|Hp]; [|lia]. apply Hna. rewrite E1, Hp. set_solver. }
  split; [|split; [|split; [|split; [done|]]]].
  - rewrite E1 in *. split; unfold footprint; rewrite Hc, ?E2; cbn; rewrite ?length_insert; [|constructor; [lia|]|done].
    + apply NoDup_cons. split; [destruct (Amount c); set_solver|].
      destruct Hpn as [Hpn|Hpn]; [by rewrite Hpn in Hn|]. apply NoDup_app in Hn as (N1 & N2 & N3).
      apply NoDup_app in N3 as (_ & _ & N3). apply NoDup_app. split_and!; [done|set_solver|]. apply NoDup_cons. set_solver.
    + rewrite !Forall_app in Hf. destruct Hf as (F1 & _ & F2).
      apply Forall_app. split; [|constructor; [done|]]; eapply Forall_impl; try done; cbn; intros; lia.
  - split; [done|]. intros x Hx Hn'. unfold h', set_cell. cbn. rewrite Hint, Har. split.
    + rewrite lookup_insert_ne; [done|]. intros <-. destruct Hp as [Hp|Hp]; [|lia]. rewrite Hp in Hn'. set_solver.
    + rewrite lookup_insert_ne; [done|]. set_solver.
  - intros x. unfold footprint. rewrite Hc, E2, E1, Ha. cbn. rewrite !elem_of_cons, !elem_of_app, elem_of_cons.
    intros [->|[?|[->|?]]]; [tauto|tauto| |tauto]. destruct Hp as [->|]; [set_solver|by right].
  - rewrite Hc. assert (Er : forall l : list cell, read_cell h' <$> l = read_cell (set_int p d.2 h) <$> l).
    { intros l. apply list_fmap_ext. intros k y _. unfold read_cell. cbn. by rewrite Hint. }
    rewrite Er. by apply write_reads with c.
Qed.

(** Copying a full array. *)
Lemma grow_ok h s i :
  slice_ok h s -> (i = length (cells_of h s))%nat -> len s = i ->
  exists n s' h', grow i s h = (s', h') /\ (0 < n)%nat /\ slice_ok h' s' /\ changes [] h h' /\
    within (footprint h s) h (footprint h' s') /\ backing s' = Some (fresh h) /\ len s' = i /\
    cells_of h' s' = cells_of h s ++ replicate n zero_cell /\ ints h' = ints h.
Proof.
  intros [Hn Hf Hl] Hi Hlen. unfold grow. rewrite <- Hi. rewrite Nat.ltb_irrefl. unfold new_array.
  rewrite Hlen. rewrite take_ge by lia. set (n := (Nat.max 4 (i + i / 2) - i)%nat).
  eexists n, _, _. split; [done|].
  assert (Hn0 : (0 < n)%nat).
  { unfold n. destruct (decide (i < 4)%nat); [lia|]. pose proof (Nat.div_le_lower_bound i 2 1 ltac:(lia) ltac:(lia)). lia. }
  set (h' := mkHeap _ _ _). set (s' := mkSlice _ _).
  assert (Hc : cells_of h' s' = cells_of h s ++ replicate n zero_cell)
    by (unfold cells_of at 1; cbn; by rewrite lookup_insert_eq).
  assert (Hz : omap Amount (replicate n zero_cell) = []) by (clear; induction n; [done|cbn; done]).
  assert (Hfp : footprint h' s' = fresh h :: omap Amount (cells_of h s))
    by (unfold footprint; rewrite Hc, omap_app, Hz, app_nil_r; done).
  unfold footprint in Hn, Hf. apply NoDup_app in Hn as (_ & _ & Hn). apply Forall_app in Hf as [_ Hf].
  split_and!; try done.
  - split; rewrite ?Hfp, ?Hc, ?length_app, ?length_replicate.
    + apply NoDup_cons. split; [|done]. intros Hin. rewrite Forall_forall in Hf. apply Hf in Hin. lia.
    + cbn. constructor; [lia|]. eapply Forall_impl; [exact Hf|]. cbn. lia.
    + cbn. lia.
  - split; [cbn; lia|]. intros x Hx _. cbn. split; [done|]. rewrite lookup_insert_ne; [done|lia].
  - intros x. rewrite Hfp. unfold footprint. set_unfold. intros [->|?]; [by right|]. left. set_solver.
Qed.

Lemma within_trans l h h1 l1 l2 : (fresh h <= fresh h1)%nat -> within l h l1 -> within l1 h1 l2 -> within l h l2.
Proof. intros Hf H1 H2 x Hx. destruct (H2 x Hx) as [H|H]; [by apply H1|right; lia]. Qed.

(** A deposit that is decoded into an array that has room for it. *)
Lemma deposit_in_place h s i d c :
  slice_ok h s -> cells_of h s !! i = Some c -> (i <= len s)%nat ->
  exists s' h', decode_deposit int_in_place i d s h = (s', h') /\
    backing s' = backing s /\ len s' = Nat.max (len s) (S i) /\ slice_ok h' s' /\
    changes (option_list (backing s) ++ option_list (Amount c)) h h' /\ within (footprint h s) h (footprint h' s') /\
    (forall j, j <> i -> cells_of h' s' !! j = cells_of h s !! j) /\
    read_cell h' <$> cells_of h' s' = <[i := sent d]> (read_cell h <$> cells_of h s).
Proof.
  intros Hok Hi Hle. apply lookup_lt_Some in Hi as Hlt. unfold decode_deposit, grow.
  rewrite (proj2 (Nat.ltb_lt _ _) Hlt). cbv beta iota zeta.
  destruct (backing s) as [a|] eqn:Ea; [|unfold cells_of in Hi; by rewrite Ea in Hi].
  set (s' := if (i <? len s)%nat then s else mkSlice (Some a) (S i)).
  assert (Es : s' = mkSlice (Some a) (Nat.max (len s) (S i))).
  { unfold s'. destruct (Nat.ltb_spec i (len s)).
    - rewrite Nat.max_l by lia. destruct s; cbn in *; by subst.
    - by rewrite Nat.max_r by lia. }
  assert (Ec : cells_of h s' = cells_of h s) by (rewrite Es; unfold cells_of; by rewrite Ea).
  rewrite Ec, Hi. cbn [default]. unfold id. destruct (decode_int int_in_place (Amount c) d.2 h) as [p h1] eqn:Ed.
  pose proof (slice_len _ _ Hok) as L. rewrite Es.
  destruct (write_ok h s a i c d p h1 (Nat.max (len s) (S i)) Ea Hi Hok ltac:(lia) Ed)
    as (H1 & H2 & H3 & H4 & H5).
  eexists _, _. split; [done|]. split_and!; try done. intros j Hj. rewrite H4. by rewrite list_lookup_insert_ne.
Qed.

(** One that is decoded into a full array, which is copied. *)
Lemma deposit_copied h s i d :
  slice_ok h s -> i = length (cells_of h s) -> len s = i ->
  exists s' h', decode_deposit int_in_place i d s h = (s', h') /\
    backing s' = Some (fresh h) /\ len s' = S i /\ slice_ok h' s' /\ changes [] h h' /\
    within (footprint h s) h (footprint h' s') /\
    (forall j c, (S i <= j)%nat -> cells_of h' s' !! j = Some c -> Amount c = None) /\
    read_cell h' <$> take (S i) (cells_of h' s') = (read_cell h <$> cells_of h s) ++ [sent d].
Proof.
  intros Hok Hi Hl. destruct (grow_ok h s i Hok Hi Hl) as (n & s1 & h1 & Hg & Hn & Hok1 & Hc1 & Hw1 & Hb1 & Hl1 & Hcells & Hints).
  assert (Hz : cells_of h1 s1 !! i = Some zero_cell).
  { rewrite Hcells, lookup_app_r, Hi, Nat.sub_diag by lia. by destruct n; [lia|]. }
  destruct (deposit_in_place h1 s1 i d zero_cell Hok1 Hz ltac:(lia)) as (s2 & h2 & Hd & Hb2 & Hl2 & Hok2 & Hc2 & Hw2 & Ho & Hr).
  exists s2, h2. assert (Hd' : decode_deposit int_in_place i d s h = (s2, h2)).
  { rewrite <- Hd. unfold decode_deposit. rewrite Hg. unfold grow. apply lookup_lt_Some in Hz.
    by rewrite (proj2 (Nat.ltb_lt _ _) Hz). }
  split; [done|]. split_and!; [congruence|lia|done| |by eapply within_trans; [by destruct Hc1|..]| |].
  - eapply changes_trans; [done..|]. rewrite Hb1. intros x. cbn. set_unfold. intros [->|[]]. by right.
  - intros j c Hj Hjc. rewrite Ho, Hcells, lookup_app_r in Hjc by lia. by apply lookup_replicate in Hjc as [-> _].
  - rewrite fmap_take, Hr, Hcells, fmap_app. rewrite insert_app_r_alt by (rewrite length_fmap; lia).
    rewrite length_fmap, Hi, Nat.sub_diag. destruct n as [|n]; [lia|]. cbn [replicate fmap list_fmap insert list_insert].
    assert (E : read_cell h1 <$> cells_of h s = read_cell h <$> cells_of h s)
      by (apply list_fmap_ext; intros; unfold read_cell; by rewrite Hints).
    rewrite E. rewrite take_app_ge by (rewrite length_fmap; lia). rewrite length_fmap.
    by replace (S (length (cells_of h s)) - length (cells_of h s))%nat with 1%nat by lia.
Qed.

(** The deposits for which the array has room. *)
Lemma decode_in_place ds : forall h s i,
  slice_ok h s -> (i + length ds <= length (cells_of h s))%nat -> (i <= len s)%nat ->
  exists s' h', decode_from int_in_place i ds s h = (s', h') /\ backing s' = backing s /\
    len s' = Nat.max (len s) (i + length ds) /\ slice_ok h' s' /\ changes (footprint h s) h h' /\
    within (footprint h s) h (footprint h' s') /\ length (cells_of h' s') = length (cells_of h s) /\
    read_cell h' <$> cells_of h' s' =
      take i (read_cell h <$> cells_of h s) ++ (sent <$> ds) ++ drop (i + length ds) (read_cell h <$> cells_of h s).
Proof.
  induction ds as [|d ds IH]; intros h s i Hok Hle Hl; cbn [decode_from length] in *.
  { exists s, h. split_and!; try done; [lia|by left|]. cbn. by rewrite Nat.add_0_r, take_drop. }
  destruct (lookup_lt_is_Some_2 (cells_of h s) i ltac:(lia)) as [c Hc].
  destruct (deposit_in_place h s i d c Hok Hc Hl) as (s1 & h1 & -> & Hb1 & Hl1 & Hok1 & Hc1 & Hw1 & _ & Hr1).
  assert (Hlen1 : length (cells_of h1 s1) = length (cells_of h s)).
  { apply (f_equal length) in Hr1. by rewrite length_insert, !length_fmap in Hr1. }
  destruct (IH h1 s1 (S i) Hok1 ltac:(lia) ltac:(lia)) as (s2 & h2 & -> & Hb2 & Hl2 & Hok2 & Hc2 & Hw2 & Hlen2 & Hr2).
  exists s2, h2. split_and!; [done|congruence|lia|done| |eapply within_trans; [by destruct Hc1|..]; done|congruence|].
  - eapply changes_trans; [|done|done]. split; [by destruct Hc1|]. intros x Hx Hn. apply (changes_rest _ _ _ Hc1); [done|].
    intros Hin. apply Hn. unfold footprint. apply elem_of_app in Hin as [Hin|Hin]; apply elem_of_app; [by left|right].
    apply list_elem_of_omap. exists c. split; [by apply list_elem_of_lookup_2 in Hc|].
    destruct (Amount c); cbn in Hin; set_solver.
  - rewrite Hr2, Hr1. rewrite drop_insert_lt by lia.
    rewrite (take_S_r _ i (sent d)) by (apply list_lookup_insert_eq; rewrite length_fmap; lia).
    rewrite take_insert_ge by lia. rewrite <- app_assoc. cbn. by rewrite Nat.add_succ_r.
Qed.

(** The deposits that follow in an array whose rest is unused. *)
Lemma decode_appended ds : forall h s i,
  slice_ok h s -> len s = i -> (forall j c, (i <= j)%nat -> cells_of h s !! j = Some c -> Amount c = None) ->
  exists s' h', decode_from int_in_place i ds s h = (s', h') /\ len s' = (i + length ds)%nat /\ slice_ok h' s' /\
    changes (option_list (backing s)) h h' /\ within (footprint h s) h (footprint h' s') /\
    read_cell h' <$> take (i + length ds) (cells_of h' s') =
      (read_cell h <$> take i (cells_of h s)) ++ (sent <$> ds).
Proof.
  induction ds as [|d ds IH]; intros h s i Hok Hl Hz; cbn [decode_from length] in *.
  { exists s, h. split_and!; try done; [lia|by left|]. by rewrite Nat.add_0_r, app_nil_r. }
  assert (Hstep : exists s1 h1, decode_deposit int_in_place i d s h = (s1, h1) /\ len s1 = S i /\ slice_ok h1 s1 /\
    (forall j c, (S i <= j)%nat -> cells_of h1 s1 !! j = Some c -> Amount c = None) /\
    changes (option_list (backing s)) h h1 /\ within (footprint h s) h (footprint h1 s1) /\
    within (option_list (backing s)) h (option_list (backing s1)) /\
    read_cell h1 <$> take (S i) (cells_of h1 s1) = (read_cell h <$> take i (cells_of h s)) ++ [sent d]).
  { destruct (cells_of h s !! i) as [c|] eqn:Hc.
    - destruct (deposit_in_place h s i d c Hok Hc ltac:(lia)) as (s1 & h1 & E & Hb1 & Hl1 & Hok1 & Hc1 & Hw1 & Ho & Hr1).
      rewrite (Hz i c ltac:(lia) Hc), app_nil_r in Hc1.
      exists s1, h1. split_and!; try done; [lia| |by rewrite Hb1; left|].
      + intros j c' Hj. rewrite Ho by lia. apply Hz. lia.
      + apply lookup_lt_Some in Hc. rewrite fmap_take, Hr1.
        rewrite (take_S_r _ i (sent d)) by (apply list_lookup_insert_eq; by rewrite length_fmap).
        by rewrite take_insert_ge, fmap_take by lia.
    - apply lookup_ge_None in Hc. pose proof (slice_len _ _ Hok) as L.
      destruct (deposit_copied h s i d Hok ltac:(lia) Hl) as (s1 & h1 & E & Hb1 & Hl1 & Hok1 & Hc1 & Hw1 & Ho & Hr1).
      exists s1, h1. split_and!; try done.
      + split; [by destruct Hc1|]. intros x Hx _. apply (changes_rest _ _ _ Hc1); [done|]. set_solver.
      + rewrite Hb1. intros x Hx. right. cbn in Hx. set_solver.
      + by rewrite Hr1, (take_ge (cells_of h s)) by lia. }
  destruct Hstep as (s1 & h1 & -> & Hl1 & Hok1 & Hz1 & Hc1 & Hw1 & Hwb & Hr1).
  destruct (IH h1 s1 (S i) Hok1 Hl1 Hz1) as (s2 & h2 & -> & Hl2 & Hok2 & Hc2 & Hw2 & Hr2).
  exists s2, h2. rewrite Nat.add_succ_r. split_and!; [done|lia|done|by eapply changes_trans| |].
  - eapply within_trans; [by destruct Hc1|..]; done.
  - cbn in Hr2. rewrite Hr2, Hr1, <- app_assoc. done.
Qed.

Lemma decode_from_app l1 : forall l2 i s h,
  decode_from int_in_place i (l1 ++ l2) s h =
  let '(s, h) := decode_from int_in_place i l1 s h in decode_from int_in_place (i + length l1) l2 s h.
Proof.
  induction l1 as [|d l1 IH]; intros l2 i s h; cbn [app decode_from length]; [by rewrite Nat.add_0_r|].
  destruct (decode_deposit int_in_place i d s h) as [s1 h1]. rewrite IH. by rewrite Nat.add_succ_r.
Qed.

Lemma same_backing h s s' : backing s = backing s' -> cells_of h s = cells_of h s' /\ footprint h s = footprint h s'.
Proof. intros E. unfold footprint, cells_of. by rewrite E. Qed.

(** The elements that are decoded into an array, seen through the new slice and
    through the old one. *)
Lemma decode_from_ok h s ds :
  slice_ok h s -> ds <> [] ->
  exists s' h', decode_from int_in_place 0 ds s h = (s', h') /\ slice_ok h' s' /\ (length ds <= len s')%nat /\
    changes (footprint h s) h h' /\ within (footprint h s) h (footprint h' s') /\
    within (footprint h s) h (footprint h' s) /\ Forall (fun x => x < fresh h')%nat (footprint h' s) /\
    take (length ds) (read_cell h' <$> cells_of h' s') = sent <$> ds /\
    read_cell h' <$> cells_of h' s =
      take (length (cells_of h s)) ((sent <$> ds) ++ drop (length ds) (read_cell h <$> cells_of h s)).
Proof.
  intros Hok Hne. set (cap := length (cells_of h s)). pose proof (slice_len _ _ Hok) as Hl. fold cap in Hl.
  destruct (decide (length ds <= cap)%nat) as [Hle|Hgt].
  - destruct (decode_in_place ds h s 0 Hok Hle ltac:(lia)) as (s' & h' & E & Hb & Hl' & Hok' & Hc & Hw & Hlen & Hr).
    destruct (same_backing h' s s' (eq_sym Hb)) as [E1 E2]. exists s', h'. rewrite take_0, app_nil_l, Nat.add_0_l in Hr. rewrite E1, E2, Hr.
    split_and!; try done; [lia|by destruct Hok'| |].
    + by rewrite take_app_length' by (by rewrite length_fmap).
    + rewrite take_ge; [done|]. rewrite length_app, length_drop, !length_fmap. unfold cap. lia.
  - assert (Eds : exists d ds2, ds = take cap ds ++ d :: ds2).
    { destruct (drop cap ds) as [|d ds2] eqn:Ed; [apply (f_equal length) in Ed; rewrite length_drop in Ed; cbn in Ed; lia|].
      exists d, ds2. by rewrite <- Ed, take_drop. }
    destruct Eds as (d & ds2 & Eds). set (ds1 := take cap ds) in *.
    assert (Hds1 : length ds1 = cap) by (unfold ds1; rewrite length_take; lia).
    destruct (decode_in_place ds1 h s 0 Hok ltac:(unfold cap in *; lia) ltac:(lia)) as (s1 & h1 & E & Hb & Hl1 & Hok1 & Hc & Hw & Hlen & Hr).
    rewrite take_0, app_nil_l, Nat.add_0_l in Hr. rewrite Nat.add_0_l in Hl1. rewrite Hds1, drop_ge, app_nil_r in Hr by (by rewrite length_fmap).
    destruct (deposit_copied h1 s1 cap d Hok1 ltac:(by rewrite Hlen) ltac:(lia)) as (s2 & h2 & E2 & Hb2 & Hl2 & Hok2 & Hc2 & Hw2 & Hz & Hr2).
    destruct (decode_appended ds2 h2 s2 (S cap) Hok2 Hl2 Hz) as (s3 & h3 & E3 & Hl3 & Hok3 & Hc3 & Hw3 & Hr3).
    assert (C13 : changes [] h1 h3).
    { eapply changes_trans; [done..|]. rewrite Hb2. intros x Hx. right. cbn in Hx. set_solver. }
    destruct (same_backing h1 s s1 (eq_sym Hb)) as [S1 S2].
    destruct (changes_cells [] h1 h3 s C13 ltac:(rewrite S2; by destruct Hok1) ltac:(set_solver)) as (X1 & X2 & X3).
    assert (Elen : length ds = (S cap + length ds2)%nat) by (rewrite Eds, length_app, Hds1; cbn; lia).
    assert (W12 : within (footprint h s) h (footprint h2 s2)) by (eapply within_trans; [apply (changes_fresh _ _ _ Hc)|done..]).
    pose proof (changes_fresh _ _ _ Hc). pose proof (changes_fresh _ _ _ Hc2). pose proof (changes_fresh _ _ _ C13).
    exists s3, h3. split_and!; [|done|lia| | | | | |].
    + rewrite Eds, decode_from_app, E. cbn [decode_from]. rewrite Hds1. cbn [Nat.add]. by rewrite E2.
    + eapply changes_trans; [done..|]. intros x Hx. set_solver.
    + eapply within_trans; [|exact W12|exact Hw3]. lia.
    + by rewrite X2, S2.
    + rewrite X2, S2. eapply Forall_impl; [apply (slice_allocated _ _ Hok1)|]. cbn. lia.
    + rewrite <- fmap_take, Elen, Hr3, Hr2, Hr, Eds, fmap_app, <- app_assoc. done.
    + rewrite X3, S1, Hr. rewrite (take_app_le (sent <$> ds)) by (rewrite length_fmap; lia).
      unfold ds1. by rewrite fmap_take.
Qed.

Lemma decode_deposits_ok h s ds :
  slice_ok h s ->
  exists s' h', decode_deposits int_in_place ds s h = (s', h') /\ slice_ok h' s' /\ changes (footprint h s) h h' /\
    within (footprint h s) h (footprint h' s') /\ within (footprint h s) h (footprint h' s) /\
    Forall (fun x => x < fresh h')%nat (footprint h' s) /\ view h' s' = sent <$> ds /\
    view h' s = take (len s) ((sent <$> ds) ++ drop (length ds) (view h s)).
Proof.
  intros Hok. pose proof (slice_len _ _ Hok) as Hl. destruct ds as [|d ds].
  { exists nil_slice, h. split_and!; try done; try (by left).
    - split; [constructor|constructor|]. cbn. lia.
    - intros x Hx. by apply elem_of_nil in Hx.
    - by destruct Hok.
    - change (view h s = take (len s) (view h s)). rewrite take_ge; [done|]. unfold view. rewrite length_fmap, length_take. lia. }
  destruct (decode_from_ok h s (d :: ds) Hok ltac:(done)) as (s1 & h1 & E & Hok1 & Hl1 & Hc & Hw & Hw' & Ha & Hr & Hr').
  unfold decode_deposits. rewrite E. eexists _, _. split; [done|].
  destruct (same_backing h1 (mkSlice (backing s1) (length (d :: ds))) s1 eq_refl) as [S1 S2]. rewrite S2.
  split_and!; try done.
  - destruct Hok1 as [N F L]. split; [by rewrite S2..|]. rewrite S1. cbn [len]. lia.
  - unfold view. rewrite S1, fmap_take. done.
  - unfold view. rewrite !fmap_take, Hr', take_take, Nat.min_l by done. set (R := read_cell h <$> cells_of h s).
    destruct (decide (len s <= length (d :: ds))%nat).
    + by rewrite !take_app_le by (by rewrite length_fmap).
    + rewrite !take_app_ge by (rewrite length_fmap; lia). f_equal. rewrite length_fmap.
      rewrite skipn_firstn_comm, take_take, Nat.min_id. done.
Qed.

(** *** Parties *)

Definition party_footprint (h : heap) (p : PartyInfo) : list nat := footprint h (PartyDeposits p).
Definition footprints (h : heap) (arr : list PartyInfo) : list nat := mjoin (party_footprint h <$> arr).

(** Parties that share nothing. *)
Record separated (h : heap) (arr : list PartyInfo) : Prop := mkSeparated {
  separated_ok : Forall (fun p => slice_ok h (PartyDeposits p)) arr;
  separated_nodup : NoDup (footprints h arr) }.

(** A party as it is read. *)
Definition read_party (h : heap) (p : PartyInfo) : Z * string * list (string * option Int) :=
  (Id p, PartyAddr p, view h (PartyDeposits p)).
Definition sent_party (p : party_json) : Z * string * list (string * option Int) :=
  (JsonId p, JsonAddr p, sent <$> JsonDeposits p).

(** What is left of the deposits of a party over which others are decoded. *)
Definition decoded_over (old : list (string * option Int)) (p : option party_json) : list (string * option Int) :=
  match p with
  | Some p => take (length old) ((sent <$> JsonDeposits p) ++ drop (length (JsonDeposits p)) old)
  | None => old
  end.

Lemma footprints_cons h p arr : footprints h (p :: arr) = footprint h (PartyDeposits p) ++ footprints h arr.
Proof. done. Qed.

Lemma changes_parties l h h' arr :
  changes l h h' -> Forall (fun p => slice_ok h (PartyDeposits p)) arr -> (forall x, x ∈ footprints h arr -> x ∉ l) ->
  footprints h' arr = footprints h arr /\ Forall (fun p => slice_ok h' (PartyDeposits p)) arr /\
  Forall (fun p => view h' (PartyDeposits p) = view h (PartyDeposits p)) arr.
Proof.
  intros Hc. induction 1 as [|p arr Hp _ IH]; intros Hn; [by split_and!|]. rewrite footprints_cons in Hn.
  destruct IH as (I1 & I2 & I3). { intros x Hx. apply Hn, elem_of_app. by right. }
  destruct (changes_cells l h h' (PartyDeposits p) Hc (slice_allocated _ _ Hp)) as (X1 & X2 & X3).
  { intros x Hx. apply Hn, elem_of_app. by left. }
  rewrite !footprints_cons, X2, I1. split_and!; [done| |].
  - constructor; [|done]. destruct Hp as [N F L]. split; rewrite ?X2, ?X1; [done| |done].
    eapply Forall_impl; [exact F|]. cbn. pose proof (changes_fresh _ _ _ Hc). lia.
  - constructor; [|done]. unfold view. by rewrite !fmap_take, X3.
Qed.

Lemma decode_parties_ok page : forall arr h,
  separated h arr ->
  exists arr' h', decode_parties int_in_place page arr h = (arr', h') /\ separated h' arr' /\
    changes (footprints h arr) h h' /\ within (footprints h arr) h (footprints h' arr') /\
    (length page <= length arr')%nat /\
    read_party h' <$> take (length page) arr' = sent_party <$> page /\
    forall i p, arr !! i = Some p -> view h' (PartyDeposits p) = decoded_over (view h (PartyDeposits p)) (page !! i).
Proof.
  induction page as [|j page IH]; intros arr h Hs.
  { exists arr, h. split_and!; try done; [by left|cbn; lia]. }
  assert (Hcons : exists o t, separated h (o :: t) /\ decode_parties int_in_place (j :: page) arr h =
    decode_parties int_in_place (j :: page) (o :: t) h /\ footprints h (o :: t) = footprints h arr /\
    forall i p, arr !! i = Some p -> (o :: t) !! i = Some p).
  { destruct arr as [|o t]; [|by exists o, t]. exists zero_party, []. split_and!; try done. split; [|constructor].
    constructor; [|constructor]. split; [constructor|constructor|cbn; lia]. }
  destruct Hcons as (o & t & [Ok Nd] & -> & Hfp & Hlook). clear Hs. rewrite <- Hfp. rewrite footprints_cons in Nd |- *.
  apply Forall_cons in Ok as [Oo Ot]. apply NoDup_app in Nd as (No & Ndis & Nt). cbn [decode_parties default head tail].
  unfold decode_party at 1. cbn [id].
  destruct (decode_deposits_ok h (PartyDeposits o) (JsonDeposits j) Oo) as (s1 & h1 & E & Ok1 & C1 & W1 & W1' & A1 & V1 & V1').
  unfold id. rewrite E.
  destruct (changes_parties _ h h1 t C1 Ot ltac:(set_solver)) as (F1 & Ot1 & Vt1).
  destruct (IH t h1 (mkSeparated _ _ Ot1 ltac:(by rewrite F1))) as (t2 & h2 & E2 & [Ok2 Nd2] & C2 & W2 & L2 & R2 & O2).
  rewrite E2. rewrite F1 in C2, W2. set (n := mkParty (JsonId j) (JsonAddr j) s1).
  pose proof (changes_fresh _ _ _ C1) as Fr1.
  assert (At : forall x, x ∈ footprints h t -> (x < fresh h)%nat).
  { intros x (l & Hx & (p & -> & Hp)%list_elem_of_fmap)%list_elem_of_join. rewrite Forall_forall in Ot.
    pose proof (slice_allocated _ _ (Ot p Hp)) as Hf. rewrite Forall_forall in Hf. by apply Hf. }
  assert (Hsep : forall l, within (footprint h (PartyDeposits o)) h l -> forall x, x ∈ l -> x ∉ footprints h t).
  { intros l Hw x Hx Hin. destruct (Hw x Hx) as [H|H]; [by apply (Ndis x)|]. apply At in Hin. lia. }
  destruct (changes_cells _ h1 h2 s1 C2 (slice_allocated _ _ Ok1) (Hsep _ W1)) as (X1 & X2 & X3).
  destruct (changes_cells _ h1 h2 (PartyDeposits o) C2 A1 (Hsep _ W1')) as (Y1 & Y2 & Y3).
  exists (n :: t2), h2. split; [done|]. rewrite footprints_cons. split_and!.
  - split.
    + constructor; [|done]. destruct Ok1 as [N F L]. split; cbn; rewrite ?X2, ?X1; [done| |done].
      eapply Forall_impl; [exact F|]. cbn. pose proof (changes_fresh _ _ _ C2). lia.
    + rewrite footprints_cons. cbn. rewrite X2. apply NoDup_app. split_and!; [by destruct Ok1| |done].
      intros x Hx Hin. destruct (W2 x Hin) as [H|H]; [by apply (Hsep _ W1 x)|].
      pose proof (slice_allocated _ _ Ok1) as Ha. rewrite Forall_forall in Ha. apply Ha in Hx. lia.
  - split; [pose proof (changes_fresh _ _ _ C2); lia|]. intros x Hx Hn.
    rewrite elem_of_app in Hn. destruct (changes_rest _ _ _ C2 x) as [-> ->]; [lia|tauto|].
    apply (changes_rest _ _ _ C1); [done|tauto].
  - intros x. rewrite !elem_of_app. cbn. rewrite X2. intros [H|H].
    + destruct (W1 x H); tauto.
    + destruct (W2 x H); [tauto|right; lia].
  - cbn. lia.
  - cbn [length take fmap list_fmap]. f_equal; [|done]. unfold read_party, sent_party, n. cbn. f_equal.
    unfold view in *. by rewrite fmap_take, X3, <- fmap_take.
  - intros [|i] p Hp%Hlook; cbn in Hp.
    + injection Hp as ->. cbn. unfold view at 1. rewrite fmap_take, Y3, <- fmap_take. fold (view h1 (PartyDeposits p)).
      rewrite V1'. f_equal. unfold view. rewrite length_fmap, length_take. pose proof (slice_len _ _ Oo). lia.
    + rewrite (O2 i p Hp). cbn. f_equal. rewrite Forall_forall in Vt1. apply Vt1. by apply list_elem_of_lookup_2 in Hp.
Qed.

(** ** The parties of all pages *)

Context (parties_page : Z -> res (list party_json)).

(** If the parties fit on one page they are read as the contract sent them. *)
Theorem one_page_read page fuel :
  parties_page 0 = Ok page -> (length page < 80)%nat -> (0 < fuel)%nat ->
  exists partyInfos h, getAllParties int_in_place parties_page fuel = Ok (Some (partyInfos, h)) /\
    read_party h <$> partyInfos = sent_party <$> page.
Proof.
  intros Hp Hl Hf. destruct fuel as [|fuel]; [lia|]. unfold getAllParties. cbn [getParties]. rewrite Hp. cbn [mbind res_bind].
  destruct (decode_parties_ok page [] empty_heap ltac:(split; constructor)) as (arr & h & -> & _ & _ & _ & _ & R & _).
  rewrite (proj2 (Nat.ltb_lt _ _) Hl). eauto.
Qed.

(** With a second page the deposits of the first page's parties are lost: the i-th
    party of the first page is read with the deposits of the i-th party of the
    second one, as far as it has as many. *)
Theorem second_page_overwrites page1 page2 fuel :
  parties_page 0 = Ok page1 -> parties_page 80 = Ok page2 ->
  length page1 = 80%nat -> (length page2 < 80)%nat -> (1 < fuel)%nat ->
  exists partyInfos h, getAllParties int_in_place parties_page fuel = Ok (Some (partyInfos, h)) /\
    read_party h <$> drop 80 partyInfos = sent_party <$> page2 /\
    forall i p, page1 !! i = Some p ->
      exists party, partyInfos !! i = Some party /\ PartyAddr party = JsonAddr p /\
        view h (PartyDeposits party) = decoded_over (sent <$> JsonDeposits p) (page2 !! i).
Proof.
  intros Hp1 Hp2 H1 H2 Hf. destruct fuel as [|[|fuel]]; [lia..|]. unfold getAllParties. cbn [getParties].
  rewrite Hp1. cbn [mbind res_bind].
  destruct (decode_parties_ok page1 [] empty_heap ltac:(split; constructor)) as (arr1 & h1 & -> & S1 & _ & _ & L1 & R1 & _).
  rewrite H1. change (80 <? 80)%nat with false. cbv iota. change (0 + 80) with 80. rewrite Hp2. cbn [mbind res_bind].
  destruct (decode_parties_ok page2 arr1 h1 S1) as (arr2 & h2 & -> & _ & _ & _ & _ & R2 & O2).
  rewrite (proj2 (Nat.ltb_lt _ _) H2). rewrite H1 in *.
  eexists _, _. split; [done|]. rewrite app_nil_l. assert (Ht : length (take 80 arr1) = 80%nat) by (rewrite length_take; lia).
  split; [by rewrite drop_app_length' by done|]. intros i p Hi. apply lookup_lt_Some in Hi as Hlt.
  apply (f_equal (fun l => l !! i)) in R1. rewrite !list_lookup_fmap, Hi in R1. cbn in R1.
  destruct (take 80 arr1 !! i) as [party|] eqn:Ep; [|done]. cbn in R1. exists party. split; [by rewrite lookup_app_l by lia|].
  unfold read_party, sent_party in R1. injection R1 as _ Ha Hv. split; [done|].
  apply lookup_take_Some in Ep as [Ep _]. by rewrite (O2 i party Ep), Hv.
Qed.

End decode_facts.

Section ink_facts.
Context {M : SdkMath} {ML : SdkMathLaws M} {R : GoRange} {RL : GoRangeLaws R}.
Context (getAllVaults : res (list Vault)) (cw20_balance : string -> string -> res Int).

(** The aUST in the vaults of Ink is shared by the deposits: nobody gets a part of
    it twice, and at most one unit for each depositor is lost. *)
Theorem ink_within_locked deposits partyInfos h bl s bl' vaults d1 d2 bl2 locked :
  ink_export getAllVaults cw20_balance deposits partyInfos h bl = Ok (s, bl') ->
  getAllVaults = Ok vaults -> foldM (ink_party h) partyInfos deposits = Ok d1 ->
  foldM ink_vault vaults (d1, bl) = Ok (d2, bl2) -> getTotalAUstLocked cw20_balance vaults = Ok locked ->
  0 <= locked -> map_Forall (fun _ v => 0 <= default 0 v) d2 -> 0 < map_sum d2 ->
  0 <= total s DenomAUST <= locked /\ locked <= total s DenomAUST + Z.of_nat (size d2) /\
  blacklisted bl' InkAUstVault DenomAUST.
Proof.
  unfold ink_export. intros H Hv Hp Hu Hl Hl0 Hpos Hs. rewrite Hv in H. cbn [mbind res_bind] in H.
  rewrite Hp in H. cbn [mbind res_bind] in H. rewrite Hu in H. cbn [mbind res_bind] in H.
  rewrite Hl in H. cbn [mbind res_bind] in H. apply bind_Ok in H as (t & Ht & H). apply Sum_Ok in Ht as ->.
  apply bind_Ok in H as (s1 & H & [= <- <-]).
  apply (credits_total _ (fun e => Z.quot (default 0 e.2 * locked) (map_sum d2)) _ _ _ DenomAUST) in H.
  - change (total ∅ DenomAUST) with 0 in H. rewrite (sumZ_perm _ _ _ (range_perm 160 _ d2)) in H.
    pose proof (map_sum_shares d2 locked (map_sum d2) Hs Hl0 Hpos) as (S0 & S1 & S2). cbv zeta in *.
    assert (E : map_sum ((fun v => Some (Z.quot (default 0 v * locked) (map_sum d2))) <$> d2) = total s1 DenomAUST).
    { rewrite H, Z.add_0_l. unfold map_sum at 1. rewrite map_to_list_fmap, sumZ_fmap. apply sumZ_ext, Forall_true. by intros []. }
    rewrite E in *. split_and!; [lia|nia|nia|]. apply RegisterAddress_blacklisted. by right.
  - clear -ML. intros s e s' H. go_inv. apply split_mul_quo in Hv as (v' & -> & ->).
    rewrite total_insert, held_list_app, held_list_one, String.eqb_refl. unfold held. cbn. lia.
Qed.

End ink_facts.

(** ** An example: eighty parties of one deposit each, and one party more *)

Module InkExample.

Definition page1 : list party_json :=
  replicate 80 (mkPartyJson 1 "party" [("alice", 1000)]).
Definition page2 : list party_json := [mkPartyJson 81 "late" [("mallory", 5)]].

Definition parties_page (start : Z) : res (list party_json) := Ok (if start =? 0 then page1 else page2).

(** Alice's deposit in the first party is read as one of five by Mallory. *)
Lemma second_page_overwrites_witness :
  exists partyInfos h, getAllParties true parties_page 2 = Ok (Some (partyInfos, h)) /\
    exists party, partyInfos !! 0%nat = Some party /\ PartyAddr party = "party" /\
      view h (PartyDeposits party) = [("mallory", Some 5)].
Proof.
  destruct (second_page_overwrites true parties_page page1 page2 2) as (ps & h & H1 & _ & H2);
    [reflexivity..|vm_compute; lia|lia|].
  exists ps, h. split; [exact H1|].
  destruct (H2 0%nat (mkPartyJson 1 "party" [("alice", 1000)]) eq_refl) as (party & E1 & E2 & E3).
  exists party. split; [exact E1|]. split; [exact E2|]. exact E3.
Defined.

End InkExample.
