(* ===== verification/Aperture.v ===== *)
(** * Aperture in the exporter

    Models [src/app/export/aperture].  Five workers take positions from a channel,
    query each, and send the open ones to a second channel, which is read when all
    workers are done.  A run of the workers is a sequence of steps, one worker at a
    time, in any order; a send to a full channel waits.  What is shown holds for
    every order. *)

From Stdlib Require Import ZArith Lia Bool.
From stdpp Require Import base strings list gmap.
From S2P Require Import Prelude Loops Sdk SdkRef Snapshot ExportUtil Derivatives Holdings.
Local Open Scope Z_scope.

(** ** The workers *)

Record BatchItem : Type := mkItem {
  Contract : string; Holder : string; CloseHeight : Z; AUstAmount : option Int; UstAmount : option Int }.

(** A worker waits for a job, sends the items of one, or has returned. *)
Inductive worker_state : Type :=
| Waiting
| Sending (items : list BatchItem)
| Returned.

(** The channel of jobs, which is closed, the workers, and the channel of results. *)
Record pool_state : Type := mkPool {
  jobs : list Z; workers : list worker_state; results : list BatchItem; capacity : nat }.

Section aperture.

(** What the manager answers for a position. *)
Context (batch_items : Z -> res (list BatchItem)).

(** [getApertureOpenPositions]: the open positions of the answer. *)
Definition is_open (item : BatchItem) : bool := CloseHeight item =? 0.
Definition getApertureOpenPositions (positionId : Z) : res (list BatchItem) :=
  items ← batch_items positionId; Ok (List.filter is_open items).

Definition set_worker (w : nat) (s : worker_state) (c : pool_state) : pool_state :=
  mkPool (jobs c) (<[w := s]> (workers c)) (results c) (capacity c).

(** The next step of a worker ([worker]); [None] if it has returned or has to wait.  An
    error of the query ends the program. *)
Definition worker_step (w : nat) (c : pool_state) : option (res pool_state) :=
  match workers c !! w with
  | Some Waiting =>
      match jobs c with
      | [] => Some (Ok (set_worker w Returned c))
      | j :: js => Some (items ← must (getApertureOpenPositions j);
                         Ok (mkPool js (<[w := Sending items]> (workers c)) (results c) (capacity c)))
      end
  | Some (Sending []) => Some (Ok (set_worker w Waiting c))
  | Some (Sending (item :: items)) =>
      if (length (results c) <? capacity c)%nat then
        Some (Ok (mkPool (jobs c) (<[w := Sending items]> (workers c)) (results c ++ [item]) (capacity c)))
      else None
  | _ => None
  end.

(** The pool at the start, with the positions below the last one. *)
Definition positions (lastPosition : Z) : list Z := Z.of_nat <$> seq 0 (Z.to_nat lastPosition).

Definition start_pool (lastPosition : Z) : pool_state :=
  mkPool (positions lastPosition) (replicate 5 Waiting) [] (Z.to_nat lastPosition).

Definition is_returned (s : worker_state) : bool := match s with Returned => true | _ => false end.

(** [wg.Wait()]. *)
Definition all_returned (c : pool_state) : bool := forallb is_returned (workers c).

(** A schedule: which worker takes each step. *)
Fixpoint run_pool (schedule : list nat) (c : pool_state) : option (res pool_state) :=
  match schedule with
  | [] => Some (Ok c)
  | w :: schedule =>
      match worker_step w c with
      | Some (Ok c) => run_pool schedule c
      | o => o
      end
  end.

(** ** The export *)

Section export.
Context {M : SdkMath} {R : GoRange}.

Definition aperture_item (snapshotType : string) (acc : SnapshotBalanceAggregateMap * Blacklist) (item : BatchItem)
    : res (SnapshotBalanceAggregateMap * Blacklist) :=
  if String.eqb snapshotType PreAttack then
    s ← AppendOrAddBalance (Holder item) acc.1 (mkSB DenomAUST (AUstAmount item));
    Ok (s, RegisterAddress DenomAUST (Contract item) acc.2)
  else
    s ← AppendOrAddBalance (Holder item) acc.1 (mkSB DenomUST (UstAmount item));
    Ok (s, RegisterAddress DenomUST (Contract item) acc.2).

(** What [exportApertureVaults] does with the results when all workers are done. *)
Definition aperture_collect (snapshotType : string) (items : list BatchItem) (bl : Blacklist)
    : res (SnapshotBalanceAggregateMap * Blacklist) :=
  foldM (aperture_item snapshotType) items (∅, bl).

(** [exportApertureVaults] for a schedule of the workers; [None] if the schedule is
    not one of a run that ends. *)
Definition exportApertureVaults (getApertureLastPositionId : res Z) (snapshotType : string) (schedule : list nat)
    (bl : Blacklist) : option (res (SnapshotBalanceAggregateMap * Blacklist)) :=
  match getApertureLastPositionId with
  | Err e => Some (Err e)
  | Panic => Some Panic
  | Ok lastPosition =>
      if (lastPosition <? 0) || (two63 <=? lastPosition) then Some Panic
      else match run_pool schedule (start_pool lastPosition) with
           | Some (Ok c) => if all_returned c then Some (aperture_collect snapshotType (results c) bl) else None
           | Some (Err e) => Some (Err e)
           | Some Panic => Some Panic
           | None => None
           end
  end.

Definition ExportApertureVaultsPreAttack (getApertureLastPositionId : res Z) :=
  exportApertureVaults getApertureLastPositionId PreAttack.
Definition ExportApertureVaultsPostAttack (getApertureLastPositionId : res Z) :=
  exportApertureVaults getApertureLastPositionId PostAttack.

End export.

(** ** Theorems *)

(** *** The pool *)

(** The items of a position, and those of a worker that are still to be sent. *)
Definition position_items (j : Z) : list BatchItem :=
  match getApertureOpenPositions j with
  | Ok items => items
  | _ => []
  end.

Definition pending (s : worker_state) : list BatchItem :=
  match s with
  | Sending items => items
  | _ => []
  end.

Definition all_items (js : list Z) : list BatchItem := mjoin (position_items <$> js).

(** All that will have been sent in the end. *)
Definition in_flight (c : pool_state) : list BatchItem :=
  results c ++ mjoin (pending <$> workers c) ++ all_items (jobs c).

Lemma replace_pending ws w s s' :
  ws !! w = Some s -> exists l1 l2, mjoin (pending <$> ws) = l1 ++ pending s ++ l2 /\
    mjoin (pending <$> <[w := s']> ws) = l1 ++ pending s' ++ l2.
Proof.
  intros Hw. exists (mjoin (pending <$> take w ws)), (mjoin (pending <$> drop (S w) ws)). split.
  - rewrite <- (take_drop_middle _ _ _ Hw) at 1. by rewrite fmap_app, join_app.
  - rewrite insert_take_drop by (by eapply lookup_lt_Some). by rewrite fmap_app, join_app.
Qed.

(** No step loses or repeats an item. *)
Lemma step_in_flight w c c' : worker_step w c = Some (Ok c') -> in_flight c' ≡ₚ in_flight c.
Proof.
  unfold worker_step, in_flight. intros H. destruct (workers c !! w) as [s|] eqn:Ew; [|done].
  destruct s as [|[|item items]|]; [destruct (jobs c) as [|j js] eqn:Ej| | |done].
  - injection H as <-. destruct (replace_pending _ _ _ Returned Ew) as (l1 & l2 & E1 & E2).
    cbn. by rewrite E1, E2, Ej.
  - injection H as H. apply bind_Ok in H as (items & Hi & [= <-]). rewrite must_Ok in Hi.
    destruct (replace_pending _ _ _ (Sending items) Ew) as (l1 & l2 & E1 & E2). cbn. rewrite E1, E2. cbn.
    unfold all_items. cbn. unfold position_items at 2. rewrite Hi. solve_Permutation.
  - injection H as <-. destruct (replace_pending _ _ _ Waiting Ew) as (l1 & l2 & E1 & E2). cbn. by rewrite E1, E2.
  - destruct (_ <? _)%nat; [|done]. injection H as <-.
    destruct (replace_pending _ _ _ (Sending items) Ew) as (l1 & l2 & E1 & E2). cbn. rewrite E1, E2. cbn. solve_Permutation.
Qed.

Lemma run_in_flight schedule : forall c c', run_pool schedule c = Some (Ok c') -> in_flight c' ≡ₚ in_flight c.
Proof.
  induction schedule as [|w schedule IH]; intros c c' H; cbn in H; [by injection H as <-|].
  destruct (worker_step w c) as [[c1| |]|] eqn:E; try done. rewrite (IH _ _ H). by eapply step_in_flight.
Qed.

(** *** Runs *)

(** The number of steps that are left. *)
Definition worker_work (s : worker_state) : nat :=
  match s with
  | Waiting => 1
  | Sending items => 2 + length items
  | Returned => 0
  end.

Definition job_work (j : Z) : nat := 2 + length (position_items j).
Definition work (c : pool_state) : nat := sum_list_with worker_work (workers c) + sum_list_with job_work (jobs c).

Lemma replace_work ws w s s' :
  ws !! w = Some s ->
  exists n, sum_list_with worker_work ws = (n + worker_work s)%nat /\
    sum_list_with worker_work (<[w := s']> ws) = (n + worker_work s')%nat.
Proof.
  intros Hw. exists (sum_list_with worker_work (take w ws) + sum_list_with worker_work (drop (S w) ws))%nat. split.
  - rewrite <- (take_drop_middle _ _ _ Hw) at 1. rewrite sum_list_with_app. cbn. lia.
  - rewrite insert_take_drop by (by eapply lookup_lt_Some). rewrite sum_list_with_app. cbn. lia.
Qed.

Lemma step_work w c c' : worker_step w c = Some (Ok c') -> work c = S (work c').
Proof.
  unfold worker_step, work. intros H. destruct (workers c !! w) as [s|] eqn:Ew; [|done].
  destruct s as [|[|item items]|]; [destruct (jobs c) as [|j js] eqn:Ej| | |done].
  - injection H as <-. destruct (replace_work _ _ _ Returned Ew) as (n & E1 & E2). cbn in *. rewrite E1, E2, Ej. cbn. lia.
  - injection H as H. apply bind_Ok in H as (items & Hi & [= <-]). rewrite must_Ok in Hi.
    destruct (replace_work _ _ _ (Sending items) Ew) as (n & E1 & E2).
    assert (Hj : job_work j = (2 + length items)%nat) by (unfold job_work, position_items; by rewrite Hi).
    cbn [sum_list_with worker_work workers jobs] in *. rewrite E1, E2, Hj. lia.
  - injection H as <-. destruct (replace_work _ _ _ Waiting Ew) as (n & E1 & E2). cbn in *. rewrite E1, E2. lia.
  - destruct (_ <? _)%nat; [|done]. injection H as <-.
    destruct (replace_work _ _ _ (Sending items) Ew) as (n & E1 & E2). cbn in *. rewrite E1, E2. lia.
Qed.

(** In every state: a worker only returns when there are no jobs left, the channel has
    the room it was made with, and all workers are there. *)
Definition pool_ok (n : nat) (c : pool_state) : Prop :=
  (Returned ∈ workers c -> jobs c = []) /\ capacity c = n /\ length (workers c) = 5%nat.

Lemma step_pool_ok n w c c' : worker_step w c = Some (Ok c') -> pool_ok n c -> pool_ok n c'.
Proof.
  unfold worker_step, pool_ok. intros H (Hr & Hc & Hl). destruct (workers c !! w) as [s|] eqn:Ew; [|done].
  assert (Hin : forall s', Returned ∈ <[w := s']> (workers c) -> s' <> Returned -> Returned ∈ workers c).
  { intros s' Hin Hne. apply list_elem_of_lookup in Hin as [i Hi]. destruct (decide (w = i)) as [<-|].
    - apply lookup_lt_Some in Ew. rewrite list_lookup_insert_eq in Hi by done. by injection Hi.
    - rewrite list_lookup_insert_ne in Hi by done. by apply list_elem_of_lookup_2 in Hi. }
  destruct s as [|[|item items]|]; [destruct (jobs c) as [|j js] eqn:Ej| | |done].
  - injection H as <-. cbn. by rewrite length_insert.
  - injection H as H. apply bind_Ok in H as (items & _ & [= <-]). cbn. rewrite length_insert. split; [|done].
    intros Hx. by apply Hin, Hr in Hx.
  - injection H as <-. cbn. rewrite length_insert. split; [|done]. intros Hx. by apply Hin, Hr in Hx.
  - destruct (_ <? _)%nat; [|done]. injection H as <-. cbn. rewrite length_insert. split; [|done].
    intros Hx. by apply Hin, Hr in Hx.
Qed.

(** A run keeps the invariant, and takes one step of the work for each entry of its
    schedule. *)
Lemma run_ok n schedule : forall c c',
  run_pool schedule c = Some (Ok c') -> pool_ok n c -> pool_ok n c' /\ work c = (length schedule + work c')%nat.
Proof.
  induction schedule as [|w schedule IH]; intros c c' H Hok; cbn in H; [by injection H as <-|].
  destruct (worker_step w c) as [[c1| |]|] eqn:E; try done.
  destruct (IH _ _ H ltac:(by eapply step_pool_ok)) as [H1 H2]. split; [done|]. apply step_work in E. cbn. lia.
Qed.

Lemma run_app s1 : forall s2 c c1, run_pool s1 c = Some (Ok c1) -> run_pool (s1 ++ s2) c = run_pool s2 c1.
Proof.
  induction s1 as [|w s1 IH]; intros s2 c c1 H; cbn in *; [by injection H as <-|].
  destruct (worker_step w c) as [[c2| |]|]; try done. by apply IH.
Qed.

Lemma start_ok last : pool_ok (Z.to_nat last) (start_pool last).
Proof. split_and!; [|done|done]. cbn. set_solver. Qed.

(** What a run that ends has sent: the open items of all positions, in some order. *)
Lemma run_results last schedule c :
  run_pool schedule (start_pool last) = Some (Ok c) -> all_returned c = true ->
  results c ≡ₚ all_items (positions last).
Proof.
  intros H Hr. destruct (run_ok _ _ _ _ H (start_ok last)) as [(Hj & _ & Hl) _]. apply run_in_flight in H.
  unfold in_flight in H. cbn in H. rewrite <- H. clear H. unfold all_returned in Hr. rewrite forallb_forall in Hr.
  assert (Hall : Forall (fun s => s = Returned) (workers c)).
  { apply Forall_forall. intros s Hs. specialize (Hr s ltac:(by apply list_elem_of_In)). by destruct s. }
  rewrite Hj.
  - replace (mjoin (pending <$> workers c)) with (@nil BatchItem); [by rewrite !app_nil_r|].
    clear -Hall. by induction Hall as [|s l -> _ IH].
  - destruct (workers c) as [|s l]; [done|]. apply Forall_cons in Hall as [-> _]. by constructor.
Qed.

(** If there is room for all items, a worker that has not returned can go on or
    another one can. *)
Lemma pool_progress n c :
  pool_ok n c -> (length (in_flight c) <= n)%nat -> Forall (fun j => exists items, batch_items j = Ok items) (jobs c) ->
  all_returned c = false -> exists w c', worker_step w c = Some (Ok c').
Proof.
  intros (Hr & Hc & Hl) Hroom Hq Hn.
  assert (Hw : exists w s, workers c !! w = Some s /\ s <> Returned).
  { unfold all_returned in Hn. clear -Hn. induction (workers c) as [|s l IH]; [done|]. cbn in Hn.
    destruct s; [by exists 0%nat, Waiting|by exists 0%nat, (Sending items)|].
    destruct (IH Hn) as (w & s & H1 & H2). by exists (S w), s. }
  destruct Hw as (w & s & Ew & Hs). exists w. unfold worker_step. rewrite Ew.
  destruct s as [|[|item items]|]; [|eauto| |done].
  - destruct (jobs c) as [|j js]; [eauto|]. apply Forall_cons in Hq as [[items Hq] _].
    unfold getApertureOpenPositions. rewrite Hq. cbn. eauto.
  - destruct (replace_pending _ _ _ Waiting Ew) as (l1 & l2 & E1 & _). unfold in_flight in Hroom.
    rewrite E1, !length_app in Hroom. cbn in Hroom. rewrite (proj2 (Nat.ltb_lt _ _)) by lia. eauto.
Qed.

Lemma jobs_shrink w c c' : worker_step w c = Some (Ok c') -> forall j, j ∈ jobs c' -> j ∈ jobs c.
Proof.
  unfold worker_step. intros H. destruct (workers c !! w) as [s|]; [|done].
  destruct s as [|[|item items]|]; [destruct (jobs c) as [|j' js] eqn:Ej| | |done].
  - injection H as <-. cbn. by rewrite Ej.
  - injection H as H. apply bind_Ok in H as (items & _ & [= <-]). cbn. set_solver.
  - by injection H as <-.
  - destruct (_ <? _)%nat; [|done]. by injection H as <-.
Qed.

Lemma pool_completes n k : forall c,
  work c = k -> pool_ok n c -> (length (in_flight c) <= n)%nat ->
  Forall (fun j => exists items, batch_items j = Ok items) (jobs c) ->
  exists schedule c', run_pool schedule c = Some (Ok c') /\ all_returned c' = true.
Proof.
  induction k as [|k IH]; intros c Hk Hok Hroom Hq.
  - exists [], c. split; [done|]. destruct (all_returned c) eqn:Hn; [done|].
    destruct (pool_progress n c Hok Hroom Hq Hn) as (w & c' & H). apply step_work in H. lia.
  - destruct (all_returned c) eqn:Hn; [by exists [], c|].
    destruct (pool_progress n c Hok Hroom Hq Hn) as (w & c' & H). pose proof (step_work _ _ _ H).
    destruct (IH c' ltac:(lia) ltac:(by eapply step_pool_ok)) as (schedule & c2 & H1 & H2).
    + by rewrite (step_in_flight _ _ _ H).
    + apply Forall_forall. intros j Hj. rewrite Forall_forall in Hq. apply Hq. by eapply jobs_shrink.
    + exists (w :: schedule), c2. split; [|done]. cbn. by rewrite H.
Qed.

(** *** The export *)

(** C34. The workers do not deadlock and do not run for ever: if every position can be
    queried and there are not more open items than positions, every run that has been
    started can be ended, and no run is longer than the work of the start. *)
Theorem aperture_completes last schedule c :
  0 <= last < two63 -> Forall (fun j => exists items, batch_items j = Ok items) (positions last) ->
  (length (all_items (positions last)) <= Z.to_nat last)%nat ->
  run_pool schedule (start_pool last) = Some (Ok c) ->
  (length schedule <= work (start_pool last))%nat /\
  exists schedule' c', run_pool (schedule ++ schedule') (start_pool last) = Some (Ok c') /\ all_returned c' = true.
Proof.
  intros _ Hq Hroom H. destruct (run_ok _ _ _ _ H (start_ok last)) as [Hok Hw]. split; [lia|].
  assert (Hjobs : forall s c0 c1, run_pool s c0 = Some (Ok c1) -> forall j, j ∈ jobs c1 -> j ∈ jobs c0).
  { clear. induction s as [|w s IH]; intros c0 c1 H j Hj; cbn in H; [by injection H as <-|].
    destruct (worker_step w c0) as [[c2| |]|] eqn:E; try done. eapply jobs_shrink; [done|]. by eapply IH. }
  destruct (pool_completes _ _ c eq_refl Hok) as (s' & c' & H1 & H2).
  - rewrite (run_in_flight _ _ _ H). unfold in_flight. cbn. done.
  - apply Forall_forall. intros j Hj. rewrite Forall_forall in Hq. apply Hq. by apply (Hjobs _ _ _ H).
  - exists s', c'. split; [|done]. by rewrite (run_app _ _ _ _ H).
Qed.

Section export_facts.
Context {M : SdkMath} {ML : SdkMathLaws M} {R : GoRange}.

(** What an item is worth. *)
Definition item_value (snapshotType : string) (d : string) (item : BatchItem) : Z :=
  if String.eqb snapshotType PreAttack then if String.eqb DenomAUST d then default 0 (AUstAmount item) else 0
  else if String.eqb DenomUST d then default 0 (UstAmount item) else 0.

Definition item_denom (snapshotType : string) : string :=
  if String.eqb snapshotType PreAttack then DenomAUST else DenomUST.

Lemma aperture_item_Ok t acc item acc' :
  aperture_item t acc item = Ok acc' ->
  acc'.2 = RegisterAddress (item_denom t) (Contract item) acc.2 /\
  forall a d, held acc'.1 a d = held acc.1 a d + (if String.eqb (Holder item) a then item_value t d item else 0).
Proof.
  unfold aperture_item, item_value, item_denom. intros H. destruct (String.eqb t PreAttack); go_inv; (split; [done|]);
    intros a d; cbn; rewrite (AppendOrAddBalance_held _ _ _ _ a d Hv), held_list_one; done.
Qed.

(** C22. Whatever the order in which the workers take, query and send, the export gives
    every holder all their open positions, and blacklists exactly the contracts of
    these. *)
Theorem aperture_any_order last t schedule bl s bl' :
  exportApertureVaults (Ok last) t schedule bl = Some (Ok (s, bl')) ->
  (forall a d, held s a d =
    sumZ (fun item => if String.eqb (Holder item) a then item_value t d item else 0) (all_items (positions last))) /\
  (forall a d, blacklisted bl' a d <->
    blacklisted bl a d \/ (d = item_denom t /\ a ∈ Contract <$> all_items (positions last))).
Proof.
  unfold exportApertureVaults. intros H. destruct (_ || _); [done|].
  destruct (run_pool schedule (start_pool last)) as [[c| |]|] eqn:E; try done.
  destruct (all_returned c) eqn:Er; [|done]. injection H as H. pose proof (run_results _ _ _ E Er) as Hp. clear E Er.
  assert (Hb : forall l acc acc', foldM (aperture_item t) l acc = Ok acc' -> forall a d, blacklisted acc'.2 a d <->
    blacklisted acc.2 a d \/ (d = item_denom t /\ a ∈ Contract <$> l)).
  { clear -ML. induction l as [|i l IH]; intros acc acc' H a d; cbn in H; go_inv; [set_solver|].
    rewrite (IH _ _ H). apply aperture_item_Ok in Hv as [-> _]. rewrite RegisterAddress_blacklisted.
    rewrite fmap_cons, elem_of_cons. naive_solver. }
  split; intros a d.
  - rewrite <- (sumZ_perm _ _ _ Hp).
    apply (foldM_sum (fun acc => held acc.1 a d) (fun item => if String.eqb (Holder item) a then item_value t d item else 0)) in H;
      [exact H|]. intros. by apply aperture_item_Ok.
  - rewrite (Hb _ _ _ H a d). cbn. by rewrite Hp.
Qed.

End export_facts.

End aperture.

(** ** An example: two positions, the second with a closed item *)

Module ApertureExample.

Definition batch_items (j : Z) : res (list BatchItem) :=
  Ok (if j =? 0 then [mkItem "c0" "alice" 0 (Some 70) (Some 80)]
      else [mkItem "c1" "bob" 0 (Some 5) (Some 6); mkItem "c2" "bob" 1234 (Some 9) (Some 9)]).

(** The second worker sends before the first one. *)
Definition schedule1 : list nat := [0; 1; 1; 0; 0; 1; 0; 1; 2; 3; 4]%nat.

Definition run (schedule : list nat) : option (res (SnapshotBalanceAggregateMap * Blacklist)) :=
  exportApertureVaults batch_items (M:=ref_math) (Ok 2) PreAttack schedule ∅.

Definition snapshot1 : SnapshotBalanceAggregateMap * Blacklist :=
  match run schedule1 with
  | Some (Ok r) => r
  | _ => (∅, ∅)
  end.

Lemma run1_eq : run schedule1 = Some (Ok (snapshot1.1, snapshot1.2)).
Proof. vm_compute. reflexivity. Qed.

Lemma aperture_any_order_witness : held snapshot1.1 "bob" DenomAUST = 5 /\ blacklisted snapshot1.2 "c1" DenomAUST.
Proof.
  destruct (aperture_any_order (M:=ref_math) (ML:=ref_math_laws) batch_items 2 PreAttack schedule1 ∅
    snapshot1.1 snapshot1.2 run1_eq) as [H1 H2]. split.
  - rewrite H1. reflexivity.
  - apply H2. right. split; [reflexivity|]. apply (bool_decide_unpack _). vm_compute. exact I.
Defined.

Lemma aperture_completes_witness :
  exists schedule' c', run_pool batch_items ([0; 1; 1]%nat ++ schedule') (start_pool 2) = Some (Ok c') /\
    all_returned c' = true.
Proof.
  destruct (run_pool batch_items [0; 1; 1]%nat (start_pool 2)) as [[c| |]|] eqn:E; [|discriminate E..].
  apply (aperture_completes batch_items 2 [0; 1; 1]%nat c).
  - split; [lia|reflexivity].
  - repeat constructor; eexists; reflexivity.
  - vm_compute. lia.
  - exact E.
Defined.

End ApertureExample.
