(* ===== verification/Generic.v ===== *)
(** * Contracts and native balances in the exporter

    Models [src/app/export/generic] (vesting contracts, the split of the CW3
    wallets, the owners of known contracts) and [src/app/export/native] (staked
    and liquid balances).  The staking keeper's records, the answers of contracts
    and the texts that decode are arguments. *)

From Stdlib Require Import ZArith Lia Bool Ascii.
From stdpp Require Import base strings list gmap.
From S2P Require Import Prelude Loops Sdk SdkRef Snapshot ExportUtil.
Local Open Scope Z_scope.

(** [wasmtypes.ContractInfo]; the init message is a text. *)
Module Contract.
Record ContractInfo : Type := mkContractInfo {
  Address : string; Creator : string; Admin : string; CodeID : Z; InitMsg : string }.
End Contract.
Export Contract.

Abbreviation ContractsMap := (gmap string ContractInfo) (only parsing).

(** [IterateAllContracts]. *)
Definition IterateAllContracts (infos : list ContractInfo) (contractsInfo : ContractsMap) : ContractsMap :=
  foldl (fun m info => <[Address info := info]> m) contractsInfo infos.

(** ** Vesting contracts *)

Record SingleVestingInfo : Type := mkVestingInfo {
  OwnerAddress : AccAddress; Cw20 : AccAddress; NativeDenom : string;
  VestingAmount : option Int; VestedAmount : option Int }.

Definition PrefixVestingInfo : string := "vesting_info".

Definition coalesceToBalanceDenom (assetName : string) : option string :=
  if String.eqb assetName "uusd" then Some DenomUST
  else if String.eqb assetName "uluna" then Some DenomLUNA
  else if String.eqb assetName AddressBLUNA then Some DenomBLUNA
  else if String.eqb assetName AddressSTLUNA then Some DenomSTLUNA
  else if String.eqb assetName AddressCLUNA then Some DenomCLUNA
  else if String.eqb assetName AddressPLUNA then Some DenomPLUNA
  else if String.eqb assetName AddressNLUNA then Some DenomNLUNA
  else if String.eqb assetName AddressSTEAK then Some DenomSTEAK
  else if String.eqb assetName AddressLUNAX then Some DenomLUNAX
  else None.

Section generic.
Context {M : SdkMath} {R : GoRange} {A : Bech32}.
Context (contract_store : AccAddress -> list (string * string)).

Definition nint_sub (a b : option Int) : res (option Int) :=
  match a, b with
  | Some x, Some y => z ← int_sub x y; Ok (Some z)
  | _, _ => Panic
  end.

(** What the query of a contract's vesting leaves in the variable. *)
Context (vesting_info : string -> SingleVestingInfo).

(** An address that does not decode is empty: the error is dropped. *)
Definition decode_or_empty (addr : string) : AccAddress :=
  match AccAddressFromBech32 addr with
  | Ok a => a
  | _ => EmptyString
  end.

(** [checkIfVesting]: the first entry of the namespace makes the query. *)
Definition checkIfVesting (contractAddr : string) : option SingleVestingInfo :=
  let addr := decode_or_empty contractAddr in
  match iterate_with_prefix (contract_store addr) PrefixVestingInfo with
  | [] => None
  | _ :: _ =>
      let singleVesting := vesting_info (AccAddressString addr) in
      if negb (is_nil (VestingAmount singleVesting)) then Some singleVesting else None
  end.

(** [handleSingleVesting]. *)
Definition handleSingleVesting (vestingInfo : SingleVestingInfo) : res SnapshotBalanceAggregateMap :=
  amount ← nint_sub (VestingAmount vestingInfo) (VestedAmount vestingInfo);
  let denom := if negb (String.eqb (NativeDenom vestingInfo) "") then NativeDenom vestingInfo
               else AccAddressString (Cw20 vestingInfo) in
  Ok (match coalesceToBalanceDenom denom with
      | None => ∅
      | Some utilDenom => {[AccAddressString (OwnerAddress vestingInfo) := [mkSB utilDenom amount]]}
      end).

(** [vesting.ExportVestingContracts]. *)
Definition vesting_contract (finalBalance : SnapshotBalanceAggregateMap) (e : string * ContractInfo)
    : res SnapshotBalanceAggregateMap :=
  match checkIfVesting e.1 with
  | None => Ok finalBalance
  | Some vesting =>
      vestingResult ← handleSingleVesting vesting;
      MergeSnapshots [finalBalance; vestingResult]
  end.

Definition vesting_ExportVestingContracts (contractsMap : ContractsMap) : res SnapshotBalanceAggregateMap :=
  foldM vesting_contract (range 60 contractsMap) ∅.

(** [generic.ExportVestingContracts]. *)
Definition ExportVestingContracts (infos : list ContractInfo)
    : res (SnapshotBalanceAggregateMap * ContractsMap) :=
  let contractsMap := IterateAllContracts infos ∅ in
  vestingBalance ← must (vesting_ExportVestingContracts contractsMap);
  snapshot ← foldM merge_entry (range 61 vestingBalance) ∅;
  Ok (snapshot, contractsMap).

(** ** CW3 wallets *)

Record Voter : Type := mkVoter { VoterAddress : string; Weight : Z }.

Context {B : Type} {BK : BankKeeper B} {CO : SdkCoins}.
(** The voters of an init message, when the text decodes. *)
Context (decode_voters : string -> option (list Voter)).
(** The aUST balance of a holder; the error of the query is dropped. *)
Context (aust_balance : string -> Int).

(** [NewDecFromInt(balance).Mul(w).Quo(tw).TruncateInt()]. *)
Definition voter_share (balance : Int) (w tw : Dec) : res Int :=
  x ← dec_mul (NewDec balance) w;
  y ← dec_quo x tw;
  dec_truncate_int y.

Definition pay_voter (balances : list (string * Int)) (tw : Dec) (snapshot : SnapshotBalanceAggregateMap)
    (voter : Voter) : res SnapshotBalanceAggregateMap :=
  let w := NewDec (Weight voter) in
  foldM (fun s e =>
    share ← voter_share e.2 w tw;
    AppendOrAddBalance (VoterAddress voter) s (mkSB e.1 (Some share))) balances snapshot.

Record cw3_state : Type := mkCw3 {
  cw3_snapshot : SnapshotBalanceAggregateMap; cw3_blacklist : Blacklist;
  contractBalanceMap : gmap string (list (string * Int)) }.

Definition register_cw3 (addr : string) (bl : Blacklist) : Blacklist :=
  RegisterAddress DenomAUST addr (RegisterAddress DenomLUNA addr (RegisterAddress DenomUST addr bl)).

Definition cw3_balances (bank : B) (addr : string) : list (string * Int) :=
  let nativeBalance := get_all_balances bank (decode_or_empty addr) in
  [(DenomUST, coins_amount_of nativeBalance "uusd"); (DenomLUNA, coins_amount_of nativeBalance "uluna");
   (DenomAUST, aust_balance addr)].

Definition totalWeight (voters : list Voter) : Z :=
  foldl (fun w voter => to_int64 (w + Weight voter)) 0 voters.

Definition split_cw3 (bank : B) (acc : cw3_state) (e : string * ContractInfo) : res cw3_state :=
  match decode_voters (InitMsg e.2) with
  | None => Ok acc
  | Some [] => Ok acc
  | Some voters =>
      let balances := cw3_balances bank e.1 in
      snapshot ← foldM (pay_voter balances (NewDec (totalWeight voters))) voters (cw3_snapshot acc);
      Ok (mkCw3 snapshot (register_cw3 e.1 (cw3_blacklist acc)) (<[e.1 := balances]> (contractBalanceMap acc)))
  end.

(** Subtracting what the voters got; a negative rest is only logged. *)
Definition find_balance (balances : list (string * Int)) (denom : string) : option Int :=
  snd <$> List.find (fun e => String.eqb e.1 denom) balances.

Fixpoint subtract_list (balances : list (string * Int)) (l : list SnapshotBalance)
    : res (list SnapshotBalance) :=
  match l with
  | [] => Ok []
  | sbs :: l' =>
      sbs' ← (match find_balance balances (Denom sbs) with
              | None => Ok sbs
              | Some b => remaining ← nint_sub (Balance sbs) (Some b); Ok (mkSB (Denom sbs) remaining)
              end);
      l'' ← subtract_list balances l';
      Ok (sbs' :: l'')
  end.

Definition subtract_contract (snapshot : SnapshotBalanceAggregateMap) (e : string * list (string * Int))
    : res SnapshotBalanceAggregateMap :=
  match snapshot !! e.1 with
  | None => Ok snapshot
  | Some l => l' ← subtract_list e.2 l; Ok (<[e.1 := l']> snapshot)
  end.

(** [mapKnownContracts], on the lines of the file.  An address that does not
    decode leaves the variable as the line before left it. *)
Fixpoint split_comma (s : string) : string * option string :=
  match s with
  | EmptyString => (EmptyString, None)
  | String c s' =>
      if Ascii.eqb c ","%char then (EmptyString, Some s')
      else let '(h, t) := split_comma s' in (String c h, t)
  end.

Record known_state : Type := mkKnown { cAdd : string; rAdd : string; known_snapshot : SnapshotBalanceAggregateMap }.

Definition read_address (text previous : string) : string :=
  match AccAddressFromBech32 text with
  | Ok add => AccAddressString add
  | _ => previous
  end.

Definition map_line (acc : known_state) (line : string) : res known_state :=
  match split_comma line with
  | (_, None) => Panic
  | (first, Some rest) =>
      let c := read_address first (cAdd acc) in
      let r := read_address (split_comma rest).1 (rAdd acc) in
      s ← foldM (AppendOrAddBalance r) (balances_of (known_snapshot acc) c) (known_snapshot acc);
      Ok (mkKnown c r (delete c s))
  end.

Definition mapKnownContracts (lines : list string) (snapshot : SnapshotBalanceAggregateMap)
    : res SnapshotBalanceAggregateMap :=
  acc ← foldM map_line lines (mkKnown "" "" snapshot);
  Ok (known_snapshot acc).

(** [ExportCW3]. *)
Definition ExportCW3 (bank : B) (lines : list string) (contractsMap : ContractsMap)
    (snapshot : SnapshotBalanceAggregateMap) (bl : Blacklist)
    : res (SnapshotBalanceAggregateMap * Blacklist) :=
  acc ← foldM (split_cw3 bank) (range 62 contractsMap) (mkCw3 snapshot bl ∅);
  s ← foldM subtract_contract (range 63 (contractBalanceMap acc)) (cw3_snapshot acc);
  s ← mapKnownContracts lines s;
  Ok (s, cw3_blacklist acc).

(** [HandleContractBalances]. *)
Definition HandleContractBalances (bank : B) (lines : list string) (contractsMap : ContractsMap)
    (snapshot : SnapshotBalanceAggregateMap) (bl : Blacklist)
    : res (SnapshotBalanceAggregateMap * Blacklist) :=
  s ← MergeSnapshots [∅; snapshot];
  '(s, bl) ← must (ExportCW3 bank lines contractsMap s bl);
  s ← ApplyBlackList s bl;
  Ok (s, bl).

(** ** Native balances *)

(** [GetAllContracts]. *)
Definition GetAllContracts (infos : list ContractInfo) : gmap string bool :=
  foldl (fun m ci => <[Address ci := true]> m) ∅ infos.

(** [SplitContractBalances]. *)
Definition SplitContractBalances (contracts : ContractsMap) (snapshot : SnapshotBalanceAggregateMap)
    : SnapshotBalanceAggregateMap * SnapshotBalanceAggregateMap :=
  let contractAdds := foldl (fun m e => <[e.1 := true]> m) (∅ : gmap string bool) (range 64 contracts) in
  foldl (fun acc e =>
    if default false (contractAdds !! e.1) then (acc.1, <[e.1 := e.2]> acc.2)
    else (<[e.1 := e.2]> acc.1, acc.2)) (∅, ∅) (range 65 snapshot).


(** The records of the staking keeper, in the order it iterates over them. *)
Record UnbondingDelegation : Type := mkUnbonding { UnbondingDelegator : string; Entries : list Int }.
Record Delegation : Type := mkDelegation { DelegatorAddress : string; ValidatorAddress : string; Shares : Dec }.

Context {V : Type} (OperatorAddress : V -> string) (TokensFromShares : V -> Dec -> res Dec).

(** [ExportAllBondedLuna]. *)
Definition add_unbonding_entries (s : SnapshotBalanceAggregateMap) (ubd : UnbondingDelegation)
    : res SnapshotBalanceAggregateMap :=
  if String.eqb AddressBLUNAHub (UnbondingDelegator ubd) then Ok s
  else foldM (fun s entry => AppendOrAddBalance (UnbondingDelegator ubd) s (mkSB DenomLUNA (Some entry)))
         (Entries ubd) s.

Definition add_delegation (valMap : gmap string V) (s : SnapshotBalanceAggregateMap) (del : Delegation)
    : res SnapshotBalanceAggregateMap :=
  if String.eqb AddressBLUNAHub (DelegatorAddress del) then Ok s
  else match valMap !! ValidatorAddress del with
       | None => Ok s
       | Some v =>
           tokens ← TokensFromShares v (Shares del);
           t ← dec_truncate_int tokens;
           AppendOrAddBalance (DelegatorAddress del) s (mkSB DenomLUNA (Some t))
       end.

Definition ExportAllBondedLuna (validators : list V) (unbondings : list UnbondingDelegation)
    (delegations : list Delegation) (bl : Blacklist) : res (SnapshotBalanceAggregateMap * Blacklist) :=
  let bl := RegisterAddress DenomLUNA "terra1fl48vsnmsdzcv85q5d2q4z5ajdha8yu3nln0mh" bl in
  let bl := RegisterAddress DenomLUNA "terra1tygms3xhhs3yv487phx3dw4a95jn7t7l8l07dr" bl in
  let valMap := foldl (fun m v => <[OperatorAddress v := v]> m) ∅ validators in
  s ← foldM add_unbonding_entries unbondings ∅;
  s ← foldM (add_delegation valMap) delegations s;
  Ok (s, bl).

(** [ExportAllNativeBalances], on the balances the bank iterates over. *)
Definition add_native (s : SnapshotBalanceAggregateMap) (e : AccAddress * Coin) : res SnapshotBalanceAggregateMap :=
  let '(addr, coin) := e in
  if negb (coin_amount coin =? 0) &&
     (String.eqb (coin_denom coin) DenomUST || String.eqb (coin_denom coin) DenomLUNA)
  then AppendOrAddBalance (AccAddressString addr) s (mkSB (coin_denom coin) (Some (coin_amount coin)))
  else Ok s.

Definition ExportAllNativeBalances (balances : list (AccAddress * Coin)) : res SnapshotBalanceAggregateMap :=
  foldM add_native balances ∅.

End generic.

#[global] Arguments find_balance balances denom : simpl never.
#[global] Arguments cw3_balances {A B BK CO} aust_balance bank addr : simpl never.

(** ** The share of a voter *)

Section share_facts.
Context {M : SdkMath} {ML : SdkMathLaws M}.

(** The decimals do not round a share across an integer while the weights add up
    to less than [10^18]. *)
Lemma voter_share_exact b w tw :
  0 <= b < int_bound -> 0 <= w <= tw -> 0 < tw < precision -> b * w * precision < dec_bound - 2 ->
  voter_share b (NewDec w) (NewDec tw) = Ok (b * w / tw).
Proof.
  intros Hb Hw Htw Hbound. pose proof precision_pos as Hp. unfold voter_share, NewDec.
  destruct (dec_mul_total (b * precision) (w * precision)) as [x Hx]; [rewrite Z.abs_eq by nia; nia|].
  rewrite Hx. cbn. apply dec_mul_exact with (k := b * w * precision) in Hx; [|nia]. subst x.
  destruct (dec_quo_total (b * w * precision) (tw * precision)) as [y Hy]; [nia| |].
  { rewrite !Z.abs_eq by nia. nia. }
  rewrite Hy. cbn. rewrite dec_truncate_int_spec.
  pose proof (Z.div_mod (b * w) tw ltac:(lia)) as Hdm. pose proof (Z.mod_pos_bound (b * w) tw ltac:(lia)) as Hm.
  assert (0 <= b * w / tw) as Hq by (apply Z.div_pos; nia).
  assert (Hyb : b * w / tw * precision <= y < (b * w / tw + 1) * precision).
  { destruct (decide (b * w mod tw = 0)) as [Hz|Hz].
    - apply dec_quo_exact with (k := b * w / tw * precision) in Hy; nia.
    - apply dec_quo_round in Hy. nia. }
  rewrite Z.quot_div_nonneg by nia.
  replace (y / precision) with (b * w / tw) by (apply (Z.div_unique_pos y precision _ (y - b * w / tw * precision)); nia).
  apply checked_small. rewrite Z.abs_eq by done.
  assert (b * w / tw <= b); [|lia]. apply Z.div_le_upper_bound; nia.
Qed.

(** What the voters get of an amount. *)
Definition split_paid (b : Z) (voters : list Voter) (tw : Z) : Z := sumZ (fun v => b * Weight v / tw) voters.

Lemma split_paid_bounds b voters :
  let tw := sumZ Weight voters in
  0 <= b -> 0 < tw -> b - Z.of_nat (length voters) < split_paid b voters tw <= b.
Proof.
  intros tw Hb Htw. assert (Hx : forall l, b * sumZ Weight l - Z.of_nat (length l) * tw <= split_paid b l tw * tw <= b * sumZ Weight l
    /\ (l <> [] -> b * sumZ Weight l - Z.of_nat (length l) * tw < split_paid b l tw * tw)).
  { intros l. unfold split_paid. induction l as [|v l IH]; [rewrite !sumZ_nil; cbn; split; [lia|done]|].
    rewrite !sumZ_cons. cbn [length]. pose proof (Z.div_mod (b * Weight v) tw ltac:(lia)).
    pose proof (Z.mod_pos_bound (b * Weight v) tw Htw). nia. }
  destruct (Hx voters) as [H1 H2]. fold tw in H1, H2.
  assert (voters <> []) as Hne by (intros E; subst tw; rewrite E, sumZ_nil in Htw; lia). specialize (H2 Hne). nia.
Qed.

End share_facts.

(** ** CW3 wallets *)

Section cw3_facts.
Context {M : SdkMath} {ML : SdkMathLaws M} {R : GoRange} {RL : GoRangeLaws R} {A : Bech32}.

(** The snapshot keeps its form and its denominations. *)
Definition kept (s s' : SnapshotBalanceAggregateMap) : Prop :=
  (solid s -> collapsed s -> solid s' /\ collapsed s') /\
  (forall a d, d ∈ Denom <$> balances_of s a -> d ∈ Denom <$> balances_of s' a).

Lemma add_into_keeps l nb l' d : add_into l nb = Ok l' -> d ∈ Denom <$> l -> d ∈ Denom <$> l'.
Proof.
  revert l'. induction l as [|b l IH]; intros l' H Hd; cbn in H; [by apply not_elem_of_nil in Hd|].
  rewrite fmap_cons, elem_of_cons in Hd. destruct (_ && _).
  - destruct (is_nil _); go_inv; rewrite fmap_cons, elem_of_cons; exact Hd.
  - go_inv. rewrite fmap_cons, elem_of_cons. destruct Hd as [Hd|Hd]; [by left|right]. by eapply IH.
Qed.

Lemma AppendOrAddBalance_kept a s nb s' :
  AppendOrAddBalance a s nb = Ok s' -> Balance nb <> None -> kept s s'.
Proof.
  unfold AppendOrAddBalance. intros H Hnb. go_inv. rename v into l. split.
  - intros Hs Hc. destruct (add_into_denoms _ _ _ Hv Hnb) as (H1 & H2 & _).
    + unfold balances_of. destruct (s !! a) eqn:E; [by apply (Hs a)|constructor].
    + unfold balances_of. destruct (s !! a) eqn:E; [by apply (Hc a)|constructor].
    + split; intros k l' Hk; (destruct (decide (a = k)) as [<-|];
        [rewrite lookup_insert_eq in Hk; by simplify_eq|rewrite lookup_insert_ne in Hk by done]);
        [by apply (Hs k)|by apply (Hc k)].
  - intros a' d Hd. unfold balances_of at 1. destruct (decide (a = a')) as [<-|].
    + rewrite lookup_insert_eq. by eapply add_into_keeps.
    + by rewrite lookup_insert_ne.
Qed.

Lemma kept_trans s1 s2 s3 : kept s1 s2 -> kept s2 s3 -> kept s1 s3.
Proof.
  intros [H1 H2] [H3 H4]. split; [|by auto]. intros Hs Hc. destruct (H1 Hs Hc) as [Hs2 Hc2]. by apply H3.
Qed.

Lemma kept_refl s : kept s s.
Proof. by split. Qed.

(** A wallet whose voters can be paid. *)
Definition fair_wallet (balances : list (string * Int)) (voters : list Voter) : Prop :=
  Forall (fun v => 0 <= Weight v) voters /\ 0 < sumZ Weight voters < precision /\
  Forall (fun e => 0 <= e.2 < int_bound /\ e.2 * sumZ Weight voters * precision < dec_bound - 2) balances.

Lemma weight_le voters v :
  Forall (fun v => 0 <= Weight v) voters -> v ∈ voters -> 0 <= Weight v <= sumZ Weight voters.
Proof.
  intros Hw Hv. apply list_elem_of_split in Hv as (l1 & l2 & ->). rewrite sumZ_app, sumZ_cons.
  apply Forall_app in Hw as [H1 [Hv H2]%Forall_cons].
  apply sumZ_nonneg in H1, H2. lia.
Qed.

Lemma totalWeight_eq voters :
  Forall (fun v => 0 <= Weight v) voters -> sumZ Weight voters < precision ->
  totalWeight voters = sumZ Weight voters.
Proof.
  intros Hw Hp. unfold totalWeight. enough (forall acc, 0 <= acc -> acc + sumZ Weight voters < precision ->
    foldl (fun w v => to_int64 (w + Weight v)) acc voters = acc + sumZ Weight voters) as Hx
    by (rewrite Hx by lia; lia).
  clear Hp. induction Hw as [|v l Hv Hl IH]; intros acc Ha Hs; cbn; rewrite ?sumZ_nil, ?sumZ_cons in *; [lia|].
  pose proof (sumZ_nonneg _ _ Hl). assert (to_int64 (acc + Weight v) = acc + Weight v) as ->.
  { unfold to_int64, two63, two64. unfold precision in Hs. rewrite Z.mod_small by lia. lia. }
  rewrite IH by lia. lia.
Qed.

Lemma find_balance_sum (f : Z -> Z) balances d :
  NoDup balances.*1 ->
  sumZ (fun e => if String.eqb e.1 d then f e.2 else 0) balances =
  match find_balance balances d with Some b => f b | None => 0 end.
Proof.
  unfold find_balance. induction balances as [|[k b] l IH]; intros Hnd; [done|].
  rewrite fmap_cons, NoDup_cons in Hnd. destruct Hnd as [Hk Hnd]. rewrite sumZ_cons. cbn.
  destruct (String.eqb_spec k d) as [->|Hne]; cbn; [|by rewrite IH].
  rewrite (sumZ_ext _ (fun _ => 0)); [|apply Forall_forall; intros e He; rewrite (proj2 (String.eqb_neq _ _)); [done|]].
  - rewrite sumZ_zero by done. lia.
  - intros <-. apply Hk. exact (list_elem_of_fmap_2 fst l e He).
Qed.

Lemma pay_voters_Ok balances voters s s' d :
  fair_wallet balances voters -> NoDup balances.*1 ->
  foldM (pay_voter balances (NewDec (totalWeight voters))) voters s = Ok s' ->
  kept s s' /\
  total s' d = total s d + match find_balance balances d with
                           | Some b => split_paid b voters (sumZ Weight voters)
                           | None => 0
                           end.
Proof.
  intros (Hw & Htw & Hb) Hnd. rewrite totalWeight_eq by (done || lia). set (tw := sumZ Weight voters) in *.
  assert (Hstep : forall v s s', v ∈ voters -> pay_voter balances (NewDec tw) s v = Ok s' ->
    kept s s' /\ total s' d = total s d + match find_balance balances d with
                                          | Some b => b * Weight v / tw | None => 0 end).
  { intros v s0 s1 Hv H. pose proof (weight_le _ _ Hw Hv) as Hwv. fold tw in Hwv.
    rewrite <- (find_balance_sum (fun b => b * Weight v / tw)) by done. unfold pay_voter in H. clear Hnd.
    revert s0 H. induction Hb as [|[k b] l [Hb0 Hb1] _ IH]; intros s0 H; cbn in H; go_inv.
    { rewrite sumZ_nil. split; [apply kept_refl|lia]. }
    cbn [fst snd] in *. pose proof precision_pos as Hp.
    assert (b * Weight v * precision <= b * tw * precision) by (apply Z.mul_le_mono_nonneg_r; nia).
    rewrite voter_share_exact in Hv1 by lia. injection Hv1 as <-.
    apply AppendOrAddBalance_kept in Hv0 as Hk; [|done]. apply (AppendOrAddBalance_total _ _ _ _ d) in Hv0.
    destruct (IH _ H) as [Hk' ->]. split; [by eapply kept_trans|]. rewrite Hv0, sumZ_cons, held_list_cons. cbn.
    change (held_list [] d) with 0. destruct (String.eqb k d); lia. }
  enough (Hx : forall l s, (forall v, v ∈ l -> v ∈ voters) ->
    foldM (pay_voter balances (NewDec tw)) l s = Ok s' ->
    kept s s' /\ total s' d = total s d + match find_balance balances d with
                                          | Some b => split_paid b l tw | None => 0 end) by (apply Hx; done).
  unfold split_paid. clear s. intros l. induction l as [|v l IH]; intros s Hsub H; cbn in H; go_inv.
  { split; [apply kept_refl|]. destruct (find_balance balances d); rewrite ?sumZ_nil; lia. }
  destruct (Hstep v s v0) as [Hk Ht]; [apply Hsub; by left|done|].
  destruct (IH v0) as [Hk' Ht']; [intros; apply Hsub; by right|done|].
  split; [by eapply kept_trans|]. rewrite Ht', Ht.
  destruct (find_balance balances d); rewrite ?sumZ_cons; lia.
Qed.

(** *** What is subtracted from the wallets *)

Lemma subtract_list_Ok balances l l' :
  subtract_list balances l = Ok l' ->
  Denom <$> l' = Denom <$> l /\
  (NoDup (Denom <$> l) -> forall d, held_list l' d = held_list l d -
     (if decide (d ∈ Denom <$> l) then default 0 (find_balance balances d) else 0)).
Proof.
  revert l'. induction l as [|b l IH]; intros l' H; cbn in H; go_inv; [by split|].
  destruct (IH _ Hv0) as [H1 H2].
  assert (Hd : Denom v = Denom b /\ forall d, held_list [v] d = held_list [b] d -
    (if String.eqb (Denom b) d then default 0 (find_balance balances d) else 0)).
  { destruct (find_balance balances (Denom b)) as [x|] eqn:E; go_inv.
    - unfold nint_sub in Hv1. destruct (Balance b) as [y|] eqn:Eb; [|done]. go_inv.
      apply int_sub_Ok in Hv as [-> _]. split; [done|]. intros d. rewrite !held_list_cons, Eb. cbn.
      change (held_list [] d) with 0. destruct (String.eqb_spec (Denom b) d) as [<-|]; [rewrite E; cbn|]; lia.
    - split; [done|]. intros d. destruct (String.eqb_spec (Denom v) d) as [<-|]; [rewrite E; cbn|]; lia. }
  destruct Hd as [Hd Hh]. split; [by rewrite !fmap_cons, Hd, H1|].
  rewrite fmap_cons. intros [Hn Hnd]%NoDup_cons d. specialize (H2 Hnd d). specialize (Hh d).
  rewrite (held_list_cons v v0), (held_list_cons b l). rewrite !held_list_cons in Hh.
  change (held_list [] d) with 0 in Hh. destruct (String.eqb_spec (Denom b) d) as [<-|Hne].
  - rewrite (decide_True (P := Denom b ∈ Denom b :: _)) by left. rewrite decide_False in H2 by done. lia.
  - assert (d ∈ Denom b :: (Denom <$> l) <-> d ∈ Denom <$> l) as Hi by (rewrite elem_of_cons; intuition congruence).
    destruct (decide (d ∈ Denom <$> l)), (decide (d ∈ Denom b :: (Denom <$> l))); tauto || lia.
Qed.

(** What the wallets of a map lose in a denomination. *)
Definition wallet_sum (d : string) (m : gmap string (list (string * Int))) : Z :=
  sumZ (fun e => default 0 (find_balance e.2 d)) (map_to_list m).

(** The snapshot lists what the wallets hold. *)
Definition listed (s : SnapshotBalanceAggregateMap) (m : gmap string (list (string * Int))) : Prop :=
  map_Forall (fun a balances => forall d b, find_balance balances d = Some b -> b <> 0 ->
                                d ∈ Denom <$> balances_of s a) m.

Lemma subtract_contract_Ok s e s' d :
  subtract_contract s e = Ok s' -> collapsed s ->
  (forall b, find_balance e.2 d = Some b -> b <> 0 -> d ∈ Denom <$> balances_of s e.1) ->
  (forall a, Denom <$> balances_of s' a = Denom <$> balances_of s a) /\
  total s' d = total s d - default 0 (find_balance e.2 d).
Proof.
  unfold subtract_contract. intros H Hc Hin. destruct (s !! e.1) as [l|] eqn:E; go_inv.
  - apply subtract_list_Ok in Hv as [H1 H2]. split.
    + intros a. unfold balances_of. destruct (decide (e.1 = a)) as [<-|];
        [by rewrite lookup_insert_eq, E|by rewrite lookup_insert_ne].
    + rewrite total_insert, (H2 (Hc _ _ E)). unfold held, balances_of in *. rewrite E in *. cbn in *.
      destruct (decide _) as [|Hn]; [lia|]. destruct (find_balance e.2 d) as [b|]; cbn; [|lia].
      destruct (decide (b = 0)) as [->|]; [lia|]. destruct Hn. by eapply Hin.
  - split; [done|]. unfold balances_of in Hin. rewrite E in Hin.
    destruct (find_balance e.2 d) as [b|]; cbn; [|lia]. destruct (decide (b = 0)) as [->|]; [lia|].
    by apply (Hin b), not_elem_of_nil in n.
Qed.

Lemma collapsed_denoms s s' :
  (forall a, Denom <$> balances_of s' a = Denom <$> balances_of s a) -> collapsed s -> collapsed s'.
Proof.
  intros H Hc a l Hl. specialize (H a). unfold balances_of in H. rewrite Hl in H. cbn in H. rewrite H.
  destruct (s !! a) as [l0|] eqn:E; [by apply (Hc a)|constructor].
Qed.

Lemma subtract_all_Ok m s s' d :
  foldM subtract_contract (range 63 m) s = Ok s' -> collapsed s -> listed s m ->
  total s' d = total s d - wallet_sum d m.
Proof.
  unfold wallet_sum. pose proof (range_perm 63 _ m) as Hp. rewrite <- Hp. intros H Hc Hl.
  assert (Hl' : forall e, e ∈ range 63 m -> forall b, find_balance e.2 d = Some b -> b <> 0 ->
    d ∈ Denom <$> balances_of s e.1).
  { intros [a bs] Hin b. rewrite Hp, elem_of_map_to_list in Hin. by apply (Hl a bs Hin). }
  clear Hp Hl. revert s H Hc Hl'. induction (range 63 m) as [|e l IH]; intros s H Hc Hl; cbn in H; go_inv.
  { rewrite sumZ_nil. lia. }
  destruct (subtract_contract_Ok _ _ _ d Hv Hc (Hl e ltac:(left))) as [Hd Ht].
  rewrite (IH _ H), Ht, sumZ_cons; [lia|by eapply collapsed_denoms|].
  intros e' He' b Hb Hz. rewrite Hd. eapply Hl; [by right|done..].
Qed.

(** *** The split of all wallets *)

Context {B : Type} {BK : BankKeeper B} {CO : SdkCoins}.
Context (decode_voters : string -> option (list Voter)) (aust_balance : string -> Int).

Definition wallet (contracts : ContractsMap) (a : string) (voters : list Voter) : Prop :=
  exists ci, contracts !! a = Some ci /\ decode_voters (InitMsg ci) = Some voters /\ voters <> [].

Definition voter_count (e : string * ContractInfo) : Z :=
  match decode_voters (InitMsg e.2) with Some voters => Z.of_nat (length voters) | None => 0 end.

(** Of a denomination, what the voters of a contract get less what the contract
    has. *)
Definition wallet_delta (bank : B) (d : string) (e : string * ContractInfo) : Z :=
  match decode_voters (InitMsg e.2), find_balance (cw3_balances aust_balance bank e.1) d with
  | Some (v :: vs), Some b => split_paid b (v :: vs) (sumZ Weight (v :: vs)) - b
  | _, _ => 0
  end.

Lemma wallet_sum_insert d m k v :
  m !! k = None -> wallet_sum d (<[k := v]> m) = wallet_sum d m + default 0 (find_balance v d).
Proof. intros Hk. unfold wallet_sum. rewrite map_to_list_insert, sumZ_cons by done. cbn [snd]. lia. Qed.

(** The state of the loop after the contracts of a list. *)
Definition split_inv (bank : B) (s : SnapshotBalanceAggregateMap) (d : string)
    (done : list (string * ContractInfo)) (acc : cw3_state) : Prop :=
  kept s (cw3_snapshot acc) /\
  total (cw3_snapshot acc) d - wallet_sum d (contractBalanceMap acc) = total s d + sumZ (wallet_delta bank d) done /\
  map_Forall (fun a b => b = cw3_balances aust_balance bank a /\
    exists ci v vs, (a, ci) ∈ done /\ decode_voters (InitMsg ci) = Some (v :: vs)) (contractBalanceMap acc) /\
  (forall a ci v vs d, (a, ci) ∈ done -> decode_voters (InitMsg ci) = Some (v :: vs) ->
    d ∈ [DenomUST; DenomLUNA; DenomAUST] -> blacklisted (cw3_blacklist acc) a d).

Lemma cw3_balances_NoDup (bank : B) a : NoDup (cw3_balances aust_balance bank a).*1.
Proof. apply (bool_decide_unpack _). by vm_compute. Qed.

Lemma register_cw3_blacklisted a bl a' d :
  blacklisted (register_cw3 a bl) a' d <->
  blacklisted bl a' d \/ (a' = a /\ d ∈ [DenomUST; DenomLUNA; DenomAUST]).
Proof.
  unfold register_cw3. rewrite !RegisterAddress_blacklisted, !elem_of_cons. pose proof (not_elem_of_nil d). tauto.
Qed.

Lemma split_step bank s d l acc e acc' :
  split_inv bank s d l acc -> e.1 ∉ l.*1 ->
  (forall v vs, decode_voters (InitMsg e.2) = Some (v :: vs) ->
     fair_wallet (cw3_balances aust_balance bank e.1) (v :: vs)) ->
  split_cw3 decode_voters aust_balance bank acc e = Ok acc' -> split_inv bank s d (l ++ [e]) acc'.
Proof.
  intros (Hk & Ht & Hm & Hb) He Hfair H. destruct e as [a ci]. cbn in *. unfold split_inv.
  rewrite sumZ_app, sumZ_cons, sumZ_nil. unfold wallet_delta at 2. cbn. unfold split_cw3 in H. cbn in H.
  destruct (decode_voters (InitMsg ci)) as [[|v vs]|] eqn:E; [injection H as <-| |injection H as <-].
  2:{ apply bind_Ok in H as (snap & Hp & H). injection H as <-. cbn.
      destruct (pay_voters_Ok _ _ _ _ d (Hfair v vs eq_refl) (cw3_balances_NoDup bank a) Hp) as [Hk' Ht'].
      assert (contractBalanceMap acc !! a = None) as Hn.
      { destruct (contractBalanceMap acc !! a) eqn:Ea; [|done]. destruct (Hm _ _ Ea) as (_ & ci' & _ & _ & Hin & _).
        destruct He. exact (list_elem_of_fmap_2 fst _ _ Hin). }
      split; [by eapply kept_trans|]. split; [|split].
      - rewrite wallet_sum_insert, Ht' by done.
        destruct (find_balance _ d); cbn; lia.
      - apply map_Forall_insert_2; [split; [done|]; exists ci, v, vs; split; [apply elem_of_app; right; by left|done]|].
        intros a' b' Ha'. destruct (Hm _ _ Ha') as (-> & ci' & v' & vs' & Hin & Hd). split; [done|].
        exists ci', v', vs'. split; [apply elem_of_app; by left|done].
      - intros a' ci' v' vs' d' [Hin|Hin]%elem_of_app Hd Hd'; apply register_cw3_blacklisted.
        + left. by eapply Hb.
        + apply list_elem_of_singleton in Hin. simplify_eq. by right. }
  all: split; [done|]; split; [lia|]; split.
  1,3: intros a' b' Ha'; destruct (Hm _ _ Ha') as (-> & ci' & v' & vs' & Hin & Hd); split; [done|];
       exists ci', v', vs'; split; [apply elem_of_app; by left|done].
  all: intros a' ci' v' vs' d' [Hin|Hin]%elem_of_app Hd Hd'; [by eapply Hb|];
       apply list_elem_of_singleton in Hin; simplify_eq.
Qed.

Lemma split_all bank s bl d contracts acc :
  (forall a voters, wallet contracts a voters -> fair_wallet (cw3_balances aust_balance bank a) voters) ->
  foldM (split_cw3 decode_voters aust_balance bank) (range 62 contracts) (mkCw3 s bl ∅) = Ok acc ->
  split_inv bank s d (range 62 contracts) acc.
Proof.
  intros Hfair H. pose proof (range_perm 62 _ contracts) as Hp.
  assert (Hnd : NoDup (range 62 contracts).*1) by (rewrite Hp; apply NoDup_fst_map_to_list).
  assert (Hf : forall e, e ∈ range 62 contracts -> forall v vs, decode_voters (InitMsg e.2) = Some (v :: vs) ->
    fair_wallet (cw3_balances aust_balance bank e.1) (v :: vs)).
  { intros [a ci] Hin v vs Hd. rewrite Hp, elem_of_map_to_list in Hin. apply Hfair. by exists ci. }
  clear Hp Hfair. change (range 62 contracts) with ([] ++ range 62 contracts).
  assert (Hi : split_inv bank s d [] (mkCw3 s bl ∅)).
  { split; [apply kept_refl|]. split; [unfold wallet_sum; cbn; rewrite map_to_list_empty, !sumZ_nil; lia|].
    split; [apply map_Forall_empty|]. by intros ? ? ? ? ? ?%not_elem_of_nil. }
  revert H Hi Hf Hnd. generalize (mkCw3 s bl ∅) as acc0. change (range 62 contracts) with ([] ++ range 62 contracts) at 3.
  generalize ([] : list (string * ContractInfo)) as l0. induction (range 62 contracts) as [|e l IH];
    intros l0 acc0 H Hi Hf Hnd; cbn in H; go_inv; [by rewrite app_nil_r|].
  replace (l0 ++ e :: l) with ((l0 ++ [e]) ++ l) in * by by rewrite <- app_assoc.
  apply (IH (l0 ++ [e]) v); [done| |intros; apply Hf; [by right|done]|done].
  eapply split_step; [exact Hi| |apply Hf; by left|exact Hv].
  rewrite fmap_app, NoDup_app in Hnd. destruct Hnd as [Hnd _].
  rewrite fmap_app, NoDup_app in Hnd. destruct Hnd as (_ & Hnd & _). intros Hin. apply (Hnd _ Hin). by left.
Qed.

Lemma wallet_delta_bounds bank d e :
  (forall v vs, decode_voters (InitMsg e.2) = Some (v :: vs) ->
     fair_wallet (cw3_balances aust_balance bank e.1) (v :: vs)) ->
  - voter_count e <= wallet_delta bank d e <= 0.
Proof.
  unfold wallet_delta, voter_count. intros Hf.
  destruct (decode_voters (InitMsg e.2)) as [[|v vs]|] eqn:E; [cbn; lia| |lia].
  destruct (find_balance _ d) as [b|] eqn:Eb; [|cbn; lia]. destruct (Hf v vs eq_refl) as (_ & [Htw _] & Hb).
  assert (0 <= b) as Hb0.
  { unfold find_balance in Eb. destruct (List.find _ _) as [e'|] eqn:Ef; [|done]. injection Eb as <-.
    apply List.find_some in Ef as [Hin%list_elem_of_In _]. rewrite Forall_forall in Hb. apply (Hb e' Hin). }
  pose proof (split_paid_bounds b (v :: vs) Hb0 Htw). cbn [length] in *. lia.
Qed.

(** C11. Splitting the CW3 wallets creates no money: when the voters' weights add
    up to less than [10^18] and the snapshot lists what the wallets hold, the
    total of every denomination does not grow, and falls by at most one unit for
    each voter, the rounding of the shares; the wallets are blacklisted. *)
Theorem cw3_split_conserves bank lines contracts s bl s' bl' :
  ExportCW3 decode_voters aust_balance bank lines contracts s bl = Ok (s', bl') ->
  solid s -> collapsed s ->
  (forall a voters, wallet contracts a voters ->
     fair_wallet (cw3_balances aust_balance bank a) voters /\
     forall d b, find_balance (cw3_balances aust_balance bank a) d = Some b -> b <> 0 ->
                 d ∈ Denom <$> balances_of s a) ->
  (forall a voters d, wallet contracts a voters -> d ∈ [DenomUST; DenomLUNA; DenomAUST] -> blacklisted bl' a d) /\
  exists s2, mapKnownContracts lines s2 = Ok s' /\
  forall d, total s d - sumZ voter_count (map_to_list contracts) <= total s2 d <= total s d.
Proof.
  unfold ExportCW3. intros H Hs Hc Hw. go_inv. rename v into acc, v0 into s2.
  assert (Hfair : forall a voters, wallet contracts a voters -> fair_wallet (cw3_balances aust_balance bank a) voters)
    by (intros; by apply Hw).
  pose proof (range_perm 62 _ contracts) as Hp. split.
  - intros a voters d (ci & Hci & Hd & Hne) Hin. destruct voters as [|v vs]; [done|].
    destruct (split_all _ _ _ d _ _ Hfair Hv) as (_ & _ & _ & Hb). eapply Hb; [|done..].
    by rewrite Hp, elem_of_map_to_list.
  - exists s2. split; [done|]. intros d. destruct (split_all _ _ _ d _ _ Hfair Hv) as ([Hk1 Hk2] & Ht & Hm & _).
    rewrite (subtract_all_Ok _ _ _ d Hv0), Ht; [|by apply Hk1|].
    + rewrite <- Hp. enough (- sumZ voter_count (range 62 contracts) <= sumZ (wallet_delta bank d) (range 62 contracts) <= 0) by lia.
      assert (Hl : Forall (fun e => - voter_count e <= wallet_delta bank d e <= 0) (range 62 contracts)).
      { apply Forall_forall. intros [a ci] Hin. rewrite Hp, elem_of_map_to_list in Hin.
        apply wallet_delta_bounds. intros v vs Hd. apply Hfair. by exists ci. }
      clear -Hl. induction Hl; autorewrite with go; lia.
    + intros a b Ha d' x Hx Hx0. apply Hk2. destruct (Hm _ _ Ha) as (-> & ci & v & vs & Hin & Hd).
      rewrite Hp, elem_of_map_to_list in Hin. eapply (proj2 (Hw a (v :: vs) ltac:(by exists ci))); done.
Qed.

End cw3_facts.

(** ** Owners, vesting and native balances *)

Section balance_facts.
Context {M : SdkMath} {ML : SdkMathLaws M} {R : GoRange} {RL : GoRangeLaws R} {A : Bech32}.

(** The contract and the owner that each line of the file names. *)
Fixpoint known_pairs (c r : string) (lines : list string) : list (string * string) :=
  match lines with
  | [] => []
  | line :: lines' =>
      let '(first, rest) := split_comma line in
      let c' := read_address first c in
      let r' := read_address (split_comma (default "" rest)).1 r in
      (c', r') :: known_pairs c' r' lines'
  end.

(** On the ledger of what everyone holds, a contract's holdings move to its
    owner. *)
Definition move_to (h : string -> string -> Z) (p : string * string) (a d : string) : Z :=
  if String.eqb a p.1 then 0 else if String.eqb a p.2 then h a d + h p.1 d else h a d.

Lemma move_Ok c r s s' :
  c <> r -> foldM (AppendOrAddBalance r) (balances_of s c) s = Ok s' ->
  (forall a d, held (delete c s') a d = move_to (held s) (c, r) a d) /\
  (forall d, total (delete c s') d = total s d).
Proof.
  intros Hne H. split; intros.
  - destruct (merge_entry_held s (r, balances_of s c) s' a d H) as [Hh _]. cbn in Hh.
    rewrite held_delete, Hh. unfold move_to. cbn. rewrite (String.eqb_sym r a).
    destruct (String.eqb a c), (String.eqb a r); unfold held; lia.
  - destruct (merge_entry_held s (r, balances_of s c) s' c d H) as [Hh Ht]. cbn in Hh, Ht.
    rewrite total_delete, Ht, Hh. rewrite (proj2 (String.eqb_neq r c)) by congruence. unfold held. lia.
Qed.

(** Assigning the known contracts moves money and creates none: each line of
    the file moves everything its contract holds to its owner, in the order of
    the lines, and the totals stay the same, as long as no contract is its own
    owner.  An address that does not decode stands for the one of the line
    before. *)
Theorem known_contracts_moved lines s s' :
  mapKnownContracts lines s = Ok s' ->
  Forall (fun p => p.1 <> p.2) (known_pairs "" "" lines) ->
  (forall a d, held s' a d = foldl move_to (held s) (known_pairs "" "" lines) a d) /\
  (forall d, total s' d = total s d).
Proof.
  unfold mapKnownContracts. intros H Hp. go_inv. rename v into acc.
  assert (Hx : forall lines acc0, foldM map_line lines acc0 = Ok acc ->
    Forall (fun p => p.1 <> p.2) (known_pairs (cAdd acc0) (rAdd acc0) lines) -> forall h,
    (forall a d, h a d = held (known_snapshot acc0) a d) ->
    (forall a d, held (known_snapshot acc) a d = foldl move_to h (known_pairs (cAdd acc0) (rAdd acc0) lines) a d) /\
    (forall d, total (known_snapshot acc) d = total (known_snapshot acc0) d)).
  { clear -ML. intros lines. induction lines as [|line lines IH]; intros acc0 H Hp h Hh; cbn in *; go_inv; [done|].
    unfold map_line in Hv. destruct (split_comma line) as [first [rest|]]; [|done]. go_inv. cbn in *.
    apply Forall_cons in Hp as [Hne Hp]. cbn in Hne. destruct (move_Ok _ _ _ _ Hne Hv0) as [H1 H2].
    destruct (IH _ H Hp (move_to h (read_address first (cAdd acc0), read_address (split_comma rest).1 (rAdd acc0))))
      as [H3 H4]; [|split; [exact H3|intros; by rewrite H4, <- H2]].
    intros a d. cbn. rewrite H1. unfold move_to. cbn. by rewrite !Hh. }
  by apply (Hx lines (mkKnown "" "" s)).
Qed.

(** *** Native balances *)

Section bonded.
Context {V : Type} (OperatorAddress : V -> string) (TokensFromShares : V -> Dec -> res Dec).

Definition validators_map (validators : list V) : gmap string V :=
  foldl (fun m v => <[OperatorAddress v := v]> m) ∅ validators.

(** What a delegation is worth, in whole tokens. *)
Definition delegated (validators : list V) (del : Delegation) : Z :=
  match validators_map validators !! ValidatorAddress del with
  | Some v => match TokensFromShares v (Shares del) with Ok t => Z.quot t precision | _ => 0 end
  | None => 0
  end.

Lemma held_appended a s b s' a' d :
  AppendOrAddBalance a s (mkSB DenomLUNA (Some b)) = Ok s' ->
  held s' a' d = held s a' d + (if String.eqb a a' && String.eqb DenomLUNA d then b else 0).
Proof.
  intros H. rewrite (AppendOrAddBalance_held _ _ _ _ a' d H), held_list_cons. cbn [Denom Balance].
  change (held_list [] d) with 0. destruct (String.eqb a a'), (String.eqb DenomLUNA d); cbn; lia.
Qed.

(** Nothing is counted for the hub, or in another denomination. *)
Definition counted (a d who : string) (x : Z) : Z :=
  if String.eqb AddressBLUNAHub a || negb (String.eqb DenomLUNA d) then 0
  else if String.eqb who a then x else 0.

Lemma counted_hub a d x : counted a d AddressBLUNAHub x = 0.
Proof. unfold counted. destruct (String.eqb AddressBLUNAHub a); cbn; [done|]. by destruct (negb _). Qed.

Lemma counted_other a d who x :
  AddressBLUNAHub <> who -> counted a d who x = if String.eqb who a && String.eqb DenomLUNA d then x else 0.
Proof.
  intros E. unfold counted. destruct (String.eqb_spec who a) as [<-|]; cbn [andb].
  - rewrite (proj2 (String.eqb_neq _ _) E). by destruct (String.eqb DenomLUNA d).
  - by destruct (_ || _).
Qed.

Lemma add_unbonding_entries_held s ubd s' a d :
  add_unbonding_entries s ubd = Ok s' ->
  held s' a d = held s a d + counted a d (UnbondingDelegator ubd) (sumZ (fun x => x) (Entries ubd)).
Proof.
  unfold add_unbonding_entries. destruct (String.eqb_spec AddressBLUNAHub (UnbondingDelegator ubd)) as [E|E]; intros H.
  - injection H as <-. rewrite <- E, counted_hub. lia.
  - rewrite counted_other by done.
    rewrite (foldM_sum (fun s => held s a d) (fun x => if String.eqb (UnbondingDelegator ubd) a && String.eqb DenomLUNA d then x else 0)
      _ _ _ _ (fun s x s' => held_appended _ s x s' a d) H).
    destruct (_ && _); [done|]. by rewrite sumZ_zero.
Qed.

Lemma add_delegation_held validators s del s' a d :
  add_delegation TokensFromShares (validators_map validators) s del = Ok s' ->
  held s' a d = held s a d + counted a d (DelegatorAddress del) (delegated validators del).
Proof.
  unfold add_delegation, delegated.
  destruct (String.eqb_spec AddressBLUNAHub (DelegatorAddress del)) as [E|E]; intros H.
  - injection H as <-. rewrite <- E, counted_hub. lia.
  - rewrite counted_other by done. destruct (validators_map validators !! _) as [v|]; go_inv.
    + apply (held_appended _ _ _ _ a d) in H. rewrite H, Hv. apply dec_truncate_int_Ok in Hv0 as [-> _]. done.
    + destruct (_ && _); lia.
Qed.

(** The staked LUNA is counted once: every address but the bLUNA hub holds
    its unbonding entries and the tokens of its delegations to known validators,
    the hub holds nothing, there is no other denomination, and the two staking
    pools are blacklisted. *)
Theorem bonded_luna_counted validators unbondings delegations bl s bl' :
  ExportAllBondedLuna OperatorAddress TokensFromShares validators unbondings delegations bl = Ok (s, bl') ->
  (forall a d, held s a d =
     sumZ (fun ubd => counted a d (UnbondingDelegator ubd) (sumZ (fun x => x) (Entries ubd))) unbondings +
     sumZ (fun del => counted a d (DelegatorAddress del) (delegated validators del)) delegations) /\
  (forall a d, blacklisted bl' a d <-> blacklisted bl a d \/
     (d = DenomLUNA /\ a ∈ ["terra1fl48vsnmsdzcv85q5d2q4z5ajdha8yu3nln0mh"; "terra1tygms3xhhs3yv487phx3dw4a95jn7t7l8l07dr"])).
Proof.
  unfold ExportAllBondedLuna. fold (validators_map validators). intros H. go_inv. rename v into s1. split.
  - intros a d.
    rewrite (foldM_sum (fun s => held s a d) _ _ _ _ _ (fun s x s' => add_delegation_held validators s x s' a d) Hv0).
    rewrite (foldM_sum (fun s => held s a d) _ _ _ _ _ (fun s x s' => add_unbonding_entries_held s x s' a d) Hv).
    done.
  - intros a d. rewrite !RegisterAddress_blacklisted, !elem_of_cons. pose proof (not_elem_of_nil a). tauto.
Qed.

End bonded.

(** The liquid balances are counted once: an address holds, of UST and LUNA,
    what the bank lists for it, and nothing of another denomination. *)
Theorem native_balances_counted balances s :
  ExportAllNativeBalances balances = Ok s ->
  forall a d, held s a d =
    if String.eqb d DenomUST || String.eqb d DenomLUNA
    then sumZ (fun e => if String.eqb (AccAddressString e.1) a && String.eqb (coin_denom e.2) d
                        then coin_amount e.2 else 0) balances
    else 0.
Proof.
  intros H a d. set (c := String.eqb d DenomUST || String.eqb d DenomLUNA).
  rewrite (foldM_sum (fun s => held s a d) (fun e => if c then (if String.eqb (AccAddressString e.1) a && String.eqb (coin_denom e.2) d
                        then coin_amount e.2 else 0) else 0)) with (2 := H).
  - change (held ∅ a d) with 0. destruct c; [done|]. by rewrite sumZ_zero.
  - clear H s. intros s [addr coin] s' H. cbn. unfold add_native in H.
    destruct (Z.eqb_spec (coin_amount coin) 0) as [E|E]; cbn in H.
    { injection H as <-. rewrite E. destruct c; [destruct (_ && _)|]; lia. }
    destruct (_ || _) eqn:Ed in H.
    + rewrite (AppendOrAddBalance_held _ _ _ _ a d H), held_list_cons. cbn [Denom Balance from_option id].
      change (held_list [] d) with 0. subst c.
      destruct (String.eqb (AccAddressString addr) a); cbn [andb];
        [|destruct (String.eqb d DenomUST || String.eqb d DenomLUNA); lia].
      destruct (String.eqb_spec (coin_denom coin) d) as [<-|]; [rewrite Ed; unfold id; lia|].
      destruct (String.eqb d DenomUST || String.eqb d DenomLUNA); lia.
    + injection H as <-. subst c. destruct (String.eqb_spec (coin_denom coin) d) as [<-|];
        [rewrite Ed; lia|].
      rewrite andb_false_r. destruct (String.eqb d DenomUST || String.eqb d DenomLUNA); lia.
Qed.

(** *** Vesting contracts *)

Section vesting.
Context (contract_store : AccAddress -> list (string * string)) (vesting_info : string -> SingleVestingInfo).

Definition vesting_denom (v : SingleVestingInfo) : option string :=
  coalesceToBalanceDenom (if negb (String.eqb (NativeDenom v) "") then NativeDenom v else AccAddressString (Cw20 v)).

(** What a contract still has to release to an address. *)
Definition vesting_due (a d : string) (e : string * ContractInfo) : Z :=
  match checkIfVesting contract_store vesting_info e.1 with
  | Some v =>
      if String.eqb (AccAddressString (OwnerAddress v)) a && bool_decide (vesting_denom v = Some d)
      then default 0 (VestingAmount v) - default 0 (VestedAmount v) else 0
  | None => 0
  end.

Lemma handleSingleVesting_held v s a d :
  handleSingleVesting v = Ok s ->
  held s a d = if String.eqb (AccAddressString (OwnerAddress v)) a && bool_decide (vesting_denom v = Some d)
               then default 0 (VestingAmount v) - default 0 (VestedAmount v) else 0.
Proof.
  unfold handleSingleVesting, vesting_denom. intros H. go_inv. unfold nint_sub in Hv.
  destruct (VestingAmount v) as [x|], (VestedAmount v) as [y|]; try done. go_inv.
  apply int_sub_Ok in Hv0 as [-> _]. cbn [from_option id].
  destruct (coalesceToBalanceDenom _) as [u|].
  - unfold held, balances_of. rewrite lookup_singleton.
    destruct (String.eqb_spec (AccAddressString (OwnerAddress v)) a) as [->|]; [|by rewrite decide_False].
    rewrite decide_True by done. cbn [andb from_option id]. rewrite held_list_cons. cbn [Denom Balance].
    change (held_list [] d) with 0. destruct (String.eqb_spec u d) as [->|].
    + rewrite bool_decide_true by done. cbn. lia.
    + rewrite bool_decide_false by congruence. lia.
  - rewrite andb_false_intro2; [done|]. by rewrite bool_decide_false.
Qed.

(** The owner of every vesting contract is credited with what the contract
    has not released, in the denomination of the vested asset, when it is one of
    those the exporter knows. *)
Theorem vesting_exported infos s contracts :
  ExportVestingContracts contract_store vesting_info infos = Ok (s, contracts) ->
  contracts = IterateAllContracts infos ∅ /\
  forall a d, held s a d = sumZ (vesting_due a d) (map_to_list contracts).
Proof.
  unfold ExportVestingContracts. intros H. go_inv. rename v into vs. split; [done|]. intros a d.
  set (contracts := IterateAllContracts infos ∅) in *.
  assert (held s a d = held vs a d) as ->.
  { rewrite (foldM_sum (fun s => held s a d) (fun e => if String.eqb e.1 a then held_list e.2 d else 0)) with (2 := Hv0).
    - change (held ∅ a d) with 0. by rewrite (sumZ_entries vs) by apply range_perm.
    - intros s0 e s1 H. by destruct (merge_entry_held _ _ _ a d H). }
  rewrite <- (range_perm 60 _ contracts). unfold vesting_ExportVestingContracts in Hv.
  rewrite (foldM_sum (fun s => held s a d) (vesting_due a d)) with (2 := Hv); [done|].
  intros s0 e s1 H. unfold vesting_contract in H. unfold vesting_due.
  destruct (checkIfVesting _ _ _) as [v|]; go_inv; [|lia]. rewrite <- (handleSingleVesting_held _ _ a d Hv1).
  destruct (MergeSnapshots_held _ _ H) as [Hh _]. rewrite Hh, !sumZ_cons, sumZ_nil. lia.
Qed.

End vesting.



End balance_facts.

(** ** The theorems on concrete inputs *)

Module GenericExample.

#[local] Existing Instance ref_math.
#[local] Existing Instance ref_coins.
#[local] Existing Instance ref_bech32.
#[local] Existing Instance SnapshotExample.listing.
#[local] Existing Instance SnapshotExample.listing_laws.

(** A wallet with three voters, and a plain contract. *)
Definition voters0 : list Voter := [mkVoter "tann" 1; mkVoter "tbob" 2; mkVoter "tcid" 4].
Definition decode0 (text : string) : option (list Voter) := if String.eqb text "cw3" then Some voters0 else None.
Definition aust0 (addr : string) : Int := if String.eqb addr "twallet" then 7 else 0.
Definition bank0 : RefBank := mkRefBank {[("wallet", "uusd") := 100%N; ("wallet", "uluna") := 50%N]} ∅.
Definition contracts0 : ContractsMap :=
  {["twallet" := mkContractInfo "twallet" "tann" "" 1 "cw3"; "tpair" := mkContractInfo "tpair" "tann" "" 2 "pair"]}.
Definition before0 : SnapshotBalanceAggregateMap :=
  {["twallet" := [mkSB "uusd" (Some 100); mkSB "uluna" (Some 60); mkSB "aUST" (Some 7)];
    "tpair" := [mkSB "uluna" (Some 3)]]}.
Definition after0 : SnapshotBalanceAggregateMap :=
  {["twallet" := [mkSB "uusd" (Some 0); mkSB "uluna" (Some 10); mkSB "aUST" (Some 0)];
    "tann" := [mkSB "uusd" (Some 14); mkSB "uluna" (Some 7); mkSB "aUST" (Some 1)];
    "tbob" := [mkSB "uusd" (Some 28); mkSB "uluna" (Some 14); mkSB "aUST" (Some 2)];
    "tcid" := [mkSB "uusd" (Some 57); mkSB "uluna" (Some 28); mkSB "aUST" (Some 4)];
    "towner" := [mkSB "uluna" (Some 3)]]}.
Definition lines0 : list string := ["tpair,towner"].

Lemma after0_eq :
  ExportCW3 decode0 aust0 bank0 lines0 contracts0 before0 ∅ =
  Ok (after0, {["uusd" := ["twallet"]; "uluna" := ["twallet"]; "aUST" := ["twallet"]]}).
Proof. vm_compute. reflexivity. Qed.

Lemma wallets0 a voters : wallet decode0 contracts0 a voters -> a = "twallet" /\ voters = voters0.
Proof.
  intros (ci & Hci & Hd & _). unfold contracts0 in Hci.
  apply lookup_insert_Some in Hci as [[<- <-]|[_ [<- <-]%lookup_singleton_Some]].
  - by injection Hd as <-.
  - discriminate.
Qed.

Lemma cw3_split_conserves_witness :
  exists s2, mapKnownContracts lines0 s2 = Ok after0 /\ 97 <= total s2 "uusd" <= 100.
Proof.
  destruct (cw3_split_conserves decode0 aust0 bank0 lines0 contracts0 before0 ∅ _ _ after0_eq) as (_ & s2 & H1 & H2).
  - unfold before0, solid. repeat (apply map_Forall_insert_2; [by repeat constructor|]). apply map_Forall_empty.
  - unfold before0, collapsed. repeat (apply map_Forall_insert_2; [apply (bool_decide_unpack _); by vm_compute|]).
    apply map_Forall_empty.
  - intros a voters [-> ->]%wallets0. split; [|].
    + split; [apply (bool_decide_unpack _); by vm_compute|]. split; [by vm_compute|].
      repeat constructor; vm_compute; (reflexivity || discriminate).
    + intros d b Hf Hb. change (balances_of before0 "twallet") with
        [mkSB "uusd" (Some 100); mkSB "uluna" (Some 60); mkSB "aUST" (Some 7)].
      unfold find_balance in Hf. change (cw3_balances aust0 bank0 "twallet") with
        [("uusd", 100); ("uluna", 50); ("aUST", 7)] in Hf. cbn [List.find fst] in Hf.
      cbn [fmap list_fmap Denom]. rewrite !elem_of_cons.
      destruct (String.eqb_spec "uusd" d) as [<-|]; [by left|].
      destruct (String.eqb_spec "uluna" d) as [<-|]; [by right; left|].
      destruct (String.eqb_spec "aUST" d) as [<-|]; [by right; right; left|discriminate].
  - exists s2. split; [exact H1|]. specialize (H2 "uusd"). vm_compute in H2. vm_compute. exact H2.
Defined.

Definition moved0 : SnapshotBalanceAggregateMap := <["towner" := [mkSB "uluna" (Some 3)]]> (delete "tpair" before0).

Lemma moved0_eq : mapKnownContracts lines0 before0 = Ok moved0.
Proof. vm_compute. reflexivity. Qed.

Lemma known_contracts_moved_witness : total moved0 "uluna" = 63 /\ held moved0 "towner" "uluna" = 3.
Proof.
  destruct (known_contracts_moved lines0 before0 moved0 moved0_eq) as [H1 H2].
  - apply (bool_decide_unpack _). by vm_compute.
  - split; [rewrite H2; reflexivity|rewrite H1; reflexivity].
Defined.

(** A validator whose shares are worth a token each. *)
Definition bonded0 : SnapshotBalanceAggregateMap :=
  {["tann" := [mkSB "uluna" (Some 17)]; "tbob" := [mkSB "uluna" (Some 4)]]}.

Lemma bonded0_eq :
  ExportAllBondedLuna (fun v : string => v) (fun _ sh => Ok sh) ["vval"]
    [mkUnbonding "tann" [5; 2]; mkUnbonding AddressBLUNAHub [9]]
    [mkDelegation "tann" "vval" (10 * precision); mkDelegation "tbob" "vval" (4 * precision + 1);
     mkDelegation "tbob" "vgone" precision] ∅ =
  Ok (bonded0, {["uluna" := ["terra1fl48vsnmsdzcv85q5d2q4z5ajdha8yu3nln0mh"; "terra1tygms3xhhs3yv487phx3dw4a95jn7t7l8l07dr"]]}).
Proof. vm_compute. reflexivity. Qed.

Lemma bonded_luna_counted_witness : held bonded0 "tann" "uluna" = 17.
Proof.
  destruct (bonded_luna_counted (fun v : string => v) (fun _ sh => Ok sh) _ _ _ _ _ _ bonded0_eq) as [H _].
  rewrite H. vm_compute. reflexivity.
Defined.

Definition liquid0 : SnapshotBalanceAggregateMap := {["tann" := [mkSB "uusd" (Some 8)]]}.

Lemma liquid0_eq :
  ExportAllNativeBalances [("ann", mkCoin "uusd" 8); ("ann", mkCoin "ukrw" 5); ("bob", mkCoin "uluna" 0)] = Ok liquid0.
Proof. vm_compute. reflexivity. Qed.

Lemma native_balances_counted_witness : held liquid0 "tann" "uusd" = 8.
Proof. rewrite (native_balances_counted _ _ liquid0_eq). vm_compute. reflexivity. Defined.

Definition vested0 : SnapshotBalanceAggregateMap := {["tann" := [mkSB "uluna" (Some 60)]]}.
Definition vesting_store (addr : AccAddress) : list (string * string) :=
  if String.eqb addr "pair" then [("vesting_info", "{}")] else [].
Definition vesting0 (addr : string) : SingleVestingInfo := mkVestingInfo "ann" "" "uluna" (Some 100) (Some 40).
Definition infos0 : list ContractInfo :=
  [mkContractInfo "twallet" "tann" "" 1 "cw3"; mkContractInfo "tpair" "tann" "" 2 "pair"].

Lemma vested0_eq :
  ExportVestingContracts vesting_store vesting0 infos0 = Ok (vested0, contracts0).
Proof. vm_compute. reflexivity. Qed.

Lemma vesting_exported_witness : held vested0 "tann" "uluna" = 60.
Proof.
  destruct (vesting_exported vesting_store vesting0 infos0 vested0 contracts0 vested0_eq) as [_ H].
  rewrite H. vm_compute. reflexivity.
Defined.

End GenericExample.
