(* ===== verification/Export.v ===== *)
(** * The export of the contracts' balances ([src/app/export/contract_export.go])

    The pipeline that turns the state of the chain into the bank balances of the
    new genesis: the protocols, run through the cache, the staked and liquid
    balances, the staking derivatives, the contracts' own balances, and the final
    audit.  The exporters of the protocols are arguments, by the name of their
    cache file; the theorems hold whatever they answer. *)

From Stdlib Require Import ZArith Lia Bool.
From stdpp Require Import base strings list gmap sorting.
From S2P Require Import Prelude Loops Sdk SdkRef Snapshot ExportUtil Derivatives Holdings Generic.
Local Open Scope Z_scope.

(** [NewBlacklist]. *)
Definition NewBlacklist : Blacklist := {[DenomUST := []; DenomLUNA := []; DenomAUST := []]}.

(** [check] and [checkWithSs]. *)
Definition check {S T} (c : st S T) : st S T := fun s =>
  match c s with
  | (Err _, s') => (Panic, s')
  | r => r
  end.

Section export.
Context {M : SdkMath} {CO : SdkCoins} {R : GoRange} {A : Bech32} {B : Type} {BK : BankKeeper B} (bank : B).

(** The JSON library. *)
Context (marshal : SnapshotBalanceAggregateMap -> res string) (unmarshal : string -> res SnapshotBalanceAggregateMap).
Context (marshal3 : Map3 -> res string) (unmarshal3 : string -> res Map3).

(** The exporters and audits of the protocols. *)
Context (protocol : string -> Blacklist -> res SnapshotBalanceAggregateMap * Blacklist).
Context (dex : string -> Map3 -> Blacklist -> res SnapshotBalanceAggregateMap * Blacklist).
Context (compounder : string -> SnapshotBalanceAggregateMap -> res (Map3 * SnapshotBalanceAggregateMap)).
Context (audit : string -> SnapshotBalanceAggregateMap -> res unit) (audit_compounders : Map3 -> res unit).

(** The contracts of the staking derivatives ([Derivatives]). *)
Context (NewIntFromString : string -> option Int) (contract_store : AccAddress -> list (string * string)).
Context (cw20_balance : string -> string -> res Int) (total_supply : string -> res Int).
Context (vault_collaterals : res (list (string * string))) (lido_state : res LidoState).
Context (decode_unbonding : string -> res (option Int * option Int)) (prism_state : res PrismState).
Context (steak_rate lunax_rate : res Dec).

(** The contracts, vesting contracts and CW3 wallets ([Generic]). *)
Context (infos : list ContractInfo) (vesting_info : string -> SingleVestingInfo).
Context (decode_voters : string -> option (list Voter)) (aust_balance : string -> Int) (mapping : list string).

(** The height, and what the bank and the aUST contract answer to the audit. *)
Context (LastBlockHeight : Z) (SupplyOf : string -> res (option Int)) (aust_supply : option Int).

(** ** Compounders *)

(** [CachedMap3]: the cached snapshot is read and dropped. *)
Definition CachedMap3 (f : SnapshotBalanceAggregateMap -> res (Map3 * SnapshotBalanceAggregateMap))
    (filename : string) (snapshot : SnapshotBalanceAggregateMap)
    : st cache_state (Map3 * SnapshotBalanceAggregateMap) :=
  let ssPath := String.append filename "-snapshot" in
  cached ← gets (fun w => files w !! filename);
  ssData ← gets (fun w => files w !! ssPath);
  match cached, ssData with
  | Some _, Some text => lift (_ ← must (unmarshal text); Ok tt)
  | _, _ => mret tt
  end;;
  match unmarshal3 <$> cached with
  | Some (Ok lpHolding) => mret (lpHolding, snapshot)
  | _ =>
      '(lpHolding, snapshot) ← lift (f snapshot);
      out ← lift (marshal3 lpHolding);
      modify (write_file filename out);;
      ssOut ← lift (marshal snapshot);
      modify (write_file ssPath ssOut);;
      mret (lpHolding, snapshot)
  end.

(** [exportCompounders]. *)
Definition add_compounder (acc : Map3 * SnapshotBalanceAggregateMap) (filename : string)
    : st cache_state (Map3 * SnapshotBalanceAggregateMap) :=
  '(lps, snapshot) ← CachedMap3 (compounder filename) filename acc.2;
  mret (foldl (fun finalMap e => <[e.1 := e.2]> finalMap) acc.1 (range 70 lps), snapshot).

Definition exportCompounders (preAttack : bool) (snapshot : SnapshotBalanceAggregateMap)
    : st cache_state (Map3 * SnapshotBalanceAggregateMap) :=
  foldM add_compounder
    (["spectrum"; "apollo"] ++ (if preAttack then ["mars-field"] else []) ++
     ["mirror"; "mars-auction"; "astro-lockdrop"; "kinetic-lockdrop-lps"]) (∅, snapshot).

(** ** Protocols *)

Section protocols.
Context (contractMap : ContractsMap).

(** [SmartContractsAddresses]. *)
Definition contract_addresses : gmap string string := Address <$> contractMap.

Definition cached (filename : string) : st cache_state SnapshotBalanceAggregateMap :=
  check (CachedSBA contract_addresses marshal unmarshal (protocol filename) filename).

Definition cached_dex (filename : string) (lps : Map3) : st cache_state SnapshotBalanceAggregateMap :=
  check (CachedSBA contract_addresses marshal unmarshal (dex filename lps) filename).

Definition audited (filename : string) : st cache_state SnapshotBalanceAggregateMap :=
  ss ← cached filename;
  lift (must (audit filename ss));;
  mret ss.

(** [SaveToFile]; its error is dropped. *)
Definition SaveToFile (snapshot : SnapshotBalanceAggregateMap) (filename : string) : st cache_state unit := fun w =>
  match marshal snapshot with
  | Ok out => (Ok tt, write_file filename out w)
  | Err _ => (Ok tt, w)
  | Panic => (Panic, w)
  end.

(** The protocols of [ExportContracts], in its order, and their merge. *)
Definition export_protocols (preAttack : bool) : st cache_state SnapshotBalanceAggregateMap :=
  aUST ← cached "anchor";
  bLunaInCustody ← cached "anchor-bluna";
  '(compoundedLps, _) ← check (exportCompounders preAttack ∅);
  lift (must (audit_compounders compoundedLps));;
  astroportSnapshot ← cached_dex "astroport" compoundedLps;
  terraswapSnapshot ← cached_dex "terraswap" compoundedLps;
  loopSnapshot ← cached "loop";
  suberraSs ← audited "suberra";
  whiteWhaleSs ← audited "whitewhale";
  kujiraSs ← audited "kujira";
  prismSs ← audited "prism";
  prismLoSs ← audited "prism-limit-order";
  apertureSs ← cached (if preAttack then "aperture-pre" else "aperture-post");
  edgeSs ← audited "edge";
  mirrorSs ← audited "mirror-cdp";
  mirrorLoSs ← audited "mirror-limit-order";
  inkSs ← cached "ink";
  lunaXSs ← cached "stader";
  staderPoolSs ← cached "stader-pools";
  staderStakeSs ← cached "stader-stake-plus";
  staderVaultSs ← cached "stader-vaults";
  tfmFarmsSs ← cached "tfm-farm";
  tfmLpsSs ← cached "tfm-lp";
  angelSs ← cached "angel";
  randomEarthSs ← cached "radomearth";
  _ ← audited "starterra";
  starfletSs ← cached "starflet";
  pylonSs ← cached "pylon";
  marsSs ← audited "mars";
  flokiSs ← cached "floki";
  flokiRefundsSs ← cached "floki-refunds";
  nebulaSs ← cached "nebula";
  aliceSs ← cached "alice";
  kineticSs ← cached "kinetic";
  steakSs ← cached "steak";
  onePlanetSs ← cached "oneplanet";
  bl ← gets blacklist;
  let nexus := ExportNexus NewIntFromString contract_store cw20_balance total_supply vault_collaterals
                 astroportSnapshot bl in
  match nexus with Panic => lift Panic | _ => mret tt end;;
  glowSs ← cached "glow";
  SaveToFile (match nexus with Ok ss => ss | _ => ∅ end) "nexus";;
  nexusSs ← lift (must nexus);
  lift (MergeSnapshots
    [astroportSnapshot; terraswapSnapshot; loopSnapshot; suberraSs; whiteWhaleSs; kujiraSs; prismSs;
     prismLoSs; apertureSs; edgeSs; mirrorSs; mirrorLoSs; inkSs; lunaXSs; staderPoolSs; staderStakeSs;
     staderVaultSs; angelSs; randomEarthSs; starfletSs; flokiSs; flokiRefundsSs; nebulaSs; aliceSs;
     kineticSs; steakSs; nexusSs; marsSs; pylonSs; onePlanetSs; glowSs; tfmFarmsSs; tfmLpsSs; aUST;
     bLunaInCustody]).

(** The staked and liquid balances. *)
Definition register_luna (addr : string) : st cache_state unit :=
  modify (fun w => set_blacklist (RegisterAddress DenomLUNA addr (blacklist w)) w).

Definition export_native (snapshot vestingSs : SnapshotBalanceAggregateMap)
    : st cache_state SnapshotBalanceAggregateMap :=
  bondedLuna ← cached "bonded-luna";
  register_luna "terra1fl48vsnmsdzcv85q5d2q4z5ajdha8yu3nln0mh";;
  register_luna "terra1tygms3xhhs3yv487phx3dw4a95jn7t7l8l07dr";;
  nativeBalances ← cached "native-balance";
  snapshot ← lift (MergeSnapshots [snapshot; bondedLuna; nativeBalances; vestingSs]);
  bl ← gets blacklist;
  lift (ApplyBlackList snapshot bl).

End protocols.

(** ** Liquid staking *)

Definition export_liquid_staking (snapshot : SnapshotBalanceAggregateMap) : st cache_state SnapshotBalanceAggregateMap :=
  bl ← gets blacklist;
  s ← lift (must (ResolveToBLuna NewIntFromString total_supply vault_collaterals snapshot));
  SaveToFile s "after-nexus";;
  s ← lift (must (ExportBSTLunaHolders NewIntFromString contract_store s bl));
  SaveToFile s "lido";;
  s ← lift (must (ExportLidoRewards total_supply lido_state bank s bl));
  SaveToFile s "after-lido-rewards";;
  '(s, bl) ← lift (must (ResolveLidoLuna contract_store lido_state decode_unbonding s bl));
  modify (set_blacklist bl);;
  SaveToFile s "after-lido";;
  s ← lift (must (prism_ResolveToLuna prism_state s bl));
  SaveToFile s "after-prism";;
  s ← lift (must (ResolveSteakLuna steak_rate s));
  SaveToFile s "after-steak";;
  s ← lift (must (stader_ResolveToLuna lunax_rate s));
  SaveToFile s "after-stader";;
  mret s.

(** ** The end of the export *)

(** After the attack aUST counts as UST. *)
Definition aust_to_ust (sb : SnapshotBalance) : res SnapshotBalance :=
  Ok (if String.eqb (Denom sb) DenomAUST then mkSB DenomUST (Balance sb) else sb).

Definition derivatives : list string :=
  [DenomBLUNA; DenomSTLUNA; DenomSTEAK; DenomNLUNA; DenomCLUNA; DenomPLUNA; DenomLUNAX].

(** [finalAudit]: no derivatives, and the supplies; what the supply checks return
    is only logged. *)
Definition native_check (snapshot : SnapshotBalanceAggregateMap) (denom : string) : res unit :=
  holdings ← FilterByDenom snapshot denom;
  log_err (AssertNativeSupply (SupplyOf denom) holdings).

Definition finalAudit (preAttack : bool) (snapshot : SnapshotBalanceAggregateMap) : res unit :=
  iterM (AssertZeroSupply snapshot) (AUST :: derivatives);;
  if preAttack then
    aUstHoldings ← FilterByDenom snapshot DenomAUST;
    log_err (AssertCw20Supply aust_supply aUstHoldings);;
    native_check snapshot DenomLUNA
  else
    native_check snapshot DenomUST;;
    native_check snapshot DenomLUNA.

Definition export_final (preAttack : bool) (contractMap : ContractsMap) (snapshot : SnapshotBalanceAggregateMap)
    : st cache_state (list (string * list SnapshotBalance)) :=
  s ← lift (MergeSnapshots [∅; snapshot]);
  bl ← gets blacklist;
  '(finalSnapshot, bl) ←
    lift (must (HandleContractBalances decode_voters aust_balance bank mapping contractMap s bl));
  modify (set_blacklist bl);;
  finalSnapshot ← lift (if preAttack then Ok finalSnapshot else map_balances aust_to_ust finalSnapshot);
  SaveToFile finalSnapshot "before-remove-contracts";;
  let finalSnapshot := RemoveContractBalances finalSnapshot contractMap in
  lift (finalAudit preAttack finalSnapshot);;
  lift (ExportToBalances finalSnapshot).

(** [ExportContracts]. *)
Definition ExportContracts : st cache_state (list (string * list SnapshotBalance)) :=
  let preAttack := LastBlockHeight =? 7544910 in
  modify (set_blacklist NewBlacklist);;
  _ ← lift (PrepCtx LastBlockHeight);
  '(vestingSs, contractMap) ← lift (must (ExportVestingContracts contract_store vesting_info infos));
  snapshot ← export_protocols contractMap preAttack;
  snapshot ← export_native contractMap snapshot vestingSs;
  SaveToFile snapshot "after-protocols";;
  snapshot ← export_liquid_staking snapshot;
  export_final preAttack contractMap snapshot.

End export.

(** ** Theorems *)

Section free_facts.
Context {M : SdkMath} {ML : SdkMathLaws M} {R : GoRange} {RL : GoRangeLaws R} {A : Bech32}.

(** The steps of the export keep a snapshot free of a denomination. *)

Lemma free_of_insert d s a l : free_of d s -> d ∉ Denom <$> l -> free_of d (<[a := l]> s).
Proof.
  intros Hs Hl a'. unfold balances_of. destruct (decide (a = a')) as [<-|];
    [by rewrite lookup_insert_eq|rewrite lookup_insert_ne by done; apply Hs].
Qed.

Lemma free_of_delete d s a : free_of d s -> free_of d (delete a s).
Proof.
  intros Hs a'. unfold balances_of. destruct (decide (a = a')) as [<-|];
    [rewrite lookup_delete_eq; apply not_elem_of_nil|rewrite lookup_delete_ne by done; apply Hs].
Qed.

Lemma split_cw3_free {B} {BK : BankKeeper B} {CO : SdkCoins} decode aust (bank : B) acc e acc' d :
  d ∉ [DenomUST; DenomLUNA; DenomAUST] ->
  split_cw3 decode aust bank acc e = Ok acc' -> free_of d (cw3_snapshot acc) -> free_of d (cw3_snapshot acc').
Proof.
  intros Hd H Hs. unfold split_cw3 in H. destruct (decode (InitMsg e.2)) as [[|v vs]|]; go_inv; try done.
  revert Hv. apply (foldM_inv (free_of d)); [|done]. intros s v1 s' _ Hs1. unfold pay_voter.
  apply (foldM_inv (free_of d)); [|done]. intros s2 [k b] s3 Hin Hs2 H. go_inv.
  eapply AppendOrAddBalance_free; [exact H|done|]. cbn. intros ->. apply Hd.
  exact (list_elem_of_fmap_2 fst _ _ Hin).
Qed.

Lemma subtract_contract_free s e s' d : subtract_contract s e = Ok s' -> free_of d s -> free_of d s'.
Proof.
  unfold subtract_contract. destruct (s !! e.1) as [l|] eqn:E; intros H Hs; go_inv; [|done].
  apply subtract_list_Ok in Hv as [Hv _]. apply free_of_insert; [done|]. rewrite Hv.
  specialize (Hs e.1). unfold balances_of in Hs. by rewrite E in Hs.
Qed.

Lemma map_line_free acc line acc' d :
  map_line acc line = Ok acc' -> free_of d (known_snapshot acc) -> free_of d (known_snapshot acc').
Proof.
  unfold map_line. destruct (split_comma line) as [first [rest|]]; [|done]. intros H Hs. go_inv. cbn.
  apply free_of_delete. revert Hv. apply (foldM_inv (free_of d)); [|done]. intros s b s' Hb Hs1 H.
  eapply AppendOrAddBalance_free; [exact H|done|]. intros ->. apply (Hs _ (list_elem_of_fmap_2 Denom _ _ Hb)).
Qed.

Lemma HandleContractBalances_free {B} {BK : BankKeeper B} {CO : SdkCoins} decode aust (bank : B) lines contracts s bl s' bl' d :
  d ∉ [DenomUST; DenomLUNA; DenomAUST] ->
  HandleContractBalances decode aust bank lines contracts s bl = Ok (s', bl') -> free_of d s -> free_of d s'.
Proof.
  intros Hd H Hs. unfold HandleContractBalances, ExportCW3, mapKnownContracts in H. go_inv.
  eapply ApplyBlackList_free; [done|].
  apply (foldM_inv (fun acc => free_of d (known_snapshot acc))) in Hv5; [done|intros ? ? ? _ ? ?; by eapply map_line_free|].
  cbn. apply (foldM_inv (free_of d)) in Hv3; [done|intros ? ? ? _ ? ?; by eapply subtract_contract_free|].
  apply (foldM_inv (fun acc => free_of d (cw3_snapshot acc))) in Hv2; [done|intros ? ? ? _ ? ?; by eapply split_cw3_free|].
  cbn. eapply MergeSnapshots_free; [done|]. repeat constructor; [apply free_of_empty|done].
Qed.

Lemma RemoveContractBalances_free {V} s (contracts : gmap string V) d :
  free_of d s -> free_of d (RemoveContractBalances s contracts).
Proof.
  unfold RemoveContractBalances. revert s. induction (range 32 contracts) as [|e l IH]; intros s Hs; [done|].
  cbn [foldl]. apply IH. destruct (contractWhitelist !! e.1); [done|]. by apply free_of_delete.
Qed.

End free_facts.

Section export_facts.
Context {M : SdkMath} {ML : SdkMathLaws M} {CO : SdkCoins} {R : GoRange} {RL : GoRangeLaws R} {A : Bech32}.
Context {B : Type} {BK : BankKeeper B} (bank : B).
Context (marshal : SnapshotBalanceAggregateMap -> res string).
Context (NewIntFromString : string -> option Int) (contract_store : AccAddress -> list (string * string)).
Context (total_supply : string -> res Int).
Context (vault_collaterals : res (list (string * string))) (lido_state : res LidoState).
Context (decode_unbonding : string -> res (option Int * option Int)) (prism_state : res PrismState).
Context (steak_rate lunax_rate : res Dec).
Context (decode_voters : string -> option (list Voter)) (aust_balance : string -> Int) (mapping : list string).

Lemma SaveToFile_Ok s name w u w' : SaveToFile marshal s name w = (Ok u, w') -> blacklist w' = blacklist w.
Proof. unfold SaveToFile. by destruct (marshal s); intros [= _ <-]. Qed.

Lemma nexus_free s s' :
  ResolveToBLuna NewIntFromString total_supply vault_collaterals s = Ok s' -> free_of DenomNLUNA s'.
Proof. unfold ResolveToBLuna. intros H. go_inv. by apply resolve_free_from in H. Qed.

Lemma holders_free s bl s' d :
  ExportBSTLunaHolders NewIntFromString contract_store s bl = Ok s' ->
  DenomSTLUNA <> d -> DenomBLUNA <> d -> free_of d s -> free_of d s'.
Proof.
  unfold ExportBSTLunaHolders. intros H H1 H2 Hs. go_inv.
  eapply ApplyBlackList_free; [exact H|]. apply append_all_free; [|done].
  eapply ApplyBlackList_free; [exact Hv0|]. by apply append_all_free.
Qed.

Lemma rewards_free s bl s' d :
  ExportLidoRewards total_supply lido_state bank s bl = Ok s' -> free_of d s -> free_of d s'.
Proof. unfold ExportLidoRewards. intros H Hs. go_inv. by eapply ApplyBlackList_free. Qed.

Lemma lido_free s bl s' bl' d :
  ResolveLidoLuna contract_store lido_state decode_unbonding s bl = Ok (s', bl') ->
  DenomLUNA <> d -> d ∈ [DenomBLUNA; DenomSTLUNA] \/ free_of d s -> free_of d s'.
Proof.
  unfold ResolveLidoLuna. intros H Hd Hs. go_inv. apply append_all_free; [|done].
  eapply map_balances_free; [|eassumption]. intros a b b' Hb H.
  apply resolve_lido_Ok in H as (H1 & H2 & H3 & _). destruct Hs as [Hs|Hs].
  - rewrite !elem_of_cons in Hs. pose proof (not_elem_of_nil d). intuition congruence.
  - destruct H3 as [->| ->]; [|done]. eapply free_of_elem; [|exact Hb]. by eapply ApplyBlackList_free.
Qed.

Lemma prism_free s bl s' d :
  prism_ResolveToLuna prism_state s bl = Ok s' ->
  DenomLUNA <> d -> d ∈ [DenomPLUNA; DenomCLUNA] \/ free_of d s -> free_of d s'.
Proof.
  unfold prism_ResolveToLuna. intros H Hd Hs. go_inv.
  destruct (decide (d = DenomCLUNA)) as [->|Hc]; [by apply resolve_free_from in H|].
  eapply resolve_free_other; [exact H| |done]. eapply ApplyBlackList_free; [eassumption|].
  eapply map_balances_free; [|eassumption]. intros a b b' Hb [= <-].
  destruct (String.eqb_spec (Denom b) DenomPLUNA) as [E|E]; [by cbn; congruence|].
  destruct Hs as [Hs|Hs].
  - rewrite !elem_of_cons in Hs. pose proof (not_elem_of_nil d). intuition congruence.
  - eapply free_of_elem; [|exact Hb]. by eapply ApplyBlackList_free.
Qed.

(** Resolving the derivatives in the order of the export leaves none. *)
Lemma liquid_staking_free s w s' w' d :
  export_liquid_staking bank marshal NewIntFromString contract_store total_supply vault_collaterals lido_state
    decode_unbonding prism_state steak_rate lunax_rate s w = (Ok s', w') ->
  d ∈ derivatives -> free_of d s'.
Proof.
  unfold export_liquid_staking. intros H Hd. go_inv.
  unfold ResolveSteakLuna in Hv10. unfold stader_ResolveToLuna in Hv12. go_inv.
  assert (DenomLUNA <> d) as Hl by (intros <-; revert Hd; by apply (bool_decide_unpack _); vm_compute).
  unfold derivatives in Hd. rewrite !elem_of_cons in Hd. pose proof (not_elem_of_nil d) as Hn.
  assert (d = DenomLUNAX \/ d = DenomSTEAK \/ free_of d v7) as Hx.
  { destruct (decide (d = DenomLUNAX)); [by left|]. destruct (decide (d = DenomSTEAK)); [by right; left|].
    right; right. eapply prism_free; [exact Hv8|done|]. rewrite !elem_of_cons.
    destruct (decide (d = DenomPLUNA)); [left; by left|]. destruct (decide (d = DenomCLUNA)); [left; right; by left|].
    right. eapply lido_free; [exact Hv6|done|]. rewrite !elem_of_cons.
    destruct (decide (d = DenomBLUNA)); [left; by left|]. destruct (decide (d = DenomSTLUNA)); [left; right; by left|].
    right. eapply rewards_free; [exact Hv4|]. eapply holders_free; [exact Hv2|congruence..|].
    replace d with DenomNLUNA by (symmetry; tauto). by eapply nexus_free. }
  destruct (decide (d = DenomLUNAX)) as [->|]; [eapply resolve_free_from; [|eassumption]; done|].
  eapply resolve_free_other; [eassumption| |done].
  destruct (decide (d = DenomSTEAK)) as [->|]; [eapply resolve_free_from; [|eassumption]; done|].
  eapply resolve_free_other; [eassumption| |done]. tauto.
Qed.

(** *** The end of the export *)

Lemma aust_to_ust_free s s' d :
  map_balances aust_to_ust s = Ok s' -> DenomUST <> d -> free_of d s -> free_of d s'.
Proof.
  intros H Hd Hs. eapply map_balances_free; [|exact H]. intros a b b' Hb [= <-].
  destruct (String.eqb (Denom b) DenomAUST); [done|]. by eapply free_of_elem.
Qed.

Lemma derivative_other d : d ∈ derivatives -> d ∉ [DenomUST; DenomLUNA; DenomAUST].
Proof.
  revert d. apply Forall_forall. apply (bool_decide_unpack _). by vm_compute.
Qed.

(** The checks for staking derivatives in the final audit always pass: once
    the derivatives are resolved, no step up to the audit brings one back. *)
Theorem derivative_checks_pass s w s1 w1 contracts merged bl final bl' :
  export_liquid_staking bank marshal NewIntFromString contract_store total_supply vault_collaterals lido_state
    decode_unbonding prism_state steak_rate lunax_rate s w = (Ok s1, w1) ->
  MergeSnapshots [∅; s1] = Ok merged ->
  HandleContractBalances decode_voters aust_balance bank mapping contracts merged bl = Ok (final, bl') ->
  forall final', final' = final \/ map_balances aust_to_ust final = Ok final' ->
  iterM (AssertZeroSupply (RemoveContractBalances final' contracts)) derivatives = Ok tt.
Proof.
  intros Hl Hm Hh final' Hf. apply iterM_Ok, Forall_forall. intros d Hd.
  apply AssertZeroSupply_free, RemoveContractBalances_free. pose proof (derivative_other d Hd) as Ho.
  assert (free_of d final) as Hx.
  { eapply HandleContractBalances_free; [exact Ho|exact Hh|]. eapply MergeSnapshots_free; [exact Hm|].
    repeat constructor; [apply free_of_empty|by eapply liquid_staking_free]. }
  destruct Hf as [->|Hf]; [done|]. eapply aust_to_ust_free; [exact Hf| |done]. intros <-. apply Ho. left.
Qed.

Context (SupplyOf : string -> res (option Int)) (aust_supply : option Int).

(** What the export hands to the audit. *)
Lemma export_final_Ok preAttack contracts s w balances w' :
  export_final bank marshal decode_voters aust_balance mapping SupplyOf aust_supply preAttack contracts s w
    = (Ok balances, w') ->
  exists s0 final, final = RemoveContractBalances s0 contracts /\
  (forall d, d ∈ derivatives -> free_of d s -> free_of d final) /\
  finalAudit SupplyOf aust_supply preAttack final = Ok tt /\ ExportToBalances final = Ok balances.
Proof.
  unfold export_final. intros H. go_inv. rename v1 into s0. exists s0, (RemoveContractBalances s0 contracts).
  split; [done|]. split; [|destruct v3; done]. intros d Hd Hs. apply RemoveContractBalances_free.
  pose proof (derivative_other d Hd) as Ho. assert (free_of d x) as Hx.
  { eapply HandleContractBalances_free; [exact Ho|eassumption|]. eapply MergeSnapshots_free; [eassumption|].
    repeat constructor; [apply free_of_empty|done]. }
  destruct preAttack; [by injection Hv2 as <-|]. eapply aust_to_ust_free; [eassumption| |done].
  intros <-. apply Ho. left.
Qed.

Lemma native_check_Ok s denom x :
  native_check SupplyOf s denom = Ok tt -> SupplyOf denom = Ok (Some x) ->
  2000000 <= Z.abs (x - total s denom).
Proof.
  unfold native_check. intros H Hx. go_inv. apply FilterByDenom_Ok in Hv as [_ <-]. rewrite Hx in H.
  unfold AssertNativeSupply in H. cbn in H. pose proof (Sum_no_err v) as Hne.
  destruct (Sum v) as [z|e|] eqn:Hs; cbn in H; [|by destruct (Hne e)|done].
  apply Sum_Ok in Hs as ->. destruct (decide (Z.abs (x - map_sum v) < int_bound)) as [Hb|Hb].
  - rewrite AlmostEqual_Ok in H by done. destruct (Z.ltb_spec (Z.abs (x - map_sum v)) 2000000); [done|lia].
  - unfold int_bound in Hb. lia.
Qed.

Lemma finalAudit_luna preAttack s x u :
  finalAudit SupplyOf aust_supply preAttack s = Ok u -> SupplyOf DenomLUNA = Ok (Some x) ->
  2000000 <= Z.abs (x - total s DenomLUNA).
Proof.
  unfold finalAudit. intros H Hx. destruct u, preAttack; go_inv; by eapply native_check_Ok.
Qed.

Lemma ExportToBalances_Ok s balances :
  ExportToBalances s = Ok balances ->
  NoDup balances.*1 /\ (forall d, sumZ (fun e => held_list e.2 d) balances = total s d) /\
  forall a l, (a, l) ∈ balances -> (forall d, free_of d s -> d ∉ Denom <$> l) /\ is_Some (s !! a).
Proof.
  unfold ExportToBalances. intros H. go_inv. rename v into merged. pose proof (range_perm 26 _ merged) as Hp.
  split; [rewrite Hp; apply NoDup_fst_map_to_list|]. split.
  - intros d. rewrite Hp. fold (total merged d). destruct (MergeSnapshots_held _ _ Hv) as [_ ->].
    rewrite sumZ_cons, sumZ_nil. lia.
  - intros a l Hin. rewrite Hp, elem_of_map_to_list in Hin. split.
    + intros d Hs. apply MergeSnapshots_free with (d := d) in Hv; [|by repeat constructor].
      specialize (Hv a). unfold balances_of in Hv. by rewrite Hin in Hv.
    + apply (MergeSnapshots_addresses _ _ a) in Hv; [|by eexists]. apply Exists_cons in Hv as [Hv|Hv]; [done|inversion Hv].
Qed.

Section whole.
Context (unmarshal : string -> res SnapshotBalanceAggregateMap).
Context (marshal3 : Map3 -> res string) (unmarshal3 : string -> res Map3).
Context (protocol : string -> Blacklist -> res SnapshotBalanceAggregateMap * Blacklist).
Context (dex : string -> Map3 -> Blacklist -> res SnapshotBalanceAggregateMap * Blacklist).
Context (compounder : string -> SnapshotBalanceAggregateMap -> res (Map3 * SnapshotBalanceAggregateMap)).
Context (audit : string -> SnapshotBalanceAggregateMap -> res unit) (audit_compounders : Map3 -> res unit).
Context (cw20_balance : string -> string -> res Int).
Context (infos : list ContractInfo) (vesting_info : string -> SingleVestingInfo) (LastBlockHeight : Z).

Local Abbreviation export := (ExportContracts bank marshal unmarshal marshal3 unmarshal3 protocol dex compounder audit
  audit_compounders NewIntFromString contract_store cw20_balance total_supply vault_collaterals lido_state
  decode_unbonding prism_state steak_rate lunax_rate infos vesting_info decode_voters aust_balance mapping
  LastBlockHeight SupplyOf aust_supply).

Lemma ExportContracts_Ok w balances w' :
  export w = (Ok balances, w') ->
  exists preAttack s0 final, final = RemoveContractBalances s0 (IterateAllContracts infos ∅) /\
  (forall d, d ∈ derivatives -> free_of d final) /\
  finalAudit SupplyOf aust_supply preAttack final = Ok tt /\ ExportToBalances final = Ok balances.
Proof.
  unfold ExportContracts. intros H. go_inv. unfold ExportVestingContracts in Hv1. go_inv.
  apply export_final_Ok in H as (s3 & final & Hf & Hd & Ha & He).
  exists (LastBlockHeight =? 7544910), s3, final. split; [done|]. split; [|done].
  intros d Hin. apply Hd; [done|]. by eapply liquid_staking_free.
Qed.

(** C3. The genesis the export produces has no staking derivatives and no
    contracts: every address is listed once, none of its balances is in bLUNA,
    stLUNA, STEAK, nLUNA, cLUNA, pLUNA or LunaX, and it is not the address of a
    contract, unless it is one of the whitelisted bridges; whatever the protocols'
    exporters answer, and whatever is in the cache. *)
Theorem exported_balances_clean w balances w' :
  export w = (Ok balances, w') ->
  NoDup balances.*1 /\
  forall a l, (a, l) ∈ balances ->
    (forall d, d ∈ derivatives -> d ∉ Denom <$> l) /\
    (is_Some (IterateAllContracts infos ∅ !! a) -> is_Some (contractWhitelist !! a)).
Proof.
  intros H. apply ExportContracts_Ok in H as (pre & s0 & final & -> & Hd & _ & He).
  apply ExportToBalances_Ok in He as (Hn & _ & Hb). split; [done|]. intros a l Hin.
  destruct (Hb _ _ Hin) as [Hfree Ha]. split; [by auto|]. intros [ci Hci].
  rewrite RemoveContractBalances_lookup, Hci in Ha. destruct (contractWhitelist !! a); [done|].
  by apply is_Some_None in Ha.
Qed.

(** C40. An export only completes when its LUNA does not match the supply: the
    exported LUNA then differs from the supply of the bank by at least the
    tolerance of the audit, since the audit panics on a match and logs a
    mismatch. *)
Theorem export_needs_mismatch w balances w' supply :
  export w = (Ok balances, w') -> SupplyOf DenomLUNA = Ok (Some supply) ->
  2000000 <= Z.abs (supply - sumZ (fun e => held_list e.2 DenomLUNA) balances).
Proof.
  intros H Hs. apply ExportContracts_Ok in H as (pre & s0 & final & -> & _ & Ha & He).
  apply ExportToBalances_Ok in He as (_ & Ht & _). rewrite Ht. by eapply finalAudit_luna.
Qed.

End whole.

End export_facts.

(** ** The theorems on concrete inputs *)

Module ExportExample.

#[local] Existing Instance ref_math.
#[local] Existing Instance ref_coins.
#[local] Existing Instance ref_bech32.
#[local] Existing Instance SnapshotExample.listing.
#[local] Existing Instance SnapshotExample.listing_laws.

(** A chain with one holder of LUNA and derivatives, and a pair that holds LUNA. *)
Definition holdings : SnapshotBalanceAggregateMap :=
  {["tann" := [mkSB "uluna" (Some 10); mkSB "ubluna" (Some 3); mkSB "upluna" (Some 2)];
    "tpair" := [mkSB "uluna" (Some 70)]]}.
Definition protocol0 (name : string) (bl : Blacklist) : res SnapshotBalanceAggregateMap * Blacklist :=
  (Ok (if String.eqb name "native-balance" then holdings else ∅), bl).
Definition marshal0 (s : SnapshotBalanceAggregateMap) : res string := Ok "snapshot".
Definition unmarshal0 (text : string) : res SnapshotBalanceAggregateMap := Err (Errorf "unexpected").
Definition marshal30 (m : Map3) : res string := Ok "map".
Definition unmarshal30 (text : string) : res Map3 := Err (Errorf "unexpected").
Definition dex0 (name : string) (m : Map3) (bl : Blacklist) : res SnapshotBalanceAggregateMap * Blacklist := (Ok ∅, bl).
Definition compounder0 (name : string) (s : SnapshotBalanceAggregateMap)
    : res (Map3 * SnapshotBalanceAggregateMap) := Ok (∅, s).
Definition rate0 : Dec := 2000000000000000000.
Definition parse0 (text : string) : option Int := Some 1.
Definition store0 (addr : AccAddress) : list (string * string) := [].
Definition vesting0 (addr : string) : SingleVestingInfo := mkVestingInfo "" "" "" None None.
Definition supply0 (denom : string) : res (option Int) := Ok (Some 5000000).
Definition empty : cache_state := mkCache ∅ [] ∅.

Definition liquid0 :=
  export_liquid_staking (mkRefBank ∅ ∅) marshal0 parse0 store0 (fun _ => Ok 1) (Ok [("", "1")])
    (Ok (mkLidoState rate0 rate0 1 1)) (fun _ => Ok (Some 0, Some 0)) (Ok (mkPrismState rate0 0)) (Ok rate0) (Ok rate0).

Definition export0 :=
  ExportContracts (mkRefBank ∅ ∅) marshal0 unmarshal0 marshal30 unmarshal30 protocol0 dex0 compounder0
    (fun _ _ => Ok tt) (fun _ => Ok tt) parse0 store0 (fun _ _ => Ok 1) (fun _ => Ok 1) (Ok [("", "1")])
    (Ok (mkLidoState rate0 rate0 1 1)) (fun _ => Ok (Some 0, Some 0)) (Ok (mkPrismState rate0 0)) (Ok rate0) (Ok rate0)
    [mkContractInfo "tpair" "" "" 1 ""] vesting0 (fun _ => None) (fun _ => 0) [] 7790000 supply0 None.

Definition balances0 : list (string * list SnapshotBalance) := [("tann", [mkSB "uluna" (Some 20)])].

Lemma export0_eq : export0 empty = (Ok balances0, (export0 empty).2).
Proof. vm_compute. reflexivity. Qed.

Lemma exported_balances_clean_witness : "ubluna" ∉ Denom <$> [mkSB "uluna" (Some 20)].
Proof.
  pose proof (exported_balances_clean (mkRefBank ∅ ∅) marshal0 parse0 store0 (fun _ => Ok 1) (Ok [("", "1")])
    (Ok (mkLidoState rate0 rate0 1 1)) (fun _ => Ok (Some 0, Some 0)) (Ok (mkPrismState rate0 0)) (Ok rate0) (Ok rate0)
    (fun _ => None) (fun _ => 0) [] supply0 None unmarshal0 marshal30 unmarshal30 protocol0 dex0 compounder0
    (fun _ _ => Ok tt) (fun _ => Ok tt) (fun _ _ => Ok 1) [mkContractInfo "tpair" "" "" 1 ""] vesting0 7790000
    empty balances0 _ export0_eq) as [_ H].
  apply (H "tann" [mkSB "uluna" (Some 20)]); [left|]. left.
Defined.

Lemma export_needs_mismatch_witness : 2000000 <= Z.abs (5000000 - 20).
Proof.
  exact (export_needs_mismatch (mkRefBank ∅ ∅) marshal0 parse0 store0 (fun _ => Ok 1) (Ok [("", "1")])
    (Ok (mkLidoState rate0 rate0 1 1)) (fun _ => Ok (Some 0, Some 0)) (Ok (mkPrismState rate0 0)) (Ok rate0) (Ok rate0)
    (fun _ => None) (fun _ => 0) [] supply0 None unmarshal0 marshal30 unmarshal30 protocol0 dex0 compounder0
    (fun _ _ => Ok tt) (fun _ => Ok tt) (fun _ _ => Ok 1) [mkContractInfo "tpair" "" "" 1 ""] vesting0 7790000
    empty balances0 _ 5000000 export0_eq eq_refl).
Defined.

Definition resolved0 : SnapshotBalanceAggregateMap :=
  {["tann" := [mkSB "uluna" (Some 10); mkSB "uluna" (Some 6); mkSB "uluna" (Some 4)];
    "tpair" := [mkSB "uluna" (Some 70)]]}.
Definition merged0 : SnapshotBalanceAggregateMap :=
  {["tann" := [mkSB "uluna" (Some 20)]; "tpair" := [mkSB "uluna" (Some 70)]]}.
Definition contracts0 : ContractsMap := {["tpair" := mkContractInfo "tpair" "" "" 1 ""]}.

Lemma resolved0_eq : liquid0 holdings empty = (Ok resolved0, (liquid0 holdings empty).2).
Proof. vm_compute. reflexivity. Qed.

Lemma merged0_eq : MergeSnapshots [∅; resolved0] = Ok merged0.
Proof. vm_compute. reflexivity. Qed.

Lemma handled0_eq :
  HandleContractBalances (fun _ => None) (fun _ => 0) (mkRefBank ∅ ∅) [] contracts0 merged0 ∅ = Ok (merged0, ∅).
Proof. vm_compute. reflexivity. Qed.

Lemma derivative_checks_pass_witness :
  iterM (AssertZeroSupply (RemoveContractBalances merged0 contracts0)) derivatives = Ok tt.
Proof.
  exact (derivative_checks_pass (mkRefBank ∅ ∅) marshal0 parse0 store0 (fun _ => Ok 1) (Ok [("", "1")])
    (Ok (mkLidoState rate0 rate0 1 1)) (fun _ => Ok (Some 0, Some 0)) (Ok (mkPrismState rate0 0)) (Ok rate0) (Ok rate0)
    (fun _ => None) (fun _ => 0) [] holdings empty resolved0 _ contracts0 merged0 ∅ merged0 ∅
    resolved0_eq merged0_eq handled0_eq merged0 (or_introl eq_refl)).
Defined.

End ExportExample.
